(* ===== verification/_CoqProject ===== *)
-Q . S2P
Prelude.v
Text.v
Host.v
Types.v
ShadowTypes.v
MarketData.v
DataQuality.v
Risk.v
PaperOrder.v
Accounting.v
Lifecycle.v
Reconcile.v
Ingest.v
Strategy.v
PaperStore.v
RiskState.v
Pipeline.v
StrategyStore.v
ShadowRun.v
Readiness.v
StrategyRequest.v
Diagnose.v
Replay.v
Experiment.v
WalkForward.v
ResearchTypes.v
JobSchedule.v
Candidate.v
ShadowRunner.v
ShadowTick.v
CandidateApi.v
ShadowPnl.v
Qualification.v
Session.v
