(* ===== verification/Prelude.v ===== *)
(** * Aegis Quant: verification of the trading core

    Aegis Quant is a Rust workspace (crates/ under src/) for paper trading on
    Binance market data.  Market trades and REST klines become candles
    (market-ingest); stored 1m candles are aggregated, checked for gaps and
    repaired (core); strategies turn closed candles into buy signals
    (strategy-engine); a signal passes the risk rules (risk-engine), becomes a
    paper order (core) whose fills and closes move the books (accounting), or an
    order on the exchange's testnet whose state is driven by acknowledgements,
    private-stream reports and REST reconciliation (exchange, api, db).  The
    replay engine runs strategies over stored candles.  This library models those
    parts as executable functions and proves what makes each of them correct.

    ** Files, in dependency order

    Shared:
    - [Prelude]: outcomes of a Rust function ([res]: [Ok], [Err], [Panic]),
      [for] loops with [?] ([fold_res]), machine integers, slices, stable sorting,
      [BTreeMap] with integer keys, [Iterator::max]/[min], tables with a primary
      key ([find_key], [rewrite_key]), the hint database [aegis].
    - [Text]: the string functions of the Rust standard library that are used.
    - [Host]: the libraries outside the repository, as classes with laws and one
      instance of each for the witnesses: [Decimal] (rust_decimal), [Chrono],
      [ChronoArith] and [ChronoSeconds] (chrono), [Json], [JsonRead], [JsonBuild],
      [JsonScalars] (serde_json), [UuidText] and [UuidLib] (uuid).
    - [Types], [ShadowTypes]: crates/core/src/lib.rs, every enumeration with its
      persisted text and its parser ([FromStr] with the laws of the parsers), and
      [CoreError]; [ResearchTypes]: those of crates/core/src/research.rs.

    Market data:
    - [MarketData]: intervals, candles, [aggregate_closed_1m_candles] (core).
    - [DataQuality]: continuity report, repair plan, quality classification (core).
    - [Ingest]: candle builder, backfill planner, kline decoding (market-ingest).

    Trading:
    - [Risk]: configuration, the ten rules ([RuleContract] is what a rule owes
      the evaluator), [RiskEvaluator::evaluate] (risk-engine, core).
    - [PaperOrder]: the paper order state machine (core).
    - [Accounting]: fills, closes, mark to market (accounting).
    - [Lifecycle]: the testnet order state machine, its writers, repairs
      (exchange, api/exchange_reconcile.rs, testnet-private-stream.rs, db).
    - [Reconcile]: a reconciliation run over the listed orders, its counters,
      mismatches and end (api/exchange_reconcile.rs), on top of [Lifecycle].
    - [Strategy]: the nine strategies and [evaluate] (strategy-engine).
    - [PaperStore]: signals, decisions, paper orders and the paper account in
      their tables, [create_paper_order], the booking of fills, the close of a
      position (db, api/lib.rs); a small error-and-state monad over the tables,
      [keeps] for what an operation leaves alone, and the class [Database] for
      what PostgreSQL decides.
    - [RiskState]: [load_risk_state_snapshot], what the rules are told (db).
    - [Pipeline]: [run_paper_pipeline] (api/pipeline.rs): [Strategy], [Risk],
      [PaperOrder] and [Accounting] composed over [PaperStore].
    - [StrategyStore]: the default configurations, how a configuration is stored,
      versioned and read back, and who fills the table (strategy-engine, db, api).
    - [ShadowRun]: [run_testnet_shadow_once], the pipeline without its order, from
      the request to the recorded row (api/testnet_shadow.rs); [ShadowTick]: the
      runner around it, its two rows, controls and ticks
      (api/testnet_shadow_runner.rs).
    - [Readiness]: [compute_execution_readiness] (api/readiness.rs).

    Configuration and simulation:
    - [StrategyRequest]: [validate_strategy_config]; [Diagnose]: [diagnose]
      (strategy-engine).
    - [Replay]: [simulate_backtest] (replay-engine), on top of [Strategy].
    - [Experiment]: parameter grids and their ranking; [WalkForward]: windows, runs
      and their statistics (core, replay-engine).

    Research candidates (core/research.rs, api/main.rs, db/research.rs):
    - [Candidate]: creation gate, lifecycle, acceptance preview; [ShadowRunner]:
      observations and the runner's coverage; [CandidateApi]: the handlers that
      move a candidate, over their store; [ShadowPnl]: what shadow signals would
      have earned; [Qualification]: the score and verdict of a candidate.
    - [JobSchedule]: the scheduled research jobs, their claims, backoff, ticks and
      controls (api/scheduled_research.rs, db/research.rs).

    Access:
    - [Session]: roles and routes, login, refresh and logout over the tables of
      users and sessions (api/main.rs, api/auth.rs, db/lib.rs); the cryptography is
      the class [AuthLib].

    Names are those of the source; a method [T::f] is [T_f] where the bare name is
    taken, and the fields of a struct carry a short prefix.  Each file's opening
    comment gives the lines it models; every definition is written after the Rust
    item of the same name.

    ** How the code is read

    - Money is [Decimal].  Comparison is that of the denoted rationals; the four
      operations are parameters whose results are the exact ones, rounded
      monotonically to 28 digits, with representable numbers, among them the value of
      every decimal, unchanged ([DecimalLaws]).  Everything is proved under rounding:
      sums of money as equalities of decimals, in the order in which the code adds,
      together with a bound on the distance from the exact sum ([near], [ulp]).
      Overflow of the 96-bit mantissa (a panic in Rust) is outside.
    - [i32] counters wrap ([i32_add]), as in a release build; theorems that need
      the exact count bound the input by the [i32] range.
    - Time is an integer number of nanoseconds.  [Utc::now()] and [Uuid::new_v4()]
      are arguments; a function that draws several identifiers takes a supply.
    - A failed [expect], an index or slice out of range and a division by zero are
      [Panic]; theorems on errors say when a run panics, not only what it returns.
    - Loops are structural folds, except two: the cursor loop of the backfill
      planner carries as fuel the number of pages a window can need, the loop over
      walk-forward windows the number of steps that fit the range; both are proved
      sufficient (neither runs out).
    - SQL rows are values and a table is the list of its rows in the order of
      insertion.  A statement is a function of the tables; it fails by a unique
      index (a NUMERIC out of range is outside).  What ran before an error stays
      written, unless it was in a transaction, which writes all or nothing.  Where
      the code ignores the failure of a statement, the failure is modelled: a query
      of the risk snapshot ([RiskState]), the insertion of a candidate's event
      ([CandidateApi]), the revocation of a logout ([Session]), the end of a job's
      run ([JobSchedule]).  Runs do not interleave, except where a file says so:
      [CandidateApi] interleaves the statements of any number of calls, [JobSchedule]
      and [Session] let other sessions run any sequence of statements in the middle
      of a call, and all three prove that every call is itself such a sequence; a
      shadow run links to a candidate only if that is still promoted when the link
      is written ([ShadowRun]).

    ** What the theorems show

    - Risk: an order is approved exactly when every limit holds, each rejection
      reason stands for the breach it names, tightening limits never approves
      more, configuration validation is exactly its documented specification.
    - Orders: a paper order follows its state machine, its time stamps agree with
      its log, at most four moves succeed and terminal states are final; a
      testnet order is submitted at most once; reconciliation always leaves event
      and row in agreement; an unchanged exchange status makes it oscillate;
      terminal states are reopened through UNKNOWN_EXCHANGE_STATE; repairs are
      confined to the state their action names; a reconciliation run accounts for
      every order it asked for and leaves it as the exchange says.
    - The pipeline: a run orders only for an enabled strategy on a fresh feed, with
      the kill switch off and a risk snapshot within every limit, and the tables are
      what the snapshot says where its queries did not fail; it writes at most one order
      and books nothing without one.  Creating an order is specified on every
      branch.  Of the limits, three do not work as meant (findings): the count of
      open positions is always zero, every loss counts twice, and a losing streak
      is never longer than two.
    - The shadow runner: a run says WOULD_SUBMIT only for a signal that passed
      every gate, and touches neither orders nor books; the runner's calls keep its
      rows valid; a stop during a tick is undone (a finding).
    - Scheduled jobs: a job that keeps failing is executed at most as often as the
      policy allows and then paused; when a job is due next is exactly specified;
      claims exclude each other; an interval beyond the range of durations wedges
      its job (a finding).
    - Access: which request passes is exactly specified; a revoked session is never
      authorised or refreshed again, a refresh token works once; a viewer cannot
      log out, a disabled user can refresh, a logout that fails says it worked
      (findings).
    - Readiness: a target is ready exactly when its listed requirements hold; the
      status agrees with the one the core derives from the same checks.
    - Configurations: what a request may store is exactly specified; the row of a
      configuration reads back; a row that cannot be read is stuck; the API keeps
      stored configurations and the shadow runner resets them (findings).
    - Research: a candidate is created exactly on its evidence, each decision and
      confirmation is accepted exactly under its conditions, history and rows
      agree however the calls interleave, as far as their events were stored, and
      the score of a qualification is the sum of its deductions.
    - Books: over any sequence of fills and closes realised, unrealised and total
      equity balance, to the last digit as decimals and within a bound of the exact
      sums; opening costs are charged twice on a round trip (a finding); drawdown
      stays between 0 and 1.
    - Data: aggregates are exactly the OHLCV of complete buckets and do not
      depend on delivery order; gaps are reported exactly; the repair plan covers
      what it reports; an expected interval beyond the range of durations panics (a
      finding); streaming candles summarise exactly the accepted trades;
      backfill pages partition the window.
    - Strategies: a valid configuration always gets an answer, except for the
      zero-lookback panics; every signal is a buy on the latest closed candle
      above the confidence floor; only the most recent [required_candle_count]
      closed candles matter; momentum signals exactly on rising closes.
    - Backtests: books balance (as above), every signal is accounted for by one
      reason, no step looks past the entry candle; with entries on the next candle
      trades are sequential and a cooldown apart, with confirmation candles they
      need not be; percentage stop losses never fire (findings).

    Each theorem with a hypothesis is followed, in the Module [*Sample] of its
    file, by a closed instance on concrete data.

    ** Not modelled

    Input and output, where there is nothing to compute: HTTP routing and
    rendering, the command line, the exchange and market-data clients with their
    signatures, WebSocket connections, telemetry, migrations, the dashboard, and
    the statements of the database that only read or list.  Reports: operator
    reports, the opportunity analysis, the exit and feature attributions, the
    robustness matrix and the multi-timeframe comparison turn stored rows into
    text and rankings that nothing acts on.  The research programme over several
    runs (batches, campaigns, regimes, hypotheses, cross-asset research, the work
    of the scheduled jobs): it is as large again as what is modelled, orders
    nothing, and reaches the trading core only through the candidates, whose
    lifecycle is modelled.  Order-book and derivatives features are collected and
    not yet read by a strategy. *)

From Stdlib Require Import ZArith Lia List Permutation Sorted.
From stdpp Require Import base list strings.

#[local] Open Scope Z_scope.

(** ** Outcomes of a Rust function

    [Ok]/[Err] are the two constructors of [Result]; [Panic] is the run that
    unwinds: a failed [expect], an index or a slice out of range, a division
    of a [Decimal] by zero. *)
Inductive res (E A : Type) : Type :=
  | Ok (a : A)
  | Err (e : E)
  | Panic.
Arguments Ok {E A} a.
Arguments Err {E A} e.
Arguments Panic {E A}.

#[export] Instance res_ret E : MRet (res E) := fun _ a => Ok a.
#[export] Instance res_bind E : MBind (res E) := fun _ _ f m =>
  match m with Ok a => f a | Err e => Err e | Panic => Panic end.

Definition is_ok {E A} (m : res E A) : bool :=
  match m with Ok _ => true | _ => false end.

(** The run returns (a value or an error): it does not unwind. *)
Definition returns {E A} (m : res E A) : Prop := m <> Panic.

(** [opt.expect(..)], [opt.ok_or(e)?] and [result.ok()]. *)
Definition expect {E A} (o : option A) : res E A :=
  match o with Some a => Ok a | None => Panic end.
Definition ok_or {E A} (o : option A) (e : E) : res E A :=
  match o with Some a => Ok a | None => Err e end.
Definition ok {E A} (m : res E A) : option A :=
  match m with Ok a => Some a | _ => None end.

(** [for x in xs] with [?] inside the body: the state is threaded and the first
    error (or panic) leaves the loop. *)
Fixpoint fold_res {E S A} (f : S -> A -> res E S) (s : S) (xs : list A) : res E S :=
  match xs with
  | [] => Ok s
  | x :: xs => match f s x with Ok s' => fold_res f s' xs | Err e => Err e | Panic => Panic end
  end.

Section Res.
Context {E : Type}.

Lemma bind_ok_inv {A B} (m : res E A) (f : A -> res E B) b :
  mbind f m = Ok b -> exists a, m = Ok a /\ f a = Ok b.
Proof. destruct m; cbn; try discriminate; eauto. Qed.

Lemma bind_returns {A B} (m : res E A) (f : A -> res E B) :
  returns m -> (forall a, m = Ok a -> returns (f a)) -> returns (mbind f m).
Proof. unfold returns. destruct m; cbn; try congruence; eauto. Qed.

Lemma fold_res_app {S A} (f : S -> A -> res E S) xs ys s :
  fold_res f s (xs ++ ys) = mbind (fun s' => fold_res f s' ys) (fold_res f s xs).
Proof.
  revert s; induction xs as [|x xs IH]; intros s; cbn; [done|].
  destruct (f s x); cbn; auto.
Qed.

(** A loop whose body cannot fail on the elements of the list is a plain fold. *)
Lemma fold_res_pure {S A} (f : S -> A -> res E S) (g : S -> A -> S) xs s :
  (forall st x, In x xs -> f st x = Ok (g st x)) -> fold_res f s xs = Ok (foldl g s xs).
Proof.
  revert s; induction xs as [|x xs IH]; intros s Hf; cbn; [done|].
  rewrite Hf by (by left). apply IH. intros; apply Hf. by right.
Qed.

(** The loop rule: an invariant of the processed prefix. *)
Lemma fold_res_inv {S A} (f : S -> A -> res E S) (I : list A -> S -> Prop) xs s s' :
  I [] s ->
  (forall pre x st st', (exists post, xs = pre ++ x :: post) ->
     I pre st -> f st x = Ok st' -> I (pre ++ [x]) st') ->
  fold_res f s xs = Ok s' -> I xs s'.
Proof.
  intros H0 Hstep.
  enough (forall post pre st, xs = pre ++ post -> I pre st ->
            fold_res f st post = Ok s' -> I xs s') by (intros; eapply (H xs []); eauto).
  induction post as [|x post IH]; intros pre st Hxs HI; cbn.
  - intros [= ->]. rewrite app_nil_r in Hxs. by subst.
  - destruct (f st x) as [st'| |] eqn:Hf; try discriminate. intros Hrun.
    eapply (IH (pre ++ [x])); [by rewrite <- app_assoc| |exact Hrun].
    eapply Hstep; eauto.
Qed.

Lemma fold_res_total {S A} (f : S -> A -> res E S) xs s :
  (forall st x, In x xs -> exists st', f st x = Ok st') -> exists s', fold_res f s xs = Ok s'.
Proof.
  revert s; induction xs as [|x xs IH]; intros s H; cbn; [by exists s|].
  destruct (H s x (or_introl eq_refl)) as [s' ->]. apply IH. intros st y Hy. apply H. by right.
Qed.

Lemma fold_res_returns {S A} (f : S -> A -> res E S) (I : S -> Prop) xs s :
  I s -> (forall st x, In x xs -> I st -> returns (f st x) /\
                       forall st', f st x = Ok st' -> I st') ->
  returns (fold_res f s xs).
Proof.
  revert s; induction xs as [|x xs IH]; intros s Hs Hf; cbn; [discriminate|].
  destruct (Hf s x (or_introl eq_refl) Hs) as [Hr Hn].
  destruct (f s x) eqn:E1; [|discriminate|done].
  apply IH; [by apply Hn|]. intros; apply Hf; [by right|done].
Qed.
End Res.

(** Peel the binds of a run that returned [Ok]. *)
Ltac res_inv :=
  repeat match goal with
  | H : mbind _ _ = Ok _ |- _ =>
      apply bind_ok_inv in H; let a := fresh "v" in let E := fresh "Hv" in
      destruct H as (a & E & H)
  | H : Ok _ = Ok _ |- _ => injection H as H
  | H : Err _ = Ok _ |- _ => discriminate H
  | H : Panic = Ok _ |- _ => discriminate H
  | H : Ok _ = Err _ |- _ => discriminate H
  | H : Ok _ = Panic |- _ => discriminate H
  | H : mret _ = Ok _ |- _ => unfold mret, res_ret in H
  end.

(** Case analysis on the boolean tests of a definition, with the arithmetic
    reading of each test. *)
Ltac bool_to_prop :=
  repeat match goal with
  | H : (_ && _)%bool = true |- _ => apply andb_prop in H; destruct H
  | H : (_ || _)%bool = false |- _ => apply orb_false_elim in H; destruct H
  | H : (_ <? _) = true |- _ => apply Z.ltb_lt in H
  | H : (_ <? _) = false |- _ => apply Z.ltb_ge in H
  | H : (_ <=? _) = true |- _ => apply Z.leb_le in H
  | H : (_ <=? _) = false |- _ => apply Z.leb_gt in H
  | H : (_ =? _) = true |- _ => apply Z.eqb_eq in H
  | H : (_ =? _) = false |- _ => apply Z.eqb_neq in H
  | H : negb _ = true |- _ => apply negb_true_iff in H
  | H : negb _ = false |- _ => apply negb_false_iff in H
  end.

Ltac case_tests :=
  repeat match goal with
  | |- context [if ?b then _ else _] => let H := fresh "Htest" in destruct b eqn:H
  end.

(** ** Machine integers *)

Definition i32_max : Z := 2 ^ 31 - 1.
Definition i64_max : Z := 2 ^ 63 - 1.

(** Two's-complement wrap-around of [i32] arithmetic (release profile). *)
Definition wrap_i32 (z : Z) : Z := (z + 2 ^ 31) mod 2 ^ 32 - 2 ^ 31.
Definition i32_add (a b : Z) : Z := wrap_i32 (a + b).

Lemma wrap_i32_id z : - 2 ^ 31 <= z < 2 ^ 31 -> wrap_i32 z = z.
Proof. intros H. unfold wrap_i32. rewrite Z.mod_small; lia. Qed.

Lemma wrap_i32_range z : - 2 ^ 31 <= wrap_i32 z < 2 ^ 31.
Proof. unfold wrap_i32. pose proof (Z.mod_pos_bound (z + 2 ^ 31) (2 ^ 32)). lia. Qed.

(** [i32::try_from(z)]. *)
Definition i32_try_from (z : Z) : option Z :=
  if (- 2 ^ 31 <=? z) && (z <=? i32_max) then Some z else None.

(** [a.saturating_sub(b)] on [i64]. *)
Definition i64_saturating_sub (a b : Z) : Z := Z.max (- 2 ^ 63) (Z.min i64_max (a - b)).

(** ** Slices *)

(** [v[i]] and [&v[a..b]]: out of range panics. A [usize] subtraction that
    underflows panics in a debug build; in a release build it wraps to a value
    above every length and the indexing that uses it panics. *)
Definition index {E A} (v : list A) (i : nat) : res E A := expect (v !! i).
Definition usize_sub {E} (a b : nat) : res E nat :=
  if (b <=? a)%nat then Ok (a - b)%nat else Panic.
Definition slice {E A} (v : list A) (a b : nat) : res E (list A) :=
  if ((a <=? b) && (b <=? length v))%nat then Ok (firstn (b - a) (skipn a v)) else Panic.

(** [v.windows(2)]. *)
Definition pairs {A} (v : list A) : list (A * A) := zip v (tail v).

Lemma pairs_cons {A} (a b : A) l : pairs (a :: b :: l) = (a, b) :: pairs (b :: l).
Proof. done. Qed.

Lemma index_lookup {E A} (v : list A) i x : @index E A v i = Ok x <-> v !! i = Some x.
Proof. unfold index. destruct (v !! i); cbn; split; congruence. Qed.

Lemma usize_sub_ok {E} a b n : @usize_sub E a b = Ok n <-> (b <= a /\ n = a - b)%nat.
Proof.
  unfold usize_sub.
  destruct (Nat.leb_spec b a); split; try discriminate; try intros [= <-];
    try (intros [? ->]); try lia; done.
Qed.

Lemma slice_ok {E A} (v : list A) a b w :
  @slice E A v a b = Ok w <->
  (a <= b <= length v)%nat /\ w = firstn (b - a) (skipn a v).
Proof.
  unfold slice. destruct (Nat.leb_spec a b), (Nat.leb_spec b (length v)); cbn;
    split; try discriminate; try intros [= <-]; try (intros [? ->]); try lia; done.
Qed.

(** ** Stable sorting: [slice::sort_by], [sort_by_key]

    Rust's [sort] family is stable; an insertion sort computes the same list. *)
Section Sort.
Context {A : Type} (leb : A -> A -> bool).

Fixpoint insert_sorted (x : A) (l : list A) : list A :=
  match l with
  | [] => [x]
  | y :: l' => if leb x y then x :: y :: l' else y :: insert_sorted x l'
  end.

Definition sort_by (l : list A) : list A := foldr insert_sorted [] l.

Lemma insert_sorted_perm x l : Permutation (insert_sorted x l) (x :: l).
Proof.
  induction l as [|y l IH]; cbn; [done|].
  destruct (leb x y); [done|]. rewrite IH. apply perm_swap.
Qed.

Lemma sort_by_perm l : Permutation (sort_by l) l.
Proof. induction l as [|x l IH]; cbn; [done|]. by rewrite insert_sorted_perm, IH. Qed.

Lemma sort_by_length l : length (sort_by l) = length l.
Proof. apply Permutation_length, sort_by_perm. Qed.

Lemma in_sort_by x l : In x (sort_by l) <-> In x l.
Proof.
  split; apply Permutation_in; [apply sort_by_perm|symmetry; apply sort_by_perm].
Qed.

Hypothesis leb_total : forall x y, leb x y = false -> leb y x = true.
Hypothesis leb_trans : forall x y z, leb x y = true -> leb y z = true -> leb x z = true.
Abbreviation le := (fun x y => leb x y = true).

Lemma insert_sorted_sorted x l : StronglySorted le l -> StronglySorted le (insert_sorted x l).
Proof.
  induction 1 as [|y l Hs IH Hy]; cbn; [repeat constructor|].
  destruct (leb x y) eqn:Hxy.
  - constructor; [by constructor|]. constructor; [done|].
    eapply Forall_impl; [exact Hy|]. cbn; eauto.
  - constructor; [done|]. rewrite Forall_forall in Hy |- *. intros z Hz.
    apply list_elem_of_In in Hz.
    apply (Permutation_in _ (insert_sorted_perm x l)) in Hz as [<-|Hz]; [by apply leb_total|].
    apply Hy. by apply list_elem_of_In.
Qed.

Lemma sort_by_sorted l : StronglySorted le (sort_by l).
Proof. induction l; cbn; [constructor|]. by apply insert_sorted_sorted. Qed.

Lemma sort_by_id l : StronglySorted le l -> sort_by l = l.
Proof.
  induction 1 as [|x l Hs IH Hx]; [done|].
  change (sort_by (x :: l)) with (insert_sorted x (sort_by l)). rewrite IH.
  destruct l as [|y l]; cbn; [done|]. inversion Hx as [|? ? Hxy]; subst. by rewrite Hxy.
Qed.

(** With an antisymmetric order on the elements, the sorted list depends on
    the multiset only. *)
Lemma sorted_unique l1 l2 :
  (forall x y, In x l1 -> In y l1 -> leb x y = true -> leb y x = true -> x = y) ->
  Permutation l1 l2 -> StronglySorted le l1 -> StronglySorted le l2 -> l1 = l2.
Proof.
  revert l2; induction l1 as [|x l1 IH]; intros l2 Hanti Hp Hs1 Hs2.
  { by apply Permutation_nil in Hp. }
  destruct l2 as [|y l2]; [by apply Permutation_sym, Permutation_nil in Hp|].
  assert (x = y) as <-.
  { inversion Hs1 as [|? ? _ Hx]; inversion Hs2 as [|? ? _ Hy]; subst.
    rewrite Forall_forall in Hx, Hy.
    assert (In y (x :: l1)) as [|Hyl]
      by (eapply Permutation_in; [by symmetry|by left]); [done|].
    assert (In x (y :: l2)) as [|Hxl] by (eapply Permutation_in; [exact Hp|by left]); [done|].
    apply Hanti; [by left|by right|..].
    - apply Hx. by apply list_elem_of_In.
    - apply Hy. by apply list_elem_of_In. }
  f_equal. apply IH.
  - intros; apply Hanti; try (by right); done.
  - by eapply Permutation_cons_inv.
  - by inversion Hs1.
  - by inversion Hs2.
Qed.
End Sort.

(** ** Comparators: [Ordering], [then_with], and the closures of [sort_by] *)

(** [a.then_with(|| b)] *)
Definition then_with (a b : comparison) : comparison := match a with Eq => b | _ => a end.

Definition not_greater {A} (order : A -> A -> comparison) (left right : A) : bool :=
  match order left right with Gt => false | _ => true end.

(** A comparison whose "not greater" is a total preorder. *)
Record total_preorder {A} (order : A -> A -> comparison) : Prop := {
  tp_opp : forall x y, order y x = CompOpp (order x y);
  tp_trans : forall x y z, order x y <> Gt -> order y z <> Gt -> order x z <> Gt
}.

Lemma order_eq_trans {A} (order : A -> A -> comparison) x y z :
  total_preorder order -> order x y = Eq -> order x z = order y z.
Proof.
  intros [Ho Ht] H.
  pose proof (Ht x y z) as H1. pose proof (Ht y x z) as H2. pose proof (Ht z y x) as H3.
  pose proof (Ht z x y) as H4. rewrite (Ho x y), H in *. rewrite (Ho x z), (Ho y z) in *.
  destruct (order x z), (order y z); cbn in *; try done; exfalso;
    first [by apply H1 | by apply H2 | by apply H3 | by apply H4].
Qed.

Lemma then_with_preorder {A} (f g : A -> A -> comparison) :
  total_preorder f -> total_preorder g ->
  total_preorder (fun x y => then_with (f x y) (g x y)).
Proof.
  intros Hf Hg. split.
  - intros x y. rewrite (tp_opp _ Hf), (tp_opp _ Hg). by destruct (f x y), (g x y).
  - intros x y z Hxy Hyz. destruct (f x y) eqn:E1; cbn in Hxy; [|clear Hxy|done].
    + rewrite (order_eq_trans f x y z Hf E1). destruct (f y z); cbn in *; [|done|done].
      by apply (tp_trans _ Hg x y z).
    + destruct (f y z) eqn:E2; cbn in Hyz; [|clear Hyz|done].
      * assert (f z y = Eq) as E3 by (by rewrite (tp_opp _ Hf), E2).
        rewrite (tp_opp _ Hf), (order_eq_trans f z y x Hf E3), <- (tp_opp _ Hf), E1. done.
      * destruct (f x z) eqn:E3; cbn; try done; exfalso.
        -- rewrite (order_eq_trans f x z y Hf E3), (tp_opp _ Hf), E2 in E1. done.
        -- apply (tp_trans _ Hf x y z); congruence.
Qed.

Lemma flip_preorder {A} (order : A -> A -> comparison) :
  total_preorder order -> total_preorder (fun x y => order y x).
Proof.
  intros H. split; [intros x y; apply (tp_opp _ H)|].
  intros x y z Hxy Hyz. by apply (tp_trans _ H z y x).
Qed.

Lemma on_preorder {A B} (order : B -> B -> comparison) (f : A -> B) :
  total_preorder order -> total_preorder (fun x y => order (f x) (f y)).
Proof. intros H. split; [intros; apply (tp_opp _ H)|intros x y z; apply (tp_trans _ H)]. Qed.

Lemma compare_preorder : total_preorder Z.compare.
Proof. split; [intros; apply Z.compare_antisym|intros x y z; rewrite !Z.compare_le_iff; lia]. Qed.

Lemma not_greater_total {A} (order : A -> A -> comparison) : total_preorder order ->
  forall x y, not_greater order x y = false -> not_greater order y x = true.
Proof. intros H x y. unfold not_greater. rewrite (tp_opp _ H x y). by destruct (order x y). Qed.

Lemma not_greater_iff {A} (order : A -> A -> comparison) x y :
  not_greater order x y = true <-> order x y <> Gt.
Proof. unfold not_greater. by destruct (order x y). Qed.

Lemma not_greater_trans {A} (order : A -> A -> comparison) : total_preorder order ->
  forall x y z, not_greater order x y = true -> not_greater order y z = true ->
    not_greater order x z = true.
Proof. intros H x y z. rewrite !not_greater_iff. apply (tp_trans _ H). Qed.

Lemma NoDup_map_inj {A B} (key : A -> B) l x y :
  NoDup (map key l) -> In x l -> In y l -> key x = key y -> x = y.
Proof.
  induction l as [|z l IH]; cbn; [done|]. intros [Hz Hnd]%NoDup_cons Hx Hy E.
  rewrite list_elem_of_In in Hz. destruct Hx as [->|Hx], Hy as [->|Hy]; auto.
  - exfalso. apply Hz. rewrite E. by apply in_map.
  - exfalso. apply Hz. rewrite <- E. by apply in_map.
Qed.

(** SQL's [COALESCE(new, old)]. *)
Definition coalesce {A} (new old : option A) : option A :=
  match new with Some _ => new | None => old end.

(** [iter.find_map(f)] *)
Fixpoint find_map {A B} (f : A -> option B) (l : list A) : option B :=
  match l with
  | [] => None
  | x :: l => match f x with Some y => Some y | None => find_map f l end
  end.

(** The rows of a table with an integer primary key: the row of a key, and the rows after
    [UPDATE .. WHERE id = $1]. *)
Definition find_key {A} (key : A -> Z) (id : Z) (rows : list A) : option A :=
  List.find (fun row => key row =? id) rows.
Definition rewrite_key {A} (key : A -> Z) (id : Z) (change : A -> A) (rows : list A) : list A :=
  map (fun row => if key row =? id then change row else row) rows.

Section KeyedRows.
Context {A : Type} (key : A -> Z).

Lemma rewrite_key_keys id change rows :
  (forall row, key (change row) = key row) -> map key (rewrite_key key id change rows) = map key rows.
Proof.
  intros Hkey. unfold rewrite_key. rewrite map_map. apply map_ext. intros row.
  destruct (_ =? id); [apply Hkey|done].
Qed.

Lemma find_key_rewrite id change rows id' :
  (forall row, key (change row) = key row) ->
  find_key key id' (rewrite_key key id change rows) =
  option_map (fun row => if id' =? id then change row else row) (find_key key id' rows).
Proof.
  intros Hkey. unfold find_key, rewrite_key. induction rows as [|row rows IH]; [done|].
  cbn [map List.find]. destruct (Z.eqb_spec (key row) id) as [Heq|Hne].
  - rewrite Hkey, IH. destruct (Z.eqb_spec (key row) id') as [Heq'|]; [|done].
    cbn. rewrite (proj2 (Z.eqb_eq id' id)) by congruence. done.
  - destruct (Z.eqb_spec (key row) id') as [Heq'|]; [|exact IH].
    cbn. rewrite (proj2 (Z.eqb_neq id' id)) by congruence. done.
Qed.

Lemma find_key_some id rows row : find_key key id rows = Some row -> In row rows /\ key row = id.
Proof. intros [Hin Heq]%List.find_some. split; [done|]. by apply Z.eqb_eq. Qed.

Lemma find_key_none id rows : find_key key id rows = None <-> ~ In id (map key rows).
Proof.
  split.
  - intros Hnone (row & <- & Hin)%in_map_iff.
    pose proof (List.find_none _ _ Hnone _ Hin) as Hne. cbn in Hne. by apply Z.eqb_neq in Hne.
  - intros Hout. destruct (find_key key id rows) as [row|] eqn:Hrow; [|done].
    apply find_key_some in Hrow as [Hin <-]. destruct Hout. by apply in_map.
Qed.

Lemma find_key_app id rows row :
  find_key key id (rows ++ [row]) =
  match find_key key id rows with
  | Some found => Some found
  | None => if key row =? id then Some row else None
  end.
Proof.
  unfold find_key. induction rows as [|row' rows IH]; cbn; [done|]. by destruct (key row' =? id).
Qed.

Lemma in_rewrite_key id change rows row :
  In row (rewrite_key key id change rows) ->
  In row rows \/ exists row0, In row0 rows /\ key row0 = id /\ row = change row0.
Proof.
  unfold rewrite_key. intros (row0 & Heq & Hin)%in_map_iff.
  destruct (Z.eqb_spec (key row0) id); subst; eauto.
Qed.
End KeyedRows.

Definition sort_by_key {A} (key : A -> Z) : list A -> list A :=
  sort_by (fun x y => key x <=? key y).

Section SortByKey.
Context {A : Type} (key : A -> Z).

Lemma sort_by_key_sorted l : StronglySorted (fun x y => key x <= key y) (sort_by_key key l).
Proof.
  assert (StronglySorted (fun x y => (key x <=? key y) = true) (sort_by_key key l)) as H.
  { apply sort_by_sorted; intros *; rewrite ?Z.leb_gt, ?Z.leb_le; lia. }
  induction H; constructor; auto. eapply Forall_impl; [exact H0|].
  cbn; intros; lia.
Qed.

Lemma sort_by_key_perm l : Permutation (sort_by_key key l) l.
Proof. apply sort_by_perm. Qed.

Lemma sort_by_key_id l :
  StronglySorted (fun x y => key x <= key y) l -> sort_by_key key l = l.
Proof.
  intros H. apply sort_by_id. induction H; constructor; auto.
  eapply Forall_impl; [exact H0|]. cbn; intros. by apply Z.leb_le.
Qed.

(** Distinct keys: the sorted list is a function of the set of elements. *)
Lemma sort_by_key_permutation l1 l2 :
  Permutation l1 l2 -> NoDup (map key l1) -> sort_by_key key l1 = sort_by_key key l2.
Proof.
  intros Hp Hnd.
  apply (sorted_unique (fun x y => key x <=? key y)).
  - intros x y Hx Hy Hxy Hyx. rewrite Z.leb_le in Hxy, Hyx.
    assert (Hin : forall z, In z (sort_by_key key l1) -> In z l1)
      by (intros z; apply Permutation_in, sort_by_key_perm).
    apply Hin in Hx, Hy. apply (NoDup_map_inj key l1); try done. lia.
  - unfold sort_by_key. rewrite !sort_by_perm. done.
  - apply sort_by_sorted; intros *; rewrite ?Z.leb_gt, ?Z.leb_le; lia.
  - apply sort_by_sorted; intros *; rewrite ?Z.leb_gt, ?Z.leb_le; lia.
Qed.
End SortByKey.

(** [v.is_empty()] *)
Definition vec_is_empty {A} (v : list A) : bool := match v with [] => true | _ => false end.
Lemma vec_is_empty_iff {A} (v : list A) : vec_is_empty v = true <-> v = [].
Proof. by destruct v. Qed.

(** ** Ordered sets: [BTreeSet<T>], as the ordered list of its elements *)
Section OrderedSet.
Context {A : Type} (rank : A -> Z).
Hypothesis rank_inj : forall x y, rank x = rank y -> x = y.

Fixpoint set_insert (x : A) (l : list A) : list A :=
  match l with
  | [] => [x]
  | y :: l' =>
      if rank x <? rank y then x :: l
      else if rank x =? rank y then l
      else y :: set_insert x l'
  end.

Lemma in_set_insert x y l : In y (set_insert x l) <-> y = x \/ In y l.
Proof using rank_inj.
  induction l as [|z l IH]; cbn [set_insert In]; [intuition congruence|].
  destruct (Z.ltb_spec (rank x) (rank z)); [cbn [In]; intuition congruence|].
  destruct (Z.eqb_spec (rank x) (rank z)) as [E|_].
  - apply rank_inj in E as ->. cbn [In]. intuition congruence.
  - cbn [In]. rewrite IH. intuition congruence.
Qed.

Lemma set_insert_sorted x l :
  StronglySorted (fun a b => rank a < rank b) l ->
  StronglySorted (fun a b => rank a < rank b) (set_insert x l).
Proof using rank_inj.
  induction 1 as [|z l Hs IH Hz]; cbn [set_insert]; [repeat constructor|].
  rewrite Forall_forall in Hz.
  destruct (Z.ltb_spec (rank x) (rank z)).
  - constructor; [constructor; [done|by apply Forall_forall]|].
    constructor; [done|]. apply Forall_forall. intros y Hy. specialize (Hz y Hy). lia.
  - destruct (Z.eqb_spec (rank x) (rank z)) as [E|E]; [constructor; [done|by apply Forall_forall]|].
    constructor; [done|]. apply Forall_forall. intros y Hy. apply list_elem_of_In, in_set_insert in Hy.
    destruct Hy as [->|Hy]; [lia|]. apply Hz. by apply list_elem_of_In.
Qed.

(** The elements a list contributes, inserted in its order. *)
Definition set_collect {B} (f : B -> option A) (l : list B) : list A :=
  foldl (fun set b => match f b with Some a => set_insert a set | None => set end) [] l.

Lemma in_set_collect {B} (f : B -> option A) l y :
  In y (set_collect f l) <-> exists b, In b l /\ f b = Some y.
Proof using rank_inj.
  unfold set_collect. transitivity (In y [] \/ exists b, In b l /\ f b = Some y).
  2:{ split; [by intros [[]|]|by right]. }
  generalize (@nil A). induction l as [|b l IH]; intros s; cbn [foldl In].
  { split; [by left|]. by intros [|(? & [] & _)]. }
  rewrite IH. clear IH. destruct (f b) as [a|] eqn:E.
  - rewrite in_set_insert. split.
    + intros [[->|Hy]|(b' & Hb & Hf)]; [right; exists b; auto|by left|right; exists b'; auto].
    + intros [Hy|(b' & [<-|Hb] & Hf)]; [auto|left; left; congruence|right; by exists b'].
  - split.
    + intros [Hy|(b' & Hb & Hf)]; [by left|right; exists b'; auto].
    + intros [Hy|(b' & [<-|Hb] & Hf)]; [by left|congruence|right; by exists b'].
Qed.

Lemma set_collect_sorted {B} (f : B -> option A) l :
  StronglySorted (fun a b => rank a < rank b) (set_collect f l).
Proof using rank_inj.
  unfold set_collect. assert (StronglySorted (fun a b => rank a < rank b) []) as H by constructor.
  revert H. generalize (@nil A). induction l as [|b l IH]; intros s Hs; cbn [foldl]; [done|].
  apply IH. destruct (f b); [by apply set_insert_sorted|done].
Qed.
End OrderedSet.

(** ** Ordered maps: [BTreeMap<K, V>] with integer keys

    The entries in ascending key order; [btree_update k f m] is
    [f(m.entry(k))] stored back. *)
Section BTree.
Context {V : Type}.

Fixpoint btree_update (k : Z) (f : option V -> V) (m : list (Z * V)) : list (Z * V) :=
  match m with
  | [] => [(k, f None)]
  | (k', v) :: m' =>
      if k <? k' then (k, f None) :: m
      else if k =? k' then (k, f (Some v)) :: m'
      else (k', v) :: btree_update k f m'
  end.

Fixpoint btree_get (k : Z) (m : list (Z * V)) : option V :=
  match m with
  | [] => None
  | (k', v) :: m' => if k =? k' then Some v else btree_get k m'
  end.

Definition btree_ok (m : list (Z * V)) : Prop := StronglySorted Z.lt (map fst m).

Lemma btree_update_keys k f m :
  forall x, In x (map fst (btree_update k f m)) <-> x = k \/ In x (map fst m).
Proof.
  induction m as [|[k' v] m IH]; intros x; cbn; [intuition auto|].
  destruct (Z.ltb_spec k k'); cbn; [intuition auto|].
  destruct (Z.eqb_spec k k'); cbn; [subst; intuition auto|].
  rewrite IH. intuition auto.
Qed.

Lemma btree_update_ok k f m : btree_ok m -> btree_ok (btree_update k f m).
Proof.
  unfold btree_ok. induction m as [|[k' v] m IH]; cbn; intros Hs; [repeat constructor|].
  inversion Hs as [|? ? Hs' Hk]; subst.
  destruct (Z.ltb_spec k k'); cbn.
  - constructor; [done|]. constructor; [done|].
    eapply Forall_impl; [exact Hk|]. cbn; lia.
  - destruct (Z.eqb_spec k k'); cbn; [by subst|].
    constructor; [by apply IH|]. apply Forall_forall. intros x Hx.
    rewrite list_elem_of_In, btree_update_keys in Hx.
    destruct Hx as [->|Hx]; [lia|].
    rewrite Forall_forall in Hk. apply Hk. by apply list_elem_of_In.
Qed.

Lemma btree_get_update_eq k f m :
  btree_ok m -> btree_get k (btree_update k f m) = Some (f (btree_get k m)).
Proof.
  unfold btree_ok. induction m as [|[k' v] m IH]; cbn; intros Hs.
  { by rewrite Z.eqb_refl. }
  inversion Hs as [|? ? Hs' Hk]; subst.
  destruct (Z.ltb_spec k k').
  - cbn. rewrite Z.eqb_refl. destruct (Z.eqb_spec k k'); [lia|].
    f_equal. f_equal. symmetry. clear -Hk H.
    induction m as [|[k2 v2] m IH]; [done|]. cbn in *. inversion Hk; subst.
    destruct (Z.eqb_spec k k2); [lia|auto].
  - destruct (Z.eqb_spec k k'); cbn.
    + by rewrite Z.eqb_refl.
    + destruct (Z.eqb_spec k k'); [lia|]. by apply IH.
Qed.

Lemma btree_get_update_ne k k1 f m :
  k <> k1 -> btree_get k1 (btree_update k f m) = btree_get k1 m.
Proof.
  intros Hne. induction m as [|[k' v] m IH]; cbn.
  { destruct (Z.eqb_spec k1 k); [lia|done]. }
  destruct (Z.ltb_spec k k'); cbn.
  - destruct (Z.eqb_spec k1 k); [lia|done].
  - destruct (Z.eqb_spec k k'); cbn.
    + subst. destruct (Z.eqb_spec k1 k'); [lia|done].
    + by rewrite IH.
Qed.

Lemma btree_get_in k v m : btree_ok m -> btree_get k m = Some v <-> In (k, v) m.
Proof.
  unfold btree_ok. induction m as [|[k' v'] m IH]; cbn; intros Hs; [done|].
  inversion Hs as [|? ? Hs' Hk]; subst. specialize (IH Hs').
  destruct (Z.eqb_spec k k').
  - subst. split; [intros [= ->]; by left|].
    intros [[= ->]|Hin]; [done|]. exfalso.
    rewrite Forall_forall in Hk.
    assert (k' < k') by (apply Hk, list_elem_of_In, in_map_iff; by exists (k', v)). lia.
  - rewrite IH. split; [by right|]. intros [[= -> ->]|?]; [lia|done].
Qed.
End BTree.

(** Two maps that agree, up to [R], on every key have the same entries up to [R]. *)
Lemma btree_forall2 {V W} (R : V -> W -> Prop) (m : list (Z * V)) (m' : list (Z * W)) :
  btree_ok m -> btree_ok m' ->
  (forall k, option_Forall2 R (btree_get k m) (btree_get k m')) ->
  Forall2 (fun e e' => fst e = fst e' /\ R (snd e) (snd e')) m m'.
Proof.
  unfold btree_ok. revert m'.
  assert (Hnone : forall X (l : list (Z * X)) k, Forall (Z.lt k) (map fst l) -> btree_get k l = None).
  { clear. intros X l k. induction l as [|[k' x] l IH]; cbn; [done|]. intros H. inversion H; subst.
    destruct (Z.eqb_spec k k'); [lia|auto]. }
  induction m as [|[k v] m IH]; intros m' Hs Hs' Hget.
  - destruct m' as [|[k' v'] m']; [constructor|].
    specialize (Hget k'). cbn in Hget. rewrite Z.eqb_refl in Hget. inversion Hget.
  - destruct m' as [|[k' v'] m'].
    { specialize (Hget k). cbn in Hget. rewrite Z.eqb_refl in Hget. inversion Hget. }
    cbn in Hs, Hs'. inversion Hs as [|? ? Hs1 Hk]; inversion Hs' as [|? ? Hs1' Hk']; subst.
    assert (k = k') as <-.
    { destruct (Z.lt_trichotomy k k') as [Hlt|[?|Hlt]]; [|done|].
      - pose proof (Hget k) as H. cbn in H. rewrite Z.eqb_refl in H.
        destruct (Z.eqb_spec k k'); [lia|]. rewrite Hnone in H; [inversion H|].
        eapply Forall_impl; [exact Hk'|]. cbn; lia.
      - pose proof (Hget k') as H. cbn in H. rewrite Z.eqb_refl in H.
        destruct (Z.eqb_spec k' k); [lia|]. rewrite Hnone in H; [inversion H|].
        eapply Forall_impl; [exact Hk|]. cbn; lia. }
    constructor.
    + split; [done|]. pose proof (Hget k) as H. cbn in H. rewrite Z.eqb_refl in H. by inversion H.
    + apply IH; [done..|]. intros j. pose proof (Hget j) as H. cbn in H.
      destruct (Z.eqb_spec j k); [|done]. subst j. rewrite !Hnone by done. constructor.
Qed.

(** Grouping by a key: what [entry(key(x)).or_default().push(x)] builds. *)
Section GroupBy.
Context {A : Type} (key : A -> Z).

Definition group_push (m : list (Z * list A)) (x : A) : list (Z * list A) :=
  btree_update (key x) (fun b => default [] b ++ [x]) m.

Definition group_of (k : Z) (l : list A) : list A := List.filter (fun x => key x =? k) l.

Lemma group_push_spec l :
  let m := foldl group_push [] l in
  btree_ok m /\
  forall k, btree_get k m = match group_of k l with [] => None | b => Some b end.
Proof.
  induction l as [|x l IH] using rev_ind; cbn; [split; [constructor|done]|].
  rewrite foldl_app. cbn. destruct IH as [Hok Hget].
  split; [by apply btree_update_ok|]. intros k.
  unfold group_of in *. rewrite List.filter_app. cbn. unfold group_push at 1.
  destruct (Z.eqb_spec (key x) k) as [<-|Hne].
  - rewrite btree_get_update_eq, Hget by done.
    destruct (List.filter _ l) eqn:E; cbn; [done|]. done.
  - rewrite btree_get_update_ne, Hget, app_nil_r by done. done.
Qed.

Lemma group_entry k b l : In (k, b) (foldl group_push [] l) -> b = group_of k l /\ b <> [].
Proof.
  destruct (group_push_spec l) as [Hok Hget]. rewrite <- btree_get_in by done.
  rewrite Hget. destruct (group_of k l); [done|]. by intros [= <-].
Qed.

Lemma group_keys l k : In k (map fst (foldl group_push [] l)) <-> exists x, In x l /\ key x = k.
Proof.
  destruct (group_push_spec l) as [Hok Hget]. split.
  - rewrite in_map_iff. intros ([k' b] & Heq & Hin). cbn in Heq. subst k'. apply group_entry in Hin as [-> Hne].
    destruct (group_of k l) as [|x b] eqn:E; [done|]. exists x.
    assert (In x (group_of k l)) as Hx by (rewrite E; by left).
    apply filter_In in Hx as [? Hk]. split; [done|lia].
  - intros (x & Hx & Hk). apply in_map_iff. exists (k, group_of k l). split; [done|].
    apply btree_get_in; [done|]. rewrite Hget.
    assert (In x (group_of k l)) as Hin by (apply filter_In; split; [done|lia]).
    by destruct (group_of k l).
Qed.

Lemma group_length l : (length (foldl group_push [] l) <= length l)%nat.
Proof.
  assert (Hu : forall k (f : option (list A) -> list A) m,
            (length (btree_update k f m) <= S (length m))%nat).
  { intros k f m. induction m as [|[k' v] m IHm]; cbn; [lia|].
    destruct (k <? k'); cbn; [lia|]. destruct (k =? k'); cbn; lia. }
  induction l as [|x l IH] using rev_ind; cbn; [lia|].
  rewrite foldl_app, length_app. cbn. unfold group_push at 1.
  etransitivity; [apply Hu|]. lia.
Qed.
End GroupBy.

(** ** Lists *)

(** [xs.iter().find(p)] is [List.find]; [xs.iter().any(p)] is [existsb];
    [xs.iter().max()] keeps the last of equal maxima and [min()] the first of
    equal minima. *)
Definition iter_max {A} (leb : A -> A -> bool) (l : list A) : option A :=
  match l with
  | [] => None
  | x :: l => Some (foldl (fun m y => if leb m y then y else m) x l)
  end.
Definition iter_min {A} (leb : A -> A -> bool) (l : list A) : option A :=
  match l with
  | [] => None
  | x :: l => Some (foldl (fun m y => if leb m y then m else y) x l)
  end.

Lemma filter_length_split {A} (f : A -> bool) l :
  (length l = length (List.filter f l) + length (List.filter (fun x => negb (f x)) l))%nat.
Proof. induction l as [|x l IH]; cbn; [done|]. destruct (f x); cbn; lia. Qed.

Lemma filter_disjoint_length {A} (f g : A -> bool) l :
  (forall x, f x = true -> g x = false) ->
  (length (List.filter f l) + length (List.filter g l) <= length l)%nat.
Proof.
  intros H. induction l as [|x l IH]; cbn; [done|]. destruct (f x) eqn:E1; cbn.
  - rewrite H by done. lia.
  - destruct (g x); cbn; lia.
Qed.

Lemma strongly_sorted_map_filter {A} (g : A -> Z) (f : A -> bool) l :
  StronglySorted Z.lt (map g l) -> StronglySorted Z.lt (map g (List.filter f l)).
Proof.
  induction l as [|x l IH]; cbn; [done|]. intros H. inversion H as [|? ? Hs Hx]; subst.
  destruct (f x); cbn; [|auto]. constructor; [auto|].
  rewrite Forall_forall in Hx |- *. intros y Hy. apply Hx.
  rewrite list_elem_of_In in Hy |- *. apply in_map_iff in Hy as (z & <- & Hz).
  apply in_map. by apply filter_In in Hz as [? _].
Qed.

(** A counter incremented once per element, while it fits an [i32]. *)
Lemma count_i32 {A} (l : list A) n :
  0 <= n -> n + Z.of_nat (length l) < 2 ^ 31 ->
  foldl (fun s _ => i32_add s 1) n l = n + Z.of_nat (length l).
Proof.
  revert n; induction l as [|x l IH]; intros n Hn Hl; cbn [foldl length] in *; [lia|].
  unfold i32_add at 2. rewrite wrap_i32_id, IH by lia. lia.
Qed.

(** A permuted list filters to a permuted list. *)
Lemma filter_permutation {A} (f : A -> bool) l1 l2 :
  Permutation l1 l2 -> Permutation (List.filter f l1) (List.filter f l2).
Proof.
  induction 1; cbn; [done| |..].
  - destruct (f x); [by constructor|done].
  - destruct (f x), (f y); try done. apply perm_swap.
  - by etransitivity.
Qed.

Lemma NoDup_map_filter {A} (g : A -> Z) (f : A -> bool) l :
  NoDup (map g l) -> NoDup (map g (List.filter f l)).
Proof.
  induction l as [|x l IH]; cbn; [done|]. rewrite NoDup_cons. intros [Hx Hnd].
  destruct (f x); cbn; [|auto]. apply NoDup_cons. split; [|auto].
  rewrite list_elem_of_In in Hx |- *. contradict Hx.
  apply in_map_iff in Hx as (y & <- & Hy). apply in_map. by apply filter_In in Hy as [? _].
Qed.

Section IterMax.
Context {A : Type} (leb : A -> A -> bool).
Hypothesis leb_total : forall x y, leb x y = false -> leb y x = true.
Hypothesis leb_trans : forall x y z, leb x y = true -> leb y z = true -> leb x z = true.

#[local] Lemma leb_refl_of_total x : leb x x = true.
Proof using leb_total.
  destruct (leb x x) eqn:E; [done|]. by rewrite (leb_total _ _ E) in E.
Qed.
#[local] Hint Resolve leb_refl_of_total : core.

Lemma iter_max_spec l m :
  iter_max leb l = Some m -> In m l /\ forall x, In x l -> leb x m = true.
Proof.
  destruct l as [|x l]; cbn; [done|]. intros [= <-].
  revert x; induction l as [|y l IH]; intros x; cbn.
  { split; [by left|]. intros ? [->|[]]. auto. }
  destruct (IH (if leb x y then y else x)) as [Hin Hub].
  set (b := foldl _ _ _) in *.
  assert (leb x b = true /\ leb y b = true) as [Hx Hy].
  { pose proof (Hub _ (or_introl eq_refl)) as Hb.
    destruct (leb x y) eqn:Hxy; split; eauto. }
  split; [|intros z [->|[->|Hz]]; auto; apply Hub; by right].
  destruct Hin as [Hin|Hin]; [|by right; right].
  rewrite <- Hin. destruct (leb x y); [by right; left|by left].
Qed.

Lemma iter_min_spec l m :
  iter_min leb l = Some m -> In m l /\ forall x, In x l -> leb m x = true.
Proof.
  destruct l as [|x l]; cbn; [done|]. intros [= <-].
  revert x; induction l as [|y l IH]; intros x; cbn.
  { split; [by left|]. intros ? [->|[]]. auto. }
  destruct (IH (if leb x y then x else y)) as [Hin Hub].
  set (b := foldl _ _ _) in *.
  assert (leb b x = true /\ leb b y = true) as [Hx Hy].
  { pose proof (Hub _ (or_introl eq_refl)) as Hb.
    destruct (leb x y) eqn:Hxy; split; eauto. }
  split; [|intros z [->|[->|Hz]]; auto; apply Hub; by right].
  destruct Hin as [Hin|Hin]; [|by right; right].
  rewrite <- Hin. destruct (leb x y); [by left|by right; left].
Qed.

Lemma iter_max_some l : l <> [] -> is_Some (iter_max leb l).
Proof. destruct l; cbn; [done|eauto]. Qed.
Lemma iter_min_some l : l <> [] -> is_Some (iter_min leb l).
Proof. destruct l; cbn; [done|eauto]. Qed.
End IterMax.

(** The last element, as [slice::last]. *)
Lemma last_in {A} (l : list A) x : last l = Some x -> In x l.
Proof. rewrite last_Some. intros [l' ->]. apply in_app_iff. right. by left. Qed.

Lemma strongly_sorted_app_inv {A} (R : A -> A -> Prop) l1 l2 :
  StronglySorted R (l1 ++ l2) ->
  StronglySorted R l1 /\ StronglySorted R l2 /\
  forall x y, In x l1 -> In y l2 -> R x y.
Proof.
  induction l1 as [|a l1 IH]; cbn; intros H.
  - split; [constructor|]. split; [done|]. by intros ? ? [].
  - inversion H as [|? ? Hs Ha]; subst. destruct (IH Hs) as (H1 & H2 & H3).
    rewrite Forall_app in Ha. destruct Ha as [Ha1 Ha2].
    split; [by constructor|]. split; [done|].
    intros x y [->|Hx] Hy; [|by apply H3].
    rewrite Forall_forall in Ha2. apply Ha2. by apply list_elem_of_In.
Qed.

Lemma strongly_sorted_snoc {A} (R : A -> A -> Prop) l x :
  StronglySorted R l -> Forall (fun y => R y x) l -> StronglySorted R (l ++ [x]).
Proof.
  induction 1 as [|a l Hs IH Ha]; cbn; intros Hx; [repeat constructor|].
  inversion Hx; subst. constructor; [by apply IH|].
  apply Forall_app; split; [done|]. by repeat constructor.
Qed.

Lemma strongly_sorted_impl {A} (R S : A -> A -> Prop) l :
  (forall x y, R x y -> S x y) -> StronglySorted R l -> StronglySorted S l.
Proof.
  intros H. induction 1 as [|x l Hl IH Hx]; constructor; [done|].
  eapply Forall_impl; [exact Hx|]. intros y. apply H.
Qed.

Lemma imap_sorted {A B} (R : A -> A -> Prop) (S : B -> B -> Prop) (f : nat -> A -> B) l :
  (forall i j a b, R a b -> S (f i a) (f j b)) -> StronglySorted R l -> StronglySorted S (imap f l).
Proof.
  revert f; induction l as [|x l IH]; intros f H Hs; cbn; [constructor|].
  inversion Hs as [|? ? Hs' Hx]; subst. constructor.
  - apply IH; [|done]. intros i j a b. apply H.
  - apply Forall_lookup. intros i y Hi. rewrite list_lookup_imap in Hi.
    destruct (l !! i) as [a|] eqn:Ha; cbn in Hi; [|done]. injection Hi as <-.
    apply H. by eapply (Forall_lookup_1 _ _ _ _ Hx).
Qed.

Lemma map_imap {A B C} (g : B -> C) (f : nat -> A -> B) (h : A -> C) l :
  (forall i a, g (f i a) = h a) -> map g (imap f l) = map h l.
Proof.
  revert f; induction l as [|x l IH]; intros f H; cbn; [done|]. rewrite H. f_equal.
  apply IH. intros. apply H.
Qed.

Lemma forallb_map {A B} (p : B -> bool) (f : A -> B) l :
  forallb p (map f l) = forallb (fun x => p (f x)) l.
Proof. induction l as [|x l IH]; cbn; [done|]. by rewrite IH. Qed.

Lemma forallb_perm {A} (p : A -> bool) l k : Permutation l k -> forallb p l = forallb p k.
Proof.
  induction 1 as [|x l k _ IH|x y l| l k m _ IH1 _ IH2]; cbn; [done|by rewrite IH| |congruence].
  by rewrite !andb_assoc, (andb_comm (p y)).
Qed.

Lemma bind_ne {A B} (l : list A) (f : A -> list B) :
  l <> [] -> (forall x, f x <> []) -> (l ≫= f) <> [].
Proof.
  destruct l as [|x l]; [done|]. intros _ Hf. cbn. specialize (Hf x). by destruct (f x).
Qed.

Lemma in_firstn {A} n (l : list A) x : x ∈ firstn n l -> x ∈ l.
Proof. intros H. rewrite <- (firstn_skipn n l). apply elem_of_app. by left. Qed.

Lemma i32_try_from_small z : 0 <= z <= i32_max -> i32_try_from z = Some z.
Proof.
  intros H. unfold i32_try_from. rewrite (proj2 (Z.leb_le (- 2 ^ 31) z)) by lia.
  by rewrite (proj2 (Z.leb_le z i32_max)) by lia.
Qed.

(** ** Automation *)

Create HintDb aegis discriminated.
#[export] Hint Resolve sort_by_key_sorted sort_by_key_perm btree_update_ok
  wrap_i32_range last_in : aegis.
Create Rewrite HintDb aegis_simp.
#[export] Hint Rewrite @sort_by_length @btree_get_update_eq : aegis_simp.
