(* ===== verification/Text.v ===== *)
(** * Rust strings

    A Rust [String] is a sequence of UTF-8 bytes: here a [string], one [ascii]
    per byte.  The functions of the standard library that the sources call on
    strings: [trim] (every Unicode white-space character, by its UTF-8 code),
    [to_ascii_uppercase], [to_ascii_lowercase], [is_empty], [chars().count()],
    the printing of integers by [format!]. *)

From Stdlib Require Import ZArith Lia List Ascii String.
From stdpp Require Import base list strings pretty.
From S2P Require Import Prelude.

#[local] Open Scope string_scope.

Definition bytes := list nat.
Definition bytes_of (s : string) : bytes := map nat_of_ascii (list_ascii_of_string s).
Definition of_bytes (b : bytes) : string := string_of_list_ascii (map ascii_of_nat b).

(** The UTF-8 codes of the white-space characters: U+0009..U+000D, U+0020, U+0085,
    U+00A0, U+1680, U+2000..U+200A, U+2028, U+2029, U+202F, U+205F, U+3000. *)
Definition is_ws (char : bytes) : bool :=
  match char with
  | [a] => ((9 <=? a) && (a <=? 13)) || (a =? 32)
  | [a; b] => (a =? 194) && ((b =? 133) || (b =? 160))
  | [a; b; c] =>
    (a =? 225) && (b =? 154) && (c =? 128) ||
    (a =? 226) && (b =? 128)
      && (((128 <=? c) && (c <=? 138)) || (c =? 168) || (c =? 169) || (c =? 175)) ||
    (a =? 226) && (b =? 129) && (c =? 159) ||
    (a =? 227) && (b =? 128) && (c =? 128)
  | _ => false
  end%nat.

(** The length in bytes of the white-space character a text starts with (0: none),
    and of the one it ends with, the text being read backwards. *)
Definition ws_start (b : bytes) : nat :=
  if is_ws (firstn 1 b) then 1 else if is_ws (firstn 2 b) then 2
  else if is_ws (firstn 3 b) then 3 else 0.
Definition ws_end (b : bytes) : nat :=
  if is_ws (rev (firstn 1 b)) then 1 else if is_ws (rev (firstn 2 b)) then 2
  else if is_ws (rev (firstn 3 b)) then 3 else 0.

Fixpoint strip (ws : bytes -> nat) (fuel : nat) (b : bytes) : bytes :=
  match fuel with
  | O => b
  | S fuel => match ws b with O => b | n => strip ws fuel (skipn n b) end
  end.

(** Each round removes at least one byte, so the length is fuel enough. *)
Definition trim_bytes (b : bytes) : bytes :=
  let b := strip ws_start (length b) b in
  rev (strip ws_end (length b) (rev b)).

Definition trim (s : string) : string := of_bytes (trim_bytes (bytes_of s)).

Definition ascii_upper (c : ascii) : ascii :=
  let n := nat_of_ascii c in
  if ((97 <=? n) && (n <=? 122))%nat then ascii_of_nat (n - 32) else c.
Definition ascii_lower (c : ascii) : ascii :=
  let n := nat_of_ascii c in
  if ((65 <=? n) && (n <=? 90))%nat then ascii_of_nat (n + 32) else c.

Fixpoint string_map (f : ascii -> ascii) (s : string) : string :=
  match s with EmptyString => EmptyString | String c s => String (f c) (string_map f s) end.

Definition to_ascii_uppercase : string -> string := string_map ascii_upper.
Definition to_ascii_lowercase : string -> string := string_map ascii_lower.

Definition is_empty (s : string) : bool := match s with EmptyString => true | _ => false end.

(** [s.chars().count()]: the bytes that are not UTF-8 continuation bytes. *)
Definition chars_count (s : string) : nat :=
  length (List.filter (fun b => negb ((128 <=? b) && (b <=? 191)))%nat (bytes_of s)).

(** [format!("{n}")] of an integer. *)
Definition show_int (z : Z) : string := pretty z.

(** [v.join(sep)]. *)
Fixpoint join (sep : string) (v : list string) : string :=
  match v with
  | [] => ""
  | [s] => s
  | s :: v => s ++ sep ++ join sep v
  end.

Lemma string_map_idem f s : (forall c, f (f c) = f c) -> string_map f (string_map f s) = string_map f s.
Proof. intros Hf. induction s; cbn; congruence. Qed.

Lemma to_ascii_uppercase_idem s :
  to_ascii_uppercase (to_ascii_uppercase s) = to_ascii_uppercase s.
Proof.
  apply string_map_idem. intros [[] [] [] [] [] [] [] []]; vm_compute; reflexivity.
Qed.

Lemma of_bytes_bytes_of s : of_bytes (bytes_of s) = s.
Proof.
  unfold of_bytes, bytes_of. rewrite map_map.
  rewrite (map_ext _ id) by (intros; apply ascii_nat_embedding).
  rewrite map_id. apply string_of_list_ascii_of_string.
Qed.

(** Trimming stops: with the length as fuel, no white space is left in front. *)
Lemma strip_done ws fuel b :
  (forall b, ws b <= length b)%nat -> (length b <= fuel)%nat -> ws (strip ws fuel b) = 0%nat.
Proof.
  intros Hws. revert b; induction fuel as [|fuel IH]; intros b Hb; cbn.
  { specialize (Hws b). lia. }
  destruct (ws b) eqn:E; [done|].
  apply IH. rewrite length_skipn. specialize (Hws b). lia.
Qed.

(** *** Trimming twice is trimming once *)

Lemma ws_start_le b : (ws_start b <= length b)%nat.
Proof. destruct b as [|x [|y [|z b]]]; unfold ws_start; cbn -[is_ws]; repeat case_match; first [done | cbn; lia | congruence]. Qed.
Lemma ws_end_le b : (ws_end b <= length b)%nat.
Proof. destruct b as [|x [|y [|z b]]]; unfold ws_end; cbn -[is_ws]; repeat case_match; first [done | cbn; lia | congruence]. Qed.

Lemma ws_start_app a b : ws_start (a ++ b)%list = 0%nat -> ws_start a = 0%nat.
Proof.
  intros H. destruct a as [|x [|y [|z a]]]; [done|..]; unfold ws_start in *;
    cbn [app firstn] in *; rewrite ?firstn_O in *; repeat case_match; first [done | congruence].
Qed.

Lemma strip_suffix ws fuel b : exists k, strip ws fuel b = skipn k b.
Proof.
  revert b; induction fuel as [|fuel IH]; intros b; cbn; [by exists 0%nat|].
  destruct (ws b) as [|n]; [by exists 0%nat|].
  destruct (IH (skipn (S n) b)) as [k Hk]. exists (k + S n)%nat. by rewrite <- skipn_skipn.
Qed.

Lemma strip_stop ws fuel b : ws b = 0%nat -> strip ws fuel b = b.
Proof. intros H. destruct fuel; cbn; [done|]. by rewrite H. Qed.

Lemma trim_bytes_part b : exists j k, trim_bytes b = firstn j (skipn k b).
Proof.
  unfold trim_bytes. set (r := strip ws_start _ b).
  destruct (strip_suffix ws_start (length b) b) as [k Hk]. fold r in Hk.
  destruct (strip_suffix ws_end (length r) (rev r)) as [j ->].
  exists (length r - j)%nat, k. by rewrite <- Hk, skipn_rev, rev_involutive.
Qed.

Lemma trim_bytes_idem b : trim_bytes (trim_bytes b) = trim_bytes b.
Proof.
  assert (ws_start (trim_bytes b) = 0%nat /\ ws_end (rev (trim_bytes b)) = 0%nat) as [H1 H2].
  { unfold trim_bytes. set (r := strip ws_start _ b).
    assert (ws_start r = 0%nat) as Hr by (apply strip_done; [apply ws_start_le|done]).
    rewrite rev_involutive. split.
    - destruct (strip_suffix ws_end (length r) (rev r)) as [j ->].
      rewrite skipn_rev, rev_involutive.
      apply (ws_start_app _ (skipn (length r - j) r)). by rewrite firstn_skipn.
    - apply strip_done; [apply ws_end_le|]. by rewrite length_rev. }
  unfold trim_bytes at 1. rewrite (strip_stop ws_start) by done.
  rewrite (strip_stop ws_end) by done. apply rev_involutive.
Qed.

Lemma bytes_of_of_bytes b : Forall (fun n => n < 256)%nat b -> bytes_of (of_bytes b) = b.
Proof.
  intros H. unfold bytes_of, of_bytes. rewrite list_ascii_of_string_of_list_ascii, map_map.
  induction H as [|n b Hn _ IH]; cbn [map]; [done|]. by rewrite nat_ascii_embedding, IH.
Qed.

Lemma bytes_of_lt s : Forall (fun n => n < 256)%nat (bytes_of s).
Proof.
  unfold bytes_of. rewrite List.Forall_map. apply Forall_forall. intros c _.
  apply nat_ascii_bounded.
Qed.

Lemma trim_idem s : trim (trim s) = trim s.
Proof.
  unfold trim. rewrite bytes_of_of_bytes; [by rewrite trim_bytes_idem|].
  destruct (trim_bytes_part (bytes_of s)) as (j & k & ->).
  apply Forall_take, Forall_drop, bytes_of_lt.
Qed.

(** *** Trimming commutes with folding the case *)

Definition letter (n : nat) : Prop := (65 <= n <= 90 \/ 97 <= n <= 122)%nat.

(** A change of bytes that touches letters only, and maps them to letters. *)
Definition case_map (g : nat -> nat) : Prop :=
  forall n, g n = n \/ letter n /\ letter (g n).

Lemma case_map_eqb g n k : case_map g -> ~ letter k -> (g n =? k)%nat = (n =? k)%nat.
Proof.
  intros Hg Hk. destruct (Hg n) as [->|[Hn Hgn]]; [done|]. unfold letter in *.
  rewrite (proj2 (Nat.eqb_neq n k)), (proj2 (Nat.eqb_neq _ k)); [done|lia..].
Qed.

Lemma case_map_range g n a b : case_map g ->
  (b < 65 \/ 122 < a)%nat -> ((a <=? g n) && (g n <=? b))%nat = ((a <=? n) && (n <=? b))%nat.
Proof.
  intros Hg Hr. destruct (Hg n) as [->|[Hn Hgn]]; [done|]. unfold letter in *.
  destruct (Nat.leb_spec a n), (Nat.leb_spec n b), (Nat.leb_spec a (g n)), (Nat.leb_spec (g n) b);
    cbn; try done; lia.
Qed.

Section CaseMap.
Context (g : nat -> nat) (Hg : case_map g).

Lemma is_ws_map b : is_ws (map g b) = is_ws b.
Proof using Hg.
  destruct b as [|x [|y [|z [|w b]]]]; cbn [map is_ws]; try done.
  all: rewrite ?case_map_range by (try done; lia).
  all: rewrite ?case_map_eqb by (try done; unfold letter; lia).
  all: done.
Qed.

Lemma ws_start_map b : ws_start (map g b) = ws_start b.
Proof using Hg. unfold ws_start. by rewrite !firstn_map, !is_ws_map. Qed.
Lemma ws_end_map b : ws_end (map g b) = ws_end b.
Proof using Hg. unfold ws_end. by rewrite !firstn_map, <- !map_rev, !is_ws_map. Qed.

Lemma strip_map ws fuel b : (forall b, ws (map g b) = ws b) ->
  strip ws fuel (map g b) = map g (strip ws fuel b).
Proof using.
  intros Hws. revert b; induction fuel as [|fuel IH]; intros b; cbn; [done|].
  rewrite Hws. destruct (ws b); [done|]. by rewrite skipn_map, IH.
Qed.

Lemma trim_bytes_map b : trim_bytes (map g b) = map g (trim_bytes b).
Proof using Hg.
  unfold trim_bytes. rewrite length_map, (strip_map ws_start) by apply ws_start_map.
  rewrite length_map, <- map_rev, (strip_map ws_end) by apply ws_end_map. by rewrite map_rev.
Qed.
End CaseMap.

Lemma bytes_of_string_map f s :
  bytes_of (string_map f s) = map (fun n => nat_of_ascii (f (ascii_of_nat n))) (bytes_of s).
Proof.
  unfold bytes_of. rewrite map_map. induction s as [|c s IH]; cbn -[nat_of_ascii]; [done|].
  rewrite IH. by rewrite ascii_nat_embedding.
Qed.

Lemma of_bytes_string_map f b : Forall (fun n => n < 256)%nat b ->
  of_bytes (map (fun n => nat_of_ascii (f (ascii_of_nat n))) b) = string_map f (of_bytes b).
Proof.
  intros Hb. rewrite <- (of_bytes_bytes_of (string_map f (of_bytes b))), bytes_of_string_map.
  by rewrite bytes_of_of_bytes.
Qed.

Lemma trim_bytes_lt s : Forall (fun n => n < 256)%nat (trim_bytes (bytes_of s)).
Proof.
  destruct (trim_bytes_part (bytes_of s)) as (j & k & ->).
  apply Forall_take, Forall_drop, bytes_of_lt.
Qed.

Lemma trim_string_map f s :
  case_map (fun n => if (n <? 256)%nat then nat_of_ascii (f (ascii_of_nat n)) else n) ->
  trim (string_map f s) = string_map f (trim s).
Proof.
  intros Hg. unfold trim.
  assert (forall b, Forall (fun n => n < 256)%nat b ->
    map (fun n => nat_of_ascii (f (ascii_of_nat n))) b =
    map (fun n => if (n <? 256)%nat then nat_of_ascii (f (ascii_of_nat n)) else n) b) as Hmap.
  { intros b Hb. apply map_ext_in. intros n Hn%list_elem_of_In. rewrite Forall_forall in Hb.
    by rewrite (proj2 (Nat.ltb_lt _ _)) by by apply Hb. }
  rewrite bytes_of_string_map, Hmap, (trim_bytes_map _ Hg), <- Hmap
    by (apply bytes_of_lt || apply trim_bytes_lt).
  apply of_bytes_string_map, trim_bytes_lt.
Qed.

Lemma byte_case_map (f : ascii -> ascii) :
  (forall c, f c = c \/ letter (nat_of_ascii c) /\ letter (nat_of_ascii (f c))) ->
  case_map (fun n => if (n <? 256)%nat then nat_of_ascii (f (ascii_of_nat n)) else n).
Proof.
  intros Hf n. destruct (Nat.ltb_spec n 256); [|by left].
  destruct (Hf (ascii_of_nat n)) as [->|[H1 H2]]; rewrite nat_ascii_embedding in * by done; auto.
Qed.

Lemma trim_to_ascii_lowercase s : trim (to_ascii_lowercase s) = to_ascii_lowercase (trim s).
Proof.
  apply trim_string_map, byte_case_map. intros c. unfold ascii_lower, letter.
  destruct (Nat.leb_spec 65 (nat_of_ascii c)), (Nat.leb_spec (nat_of_ascii c) 90); cbn [andb]; auto.
  right. rewrite nat_ascii_embedding; lia.
Qed.

Lemma trim_to_ascii_uppercase s : trim (to_ascii_uppercase s) = to_ascii_uppercase (trim s).
Proof.
  apply trim_string_map, byte_case_map. intros c. unfold ascii_upper, letter.
  destruct (Nat.leb_spec 97 (nat_of_ascii c)), (Nat.leb_spec (nat_of_ascii c) 122); cbn [andb]; auto.
  right. rewrite nat_ascii_embedding; lia.
Qed.

Lemma string_map_comp f g s : string_map f (string_map g s) = string_map (fun c => f (g c)) s.
Proof. induction s; cbn; congruence. Qed.
Lemma string_map_ext f g s : (forall c, f c = g c) -> string_map f s = string_map g s.
Proof. intros H. induction s; cbn; congruence. Qed.

Lemma to_ascii_lowercase_idem s :
  to_ascii_lowercase (to_ascii_lowercase s) = to_ascii_lowercase s.
Proof. apply string_map_idem. intros [[] [] [] [] [] [] [] []]; vm_compute; reflexivity. Qed.
Lemma lowercase_uppercase s : to_ascii_lowercase (to_ascii_uppercase s) = to_ascii_lowercase s.
Proof.
  unfold to_ascii_lowercase, to_ascii_uppercase. rewrite string_map_comp. apply string_map_ext.
  intros [[] [] [] [] [] [] [] []]; vm_compute; reflexivity.
Qed.

(** [a.eq_ignore_ascii_case(b)] *)
Definition eq_ignore_ascii_case (a b : string) : bool :=
  String.eqb (to_ascii_lowercase a) (to_ascii_lowercase b).

Lemma eq_ignore_ascii_case_refl a : eq_ignore_ascii_case a a = true.
Proof. apply String.eqb_refl. Qed.
