(* ===== verification/Host.v ===== *)
(** * Libraries the program links: interfaces

    [rust_decimal], [chrono], [uuid] and [serde_json] are not part of the
    repository.  The development is parametric in them: an operation of such a
    library is a member of a class here, and what the program relies on is
    stated as laws of documented behaviour.  Each interface has an instance,
    used by the witnesses.

    - [Decimal]: a [Decimal] denotes a rational ([dval]); comparison and
      equality are those of the number denoted, so the operators of [Ord] and
      [PartialEq] are defined from [dval].  The arithmetic operators are
      parameters.  Their laws: each returns the exact result rounded;
      rounding is monotone, leaves alone the representable numbers and whatever
      a [Decimal] holds, and keeps the leading digits ([drnd_close]).  A result
      beyond the 96-bit range panics in Rust; it is outside the model (the
      parameter's value there is arbitrary).  Division by zero is a [Panic] of
      the model, see [dec_div].
    - [Chrono]: an instant is its number of nanoseconds since the Unix epoch, a
      [TimeDelta] its number of nanoseconds, so ordering, sums and differences
      are those of integers; the conversions are parameters.
    - [Uuid]: the 128-bit integer; [new_v4] is a value drawn by the
      environment, passed as an argument. *)

From Stdlib Require Import ZArith QArith Qreduction Qabs Qround Lqa Lia List DecimalString.
From stdpp Require Import base list strings.
From S2P Require Import Prelude Text.

#[local] Open Scope Z_scope.

(** ** Decimal numbers *)

Inductive dec_op := OpAdd | OpSub | OpMul | OpDiv.

(** 96-bit mantissa, scale 0 to 28. *)
Definition representable (q : Q) : Prop :=
  exists m s : Z, - 2 ^ 96 < m < 2 ^ 96 /\ 0 <= s <= 28 /\
    (q == m # Z.to_pos (10 ^ s))%Q.

Class Decimal := {
  dec : Type;
  dval : dec -> Q;
  dnew : Z -> Z -> dec;             (** [Decimal::new(num, scale)] *)
  dint : Z -> dec;                  (** [Decimal::from(integer)] *)
  dadd : dec -> dec -> dec;
  dsub : dec -> dec -> dec;
  dmul : dec -> dec -> dec;
  ddiv : dec -> dec -> dec;         (** the divisor is not zero *)
  dabs : dec -> dec;
  dmax : dec -> dec -> dec;         (** [Decimal::max] *)
  dmin : dec -> dec -> dec;
  dround_dp : dec -> Z -> dec;      (** [round_dp] *)
  dto_usize : dec -> option nat;    (** [ToPrimitive::to_usize] *)
  dshow : dec -> string;            (** [Display] *)
  dparse : string -> option dec     (** [FromStr] *)
}.

Declare Scope dec_scope.
Delimit Scope dec_scope with dec.
Bind Scope dec_scope with dec.
Infix "+" := dadd : dec_scope.
Infix "-" := dsub : dec_scope.
Infix "*" := dmul : dec_scope.

Section Operators.
Context {DI : Decimal}.

Definition dleb (a b : dec) : bool := Qle_bool (dval a) (dval b).
Definition dltb (a b : dec) : bool := negb (dleb b a).
Definition deqb (a b : dec) : bool := Qeq_bool (dval a) (dval b).

Definition ZERO : dec := dnew 0 0.
Definition ONE : dec := dnew 1 0.
Definition is_zero (a : dec) : bool := deqb a ZERO.

(** The [/] operator: a zero divisor panics. *)
Definition dec_div {E} (a b : dec) : res E dec :=
  if is_zero b then Panic else Ok (ddiv a b).

(** [values.sum()] and [fold(Decimal::ZERO, |sum, v| sum + v)]. *)
Definition dsum (l : list dec) : dec := foldl dadd ZERO l.
End Operators.

Infix "<=?" := dleb : dec_scope.
Infix "<?" := dltb : dec_scope.
Infix "=?" := deqb : dec_scope.
Notation "a >=? b" := (dleb b a) (only parsing) : dec_scope.
Notation "a >? b" := (dltb b a) (only parsing) : dec_scope.

(** What rounding may cost: 28 significant digits hold the [k] digits of a number up to [10^k]
    and [28 - k] digits after the point; the last of them is not relied on. *)
Definition ulp (k : Z) : Q := 1 # Z.to_pos (10 ^ (27 - k)).

Class DecimalLaws (DI : Decimal) := {
  drnd : dec_op -> Q -> Q;
  drnd_mono : forall o p q, (p <= q)%Q -> (drnd o p <= drnd o q)%Q;
  drnd_fix : forall o q, representable q -> (drnd o q == q)%Q;
  drnd_dval : forall o a, (drnd o (dval a) == dval a)%Q;
  drnd_close : forall o k q, 0 <= k <= 27 -> (Qabs q <= inject_Z (10 ^ k))%Q ->
    (Qabs (drnd o q - q) <= ulp k)%Q;
  dval_add : forall a b, (dval (dadd a b) == drnd OpAdd (dval a + dval b))%Q;
  dval_sub : forall a b, (dval (dsub a b) == drnd OpSub (dval a - dval b))%Q;
  dval_mul : forall a b, (dval (dmul a b) == drnd OpMul (dval a * dval b))%Q;
  dval_div : forall a b, ~ (dval b == 0)%Q ->
    (dval (ddiv a b) == drnd OpDiv (dval a / dval b))%Q;
  dval_new : forall n s, - 2 ^ 63 <= n < 2 ^ 63 -> 0 <= s <= 28 ->
    (dval (dnew n s) == n # Z.to_pos (10 ^ s))%Q;
  dval_int : forall n, - 2 ^ 63 <= n < 2 ^ 64 -> (dval (dint n) == inject_Z n)%Q;
  dval_abs : forall a, (dval (dabs a) == Qabs (dval a))%Q;
  dmax_spec : forall a b,
    (dmax a b = a /\ (dval b <= dval a)%Q) \/ (dmax a b = b /\ (dval a <= dval b)%Q);
  dmin_spec : forall a b,
    (dmin a b = a /\ (dval a <= dval b)%Q) \/ (dmin a b = b /\ (dval b <= dval a)%Q)
}.

(** Comparison facts that need no law of the arithmetic. *)
Section Order.
Context {DI : Decimal}.

Lemma dleb_le a b : (a <=? b)%dec = true <-> (dval a <= dval b)%Q.
Proof. apply Qle_bool_iff. Qed.
Lemma dleb_gt a b : (a <=? b)%dec = false <-> (dval b < dval a)%Q.
Proof.
  unfold dleb. split.
  - intros H. apply Qnot_le_lt. intros Hle. apply Qle_bool_iff in Hle. congruence.
  - intros H. destruct (Qle_bool _ _) eqn:E; [|done].
    apply Qle_bool_iff in E. exfalso. eapply Qlt_not_le; eauto.
Qed.
Lemma dltb_lt a b : (a <? b)%dec = true <-> (dval a < dval b)%Q.
Proof. unfold dltb. rewrite negb_true_iff. apply dleb_gt. Qed.
Lemma dltb_ge a b : (a <? b)%dec = false <-> (dval b <= dval a)%Q.
Proof. unfold dltb. rewrite negb_false_iff. apply dleb_le. Qed.
Lemma deqb_eq a b : (a =? b)%dec = true <-> (dval a == dval b)%Q.
Proof. apply Qeq_bool_iff. Qed.
Lemma deqb_neq a b : (a =? b)%dec = false <-> ~ (dval a == dval b)%Q.
Proof. rewrite <- deqb_eq. destruct (deqb a b); split; congruence. Qed.

Lemma dleb_total a b : (a <=? b)%dec = false -> (b <=? a)%dec = true.
Proof. rewrite dleb_gt, dleb_le. apply Qlt_le_weak. Qed.
Lemma dleb_trans a b c :
  (a <=? b)%dec = true -> (b <=? c)%dec = true -> (a <=? c)%dec = true.
Proof. rewrite !dleb_le. apply Qle_trans. Qed.
Lemma dleb_refl a : (a <=? a)%dec = true.
Proof. rewrite dleb_le. apply Qle_refl. Qed.
End Order.

(** Read every decimal test of the context as a comparison of rationals. *)
Ltac dec_to_Q :=
  repeat match goal with
  | H : dleb _ _ = true |- _ => apply dleb_le in H
  | H : dleb _ _ = false |- _ => apply dleb_gt in H
  | H : dltb _ _ = true |- _ => apply dltb_lt in H
  | H : dltb _ _ = false |- _ => apply dltb_ge in H
  | H : deqb _ _ = true |- _ => apply deqb_eq in H
  | H : deqb _ _ = false |- _ => apply deqb_neq in H
  | |- dleb _ _ = true => apply dleb_le
  | |- dleb _ _ = false => apply dleb_gt
  | |- dltb _ _ = true => apply dltb_lt
  | |- dltb _ _ = false => apply dltb_ge
  | |- deqb _ _ = true => apply deqb_eq
  end.

(** Consequences of the laws. *)
Section Laws.
Context {DI : Decimal} {DL : DecimalLaws DI}.

Lemma dval_ZERO : (dval ZERO == 0)%Q.
Proof. unfold ZERO. rewrite dval_new by lia. reflexivity. Qed.
Lemma dval_ONE : (dval ONE == 1)%Q.
Proof. unfold ONE. rewrite dval_new by lia. reflexivity. Qed.

Lemma representable_0 : representable 0.
Proof. exists 0, 0. repeat split; lia. Qed.
Lemma representable_1 : representable 1.
Proof. exists 1, 0. repeat split; lia. Qed.

Lemma drnd_0 o : (drnd o 0 == 0)%Q.
Proof. apply drnd_fix, representable_0. Qed.
Lemma drnd_1 o : (drnd o 1 == 1)%Q.
Proof. apply drnd_fix, representable_1. Qed.

#[export] Instance drnd_proper o : Proper (Qeq ==> Qeq) (drnd o).
Proof.
  intros p q Hpq. apply Qle_antisym; apply drnd_mono; rewrite Hpq; apply Qle_refl.
Qed.

Lemma drnd_nonneg o q : (0 <= q)%Q -> (0 <= drnd o q)%Q.
Proof. intros H. rewrite <- (drnd_0 o). by apply drnd_mono. Qed.
Lemma drnd_nonpos o q : (q <= 0)%Q -> (drnd o q <= 0)%Q.
Proof. intros H. rewrite <- (drnd_0 o). by apply drnd_mono. Qed.

Lemma is_zero_iff a : is_zero a = true <-> (dval a == 0)%Q.
Proof. unfold is_zero. rewrite deqb_eq, dval_ZERO. done. Qed.
Lemma is_zero_false a : is_zero a = false <-> ~ (dval a == 0)%Q.
Proof. rewrite <- is_zero_iff. destruct (is_zero a); split; congruence. Qed.
Lemma dec_div_pos {E} a b : (0 < dval b)%Q -> @dec_div DI E a b = Ok (ddiv a b).
Proof. intros H. unfold dec_div. rewrite (proj2 (is_zero_false b)); [done|lra]. Qed.

Lemma dadd_nonneg a b :
  (0 <= dval a)%Q -> (0 <= dval b)%Q -> (0 <= dval (a + b)%dec)%Q.
Proof. intros Ha Hb. rewrite dval_add. apply drnd_nonneg. lra. Qed.
Lemma dmul_nonneg a b :
  (0 <= dval a)%Q -> (0 <= dval b)%Q -> (0 <= dval (a * b)%dec)%Q.
Proof.
  intros Ha Hb. rewrite dval_mul. apply drnd_nonneg.
  by apply Qmult_le_0_compat.
Qed.
Lemma dsub_nonneg a b : (dval b <= dval a)%Q -> (0 <= dval (a - b)%dec)%Q.
Proof. intros H. rewrite dval_sub. apply drnd_nonneg. lra. Qed.

(** A part divided by the whole is a fraction between 0 and 1. *)
Lemma ddiv_fraction a b :
  (0 <= dval a)%Q -> (dval a <= dval b)%Q -> (0 < dval b)%Q ->
  (0 <= dval (ddiv a b) <= 1)%Q.
Proof.
  intros Ha Hab Hb. rewrite dval_div by lra.
  assert (0 <= dval a / dval b <= 1)%Q as [H0 H1].
  { split.
    - apply Qle_shift_div_l; lra.
    - apply Qle_shift_div_r; lra. }
  split; [by apply drnd_nonneg|]. rewrite <- (drnd_1 OpDiv). by apply drnd_mono.
Qed.

Lemma dsum_nonneg l :
  Forall (fun d => (0 <= dval d)%Q) l -> (0 <= dval (dsum l))%Q.
Proof.
  unfold dsum. assert (0 <= dval ZERO)%Q as H0 by (rewrite dval_ZERO; lra).
  revert H0. generalize ZERO. induction l as [|d l IH]; intros a Ha Hl; cbn; [done|].
  inversion Hl; subst. apply IH; [by apply dadd_nonneg|done].
Qed.
End Laws.

(** Exact results: when the number an operation should return is
    representable, it returns it. *)
Section Exact.
Context {DI : Decimal} {DL : DecimalLaws DI}.

Lemma dadd_exact a b : representable (dval a + dval b) ->
  (dval (a + b)%dec == dval a + dval b)%Q.
Proof. intros H. rewrite dval_add. by apply drnd_fix. Qed.
Lemma dsub_exact a b : representable (dval a - dval b) ->
  (dval (a - b)%dec == dval a - dval b)%Q.
Proof. intros H. rewrite dval_sub. by apply drnd_fix. Qed.
Lemma dmul_exact a b : representable (dval a * dval b) ->
  (dval (a * b)%dec == dval a * dval b)%Q.
Proof. intros H. rewrite dval_mul. by apply drnd_fix. Qed.
Lemma ddiv_exact a b : ~ (dval b == 0)%Q -> representable (dval a / dval b) ->
  (dval (ddiv a b) == dval a / dval b)%Q.
Proof. intros Hb H. rewrite dval_div by done. by apply drnd_fix. Qed.
End Exact.

#[export] Instance representable_proper : Proper (Qeq ==> iff) representable.
Proof.
  intros p q Hpq. split; intros (m & s & Hm & Hs & E); exists m, s; (split; [done|]); (split; [done|]).
  - by rewrite <- Hpq.
  - by rewrite Hpq.
Qed.

(** Whole numbers, for concrete runs. *)
Lemma representable_whole n : (Z.abs n <? 2 ^ 96) = true -> representable (inject_Z n).
Proof. intros H%Z.ltb_lt. exists n, 0. split; [lia|]. split; [lia|]. reflexivity. Defined.

Ltac whole_number :=
  match goal with |- representable ?q =>
    let n := eval vm_compute in (Qfloor q) in
    apply (proj2 (representable_proper q (inject_Z n) ltac:(vm_compute; reflexivity)));
    apply representable_whole; vm_compute; reflexivity
  end.

Definition qsum (l : list Q) : Q := foldr Qplus 0%Q l.

Lemma qsum_snoc l x : (qsum (l ++ [x]) == qsum l + x)%Q.
Proof. induction l as [|y l IH]; unfold qsum in *; cbn [foldr app]; [ring|]. rewrite IH. ring. Qed.

(** Rounded results: how far an operation and a chain of operations are from the exact value. *)
Section Rounding.
Context {DI : Decimal} {DL : DecimalLaws DI}.

Definition near (x y e : Q) : Prop := (Qabs (x - y) <= e)%Q.

Lemma near_iff x y e : near x y e <-> (y - e <= x <= y + e)%Q.
Proof. unfold near. rewrite Qabs_Qle_condition. split; intros; lra. Qed.

#[export] Instance near_proper : Proper (Qeq ==> Qeq ==> Qeq ==> iff) near.
Proof. intros x x' Hx y y' Hy e e' He. unfold near. by rewrite Hx, Hy, He. Qed.

Lemma near_refl x : near x x 0.
Proof. apply near_iff. lra. Qed.
Lemma near_trans x y z e e' : near x y e -> near y z e' -> near x z (e + e').
Proof. rewrite !near_iff. lra. Qed.

Lemma dadd_near a b k : 0 <= k <= 27 -> (Qabs (dval a + dval b) <= inject_Z (10 ^ k))%Q ->
  near (dval (a + b)%dec) (dval a + dval b) (ulp k).
Proof. intros Hk H. unfold near. rewrite dval_add. by apply drnd_close. Qed.
Lemma dsub_near a b k : 0 <= k <= 27 -> (Qabs (dval a - dval b) <= inject_Z (10 ^ k))%Q ->
  near (dval (a - b)%dec) (dval a - dval b) (ulp k).
Proof. intros Hk H. unfold near. rewrite dval_sub. by apply drnd_close. Qed.
End Rounding.

#[export] Hint Resolve dadd_nonneg dmul_nonneg dsub_nonneg dsum_nonneg dleb_refl : aegis.

(** ** Time *)

Definition NANOS : Z := 1000000000.
Definition MILLI : Z := 1000000.

(** [Duration::minutes], [hours], [seconds], [milliseconds]: nanosecond counts. *)
Definition seconds (n : Z) : Z := n * NANOS.
Definition minutes (n : Z) : Z := seconds (60 * n).
Definition hours (n : Z) : Z := seconds (3600 * n).
Definition milliseconds (n : Z) : Z := n * MILLI.

Class Chrono := {
  timestamp : Z -> Z;               (** [DateTime::timestamp], seconds *)
  timestamp_millis : Z -> Z;
  num_seconds : Z -> Z;             (** [TimeDelta::num_seconds] *)
  num_milliseconds : Z -> Z;
  timestamp_opt : Z -> option Z;    (** [Utc.timestamp_opt(secs, 0).single()] *)
  timestamp_millis_opt : Z -> option Z;
  to_rfc3339 : Z -> string;
  date_naive : Z -> Z               (** the calendar day, as a day number *)
}.

(** The seconds [chrono] represents with certainty (years -9999 to 9999). *)
Definition supported_seconds (s : Z) : Prop := - 377705116800 <= s <= 253402300799.

Class ChronoLaws (CH : Chrono) := {
  timestamp_spec : forall t, timestamp t = t / NANOS;
  timestamp_millis_spec : forall t, timestamp_millis t = t / MILLI;
  num_seconds_spec : forall d, num_seconds d = Z.quot d NANOS;
  num_milliseconds_spec : forall d, num_milliseconds d = Z.quot d MILLI;
  timestamp_opt_some : forall s, supported_seconds s -> timestamp_opt s = Some (s * NANOS);
  timestamp_opt_val : forall s t, timestamp_opt s = Some t -> t = s * NANOS;
  timestamp_millis_opt_val : forall s t, timestamp_millis_opt s = Some t -> t = s * MILLI
}.

(** [Duration::hours] and [DateTime + Duration] panic where these are [None]:
    a duration is bounded by [i64::MAX] milliseconds, an instant by the years
    -262143 to 262142. *)
Class ChronoArith := {
  try_hours : Z -> option Z;
  checked_add : Z -> Z -> option Z
}.

Class ChronoArithLaws (CA : ChronoArith) := {
  try_hours_some : forall n, Z.abs n * 3600000 <= i64_max -> try_hours n = Some (hours n);
  try_hours_none : forall n, i64_max < Z.abs n * 3600000 -> try_hours n = None;
  checked_add_some : forall t d, supported_seconds ((t + d) / NANOS) -> checked_add t d = Some (t + d);
  checked_add_val : forall t d t', checked_add t d = Some t' -> t' = t + d;
  checked_add_none : forall t d, 10 ^ 22 < Z.abs (t + d) -> checked_add t d = None
}.

(** [Duration::seconds] panics, and [Duration::from_std] fails, where this is [None]. *)
Class ChronoSeconds := { try_seconds : Z -> option Z }.

Class ChronoSecondsLaws (CS : ChronoSeconds) := {
  try_seconds_some : forall n, Z.abs n * 1000 <= i64_max -> try_seconds n = Some (seconds n);
  try_seconds_none : forall n, i64_max < Z.abs n * 1000 -> try_seconds n = None
}.

(** [t + Duration::seconds(n)]; [None] is a panic. *)
Definition after_seconds {CA : ChronoArith} {CS : ChronoSeconds} (t n : Z) : option Z :=
  match try_seconds n with Some d => checked_add t d | None => None end.

Lemma after_seconds_val {CA : ChronoArith} {CS : ChronoSeconds} {CSL : ChronoSecondsLaws CS}
    {CAL : ChronoArithLaws CA} t n t' :
  after_seconds t n = Some t' -> t' = t + seconds n.
Proof.
  unfold after_seconds. destruct (Z.le_gt_cases (Z.abs n * 1000) i64_max) as [Hle|Hgt].
  - rewrite try_seconds_some by done. apply checked_add_val.
  - by rewrite try_seconds_none.
Qed.

Section TimeLaws.
Context {CH : Chrono} {CL : ChronoLaws CH}.

Lemma num_seconds_seconds n : num_seconds (seconds n) = n.
Proof. rewrite num_seconds_spec. unfold seconds. apply Z.quot_mul. done. Qed.

Lemma num_milliseconds_milliseconds n : num_milliseconds (milliseconds n) = n.
Proof. rewrite num_milliseconds_spec. unfold milliseconds. apply Z.quot_mul. done. Qed.

Lemma num_seconds_nonneg d : 0 <= d -> num_seconds d = d / NANOS.
Proof. intros. rewrite num_seconds_spec. apply Z.quot_div_nonneg; unfold NANOS; lia. Qed.

Lemma num_milliseconds_nonneg d : 0 <= d -> num_milliseconds d = d / MILLI.
Proof. intros. rewrite num_milliseconds_spec. apply Z.quot_div_nonneg; unfold MILLI; lia. Qed.
End TimeLaws.

(** ** JSON values and identifiers *)

Class Json := {
  json : Type;
  jnull : json;
  jstr : string -> json;
  juuid : Z -> json;
  jobj : list (string * json) -> json
}.

(** What a [serde_json::Value] answers: [get], and the accessors of its variant.
    A number carries its [as_u64], its [as_i64] and its text. *)
Inductive json_view :=
  | ViewNull | ViewBool (b : bool)
  | ViewNumber (as_u64 as_i64 : option Z) (text : string)
  | ViewString (raw : string) | ViewOther.

Class JsonRead (JS : Json) := {
  jget : json -> string -> option json;
  jview : json -> json_view
}.

(** The serialisations of a [Decimal] and of an instant, and the remaining forms
    of [json!]. *)
Class JsonScalars {DI : Decimal} {JS : Json} := { jdec : dec -> json; jtime : Z -> json }.
Class JsonBuild {JS : Json} := {
  jbool : bool -> json;
  jint : Z -> json;
  jarr : list json -> json
}.

(** [Option<T>] serialises as [null] or as the value. *)
Definition jopt {JS : Json} {A} (f : A -> json) (o : option A) : json :=
  match o with Some x => f x | None => jnull end.
Definition jstrs {JS : Json} {JB : JsonBuild} (l : list string) : json := jarr (map jstr l).

Class UuidText := { uuid_show : Z -> string (** [Display] of a [Uuid] *) }.
Class UuidLib := { uuid_v5 : string -> Z (** [Uuid::new_v5(NAMESPACE_OID, ..)] *) }.

Definition uuid_nil : Z := 0.
Definition u128_mask (z : Z) : Z := z mod 2 ^ 128.

(** ** Instances for the witnesses

    Exact rational arithmetic satisfies every law (its rounding is the
    identity).  They are plain definitions, so that no definition of the
    development picks one by resolution; the witnesses name them. *)

Definition q_of_string (s : string) : option Q :=
  option_map (fun i => inject_Z (Z.of_int i)) (NilZero.int_of_string s).

Definition ExactDecimal : Decimal := {|
  dec := Q;
  dval q := q;
  dnew n s := Qred (n # Z.to_pos (10 ^ s));
  dint n := inject_Z n;
  dadd a b := Qred (a + b);
  dsub a b := Qred (a - b);
  dmul a b := Qred (a * b);
  ddiv a b := Qred (a / b);
  dabs a := Qabs a;
  dmax a b := if Qle_bool b a then a else b;
  dmin a b := if Qle_bool a b then a else b;
  dround_dp a n := Qred a;
  dto_usize a := if Qle_bool 0 a then Some (Z.to_nat (Qfloor a)) else None;
  dshow a := "";
  dparse := q_of_string
|}.

Definition ExactDecimalLaws : DecimalLaws ExactDecimal.
Proof.
  refine {| drnd _ q := q |}; cbn; intros; try reflexivity; try apply Qred_correct; try done.
  - assert (Qabs (q - q) == 0)%Q as E.
    { transitivity (Qabs 0); [|reflexivity]. apply Qabs_wd. ring. }
    cbn in E. rewrite E. discriminate.
  - destruct (Qle_bool b a) eqn:E; [left|right]; split; try done.
    + by apply Qle_bool_iff.
    + apply Qlt_le_weak, Qnot_le_lt. intros H. apply Qle_bool_iff in H. congruence.
  - destruct (Qle_bool a b) eqn:E; [left|right]; split; try done.
    + by apply Qle_bool_iff.
    + apply Qlt_le_weak, Qnot_le_lt. intros H. apply Qle_bool_iff in H. congruence.
Defined.

Definition PlainChrono : Chrono := {|
  timestamp t := t / NANOS;
  timestamp_millis t := t / MILLI;
  num_seconds d := Z.quot d NANOS;
  num_milliseconds d := Z.quot d MILLI;
  timestamp_opt s :=
    if (- 377705116800 <=? s) && (s <=? 253402300799) then Some (s * NANOS) else None;
  timestamp_millis_opt s := Some (s * MILLI);
  to_rfc3339 t := show_int t;
  date_naive t := t / (86400 * NANOS)
|}.

Definition PlainChronoLaws : ChronoLaws PlainChrono.
Proof.
  split; cbn; intros; try reflexivity.
  - unfold supported_seconds in *.
    destruct (Z.leb_spec (- 377705116800) s), (Z.leb_spec s 253402300799); cbn; try lia; done.
  - case_match; congruence.
  - congruence.
Defined.

Definition PlainArith : ChronoArith := {|
  try_hours n := if Z.abs n * 3600000 <=? i64_max then Some (hours n) else None;
  checked_add t d := if Z.abs (t + d) <=? 10 ^ 22 then Some (t + d) else None
|}.

Definition PlainArithLaws : ChronoArithLaws PlainArith.
Proof.
  split; cbn [try_hours checked_add PlainArith].
  - intros n H. by rewrite (proj2 (Z.leb_le _ _)).
  - intros n H. by rewrite (proj2 (Z.leb_gt _ _)).
  - intros t d H. rewrite (proj2 (Z.leb_le _ _)); [done|].
    unfold supported_seconds in H. pose proof (Z.div_mod (t + d) NANOS ltac:(done)) as Hd.
    pose proof (Z.mod_pos_bound (t + d) NANOS ltac:(done)) as Hm. unfold NANOS in *. lia.
  - intros t d t'. case_match; congruence.
  - intros t d H. by rewrite (proj2 (Z.leb_gt _ _)).
Defined.

Definition PlainSeconds : ChronoSeconds := {|
  try_seconds n := if Z.abs n * 1000 <=? i64_max then Some (seconds n) else None
|}.

Definition PlainSecondsLaws : ChronoSecondsLaws PlainSeconds.
Proof.
  split; cbn; intros n H; [by rewrite (proj2 (Z.leb_le _ _))|by rewrite (proj2 (Z.leb_gt _ _))].
Defined.

Definition PlainJson : Json := {|
  json := string; jnull := "null"; jstr s := s; juuid u := show_int u;
  jobj l := join "," (map (fun p => fst p +:+ ":" +:+ snd p) l)
|}.

(** JSON trees, for the witnesses that read values back. *)
Inductive jtree :=
  | TNull | TBool (b : bool) | TInt (n : Z) | TString (raw : string)
  | TArray (items : list jtree) | TObject (fields : list (string * jtree)).

Definition TreeJson : Json := {|
  json := jtree; jnull := TNull; jstr := TString; juuid u := TString (show_int u);
  jobj := TObject
|}.

Definition tree_get (v : jtree) (key : string) : option jtree :=
  match v with
  | TObject fields => option_map snd (List.find (fun p => String.eqb (fst p) key) fields)
  | _ => None
  end.

Definition tree_view (v : jtree) : json_view :=
  match v with
  | TNull => ViewNull
  | TBool b => ViewBool b
  | TInt n => ViewNumber (if (0 <=? n) && (n <? 2 ^ 64) then Some n else None)
                (if (- 2 ^ 63 <=? n) && (n <? 2 ^ 63) then Some n else None) (show_int n)
  | TString raw => ViewString raw
  | TArray _ | TObject _ => ViewOther
  end.

Definition TreeRead : JsonRead TreeJson := @Build_JsonRead TreeJson tree_get tree_view.

Definition TreeBuild : @JsonBuild TreeJson :=
  {| jbool := TBool : bool -> @json TreeJson; jint := TInt : Z -> @json TreeJson;
     jarr := TArray : list jtree -> @json TreeJson |}.
Definition TreeScalars : @JsonScalars ExactDecimal TreeJson :=
  {| jdec := (fun q : Q => TString (dshow (Decimal := ExactDecimal) q))
       : @dec ExactDecimal -> @json TreeJson;
     jtime := TInt : Z -> @json TreeJson |}.
Definition PlainUuidText : UuidText := {| uuid_show := show_int |}.
Definition PlainUuid : UuidLib := {| uuid_v5 s := Z.of_nat (String.length s) |}.
