(* ===== verification/Types.v ===== *)
(** * Shared vocabulary: crates/core/src/lib.rs

    The enumerations of [aegis_core], one Module each: the type [t] with the
    source's constructors, the list of its [variants], and [as_str], the text
    persisted in PostgreSQL and shown by the API.  [CoreError] has every
    constructor of the source.  [FromStr] is the interface of
    [std::str::FromStr] as the sources implement it: trim, fold the ASCII case,
    look the text up among the accepted names, and otherwise echo the
    normalised text in the error. *)

From Stdlib Require Import ZArith Lia List String.
From stdpp Require Import base list strings.
From S2P Require Import Prelude Text.

#[local] Open Scope string_scope.

Module MarketDataSource.
Inductive t :=
  | Binance.
#[global] Instance eq_dec : EqDecision t.
Proof. solve_decision. Defined.
Definition variants : list t :=
  [Binance].
Definition as_str (x : t) : string :=
  match x with
  | Binance => "binance"
  end.
End MarketDataSource.

Module UserRole.
Inductive t :=
  | Owner
  | Operator
  | Viewer.
#[global] Instance eq_dec : EqDecision t.
Proof. solve_decision. Defined.
Definition variants : list t :=
  [Owner; Operator; Viewer].
Definition as_str (x : t) : string :=
  match x with
  | Owner => "OWNER"
  | Operator => "OPERATOR"
  | Viewer => "VIEWER"
  end.
End UserRole.

Module UserStatus.
Inductive t :=
  | Active
  | Disabled.
#[global] Instance eq_dec : EqDecision t.
Proof. solve_decision. Defined.
Definition variants : list t :=
  [Active; Disabled].
Definition as_str (x : t) : string :=
  match x with
  | Active => "ACTIVE"
  | Disabled => "DISABLED"
  end.
End UserStatus.

Module Permission.
Inductive t :=
  | ReadInspection
  | RunPaperPipeline
  | RunBacktest
  | RunBackfill
  | MarkPaperAccount
  | ClosePaperPosition
  | ToggleStrategy
  | UpdateStrategyConfig
  | UpdateRiskConfig
  | ResumeKillSwitch
  | ManageApiKeysPlaceholder.
#[global] Instance eq_dec : EqDecision t.
Proof. solve_decision. Defined.
Definition variants : list t :=
  [ReadInspection; RunPaperPipeline; RunBacktest; RunBackfill; MarkPaperAccount; ClosePaperPosition; ToggleStrategy; UpdateStrategyConfig; UpdateRiskConfig; ResumeKillSwitch; ManageApiKeysPlaceholder].
Definition as_str (x : t) : string :=
  match x with
  | ReadInspection => "read_inspection"
  | RunPaperPipeline => "run_paper_pipeline"
  | RunBacktest => "run_backtest"
  | RunBackfill => "run_backfill"
  | MarkPaperAccount => "mark_paper_account"
  | ClosePaperPosition => "close_paper_position"
  | ToggleStrategy => "toggle_strategy"
  | UpdateStrategyConfig => "update_strategy_config"
  | UpdateRiskConfig => "update_risk_config"
  | ResumeKillSwitch => "resume_kill_switch"
  | ManageApiKeysPlaceholder => "manage_api_keys_placeholder"
  end.
End Permission.

Module FeedStatus.
Inductive t :=
  | Connecting
  | Connected
  | Disconnected
  | Stale
  | Error.
#[global] Instance eq_dec : EqDecision t.
Proof. solve_decision. Defined.
Definition variants : list t :=
  [Connecting; Connected; Disconnected; Stale; Error].
Definition as_str (x : t) : string :=
  match x with
  | Connecting => "connecting"
  | Connected => "connected"
  | Disconnected => "disconnected"
  | Stale => "stale"
  | Error => "error"
  end.
End FeedStatus.

Module DataFreshnessStatus.
Inductive t :=
  | Fresh
  | Stale
  | Unknown.
#[global] Instance eq_dec : EqDecision t.
Proof. solve_decision. Defined.
Definition variants : list t :=
  [Fresh; Stale; Unknown].
End DataFreshnessStatus.

Module CandleInterval.
Inductive t :=
  | OneMinute
  | FiveMinutes
  | FifteenMinutes
  | OneHour
  | FourHours.
#[global] Instance eq_dec : EqDecision t.
Proof. solve_decision. Defined.
Definition variants : list t :=
  [OneMinute; FiveMinutes; FifteenMinutes; OneHour; FourHours].
Definition as_str (x : t) : string :=
  match x with
  | OneMinute => "1m"
  | FiveMinutes => "5m"
  | FifteenMinutes => "15m"
  | OneHour => "1h"
  | FourHours => "4h"
  end.
End CandleInterval.

Module CandleAggregationFreshnessStatus.
Inductive t :=
  | Fresh
  | Degraded
  | Stale
  | Missing.
#[global] Instance eq_dec : EqDecision t.
Proof. solve_decision. Defined.
Definition variants : list t :=
  [Fresh; Degraded; Stale; Missing].
Definition as_str (x : t) : string :=
  match x with
  | Fresh => "FRESH"
  | Degraded => "DEGRADED"
  | Stale => "STALE"
  | Missing => "MISSING"
  end.
End CandleAggregationFreshnessStatus.

Module MarketDataQualityStatus.
Inductive t :=
  | Good
  | Degraded
  | Bad
  | InsufficientData
  | Unknown.
#[global] Instance eq_dec : EqDecision t.
Proof. solve_decision. Defined.
Definition variants : list t :=
  [Good; Degraded; Bad; InsufficientData; Unknown].
Definition as_str (x : t) : string :=
  match x with
  | Good => "GOOD"
  | Degraded => "DEGRADED"
  | Bad => "BAD"
  | InsufficientData => "INSUFFICIENT_DATA"
  | Unknown => "UNKNOWN"
  end.
End MarketDataQualityStatus.

Module MarketDataRepairMode.
Inductive t :=
  | PlanOnly
  | Repair.
#[global] Instance eq_dec : EqDecision t.
Proof. solve_decision. Defined.
Definition variants : list t :=
  [PlanOnly; Repair].
Definition as_str (x : t) : string :=
  match x with
  | PlanOnly => "PLAN_ONLY"
  | Repair => "REPAIR"
  end.
End MarketDataRepairMode.

Module MarketDataRepairStatus.
Inductive t :=
  | NoRepairNeeded
  | RepairPlanned
  | RepairCompleted
  | PartialRepair
  | RepairFailed
  | InsufficientData
  | UnsupportedInterval.
#[global] Instance eq_dec : EqDecision t.
Proof. solve_decision. Defined.
Definition variants : list t :=
  [NoRepairNeeded; RepairPlanned; RepairCompleted; PartialRepair; RepairFailed; InsufficientData; UnsupportedInterval].
Definition as_str (x : t) : string :=
  match x with
  | NoRepairNeeded => "NO_REPAIR_NEEDED"
  | RepairPlanned => "REPAIR_PLANNED"
  | RepairCompleted => "REPAIR_COMPLETED"
  | PartialRepair => "PARTIAL_REPAIR"
  | RepairFailed => "REPAIR_FAILED"
  | InsufficientData => "INSUFFICIENT_DATA"
  | UnsupportedInterval => "UNSUPPORTED_INTERVAL"
  end.
End MarketDataRepairStatus.

Module Side.
Inductive t :=
  | Buy
  | Sell.
#[global] Instance eq_dec : EqDecision t.
Proof. solve_decision. Defined.
Definition variants : list t :=
  [Buy; Sell].
End Side.

Module StrategyId.
Inductive t :=
  | MomentumV1
  | VolatilityBreakoutV1
  | TrendFilterMomentumV1
  | TrendFilterMomentumV2
  | VolatilityBreakoutV2
  | VolatilityCompressionBreakoutV1
  | RangeReversionV1
  | TrendPullbackContinuationV1
  | FailedBreakdownReclaimV1.
#[global] Instance eq_dec : EqDecision t.
Proof. solve_decision. Defined.
Definition variants : list t :=
  [MomentumV1; VolatilityBreakoutV1; TrendFilterMomentumV1; TrendFilterMomentumV2; VolatilityBreakoutV2; VolatilityCompressionBreakoutV1; RangeReversionV1; TrendPullbackContinuationV1; FailedBreakdownReclaimV1].
Definition as_str (x : t) : string :=
  match x with
  | MomentumV1 => "momentum_v1"
  | VolatilityBreakoutV1 => "volatility_breakout_v1"
  | TrendFilterMomentumV1 => "trend_filter_momentum_v1"
  | TrendFilterMomentumV2 => "trend_filter_momentum_v2"
  | VolatilityBreakoutV2 => "volatility_breakout_v2"
  | VolatilityCompressionBreakoutV1 => "volatility_compression_breakout_v1"
  | RangeReversionV1 => "range_reversion_v1"
  | TrendPullbackContinuationV1 => "trend_pullback_continuation_v1"
  | FailedBreakdownReclaimV1 => "failed_breakdown_reclaim_v1"
  end.
End StrategyId.

Module StrategyStatus.
Inductive t :=
  | Enabled
  | Disabled.
#[global] Instance eq_dec : EqDecision t.
Proof. solve_decision. Defined.
Definition variants : list t :=
  [Enabled; Disabled].
Definition as_str (x : t) : string :=
  match x with
  | Enabled => "enabled"
  | Disabled => "disabled"
  end.
End StrategyStatus.

Module StrategyMode.
Inductive t :=
  | Paper
  | Research
  | Shadow
  | Live.
#[global] Instance eq_dec : EqDecision t.
Proof. solve_decision. Defined.
Definition variants : list t :=
  [Paper; Research; Shadow; Live].
Definition as_str (x : t) : string :=
  match x with
  | Paper => "paper"
  | Research => "research"
  | Shadow => "shadow"
  | Live => "live"
  end.
End StrategyMode.

Module StrategyConfigValidationSeverity.
Inductive t :=
  | Error
  | Warn.
#[global] Instance eq_dec : EqDecision t.
Proof. solve_decision. Defined.
Definition variants : list t :=
  [Error; Warn].
Definition as_str (x : t) : string :=
  match x with
  | Error => "ERROR"
  | Warn => "WARN"
  end.
End StrategyConfigValidationSeverity.

Module SignalSide.
Inductive t :=
  | Buy
  | Sell.
#[global] Instance eq_dec : EqDecision t.
Proof. solve_decision. Defined.
Definition variants : list t :=
  [Buy; Sell].
Definition as_str (x : t) : string :=
  match x with
  | Buy => "BUY"
  | Sell => "SELL"
  end.
End SignalSide.

Module SignalReason.
Inductive t :=
  | ThreeConsecutiveHigherCloses
  | MomentumHigherCloses
  | TrendFilterMomentum
  | BreakoutAboveRecentHigh
  | VolumeConfirmedBreakout
  | VolatilityCompressionBreakout
  | RangeReversion
  | TrendPullbackContinuation
  | FailedBreakdownReclaim
  | ConditionsNotMet
  | InsufficientHistory
  | StrategyDisabled.
#[global] Instance eq_dec : EqDecision t.
Proof. solve_decision. Defined.
Definition variants : list t :=
  [ThreeConsecutiveHigherCloses; MomentumHigherCloses; TrendFilterMomentum; BreakoutAboveRecentHigh; VolumeConfirmedBreakout; VolatilityCompressionBreakout; RangeReversion; TrendPullbackContinuation; FailedBreakdownReclaim; ConditionsNotMet; InsufficientHistory; StrategyDisabled].
Definition as_str (x : t) : string :=
  match x with
  | ThreeConsecutiveHigherCloses => "three_consecutive_higher_closes"
  | MomentumHigherCloses => "momentum_higher_closes"
  | TrendFilterMomentum => "trend_filter_momentum"
  | BreakoutAboveRecentHigh => "breakout_above_recent_high"
  | VolumeConfirmedBreakout => "volume_confirmed_breakout"
  | VolatilityCompressionBreakout => "volatility_compression_breakout"
  | RangeReversion => "range_reversion"
  | TrendPullbackContinuation => "trend_pullback_continuation"
  | FailedBreakdownReclaim => "failed_breakdown_reclaim"
  | ConditionsNotMet => "conditions_not_met"
  | InsufficientHistory => "insufficient_history"
  | StrategyDisabled => "strategy_disabled"
  end.
End SignalReason.

Module ReplayRunStatus.
Inductive t :=
  | Pending
  | Running
  | Completed
  | Failed.
#[global] Instance eq_dec : EqDecision t.
Proof. solve_decision. Defined.
Definition variants : list t :=
  [Pending; Running; Completed; Failed].
Definition as_str (x : t) : string :=
  match x with
  | Pending => "PENDING"
  | Running => "RUNNING"
  | Completed => "COMPLETED"
  | Failed => "FAILED"
  end.
End ReplayRunStatus.

Module ReplayMode.
Inductive t :=
  | Backtest.
#[global] Instance eq_dec : EqDecision t.
Proof. solve_decision. Defined.
Definition variants : list t :=
  [Backtest].
Definition as_str (x : t) : string :=
  match x with
  | Backtest => "backtest"
  end.
End ReplayMode.

Module FeeModel.
Inductive t :=
  | Bps.
#[global] Instance eq_dec : EqDecision t.
Proof. solve_decision. Defined.
Definition variants : list t :=
  [Bps].
End FeeModel.

Module SlippageModel.
Inductive t :=
  | Bps.
#[global] Instance eq_dec : EqDecision t.
Proof. solve_decision. Defined.
Definition variants : list t :=
  [Bps].
End SlippageModel.

Module CandleBackfillStatus.
Inductive t :=
  | Pending
  | Running
  | Completed
  | Failed.
#[global] Instance eq_dec : EqDecision t.
Proof. solve_decision. Defined.
Definition variants : list t :=
  [Pending; Running; Completed; Failed].
Definition as_str (x : t) : string :=
  match x with
  | Pending => "PENDING"
  | Running => "RUNNING"
  | Completed => "COMPLETED"
  | Failed => "FAILED"
  end.
End CandleBackfillStatus.

Module CandleBackfillSource.
Inductive t :=
  | BinanceRestPublic.
#[global] Instance eq_dec : EqDecision t.
Proof. solve_decision. Defined.
Definition variants : list t :=
  [BinanceRestPublic].
Definition as_str (x : t) : string :=
  match x with
  | BinanceRestPublic => "binance_rest_public"
  end.
End CandleBackfillSource.

Module MarketProviderErrorKind.
Inductive t :=
  | DnsError
  | ConnectError
  | Timeout
  | Http4xx
  | Http5xx
  | RateLimited
  | ParseError
  | EmptyResponse
  | Unknown.
#[global] Instance eq_dec : EqDecision t.
Proof. solve_decision. Defined.
Definition variants : list t :=
  [DnsError; ConnectError; Timeout; Http4xx; Http5xx; RateLimited; ParseError; EmptyResponse; Unknown].
Definition as_str (x : t) : string :=
  match x with
  | DnsError => "DNS_ERROR"
  | ConnectError => "CONNECT_ERROR"
  | Timeout => "TIMEOUT"
  | Http4xx => "HTTP_4XX"
  | Http5xx => "HTTP_5XX"
  | RateLimited => "RATE_LIMITED"
  | ParseError => "PARSE_ERROR"
  | EmptyResponse => "EMPTY_RESPONSE"
  | Unknown => "UNKNOWN"
  end.
End MarketProviderErrorKind.

Module ReplaySuppressionReason.
Inductive t :=
  | CooldownActive
  | PositionAlreadyOpen
  | InsufficientForwardData
  | InvalidSignal
  | None_.
#[global] Instance eq_dec : EqDecision t.
Proof. solve_decision. Defined.
Definition variants : list t :=
  [CooldownActive; PositionAlreadyOpen; InsufficientForwardData; InvalidSignal; None_].
Definition as_str (x : t) : string :=
  match x with
  | CooldownActive => "COOLDOWN_ACTIVE"
  | PositionAlreadyOpen => "POSITION_ALREADY_OPEN"
  | InsufficientForwardData => "INSUFFICIENT_FORWARD_DATA"
  | InvalidSignal => "INVALID_SIGNAL"
  | None_ => "NONE"
  end.
End ReplaySuppressionReason.

Module ExecutionReadinessTarget.
Inductive t :=
  | PaperPipeline
  | TestnetShadow
  | TestnetPromotion
  | TestnetSubmit.
#[global] Instance eq_dec : EqDecision t.
Proof. solve_decision. Defined.
Definition variants : list t :=
  [PaperPipeline; TestnetShadow; TestnetPromotion; TestnetSubmit].
Definition as_str (x : t) : string :=
  match x with
  | PaperPipeline => "PAPER_PIPELINE"
  | TestnetShadow => "TESTNET_SHADOW"
  | TestnetPromotion => "TESTNET_PROMOTION"
  | TestnetSubmit => "TESTNET_SUBMIT"
  end.
End ExecutionReadinessTarget.

Module ExecutionReadinessStatus.
Inductive t :=
  | Ready
  | NotReady
  | Degraded
  | Unknown.
#[global] Instance eq_dec : EqDecision t.
Proof. solve_decision. Defined.
Definition variants : list t :=
  [Ready; NotReady; Degraded; Unknown].
Definition as_str (x : t) : string :=
  match x with
  | Ready => "READY"
  | NotReady => "NOT_READY"
  | Degraded => "DEGRADED"
  | Unknown => "UNKNOWN"
  end.
End ExecutionReadinessStatus.

Module ExecutionReadinessCheckSeverity.
Inductive t :=
  | Low
  | Medium
  | High
  | Critical.
#[global] Instance eq_dec : EqDecision t.
Proof. solve_decision. Defined.
Definition variants : list t :=
  [Low; Medium; High; Critical].
End ExecutionReadinessCheckSeverity.

Module ExchangeEnvironment.
Inductive t :=
  | Testnet
  | Live.
#[global] Instance eq_dec : EqDecision t.
Proof. solve_decision. Defined.
Definition variants : list t :=
  [Testnet; Live].
Definition as_str (x : t) : string :=
  match x with
  | Testnet => "testnet"
  | Live => "live"
  end.
End ExchangeEnvironment.

Module ExchangeName.
Inductive t :=
  | Binance.
#[global] Instance eq_dec : EqDecision t.
Proof. solve_decision. Defined.
Definition variants : list t :=
  [Binance].
Definition as_str (x : t) : string :=
  match x with
  | Binance => "binance"
  end.
End ExchangeName.

Module ExchangeOrderSide.
Inductive t :=
  | Buy
  | Sell.
#[global] Instance eq_dec : EqDecision t.
Proof. solve_decision. Defined.
Definition variants : list t :=
  [Buy; Sell].
Definition as_str (x : t) : string :=
  match x with
  | Buy => "BUY"
  | Sell => "SELL"
  end.
End ExchangeOrderSide.

Module ExchangeOrderType.
Inductive t :=
  | Market
  | Limit.
#[global] Instance eq_dec : EqDecision t.
Proof. solve_decision. Defined.
Definition variants : list t :=
  [Market; Limit].
Definition as_str (x : t) : string :=
  match x with
  | Market => "MARKET"
  | Limit => "LIMIT"
  end.
End ExchangeOrderType.

Module ExchangeOrderTimeInForce.
Inductive t :=
  | Gtc
  | Ioc
  | Fok.
#[global] Instance eq_dec : EqDecision t.
Proof. solve_decision. Defined.
Definition variants : list t :=
  [Gtc; Ioc; Fok].
Definition as_str (x : t) : string :=
  match x with
  | Gtc => "GTC"
  | Ioc => "IOC"
  | Fok => "FOK"
  end.
End ExchangeOrderTimeInForce.

Module ExchangeOrderState.
Inductive t :=
  | New
  | PartiallyFilled
  | Filled
  | Canceled
  | PendingCancel
  | Rejected
  | Expired.
#[global] Instance eq_dec : EqDecision t.
Proof. solve_decision. Defined.
Definition variants : list t :=
  [New; PartiallyFilled; Filled; Canceled; PendingCancel; Rejected; Expired].
Definition as_str (x : t) : string :=
  match x with
  | New => "NEW"
  | PartiallyFilled => "PARTIALLY_FILLED"
  | Filled => "FILLED"
  | Canceled => "CANCELED"
  | PendingCancel => "PENDING_CANCEL"
  | Rejected => "REJECTED"
  | Expired => "EXPIRED"
  end.
End ExchangeOrderState.

Module TestnetExecutionState.
Inductive t :=
  | IntentCreated
  | RiskApproved
  | OrderPrepared
  | OrderSubmitRequested
  | ExchangeAcked
  | New
  | PartiallyFilled
  | Filled
  | CancelRequested
  | Cancelled
  | Rejected
  | Expired
  | ReconciliationRequired
  | UnknownExchangeState
  | Failed.
#[global] Instance eq_dec : EqDecision t.
Proof. solve_decision. Defined.
Definition variants : list t :=
  [IntentCreated; RiskApproved; OrderPrepared; OrderSubmitRequested; ExchangeAcked; New; PartiallyFilled; Filled; CancelRequested; Cancelled; Rejected; Expired; ReconciliationRequired; UnknownExchangeState; Failed].
Definition as_str (x : t) : string :=
  match x with
  | IntentCreated => "INTENT_CREATED"
  | RiskApproved => "RISK_APPROVED"
  | OrderPrepared => "ORDER_PREPARED"
  | OrderSubmitRequested => "ORDER_SUBMIT_REQUESTED"
  | ExchangeAcked => "EXCHANGE_ACKED"
  | New => "NEW"
  | PartiallyFilled => "PARTIALLY_FILLED"
  | Filled => "FILLED"
  | CancelRequested => "CANCEL_REQUESTED"
  | Cancelled => "CANCELLED"
  | Rejected => "REJECTED"
  | Expired => "EXPIRED"
  | ReconciliationRequired => "RECONCILIATION_REQUIRED"
  | UnknownExchangeState => "UNKNOWN_EXCHANGE_STATE"
  | Failed => "FAILED"
  end.
End TestnetExecutionState.

Module TestnetExecutionTransitionSource.
Inductive t :=
  | ApiSubmit
  | ExchangeAck
  | PrivateStream
  | RestReconciliation
  | ApiCancel
  | ExchangeCancelAck
  | OperatorMarkReconciliationRequired.
#[global] Instance eq_dec : EqDecision t.
Proof. solve_decision. Defined.
Definition variants : list t :=
  [ApiSubmit; ExchangeAck; PrivateStream; RestReconciliation; ApiCancel; ExchangeCancelAck; OperatorMarkReconciliationRequired].
Definition as_str (x : t) : string :=
  match x with
  | ApiSubmit => "API_SUBMIT"
  | ExchangeAck => "EXCHANGE_ACK"
  | PrivateStream => "PRIVATE_STREAM"
  | RestReconciliation => "REST_RECONCILIATION"
  | ApiCancel => "API_CANCEL"
  | ExchangeCancelAck => "EXCHANGE_CANCEL_ACK"
  | OperatorMarkReconciliationRequired => "OPERATOR_MARK_RECONCILIATION_REQUIRED"
  end.
End TestnetExecutionTransitionSource.

Module TestnetRepairAction.
Inductive t :=
  | MarkReconciliationRequired
  | ManualRecheck
  | MarkAcked
  | MarkCancelled
  | MarkRejected
  | MarkFailed
  | SafeCancelRequest.
#[global] Instance eq_dec : EqDecision t.
Proof. solve_decision. Defined.
Definition variants : list t :=
  [MarkReconciliationRequired; ManualRecheck; MarkAcked; MarkCancelled; MarkRejected; MarkFailed; SafeCancelRequest].
Definition as_str (x : t) : string :=
  match x with
  | MarkReconciliationRequired => "MARK_RECONCILIATION_REQUIRED"
  | ManualRecheck => "MANUAL_RECHECK"
  | MarkAcked => "MARK_ACKED"
  | MarkCancelled => "MARK_CANCELLED"
  | MarkRejected => "MARK_REJECTED"
  | MarkFailed => "MARK_FAILED"
  | SafeCancelRequest => "SAFE_CANCEL_REQUEST"
  end.
End TestnetRepairAction.

Module TestnetRepairActionStatus.
Inductive t :=
  | Applied
  | Rejected
  | Failed.
#[global] Instance eq_dec : EqDecision t.
Proof. solve_decision. Defined.
Definition variants : list t :=
  [Applied; Rejected; Failed].
Definition as_str (x : t) : string :=
  match x with
  | Applied => "APPLIED"
  | Rejected => "REJECTED"
  | Failed => "FAILED"
  end.
End TestnetRepairActionStatus.

Module ExchangePrivateStreamStatus.
Inductive t :=
  | Connecting
  | Connected
  | Stale
  | Disconnected
  | Error.
#[global] Instance eq_dec : EqDecision t.
Proof. solve_decision. Defined.
Definition variants : list t :=
  [Connecting; Connected; Stale; Disconnected; Error].
Definition as_str (x : t) : string :=
  match x with
  | Connecting => "CONNECTING"
  | Connected => "CONNECTED"
  | Stale => "STALE"
  | Disconnected => "DISCONNECTED"
  | Error => "ERROR"
  end.
End ExchangePrivateStreamStatus.

Module ExchangePrivateStreamSource.
Inductive t :=
  | Websocket
  | ListenKeyLifecycle
  | Runtime.
#[global] Instance eq_dec : EqDecision t.
Proof. solve_decision. Defined.
Definition variants : list t :=
  [Websocket; ListenKeyLifecycle; Runtime].
Definition as_str (x : t) : string :=
  match x with
  | Websocket => "websocket"
  | ListenKeyLifecycle => "listen_key_lifecycle"
  | Runtime => "runtime"
  end.
End ExchangePrivateStreamSource.

Module ExchangeExecutionReportType.
Inductive t :=
  | New
  | Canceled
  | Replaced
  | Rejected
  | Trade
  | Expired
  | TradePrevention
  | Unknown.
#[global] Instance eq_dec : EqDecision t.
Proof. solve_decision. Defined.
Definition variants : list t :=
  [New; Canceled; Replaced; Rejected; Trade; Expired; TradePrevention; Unknown].
Definition as_str (x : t) : string :=
  match x with
  | New => "NEW"
  | Canceled => "CANCELED"
  | Replaced => "REPLACED"
  | Rejected => "REJECTED"
  | Trade => "TRADE"
  | Expired => "EXPIRED"
  | TradePrevention => "TRADE_PREVENTION"
  | Unknown => "UNKNOWN"
  end.
End ExchangeExecutionReportType.

Module ExchangeExecutionStatus.
Inductive t :=
  | New
  | PartiallyFilled
  | Filled
  | Canceled
  | PendingCancel
  | Rejected
  | Expired
  | ExpiredInMatch
  | Unknown.
#[global] Instance eq_dec : EqDecision t.
Proof. solve_decision. Defined.
Definition variants : list t :=
  [New; PartiallyFilled; Filled; Canceled; PendingCancel; Rejected; Expired; ExpiredInMatch; Unknown].
Definition as_str (x : t) : string :=
  match x with
  | New => "NEW"
  | PartiallyFilled => "PARTIALLY_FILLED"
  | Filled => "FILLED"
  | Canceled => "CANCELED"
  | PendingCancel => "PENDING_CANCEL"
  | Rejected => "REJECTED"
  | Expired => "EXPIRED"
  | ExpiredInMatch => "EXPIRED_IN_MATCH"
  | Unknown => "UNKNOWN"
  end.
End ExchangeExecutionStatus.

Module RiskRuleDecision.
Inductive t :=
  | Pass
  | Reject
  | Warn.
#[global] Instance eq_dec : EqDecision t.
Proof. solve_decision. Defined.
Definition variants : list t :=
  [Pass; Reject; Warn].
End RiskRuleDecision.

Module RiskRejectionReason.
Inductive t :=
  | KillSwitchActive
  | MaxOpenPositionsExceeded
  | MaxDailyLossExceeded
  | MaxWeeklyLossExceeded
  | MaxConsecutiveLossesExceeded
  | SignalTooOld
  | DuplicateOrderDetected
  | DataStale
  | PositionNotionalExceeded
  | CooldownActive
  | UnsupportedState.
#[global] Instance eq_dec : EqDecision t.
Proof. solve_decision. Defined.
Definition variants : list t :=
  [KillSwitchActive; MaxOpenPositionsExceeded; MaxDailyLossExceeded; MaxWeeklyLossExceeded; MaxConsecutiveLossesExceeded; SignalTooOld; DuplicateOrderDetected; DataStale; PositionNotionalExceeded; CooldownActive; UnsupportedState].
End RiskRejectionReason.

Module RiskEvaluationDecision.
Inductive t :=
  | Approved
  | Rejected.
#[global] Instance eq_dec : EqDecision t.
Proof. solve_decision. Defined.
Definition variants : list t :=
  [Approved; Rejected].
End RiskEvaluationDecision.

Module OrderStatus.
Inductive t :=
  | Open
  | Rejected
  | Filled
  | Cancelled
  | Expired.
#[global] Instance eq_dec : EqDecision t.
Proof. solve_decision. Defined.
Definition variants : list t :=
  [Open; Rejected; Filled; Cancelled; Expired].
End OrderStatus.

Module ExecutionState.
Inductive t :=
  | IntentCreated
  | RiskApproved
  | OrderPrepared
  | PaperSubmitted
  | PaperFilled
  | PaperCancelled
  | Rejected
  | Expired.
#[global] Instance eq_dec : EqDecision t.
Proof. solve_decision. Defined.
Definition variants : list t :=
  [IntentCreated; RiskApproved; OrderPrepared; PaperSubmitted; PaperFilled; PaperCancelled; Rejected; Expired].
Definition as_event_name (x : t) : string :=
  match x with
  | IntentCreated => "INTENT_CREATED"
  | RiskApproved => "RISK_APPROVED"
  | OrderPrepared => "ORDER_PREPARED"
  | PaperSubmitted => "PAPER_SUBMITTED"
  | PaperFilled => "PAPER_FILLED"
  | PaperCancelled => "PAPER_CANCELLED"
  | Rejected => "REJECTED"
  | Expired => "EXPIRED"
  end.
End ExecutionState.

Module PaperAccountStatus.
Inductive t :=
  | Active
  | Disabled.
#[global] Instance eq_dec : EqDecision t.
Proof. solve_decision. Defined.
Definition variants : list t :=
  [Active; Disabled].
Definition as_str (x : t) : string :=
  match x with
  | Active => "active"
  | Disabled => "disabled"
  end.
End PaperAccountStatus.

Module PositionSide.
Inductive t :=
  | Long.
#[global] Instance eq_dec : EqDecision t.
Proof. solve_decision. Defined.
Definition variants : list t :=
  [Long].
Definition as_str (x : t) : string :=
  match x with
  | Long => "long"
  end.
End PositionSide.

Module PositionStatus.
Inductive t :=
  | Open
  | Closed.
#[global] Instance eq_dec : EqDecision t.
Proof. solve_decision. Defined.
Definition variants : list t :=
  [Open; Closed].
Definition as_str (x : t) : string :=
  match x with
  | Open => "open"
  | Closed => "closed"
  end.
End PositionStatus.

Module PnlCalculationMode.
Inductive t :=
  | WeightedAverage.
#[global] Instance eq_dec : EqDecision t.
Proof. solve_decision. Defined.
Definition variants : list t :=
  [WeightedAverage].
Definition as_str (x : t) : string :=
  match x with
  | WeightedAverage => "weighted_average"
  end.
End PnlCalculationMode.

Module PaperPriceStatus.
Inductive t :=
  | Live
  | Stale
  | Missing.
#[global] Instance eq_dec : EqDecision t.
Proof. solve_decision. Defined.
Definition variants : list t :=
  [Live; Stale; Missing].
Definition as_str (x : t) : string :=
  match x with
  | Live => "live"
  | Stale => "stale"
  | Missing => "missing"
  end.
End PaperPriceStatus.

Module PaperCloseMode.
Inductive t :=
  | MarketSimulated.
#[global] Instance eq_dec : EqDecision t.
Proof. solve_decision. Defined.
Definition variants : list t :=
  [MarketSimulated].
Definition as_str (x : t) : string :=
  match x with
  | MarketSimulated => "market_simulated"
  end.
End PaperCloseMode.

Module PaperCloseReason.
Inductive t :=
  | ManualOperatorExit
  | RiskOperatorExit
  | EmergencyExit.
#[global] Instance eq_dec : EqDecision t.
Proof. solve_decision. Defined.
Definition variants : list t :=
  [ManualOperatorExit; RiskOperatorExit; EmergencyExit].
Definition as_str (x : t) : string :=
  match x with
  | ManualOperatorExit => "manual_operator_exit"
  | RiskOperatorExit => "risk_operator_exit"
  | EmergencyExit => "emergency_exit"
  end.
End PaperCloseReason.

Module PaperCloseStatus.
Inductive t :=
  | Closed
  | AlreadyClosed.
#[global] Instance eq_dec : EqDecision t.
Proof. solve_decision. Defined.
Definition variants : list t :=
  [Closed; AlreadyClosed].
Definition as_str (x : t) : string :=
  match x with
  | Closed => "closed"
  | AlreadyClosed => "already_closed"
  end.
End PaperCloseStatus.

Module PaperPositionStatusFilter.
Inductive t :=
  | Open
  | Closed
  | All.
#[global] Instance eq_dec : EqDecision t.
Proof. solve_decision. Defined.
Definition variants : list t :=
  [Open; Closed; All].
Definition as_str (x : t) : string :=
  match x with
  | Open => "open"
  | Closed => "closed"
  | All => "all"
  end.
End PaperPositionStatusFilter.

Module CoreError.
Inductive t :=
  | EmptySymbol
  | UnsupportedMarketDataSource (a0 : string)
  | UnsupportedCandleInterval (a0 : string)
  | UnsupportedStrategyId (a0 : string)
  | UnsupportedStrategyStatus (a0 : string)
  | UnsupportedStrategyMode (a0 : string)
  | UnsupportedStrategyPerformanceMode (a0 : string)
  | UnsupportedExecutionReadinessTarget (a0 : string)
  | UnsupportedOperatorReportFormat (a0 : string)
  | UnsupportedSignalSide (a0 : string)
  | UnsupportedSignalReason (a0 : string)
  | UnsupportedShadowDecision (a0 : string)
  | UnsupportedShadowStatus (a0 : string)
  | UnsupportedShadowRejectionReason (a0 : string)
  | UnsupportedShadowPromotionStatus (a0 : string)
  | UnsupportedShadowPromotionRejectionReason (a0 : string)
  | UnsupportedShadowRunnerStatus (a0 : string)
  | UnsupportedShadowRunnerStaleFeedPolicy (a0 : string)
  | UnsupportedShadowRunnerControlAction (a0 : string)
  | UnsupportedShadowRunnerTickStatus (a0 : string)
  | UnsupportedReplayRunStatus (a0 : string)
  | UnsupportedStrategyExperimentStatus (a0 : string)
  | UnsupportedStrategyWalkForwardStatus (a0 : string)
  | UnsupportedStrategyResearchCandidateSource (a0 : string)
  | UnsupportedStrategyResearchCandidateStatus (a0 : string)
  | UnsupportedStrategyResearchCandidateRejectionReason (a0 : string)
  | UnsupportedStrategyCandidateObservationStatus (a0 : string)
  | UnsupportedStrategyCandidateObservationDecision (a0 : string)
  | UnsupportedResearchCandidateStatus (a0 : string)
  | UnsupportedResearchCandidateDecision (a0 : string)
  | UnsupportedResearchCandidateReviewAction (a0 : string)
  | UnsupportedResearchCandidateReviewStatus (a0 : string)
  | UnsupportedResearchCandidateShadowPerformanceStatus (a0 : string)
  | UnsupportedResearchCandidateShadowPerformanceRecommendation (a0 : string)
  | UnsupportedResearchBatchStatus (a0 : string)
  | UnsupportedResearchBatchStepStatus (a0 : string)
  | UnsupportedResearchCampaignStatus (a0 : string)
  | UnsupportedResearchCandidateCreationMode (a0 : string)
  | UnsupportedResearchRegimeDatasetStatus (a0 : string)
  | UnsupportedResearchRegimeDiscoveryStatus (a0 : string)
  | UnsupportedResearchRegimeCalibrationStatus (a0 : string)
  | UnsupportedResearchRegimeLabel (a0 : string)
  | UnsupportedResearchExperimentPlanStatus (a0 : string)
  | UnsupportedResearchExperimentPlanSource (a0 : string)
  | UnsupportedResearchExperimentPlanType (a0 : string)
  | UnsupportedResearchExperimentPlanRunStatus (a0 : string)
  | UnsupportedResearchExperimentPlanRunMode (a0 : string)
  | UnsupportedResearchStaleRunRecoveryTargetType (a0 : string)
  | UnsupportedScheduledResearchJobStatus (a0 : string)
  | UnsupportedScheduledResearchJobKind (a0 : string)
  | UnsupportedScheduledResearchJobRunStatus (a0 : string)
  | EmptyScheduledResearchJobName
  | InvalidScheduledResearchJobInterval
  | InvalidScheduledResearchJobMaxRuns
  | UnsafeScheduledResearchJobKind (a0 : string)
  | UnsupportedStrategyRobustnessMatrixStatus (a0 : string)
  | UnsupportedCrossAssetResearchStatus (a0 : string)
  | UnsupportedCrossAssetStrategyKind (a0 : string)
  | UnsupportedCrossAssetRankMetric (a0 : string)
  | UnsupportedCrossAssetSizingMode (a0 : string)
  | UnsupportedCrossAssetMarketFilter (a0 : string)
  | UnsupportedCrossAssetVolFilter (a0 : string)
  | UnsupportedCrossAssetOverextensionFilter (a0 : string)
  | UnsupportedCrossAssetExitRule (a0 : string)
  | UnsupportedCrossAssetResearchRecommendation (a0 : string)
  | UnsupportedCrossAssetRobustnessStatus (a0 : string)
  | UnsupportedCrossAssetRobustnessRecommendation (a0 : string)
  | EmptyResearchCampaignStrategies
  | EmptyResearchCampaignSymbols
  | EmptyResearchCampaignTimeframes
  | EmptyResearchCampaignWindows
  | ResearchExperimentPlanRequiresAcceptedHypothesis
  | ResearchExperimentPlanRequiresPersistedHypothesis
  | EmptyStrategyRobustnessMatrixStrategies
  | EmptyStrategyRobustnessMatrixSymbols
  | EmptyStrategyRobustnessMatrixTimeframes
  | EmptyStrategyRobustnessMatrixWindows
  | InvalidResearchCampaignTimeRange
  | InvalidResearchCampaignWindowStep
  | InvalidResearchRegimeDatasetTimeRange
  | InvalidResearchRegimeDatasetWindowStep
  | InvalidResearchRegimeDatasetMinCandles
  | InvalidResearchRegimeClassifierConfig (a0 : string)
  | InvalidStrategyRobustnessMatrixTimeRange
  | InvalidStrategyRobustnessMatrixWindowStep
  | InvalidResearchCandidateTransition (a0 : string) (a1 : string)
  | InvalidResearchCandidateReviewAction (a0 : string) (a1 : string)
  | MissingResearchCandidateReviewReason (a0 : string)
  | ResearchCandidateReviewRequiresQualified (a0 : string)
  | ResearchCandidateReviewRequiresInvestigationContext (a0 : string)
  | InvalidResearchCandidateImportBundle (a0 : string)
  | UnsupportedReplayMode (a0 : string)
  | UnsupportedExchangeEnvironment (a0 : string)
  | UnsupportedExchangeName (a0 : string)
  | UnsupportedExchangeReconciliationStatus (a0 : string)
  | UnsupportedExchangePrivateStreamStatus (a0 : string)
  | UnsupportedExchangePrivateStreamSource (a0 : string)
  | UnsupportedTestnetExecutionState (a0 : string)
  | UnsupportedTestnetRepairAction (a0 : string)
  | UnsupportedTestnetRepairActionStatus (a0 : string)
  | UnsupportedTestnetExecutionTransitionSource (a0 : string)
  | UnsupportedExchangeReconciliationMismatchKind (a0 : string)
  | UnsupportedExchangeReconciliationAction (a0 : string)
  | UnsupportedPaperAccountStatus (a0 : string)
  | UnsupportedPositionSide (a0 : string)
  | UnsupportedPositionStatus (a0 : string)
  | UnsupportedPnlCalculationMode (a0 : string)
  | UnsupportedPaperPriceStatus (a0 : string)
  | UnsupportedPaperCloseMode (a0 : string)
  | UnsupportedPaperCloseReason (a0 : string)
  | UnsupportedPaperPositionStatusFilter (a0 : string)
  | UnsupportedCandleBackfillStatus (a0 : string)
  | UnsupportedCandleBackfillSource (a0 : string)
  | UnsupportedMarketDataQualityStatus (a0 : string)
  | UnsupportedMarketDataRepairStatus (a0 : string)
  | UnsupportedUserRole (a0 : string)
  | UnsupportedUserStatus (a0 : string)
  | EmptyIdempotencyKey
  | EmptyClientOrderId
  | EmptyBacktestStrategyId
  | EmptyBacktestSymbol
  | EmptyBacktestTimeframe
  | EmptyStrategyExperimentStrategyId
  | EmptyStrategyExperimentSymbol
  | EmptyStrategyExperimentTimeframe
  | EmptyStrategyExperimentTimeframes
  | EmptyStrategyExperimentCandidates
  | EmptyStrategyWalkForwardStrategyId
  | EmptyStrategyWalkForwardSymbol
  | EmptyStrategyWalkForwardTimeframe
  | EmptyStrategyWalkForwardCandidateLookback
  | EmptyCandleBackfillSymbol
  | EmptyCandleBackfillInterval
  | EmptyResearchDataInterval
  | EmptyResearchDataIntervals
  | InvalidBacktestTimeRange
  | InvalidCandleBackfillTimeRange
  | InvalidResearchDataTimeRange
  | InvalidResearchCoveragePct
  | InvalidOperatorReportTimeRange
  | InvalidStrategyExperimentTimeRange
  | InvalidStrategyWalkForwardTimeRange
  | InvalidBacktestInitialCapital
  | InvalidStrategyExperimentInitialCapital
  | InvalidStrategyWalkForwardInitialCapital
  | InvalidStrategyRobustnessMatrixInitialCapital
  | InvalidStrategyExperimentMaxRuns
  | InvalidStrategyWalkForwardMinRequiredWindows
  | InvalidStrategyWalkForwardWindowSize (a0 : string)
  | InvalidStrategyWalkForwardStepSize
  | InvalidStrategyRobustnessMatrixThreshold (a0 : string)
  | InvalidCrossAssetResearchRequest (a0 : string)
  | InvalidCrossAssetRobustnessMatrixRequest (a0 : string)
  | InvalidCandleBackfillLimit
  | InvalidMarketDataRepairMaxRanges
  | CandleBackfillLimitTooHigh (a0 : Z)
  | InvalidExchangeReconciliationLimit (a0 : Z)
  | ExchangeReconciliationLimitTooHigh (a0 : Z)
  | InvalidExchangeReconciliationStatusFilter
  | InvalidExchangeReconnectCount (a0 : Z)
  | InvalidExchangePrivateStreamEventType
  | InvalidTestnetExecutionTransition (previous_state : option TestnetExecutionState.t) (next_state : TestnetExecutionState.t) (transition_source : TestnetExecutionTransitionSource.t)
  | InvalidTestnetRepairConfirmation (expected : string) (actual : string)
  | InvalidTestnetShadowPromotionConfirmation (expected : string) (actual : string)
  | InvalidTestnetRepairTransition (action : TestnetRepairAction.t) (previous_state : TestnetExecutionState.t) (next_state : option TestnetExecutionState.t)
  | InvalidCandleBackfillEstimate
  | InvalidHoldingCandles
  | InvalidBacktestBps (a0 : string)
  | PasswordTooShort (min_length : nat)
  | InvalidOrderQuantity
  | InvalidExchangeQuantity
  | InvalidExchangeNotional
  | InvalidExchangeLimitPrice
  | MissingExchangeQuantityOrNotional
  | MissingExchangeLimitPrice
  | MissingExchangeTimeInForce
  | LiveExchangeEnvironmentRejected
  | InvalidLimitPrice
  | InvalidStrategyNotional
  | InvalidStrategyMaxSignalAgeMs (a0 : Z)
  | InvalidRiskConfig (a0 : string)
  | EmptyStrategySymbols
  | InvalidSignalConfidence (a0 : string)
  | InvalidMarketTradePrice
  | InvalidMarketTradeQuantity
  | InvalidExecutionTransition (from_ : ExecutionState.t) (to : ExecutionState.t).
End CoreError.

(** ** Parsing a name *)

Class FromStr (A : Type) := {
  normalise : string -> string;      (** [to_ascii_lowercase] or [.._uppercase] *)
  table : list (string * A);         (** the arms of the [match], in order *)
  unsupported : string -> CoreError.t
}.

Fixpoint lookup_name {A} (s : string) (l : list (string * A)) : option A :=
  match l with
  | [] => None
  | (n, x) :: l => if String.eqb s n then Some x else lookup_name s l
  end.

Definition from_str {A} `{FromStr A} (value : string) : res CoreError.t A :=
  let s := normalise (trim value) in
  match lookup_name s table with
  | Some x => Ok x
  | None => Err (unsupported s)
  end.

(** What the rest of the system relies on: the printed name of every value is
    accepted, and stands for that value. *)
Class FromStrLaws (A : Type) `{FromStr A} (as_str : A -> string) := {
  as_str_normal : forall x, normalise (trim (as_str x)) = as_str x;
  as_str_accepted : forall x, lookup_name (as_str x) table = Some x
}.

Section FromStr.
Context {A : Type} `{FS : FromStr A} {as_str : A -> string} `{!FromStrLaws A as_str}.

Lemma from_str_print x : from_str (as_str x) = Ok x.
Proof. unfold from_str. by rewrite as_str_normal, as_str_accepted. Qed.

Lemma as_str_injective x y : as_str x = as_str y -> x = y.
Proof.
  intros H. pose proof (from_str_print x) as Hx. rewrite H, from_str_print in Hx. congruence.
Qed.

Lemma from_str_error value e :
  from_str value = Err e ->
  e = unsupported (normalise (trim value)) /\ forall x, normalise (trim value) <> as_str x.
Proof using FromStrLaws0.
  unfold from_str. destruct (lookup_name _ _) eqn:E; [discriminate|]. intros [= <-].
  split; [done|]. intros x Hx. rewrite Hx, as_str_accepted in E. discriminate.
Qed.
End FromStr.

#[export] Hint Resolve from_str_print : aegis.

Ltac solve_from_str :=
  split; let x := fresh in intros x; destruct x; vm_compute; reflexivity.

#[export] Instance MarketDataSource_from_str : FromStr MarketDataSource.t := {|
  normalise := to_ascii_lowercase;
  table := [("binance", MarketDataSource.Binance)];
  unsupported := CoreError.UnsupportedMarketDataSource
|}.
#[export] Instance UserRole_from_str : FromStr UserRole.t := {|
  normalise := to_ascii_uppercase;
  table := [("OWNER", UserRole.Owner);
    ("OPERATOR", UserRole.Operator);
    ("VIEWER", UserRole.Viewer)];
  unsupported := CoreError.UnsupportedUserRole
|}.
#[export] Instance UserStatus_from_str : FromStr UserStatus.t := {|
  normalise := to_ascii_uppercase;
  table := [("ACTIVE", UserStatus.Active);
    ("DISABLED", UserStatus.Disabled)];
  unsupported := CoreError.UnsupportedUserStatus
|}.
#[export] Instance CandleInterval_from_str : FromStr CandleInterval.t := {|
  normalise := to_ascii_lowercase;
  table := [("1m", CandleInterval.OneMinute);
    ("5m", CandleInterval.FiveMinutes);
    ("15m", CandleInterval.FifteenMinutes);
    ("1h", CandleInterval.OneHour);
    ("4h", CandleInterval.FourHours)];
  unsupported := CoreError.UnsupportedCandleInterval
|}.
#[export] Instance MarketDataQualityStatus_from_str : FromStr MarketDataQualityStatus.t := {|
  normalise := to_ascii_uppercase;
  table := [("GOOD", MarketDataQualityStatus.Good);
    ("DEGRADED", MarketDataQualityStatus.Degraded);
    ("BAD", MarketDataQualityStatus.Bad);
    ("INSUFFICIENT_DATA", MarketDataQualityStatus.InsufficientData);
    ("UNKNOWN", MarketDataQualityStatus.Unknown)];
  unsupported := CoreError.UnsupportedMarketDataQualityStatus
|}.
#[export] Instance MarketDataRepairStatus_from_str : FromStr MarketDataRepairStatus.t := {|
  normalise := to_ascii_uppercase;
  table := [("NO_REPAIR_NEEDED", MarketDataRepairStatus.NoRepairNeeded);
    ("REPAIR_PLANNED", MarketDataRepairStatus.RepairPlanned);
    ("REPAIR_COMPLETED", MarketDataRepairStatus.RepairCompleted);
    ("PARTIAL_REPAIR", MarketDataRepairStatus.PartialRepair);
    ("REPAIR_FAILED", MarketDataRepairStatus.RepairFailed);
    ("INSUFFICIENT_DATA", MarketDataRepairStatus.InsufficientData);
    ("UNSUPPORTED_INTERVAL", MarketDataRepairStatus.UnsupportedInterval)];
  unsupported := CoreError.UnsupportedMarketDataRepairStatus
|}.
#[export] Instance StrategyId_from_str : FromStr StrategyId.t := {|
  normalise := to_ascii_lowercase;
  table := [("momentum_v1", StrategyId.MomentumV1);
    ("volatility_breakout_v1", StrategyId.VolatilityBreakoutV1);
    ("trend_filter_momentum_v1", StrategyId.TrendFilterMomentumV1);
    ("trend_filter_momentum_v2", StrategyId.TrendFilterMomentumV2);
    ("volatility_breakout_v2", StrategyId.VolatilityBreakoutV2);
    ("volatility_compression_breakout_v1", StrategyId.VolatilityCompressionBreakoutV1);
    ("range_reversion_v1", StrategyId.RangeReversionV1);
    ("trend_pullback_continuation_v1", StrategyId.TrendPullbackContinuationV1);
    ("failed_breakdown_reclaim_v1", StrategyId.FailedBreakdownReclaimV1)];
  unsupported := CoreError.UnsupportedStrategyId
|}.
#[export] Instance StrategyStatus_from_str : FromStr StrategyStatus.t := {|
  normalise := to_ascii_lowercase;
  table := [("enabled", StrategyStatus.Enabled);
    ("disabled", StrategyStatus.Disabled)];
  unsupported := CoreError.UnsupportedStrategyStatus
|}.
#[export] Instance StrategyMode_from_str : FromStr StrategyMode.t := {|
  normalise := to_ascii_lowercase;
  table := [("paper", StrategyMode.Paper);
    ("research", StrategyMode.Research);
    ("shadow", StrategyMode.Shadow);
    ("live", StrategyMode.Live);
    ("signal_only", StrategyMode.Paper)];
  unsupported := CoreError.UnsupportedStrategyMode
|}.
#[export] Instance SignalSide_from_str : FromStr SignalSide.t := {|
  normalise := to_ascii_uppercase;
  table := [("BUY", SignalSide.Buy);
    ("SELL", SignalSide.Sell)];
  unsupported := CoreError.UnsupportedSignalSide
|}.
#[export] Instance SignalReason_from_str : FromStr SignalReason.t := {|
  normalise := to_ascii_lowercase;
  table := [("three_consecutive_higher_closes", SignalReason.ThreeConsecutiveHigherCloses);
    ("momentum_higher_closes", SignalReason.MomentumHigherCloses);
    ("trend_filter_momentum", SignalReason.TrendFilterMomentum);
    ("breakout_above_recent_high", SignalReason.BreakoutAboveRecentHigh);
    ("volume_confirmed_breakout", SignalReason.VolumeConfirmedBreakout);
    ("volatility_compression_breakout", SignalReason.VolatilityCompressionBreakout);
    ("range_reversion", SignalReason.RangeReversion);
    ("trend_pullback_continuation", SignalReason.TrendPullbackContinuation);
    ("failed_breakdown_reclaim", SignalReason.FailedBreakdownReclaim);
    ("conditions_not_met", SignalReason.ConditionsNotMet);
    ("insufficient_history", SignalReason.InsufficientHistory);
    ("strategy_disabled", SignalReason.StrategyDisabled)];
  unsupported := CoreError.UnsupportedSignalReason
|}.
#[export] Instance ReplayRunStatus_from_str : FromStr ReplayRunStatus.t := {|
  normalise := to_ascii_uppercase;
  table := [("PENDING", ReplayRunStatus.Pending);
    ("RUNNING", ReplayRunStatus.Running);
    ("COMPLETED", ReplayRunStatus.Completed);
    ("FAILED", ReplayRunStatus.Failed)];
  unsupported := CoreError.UnsupportedReplayRunStatus
|}.
#[export] Instance ReplayMode_from_str : FromStr ReplayMode.t := {|
  normalise := to_ascii_lowercase;
  table := [("backtest", ReplayMode.Backtest)];
  unsupported := CoreError.UnsupportedReplayMode
|}.
#[export] Instance CandleBackfillStatus_from_str : FromStr CandleBackfillStatus.t := {|
  normalise := to_ascii_uppercase;
  table := [("PENDING", CandleBackfillStatus.Pending);
    ("RUNNING", CandleBackfillStatus.Running);
    ("COMPLETED", CandleBackfillStatus.Completed);
    ("FAILED", CandleBackfillStatus.Failed)];
  unsupported := CoreError.UnsupportedCandleBackfillStatus
|}.
#[export] Instance CandleBackfillSource_from_str : FromStr CandleBackfillSource.t := {|
  normalise := to_ascii_lowercase;
  table := [("binance_rest_public", CandleBackfillSource.BinanceRestPublic)];
  unsupported := CoreError.UnsupportedCandleBackfillSource
|}.
#[export] Instance ExecutionReadinessTarget_from_str : FromStr ExecutionReadinessTarget.t := {|
  normalise := to_ascii_uppercase;
  table := [("PAPER_PIPELINE", ExecutionReadinessTarget.PaperPipeline);
    ("TESTNET_SHADOW", ExecutionReadinessTarget.TestnetShadow);
    ("TESTNET_PROMOTION", ExecutionReadinessTarget.TestnetPromotion);
    ("TESTNET_SUBMIT", ExecutionReadinessTarget.TestnetSubmit)];
  unsupported := CoreError.UnsupportedExecutionReadinessTarget
|}.
#[export] Instance ExchangeEnvironment_from_str : FromStr ExchangeEnvironment.t := {|
  normalise := to_ascii_lowercase;
  table := [("testnet", ExchangeEnvironment.Testnet);
    ("live", ExchangeEnvironment.Live)];
  unsupported := CoreError.UnsupportedExchangeEnvironment
|}.
#[export] Instance ExchangeName_from_str : FromStr ExchangeName.t := {|
  normalise := to_ascii_lowercase;
  table := [("binance", ExchangeName.Binance)];
  unsupported := CoreError.UnsupportedExchangeName
|}.
#[export] Instance TestnetExecutionState_from_str : FromStr TestnetExecutionState.t := {|
  normalise := to_ascii_uppercase;
  table := [("INTENT_CREATED", TestnetExecutionState.IntentCreated);
    ("RISK_APPROVED", TestnetExecutionState.RiskApproved);
    ("ORDER_PREPARED", TestnetExecutionState.OrderPrepared);
    ("ORDER_SUBMIT_REQUESTED", TestnetExecutionState.OrderSubmitRequested);
    ("EXCHANGE_ACKED", TestnetExecutionState.ExchangeAcked);
    ("NEW", TestnetExecutionState.New);
    ("PARTIALLY_FILLED", TestnetExecutionState.PartiallyFilled);
    ("FILLED", TestnetExecutionState.Filled);
    ("CANCEL_REQUESTED", TestnetExecutionState.CancelRequested);
    ("CANCELLED", TestnetExecutionState.Cancelled);
    ("REJECTED", TestnetExecutionState.Rejected);
    ("EXPIRED", TestnetExecutionState.Expired);
    ("RECONCILIATION_REQUIRED", TestnetExecutionState.ReconciliationRequired);
    ("UNKNOWN_EXCHANGE_STATE", TestnetExecutionState.UnknownExchangeState);
    ("FAILED", TestnetExecutionState.Failed)];
  unsupported := CoreError.UnsupportedTestnetExecutionState
|}.
#[export] Instance TestnetExecutionTransitionSource_from_str : FromStr TestnetExecutionTransitionSource.t := {|
  normalise := to_ascii_uppercase;
  table := [("API_SUBMIT", TestnetExecutionTransitionSource.ApiSubmit);
    ("EXCHANGE_ACK", TestnetExecutionTransitionSource.ExchangeAck);
    ("PRIVATE_STREAM", TestnetExecutionTransitionSource.PrivateStream);
    ("REST_RECONCILIATION", TestnetExecutionTransitionSource.RestReconciliation);
    ("API_CANCEL", TestnetExecutionTransitionSource.ApiCancel);
    ("EXCHANGE_CANCEL_ACK", TestnetExecutionTransitionSource.ExchangeCancelAck);
    ("OPERATOR_MARK_RECONCILIATION_REQUIRED", TestnetExecutionTransitionSource.OperatorMarkReconciliationRequired)];
  unsupported := CoreError.UnsupportedTestnetExecutionTransitionSource
|}.
#[export] Instance TestnetRepairAction_from_str : FromStr TestnetRepairAction.t := {|
  normalise := to_ascii_uppercase;
  table := [("MARK_RECONCILIATION_REQUIRED", TestnetRepairAction.MarkReconciliationRequired);
    ("MANUAL_RECHECK", TestnetRepairAction.ManualRecheck);
    ("MARK_ACKED", TestnetRepairAction.MarkAcked);
    ("MARK_CANCELLED", TestnetRepairAction.MarkCancelled);
    ("MARK_REJECTED", TestnetRepairAction.MarkRejected);
    ("MARK_FAILED", TestnetRepairAction.MarkFailed);
    ("SAFE_CANCEL_REQUEST", TestnetRepairAction.SafeCancelRequest)];
  unsupported := CoreError.UnsupportedTestnetRepairAction
|}.
#[export] Instance TestnetRepairActionStatus_from_str : FromStr TestnetRepairActionStatus.t := {|
  normalise := to_ascii_uppercase;
  table := [("APPLIED", TestnetRepairActionStatus.Applied);
    ("REJECTED", TestnetRepairActionStatus.Rejected);
    ("FAILED", TestnetRepairActionStatus.Failed)];
  unsupported := CoreError.UnsupportedTestnetRepairActionStatus
|}.
#[export] Instance ExchangePrivateStreamStatus_from_str : FromStr ExchangePrivateStreamStatus.t := {|
  normalise := to_ascii_uppercase;
  table := [("CONNECTING", ExchangePrivateStreamStatus.Connecting);
    ("CONNECTED", ExchangePrivateStreamStatus.Connected);
    ("STALE", ExchangePrivateStreamStatus.Stale);
    ("DISCONNECTED", ExchangePrivateStreamStatus.Disconnected);
    ("ERROR", ExchangePrivateStreamStatus.Error)];
  unsupported := CoreError.UnsupportedExchangePrivateStreamStatus
|}.
#[export] Instance ExchangePrivateStreamSource_from_str : FromStr ExchangePrivateStreamSource.t := {|
  normalise := to_ascii_lowercase;
  table := [("websocket", ExchangePrivateStreamSource.Websocket);
    ("listen_key_lifecycle", ExchangePrivateStreamSource.ListenKeyLifecycle);
    ("runtime", ExchangePrivateStreamSource.Runtime)];
  unsupported := CoreError.UnsupportedExchangePrivateStreamSource
|}.
#[export] Instance PaperAccountStatus_from_str : FromStr PaperAccountStatus.t := {|
  normalise := to_ascii_lowercase;
  table := [("active", PaperAccountStatus.Active);
    ("disabled", PaperAccountStatus.Disabled)];
  unsupported := CoreError.UnsupportedPaperAccountStatus
|}.
#[export] Instance PositionSide_from_str : FromStr PositionSide.t := {|
  normalise := to_ascii_lowercase;
  table := [("long", PositionSide.Long)];
  unsupported := CoreError.UnsupportedPositionSide
|}.
#[export] Instance PositionStatus_from_str : FromStr PositionStatus.t := {|
  normalise := to_ascii_lowercase;
  table := [("open", PositionStatus.Open);
    ("closed", PositionStatus.Closed)];
  unsupported := CoreError.UnsupportedPositionStatus
|}.
#[export] Instance PnlCalculationMode_from_str : FromStr PnlCalculationMode.t := {|
  normalise := to_ascii_lowercase;
  table := [("weighted_average", PnlCalculationMode.WeightedAverage)];
  unsupported := CoreError.UnsupportedPnlCalculationMode
|}.
#[export] Instance PaperPriceStatus_from_str : FromStr PaperPriceStatus.t := {|
  normalise := to_ascii_lowercase;
  table := [("live", PaperPriceStatus.Live);
    ("stale", PaperPriceStatus.Stale);
    ("missing", PaperPriceStatus.Missing)];
  unsupported := CoreError.UnsupportedPaperPriceStatus
|}.
#[export] Instance PaperCloseMode_from_str : FromStr PaperCloseMode.t := {|
  normalise := to_ascii_lowercase;
  table := [("market_simulated", PaperCloseMode.MarketSimulated)];
  unsupported := CoreError.UnsupportedPaperCloseMode
|}.
#[export] Instance PaperCloseReason_from_str : FromStr PaperCloseReason.t := {|
  normalise := to_ascii_lowercase;
  table := [("manual_operator_exit", PaperCloseReason.ManualOperatorExit);
    ("risk_operator_exit", PaperCloseReason.RiskOperatorExit);
    ("emergency_exit", PaperCloseReason.EmergencyExit)];
  unsupported := CoreError.UnsupportedPaperCloseReason
|}.
#[export] Instance PaperPositionStatusFilter_from_str : FromStr PaperPositionStatusFilter.t := {|
  normalise := to_ascii_lowercase;
  table := [("open", PaperPositionStatusFilter.Open);
    ("closed", PaperPositionStatusFilter.Closed);
    ("all", PaperPositionStatusFilter.All)];
  unsupported := CoreError.UnsupportedPaperPositionStatusFilter
|}.

(** Every name that is printed is accepted. *)
#[export] Instance MarketDataSource_from_str_laws : FromStrLaws MarketDataSource.t MarketDataSource.as_str.
Proof. solve_from_str. Qed.
#[export] Instance UserRole_from_str_laws : FromStrLaws UserRole.t UserRole.as_str.
Proof. solve_from_str. Qed.
#[export] Instance UserStatus_from_str_laws : FromStrLaws UserStatus.t UserStatus.as_str.
Proof. solve_from_str. Qed.
#[export] Instance CandleInterval_from_str_laws : FromStrLaws CandleInterval.t CandleInterval.as_str.
Proof. solve_from_str. Qed.
#[export] Instance MarketDataQualityStatus_from_str_laws : FromStrLaws MarketDataQualityStatus.t MarketDataQualityStatus.as_str.
Proof. solve_from_str. Qed.
#[export] Instance MarketDataRepairStatus_from_str_laws : FromStrLaws MarketDataRepairStatus.t MarketDataRepairStatus.as_str.
Proof. solve_from_str. Qed.
#[export] Instance StrategyId_from_str_laws : FromStrLaws StrategyId.t StrategyId.as_str.
Proof. solve_from_str. Qed.
#[export] Instance StrategyStatus_from_str_laws : FromStrLaws StrategyStatus.t StrategyStatus.as_str.
Proof. solve_from_str. Qed.
#[export] Instance StrategyMode_from_str_laws : FromStrLaws StrategyMode.t StrategyMode.as_str.
Proof. solve_from_str. Qed.
#[export] Instance SignalSide_from_str_laws : FromStrLaws SignalSide.t SignalSide.as_str.
Proof. solve_from_str. Qed.
#[export] Instance SignalReason_from_str_laws : FromStrLaws SignalReason.t SignalReason.as_str.
Proof. solve_from_str. Qed.
#[export] Instance ReplayRunStatus_from_str_laws : FromStrLaws ReplayRunStatus.t ReplayRunStatus.as_str.
Proof. solve_from_str. Qed.
#[export] Instance ReplayMode_from_str_laws : FromStrLaws ReplayMode.t ReplayMode.as_str.
Proof. solve_from_str. Qed.
#[export] Instance CandleBackfillStatus_from_str_laws : FromStrLaws CandleBackfillStatus.t CandleBackfillStatus.as_str.
Proof. solve_from_str. Qed.
#[export] Instance CandleBackfillSource_from_str_laws : FromStrLaws CandleBackfillSource.t CandleBackfillSource.as_str.
Proof. solve_from_str. Qed.
#[export] Instance ExecutionReadinessTarget_from_str_laws : FromStrLaws ExecutionReadinessTarget.t ExecutionReadinessTarget.as_str.
Proof. solve_from_str. Qed.
#[export] Instance ExchangeEnvironment_from_str_laws : FromStrLaws ExchangeEnvironment.t ExchangeEnvironment.as_str.
Proof. solve_from_str. Qed.
#[export] Instance ExchangeName_from_str_laws : FromStrLaws ExchangeName.t ExchangeName.as_str.
Proof. solve_from_str. Qed.
#[export] Instance TestnetExecutionState_from_str_laws : FromStrLaws TestnetExecutionState.t TestnetExecutionState.as_str.
Proof. solve_from_str. Qed.
#[export] Instance TestnetExecutionTransitionSource_from_str_laws : FromStrLaws TestnetExecutionTransitionSource.t TestnetExecutionTransitionSource.as_str.
Proof. solve_from_str. Qed.
#[export] Instance TestnetRepairAction_from_str_laws : FromStrLaws TestnetRepairAction.t TestnetRepairAction.as_str.
Proof. solve_from_str. Qed.
#[export] Instance TestnetRepairActionStatus_from_str_laws : FromStrLaws TestnetRepairActionStatus.t TestnetRepairActionStatus.as_str.
Proof. solve_from_str. Qed.
#[export] Instance ExchangePrivateStreamStatus_from_str_laws : FromStrLaws ExchangePrivateStreamStatus.t ExchangePrivateStreamStatus.as_str.
Proof. solve_from_str. Qed.
#[export] Instance ExchangePrivateStreamSource_from_str_laws : FromStrLaws ExchangePrivateStreamSource.t ExchangePrivateStreamSource.as_str.
Proof. solve_from_str. Qed.
#[export] Instance PaperAccountStatus_from_str_laws : FromStrLaws PaperAccountStatus.t PaperAccountStatus.as_str.
Proof. solve_from_str. Qed.
#[export] Instance PositionSide_from_str_laws : FromStrLaws PositionSide.t PositionSide.as_str.
Proof. solve_from_str. Qed.
#[export] Instance PositionStatus_from_str_laws : FromStrLaws PositionStatus.t PositionStatus.as_str.
Proof. solve_from_str. Qed.
#[export] Instance PnlCalculationMode_from_str_laws : FromStrLaws PnlCalculationMode.t PnlCalculationMode.as_str.
Proof. solve_from_str. Qed.
#[export] Instance PaperPriceStatus_from_str_laws : FromStrLaws PaperPriceStatus.t PaperPriceStatus.as_str.
Proof. solve_from_str. Qed.
#[export] Instance PaperCloseMode_from_str_laws : FromStrLaws PaperCloseMode.t PaperCloseMode.as_str.
Proof. solve_from_str. Qed.
#[export] Instance PaperCloseReason_from_str_laws : FromStrLaws PaperCloseReason.t PaperCloseReason.as_str.
Proof. solve_from_str. Qed.
#[export] Instance PaperPositionStatusFilter_from_str_laws : FromStrLaws PaperPositionStatusFilter.t PaperPositionStatusFilter.as_str.
Proof. solve_from_str. Qed.
