(* ===== verification/ShadowTypes.v ===== *)
(** * Shadow and reconciliation vocabulary: crates/core/src/lib.rs

    The remaining enumerations of the core, as in Types.v: readiness findings and
    advice, shadow decisions and their reasons, runner states, reconciliation
    mismatches and actions, with their texts and their parsers. *)

From Stdlib Require Import ZArith Lia List String Ascii.
From stdpp Require Import base list strings.
From S2P Require Import Prelude Text Types.

#[local] Open Scope string_scope.

Module ExecutionReadinessBlockingReason.
Inductive t :=
  | DbUnhealthy
  | KillSwitchActive
  | MissingValidatedRiskConfig
  | StaleMarketFeed
  | AuthDisabled
  | MissingRecentMarketPrice
  | StrategyDisabled
  | StrategyConfigInvalid
  | MissingRecentClosedCandles
  | RiskConfigInvalid
  | PaperAccountMissing
  | PaperAccountUnhealthy
  | ShadowRunnerError
  | ZeroShadowWouldSubmitCount
  | PromotionFunnelHighRejectionRate
  | StaleLocalPrice
  | HighRiskRejectionRate
  | TestnetAdapterNotConfigured
  | PrivateStreamStale
  | PrivateStreamDisconnected
  | UnresolvedReconciliationMismatches
  | ReconciliationRequiredOrdersPresent
  | UnknownExchangeStateOrdersPresent
  | RecentRepairFailures
  | PromotionExpired
  | PromotionNotPreviewed
  | MissingApprovedRiskDecision
  | NonOwnerActor.
#[global] Instance eq_dec : EqDecision t.
Proof. solve_decision. Defined.
End ExecutionReadinessBlockingReason.

Module ExecutionReadinessRecommendation.
Inductive t :=
  | RestoreDatabaseHealth
  | ResumeFromKillSwitch
  | ValidateRiskConfig
  | RefreshMarketFeed
  | EnableAuth
  | SeedRecentMarketPrice
  | EnableStrategy
  | FixStrategyConfig
  | BackfillClosedCandles
  | CreateOrRepairPaperAccount
  | ReviewPaperPnl
  | RestartShadowRunner
  | IncreaseShadowCoverage
  | ReducePromotionRejections
  | ReduceRiskRejections
  | ConfigureTestnetAdapter
  | ReconnectPrivateStream
  | ReconcileTestnetOrders
  | ResolveRepairFailures
  | PreviewOrRenewPromotion
  | ApproveRiskDecision
  | UseOwnerActor
  | RunRecentBacktest
  | VerifyRunnerState.
#[global] Instance eq_dec : EqDecision t.
Proof. solve_decision. Defined.
Definition message (x : t) : string :=
  match x with
  | RestoreDatabaseHealth =>
      "Restore database health before trusting readiness output."
  | ResumeFromKillSwitch =>
      "Clear only after investigating active blockers."
  | ValidateRiskConfig =>
      "Validate and persist the risk config before relying on execution gating."
  | RefreshMarketFeed =>
      "Restore fresh market-feed updates before relying on target-specific checks."
  | EnableAuth =>
      "Enable auth before using readiness for operator escalation."
  | SeedRecentMarketPrice =>
      "Restore a recent local market price before relying on execution checks."
  | EnableStrategy =>
      "Enable strategy only after validating config and reviewing recent analytics."
  | FixStrategyConfig =>
      "Fix strategy validation errors before re-checking readiness."
  | BackfillClosedCandles =>
      "Backfill recent closed candles before relying on execution readiness."
  | CreateOrRepairPaperAccount =>
      "Create or repair the default paper account before paper execution checks."
  | ReviewPaperPnl =>
      "Review recent paper PnL before operator escalation."
  | RestartShadowRunner =>
      "Restart the shadow runner and confirm it is healthy before proceeding."
  | IncreaseShadowCoverage =>
      "Continue shadow mode before promotion."
  | ReducePromotionRejections =>
      "Review recent promotion failures before widening promotion scope."
  | ReduceRiskRejections =>
      "Review elevated risk rejections before escalating execution."
  | ConfigureTestnetAdapter =>
      "Configure the testnet adapter before any submit-readiness checks."
  | ReconnectPrivateStream =>
      "Restart private stream worker or verify listen-key lifecycle."
  | ReconcileTestnetOrders =>
      "Run reconciliation and repair before further testnet submits."
  | ResolveRepairFailures =>
      "Resolve recent repair failures before relying on submit readiness."
  | PreviewOrRenewPromotion =>
      "Preview or renew the promotion before submit-readiness checks."
  | ApproveRiskDecision =>
      "Use a recent approved risk decision before checking submit readiness."
  | UseOwnerActor =>
      "Use an owner actor for submit-readiness verification."
  | RunRecentBacktest =>
      "Run a recent backtest to improve confidence, but it is not a hard blocker."
  | VerifyRunnerState =>
      "Resume the shadow runner only after confirming the pause reason is understood."
  end.
End ExecutionReadinessRecommendation.

Module TestnetShadowDecision.
Inductive t :=
  | NoSignal
  | RiskRejected
  | WouldSubmit
  | CandleDataStale
  | SkippedDisabledStrategy
  | SkippedKillSwitch
  | SkippedStalePrice
  | SkippedStaleFeed
  | Error.
#[global] Instance eq_dec : EqDecision t.
Proof. solve_decision. Defined.
Definition as_str (x : t) : string :=
  match x with
  | NoSignal => "NO_SIGNAL"
  | RiskRejected => "RISK_REJECTED"
  | WouldSubmit => "WOULD_SUBMIT"
  | CandleDataStale => "CANDLE_DATA_STALE"
  | SkippedDisabledStrategy => "SKIPPED_DISABLED_STRATEGY"
  | SkippedKillSwitch => "SKIPPED_KILL_SWITCH"
  | SkippedStalePrice => "SKIPPED_STALE_PRICE"
  | SkippedStaleFeed => "SKIPPED_STALE_FEED"
  | Error => "ERROR"
  end.
End TestnetShadowDecision.

Module TestnetShadowStatus.
Inductive t :=
  | Completed
  | Rejected
  | Error.
#[global] Instance eq_dec : EqDecision t.
Proof. solve_decision. Defined.
Definition as_str (x : t) : string :=
  match x with
  | Completed => "COMPLETED"
  | Rejected => "REJECTED"
  | Error => "ERROR"
  end.
End TestnetShadowStatus.

Module TestnetShadowRejectionReason.
Inductive t :=
  | NoSignal
  | ConditionsNotMet
  | InsufficientHistory
  | StrategyDisabled
  | KillSwitchActive
  | CandleDataStale
  | StalePrice
  | StaleFeed
  | MarketFeedStaleWarning
  | MarketFeedUnavailable
  | MarketFeedDegraded
  | UnsupportedTimeframe
  | InvalidPrice
  | RiskRejected
  | MaxOpenPositionsExceeded
  | MaxDailyLossExceeded
  | MaxWeeklyLossExceeded
  | MaxConsecutiveLossesExceeded
  | SignalTooOld
  | DuplicateOrderDetected
  | DataStale
  | PositionNotionalExceeded
  | CooldownActive
  | UnsupportedState
  | Error.
#[global] Instance eq_dec : EqDecision t.
Proof. solve_decision. Defined.
Definition as_str (x : t) : string :=
  match x with
  | NoSignal => "no_signal"
  | ConditionsNotMet => "conditions_not_met"
  | InsufficientHistory => "insufficient_history"
  | StrategyDisabled => "strategy_disabled"
  | KillSwitchActive => "kill_switch_active"
  | CandleDataStale => "candle_data_stale"
  | StalePrice => "stale_price"
  | StaleFeed => "stale_feed"
  | MarketFeedStaleWarning => "market_feed_stale_warning"
  | MarketFeedUnavailable => "market_feed_unavailable"
  | MarketFeedDegraded => "market_feed_degraded"
  | UnsupportedTimeframe => "unsupported_timeframe"
  | InvalidPrice => "invalid_price"
  | RiskRejected => "risk_rejected"
  | MaxOpenPositionsExceeded => "max_open_positions_exceeded"
  | MaxDailyLossExceeded => "max_daily_loss_exceeded"
  | MaxWeeklyLossExceeded => "max_weekly_loss_exceeded"
  | MaxConsecutiveLossesExceeded => "max_consecutive_losses_exceeded"
  | SignalTooOld => "signal_too_old"
  | DuplicateOrderDetected => "duplicate_order_detected"
  | DataStale => "data_stale"
  | PositionNotionalExceeded => "position_notional_exceeded"
  | CooldownActive => "cooldown_active"
  | UnsupportedState => "unsupported_state"
  | Error => "error"
  end.
End TestnetShadowRejectionReason.

Module TestnetShadowPromotionStatus.
Inductive t :=
  | Previewed
  | Submitted
  | Rejected
  | Expired
  | AlreadyPromoted.
#[global] Instance eq_dec : EqDecision t.
Proof. solve_decision. Defined.
Definition as_str (x : t) : string :=
  match x with
  | Previewed => "PREVIEWED"
  | Submitted => "SUBMITTED"
  | Rejected => "REJECTED"
  | Expired => "EXPIRED"
  | AlreadyPromoted => "ALREADY_PROMOTED"
  end.
End TestnetShadowPromotionStatus.

Module TestnetShadowPromotionRejectionReason.
Inductive t :=
  | ShadowRunNotFound
  | ShadowDecisionNotWouldSubmit
  | MissingRiskDecision
  | RiskDecisionNotApproved
  | KillSwitchActive
  | StrategyDisabled
  | StalePrice
  | InvalidEnvironment
  | MissingWouldSubmitPayload
  | PromotionExpired
  | DuplicateSubmit
  | InvalidConfirmation
  | OwnerRequired
  | AlreadyPromoted
  | SubmitFailed
  | Error.
#[global] Instance eq_dec : EqDecision t.
Proof. solve_decision. Defined.
Definition as_str (x : t) : string :=
  match x with
  | ShadowRunNotFound => "shadow_run_not_found"
  | ShadowDecisionNotWouldSubmit => "shadow_decision_not_would_submit"
  | MissingRiskDecision => "missing_risk_decision"
  | RiskDecisionNotApproved => "risk_decision_not_approved"
  | KillSwitchActive => "kill_switch_active"
  | StrategyDisabled => "strategy_disabled"
  | StalePrice => "stale_price"
  | InvalidEnvironment => "invalid_environment"
  | MissingWouldSubmitPayload => "missing_would_submit_payload"
  | PromotionExpired => "promotion_expired"
  | DuplicateSubmit => "duplicate_submit"
  | InvalidConfirmation => "invalid_confirmation"
  | OwnerRequired => "owner_required"
  | AlreadyPromoted => "already_promoted"
  | SubmitFailed => "submit_failed"
  | Error => "error"
  end.
End TestnetShadowPromotionRejectionReason.

Module TestnetShadowRunnerStatus.
Inductive t :=
  | Stopped
  | Running
  | Paused
  | Error.
#[global] Instance eq_dec : EqDecision t.
Proof. solve_decision. Defined.
Definition as_str (x : t) : string :=
  match x with
  | Stopped => "STOPPED"
  | Running => "RUNNING"
  | Paused => "PAUSED"
  | Error => "ERROR"
  end.
End TestnetShadowRunnerStatus.

Module TestnetShadowRunnerControlAction.
Inductive t :=
  | Start
  | Stop
  | Pause
  | Resume
  | RunOnce.
#[global] Instance eq_dec : EqDecision t.
Proof. solve_decision. Defined.
Definition as_str (x : t) : string :=
  match x with
  | Start => "START"
  | Stop => "STOP"
  | Pause => "PAUSE"
  | Resume => "RESUME"
  | RunOnce => "RUN_ONCE"
  end.
End TestnetShadowRunnerControlAction.

Module TestnetShadowRunnerTickStatus.
Inductive t :=
  | NoOp
  | Completed
  | PartialFailure
  | Failed.
#[global] Instance eq_dec : EqDecision t.
Proof. solve_decision. Defined.
Definition as_str (x : t) : string :=
  match x with
  | NoOp => "NO_OP"
  | Completed => "COMPLETED"
  | PartialFailure => "PARTIAL_FAILURE"
  | Failed => "FAILED"
  end.
End TestnetShadowRunnerTickStatus.

Module ExchangeReconciliationStatus.
Inductive t :=
  | Running
  | Completed
  | Failed.
#[global] Instance eq_dec : EqDecision t.
Proof. solve_decision. Defined.
Definition as_str (x : t) : string :=
  match x with
  | Running => "RUNNING"
  | Completed => "COMPLETED"
  | Failed => "FAILED"
  end.
End ExchangeReconciliationStatus.

Module ExchangeReconciliationMismatchKind.
Inductive t :=
  | StatusMismatch
  | ExchangeOrderMissing
  | LocalOrderMissing
  | AckWithoutStatus
  | CancelNotConfirmed
  | UnknownExchangeState.
#[global] Instance eq_dec : EqDecision t.
Proof. solve_decision. Defined.
Definition as_str (x : t) : string :=
  match x with
  | StatusMismatch => "STATUS_MISMATCH"
  | ExchangeOrderMissing => "EXCHANGE_ORDER_MISSING"
  | LocalOrderMissing => "LOCAL_ORDER_MISSING"
  | AckWithoutStatus => "ACK_WITHOUT_STATUS"
  | CancelNotConfirmed => "CANCEL_NOT_CONFIRMED"
  | UnknownExchangeState => "UNKNOWN_EXCHANGE_STATE"
  end.
End ExchangeReconciliationMismatchKind.

Module ExchangeReconciliationAction.
Inductive t :=
  | None_
  | UpdateLocalStatus
  | Alert.
#[global] Instance eq_dec : EqDecision t.
Proof. solve_decision. Defined.
Definition as_str (x : t) : string :=
  match x with
  | None_ => "NONE"
  | UpdateLocalStatus => "UPDATE_LOCAL_STATUS"
  | Alert => "ALERT"
  end.
End ExchangeReconciliationAction.

#[export] Instance TestnetShadowDecision_from_str : FromStr TestnetShadowDecision.t := {|
  normalise := to_ascii_uppercase;
  table := [("NO_SIGNAL", TestnetShadowDecision.NoSignal);
    ("RISK_REJECTED", TestnetShadowDecision.RiskRejected);
    ("WOULD_SUBMIT", TestnetShadowDecision.WouldSubmit);
    ("CANDLE_DATA_STALE", TestnetShadowDecision.CandleDataStale);
    ("SKIPPED_DISABLED_STRATEGY", TestnetShadowDecision.SkippedDisabledStrategy);
    ("SKIPPED_KILL_SWITCH", TestnetShadowDecision.SkippedKillSwitch);
    ("SKIPPED_STALE_PRICE", TestnetShadowDecision.SkippedStalePrice);
    ("SKIPPED_STALE_FEED", TestnetShadowDecision.SkippedStaleFeed);
    ("ERROR", TestnetShadowDecision.Error)];
  unsupported := CoreError.UnsupportedShadowDecision
|}.

#[export] Instance TestnetShadowStatus_from_str : FromStr TestnetShadowStatus.t := {|
  normalise := to_ascii_uppercase;
  table := [("COMPLETED", TestnetShadowStatus.Completed);
    ("REJECTED", TestnetShadowStatus.Rejected);
    ("ERROR", TestnetShadowStatus.Error)];
  unsupported := CoreError.UnsupportedShadowStatus
|}.

#[export] Instance TestnetShadowRejectionReason_from_str : FromStr TestnetShadowRejectionReason.t := {|
  normalise := to_ascii_lowercase;
  table := [("no_signal", TestnetShadowRejectionReason.NoSignal);
    ("conditions_not_met", TestnetShadowRejectionReason.ConditionsNotMet);
    ("insufficient_history", TestnetShadowRejectionReason.InsufficientHistory);
    ("strategy_disabled", TestnetShadowRejectionReason.StrategyDisabled);
    ("kill_switch_active", TestnetShadowRejectionReason.KillSwitchActive);
    ("candle_data_stale", TestnetShadowRejectionReason.CandleDataStale);
    ("stale_price", TestnetShadowRejectionReason.StalePrice);
    ("stale_feed", TestnetShadowRejectionReason.StaleFeed);
    ("market_feed_stale_warning", TestnetShadowRejectionReason.MarketFeedStaleWarning);
    ("market_feed_unavailable", TestnetShadowRejectionReason.MarketFeedUnavailable);
    ("market_feed_degraded", TestnetShadowRejectionReason.MarketFeedDegraded);
    ("unsupported_timeframe", TestnetShadowRejectionReason.UnsupportedTimeframe);
    ("invalid_price", TestnetShadowRejectionReason.InvalidPrice);
    ("risk_rejected", TestnetShadowRejectionReason.RiskRejected);
    ("max_open_positions_exceeded", TestnetShadowRejectionReason.MaxOpenPositionsExceeded);
    ("max_daily_loss_exceeded", TestnetShadowRejectionReason.MaxDailyLossExceeded);
    ("max_weekly_loss_exceeded", TestnetShadowRejectionReason.MaxWeeklyLossExceeded);
    ("max_consecutive_losses_exceeded", TestnetShadowRejectionReason.MaxConsecutiveLossesExceeded);
    ("signal_too_old", TestnetShadowRejectionReason.SignalTooOld);
    ("duplicate_order_detected", TestnetShadowRejectionReason.DuplicateOrderDetected);
    ("data_stale", TestnetShadowRejectionReason.DataStale);
    ("position_notional_exceeded", TestnetShadowRejectionReason.PositionNotionalExceeded);
    ("cooldown_active", TestnetShadowRejectionReason.CooldownActive);
    ("unsupported_state", TestnetShadowRejectionReason.UnsupportedState);
    ("error", TestnetShadowRejectionReason.Error)];
  unsupported := CoreError.UnsupportedShadowRejectionReason
|}.

#[export] Instance TestnetShadowPromotionStatus_from_str : FromStr TestnetShadowPromotionStatus.t := {|
  normalise := to_ascii_uppercase;
  table := [("PREVIEWED", TestnetShadowPromotionStatus.Previewed);
    ("SUBMITTED", TestnetShadowPromotionStatus.Submitted);
    ("REJECTED", TestnetShadowPromotionStatus.Rejected);
    ("EXPIRED", TestnetShadowPromotionStatus.Expired);
    ("ALREADY_PROMOTED", TestnetShadowPromotionStatus.AlreadyPromoted)];
  unsupported := CoreError.UnsupportedShadowPromotionStatus
|}.

#[export] Instance TestnetShadowPromotionRejectionReason_from_str : FromStr TestnetShadowPromotionRejectionReason.t := {|
  normalise := to_ascii_lowercase;
  table := [("shadow_run_not_found", TestnetShadowPromotionRejectionReason.ShadowRunNotFound);
    ("shadow_decision_not_would_submit", TestnetShadowPromotionRejectionReason.ShadowDecisionNotWouldSubmit);
    ("missing_risk_decision", TestnetShadowPromotionRejectionReason.MissingRiskDecision);
    ("risk_decision_not_approved", TestnetShadowPromotionRejectionReason.RiskDecisionNotApproved);
    ("kill_switch_active", TestnetShadowPromotionRejectionReason.KillSwitchActive);
    ("strategy_disabled", TestnetShadowPromotionRejectionReason.StrategyDisabled);
    ("stale_price", TestnetShadowPromotionRejectionReason.StalePrice);
    ("invalid_environment", TestnetShadowPromotionRejectionReason.InvalidEnvironment);
    ("missing_would_submit_payload", TestnetShadowPromotionRejectionReason.MissingWouldSubmitPayload);
    ("promotion_expired", TestnetShadowPromotionRejectionReason.PromotionExpired);
    ("duplicate_submit", TestnetShadowPromotionRejectionReason.DuplicateSubmit);
    ("invalid_confirmation", TestnetShadowPromotionRejectionReason.InvalidConfirmation);
    ("owner_required", TestnetShadowPromotionRejectionReason.OwnerRequired);
    ("already_promoted", TestnetShadowPromotionRejectionReason.AlreadyPromoted);
    ("submit_failed", TestnetShadowPromotionRejectionReason.SubmitFailed);
    ("error", TestnetShadowPromotionRejectionReason.Error)];
  unsupported := CoreError.UnsupportedShadowPromotionRejectionReason
|}.

#[export] Instance TestnetShadowRunnerStatus_from_str : FromStr TestnetShadowRunnerStatus.t := {|
  normalise := to_ascii_uppercase;
  table := [("STOPPED", TestnetShadowRunnerStatus.Stopped);
    ("RUNNING", TestnetShadowRunnerStatus.Running);
    ("PAUSED", TestnetShadowRunnerStatus.Paused);
    ("ERROR", TestnetShadowRunnerStatus.Error)];
  unsupported := CoreError.UnsupportedShadowRunnerStatus
|}.

#[export] Instance TestnetShadowRunnerControlAction_from_str : FromStr TestnetShadowRunnerControlAction.t := {|
  normalise := to_ascii_uppercase;
  table := [("START", TestnetShadowRunnerControlAction.Start);
    ("STOP", TestnetShadowRunnerControlAction.Stop);
    ("PAUSE", TestnetShadowRunnerControlAction.Pause);
    ("RESUME", TestnetShadowRunnerControlAction.Resume);
    ("RUN_ONCE", TestnetShadowRunnerControlAction.RunOnce)];
  unsupported := CoreError.UnsupportedShadowRunnerControlAction
|}.

#[export] Instance TestnetShadowRunnerTickStatus_from_str : FromStr TestnetShadowRunnerTickStatus.t := {|
  normalise := to_ascii_uppercase;
  table := [("NO_OP", TestnetShadowRunnerTickStatus.NoOp);
    ("COMPLETED", TestnetShadowRunnerTickStatus.Completed);
    ("PARTIAL_FAILURE", TestnetShadowRunnerTickStatus.PartialFailure);
    ("FAILED", TestnetShadowRunnerTickStatus.Failed)];
  unsupported := CoreError.UnsupportedShadowRunnerTickStatus
|}.

#[export] Instance ExchangeReconciliationStatus_from_str : FromStr ExchangeReconciliationStatus.t := {|
  normalise := to_ascii_uppercase;
  table := [("RUNNING", ExchangeReconciliationStatus.Running);
    ("COMPLETED", ExchangeReconciliationStatus.Completed);
    ("FAILED", ExchangeReconciliationStatus.Failed)];
  unsupported := CoreError.UnsupportedExchangeReconciliationStatus
|}.

#[export] Instance ExchangeReconciliationMismatchKind_from_str : FromStr ExchangeReconciliationMismatchKind.t := {|
  normalise := to_ascii_uppercase;
  table := [("STATUS_MISMATCH", ExchangeReconciliationMismatchKind.StatusMismatch);
    ("EXCHANGE_ORDER_MISSING", ExchangeReconciliationMismatchKind.ExchangeOrderMissing);
    ("LOCAL_ORDER_MISSING", ExchangeReconciliationMismatchKind.LocalOrderMissing);
    ("ACK_WITHOUT_STATUS", ExchangeReconciliationMismatchKind.AckWithoutStatus);
    ("CANCEL_NOT_CONFIRMED", ExchangeReconciliationMismatchKind.CancelNotConfirmed);
    ("UNKNOWN_EXCHANGE_STATE", ExchangeReconciliationMismatchKind.UnknownExchangeState)];
  unsupported := CoreError.UnsupportedExchangeReconciliationMismatchKind
|}.

#[export] Instance ExchangeReconciliationAction_from_str : FromStr ExchangeReconciliationAction.t := {|
  normalise := to_ascii_uppercase;
  table := [("NONE", ExchangeReconciliationAction.None_);
    ("UPDATE_LOCAL_STATUS", ExchangeReconciliationAction.UpdateLocalStatus);
    ("ALERT", ExchangeReconciliationAction.Alert)];
  unsupported := CoreError.UnsupportedExchangeReconciliationAction
|}.

(** Every name that is printed is accepted. *)
#[export] Instance TestnetShadowDecision_from_str_laws :
  FromStrLaws TestnetShadowDecision.t TestnetShadowDecision.as_str.
Proof. solve_from_str. Qed.

#[export] Instance TestnetShadowStatus_from_str_laws :
  FromStrLaws TestnetShadowStatus.t TestnetShadowStatus.as_str.
Proof. solve_from_str. Qed.

#[export] Instance TestnetShadowRejectionReason_from_str_laws :
  FromStrLaws TestnetShadowRejectionReason.t TestnetShadowRejectionReason.as_str.
Proof. solve_from_str. Qed.

#[export] Instance TestnetShadowPromotionStatus_from_str_laws :
  FromStrLaws TestnetShadowPromotionStatus.t TestnetShadowPromotionStatus.as_str.
Proof. solve_from_str. Qed.

#[export] Instance TestnetShadowPromotionRejectionReason_from_str_laws :
  FromStrLaws TestnetShadowPromotionRejectionReason.t TestnetShadowPromotionRejectionReason.as_str.
Proof. solve_from_str. Qed.

#[export] Instance TestnetShadowRunnerStatus_from_str_laws :
  FromStrLaws TestnetShadowRunnerStatus.t TestnetShadowRunnerStatus.as_str.
Proof. solve_from_str. Qed.

#[export] Instance TestnetShadowRunnerControlAction_from_str_laws :
  FromStrLaws TestnetShadowRunnerControlAction.t TestnetShadowRunnerControlAction.as_str.
Proof. solve_from_str. Qed.

#[export] Instance TestnetShadowRunnerTickStatus_from_str_laws :
  FromStrLaws TestnetShadowRunnerTickStatus.t TestnetShadowRunnerTickStatus.as_str.
Proof. solve_from_str. Qed.

#[export] Instance ExchangeReconciliationStatus_from_str_laws :
  FromStrLaws ExchangeReconciliationStatus.t ExchangeReconciliationStatus.as_str.
Proof. solve_from_str. Qed.

#[export] Instance ExchangeReconciliationMismatchKind_from_str_laws :
  FromStrLaws ExchangeReconciliationMismatchKind.t ExchangeReconciliationMismatchKind.as_str.
Proof. solve_from_str. Qed.

#[export] Instance ExchangeReconciliationAction_from_str_laws :
  FromStrLaws ExchangeReconciliationAction.t ExchangeReconciliationAction.as_str.
Proof. solve_from_str. Qed.
