(* ===== verification/MarketData.v ===== *)
(** * Candles: crates/core/src/lib.rs, lines 13-46, 326-600 and 1343-1470

    [Symbol], [CandleInterval] and its arithmetic, the 1m candle aggregator
    ([aggregate_closed_1m_candles]) and the freshness of derived candles
    ([candle_aggregation_status]). *)

From Stdlib Require Import ZArith QArith Lqa Lia List Permutation Sorted String.
From stdpp Require Import base list strings.
From S2P Require Import Prelude Text Host Types.

#[local] Open Scope Z_scope.

Abbreviation result := (res CoreError.t).

(** ** Symbols and intervals *)

Record Symbol := { symbol_text : string }.

Definition Symbol_new (value : string) : result Symbol :=
  let value := to_ascii_uppercase (trim value) in
  if is_empty value then Err CoreError.EmptySymbol else Ok {| symbol_text := value |}.

Section Intervals.
Context {CH : Chrono}.

Definition duration (self : CandleInterval.t) : Z :=
  match self with
  | CandleInterval.OneMinute => minutes 1
  | CandleInterval.FiveMinutes => minutes 5
  | CandleInterval.FifteenMinutes => minutes 15
  | CandleInterval.OneHour => hours 1
  | CandleInterval.FourHours => hours 4
  end.

Definition source_candle_count (self : CandleInterval.t) : Z :=
  match self with
  | CandleInterval.OneMinute => 1
  | CandleInterval.FiveMinutes => 5
  | CandleInterval.FifteenMinutes => 15
  | CandleInterval.OneHour => 60
  | CandleInterval.FourHours => 240
  end.

Definition bucket_start {E} (self : CandleInterval.t) (time : Z) : res E Z :=
  let step_seconds := num_seconds (duration self) in
  let aligned_seconds := timestamp time - timestamp time mod step_seconds in
  expect (timestamp_opt aligned_seconds).

Definition bucket_close_time (self : CandleInterval.t) (start : Z) : Z :=
  start + duration self - milliseconds 1.

Definition is_aggregated_from_one_minute (self : CandleInterval.t) : bool :=
  negb (bool_decide (self = CandleInterval.OneMinute)).

Definition recommended_max_signal_age_ms (self : CandleInterval.t) : Z * Z :=
  match self with
  | CandleInterval.OneMinute => (120000, 300000)
  | CandleInterval.FiveMinutes => (600000, 900000)
  | CandleInterval.FifteenMinutes => (1800000, 2700000)
  | CandleInterval.OneHour => (7200000, 10800000)
  | CandleInterval.FourHours => (28800000, 43200000)
  end.

Definition candles_between (self : CandleInterval.t) (start_time end_time : Z) : result Z :=
  if end_time <=? start_time then Err CoreError.InvalidCandleBackfillTimeRange else
  let step_ms := num_milliseconds (duration self) in
  let window_ms := num_milliseconds (end_time - start_time) in
  let candles := Z.quot window_ms step_ms in
  ok_or (i32_try_from candles) CoreError.InvalidCandleBackfillEstimate.

Record CandleAggregationRequest := {
  ar_exchange : MarketDataSource.t;
  ar_symbol : string;
  ar_source_interval : string;
  ar_target_interval : string;
  ar_start_time : Z;
  ar_end_time : Z;
  ar_correlation_id : option Z
}.

Definition CandleAggregationRequest_validate (self : CandleAggregationRequest) : result unit :=
  if is_empty (trim (ar_symbol self)) then Err CoreError.EmptyCandleBackfillSymbol else
  source_interval ← from_str (A := CandleInterval.t) (ar_source_interval self);
  target_interval ← from_str (A := CandleInterval.t) (ar_target_interval self);
  if negb (bool_decide (source_interval = CandleInterval.OneMinute))
     || negb (is_aggregated_from_one_minute target_interval)
  then Err (CoreError.UnsupportedCandleInterval (ar_target_interval self)) else
  _ ← candles_between target_interval (ar_start_time self) (ar_end_time self);
  Ok tt.

(** *** Freshness of the derived candles *)

Definition candle_aggregation_status (latest_source_closed_candle latest_target_closed_candle : option Z)
    (target_interval : CandleInterval.t)
    : CandleAggregationFreshnessStatus.t * option Z * string :=
  match latest_source_closed_candle with
  | None => (CandleAggregationFreshnessStatus.Missing, None,
      "Backfill closed 1m source candles before aggregation can run.")
  | Some source =>
  match latest_target_closed_candle with
  | None => (CandleAggregationFreshnessStatus.Missing, None,
      "Run the candle aggregator to create derived candles.")
  | Some target =>
  let lag_seconds := Z.max (num_seconds (source - target)) 0 in
  let target_seconds := num_seconds (duration target_interval) in
  let '(status, recommendation) :=
    if lag_seconds <=? target_seconds then
      (CandleAggregationFreshnessStatus.Fresh,
       "No action needed; derived candles are current with closed 1m data.")
    else if lag_seconds <=? target_seconds * 3 then
      (CandleAggregationFreshnessStatus.Degraded,
       "Check aggregator tick logs; derived candles are behind source data.")
    else
      (CandleAggregationFreshnessStatus.Stale,
       "Restart or run the candle aggregator and inspect source candle gaps.") in
  (status, Some lag_seconds, recommendation)
  end end.

Definition candle_aggregation_start_time (last_derived_close_time : option Z)
    (now bootstrap_lookback overlap : Z) : Z :=
  match last_derived_close_time with
  | Some time => time - overlap
  | None => now - bootstrap_lookback
  end.
End Intervals.

(** ** Candles and trades *)

Section Candles.
Context {DI : Decimal} {CH : Chrono} {UL : UuidLib} {JS : Json}.

Record MarketTrade := {
  mt_trade_id : string;
  mt_exchange : MarketDataSource.t;
  mt_symbol : Symbol;
  mt_price : dec;
  mt_quantity : dec;
  mt_trade_time : Z;
  mt_received_at : Z;
  mt_is_buyer_maker : option bool;
  mt_raw_payload : option json
}.

Record Candle := {
  c_id : Z;
  c_exchange : MarketDataSource.t;
  c_symbol : Symbol;
  c_interval : CandleInterval.t;
  c_open_time : Z;
  c_close_time : Z;
  c_open : dec;
  c_high : dec;
  c_low : dec;
  c_close : dec;
  c_volume : dec;
  c_quote_volume : option dec;
  c_trade_count : Z;
  c_is_closed : bool;
  c_created_at : Z;
  c_updated_at : Z
}.

(** *** Aggregation of closed 1m candles *)

Record CandleAggregationOutcome := {
  ao_candles : list Candle;
  ao_skipped_incomplete_buckets : Z
}.

Definition is_source_candle (candle : Candle) : bool :=
  c_is_closed candle && bool_decide (c_interval candle = CandleInterval.OneMinute).

(** [buckets.entry(bucket_start).or_default().push(candle)] *)
Definition bucket_push (target_interval : CandleInterval.t) (buckets : list (Z * list Candle))
    (candle : Candle) : result (list (Z * list Candle)) :=
  start ← bucket_start target_interval (c_open_time candle);
  Ok (btree_update start (fun b => default [] b ++ [candle]) buckets).

Definition is_complete (expected_per_bucket start : Z) (bucket : list Candle) : bool :=
  (Z.of_nat (length bucket) =? expected_per_bucket) &&
  forallb (fun '(i, candle) => c_open_time candle =? start + minutes (Z.of_nat i))
    (zip (seq 0 (length bucket)) bucket).

(** [try_fold(ZERO, |sum, candle| candle.quote_volume.map(|v| sum + v))] *)
Definition sum_quote_volume (bucket : list Candle) : option dec :=
  foldl (fun sum candle => s ← sum; v ← c_quote_volume candle; Some (s + v)%dec)
    (Some ZERO) bucket.

Definition aggregate_bucket (target_interval : CandleInterval.t) (start : Z)
    (bucket : list Candle) : result Candle :=
  first ← expect (head bucket);
  last ← expect (last bucket);
  high ← expect (iter_max dleb (map c_high bucket));
  low ← expect (iter_min dleb (map c_low bucket));
  let volume := dsum (map c_volume bucket) in
  let quote_volume := sum_quote_volume bucket in
  let trade_count := foldl i32_add 0 (map c_trade_count bucket) in
  let id_seed := MarketDataSource.as_str (c_exchange first) +:+ ":" +:+
    symbol_text (c_symbol first) +:+ ":" +:+ CandleInterval.as_str target_interval +:+ ":" +:+
    to_rfc3339 start in
  Ok {| c_id := uuid_v5 id_seed;
        c_exchange := c_exchange first;
        c_symbol := c_symbol first;
        c_interval := target_interval;
        c_open_time := start;
        c_close_time := bucket_close_time target_interval start;
        c_open := c_open first;
        c_high := high;
        c_low := low;
        c_close := c_close last;
        c_volume := volume;
        c_quote_volume := quote_volume;
        c_trade_count := trade_count;
        c_is_closed := true;
        c_created_at := c_updated_at last;
        c_updated_at := c_updated_at last |}.

Definition aggregate_step (target_interval : CandleInterval.t)
    (acc : CandleAggregationOutcome) (entry : Z * list Candle)
    : result CandleAggregationOutcome :=
  let '(start, bucket) := entry in
  let bucket := sort_by_key c_open_time bucket in
  if negb (is_complete (source_candle_count target_interval) start bucket) then
    Ok {| ao_candles := ao_candles acc;
          ao_skipped_incomplete_buckets := i32_add (ao_skipped_incomplete_buckets acc) 1 |}
  else
    candle ← aggregate_bucket target_interval start bucket;
    Ok {| ao_candles := ao_candles acc ++ [candle];
          ao_skipped_incomplete_buckets := ao_skipped_incomplete_buckets acc |}.

Definition aggregate_closed_1m_candles (candles : list Candle)
    (target_interval : CandleInterval.t) : result CandleAggregationOutcome :=
  let empty := {| ao_candles := []; ao_skipped_incomplete_buckets := 0 |} in
  match candles with
  | [] => Ok empty
  | _ =>
    buckets ← fold_res (bucket_push target_interval) [] (List.filter is_source_candle candles);
    fold_res (aggregate_step target_interval) empty buckets
  end.
End Candles.

(** ** Interval arithmetic *)

Section IntervalFacts.
Context {CH : Chrono} {CL : ChronoLaws CH}.

Definition supported (t : Z) : Prop := supported_seconds (t / NANOS).

(** The start of the bucket of [t], as a function of integers. *)
Definition bucket_floor (self : CandleInterval.t) (t : Z) : Z :=
  let s := t / NANOS in (s - s mod (60 * source_candle_count self)) * NANOS.

Lemma duration_count self : duration self = seconds (60 * source_candle_count self).
Proof. destruct self; reflexivity. Qed.

Lemma source_candle_count_pos self : 0 < source_candle_count self.
Proof. destruct self; reflexivity. Qed.

Lemma num_seconds_duration self : num_seconds (duration self) = 60 * source_candle_count self.
Proof. by rewrite duration_count, num_seconds_seconds. Qed.

Lemma bucket_floor_bounds self t :
  bucket_floor self t <= t < bucket_floor self t + duration self.
Proof.
  rewrite duration_count. unfold bucket_floor, seconds.
  pose proof (source_candle_count_pos self) as Hc.
  assert (0 < 60 * source_candle_count self) as Hn by lia.
  set (n := 60 * source_candle_count self) in *.
  pose proof (Z.mod_pos_bound (t / NANOS) n Hn).
  pose proof (Z.div_mod t NANOS ltac:(done)) as Ht.
  pose proof (Z.mod_pos_bound t NANOS ltac:(done)). nia.
Qed.

Lemma bucket_floor_seconds self t :
  bucket_floor self t / NANOS = t / NANOS - (t / NANOS) mod (60 * source_candle_count self).
Proof. unfold bucket_floor. by rewrite Z.div_mul. Qed.

Lemma bucket_floor_aligned self t :
  (bucket_floor self t / NANOS) mod (60 * source_candle_count self) = 0.
Proof.
  rewrite bucket_floor_seconds. pose proof (source_candle_count_pos self).
  rewrite Zminus_mod_idemp_r, Z.sub_diag. apply Z.mod_0_l. lia.
Qed.

Lemma bucket_floor_idem self t : bucket_floor self (bucket_floor self t) = bucket_floor self t.
Proof.
  unfold bucket_floor at 1. rewrite bucket_floor_aligned, bucket_floor_seconds.
  unfold bucket_floor. lia.
Qed.

Lemma bucket_floor_supported self t : supported t -> supported (bucket_floor self t).
Proof.
  unfold supported, supported_seconds. intros Ht. rewrite bucket_floor_seconds.
  set (s := t / NANOS) in *. set (n := 60 * source_candle_count self).
  assert (0 < n) as Hn by (subst n; pose proof (source_candle_count_pos self); lia).
  pose proof (Z.mod_pos_bound s n Hn).
  assert (-377705116800 <= s - s mod n); [|lia].
  assert ((n | 377705116800)) as [k Hk].
  { subst n. destruct self; [exists 6295085280|exists 1259017056|exists 419672352
      |exists 104918088|exists 26229522]; reflexivity. }
  pose proof (Z.div_mod s n ltac:(lia)) as Hs.
  assert (- k <= s / n) by (apply Z.div_le_lower_bound; lia).
  replace (s - s mod n) with (n * (s / n)) by lia. nia.
Qed.

Lemma bucket_start_ok {E} self t :
  supported t -> @bucket_start CH E self t = Ok (bucket_floor self t).
Proof.
  intros Ht. unfold bucket_start.
  rewrite num_seconds_duration, timestamp_spec, timestamp_opt_some; [done|].
  pose proof (bucket_floor_supported self t Ht) as H.
  unfold supported in H. by rewrite bucket_floor_seconds in H.
Qed.
End IntervalFacts.

(** Bucketing is a floor: every representable instant has a bucket; the
    bucket starts at or before the instant, contains it, is aligned on the
    interval, and is the bucket of its own start. *)
Theorem bucket_start_floor {CH : Chrono} {CL : ChronoLaws CH} (self : CandleInterval.t) (t : Z) :
  supported t ->
  exists b, @bucket_start CH CoreError.t self t = Ok b /\
    b <= t < b + duration self /\
    (b / NANOS) mod (num_seconds (duration self)) = 0 /\
    @bucket_start CH CoreError.t self b = Ok b /\
    b <= bucket_close_time self b < b + duration self.
Proof.
  intros Ht. exists (bucket_floor self t).
  rewrite num_seconds_duration.
  split; [by apply bucket_start_ok|]. split; [apply bucket_floor_bounds|].
  split; [apply bucket_floor_aligned|]. split.
  - rewrite bucket_start_ok, bucket_floor_idem; [done|by apply bucket_floor_supported].
  - unfold bucket_close_time. rewrite duration_count. pose proof (source_candle_count_pos self).
    unfold seconds, milliseconds, NANOS, MILLI. lia.
Qed.

Example bucket_start_floor_witness :
  @bucket_start PlainChrono CoreError.t CandleInterval.FifteenMinutes (seconds 1716500000)
  = Ok (seconds 1716499800) /\
  exists b, @bucket_start PlainChrono CoreError.t CandleInterval.FifteenMinutes
              (seconds 1716500000) = Ok b /\
    b <= seconds 1716500000 < b + duration CandleInterval.FifteenMinutes.
Proof.
  split; [reflexivity|].
  destruct (@bucket_start_floor PlainChrono PlainChronoLaws CandleInterval.FifteenMinutes
              (seconds 1716500000)) as (b & Hb & Hr & _).
  - vm_compute. split; discriminate.
  - exists b. split; [exact Hb|exact Hr].
Defined.

(** [candles_between] counts the whole intervals of a window: on a valid
    window whose count fits an [i32] it returns [n] with
    [n * step <= end - start < (n + 1) * step] (window in whole milliseconds);
    it rejects exactly the empty or reversed windows and the counts beyond
    [i32]. *)
Theorem candles_between_spec {CH : Chrono} {CL : ChronoLaws CH}
    (self : CandleInterval.t) (start_time end_time : Z) :
  match candles_between self start_time end_time with
  | Ok n => start_time < end_time /\ 0 <= n <= i32_max /\
            n * duration self <= end_time - start_time < (n + 1) * duration self
  | Err CoreError.InvalidCandleBackfillTimeRange => end_time <= start_time
  | Err CoreError.InvalidCandleBackfillEstimate =>
      (i32_max + 1) * duration self <= end_time - start_time
  | _ => False
  end.
Proof.
  unfold candles_between. destruct (Z.leb_spec end_time start_time); [done|].
  rewrite duration_count.
  replace (seconds (60 * source_candle_count self))
    with (milliseconds (60000 * source_candle_count self))
    by (unfold seconds, milliseconds, NANOS, MILLI; lia).
  rewrite num_milliseconds_milliseconds, num_milliseconds_nonneg by lia.
  pose proof (source_candle_count_pos self) as Hc.
  assert (0 < 60000 * source_candle_count self) by lia.
  assert (0 <= end_time - start_time) by lia.
  set (d := end_time - start_time) in *. set (c := 60000 * source_candle_count self) in *.
  assert (0 <= d / MILLI) by (apply Z.div_pos; done).
  rewrite Z.quot_div_nonneg by lia.
  pose proof (Z.div_mod d MILLI ltac:(done)) as Hd1.
  pose proof (Z.mod_pos_bound d MILLI ltac:(done)).
  pose proof (Z.div_mod (d / MILLI) c ltac:(lia)) as Hd2.
  pose proof (Z.mod_pos_bound (d / MILLI) c ltac:(lia)).
  assert (0 <= d / MILLI / c) by (apply Z.div_pos; lia).
  set (n := d / MILLI / c) in *. unfold milliseconds.
  assert (n * (c * MILLI) <= d < (n + 1) * (c * MILLI)) by (unfold MILLI in *; nia).
  unfold i32_try_from. destruct (Z.leb_spec (- 2 ^ 31) n); [|lia].
  destruct (Z.leb_spec n i32_max); cbn; [lia|]. nia.
Qed.

Example candles_between_spec_witness :
  @candles_between PlainChrono CandleInterval.FiveMinutes 0 (minutes 33) = Ok 6 /\
  6 * duration CandleInterval.FiveMinutes <= minutes 33 < 7 * duration CandleInterval.FiveMinutes.
Proof.
  split; [reflexivity|].
  exact (proj2 (proj2 (candles_between_spec (CH := PlainChrono) (CL := PlainChronoLaws)
    CandleInterval.FiveMinutes 0 (minutes 33)))).
Defined.

(** ** The aggregator *)

Section AggregateFacts.
Context {DI : Decimal} {CH : Chrono} {CL : ChronoLaws CH} {UL : UuidLib}.
Variable target : CandleInterval.t.

(** What one aggregated candle is: [w] is a full window of closed 1m candles,
    one per minute from [start], and [k] its open, extremes, close and sums. *)
Record aggregates (start : Z) (w : list Candle) (k : Candle) : Prop := {
  agg_length : Z.of_nat (length w) = source_candle_count target;
  agg_source : forall c, In c w -> is_source_candle c = true;
  agg_times : forall i c, w !! i = Some c -> c_open_time c = start + minutes (Z.of_nat i);
  agg_interval : c_interval k = target /\ c_is_closed k = true;
  agg_time : c_open_time k = start /\ c_close_time k = bucket_close_time target start;
  agg_open : exists c, head w = Some c /\ c_open k = c_open c /\ c_symbol k = c_symbol c;
  agg_close : exists c, last w = Some c /\ c_close k = c_close c;
  agg_high : In (c_high k) (map c_high w) /\
             forall c, In c w -> (dval (c_high c) <= dval (c_high k))%Q;
  agg_low : In (c_low k) (map c_low w) /\
            forall c, In c w -> (dval (c_low k) <= dval (c_low c))%Q;
  agg_volume : c_volume k = dsum (map c_volume w);
  agg_trades : c_trade_count k = foldl i32_add 0 (map c_trade_count w)
}.

Lemma is_complete_spec start w :
  is_complete (source_candle_count target) start w = true <->
  Z.of_nat (length w) = source_candle_count target /\
  (forall i c, w !! i = Some c -> c_open_time c = start + minutes (Z.of_nat i)).
Proof.
  unfold is_complete. rewrite andb_true_iff, Z.eqb_eq, forallb_forall.
  split; intros [H1 H2]; (split; [done|]).
  - intros i c Hc. specialize (H2 (i, c)). apply Z.eqb_eq, H2.
    apply list_elem_of_In, list_elem_of_lookup. exists i.
    rewrite lookup_zip_with, lookup_seq_lt, Hc by (by eapply lookup_lt_Some). done.
  - intros [i c] Hin. apply list_elem_of_In, list_elem_of_lookup in Hin as [j Hj].
    apply lookup_zip_with_Some in Hj as (a & b & [= -> ->] & Ha & Hb).
    apply lookup_seq in Ha as [-> _]. apply Z.eqb_eq. by apply H2.
Qed.

Lemma aggregate_bucket_ok start w :
  w <> [] -> (forall c, In c w -> is_source_candle c = true) ->
  is_complete (source_candle_count target) start w = true ->
  exists k, aggregate_bucket target start w = Ok k /\ aggregates start w k.
Proof.
  intros Hne Hsrc Hc. apply is_complete_spec in Hc as [Hlen Htimes].
  unfold aggregate_bucket.
  destruct (head w) as [f|] eqn:Hf; [|by destruct w]. cbn.
  destruct (last w) as [l|] eqn:Hl; [|by apply last_None in Hl]. cbn.
  destruct (iter_max_some dleb (map c_high w)) as [h Hh]; [by destruct w|].
  destruct (iter_min_some dleb (map c_low w)) as [lo Hlo]; [by destruct w|].
  rewrite Hh, Hlo. cbn. eexists. split; [done|].
  apply iter_max_spec in Hh as [Hh1 Hh2]; [|apply dleb_total|apply dleb_trans].
  apply iter_min_spec in Hlo as [Hlo1 Hlo2]; [|apply dleb_total|apply dleb_trans].
  split; cbn; try done; eauto.
  - split; [done|]. intros c Hin. apply dleb_le, Hh2. by apply in_map.
  - split; [done|]. intros c Hin. apply dleb_le, Hlo2. by apply in_map.
Qed.

(** One bucket either yields its candle or is counted as skipped. *)
Definition entry_complete (e : Z * list Candle) : bool :=
  is_complete (source_candle_count target) (fst e) (sort_by_key c_open_time (snd e)).

Lemma aggregate_loop entries acc :
  Forall (fun e : Z * list Candle => snd e <> [] /\
            forall c, In c (snd e) -> is_source_candle c = true) entries ->
  exists ks,
    fold_res (aggregate_step target) acc entries =
      Ok {| ao_candles := ao_candles acc ++ ks;
            ao_skipped_incomplete_buckets :=
              foldl (fun s _ => i32_add s 1) (ao_skipped_incomplete_buckets acc)
                (List.filter (fun e => negb (entry_complete e)) entries) |} /\
    Forall2 (fun e k => aggregates (fst e) (sort_by_key c_open_time (snd e)) k)
      (List.filter entry_complete entries) ks.
Proof.
  revert acc; induction entries as [|[b l] entries IH]; intros acc Hall; cbn.
  { exists []. rewrite app_nil_r. destruct acc. by split; [|constructor]. }
  inversion Hall as [|? ? [Hne Hsrc] Hall']; subst. cbn in Hne, Hsrc.
  change (is_complete _ b (sort_by_key c_open_time l)) with (entry_complete (b, l)).
  destruct (entry_complete (b, l)) eqn:Hc; cbn.
  - destruct (aggregate_bucket_ok b (sort_by_key c_open_time l)) as (k & Hk & Hagg); [..|done|].
    { intros H0. apply Hne. apply Permutation_nil. rewrite <- H0. by rewrite sort_by_key_perm. }
    { intros c Hin. apply Hsrc. by apply in_sort_by in Hin. }
    rewrite Hk. cbn. edestruct IH as (ks & Hrun & HF); [done|].
    exists (k :: ks). rewrite Hrun. cbn. rewrite <- app_assoc. split; [done|]. by constructor.
  - edestruct IH as (ks & Hrun & HF); [done|]. exists ks. rewrite Hrun. by split.
Qed.

(** The whole function, on instants [chrono] represents. *)
Definition source_groups (candles : list Candle) : list (Z * list Candle) :=
  foldl (group_push (fun c => bucket_floor target (c_open_time c))) []
    (List.filter is_source_candle candles).

Lemma source_groups_source candles :
  Forall (fun e : Z * list Candle => snd e <> [] /\
            forall c, In c (snd e) -> is_source_candle c = true) (source_groups candles).
Proof.
  apply Forall_forall. intros [b l] Hin. apply list_elem_of_In, group_entry in Hin as [-> Hne].
  split; [done|]. cbn. intros c Hc. apply filter_In in Hc as [Hc _].
  by apply filter_In in Hc as [_ Hc].
Qed.

Lemma aggregate_run candles :
  Forall (fun c => supported (c_open_time c)) candles ->
  exists ks,
    aggregate_closed_1m_candles candles target =
      Ok {| ao_candles := ks;
            ao_skipped_incomplete_buckets :=
              foldl (fun s _ => i32_add s 1) 0
                (List.filter (fun e => negb (entry_complete e)) (source_groups candles)) |} /\
    Forall2 (fun e k => aggregates (fst e) (sort_by_key c_open_time (snd e)) k)
      (List.filter entry_complete (source_groups candles)) ks.
Proof.
  intros Hsup. unfold aggregate_closed_1m_candles.
  destruct candles as [|c0 cs]; [by exists []; split; [|constructor]|].
  rewrite (fold_res_pure _ (group_push (fun c => bucket_floor target (c_open_time c)))).
  - apply (aggregate_loop (source_groups (c0 :: cs))
             {| ao_candles := []; ao_skipped_incomplete_buckets := 0 |}).
    apply source_groups_source.
  - intros m c Hin. unfold bucket_push. rewrite bucket_start_ok; [done|].
    rewrite Forall_forall in Hsup. apply Hsup, list_elem_of_In. by apply filter_In in Hin as [? _].
Qed.

Lemma forall2_in_r {A B} (R : A -> B -> Prop) l l' y :
  Forall2 R l l' -> In y l' -> exists x, In x l /\ R x y.
Proof.
  induction 1; cbn; [done|]. intros [<-|Hin]; [eauto|].
  destruct (IHForall2 Hin) as (z & ? & ?). eauto.
Qed.

Lemma forall2_in_l {A B} (R : A -> B -> Prop) l l' x :
  Forall2 R l l' -> In x l -> exists y, In y l' /\ R x y.
Proof.
  induction 1; cbn; [done|]. intros [<-|Hin]; [eauto|].
  destruct (IHForall2 Hin) as (z & ? & ?). eauto.
Qed.
End AggregateFacts.

(** C9.  Soundness of the aggregator.  On candles with representable open
    times it returns; the derived candles are in strictly increasing open time;
    each one starts on a bucket boundary and is exactly the fold of a full
    window of the given closed 1m candles, one per minute of the bucket: open of
    the first, close of the last, the greatest high, the least low, the sum of
    the volumes. *)
Theorem aggregate_sound {DI : Decimal} {CH : Chrono} {CL : ChronoLaws CH} {UL : UuidLib}
    (candles : list Candle) (target : CandleInterval.t) :
  Forall (fun c => supported (c_open_time c)) candles ->
  exists out, aggregate_closed_1m_candles candles target = Ok out /\
    StronglySorted Z.lt (map c_open_time (ao_candles out)) /\
    forall k, In k (ao_candles out) ->
      bucket_floor target (c_open_time k) = c_open_time k /\
      exists w, (forall c, In c w -> In c candles) /\ aggregates target (c_open_time k) w k.
Proof.
  intros Hsup. destruct (aggregate_run target candles Hsup) as (ks & -> & HF).
  eexists. split; [done|]. cbn. split.
  - assert (map c_open_time ks
            = map fst (List.filter (entry_complete target) (source_groups target candles))) as ->.
    { clear Hsup. induction HF as [|e k es ks Hek _ IH]; cbn; [done|].
      rewrite IH. by destruct (agg_time _ _ _ _ Hek) as [-> _]. }
    apply strongly_sorted_map_filter. apply group_push_spec.
  - intros k Hk. destruct (forall2_in_r _ _ _ _ HF Hk) as ([b l] & Hin & Hagg). cbn in Hagg.
    apply filter_In in Hin as [Hin _]. apply group_entry in Hin as [-> Hne].
    destruct (agg_time _ _ _ _ Hagg) as [-> _]. split.
    + destruct (group_of _ b _) as [|c l] eqn:E; [done|].
      assert (In c (c :: l)) as Hc by (by left). rewrite <- E in Hc.
      apply filter_In in Hc as [_ Hc]. apply Z.eqb_eq in Hc. rewrite <- Hc. apply bucket_floor_idem.
    + eexists. split; [|exact Hagg]. intros c Hc. apply in_sort_by, filter_In in Hc as [Hc _].
      by apply filter_In in Hc as [Hc _].
Qed.

(** Completeness of the aggregator: a bucket yields a candle exactly when
    its closed 1m candles, sorted, are one per minute; and the candles and the
    skipped buckets together account for every bucket that has a closed 1m
    candle (fewer than 2^31 buckets, the range of the [i32] counter). *)
Theorem aggregate_complete {DI : Decimal} {CH : Chrono} {CL : ChronoLaws CH} {UL : UuidLib}
    (candles : list Candle) (target : CandleInterval.t) :
  Forall (fun c => supported (c_open_time c)) candles ->
  Z.of_nat (length candles) < 2 ^ 31 ->
  exists out starts, aggregate_closed_1m_candles candles target = Ok out /\
    StronglySorted Z.lt starts /\
    (forall b, In b starts <->
       exists c, In c candles /\ is_source_candle c = true /\
                 bucket_floor target (c_open_time c) = b) /\
    Z.of_nat (length (ao_candles out)) + ao_skipped_incomplete_buckets out
      = Z.of_nat (length starts) /\
    (forall b, In b (map c_open_time (ao_candles out)) <->
       In b starts /\
       is_complete (source_candle_count target) b
         (sort_by_key c_open_time
            (List.filter (fun c => bucket_floor target (c_open_time c) =? b)
               (List.filter is_source_candle candles))) = true).
Proof.
  intros Hsup Hlen. destruct (aggregate_run target candles Hsup) as (ks & -> & HF).
  eexists _, (map fst (source_groups target candles)). split; [done|]. cbn.
  split; [apply group_push_spec|]. split; [|split].
  - intros b. unfold source_groups. rewrite group_keys. split.
    + intros (c & Hc & Hb). apply filter_In in Hc as [? ?]. eauto.
    + intros (c & ? & ? & ?). exists c. split; [by apply filter_In|done].
  - rewrite length_map, <- (Forall2_length _ _ _ HF).
    assert (length (source_groups target candles) <= length candles)%nat.
    { unfold source_groups. etransitivity; [apply group_length|]. apply filter_length_le. }
    pose proof (filter_length_le (fun e => negb (entry_complete target e))
      (source_groups target candles)).
    rewrite count_i32 by lia. rewrite (filter_length_split (entry_complete target) (source_groups target candles)). lia.
  - intros b. rewrite !in_map_iff. split.
    + intros (k & <- & Hk). destruct (forall2_in_r _ _ _ _ HF Hk) as ([b l] & Hin & Hagg).
      cbn in Hagg. destruct (agg_time _ _ _ _ Hagg) as [-> _].
      apply filter_In in Hin as [Hin Hc]. split; [by exists (b, l)|].
      apply group_entry in Hin as [-> _]. exact Hc.
    + intros [([b' l] & Heq & Hin) Hc]. cbn in Heq. subst b'.
      destruct (forall2_in_l _ _ _ (b, l) HF) as (k & Hk & Hagg).
      { apply filter_In. split; [done|]. apply group_entry in Hin as [-> _]. exact Hc. }
      exists k. split; [|done]. by destruct (agg_time _ _ _ _ Hagg) as [-> _].
Qed.

(** The result does not depend on the order of the input: permuting the
    candles gives the same derived candles and the same count, as long as no
    two closed 1m candles share an open time. *)
Theorem aggregate_order_insensitive {DI : Decimal} {CH : Chrono} {CL : ChronoLaws CH}
    {UL : UuidLib} (candles candles' : list Candle) (target : CandleInterval.t) :
  Forall (fun c => supported (c_open_time c)) candles ->
  NoDup (map c_open_time (List.filter is_source_candle candles)) ->
  Permutation candles candles' ->
  aggregate_closed_1m_candles candles' target = aggregate_closed_1m_candles candles target.
Proof.
  intros Hsup Hnd Hp.
  set (key c := bucket_floor target (c_open_time c)).
  assert (Hsame : forall cs, Forall (fun c => supported (c_open_time c)) cs ->
    aggregate_closed_1m_candles cs target =
    fold_res (aggregate_step target) {| ao_candles := []; ao_skipped_incomplete_buckets := 0 |}
      (foldl (group_push key) [] (List.filter is_source_candle cs))).
  { intros cs Hcs. unfold aggregate_closed_1m_candles. destruct cs as [|c0 cs]; [done|].
    rewrite (fold_res_pure _ (group_push key)); [done|].
    intros m c Hin. unfold bucket_push. rewrite bucket_start_ok; [done|].
    rewrite Forall_forall in Hcs. apply Hcs, list_elem_of_In. by apply filter_In in Hin as [? _]. }
  rewrite !Hsame; [|done|by rewrite <- Hp]. clear Hsame.
  set (l := List.filter is_source_candle candles) in *.
  set (l' := List.filter is_source_candle candles').
  assert (Permutation l l') as Hpl by (by apply filter_permutation).
  assert (Forall2 (fun e e' => fst e = fst e' /\
      sort_by_key c_open_time (snd e) = sort_by_key c_open_time (snd e'))
      (foldl (group_push key) [] l) (foldl (group_push key) [] l')) as HF.
  { destruct (group_push_spec key l) as [Hok Hget], (group_push_spec key l') as [Hok' Hget'].
    apply (btree_forall2 (fun a b => sort_by_key c_open_time a = sort_by_key c_open_time b));
      [done..|].
    intros b. rewrite Hget, Hget'.
    assert (Permutation (group_of key b l) (group_of key b l')) as Hg
      by (by apply filter_permutation).
    destruct (group_of key b l) eqn:E1, (group_of key b l') eqn:E2; try constructor.
    - by apply Permutation_nil in Hg.
    - by apply Permutation_sym, Permutation_nil in Hg.
    - rewrite <- E1, <- E2 in *. apply sort_by_key_permutation; [done|].
      by apply NoDup_map_filter. }
  clearbody l l'. clear -HF. generalize {| ao_candles := []; ao_skipped_incomplete_buckets := 0 |}.
  induction HF as [|[b w] [b' w'] es es' [Hb Hw] _ IH]; intros acc; [done|].
  cbn [fst snd] in Hb, Hw. subst b'. cbn [fold_res].
  assert (aggregate_step target acc (b, w) = aggregate_step target acc (b, w')) as ->
    by (unfold aggregate_step; by rewrite Hw).
  case_match; auto.
Qed.

(** ** Concrete candles for the witnesses *)

Module Sample.
#[local] Existing Instance ExactDecimal.
#[local] Existing Instance PlainChrono.
#[local] Existing Instance PlainUuid.

Definition t0 : Z := seconds 1716500100.   (** 2024-05-23T21:35:00Z, a multiple of five minutes *)

Definition candle (i : Z) (o h l c v : Z) : Candle := {|
  c_id := i; c_exchange := MarketDataSource.Binance; c_symbol := {| symbol_text := "BTCUSDT" |};
  c_interval := CandleInterval.OneMinute; c_open_time := t0 + minutes i;
  c_close_time := t0 + minutes (i + 1) - milliseconds 1;
  c_open := dint o; c_high := dint h; c_low := dint l; c_close := dint c; c_volume := dint v;
  c_quote_volume := None; c_trade_count := 1; c_is_closed := true;
  c_created_at := t0 + minutes (i + 1); c_updated_at := t0 + minutes (i + 1) |}.

(** A full five-minute bucket (out of order) and the first minute of the next. *)
Definition candles : list Candle :=
  [candle 1 101 104 100 103 10; candle 0 100 102 99 101 10; candle 2 103 103 98 99 10;
   candle 3 99 101 97 100 10; candle 5 105 106 104 105 10; candle 4 100 105 100 105 10].

Lemma candles_supported : Forall (fun c => supported (c_open_time c)) candles.
Proof. repeat constructor; vm_compute; discriminate. Defined.

Example aggregate_sound_witness :
  exists out : CandleAggregationOutcome, aggregate_closed_1m_candles candles CandleInterval.FiveMinutes = Ok out /\
    length (ao_candles out) = 1%nat /\ StronglySorted Z.lt (map c_open_time (ao_candles out)).
Proof.
  destruct (aggregate_sound (CL := PlainChronoLaws) candles CandleInterval.FiveMinutes
              candles_supported) as (out & Hout & Hs & _).
  exists out. split; [exact Hout|]. split; [|exact Hs].
  vm_compute in Hout. injection Hout as <-. reflexivity.
Defined.

Example aggregate_complete_witness :
  exists (out : CandleAggregationOutcome) (starts : list Z), aggregate_closed_1m_candles candles CandleInterval.FiveMinutes = Ok out /\
    Z.of_nat (length (ao_candles out)) + ao_skipped_incomplete_buckets out
      = Z.of_nat (length starts) /\
    ao_skipped_incomplete_buckets out = 1.
Proof.
  destruct (aggregate_complete (CL := PlainChronoLaws) candles CandleInterval.FiveMinutes
              candles_supported) as (out & starts & Hout & _ & _ & Hn & _); [reflexivity|].
  exists out, starts. split; [exact Hout|]. split; [exact Hn|].
  vm_compute in Hout. injection Hout as <-. reflexivity.
Defined.

Example aggregate_order_insensitive_witness :
  aggregate_closed_1m_candles (rev candles) CandleInterval.FiveMinutes
  = aggregate_closed_1m_candles candles CandleInterval.FiveMinutes.
Proof.
  apply (aggregate_order_insensitive (CL := PlainChronoLaws)).
  - exact candles_supported.
  - apply (bool_decide_unpack _). vm_compute. exact I.
  - apply Permutation_rev.
Defined.
End Sample.
