(* ===== verification/DataQuality.v ===== *)
(** * Market data quality and repair: crates/core/src/lib.rs, lines 603-1335

    [summarize_candle_continuity] walks the closed candles of a window in open
    time order and reports gaps, duplicates and coverage;
    [plan_market_data_repair] turns the reported gaps into at most [max_ranges]
    ranges to fetch, merging the gaps that touch ([merge_repair_gaps]).
    [now] is the value of [Utc::now()]. *)

From Stdlib Require Import ZArith QArith Lqa Lia List Permutation Sorted String.
From stdpp Require Import base list strings.
From S2P Require Import Prelude Text Host Types MarketData.

#[local] Open Scope Z_scope.

Record MarketDataGap := {
  gap_start_time : Z;
  gap_end_time : Z;
  gap_missing_candle_count : Z;
  gap_seconds : Z
}.

Record MarketDataQualityFinding := { qf_severity : string; qf_code : string; qf_message : string }.
Record MarketDataQualityRecommendation := { qr_code : string; qr_message : string }.
Record MarketDataRepairFinding := { rf_severity : string; rf_code : string; rf_message : string }.
Record MarketDataRepairRecommendation := { rr_code : string; rr_message : string }.

Record MarketDataRepairRange := {
  range_source_interval : string;
  range_start_time : Z;
  range_end_time : Z;
  range_missing_candle_count : Z
}.

Section Quality.
Context {DI : Decimal} {CH : Chrono} {CA : ChronoArith} {CS : ChronoSeconds}.

Record MarketDataQualityRequest := {
  q_exchange : MarketDataSource.t;
  q_symbol : string;
  q_interval : string;
  q_start_time : Z;
  q_end_time : Z;
  q_expected_interval_seconds : option Z;
  q_max_allowed_gap_count : option Z;
  q_max_allowed_gap_pct : option dec
}.

Definition q_parsed_interval (self : MarketDataQualityRequest) : result CandleInterval.t :=
  from_str (q_interval self).

Definition MarketDataQualityRequest_validate (self : MarketDataQualityRequest) : result unit :=
  if is_empty (trim (q_symbol self)) then Err CoreError.EmptyCandleBackfillSymbol else
  _ ← q_parsed_interval self;
  if q_end_time self <=? q_start_time self then Err CoreError.InvalidCandleBackfillTimeRange else
  match q_expected_interval_seconds self with
  | Some seconds => if seconds <=? 0 then Err CoreError.InvalidCandleBackfillTimeRange else Ok tt
  | None => Ok tt
  end.

(** [unwrap_or_else(|| self.parsed_interval().map_or(0, ..))] *)
Definition expected_interval_seconds (self : MarketDataQualityRequest) : Z :=
  match q_expected_interval_seconds self with
  | Some s => s
  | None => match q_parsed_interval self with
            | Ok interval => num_seconds (duration interval)
            | _ => 0
            end
  end.

Definition count_expected_candles_for_window (interval_seconds start_time end_time : Z) : Z :=
  if (interval_seconds <=? 0) || (end_time <=? start_time) then 0 else
  Z.max (num_seconds (end_time - start_time) / interval_seconds) 0.

(** The mutable locals of the loop over [closed.windows(2)]. *)
Record ContinuityState := {
  cs_gaps : list MarketDataGap;
  cs_duplicate_count : Z;
  cs_total_missing_from_gaps : Z;
  cs_gap_count : Z;
  cs_largest_gap_seconds : Z
}.

Definition continuity_init : ContinuityState :=
  {| cs_gaps := []; cs_duplicate_count := 0; cs_total_missing_from_gaps := 0;
     cs_gap_count := 0; cs_largest_gap_seconds := 0 |}.

Definition continuity_step (interval_seconds : Z) (max_gaps_returned : nat)
    (st : ContinuityState) (pair : Candle * Candle) : result ContinuityState :=
  let '(previous, next) := pair in
  expected_next ← expect (after_seconds (c_open_time previous) interval_seconds);
  if c_open_time next =? c_open_time previous then
    Ok {| cs_gaps := cs_gaps st;
       cs_duplicate_count := cs_duplicate_count st + 1;
       cs_total_missing_from_gaps := cs_total_missing_from_gaps st;
       cs_gap_count := cs_gap_count st;
       cs_largest_gap_seconds := cs_largest_gap_seconds st |}
  else if expected_next <? c_open_time next then
    let gap_secs := Z.max (num_seconds (c_open_time next - expected_next)) 0 in
    let missing := Z.max (gap_secs / interval_seconds) 1 in
    Ok {| cs_gaps :=
         if (length (cs_gaps st) <? max_gaps_returned)%nat then
           cs_gaps st ++ [{| gap_start_time := expected_next;
                             gap_end_time := c_open_time next;
                             gap_missing_candle_count := missing;
                             gap_seconds := gap_secs |}]
         else cs_gaps st;
       cs_duplicate_count := cs_duplicate_count st;
       cs_total_missing_from_gaps := cs_total_missing_from_gaps st + missing;
       cs_gap_count := cs_gap_count st + 1;
       cs_largest_gap_seconds := Z.max (cs_largest_gap_seconds st) gap_secs |}
  else Ok st.

Record MarketDataQualityReport := {
  rep_exchange : MarketDataSource.t;
  rep_symbol : string;
  rep_interval : string;
  rep_window_start : Z;
  rep_window_end : Z;
  rep_expected_candle_count : Z;
  rep_actual_candle_count : Z;
  rep_closed_candle_count : Z;
  rep_open_candle_count : Z;
  rep_missing_candle_count : Z;
  rep_coverage_pct : dec;
  rep_gap_count : Z;
  rep_largest_gap_seconds : Z;
  rep_gaps : list MarketDataGap;
  rep_first_candle_time : option Z;
  rep_last_candle_time : option Z;
  rep_status : MarketDataQualityStatus.t;
  rep_findings : list MarketDataQualityFinding;
  rep_recommendations : list MarketDataQualityRecommendation
}.

Definition pct_of (part whole : Z) : dec :=
  if 0 <? whole then ddiv (dint part * dnew 100 0)%dec (dint whole) else ZERO.

Definition quality_status (actual expected gap_count max_gap_count duplicates opens : Z)
    (coverage gap_pct max_gap_pct : dec) : MarketDataQualityStatus.t :=
  if actual =? 0 then MarketDataQualityStatus.InsufficientData
  else if expected =? 0 then MarketDataQualityStatus.Unknown
  else if dltb coverage (dnew 95 0) || dltb (dnew 5 0) gap_pct then MarketDataQualityStatus.Bad
  else if dltb coverage (dnew 99 0) || (max_gap_count <? gap_count) || dltb max_gap_pct gap_pct
          || (0 <? duplicates) || (0 <? opens) then MarketDataQualityStatus.Degraded
  else MarketDataQualityStatus.Good.

Definition quality_findings (now end_time actual expected opens : Z) (st : ContinuityState)
    (coverage gap_pct : dec) (status : MarketDataQualityStatus.t)
    : list MarketDataQualityFinding :=
  (if actual =? 0 then
     [{| qf_severity := "HIGH"; qf_code := "no_candles";
         qf_message := "No candles exist for the requested market data window." |}] else []) ++
  (if 0 <? cs_gap_count st then
     [{| qf_severity := if dltb (dnew 5 0) gap_pct then "HIGH" else "MEDIUM";
         qf_code := "candle_gaps_detected";
         qf_message := show_int (cs_gap_count st) +:+
           " expected candle slots are missing from the closed-candle sequence." |}] else []) ++
  (if 0 <? cs_duplicate_count st then
     [{| qf_severity := "MEDIUM"; qf_code := "duplicate_open_times_detected";
         qf_message := show_int (cs_duplicate_count st) +:+
           " duplicate closed candle open times were detected." |}] else []) ++
  (if (0 <? opens) && (end_time <? now) then
     [{| qf_severity := "MEDIUM"; qf_code := "open_candles_in_historical_window";
         qf_message := show_int opens +:+
           " open candles were found inside a completed historical window." |}] else []) ++
  (let message := "Closed-candle coverage is " +:+ dshow coverage +:+
     "% for the requested window." in
   if (0 <? expected) && dltb coverage (dnew 95 0) then
     [{| qf_severity := "HIGH"; qf_code := "coverage_below_95_pct"; qf_message := message |}]
   else if (0 <? expected) && dltb coverage (dnew 99 0) then
     [{| qf_severity := "MEDIUM"; qf_code := "coverage_below_99_pct"; qf_message := message |}]
   else []) ++
  (if bool_decide (status = MarketDataQualityStatus.Good) then
     [{| qf_severity := "INFO"; qf_code := "market_data_quality_good";
         qf_message := "Closed candles are continuous for the requested window." |}] else []).

Definition quality_recommendations (actual : Z) (st : ContinuityState)
    : list MarketDataQualityRecommendation :=
  (if actual =? 0 then
     [{| qr_code := "backfill_market_data";
         qr_message := "Backfill the requested symbol and interval before using this window for research." |}] else []) ++
  (if 0 <? cs_gap_count st then
     [{| qr_code := "repair_candle_gaps";
         qr_message := "Backfill or exclude gap windows before trusting experiments, walk-forward validation, attribution, qualification, or dossiers." |}] else []).

Definition closed_sorted (candles : list Candle) : list Candle :=
  List.filter c_is_closed (sort_by_key c_open_time candles).

Definition summarize_candle_continuity (now : Z) (request : MarketDataQualityRequest)
    (candles : list Candle) (max_gaps_returned : nat) : result MarketDataQualityReport :=
  _ ← MarketDataQualityRequest_validate request;
  symbol ← Symbol_new (q_symbol request);
  interval ← q_parsed_interval request;
  let interval_seconds := expected_interval_seconds request in
  let expected_candle_count := count_expected_candles_for_window interval_seconds
    (q_start_time request) (q_end_time request) in
  let sorted := sort_by_key c_open_time candles in
  let actual_candle_count := Z.of_nat (length sorted) in
  let closed := closed_sorted candles in
  let closed_candle_count := Z.of_nat (length closed) in
  let open_candle_count := i64_saturating_sub actual_candle_count closed_candle_count in
  let coverage_pct := dround_dp
    (pct_of (Z.min closed_candle_count expected_candle_count) expected_candle_count) 4 in
  st ← fold_res (continuity_step interval_seconds max_gaps_returned) continuity_init (pairs closed);
  let missing_candle_count := Z.max
    (i64_saturating_sub expected_candle_count closed_candle_count)
    (cs_total_missing_from_gaps st) in
  let gap_pct := pct_of (cs_total_missing_from_gaps st) expected_candle_count in
  let max_allowed_gap_count := Z.max (default 0 (q_max_allowed_gap_count request)) 0 in
  let max_allowed_gap_pct := default ZERO (q_max_allowed_gap_pct request) in
  let status := quality_status actual_candle_count expected_candle_count (cs_gap_count st)
    max_allowed_gap_count (cs_duplicate_count st) open_candle_count
    coverage_pct gap_pct max_allowed_gap_pct in
  Ok {| rep_exchange := q_exchange request;
        rep_symbol := symbol_text symbol;
        rep_interval := CandleInterval.as_str interval;
        rep_window_start := q_start_time request;
        rep_window_end := q_end_time request;
        rep_expected_candle_count := expected_candle_count;
        rep_actual_candle_count := actual_candle_count;
        rep_closed_candle_count := closed_candle_count;
        rep_open_candle_count := open_candle_count;
        rep_missing_candle_count := missing_candle_count;
        rep_coverage_pct := coverage_pct;
        rep_gap_count := cs_gap_count st;
        rep_largest_gap_seconds := cs_largest_gap_seconds st;
        rep_gaps := cs_gaps st;
        rep_first_candle_time := c_open_time <$> head sorted;
        rep_last_candle_time := c_open_time <$> last sorted;
        rep_status := status;
        rep_findings := quality_findings now (q_end_time request) actual_candle_count
          expected_candle_count open_candle_count st coverage_pct gap_pct status;
        rep_recommendations := quality_recommendations actual_candle_count st |}.
End Quality.

(** ** Repair plans *)

Section Repair.
Context {DI : Decimal} {CH : Chrono}.

(** The loop over the gaps; [ranges] is the vector in reverse, its [last_mut()]
    the head; the last branch is the [break]. *)
Fixpoint merge_loop (source_interval : CandleInterval.t) (max_ranges : nat)
    (ranges : list MarketDataRepairRange) (gaps : list MarketDataGap)
    : list MarketDataRepairRange :=
  match gaps with
  | [] => ranges
  | gap :: gaps =>
    let missing := Z.max
      (count_expected_candles_for_window (num_seconds (duration source_interval))
         (gap_start_time gap) (gap_end_time gap)) (gap_missing_candle_count gap) in
    let push := fun _ : unit =>
      if (max_ranges <=? length ranges)%nat then ranges else
      merge_loop source_interval max_ranges
        ({| range_source_interval := CandleInterval.as_str source_interval;
            range_start_time := gap_start_time gap;
            range_end_time := gap_end_time gap;
            range_missing_candle_count := missing |} :: ranges) gaps in
    match ranges with
    | last :: before =>
      if gap_start_time gap <=? range_end_time last then
        merge_loop source_interval max_ranges
          ({| range_source_interval := range_source_interval last;
              range_start_time := range_start_time last;
              range_end_time := Z.max (range_end_time last) (gap_end_time gap);
              range_missing_candle_count := range_missing_candle_count last + missing |}
           :: before) gaps
      else push tt
    | [] => push tt
    end
  end.

Definition merge_repair_gaps (gaps : list MarketDataGap) (source_interval : CandleInterval.t)
    (max_ranges : nat) : list MarketDataRepairRange :=
  rev (merge_loop source_interval max_ranges [] gaps).

Record MarketDataRepairPlanRequest := {
  p_exchange : MarketDataSource.t;
  p_symbol : string;
  p_interval : string;
  p_start_time : Z;
  p_end_time : Z;
  p_repair_mode : MarketDataRepairMode.t;
  p_max_ranges : Z;
  p_reaggregate_derived_intervals : bool;
  p_correlation_id : option Z
}.

Definition validate_without_interval_support (self : MarketDataRepairPlanRequest) : result unit :=
  if is_empty (trim (p_symbol self)) then Err CoreError.EmptyCandleBackfillSymbol else
  if p_end_time self <=? p_start_time self then Err CoreError.InvalidCandleBackfillTimeRange else
  if p_max_ranges self <=? 0 then Err CoreError.InvalidMarketDataRepairMaxRanges else
  Ok tt.

Record MarketDataRepairPlan := {
  plan_exchange : MarketDataSource.t;
  plan_symbol : string;
  plan_interval : string;
  plan_start_time : Z;
  plan_end_time : Z;
  plan_status : MarketDataRepairStatus.t;
  plan_initial_quality_status : MarketDataQualityStatus.t;
  plan_gap_count : Z;
  plan_repair_ranges : list MarketDataRepairRange;
  plan_estimated_source_interval : option string;
  plan_requires_source_interval : bool;
  plan_reaggregate_derived_intervals : bool;
  plan_findings : list MarketDataRepairFinding;
  plan_recommendations : list MarketDataRepairRecommendation;
  plan_correlation_id : option Z
}.

(** [ranges.iter_mut()] setting [source_interval] *)
Definition set_source_interval (s : string) (r : MarketDataRepairRange) : MarketDataRepairRange :=
  {| range_source_interval := s; range_start_time := range_start_time r;
     range_end_time := range_end_time r;
     range_missing_candle_count := range_missing_candle_count r |}.

Definition plan_market_data_repair (request : MarketDataRepairPlanRequest)
    (quality_report : MarketDataQualityReport) : result MarketDataRepairPlan :=
  _ ← validate_without_interval_support request;
  symbol ← Symbol_new (p_symbol request);
  let plan interval status ranges source requires reaggregate findings recommendations :=
    {| plan_exchange := p_exchange request;
       plan_symbol := symbol_text symbol;
       plan_interval := interval;
       plan_start_time := p_start_time request;
       plan_end_time := p_end_time request;
       plan_status := status;
       plan_initial_quality_status := rep_status quality_report;
       plan_gap_count := rep_gap_count quality_report;
       plan_repair_ranges := ranges;
       plan_estimated_source_interval := source;
       plan_requires_source_interval := requires;
       plan_reaggregate_derived_intervals := reaggregate;
       plan_findings := findings;
       plan_recommendations := recommendations;
       plan_correlation_id := p_correlation_id request |} in
  match from_str (A := CandleInterval.t) (p_interval request) with
  | Panic => Panic
  | Err _ =>
    Ok (plan (p_interval request) MarketDataRepairStatus.UnsupportedInterval [] None false false
      [{| rf_severity := "MEDIUM"; rf_code := "unsupported_interval";
          rf_message := "Interval " +:+ p_interval request +:+ " is not supported for repair." |}]
      [{| rr_code := "use_supported_interval"; rr_message := "Use one of 1m, 5m, 15m, or 1h." |}])
  | Ok interval =>
    let requires_source_interval := is_aggregated_from_one_minute interval in
    let source := if requires_source_interval then CandleInterval.as_str CandleInterval.OneMinute
                  else CandleInterval.as_str interval in
    let reaggregate := requires_source_interval && p_reaggregate_derived_intervals request in
    if bool_decide (rep_status quality_report = MarketDataQualityStatus.InsufficientData) then
      Ok (plan (CandleInterval.as_str interval) MarketDataRepairStatus.InsufficientData
        [{| range_source_interval := source;
            range_start_time := p_start_time request;
            range_end_time := p_end_time request;
            range_missing_candle_count := default 0
              (ok (candles_between CandleInterval.OneMinute
                     (p_start_time request) (p_end_time request))) |}]
        (Some source) requires_source_interval reaggregate
        [{| rf_severity := "HIGH"; rf_code := "insufficient_market_data";
            rf_message := "No candles exist for the requested repair window." |}]
        [{| rr_code := "backfill_full_window";
            rr_message := "Backfill the requested window before using it for research." |}])
    else
    let repair_ranges := merge_repair_gaps (rep_gaps quality_report)
      (if requires_source_interval then CandleInterval.OneMinute else interval)
      (Z.to_nat (p_max_ranges request)) in
    if (rep_gap_count quality_report =? 0) || bool_decide (repair_ranges = []) then
      Ok (plan (CandleInterval.as_str interval) MarketDataRepairStatus.NoRepairNeeded
        repair_ranges (Some source) requires_source_interval reaggregate
        [{| rf_severity := "INFO"; rf_code := "no_repair_needed";
            rf_message := "No candle gaps were detected in the requested window." |}] [])
    else
    let truncated := Z.of_nat (length repair_ranges) <? rep_gap_count quality_report in
    Ok (plan (CandleInterval.as_str interval) MarketDataRepairStatus.RepairPlanned
      (if requires_source_interval
       then map (set_source_interval (CandleInterval.as_str CandleInterval.OneMinute)) repair_ranges
       else repair_ranges)
      (Some source) requires_source_interval reaggregate
      (if truncated then
         [{| rf_severity := "MEDIUM"; rf_code := "repair_ranges_truncated";
             rf_message := "Repair ranges were limited to max_ranges=" +:+
               show_int (p_max_ranges request) +:+ "." |}] else [])
      ((if truncated then
          [{| rr_code := "increase_max_ranges";
              rr_message := "Increase max_ranges or repair a narrower window." |}] else []) ++
       (if requires_source_interval then
          [{| rr_code := "repair_source_then_reaggregate";
              rr_message := "Repair missing 1m source candles, then re-aggregate the requested interval." |}]
        else
          [{| rr_code := "backfill_missing_ranges";
              rr_message := "Backfill only the missing public market-data ranges." |}])))
  end.
End Repair.

(** ** The continuity walk *)

Section WalkFacts.
Context {DI : Decimal} {CH : Chrono} {CL : ChronoLaws CH}.
Context {CA : ChronoArith} {CAL : ChronoArithLaws CA} {CS : ChronoSeconds} {CSL : ChronoSecondsLaws CS}.
Variable interval_seconds : Z.
Hypothesis interval_pos : 0 < interval_seconds.

(** The gaps of a list of candles, declaratively: the consecutive pairs whose
    second candle opens after the slot that follows the first. *)
Definition is_gap (p : Candle * Candle) : bool :=
  c_open_time (fst p) + seconds interval_seconds <? c_open_time (snd p).

Definition gap_of (p : Candle * Candle) : MarketDataGap :=
  let start := c_open_time (fst p) + seconds interval_seconds in
  let secs := (c_open_time (snd p) - start) / NANOS in
  {| gap_start_time := start;
     gap_end_time := c_open_time (snd p);
     gap_missing_candle_count := Z.max (secs / interval_seconds) 1;
     gap_seconds := secs |}.

Definition true_gaps (l : list Candle) : list MarketDataGap :=
  map gap_of (List.filter is_gap (pairs l)).

Definition is_duplicate (p : Candle * Candle) : bool :=
  c_open_time (snd p) =? c_open_time (fst p).

Lemma continuity_step_cases max st p st' :
  continuity_step interval_seconds max st p = Ok st' ->
  st' =
  {| cs_gaps := if is_gap p && (length (cs_gaps st) <? max)%nat
                then cs_gaps st ++ [gap_of p] else cs_gaps st;
     cs_duplicate_count := cs_duplicate_count st + (if is_duplicate p then 1 else 0);
     cs_total_missing_from_gaps := cs_total_missing_from_gaps st +
       (if is_gap p then gap_missing_candle_count (gap_of p) else 0);
     cs_gap_count := cs_gap_count st + (if is_gap p then 1 else 0);
     cs_largest_gap_seconds := if is_gap p
       then Z.max (cs_largest_gap_seconds st) (gap_seconds (gap_of p))
       else cs_largest_gap_seconds st |}.
Proof using CL CAL CSL interval_pos.
  destruct p as [a b], st as [gs d t n m]. unfold continuity_step, is_gap, is_duplicate.
  destruct (after_seconds (c_open_time a) interval_seconds) as [next|] eqn:Hnext; [|done].
  apply after_seconds_val in Hnext as ->. cbn.
  assert (0 < seconds interval_seconds) by (unfold seconds, NANOS; lia).
  destruct (Z.eqb_spec (c_open_time b) (c_open_time a)) as [->|Hne].
  - destruct (Z.ltb_spec (c_open_time a + seconds interval_seconds) (c_open_time a)); [lia|].
    cbn. intros [= <-]. f_equal; lia.
  - destruct (Z.ltb_spec (c_open_time a + seconds interval_seconds) (c_open_time b)); cbn;
      intros [= <-].
    + rewrite num_seconds_nonneg by lia.
      assert (0 <= (c_open_time b - (c_open_time a + seconds interval_seconds)) / NANOS)
        by (apply Z.div_pos; [lia|done]).
      rewrite (Z.max_l _ 0) by done. f_equal; lia.
    + f_equal; lia.
Qed.

Definition sum_z (l : list Z) : Z := foldr Z.add 0 l.
Definition max_z (l : list Z) : Z := foldr Z.max 0 l.

Lemma walk_spec max (ps : list (Candle * Candle)) st st' :
  fold_res (continuity_step interval_seconds max) st ps = Ok st' ->
  0 <= cs_largest_gap_seconds st ->
  (length (cs_gaps st) <= max)%nat ->
  let gs := map gap_of (List.filter is_gap ps) in
  cs_gaps st' = firstn max (cs_gaps st ++ gs) /\
  cs_gap_count st' = cs_gap_count st + Z.of_nat (length gs) /\
  cs_duplicate_count st' = cs_duplicate_count st + Z.of_nat (length (List.filter is_duplicate ps)) /\
  cs_total_missing_from_gaps st' =
    cs_total_missing_from_gaps st + sum_z (map gap_missing_candle_count gs) /\
  cs_largest_gap_seconds st' = Z.max (cs_largest_gap_seconds st) (max_z (map gap_seconds gs)).
Proof using CL CAL CSL interval_pos.
  cbn. unfold sum_z, max_z. revert st; induction ps as [|p ps IH]; intros st Hrun Hm Hg; cbn in *.
  { injection Hrun as ->. rewrite app_nil_r, firstn_all2 by done. repeat split; lia. }
  destruct (continuity_step interval_seconds max st p) as [st1| |] eqn:Hstep; [|done..].
  apply continuity_step_cases in Hstep as ->.
  edestruct IH as (H1 & H2 & H3 & H4 & H5); [exact Hrun| | |rewrite H1, H2, H3, H4, H5; clear IH]; cbn.
  { destruct (is_gap p); lia. }
  { destruct (is_gap p && _) eqn:E; [|done]. apply andb_prop in E as [_ E].
    apply Nat.ltb_lt in E. rewrite length_app. cbn. lia. }
  destruct (is_gap p); cbn.
  - repeat split; try (destruct (is_duplicate p); cbn; lia); try lia.
    match goal with |- context [if ?b then _ else _] => destruct b eqn:Hlt end.
    + by rewrite <- app_assoc.
    + assert (max <= length (cs_gaps st))%nat
        by (destruct max; [lia|apply Nat.leb_gt in Hlt; lia]).
      rewrite !firstn_app. replace (max - length (cs_gaps st))%nat with 0%nat by lia. done.
  - repeat split; try (destruct (is_duplicate p); cbn; lia); try lia.
Qed.

(** In a sorted list nothing opens strictly inside a consecutive pair. *)
Lemma pairs_sorted (l : list Candle) a b c :
  StronglySorted (fun x y => c_open_time x <= c_open_time y) l ->
  In (a, b) (pairs l) -> In c l ->
  In a l /\ In b l /\ c_open_time a <= c_open_time b /\
  (c_open_time c <= c_open_time a \/ c_open_time b <= c_open_time c).
Proof using.
  revert c; induction l as [|x l IH]; intros c Hs Hp Hc; [done|].
  inversion Hs as [|? ? Hs' Hx]; subst.
  destruct l as [|y l]; [done|]. rewrite pairs_cons in Hp.
  rewrite Forall_forall in Hx.
  assert (Hxy : forall z, In z (y :: l) -> c_open_time x <= c_open_time z)
    by (intros z Hz; by apply Hx, list_elem_of_In).
  destruct Hp as [[= <- <-]|Hp].
  - split; [by left|]. split; [by right; left|]. split; [apply Hxy; by left|].
    destruct Hc as [->|Hc]; [left; lia|]. right.
    destruct Hc as [->|Hc]; [lia|]. inversion Hs' as [|? ? _ Hy]; subst.
    rewrite Forall_forall in Hy. by apply Hy, list_elem_of_In.
  - destruct Hc as [->|Hc].
    + destruct (IH y Hs' Hp ltac:(by left)) as (Ha & Hb & Hab & _).
      repeat split; try (by right); try done. left. by apply Hxy.
    + destruct (IH c Hs' Hp Hc) as (Ha & Hb & Hab & H).
      repeat split; try (by right); done.
Qed.

(** Gaps in order: each starts before it ends and ends strictly before the next
    one starts. *)
Definition gaps_ordered (gs : list MarketDataGap) : Prop :=
  Forall (fun g => gap_start_time g < gap_end_time g) gs /\
  StronglySorted (fun g h => gap_end_time g < gap_start_time h) gs.

Lemma pairs_in (l : list Candle) a b : In (a, b) (pairs l) -> In a l /\ In b l.
Proof using.
  unfold pairs. intros H. split; [by eapply in_combine_l|].
  apply in_combine_r in H. destruct l; [done|by right].
Qed.

Lemma true_gaps_ordered (l : list Candle) :
  StronglySorted (fun x y => c_open_time x <= c_open_time y) l -> gaps_ordered (true_gaps l).
Proof using interval_pos.
  intros Hs. unfold gaps_ordered, true_gaps.
  assert (0 < seconds interval_seconds) as Hpos by (unfold seconds, NANOS; lia).
  induction Hs as [|x l Hs IH Hx]; [split; constructor|].
  destruct l as [|y l]; [split; constructor|]. rewrite pairs_cons. cbn [List.filter].
  destruct (is_gap (x, y)) eqn:Hg; cbn [map]; [|exact IH].
  destruct IH as [IH1 IH2]. unfold is_gap in Hg. cbn in Hg. apply Z.ltb_lt in Hg.
  split; [by constructor|]. constructor; [done|].
  apply Forall_forall. intros g Hin. apply list_elem_of_In, in_map_iff in Hin as ([a b] & <- & Hin).
  apply filter_In in Hin as [Hin _]. apply pairs_in in Hin as [Ha _]. cbn.
  inversion Hs as [|? ? _ Hy]; subst. rewrite Forall_forall in Hy.
  destruct Ha as [->|Ha]; [lia|].
  assert (c_open_time y <= c_open_time a) by (by apply Hy, list_elem_of_In). lia.
Qed.
End WalkFacts.

Lemma closed_sorted_sorted {DI : Decimal} (candles : list Candle) :
  StronglySorted (fun x y => c_open_time x <= c_open_time y) (closed_sorted candles).
Proof.
  unfold closed_sorted. pose proof (sort_by_key_sorted c_open_time candles) as H.
  induction H as [|x l Hs IH Hx]; cbn; [constructor|].
  destruct (c_is_closed x); [|done]. constructor; [done|].
  rewrite Forall_forall in Hx |- *. intros y Hy. apply Hx.
  rewrite list_elem_of_In in Hy |- *. by apply filter_In in Hy as [? _].
Qed.

Lemma in_closed_sorted {DI : Decimal} (candles : list Candle) c :
  In c (closed_sorted candles) <-> In c candles /\ c_is_closed c = true.
Proof. unfold closed_sorted, sort_by_key. by rewrite filter_In, in_sort_by. Qed.

(** A validated request walks with a positive interval. *)
Lemma validated_interval_pos {DI : Decimal} {CH : Chrono} {CL : ChronoLaws CH}
    (request : MarketDataQualityRequest) u :
  MarketDataQualityRequest_validate request = Ok u -> 0 < expected_interval_seconds request.
Proof.
  unfold MarketDataQualityRequest_validate, expected_interval_seconds.
  destruct (is_empty _); [discriminate|].
  destruct (q_parsed_interval request) as [i| |]; cbn; try discriminate.
  destruct (q_end_time request <=? q_start_time request); [discriminate|].
  destruct (q_expected_interval_seconds request) as [s|].
  - destruct (Z.leb_spec s 0); [discriminate|done].
  - intros _. rewrite num_seconds_duration. pose proof (source_candle_count_pos i). lia.
Qed.

Lemma max_z_nonneg l : 0 <= max_z l.
Proof. unfold max_z. induction l as [|x l IH]; cbn [foldr]; lia. Qed.

(** What [summarize_candle_continuity] computes when it returns. *)
Lemma summarize_inv {DI : Decimal} {CH : Chrono} {CL : ChronoLaws CH}
    {CA : ChronoArith} {CAL : ChronoArithLaws CA} {CS : ChronoSeconds} {CSL : ChronoSecondsLaws CS}
    now request candles max report :
  summarize_candle_continuity now request candles max = Ok report ->
  let k := expected_interval_seconds request in
  let gs := true_gaps k (closed_sorted candles) in
  0 < k /\
  rep_gaps report = firstn max gs /\
  rep_gap_count report = Z.of_nat (length gs) /\
  rep_largest_gap_seconds report = max_z (map gap_seconds gs) /\
  rep_closed_candle_count report = Z.of_nat (length (closed_sorted candles)) /\
  rep_actual_candle_count report = Z.of_nat (length candles) /\
  rep_missing_candle_count report =
    Z.max (i64_saturating_sub (rep_expected_candle_count report) (rep_closed_candle_count report))
          (sum_z (map gap_missing_candle_count gs)) /\
  rep_status report = quality_status (Z.of_nat (length candles)) (rep_expected_candle_count report)
    (Z.of_nat (length gs)) (Z.max (default 0 (q_max_allowed_gap_count request)) 0)
    (Z.of_nat (length (List.filter is_duplicate (pairs (closed_sorted candles)))))
    (rep_open_candle_count report) (rep_coverage_pct report)
    (pct_of (sum_z (map gap_missing_candle_count gs)) (rep_expected_candle_count report))
    (default ZERO (q_max_allowed_gap_pct request)).
Proof.
  unfold summarize_candle_continuity. intros H.
  destruct (MarketDataQualityRequest_validate request) as [[]| |] eqn:Hv; try discriminate.
  cbn in H. apply validated_interval_pos in Hv.
  destruct (Symbol_new (q_symbol request)) as [s| |]; try discriminate. cbn in H.
  destruct (q_parsed_interval request) as [i| |]; try discriminate. cbn in H.
  apply bind_ok_inv in H as (st & Hst & H).
  injection H as <-. cbn [rep_gaps rep_gap_count rep_largest_gap_seconds rep_closed_candle_count
    rep_actual_candle_count rep_missing_candle_count rep_status rep_expected_candle_count
    rep_open_candle_count rep_coverage_pct].
  destruct (walk_spec (expected_interval_seconds request) Hv max
    (pairs (closed_sorted candles)) continuity_init st Hst) as (H1 & H2 & H3 & H4 & H5);
    [done|cbn; lia|].
  unfold true_gaps. rewrite H1, H2, H3, H4, H5. cbn.
  assert (length (sort_by_key c_open_time candles) = length candles) as ->
    by apply sort_by_length.
  repeat split; try done. apply Z.max_r, max_z_nonneg.
Qed.

(** A request that passes its validation can still panic: the seconds between two candles
    that it expects are not bounded, and [Duration::seconds] panics beyond [i64::MAX]
    milliseconds as soon as there are two closed candles to compare. *)
Theorem quality_interval_overflow_panics {DI : Decimal} {CH : Chrono} {CA : ChronoArith}
    {CS : ChronoSeconds} {CSL : ChronoSecondsLaws CS} now request candles max previous next rest :
  MarketDataQualityRequest_validate request = Ok tt ->
  i64_max < expected_interval_seconds request * 1000 ->
  closed_sorted candles = previous :: next :: rest ->
  summarize_candle_continuity now request candles max = Panic.
Proof.
  intros Hv Hbig Hc. unfold summarize_candle_continuity. rewrite Hv. cbn [mbind res_bind].
  unfold MarketDataQualityRequest_validate in Hv. unfold Symbol_new.
  destruct (trim (q_symbol request)) as [|ch text]; [done|]. cbn [mbind res_bind is_empty].
  change (is_empty (to_ascii_uppercase (String ch text))) with false. cbn [mbind res_bind].
  destruct (q_parsed_interval request) as [interval| |]; [|done..]. cbn [mbind res_bind].
  rewrite Hc, pairs_cons. cbn [fold_res]. unfold continuity_step, after_seconds.
  rewrite try_seconds_none by lia. done.
Qed.

Section MergeFacts.
Context {DI : Decimal} {CH : Chrono}.
Variables (source_interval : CandleInterval.t) (max_ranges : nat).

(** The instants a list of ranges (gaps) covers. *)
Definition in_ranges (t : Z) (rs : list MarketDataRepairRange) : Prop :=
  exists r, In r rs /\ range_start_time r <= t < range_end_time r.
Definition in_gaps (t : Z) (gs : list MarketDataGap) : Prop :=
  exists g, In g gs /\ gap_start_time g <= t < gap_end_time g.

(** The accumulated ranges, latest first: non-empty, strictly apart. *)
Definition ranges_desc (rs : list MarketDataRepairRange) : Prop :=
  Forall (fun r => range_start_time r < range_end_time r) rs /\
  StronglySorted (fun r r' => range_end_time r' < range_start_time r) rs.

Definition gaps_by_start (gs : list MarketDataGap) : Prop :=
  Forall (fun g => gap_start_time g < gap_end_time g) gs /\
  StronglySorted (fun g h => gap_start_time g <= gap_start_time h) gs.

Lemma in_ranges_cons t r rs :
  in_ranges t (r :: rs) <-> range_start_time r <= t < range_end_time r \/ in_ranges t rs.
Proof using.
  unfold in_ranges. split.
  - intros (x & [<-|Hx] & Ht); eauto.
  - intros [Ht|(x & Hx & Ht)]; [exists r|exists x]; cbn; eauto.
Qed.
Lemma in_gaps_cons t g gs :
  in_gaps t (g :: gs) <-> gap_start_time g <= t < gap_end_time g \/ in_gaps t gs.
Proof using.
  unfold in_gaps. split.
  - intros (x & [<-|Hx] & Ht); eauto.
  - intros [Ht|(x & Hx & Ht)]; [exists g|exists x]; cbn; eauto.
Qed.

Lemma merge_loop_spec gs : forall rs,
  gaps_by_start gs -> ranges_desc rs ->
  (forall g r, In g gs -> head rs = Some r -> range_start_time r <= gap_start_time g) ->
  let out := merge_loop source_interval max_ranges rs gs in
  ranges_desc out /\
  (length out <= Nat.max max_ranges (length rs))%nat /\
  (forall t, in_ranges t out -> in_ranges t rs \/ in_gaps t gs) /\
  ((length out < max_ranges \/ length rs + length gs <= max_ranges)%nat ->
   forall t, in_ranges t rs \/ in_gaps t gs -> in_ranges t out).
Proof using.
  induction gs as [|g gs IH]; intros rs [Hg1 Hg2] Hr Hlow.
  { cbn. split; [done|]. split; [lia|]. split; [by left|]. by intros _ t [?|(? & [] & _)]. }
  inversion Hg1 as [|? ? Hse Hg1']; inversion Hg2 as [|? ? Hg2' Hfirst]; subst.
  assert (Hgs : gaps_by_start gs) by done.
  rewrite Forall_forall in Hfirst.
  cbn [merge_loop].
  set (missing := Z.max (count_expected_candles_for_window _ _ _) _).
  assert (Hnew : (forall r, head rs = Some r -> range_end_time r < gap_start_time g) ->
    let out := if (max_ranges <=? length rs)%nat then rs else
      merge_loop source_interval max_ranges
        ({| range_source_interval := CandleInterval.as_str source_interval;
            range_start_time := gap_start_time g; range_end_time := gap_end_time g;
            range_missing_candle_count := missing |} :: rs) gs in
    ranges_desc out /\
    (length out <= Nat.max max_ranges (length rs))%nat /\
    (forall t, in_ranges t out -> in_ranges t rs \/ in_gaps t (g :: gs)) /\
    ((length out < max_ranges \/ length rs + length (g :: gs) <= max_ranges)%nat ->
     forall t, in_ranges t rs \/ in_gaps t (g :: gs) -> in_ranges t out)).
  { intros Hsep. destruct (Nat.leb_spec max_ranges (length rs)) as [Hfull|Hroom].
    - cbn. split; [done|]. split; [lia|]. split; [by left|]. intros [?|?]; lia.
    - cbn -[merge_loop]. set (r' := {| range_source_interval := _ |}).
      destruct (IH (r' :: rs) Hgs) as (H1 & H2 & H3 & H4).
      { destruct Hr as [Hr1 Hr2]. split; [by constructor|]. constructor; [done|].
        destruct rs as [|r rs]; [constructor|]. specialize (Hsep r eq_refl).
        inversion Hr2 as [|? ? _ Hr3]; inversion Hr1; subst.
        constructor; [done|]. eapply Forall_impl; [exact Hr3|]. cbn; intros; lia. }
      { intros h r Hin [= <-]. apply Hfirst. by apply list_elem_of_In. }
      split; [exact H1|]. split; [cbn in H2; lia|]. split.
      + intros t Ht. apply H3 in Ht. rewrite in_ranges_cons in Ht. rewrite in_gaps_cons. tauto.
      + intros Hor t Ht. apply H4; [cbn; lia|].
        rewrite in_ranges_cons. rewrite in_gaps_cons in Ht. tauto. }
  destruct rs as [|r rs]; [by apply Hnew|].
  destruct (Z.leb_spec (gap_start_time g) (range_end_time r)) as [Hmerge|Hapart];
    [|by apply Hnew; intros ? [= <-]].
  assert (Hle : range_start_time r <= gap_start_time g) by (apply Hlow; [by left|done]).
  destruct Hr as [Hr1 Hr2]. inversion Hr1 as [|? ? Hr0 Hr1']; inversion Hr2 as [|? ? Hr2' Hr3]; subst.
  set (r' := {| range_source_interval := _ |}).
  destruct (IH (r' :: rs) Hgs) as (H1 & H2 & H3 & H4).
  { split; constructor; cbn; try done. lia. }
  { intros h ? Hin [= <-]. cbn. apply Hlow; [by right|done]. }
  split; [exact H1|]. split; [cbn in *; lia|]. split.
  - intros t Ht. apply H3 in Ht. rewrite in_ranges_cons in Ht |- *. rewrite in_gaps_cons.
    cbn in Ht. destruct Ht as [[Ht|Ht]|Ht]; try tauto.
    destruct (Z.ltb_spec t (range_end_time r)); [left; left; lia|right; left; lia].
  - intros Hor t Ht. apply H4; [cbn in *; lia|]. rewrite in_ranges_cons in Ht |- *.
    rewrite in_gaps_cons in Ht. cbn. destruct Ht as [[Ht|Ht]|[Ht|Ht]]; try tauto; left; left; lia.
Qed.
End MergeFacts.

(** The ranges of a plan, in order. *)
Definition ranges_apart (rs : list MarketDataRepairRange) : Prop :=
  Forall (fun r => range_start_time r < range_end_time r) rs /\
  StronglySorted (fun r r' => range_end_time r < range_start_time r') rs.

Lemma strongly_sorted_rev {A} (R : A -> A -> Prop) l :
  StronglySorted R l -> StronglySorted (fun x y => R y x) (rev l).
Proof.
  induction 1 as [|x l Hs IH Hx]; cbn; [constructor|].
  apply strongly_sorted_snoc; [done|].
  apply Forall_forall. intros y Hy. rewrite list_elem_of_In, <- in_rev in Hy.
  rewrite Forall_forall in Hx. by apply Hx, list_elem_of_In.
Qed.

Lemma in_ranges_rev t rs : in_ranges t (rev rs) <-> in_ranges t rs.
Proof. unfold in_ranges. by setoid_rewrite <- in_rev. Qed.

(** What [merge_repair_gaps] returns, for gaps in the order in which the
    continuity walk reports them (or any order by start): at most [max_ranges]
    ranges, each non-empty, strictly apart from the next; they cover no instant
    outside the gaps, and, when the limit did not cut the list, exactly the
    instants the gaps cover. *)
Theorem merge_repair_gaps_spec {DI : Decimal} {CH : Chrono} (gaps : list MarketDataGap)
    (source_interval : CandleInterval.t) (max_ranges : nat) :
  gaps_by_start gaps ->
  let ranges := merge_repair_gaps gaps source_interval max_ranges in
  (length ranges <= max_ranges)%nat /\
  ranges_apart ranges /\
  (forall t, in_ranges t ranges -> in_gaps t gaps) /\
  ((length ranges < max_ranges \/ length gaps <= max_ranges)%nat ->
   forall t, in_ranges t ranges <-> in_gaps t gaps).
Proof.
  intros Hg. cbn zeta. unfold merge_repair_gaps.
  destruct (merge_loop_spec source_interval max_ranges gaps [] Hg) as ((H1 & H1') & H2 & H3 & H4);
    [split; constructor|done|].
  assert (Hnil : forall t, ~ in_ranges t []) by (by intros t (? & [] & _)).
  rewrite length_rev. split; [cbn in H2; lia|]. split; [split|split].
  - by apply Forall_rev.
  - apply strongly_sorted_rev in H1'. exact H1'.
  - intros t. rewrite in_ranges_rev. intros Ht. by destruct (H3 t Ht) as [?%Hnil|].
  - intros Hor t. rewrite in_ranges_rev. split.
    + intros Ht. by destruct (H3 t Ht) as [?%Hnil|].
    + intros Ht. apply H4; [done|by right].
Qed.

Lemma gaps_ordered_by_start gs : gaps_ordered gs -> gaps_by_start gs.
Proof.
  intros [H1 H2]. split; [done|]. induction H2 as [|g gs Hs IH Hx]; constructor.
  - apply IH. by inversion H1.
  - inversion H1; subst. eapply Forall_impl; [exact Hx|]. cbn; intros; lia.
Qed.

Lemma gaps_ordered_firstn n gs : gaps_ordered gs -> gaps_ordered (firstn n gs).
Proof.
  intros [H1 H2]. rewrite <- (firstn_skipn n gs) in H1, H2.
  apply Forall_app in H1 as [H1 _]. apply strongly_sorted_app_inv in H2 as [H2 _]. done.
Qed.

Lemma true_gaps_in {DI : Decimal} k l g :
  In g (true_gaps k l) ->
  exists a b, In (a, b) (pairs l) /\ is_gap k (a, b) = true /\ g = gap_of k (a, b).
Proof.
  unfold true_gaps. rewrite in_map_iff. intros ([a b] & <- & Hin).
  apply filter_In in Hin as [? ?]. eauto.
Qed.

(** C28.  The report is right about its gaps.  Every gap it returns is a real
    hole between two closed candles of the input: some closed candle opens one
    interval before the gap, some closed candle opens at its end, and none opens
    in between; the gaps are non-empty, in order and disjoint; they are the
    first [max_gaps_returned] of the holes of the closed sequence, all of which
    are counted. *)
Theorem continuity_gaps_exact {DI : Decimal} {CH : Chrono} {CL : ChronoLaws CH}
    {CA : ChronoArith} {CAL : ChronoArithLaws CA} {CS : ChronoSeconds} {CSL : ChronoSecondsLaws CS} (now : Z)
    (request : MarketDataQualityRequest) (candles : list Candle) (max_gaps_returned : nat)
    (report : MarketDataQualityReport) :
  summarize_candle_continuity now request candles max_gaps_returned = Ok report ->
  let step := seconds (expected_interval_seconds request) in
  gaps_ordered (rep_gaps report) /\
  rep_gap_count report
    = Z.of_nat (length (true_gaps (expected_interval_seconds request) (closed_sorted candles))) /\
  rep_gaps report = firstn max_gaps_returned
    (true_gaps (expected_interval_seconds request) (closed_sorted candles)) /\
  forall g, In g (rep_gaps report) ->
    (exists c, In c candles /\ c_is_closed c = true /\ c_open_time c + step = gap_start_time g) /\
    (exists c, In c candles /\ c_is_closed c = true /\ c_open_time c = gap_end_time g) /\
    (forall c, In c candles -> c_is_closed c = true ->
       ~ gap_start_time g - step < c_open_time c < gap_end_time g).
Proof.
  intros H. apply summarize_inv in H as (Hk & Hg & Hn & _). cbn zeta.
  pose proof (closed_sorted_sorted candles) as Hs.
  split; [rewrite Hg; by apply gaps_ordered_firstn, true_gaps_ordered|].
  split; [done|]. split; [done|]. intros g Hin. rewrite Hg in Hin.
  apply list_elem_of_In, elem_of_take in Hin as (i & Hi & _).
  apply list_elem_of_lookup_2, list_elem_of_In, true_gaps_in in Hi as (a & b & Hin & _ & ->).
  destruct (pairs_in _ _ _ Hin) as [Ha Hb]. rewrite in_closed_sorted in Ha, Hb. cbn.
  split; [exists a; tauto|]. split; [exists b; tauto|].
  intros c Hc Hcl Hbad.
  assert (In c (closed_sorted candles)) as Hcin by by apply in_closed_sorted.
  destruct (pairs_sorted _ _ _ c Hs Hin Hcin) as (_ & _ & _ & [|]); lia.
Qed.

Lemma quality_good {DI : Decimal} actual expected gap_count max_gap_count dups opens cov gp mgp :
  quality_status actual expected gap_count max_gap_count dups opens cov gp mgp
    = MarketDataQualityStatus.Good ->
  actual <> 0 /\ expected <> 0 /\ gap_count <= max_gap_count /\ dups <= 0 /\ opens <= 0 /\
  (dnew 99 0 <=? cov)%dec = true /\ (gp <=? mgp)%dec = true.
Proof.
  unfold quality_status. case_match; [done|]. case_match; [done|]. case_match; [done|].
  match goal with |- (if ?b then _ else _) = _ -> _ => destruct b eqn:E end; [done|]. intros _.
  bool_to_prop. unfold dltb in *. repeat match goal with H : negb _ = false |- _ =>
    apply negb_false_iff in H end. repeat split; try done; lia.
Qed.

Lemma filter_nil_none {A} (f : A -> bool) l x : List.filter f l = [] -> In x l -> f x = false.
Proof.
  intros H Hx. destruct (f x) eqn:E; [|done]. exfalso.
  assert (In x (List.filter f l)) as Hin by by apply filter_In. by rewrite H in Hin.
Qed.

(** A GOOD report can be trusted: with the default tolerance every candle
    of the window is closed, and each consecutive pair of candles (by open time)
    is more than zero and at most one interval apart, so the sequence has
    neither hole nor duplicate; and coverage is at least 99 percent. *)
Theorem quality_good_is_continuous {DI : Decimal} {CH : Chrono} {CL : ChronoLaws CH}
    {CA : ChronoArith} {CAL : ChronoArithLaws CA} {CS : ChronoSeconds} {CSL : ChronoSecondsLaws CS} (now : Z)
    (request : MarketDataQualityRequest) (candles : list Candle) (max_gaps_returned : nat)
    (report : MarketDataQualityReport) :
  summarize_candle_continuity now request candles max_gaps_returned = Ok report ->
  rep_status report = MarketDataQualityStatus.Good ->
  q_max_allowed_gap_count request = None ->
  Z.of_nat (length candles) < 2 ^ 63 ->
  (forall c, In c candles -> c_is_closed c = true) /\
  (forall a b, In (a, b) (pairs (sort_by_key c_open_time candles)) ->
     0 < c_open_time b - c_open_time a <= seconds (expected_interval_seconds request)) /\
  (dnew 99 0 <=? rep_coverage_pct report)%dec = true.
Proof.
  intros Hrun Hgood Hmax Hlen.
  assert (Hopen : rep_open_candle_count report
    = i64_saturating_sub (rep_actual_candle_count report) (rep_closed_candle_count report)).
  { clear -Hrun. unfold summarize_candle_continuity in Hrun. res_inv.
    destruct (Symbol_new _); [|done..]. cbn in Hrun. res_inv. by subst report. }
  apply summarize_inv in Hrun as (Hk & _ & _ & _ & Hcl & Hac & _ & Hst).
  rewrite Hgood in Hst. symmetry in Hst. apply quality_good in Hst as (_ & _ & Hgap & Hdup & Hop & Hcov & _).
  rewrite Hmax in Hgap. cbn in Hgap.
  assert (Hall : closed_sorted candles = sort_by_key c_open_time candles).
  { rewrite Hopen, Hac, Hcl in Hop. unfold i64_saturating_sub, i64_max in Hop.
    assert (length (sort_by_key c_open_time candles) = length candles) as Hl
      by apply sort_by_length.
    unfold closed_sorted in *. clear -Hop Hl Hlen. rewrite <- Hl in Hop, Hlen.
    generalize dependent (sort_by_key c_open_time candles). intros l Hop Hl Hlen.
    assert (length (List.filter c_is_closed l) = length l) as Heq
      by (pose proof (filter_length_le c_is_closed l); lia).
    clear -Heq. induction l as [|x l IH]; cbn in *; [done|].
    destruct (c_is_closed x); cbn in *; [f_equal; apply IH; lia|].
    pose proof (filter_length_le c_is_closed l). lia. }
  split; [|split; [|done]].
  - intros c Hc. assert (In c (closed_sorted candles)) as Hin.
    { rewrite Hall. by apply in_sort_by. }
    by apply in_closed_sorted in Hin as [_ Hin].
  - intros a b Hab. rewrite <- Hall in Hab.
    assert (Hng : List.filter (is_gap (expected_interval_seconds request))
                    (pairs (closed_sorted candles)) = []).
    { apply nil_length_inv. unfold true_gaps in Hgap. rewrite length_map in Hgap. lia. }
    assert (Hnd : List.filter is_duplicate (pairs (closed_sorted candles)) = [])
      by (apply nil_length_inv; lia).
    apply (filter_nil_none _ _ _ Hng) in Hab as Hg. apply (filter_nil_none _ _ _ Hnd) in Hab as Hd.
    unfold is_gap in Hg. unfold is_duplicate in Hd. cbn in Hg, Hd.
    pose proof (pairs_in _ _ _ Hab) as [Ha _].
    destruct (pairs_sorted _ a b a (closed_sorted_sorted candles) Hab Ha) as (_ & _ & Hle & _).
    bool_to_prop. lia.
Qed.

Lemma merge_loop_length {DI : Decimal} {CH : Chrono} source_interval max_ranges gs : forall rs,
  (length (merge_loop source_interval max_ranges rs gs) <= length rs + length gs)%nat.
Proof.
  induction gs as [|g gs IH]; intros rs; cbn [merge_loop]; [lia|].
  set (missing := Z.max (count_expected_candles_for_window _ _ _) _).
  destruct rs as [|r rs]; [|destruct (_ <=? _)].
  - destruct (_ <=? _)%nat; [cbn; lia|]. etransitivity; [apply IH|]. cbn; lia.
  - etransitivity; [apply IH|]. cbn; lia.
  - destruct (_ <=? _)%nat; [cbn; lia|]. etransitivity; [apply IH|]. cbn; lia.
Qed.

Lemma in_ranges_source t s rs : in_ranges t (map (set_source_interval s) rs) <-> in_ranges t rs.
Proof.
  unfold in_ranges. setoid_rewrite in_map_iff. split.
  - intros (? & (r & <- & Hr) & Ht). eauto.
  - intros (r & Hr & Ht). exists (set_source_interval s r). split; [eauto|exact Ht].
Qed.

(** The result of [plan_market_data_repair] when it plans ranges. *)
Lemma plan_planned_inv {DI : Decimal} {CH : Chrono} request report plan :
  plan_market_data_repair request report = Ok plan ->
  plan_status plan = MarketDataRepairStatus.RepairPlanned ->
  0 < p_max_ranges request /\
  exists interval,
    let ranges := merge_repair_gaps (rep_gaps report) interval (Z.to_nat (p_max_ranges request)) in
    (forall t, in_ranges t (plan_repair_ranges plan) <-> in_ranges t ranges) /\
    length (plan_repair_ranges plan) = length ranges /\
    (plan_findings plan = [] -> rep_gap_count report <= Z.of_nat (length ranges)).
Proof.
  unfold plan_market_data_repair, validate_without_interval_support. intros H Hst.
  destruct (is_empty _); [done|]. destruct (_ <=? _); [done|].
  destruct (Z.leb_spec (p_max_ranges request) 0) as [|Hpos]; [done|]. split; [done|].
  cbn [mbind res_bind] in H. destruct (Symbol_new _); try discriminate. cbn [mbind res_bind] in H.
  destruct (from_str _) as [interval| |]; try discriminate;
    [|injection H as <-; discriminate Hst].
  destruct (bool_decide _); [injection H as <-; discriminate Hst|].
  exists (if is_aggregated_from_one_minute interval then CandleInterval.OneMinute else interval).
  set (ranges := merge_repair_gaps _ _ _) in *. cbn zeta.
  destruct (_ || _); [injection H as <-; discriminate Hst|].
  injection H as <-. cbn. split; [|split].
  - intros t. destruct (is_aggregated_from_one_minute interval); [|done].
    apply in_ranges_source.
  - destruct (is_aggregated_from_one_minute interval); [apply length_map|done].
  - destruct (Z.ltb_spec (Z.of_nat (length ranges)) (rep_gap_count report)); [done|]. intros _. lia.
Qed.

(** C12.  Plan and report together.  A plan made from the report of the same
    candles respects [max_ranges], and if it carries no truncation finding its
    ranges cover exactly the holes of the closed candles: every missing instant
    is fetched, and nothing else.  (This holds even when the report itself was
    cut at [max_gaps_returned]: the plan is then flagged as truncated.) *)
Theorem repair_plan_covers_gaps {DI : Decimal} {CH : Chrono} {CL : ChronoLaws CH}
    {CA : ChronoArith} {CAL : ChronoArithLaws CA} {CS : ChronoSeconds} {CSL : ChronoSecondsLaws CS} (now : Z)
    (quality : MarketDataQualityRequest) (candles : list Candle) (max_gaps_returned : nat)
    (report : MarketDataQualityReport) (request : MarketDataRepairPlanRequest)
    (plan : MarketDataRepairPlan) :
  summarize_candle_continuity now quality candles max_gaps_returned = Ok report ->
  plan_market_data_repair request report = Ok plan ->
  plan_status plan = MarketDataRepairStatus.RepairPlanned ->
  Z.of_nat (length (plan_repair_ranges plan)) <= p_max_ranges request /\
  (plan_findings plan = [] ->
   forall t, in_ranges t (plan_repair_ranges plan) <->
     in_gaps t (true_gaps (expected_interval_seconds quality) (closed_sorted candles))).
Proof.
  intros Hrep Hplan Hst. apply summarize_inv in Hrep as (Hk & Hg & Hn & _).
  destruct (plan_planned_inv _ _ _ Hplan Hst) as (Hmax & interval & Hcov & Hlen & Hfull).
  set (gs := true_gaps _ _) in *.
  assert (Hord : gaps_by_start (rep_gaps report)).
  { rewrite Hg. apply gaps_ordered_by_start, gaps_ordered_firstn, true_gaps_ordered; [done|].
    apply closed_sorted_sorted. }
  destruct (merge_loop_spec interval (Z.to_nat (p_max_ranges request)) (rep_gaps report) [] Hord)
    as (_ & H2 & H3 & H4); [split; constructor|done|].
  pose proof (merge_loop_length interval (Z.to_nat (p_max_ranges request)) (rep_gaps report) [])
    as Hle. cbn in H2, Hle.
  rewrite Hlen. unfold merge_repair_gaps in *. rewrite length_rev in *. split; [lia|].
  intros Hno t. specialize (Hfull Hno). rewrite Hcov, in_ranges_rev.
  assert (length (rep_gaps report) = Nat.min max_gaps_returned (length gs)) as Hl
    by (rewrite Hg; apply length_firstn).
  assert (length (rep_gaps report) <= Z.to_nat (p_max_ranges request))%nat as Hroom by lia.
  assert (rep_gaps report = gs) as <- by (rewrite Hg; apply firstn_all2; lia).
  split.
  - intros Ht. by destruct (H3 t Ht) as [(? & [] & _)|].
  - intros Ht. apply H4; [right; exact Hroom|by right].
Qed.

(** The repair planner looks between candles only.  When the closed
    candles leave no hole among themselves the plan is "no repair needed" with
    no range, whatever part of the window before the first or after the last
    candle is missing and whatever status the report has: the coverage the
    report measured is not consulted. *)
Theorem repair_plan_ignores_window_edges {DI : Decimal} {CH : Chrono} {CL : ChronoLaws CH}
    {CA : ChronoArith} {CAL : ChronoArithLaws CA} {CS : ChronoSeconds} {CSL : ChronoSecondsLaws CS}
    (now : Z) (quality : MarketDataQualityRequest) (candles : list Candle)
    (max_gaps_returned : nat) (report : MarketDataQualityReport)
    (request : MarketDataRepairPlanRequest) (plan : MarketDataRepairPlan)
    (interval : CandleInterval.t) :
  summarize_candle_continuity now quality candles max_gaps_returned = Ok report ->
  candles <> [] ->
  true_gaps (expected_interval_seconds quality) (closed_sorted candles) = [] ->
  from_str (p_interval request) = Ok interval ->
  plan_market_data_repair request report = Ok plan ->
  plan_status plan = MarketDataRepairStatus.NoRepairNeeded /\ plan_repair_ranges plan = [].
Proof.
  intros Hrep Hne Hnil Hint Hplan. apply summarize_inv in Hrep as (_ & Hg & Hn & _ & _ & _ & _ & Hst).
  rewrite Hnil in Hn, Hg. rewrite firstn_nil in Hg.
  unfold plan_market_data_repair in Hplan.
  destruct (validate_without_interval_support request); try discriminate.
  cbn [mbind res_bind] in Hplan.
  destruct (Symbol_new _); try discriminate. cbn [mbind res_bind] in Hplan.
  rewrite Hint, Hn, Hg in Hplan. unfold merge_repair_gaps in Hplan.
  destruct (bool_decide _) eqn:E; cbn in Hplan; [|by injection Hplan as <-].
  apply bool_decide_eq_true in E. rewrite E in Hst. exfalso.
  unfold quality_status in Hst. destruct (Z.eqb_spec (Z.of_nat (length candles)) 0).
  - destruct candles; [done|]. cbn in *; lia.
  - clear -Hst. repeat case_match; discriminate.
Qed.

(** ** Concrete windows for the witnesses *)

Module QualitySample.
#[local] Existing Instance ExactDecimal.
#[local] Existing Instance PlainChrono.
#[local] Existing Instance PlainArith.
#[local] Existing Instance PlainSeconds.
#[local] Existing Instance PlainArithLaws.
#[local] Existing Instance PlainSecondsLaws.
Import Sample.

Definition request : MarketDataQualityRequest := {|
  q_exchange := MarketDataSource.Binance; q_symbol := "btcusdt"; q_interval := "1m";
  q_start_time := t0; q_end_time := t0 + minutes 10; q_expected_interval_seconds := None;
  q_max_allowed_gap_count := None; q_max_allowed_gap_pct := None |}.

(** Minutes 0, 1, 4, 5 and 9 of ten, out of order. *)
Definition holes : list Candle :=
  [candle 4 1 1 1 1 1; candle 0 1 1 1 1 1; candle 1 1 1 1 1 1; candle 9 1 1 1 1 1; candle 5 1 1 1 1 1].
Definition full : list Candle := map (fun i => candle i 1 1 1 1 1) [3; 1; 0; 2; 4; 5; 9; 7; 8; 6].

Definition plan_request (n : Z) : MarketDataRepairPlanRequest := {|
  p_exchange := MarketDataSource.Binance; p_symbol := "btcusdt"; p_interval := "1m";
  p_start_time := t0; p_end_time := t0 + minutes 10;
  p_repair_mode := MarketDataRepairMode.PlanOnly; p_max_ranges := n;
  p_reaggregate_derived_intervals := true; p_correlation_id := None |}.

Definition get {E A} (m : res E A) (d : A) : A := match m with Ok a => a | _ => d end.

Example merge_repair_gaps_spec_witness :
  let gaps := [ {| gap_start_time := 0; gap_end_time := 60; gap_missing_candle_count := 1; gap_seconds := 60 |};
                {| gap_start_time := 60; gap_end_time := 120; gap_missing_candle_count := 1; gap_seconds := 60 |};
                {| gap_start_time := 180; gap_end_time := 240; gap_missing_candle_count := 1; gap_seconds := 60 |} ] in
  let ranges := merge_repair_gaps gaps CandleInterval.OneMinute 5 in
  length ranges = 2%nat /\ in_ranges 90 ranges.
Proof.
  cbn zeta. split; [reflexivity|].
  apply (merge_repair_gaps_spec _ CandleInterval.OneMinute 5).
  - split; repeat constructor; cbn; lia.
  - left. vm_compute. lia.
  - eexists. split; [by right; left|]. cbn. lia.
Defined.

Example continuity_gaps_exact_witness :
  exists report : MarketDataQualityReport, summarize_candle_continuity 0 request holes 20 = Ok report /\
    map gap_missing_candle_count (rep_gaps report) = [2; 3] /\ gaps_ordered (rep_gaps report).
Proof.
  destruct (summarize_candle_continuity 0 request holes 20) as [r|e|] eqn:E;
    [|vm_compute in E; discriminate..].
  exists r. split; [done|]. split.
  - vm_compute in E. injection E as <-. reflexivity.
  - apply (continuity_gaps_exact (CL := PlainChronoLaws) 0 request holes 20 r E).
Defined.

Example quality_good_is_continuous_witness :
  exists report : MarketDataQualityReport, summarize_candle_continuity 0 request full 20 = Ok report /\
    (dnew 99 0 <=? rep_coverage_pct report)%dec = true.
Proof.
  destruct (summarize_candle_continuity 0 request full 20) as [r|e|] eqn:E;
    [|vm_compute in E; discriminate..].
  exists r. split; [done|].
  refine (proj2 (proj2 (quality_good_is_continuous (CL := PlainChronoLaws) 0 request full 20 r E _ _ _))).
  - vm_compute in E. injection E as <-. reflexivity.
  - reflexivity.
  - reflexivity.
Defined.

Example repair_plan_covers_gaps_witness :
  exists (report : MarketDataQualityReport) (plan : MarketDataRepairPlan),
    summarize_candle_continuity 0 request holes 20 = Ok report /\
    plan_market_data_repair (plan_request 5) report = Ok plan /\
    Z.of_nat (length (plan_repair_ranges plan)) = 2 /\
    in_ranges (t0 + minutes 3) (plan_repair_ranges plan).
Proof.
  destruct (summarize_candle_continuity 0 request holes 20) as [r|e|] eqn:E;
    [|vm_compute in E; discriminate..].
  destruct (plan_market_data_repair (plan_request 5) r) as [p|e|] eqn:F;
    [|vm_compute in E; injection E as <-; vm_compute in F; discriminate..].
  exists r, p. split; [done|]. split; [done|].
  assert (Hp : plan_status p = MarketDataRepairStatus.RepairPlanned /\ plan_findings p = []
          /\ length (plan_repair_ranges p) = 2%nat).
  { vm_compute in E; injection E as <-; vm_compute in F; injection F as <-. done. }
  destruct Hp as (Hs & Hf & ->). split; [done|].
  apply (repair_plan_covers_gaps (CL := PlainChronoLaws) 0 request holes 20 r (plan_request 5) p E F Hs);
    [done|].
  eexists. split; [by left|]. vm_compute. split; [discriminate|reflexivity].
Defined.

Example quality_interval_overflow_panics_witness :
  summarize_candle_continuity 0
    {| q_exchange := MarketDataSource.Binance; q_symbol := "btcusdt"; q_interval := "1m";
       q_start_time := t0; q_end_time := t0 + minutes 10;
       q_expected_interval_seconds := Some (10 ^ 16);
       q_max_allowed_gap_count := None; q_max_allowed_gap_pct := None |} full 20 = Panic.
Proof.
  eapply quality_interval_overflow_panics; [reflexivity|vm_compute; reflexivity|vm_compute; reflexivity].
Defined.

(** Ten minutes requested, two present: coverage 20 percent, status BAD, and the
    plan says that no repair is needed. *)
Example repair_plan_ignores_window_edges_witness :
  exists (report : MarketDataQualityReport) (plan : MarketDataRepairPlan),
    summarize_candle_continuity 0 request [candle 4 1 1 1 1 1; candle 5 1 1 1 1 1] 20 = Ok report /\
    plan_market_data_repair (plan_request 5) report = Ok plan /\
    rep_status report = MarketDataQualityStatus.Bad /\
    rep_missing_candle_count report = 8 /\
    plan_status plan = MarketDataRepairStatus.NoRepairNeeded /\ plan_repair_ranges plan = [].
Proof.
  destruct (summarize_candle_continuity 0 request _ 20) as [r|e|] eqn:E;
    [|vm_compute in E; discriminate..].
  destruct (plan_market_data_repair (plan_request 5) r) as [p|e|] eqn:F;
    [|vm_compute in E; injection E as <-; vm_compute in F; discriminate..].
  exists r, p. split; [done|]. split; [done|]. split; [|split].
  1,2: vm_compute in E; injection E as <-; reflexivity.
  apply (repair_plan_ignores_window_edges (CL := PlainChronoLaws) 0 request
           [candle 4 1 1 1 1 1; candle 5 1 1 1 1 1] 20 r (plan_request 5) p
           CandleInterval.OneMinute E); [done|reflexivity|reflexivity|exact F].
Defined.
End QualitySample.
