(* ===== verification/Risk.v ===== *)
(** * Pre-trade risk: crates/risk-engine/src/lib.rs and crates/core/src/lib.rs, lines 7611-7830

    A [RiskRule] is a function from the check context, the snapshot of the
    account state and the configuration to a rule result (the trait's one
    method); a [RiskEvaluator] is a configuration with a list of rules;
    [evaluate] runs all rules and rejects when a rule gave a rejection reason.
    [risk_decision_id] and [validated_at] ([Uuid::new_v4()], [Utc::now()]) are
    arguments. *)

From Stdlib Require Import ZArith QArith Lqa Lia List String.
From stdpp Require Import base list strings.
From S2P Require Import Prelude Text Host Types MarketData.

#[local] Open Scope Z_scope.

Section Risk.
Context {DI : Decimal} {CH : Chrono}.

Record RiskCheckContext := {
  rc_signal_id : Z;
  rc_correlation_id : Z;
  rc_strategy_id : string;
  rc_symbol : Symbol;
  rc_side : Side.t;
  rc_suggested_notional : dec;
  rc_signal_created_at : Z;
  rc_evaluated_at : Z
}.

Record RiskRuleResult := {
  rr_rule_name : string;
  rr_decision : RiskRuleDecision.t;
  rr_reason : option RiskRejectionReason.t;
  rr_message : option string
}.

Record RiskConfig := {
  max_open_positions : Z;
  max_daily_loss_pct : dec;
  max_weekly_loss_pct : dec;
  max_position_notional : dec;
  max_slippage_pct : dec;
  max_consecutive_losses : Z;
  cooldown_seconds : Z;
  max_signal_age_ms : Z;
  stale_feed_threshold_seconds : Z
}.

Definition RiskConfig_validate (self : RiskConfig) : result unit :=
  if max_open_positions self =? 0 then
    Err (CoreError.InvalidRiskConfig "max_open_positions must be greater than zero")
  else if (max_daily_loss_pct self <=? ZERO)%dec then
    Err (CoreError.InvalidRiskConfig "max_daily_loss_pct must be greater than zero")
  else if (max_weekly_loss_pct self <=? ZERO)%dec then
    Err (CoreError.InvalidRiskConfig "max_weekly_loss_pct must be greater than zero")
  else if (max_position_notional self <=? ZERO)%dec then
    Err (CoreError.InvalidRiskConfig "max_position_notional must be greater than zero")
  else if (max_slippage_pct self <? ZERO)%dec then
    Err (CoreError.InvalidRiskConfig "max_slippage_pct cannot be negative")
  else if max_consecutive_losses self =? 0 then
    Err (CoreError.InvalidRiskConfig "max_consecutive_losses must be greater than zero")
  else if max_signal_age_ms self <=? 0 then
    Err (CoreError.InvalidRiskConfig "max_signal_age_ms must be greater than zero")
  else if stale_feed_threshold_seconds self =? 0 then
    Err (CoreError.InvalidRiskConfig "stale_feed_threshold_seconds must be greater than zero")
  else Ok tt.

Definition RiskConfig_default : RiskConfig := {|
  max_open_positions := 2;
  max_daily_loss_pct := dnew 2 0;
  max_weekly_loss_pct := dnew 5 0;
  max_position_notional := dnew 150000 0;
  max_slippage_pct := dnew 1 0;
  max_consecutive_losses := 3;
  cooldown_seconds := 900;
  max_signal_age_ms := 5000;
  stale_feed_threshold_seconds := 10 |}.

Record RiskConfigValidationIssue := {
  ri_severity : StrategyConfigValidationSeverity.t;
  ri_code : string;
  ri_field : string;
  ri_message : string
}.

Record RiskConfigValidationResult := {
  rv_valid : bool;
  rv_issues : list RiskConfigValidationIssue;
  rv_normalized_config : option RiskConfig;
  rv_validated_at : Z
}.

Record RiskEvaluationResult := {
  re_risk_decision_id : Z;
  re_decision : RiskEvaluationDecision.t;
  re_approved_notional : option dec;
  re_risk_score : dec;
  re_reasons : list RiskRejectionReason.t;
  re_rule_results : list RiskRuleResult;
  re_correlation_id : Z
}.

Record RiskStateSnapshot := {
  kill_switch_enabled : bool;
  kill_switch_reason : option string;
  open_positions_count : option Z;
  daily_loss_pct : option dec;
  weekly_loss_pct : option dec;
  consecutive_losses : option Z;
  latest_market_data_at : option Z;
  last_trade_at : option Z
}.

Definition RiskStateSnapshot_default : RiskStateSnapshot := {|
  kill_switch_enabled := false; kill_switch_reason := None; open_positions_count := None;
  daily_loss_pct := None; weekly_loss_pct := None; consecutive_losses := None;
  latest_market_data_at := None; last_trade_at := None |}.

(** ** Configuration *)

Definition issue (severity : StrategyConfigValidationSeverity.t) (code field message : string)
    : RiskConfigValidationIssue :=
  {| ri_severity := severity; ri_code := code; ri_field := field; ri_message := message |}.

(** The issues pushed on the vector (none or one). *)
Definition validate_decimal_range (value min max : dec) (field : string)
    : list RiskConfigValidationIssue :=
  if (value <? min)%dec || (value >? max)%dec then
    [issue StrategyConfigValidationSeverity.Error ("invalid_" +:+ field) field
       (field +:+ " must be between " +:+ dshow min +:+ " and " +:+ dshow max)]
  else [].

Definition when_error (b : bool) (code field message : string) : list RiskConfigValidationIssue :=
  if b then [issue StrategyConfigValidationSeverity.Error code field message] else [].

(** [(lo..=hi).contains(&x)] *)
Definition in_range (lo hi x : Z) : bool := (lo <=? x) && (x <=? hi).

Definition risk_config_issues (request : RiskConfig) : list RiskConfigValidationIssue :=
  when_error (negb (in_range 1 50 (max_open_positions request)))
    "invalid_max_open_positions" "max_open_positions"
    "max_open_positions must be between 1 and 50" ++
  validate_decimal_range (max_daily_loss_pct request) (dnew 1 2) (dnew 20 0)
    "max_daily_loss_pct" ++
  validate_decimal_range (max_weekly_loss_pct request) (dnew 1 2) (dnew 50 0)
    "max_weekly_loss_pct" ++
  when_error (max_weekly_loss_pct request <? max_daily_loss_pct request)%dec
    "weekly_loss_below_daily_loss" "max_weekly_loss_pct"
    "max_weekly_loss_pct must be greater than or equal to max_daily_loss_pct" ++
  when_error (max_position_notional request <=? ZERO)%dec
    "invalid_max_position_notional" "max_position_notional"
    "max_position_notional must be greater than zero" ++
  validate_decimal_range (max_slippage_pct request) ZERO (dnew 5 0) "max_slippage_pct" ++
  when_error (negb (in_range 1 20 (max_consecutive_losses request)))
    "invalid_max_consecutive_losses" "max_consecutive_losses"
    "max_consecutive_losses must be between 1 and 20" ++
  when_error (86400 <? cooldown_seconds request)
    "invalid_cooldown_seconds" "cooldown_seconds"
    "cooldown_seconds must be between 0 and 86_400" ++
  when_error (negb (in_range 1000 300000 (max_signal_age_ms request)))
    "invalid_max_signal_age_ms" "max_signal_age_ms"
    "max_signal_age_ms must be between 1_000 and 300_000" ++
  when_error (negb (in_range 1 3600 (stale_feed_threshold_seconds request)))
    "invalid_stale_feed_threshold_seconds" "stale_feed_threshold_seconds"
    "stale_feed_threshold_seconds must be between 1 and 3_600".

Definition validate_risk_config (validated_at : Z) (request : RiskConfig)
    : RiskConfigValidationResult :=
  let issues := risk_config_issues request in
  let valid := negb (existsb (fun i =>
    bool_decide (ri_severity i = StrategyConfigValidationSeverity.Error)) issues) in
  {| rv_valid := valid;
     rv_issues := issues;
     rv_normalized_config := if valid then Some request else None;
     rv_validated_at := validated_at |}.

(** ** Rules *)

Definition RiskRule : Type :=
  RiskCheckContext -> RiskStateSnapshot -> RiskConfig -> RiskRuleResult.

Definition pass (name : string) : RiskRuleResult :=
  {| rr_rule_name := name; rr_decision := RiskRuleDecision.Pass; rr_reason := None;
     rr_message := None |}.
Definition warn (name message : string) : RiskRuleResult :=
  {| rr_rule_name := name; rr_decision := RiskRuleDecision.Warn; rr_reason := None;
     rr_message := Some message |}.
Definition reject (name : string) (reason : RiskRejectionReason.t) (message : string)
    : RiskRuleResult :=
  {| rr_rule_name := name; rr_decision := RiskRuleDecision.Reject; rr_reason := Some reason;
     rr_message := Some message |}.

Definition KillSwitchRule : RiskRule := fun _ snapshot _ =>
  if kill_switch_enabled snapshot then
    reject "kill_switch" RiskRejectionReason.KillSwitchActive
      (default "persistent kill switch is enabled" (kill_switch_reason snapshot))
  else pass "kill_switch".

Definition MaxOpenPositionsRule : RiskRule := fun _ snapshot config =>
  match open_positions_count snapshot with
  | Some count =>
    if max_open_positions config <=? count then
      reject "max_open_positions" RiskRejectionReason.MaxOpenPositionsExceeded
        ("open positions " +:+ show_int count +:+ " exceeds configured limit " +:+
         show_int (max_open_positions config))
    else pass "max_open_positions"
  | None => warn "max_open_positions" "TODO: open position query is not wired yet"
  end.

Definition MaxDailyLossRule : RiskRule := fun _ snapshot config =>
  match daily_loss_pct snapshot with
  | Some loss_pct =>
    if (loss_pct >=? max_daily_loss_pct config)%dec then
      reject "max_daily_loss" RiskRejectionReason.MaxWeeklyLossExceeded
        ("daily loss pct " +:+ dshow loss_pct +:+ " exceeds configured limit " +:+
         dshow (max_daily_loss_pct config))
    else pass "max_daily_loss"
  | None => warn "max_daily_loss" "TODO: daily loss query is not wired yet"
  end.

Definition MaxSignalAgeRule : RiskRule := fun context _ config =>
  let signal_age := rc_evaluated_at context - rc_signal_created_at context in
  let max_signal_age := milliseconds (max_signal_age_ms config) in
  if max_signal_age <? signal_age then
    reject "max_signal_age" RiskRejectionReason.SignalTooOld
      ("signal age " +:+ show_int (num_milliseconds signal_age) +:+
       "ms exceeds configured limit " +:+ show_int (max_signal_age_ms config) +:+ "ms")
  else pass "max_signal_age".

Definition MaxPositionNotionalRule : RiskRule := fun context _ config =>
  if (rc_suggested_notional context >? max_position_notional config)%dec then
    reject "max_position_notional" RiskRejectionReason.PositionNotionalExceeded
      ("suggested notional " +:+ dshow (rc_suggested_notional context) +:+
       " exceeds configured limit " +:+ dshow (max_position_notional config))
  else pass "max_position_notional".

Definition DuplicateOrderRule : RiskRule := fun _ _ _ =>
  warn "duplicate_order" "TODO: duplicate order detection requires persisted order-intent lookup".

Definition MaxWeeklyLossRule : RiskRule := fun _ snapshot config =>
  match weekly_loss_pct snapshot with
  | Some loss_pct =>
    if (loss_pct >=? max_weekly_loss_pct config)%dec then
      reject "max_weekly_loss" RiskRejectionReason.MaxDailyLossExceeded
        ("weekly loss pct " +:+ dshow loss_pct +:+ " exceeds configured limit " +:+
         dshow (max_weekly_loss_pct config))
    else pass "max_weekly_loss"
  | None => warn "max_weekly_loss" "weekly loss pct is unavailable"
  end.

Definition MaxConsecutiveLossesRule : RiskRule := fun _ snapshot config =>
  match consecutive_losses snapshot with
  | Some losses =>
    if max_consecutive_losses config <=? losses then
      reject "max_consecutive_losses" RiskRejectionReason.MaxConsecutiveLossesExceeded
        ("consecutive losses " +:+ show_int losses +:+ " exceeds configured limit " +:+
         show_int (max_consecutive_losses config))
    else pass "max_consecutive_losses"
  | None => warn "max_consecutive_losses" "consecutive losses are unavailable"
  end.

Definition CooldownRule : RiskRule := fun context snapshot config =>
  match last_trade_at snapshot with
  | Some last_trade_at =>
    if rc_evaluated_at context - last_trade_at <? seconds (cooldown_seconds config) then
      reject "cooldown" RiskRejectionReason.CooldownActive
        ("cooldown active until " +:+
         to_rfc3339 (last_trade_at + seconds (cooldown_seconds config)))
    else pass "cooldown"
  | None => warn "cooldown" "latest trade timestamp is unavailable"
  end.

Definition DataFreshnessRule : RiskRule := fun context snapshot config =>
  match latest_market_data_at snapshot with
  | Some last_update =>
    if seconds (stale_feed_threshold_seconds config) <? rc_evaluated_at context - last_update then
      reject "data_freshness" RiskRejectionReason.DataStale "latest market data is stale"
    else pass "data_freshness"
  | None => warn "data_freshness" "TODO: market data freshness source is not wired yet"
  end.

(** ** The evaluator *)

Record RiskEvaluator := { ev_config : RiskConfig; ev_rules : list RiskRule }.

Definition RiskEvaluator_new (config : RiskConfig) : RiskEvaluator := {|
  ev_config := config;
  ev_rules := [KillSwitchRule; MaxOpenPositionsRule; MaxDailyLossRule; MaxWeeklyLossRule;
               MaxConsecutiveLossesRule; CooldownRule; MaxSignalAgeRule;
               MaxPositionNotionalRule; DuplicateOrderRule; DataFreshnessRule] |}.

(** [(result.decision == Reject).then_some(result.reason).flatten()] *)
Definition rejection_reason (r : RiskRuleResult) : list RiskRejectionReason.t :=
  if bool_decide (rr_decision r = RiskRuleDecision.Reject)
  then match rr_reason r with Some reason => [reason] | None => [] end else [].

Definition RiskEvaluator_evaluate (new_v4 : Z) (self : RiskEvaluator)
    (context : RiskCheckContext) (snapshot : RiskStateSnapshot) : RiskEvaluationResult :=
  let rule_results := map (fun rule : RiskRule => rule context snapshot (ev_config self))
                          (ev_rules self) in
  let reasons := List.flat_map rejection_reason rule_results in
  let rejected := match reasons with [] => false | _ => true end in
  {| re_risk_decision_id := new_v4;
     re_decision := if rejected then RiskEvaluationDecision.Rejected
                    else RiskEvaluationDecision.Approved;
     re_approved_notional := if rejected then None else Some (rc_suggested_notional context);
     re_risk_score := if rejected then ONE else ZERO;
     re_reasons := reasons;
     re_rule_results := rule_results;
     re_correlation_id := rc_correlation_id context |}.
End Risk.

(** ** The contract of a rule

    What the evaluator relies on: a rule that rejects gives a reason (the
    evaluator counts reasons, not rejections), and only then. *)
Class RuleContract {DI : Decimal} (rule : RiskRule) : Prop :=
  rejects_with_reason : forall context snapshot config,
    rr_decision (rule context snapshot config) = RiskRuleDecision.Reject <->
    rr_reason (rule context snapshot config) <> None.

Section RuleFacts.
Context {DI : Decimal} {CH : Chrono}.

Ltac rule := intros context snapshot config; cbv [KillSwitchRule MaxOpenPositionsRule
  MaxDailyLossRule MaxWeeklyLossRule MaxConsecutiveLossesRule CooldownRule MaxSignalAgeRule
  MaxPositionNotionalRule DuplicateOrderRule DataFreshnessRule];
  repeat case_match; cbn; split; congruence.

#[export] Instance KillSwitchRule_contract : RuleContract KillSwitchRule.
Proof. rule. Qed.
#[export] Instance MaxOpenPositionsRule_contract : RuleContract MaxOpenPositionsRule.
Proof. rule. Qed.
#[export] Instance MaxDailyLossRule_contract : RuleContract MaxDailyLossRule.
Proof. rule. Qed.
#[export] Instance MaxWeeklyLossRule_contract : RuleContract MaxWeeklyLossRule.
Proof. rule. Qed.
#[export] Instance MaxConsecutiveLossesRule_contract : RuleContract MaxConsecutiveLossesRule.
Proof. rule. Qed.
#[export] Instance CooldownRule_contract : RuleContract CooldownRule.
Proof. rule. Qed.
#[export] Instance MaxSignalAgeRule_contract : RuleContract MaxSignalAgeRule.
Proof. rule. Qed.
#[export] Instance MaxPositionNotionalRule_contract : RuleContract MaxPositionNotionalRule.
Proof. rule. Qed.
#[export] Instance DuplicateOrderRule_contract : RuleContract DuplicateOrderRule.
Proof. rule. Qed.
#[export] Instance DataFreshnessRule_contract : RuleContract DataFreshnessRule.
Proof. rule. Qed.

Lemma RiskEvaluator_new_contract config :
  Forall (fun r => RuleContract r) (ev_rules (RiskEvaluator_new config)).
Proof. repeat (constructor; [apply _|]). constructor. Qed.

(** The reasons of any evaluator whose rules keep the contract. *)
Lemma reason_in (r : RiskRuleResult) reason :
  (rr_decision r = RiskRuleDecision.Reject <-> rr_reason r <> None) ->
  In reason (rejection_reason r) <-> rr_reason r = Some reason.
Proof.
  intros Hr. unfold rejection_reason.
  destruct (rr_reason r) as [x|] eqn:E; [|split; [|done]; by case_match].
  rewrite bool_decide_eq_true_2 by (by apply Hr). cbn. split; [|intros [= ->]; by left].
  by intros [->|[]].
Qed.

Lemma evaluate_reason_in new_v4 self context snapshot reason :
  Forall (fun r => RuleContract r) (ev_rules self) ->
  In reason (re_reasons (RiskEvaluator_evaluate new_v4 self context snapshot)) <->
  exists rule, In rule (ev_rules self) /\ rr_reason (rule context snapshot (ev_config self)) = Some reason.
Proof.
  intros Hc. rewrite Forall_forall in Hc. cbn. rewrite in_flat_map. split.
  - intros (x & Hx & Hin). apply in_map_iff in Hx as (rule & <- & Hrule).
    exists rule. split; [done|].
    apply reason_in; [apply Hc; by apply list_elem_of_In|done].
  - intros (rule & Hrule & Heq). eexists. split; [by apply in_map_iff; exists rule|].
    apply reason_in; [apply Hc; by apply list_elem_of_In|done].
Qed.

Lemma evaluate_outcome new_v4 self context snapshot :
  let r := RiskEvaluator_evaluate new_v4 self context snapshot in
  (re_decision r = RiskEvaluationDecision.Approved <-> re_reasons r = []) /\
  re_approved_notional r =
    (if bool_decide (re_decision r = RiskEvaluationDecision.Approved)
     then Some (rc_suggested_notional context) else None).
Proof. cbn. by destruct (List.flat_map _ _). Qed.

Lemma no_reasons_iff (l : list RiskRejectionReason.t) : l = [] <-> forall x, ~ In x l.
Proof. destruct l as [|y l]; [|split; [done|intros H; destruct (H y); by left]]. split; [by intros _ ? []|done]. Qed.

(** When each reason is due, read off the limits of the configuration.  An
    unknown quantity of the snapshot breaches nothing. *)
Definition breach (context : RiskCheckContext) (snapshot : RiskStateSnapshot) (config : RiskConfig)
    (reason : RiskRejectionReason.t) : Prop :=
  match reason with
  | RiskRejectionReason.KillSwitchActive => kill_switch_enabled snapshot = true
  | RiskRejectionReason.MaxOpenPositionsExceeded =>
      exists n, open_positions_count snapshot = Some n /\ max_open_positions config <= n
  | RiskRejectionReason.MaxWeeklyLossExceeded =>
      exists p, daily_loss_pct snapshot = Some p /\ (dval (max_daily_loss_pct config) <= dval p)%Q
  | RiskRejectionReason.MaxDailyLossExceeded =>
      exists p, weekly_loss_pct snapshot = Some p /\ (dval (max_weekly_loss_pct config) <= dval p)%Q
  | RiskRejectionReason.MaxConsecutiveLossesExceeded =>
      exists n, consecutive_losses snapshot = Some n /\ max_consecutive_losses config <= n
  | RiskRejectionReason.CooldownActive =>
      exists t, last_trade_at snapshot = Some t /\
        rc_evaluated_at context - t < seconds (cooldown_seconds config)
  | RiskRejectionReason.SignalTooOld =>
      milliseconds (max_signal_age_ms config)
        < rc_evaluated_at context - rc_signal_created_at context
  | RiskRejectionReason.PositionNotionalExceeded =>
      (dval (max_position_notional config) < dval (rc_suggested_notional context))%Q
  | RiskRejectionReason.DataStale =>
      exists t, latest_market_data_at snapshot = Some t /\
        seconds (stale_feed_threshold_seconds config) < rc_evaluated_at context - t
  | RiskRejectionReason.DuplicateOrderDetected => False
  | RiskRejectionReason.UnsupportedState => False
  end.

Lemma evaluate_breach new_v4 config context snapshot reason :
  In reason (re_reasons (RiskEvaluator_evaluate new_v4 (RiskEvaluator_new config) context snapshot))
  <-> breach context snapshot config reason.
Proof.
  rewrite evaluate_reason_in by apply RiskEvaluator_new_contract. cbn [ev_config RiskEvaluator_new].
  split.
  - intros (rule & Hin & Hr). cbn in Hin.
    repeat destruct Hin as [<-|Hin]; try done;
    revert Hr; cbv [KillSwitchRule MaxOpenPositionsRule
      MaxDailyLossRule MaxWeeklyLossRule MaxConsecutiveLossesRule CooldownRule MaxSignalAgeRule
      MaxPositionNotionalRule DuplicateOrderRule DataFreshnessRule];
    repeat case_match; cbn; try discriminate; intros [= <-]; cbn; bool_to_prop; dec_to_Q; eauto.
  - intros Hb. destruct reason; cbn in Hb; try done;
      repeat match goal with H : exists _, _ |- _ => destruct H | H : _ /\ _ |- _ => destruct H end.
    + exists KillSwitchRule. split; [cbn; tauto|]. unfold KillSwitchRule. by rewrite Hb.
    + exists MaxOpenPositionsRule. split; [cbn; tauto|]. unfold MaxOpenPositionsRule.
      rewrite H. by rewrite (proj2 (Z.leb_le _ _) H0).
    + exists MaxWeeklyLossRule. split; [cbn; tauto|]. unfold MaxWeeklyLossRule.
      rewrite H. by rewrite (proj2 (dleb_le _ _) H0).
    + exists MaxDailyLossRule. split; [cbn; tauto|]. unfold MaxDailyLossRule.
      rewrite H. by rewrite (proj2 (dleb_le _ _) H0).
    + exists MaxConsecutiveLossesRule. split; [cbn; tauto|]. unfold MaxConsecutiveLossesRule.
      rewrite H. by rewrite (proj2 (Z.leb_le _ _) H0).
    + exists MaxSignalAgeRule. split; [cbn; tauto|]. unfold MaxSignalAgeRule.
      by rewrite (proj2 (Z.ltb_lt _ _) Hb).
    + exists DataFreshnessRule. split; [cbn; tauto|]. unfold DataFreshnessRule.
      rewrite H. by rewrite (proj2 (Z.ltb_lt _ _) H0).
    + exists MaxPositionNotionalRule. split; [cbn; tauto|]. unfold MaxPositionNotionalRule.
      by rewrite (proj2 (dltb_lt _ _) Hb).
    + exists CooldownRule. split; [cbn; tauto|]. unfold CooldownRule.
      rewrite H. by rewrite (proj2 (Z.ltb_lt _ _) H0).
Qed.
End RuleFacts.

(** The limits a signal has to respect, for the quantities that are known. *)
Definition within_limits {DI : Decimal} (context : RiskCheckContext)
    (snapshot : RiskStateSnapshot) (config : RiskConfig) : Prop :=
  kill_switch_enabled snapshot = false /\
  (forall n, open_positions_count snapshot = Some n -> n < max_open_positions config) /\
  (forall p, daily_loss_pct snapshot = Some p -> (dval p < dval (max_daily_loss_pct config))%Q) /\
  (forall p, weekly_loss_pct snapshot = Some p -> (dval p < dval (max_weekly_loss_pct config))%Q) /\
  (forall n, consecutive_losses snapshot = Some n -> n < max_consecutive_losses config) /\
  (forall t, last_trade_at snapshot = Some t ->
     seconds (cooldown_seconds config) <= rc_evaluated_at context - t) /\
  (forall t, latest_market_data_at snapshot = Some t ->
     rc_evaluated_at context - t <= seconds (stale_feed_threshold_seconds config)) /\
  rc_evaluated_at context - rc_signal_created_at context
    <= milliseconds (max_signal_age_ms config) /\
  (dval (rc_suggested_notional context) <= dval (max_position_notional config))%Q.

Lemma within_limits_iff {DI : Decimal} {CH : Chrono} context snapshot config :
  within_limits context snapshot config <-> forall reason, ~ breach context snapshot config reason.
Proof.
  symmetry. unfold within_limits. split.
  - intros H. split; [destruct (kill_switch_enabled snapshot) eqn:E;
      [by destruct (H RiskRejectionReason.KillSwitchActive)|done]|].
    repeat split; intros;
      first [apply Qnot_le_lt | apply Qnot_lt_le | apply Z.nle_gt | apply Z.nlt_ge]; intros Hb.
    + apply (H RiskRejectionReason.MaxOpenPositionsExceeded). cbn; eauto.
    + apply (H RiskRejectionReason.MaxWeeklyLossExceeded). cbn; eauto.
    + apply (H RiskRejectionReason.MaxDailyLossExceeded). cbn; eauto.
    + apply (H RiskRejectionReason.MaxConsecutiveLossesExceeded). cbn; eauto.
    + apply (H RiskRejectionReason.CooldownActive). cbn; eauto.
    + apply (H RiskRejectionReason.DataStale). cbn; eauto.
    + by apply (H RiskRejectionReason.SignalTooOld).
    + by apply (H RiskRejectionReason.PositionNotionalExceeded).
  - intros (Hk & Ho & Hd & Hw & Hc & Hcd & Hf & Ha & Hn) reason Hb.
    destruct reason; cbn in Hb; try done;
      repeat match goal with H : exists _, _ |- _ => destruct H as [? H] | H : _ /\ _ |- _ => destruct H as [? H] end;
      try congruence; try lia; try lra;
      match goal with
      | H : _ = Some _, H' : forall _, _ = Some _ -> _ |- _ => specialize (H' _ H); first [lia|lra]
      end.
Qed.

(** C1.  The gate is exact: a signal is approved if and only if the kill switch
    is off and every known limit is respected, and it is then approved for the
    suggested notional, which is at most [max_position_notional]; otherwise no
    notional is approved.  (An unknown quantity approves: a snapshot with
    nothing known and no kill switch rejects only old or oversized signals.) *)
Theorem evaluate_approves_iff_within_limits {DI : Decimal} {CH : Chrono} (new_v4 : Z)
    (config : RiskConfig) (context : RiskCheckContext) (snapshot : RiskStateSnapshot) :
  let r := RiskEvaluator_evaluate new_v4 (RiskEvaluator_new config) context snapshot in
  (re_decision r = RiskEvaluationDecision.Approved <-> within_limits context snapshot config) /\
  re_approved_notional r =
    (if bool_decide (re_decision r = RiskEvaluationDecision.Approved)
     then Some (rc_suggested_notional context) else None).
Proof.
  cbn zeta. destruct (evaluate_outcome new_v4 (RiskEvaluator_new config) context snapshot)
    as [H1 H2]. split; [|exact H2]. rewrite H1, no_reasons_iff, within_limits_iff.
  by setoid_rewrite evaluate_breach.
Qed.

(** C13.  The reasons a rejection carries are exactly the limits that are
    breached -- with the loss limits exchanged: a breach of the daily limit is
    reported as [MaxWeeklyLossExceeded] and a breach of the weekly limit as
    [MaxDailyLossExceeded]. *)
Theorem evaluate_reasons_exact {DI : Decimal} {CH : Chrono} (new_v4 : Z) (config : RiskConfig)
    (context : RiskCheckContext) (snapshot : RiskStateSnapshot) :
  let reasons := re_reasons
    (RiskEvaluator_evaluate new_v4 (RiskEvaluator_new config) context snapshot) in
  (In RiskRejectionReason.KillSwitchActive reasons <-> kill_switch_enabled snapshot = true) /\
  (In RiskRejectionReason.MaxWeeklyLossExceeded reasons <->
     exists p, daily_loss_pct snapshot = Some p /\
       (dval (max_daily_loss_pct config) <= dval p)%Q) /\
  (In RiskRejectionReason.MaxDailyLossExceeded reasons <->
     exists p, weekly_loss_pct snapshot = Some p /\
       (dval (max_weekly_loss_pct config) <= dval p)%Q) /\
  (forall reason, In reason reasons <-> breach context snapshot config reason).
Proof.
  cbn zeta. split; [apply (evaluate_breach new_v4 config context snapshot)|].
  split; [apply (evaluate_breach new_v4 config context snapshot)|].
  split; [apply (evaluate_breach new_v4 config context snapshot)|].
  intros reason. apply evaluate_breach.
Qed.

(** [config'] allows whatever [config] allows. *)
Record looser {DI : Decimal} (config config' : RiskConfig) : Prop := {
  looser_positions : max_open_positions config <= max_open_positions config';
  looser_daily : (dval (max_daily_loss_pct config) <= dval (max_daily_loss_pct config'))%Q;
  looser_weekly : (dval (max_weekly_loss_pct config) <= dval (max_weekly_loss_pct config'))%Q;
  looser_notional : (dval (max_position_notional config) <= dval (max_position_notional config'))%Q;
  looser_losses : max_consecutive_losses config <= max_consecutive_losses config';
  looser_cooldown : cooldown_seconds config' <= cooldown_seconds config;
  looser_age : max_signal_age_ms config <= max_signal_age_ms config';
  looser_stale : stale_feed_threshold_seconds config <= stale_feed_threshold_seconds config'
}.

Lemma breach_looser {DI : Decimal} config config' context snapshot reason :
  looser config config' -> breach context snapshot config' reason ->
  breach context snapshot config reason.
Proof.
  intros [] Hb. unfold seconds, milliseconds, NANOS, MILLI in *.
  destruct reason; cbn in *; unfold seconds, milliseconds, NANOS, MILLI in *; try done;
    repeat match goal with H : exists _, _ |- _ => destruct H as [? H] | H : _ /\ _ |- _ => destruct H as [? H] end;
    try (eexists; split; [eassumption|]); try lia; try lra.
Qed.

(** The gate is monotone in the configuration: loosening limits never adds
    a rejection reason, so a signal approved under a configuration is approved
    under every looser one. *)
Theorem evaluate_monotone {DI : Decimal} {CH : Chrono} (new_v4 : Z) (config config' : RiskConfig)
    (context : RiskCheckContext) (snapshot : RiskStateSnapshot) :
  looser config config' ->
  let r := RiskEvaluator_evaluate new_v4 (RiskEvaluator_new config) context snapshot in
  let r' := RiskEvaluator_evaluate new_v4 (RiskEvaluator_new config') context snapshot in
  (forall reason, In reason (re_reasons r') -> In reason (re_reasons r)) /\
  (re_decision r = RiskEvaluationDecision.Approved ->
   re_decision r' = RiskEvaluationDecision.Approved).
Proof.
  intros Hl. cbn zeta.
  assert (Hin : forall reason,
    In reason (re_reasons (RiskEvaluator_evaluate new_v4 (RiskEvaluator_new config') context snapshot)) ->
    In reason (re_reasons (RiskEvaluator_evaluate new_v4 (RiskEvaluator_new config) context snapshot))).
  { intros reason. rewrite !evaluate_breach. by apply breach_looser. }
  split; [done|]. intros Ha. apply evaluate_outcome in Ha. apply evaluate_outcome.
  apply no_reasons_iff. intros x Hx. apply Hin in Hx. by rewrite Ha in Hx.
Qed.

(** The ranges [validate_risk_config] enforces. *)
Definition config_in_ranges {DI : Decimal} (c : RiskConfig) : Prop :=
  1 <= max_open_positions c <= 50 /\
  (1 # 100 <= dval (max_daily_loss_pct c) <= 20)%Q /\
  (1 # 100 <= dval (max_weekly_loss_pct c) <= 50)%Q /\
  (dval (max_daily_loss_pct c) <= dval (max_weekly_loss_pct c))%Q /\
  (0 < dval (max_position_notional c))%Q /\
  (0 <= dval (max_slippage_pct c) <= 5)%Q /\
  1 <= max_consecutive_losses c <= 20 /\
  cooldown_seconds c <= 86400 /\
  1000 <= max_signal_age_ms c <= 300000 /\
  1 <= stale_feed_threshold_seconds c <= 3600.

Section ConfigFacts.
Context {DI : Decimal} {DL : DecimalLaws DI}.

(** Every issue is an error, so "valid" is "no issue". *)
Lemma issues_all_errors c :
  Forall (fun i => ri_severity i = StrategyConfigValidationSeverity.Error) (risk_config_issues c).
Proof using.
  assert (Hw : forall b code field message,
    Forall (fun i => ri_severity i = StrategyConfigValidationSeverity.Error)
      (when_error b code field message)) by (intros [] *; cbn; by repeat constructor).
  assert (Hr : forall v lo hi field,
    Forall (fun i => ri_severity i = StrategyConfigValidationSeverity.Error)
      (validate_decimal_range v lo hi field))
    by (intros *; unfold validate_decimal_range; case_match; by repeat constructor).
  unfold risk_config_issues. repeat (apply Forall_app; split); auto.
Qed.

Lemma valid_iff_no_issue at_ c :
  rv_valid (validate_risk_config at_ c) = true <-> risk_config_issues c = [].
Proof using.
  cbn. rewrite negb_true_iff. pose proof (issues_all_errors c) as H.
  destruct (risk_config_issues c) as [|i l]; [done|]. cbn. inversion H; subst.
  by rewrite bool_decide_eq_true_2.
Qed.

Lemma when_error_nil b code field message : when_error b code field message = [] <-> b = false.
Proof using. destruct b; cbn; split; congruence. Qed.
Lemma range_nil v lo hi field :
  validate_decimal_range v lo hi field = [] <-> (dval lo <= dval v <= dval hi)%Q.
Proof using.
  unfold validate_decimal_range.
  destruct (v <? lo)%dec eqn:E1; cbn; [|destruct (hi <? v)%dec eqn:E2; cbn]; dec_to_Q;
    split; try done; try intros []; try lra.
Qed.
Lemma in_range_iff lo hi x : negb (in_range lo hi x) = false <-> lo <= x <= hi.
Proof using. unfold in_range. rewrite negb_false_iff, andb_true_iff, !Z.leb_le. done. Qed.

Lemma no_issue_iff c : risk_config_issues c = [] <-> config_in_ranges c.
Proof using DL.
  unfold risk_config_issues, config_in_ranges.
  assert (Happ : forall A (l1 l2 : list A), l1 ++ l2 = [] <-> l1 = [] /\ l2 = [])
    by (intros A [|] [|]; cbn; split; intros; naive_solver).
  rewrite !Happ, !when_error_nil, !range_nil, !in_range_iff, Z.ltb_ge, dltb_ge, dleb_gt.
  rewrite dval_ZERO, !dval_new by lia. done.
Qed.
End ConfigFacts.

(** C36.  [validate_risk_config] refines [RiskConfig::validate].  It accepts a
    configuration exactly when all ten fields are in their documented ranges
    (daily limit at most the weekly one), hands back that configuration and
    only then, reports no issue exactly then; and what it accepts the core
    validator accepts too. *)
Theorem validate_risk_config_refines {DI : Decimal} {DL : DecimalLaws DI} (validated_at : Z)
    (config : RiskConfig) :
  let r := validate_risk_config validated_at config in
  (rv_valid r = true <-> config_in_ranges config) /\
  (rv_issues r = [] <-> rv_valid r = true) /\
  rv_normalized_config r = (if rv_valid r then Some config else None) /\
  (rv_valid r = true -> RiskConfig_validate config = Ok tt).
Proof.
  cbn zeta. rewrite valid_iff_no_issue, no_issue_iff. split; [done|].
  split; [apply no_issue_iff|]. split; [done|].
  intros (H1 & H2 & H3 & H4 & H5 & H6 & H7 & H8 & H9 & H10). unfold RiskConfig_validate.
  pose proof dval_ZERO as H0.
  destruct (Z.eqb_spec (max_open_positions config) 0); [lia|].
  destruct (max_daily_loss_pct config <=? ZERO)%dec eqn:E; [dec_to_Q; lra|clear E].
  destruct (max_weekly_loss_pct config <=? ZERO)%dec eqn:E; [dec_to_Q; lra|clear E].
  destruct (max_position_notional config <=? ZERO)%dec eqn:E; [dec_to_Q; lra|clear E].
  destruct (max_slippage_pct config <? ZERO)%dec eqn:E; [dec_to_Q; lra|clear E].
  destruct (Z.eqb_spec (max_consecutive_losses config) 0); [lia|].
  destruct (Z.leb_spec (max_signal_age_ms config) 0); [lia|].
  destruct (Z.eqb_spec (stale_feed_threshold_seconds config) 0); [lia|done].
Qed.

Module RiskSample.
#[local] Existing Instance ExactDecimal.
#[local] Existing Instance PlainChrono.

Definition context : RiskCheckContext := {|
  rc_signal_id := 1; rc_correlation_id := 2; rc_strategy_id := "momentum_v1";
  rc_symbol := {| symbol_text := "BTCUSDT" |}; rc_side := Side.Buy;
  rc_suggested_notional := dint 100000; rc_signal_created_at := seconds 1716500000;
  rc_evaluated_at := seconds 1716500003 |}.

Definition wider : RiskConfig := {|
  max_open_positions := 3; max_daily_loss_pct := dnew 3 0; max_weekly_loss_pct := dnew 5 0;
  max_position_notional := dnew 200000 0; max_slippage_pct := dnew 1 0;
  max_consecutive_losses := 3; cooldown_seconds := 60; max_signal_age_ms := 6000;
  stale_feed_threshold_seconds := 10 |}.

Example evaluate_monotone_witness :
  re_decision (RiskEvaluator_evaluate 7 (RiskEvaluator_new wider) context RiskStateSnapshot_default)
  = RiskEvaluationDecision.Approved.
Proof.
  refine (proj2 (evaluate_monotone 7 RiskConfig_default wider context RiskStateSnapshot_default _) _).
  - split; vm_compute; discriminate.
  - vm_compute. reflexivity.
Defined.

Example validate_risk_config_refines_witness :
  rv_valid (validate_risk_config 0 RiskConfig_default) = true /\
  RiskConfig_validate RiskConfig_default = Ok tt.
Proof.
  split; [vm_compute; reflexivity|].
  apply (validate_risk_config_refines (DL := ExactDecimalLaws) 0 RiskConfig_default).
  vm_compute. reflexivity.
Defined.

(** A daily loss of 3 percent against a limit of 2 is reported as weekly. *)
Example daily_loss_reported_as_weekly :
  re_reasons (RiskEvaluator_evaluate 7 (RiskEvaluator_new RiskConfig_default) context
    {| kill_switch_enabled := false; kill_switch_reason := None; open_positions_count := Some 0;
       daily_loss_pct := Some (dnew 3 0); weekly_loss_pct := Some (dnew 3 0);
       consecutive_losses := None; latest_market_data_at := None; last_trade_at := None |})
  = [RiskRejectionReason.MaxWeeklyLossExceeded].
Proof. vm_compute. reflexivity. Qed.
End RiskSample.
