(* ===== verification/PaperOrder.v ===== *)
(** * Paper orders: crates/core/src/lib.rs, lines 7918-8050 and 8455-8515

    The execution state machine of a simulated order, the validation of its
    intent, and [PaperOrder::transition_to], which moves the state and keeps the
    status and the time stamps in step.  A call that fails returns before it
    writes, so an error leaves the order as it was; [Utc::now()] of
    [PaperOrder::new] is the argument [now]. *)

From Stdlib Require Import ZArith QArith Lia List String.
From stdpp Require Import base list strings.
From S2P Require Import Prelude Text Host Types MarketData.

#[local] Open Scope Z_scope.

Section PaperOrders.
Context {DI : Decimal}.

(** ** The state machine *)

Definition can_transition_to (self next : ExecutionState.t) : bool :=
  match self, next with
  | ExecutionState.IntentCreated, ExecutionState.RiskApproved
  | ExecutionState.IntentCreated, ExecutionState.Rejected
  | ExecutionState.IntentCreated, ExecutionState.Expired
  | ExecutionState.RiskApproved, ExecutionState.OrderPrepared
  | ExecutionState.RiskApproved, ExecutionState.Rejected
  | ExecutionState.RiskApproved, ExecutionState.Expired
  | ExecutionState.OrderPrepared, ExecutionState.PaperSubmitted
  | ExecutionState.OrderPrepared, ExecutionState.PaperCancelled
  | ExecutionState.OrderPrepared, ExecutionState.Rejected
  | ExecutionState.OrderPrepared, ExecutionState.Expired
  | ExecutionState.PaperSubmitted, ExecutionState.PaperFilled
  | ExecutionState.PaperSubmitted, ExecutionState.PaperCancelled
  | ExecutionState.PaperSubmitted, ExecutionState.Expired => true
  | _, _ => false
  end.

Definition transition (self next : ExecutionState.t) : result ExecutionState.t :=
  if can_transition_to self next then Ok next
  else Err (CoreError.InvalidExecutionTransition self next).

(** ** Orders *)

Record OrderIntent := {
  oi_order_id : Z;
  oi_correlation_id : Z;
  oi_risk_decision_id : Z;
  oi_idempotency_key : string;
  oi_symbol : Symbol;
  oi_side : Side.t;
  oi_quantity : dec;
  oi_limit_price : option dec;
  oi_created_at : Z;
  oi_expires_at : option Z
}.

Definition OrderIntent_validate (self : OrderIntent) : result unit :=
  if is_empty (trim (oi_idempotency_key self)) then Err CoreError.EmptyIdempotencyKey else
  if (oi_quantity self <=? ZERO)%dec then Err CoreError.InvalidOrderQuantity else
  match oi_limit_price self with
  | Some limit_price => if (limit_price <=? ZERO)%dec then Err CoreError.InvalidLimitPrice else Ok tt
  | None => Ok tt
  end.

Record PaperOrder := {
  po_intent : OrderIntent;
  po_status : OrderStatus.t;
  po_execution_state : ExecutionState.t;
  po_filled_price : option dec;
  po_submitted_at : option Z;
  po_filled_at : option Z;
  po_cancelled_at : option Z;
  po_rejected_at : option Z;
  po_expired_at : option Z;
  po_status_reason : option string;
  po_updated_at : Z
}.

Definition PaperOrder_new (now : Z) (intent : OrderIntent) : result PaperOrder :=
  _ ← OrderIntent_validate intent;
  Ok {| po_intent := intent;
        po_status := OrderStatus.Open;
        po_execution_state := ExecutionState.IntentCreated;
        po_filled_price := None;
        po_submitted_at := None;
        po_filled_at := None;
        po_cancelled_at := None;
        po_rejected_at := None;
        po_expired_at := None;
        po_status_reason := None;
        po_updated_at := now |}.

Definition transition_to (self : PaperOrder) (next : ExecutionState.t) (occurred_at : Z)
    (status_reason : option string) : result PaperOrder :=
  state ← transition (po_execution_state self) next;
  let set status submitted filled cancelled rejected expired :=
    {| po_intent := po_intent self; po_status := status; po_execution_state := state;
       po_filled_price := po_filled_price self; po_submitted_at := submitted;
       po_filled_at := filled; po_cancelled_at := cancelled; po_rejected_at := rejected;
       po_expired_at := expired; po_status_reason := status_reason;
       po_updated_at := occurred_at |} in
  Ok match next with
     | ExecutionState.IntentCreated | ExecutionState.RiskApproved | ExecutionState.OrderPrepared =>
       set OrderStatus.Open (po_submitted_at self) (po_filled_at self) (po_cancelled_at self)
           (po_rejected_at self) (po_expired_at self)
     | ExecutionState.PaperSubmitted =>
       set OrderStatus.Open (Some occurred_at) (po_filled_at self) (po_cancelled_at self)
           (po_rejected_at self) (po_expired_at self)
     | ExecutionState.PaperFilled =>
       set OrderStatus.Filled (po_submitted_at self) (Some occurred_at) (po_cancelled_at self)
           (po_rejected_at self) (po_expired_at self)
     | ExecutionState.PaperCancelled =>
       set OrderStatus.Cancelled (po_submitted_at self) (po_filled_at self) (Some occurred_at)
           (po_rejected_at self) (po_expired_at self)
     | ExecutionState.Rejected =>
       set OrderStatus.Rejected (po_submitted_at self) (po_filled_at self) (po_cancelled_at self)
           (Some occurred_at) (po_expired_at self)
     | ExecutionState.Expired =>
       set OrderStatus.Expired (po_submitted_at self) (po_filled_at self) (po_cancelled_at self)
           (po_rejected_at self) (Some occurred_at)
     end.

(** ** Runs

    An order's life: created from an intent, then any sequence of calls of
    [transition_to], of which the failing ones leave it unchanged.  The log
    lists the moves that succeeded, latest first. *)
Inductive order_run (intent : OrderIntent) :
    list (ExecutionState.t * Z) -> PaperOrder -> Prop :=
  | run_new now o : PaperOrder_new now intent = Ok o -> order_run intent [] o
  | run_step log o next at_ reason o' :
      order_run intent log o -> transition_to o next at_ reason = Ok o' ->
      order_run intent ((next, at_) :: log) o'.

(** ** The invariant *)

Definition terminal (s : ExecutionState.t) : bool :=
  forallb (fun next => negb (can_transition_to s next)) ExecutionState.variants.

Definition status_of (s : ExecutionState.t) : OrderStatus.t :=
  match s with
  | ExecutionState.PaperFilled => OrderStatus.Filled
  | ExecutionState.PaperCancelled => OrderStatus.Cancelled
  | ExecutionState.Rejected => OrderStatus.Rejected
  | ExecutionState.Expired => OrderStatus.Expired
  | _ => OrderStatus.Open
  end.

(** The time of the latest move to [s]. *)
Definition time_of (log : list (ExecutionState.t * Z)) (s : ExecutionState.t) : option Z :=
  option_map snd (List.find (fun e => bool_decide (fst e = s)) log).

Record order_consistent (intent : OrderIntent) (log : list (ExecutionState.t * Z))
    (o : PaperOrder) : Prop := {
  oc_intent : po_intent o = intent;
  oc_state : po_execution_state o =
    match log with (s, _) :: _ => s | [] => ExecutionState.IntentCreated end;
  oc_status : po_status o = status_of (po_execution_state o);
  oc_price : po_filled_price o = None;
  oc_submitted : po_submitted_at o = time_of log ExecutionState.PaperSubmitted;
  oc_filled : po_filled_at o = time_of log ExecutionState.PaperFilled;
  oc_cancelled : po_cancelled_at o = time_of log ExecutionState.PaperCancelled;
  oc_rejected : po_rejected_at o = time_of log ExecutionState.Rejected;
  oc_expired : po_expired_at o = time_of log ExecutionState.Expired
}.

Lemma transition_to_inv o next at_ reason o' :
  transition_to o next at_ reason = Ok o' ->
  can_transition_to (po_execution_state o) next = true /\ po_execution_state o' = next.
Proof.
  unfold transition_to, transition. destruct (can_transition_to _ _); [|done]. cbn.
  intros [= <-]. split; [done|]. by destruct next.
Qed.

Lemma time_of_cons s t log s' :
  time_of ((s, t) :: log) s' = if bool_decide (s = s') then Some t else time_of log s'.
Proof. unfold time_of. cbn [List.find fst]. by case_bool_decide. Qed.

Lemma order_run_consistent intent log o : order_run intent log o -> order_consistent intent log o.
Proof.
  induction 1 as [now o H|log o next at_ reason o' _ IH Hstep].
  - unfold PaperOrder_new in H. res_inv. subst o. by split.
  - destruct IH as [I1 I2 I3 I4 I5 I6 I7 I8 I9].
    unfold transition_to, transition in Hstep. destruct (can_transition_to _ _); [|done].
    cbn in Hstep. injection Hstep as <-.
    split; rewrite ?time_of_cons; destruct next; cbn [po_intent po_status po_execution_state
      po_filled_price po_submitted_at po_filled_at po_cancelled_at po_rejected_at po_expired_at];
      try case_bool_decide; try done; congruence.
Qed.

(** The run of states is a path of the machine, from its start. *)
Fixpoint is_path (log : list (ExecutionState.t * Z)) : bool :=
  match log with
  | [] => true
  | (s, _) :: log' =>
    is_path log' &&
    can_transition_to (match log' with (s', _) :: _ => s' | [] => ExecutionState.IntentCreated end) s
  end.

Lemma order_run_path intent log o : order_run intent log o -> is_path log = true.
Proof.
  induction 1 as [|log o next at_ reason o' Hrun IH Hstep]; [done|].
  apply transition_to_inv in Hstep as [Hc _]. cbn. rewrite IH. cbn.
  by rewrite (oc_state _ _ _ (order_run_consistent _ _ _ Hrun)) in Hc.
Qed.

(** Each move climbs; there are four levels above the start. *)
Definition level (s : ExecutionState.t) : nat :=
  match s with
  | ExecutionState.IntentCreated => 0
  | ExecutionState.RiskApproved => 1
  | ExecutionState.OrderPrepared => 2
  | ExecutionState.PaperSubmitted => 3
  | _ => 4
  end.

Lemma can_transition_level s next : can_transition_to s next = true -> (level s < level next)%nat.
Proof. destruct s, next; cbn; intros; try discriminate; lia. Qed.

Lemma path_length log :
  is_path log = true ->
  (length log <= level (match log with (s, _) :: _ => s | [] => ExecutionState.IntentCreated end))%nat.
Proof.
  induction log as [|[s t] log IH]; cbn; [lia|]. intros H. apply andb_prop in H as [H Hc].
  specialize (IH H). apply can_transition_level in Hc. lia.
Qed.

Lemma level_max s : (level s <= 4)%nat.
Proof. destruct s; cbn; lia. Qed.

Lemma terminal_no_move s next : terminal s = true -> can_transition_to s next = false.
Proof. destruct s, next; done. Qed.

(** At most one closing state occurs on a path. *)
Lemma path_terminal_head log s t :
  is_path log = true -> In (s, t) log -> terminal s = true ->
  exists log', log = (s, t) :: log'.
Proof.
  destruct log as [|[s0 t0] log]; cbn; [done|]. intros H Hin Ht.
  destruct Hin as [[= <- <-]|Hin]; [eauto|]. exfalso. apply andb_prop in H as [H Hc].
  assert (Hall : forall log s1, is_path log = true ->
            can_transition_to (match log with (s', _) :: _ => s' | [] => ExecutionState.IntentCreated end) s1 = true ->
            In (s, t) log -> False).
  { clear -Ht. induction log as [|[s2 t2] log IH]; cbn; intros s1 H Hc Hin; [done|].
    apply andb_prop in H as [H Hc2]. destruct Hin as [[= -> ->]|Hin].
    - by rewrite (terminal_no_move s s1 Ht) in Hc.
    - by eapply IH. }
  by eapply Hall.
Qed.

Lemma time_of_some log s t : time_of log s = Some t -> In (s, t) log.
Proof.
  unfold time_of. destruct (List.find _ log) as [[s' t']|] eqn:E; [|done]. cbn. intros [= ->].
  apply find_some in E as [Hin Hb]. apply bool_decide_eq_true in Hb. cbn in Hb. by subst s'.
Qed.
End PaperOrders.

(** C10.  Every order, after any sequence of [transition_to] calls, is
    consistent: its state is the last move, its status is the one of that
    state, each time stamp is the time of the move to its state and nothing
    else, the intent never changes -- and a time stamp of a closing state
    (filled, cancelled, rejected, expired) is set only in that state, so at most
    one of the four is set.  [filled_price] is never set by these operations. *)
Theorem paper_order_consistent {DI : Decimal} (intent : OrderIntent)
    (log : list (ExecutionState.t * Z)) (o : PaperOrder) :
  order_run intent log o ->
  order_consistent intent log o /\
  (po_filled_at o <> None -> po_execution_state o = ExecutionState.PaperFilled) /\
  (po_cancelled_at o <> None -> po_execution_state o = ExecutionState.PaperCancelled) /\
  (po_rejected_at o <> None -> po_execution_state o = ExecutionState.Rejected) /\
  (po_expired_at o <> None -> po_execution_state o = ExecutionState.Expired).
Proof.
  intros Hrun. pose proof (order_run_consistent _ _ _ Hrun) as Hc.
  pose proof (order_run_path _ _ _ Hrun) as Hp. split; [done|].
  destruct Hc as [_ Hs _ _ _ Hf Hca Hr He].
  assert (Hone : forall s, terminal s = true -> time_of log s <> None -> po_execution_state o = s).
  { intros s Ht Hn. destruct (time_of log s) as [t|] eqn:E; [|done].
    apply time_of_some in E. destruct (path_terminal_head _ _ _ Hp E Ht) as [log' ->].
    by rewrite Hs. }
  rewrite Hf, Hca, Hr, He. repeat split; by apply Hone.
Qed.

(** Lives are short and ends are final: at most four moves succeed on an
    order, whatever is attempted; each moves to a state the machine allows; and
    a terminal state (filled, cancelled, rejected, expired) refuses every
    further move with [InvalidExecutionTransition]. *)
Theorem paper_order_terminates {DI : Decimal} (intent : OrderIntent)
    (log : list (ExecutionState.t * Z)) (o : PaperOrder) :
  order_run intent log o ->
  (length log <= 4)%nat /\
  (terminal (po_execution_state o) = true <-> po_status o <> OrderStatus.Open) /\
  (po_status o <> OrderStatus.Open -> forall next at_ reason,
     transition_to o next at_ reason
     = Err (CoreError.InvalidExecutionTransition (po_execution_state o) next)).
Proof.
  intros Hrun. pose proof (order_run_consistent _ _ _ Hrun) as [_ _ Hst _ _ _ _ _ _].
  assert (Hiff : terminal (po_execution_state o) = true <-> po_status o <> OrderStatus.Open).
  { rewrite Hst. destruct (po_execution_state o); cbn; split; try done; congruence. }
  split; [|split; [done|]].
  - pose proof (path_length _ (order_run_path _ _ _ Hrun)). pose proof (level_max
      (match log with (s, _) :: _ => s | [] => ExecutionState.IntentCreated end)). lia.
  - intros H next at_ reason. unfold transition_to, transition.
    rewrite terminal_no_move by by apply Hiff. done.
Qed.

Module OrderSample.
#[local] Existing Instance ExactDecimal.

Definition intent : OrderIntent := {|
  oi_order_id := 1; oi_correlation_id := 2; oi_risk_decision_id := 3;
  oi_idempotency_key := "signal-1"; oi_symbol := {| symbol_text := "BTCUSDT" |};
  oi_side := Side.Buy; oi_quantity := dnew 1 2; oi_limit_price := Some (dint 60000);
  oi_created_at := 0; oi_expires_at := None |}.

Definition get_order (m : result PaperOrder) : PaperOrder :=
  match m with
  | Ok o => o
  | _ => {| po_intent := intent; po_status := OrderStatus.Open;
            po_execution_state := ExecutionState.IntentCreated; po_filled_price := None;
            po_submitted_at := None; po_filled_at := None; po_cancelled_at := None;
            po_rejected_at := None; po_expired_at := None; po_status_reason := None;
            po_updated_at := 0 |}
  end.

Definition moves : list (ExecutionState.t * Z) :=
  [(ExecutionState.PaperFilled, 40); (ExecutionState.PaperSubmitted, 30);
   (ExecutionState.OrderPrepared, 20); (ExecutionState.RiskApproved, 10)].

Definition filled : PaperOrder :=
  foldr (fun m o => get_order (transition_to o (fst m) (snd m) None))
    (get_order (PaperOrder_new 0 intent)) moves.

Lemma run_move log o next at_ :
  order_run intent log o -> is_ok (transition_to o next at_ None) = true ->
  order_run intent ((next, at_) :: log) (get_order (transition_to o next at_ None)).
Proof.
  intros Hrun Hok. destruct (transition_to o next at_ None) as [o'| |] eqn:E; try discriminate.
  exact (run_step _ _ _ _ _ _ _ Hrun E).
Defined.

Lemma filled_run : order_run intent moves filled.
Proof.
  unfold filled, moves. cbn [foldr fst snd]. repeat (apply run_move; [|reflexivity]).
  apply (run_new _ 0). reflexivity.
Defined.

Example paper_order_consistent_witness :
  po_filled_at filled = Some 40 /\ order_consistent intent moves filled.
Proof.
  split; [reflexivity|]. exact (proj1 (paper_order_consistent intent moves filled filled_run)).
Defined.

Example paper_order_terminates_witness :
  transition_to filled ExecutionState.PaperCancelled 50 None
  = Err (CoreError.InvalidExecutionTransition ExecutionState.PaperFilled ExecutionState.PaperCancelled).
Proof.
  destruct (paper_order_terminates intent moves filled filled_run) as (_ & _ & H).
  apply H. vm_compute. discriminate.
Defined.
End OrderSample.
