(* ===== verification/Accounting.v ===== *)
(** * Paper accounting: crates/accounting/src/lib.rs (types: crates/core/src/lib.rs, 8353-8452)

    Fills, closes and mark-to-market of simulated positions.  Identifiers drawn
    by [Uuid::new_v4()] are [fresh 0], [fresh 1], ... in the order in which a
    call draws them; [now] is [Utc::now()].  Errors ([anyhow!]) are their
    messages. *)

From Stdlib Require Import ZArith QArith Qabs Qround Lqa Lia List Permutation Sorted String.
From stdpp Require Import base list strings.
From S2P Require Import Prelude Text Host Types MarketData.

#[local] Open Scope Z_scope.

Abbreviation anyhow := (res string).

Section Accounting.
Context {DI : Decimal} {CH : Chrono} {JS : Json} {JD : JsonScalars}.

Record PaperAccount := {
  pa_id : Z;
  pa_name : string;
  pa_base_currency : string;
  pa_initial_equity : dec;
  pa_current_equity : dec;
  pa_realized_pnl : dec;
  pa_unrealized_pnl : dec;
  pa_status : PaperAccountStatus.t;
  pa_created_at : Z;
  pa_updated_at : Z
}.

Record PaperPosition := {
  pp_id : Z;
  pp_account_id : Z;
  pp_symbol : string;
  pp_side : PositionSide.t;
  pp_quantity : dec;
  pp_entry_price : dec;
  pp_mark_price : option dec;
  pp_price_status : PaperPriceStatus.t;
  pp_notional : dec;
  pp_realized_pnl : dec;
  pp_unrealized_pnl : dec;
  pp_status : PositionStatus.t;
  pp_opened_at : Z;
  pp_closed_at : option Z;
  pp_strategy_id : option string;
  pp_signal_id : option Z;
  pp_risk_decision_id : option Z;
  pp_order_id : option Z;
  pp_updated_at : Z
}.

Record PaperFill := {
  pf_id : Z;
  pf_account_id : Z;
  pf_order_id : Z;
  pf_position_id : option Z;
  pf_symbol : string;
  pf_side : PositionSide.t;
  pf_price : dec;
  pf_quantity : dec;
  pf_notional : dec;
  pf_fee : dec;
  pf_slippage_cost : dec;
  pf_filled_at : Z;
  pf_strategy_id : option string;
  pf_signal_id : option Z;
  pf_risk_decision_id : option Z;
  pf_correlation_id : Z
}.

Record PaperEquitySnapshot := {
  es_id : Z;
  es_account_id : Z;
  es_equity : dec;
  es_realized_pnl : dec;
  es_unrealized_pnl : dec;
  es_drawdown_pct : dec;
  es_snapshot_at : Z
}.

Record PaperPnlSummary := {
  ps_account_id : Z;
  ps_realized_pnl : dec;
  ps_unrealized_pnl : dec;
  ps_equity : dec;
  ps_daily_pnl : dec;
  ps_drawdown_pct : dec;
  ps_price_status : PaperPriceStatus.t;
  ps_calculated_at : Z;
  ps_peak_equity : dec
}.

Record PaperTradeJournalEntry := {
  je_id : Z;
  je_account_id : Z;
  je_position_id : option Z;
  je_order_id : option Z;
  je_event_type : string;
  je_symbol : option string;
  je_pnl : option dec;
  je_payload : json;
  je_created_at : Z;
  je_correlation_id : Z
}.

Record PaperPositionCloseSummary := {
  cs_status : PaperCloseStatus.t;
  cs_position_id : Z;
  cs_account_id : Z;
  cs_symbol : string;
  cs_quantity : dec;
  cs_entry_price : dec;
  cs_exit_price : dec;
  cs_realized_pnl : dec;
  cs_fee : dec;
  cs_slippage_cost : dec;
  cs_closed_at : Z;
  cs_correlation_id : Z;
  cs_journal_entry_id : Z;
  cs_close_fill_id : Z
}.

Record PaperClosePositionResult := {
  cr_position_id : Z;
  cr_account_id : Z;
  cr_symbol : string;
  cr_quantity : dec;
  cr_entry_price : dec;
  cr_exit_price : dec;
  cr_realized_pnl : dec;
  cr_fee : dec;
  cr_slippage_cost : dec;
  cr_closed_at : Z;
  cr_correlation_id : Z;
  cr_journal_entry_id : Z;
  cr_close_fill_id : Z;
  cr_summary : PaperPositionCloseSummary
}.

Record PaperAccountingConfig := {
  fee_bps : dec;
  slippage_bps : dec;
  pnl_calculation_mode : PnlCalculationMode.t
}.

Record PaperMarkPriceInput := {
  mp_symbol : string;
  mp_mark_price : option dec;
  mp_priced_at : option Z;
  mp_price_status : PaperPriceStatus.t
}.

Record PaperMarkToMarketResult := {
  mm_positions : list PaperPosition;
  mm_summary : PaperPnlSummary;
  mm_snapshot : PaperEquitySnapshot;
  mm_missing_symbols : list string
}.

Record FillApplication := {
  fa_account : PaperAccount;
  fa_position : PaperPosition;
  fa_fill : PaperFill;
  fa_journal_entries : list PaperTradeJournalEntry;
  fa_summary : PaperPnlSummary
}.

Record ClosePositionApplication := {
  ca_account : PaperAccount;
  ca_position : PaperPosition;
  ca_fill : PaperFill;
  ca_snapshot : PaperEquitySnapshot;
  ca_journal_entries : list PaperTradeJournalEntry;
  ca_summary : PaperPnlSummary;
  ca_close_result : PaperClosePositionResult
}.

(** ** Pure computations *)

Definition compute_unrealized_pnl (side : PositionSide.t) (entry_price : dec)
    (mark_price : option dec) (quantity : dec) : dec :=
  match mark_price with
  | None => ZERO
  | Some mark_price =>
    match side with PositionSide.Long => ((mark_price - entry_price) * quantity)%dec end
  end.

Definition compute_realized_pnl (side : PositionSide.t)
    (entry_price exit_price quantity fees_and_slippage : dec) : dec :=
  let gross := match side with PositionSide.Long => ((exit_price - entry_price) * quantity)%dec end in
  (gross - fees_and_slippage)%dec.

Definition compute_drawdown (current_equity peak_equity : dec) : dec :=
  if (peak_equity <=? ZERO)%dec || (current_equity >=? peak_equity)%dec then ZERO
  else ddiv (peak_equity - current_equity)%dec peak_equity.

Definition rebuild_account_summary (now : Z) (initial_equity realized_pnl unrealized_pnl : dec)
    : PaperPnlSummary :=
  let equity := (initial_equity + realized_pnl + unrealized_pnl)%dec in
  let peak_equity := if (equity >? initial_equity)%dec then equity else initial_equity in
  {| ps_account_id := uuid_nil;
     ps_realized_pnl := realized_pnl;
     ps_unrealized_pnl := unrealized_pnl;
     ps_equity := equity;
     ps_daily_pnl := ZERO;
     ps_drawdown_pct := compute_drawdown equity peak_equity;
     ps_price_status := if is_zero unrealized_pnl then PaperPriceStatus.Missing
                        else PaperPriceStatus.Live;
     ps_calculated_at := now;
     ps_peak_equity := peak_equity |}.

Definition compute_daily_pnl (snapshots : list PaperEquitySnapshot) (day : Z) : option dec :=
  let day_points := sort_by_key es_snapshot_at
    (List.filter (fun snapshot => date_naive (es_snapshot_at snapshot) =? day) snapshots) in
  first ← head day_points;
  last ← last day_points;
  Some (es_equity last - es_equity first)%dec.

Definition create_default_paper_account_if_missing (new_v4 : Z) (existing : option PaperAccount)
    (name base_currency : string) (initial_equity : dec) (now : Z) : anyhow PaperAccount :=
  match existing with
  | Some account => Ok account
  | None =>
    Ok {| pa_id := new_v4; pa_name := trim name; pa_base_currency := trim base_currency;
          pa_initial_equity := initial_equity; pa_current_equity := initial_equity;
          pa_realized_pnl := ZERO; pa_unrealized_pnl := ZERO;
          pa_status := PaperAccountStatus.Active; pa_created_at := now; pa_updated_at := now |}
  end.

(** [PaperAccount { current_equity, realized_pnl, unrealized_pnl, updated_at, ..account }] *)
Definition with_summary (account : PaperAccount) (summary : PaperPnlSummary) (at_ : Z)
    : PaperAccount :=
  {| pa_id := pa_id account; pa_name := pa_name account;
     pa_base_currency := pa_base_currency account;
     pa_initial_equity := pa_initial_equity account;
     pa_current_equity := ps_equity summary;
     pa_realized_pnl := ps_realized_pnl summary;
     pa_unrealized_pnl := ps_unrealized_pnl summary;
     pa_status := pa_status account; pa_created_at := pa_created_at account;
     pa_updated_at := at_ |}.
End Accounting.

Section AccountingOperations.
Context {DI : Decimal} {CH : Chrono} {JS : Json} {JD : JsonScalars}.

(** ** Opening fills *)

Definition merged_position (current : PaperPosition) (fill : PaperFill)
    (entry_price new_quantity : dec) : PaperPosition :=
  {| pp_id := pp_id current;
     pp_account_id := pp_account_id current;
     pp_symbol := pp_symbol current;
     pp_side := pp_side current;
     pp_quantity := new_quantity;
     pp_entry_price := entry_price;
     pp_mark_price := pp_mark_price current;
     pp_price_status := pp_price_status current;
     pp_notional := (entry_price * new_quantity)%dec;
     pp_realized_pnl := pp_realized_pnl current;
     pp_unrealized_pnl := compute_unrealized_pnl (pp_side current) entry_price
       (pp_mark_price current) new_quantity;
     pp_status := PositionStatus.Open;
     pp_opened_at := pp_opened_at current;
     pp_closed_at := None;
     pp_strategy_id := pf_strategy_id fill;
     pp_signal_id := pf_signal_id fill;
     pp_risk_decision_id := pf_risk_decision_id fill;
     pp_order_id := Some (pf_order_id fill);
     pp_updated_at := pf_filled_at fill |}.

Definition opened_position (id : Z) (account : PaperAccount) (fill : PaperFill)
    (entry_price notional : dec) : PaperPosition :=
  {| pp_id := id;
     pp_account_id := pa_id account;
     pp_symbol := pf_symbol fill;
     pp_side := pf_side fill;
     pp_quantity := pf_quantity fill;
     pp_entry_price := entry_price;
     pp_mark_price := None;
     pp_price_status := PaperPriceStatus.Missing;
     pp_notional := notional;
     pp_realized_pnl := ZERO;
     pp_unrealized_pnl := ZERO;
     pp_status := PositionStatus.Open;
     pp_opened_at := pf_filled_at fill;
     pp_closed_at := None;
     pp_strategy_id := pf_strategy_id fill;
     pp_signal_id := pf_signal_id fill;
     pp_risk_decision_id := pf_risk_decision_id fill;
     pp_order_id := Some (pf_order_id fill);
     pp_updated_at := pf_filled_at fill |}.

Definition equity_payload (summary : PaperPnlSummary) : json :=
  jobj [("equity", jdec (ps_equity summary)); ("realized_pnl", jdec (ps_realized_pnl summary));
        ("unrealized_pnl", jdec (ps_unrealized_pnl summary))].

Definition open_journal (fresh : nat -> Z) (account : PaperAccount) (existing : bool)
    (position : PaperPosition) (fill : PaperFill) (summary : PaperPnlSummary)
    : list PaperTradeJournalEntry :=
  let entry id event_type pnl payload :=
    {| je_id := id; je_account_id := pa_id account; je_position_id := Some (pp_id position);
       je_order_id := Some (pf_order_id fill); je_event_type := event_type;
       je_symbol := Some (pf_symbol fill); je_pnl := pnl; je_payload := payload;
       je_created_at := pf_filled_at fill; je_correlation_id := pf_correlation_id fill |} in
  [entry (fresh 1%nat) "paper.fill.created" None
     (jobj [("fill_id", juuid (pf_id fill)); ("quantity", jdec (pf_quantity fill));
            ("price", jdec (pf_price fill)); ("notional", jdec (pf_notional fill));
            ("fee", jdec (pf_fee fill)); ("slippage_cost", jdec (pf_slippage_cost fill))]);
   entry (fresh 2%nat) (if existing then "paper.position.updated" else "paper.position.opened")
     (Some (pp_realized_pnl position))
     (jobj [("position_id", juuid (pp_id position)); ("quantity", jdec (pp_quantity position));
            ("entry_price", jdec (pp_entry_price position));
            ("status", jstr (PositionStatus.as_str (pp_status position)))]);
   entry (fresh 3%nat) "paper.equity.updated" (Some (ps_equity summary)) (equity_payload summary)].

Definition open_position_from_buy (fresh : nat -> Z) (now : Z) (account : PaperAccount)
    (existing_position : option PaperPosition) (fill : PaperFill)
    (_config : PaperAccountingConfig) : anyhow FillApplication :=
  let quantity := pf_quantity fill in
  let notional := pf_notional fill in
  let trade_cost := (pf_fee fill + pf_slippage_cost fill)%dec in
  if (quantity <=? ZERO)%dec then Err "paper fill quantity must be greater than zero" else
  position ←
    match existing_position with
    | Some current =>
      let new_quantity := (pp_quantity current + quantity)%dec in
      if (new_quantity <=? ZERO)%dec then Err "paper position quantity must remain positive" else
      let gross_cost := (pp_entry_price current * pp_quantity current + notional + trade_cost)%dec in
      entry_price ← dec_div gross_cost new_quantity;
      Ok (merged_position current fill entry_price new_quantity)
    | None =>
      entry_price ← dec_div (notional + trade_cost)%dec quantity;
      Ok (opened_position (default (fresh 0%nat) (pf_position_id fill)) account fill entry_price
            (notional + trade_cost)%dec)
    end;
  let summary := rebuild_account_summary now (pa_initial_equity account)
    (pa_realized_pnl account - trade_cost)%dec (pp_unrealized_pnl position) in
  let account := with_summary account summary (pf_filled_at fill) in
  Ok {| fa_account := account;
        fa_position := position;
        fa_fill := fill;
        fa_journal_entries := open_journal fresh account
          (match existing_position with Some _ => true | None => false end) position fill summary;
        fa_summary := summary |}.

Definition apply_paper_order_fill (fresh : nat -> Z) (now : Z) (account : PaperAccount)
    (existing_position : option PaperPosition) (fill : PaperFill)
    (config : PaperAccountingConfig) : anyhow FillApplication :=
  match pf_side fill with
  | PositionSide.Long => open_position_from_buy fresh now account existing_position fill config
  end.

(** ** Closing *)

Definition close_position (now : Z) (account : PaperAccount) (position : PaperPosition)
    (exit_price quantity : dec) (closed_at : Z) (fees_and_slippage : dec)
    : anyhow (PaperAccount * PaperPosition * PaperPnlSummary) :=
  if (quantity <=? ZERO)%dec || (quantity >? pp_quantity position)%dec then
    Err "close quantity must be positive and no larger than open quantity" else
  let realized_pnl := compute_realized_pnl (pp_side position) (pp_entry_price position)
    exit_price quantity fees_and_slippage in
  let remaining_quantity := (pp_quantity position - quantity)%dec in
  let updated_position :=
    {| pp_id := pp_id position;
       pp_account_id := pp_account_id position;
       pp_symbol := pp_symbol position;
       pp_side := pp_side position;
       pp_quantity := remaining_quantity;
       pp_entry_price := pp_entry_price position;
       pp_mark_price := Some exit_price;
       pp_price_status := PaperPriceStatus.Live;
       pp_notional := pp_notional position;
       pp_realized_pnl := (pp_realized_pnl position + realized_pnl)%dec;
       pp_unrealized_pnl :=
         if is_zero remaining_quantity then ZERO
         else compute_unrealized_pnl (pp_side position) (pp_entry_price position)
                (Some exit_price) remaining_quantity;
       pp_status := if is_zero remaining_quantity then PositionStatus.Closed
                    else PositionStatus.Open;
       pp_opened_at := pp_opened_at position;
       pp_closed_at := if is_zero remaining_quantity then Some closed_at else None;
       pp_strategy_id := pp_strategy_id position;
       pp_signal_id := pp_signal_id position;
       pp_risk_decision_id := pp_risk_decision_id position;
       pp_order_id := pp_order_id position;
       pp_updated_at := closed_at |} in
  let summary := rebuild_account_summary now (pa_initial_equity account)
    (pa_realized_pnl account + realized_pnl)%dec (pp_unrealized_pnl updated_position) in
  Ok (with_summary account summary closed_at, updated_position, summary).

Definition compute_realized_pnl_for_close (position : PaperPosition)
    (exit_price quantity fee slippage_cost : dec) : anyhow dec :=
  if negb (bool_decide (pp_status position = PositionStatus.Open)) then
    Err "paper position must be open to close" else
  if (quantity <=? ZERO)%dec || negb (quantity =? pp_quantity position)%dec then
    Err "paper position close quantity must exactly match the open quantity in MVP" else
  if (exit_price <=? ZERO)%dec then
    Err "paper close exit price must be greater than zero" else
  if (fee <? ZERO)%dec || (slippage_cost <? ZERO)%dec then
    Err "paper close fee and slippage must be non-negative" else
  Ok (compute_realized_pnl (pp_side position) (pp_entry_price position) exit_price quantity
        (fee + slippage_cost)%dec).

Definition create_closing_paper_fill (account : PaperAccount) (position : PaperPosition)
    (order_id close_fill_id : Z) (exit_price fee slippage_cost : dec)
    (filled_at correlation_id : Z) : anyhow PaperFill :=
  if negb (bool_decide (pp_status position = PositionStatus.Open)) then
    Err "paper position must be open to create a closing fill" else
  Ok {| pf_id := close_fill_id;
        pf_account_id := pa_id account;
        pf_order_id := order_id;
        pf_position_id := Some (pp_id position);
        pf_symbol := pp_symbol position;
        pf_side := pp_side position;
        pf_price := exit_price;
        pf_quantity := pp_quantity position;
        pf_notional := (exit_price * pp_quantity position)%dec;
        pf_fee := fee;
        pf_slippage_cost := slippage_cost;
        pf_filled_at := filled_at;
        pf_strategy_id := pp_strategy_id position;
        pf_signal_id := pp_signal_id position;
        pf_risk_decision_id := pp_risk_decision_id position;
        pf_correlation_id := correlation_id |}.

(** [serde_json::to_value(&close_summary)] (derived serialization). *)
Definition close_summary_value (s : PaperPositionCloseSummary) : json :=
  jobj [("status", jstr (PaperCloseStatus.as_str (cs_status s)));
        ("position_id", juuid (cs_position_id s)); ("account_id", juuid (cs_account_id s));
        ("symbol", jstr (cs_symbol s)); ("quantity", jdec (cs_quantity s));
        ("entry_price", jdec (cs_entry_price s)); ("exit_price", jdec (cs_exit_price s));
        ("realized_pnl", jdec (cs_realized_pnl s)); ("fee", jdec (cs_fee s));
        ("slippage_cost", jdec (cs_slippage_cost s)); ("closed_at", jtime (cs_closed_at s));
        ("correlation_id", juuid (cs_correlation_id s));
        ("journal_entry_id", juuid (cs_journal_entry_id s));
        ("close_fill_id", juuid (cs_close_fill_id s))].

Definition close_journal (fresh : nat -> Z) (account : PaperAccount) (position : PaperPosition)
    (order_id journal_entry_id closed_at correlation_id : Z) (realized_pnl : dec)
    (fill : PaperFill) (close_summary : PaperPositionCloseSummary) (summary : PaperPnlSummary)
    : list PaperTradeJournalEntry :=
  let entry id event_type pnl payload :=
    {| je_id := id; je_account_id := pa_id account; je_position_id := Some (pp_id position);
       je_order_id := Some order_id; je_event_type := event_type;
       je_symbol := Some (pp_symbol position); je_pnl := Some pnl; je_payload := payload;
       je_created_at := closed_at; je_correlation_id := correlation_id |} in
  [entry (fresh 1%nat) "paper.fill.created" realized_pnl
     (jobj [("fill_id", juuid (pf_id fill)); ("quantity", jdec (pf_quantity fill));
            ("price", jdec (pf_price fill)); ("notional", jdec (pf_notional fill));
            ("fee", jdec (pf_fee fill)); ("slippage_cost", jdec (pf_slippage_cost fill));
            ("action", jstr "simulated_close_sell")]);
   entry journal_entry_id "paper.position.closed" realized_pnl (close_summary_value close_summary);
   entry (fresh 2%nat) "paper.equity.updated" (ps_equity summary) (equity_payload summary)].

Definition close_position_market_simulated (fresh : nat -> Z) (now : Z) (account : PaperAccount)
    (position : PaperPosition) (order_id close_fill_id journal_entry_id : Z)
    (exit_price fee slippage_cost : dec) (closed_at correlation_id : Z)
    : anyhow ClosePositionApplication :=
  fill ← create_closing_paper_fill account position order_id close_fill_id exit_price fee
    slippage_cost closed_at correlation_id;
  realized_pnl ← compute_realized_pnl_for_close position exit_price (pp_quantity position) fee
    slippage_cost;
  '(updated_account, updated_position, summary) ← close_position now account position exit_price
    (pp_quantity position) closed_at (fee + slippage_cost)%dec;
  let snapshot :=
    {| es_id := fresh 0%nat; es_account_id := pa_id account; es_equity := ps_equity summary;
       es_realized_pnl := ps_realized_pnl summary; es_unrealized_pnl := ps_unrealized_pnl summary;
       es_drawdown_pct := ps_drawdown_pct summary; es_snapshot_at := closed_at |} in
  let close_summary :=
    {| cs_status := PaperCloseStatus.Closed; cs_position_id := pp_id position;
       cs_account_id := pa_id account; cs_symbol := pp_symbol position;
       cs_quantity := pp_quantity position; cs_entry_price := pp_entry_price position;
       cs_exit_price := exit_price; cs_realized_pnl := realized_pnl; cs_fee := fee;
       cs_slippage_cost := slippage_cost; cs_closed_at := closed_at;
       cs_correlation_id := correlation_id; cs_journal_entry_id := journal_entry_id;
       cs_close_fill_id := close_fill_id |} in
  let close_result :=
    {| cr_position_id := pp_id position; cr_account_id := pa_id account;
       cr_symbol := pp_symbol position; cr_quantity := pp_quantity position;
       cr_entry_price := pp_entry_price position; cr_exit_price := exit_price;
       cr_realized_pnl := realized_pnl; cr_fee := fee; cr_slippage_cost := slippage_cost;
       cr_closed_at := closed_at; cr_correlation_id := correlation_id;
       cr_journal_entry_id := journal_entry_id; cr_close_fill_id := close_fill_id;
       cr_summary := close_summary |} in
  Ok {| ca_account := updated_account;
        ca_position := updated_position;
        ca_fill := fill;
        ca_snapshot := snapshot;
        ca_journal_entries := close_journal fresh account position order_id journal_entry_id
          closed_at correlation_id realized_pnl fill close_summary summary;
        ca_summary := summary;
        ca_close_result := close_result |}.

(** ** Mark to market *)

Definition mark_position (prices : list PaperMarkPriceInput) (snapshot_at : Z)
    (position : PaperPosition) : PaperPosition * list string :=
  let set mark status unrealized :=
    {| pp_id := pp_id position; pp_account_id := pp_account_id position;
       pp_symbol := pp_symbol position; pp_side := pp_side position;
       pp_quantity := pp_quantity position; pp_entry_price := pp_entry_price position;
       pp_mark_price := mark; pp_price_status := status; pp_notional := pp_notional position;
       pp_realized_pnl := pp_realized_pnl position; pp_unrealized_pnl := unrealized;
       pp_status := pp_status position; pp_opened_at := pp_opened_at position;
       pp_closed_at := pp_closed_at position; pp_strategy_id := pp_strategy_id position;
       pp_signal_id := pp_signal_id position; pp_risk_decision_id := pp_risk_decision_id position;
       pp_order_id := pp_order_id position; pp_updated_at := snapshot_at |} in
  match List.find (fun item => bool_decide (mp_symbol item = pp_symbol position)) prices with
  | Some price =>
    (set (mp_mark_price price) (mp_price_status price)
       (compute_unrealized_pnl (pp_side position) (pp_entry_price position) (mp_mark_price price)
          (pp_quantity position)),
     match mp_mark_price price with None => [pp_symbol position] | Some _ => [] end)
  | None => (set None PaperPriceStatus.Missing ZERO, [pp_symbol position])
  end.

(** The three locals of the loop. *)
Definition mark_step (prices : list PaperMarkPriceInput) (snapshot_at : Z)
    (st : list PaperPosition * dec * list string) (position : PaperPosition)
    : list PaperPosition * dec * list string :=
  let '(updated_positions, unrealized_pnl, missing_symbols) := st in
  let '(updated, missing) := mark_position prices snapshot_at position in
  (updated_positions ++ [updated], (unrealized_pnl + pp_unrealized_pnl updated)%dec,
   missing_symbols ++ missing).

Definition mark_positions_to_market (new_v4 now : Z) (account : PaperAccount)
    (positions : list PaperPosition) (prices : list PaperMarkPriceInput) (snapshot_at : Z)
    : PaperMarkToMarketResult :=
  let '(updated_positions, unrealized_pnl, missing_symbols) :=
    foldl (mark_step prices snapshot_at) ([], ZERO, []) positions in
  let summary := rebuild_account_summary now (pa_initial_equity account)
    (pa_realized_pnl account) unrealized_pnl in
  {| mm_positions := updated_positions;
     mm_summary := summary;
     mm_snapshot :=
       {| es_id := new_v4; es_account_id := pa_id account; es_equity := ps_equity summary;
          es_realized_pnl := ps_realized_pnl summary;
          es_unrealized_pnl := ps_unrealized_pnl summary;
          es_drawdown_pct := compute_drawdown (ps_equity summary) (ps_peak_equity summary);
          es_snapshot_at := snapshot_at |};
     mm_missing_symbols := missing_symbols |}.
End AccountingOperations.

(** ** Facts *)

Section AccountingFacts.
Context {DI : Decimal} {DL : DecimalLaws DI} {CH : Chrono} {JS : Json} {JD : JsonScalars}.

(** Equity is initial equity plus realized plus unrealized profit, as decimals. *)
Definition account_balanced (a : PaperAccount) : Prop :=
  pa_current_equity a = (pa_initial_equity a + pa_realized_pnl a + pa_unrealized_pnl a)%dec.

Lemma summary_balanced now account r u at_ :
  account_balanced (with_summary account
    (rebuild_account_summary now (pa_initial_equity account) r u) at_).
Proof using. reflexivity. Qed.

(** The successful fill, on the two paths. *)
Lemma open_fill_ok fresh now account existing fill config :
  (0 < dval (pf_quantity fill))%Q ->
  (forall current, existing = Some current ->
     0 < dval (pp_quantity current + pf_quantity fill)%dec)%Q ->
  exists app, apply_paper_order_fill fresh now account existing fill config = Ok app /\
    fa_position app =
      match existing with
      | Some current =>
        let new_quantity := (pp_quantity current + pf_quantity fill)%dec in
        merged_position current fill
          (ddiv (pp_entry_price current * pp_quantity current + pf_notional fill
                 + (pf_fee fill + pf_slippage_cost fill))%dec new_quantity) new_quantity
      | None =>
        opened_position (default (fresh 0%nat) (pf_position_id fill)) account fill
          (ddiv (pf_notional fill + (pf_fee fill + pf_slippage_cost fill))%dec (pf_quantity fill))
          (pf_notional fill + (pf_fee fill + pf_slippage_cost fill))%dec
      end /\
    fa_account app = with_summary account (rebuild_account_summary now (pa_initial_equity account)
      (pa_realized_pnl account - (pf_fee fill + pf_slippage_cost fill))%dec
      (pp_unrealized_pnl (fa_position app))) (pf_filled_at fill).
Proof using DL.
  intros Hq Hex. unfold apply_paper_order_fill, open_position_from_buy.
  destruct (pf_side fill).
  destruct (pf_quantity fill <=? ZERO)%dec eqn:E; [dec_to_Q; rewrite dval_ZERO in E; lra|clear E].
  destruct existing as [current|].
  - specialize (Hex current eq_refl). cbn zeta.
    destruct (_ <=? ZERO)%dec eqn:E; [dec_to_Q; rewrite dval_ZERO in E; lra|clear E].
    rewrite dec_div_pos by done. cbn. by eexists.
  - rewrite dec_div_pos by done. cbn. by eexists.
Qed.
(** No operation of an opening fill rounds: each result is one that 96 bits hold. *)
Definition opening_exact (account : PaperAccount) (existing : option PaperPosition)
    (fill : PaperFill) : Prop :=
  let costs := (pf_fee fill + pf_slippage_cost fill)%dec in
  representable (dval (pf_fee fill) + dval (pf_slippage_cost fill)) /\
  representable (dval (pa_realized_pnl account) - dval costs) /\
  match existing with
  | Some current =>
    let paid := (pp_entry_price current * pp_quantity current)%dec in
    representable (dval (pp_quantity current) + dval (pf_quantity fill)) /\
    representable (dval (pp_entry_price current) * dval (pp_quantity current)) /\
    representable (dval paid + dval (pf_notional fill)) /\
    representable (dval (paid + pf_notional fill)%dec + dval costs) /\
    representable (dval (paid + pf_notional fill + costs)%dec
                   / dval (pp_quantity current + pf_quantity fill)%dec)
  | None =>
    representable (dval (pf_notional fill) + dval costs) /\
    representable (dval (pf_notional fill + costs)%dec / dval (pf_quantity fill))
  end.
End AccountingFacts.

(** An opening fill that needs no rounding.  A positive quantity on a position with a
    non-negative quantity always succeeds; the quantities add up; the cost basis (entry price
    times quantity) grows by the notional and the trade cost; realized profit falls by the trade
    cost; the account stays balanced -- and its unrealized profit becomes that of this one
    position, whatever other positions contributed before. *)
Theorem open_fill_weighted_average {DI : Decimal} {DL : DecimalLaws DI} {JS : Json}
    {JD : JsonScalars} (fresh : nat -> Z) (now : Z) (account : PaperAccount)
    (existing : option PaperPosition) (fill : PaperFill) (config : PaperAccountingConfig) :
  opening_exact account existing fill ->
  (0 < dval (pf_quantity fill))%Q ->
  (forall current, existing = Some current -> 0 <= dval (pp_quantity current))%Q ->
  let cost := (dval (pf_fee fill) + dval (pf_slippage_cost fill))%Q in
  let quantity0 := match existing with Some c => dval (pp_quantity c) | None => 0%Q end in
  let basis0 := match existing with
    | Some c => (dval (pp_entry_price c) * dval (pp_quantity c))%Q | None => 0%Q end in
  exists app, apply_paper_order_fill fresh now account existing fill config = Ok app /\
    (dval (pp_quantity (fa_position app)) == quantity0 + dval (pf_quantity fill))%Q /\
    (dval (pp_entry_price (fa_position app)) * dval (pp_quantity (fa_position app))
     == basis0 + dval (pf_notional fill) + cost)%Q /\
    (dval (pa_realized_pnl (fa_account app)) == dval (pa_realized_pnl account) - cost)%Q /\
    account_balanced (fa_account app) /\
    pa_unrealized_pnl (fa_account app) = pp_unrealized_pnl (fa_position app) /\
    pp_status (fa_position app) = PositionStatus.Open /\
    length (fa_journal_entries app) = 3%nat.
Proof.
  intros (Hcost & Hreal & Hops) Hq Hex. cbn zeta in *.
  destruct (open_fill_ok fresh now account existing fill config Hq) as (app & Happ & Hpos & Hacc).
  { intros current ->. specialize (Hex current eq_refl). destruct Hops as [Hsum _].
    rewrite dadd_exact by done. lra. }
  exists app. split; [done|].
  assert (Hj : length (fa_journal_entries app) = 3%nat).
  { unfold apply_paper_order_fill, open_position_from_buy in Happ. destruct (pf_side fill).
    destruct (pf_quantity fill <=? ZERO)%dec; [discriminate|]. apply bind_ok_inv in Happ as (p & _ & Happ).
    injection Happ as <-. reflexivity. }
  rewrite Hacc, Hpos. apply dadd_exact in Hcost.
  destruct existing as [current|]; cbn.
  - specialize (Hex current eq_refl). destruct Hops as (H1 & H2 & H3 & H4 & H5).
    apply dadd_exact in H1. apply dmul_exact in H2. apply dadd_exact in H3. apply dadd_exact in H4.
    rewrite (ddiv_exact _ _) by (try done; rewrite H1; lra).
    rewrite (dsub_exact _ _ Hreal), Hcost, H1, H4, H3, H2, Hcost.
    repeat split; try done. field. lra.
  - destruct Hops as (H1 & H2). rewrite (ddiv_exact _ _) by (try done; lra).
    rewrite (dsub_exact _ _ Hreal), (dadd_exact _ _ H1), Hcost.
    repeat split; try done; try ring. field. lra.
Qed.

(** ** Closing *)

Section CloseFacts.
Context {DI : Decimal} {DL : DecimalLaws DI} {CH : Chrono} {JS : Json} {JD : JsonScalars}.

(** The conditions under which a simulated close is accepted. *)
Definition closable (position : PaperPosition) (exit_price fee slippage_cost : dec) : bool :=
  bool_decide (pp_status position = PositionStatus.Open) &&
  (pp_quantity position >? ZERO)%dec && (exit_price >? ZERO)%dec &&
  (fee >=? ZERO)%dec && (slippage_cost >=? ZERO)%dec.

Lemma deqb_refl a : (a =? a)%dec = true.
Proof using. apply deqb_eq. reflexivity. Qed.

Lemma is_zero_sub_self a : is_zero (a - a)%dec = true.
Proof using DL.
  apply is_zero_iff. rewrite dval_sub.
  assert (dval a - dval a == 0)%Q as -> by ring. apply drnd_0.
Qed.

Lemma close_position_full now account position exit_price closed_at costs :
  (0 < dval (pp_quantity position))%Q ->
  exists account' position' summary,
    close_position now account position exit_price (pp_quantity position) closed_at costs
      = Ok (account', position', summary) /\
    let pnl := compute_realized_pnl (pp_side position) (pp_entry_price position) exit_price
      (pp_quantity position) costs in
    pp_status position' = PositionStatus.Closed /\ is_zero (pp_quantity position') = true /\
    pp_closed_at position' = Some closed_at /\
    pp_unrealized_pnl position' = ZERO /\
    pp_realized_pnl position' = (pp_realized_pnl position + pnl)%dec /\
    summary = rebuild_account_summary now (pa_initial_equity account)
      (pa_realized_pnl account + pnl)%dec ZERO /\
    account' = with_summary account summary closed_at.
Proof using DL.
  intros Hq. unfold close_position.
  destruct (pp_quantity position <=? ZERO)%dec eqn:E; [dec_to_Q; rewrite dval_ZERO in E; lra|clear E].
  destruct (pp_quantity position <? pp_quantity position)%dec eqn:E; [dec_to_Q; lra|clear E].
  cbn [orb]. rewrite is_zero_sub_self. do 3 eexists. split; [done|]. cbn. rewrite is_zero_sub_self.
  done.
Qed.
End CloseFacts.

(** C27.  A simulated close succeeds exactly on an open position of positive
    quantity, at a positive price, with non-negative fee and slippage; then it
    closes the whole position: closed, nothing left, nothing unrealized; the
    profit it reports is the profit it adds to the position and to the account,
    in the close result, in the journal and in the summary; the initial equity
    and identity of the account are untouched.  Otherwise it is an error and
    changes nothing. *)
Theorem close_market_simulated_spec {DI : Decimal} {DL : DecimalLaws DI} {JS : Json}
    {JD : JsonScalars} (fresh : nat -> Z) (now : Z) (account : PaperAccount)
    (position : PaperPosition) (order_id close_fill_id journal_entry_id : Z)
    (exit_price fee slippage_cost : dec) (closed_at correlation_id : Z) :
  let run := close_position_market_simulated fresh now account position order_id close_fill_id
    journal_entry_id exit_price fee slippage_cost closed_at correlation_id in
  if closable position exit_price fee slippage_cost then
    exists app, run = Ok app /\
      let pnl := compute_realized_pnl (pp_side position) (pp_entry_price position) exit_price
        (pp_quantity position) (fee + slippage_cost)%dec in
      pp_status (ca_position app) = PositionStatus.Closed /\
      is_zero (pp_quantity (ca_position app)) = true /\
      pp_closed_at (ca_position app) = Some closed_at /\
      pp_realized_pnl (ca_position app) = (pp_realized_pnl position + pnl)%dec /\
      pa_realized_pnl (ca_account app) = (pa_realized_pnl account + pnl)%dec /\
      pa_unrealized_pnl (ca_account app) = ZERO /\
      pa_initial_equity (ca_account app) = pa_initial_equity account /\
      pa_id (ca_account app) = pa_id account /\
      pa_current_equity (ca_account app) = ps_equity (ca_summary app) /\
      cr_realized_pnl (ca_close_result app) = pnl /\
      cr_quantity (ca_close_result app) = pp_quantity position /\
      map je_pnl (ca_journal_entries app)
        = [Some pnl; Some pnl; Some (ps_equity (ca_summary app))] /\
      pf_quantity (ca_fill app) = pp_quantity position /\ pf_price (ca_fill app) = exit_price
  else exists message, run = Err message.
Proof.
  cbn zeta. unfold closable, close_position_market_simulated, create_closing_paper_fill,
    compute_realized_pnl_for_close.
  destruct (bool_decide _); cbn [negb andb mbind res_bind]; [|eauto].
  unfold dltb. destruct (pp_quantity position <=? ZERO)%dec eqn:Hq;
    cbn [negb andb orb mbind res_bind]; [eauto|].
  rewrite deqb_refl. cbn [negb].
  destruct (exit_price <=? ZERO)%dec; cbn [negb andb mbind res_bind]; [eauto|].
  destruct (ZERO <=? fee)%dec; cbn [negb andb orb mbind res_bind]; [|eauto].
  destruct (ZERO <=? slippage_cost)%dec; cbn [negb andb orb mbind res_bind];
    [|eauto].
  dec_to_Q. rewrite dval_ZERO in Hq.
  destruct (close_position_full now account position exit_price closed_at
    (fee + slippage_cost)%dec Hq) as (a' & p' & s & -> & H1 & H2 & H3 & H4 & H5 & H6 & H7).
  cbn [mbind res_bind]. eexists. split; [done|]. subst s. subst a'. cbn.
  repeat split; assumption || reflexivity.
Qed.

(** No operation of the close rounds, for the position and the account the fill leaves. *)
Definition closing_exact {DI : Decimal} (account : PaperAccount) (fill : PaperFill)
    (fee slippage_cost : dec) : Prop :=
  let costs := (pf_fee fill + pf_slippage_cost fill)%dec in
  let entry_price := ddiv (pf_notional fill + costs)%dec (pf_quantity fill) in
  let gross := ((pf_price fill - entry_price) * pf_quantity fill)%dec in
  representable (dval fee + dval slippage_cost) /\
  representable (dval (pf_price fill) - dval entry_price) /\
  representable (dval (pf_price fill - entry_price)%dec * dval (pf_quantity fill)) /\
  representable (dval gross - dval (fee + slippage_cost)%dec) /\
  representable (dval (pa_realized_pnl account - costs)%dec
                 + dval (gross - (fee + slippage_cost))%dec).

(** What a round trip costs.  Open a new position and close it at once at
    the price of the fill (the operations need no rounding, the notional is price times
    quantity): the account ends with the opening cost subtracted twice -- once
    from realized profit by the fill, once more through the entry price, which
    includes it -- plus the closing cost once. *)
Theorem round_trip_charges_opening_cost_twice {DI : Decimal} {DL : DecimalLaws DI} {JS : Json}
    {JD : JsonScalars} (fresh fresh' : nat -> Z) (now : Z) (account : PaperAccount)
    (fill : PaperFill) (config : PaperAccountingConfig) (order_id close_fill_id journal_id : Z)
    (fee slippage_cost : dec) (closed_at correlation_id : Z) :
  opening_exact account None fill -> closing_exact account fill fee slippage_cost ->
  (0 < dval (pf_quantity fill))%Q -> (0 < dval (pf_price fill))%Q ->
  (dval (pf_notional fill) == dval (pf_price fill) * dval (pf_quantity fill))%Q ->
  (0 <= dval fee)%Q -> (0 <= dval slippage_cost)%Q ->
  exists opened closed,
    apply_paper_order_fill fresh now account None fill config = Ok opened /\
    close_position_market_simulated fresh' now (fa_account opened) (fa_position opened) order_id
      close_fill_id journal_id (pf_price fill) fee slippage_cost closed_at correlation_id
      = Ok closed /\
    (dval (pa_realized_pnl (ca_account closed))
     == dval (pa_realized_pnl account)
        - 2 * (dval (pf_fee fill) + dval (pf_slippage_cost fill))
        - (dval fee + dval slippage_cost))%Q.
Proof.
  intros (Hcost & Hreal & Ho1 & Ho2) (Hc1 & Hc2 & Hc3 & Hc4 & Hc5) Hq Hp Hn Hf Hs. cbn zeta in *.
  destruct (open_fill_ok fresh now account None fill config Hq ltac:(done))
    as (app & Happ & Hpos & Hacc). cbn zeta iota in Hpos.
  pose proof (dval_ZERO) as H0.
  assert (Hclose : closable (fa_position app) (pf_price fill) fee slippage_cost = true).
  { rewrite Hpos. unfold closable. cbn [pp_status pp_quantity opened_position].
    repeat (apply andb_true_intro; split); try (by apply bool_decide_eq_true_2); dec_to_Q; lra. }
  destruct (close_position_full now (fa_account app) (fa_position app) (pf_price fill) closed_at
    (fee + slippage_cost)%dec) as (a' & p' & s & Hrun & _ & _ & _ & _ & _ & Hsum & Ha').
  { rewrite Hpos. exact Hq. }
  unfold closable in Hclose. repeat (apply andb_prop in Hclose as [Hclose ?]).
  exists app. eexists. split; [done|].
  unfold close_position_market_simulated, create_closing_paper_fill,
    compute_realized_pnl_for_close.
  rewrite Hclose, deqb_refl. unfold dltb in *. repeat match goal with
    | H : negb _ = true |- _ => apply negb_true_iff in H; rewrite H
    | H : dleb ZERO _ = true |- _ => rewrite H end.
  cbn [negb orb mbind res_bind]. rewrite Hrun. cbn [mbind res_bind].
  split; [reflexivity|]. cbn [ca_account]. rewrite Ha', Hsum, Hacc, Hpos. cbn.
  unfold compute_realized_pnl. destruct (pf_side fill).
  rewrite (dadd_exact _ _ Hc5), (dsub_exact _ _ Hc4), (dmul_exact _ _ Hc3), (dsub_exact _ _ Hc2),
    (dadd_exact _ _ Hc1), (ddiv_exact _ _) by (try done; lra).
  rewrite (dsub_exact _ _ Hreal), (dadd_exact _ _ Ho1), (dadd_exact _ _ Hcost), Hn. field. lra.
Qed.

(** ** Accounts over time

    The operations that write an account; the ledger lists, oldest first, what each booked into
    the realized profit: a fill its cost, a close its result. *)
Section AccountRuns.
Context {DI : Decimal} {CH : Chrono} {JS : Json} {JD : JsonScalars}.

Inductive booking :=
  | Charged (cost : dec)
  | Earned (pnl : dec).

Definition book (realized : dec) (b : booking) : dec :=
  match b with
  | Charged cost => (realized - cost)%dec
  | Earned pnl => (realized + pnl)%dec
  end.

Definition booking_value (b : booking) : Q :=
  match b with Charged cost => - dval cost | Earned pnl => dval pnl end.

Inductive account_run (a0 : PaperAccount) : list booking -> PaperAccount -> Prop :=
  | arun_start : account_run a0 [] a0
  | arun_fill ledger a fresh now existing fill config app :
      account_run a0 ledger a ->
      apply_paper_order_fill fresh now a existing fill config = Ok app ->
      account_run a0 (ledger ++ [Charged (pf_fee fill + pf_slippage_cost fill)%dec]) (fa_account app)
  | arun_close ledger a now position exit_price quantity closed_at costs a' p' s :
      account_run a0 ledger a ->
      close_position now a position exit_price quantity closed_at costs = Ok (a', p', s) ->
      account_run a0
        (ledger ++ [Earned (compute_realized_pnl (pp_side position) (pp_entry_price position)
                              exit_price quantity costs)]) a'
  | arun_close_simulated ledger a fresh now position order_id close_fill_id journal_id
      exit_price fee slippage_cost closed_at correlation_id app :
      account_run a0 ledger a ->
      close_position_market_simulated fresh now a position order_id close_fill_id journal_id
        exit_price fee slippage_cost closed_at correlation_id = Ok app ->
      account_run a0 (ledger ++ [Earned (cr_realized_pnl (ca_close_result app))]) (ca_account app).

(** Every amount a ledger passes through has at most [k] digits before the point. *)
Fixpoint ledger_within (k : Z) (realized : dec) (ledger : list booking) : Prop :=
  match ledger with
  | [] => True
  | b :: ledger =>
    (Qabs (dval realized + booking_value b) <= inject_Z (10 ^ k))%Q /\
    ledger_within k (book realized b) ledger
  end.

Lemma fill_account fresh now a existing fill config app :
  apply_paper_order_fill fresh now a existing fill config = Ok app ->
  exists u, fa_account app = with_summary a (rebuild_account_summary now (pa_initial_equity a)
    (pa_realized_pnl a - (pf_fee fill + pf_slippage_cost fill))%dec u) (pf_filled_at fill).
Proof using.
  unfold apply_paper_order_fill, open_position_from_buy. destruct (pf_side fill).
  destruct (pf_quantity fill <=? ZERO)%dec; [discriminate|]. intros H.
  apply bind_ok_inv in H as (p & _ & H). injection H as <-. by eexists.
Qed.

Lemma close_account now a position exit_price quantity closed_at costs a' p' s :
  close_position now a position exit_price quantity closed_at costs = Ok (a', p', s) ->
  exists u, a' = with_summary a (rebuild_account_summary now (pa_initial_equity a)
    (pa_realized_pnl a + compute_realized_pnl (pp_side position) (pp_entry_price position)
       exit_price quantity costs)%dec u) closed_at.
Proof using.
  unfold close_position. destruct (_ || _); [discriminate|].
  intros [= <- _ _]. by eexists.
Qed.

Lemma close_simulated_inv fresh now a position order_id close_fill_id journal_id
    exit_price fee slippage_cost closed_at correlation_id app :
  close_position_market_simulated fresh now a position order_id close_fill_id journal_id
    exit_price fee slippage_cost closed_at correlation_id = Ok app ->
  exists p' s, close_position now a position exit_price (pp_quantity position) closed_at
      (fee + slippage_cost)%dec = Ok (ca_account app, p', s) /\
    cr_realized_pnl (ca_close_result app) =
      compute_realized_pnl (pp_side position) (pp_entry_price position) exit_price
        (pp_quantity position) (fee + slippage_cost)%dec.
Proof using.
  unfold close_position_market_simulated. intros H.
  apply bind_ok_inv in H as (f & _ & H). apply bind_ok_inv in H as (r & Hr & H).
  apply bind_ok_inv in H as ([[a' p'] s] & Hc & H). injection H as <-. cbn.
  exists p', s. split; [done|]. unfold compute_realized_pnl_for_close in Hr.
  repeat (case_match; try discriminate). congruence.
Qed.

(** A summary with the realized profit of the next booking. *)
Lemma with_summary_step now a b u at_ ledger a0 :
  pa_initial_equity a = pa_initial_equity a0 ->
  pa_realized_pnl a = foldl book (pa_realized_pnl a0) ledger ->
  let a' := with_summary a (rebuild_account_summary now (pa_initial_equity a)
    (book (pa_realized_pnl a) b) u) at_ in
  pa_initial_equity a' = pa_initial_equity a0 /\
  pa_realized_pnl a' = foldl book (pa_realized_pnl a0) (ledger ++ [b]) /\
  account_balanced a'.
Proof using.
  intros Hi Hl. cbn zeta. split; [done|]. split; [|by apply summary_balanced].
  rewrite foldl_app, <- Hl. done.
Qed.

Lemma run_books a0 ledger a : account_run a0 ledger a ->
  pa_initial_equity a = pa_initial_equity a0 /\
  pa_realized_pnl a = foldl book (pa_realized_pnl a0) ledger /\
  (ledger = [] /\ a = a0 \/ account_balanced a).
Proof using.
  induction 1 as [|ledger a fresh now ex fill config app _ (Hi & Hl & _) H
    |ledger a now pos x q t c a' p' s _ (Hi & Hl & _) H
    |ledger a fresh now pos o cf j x f sl t c app _ (Hi & Hl & _) H].
  - split; [done|]. split; [done|by left].
  - apply fill_account in H as [u ->].
    destruct (with_summary_step now a (Charged (pf_fee fill + pf_slippage_cost fill)%dec) u
      (pf_filled_at fill) ledger a0 Hi Hl) as (? & ? & ?). auto.
  - apply close_account in H as [u ->].
    destruct (with_summary_step now a (Earned (compute_realized_pnl (pp_side pos) (pp_entry_price pos)
      x q c)) u t ledger a0 Hi Hl) as (? & ? & ?). auto.
  - apply close_simulated_inv in H as (p' & s & H & ->). apply close_account in H as [u ->].
    destruct (with_summary_step now a (Earned (compute_realized_pnl (pp_side pos) (pp_entry_price pos)
      x (pp_quantity pos) (f + sl)%dec)) u t ledger a0 Hi Hl) as (? & ? & ?). auto.
Qed.

Context {DL : DecimalLaws DI}.

Lemma book_near k realized b : 0 <= k <= 27 ->
  (Qabs (dval realized + booking_value b) <= inject_Z (10 ^ k))%Q ->
  near (dval (book realized b)) (dval realized + booking_value b) (ulp k).
Proof using DL. intros Hk H. destruct b; [by apply dsub_near|by apply dadd_near]. Qed.

Lemma ledger_near k ledger : forall realized, 0 <= k <= 27 -> ledger_within k realized ledger ->
  near (dval (foldl book realized ledger)) (dval realized + qsum (map booking_value ledger))
    (inject_Z (Z.of_nat (length ledger)) * ulp k).
Proof using DL.
  induction ledger as [|b ledger IH]; intros realized Hk; cbn [foldl map ledger_within length].
  - intros _. unfold qsum. cbn [foldr]. apply near_iff. change (inject_Z (Z.of_nat 0)) with 0%Q. lra.
  - intros [Hb Hl]. specialize (IH _ Hk Hl). pose proof (book_near _ _ _ Hk Hb) as Hn.
    rewrite Nat2Z.inj_succ, <- Z.add_1_r, inject_Z_plus. change (inject_Z 1) with 1%Q.
    unfold qsum in *. cbn [foldr]. rewrite near_iff in *. lra.
Qed.
End AccountRuns.

(** C4.  The books balance over any sequence of fills and closes.  The initial equity never
    changes; the realized profit is what the operations booked, added up in their order; the
    current equity is initial plus realized plus unrealized profit.  These are equalities of
    decimals, whatever the operations round.  Measured in exact arithmetic, with amounts of at
    most [k] digits before the point (28 digits in all), the realized profit is off the sum of
    what was booked by at most one unit of the 28th digit per booking, and the equity is off by
    two. *)
Theorem account_books_balance {DI : Decimal} {DL : DecimalLaws DI} {JS : Json} {JD : JsonScalars}
    (a0 a : PaperAccount) (ledger : list booking) :
  account_run a0 ledger a ->
  pa_initial_equity a = pa_initial_equity a0 /\
  pa_realized_pnl a = foldl book (pa_realized_pnl a0) ledger /\
  (account_balanced a0 -> account_balanced a) /\
  (ledger <> [] -> account_balanced a) /\
  forall k, 0 <= k <= 27 ->
    (ledger_within k (pa_realized_pnl a0) ledger ->
     near (dval (pa_realized_pnl a)) (dval (pa_realized_pnl a0) + qsum (map booking_value ledger))
       (inject_Z (Z.of_nat (length ledger)) * ulp k)) /\
    (account_balanced a ->
     Qabs (dval (pa_initial_equity a) + dval (pa_realized_pnl a)) <= inject_Z (10 ^ k) ->
     Qabs (dval (pa_initial_equity a + pa_realized_pnl a)%dec + dval (pa_unrealized_pnl a))
       <= inject_Z (10 ^ k) ->
     near (dval (pa_current_equity a))
       (dval (pa_initial_equity a) + dval (pa_realized_pnl a) + dval (pa_unrealized_pnl a))
       (2 * ulp k))%Q.
Proof.
  intros (Hi & Hl & Hb)%run_books. split; [done|]. split; [done|].
  split; [by destruct Hb as [[_ ->]|]|]. split; [by destruct Hb as [[-> _]|]|].
  intros k Hk. split.
  - intros Hw. rewrite Hl. by apply ledger_near.
  - intros Ha H1 H2. rewrite Ha.
    pose proof (dadd_near _ _ _ Hk H1) as N1. pose proof (dadd_near _ _ _ Hk H2) as N2.
    rewrite near_iff in *. lra.
Qed.

(** Drawdown.  With a non-negative equity the drawdown is a fraction
    between 0 and 1, and it is 0 at or above the peak.  The summary that fills,
    closes and marks rebuild takes the larger of the initial and the present
    equity as peak: it reports no drawdown whenever equity is at least the
    initial equity, however high it was before. *)
Theorem drawdown_bounds {DI : Decimal} {DL : DecimalLaws DI} (current peak : dec) (now : Z)
    (initial realized unrealized : dec) :
  representable (dval peak) ->
  (0 <= dval current)%Q ->
  (0 <= dval (compute_drawdown current peak) <= 1)%Q /\
  (dval peak <= dval current -> dval (compute_drawdown current peak) == 0)%Q /\
  let s := rebuild_account_summary now initial realized unrealized in
  (dval initial <= dval (ps_peak_equity s))%Q /\ (dval (ps_equity s) <= dval (ps_peak_equity s))%Q /\
  (dval initial <= dval (ps_equity s) -> dval (ps_drawdown_pct s) == 0)%Q.
Proof.
  intros Hrep Hc. pose proof dval_ZERO as H0.
  assert (Hzero : forall c p, (dval p <= dval c)%Q -> (dval (compute_drawdown c p) == 0)%Q).
  { intros c p H. unfold compute_drawdown. rewrite (proj2 (dleb_le p c) H), orb_true_r. done. }
  split; [|split; [apply Hzero|]].
  - unfold compute_drawdown. destruct (peak <=? ZERO)%dec eqn:E1; cbn [orb]; [rewrite H0; lra|].
    destruct (peak <=? current)%dec eqn:E2; [rewrite H0; lra|]. dec_to_Q.
    apply ddiv_fraction; [apply dsub_nonneg; lra| |lra].
    rewrite dval_sub. apply Qle_trans with (drnd OpSub (dval peak)); [apply drnd_mono; lra|].
    rewrite drnd_fix by done. lra.
  - cbn. destruct (initial <? _)%dec eqn:E; dec_to_Q.
    + split; [lra|]. split; [lra|]. intros _. apply Hzero. lra.
    + split; [lra|]. split; [lra|]. apply Hzero.
Qed.

(** ** Mark to market *)

Section MarkFacts.
Context {DI : Decimal} {CH : Chrono}.
Variables (prices : list PaperMarkPriceInput) (snapshot_at : Z).

Lemma mark_loop positions ps u ms :
  foldl (mark_step prices snapshot_at) (ps, u, ms) positions =
  (ps ++ map (fun p => fst (mark_position prices snapshot_at p)) positions,
   foldl dadd u (map (fun p => pp_unrealized_pnl (fst (mark_position prices snapshot_at p))) positions),
   ms ++ flat_map (fun p => snd (mark_position prices snapshot_at p)) positions).
Proof using.
  revert ps u ms; induction positions as [|p positions IH]; intros ps u ms; cbn.
  { by rewrite !app_nil_r. }
  destruct (mark_position prices snapshot_at p) as [p' m] eqn:E. rewrite IH. cbn.
  by rewrite <- !app_assoc.
Qed.

(** What marking does to one position. *)
Definition priced (p : PaperPosition) : option dec :=
  match List.find (fun item => bool_decide (mp_symbol item = pp_symbol p)) prices with
  | Some item => mp_mark_price item
  | None => None
  end.

Lemma mark_position_spec p :
  let (p', missing) := mark_position prices snapshot_at p in
  pp_id p' = pp_id p /\ pp_symbol p' = pp_symbol p /\ pp_quantity p' = pp_quantity p /\
  pp_entry_price p' = pp_entry_price p /\ pp_realized_pnl p' = pp_realized_pnl p /\
  pp_status p' = pp_status p /\
  pp_mark_price p' = priced p /\
  pp_unrealized_pnl p' =
    match priced p with
    | Some m => ((m - pp_entry_price p) * pp_quantity p)%dec
    | None => ZERO
    end /\
  missing = match priced p with Some _ => [] | None => [pp_symbol p] end.
Proof using.
  unfold mark_position, priced, compute_unrealized_pnl.
  destruct (List.find _ prices) as [item|]; cbn; [|done].
  by destruct (mp_mark_price item), (pp_side p).
Qed.
End MarkFacts.

(** Marking to market.  Every position is kept, in order, with its
    identity, quantity, entry price, realized profit and status; it gets the
    first price listed for its symbol and the profit at that price, or no mark
    and zero profit when there is none; the symbols without a price are exactly
    the missing ones; unrealized profit of the account is the sum over the
    positions, equity is initial plus realized plus that, and realized profit
    does not move. *)
Theorem mark_to_market_spec {DI : Decimal} (new_v4 now : Z) (account : PaperAccount)
    (positions : list PaperPosition) (prices : list PaperMarkPriceInput) (snapshot_at : Z) :
  let r := mark_positions_to_market new_v4 now account positions prices snapshot_at in
  Forall2 (fun p p' =>
    pp_id p' = pp_id p /\ pp_symbol p' = pp_symbol p /\ pp_quantity p' = pp_quantity p /\
    pp_entry_price p' = pp_entry_price p /\ pp_realized_pnl p' = pp_realized_pnl p /\
    pp_status p' = pp_status p /\ pp_mark_price p' = priced prices p /\
    pp_unrealized_pnl p' =
      match priced prices p with
      | Some m => ((m - pp_entry_price p) * pp_quantity p)%dec
      | None => ZERO
      end) positions (mm_positions r) /\
  mm_missing_symbols r =
    map pp_symbol (List.filter (fun p => match priced prices p with Some _ => false | None => true end)
                     positions) /\
  ps_unrealized_pnl (mm_summary r) = dsum (map pp_unrealized_pnl (mm_positions r)) /\
  ps_equity (mm_summary r) =
    (pa_initial_equity account + pa_realized_pnl account + ps_unrealized_pnl (mm_summary r))%dec /\
  ps_realized_pnl (mm_summary r) = pa_realized_pnl account /\
  es_equity (mm_snapshot r) = ps_equity (mm_summary r) /\
  es_drawdown_pct (mm_snapshot r) = ps_drawdown_pct (mm_summary r).
Proof.
  cbn zeta. unfold mark_positions_to_market. rewrite mark_loop. cbn [app].
  split; [|split; [|repeat split]].
  - cbn. induction positions as [|p positions IH]; cbn; constructor; [|exact IH].
    pose proof (mark_position_spec prices snapshot_at p) as H.
    destruct (mark_position prices snapshot_at p). cbn. tauto.
  - cbn. induction positions as [|p positions IH]; cbn; [done|].
    pose proof (mark_position_spec prices snapshot_at p) as H.
    destruct (mark_position prices snapshot_at p) as [p' m]. cbn.
    destruct H as (_ & _ & _ & _ & _ & _ & _ & _ & ->). rewrite IH.
    by destruct (priced prices p).
  - cbn. unfold dsum. by rewrite map_map.
Qed.

Module AccountingSample.
#[local] Existing Instance ExactDecimal.
#[local] Existing Instance PlainChrono.
#[local] Existing Instance PlainJson.
#[local] Instance scalars : JsonScalars := { jdec := fun _ => jnull; jtime := fun t => juuid t }.

Definition account : PaperAccount := {|
  pa_id := 1; pa_name := "paper"; pa_base_currency := "USDT"; pa_initial_equity := dint 10000;
  pa_current_equity := dint 10000; pa_realized_pnl := dint 0; pa_unrealized_pnl := dint 0;
  pa_status := PaperAccountStatus.Active; pa_created_at := 0; pa_updated_at := 0 |}.

Definition fill : PaperFill := {|
  pf_id := 10; pf_account_id := 1; pf_order_id := 11; pf_position_id := None;
  pf_symbol := "BTCUSDT"; pf_side := PositionSide.Long; pf_price := dint 100;
  pf_quantity := dint 2; pf_notional := dint 200; pf_fee := dint 3; pf_slippage_cost := dint 1;
  pf_filled_at := 5; pf_strategy_id := None; pf_signal_id := None; pf_risk_decision_id := None;
  pf_correlation_id := 12 |}.

Definition config : PaperAccountingConfig := {|
  fee_bps := ZERO; slippage_bps := ZERO;
  pnl_calculation_mode := PnlCalculationMode.WeightedAverage |}.

Definition fresh (n : nat) : Z := 100 + Z.of_nat n.

Definition position : PaperPosition :=
  opened_position 7 account fill (dint 102) (dint 204).

Lemma opening_is_exact : opening_exact account (Some position) fill /\ opening_exact account None fill.
Proof.
  split; repeat split; whole_number.
Defined.

Lemma closing_is_exact : closing_exact account fill (dint 1) (dint 0).
Proof.
  repeat split; whole_number.
Defined.

Example open_fill_weighted_average_witness :
  exists app : FillApplication, apply_paper_order_fill fresh 0 account (Some position) fill config = Ok app /\
    (dval (pp_quantity (fa_position app)) == 4)%Q /\ account_balanced (fa_account app).
Proof.
  destruct (open_fill_weighted_average (DL := ExactDecimalLaws) fresh 0 account (Some position)
    fill config (proj1 opening_is_exact)) as (app & Happ & Hq & _ & _ & Hb & _).
  - reflexivity.
  - intros c [= <-]. vm_compute. discriminate.
  - exists app. split; [exact Happ|]. split; [|exact Hb]. rewrite Hq. reflexivity.
Defined.

Example close_market_simulated_spec_witness :
  exists app : ClosePositionApplication,
    close_position_market_simulated fresh 0 account position 1 2 3 (dint 110) (dint 1) (dint 0) 9 4
      = Ok app /\ pp_status (ca_position app) = PositionStatus.Closed.
Proof.
  pose proof (close_market_simulated_spec (DL := ExactDecimalLaws) fresh 0 account position 1 2 3
    (dint 110) (dint 1) (dint 0) 9 4) as H.
  replace (closable position (dint 110) (dint 1) (dint 0)) with true in H by reflexivity.
  destruct H as (app & Happ & Hst & _). exists app. split; [exact Happ|exact Hst].
Defined.

(** A flat round trip with opening cost 4 and closing cost 1 loses 9. *)
Example round_trip_charges_opening_cost_twice_witness :
  exists (opened : FillApplication) (closed : ClosePositionApplication),
    apply_paper_order_fill fresh 0 account None fill config = Ok opened /\
    close_position_market_simulated fresh 0 (fa_account opened) (fa_position opened) 1 2 3
      (dint 100) (dint 1) (dint 0) 9 4 = Ok closed /\
    (dval (pa_realized_pnl (ca_account closed)) == - 9)%Q.
Proof.
  destruct (round_trip_charges_opening_cost_twice (DL := ExactDecimalLaws) fresh fresh 0 account
    fill config 1 2 3 (dint 1) (dint 0) 9 4 (proj2 opening_is_exact) closing_is_exact)
    as (o & c & Ho & Hc & Hr).
  1-5: vm_compute; (reflexivity || discriminate).
  exists o, c. split; [exact Ho|]. split; [exact Hc|]. rewrite Hr. reflexivity.
Defined.

Example account_books_balance_witness :
  exists (a : PaperAccount) (app : FillApplication),
    apply_paper_order_fill fresh 0 account None fill config = Ok app /\ a = fa_account app /\
    account_balanced a /\ (dval (pa_realized_pnl a) == - 4)%Q.
Proof.
  destruct (apply_paper_order_fill fresh 0 account None fill config) as [app| |] eqn:E;
    [|vm_compute in E; discriminate..].
  exists (fa_account app), app. split; [done|]. split; [done|].
  destruct (account_books_balance (DL := ExactDecimalLaws) account (fa_account app)
    [Charged (pf_fee fill + pf_slippage_cost fill)%dec]) as (_ & Hr & _ & Hb & _).
  - apply (arun_fill account [] account fresh 0 None fill config app); [apply arun_start|exact E].
  - split; [apply Hb; discriminate|]. rewrite Hr. reflexivity.
Defined.

Example drawdown_bounds_witness :
  (0 <= dval (compute_drawdown (dint 75) (dint 100)) <= 1)%Q /\
  (dval (compute_drawdown (dint 75) (dint 100)) == 1 # 4)%Q.
Proof.
  split; [|reflexivity].
  refine (proj1 (drawdown_bounds (DL := ExactDecimalLaws) (dint 75) (dint 100) 0 (dint 0) (dint 0)
    (dint 0) _ _)).
  - exists 100, 0. repeat split; vm_compute; (reflexivity || discriminate).
  - vm_compute. discriminate.
Defined.
End AccountingSample.
