(* ===== verification/Lifecycle.v ===== *)
(** * Testnet order lifecycle

    The transition validator of crates/exchange/src/lib.rs (lines 510-833), the
    mappings from exchange evidence to lifecycle states, the repair validator of
    crates/core/src/lib.rs (lines 6044-6320), the exchange request and report
    types (6440-6680, 7310-7350), and the three writers of an order's state: the
    REST reconciliation of one order (crates/api/src/exchange_reconcile.rs,
    144-235), the private-stream report
    (crates/exchange/src/bin/testnet-private-stream.rs, 300-390) and the
    transaction both call
    ([append_exchange_testnet_lifecycle_event_and_update_order],
    crates/db/src/lib.rs).  The order row and the appended event are explicit;
    clock and identifiers are arguments; telemetry and logging have no effect on
    the state and are left out. *)

From Stdlib Require Import ZArith QArith Lia List String.
From stdpp Require Import base list strings.
From S2P Require Import Prelude Text Host Types MarketData.

#[local] Open Scope Z_scope.

Import TestnetExecutionState.

(** ** The transition validator *)

Definition is_terminal (self : TestnetExecutionState.t) : bool :=
  match self with
  | Filled | Cancelled | Rejected | Expired | Failed => true
  | _ => false
  end.

Record TestnetExecutionTransitionResult := {
  tr_previous_state : option TestnetExecutionState.t;
  tr_next_state : TestnetExecutionState.t;
  tr_source : TestnetExecutionTransitionSource.t;
  tr_accepted : bool;
  tr_terminal : bool;
  tr_requires_reconciliation : bool
}.

Inductive TestnetExecutionStateError :=
  | InvalidTransition (previous_state : option TestnetExecutionState.t)
      (next_state : TestnetExecutionState.t)
      (transition_source : TestnetExecutionTransitionSource.t).

(** The [matches!] table of [validate_testnet_transition]. *)
Definition transition_accepted (previous : option TestnetExecutionState.t)
    (next : TestnetExecutionState.t) : bool :=
  match previous with
  | None =>
    match next with
    | IntentCreated | RiskApproved | OrderPrepared | OrderSubmitRequested
    | ReconciliationRequired | UnknownExchangeState | Failed => true
    | _ => false
    end
  | Some IntentCreated =>
    match next with
    | RiskApproved | OrderPrepared | OrderSubmitRequested | Rejected | Failed
    | ReconciliationRequired => true
    | _ => false
    end
  | Some RiskApproved =>
    match next with
    | OrderPrepared | OrderSubmitRequested | Rejected | Failed | ReconciliationRequired => true
    | _ => false
    end
  | Some OrderPrepared =>
    match next with
    | OrderSubmitRequested | Rejected | Failed | ReconciliationRequired => true
    | _ => false
    end
  | Some OrderSubmitRequested =>
    match next with
    | ExchangeAcked | New | PartiallyFilled | Filled | Rejected | Expired | CancelRequested
    | ReconciliationRequired | Failed => true
    | _ => false
    end
  | Some ExchangeAcked =>
    match next with
    | New | PartiallyFilled | Filled | CancelRequested | Cancelled | Rejected | Expired
    | ReconciliationRequired | Failed => true
    | _ => false
    end
  | Some New =>
    match next with
    | PartiallyFilled | Filled | CancelRequested | Cancelled | Rejected | Expired
    | ReconciliationRequired | Failed => true
    | _ => false
    end
  | Some PartiallyFilled =>
    match next with
    | PartiallyFilled | Filled | CancelRequested | Cancelled | Expired
    | ReconciliationRequired | Failed => true
    | _ => false
    end
  | Some CancelRequested =>
    match next with
    | Cancelled | Filled | PartiallyFilled | ReconciliationRequired | Failed => true
    | _ => false
    end
  | Some ReconciliationRequired =>
    match next with
    | ExchangeAcked | New | PartiallyFilled | Filled | CancelRequested | Cancelled | Rejected
    | Expired | UnknownExchangeState | Failed | ReconciliationRequired => true
    | _ => false
    end
  | Some UnknownExchangeState =>
    match next with
    | ReconciliationRequired | UnknownExchangeState | Failed => true
    | _ => false
    end
  | Some (Filled | Cancelled | Rejected | Expired | Failed) => false
  end.

Definition validate_testnet_transition (previous : option TestnetExecutionState.t)
    (next : TestnetExecutionState.t) (source : TestnetExecutionTransitionSource.t)
    : res TestnetExecutionStateError TestnetExecutionTransitionResult :=
  if bool_decide (next = UnknownExchangeState) then
    Ok {| tr_previous_state := previous; tr_next_state := next; tr_source := source;
          tr_accepted := true; tr_terminal := false; tr_requires_reconciliation := true |}
  else if negb (transition_accepted previous next) then
    Err (InvalidTransition previous next source)
  else
    Ok {| tr_previous_state := previous; tr_next_state := next; tr_source := source;
          tr_accepted := true; tr_terminal := is_terminal next;
          tr_requires_reconciliation :=
            match next with ReconciliationRequired | UnknownExchangeState => true | _ => false end |}.

Section Lifecycle.
Context {DI : Decimal} {CH : Chrono} {JS : Json}.

Record TestnetOrderLifecycleSnapshot := {
  ls_order_id : option Z;
  ls_client_order_id : string;
  ls_exchange_order_id : option string;
  ls_current_state : TestnetExecutionState.t;
  ls_last_transition_at : option Z
}.

Record TestnetExecutionTransition := {
  tt_previous_state : option TestnetExecutionState.t;
  tt_next_state : TestnetExecutionState.t;
  tt_source : TestnetExecutionTransitionSource.t;
  tt_reason : option string;
  tt_payload : option json
}.

Definition apply_testnet_transition (snapshot : TestnetOrderLifecycleSnapshot)
    (next_state : TestnetExecutionState.t) (source : TestnetExecutionTransitionSource.t)
    (reason : option string) (payload : option json)
    : res TestnetExecutionStateError TestnetExecutionTransition :=
  _ ← validate_testnet_transition (Some (ls_current_state snapshot)) next_state source;
  Ok {| tt_previous_state := Some (ls_current_state snapshot); tt_next_state := next_state;
        tt_source := source; tt_reason := reason; tt_payload := payload |}.

(** ** Exchange evidence *)

Record ExchangeOrderAck := {
  ack_exchange : ExchangeName.t;
  ack_environment : ExchangeEnvironment.t;
  ack_symbol : string;
  ack_client_order_id : string;
  ack_exchange_order_id : option string;
  ack_status : ExchangeOrderState.t;
  ack_transact_time : Z;
  ack_executed_qty : dec;
  ack_cumulative_quote_qty : dec;
  ack_is_working : option bool;
  ack_raw_payload : json
}.

Record ExchangeOrderStatus := {
  os_exchange : ExchangeName.t;
  os_environment : ExchangeEnvironment.t;
  os_symbol : string;
  os_client_order_id : string;
  os_exchange_order_id : option string;
  os_status : ExchangeOrderState.t;
  os_side : ExchangeOrderSide.t;
  os_order_type : ExchangeOrderType.t;
  os_time_in_force : option ExchangeOrderTimeInForce.t;
  os_original_qty : option dec;
  os_executed_qty : dec;
  os_cumulative_quote_qty : dec;
  os_limit_price : option dec;
  os_updated_at : Z;
  os_raw_payload : json
}.

Record ExchangeCancelAck := {
  ca_exchange : ExchangeName.t;
  ca_environment : ExchangeEnvironment.t;
  ca_symbol : string;
  ca_client_order_id : string;
  ca_exchange_order_id : option string;
  ca_status : ExchangeOrderState.t;
  ca_cancelled_at : Z;
  ca_raw_payload : json
}.

Record ExchangeExecutionReport := {
  er_exchange : ExchangeName.t;
  er_environment : ExchangeEnvironment.t;
  er_symbol : string;
  er_client_order_id : string;
  er_exchange_order_id : option string;
  er_side : ExchangeOrderSide.t;
  er_order_type : ExchangeOrderType.t;
  er_time_in_force : option ExchangeOrderTimeInForce.t;
  er_order_status : ExchangeExecutionStatus.t;
  er_execution_type : ExchangeExecutionReportType.t;
  er_last_executed_qty : dec;
  er_cumulative_filled_qty : dec;
  er_last_executed_price : dec;
  er_commission_amount : option dec;
  er_commission_asset : option string;
  er_event_time : Z;
  er_transaction_time : option Z;
  er_raw_payload : json
}.

Record ExchangeFillEvent := {
  fe_last_executed_qty : dec;
  fe_last_executed_price : dec;
  fe_commission_amount : option dec;
  fe_commission_asset : option string;
  fe_transaction_time : option Z
}.

Definition ExchangeExecutionReport_validate (self : ExchangeExecutionReport) : result unit :=
  if bool_decide (er_environment self = ExchangeEnvironment.Live) then
    Err CoreError.LiveExchangeEnvironmentRejected
  else if is_empty (trim (er_client_order_id self)) then Err CoreError.EmptyClientOrderId
  else Ok tt.

Definition fill_event (self : ExchangeExecutionReport) : option ExchangeFillEvent :=
  if negb (bool_decide (er_execution_type self = ExchangeExecutionReportType.Trade))
     || (er_last_executed_qty self <=? ZERO)%dec then None
  else Some {| fe_last_executed_qty := er_last_executed_qty self;
               fe_last_executed_price := er_last_executed_price self;
               fe_commission_amount := er_commission_amount self;
               fe_commission_asset := er_commission_asset self;
               fe_transaction_time := er_transaction_time self |}.

(** Parsers of the exchange's status words; the error of the first is
    [ExchangeError::Serialization] with the message. *)
Definition parse_order_state (value : string) : res string ExchangeOrderState.t :=
  if bool_decide (value = "NEW") then Ok ExchangeOrderState.New else
  if bool_decide (value = "PARTIALLY_FILLED") then Ok ExchangeOrderState.PartiallyFilled else
  if bool_decide (value = "FILLED") then Ok ExchangeOrderState.Filled else
  if bool_decide (value = "CANCELED") then Ok ExchangeOrderState.Canceled else
  if bool_decide (value = "PENDING_CANCEL") then Ok ExchangeOrderState.PendingCancel else
  if bool_decide (value = "REJECTED") then Ok ExchangeOrderState.Rejected else
  if bool_decide (value = "EXPIRED") then Ok ExchangeOrderState.Expired else
  Err ("unsupported exchange order status: " +:+ value).

Definition parse_execution_status (value : string) : ExchangeExecutionStatus.t :=
  if bool_decide (value = "NEW") then ExchangeExecutionStatus.New else
  if bool_decide (value = "PARTIALLY_FILLED") then ExchangeExecutionStatus.PartiallyFilled else
  if bool_decide (value = "FILLED") then ExchangeExecutionStatus.Filled else
  if bool_decide (value = "CANCELED") then ExchangeExecutionStatus.Canceled else
  if bool_decide (value = "PENDING_CANCEL") then ExchangeExecutionStatus.PendingCancel else
  if bool_decide (value = "REJECTED") then ExchangeExecutionStatus.Rejected else
  if bool_decide (value = "EXPIRED") then ExchangeExecutionStatus.Expired else
  if bool_decide (value = "EXPIRED_IN_MATCH") then ExchangeExecutionStatus.ExpiredInMatch else
  ExchangeExecutionStatus.Unknown.

Definition parse_execution_report_type (value : string) : ExchangeExecutionReportType.t :=
  if bool_decide (value = "NEW") then ExchangeExecutionReportType.New else
  if bool_decide (value = "CANCELED") then ExchangeExecutionReportType.Canceled else
  if bool_decide (value = "REPLACED") then ExchangeExecutionReportType.Replaced else
  if bool_decide (value = "REJECTED") then ExchangeExecutionReportType.Rejected else
  if bool_decide (value = "TRADE") then ExchangeExecutionReportType.Trade else
  if bool_decide (value = "EXPIRED") then ExchangeExecutionReportType.Expired else
  if bool_decide (value = "TRADE_PREVENTION") then ExchangeExecutionReportType.TradePrevention else
  ExchangeExecutionReportType.Unknown.

(** ** Evidence to lifecycle state *)

Definition map_exchange_ack_to_transition (ack : ExchangeOrderAck)
    : TestnetExecutionState.t * option string :=
  (match ack_status ack with
   | ExchangeOrderState.New => ExchangeAcked
   | ExchangeOrderState.PartiallyFilled => PartiallyFilled
   | ExchangeOrderState.Filled => Filled
   | ExchangeOrderState.Canceled | ExchangeOrderState.PendingCancel => ReconciliationRequired
   | ExchangeOrderState.Rejected => Rejected
   | ExchangeOrderState.Expired => Expired
   end, Some "exchange_ack").

Definition map_private_execution_report_to_transition (report : ExchangeExecutionReport)
    : TestnetExecutionState.t * option string :=
  (match er_order_status report with
   | ExchangeExecutionStatus.New => New
   | ExchangeExecutionStatus.PartiallyFilled => PartiallyFilled
   | ExchangeExecutionStatus.Filled => Filled
   | ExchangeExecutionStatus.Canceled => Cancelled
   | ExchangeExecutionStatus.PendingCancel => CancelRequested
   | ExchangeExecutionStatus.Rejected => Rejected
   | ExchangeExecutionStatus.Expired | ExchangeExecutionStatus.ExpiredInMatch => Expired
   | ExchangeExecutionStatus.Unknown => UnknownExchangeState
   end,
   match er_execution_type report with
   | ExchangeExecutionReportType.New => Some "execution_report_new"
   | ExchangeExecutionReportType.Canceled => Some "execution_report_canceled"
   | ExchangeExecutionReportType.Rejected => Some "execution_report_rejected"
   | ExchangeExecutionReportType.Trade => Some "execution_report_trade"
   | ExchangeExecutionReportType.Expired => Some "execution_report_expired"
   | ExchangeExecutionReportType.TradePrevention => Some "execution_report_trade_prevention"
   | ExchangeExecutionReportType.Replaced => Some "execution_report_replaced"
   | ExchangeExecutionReportType.Unknown => Some "execution_report_unknown"
   end).

Definition map_rest_reconciliation_status_to_transition (status : ExchangeOrderStatus)
    : TestnetExecutionState.t * option string :=
  (match os_status status with
   | ExchangeOrderState.New => New
   | ExchangeOrderState.PartiallyFilled => PartiallyFilled
   | ExchangeOrderState.Filled => Filled
   | ExchangeOrderState.Canceled => Cancelled
   | ExchangeOrderState.PendingCancel => CancelRequested
   | ExchangeOrderState.Rejected => Rejected
   | ExchangeOrderState.Expired => Expired
   end, Some "rest_reconciliation_status").

Definition map_cancel_ack_to_transition (ack : ExchangeCancelAck)
    : TestnetExecutionState.t * option string :=
  (match ca_status ack with
   | ExchangeOrderState.Canceled => Cancelled
   | ExchangeOrderState.PendingCancel => CancelRequested
   | ExchangeOrderState.PartiallyFilled => PartiallyFilled
   | ExchangeOrderState.Filled => Filled
   | ExchangeOrderState.New => ReconciliationRequired
   | ExchangeOrderState.Rejected => ReconciliationRequired
   | ExchangeOrderState.Expired => Expired
   end, Some "exchange_cancel_ack").

Definition local_testnet_order_status_from_private_execution_report
    (report : ExchangeExecutionReport) : string :=
  ExchangeExecutionStatus.as_str (er_order_status report).

Definition local_testnet_status_from_exchange_state (state : ExchangeOrderState.t)
    : option string :=
  match state with
  | ExchangeOrderState.New => Some "NEW"
  | ExchangeOrderState.PartiallyFilled => Some "PARTIALLY_FILLED"
  | ExchangeOrderState.Filled => Some "FILLED"
  | ExchangeOrderState.Canceled => Some "CANCELLED"
  | ExchangeOrderState.Rejected => Some "REJECTED"
  | ExchangeOrderState.Expired => Some "EXPIRED"
  | ExchangeOrderState.PendingCancel => None
  end.

(** ** The order row, its event log and the writing transaction *)

Record ExchangeTestnetOrderRecord := {
  eo_id : Z;
  eo_exchange : string;
  eo_environment : string;
  eo_client_order_id : string;
  eo_exchange_order_id : option string;
  eo_symbol : string;
  eo_side : string;
  eo_order_type : string;
  eo_time_in_force : option string;
  eo_requested_qty : option dec;
  eo_requested_notional : option dec;
  eo_limit_price : option dec;
  eo_status : string;
  eo_execution_state : string;
  eo_ack_payload : option json;
  eo_latest_status_payload : option json;
  eo_risk_decision_id : option Z;
  eo_created_by : option Z;
  eo_last_transition_at : option Z;
  eo_created_at : Z;
  eo_updated_at : Z
}.

Record ExchangeTestnetOrderLifecycleEventRecord := {
  le_id : Z;
  le_order_id : option Z;
  le_client_order_id : string;
  le_previous_state : option string;
  le_next_state : string;
  le_transition_source : string;
  le_reason : option string;
  le_payload : option json;
  le_created_by : option Z;
  le_created_at : Z;
  le_correlation_id : option Z
}.

(** The row after [append_exchange_testnet_lifecycle_event_and_update_order]
    ([sql_now] is [NOW()]). *)
Definition update_order (sql_now : Z) (order : ExchangeTestnetOrderRecord)
    (event : ExchangeTestnetOrderLifecycleEventRecord) (exchange_order_id status : option string)
    (execution_state : TestnetExecutionState.t) (latest_status_payload ack_payload : option json)
    : ExchangeTestnetOrderRecord :=
  {| eo_id := eo_id order; eo_exchange := eo_exchange order;
     eo_environment := eo_environment order; eo_client_order_id := eo_client_order_id order;
     eo_exchange_order_id := coalesce exchange_order_id (eo_exchange_order_id order);
     eo_symbol := eo_symbol order; eo_side := eo_side order; eo_order_type := eo_order_type order;
     eo_time_in_force := eo_time_in_force order; eo_requested_qty := eo_requested_qty order;
     eo_requested_notional := eo_requested_notional order; eo_limit_price := eo_limit_price order;
     eo_status := default (eo_status order) status;
     eo_execution_state := TestnetExecutionState.as_str execution_state;
     eo_ack_payload := coalesce ack_payload (eo_ack_payload order);
     eo_latest_status_payload := coalesce latest_status_payload (eo_latest_status_payload order);
     eo_risk_decision_id := eo_risk_decision_id order; eo_created_by := eo_created_by order;
     eo_last_transition_at := Some (le_created_at event);
     eo_created_at := eo_created_at order; eo_updated_at := sql_now |}.

(** [order.execution_state.parse().unwrap_or(TestnetExecutionState::Failed)] *)
Definition current_state (order : ExchangeTestnetOrderRecord) : TestnetExecutionState.t :=
  match from_str (A := TestnetExecutionState.t) (eo_execution_state order) with
  | Ok s => s
  | _ => Failed
  end.

Definition snapshot_of (order : ExchangeTestnetOrderRecord) : TestnetOrderLifecycleSnapshot :=
  {| ls_order_id := Some (eo_id order); ls_client_order_id := eo_client_order_id order;
     ls_exchange_order_id := eo_exchange_order_id order;
     ls_current_state := current_state order;
     ls_last_transition_at := eo_last_transition_at order |}.

(** The event a writer appends: the accepted transition, or the move to
    [RECONCILIATION_REQUIRED] when the validator refused. *)
Definition evidence_event (new_v4 now : Z) (order : ExchangeTestnetOrderRecord)
    (outcome : res TestnetExecutionStateError TestnetExecutionTransition)
    (source : TestnetExecutionTransitionSource.t) (invalid_reason : string) (payload : json)
    (created_by correlation_id : option Z) : ExchangeTestnetOrderLifecycleEventRecord :=
  match outcome with
  | Ok transition =>
    {| le_id := new_v4; le_order_id := Some (eo_id order);
       le_client_order_id := eo_client_order_id order;
       le_previous_state := TestnetExecutionState.as_str <$> tt_previous_state transition;
       le_next_state := TestnetExecutionState.as_str (tt_next_state transition);
       le_transition_source := TestnetExecutionTransitionSource.as_str (tt_source transition);
       le_reason := tt_reason transition; le_payload := tt_payload transition;
       le_created_by := created_by; le_created_at := now; le_correlation_id := correlation_id |}
  | _ =>
    {| le_id := new_v4; le_order_id := Some (eo_id order);
       le_client_order_id := eo_client_order_id order;
       le_previous_state := Some (eo_execution_state order);
       le_next_state := TestnetExecutionState.as_str ReconciliationRequired;
       le_transition_source := TestnetExecutionTransitionSource.as_str source;
       le_reason := Some invalid_reason; le_payload := Some payload;
       le_created_by := created_by; le_created_at := now; le_correlation_id := correlation_id |}
  end.

(** One order of the reconciliation loop whose status could be fetched;
    [persisted_status] is [canonical_local_status.unwrap_or(order.status)]. *)
Definition reconcile_order (new_v4 now sql_now : Z) (actor_id : option Z) (correlation_id : Z)
    (order : ExchangeTestnetOrderRecord) (exchange_status : ExchangeOrderStatus)
    : ExchangeTestnetOrderLifecycleEventRecord * ExchangeTestnetOrderRecord :=
  let persisted_status := default (eo_status order)
    (local_testnet_status_from_exchange_state (os_status exchange_status)) in
  let '(next_state, reason) := map_rest_reconciliation_status_to_transition exchange_status in
  let outcome := apply_testnet_transition (snapshot_of order) next_state
    TestnetExecutionTransitionSource.RestReconciliation reason
    (Some (os_raw_payload exchange_status)) in
  let event := evidence_event new_v4 now order outcome
    TestnetExecutionTransitionSource.RestReconciliation "invalid_rest_reconciliation_transition"
    (os_raw_payload exchange_status) actor_id (Some correlation_id) in
  match outcome with
  | Ok transition =>
    (event, update_order sql_now order event (os_exchange_order_id exchange_status)
              (Some persisted_status) (tt_next_state transition) (tt_payload transition) None)
  | _ =>
    (event, update_order sql_now order event (os_exchange_order_id exchange_status)
              (Some persisted_status) ReconciliationRequired
              (Some (os_raw_payload exchange_status)) None)
  end.

(** An execution report for a known order, on the private stream. *)
Definition apply_private_report (new_v4 now sql_now : Z) (order : ExchangeTestnetOrderRecord)
    (report : ExchangeExecutionReport)
    : ExchangeTestnetOrderLifecycleEventRecord * ExchangeTestnetOrderRecord :=
  let '(next_state, reason) := map_private_execution_report_to_transition report in
  let payload := er_raw_payload report in
  let outcome := apply_testnet_transition (snapshot_of order) next_state
    TestnetExecutionTransitionSource.PrivateStream reason (Some payload) in
  let event := evidence_event new_v4 now order outcome
    TestnetExecutionTransitionSource.PrivateStream "invalid_private_stream_transition" payload
    None None in
  let lifecycle_state :=
    match from_str (A := TestnetExecutionState.t) (le_next_state event) with
    | Ok s => s
    | _ => ReconciliationRequired
    end in
  (event, update_order sql_now order event (er_exchange_order_id report)
            (Some (local_testnet_order_status_from_private_execution_report report))
            lifecycle_state (Some payload) None).
End Lifecycle.

(** ** Requests and the private stream *)

Section Exchange.
Context {DI : Decimal}.

Record ExchangeOrderRequest := {
  or_exchange : ExchangeName.t;
  or_environment : ExchangeEnvironment.t;
  or_symbol : Symbol;
  or_side : ExchangeOrderSide.t;
  or_order_type : ExchangeOrderType.t;
  or_time_in_force : option ExchangeOrderTimeInForce.t;
  or_quantity : option dec;
  or_quote_notional : option dec;
  or_limit_price : option dec;
  or_client_order_id : string;
  or_recv_window_ms : option Z;
  or_risk_decision_id : option Z
}.

Definition ExchangeOrderRequest_validate (self : ExchangeOrderRequest) : result unit :=
  if is_empty (trim (or_client_order_id self)) then Err CoreError.EmptyClientOrderId else
  if bool_decide (or_environment self = ExchangeEnvironment.Live) then
    Err CoreError.LiveExchangeEnvironmentRejected else
  _ ← match or_quantity self, or_quote_notional self with
      | Some quantity, None =>
        if (quantity <=? ZERO)%dec then Err CoreError.InvalidExchangeQuantity else Ok tt
      | None, Some notional =>
        if (notional <=? ZERO)%dec then Err CoreError.InvalidExchangeNotional else Ok tt
      | Some quantity, Some notional =>
        if (quantity <=? ZERO)%dec then Err CoreError.InvalidExchangeQuantity else
        if (notional <=? ZERO)%dec then Err CoreError.InvalidExchangeNotional else Ok tt
      | None, None => Err CoreError.MissingExchangeQuantityOrNotional
      end;
  _ ← (if bool_decide (or_order_type self = ExchangeOrderType.Limit) then
        match or_limit_price self with
        | None => Err CoreError.MissingExchangeLimitPrice
        | Some limit_price =>
          if (limit_price <=? ZERO)%dec then Err CoreError.InvalidExchangeLimitPrice else
          match or_time_in_force self with
          | None => Err CoreError.MissingExchangeTimeInForce
          | Some _ => Ok tt
          end
        end
      else Ok tt);
  match or_limit_price self with
  | Some limit_price =>
    if (limit_price <=? ZERO)%dec then Err CoreError.InvalidExchangeLimitPrice else Ok tt
  | None => Ok tt
  end.

Record ExchangePrivateStreamState := {
  ss_exchange : ExchangeName.t;
  ss_environment : ExchangeEnvironment.t;
  ss_status : ExchangePrivateStreamStatus.t;
  ss_listen_key_hash : option string;
  ss_connected_at : option Z;
  ss_last_event_at : option Z;
  ss_last_error : option string;
  ss_reconnect_count : Z;
  ss_updated_at : Z
}.

Definition ExchangePrivateStreamState_validate (self : ExchangePrivateStreamState) : result unit :=
  if bool_decide (ss_environment self = ExchangeEnvironment.Live) then
    Err CoreError.LiveExchangeEnvironmentRejected
  else if ss_reconnect_count self <? 0 then
    Err (CoreError.InvalidExchangeReconnectCount (ss_reconnect_count self))
  else Ok tt.

Definition build_private_stream_state (now : Z) (status : ExchangePrivateStreamStatus.t)
    (listen_key_hash : option string) (connected_at last_event_at : option Z)
    (last_error : option string) (reconnect_count : Z) : ExchangePrivateStreamState :=
  {| ss_exchange := ExchangeName.Binance; ss_environment := ExchangeEnvironment.Testnet;
     ss_status := status; ss_listen_key_hash := listen_key_hash; ss_connected_at := connected_at;
     ss_last_event_at := last_event_at; ss_last_error := last_error;
     ss_reconnect_count := reconnect_count; ss_updated_at := now |}.

(** [to_std()] refuses a negative duration; [threshold] is a
    [std::time::Duration] in nanoseconds. *)
Definition private_stream_is_stale (state : ExchangePrivateStreamState) (now threshold : Z) : bool :=
  match ss_last_event_at state with
  | Some last_event_at =>
    let age := now - last_event_at in
    if age <? 0 then false else threshold <? age
  | None => false
  end.
End Exchange.

(** ** Operator repairs *)

Definition required_confirmation_text (self : TestnetRepairAction.t) (client_order_id : string)
    : string :=
  match self with
  | TestnetRepairAction.SafeCancelRequest => "CANCEL TESTNET " +:+ client_order_id
  | _ => "REPAIR TESTNET " +:+ client_order_id
  end.

Definition requires_owner (self : TestnetRepairAction.t) : bool :=
  match self with
  | TestnetRepairAction.MarkAcked | TestnetRepairAction.MarkCancelled
  | TestnetRepairAction.MarkRejected | TestnetRepairAction.MarkFailed
  | TestnetRepairAction.SafeCancelRequest => true
  | _ => false
  end.

Definition allows_operator (self : TestnetRepairAction.t) : bool :=
  match self with
  | TestnetRepairAction.MarkReconciliationRequired | TestnetRepairAction.ManualRecheck => true
  | _ => false
  end.

Definition is_dangerous (self : TestnetRepairAction.t) : bool := negb (allows_operator self).

Record TestnetRepairRequest := {
  tq_action : TestnetRepairAction.t;
  tq_confirmation_text : string;
  tq_reason : option string;
  tq_force : bool;
  tq_correlation_id : option Z
}.

Definition validate_confirmation (self : TestnetRepairRequest) (client_order_id : string)
    : result unit :=
  let expected := required_confirmation_text (tq_action self) client_order_id in
  if bool_decide (tq_confirmation_text self = expected) then Ok tt
  else Err (CoreError.InvalidTestnetRepairConfirmation expected (tq_confirmation_text self)).

Definition expected_testnet_pipeline_confirmation (symbol : string) : string :=
  "SUBMIT TESTNET " +:+ to_ascii_uppercase (trim symbol).
Definition is_valid_testnet_pipeline_confirmation (symbol confirmation_text : string) : bool :=
  bool_decide (confirmation_text = expected_testnet_pipeline_confirmation symbol).
Definition expected_testnet_shadow_promotion_confirmation (symbol : string) : string :=
  "PROMOTE TESTNET " +:+ to_ascii_uppercase (trim symbol).
Definition is_valid_testnet_shadow_promotion_confirmation (symbol confirmation_text : string)
    : bool :=
  bool_decide (confirmation_text = expected_testnet_shadow_promotion_confirmation symbol).

Definition validate_testnet_repair_transition (action : TestnetRepairAction.t)
    (previous : TestnetExecutionState.t) (next : option TestnetExecutionState.t) (force : bool)
    : result unit :=
  let reject := Err (CoreError.InvalidTestnetRepairTransition action previous next) in
  _ ← (if bool_decide (previous = Filled) then
         match next with Some Filled | None => Ok tt | _ => reject end
       else Ok tt);
  match action with
  | TestnetRepairAction.MarkReconciliationRequired =>
    if is_terminal previous && negb (bool_decide (previous = Failed)) then reject else
    if negb (bool_decide (next = Some ReconciliationRequired)) then reject else Ok tt
  | TestnetRepairAction.ManualRecheck =>
    match next with None => reject | Some _ => Ok tt end
  | TestnetRepairAction.MarkAcked =>
    let allowed :=
      match previous with
      | OrderSubmitRequested | New | ReconciliationRequired | UnknownExchangeState | Failed => true
      | _ => false
      end in
    if negb allowed || negb (bool_decide (next = Some ExchangeAcked)) then reject else Ok tt
  | TestnetRepairAction.MarkCancelled =>
    if negb (bool_decide (next = Some Cancelled)) then reject else
    if bool_decide (previous = Filled) && negb force then reject else Ok tt
  | TestnetRepairAction.MarkRejected =>
    if negb (bool_decide (next = Some Rejected)) then reject else Ok tt
  | TestnetRepairAction.MarkFailed =>
    if negb (bool_decide (next = Some Failed)) then reject else Ok tt
  | TestnetRepairAction.SafeCancelRequest =>
    if negb (bool_decide (next = Some CancelRequested)) then reject else Ok tt
  end.

(** ** Runs of the machine *)

(** One accepted transition. *)
Definition lifecycle_step (s s' : TestnetExecutionState.t) : Prop :=
  exists source r, validate_testnet_transition (Some s) s' source = Ok r.

(** The states a run visits after its first one, in order. *)
Inductive lifecycle_path : TestnetExecutionState.t -> list TestnetExecutionState.t -> Prop :=
  | path_nil s : lifecycle_path s []
  | path_cons s s' l : lifecycle_step s s' -> lifecycle_path s' l -> lifecycle_path s (s' :: l).

Inductive lifecycle_reaches (s : TestnetExecutionState.t) : TestnetExecutionState.t -> Prop :=
  | reach_refl : lifecycle_reaches s s
  | reach_step s1 s2 : lifecycle_reaches s s1 -> lifecycle_step s1 s2 -> lifecycle_reaches s s2.

(** The phases before the order leaves for the exchange. *)
Definition phase (s : TestnetExecutionState.t) : nat :=
  match s with
  | IntentCreated => 0
  | RiskApproved => 1
  | OrderPrepared => 2
  | OrderSubmitRequested => 3
  | _ => 4
  end.

Lemma step_iff s s' :
  lifecycle_step s s' <-> s' = UnknownExchangeState \/ transition_accepted (Some s) s' = true.
Proof.
  unfold lifecycle_step, validate_testnet_transition. split.
  - intros (src & r & H). case_bool_decide; [by left|]. right.
    destruct (transition_accepted (Some s) s'); [done|discriminate].
  - intros [->|H]; exists TestnetExecutionTransitionSource.ApiSubmit.
    + rewrite bool_decide_eq_true_2 by done. eauto.
    + rewrite H. case_bool_decide; eauto.
Qed.

Lemma step_phase s s' : lifecycle_step s s' -> (phase s < phase s')%nat \/ phase s' = 4%nat.
Proof.
  rewrite step_iff. intros [H|H].
  - subst s'. by right.
  - destruct s, s'; cbn in *; try discriminate; lia.
Qed.

Lemma phase_le s : (phase s <= 4)%nat.
Proof. destruct s; cbn; lia. Qed.

Lemma path_after_submit s l :
  lifecycle_path s l -> (3 <= phase s)%nat -> Forall (fun s' => phase s' = 4%nat) l.
Proof.
  induction 1 as [|s s' l Hs _ IH]; intros Hp; constructor.
  - apply step_phase in Hs. pose proof (phase_le s'). lia.
  - apply IH. apply step_phase in Hs. lia.
Qed.

Definition count_state (s : TestnetExecutionState.t) (l : list TestnetExecutionState.t) : nat :=
  length (List.filter (fun s' => bool_decide (s' = s)) l).

Lemma count_state_none s l : (forall s', In s' l -> s' <> s) -> count_state s l = 0%nat.
Proof.
  unfold count_state. induction l as [|x l IH]; cbn; [done|]. intros H.
  rewrite bool_decide_eq_false_2 by (apply H; by left). apply IH. intros; apply H; by right.
Qed.

Lemma phase4_not_submit l :
  Forall (fun s' => phase s' = 4%nat) l -> forall s', In s' l -> s' <> OrderSubmitRequested.
Proof.
  rewrite Forall_forall. intros H s' Hin He. apply list_elem_of_In in Hin.
  specialize (H _ Hin). by subst s'.
Qed.

(** C2.  No lifecycle submits twice: in a run of accepted transitions from any
    state the request to submit ([ORDER_SUBMIT_REQUESTED]) is entered at most
    once -- never again once the run has been there or beyond -- and no run
    comes back from the exchange side, reconciliation, an unknown state or a
    final state to the phases before submission. *)
Theorem lifecycle_submits_at_most_once (s : TestnetExecutionState.t)
    (l : list TestnetExecutionState.t) :
  lifecycle_path s l ->
  (count_state OrderSubmitRequested l <= 1)%nat /\
  ((3 <= phase s)%nat -> count_state OrderSubmitRequested l = 0%nat /\
                         Forall (fun s' => phase s' = 4%nat) l).
Proof.
  intros Hp. split.
  - induction Hp as [|s s' l Hs Hp IH]; [cbn; lia|].
    unfold count_state in *. cbn [List.filter]. destruct (bool_decide (s' = OrderSubmitRequested)) eqn:He; [|done].
    apply bool_decide_eq_true in He. rewrite He in Hp.
    cbn [length]. fold (count_state OrderSubmitRequested l).
    rewrite count_state_none; [lia|]. apply phase4_not_submit.
    apply (path_after_submit _ _ Hp). cbn; lia.
  - intros H3. pose proof (path_after_submit _ _ Hp H3) as Hall. split; [|done].
    by apply count_state_none, phase4_not_submit.
Qed.

(** C33.  Final states.  The validator refuses every move out of [FILLED],
    [CANCELLED], [REJECTED], [EXPIRED] and [FAILED] but one: the move to
    [UNKNOWN_EXCHANGE_STATE] is accepted from everywhere.  Through it, and the
    reconciliation state behind it, a final order can reach exactly the states
    of the exchange side, open ones included. *)
Theorem terminal_states_reactivate_through_unknown (t : TestnetExecutionState.t) :
  is_terminal t = true ->
  (forall next source, validate_testnet_transition (Some t) next source =
     if bool_decide (next = UnknownExchangeState) then
       Ok {| tr_previous_state := Some t; tr_next_state := next; tr_source := source;
             tr_accepted := true; tr_terminal := false; tr_requires_reconciliation := true |}
     else Err (InvalidTransition (Some t) next source)) /\
  (forall s, lifecycle_reaches t s <-> phase s = 4%nat).
Proof.
  intros Ht. split.
  - intros next source. unfold validate_testnet_transition. case_bool_decide; [done|].
    by destruct t.
  - intros s. split.
    + intros Hr. induction Hr as [|s1 s2 _ IH Hs]; [by destruct t|].
      apply step_phase in Hs. pose proof (phase_le s2). lia.
    + intros Hp.
      assert (Hu : lifecycle_reaches t UnknownExchangeState).
      { eapply reach_step; [apply reach_refl|]. apply step_iff. by left. }
      assert (Hrec : lifecycle_reaches t ReconciliationRequired).
      { eapply reach_step; [exact Hu|]. apply step_iff. by right. }
      destruct s; try discriminate Hp; try done;
        (eapply reach_step; [exact Hrec|]; apply step_iff; by right).
Qed.

(** ** The writers *)

Section WriterFacts.
Context {DI : Decimal} {JS : Json}.

Lemma from_str_as_str (s : TestnetExecutionState.t) :
  from_str (A := TestnetExecutionState.t) (TestnetExecutionState.as_str s) = Ok s.
Proof using. destruct s; vm_compute; reflexivity. Qed.

Lemma apply_outcome snapshot next source reason payload :
  (exists tr, apply_testnet_transition snapshot next source reason payload = Ok tr /\
     tt_previous_state tr = Some (ls_current_state snapshot) /\ tt_next_state tr = next /\
     tt_source tr = source /\ tt_payload tr = payload /\
     lifecycle_step (ls_current_state snapshot) next) \/
  ((exists e, apply_testnet_transition snapshot next source reason payload = Err e) /\
   ~ lifecycle_step (ls_current_state snapshot) next).
Proof using.
  unfold apply_testnet_transition, lifecycle_step.
  destruct (validate_testnet_transition _ next source) as [r|e|] eqn:E; cbn.
  - left. eexists. split; [done|]. cbn. eauto 8.
  - right. split; [eauto|]. intros (src & r & H). unfold validate_testnet_transition in *.
    case_bool_decide; [discriminate|]. destruct (transition_accepted _ _); discriminate.
  - unfold validate_testnet_transition in E. case_bool_decide; [discriminate|].
    destruct (transition_accepted _ _); discriminate.
Qed.

(** What [reconcile_order] makes of an order. *)
Lemma reconcile_order_state new_v4 now sql_now actor corr order status :
  let (event, order') := reconcile_order new_v4 now sql_now actor corr order status in
  let next := fst (map_rest_reconciliation_status_to_transition status) in
  eo_execution_state order' =
    TestnetExecutionState.as_str
      (if bool_decide (next = UnknownExchangeState) || transition_accepted (Some (current_state order)) next
       then next else ReconciliationRequired) /\
  le_next_state event = eo_execution_state order' /\
  eo_client_order_id order' = eo_client_order_id order /\
  le_client_order_id event = eo_client_order_id order /\
  eo_status order' =
    default (eo_status order) (local_testnet_status_from_exchange_state (os_status status)).
Proof using.
  unfold reconcile_order.
  destruct (map_rest_reconciliation_status_to_transition status) as [next reason] eqn:Em.
  cbn [fst].
  destruct (apply_outcome (snapshot_of order) next TestnetExecutionTransitionSource.RestReconciliation
    reason (Some (os_raw_payload status))) as [(tr & -> & Hp & Hn & Hs & Hpl & Hstep)|[[e Herr] Hno]]; [|rewrite Herr].
  - cbn -[transition_accepted]. rewrite Hn. apply step_iff in Hstep. cbn [ls_current_state snapshot_of] in Hstep.
    repeat split. destruct Hstep as [-> | ->]; cbn; [done|].
    by rewrite orb_true_r.
  - cbn -[transition_accepted]. rewrite step_iff in Hno. cbn [ls_current_state snapshot_of] in Hno.
    destruct (bool_decide (next = UnknownExchangeState)) eqn:E1.
    { apply bool_decide_eq_true in E1. tauto. }
    destruct (transition_accepted _ next); [tauto|]. done.
Qed.

Lemma current_state_of order s :
  eo_execution_state order = TestnetExecutionState.as_str s -> current_state order = s.
Proof using. unfold current_state. intros ->. by rewrite from_str_as_str. Qed.

(** Reconciling an order repeatedly against an exchange that keeps reporting
    the same status; each run has its own identifier and clock. *)
Definition reconcile_times (runs : list (Z * Z * Z)) (actor : option Z) (corr : Z)
    (order : ExchangeTestnetOrderRecord) (status : ExchangeOrderStatus) : ExchangeTestnetOrderRecord :=
  foldl (fun o '(new_v4, now, sql_now) =>
           snd (reconcile_order new_v4 now sql_now actor corr o status)) order runs.

(** The states a fixed REST status maps to and that do not accept themselves. *)
Definition settles (status : ExchangeOrderStatus) (s : TestnetExecutionState.t) : Prop :=
  s = fst (map_rest_reconciliation_status_to_transition status) /\ s <> PartiallyFilled.

Lemma settles_flip status s order new_v4 now sql_now actor corr :
  settles status s ->
  (eo_execution_state order = TestnetExecutionState.as_str s ->
   eo_execution_state (snd (reconcile_order new_v4 now sql_now actor corr order status))
   = TestnetExecutionState.as_str ReconciliationRequired) /\
  (eo_execution_state order = TestnetExecutionState.as_str ReconciliationRequired ->
   eo_execution_state (snd (reconcile_order new_v4 now sql_now actor corr order status))
   = TestnetExecutionState.as_str s).
Proof using.
  intros [-> Hne].
  pose proof (reconcile_order_state new_v4 now sql_now actor corr order status) as H.
  destruct (reconcile_order new_v4 now sql_now actor corr order status) as [ev o'].
  destruct H as [H _]. cbn [snd].
  split; intros Hs; apply current_state_of in Hs; rewrite Hs in H; rewrite H; clear H;
    unfold map_rest_reconciliation_status_to_transition in *; cbn in *;
    destruct (os_status status); cbn in *; congruence || reflexivity.
Qed.
End WriterFacts.

(** Log and row agree.  Whatever the REST status says, reconciling an
    order appends one event for that order and leaves the row in the state the
    event names: the reported state when the validator accepts the move from
    the recorded state (an unreadable one counting as [FAILED]), and
    [RECONCILIATION_REQUIRED] otherwise; the result is never a phase before
    submission. *)
Theorem reconcile_order_consistent {DI : Decimal} {JS : Json} (new_v4 now sql_now : Z)
    (actor_id : option Z) (correlation_id : Z) (order : ExchangeTestnetOrderRecord)
    (status : ExchangeOrderStatus) :
  let (event, order') := reconcile_order new_v4 now sql_now actor_id correlation_id order status in
  let next := fst (map_rest_reconciliation_status_to_transition status) in
  le_next_state event = eo_execution_state order' /\
  le_client_order_id event = eo_client_order_id order /\
  eo_client_order_id order' = eo_client_order_id order /\
  (lifecycle_step (current_state order) next /\
     eo_execution_state order' = TestnetExecutionState.as_str next
   \/ ~ lifecycle_step (current_state order) next /\
     eo_execution_state order' = TestnetExecutionState.as_str ReconciliationRequired) /\
  phase (current_state order') = 4%nat.
Proof.
  pose proof (reconcile_order_state new_v4 now sql_now actor_id correlation_id order status) as H.
  destruct (reconcile_order new_v4 now sql_now actor_id correlation_id order status) as [ev o'].
  destruct H as (Hst & Hev & Hid & Hid' & _). cbn zeta in *.
  split; [done|]. split; [done|]. split; [done|].
  rewrite step_iff. apply current_state_of in Hst as Hcur. rewrite Hcur, Hst. clear Hst Hcur.
  set (next := fst (map_rest_reconciliation_status_to_transition status)) in *.
  assert (Hph : phase next = 4%nat).
  { subst next. unfold map_rest_reconciliation_status_to_transition. by destruct (os_status status). }
  destruct (bool_decide (next = UnknownExchangeState)) eqn:E1; cbn [orb].
  { apply bool_decide_eq_true in E1. split; [|done]. left. tauto. }
  apply bool_decide_eq_false in E1.
  destruct (transition_accepted (Some (current_state order)) next) eqn:E2.
  - split; [|done]. left. tauto.
  - split; [|done]. right. split; [|done]. by intros [?|?].
Qed.

(** Reconciliation does not settle.  An order already in the state the
    exchange reports (any but [PARTIALLY_FILLED]) is moved to
    [RECONCILIATION_REQUIRED] by the next reconciliation with the same report,
    back by the one after, and so on for ever: after [n] runs it is in its
    state when [n] is even and in [RECONCILIATION_REQUIRED] when [n] is odd.
    An untouched [NEW] order is such an order. *)
Theorem reconcile_oscillates {DI : Decimal} {JS : Json} (runs : list (Z * Z * Z))
    (actor_id : option Z) (correlation_id : Z) (order : ExchangeTestnetOrderRecord)
    (status : ExchangeOrderStatus) (s : TestnetExecutionState.t) :
  settles status s ->
  eo_execution_state order = TestnetExecutionState.as_str s ->
  eo_execution_state (reconcile_times runs actor_id correlation_id order status) =
    TestnetExecutionState.as_str
      (if Nat.even (length runs) then s else ReconciliationRequired).
Proof.
  intros Hs. unfold reconcile_times.
  assert (Hboth : forall o,
    (eo_execution_state o = TestnetExecutionState.as_str s ->
     eo_execution_state (foldl (fun o '(new_v4, now, sql_now) =>
        snd (reconcile_order new_v4 now sql_now actor_id correlation_id o status)) o runs)
     = TestnetExecutionState.as_str (if Nat.even (length runs) then s else ReconciliationRequired)) /\
    (eo_execution_state o = TestnetExecutionState.as_str ReconciliationRequired ->
     eo_execution_state (foldl (fun o '(new_v4, now, sql_now) =>
        snd (reconcile_order new_v4 now sql_now actor_id correlation_id o status)) o runs)
     = TestnetExecutionState.as_str (if Nat.even (length runs) then ReconciliationRequired else s))).
  { induction runs as [|[[u now] sql] runs IH]; intros o; [done|]. cbn [foldl length].
    rewrite Nat.even_succ, <- Nat.negb_even.
    destruct (settles_flip status s o u now sql actor_id correlation_id Hs) as [H1 H2].
    destruct (IH (snd (reconcile_order u now sql actor_id correlation_id o status))) as [I1 I2].
    split; intros Ho.
    - rewrite I2 by (by apply H1). by destruct (Nat.even (length runs)).
    - rewrite I1 by (by apply H2). by destruct (Nat.even (length runs)). }
  apply Hboth.
Qed.

(** The state a mark action writes. *)
Definition repair_target (action : TestnetRepairAction.t) : option TestnetExecutionState.t :=
  match action with
  | TestnetRepairAction.MarkReconciliationRequired => Some ReconciliationRequired
  | TestnetRepairAction.ManualRecheck => None
  | TestnetRepairAction.MarkAcked => Some ExchangeAcked
  | TestnetRepairAction.MarkCancelled => Some Cancelled
  | TestnetRepairAction.MarkRejected => Some Rejected
  | TestnetRepairAction.MarkFailed => Some Failed
  | TestnetRepairAction.SafeCancelRequest => Some CancelRequested
  end.

(** Repairs.  A repair is accepted only towards the state its action names
    (a recheck towards any state); a [FILLED] order stays [FILLED]; marking
    reconciliation never reopens a settled order other than a [FAILED] one; the
    actions an operator may not take are exactly those that need the owner; and
    [force] changes nothing. *)
Theorem repair_transition_spec (action : TestnetRepairAction.t)
    (previous : TestnetExecutionState.t) (next : option TestnetExecutionState.t) :
  (validate_testnet_repair_transition action previous next true
   = validate_testnet_repair_transition action previous next false) /\
  (is_ok (validate_testnet_repair_transition action previous next false) = true <->
   next <> None /\
   (repair_target action <> None -> next = repair_target action) /\
   (previous = Filled -> next = Some Filled) /\
   (action = TestnetRepairAction.MarkReconciliationRequired ->
      is_terminal previous = false \/ previous = Failed) /\
   (action = TestnetRepairAction.MarkAcked ->
      In previous [OrderSubmitRequested; New; ReconciliationRequired; UnknownExchangeState; Failed])) /\
  (allows_operator action = negb (requires_owner action)).
Proof.
  split; [|split]; [| |by destruct action].
  - destruct action, previous, next as [[]|]; vm_compute; reflexivity.
  - destruct action, previous, next as [[]|]; vm_compute; intuition congruence.
Qed.

Module LifecycleSample.
#[local] Existing Instance ExactDecimal.
#[local] Existing Instance PlainJson.

Example lifecycle_submits_at_most_once_witness :
  (count_state OrderSubmitRequested
     [RiskApproved; OrderPrepared; OrderSubmitRequested; ExchangeAcked; UnknownExchangeState;
      ReconciliationRequired; New; Filled] <= 1)%nat.
Proof.
  apply (lifecycle_submits_at_most_once IntentCreated).
  repeat (apply path_cons; [apply step_iff; (by left) || (by right)|]). apply path_nil.
Defined.

Example terminal_states_reactivate_through_unknown_witness :
  validate_testnet_transition (Some Filled) New TestnetExecutionTransitionSource.PrivateStream
    = Err (InvalidTransition (Some Filled) New TestnetExecutionTransitionSource.PrivateStream) /\
  lifecycle_reaches Filled New.
Proof.
  destruct (terminal_states_reactivate_through_unknown Filled eq_refl) as [H1 H2].
  split; [rewrite H1; reflexivity|apply H2; reflexivity].
Defined.

Definition status (s : ExchangeOrderState.t) : ExchangeOrderStatus := {|
  os_exchange := ExchangeName.Binance; os_environment := ExchangeEnvironment.Testnet;
  os_symbol := "BTCUSDT"; os_client_order_id := "c1"; os_exchange_order_id := Some "42";
  os_status := s; os_side := ExchangeOrderSide.Buy; os_order_type := ExchangeOrderType.Limit;
  os_time_in_force := Some ExchangeOrderTimeInForce.Gtc; os_original_qty := None;
  os_executed_qty := ZERO; os_cumulative_quote_qty := ZERO; os_limit_price := None;
  os_updated_at := 0; os_raw_payload := jnull |}.

Definition order (s : TestnetExecutionState.t) : ExchangeTestnetOrderRecord := {|
  eo_id := 1; eo_exchange := "binance"; eo_environment := "testnet"; eo_client_order_id := "c1";
  eo_exchange_order_id := Some "42"; eo_symbol := "BTCUSDT"; eo_side := "BUY";
  eo_order_type := "LIMIT"; eo_time_in_force := Some "GTC"; eo_requested_qty := None;
  eo_requested_notional := None; eo_limit_price := None; eo_status := "NEW";
  eo_execution_state := TestnetExecutionState.as_str s; eo_ack_payload := None;
  eo_latest_status_payload := None; eo_risk_decision_id := None; eo_created_by := None;
  eo_last_transition_at := None; eo_created_at := 0; eo_updated_at := 0 |}.

(** A resting order, reconciled three times while nothing happens to it. *)
Example reconcile_oscillates_witness :
  eo_execution_state (reconcile_times [(1, 1, 1); (2, 2, 2); (3, 3, 3)] None 9 (order New)
    (status ExchangeOrderState.New)) = "RECONCILIATION_REQUIRED".
Proof.
  rewrite (reconcile_oscillates [(1, 1, 1); (2, 2, 2); (3, 3, 3)] None 9 (order New)
    (status ExchangeOrderState.New) New); [reflexivity| |reflexivity].
  split; [reflexivity|discriminate].
Defined.
End LifecycleSample.
