(* ===== verification/Reconcile.v ===== *)
(** * The reconciliation run

    crates/api/src/exchange_reconcile.rs: the orders of the testnet are asked for one by
    one, their rows and lifecycle events written (Lifecycle.v), what differs recorded as a
    mismatch, and the run itself counted and closed.

    The exchange adapter is an argument: [ke_get_order_status n] answers the n-th request
    of a run.  Telemetry, audit rows and the payloads of events are left out; identifiers
    are fresh, so no insert is refused. *)

From Stdlib Require Import ZArith QArith Lia List String Permutation.
From stdpp Require Import base list strings.
From S2P Require Import Prelude Text Host Types ShadowTypes MarketData Lifecycle.

#[local] Open Scope Z_scope.

(** [str::contains]. *)
Fixpoint str_contains (needle hay : string) : bool :=
  String.prefix needle hay ||
  match hay with EmptyString => false | String _ hay => str_contains needle hay end.

Module ExchangeError.
Inductive t :=
  | Configuration (message : string)
  | LiveEnvironmentDisabled
  | Validation (message : string)
  | Authentication
  | RateLimited
  | Api (message : string)
  | Transport (message : string)
  | Serialization (message : string).
Definition to_string (x : t) : string :=
  match x with
  | Configuration message => "exchange adapter configuration is missing: " +:+ message
  | LiveEnvironmentDisabled => "live exchange environment is disabled"
  | Validation message => "exchange request validation failed: " +:+ message
  | Authentication => "exchange authentication failed"
  | RateLimited => "exchange request was rate limited"
  | Api message => "exchange returned an API error: " +:+ message
  | Transport message => "exchange transport error: " +:+ message
  | Serialization message => "exchange response could not be decoded: " +:+ message
  end.
End ExchangeError.

Definition is_exchange_order_missing (err : ExchangeError.t) : bool :=
  match err with
  | ExchangeError.Api message =>
      let message := to_ascii_lowercase message in
      str_contains "order does not exist" message || str_contains "-2013" message
  | _ => false
  end.

Module NormalizedLocalStatus.
Inductive t :=
  | New
  | PartiallyFilled
  | Filled
  | Cancelled
  | Rejected
  | Expired.
#[global] Instance eq_dec : EqDecision t.
Proof. solve_decision. Defined.
End NormalizedLocalStatus.

Definition normalize_local_status (value : string) : option NormalizedLocalStatus.t :=
  let value := to_ascii_uppercase (trim value) in
  if String.eqb value "ACKED" || String.eqb value "NEW" then Some NormalizedLocalStatus.New
  else if String.eqb value "PARTIALLY_FILLED" then Some NormalizedLocalStatus.PartiallyFilled
  else if String.eqb value "FILLED" then Some NormalizedLocalStatus.Filled
  else if String.eqb value "CANCELED" || String.eqb value "CANCELLED"
  then Some NormalizedLocalStatus.Cancelled
  else if String.eqb value "REJECTED" then Some NormalizedLocalStatus.Rejected
  else if String.eqb value "EXPIRED" then Some NormalizedLocalStatus.Expired
  else None.

Record ExchangeReconciliationRequest := {
  rq_exchange : ExchangeName.t;
  rq_environment : ExchangeEnvironment.t;
  rq_limit : Z;
  rq_status_filter : list string;
  rq_correlation_id : option Z
}.

Definition MAX_LIMIT : Z := 200.

Definition ExchangeReconciliationRequest_validate (self : ExchangeReconciliationRequest) : result unit :=
  if bool_decide (rq_environment self = ExchangeEnvironment.Live)
  then Err CoreError.LiveExchangeEnvironmentRejected
  else if rq_limit self <=? 0 then Err (CoreError.InvalidExchangeReconciliationLimit (rq_limit self))
  else if MAX_LIMIT <? rq_limit self
  then Err (CoreError.ExchangeReconciliationLimitTooHigh (rq_limit self))
  else if existsb (fun status => is_empty (trim status)) (rq_status_filter self)
  then Err CoreError.InvalidExchangeReconciliationStatusFilter
  else Ok tt.

Record ExchangeReconciliationSummary := {
  sy_checked_orders : Z;
  sy_matched_orders : Z;
  sy_mismatched_orders : Z;
  sy_unknown_orders : Z
}.

Record ExchangeReconciliationRunRecord := {
  ru_id : Z;
  ru_exchange : string;
  ru_environment : string;
  ru_status : string;
  ru_checked_orders : Z;
  ru_matched_orders : Z;
  ru_mismatched_orders : Z;
  ru_unknown_orders : Z;
  ru_failed_reason : option string;
  ru_correlation_id : Z;
  ru_started_at : Z;
  ru_completed_at : option Z
}.

Record ExchangeReconciliationRun := {
  rr_id : Z;
  rr_exchange : ExchangeName.t;
  rr_environment : ExchangeEnvironment.t;
  rr_status : ExchangeReconciliationStatus.t;
  rr_checked_orders : Z;
  rr_matched_orders : Z;
  rr_mismatched_orders : Z;
  rr_unknown_orders : Z;
  rr_failed_reason : option string;
  rr_started_at : Z;
  rr_completed_at : option Z;
  rr_correlation_id : Z
}.

Inductive ReconcileTestnetOrdersError :=
  | ReconcileValidation (error : CoreError.t)
  | ReconcileFailed (run_id correlation_id : Z) (reason : string)
  | ReconcileUnexpected (error : CoreError.t).

Definition run_from_record (record : ExchangeReconciliationRunRecord) : result ExchangeReconciliationRun :=
  exchange ← from_str (A := ExchangeName.t) (ru_exchange record);
  environment ← from_str (A := ExchangeEnvironment.t) (ru_environment record);
  status ← from_str (A := ExchangeReconciliationStatus.t) (ru_status record);
  Ok {| rr_id := ru_id record; rr_exchange := exchange; rr_environment := environment;
        rr_status := status; rr_checked_orders := ru_checked_orders record;
        rr_matched_orders := ru_matched_orders record;
        rr_mismatched_orders := ru_mismatched_orders record;
        rr_unknown_orders := ru_unknown_orders record; rr_failed_reason := ru_failed_reason record;
        rr_started_at := ru_started_at record; rr_completed_at := ru_completed_at record;
        rr_correlation_id := ru_correlation_id record |}.

Section Reconciliation.
Context {DI : Decimal} {JS : Json} {JB : JsonBuild}.

(** A row of exchange_reconciliation_mismatches. *)
Record ExchangeReconciliationMismatchRecord := {
  mi_id : Z;
  mi_run_id : Z;
  mi_client_order_id : string;
  mi_local_status : option string;
  mi_exchange_status : option string;
  mi_mismatch_kind : string;
  mi_action : string;
  mi_payload : json;
  mi_created_at : Z
}.

Record ExchangeReconciliationMismatch := {
  mm_id : Z;
  mm_run_id : Z;
  mm_client_order_id : string;
  mm_local_status : option string;
  mm_exchange_status : option string;
  mm_mismatch_kind : ExchangeReconciliationMismatchKind.t;
  mm_action : ExchangeReconciliationAction.t;
  mm_payload : json;
  mm_created_at : Z
}.

Definition mismatch_from_record (record : ExchangeReconciliationMismatchRecord)
    : result ExchangeReconciliationMismatch :=
  kind ← from_str (A := ExchangeReconciliationMismatchKind.t) (mi_mismatch_kind record);
  action ← from_str (A := ExchangeReconciliationAction.t) (mi_action record);
  Ok {| mm_id := mi_id record; mm_run_id := mi_run_id record;
        mm_client_order_id := mi_client_order_id record; mm_local_status := mi_local_status record;
        mm_exchange_status := mi_exchange_status record; mm_mismatch_kind := kind;
        mm_action := action; mm_payload := mi_payload record; mm_created_at := mi_created_at record |}.

(** ** One order *)

Definition mismatch_payload (local_order : ExchangeTestnetOrderRecord)
    (exchange_status : ExchangeOrderStatus) (reason : string) : json :=
  jobj [("reason", jstr reason); ("symbol", jstr (eo_symbol local_order));
        ("exchange_order_id", jopt jstr (os_exchange_order_id exchange_status));
        ("local_status", jstr (eo_status local_order));
        ("exchange_status", jstr (ExchangeOrderState.as_str (os_status exchange_status)));
        ("ack_payload_present", jbool (bool_decide (is_Some (eo_ack_payload local_order))));
        ("latest_status_payload_present",
         jbool (bool_decide (is_Some (eo_latest_status_payload local_order))));
        ("exchange_payload", os_raw_payload exchange_status)].

Record EvaluatedOrderReconciliation := {
  ev_canonical_local_status : option string;
  ev_mismatch : option (ExchangeReconciliationMismatchKind.t * ExchangeReconciliationAction.t * json)
}.

Definition evaluate_order_reconciliation (local_order : ExchangeTestnetOrderRecord)
    (exchange_status : ExchangeOrderStatus) : EvaluatedOrderReconciliation :=
  let local_normalized := normalize_local_status (eo_status local_order) in
  let exchange_local_status := local_testnet_status_from_exchange_state (os_status exchange_status) in
  let mismatched kind action reason := {|
    ev_canonical_local_status := exchange_local_status;
    ev_mismatch := Some (kind, action, mismatch_payload local_order exchange_status reason) |} in
  match exchange_local_status with
  | None =>
      mismatched ExchangeReconciliationMismatchKind.UnknownExchangeState
        ExchangeReconciliationAction.Alert "exchange status could not be mapped safely"
  | Some status =>
      let exchange_normalized := normalize_local_status status in
      if String.eqb (eo_status local_order) "SUBMIT_REQUESTED" &&
         bool_decide (is_Some (eo_ack_payload local_order)) then
        mismatched ExchangeReconciliationMismatchKind.AckWithoutStatus
          ExchangeReconciliationAction.UpdateLocalStatus
          "ack payload exists but local status was not refreshed"
      else if bool_decide (local_normalized = Some NormalizedLocalStatus.Cancelled) &&
              negb (bool_decide (exchange_normalized = Some NormalizedLocalStatus.Cancelled)) then
        mismatched ExchangeReconciliationMismatchKind.CancelNotConfirmed
          ExchangeReconciliationAction.Alert "local cancel was not confirmed by exchange"
      else if bool_decide (local_normalized = exchange_normalized) then
        {| ev_canonical_local_status := exchange_local_status; ev_mismatch := None |}
      else
        mismatched ExchangeReconciliationMismatchKind.StatusMismatch
          ExchangeReconciliationAction.UpdateLocalStatus "local and exchange statuses differ"
  end.

(** What one fetched status does: the event appended, and the change of the rows with the
    client identifier of the order.  [order] is the row as the run listed it. *)
Definition reconcile_writes (new_v4 now sql_now : Z) (actor_id : option Z) (correlation_id : Z)
    (order : ExchangeTestnetOrderRecord) (exchange_status : ExchangeOrderStatus)
    : ExchangeTestnetOrderLifecycleEventRecord *
      (ExchangeTestnetOrderRecord -> ExchangeTestnetOrderRecord) :=
  let evaluation := evaluate_order_reconciliation order exchange_status in
  let persisted_status := default (eo_status order) (ev_canonical_local_status evaluation) in
  let '(next_state, reason) := map_rest_reconciliation_status_to_transition exchange_status in
  let outcome := apply_testnet_transition (snapshot_of order) next_state
    TestnetExecutionTransitionSource.RestReconciliation reason
    (Some (os_raw_payload exchange_status)) in
  let event := evidence_event new_v4 now order outcome
    TestnetExecutionTransitionSource.RestReconciliation "invalid_rest_reconciliation_transition"
    (os_raw_payload exchange_status) actor_id (Some correlation_id) in
  match outcome with
  | Ok transition =>
      (event, fun row => update_order sql_now row event (os_exchange_order_id exchange_status)
                (Some persisted_status) (tt_next_state transition) (tt_payload transition) None)
  | _ =>
      (event, fun row => update_order sql_now row event (os_exchange_order_id exchange_status)
                (Some persisted_status) TestnetExecutionState.ReconciliationRequired
                (Some (os_raw_payload exchange_status)) None)
  end.

(** ** The run *)

Record ReconcileStore := {
  ks_orders : list ExchangeTestnetOrderRecord;
  ks_lifecycle : list ExchangeTestnetOrderLifecycleEventRecord;
  ks_runs : list ExchangeReconciliationRunRecord;
  ks_mismatches : list ExchangeReconciliationMismatchRecord;
  ks_events : list (Z * string)
}.

(** What a run reads outside the store.  The numbers are those of the orders it asks for:
    [ke_ids n] are the identifiers of the n-th event and mismatch, [ke_now n] the times of
    the run and of the database at the n-th order.  [ke_newest_first] sorts rows by
    updated_at. *)
Record ReconcileEnv := {
  ke_get_order_status : nat -> string -> res ExchangeError.t ExchangeOrderStatus;
  ke_run_id : Z;
  ke_correlation_id : Z;
  ke_actor_id : option Z;
  ke_ids : nat -> Z * Z;
  ke_now : nat -> Z * Z;
  ke_started_at : Z;
  ke_completed_at : Z;
  ke_newest_first : list ExchangeTestnetOrderRecord -> list ExchangeTestnetOrderRecord
}.

Definition list_exchange_testnet_orders_for_reconciliation (env : ReconcileEnv) (limit : Z)
    (status_filter : list string) (s : ReconcileStore) : list ExchangeTestnetOrderRecord :=
  firstn (Z.to_nat limit) (ke_newest_first env
    (List.filter (fun order =>
       match status_filter with
       | [] => true
       | _ => existsb (String.eqb (eo_status order)) status_filter
       end) (ks_orders s))).

Definition append_lifecycle_event_and_update_order (event : ExchangeTestnetOrderLifecycleEventRecord)
    (update : ExchangeTestnetOrderRecord -> ExchangeTestnetOrderRecord) (s : ReconcileStore)
    : ReconcileStore := {|
  ks_orders := map (fun row => if String.eqb (eo_client_order_id row) (le_client_order_id event)
                               then update row else row) (ks_orders s);
  ks_lifecycle := ks_lifecycle s ++ [event];
  ks_runs := ks_runs s; ks_mismatches := ks_mismatches s; ks_events := ks_events s |}.

Definition insert_exchange_reconciliation_run (run : ExchangeReconciliationRunRecord)
    (s : ReconcileStore) : ReconcileStore := {|
  ks_orders := ks_orders s; ks_lifecycle := ks_lifecycle s; ks_runs := ks_runs s ++ [run];
  ks_mismatches := ks_mismatches s; ks_events := ks_events s |}.

Definition insert_exchange_reconciliation_mismatch (mismatch : ExchangeReconciliationMismatchRecord)
    (s : ReconcileStore) : ReconcileStore := {|
  ks_orders := ks_orders s; ks_lifecycle := ks_lifecycle s; ks_runs := ks_runs s;
  ks_mismatches := ks_mismatches s ++ [mismatch]; ks_events := ks_events s |}.

Definition reconcile_event (correlation_id : Z) (event_type : string) (s : ReconcileStore)
    : ReconcileStore := {|
  ks_orders := ks_orders s; ks_lifecycle := ks_lifecycle s; ks_runs := ks_runs s;
  ks_mismatches := ks_mismatches s; ks_events := ks_events s ++ [(correlation_id, event_type)] |}.

(** The row of a run when it is completed or failed. *)
Definition closed_run (sql_now : Z) (status : ExchangeReconciliationStatus.t)
    (summary : ExchangeReconciliationSummary) (failed_reason : option string)
    (run : ExchangeReconciliationRunRecord) : ExchangeReconciliationRunRecord := {|
  ru_id := ru_id run; ru_exchange := ru_exchange run; ru_environment := ru_environment run;
  ru_status := ExchangeReconciliationStatus.as_str status;
  ru_checked_orders := sy_checked_orders summary; ru_matched_orders := sy_matched_orders summary;
  ru_mismatched_orders := sy_mismatched_orders summary;
  ru_unknown_orders := sy_unknown_orders summary; ru_failed_reason := failed_reason;
  ru_correlation_id := ru_correlation_id run; ru_started_at := ru_started_at run;
  ru_completed_at := Some sql_now |}.

Definition close_exchange_reconciliation_run (run_id : Z)
    (close : ExchangeReconciliationRunRecord -> ExchangeReconciliationRunRecord) (s : ReconcileStore)
    : option ExchangeReconciliationRunRecord * ReconcileStore :=
  let runs := map (fun run => if ru_id run =? run_id then close run else run) (ks_runs s) in
  (find (fun run => ru_id run =? run_id) runs,
   {| ks_orders := ks_orders s; ks_lifecycle := ks_lifecycle s; ks_runs := runs;
      ks_mismatches := ks_mismatches s; ks_events := ks_events s |}).

(** Counting one order. *)
Definition count_order (mismatched unknown : bool) (summary : ExchangeReconciliationSummary)
    : ExchangeReconciliationSummary := {|
  sy_checked_orders := sy_checked_orders summary + 1;
  sy_matched_orders := sy_matched_orders summary + Z.b2z (negb mismatched);
  sy_mismatched_orders := sy_mismatched_orders summary + Z.b2z mismatched;
  sy_unknown_orders := sy_unknown_orders summary + Z.b2z unknown |}.

Definition is_unknown_kind (kind : ExchangeReconciliationMismatchKind.t) : bool :=
  bool_decide (kind = ExchangeReconciliationMismatchKind.ExchangeOrderMissing) ||
  bool_decide (kind = ExchangeReconciliationMismatchKind.UnknownExchangeState).

Definition mismatch_record (env : ReconcileEnv) (n : nat) (order : ExchangeTestnetOrderRecord)
    (exchange_status : option string) (kind : ExchangeReconciliationMismatchKind.t)
    (action : ExchangeReconciliationAction.t) (payload : json) : ExchangeReconciliationMismatchRecord := {|
  mi_id := snd (ke_ids env n); mi_run_id := ke_run_id env;
  mi_client_order_id := eo_client_order_id order; mi_local_status := Some (eo_status order);
  mi_exchange_status := exchange_status;
  mi_mismatch_kind := ExchangeReconciliationMismatchKind.as_str kind;
  mi_action := ExchangeReconciliationAction.as_str action; mi_payload := payload;
  mi_created_at := fst (ke_now env n) |}.

(** How the loop over the orders ends. *)
Inductive loop_outcome :=
  | LoopDone (summary : ExchangeReconciliationSummary)
  | LoopFailed (summary : ExchangeReconciliationSummary) (reason : string)
  | LoopError (error : CoreError.t)
  | LoopPanic.

Fixpoint reconcile_orders (env : ReconcileEnv) (correlation_id : Z) (n : nat)
    (orders : list ExchangeTestnetOrderRecord) (summary : ExchangeReconciliationSummary)
    (s : ReconcileStore) : loop_outcome * ReconcileStore :=
  match orders with
  | [] => (LoopDone summary, s)
  | order :: orders =>
      let record mismatch unknown s :=
        let s := reconcile_event correlation_id "exchange.reconciliation.mismatch"
                   (insert_exchange_reconciliation_mismatch mismatch s) in
        match mismatch_from_record mismatch with
        | Ok _ => reconcile_orders env correlation_id (S n) orders (count_order true unknown summary) s
        | Err e => (LoopError e, s)
        | Panic => (LoopPanic, s)
        end in
      match ke_get_order_status env n (eo_client_order_id order) with
      | Ok exchange_status =>
          let '(event, update) := reconcile_writes (fst (ke_ids env n)) (fst (ke_now env n))
            (snd (ke_now env n)) (ke_actor_id env) correlation_id order exchange_status in
          let s := append_lifecycle_event_and_update_order event update s in
          match ev_mismatch (evaluate_order_reconciliation order exchange_status) with
          | Some (kind, action, payload) =>
              record (mismatch_record env n order
                        (Some (ExchangeOrderState.as_str (os_status exchange_status))) kind action payload)
                (is_unknown_kind kind) s
          | None => reconcile_orders env correlation_id (S n) orders (count_order false false summary) s
          end
      | Err err =>
          if is_exchange_order_missing err then
            record (mismatch_record env n order None
                      ExchangeReconciliationMismatchKind.ExchangeOrderMissing
                      ExchangeReconciliationAction.Alert
                      (jobj [("symbol", jstr (eo_symbol order));
                             ("reason", jstr (ExchangeError.to_string err))])) true s
          else (LoopFailed summary
                  ("failed to fetch testnet order status: " +:+ ExchangeError.to_string err), s)
      | Panic => (LoopPanic, s)
      end
  end.

Definition no_orders_checked : ExchangeReconciliationSummary := {|
  sy_checked_orders := 0; sy_matched_orders := 0; sy_mismatched_orders := 0; sy_unknown_orders := 0 |}.

Definition reconcile_testnet_orders (env : ReconcileEnv) (request : ExchangeReconciliationRequest)
    (s : ReconcileStore)
    : res ReconcileTestnetOrdersError ExchangeReconciliationRun * ReconcileStore :=
  match ExchangeReconciliationRequest_validate request with
  | Err e => (Err (ReconcileValidation e), s)
  | Panic => (Panic, s)
  | Ok _ =>
  if negb (bool_decide (rq_exchange request = ExchangeName.Binance)) then
    (Err (ReconcileValidation
       (CoreError.UnsupportedExchangeName (ExchangeName.as_str (rq_exchange request)))), s)
  else if negb (bool_decide (rq_environment request = ExchangeEnvironment.Testnet)) then
    (Err (ReconcileValidation CoreError.LiveExchangeEnvironmentRejected), s)
  else
  let correlation_id := default (ke_correlation_id env) (rq_correlation_id request) in
  let run_record := {|
    ru_id := ke_run_id env; ru_exchange := ExchangeName.as_str (rq_exchange request);
    ru_environment := ExchangeEnvironment.as_str (rq_environment request);
    ru_status := ExchangeReconciliationStatus.as_str ExchangeReconciliationStatus.Running;
    ru_checked_orders := 0; ru_matched_orders := 0; ru_mismatched_orders := 0; ru_unknown_orders := 0;
    ru_failed_reason := None; ru_correlation_id := correlation_id;
    ru_started_at := ke_started_at env; ru_completed_at := None |} in
  let s := reconcile_event correlation_id "exchange.reconciliation.started"
             (insert_exchange_reconciliation_run run_record s) in
  let orders := list_exchange_testnet_orders_for_reconciliation env (rq_limit request)
    (rq_status_filter request) s in
  let close status summary failed_reason :=
    closed_run (ke_completed_at env) status summary failed_reason in
  match reconcile_orders env correlation_id 0 orders no_orders_checked s with
  | (LoopDone summary, s) =>
      let closing := close ExchangeReconciliationStatus.Completed summary None in
      let '(completed, s) := close_exchange_reconciliation_run (ke_run_id env) closing s in
      let s := reconcile_event correlation_id "exchange.reconciliation.completed" s in
      match run_from_record (default (closing run_record) completed) with
      | Ok run => (Ok run, s)
      | Err e => (Err (ReconcileUnexpected e), s)
      | Panic => (Panic, s)
      end
  | (LoopFailed summary reason, s) =>
      let closing := close ExchangeReconciliationStatus.Failed summary (Some reason) in
      let '(failed, s) := close_exchange_reconciliation_run (ke_run_id env) closing s in
      let s := reconcile_event correlation_id "exchange.reconciliation.failed" s in
      (Err (ReconcileFailed (ru_id (default (closing run_record) failed)) correlation_id reason), s)
  | (LoopError e, s) => (Err (ReconcileUnexpected e), s)
  | (LoopPanic, s) => (Panic, s)
  end
  end.

(** ** Facts *)

Lemma run_record_reads (exchange : ExchangeName.t) (environment : ExchangeEnvironment.t)
    (status : ExchangeReconciliationStatus.t) (run : ExchangeReconciliationRunRecord) :
  ru_exchange run = ExchangeName.as_str exchange ->
  ru_environment run = ExchangeEnvironment.as_str environment ->
  ru_status run = ExchangeReconciliationStatus.as_str status ->
  exists run', run_from_record run = Ok run' /\ rr_id run' = ru_id run /\ rr_status run' = status /\
    rr_checked_orders run' = ru_checked_orders run /\ rr_matched_orders run' = ru_matched_orders run /\
    rr_mismatched_orders run' = ru_mismatched_orders run /\
    rr_unknown_orders run' = ru_unknown_orders run.
Proof.
  intros H1 H2 H3. unfold run_from_record. rewrite H1, H2, H3.
  rewrite (from_str_print (as_str := ExchangeName.as_str)). cbn [mbind res_bind].
  rewrite (from_str_print (as_str := ExchangeEnvironment.as_str)). cbn [mbind res_bind].
  rewrite (from_str_print (as_str := ExchangeReconciliationStatus.as_str)). cbn [mbind res_bind].
  eexists. split; [reflexivity|]. done.
Qed.

Lemma mismatch_record_reads env n order exchange_status kind action payload :
  exists mismatch, mismatch_from_record (mismatch_record env n order exchange_status kind action payload)
    = Ok mismatch.
Proof.
  unfold mismatch_from_record. cbn [mismatch_record mi_mismatch_kind mi_action].
  rewrite (from_str_print (as_str := ExchangeReconciliationMismatchKind.as_str)). cbn [mbind res_bind].
  rewrite (from_str_print (as_str := ExchangeReconciliationAction.as_str)). cbn [mbind res_bind]. eauto.
Qed.

Lemma canonical_status order status :
  ev_canonical_local_status (evaluate_order_reconciliation order status) =
  local_testnet_status_from_exchange_state (os_status status).
Proof.
  unfold evaluate_order_reconciliation. cbv zeta.
  destruct (local_testnet_status_from_exchange_state (os_status status)); [|done].
  by repeat case_match.
Qed.

(** The writes of a run are those of [reconcile_order], applied to the listed row. *)
Lemma reconcile_writes_order new_v4 now sql_now actor_id correlation_id order status :
  let '(event, update) := reconcile_writes new_v4 now sql_now actor_id correlation_id order status in
  (event, update order) = reconcile_order new_v4 now sql_now actor_id correlation_id order status.
Proof.
  unfold reconcile_writes, reconcile_order. cbv zeta. rewrite canonical_status.
  destruct (map_rest_reconciliation_status_to_transition status) as [next reason].
  by destruct (apply_testnet_transition _ _ _ _ _).
Qed.

Lemma reconcile_writes_ids new_v4 now sql_now actor_id correlation_id order status :
  let '(event, update) := reconcile_writes new_v4 now sql_now actor_id correlation_id order status in
  le_client_order_id event = eo_client_order_id order /\
  forall row, eo_client_order_id (update row) = eo_client_order_id row.
Proof.
  unfold reconcile_writes. cbv zeta.
  destruct (map_rest_reconciliation_status_to_transition status) as [next reason].
  unfold evidence_event. by destruct (apply_testnet_transition _ _ _ _ _).
Qed.

(** What the run makes of a row: the writes of the orders asked for, in their order. *)
Definition row_step (env : ReconcileEnv) (correlation_id : Z) (n : nat)
    (order row : ExchangeTestnetOrderRecord) : ExchangeTestnetOrderRecord :=
  match ke_get_order_status env n (eo_client_order_id order) with
  | Ok status =>
      if String.eqb (eo_client_order_id row) (eo_client_order_id order)
      then snd (reconcile_writes (fst (ke_ids env n)) (fst (ke_now env n)) (snd (ke_now env n))
                  (ke_actor_id env) correlation_id order status) row
      else row
  | _ => row
  end.

Fixpoint row_after (env : ReconcileEnv) (correlation_id : Z) (n : nat)
    (orders : list ExchangeTestnetOrderRecord) (row : ExchangeTestnetOrderRecord)
    : ExchangeTestnetOrderRecord :=
  match orders with
  | [] => row
  | order :: orders => row_after env correlation_id (S n) orders (row_step env correlation_id n order row)
  end.

(** What the loop did with the orders [pre] before it ended in [s'] with [summary']. *)
Record loop_did (env : ReconcileEnv) (correlation_id : Z) (n : nat)
    (pre : list ExchangeTestnetOrderRecord) (summary summary' : ExchangeReconciliationSummary)
    (s s' : ReconcileStore) : Prop := {
  ld_orders : ks_orders s' = map (row_after env correlation_id n pre) (ks_orders s);
  ld_runs : ks_runs s' = ks_runs s;
  ld_checked : sy_checked_orders summary' = sy_checked_orders summary + Z.of_nat (length pre);
  ld_split : sy_matched_orders summary' + sy_mismatched_orders summary' =
    sy_matched_orders summary + sy_mismatched_orders summary + Z.of_nat (length pre);
  ld_matched : sy_matched_orders summary <= sy_matched_orders summary';
  ld_mismatches : exists rows, ks_mismatches s' = ks_mismatches s ++ rows /\
    sy_mismatched_orders summary' = sy_mismatched_orders summary + Z.of_nat (length rows) /\
    sy_unknown_orders summary <= sy_unknown_orders summary' /\
    sy_unknown_orders summary' <= sy_unknown_orders summary + Z.of_nat (length rows) /\
    Forall (fun row => mi_run_id row = ke_run_id env) rows;
  ld_lifecycle : exists events, ks_lifecycle s' = ks_lifecycle s ++ events /\
    (length events <= length pre)%nat
}.

Lemma row_after_nil env correlation_id n rows : map (row_after env correlation_id n []) rows = rows.
Proof. apply map_id. Qed.

Lemma loop_did_nil env correlation_id n summary s : loop_did env correlation_id n [] summary summary s s.
Proof.
  split; cbn [length]; rewrite ?row_after_nil; try done; try lia.
  - exists []. rewrite app_nil_r. repeat split; cbn; try lia. constructor.
  - exists []. by rewrite app_nil_r.
Qed.

(** One more order in front. *)
Lemma loop_did_cons env correlation_id n order pre summary mid summary' s s1 s' mismatched unknown rows events :
  ks_orders s1 = map (row_step env correlation_id n order) (ks_orders s) ->
  ks_runs s1 = ks_runs s -> mid = count_order mismatched unknown summary ->
  ks_mismatches s1 = ks_mismatches s ++ rows -> length rows = (if mismatched then 1 else 0)%nat ->
  (unknown = true -> mismatched = true) -> Forall (fun row => mi_run_id row = ke_run_id env) rows ->
  ks_lifecycle s1 = ks_lifecycle s ++ events -> (length events <= 1)%nat ->
  loop_did env correlation_id (S n) pre mid summary' s1 s' ->
  loop_did env correlation_id n (order :: pre) summary summary' s s'.
Proof.
  intros Ho Hr -> Hm Hlen Hun Hrun Hl Hev [Do Dr Dc Ds Dm (rows' & Dmi & Dn & Du1 & Du2 & Drun) (evs & Dl & De)].
  cbn [count_order sy_checked_orders sy_matched_orders sy_mismatched_orders sy_unknown_orders] in *.
  split; cbn [length].
  - rewrite Do, Ho, map_map. done.
  - by rewrite Dr.
  - lia.
  - destruct mismatched; cbn in *; lia.
  - destruct mismatched; cbn in *; lia.
  - exists (rows ++ rows'). rewrite Dmi, Hm, app_assoc, length_app, Hlen. split; [done|].
    destruct mismatched, unknown; cbn in *; try (by discriminate (Hun eq_refl));
      (do 3 (split; [lia|])); by apply Forall_app.
  - exists (events ++ evs). rewrite Dl, Hl, app_assoc, length_app. split; [done|]. lia.
Qed.

(** How the loop ended with [post] left over: after all orders, at an order the exchange
    fails on, or never because the adapter itself does not answer. *)
Definition loop_ended (env : ReconcileEnv) (n : nat) (pre post : list ExchangeTestnetOrderRecord)
    (summary' : ExchangeReconciliationSummary) (out : loop_outcome) : Prop :=
  match out with
  | LoopDone summary'' => post = [] /\ summary'' = summary'
  | LoopFailed summary'' reason => summary'' = summary' /\
      exists order rest err, post = order :: rest /\
        ke_get_order_status env (n + length pre) (eo_client_order_id order) = Err err /\
        is_exchange_order_missing err = false /\
        reason = "failed to fetch testnet order status: " +:+ ExchangeError.to_string err
  | LoopError _ => False
  | LoopPanic => exists order rest, post = order :: rest /\
      ke_get_order_status env (n + length pre) (eo_client_order_id order) = Panic
  end.

Lemma loop_cases env correlation_id orders : forall n summary s out s',
  reconcile_orders env correlation_id n orders summary s = (out, s') ->
  exists pre post summary', orders = pre ++ post /\
    loop_did env correlation_id n pre summary summary' s s' /\ loop_ended env n pre post summary' out.
Proof.
  induction orders as [|order orders IH]; intros n summary s out s'.
  { intros [= <- <-]. exists [], [], summary. split; [done|]. split; [apply loop_did_nil|done]. }
  assert (forall mid s1 mismatched unknown rows events,
    reconcile_orders env correlation_id (S n) orders mid s1 = (out, s') ->
    ks_orders s1 = map (row_step env correlation_id n order) (ks_orders s) ->
    ks_runs s1 = ks_runs s -> mid = count_order mismatched unknown summary ->
    ks_mismatches s1 = ks_mismatches s ++ rows -> length rows = (if mismatched then 1 else 0)%nat ->
    (unknown = true -> mismatched = true) -> Forall (fun row => mi_run_id row = ke_run_id env) rows ->
    ks_lifecycle s1 = ks_lifecycle s ++ events -> (length events <= 1)%nat ->
    exists pre post summary', order :: orders = pre ++ post /\
      loop_did env correlation_id n pre summary summary' s s' /\
      loop_ended env n pre post summary' out) as Hgo.
  { intros mid s1 mismatched unknown rows events Hrun H1 H2 H3 H4 H5 H6 H7 H8 H9.
    apply IH in Hrun as (pre & post & summary' & -> & Hdid & Hout). exists (order :: pre), post, summary'.
    split; [done|]. split; [by eapply loop_did_cons|]. revert Hout. unfold loop_ended.
    cbn [length]. by rewrite Nat.add_succ_r. }
  clear IH. cbn [reconcile_orders]. cbv zeta.
  destruct (ke_get_order_status env n (eo_client_order_id order)) as [status|err|] eqn:Hstatus.
  - pose proof (reconcile_writes_ids (fst (ke_ids env n)) (fst (ke_now env n)) (snd (ke_now env n))
      (ke_actor_id env) correlation_id order status) as Hids.
    destruct (reconcile_writes _ _ _ _ _ order status) as [event update] eqn:Hw.
    destruct Hids as [Hid _].
    set (s1 := append_lifecycle_event_and_update_order event update s).
    assert (ks_orders s1 = map (row_step env correlation_id n order) (ks_orders s)) as Hrows.
    { cbn [s1 append_lifecycle_event_and_update_order ks_orders]. apply map_ext. intros row.
      unfold row_step. by rewrite Hstatus, Hw, Hid. }
    destruct (ev_mismatch (evaluate_order_reconciliation order status)) as [[[kind action] payload]|].
    + destruct (mismatch_record_reads env n order
        (Some (ExchangeOrderState.as_str (os_status status))) kind action payload) as [mismatch ->].
      intros Hrun. eapply (Hgo _ _ true (is_unknown_kind kind) [_] [event]);
        [exact Hrun|exact Hrows|done|done|done|done|done|by repeat constructor|done|cbn; lia].
    + intros Hrun. eapply (Hgo _ _ false false [] [event]);
        [exact Hrun|exact Hrows|done|done|by rewrite app_nil_r|done|done|constructor|done|cbn; lia].
  - assert (map (row_step env correlation_id n order) (ks_orders s) = ks_orders s) as Hrows.
    { rewrite <- map_id. apply map_ext. intros row. unfold row_step. by rewrite Hstatus. }
    destruct (is_exchange_order_missing err) eqn:Hmiss.
    + destruct (mismatch_record_reads env n order None
        ExchangeReconciliationMismatchKind.ExchangeOrderMissing ExchangeReconciliationAction.Alert
        (jobj [("symbol", jstr (eo_symbol order)); ("reason", jstr (ExchangeError.to_string err))]))
        as [mismatch ->].
      intros Hrun. eapply (Hgo _ _ true true [_] []);
        [exact Hrun|by rewrite Hrows|done|done|done|done|done|by repeat constructor|
         by rewrite app_nil_r|cbn; lia].
    + intros [= <- <-]. exists [], (order :: orders), summary. split; [done|].
      split; [apply loop_did_nil|]. split; [done|]. exists order, orders, err. cbn [length].
      by rewrite Nat.add_0_r.
  - intros [= <- <-]. exists [], (order :: orders), summary. split; [done|].
    split; [apply loop_did_nil|]. exists order, orders. cbn [length]. by rewrite Nat.add_0_r.
Qed.

(** ** The rows after a run *)

Lemma row_step_id env correlation_id n order row :
  eo_client_order_id (row_step env correlation_id n order row) = eo_client_order_id row.
Proof.
  unfold row_step. destruct (ke_get_order_status _ _ _) as [status| |]; [|done..].
  destruct (String.eqb _ _); [|done].
  pose proof (reconcile_writes_ids (fst (ke_ids env n)) (fst (ke_now env n)) (snd (ke_now env n))
    (ke_actor_id env) correlation_id order status) as H.
  destruct (reconcile_writes _ _ _ _ _ order status) as [event update]. apply H.
Qed.

Lemma row_step_other env correlation_id n order row :
  eo_client_order_id row <> eo_client_order_id order -> row_step env correlation_id n order row = row.
Proof.
  intros H. unfold row_step. destruct (ke_get_order_status _ _ _); [|done..].
  by rewrite (proj2 (String.eqb_neq _ _) H).
Qed.

Lemma row_after_id env correlation_id orders : forall n row,
  eo_client_order_id (row_after env correlation_id n orders row) = eo_client_order_id row.
Proof. induction orders as [|order orders IH]; intros n row; [done|]. cbn. by rewrite IH, row_step_id. Qed.

(** Rows the run did not ask for stay as they were. *)
Lemma row_after_other env correlation_id orders : forall n row,
  ~ In (eo_client_order_id row) (map eo_client_order_id orders) ->
  row_after env correlation_id n orders row = row.
Proof.
  induction orders as [|order orders IH]; intros n row H; [done|]. cbn [row_after].
  rewrite row_step_other; [|by intros E; apply H; left]. apply IH. by intros Hin; apply H; right.
Qed.

(** A listed order ends as [reconcile_order] makes it of the status fetched for it. *)
Lemma row_after_listed env correlation_id orders : forall n i order,
  List.NoDup (map eo_client_order_id orders) -> nth_error orders i = Some order ->
  row_after env correlation_id n orders order =
  match ke_get_order_status env (n + i) (eo_client_order_id order) with
  | Ok status => snd (reconcile_order (fst (ke_ids env (n + i))) (fst (ke_now env (n + i)))
                        (snd (ke_now env (n + i))) (ke_actor_id env) correlation_id order status)
  | _ => order
  end.
Proof.
  induction orders as [|head orders IH]; intros n i order Hnd Hi; [by destruct i|].
  cbn [map] in Hnd. apply NoDup_cons_iff in Hnd as [Hnew Hnd]. destruct i as [|i]; cbn in Hi.
  - injection Hi as ->. cbn [row_after]. rewrite row_after_other by (by rewrite row_step_id).
    rewrite Nat.add_0_r. unfold row_step. rewrite String.eqb_refl.
    destruct (ke_get_order_status env n _) as [status| |]; [|done..].
    pose proof (reconcile_writes_order (fst (ke_ids env n)) (fst (ke_now env n)) (snd (ke_now env n))
      (ke_actor_id env) correlation_id order status) as H.
    destruct (reconcile_writes _ _ _ _ _ order status) as [event update]. by rewrite <- H.
  - cbn [row_after]. rewrite row_step_other.
    + rewrite (IH (S n) i order Hnd Hi). by rewrite Nat.add_succ_r.
    + intros E. apply Hnew. rewrite <- E. apply in_map. by eapply nth_error_In.
Qed.

(** The row of the run in a table that held no run of its identifier. *)
Lemma close_new_run run_id close runs run :
  ~ In run_id (map ru_id runs) -> ru_id run = run_id -> (forall r, ru_id (close r) = ru_id r) ->
  map (fun r => if ru_id r =? run_id then close r else r) (runs ++ [run]) = runs ++ [close run] /\
  find (fun r => ru_id r =? run_id) (runs ++ [close run]) = Some (close run).
Proof.
  intros Hnew Hid Hc. rewrite map_app. cbn [map]. rewrite Hid, Z.eqb_refl. split.
  - f_equal. rewrite <- (map_id runs) at 2. apply map_ext_in. intros r Hin.
    destruct (Z.eqb_spec (ru_id r) run_id) as [<-|]; [|done]. exfalso. by apply Hnew, in_map.
  - induction runs as [|r runs IH]; cbn [app find].
    + by rewrite Hc, Hid, Z.eqb_refl.
    + destruct (Z.eqb_spec (ru_id r) run_id) as [E|E]; [exfalso; apply Hnew; by left|].
      apply IH. intros Hin. apply Hnew. by right.
Qed.

Lemma in_firstn_l {A} (x : A) n l : In x (firstn n l) -> In x l.
Proof. revert n. induction l as [|y l IH]; intros [|n]; cbn; [done..|]. intros [->|H]; eauto. Qed.

Lemma no_dup_firstn {A} n (l : list A) : List.NoDup l -> List.NoDup (firstn n l).
Proof.
  revert n. induction l as [|x l IH]; intros [|n] H; try constructor; inversion H as [|? ? Hx Hl]; subst.
  - intros Hin. by apply Hx, (in_firstn_l _ n).
  - by apply IH.
Qed.

Lemma no_dup_map_filter {A B} (f : A -> B) p (l : list A) :
  List.NoDup (map f l) -> List.NoDup (map f (List.filter p l)).
Proof.
  induction l as [|x l IH]; [done|]. cbn. intros H. inversion H as [|? ? Hx Hl]; subst.
  destruct (p x); cbn; [constructor|]; auto. intros (y & Hy & Hin%filter_In)%in_map_iff.
  apply Hx. rewrite <- Hy. apply in_map, Hin.
Qed.

(** A run closed in [row] after checking the orders [pre]. *)
Record run_closed (env : ReconcileEnv) (correlation_id : Z) (pre : list ExchangeTestnetOrderRecord)
    (status : ExchangeReconciliationStatus.t) (failed_reason : option string) (s s' : ReconcileStore)
    (row : ExchangeReconciliationRunRecord) : Prop := {
  rc_row : ks_runs s' = ks_runs s ++ [row];
  rc_id : ru_id row = ke_run_id env;
  rc_status : ru_status row = ExchangeReconciliationStatus.as_str status;
  rc_reason : ru_failed_reason row = failed_reason;
  rc_checked : ru_checked_orders row = Z.of_nat (length pre);
  rc_split : ru_checked_orders row = ru_matched_orders row + ru_mismatched_orders row;
  rc_matched : 0 <= ru_matched_orders row;
  rc_mismatches : exists rows, ks_mismatches s' = ks_mismatches s ++ rows /\
    ru_mismatched_orders row = Z.of_nat (length rows) /\
    0 <= ru_unknown_orders row <= ru_mismatched_orders row /\
    Forall (fun mismatch => mi_run_id mismatch = ke_run_id env) rows;
  rc_orders : ks_orders s' = map (row_after env correlation_id 0 pre) (ks_orders s)
}.

(** The orders a run asks for, and its correlation. *)
Definition asked_orders (env : ReconcileEnv) (request : ExchangeReconciliationRequest)
    (s : ReconcileStore) : list ExchangeTestnetOrderRecord :=
  list_exchange_testnet_orders_for_reconciliation env (rq_limit request) (rq_status_filter request) s.
Definition reconcile_correlation (env : ReconcileEnv) (request : ExchangeReconciliationRequest) : Z :=
  default (ke_correlation_id env) (rq_correlation_id request).

(** The requests that are carried out. *)
Definition allowed (request : ExchangeReconciliationRequest) : Prop :=
  rq_environment request = ExchangeEnvironment.Testnet /\
  rq_exchange request = ExchangeName.Binance /\ 0 < rq_limit request <= 200 /\
  Forall (fun status => is_empty (trim status) = false) (rq_status_filter request).

(** What is wrong with a request, by the error that says so. *)
Definition refused (request : ExchangeReconciliationRequest) (e : CoreError.t) : Prop :=
  match e with
  | CoreError.LiveExchangeEnvironmentRejected => rq_environment request <> ExchangeEnvironment.Testnet
  | CoreError.InvalidExchangeReconciliationLimit limit => limit = rq_limit request /\ limit <= 0
  | CoreError.ExchangeReconciliationLimitTooHigh limit => limit = rq_limit request /\ 200 < limit
  | CoreError.InvalidExchangeReconciliationStatusFilter =>
      exists status, In status (rq_status_filter request) /\ is_empty (trim status) = true
  | CoreError.UnsupportedExchangeName name =>
      name = ExchangeName.as_str (rq_exchange request) /\ rq_exchange request <> ExchangeName.Binance
  | _ => False
  end.

Lemma refused_not_allowed request e : refused request e -> ~ allowed request.
Proof.
  intros He (H1 & H2 & H3 & H4). destruct e; cbn in He; try done; try lia; try naive_solver.
  destruct He as (status & Hin & E). rewrite List.Forall_forall in H4. by rewrite (H4 _ Hin) in E.
Qed.

Lemma validate_cases request :
  match ExchangeReconciliationRequest_validate request with
  | Ok tt => rq_environment request <> ExchangeEnvironment.Live /\ 0 < rq_limit request <= 200 /\
      Forall (fun status => is_empty (trim status) = false) (rq_status_filter request)
  | Err e => refused request e
  | Panic => False
  end.
Proof.
  unfold ExchangeReconciliationRequest_validate, MAX_LIMIT.
  case_bool_decide as Hl; [cbn; congruence|].
  destruct (Z.leb_spec (rq_limit request) 0); [done|].
  destruct (Z.ltb_spec 200 (rq_limit request)); [done|].
  destruct (existsb _ _) eqn:E; [by apply existsb_exists in E|].
  do 2 (split; [done|]). apply List.Forall_forall. intros status Hin.
  apply not_true_iff_false in E. apply not_true_iff_false. intros He. apply E, existsb_exists. eauto.
Qed.

(** The end of a run, from the end of its loop. *)
Lemma loop_did_closed env correlation_id pre summary s s1 s2 run status failed_reason :
  loop_did env correlation_id 0 pre no_orders_checked summary s1 s2 ->
  ks_orders s1 = ks_orders s -> ks_mismatches s1 = ks_mismatches s -> ks_runs s1 = ks_runs s ++ [run] ->
  ~ In (ke_run_id env) (map ru_id (ks_runs s)) -> ru_id run = ke_run_id env ->
  let closing := closed_run (ke_completed_at env) status summary failed_reason in
  let '(found, s3) := close_exchange_reconciliation_run (ke_run_id env) closing s2 in
  found = Some (closing run) /\
  forall s', ks_orders s' = ks_orders s3 -> ks_mismatches s' = ks_mismatches s3 -> ks_runs s' = ks_runs s3 ->
  run_closed env correlation_id pre status failed_reason s s' (closing run).
Proof.
  intros [Do Dr Dc Ds Dm (rows & Dmi & Dn & Du1 & Du2 & Drun) _] Ho Hm Hr Hnew Hid. cbv zeta.
  unfold close_exchange_reconciliation_run. rewrite Dr, Hr.
  destruct (close_new_run (ke_run_id env) (closed_run (ke_completed_at env) status summary failed_reason)
    (ks_runs s) run Hnew Hid) as [-> Hfind]; [done|].
  split; [exact Hfind|]. intros s' Ho' Hm' Hr'. cbn [ks_orders ks_mismatches ks_runs] in *.
  cbn [no_orders_checked sy_checked_orders sy_matched_orders sy_mismatched_orders sy_unknown_orders] in *.
  split; cbn [closed_run ru_id ru_status ru_failed_reason ru_checked_orders ru_matched_orders
    ru_mismatched_orders ru_unknown_orders]; try done; try lia.
  - exists rows. rewrite Hm', Dmi, Hm. split; [done|]. split; [lia|]. split; [lia|done].
  - by rewrite Ho', Do, Ho.
Qed.

(** A completed run went through all the orders it listed. *)
Lemma completed_orders env request s run s' :
  reconcile_testnet_orders env request s = (Ok run, s') ->
  ks_orders s' = map (row_after env (reconcile_correlation env request) 0 (asked_orders env request s))
    (ks_orders s).
Proof.
  unfold reconcile_testnet_orders. destruct (ExchangeReconciliationRequest_validate request); [|done..].
  destruct (negb _); [done|]. destruct (negb _); [done|]. cbv zeta.
  destruct (reconcile_orders _ _ _ _ _ _) as [out s2] eqn:Hloop.
  apply loop_cases in Hloop as (pre & post & summary & Hsplit & Hdid & Hend).
  destruct out as [summary'|summary' reason|e|]; [|by destruct (close_exchange_reconciliation_run _ _ _)|done..].
  destruct Hend as [-> _]. rewrite app_nil_r in Hsplit. subst pre.
  destruct (close_exchange_reconciliation_run _ _ _) as [found s3] eqn:Hclose.
  injection Hclose as _ <-. destruct (run_from_record _); [|done..]. intros [= _ <-].
  exact (ld_orders _ _ _ _ _ _ _ _ Hdid).
Qed.

(** C31.  A reconciliation run accounts for every order it asked for.  A request is refused,
    with the error that names what is wrong with it, and changes nothing, exactly when it is
    for another environment than the testnet, for another exchange than Binance, has a limit
    that is not in 1 to 200 or a blank status in its filter.  A run that answers has checked all the listed orders, no more than
    the limit of the request and never more than 200: each is matched or mismatched, the
    mismatches are the rows recorded for the run, the unknown ones are among them, and the
    run is stored as COMPLETED with these numbers.  A run that fails stopped at the first
    order the exchange failed on other than by not knowing it; it is stored as FAILED with
    the reason and the numbers of the orders before it, whose writes remain. *)
Theorem reconciliation_accounts env request s r s' :
  ~ In (ke_run_id env) (map ru_id (ks_runs s)) ->
  reconcile_testnet_orders env request s = (r, s') ->
  match r with
  | Err (ReconcileValidation e) => refused request e /\ ~ allowed request
  | _ => allowed request
  end /\
  match r with
  | Ok run => exists row,
      run_closed env (reconcile_correlation env request) (asked_orders env request s)
        ExchangeReconciliationStatus.Completed None s s' row /\
      rr_status run = ExchangeReconciliationStatus.Completed /\
      rr_checked_orders run = ru_checked_orders row /\ rr_matched_orders run = ru_matched_orders row /\
      rr_mismatched_orders run = ru_mismatched_orders row /\
      rr_unknown_orders run = ru_unknown_orders row /\
      rr_checked_orders run <= rq_limit request <= 200
  | Err (ReconcileValidation e) => s' = s
  | Err (ReconcileFailed run_id correlation_id reason) =>
      run_id = ke_run_id env /\ correlation_id = reconcile_correlation env request /\
      exists pre order post err row, asked_orders env request s = pre ++ order :: post /\
        ke_get_order_status env (length pre) (eo_client_order_id order) = Err err /\
        is_exchange_order_missing err = false /\
        reason = "failed to fetch testnet order status: " +:+ ExchangeError.to_string err /\
        run_closed env correlation_id pre ExchangeReconciliationStatus.Failed (Some reason) s s' row
  | Err (ReconcileUnexpected e) => False
  | Panic => exists n client_order_id, ke_get_order_status env n client_order_id = Panic
  end.
Proof.
  intros Hnew. unfold reconcile_testnet_orders.
  pose proof (validate_cases request) as Hv.
  assert (forall e, refused request e -> (refused request e /\ ~ allowed request) /\ s = s) as Hrefuse
    by eauto using refused_not_allowed.
  destruct (ExchangeReconciliationRequest_validate request) as [[]|e|];
    [|by intros [= <- <-]; apply Hrefuse|done].
  destruct Hv as (_ & Hlimit & Hfilter).
  case_bool_decide as Hx; cbn [negb]; [|by intros [= <- <-]; apply Hrefuse].
  case_bool_decide as Henv; cbn [negb]; [|by intros [= <- <-]; apply Hrefuse].
  assert (allowed request) as Hall by done. cbv zeta. fold (reconcile_correlation env request).
  set (run := Build_ExchangeReconciliationRunRecord _ _ _ _ _ _ _ _ _ _ _ _).
  set (s1 := reconcile_event _ _ (insert_exchange_reconciliation_run run s)).
  change (list_exchange_testnet_orders_for_reconciliation env (rq_limit request) (rq_status_filter request) s1)
    with (asked_orders env request s).
  destruct (reconcile_orders env _ 0 (asked_orders env request s) no_orders_checked s1) as [out s2] eqn:Hloop.
  apply loop_cases in Hloop as (pre & post & summary & Hsplit & Hdid & Hend).
  destruct out as [summary'|summary' reason|e|]; cbn [loop_ended] in Hend; [| |done|].
  - destruct Hend as [-> ->]. rewrite app_nil_r in Hsplit. subst pre.
    pose proof (loop_did_closed _ _ _ _ s s1 s2 run ExchangeReconciliationStatus.Completed None Hdid
      eq_refl eq_refl eq_refl Hnew eq_refl) as Hclosed. cbv zeta in Hclosed.
    destruct (close_exchange_reconciliation_run _ _ s2) as [found s3]. destruct Hclosed as [-> Hclosed].
    cbn [default from_option id].
    destruct (run_record_reads (rq_exchange request) (rq_environment request)
      ExchangeReconciliationStatus.Completed (closed_run (ke_completed_at env)
        ExchangeReconciliationStatus.Completed summary None run)) as (run' & -> & _ & Hs & H1 & H2 & H3 & H4);
      [done..|].
    intros [= <- <-]. split; [done|]. eexists. split; [by apply Hclosed|]. do 5 (split; [done|]).
    rewrite H1. cbn [closed_run ru_checked_orders]. rewrite (ld_checked _ _ _ _ _ _ _ _ Hdid).
    unfold asked_orders, list_exchange_testnet_orders_for_reconciliation, MAX_LIMIT in *.
    rewrite length_firstn. cbn [no_orders_checked sy_checked_orders]. lia.
  - destruct Hend as (-> & order & rest & err & -> & Herr & Hmiss & Hreason).
    pose proof (loop_did_closed _ _ _ _ s s1 s2 run ExchangeReconciliationStatus.Failed (Some reason) Hdid
      eq_refl eq_refl eq_refl Hnew eq_refl) as Hclosed. cbv zeta in Hclosed.
    destruct (close_exchange_reconciliation_run _ _ s2) as [found s3]. destruct Hclosed as [-> Hclosed].
    intros [= <- <-]. do 3 (split; [done|]). eexists pre, order, rest, err, _.
    do 4 (split; [done|]). by apply Hclosed.
  - destruct Hend as (order & rest & -> & Hpanic). intros [= <- <-]. eauto.
Qed.

(** ** What a mismatch means *)

Lemma matched_iff order status local : local_testnet_status_from_exchange_state (os_status status) = Some local ->
  ev_mismatch (evaluate_order_reconciliation order status) = None <->
  normalize_local_status (eo_status order) = normalize_local_status local /\
  (eo_status order = "SUBMIT_REQUESTED" -> eo_ack_payload order = None).
Proof.
  intros Hl. unfold evaluate_order_reconciliation. cbv zeta. rewrite Hl.
  assert (forall a b, normalize_local_status a = normalize_local_status b ->
    bool_decide (normalize_local_status a = Some NormalizedLocalStatus.Cancelled) &&
    negb (bool_decide (normalize_local_status b = Some NormalizedLocalStatus.Cancelled)) = false) as Hsame.
  { intros a b ->. by destruct (bool_decide _). }
  destruct (String.eqb_spec (eo_status order) "SUBMIT_REQUESTED") as [Es|Es]; cbn [andb].
  - destruct (eo_ack_payload order) as [payload|]; [rewrite bool_decide_true by done|].
    { split; [done|]. intros [_ H]. by specialize (H Es). }
    rewrite bool_decide_false by (by intros [? [=]]). split.
    + destruct (bool_decide (_ = Some NormalizedLocalStatus.Cancelled) && _); [done|].
      by case_bool_decide.
    + intros [H _]. rewrite (Hsame _ _ H). by rewrite bool_decide_true.
  - split.
    + destruct (bool_decide (_ = Some NormalizedLocalStatus.Cancelled) && _); [done|].
      by case_bool_decide.
    + intros [H _]. rewrite (Hsame _ _ H). by rewrite bool_decide_true.
Qed.

Lemma pending_cancel_unknown order status : os_status status = ExchangeOrderState.PendingCancel ->
  option_map fst (ev_mismatch (evaluate_order_reconciliation order status))
  = Some (ExchangeReconciliationMismatchKind.UnknownExchangeState, ExchangeReconciliationAction.Alert).
Proof. intros H. unfold evaluate_order_reconciliation. cbv zeta. by rewrite H. Qed.

(** An order that was just reconciled agrees with an exchange that says the same again. *)
Lemma reconciled_agrees new_v4 now sql_now actor_id correlation_id order status status' :
  os_status status' = os_status status -> os_status status <> ExchangeOrderState.PendingCancel ->
  ev_mismatch (evaluate_order_reconciliation
    (snd (reconcile_order new_v4 now sql_now actor_id correlation_id order status)) status') = None.
Proof.
  intros Hs Hp.
  assert (exists local, local_testnet_status_from_exchange_state (os_status status) = Some local)
    as [local Hl] by (destruct (os_status status); try done; eauto).
  apply (matched_iff _ _ local); [by rewrite Hs|].
  pose proof (reconcile_order_state new_v4 now sql_now actor_id correlation_id order status) as H.
  destruct (reconcile_order _ _ _ _ _ order status) as [event order'].
  destruct H as (_ & _ & _ & _ & Hst). cbn [snd]. rewrite Hst, Hl. split; [done|].
  cbn [default from_option id]. revert Hl. by destruct (os_status status); intros [= <-].
Qed.

(** C32.  After a completed run every order it asked for whose status was fetched is as the
    reconciliation of that status makes it.  Asking again and hearing the same finds no
    mismatch, unless the exchange said PENDING_CANCEL, which has no local status: that is an
    UNKNOWN_EXCHANGE_STATE to alert on, every time.  An order the exchange does not know, and
    every order that was not listed, is left as it was.  No order is added, removed or renamed. *)
Theorem reconciliation_updates_orders env request s run s' :
  List.NoDup (map eo_client_order_id (ks_orders s)) ->
  (forall rows, Permutation (ke_newest_first env rows) rows) ->
  reconcile_testnet_orders env request s = (Ok run, s') ->
  map eo_client_order_id (ks_orders s') = map eo_client_order_id (ks_orders s) /\
  (forall i order, nth_error (asked_orders env request s) i = Some order ->
     In order (ks_orders s) /\
     exists order', In order' (ks_orders s') /\
     match ke_get_order_status env i (eo_client_order_id order) with
     | Ok status =>
         order' = snd (reconcile_order (fst (ke_ids env i)) (fst (ke_now env i)) (snd (ke_now env i))
                         (ke_actor_id env) (reconcile_correlation env request) order status) /\
         forall status', os_status status' = os_status status ->
           option_map fst (ev_mismatch (evaluate_order_reconciliation order' status'))
           = if bool_decide (os_status status = ExchangeOrderState.PendingCancel)
             then Some (ExchangeReconciliationMismatchKind.UnknownExchangeState,
                        ExchangeReconciliationAction.Alert) else None
     | _ => order' = order
     end) /\
  (forall row, In row (ks_orders s) ->
     ~ In (eo_client_order_id row) (map eo_client_order_id (asked_orders env request s)) ->
     In row (ks_orders s')).
Proof.
  intros Hnd Hperm Hrun.
  apply completed_orders in Hrun. rewrite Hrun.
  assert (forall order, In order (asked_orders env request s) -> In order (ks_orders s)) as Hin.
  { intros order H. unfold asked_orders, list_exchange_testnet_orders_for_reconciliation in H.
    apply in_firstn_l, (Permutation_in _ (Hperm _)), filter_In in H. apply H. }
  assert (List.NoDup (map eo_client_order_id (asked_orders env request s))) as Hnd'.
  { unfold asked_orders, list_exchange_testnet_orders_for_reconciliation. rewrite <- firstn_map.
    apply no_dup_firstn. eapply Permutation_NoDup; [symmetry; apply Permutation_map, Hperm|].
    by apply no_dup_map_filter. }
  split; [|split].
  - rewrite map_map. apply map_ext. intros row. apply row_after_id.
  - intros i order Hi. apply nth_error_In in Hi as Hio. split; [by apply Hin|].
    exists (row_after env (reconcile_correlation env request) 0 (asked_orders env request s) order).
    split; [by apply in_map, Hin|]. rewrite (row_after_listed _ _ _ _ i order) by done.
    rewrite Nat.add_0_l. destruct (ke_get_order_status env i _) as [status| |]; [|done..].
    split; [done|]. intros status' H1. case_bool_decide as Hp; [|by rewrite reconciled_agrees].
    by apply pending_cancel_unknown; rewrite H1.
  - intros row Hr Hout. rewrite <- (row_after_other env (reconcile_correlation env request)
      (asked_orders env request s) 0 row Hout). by apply in_map.
Qed.
End Reconciliation.

(** ** A run over two orders *)

Module ReconcileSample.
#[local] Existing Instance ExactDecimal.
#[local] Instance no_json : Json := {|
  json := unit; jnull := tt; jstr _ := tt; juuid _ := tt; jobj _ := tt |}.
#[local] Instance no_build : JsonBuild := { jbool := fun _ => tt; jint := fun _ => tt; jarr := fun _ => tt }.

Definition status (s : ExchangeOrderState.t) : ExchangeOrderStatus := {|
  os_exchange := ExchangeName.Binance; os_environment := ExchangeEnvironment.Testnet;
  os_symbol := "BTCUSDT"; os_client_order_id := ""; os_exchange_order_id := Some "42";
  os_status := s; os_side := ExchangeOrderSide.Buy; os_order_type := ExchangeOrderType.Limit;
  os_time_in_force := None; os_original_qty := None; os_executed_qty := ZERO;
  os_cumulative_quote_qty := ZERO; os_limit_price := None; os_updated_at := 0; os_raw_payload := tt |}.

Definition order (id : Z) (client_order_id local_status : string) (state : TestnetExecutionState.t)
    : ExchangeTestnetOrderRecord := {|
  eo_id := id; eo_exchange := "binance"; eo_environment := "testnet";
  eo_client_order_id := client_order_id; eo_exchange_order_id := Some "42"; eo_symbol := "BTCUSDT";
  eo_side := "BUY"; eo_order_type := "LIMIT"; eo_time_in_force := None; eo_requested_qty := None;
  eo_requested_notional := None; eo_limit_price := None; eo_status := local_status;
  eo_execution_state := TestnetExecutionState.as_str state; eo_ack_payload := None;
  eo_latest_status_payload := None; eo_risk_decision_id := None; eo_created_by := None;
  eo_last_transition_at := None; eo_created_at := 0; eo_updated_at := 0 |}.

(** "gone" is unknown to the exchange, which fails on "down". *)
Definition env (run_id : Z) : ReconcileEnv := {|
  ke_get_order_status _ client_order_id :=
    if String.eqb client_order_id "gone" then Err (ExchangeError.Api "code -2013: Order does not exist.")
    else if String.eqb client_order_id "down" then Err (ExchangeError.Transport "timeout")
    else Ok (status ExchangeOrderState.Filled);
  ke_run_id := run_id; ke_correlation_id := 8; ke_actor_id := None;
  ke_ids n := (100 + Z.of_nat n, 200 + Z.of_nat n); ke_now n := (Z.of_nat n, Z.of_nat n);
  ke_started_at := 0; ke_completed_at := 9; ke_newest_first rows := rows |}.

Definition request : ExchangeReconciliationRequest := {|
  rq_exchange := ExchangeName.Binance; rq_environment := ExchangeEnvironment.Testnet; rq_limit := 2;
  rq_status_filter := []; rq_correlation_id := None |}.

Definition store (second : string) : ReconcileStore := {|
  ks_orders := [order 1 "known" "CANCELLED" TestnetExecutionState.New;
                order 2 second "NEW" TestnetExecutionState.New;
                order 3 "unlisted" "NEW" TestnetExecutionState.New];
  ks_lifecycle := []; ks_runs := []; ks_mismatches := []; ks_events := [] |}.

Definition report (run : res ReconcileTestnetOrdersError ExchangeReconciliationRun * ReconcileStore)
    : list string * list string * list (string * string) :=
  (map ru_status (ks_runs (snd run)), map eo_status (ks_orders (snd run)),
   map (fun mismatch => (mi_mismatch_kind mismatch, mi_action mismatch)) (ks_mismatches (snd run))).

(** The action of an unconfirmed cancel is ALERT, and the status is overwritten all the same. *)
Example completed_report :
  report (reconcile_testnet_orders (env 7) request (store "gone")) =
    (["COMPLETED"], ["FILLED"; "NEW"; "NEW"],
     [("CANCEL_NOT_CONFIRMED", "ALERT"); ("EXCHANGE_ORDER_MISSING", "ALERT")]).
Proof. vm_compute. reflexivity. Qed.

Example failed_report :
  report (reconcile_testnet_orders (env 7) request (store "down")) =
    (["FAILED"], ["FILLED"; "NEW"; "NEW"], [("CANCEL_NOT_CONFIRMED", "ALERT")]).
Proof. vm_compute. reflexivity. Qed.

Lemma completes : exists run s', reconcile_testnet_orders (env 7) request (store "gone") = (Ok run, s').
Proof.
  assert (match fst (reconcile_testnet_orders (env 7) request (store "gone")) with
    | Ok _ => true | _ => false end = true) as H by (vm_compute; reflexivity).
  destruct (reconcile_testnet_orders _ _ _) as [[run| |] s']; [eauto|discriminate..].
Qed.

Example reconciliation_accounts_witness :
  exists run s' row, reconcile_testnet_orders (env 7) request (store "gone") = (Ok run, s') /\
    run_closed (env 7) 8 (asked_orders (env 7) request (store "gone"))
      ExchangeReconciliationStatus.Completed None (store "gone") s' row /\
    rr_checked_orders run <= 2.
Proof.
  destruct completes as (run & s' & Hrun).
  destruct (reconciliation_accounts (env 7) request (store "gone") _ _ (fun H => H) Hrun)
    as (_ & row & Hclosed & _ & _ & _ & _ & _ & Hlimit & _).
  exists run, s', row. split; [exact Hrun|]. split; [exact Hclosed|exact Hlimit].
Defined.

Example reconciliation_updates_orders_witness :
  exists run s', reconcile_testnet_orders (env 7) request (store "gone") = (Ok run, s') /\
    map eo_client_order_id (ks_orders s') = ["known"; "gone"; "unlisted"] /\
    In (order 3 "unlisted" "NEW" TestnetExecutionState.New) (ks_orders s').
Proof.
  destruct completes as (run & s' & Hrun).
  assert (List.NoDup (map eo_client_order_id (ks_orders (store "gone")))) as Hnd
    by (apply NoDup_ListNoDup, (bool_decide_unpack _); vm_compute; exact I).
  destruct (reconciliation_updates_orders (env 7) request (store "gone") run s' Hnd
    (fun rows => Permutation_refl rows) Hrun) as (Hids & _ & Hrest).
  exists run, s'. split; [exact Hrun|]. split; [rewrite Hids; reflexivity|].
  apply Hrest; [right; right; left; reflexivity|].
  assert (existsb (String.eqb "unlisted")
    (map eo_client_order_id (asked_orders (env 7) request (store "gone"))) = false) as Hout
    by (vm_compute; reflexivity).
  intros Hin. apply not_true_iff_false in Hout. apply Hout, existsb_exists.
  exists "unlisted". split; [exact Hin|reflexivity].
Defined.
End ReconcileSample.
