(* ===== verification/Ingest.v ===== *)
(** * Market ingest: crates/market-ingest/src/lib.rs

    The candle builder that folds a trade stream into candles
    ([CandleBuilder::apply_trade], lines 84-196, and its helpers), the planner
    of REST backfill pages ([plan_backfill_pages]) and the decoding of one
    Binance kline row ([binance_kline_row_to_closed_candle]).  A call of
    [apply_trade] returns the builder it leaves behind together with its result;
    [new_v4] is the identifier drawn when a candle is opened. *)

From Stdlib Require Import ZArith QArith Lqa Lia List Permutation Sorted String.
From stdpp Require Import base list strings.
From S2P Require Import Prelude Text Host Types MarketData.

#[local] Open Scope Z_scope.

Inductive CandleBuilderError :=
  | InvalidPrice
  | InvalidQuantity
  | OutOfOrderTrade (trade_time active_open_time : Z).

Section Ingest.
Context {DI : Decimal} {CH : Chrono} {JS : Json}.

(** ** The candle builder *)

Record CandleUpdate := { cu_active : Candle; cu_closed : option Candle }.

Record CandleBuilder := {
  cb_exchange : MarketDataSource.t;
  cb_symbol : Symbol;
  cb_interval : CandleInterval.t;
  cb_active : option Candle
}.

Definition CandleBuilder_new (exchange : MarketDataSource.t) (symbol : Symbol)
    (interval : CandleInterval.t) : CandleBuilder :=
  {| cb_exchange := exchange; cb_symbol := symbol; cb_interval := interval; cb_active := None |}.

(** [%] truncates towards zero. *)
Definition floor_time {E} (time : Z) (interval : CandleInterval.t) : res E Z :=
  let seconds := num_seconds (duration interval) in
  let floored := timestamp time - Z.rem (timestamp time) seconds in
  expect (timestamp_opt floored).

Definition new_candle (new_v4 : Z) (exchange : MarketDataSource.t) (symbol : Symbol)
    (interval : CandleInterval.t) (open_time close_time : Z) (trade : MarketTrade)
    (quote_volume : dec) : Candle :=
  {| c_id := new_v4; c_exchange := exchange; c_symbol := symbol; c_interval := interval;
     c_open_time := open_time; c_close_time := close_time;
     c_open := mt_price trade; c_high := mt_price trade; c_low := mt_price trade;
     c_close := mt_price trade; c_volume := mt_quantity trade;
     c_quote_volume := Some quote_volume; c_trade_count := 1; c_is_closed := false;
     c_created_at := mt_trade_time trade; c_updated_at := mt_trade_time trade |}.

Definition update_candle (candle : Candle) (trade : MarketTrade) (quote_volume : dec) : Candle :=
  {| c_id := c_id candle; c_exchange := c_exchange candle; c_symbol := c_symbol candle;
     c_interval := c_interval candle; c_open_time := c_open_time candle;
     c_close_time := c_close_time candle; c_open := c_open candle;
     c_high := dmax (c_high candle) (mt_price trade);
     c_low := dmin (c_low candle) (mt_price trade);
     c_close := mt_price trade;
     c_volume := (c_volume candle + mt_quantity trade)%dec;
     c_quote_volume := Some (default ZERO (c_quote_volume candle) + quote_volume)%dec;
     c_trade_count := i32_add (c_trade_count candle) 1;
     c_is_closed := c_is_closed candle; c_created_at := c_created_at candle;
     c_updated_at := mt_trade_time trade |}.

Definition close_candle (candle : Candle) (updated_at : Z) : Candle :=
  {| c_id := c_id candle; c_exchange := c_exchange candle; c_symbol := c_symbol candle;
     c_interval := c_interval candle; c_open_time := c_open_time candle;
     c_close_time := c_close_time candle; c_open := c_open candle; c_high := c_high candle;
     c_low := c_low candle; c_close := c_close candle; c_volume := c_volume candle;
     c_quote_volume := c_quote_volume candle; c_trade_count := c_trade_count candle;
     c_is_closed := true; c_created_at := c_created_at candle; c_updated_at := updated_at |}.

Definition with_active (self : CandleBuilder) (active : option Candle) : CandleBuilder :=
  {| cb_exchange := cb_exchange self; cb_symbol := cb_symbol self;
     cb_interval := cb_interval self; cb_active := active |}.

Definition apply_trade (new_v4 : Z) (self : CandleBuilder) (trade : MarketTrade)
    : CandleBuilder * res CandleBuilderError CandleUpdate :=
  if (mt_price trade <=? ZERO)%dec then (self, Err InvalidPrice) else
  if (mt_quantity trade <=? ZERO)%dec then (self, Err InvalidQuantity) else
  match floor_time (mt_trade_time trade) (cb_interval self) with
  | Panic => (self, Panic)
  | Err e => (self, Err e)
  | Ok open_time =>
    let close_time := open_time + duration (cb_interval self) in
    let quote_volume := (mt_price trade * mt_quantity trade)%dec in
    let fresh := new_candle new_v4 (cb_exchange self) (cb_symbol self) (cb_interval self)
      open_time close_time trade quote_volume in
    match cb_active self with
    | None => (with_active self (Some fresh), Ok {| cu_active := fresh; cu_closed := None |})
    | Some active =>
      if mt_trade_time trade <? c_open_time active then
        (with_active self (Some active),
         Err (OutOfOrderTrade (mt_trade_time trade) (c_open_time active)))
      else if open_time =? c_open_time active then
        let active := update_candle active trade quote_volume in
        (with_active self (Some active), Ok {| cu_active := active; cu_closed := None |})
      else
        (with_active self (Some fresh),
         Ok {| cu_active := fresh; cu_closed := Some (close_candle active (mt_trade_time trade)) |})
    end
  end.

(** ** Backfill pages *)

Record BackfillPageRequest := { page_start_time : Z; page_end_time : Z }.

(** The [while] loop; [None] when the fuel runs out. *)
Fixpoint pages_loop (fuel : nat) (page_span_ms end_time cursor : Z)
    (pages : list BackfillPageRequest) : option (list BackfillPageRequest) :=
  if cursor <? end_time then
    match fuel with
    | O => None
    | S fuel =>
      let inclusive_end := end_time - milliseconds 1 in
      let page_end := Z.min (cursor + milliseconds page_span_ms - milliseconds 1) inclusive_end in
      pages_loop fuel page_span_ms end_time (page_end + milliseconds 1)
        (pages ++ [{| page_start_time := cursor; page_end_time := page_end |}])
    end
  else Some pages.

Definition plan_backfill_pages (start_time end_time : Z) (interval : CandleInterval.t)
    (limit_per_request : Z) : res string (list BackfillPageRequest) :=
  if end_time <=? start_time then Err "backfill end_time must be after start_time" else
  if limit_per_request =? 0 then
    Err "backfill limit_per_request must be greater than zero" else
  let interval_ms := num_milliseconds (duration interval) in
  let page_span_ms := interval_ms * limit_per_request in
  expect (pages_loop (S (Z.to_nat ((end_time - start_time) / milliseconds page_span_ms)))
            page_span_ms end_time start_time []).

(** ** Kline rows *)

Record BinanceKlineRow := {
  k0_open_time : Z; k1_open : string; k2_high : string; k3_low : string; k4_close : string;
  k5_volume : string; k6_close_time : Z; k7_quote_volume : string; k8_trade_count : Z;
  k9 : string; k10 : string; k11 : string
}.

(** [row.N.parse()?]: the text of [rust_decimal]'s parse error is the
    parameter [parse_error]. *)
Definition parse_dec (parse_error : string -> string) (s : string) : res string dec :=
  ok_or (dparse s) (parse_error s).

Definition binance_kline_row_to_closed_candle (parse_error : string -> string) (new_v4 : Z)
    (row : BinanceKlineRow) (exchange : MarketDataSource.t) (symbol : Symbol)
    (interval : CandleInterval.t) (now : Z) : res string (option Candle) :=
  open_time ← ok_or (timestamp_millis_opt (k0_open_time row)) "invalid Binance kline open_time";
  close_time ← ok_or (timestamp_millis_opt (k6_close_time row)) "invalid Binance kline close_time";
  let expected_close_time := open_time + duration interval - milliseconds 1 in
  if negb (close_time =? expected_close_time) || (now <=? close_time) then Ok None else
  open ← parse_dec parse_error (k1_open row);
  high ← parse_dec parse_error (k2_high row);
  low ← parse_dec parse_error (k3_low row);
  close ← parse_dec parse_error (k4_close row);
  volume ← parse_dec parse_error (k5_volume row);
  quote_volume ← parse_dec parse_error (k7_quote_volume row);
  trade_count ← ok_or (i32_try_from (k8_trade_count row)) "trade_count exceeds i32";
  Ok (Some {| c_id := new_v4; c_exchange := exchange; c_symbol := symbol; c_interval := interval;
              c_open_time := open_time; c_close_time := close_time; c_open := open;
              c_high := high; c_low := low; c_close := close; c_volume := volume;
              c_quote_volume := Some quote_volume; c_trade_count := trade_count;
              c_is_closed := true; c_created_at := now; c_updated_at := now |}).

(** ** Provider lists *)

Definition provider_base_urls (primary : string) (fallbacks : list string) : list string :=
  foldl (fun urls url =>
           if existsb (fun existing => bool_decide (existing = url)) urls then urls
           else urls ++ [url]) [] (primary :: fallbacks).
End Ingest.

(** ** Backfill facts *)

Section PageFacts.
Variables (page_span_ms end_time : Z).
Hypothesis span_pos : 0 < page_span_ms.

(** The pages cut [cursor, end_time) into consecutive slices of one span, the
    last one possibly shorter; a page names its last millisecond. *)
Fixpoint tiles (cursor : Z) (pages : list BackfillPageRequest) : Prop :=
  match pages with
  | [] => cursor = end_time
  | p :: pages =>
    page_start_time p = cursor /\ cursor < end_time /\
    page_end_time p + milliseconds 1 = Z.min (cursor + milliseconds page_span_ms) end_time /\
    tiles (page_end_time p + milliseconds 1) pages
  end.

Lemma span_ms_pos : 0 < milliseconds page_span_ms.
Proof using span_pos. unfold milliseconds, MILLI. lia. Qed.

Lemma pages_loop_tiles fuel : forall cursor pages,
  cursor <= end_time ->
  end_time - cursor <= Z.of_nat fuel * milliseconds page_span_ms ->
  exists ps, pages_loop fuel page_span_ms end_time cursor pages = Some (pages ++ ps) /\
    tiles cursor ps.
Proof using span_pos.
  pose proof span_ms_pos as Hs.
  induction fuel as [|fuel IH]; intros cursor pages Hle Hf; cbn [pages_loop].
  - exists []. destruct (Z.ltb_spec cursor end_time); [lia|]. rewrite app_nil_r. split; [done|].
    cbn. lia.
  - destruct (Z.ltb_spec cursor end_time) as [Hlt|]; cycle 1.
    { exists []. rewrite app_nil_r. split; [done|]. cbn. lia. }
    set (pe := Z.min (cursor + milliseconds page_span_ms - milliseconds 1)
                     (end_time - milliseconds 1)).
    assert (Hpe : pe + milliseconds 1 = Z.min (cursor + milliseconds page_span_ms) end_time) by lia.
    destruct (IH (pe + milliseconds 1) (pages ++ [{| page_start_time := cursor; page_end_time := pe |}]))
      as (ps & Hrun & Ht); [lia|nia|].
    exists ({| page_start_time := cursor; page_end_time := pe |} :: ps).
    rewrite Hrun, <- app_assoc. split; [done|]. cbn. auto.
Qed.

(** Where an instant of the window lands. *)
Definition in_page (t : Z) (p : BackfillPageRequest) : Prop :=
  page_start_time p <= t < page_end_time p + milliseconds 1.

Lemma tiles_after cursor pages p :
  tiles cursor pages -> In p pages ->
  cursor <= page_start_time p /\ page_start_time p < end_time /\
  page_end_time p + milliseconds 1 <= end_time /\
  page_end_time p + milliseconds 1 - page_start_time p <= milliseconds page_span_ms.
Proof using span_pos.
  pose proof span_ms_pos as Hs. revert cursor; induction pages as [|q pages IH]; intros cursor; [done|].
  cbn. intros (H1 & H2 & H3 & H4) [->|Hin]; [lia|]. specialize (IH _ H4 Hin). lia.
Qed.

Lemma tiles_unique cursor pages t :
  tiles cursor pages -> cursor <= t < end_time ->
  exists i p, pages !! i = Some p /\ in_page t p /\
    forall j q, pages !! j = Some q -> in_page t q -> j = i.
Proof using span_pos.
  revert cursor; induction pages as [|p pages IH]; intros cursor; cbn; [lia|].
  intros (H1 & H2 & H3 & H4) Ht.
  destruct (Z.ltb_spec t (page_end_time p + milliseconds 1)) as [Hin|Hout].
  - exists 0%nat, p. split; [done|]. split; [split; lia|]. intros [|j] q; [done|].
    cbn. intros Hq [Hq1 _]. apply list_elem_of_lookup_2, list_elem_of_In in Hq.
    destruct (tiles_after _ _ _ H4 Hq). lia.
  - destruct (IH _ H4) as (i & q & Hi & Hq & Hu); [lia|].
    exists (S i), q. split; [done|]. split; [done|]. intros [|j] r; cbn.
    + intros [= <-] [_ Hr]. lia.
    + intros Hj Hr. f_equal. by eapply Hu.
Qed.

Lemma tiles_length cursor pages :
  tiles cursor pages ->
  end_time - cursor <= Z.of_nat (length pages) * milliseconds page_span_ms /\
  (Z.of_nat (length pages) - 1) * milliseconds page_span_ms < Z.max 1 (end_time - cursor).
Proof using span_pos.
  pose proof span_ms_pos as Hs. revert cursor; induction pages as [|p pages IH]; intros cursor; cbn.
  { intros ->. nia. }
  intros (H1 & H2 & H3 & H4). destruct (IH _ H4) as [I1 I2]. rewrite H3 in I1, I2.
  destruct (Z.min_spec (cursor + milliseconds page_span_ms) end_time) as [[Hm1 Hm2]|[Hm1 Hm2]];
    rewrite Hm2 in *.
  - split; [nia|]. destruct pages as [|q pages]; [cbn in *; nia|]. cbn in H4. nia.
  - destruct pages as [|q pages]; [cbn; nia|]. cbn in H4. lia.
Qed.
End PageFacts.

(** C29.  The backfill planner terminates with a partition of the window.  For a
    non-empty window and a positive limit it returns pages (the loop ends); each
    instant of the window falls in exactly one page (a page covers its last
    millisecond to the end), no page reaches outside the window or spans more
    than [limit] intervals, the pages are in order, and there are no more of
    them than needed.  Otherwise it is an error. *)
Theorem backfill_pages_partition {CH : Chrono} {CL : ChronoLaws CH} (start_time end_time : Z)
    (interval : CandleInterval.t) (limit : Z) :
  0 <= limit ->
  if (end_time <=? start_time) || (limit =? 0) then
    exists message, plan_backfill_pages start_time end_time interval limit = Err message
  else
    let span := limit * duration interval in
    exists pages, plan_backfill_pages start_time end_time interval limit = Ok pages /\
      (forall t, start_time <= t < end_time ->
         exists i p, pages !! i = Some p /\ in_page t p /\
           forall j q, pages !! j = Some q -> in_page t q -> j = i) /\
      (forall p, In p pages -> start_time <= page_start_time p < end_time /\
         page_end_time p + milliseconds 1 <= end_time /\
         page_end_time p + milliseconds 1 - page_start_time p <= span) /\
      (Z.of_nat (length pages) - 1) * span < end_time - start_time
        <= Z.of_nat (length pages) * span.
Proof.
  intros Hl. destruct (Z.leb_spec end_time start_time) as [|Hlt]; cbn [orb].
  { eexists. unfold plan_backfill_pages. rewrite (proj2 (Z.leb_le _ _) H). done. }
  destruct (Z.eqb_spec limit 0) as [->|Hn].
  { eexists. unfold plan_backfill_pages. rewrite (proj2 (Z.leb_gt _ _) Hlt). done. }
  unfold plan_backfill_pages.
  rewrite (proj2 (Z.leb_gt _ _) Hlt), (proj2 (Z.eqb_neq _ _) Hn).
  assert (Hd : duration interval = milliseconds (60000 * source_candle_count interval)).
  { rewrite duration_count. unfold seconds, milliseconds, NANOS, MILLI. lia. }
  rewrite Hd, num_milliseconds_milliseconds.
  pose proof (source_candle_count_pos interval) as Hc.
  set (span_ms := 60000 * source_candle_count interval * limit).
  assert (Hpos : 0 < span_ms) by (unfold span_ms; nia).
  pose proof (span_ms_pos span_ms Hpos) as Hs.
  assert (Hspan : limit * milliseconds (60000 * source_candle_count interval) = milliseconds span_ms)
    by (unfold milliseconds, span_ms; lia).
  cbn zeta. rewrite Hspan.
  destruct (pages_loop_tiles span_ms end_time Hpos
    (S (Z.to_nat ((end_time - start_time) / milliseconds span_ms))) start_time [])
    as (ps & Hrun & Ht); [lia| |].
  { pose proof (Z.div_mod (end_time - start_time) (milliseconds span_ms) ltac:(lia)).
    pose proof (Z.mod_pos_bound (end_time - start_time) (milliseconds span_ms) Hs).
    assert (0 <= (end_time - start_time) / milliseconds span_ms) by (apply Z.div_pos; lia).
    rewrite Nat2Z.inj_succ, Z2Nat.id by done. nia. }
  rewrite Hrun. cbn [app expect]. exists ps. split; [done|].
  split; [intros t H; exact (tiles_unique _ _ Hpos _ _ _ Ht H)|]. split.
  - intros p Hp. destruct (tiles_after _ _ Hpos _ _ _ Ht Hp). lia.
  - destruct (tiles_length _ _ Hpos _ _ Ht). lia.
Qed.

(** ** The builder against the trades it saw *)

Section BuilderFacts.
Context {DI : Decimal} {DL : DecimalLaws DI} {CH : Chrono} {CL : ChronoLaws CH} {JS : Json}.

Definition trade_valid (t : MarketTrade) : Prop :=
  (0 < dval (mt_price t))%Q /\ (0 < dval (mt_quantity t))%Q.

(** Instants from 1970 to 9999. *)
Definition modern (t : Z) : Prop := 0 <= t / NANOS <= 253402300799.

Lemma floor_time_modern {E} t interval :
  modern t -> @floor_time CH E t interval = Ok (bucket_floor interval t).
Proof using CL.
  intros [H0 H1]. unfold floor_time.
  rewrite num_seconds_duration, timestamp_spec, Z.rem_mod_nonneg; [|lia|].
  2: { pose proof (source_candle_count_pos interval). lia. }
  rewrite timestamp_opt_some; [done|]. unfold supported_seconds.
  pose proof (source_candle_count_pos interval).
  pose proof (Z.mod_pos_bound (t / NANOS) (60 * source_candle_count interval) ltac:(lia)).
  pose proof (Z.mod_le (t / NANOS) (60 * source_candle_count interval) H0 ltac:(lia)). lia.
Qed.

(** What a candle says of the trades [ts] of one bucket, in arrival order. *)
Record summarises (interval : CandleInterval.t) (ts : list MarketTrade) (c : Candle) : Prop := {
  sum_open : exists t, head ts = Some t /\ c_open c = mt_price t;
  sum_close : exists t, last ts = Some t /\ c_close c = mt_price t;
  sum_high : (exists t, In t ts /\ c_high c = mt_price t) /\
             forall t, In t ts -> (dval (mt_price t) <= dval (c_high c))%Q;
  sum_low : (exists t, In t ts /\ c_low c = mt_price t) /\
            forall t, In t ts -> (dval (c_low c) <= dval (mt_price t))%Q;
  sum_volume : c_volume c = match map mt_quantity ts with [] => ZERO | q :: qs => foldl dadd q qs end;
  sum_count : Z.of_nat (length ts) < 2 ^ 31 -> c_trade_count c = Z.of_nat (length ts);
  sum_bucket : forall t, In t ts -> bucket_floor interval (mt_trade_time t) = c_open_time c;
  sum_times : c_interval c = interval /\ c_close_time c = c_open_time c + duration interval
}.

Lemma summarises_new id exchange symbol interval t qv :
  summarises interval [t]
    (new_candle id exchange symbol interval (bucket_floor interval (mt_trade_time t))
       (bucket_floor interval (mt_trade_time t) + duration interval) t qv).
Proof using DL.
  split; cbn; eauto.
  - split; [exists t; auto|]. intros ? [->|[]]. lra.
  - split; [exists t; auto|]. intros ? [->|[]]. lra.
  - by intros ? [->|[]].
Qed.

Lemma summarises_update interval ts c t qv :
  summarises interval ts c -> bucket_floor interval (mt_trade_time t) = c_open_time c ->
  summarises interval (ts ++ [t]) (update_candle c t qv).
Proof using DL.
  intros [(o & Ho & Ho') _ [(h & Hh & Hh') Hhm] [(l & Hl & Hl') Hlm] Hv Hn Hb Ht] Hbt.
  destruct ts as [|t0 ts]; [done|].
  split; cbn [c_open c_close c_high c_low c_volume c_trade_count c_open_time c_interval
    c_close_time update_candle]; auto.
  - exists o. split; [exact Ho|done].
  - exists t. split; [by rewrite last_snoc|done].
  - destruct (dmax_spec (c_high c) (mt_price t)) as [[-> Hm]|[-> Hm]].
    + split; [exists h; split; [apply in_app_iff; by left|done]|].
      intros x Hx. apply in_app_iff in Hx as [Hx|[->|[]]]; auto.
    + split; [exists t; split; [apply in_app_iff; right; by left|done]|].
      intros x Hx. apply in_app_iff in Hx as [Hx|[->|[]]]; [specialize (Hhm x Hx)|]; lra.
  - destruct (dmin_spec (c_low c) (mt_price t)) as [[-> Hm]|[-> Hm]].
    + split; [exists l; split; [apply in_app_iff; by left|done]|].
      intros x Hx. apply in_app_iff in Hx as [Hx|[->|[]]]; auto.
    + split; [exists t; split; [apply in_app_iff; right; by left|done]|].
      intros x Hx. apply in_app_iff in Hx as [Hx|[->|[]]]; [specialize (Hlm x Hx)|]; lra.
  - rewrite Hv. cbn. rewrite map_app, foldl_app. done.
  - intros Hlen. rewrite length_app in *. cbn [length] in *. rewrite Hn by lia.
    unfold i32_add. rewrite wrap_i32_id by lia. lia.
  - intros x Hx. apply in_app_iff in Hx as [Hx|[->|[]]]; auto.
Qed.

Lemma summarises_close interval ts c at_ :
  summarises interval ts c -> summarises interval ts (close_candle c at_).
Proof using. intros []. by split. Qed.
End BuilderFacts.

(** ** Whole streams *)

Section Streams.
Context {DI : Decimal} {CH : Chrono} {JS : Json}.

(** The builder, the closed candles it handed out and the trades it accepted. *)
Record StreamState := { ss_builder : CandleBuilder; ss_closed : list Candle;
                        ss_accepted : list MarketTrade }.

Definition feed_step (st : StreamState) (e : Z * MarketTrade) : StreamState :=
  let (b, r) := apply_trade (fst e) (ss_builder st) (snd e) in
  match r with
  | Ok u => {| ss_builder := b;
               ss_closed := ss_closed st ++ match cu_closed u with Some c => [c] | None => [] end;
               ss_accepted := ss_accepted st ++ [snd e] |}
  | _ => {| ss_builder := b; ss_closed := ss_closed st; ss_accepted := ss_accepted st |}
  end.

Definition feed (b : CandleBuilder) (trades : list (Z * MarketTrade)) : StreamState :=
  foldl feed_step {| ss_builder := b; ss_closed := []; ss_accepted := [] |} trades.

(** The candles of a stream so far: the closed ones and the active one. *)
Definition stream_candles (st : StreamState) : list Candle :=
  ss_closed st ++ match cb_active (ss_builder st) with Some a => [a] | None => [] end.
End Streams.

Section StreamFacts.
Context {DI : Decimal} {DL : DecimalLaws DI} {CH : Chrono} {CL : ChronoLaws CH} {JS : Json}.

Lemma bucket_floor_mono self t t' : t <= t' -> bucket_floor self t <= bucket_floor self t'.
Proof using.
  intros H. unfold bucket_floor. pose proof (source_candle_count_pos self) as Hc.
  set (n := 60 * source_candle_count self).
  assert (0 < n) as Hn by (unfold n; lia).
  assert (t / NANOS <= t' / NANOS) as Hs by (apply Z.div_le_mono; [done|lia]).
  assert (t / NANOS / n <= t' / NANOS / n) by (apply Z.div_le_mono; [done|lia]).
  pose proof (Z.div_mod (t / NANOS) n ltac:(lia)). pose proof (Z.div_mod (t' / NANOS) n ltac:(lia)).
  assert (t / NANOS - (t / NANOS) mod n <= t' / NANOS - (t' / NANOS) mod n) by nia.
  unfold NANOS in *. nia.
Qed.

Lemma summarises_open_aligned interval ts c :
  summarises interval ts c -> bucket_floor interval (c_open_time c) = c_open_time c.
Proof using.
  intros [(o & Ho & _) _ _ _ _ _ Hb _]. destruct ts as [|t ts]; [done|].
  rewrite <- (Hb t (or_introl eq_refl)). apply bucket_floor_idem.
Qed.

Definition stream_inv (interval : CandleInterval.t) (st : StreamState) : Prop :=
  cb_interval (ss_builder st) = interval /\
  exists groups,
    Forall2 (summarises interval) groups (ss_closed st) /\
    StronglySorted (fun c c' => c_open_time c < c_open_time c') (ss_closed st) /\
    Forall (fun c => c_is_closed c = true) (ss_closed st) /\
    match cb_active (ss_builder st) with
    | None => ss_closed st = [] /\ ss_accepted st = []
    | Some a =>
      exists g, ss_accepted st = concat groups ++ g /\ summarises interval g a /\
        c_is_closed a = false /\
        Forall (fun c => c_open_time c < c_open_time a) (ss_closed st)
    end.

Lemma feed_step_inv interval st e :
  modern (mt_trade_time (snd e)) -> stream_inv interval st -> stream_inv interval (feed_step st e).
Proof using DL CL.
  intros Hm (Hi & groups & HF & Hs & Hc & Hact). destruct e as [id t]; cbn [snd] in Hm.
  unfold feed_step, apply_trade. cbn [fst snd].
  destruct (mt_price t <=? ZERO)%dec; [by repeat (split; [done|]); eauto|].
  destruct (mt_quantity t <=? ZERO)%dec; [by repeat (split; [done|]); eauto|].
  rewrite floor_time_modern by done.
  destruct (cb_active (ss_builder st)) as [a|] eqn:Ha.
  - destruct Hact as (g & Hg & Hsum & Hopen & Hlt).
    destruct (Z.ltb_spec (mt_trade_time t) (c_open_time a)).
    { split; [done|]. exists groups. cbn. eauto 10. }
    destruct (Z.eqb_spec (bucket_floor (cb_interval (ss_builder st)) (mt_trade_time t)) (c_open_time a))
      as [Heq|Hne]; (split; [done|]); rewrite Hi in *.
    + exists groups. cbn. rewrite app_nil_r. do 3 (split; [done|]).
      exists (g ++ [t]). rewrite Hg, app_assoc. do 2 (split; [by try apply summarises_update|]).
      by split.
    + exists (groups ++ [g]). cbn.
      assert (Hnext : c_open_time a < bucket_floor interval (mt_trade_time t)).
      { pose proof (bucket_floor_mono interval _ _ H).
        rewrite (summarises_open_aligned _ _ _ Hsum) in *. lia. }
      split; [apply Forall2_app; [done|constructor; [by apply summarises_close|constructor]]|].
      split; [by apply strongly_sorted_snoc|].
      split; [apply Forall_app; split; [done|by repeat constructor]|].
      exists [t]. split; [by rewrite Hg, concat_app; cbn; rewrite app_nil_r|].
      split; [apply summarises_new|]. split; [done|].
      apply Forall_app. split; [|by repeat constructor].
      eapply Forall_impl; [exact Hlt|]. cbn; intros; lia.
  - destruct Hact as [Hcl Hacc]. split; [done|]. rewrite Hi. exists []. cbn.
    rewrite Hcl in *. inversion HF; subst. cbn. do 3 (split; [constructor|]).
    exists [t]. rewrite Hacc. split; [done|]. split; [apply summarises_new|].
    split; [done|constructor].
Qed.

Lemma feed_inv interval b trades :
  cb_interval b = interval -> cb_active b = None ->
  Forall (fun e => modern (mt_trade_time (snd e))) trades ->
  stream_inv interval (feed b trades).
Proof using DL CL.
  intros Hi Ha. unfold feed.
  assert (Hinit : stream_inv interval {| ss_builder := b; ss_closed := []; ss_accepted := [] |}).
  { split; [done|]. exists []. cbn. rewrite Ha. do 3 (split; [constructor|]). done. }
  revert Hinit. generalize {| ss_builder := b; ss_closed := []; ss_accepted := [] |}.
  induction trades as [|e trades IH]; intros st Hst Hall; [done|].
  inversion Hall; subst. cbn. apply IH; [by apply feed_step_inv|done].
Qed.
End StreamFacts.

(** C11.  What a candle stream is.  Feed any list of trades (instants from 1970
    on; invalid and late ones included) to a fresh builder.  The candles it
    produced, closed ones and the active one, have strictly increasing open
    times, and they partition the accepted trades, in arrival order: each candle
    is the exact summary of its trades -- open of the first, close of the last,
    the greatest and the least price, the sum of the quantities, their number --
    and all of them fall in its interval.  Closed candles are marked closed, the
    active one open. *)
Theorem candle_stream_summarises_trades {DI : Decimal} {DL : DecimalLaws DI} {CH : Chrono}
    {CL : ChronoLaws CH} {JS : Json} (exchange : MarketDataSource.t) (symbol : Symbol)
    (interval : CandleInterval.t) (trades : list (Z * MarketTrade)) :
  Forall (fun e => modern (mt_trade_time (snd e))) trades ->
  let st := feed (CandleBuilder_new exchange symbol interval) trades in
  StronglySorted (fun c c' => c_open_time c < c_open_time c') (stream_candles st) /\
  (exists groups, concat groups = ss_accepted st /\
     Forall2 (summarises interval) groups (stream_candles st)) /\
  Forall (fun c => c_is_closed c = true) (ss_closed st) /\
  (forall a, cb_active (ss_builder st) = Some a -> c_is_closed a = false).
Proof.
  intros Hall. cbn zeta.
  destruct (feed_inv interval (CandleBuilder_new exchange symbol interval) trades eq_refl eq_refl Hall)
    as (_ & groups & HF & Hs & Hc & Hact).
  unfold stream_candles. destruct (cb_active _) as [a|] eqn:Ha.
  - destruct Hact as (g & Hg & Hsum & Hopen & Hlt).
    split; [by apply strongly_sorted_snoc|]. split; [|split; [done|by intros ? [= <-]]].
    exists (groups ++ [g]). rewrite concat_app. cbn. rewrite app_nil_r. split; [done|].
    apply Forall2_app; [done|]. constructor; [done|constructor].
  - destruct Hact as [-> ->]. split; [constructor|].
    split; [|split; [constructor|done]]. exists []. split; [done|constructor].
Qed.

(** When a trade is refused.  [apply_trade] fails exactly on a price or a
    quantity that is not positive and on a trade older than the active candle,
    in that order of precedence, and a refused trade leaves the builder as it
    was; an accepted one leaves the candle it reports as the active one, and
    reports a closed candle exactly when it opens a new bucket. *)
Theorem apply_trade_outcome {DI : Decimal} {DL : DecimalLaws DI} {CH : Chrono} {CL : ChronoLaws CH}
    {JS : Json} (new_v4 : Z) (b : CandleBuilder) (t : MarketTrade) :
  modern (mt_trade_time t) ->
  let (b', r) := apply_trade new_v4 b t in
  match r with
  | Ok u => trade_valid t /\ cb_active b' = Some (cu_active u) /\
      (forall a, cb_active b = Some a -> c_open_time a <= mt_trade_time t) /\
      (cu_closed u <> None <-> exists a, cb_active b = Some a /\
         c_open_time a <> bucket_floor (cb_interval b) (mt_trade_time t))
  | Err InvalidPrice => b' = b /\ (dval (mt_price t) <= 0)%Q
  | Err InvalidQuantity => b' = b /\ (0 < dval (mt_price t))%Q /\ (dval (mt_quantity t) <= 0)%Q
  | Err (OutOfOrderTrade at_trade at_) => b' = b /\ trade_valid t /\ at_trade = mt_trade_time t /\
      exists a, cb_active b = Some a /\ at_ = c_open_time a /\ mt_trade_time t < c_open_time a
  | Panic => False
  end.
Proof.
  intros Hm. unfold apply_trade, trade_valid. pose proof dval_ZERO as H0.
  destruct (mt_price t <=? ZERO)%dec eqn:E1; dec_to_Q; [split; [done|lra]|].
  destruct (mt_quantity t <=? ZERO)%dec eqn:E2; dec_to_Q; [split; [done|split; lra]|].
  rewrite floor_time_modern by done.
  assert (Hv : (0 < dval (mt_price t))%Q /\ (0 < dval (mt_quantity t))%Q) by (split; lra).
  destruct (cb_active b) as [a|] eqn:Ha.
  - destruct (Z.ltb_spec (mt_trade_time t) (c_open_time a)) as [Hlt|Hge].
    { split; [destruct b; cbn in *; by subst|]. split; [done|]. split; [done|]. eauto. }
    destruct (Z.eqb_spec (bucket_floor (cb_interval b) (mt_trade_time t)) (c_open_time a)); cbn.
    + split; [done|]. split; [done|]. split; [by intros ? [= <-]|].
      split; [done|]. intros (? & [= <-] & ?). congruence.
    + split; [done|]. split; [done|]. split; [by intros ? [= <-]|].
      split; [|done]. intros _. exists a. split; [done|]. congruence.
  - cbn. split; [done|]. split; [done|]. split; [done|]. split; [done|]. by intros (? & ? & _).
Qed.

Module IngestSample.
#[local] Existing Instance ExactDecimal.
#[local] Existing Instance PlainChrono.
#[local] Existing Instance PlainJson.

Definition trade (s price qty : Z) : MarketTrade := {|
  mt_trade_id := "t"; mt_exchange := MarketDataSource.Binance;
  mt_symbol := {| symbol_text := "BTCUSDT" |}; mt_price := dint price; mt_quantity := dint qty;
  mt_trade_time := seconds (1716500100 + s); mt_received_at := seconds (1716500100 + s);
  mt_is_buyer_maker := None; mt_raw_payload := None |}.

Definition trades : list (Z * MarketTrade) :=
  [(1, trade 3 100 1); (2, trade 20 104 2); (3, trade 10 99 1); (4, trade 61 0 1);
   (5, trade 65 101 1); (6, trade 2 50 1); (7, trade 200 102 3)].

Lemma trades_modern : Forall (fun e => modern (mt_trade_time (snd e))) trades.
Proof. repeat constructor; vm_compute; discriminate. Defined.

Example backfill_pages_partition_witness :
  exists pages, plan_backfill_pages 0 (minutes 7) CandleInterval.OneMinute 3 = Ok pages /\
    length pages = 3%nat /\
    exists i p, pages !! i = Some p /\ in_page (minutes 4) p.
Proof.
  destruct (backfill_pages_partition (CH := PlainChrono) (CL := PlainChronoLaws) 0 (minutes 7)
    CandleInterval.OneMinute 3 ltac:(lia)) as (pages & Hrun & Hin & _).
  exists pages. split; [exact Hrun|]. split.
  - vm_compute in Hrun. injection Hrun as <-. reflexivity.
  - destruct (Hin (minutes 4)) as (i & p & Hi & Hp & _); [vm_compute; split; (discriminate || reflexivity)|].
    exists i, p. split; [exact Hi|exact Hp].
Defined.

Example candle_stream_summarises_trades_witness :
  let st := feed (CandleBuilder_new MarketDataSource.Binance {| symbol_text := "BTCUSDT" |}
                    CandleInterval.OneMinute) trades in
  length (stream_candles st) = 3%nat /\ length (ss_accepted st) = 5%nat /\
  StronglySorted (fun c c' => c_open_time c < c_open_time c') (stream_candles st).
Proof.
  cbn zeta. split; [vm_compute; reflexivity|]. split; [vm_compute; reflexivity|].
  exact (proj1 (candle_stream_summarises_trades (DL := ExactDecimalLaws) (CL := PlainChronoLaws)
    MarketDataSource.Binance {| symbol_text := "BTCUSDT" |} CandleInterval.OneMinute trades
    trades_modern)).
Defined.

Example apply_trade_outcome_witness :
  exists b' u, apply_trade 1 (CandleBuilder_new MarketDataSource.Binance {| symbol_text := "BTCUSDT" |}
                    CandleInterval.OneMinute) (trade 3 100 1) = (b', Ok u) /\
    cb_active b' = Some (cu_active u).
Proof.
  pose proof (apply_trade_outcome (DL := ExactDecimalLaws) (CL := PlainChronoLaws) 1
    (CandleBuilder_new MarketDataSource.Binance {| symbol_text := "BTCUSDT" |}
       CandleInterval.OneMinute) (trade 3 100 1)) as H.
  destruct (apply_trade 1 _ _) as [b' r] eqn:E. destruct r as [u|e|].
  - exists b', u. split; [reflexivity|]. apply H. vm_compute. split; discriminate.
  - vm_compute in E. discriminate.
  - vm_compute in E. discriminate.
Defined.
End IngestSample.
