(* ===== verification/Strategy.v ===== *)
(** * Strategies: crates/strategy-engine/src/lib.rs (types: crates/core/src/lib.rs, 1698-1800 and 2677-2713)

    [evaluate] and the nine strategies it dispatches to (lines 811-868 and
    1915-2405), the number of candles each needs ([required_candle_count]), and
    the metrics they compute (4010-4450).  [new_v4] is the identifier of the
    signal, if one is generated.  Slices and indices that leave their vector,
    [expect] on an empty iterator and subtractions below zero are [Panic]. *)

From Stdlib Require Import ZArith QArith Lqa Lia List Permutation Sorted String.
From stdpp Require Import base list strings.
From S2P Require Import Prelude Text Host Types MarketData.

#[local] Open Scope Z_scope.

Section StrategyTypes.
Context {DI : Decimal}.

Record SignalConfidence := { confidence_value : dec }.

Definition SignalConfidence_new (value : dec) : result SignalConfidence :=
  if (value <? ZERO)%dec || (value >? ONE)%dec then
    Err (CoreError.InvalidSignalConfidence (dshow value))
  else Ok {| confidence_value := value |}.

Record StrategyConfig := {
  sc_strategy_id : StrategyId.t;
  sc_enabled : bool;
  sc_mode : StrategyMode.t;
  sc_symbols : list Symbol;
  sc_timeframe : CandleInterval.t;
  sc_suggested_notional : dec;
  sc_max_signal_age_ms : Z;
  sc_cooldown_seconds : Z;
  sc_lookback_candles : Z;
  sc_trend_lookback_candles : option Z;
  sc_momentum_lookback_candles : option Z;
  sc_compression_lookback_candles : option Z;
  sc_breakout_lookback_candles : option Z;
  sc_pullback_lookback_candles : option Z;
  sc_pullback_sma_lookback_candles : option Z;
  sc_compression_percentile_threshold : option dec;
  sc_min_breakout_pct : option dec;
  sc_max_breakout_extension_pct : option dec;
  sc_min_volume_expansion_ratio : option dec;
  sc_lower_band_pct : option dec;
  sc_upper_band_pct : option dec;
  sc_min_range_width_pct : option dec;
  sc_max_range_width_pct : option dec;
  sc_min_close_above_sma_pct : option dec;
  sc_max_close_above_sma_pct : option dec;
  sc_min_momentum_return_pct : option dec;
  sc_min_trend_return_pct : option dec;
  sc_min_trend_slope_pct : option dec;
  sc_min_pullback_depth_pct : option dec;
  sc_max_pullback_depth_pct : option dec;
  sc_min_reclaim_pct : option dec;
  sc_min_breakdown_pct : option dec;
  sc_min_reclaim_close_pct : option dec;
  sc_min_lower_wick_pct : option dec;
  sc_min_volume_ratio : option dec;
  sc_max_choppiness : option dec;
  sc_confidence_floor : option dec;
  sc_stop_loss_pct : option dec;
  sc_take_profit_pct : option dec;
  sc_holding_candles : option Z;
  sc_confirmation_candles : Z;
  sc_require_confirmation_close_above_lookback_low : bool;
  sc_require_confirmation_low_above_breakdown_low : bool;
  sc_notes : option string
}.

Record StrategyConfigUpdateRequest := {
  su_strategy_id : string;
  su_enabled : bool;
  su_mode : StrategyMode.t;
  su_symbols : list string;
  su_timeframe : string;
  su_suggested_notional : dec;
  su_max_signal_age_ms : Z;
  su_cooldown_seconds : Z;
  su_lookback_candles : Z;
  su_trend_lookback_candles : option Z;
  su_momentum_lookback_candles : option Z;
  su_compression_lookback_candles : option Z;
  su_breakout_lookback_candles : option Z;
  su_pullback_lookback_candles : option Z;
  su_pullback_sma_lookback_candles : option Z;
  su_compression_percentile_threshold : option dec;
  su_min_breakout_pct : option dec;
  su_max_breakout_extension_pct : option dec;
  su_min_volume_expansion_ratio : option dec;
  su_lower_band_pct : option dec;
  su_upper_band_pct : option dec;
  su_min_range_width_pct : option dec;
  su_max_range_width_pct : option dec;
  su_min_close_above_sma_pct : option dec;
  su_max_close_above_sma_pct : option dec;
  su_min_momentum_return_pct : option dec;
  su_min_trend_return_pct : option dec;
  su_min_trend_slope_pct : option dec;
  su_min_pullback_depth_pct : option dec;
  su_max_pullback_depth_pct : option dec;
  su_min_reclaim_pct : option dec;
  su_min_breakdown_pct : option dec;
  su_min_reclaim_close_pct : option dec;
  su_min_lower_wick_pct : option dec;
  su_min_volume_ratio : option dec;
  su_max_choppiness : option dec;
  su_confidence_floor : option dec;
  su_stop_loss_pct : option dec;
  su_take_profit_pct : option dec;
  su_holding_candles : option Z;
  su_confirmation_candles : Z;
  su_require_confirmation_close_above_lookback_low : bool;
  su_require_confirmation_low_above_breakdown_low : bool;
  su_notes : option string
}.

Definition StrategyConfig_validate (self : StrategyConfig) : result unit :=
  if (sc_suggested_notional self <=? ZERO)%dec then Err CoreError.InvalidStrategyNotional else
  if sc_max_signal_age_ms self <=? 0 then
    Err (CoreError.InvalidStrategyMaxSignalAgeMs (sc_max_signal_age_ms self)) else
  match sc_symbols self with
  | [] => Err CoreError.EmptyStrategySymbols
  | _ => Ok tt
  end.

Record StrategySignal := {
  sg_signal_id : Z;
  sg_strategy_id : StrategyId.t;
  sg_symbol : Symbol;
  sg_side : SignalSide.t;
  sg_confidence : SignalConfidence;
  sg_timeframe : CandleInterval.t;
  sg_reason : SignalReason.t;
  sg_suggested_notional : dec;
  sg_stop_loss_pct : option dec;
  sg_take_profit_pct : option dec;
  sg_source_candle_open_time : Z;
  sg_correlation_id : Z;
  sg_created_at : Z
}.

Record StrategyEvaluationContext := {
  cx_correlation_id : Z;
  cx_strategy_id : StrategyId.t;
  cx_symbol : Symbol;
  cx_config : StrategyConfig;
  cx_candles : list Candle;
  cx_evaluated_at : Z
}.

Record StrategyEvaluationResult := {
  sr_strategy_id : StrategyId.t;
  sr_symbol : Symbol;
  sr_timeframe : CandleInterval.t;
  sr_generated : bool;
  sr_reason : SignalReason.t;
  sr_signal : option StrategySignal;
  sr_correlation_id : Z;
  sr_evaluated_at : Z
}.

(** ** Parameters with their defaults *)

Definition trend_lookback (config : StrategyConfig) : Z :=
  default (sc_lookback_candles config) (sc_trend_lookback_candles config).
Definition momentum_lookback (config : StrategyConfig) : Z :=
  default 3 (sc_momentum_lookback_candles config).
Definition compression_lookback (config : StrategyConfig) : Z :=
  default (sc_lookback_candles config) (sc_compression_lookback_candles config).
Definition breakout_lookback (config : StrategyConfig) : Z :=
  default (sc_lookback_candles config) (sc_breakout_lookback_candles config).
Definition pullback_lookback (config : StrategyConfig) : Z :=
  default 10 (sc_pullback_lookback_candles config).
Definition pullback_sma_lookback (config : StrategyConfig) : Z :=
  default 20 (sc_pullback_sma_lookback_candles config).
Definition compression_percentile_threshold (config : StrategyConfig) : dec :=
  default (dnew 25 0) (sc_compression_percentile_threshold config).
Definition min_breakout_pct (config : StrategyConfig) : dec :=
  default (dnew 5 2) (sc_min_breakout_pct config).
Definition max_breakout_extension_pct (config : StrategyConfig) : dec :=
  default (dnew 15 1) (sc_max_breakout_extension_pct config).
Definition min_volume_expansion_ratio (config : StrategyConfig) : dec :=
  default (dnew 11 1) (sc_min_volume_expansion_ratio config).
Definition lower_band_pct (config : StrategyConfig) : dec :=
  default (dnew 20 0) (sc_lower_band_pct config).
Definition min_range_width_pct (config : StrategyConfig) : dec :=
  default (dnew 15 2) (sc_min_range_width_pct config).
Definition max_range_width_pct (config : StrategyConfig) : dec :=
  default (dnew 3 0) (sc_max_range_width_pct config).
Definition min_close_above_sma_pct (config : StrategyConfig) : dec :=
  default ZERO (sc_min_close_above_sma_pct config).
Definition max_close_above_sma_pct (config : StrategyConfig) : dec :=
  default ONE (sc_max_close_above_sma_pct config).
Definition min_momentum_return_pct (config : StrategyConfig) : dec :=
  default ZERO (sc_min_momentum_return_pct config).
Definition min_trend_return_pct (config : StrategyConfig) : dec :=
  default (dnew 2 0) (sc_min_trend_return_pct config).
Definition min_trend_slope_pct (config : StrategyConfig) : dec :=
  default ZERO (sc_min_trend_slope_pct config).
Definition min_pullback_depth_pct (config : StrategyConfig) : dec :=
  default (dnew 3 1) (sc_min_pullback_depth_pct config).
Definition max_pullback_depth_pct (config : StrategyConfig) : dec :=
  default (dnew 5 0) (sc_max_pullback_depth_pct config).
Definition min_reclaim_pct (config : StrategyConfig) : dec :=
  default (dnew 5 2) (sc_min_reclaim_pct config).
Definition min_breakdown_pct (config : StrategyConfig) : dec :=
  default (dnew 5 2) (sc_min_breakdown_pct config).
Definition min_reclaim_close_pct (config : StrategyConfig) : dec :=
  default ZERO (sc_min_reclaim_close_pct config).
Definition min_lower_wick_pct (config : StrategyConfig) : dec :=
  default ONE (sc_min_lower_wick_pct config).
Definition min_volume_ratio (config : StrategyConfig) : dec :=
  default (dnew 8 1) (sc_min_volume_ratio config).
Definition min_volume_ratio_failed_reclaim (config : StrategyConfig) : dec :=
  default ZERO (sc_min_volume_ratio config).
Definition max_choppiness (config : StrategyConfig) : dec :=
  default (dnew 60 0) (sc_max_choppiness config).

(** The lookbacks are [u32]; sums are taken in [i64]. *)
Definition required_candle_count (config : StrategyConfig) : Z :=
  match sc_strategy_id config with
  | StrategyId.TrendFilterMomentumV1 | StrategyId.TrendFilterMomentumV2 =>
    let trend := trend_lookback config + 1 in
    let momentum := momentum_lookback config + 1 in
    Z.max (Z.max trend momentum) 2
  | StrategyId.VolatilityBreakoutV2 => Z.max (breakout_lookback config + 1) 2
  | StrategyId.VolatilityCompressionBreakoutV1 =>
    Z.max (compression_lookback config + breakout_lookback config + 1) 2
  | StrategyId.RangeReversionV1 => Z.max (sc_lookback_candles config + 1) 2
  | StrategyId.TrendPullbackContinuationV1 =>
    let trend := trend_lookback config + 1 in
    let pullback := pullback_lookback config + 1 in
    let sma := pullback_sma_lookback config in
    Z.max (Z.max (Z.max (Z.max trend pullback) sma) 20) 2
  | StrategyId.FailedBreakdownReclaimV1 => Z.max (sc_lookback_candles config + 1) 2
  | _ => Z.max (sc_lookback_candles config + 1) 2
  end.
End StrategyTypes.

(** ** Arithmetic helpers *)

Section Metrics.
Context {DI : Decimal} {CH : Chrono}.

(** [Ord::clamp] *)
Definition dclamp (x lo hi : dec) : dec :=
  if (x <? lo)%dec then lo else if (x >? hi)%dec then hi else x.

Definition pct_ratio (numerator denominator : dec) : dec :=
  if (denominator =? ZERO)%dec then ZERO
  else (ddiv numerator denominator * dnew 100 0)%dec.

Definition average_decimal (values : list dec) : dec :=
  match values with
  | [] => ZERO
  | _ => ddiv (dsum values) (dint (Z.of_nat (length values)))
  end.

Definition candle_range_pct (candle : Candle) : dec :=
  if (c_open candle >? ZERO)%dec then
    (ddiv (c_high candle - c_low candle)%dec (c_open candle) * dnew 100 0)%dec
  else ZERO.

Definition percentile {E} (sorted : list dec) (pct : dec) : res E dec :=
  match sorted with
  | [] => Ok ZERO
  | _ =>
    let max_index := (length sorted - 1)%nat in
    let rank := Nat.min (default max_index (dto_usize (dround_dp
      (ddiv (dint (Z.of_nat max_index) * pct)%dec (dnew 100 0)) 0))) max_index in
    index sorted rank
  end.

Definition normalize_closed_candles (candles : list Candle) : list Candle :=
  sort_by_key c_open_time (List.filter c_is_closed candles).

(** [latest.volume / average_volume], 0 when there is no volume. *)
Definition volume_ratio_of (latest : Candle) (average_volume : dec) : dec :=
  if (average_volume =? ZERO)%dec then ZERO else ddiv (c_volume latest) average_volume.

Definition high_of (l : list Candle) : option dec := iter_max dleb (map c_high l).
Definition low_of (l : list Candle) : option dec := iter_min dleb (map c_low l).
End Metrics.

(** ** Indices counted from the end

    [v[v.len() - n]], [&v[v.len() - a .. v.len() - b]] and [&v[v.len() - n ..]]. *)

Definition index_back {E A} (v : list A) (n : nat) : res E A :=
  i ← usize_sub (length v) n;
  index v i.
Definition slice_back {E A} (v : list A) (a b : nat) : res E (list A) :=
  i ← usize_sub (length v) a;
  j ← usize_sub (length v) b;
  slice v i j.

(** ** Metrics of the window a strategy looks at *)

Section WindowMetrics.
Context {DI : Decimal}.

Definition validate_failed_breakdown_reclaim_config (config : StrategyConfig) : option string :=
  if sc_lookback_candles config <=? 1 then
    Some "Invalid failed breakdown reclaim config: lookback_candles must be greater than 1."
  else if (min_breakdown_pct config <? ZERO)%dec || (min_reclaim_close_pct config <? ZERO)%dec
     || (min_lower_wick_pct config <? ZERO)%dec
     || (min_volume_ratio_failed_reclaim config <? ZERO)%dec then
    Some "Invalid failed breakdown reclaim config: breakdown, reclaim, wick, and volume thresholds must be non-negative."
  else if sc_max_signal_age_ms config >? snd (recommended_max_signal_age_ms (sc_timeframe config)) then
    Some "Invalid failed breakdown reclaim config: max_signal_age_ms is unreasonable for timeframe."
  else None.

Record FailedBreakdownReclaimMetrics := {
  fb_lookback_low : dec;
  fb_latest_low : dec;
  fb_latest_close : dec;
  fb_breakdown_pct : dec;
  fb_reclaim_close_pct : dec;
  fb_lower_wick_pct : dec;
  fb_volume_ratio : dec;
  fb_average_volume : dec;
  fb_candle_body_pct : dec;
  fb_candle_range_pct : dec;
  fb_close_vs_sma_pct : dec
}.

Definition calculate_failed_breakdown_reclaim_metrics (config : StrategyConfig)
    (window : list Candle) : result FailedBreakdownReclaimMetrics :=
  latest ← expect (last window);
  let lookback := Z.to_nat (sc_lookback_candles config) in
  previous_window ← slice_back window (lookback + 1) 1;
  let lookback_low := default (c_low latest) (low_of previous_window) in
  let body_floor := dmin (c_open latest) (c_close latest) in
  let average_volume := average_decimal (map c_volume previous_window) in
  let sma_window_len := Nat.min 20 (length window) in
  sma_window ← slice_back window sma_window_len 0;
  let sma := average_decimal (map c_close sma_window) in
  Ok {| fb_lookback_low := lookback_low;
        fb_latest_low := c_low latest;
        fb_latest_close := c_close latest;
        fb_breakdown_pct := pct_ratio (lookback_low - c_low latest) lookback_low;
        fb_reclaim_close_pct := pct_ratio (c_close latest - lookback_low) lookback_low;
        fb_lower_wick_pct := pct_ratio (body_floor - c_low latest) (c_open latest);
        fb_volume_ratio := volume_ratio_of latest average_volume;
        fb_average_volume := average_volume;
        fb_candle_body_pct := pct_ratio (dabs (c_close latest - c_open latest)) (c_open latest);
        fb_candle_range_pct := candle_range_pct latest;
        fb_close_vs_sma_pct := pct_ratio (c_close latest - sma) sma |}.

Definition validate_trend_pullback_config (config : StrategyConfig) : option string :=
  let trend := trend_lookback config in
  let pullback := pullback_lookback config in
  let sma := pullback_sma_lookback config in
  if (trend <=? 1) || (pullback <=? 1) || (sma <=? 1) then
    Some "Invalid trend pullback continuation config: lookbacks must be greater than 1."
  else if trend <? pullback then
    Some "Invalid trend pullback continuation config: trend_lookback_candles must be greater than or equal to pullback_lookback_candles."
  else if (max_pullback_depth_pct config <=? min_pullback_depth_pct config)%dec then
    Some "Invalid trend pullback continuation config: max_pullback_depth_pct must be greater than min_pullback_depth_pct."
  else if (max_close_above_sma_pct config <? ZERO)%dec || (min_volume_ratio config <? ZERO)%dec
     || (max_choppiness config <=? ZERO)%dec then
    Some "Invalid trend pullback continuation config: SMA, volume, and choppiness thresholds are invalid."
  else None.

Record TrendPullbackMetrics := {
  tp_trend_return_pct : dec;
  tp_trend_slope_pct : dec;
  tp_recent_high : dec;
  tp_pullback_depth_pct : dec;
  tp_pullback_sma : dec;
  tp_close_vs_sma_pct : dec;
  tp_reclaim_confirmed : bool;
  tp_volume_ratio : dec;
  tp_choppiness : dec
}.

(** 100 minus the share, in percent, of the summed candle ranges that the
    closes of the window actually travelled. *)
Definition choppiness_of (latest : Candle) (chop_window : list Candle) : dec :=
  let range_sum := foldl (fun sum candle => sum + (c_high candle - c_low candle))%dec
                     ZERO chop_window in
  let first_close := default (c_close latest) (option_map c_close (head chop_window)) in
  let directional_move := dabs (c_close latest - first_close) in
  let trend_efficiency :=
    if (range_sum =? ZERO)%dec then ZERO
    else dclamp (ddiv directional_move range_sum * dnew 100 0)%dec ZERO (dnew 100 0) in
  (dnew 100 0 - trend_efficiency)%dec.

Definition calculate_trend_pullback_metrics (config : StrategyConfig) (window : list Candle)
    : result TrendPullbackMetrics :=
  latest ← expect (last window);
  previous ← index_back window 2;
  let trend := Z.to_nat (trend_lookback config) in
  let pullback := Z.to_nat (pullback_lookback config) in
  let sma_lookback := Z.to_nat (pullback_sma_lookback config) in
  trend_reference ← index_back window (trend + 1);
  let trend_return_pct :=
    pct_ratio (c_close latest - c_close trend_reference) (c_close trend_reference) in
  pullback_window ← slice_back window pullback 0;
  let recent_high := default (c_high latest) (high_of pullback_window) in
  let pullback_reference := dmin (c_low latest) (c_close latest) in
  sma_window ← slice_back window sma_lookback 0;
  let pullback_sma := average_decimal (map c_close sma_window) in
  let reclaim_return_pct := pct_ratio (c_close latest - c_close previous) (c_close previous) in
  (* [window.len().saturating_sub(pullback + 1)] is [nat] subtraction *)
  volume_window ← slice window (length window - (pullback + 1)) (length window - 1);
  let average_volume := average_decimal (map c_volume volume_window) in
  let chop_lookback := Nat.min 20 (length window) in
  chop_window ← slice_back window chop_lookback 0;
  Ok {| tp_trend_return_pct := trend_return_pct;
        tp_trend_slope_pct := trend_return_pct;
        tp_recent_high := recent_high;
        tp_pullback_depth_pct := pct_ratio (recent_high - pullback_reference) recent_high;
        tp_pullback_sma := pullback_sma;
        tp_close_vs_sma_pct := pct_ratio (c_close latest - pullback_sma) pullback_sma;
        tp_reclaim_confirmed := (c_close latest >? c_close previous)%dec
          && (c_close latest >? c_open latest)%dec
          && (reclaim_return_pct >=? min_reclaim_pct config)%dec;
        tp_volume_ratio := volume_ratio_of latest average_volume;
        tp_choppiness := choppiness_of latest chop_window |}.

Definition validate_compression_breakout_config (config : StrategyConfig) : option string :=
  let compression := compression_lookback config in
  let breakout := breakout_lookback config in
  let min_breakout := min_breakout_pct config in
  let max_extension := max_breakout_extension_pct config in
  let min_width := min_range_width_pct config in
  let max_width := max_range_width_pct config in
  if (compression <=? 1) || (breakout <=? 1) then
    Some "Invalid volatility compression breakout config: lookbacks must be greater than 1."
  else if compression >? breakout then
    Some "Invalid volatility compression breakout config: compression_lookback_candles must be less than or equal to breakout_lookback_candles."
  else if (min_breakout <? ZERO)%dec || (max_extension <=? min_breakout)%dec then
    Some "Invalid volatility compression breakout config: max_breakout_extension_pct must be greater than min_breakout_pct, and min_breakout_pct must be non-negative."
  else if (min_volume_expansion_ratio config <? ONE)%dec then
    Some "Invalid volatility compression breakout config: min_volume_expansion_ratio must be at least 1."
  else if (min_width <=? ZERO)%dec || (max_width <=? min_width)%dec then
    Some "Invalid volatility compression breakout config: range width bounds are invalid."
  else if sc_max_signal_age_ms config >? snd (recommended_max_signal_age_ms (sc_timeframe config)) then
    Some "Invalid volatility compression breakout config: max_signal_age_ms is unreasonable for timeframe."
  else None.

Record CompressionBreakoutMetrics := {
  cb_recent_avg_range_pct : dec;
  cb_baseline_avg_range_pct : dec;
  cb_compression_threshold_range_pct : dec;
  cb_compression_ratio : dec;
  cb_compression_passed : bool;
  cb_breakout_level : dec;
  cb_breakout_pct : dec;
  cb_volume_ratio : dec;
  cb_range_width_pct : dec;
  cb_range_width_within_bounds : bool
}.

(** The [saturating_sub]s are [nat] subtractions. *)
Definition calculate_compression_breakout_metrics (config : StrategyConfig)
    (window : list Candle) : result CompressionBreakoutMetrics :=
  let compression := Z.to_nat (compression_lookback config) in
  let breakout := Z.to_nat (breakout_lookback config) in
  let latest_index := (length window - 1)%nat in
  latest ← index window latest_index;
  let recent_start := (latest_index - compression)%nat in
  recent_window ← slice window recent_start latest_index;
  let baseline_end := recent_start in
  let baseline_start := (baseline_end - breakout)%nat in
  baseline_window ← (if (baseline_start <? baseline_end)%nat
                     then slice window baseline_start baseline_end else Ok recent_window);
  let breakout_start := (latest_index - breakout)%nat in
  breakout_window ← slice window breakout_start latest_index;
  let recent_avg_range_pct := average_decimal (map candle_range_pct recent_window) in
  let baseline_range_pcts := sort_by dleb (map candle_range_pct baseline_window) in
  let baseline_avg_range_pct := average_decimal baseline_range_pcts in
  compression_threshold_range_pct ←
    percentile baseline_range_pcts (compression_percentile_threshold config);
  let breakout_level := default (c_high latest) (high_of breakout_window) in
  let average_volume := average_decimal (map c_volume breakout_window) in
  let range_high := default (c_high latest) (high_of breakout_window) in
  let range_low := default (c_low latest) (low_of breakout_window) in
  let range_width_pct := pct_ratio (range_high - range_low) range_low in
  Ok {| cb_recent_avg_range_pct := recent_avg_range_pct;
        cb_baseline_avg_range_pct := baseline_avg_range_pct;
        cb_compression_threshold_range_pct := compression_threshold_range_pct;
        cb_compression_ratio := pct_ratio recent_avg_range_pct baseline_avg_range_pct;
        cb_compression_passed := (compression_threshold_range_pct >? ZERO)%dec
          && (recent_avg_range_pct <=? compression_threshold_range_pct)%dec;
        cb_breakout_level := breakout_level;
        cb_breakout_pct := pct_ratio (c_close latest - breakout_level) breakout_level;
        cb_volume_ratio := volume_ratio_of latest average_volume;
        cb_range_width_pct := range_width_pct;
        cb_range_width_within_bounds := (range_width_pct >=? min_range_width_pct config)%dec
          && (range_width_pct <=? max_range_width_pct config)%dec |}.

Record RangeMetrics := {
  rm_range_high : dec;
  rm_range_low : dec;
  rm_range_width_pct : dec;
  rm_range_position_pct : dec
}.

Definition calculate_range_metrics (candles : list Candle) : RangeMetrics :=
  let range_high := default ZERO (high_of candles) in
  let range_low := default ZERO (low_of candles) in
  let range_width := (range_high - range_low)%dec in
  let latest_close := default ZERO (option_map c_close (last candles)) in
  {| rm_range_high := range_high;
     rm_range_low := range_low;
     rm_range_width_pct := pct_ratio range_width range_low;
     rm_range_position_pct := pct_ratio (latest_close - range_low) range_width |}.
End WindowMetrics.

(** ** The nine strategies *)

Section Evaluate.
Context {DI : Decimal} (new_v4 : Z).

Definition no_signal_result (context : StrategyEvaluationContext) (timeframe : CandleInterval.t)
    (reason : SignalReason.t) : StrategyEvaluationResult := {|
  sr_strategy_id := cx_strategy_id context;
  sr_symbol := cx_symbol context;
  sr_timeframe := timeframe;
  sr_generated := false;
  sr_reason := reason;
  sr_signal := None;
  sr_correlation_id := cx_correlation_id context;
  sr_evaluated_at := cx_evaluated_at context
|}.

(** [Ok(no_signal_result(context, context.config.timeframe, reason))] *)
Definition no_signal (context : StrategyEvaluationContext) (reason : SignalReason.t)
    : result StrategyEvaluationResult :=
  Ok (no_signal_result context (sc_timeframe (cx_config context)) reason).

Definition generated_result (context : StrategyEvaluationContext) (source_candle : Candle)
    (reason : SignalReason.t) (confidence : dec) : result StrategyEvaluationResult :=
  let config := cx_config context in
  if match sc_confidence_floor config with
     | Some confidence_floor => (confidence <? confidence_floor)%dec
     | None => false
     end
  then no_signal context SignalReason.ConditionsNotMet else
  sconf ← SignalConfidence_new confidence;
  Ok {| sr_strategy_id := cx_strategy_id context;
        sr_symbol := cx_symbol context;
        sr_timeframe := sc_timeframe config;
        sr_generated := true;
        sr_reason := reason;
        sr_signal := Some {|
          sg_signal_id := new_v4;
          sg_strategy_id := cx_strategy_id context;
          sg_symbol := cx_symbol context;
          sg_side := SignalSide.Buy;
          sg_confidence := sconf;
          sg_timeframe := sc_timeframe config;
          sg_reason := reason;
          sg_suggested_notional := sc_suggested_notional config;
          sg_stop_loss_pct := sc_stop_loss_pct config;
          sg_take_profit_pct := sc_take_profit_pct config;
          sg_source_candle_open_time := c_open_time source_candle;
          sg_correlation_id := cx_correlation_id context;
          sg_created_at := cx_evaluated_at context |};
        sr_correlation_id := cx_correlation_id context;
        sr_evaluated_at := cx_evaluated_at context |}.

Definition evaluate_momentum (context : StrategyEvaluationContext) (candles : list Candle)
    : result StrategyEvaluationResult :=
  let lookback := Z.to_nat (sc_lookback_candles (cx_config context)) in
  let required := (lookback + 1)%nat in
  if (length candles <? required)%nat then no_signal context SignalReason.InsufficientHistory else
  recent ← slice_back candles required 0;
  let is_higher_closes :=
    forallb (fun '(c0, c1) => (c_close c1 >? c_close c0)%dec) (pairs recent) in
  if negb is_higher_closes then no_signal context SignalReason.ConditionsNotMet else
  let reason := if (lookback =? 3)%nat then SignalReason.ThreeConsecutiveHigherCloses
                else SignalReason.MomentumHigherCloses in
  latest ← expect (last recent);
  generated_result context latest reason (dnew 65 2).

Definition evaluate_breakout (context : StrategyEvaluationContext) (candles : list Candle)
    : result StrategyEvaluationResult :=
  let lookback := Z.to_nat (sc_lookback_candles (cx_config context)) in
  let required := (lookback + 1)%nat in
  if (length candles <? required)%nat then no_signal context SignalReason.InsufficientHistory else
  recent ← slice_back candles required 0;
  latest ← expect (last recent);
  previous_window ← slice recent 0 (length recent - 1);
  recent_high ← expect (high_of previous_window);
  if (c_close latest <=? recent_high)%dec then no_signal context SignalReason.ConditionsNotMet else
  generated_result context latest SignalReason.BreakoutAboveRecentHigh (dnew 70 2).

Definition evaluate_trend_filter_momentum (context : StrategyEvaluationContext)
    (candles : list Candle) : result StrategyEvaluationResult :=
  let config := cx_config context in
  let required := Z.to_nat (required_candle_count config) in
  if (length candles <? required)%nat then no_signal context SignalReason.InsufficientHistory else
  latest ← expect (last candles);
  previous ← index_back candles 2;
  let trend := Z.to_nat (trend_lookback config) in
  let momentum := Z.to_nat (momentum_lookback config) in
  trend_window ← slice_back candles (trend + 1) 1;
  let sma := average_decimal (map c_close trend_window) in
  momentum_reference ← index_back candles (momentum + 1);
  if (c_close latest <=? sma)%dec || (c_close latest <=? c_close previous)%dec
     || (c_close latest <=? c_close momentum_reference)%dec
  then no_signal context SignalReason.ConditionsNotMet else
  generated_result context latest SignalReason.TrendFilterMomentum (dnew 68 2).

Definition evaluate_trend_filter_momentum_v2 (context : StrategyEvaluationContext)
    (candles : list Candle) : result StrategyEvaluationResult :=
  let config := cx_config context in
  let min_band := min_close_above_sma_pct config in
  let max_band := max_close_above_sma_pct config in
  if (max_band <? min_band)%dec then no_signal context SignalReason.ConditionsNotMet else
  let required := Z.to_nat (required_candle_count config) in
  if (length candles <? required)%nat then no_signal context SignalReason.InsufficientHistory else
  latest ← expect (last candles);
  let trend := Z.to_nat (trend_lookback config) in
  let momentum := Z.to_nat (momentum_lookback config) in
  trend_window ← slice_back candles (trend + 1) 1;
  let sma := average_decimal (map c_close trend_window) in
  momentum_reference ← index_back candles (momentum + 1);
  let close_vs_sma_pct := pct_ratio (c_close latest - sma) sma in
  let momentum_return_pct :=
    pct_ratio (c_close latest - c_close momentum_reference) (c_close momentum_reference) in
  if (c_close latest <=? sma)%dec || (close_vs_sma_pct <? min_band)%dec
     || (close_vs_sma_pct >? max_band)%dec
     || (c_close latest <=? c_close momentum_reference)%dec
     || (momentum_return_pct <? min_momentum_return_pct config)%dec
  then no_signal context SignalReason.ConditionsNotMet else
  generated_result context latest SignalReason.TrendFilterMomentum (dnew 68 2).

Definition evaluate_volume_breakout (context : StrategyEvaluationContext) (candles : list Candle)
    : result StrategyEvaluationResult :=
  let lookback := Z.to_nat (breakout_lookback (cx_config context)) in
  let required := (lookback + 1)%nat in
  if (length candles <? required)%nat then no_signal context SignalReason.InsufficientHistory else
  recent ← slice_back candles required 0;
  latest ← expect (last recent);
  previous_window ← slice recent 0 (length recent - 1);
  breakout_level ← expect (high_of previous_window);
  let average_volume := average_decimal (map c_volume previous_window) in
  if (c_close latest <=? breakout_level)%dec || (c_volume latest <=? average_volume)%dec
  then no_signal context SignalReason.ConditionsNotMet else
  generated_result context latest SignalReason.VolumeConfirmedBreakout (dnew 72 2).

Definition evaluate_volatility_compression_breakout (context : StrategyEvaluationContext)
    (candles : list Candle) : result StrategyEvaluationResult :=
  let config := cx_config context in
  if bool_decide (is_Some (validate_compression_breakout_config config))
  then no_signal context SignalReason.ConditionsNotMet else
  let required := Z.to_nat (required_candle_count config) in
  if (length candles <? required)%nat then no_signal context SignalReason.InsufficientHistory else
  recent ← slice_back candles required 0;
  latest ← expect (last recent);
  metrics ← calculate_compression_breakout_metrics config recent;
  if negb (cb_compression_passed metrics) || negb (cb_range_width_within_bounds metrics)
     || (c_close latest <=? cb_breakout_level metrics)%dec
     || (cb_breakout_pct metrics <? min_breakout_pct config)%dec
     || (cb_breakout_pct metrics >? max_breakout_extension_pct config)%dec
     || (cb_volume_ratio metrics <? min_volume_expansion_ratio config)%dec
     || (c_close latest <=? c_open latest)%dec
  then no_signal context SignalReason.ConditionsNotMet else
  generated_result context latest SignalReason.VolatilityCompressionBreakout (dnew 71 2).

Definition evaluate_range_reversion (context : StrategyEvaluationContext) (candles : list Candle)
    : result StrategyEvaluationResult :=
  let config := cx_config context in
  let lookback := Z.to_nat (sc_lookback_candles config) in
  let required := (lookback + 1)%nat in
  if (length candles <? required)%nat then no_signal context SignalReason.InsufficientHistory else
  recent ← slice_back candles required 0;
  latest ← expect (last recent);
  previous ← index_back recent 2;
  range_window ← slice_back recent lookback 0;
  let range := calculate_range_metrics range_window in
  if (rm_range_width_pct range <? min_range_width_pct config)%dec
  then no_signal context SignalReason.ConditionsNotMet else
  if (rm_range_width_pct range >? max_range_width_pct config)%dec
  then no_signal context SignalReason.ConditionsNotMet else
  if (rm_range_position_pct range >? lower_band_pct config)%dec
  then no_signal context SignalReason.ConditionsNotMet else
  let reversal_confirmed := (c_close latest >? c_close previous)%dec
                            || (c_close latest >? c_open latest)%dec in
  let falling_knife_avoided := (c_low latest >=? c_low previous)%dec in
  if negb reversal_confirmed || negb falling_knife_avoided
  then no_signal context SignalReason.ConditionsNotMet else
  generated_result context latest SignalReason.RangeReversion (dnew 66 2).

Definition evaluate_trend_pullback_continuation (context : StrategyEvaluationContext)
    (candles : list Candle) : result StrategyEvaluationResult :=
  let config := cx_config context in
  if bool_decide (is_Some (validate_trend_pullback_config config))
  then no_signal context SignalReason.ConditionsNotMet else
  let required := Z.to_nat (required_candle_count config) in
  if (length candles <? required)%nat then no_signal context SignalReason.InsufficientHistory else
  recent ← slice_back candles required 0;
  latest ← expect (last recent);
  metrics ← calculate_trend_pullback_metrics config recent;
  if (tp_trend_return_pct metrics <? min_trend_return_pct config)%dec
     || (tp_trend_slope_pct metrics <? min_trend_slope_pct config)%dec
     || (tp_pullback_depth_pct metrics <? min_pullback_depth_pct config)%dec
     || (tp_pullback_depth_pct metrics >? max_pullback_depth_pct config)%dec
     || (tp_close_vs_sma_pct metrics <? ZERO)%dec
     || (tp_close_vs_sma_pct metrics >? max_close_above_sma_pct config)%dec
     || negb (tp_reclaim_confirmed metrics)
     || (tp_volume_ratio metrics <? min_volume_ratio config)%dec
     || (tp_choppiness metrics >? max_choppiness config)%dec
  then no_signal context SignalReason.ConditionsNotMet else
  generated_result context latest SignalReason.TrendPullbackContinuation (dnew 69 2).

Definition evaluate_failed_breakdown_reclaim (context : StrategyEvaluationContext)
    (candles : list Candle) : result StrategyEvaluationResult :=
  let config := cx_config context in
  if bool_decide (is_Some (validate_failed_breakdown_reclaim_config config))
  then no_signal context SignalReason.ConditionsNotMet else
  let required := Z.to_nat (required_candle_count config) in
  if (length candles <? required)%nat then no_signal context SignalReason.InsufficientHistory else
  recent ← slice_back candles required 0;
  latest ← expect (last recent);
  metrics ← calculate_failed_breakdown_reclaim_metrics config recent;
  if (c_low latest >=? fb_lookback_low metrics)%dec
     || (fb_breakdown_pct metrics <? min_breakdown_pct config)%dec
     || (c_close latest <? fb_lookback_low metrics)%dec
     || (fb_reclaim_close_pct metrics <? min_reclaim_close_pct config)%dec
     || (fb_lower_wick_pct metrics <? min_lower_wick_pct config)%dec
     || ((min_volume_ratio_failed_reclaim config >? ZERO)%dec
         && (fb_volume_ratio metrics <? min_volume_ratio_failed_reclaim config)%dec)
  then no_signal context SignalReason.ConditionsNotMet else
  generated_result context latest SignalReason.FailedBreakdownReclaim (dnew 70 2).

(** [match context.strategy_id { .. }] *)
Definition evaluate_strategy (context : StrategyEvaluationContext) (candles : list Candle)
    : result StrategyEvaluationResult :=
  match cx_strategy_id context with
  | StrategyId.MomentumV1 => evaluate_momentum context candles
  | StrategyId.VolatilityBreakoutV1 => evaluate_breakout context candles
  | StrategyId.TrendFilterMomentumV1 => evaluate_trend_filter_momentum context candles
  | StrategyId.TrendFilterMomentumV2 => evaluate_trend_filter_momentum_v2 context candles
  | StrategyId.VolatilityBreakoutV2 => evaluate_volume_breakout context candles
  | StrategyId.VolatilityCompressionBreakoutV1 =>
    evaluate_volatility_compression_breakout context candles
  | StrategyId.RangeReversionV1 => evaluate_range_reversion context candles
  | StrategyId.TrendPullbackContinuationV1 =>
    evaluate_trend_pullback_continuation context candles
  | StrategyId.FailedBreakdownReclaimV1 => evaluate_failed_breakdown_reclaim context candles
  end.

Definition evaluate (context : StrategyEvaluationContext) : result StrategyEvaluationResult :=
  let config := cx_config context in
  _ ← StrategyConfig_validate config;
  if negb (bool_decide (sc_strategy_id config = cx_strategy_id context)) then
    Err (CoreError.UnsupportedStrategyId
      ("strategy config does not match evaluation target: "
         +:+ StrategyId.as_str (sc_strategy_id config) +:+ " != "
         +:+ StrategyId.as_str (cx_strategy_id context)))
  else
  let candles := normalize_closed_candles (cx_candles context) in
  if negb (sc_enabled config) then no_signal context SignalReason.StrategyDisabled else
  evaluate_strategy context candles.
End Evaluate.

(** ** Facts on indices counted from the end *)

Section Back.
Context {E A : Type}.
Implicit Types v w : list A.

Lemma usize_sub_le a b : (b <= a)%nat -> @usize_sub E a b = Ok (a - b)%nat.
Proof. intros H. apply usize_sub_ok. done. Qed.

Lemma slice_le v a b : (a <= b <= length v)%nat ->
  @slice E A v a b = Ok (firstn (b - a) (skipn a v)).
Proof. intros H. apply slice_ok. done. Qed.

Lemma slice_back_le v a b : (b <= a <= length v)%nat ->
  @slice_back E A v a b = Ok (firstn (a - b) (skipn (length v - a) v)).
Proof.
  intros H. unfold slice_back. rewrite !usize_sub_le by lia. cbn.
  rewrite slice_le by lia. f_equal. f_equal. lia.
Qed.

Lemma slice_back_suffix v a : (a <= length v)%nat ->
  @slice_back E A v a 0 = Ok (skipn (length v - a) v).
Proof.
  intros H. rewrite slice_back_le by lia. f_equal. apply firstn_all2.
  rewrite length_skipn. lia.
Qed.

Lemma slice_back_app older v a b : (b <= a <= length v)%nat ->
  @slice_back E A (older ++ v) a b = slice_back v a b.
Proof.
  intros H. rewrite !slice_back_le by (rewrite ?length_app; lia). f_equal. f_equal.
  rewrite length_app, skipn_app, (skipn_all2 older) by lia. cbn. f_equal. lia.
Qed.

Lemma index_back_app older v n : (n <= length v)%nat ->
  @index_back E A (older ++ v) n = index_back v n.
Proof.
  intros H. unfold index_back, index. rewrite !usize_sub_le by (rewrite ?length_app; lia). cbn.
  rewrite lookup_app_r by (rewrite length_app; lia). f_equal. f_equal. rewrite length_app. lia.
Qed.

Lemma index_back_some v n : (1 <= n <= length v)%nat ->
  exists x, @index_back E A v n = Ok x.
Proof.
  intros H. unfold index_back, index. rewrite usize_sub_le by lia. cbn.
  destruct (lookup_lt_is_Some_2 v (length v - n)) as [x ->]; [lia|]. by exists x.
Qed.

Lemma last_suffix v n : (1 <= n <= length v)%nat -> last (skipn (length v - n) v) = last v.
Proof.
  intros H. rewrite <- (firstn_skipn (length v - n) v) at 3. rewrite last_app.
  destruct (last (skipn _ v)) eqn:E1; [done|].
  apply last_None in E1. apply (f_equal length) in E1. rewrite length_skipn in E1. cbn in E1. lia.
Qed.

Lemma last_nonempty v : (1 <= length v)%nat -> exists x, last v = Some x.
Proof.
  intros H. destruct (last v) eqn:E1; [eauto|]. apply last_None in E1. subst. cbn in H. lia.
Qed.

Lemma last_app_nonempty older v : (1 <= length v)%nat -> last (older ++ v) = last v.
Proof. intros H. rewrite last_app. by destruct (last_nonempty v H) as [x ->]. Qed.
End Back.

Section Lemmas.
Context {DI : Decimal} (new_v4 : Z).
Implicit Types (cx : StrategyEvaluationContext) (cs : list Candle).

(** The lookbacks are [u32]. *)
Definition lookbacks_u32 (config : StrategyConfig) : Prop :=
  0 <= sc_lookback_candles config < 2 ^ 32 /\
  Forall (fun o => match o with Some n => 0 <= n < 2 ^ 32 | None => True end)
    [sc_trend_lookback_candles config; sc_momentum_lookback_candles config;
     sc_compression_lookback_candles config; sc_breakout_lookback_candles config;
     sc_pullback_lookback_candles config; sc_pullback_sma_lookback_candles config].

Lemma lookbacks_nonneg config : lookbacks_u32 config ->
  0 <= sc_lookback_candles config /\ 0 <= trend_lookback config /\
  0 <= momentum_lookback config /\ 0 <= compression_lookback config /\
  0 <= breakout_lookback config /\ 0 <= pullback_lookback config /\
  0 <= pullback_sma_lookback config.
Proof.
  unfold lookbacks_u32. rewrite !Forall_cons.
  unfold trend_lookback, momentum_lookback, compression_lookback, breakout_lookback,
    pullback_lookback, pullback_sma_lookback.
  intros (H & H1 & H2 & H3 & H4 & H5 & H6 & _).
  repeat split; repeat case_match; cbn; lia.
Qed.

Lemma percentile_ok sorted pct : exists d, percentile (E := CoreError.t) sorted pct = Ok d.
Proof.
  unfold percentile. destruct sorted as [|x l]; [eauto|]. set (i := Nat.min _ _).
  unfold index. destruct (lookup_lt_is_Some_2 (x :: l) i) as [y ->]; [|cbn; eauto].
  subst i. cbn [length]. lia.
Qed.

Lemma compression_metrics_ok config w :
  (1 <= length w)%nat -> exists m, calculate_compression_breakout_metrics config w = Ok m.
Proof.
  intros H. unfold calculate_compression_breakout_metrics, index.
  destruct (lookup_lt_is_Some_2 w (length w - 1)) as [x ->]; [lia|]. cbn -[slice Nat.ltb].
  rewrite !slice_le by lia. cbn -[slice Nat.ltb].
  destruct (Nat.ltb_spec (length w - 1 - Z.to_nat (compression_lookback config)
    - Z.to_nat (breakout_lookback config))
    (length w - 1 - Z.to_nat (compression_lookback config))); cbn -[percentile];
    edestruct percentile_ok as [d ->]; cbn; eauto.
Qed.

Lemma pullback_metrics_ok config w :
  0 <= trend_lookback config -> 1 <= pullback_lookback config ->
  (2 <= length w)%nat ->
  Z.max (trend_lookback config + 1)
    (Z.max (pullback_lookback config + 1) (pullback_sma_lookback config)) <= Z.of_nat (length w) ->
  exists m, calculate_trend_pullback_metrics config w = Ok m.
Proof.
  intros Ht Hp H2 H. unfold calculate_trend_pullback_metrics.
  generalize (Nat.le_min_r 20 (length w)). generalize (Nat.min 20 (length w)). intros k Hk.
  destruct (last_nonempty w) as [x ->]; [lia|]. cbn.
  destruct (index_back_some (E := CoreError.t) w 2) as [y ->]; [lia|]. cbn.
  destruct (index_back_some (E := CoreError.t) w (Z.to_nat (trend_lookback config) + 1))
    as [z ->]; [lia|]. cbn.
  rewrite !slice_back_le, slice_le by lia. cbn. eauto.
Qed.

Lemma reclaim_metrics_ok config w :
  0 <= sc_lookback_candles config -> sc_lookback_candles config + 1 <= Z.of_nat (length w) ->
  exists m, calculate_failed_breakdown_reclaim_metrics config w = Ok m.
Proof.
  intros H0 H. unfold calculate_failed_breakdown_reclaim_metrics.
  generalize (Nat.le_min_r 20 (length w)). generalize (Nat.min 20 (length w)). intros k Hk.
  destruct (last_nonempty w) as [x ->]; [lia|]. cbn.
  rewrite !slice_back_le by lia. cbn. eauto.
Qed.

(** *** What a strategy returns *)

Definition passes_floor cx (confidence : dec) : bool :=
  match sc_confidence_floor (cx_config cx) with
  | Some floor => (floor <=? confidence)%dec
  | None => true
  end.

(** The signal of a strategy on its last candle. *)
Definition buy_signal cx (latest : Candle) (reason : SignalReason.t) (confidence : dec)
    : StrategySignal := {|
  sg_signal_id := new_v4;
  sg_strategy_id := cx_strategy_id cx;
  sg_symbol := cx_symbol cx;
  sg_side := SignalSide.Buy;
  sg_confidence := {| confidence_value := confidence |};
  sg_timeframe := sc_timeframe (cx_config cx);
  sg_reason := reason;
  sg_suggested_notional := sc_suggested_notional (cx_config cx);
  sg_stop_loss_pct := sc_stop_loss_pct (cx_config cx);
  sg_take_profit_pct := sc_take_profit_pct (cx_config cx);
  sg_source_candle_open_time := c_open_time latest;
  sg_correlation_id := cx_correlation_id cx;
  sg_created_at := cx_evaluated_at cx
|}.

Definition signal_result cx (latest : Candle) (reason : SignalReason.t) (confidence : dec)
    : StrategyEvaluationResult := {|
  sr_strategy_id := cx_strategy_id cx;
  sr_symbol := cx_symbol cx;
  sr_timeframe := sc_timeframe (cx_config cx);
  sr_generated := true;
  sr_reason := reason;
  sr_signal := Some (buy_signal cx latest reason confidence);
  sr_correlation_id := cx_correlation_id cx;
  sr_evaluated_at := cx_evaluated_at cx
|}.
End Lemmas.

Section Outcomes.
Context {DI : Decimal} {DL : DecimalLaws DI} (new_v4 : Z).
Implicit Types (cx : StrategyEvaluationContext) (cs : list Candle).

Lemma confidence_literal n : 0 <= n <= 100 ->
  SignalConfidence_new (dnew n 2) = Ok {| confidence_value := dnew n 2 |}.
Proof.
  intros H. unfold SignalConfidence_new. destruct (_ || _) eqn:E; [|done]. exfalso.
  apply orb_prop in E. pose proof dval_ZERO as H0. pose proof dval_ONE as H1.
  assert (dval (dnew n 2) == n # 100)%Q as Hn by (rewrite dval_new by lia; done).
  destruct E as [E|E]; dec_to_Q.
  - rewrite H0, Hn in E. unfold Qlt in E. cbn in E. lia.
  - rewrite H1, Hn in E. unfold Qlt in E. cbn in E. lia.
Qed.

Lemma generated_result_ok cx latest reason n : 0 <= n <= 100 ->
  generated_result new_v4 cx latest reason (dnew n 2)
    = if passes_floor cx (dnew n 2) then Ok (signal_result new_v4 cx latest reason (dnew n 2))
      else no_signal cx SignalReason.ConditionsNotMet.
Proof.
  intros H. unfold generated_result, passes_floor. rewrite confidence_literal by done. cbn.
  destruct (sc_confidence_floor _); [|done]. unfold dltb. by destruct (dleb _ _).
Qed.

(** The confidence the code attaches to each strategy's signals, in percent. *)
Definition base_confidence (id : StrategyId.t) : Z :=
  match id with
  | StrategyId.MomentumV1 => 65
  | StrategyId.VolatilityBreakoutV1 => 70
  | StrategyId.TrendFilterMomentumV1 | StrategyId.TrendFilterMomentumV2 => 68
  | StrategyId.VolatilityBreakoutV2 => 72
  | StrategyId.VolatilityCompressionBreakoutV1 => 71
  | StrategyId.RangeReversionV1 => 66
  | StrategyId.TrendPullbackContinuationV1 => 69
  | StrategyId.FailedBreakdownReclaimV1 => 70
  end.

(** The run does not return an error. *)
Definition never_err {A} (m : result A) : Prop := forall e, m <> Err e.

Lemma never_err_bind {A B} (m : result A) (f : A -> result B) :
  never_err m -> (forall a, m = Ok a -> never_err (f a)) -> never_err (mbind f m).
Proof.
  unfold never_err. intros Hm Hf e. destruct m as [a|e'|]; cbn; [by apply Hf| |done].
  by destruct (Hm e').
Qed.

Lemma never_err_expect {A} (o : option A) : never_err (expect o).
Proof. by destruct o. Qed.
Lemma never_err_index {A} (v : list A) i : never_err (index v i).
Proof. apply never_err_expect. Qed.
Lemma never_err_usize_sub a b : never_err (usize_sub a b).
Proof. unfold usize_sub. by destruct (_ <=? _)%nat. Qed.
Lemma never_err_slice {A} (v : list A) a b : never_err (slice v a b).
Proof. unfold slice. by destruct (_ && _). Qed.
#[local] Hint Resolve never_err_bind never_err_expect never_err_index never_err_usize_sub
  never_err_slice : aegis.
Lemma never_err_index_back {A} (v : list A) n : never_err (index_back v n).
Proof. unfold index_back. auto with aegis. Qed.
Lemma never_err_slice_back {A} (v : list A) a b : never_err (slice_back v a b).
Proof. unfold slice_back. auto with aegis. Qed.
#[local] Hint Resolve never_err_index_back never_err_slice_back : aegis.

Lemma never_err_percentile l p : never_err (percentile l p).
Proof. destruct (percentile_ok l p) as [d ->]. done. Qed.
#[local] Hint Resolve never_err_percentile : aegis.
Lemma never_err_metrics config w :
  never_err (calculate_failed_breakdown_reclaim_metrics config w) /\
  never_err (calculate_trend_pullback_metrics config w) /\
  never_err (calculate_compression_breakout_metrics config w).
Proof.
  unfold calculate_failed_breakdown_reclaim_metrics, calculate_trend_pullback_metrics,
    calculate_compression_breakout_metrics. cbv zeta.
  split; [|split]; repeat (apply never_err_bind; [|intros ? _]); auto with aegis; try done.
  destruct (_ <? _)%nat; [auto with aegis|done].
Qed.
#[local] Hint Extern 1 (never_err (calculate_failed_breakdown_reclaim_metrics _ _)) =>
  apply never_err_metrics : aegis.
#[local] Hint Extern 1 (never_err (calculate_trend_pullback_metrics _ _)) =>
  apply never_err_metrics : aegis.
#[local] Hint Extern 1 (never_err (calculate_compression_breakout_metrics _ _)) =>
  apply never_err_metrics : aegis.

(** A strategy that returns says no, or signals on the last of its candles. *)
Definition says cx cs (m : result StrategyEvaluationResult) : Prop :=
  never_err m /\ forall r, m = Ok r ->
    (exists reason, r = no_signal_result cx (sc_timeframe (cx_config cx)) reason) \/
    (exists latest reason, let conf := dnew (base_confidence (cx_strategy_id cx)) 2 in
       last cs = Some latest /\ passes_floor cx conf = true /\
       r = signal_result new_v4 cx latest reason conf).

Lemma says_no cx cs reason : says cx cs (no_signal cx reason).
Proof. split; [done|]. intros r [= <-]. left. eauto. Qed.

Lemma says_generated cx cs latest reason n :
  last cs = Some latest -> n = base_confidence (cx_strategy_id cx) ->
  says cx cs (generated_result new_v4 cx latest reason (dnew n 2)).
Proof.
  intros Hl Hn. rewrite generated_result_ok by (subst; destruct (cx_strategy_id cx); cbn; lia).
  destruct (passes_floor cx (dnew n 2)) eqn:E; [|apply says_no].
  split; [done|]. intros r [= <-]. right. exists latest, reason. by subst.
Qed.

Lemma says_bind {A} cx cs (m : result A) f :
  never_err m -> (forall a, m = Ok a -> says cx cs (f a)) -> says cx cs (mbind f m).
Proof.
  intros Hm H. split.
  - apply never_err_bind; [done|]. intros a Ha. by apply H.
  - intros r Hr. apply bind_ok_inv in Hr as (a & Ha & Hf). by eapply H.
Qed.

Lemma says_if cx cs (b : bool) m1 m2 :
  says cx cs m1 -> says cx cs m2 -> says cx cs (if b then m1 else m2).
Proof. by destruct b. Qed.

(** The last of the last [n] candles is the last candle. *)
Lemma recent_last cs n recent latest :
  slice_back (E := CoreError.t) cs n 0 = Ok recent ->
  expect (E := CoreError.t) (last recent) = Ok latest -> last cs = Some latest.
Proof.
  unfold slice_back. intros H Hl. res_inv.
  apply usize_sub_ok in Hv as [Hn ->]. apply usize_sub_ok in Hv0 as [_ ->].
  apply slice_ok in H as [_ ->].
  destruct (last (firstn _ _)) as [x|] eqn:E1; cbn in Hl; [|done]. injection Hl as <-.
  rewrite firstn_all2 in E1 by (rewrite length_skipn; lia).
  rewrite <- (firstn_skipn (length cs - n) cs), last_app, E1. done.
Qed.

Lemma evaluate_strategy_says cx cs : says cx cs (evaluate_strategy new_v4 cx cs).
Proof.
  unfold evaluate_strategy. destruct (cx_strategy_id cx) eqn:Hid;
    [unfold evaluate_momentum|unfold evaluate_breakout|unfold evaluate_trend_filter_momentum
    |unfold evaluate_trend_filter_momentum_v2|unfold evaluate_volume_breakout
    |unfold evaluate_volatility_compression_breakout|unfold evaluate_range_reversion
    |unfold evaluate_trend_pullback_continuation|unfold evaluate_failed_breakdown_reclaim];
    cbv zeta;
    repeat match goal with
    | |- says _ _ (no_signal _ _) => apply says_no
    | |- says _ _ (mbind _ _) => apply says_bind; [auto with aegis|intros ? ?]
    | |- says _ _ (if _ then _ else _) => apply says_if
    | |- says _ _ (generated_result _ _ _ _ _) => apply says_generated; [|by rewrite Hid]
    end;
    solve [by eapply recent_last | destruct (last cs); cbn in *; congruence].
Qed.

(** *** Runs that do not panic *)

Lemma recent_ok cs n : (1 <= n <= length cs)%nat ->
  exists recent latest, slice_back (E := CoreError.t) cs n 0 = Ok recent /\
    length recent = n /\ last recent = Some latest /\ last cs = Some latest.
Proof.
  intros H. destruct (last_nonempty cs) as [latest Hl]; [lia|].
  exists (skipn (length cs - n) cs), latest. rewrite slice_back_suffix, length_skipn by lia.
  rewrite last_suffix by lia. repeat split; try done. lia.
Qed.

Lemma previous_high_ok recent : (2 <= length recent)%nat ->
  exists w h, slice (E := CoreError.t) recent 0 (length recent - 1) = Ok w /\
    high_of w = Some h /\ w = firstn (length recent - 1) recent.
Proof.
  intros H. rewrite slice_le by lia. rewrite Nat.sub_0_r, drop_0.
  destruct (iter_max_some dleb (map c_high (firstn (length recent - 1) recent))) as [h Hh].
  { intros E1. apply (f_equal length) in E1.
    rewrite length_map, length_firstn in E1. cbn in E1. lia. }
  exists (firstn (length recent - 1) recent), h. done.
Qed.

Lemma returns_no_signal cx reason : returns (no_signal cx reason).
Proof. done. Qed.

Lemma returns_generated cx latest reason n : 0 <= n <= 100 ->
  returns (generated_result new_v4 cx latest reason (dnew n 2)).
Proof. intros H. rewrite generated_result_ok by done. by destruct (passes_floor _ _). Qed.

Lemma returns_if {A} (b : bool) (m1 m2 : result A) :
  returns m1 -> returns m2 -> returns (if b then m1 else m2).
Proof. by destruct b. Qed.

(** A lookback of zero leaves nothing to compare the latest candle with. *)
Definition degenerate_lookback (config : StrategyConfig) : bool :=
  match sc_strategy_id config with
  | StrategyId.VolatilityBreakoutV1 | StrategyId.RangeReversionV1 =>
    sc_lookback_candles config =? 0
  | StrategyId.VolatilityBreakoutV2 => breakout_lookback config =? 0
  | _ => false
  end.

Lemma compression_config_bounds config : validate_compression_breakout_config config = None ->
  2 <= compression_lookback config /\ 2 <= breakout_lookback config.
Proof.
  unfold validate_compression_breakout_config. intros H.
  destruct (_ || _) eqn:E1 in H; [done|]. bool_to_prop. lia.
Qed.
Lemma pullback_config_bounds config : validate_trend_pullback_config config = None ->
  2 <= trend_lookback config /\ 2 <= pullback_lookback config /\ 2 <= pullback_sma_lookback config.
Proof.
  unfold validate_trend_pullback_config. intros H.
  destruct (_ || _) eqn:E1 in H; [done|]. bool_to_prop. lia.
Qed.

#[local] Ltac finish_returns :=
  repeat match goal with
  | |- returns (no_signal _ _) => apply returns_no_signal
  | |- returns (if _ then _ else _) => apply returns_if
  | |- returns (generated_result _ _ _ _ _) => apply returns_generated; lia
  end.
#[local] Ltac returns_step := cbn -[slice_back index_back slice generated_result
  average_decimal Z.to_nat Nat.add Nat.sub calculate_range_metrics].

Lemma momentum_returns cx cs : returns (evaluate_momentum new_v4 cx cs).
Proof.
  unfold evaluate_momentum. cbv zeta. destruct (Nat.ltb_spec (length cs)
    (Z.to_nat (sc_lookback_candles (cx_config cx)) + 1)); [done|].
  edestruct recent_ok as (r & l & -> & Hlen & Hl & _); [|returns_step]; [lia|].
  rewrite Hl. returns_step. finish_returns.
Qed.

Lemma breakout_panics cx cs :
  0 <= sc_lookback_candles (cx_config cx) ->
  evaluate_breakout new_v4 cx cs = Panic <->
  cs <> [] /\ sc_lookback_candles (cx_config cx) = 0.
Proof.
  intros H0. unfold evaluate_breakout. cbv zeta. destruct (Nat.ltb_spec (length cs)
    (Z.to_nat (sc_lookback_candles (cx_config cx)) + 1)) as [Hlt|Hge].
  { split; [done|]. intros [Hne Hz]. rewrite Hz in Hlt. destruct cs; [done|cbn in Hlt; lia]. }
  edestruct recent_ok as (r & l & -> & Hlen & Hl & Hlast); [|returns_step]; [lia|].
  rewrite Hl. returns_step. destruct (Z.eqb_spec (sc_lookback_candles (cx_config cx)) 0) as [Hz|Hz].
  - rewrite Hz in Hlen. destruct r as [|? [|]]; try (cbn in Hlen; lia). cbn.
    split; [|done]. intros _. split; [|done]. intros ->. cbn in Hge. lia.
  - edestruct (previous_high_ok r) as (w & h & -> & Hh & _); [lia|]. returns_step.
    rewrite Hh. returns_step. split; [|lia]. intros HP. exfalso. revert HP.
    change (returns (if (c_close l <=? h)%dec then no_signal cx SignalReason.ConditionsNotMet
      else generated_result new_v4 cx l SignalReason.BreakoutAboveRecentHigh (dnew 70 2))).
    finish_returns.
Qed.

Lemma volume_breakout_panics cx cs :
  0 <= breakout_lookback (cx_config cx) ->
  evaluate_volume_breakout new_v4 cx cs = Panic <->
  cs <> [] /\ breakout_lookback (cx_config cx) = 0.
Proof.
  intros H0. unfold evaluate_volume_breakout. cbv zeta. destruct (Nat.ltb_spec (length cs)
    (Z.to_nat (breakout_lookback (cx_config cx)) + 1)) as [Hlt|Hge].
  { split; [done|]. intros [Hne Hz]. rewrite Hz in Hlt. destruct cs; [done|cbn in Hlt; lia]. }
  edestruct recent_ok as (r & l & -> & Hlen & Hl & Hlast); [|returns_step]; [lia|].
  rewrite Hl. returns_step. destruct (Z.eqb_spec (breakout_lookback (cx_config cx)) 0) as [Hz|Hz].
  - rewrite Hz in Hlen. destruct r as [|? [|]]; try (cbn in Hlen; lia). cbn.
    split; [|done]. intros _. split; [|done]. intros ->. cbn in Hge. lia.
  - edestruct (previous_high_ok r) as (w & h & -> & Hh & _); [lia|]. returns_step.
    rewrite Hh. returns_step. split; [|lia]. intros HP. exfalso. revert HP.
    match goal with |- ?m = Panic -> False => change (returns m) end. finish_returns.
Qed.

Lemma range_reversion_panics cx cs :
  0 <= sc_lookback_candles (cx_config cx) ->
  evaluate_range_reversion new_v4 cx cs = Panic <->
  cs <> [] /\ sc_lookback_candles (cx_config cx) = 0.
Proof.
  intros H0. unfold evaluate_range_reversion. cbv zeta. destruct (Nat.ltb_spec (length cs)
    (Z.to_nat (sc_lookback_candles (cx_config cx)) + 1)) as [Hlt|Hge].
  { split; [done|]. intros [Hne Hz]. rewrite Hz in Hlt. destruct cs; [done|cbn in Hlt; lia]. }
  edestruct recent_ok as (r & l & -> & Hlen & Hl & Hlast); [|returns_step]; [lia|].
  rewrite Hl. returns_step. destruct (Z.eqb_spec (sc_lookback_candles (cx_config cx)) 0) as [Hz|Hz].
  - rewrite Hz in Hlen. destruct r as [|? [|]]; try (cbn in Hlen; lia). cbn.
    split; [|done]. intros _. split; [|done]. intros ->. cbn in Hge. lia.
  - destruct (index_back_some (E := CoreError.t) r 2) as [p ->]; [lia|]. returns_step.
    rewrite slice_back_le by lia. returns_step. split; [|lia]. intros HP. exfalso. revert HP.
    match goal with |- ?m = Panic -> False => change (returns m) end. finish_returns.
Qed.

Lemma trend_filter_returns cx cs :
  lookbacks_u32 (cx_config cx) -> sc_strategy_id (cx_config cx) = StrategyId.TrendFilterMomentumV1 ->
  returns (evaluate_trend_filter_momentum new_v4 cx cs).
Proof.
  intros Hu Hid. apply lookbacks_nonneg in Hu as (H1 & H2 & H3 & _).
  unfold evaluate_trend_filter_momentum, required_candle_count. rewrite Hid. cbv zeta.
  destruct (Nat.ltb_spec (length cs) (Z.to_nat (Z.max (Z.max (trend_lookback (cx_config cx) + 1)
    (momentum_lookback (cx_config cx) + 1)) 2))); [done|].
  destruct (last_nonempty cs) as [l ->]; [lia|]. returns_step.
  destruct (index_back_some (E := CoreError.t) cs 2) as [p ->]; [lia|]. returns_step.
  rewrite slice_back_le by lia. returns_step.
  destruct (index_back_some (E := CoreError.t) cs
    (Z.to_nat (momentum_lookback (cx_config cx)) + 1)) as [m ->]; [lia|]. returns_step.
  finish_returns.
Qed.

Lemma trend_filter_v2_returns cx cs :
  lookbacks_u32 (cx_config cx) -> sc_strategy_id (cx_config cx) = StrategyId.TrendFilterMomentumV2 ->
  returns (evaluate_trend_filter_momentum_v2 new_v4 cx cs).
Proof.
  intros Hu Hid. apply lookbacks_nonneg in Hu as (H1 & H2 & H3 & _).
  unfold evaluate_trend_filter_momentum_v2, required_candle_count. rewrite Hid. cbv zeta.
  destruct (dltb _ _); [done|].
  destruct (Nat.ltb_spec (length cs) (Z.to_nat (Z.max (Z.max (trend_lookback (cx_config cx) + 1)
    (momentum_lookback (cx_config cx) + 1)) 2))); [done|].
  destruct (last_nonempty cs) as [l ->]; [lia|]. returns_step.
  rewrite slice_back_le by lia. returns_step.
  destruct (index_back_some (E := CoreError.t) cs
    (Z.to_nat (momentum_lookback (cx_config cx)) + 1)) as [m ->]; [lia|]. returns_step.
  finish_returns.
Qed.

(** The three strategies that compute their metrics from a validated
    configuration share this shape. *)
Lemma windowed_returns {M} cx cs (invalid : option string) (metrics : list Candle -> result M)
    (k : Candle -> M -> result StrategyEvaluationResult) :
  let required := Z.to_nat (required_candle_count (cx_config cx)) in
  (1 <= required)%nat ->
  (invalid = None -> forall w, length w = required -> exists m, metrics w = Ok m) ->
  (forall latest m, returns (k latest m)) ->
  returns (if bool_decide (is_Some invalid) then no_signal cx SignalReason.ConditionsNotMet else
    if (length cs <? required)%nat then no_signal cx SignalReason.InsufficientHistory else
    recent ← slice_back cs required 0;
    latest ← expect (last recent);
    m ← metrics recent;
    k latest m).
Proof.
  intros required H1 Hm Hk. destruct invalid as [s|]; [by rewrite bool_decide_eq_true_2|].
  rewrite bool_decide_eq_false_2 by (by intros [? ?]).
  destruct (Nat.ltb_spec (length cs) required) as [|Hge]; [done|].
  edestruct recent_ok as (r & l & -> & Hlen & Hl & _); [|cbn]; [lia|]. rewrite Hl. cbn.
  destruct (Hm eq_refl r Hlen) as [m ->]. cbn. apply Hk.
Qed.

Lemma windowed_strategies_return cx cs :
  lookbacks_u32 (cx_config cx) ->
  match sc_strategy_id (cx_config cx) with
  | StrategyId.VolatilityCompressionBreakoutV1 =>
    returns (evaluate_volatility_compression_breakout new_v4 cx cs)
  | StrategyId.TrendPullbackContinuationV1 =>
    returns (evaluate_trend_pullback_continuation new_v4 cx cs)
  | StrategyId.FailedBreakdownReclaimV1 =>
    returns (evaluate_failed_breakdown_reclaim new_v4 cx cs)
  | _ => True
  end.
Proof.
  intros Hu. apply lookbacks_nonneg in Hu as (H1 & H2 & H3 & H4 & H5 & H6 & H7).
  destruct (sc_strategy_id _) eqn:Hid; try done;
    [unfold evaluate_volatility_compression_breakout|unfold evaluate_trend_pullback_continuation
    |unfold evaluate_failed_breakdown_reclaim];
    apply windowed_returns; unfold required_candle_count; rewrite ?Hid; cbv zeta; try lia;
    try (intros; finish_returns; fail); intros Hv w Hw.
  - apply compression_metrics_ok. lia.
  - apply pullback_config_bounds in Hv. apply pullback_metrics_ok; lia.
  - apply reclaim_metrics_ok; lia.
Qed.

Lemma evaluate_strategy_panics cx cs :
  lookbacks_u32 (cx_config cx) -> sc_strategy_id (cx_config cx) = cx_strategy_id cx ->
  evaluate_strategy new_v4 cx cs = Panic <->
  cs <> [] /\ degenerate_lookback (cx_config cx) = true.
Proof.
  intros Hu Hid. pose proof (lookbacks_nonneg _ Hu) as (H1 & _ & _ & _ & H5 & _).
  pose proof (windowed_strategies_return cx cs Hu) as Hw.
  pose proof (trend_filter_returns cx cs Hu) as Ht. pose proof (trend_filter_v2_returns cx cs Hu) as Ht2.
  pose proof (momentum_returns cx cs) as Hm.
  unfold evaluate_strategy, degenerate_lookback. rewrite Hid in *.
  destruct (cx_strategy_id cx) eqn:E1; rewrite ?Z.eqb_eq;
    first [by apply breakout_panics | by apply volume_breakout_panics
          | by apply range_reversion_panics | split; [|by intros [_ ?]]; intros HP; exfalso];
    first [by apply Hm | by apply Ht | by apply Ht2 | by apply Hw].
Qed.

(** ** Theorems *)

Lemma normalized_in (l : list Candle) c :
  In c (normalize_closed_candles l) <-> In c l /\ c_is_closed c = true.
Proof.
  unfold normalize_closed_candles, sort_by_key. rewrite in_sort_by. apply filter_In.
Qed.

(** The last candle after normalisation is a closed one, and none is later. *)
Lemma normalized_last (l : list Candle) c :
  last (normalize_closed_candles l) = Some c ->
  In c l /\ c_is_closed c = true /\
  forall c', In c' l -> c_is_closed c' = true -> c_open_time c' <= c_open_time c.
Proof.
  intros Hl. pose proof (last_in _ _ Hl) as Hin. apply normalized_in in Hin as [Hin Hc].
  split; [done|]. split; [done|]. intros c' Hin' Hc'.
  assert (In c' (normalize_closed_candles l)) as Hn by (by apply normalized_in).
  pose proof (sort_by_key_sorted c_open_time (List.filter c_is_closed l)) as Hs.
  fold (normalize_closed_candles l) in Hs. apply last_Some in Hl as [pre Hpre].
  rewrite Hpre in Hs, Hn. apply in_app_iff in Hn as [Hn|[<-|[]]]; [|lia].
  apply strongly_sorted_app_inv in Hs as (_ & _ & Hlt). apply Hlt; [done|by left].
Qed.

Lemma evaluate_ok_inv cx r :
  evaluate new_v4 cx = Ok r ->
  StrategyConfig_validate (cx_config cx) = Ok tt /\
  sc_strategy_id (cx_config cx) = cx_strategy_id cx /\
  ((sc_enabled (cx_config cx) = false /\ no_signal cx SignalReason.StrategyDisabled = Ok r) \/
   (sc_enabled (cx_config cx) = true /\
    evaluate_strategy new_v4 cx (normalize_closed_candles (cx_candles cx)) = Ok r)).
Proof.
  unfold evaluate. intros H. apply bind_ok_inv in H as ([] & Hv & H).
  destruct (bool_decide _) eqn:Hid; [|done]. apply bool_decide_eq_true in Hid. cbn in H.
  destruct (sc_enabled (cx_config cx)); cbn in H; auto.
Qed.

Lemma config_valid config :
  (0 < dval (sc_suggested_notional config))%Q -> 0 < sc_max_signal_age_ms config ->
  sc_symbols config <> [] -> StrategyConfig_validate config = Ok tt.
Proof.
  intros Hn Ha Hs. unfold StrategyConfig_validate. pose proof dval_ZERO as H0.
  destruct (_ <=? _)%dec eqn:E1; dec_to_Q; [lra|].
  destruct (Z.leb_spec (sc_max_signal_age_ms config) 0); [lia|]. by destruct (sc_symbols config).
Qed.

(** Without a zero lookback there is always an answer. *)
Lemma evaluate_answers cx :
  lookbacks_u32 (cx_config cx) ->
  StrategyConfig_validate (cx_config cx) = Ok tt ->
  sc_strategy_id (cx_config cx) = cx_strategy_id cx ->
  degenerate_lookback (cx_config cx) = false ->
  exists r, evaluate new_v4 cx = Ok r.
Proof.
  intros Hu Hv Hid Hd. unfold evaluate. rewrite Hv. cbn. rewrite bool_decide_eq_true_2 by done. cbn.
  destruct (sc_enabled _); cbn; [|by eauto].
  pose proof (evaluate_strategy_panics cx (normalize_closed_candles (cx_candles cx)) Hu Hid) as HP.
  pose proof (proj1 (evaluate_strategy_says cx
    (normalize_closed_candles (cx_candles cx)))) as He. rewrite Hd in HP.
  destruct (evaluate_strategy _ _ _) as [r|e|]; [by eauto|by destruct (He e)|].
  by destruct (proj1 HP eq_refl).
Qed.

(** An enabled strategy whose configuration is valid and addressed to it
    always answers, with one exception: [StrategyConfig::validate] does not
    look at the lookbacks, and the two breakout strategies and range reversion
    panic on a lookback of zero as soon as there is one closed candle. *)
Theorem evaluate_panics_iff_zero_lookback cx :
  lookbacks_u32 (cx_config cx) ->
  StrategyConfig_validate (cx_config cx) = Ok tt ->
  sc_strategy_id (cx_config cx) = cx_strategy_id cx ->
  if sc_enabled (cx_config cx) && degenerate_lookback (cx_config cx)
     && existsb c_is_closed (cx_candles cx)
  then evaluate new_v4 cx = Panic
  else exists r, evaluate new_v4 cx = Ok r.
Proof.
  intros Hu Hv Hid.
  assert (Hne : normalize_closed_candles (cx_candles cx) <> [] <->
                existsb c_is_closed (cx_candles cx) = true).
  { rewrite existsb_exists. split.
    - destruct (normalize_closed_candles _) as [|c l] eqn:E1; [done|]. intros _. exists c.
      apply normalized_in. rewrite E1. by left.
    - intros (c & Hc) E1. apply normalized_in in Hc. by rewrite E1 in Hc. }
  unfold evaluate. rewrite Hv. cbn. rewrite bool_decide_eq_true_2 by done. cbn.
  destruct (sc_enabled _); cbn; [|by eauto].
  pose proof (evaluate_strategy_panics cx (normalize_closed_candles (cx_candles cx)) Hu Hid) as HP.
  rewrite Hne in HP. pose proof (proj1 (evaluate_strategy_says cx
    (normalize_closed_candles (cx_candles cx)))) as He.
  destruct (degenerate_lookback _); cbn; [destruct (existsb _ _); [by apply HP|]|];
    (destruct (evaluate_strategy _ _ _) as [r|e|]; [by eauto|by destruct (He e)|];
     by destruct (proj1 HP eq_refl)).
Qed.

(** C7.  What a generated signal says: it is a buy for the context's strategy
    and symbol with the configured notional, stop loss and take profit, made on
    the most recent closed candle, by an enabled strategy, with the strategy's
    base confidence, which lies in [0, 1] and reaches the configured floor; and
    a result is marked generated exactly when it carries a signal. *)
Theorem evaluate_signal_contract cx r :
  evaluate new_v4 cx = Ok r ->
  sr_generated r = bool_decide (is_Some (sr_signal r)) /\
  sr_strategy_id r = cx_strategy_id cx /\ sr_symbol r = cx_symbol cx /\
  forall s, sr_signal r = Some s ->
    sc_enabled (cx_config cx) = true /\
    sg_strategy_id s = cx_strategy_id cx /\ sg_symbol s = cx_symbol cx /\
    sg_side s = SignalSide.Buy /\
    sg_suggested_notional s = sc_suggested_notional (cx_config cx) /\
    (0 < dval (sg_suggested_notional s))%Q /\
    sg_stop_loss_pct s = sc_stop_loss_pct (cx_config cx) /\
    sg_take_profit_pct s = sc_take_profit_pct (cx_config cx) /\
    sg_created_at s = cx_evaluated_at cx /\
    (exists c, In c (cx_candles cx) /\ c_is_closed c = true /\
       sg_source_candle_open_time s = c_open_time c /\
       forall c', In c' (cx_candles cx) -> c_is_closed c' = true ->
                  c_open_time c' <= c_open_time c) /\
    (dval (confidence_value (sg_confidence s)) == base_confidence (cx_strategy_id cx) # 100)%Q /\
    (forall floor, sc_confidence_floor (cx_config cx) = Some floor ->
       (dval floor <= dval (confidence_value (sg_confidence s)))%Q).
Proof.
  intros Hev. apply evaluate_ok_inv in Hev as (Hv & Hid & [(He & Hr)|(He & Hr)]).
  { injection Hr as <-. by rewrite bool_decide_eq_false_2 by (by intros [? ?]). }
  apply (proj2 (evaluate_strategy_says cx _)) in Hr as [(reason & ->)|Hr].
  { by rewrite bool_decide_eq_false_2 by (by intros [? ?]). }
  cbv zeta in Hr. destruct Hr as (latest & reason & Hl & Hf & ->).
  apply normalized_last in Hl as (Hin & Hc & Hmax).
  cbn -[bool_decide]. rewrite bool_decide_eq_true_2 by done. split; [done|].
  split; [done|]. split; [done|]. intros s [= <-]. cbn.
  split; [done|]. split; [done|]. split; [done|]. split; [done|]. split; [done|].
  split. { unfold StrategyConfig_validate in Hv. destruct (_ <=? _)%dec eqn:E1; [done|].
    apply dleb_gt in E1. by rewrite dval_ZERO in E1. }
  split; [done|]. split; [done|]. split; [done|].
  split; [by exists latest|]. split.
  - rewrite dval_new by (destruct (cx_strategy_id cx); cbn; lia). done.
  - intros floor E1. unfold passes_floor in Hf. rewrite E1 in Hf. by apply dleb_le.
Qed.

(** *** How much history an evaluation reads *)

Definition with_candles cx (candles : list Candle) : StrategyEvaluationContext := {|
  cx_correlation_id := cx_correlation_id cx;
  cx_strategy_id := cx_strategy_id cx;
  cx_symbol := cx_symbol cx;
  cx_config := cx_config cx;
  cx_candles := candles;
  cx_evaluated_at := cx_evaluated_at cx
|}.

Lemma evaluate_strategy_suffix cx older w :
  lookbacks_u32 (cx_config cx) -> sc_strategy_id (cx_config cx) = cx_strategy_id cx ->
  required_candle_count (cx_config cx) <= Z.of_nat (length w) ->
  evaluate_strategy new_v4 cx (older ++ w) = evaluate_strategy new_v4 cx w.
Proof.
  intros Hu Hid Hw. apply lookbacks_nonneg in Hu as (H1 & H2 & H3 & H4 & H5 & H6 & H7).
  assert (Hshort : forall n, (n <= length w)%nat ->
    (length (older ++ w) <? n)%nat = (length w <? n)%nat).
  { intros n Hn. rewrite length_app. destruct (Nat.ltb_spec (length older + length w) n),
      (Nat.ltb_spec (length w) n); lia || done. }
  unfold evaluate_strategy, required_candle_count in *. rewrite Hid in Hw.
  destruct (cx_strategy_id cx) eqn:E1; cbv zeta in Hw;
    [unfold evaluate_momentum|unfold evaluate_breakout|unfold evaluate_trend_filter_momentum
    |unfold evaluate_trend_filter_momentum_v2|unfold evaluate_volume_breakout
    |unfold evaluate_volatility_compression_breakout|unfold evaluate_range_reversion
    |unfold evaluate_trend_pullback_continuation|unfold evaluate_failed_breakdown_reclaim];
    cbv zeta; unfold required_candle_count; rewrite ?Hid; cbv zeta;
    rewrite Hshort by lia; repeat (rewrite slice_back_app by lia);
    rewrite ?(last_app_nonempty older w) by lia;
    repeat (rewrite index_back_app by lia); try done.
Qed.

(** An evaluation reads its most recent [required_candle_count] closed
    candles and nothing else: candles still open, older history and the order
    of delivery do not change the result, as long as open times are distinct. *)
Theorem evaluate_reads_recent_closed_candles cx older w candles :
  lookbacks_u32 (cx_config cx) ->
  normalize_closed_candles (cx_candles cx) = older ++ w ->
  required_candle_count (cx_config cx) <= Z.of_nat (length w) ->
  Permutation (List.filter c_is_closed candles) w -> NoDup (map c_open_time w) ->
  evaluate new_v4 (with_candles cx candles) = evaluate new_v4 cx.
Proof.
  intros Hu Hn Hw Hp Hnd.
  assert (Hsub : normalize_closed_candles candles = w).
  { unfold normalize_closed_candles. rewrite (sort_by_key_permutation c_open_time _ w).
    - apply sort_by_key_id.
      pose proof (sort_by_key_sorted c_open_time (List.filter c_is_closed (cx_candles cx))) as Hs.
      unfold normalize_closed_candles in Hn. rewrite Hn in Hs.
      by apply strongly_sorted_app_inv in Hs as (_ & Hs & _).
    - done.
    - rewrite (Permutation_map c_open_time Hp). done. }
  unfold evaluate. cbn [with_candles cx_config cx_strategy_id cx_candles]. rewrite Hsub, Hn.
  destruct (StrategyConfig_validate _); cbn; try done.
  destruct (bool_decide _) eqn:Hid; cbn; [|done]. apply bool_decide_eq_true in Hid.
  destruct (sc_enabled _); cbn; [|done].
  rewrite (evaluate_strategy_suffix cx older w) by done. done.
Qed.

(** The closes (or highs) a rule compares. *)
Lemma forallb_pairs (f : Candle -> Candle -> bool) l :
  forallb (fun '(a, b) => f a b) (pairs l) = true <->
  forall i a b, l !! i = Some a -> l !! S i = Some b -> f a b = true.
Proof.
  destruct l as [|x l]; [by cbn|]. revert x; induction l as [|y l IH]; intros x.
  - cbn. split; [|done]. intros _ i a b _ H. by destruct i.
  - rewrite pairs_cons. cbn [forallb]. rewrite andb_true_iff, IH. split.
    + intros [Hxy H] [|i] a b Ha Hb; [|by apply (H i)]. cbn in Ha, Hb. congruence.
    + intros H. split; [by apply (H 0%nat)|]. intros i a b Ha Hb. by apply (H (S i)).
Qed.

(** Momentum signals exactly when the last [lookback + 1] closed candles
    have strictly increasing closes (and the configured floor is at most
    0.65); with lookback 0 every closed candle is a signal. *)
Theorem momentum_signals_iff_rising_closes cx candles :
  StrategyConfig_validate (cx_config cx) = Ok tt ->
  sc_strategy_id (cx_config cx) = StrategyId.MomentumV1 ->
  cx_strategy_id cx = StrategyId.MomentumV1 -> sc_enabled (cx_config cx) = true ->
  0 <= sc_lookback_candles (cx_config cx) ->
  candles = normalize_closed_candles (cx_candles cx) ->
  (exists r, evaluate new_v4 cx = Ok r /\ sr_generated r = true) <->
  let n := Z.to_nat (sc_lookback_candles (cx_config cx)) in
  let from := (length candles - (n + 1))%nat in
  (n < length candles)%nat /\ passes_floor cx (dnew 65 2) = true /\
  forall i a b, (from <= i)%nat -> candles !! i = Some a -> candles !! S i = Some b ->
    (dval (c_close a) < dval (c_close b))%Q.
Proof.
  intros Hv Hid1 Hid2 He H0 Hcs. cbv zeta. set (n := Z.to_nat _). set (from := (_ - (n + 1))%nat).
  unfold evaluate. rewrite Hv. cbn [mbind res_bind].
  rewrite Hid1, Hid2, bool_decide_eq_true_2, He by done. cbn [negb].
  unfold evaluate_strategy. rewrite Hid2, <- Hcs. unfold evaluate_momentum. cbv zeta. fold n.
  destruct (Nat.ltb_spec (length candles) (n + 1)) as [Hlt|Hge].
  { split; [by intros (r & [= <-] & ?)|lia]. }
  rewrite slice_back_suffix by lia. fold from. cbn [mbind res_bind].
  assert (Hall : forallb (fun '(c0, c1) => (c_close c1 >? c_close c0)%dec) (pairs (drop from candles))
            = true <-> forall i a b, (from <= i)%nat -> candles !! i = Some a ->
                         candles !! S i = Some b -> (dval (c_close a) < dval (c_close b))%Q).
  { rewrite forallb_pairs. setoid_rewrite dltb_lt. setoid_rewrite lookup_drop. split.
    - intros H i a b Hi Ha Hb. apply (H (i - from)%nat); rewrite <- ?Ha, <- ?Hb; f_equal; lia.
    - intros H i a b Ha Hb. apply (H (from + i)%nat); [lia|done|]. rewrite <- Hb. f_equal. lia. }
  destruct (last_nonempty candles) as [latest Hl]; [lia|].
  rewrite <- Hall. destruct (forallb _ _); cbn [negb].
  - unfold from. rewrite last_suffix, Hl by lia. cbn [expect mbind res_bind].
    rewrite generated_result_ok by lia. destruct (passes_floor _ _).
    + split; [intros _; split; [lia|done]|]. intros _. eexists. split; [done|done].
    + split; [by intros (r & [= <-] & ?)|by intros (_ & ? & _)].
  - split; [by intros (r & [= <-] & ?)|by intros (_ & _ & ?)].
Qed.
End Outcomes.

Module StrategySample.
#[local] Existing Instance ExactDecimal.

Definition candle (i close : Z) (closed : bool) : Candle := {|
  c_id := i; c_exchange := MarketDataSource.Binance; c_symbol := {| symbol_text := "BTCUSDT" |};
  c_interval := CandleInterval.OneMinute; c_open_time := minutes i;
  c_close_time := minutes (i + 1); c_open := dint (close - 1); c_high := dint (close + 1);
  c_low := dint (close - 2); c_close := dint close; c_volume := dint 10;
  c_quote_volume := None; c_trade_count := 3; c_is_closed := closed;
  c_created_at := 0; c_updated_at := 0 |}.

Definition config (id : StrategyId.t) (lookback : Z) : StrategyConfig := {|
  sc_strategy_id := id; sc_enabled := true; sc_mode := StrategyMode.Paper;
  sc_symbols := [{| symbol_text := "BTCUSDT" |}]; sc_timeframe := CandleInterval.OneMinute;
  sc_suggested_notional := dint 50; sc_max_signal_age_ms := 120000; sc_cooldown_seconds := 60;
  sc_lookback_candles := lookback; sc_trend_lookback_candles := None;
  sc_momentum_lookback_candles := None; sc_compression_lookback_candles := None;
  sc_breakout_lookback_candles := None; sc_pullback_lookback_candles := None;
  sc_pullback_sma_lookback_candles := None; sc_compression_percentile_threshold := None;
  sc_min_breakout_pct := None; sc_max_breakout_extension_pct := None;
  sc_min_volume_expansion_ratio := None; sc_lower_band_pct := None; sc_upper_band_pct := None;
  sc_min_range_width_pct := None; sc_max_range_width_pct := None;
  sc_min_close_above_sma_pct := None; sc_max_close_above_sma_pct := None;
  sc_min_momentum_return_pct := None; sc_min_trend_return_pct := None;
  sc_min_trend_slope_pct := None; sc_min_pullback_depth_pct := None;
  sc_max_pullback_depth_pct := None; sc_min_reclaim_pct := None; sc_min_breakdown_pct := None;
  sc_min_reclaim_close_pct := None; sc_min_lower_wick_pct := None; sc_min_volume_ratio := None;
  sc_max_choppiness := None; sc_confidence_floor := Some (dnew 6 1); sc_stop_loss_pct := None;
  sc_take_profit_pct := None; sc_holding_candles := None; sc_confirmation_candles := 0;
  sc_require_confirmation_close_above_lookback_low := false;
  sc_require_confirmation_low_above_breakdown_low := false; sc_notes := None |}.

Definition context (id : StrategyId.t) (lookback : Z) (candles : list Candle) := {|
  cx_correlation_id := 9; cx_strategy_id := id; cx_symbol := {| symbol_text := "BTCUSDT" |};
  cx_config := config id lookback; cx_candles := candles; cx_evaluated_at := minutes 9 |}.

(** Delivered out of order, with an open candle that is not looked at. *)
Definition rising : list Candle :=
  [candle 3 104 true; candle 0 90 true; candle 2 103 true; candle 4 1 false; candle 1 101 true].

Lemma config_u32 id n : 0 <= n < 2 ^ 32 -> lookbacks_u32 (config id n).
Proof. intros H. split; [exact H|]. repeat constructor. Defined.

Example evaluate_panics_iff_zero_lookback_witness :
  evaluate 7 (context StrategyId.VolatilityBreakoutV1 0 rising) = Panic /\
  exists r, evaluate 7 (context StrategyId.VolatilityBreakoutV1 2 rising) = Ok r.
Proof.
  split.
  - exact (evaluate_panics_iff_zero_lookback (DL := ExactDecimalLaws) 7
      (context StrategyId.VolatilityBreakoutV1 0 rising)
      (config_u32 _ 0 ltac:(lia)) eq_refl eq_refl).
  - exact (evaluate_panics_iff_zero_lookback (DL := ExactDecimalLaws) 7
      (context StrategyId.VolatilityBreakoutV1 2 rising)
      (config_u32 _ 2 ltac:(lia)) eq_refl eq_refl).
Defined.

Example evaluate_signal_contract_witness :
  exists r, evaluate 7 (context StrategyId.MomentumV1 3 rising) = Ok r /\
    sr_generated r = true /\ sr_strategy_id r = StrategyId.MomentumV1.
Proof.
  destruct (evaluate 7 (context StrategyId.MomentumV1 3 rising)) as [r| |] eqn:E1;
    [|vm_compute in E1; discriminate E1..].
  exists r. split; [reflexivity|].
  pose proof (evaluate_signal_contract (DL := ExactDecimalLaws) 7 _ r E1) as (_ & Hs & _).
  split; [|exact Hs]. vm_compute in E1. injection E1 as <-. reflexivity.
Defined.

Example evaluate_reads_recent_closed_candles_witness :
  evaluate 7 (context StrategyId.MomentumV1 2 rising)
    = evaluate 7 (context StrategyId.MomentumV1 2
        [candle 2 103 true; candle 9 50 false; candle 3 104 true; candle 1 101 true]).
Proof.
  symmetry. apply (evaluate_reads_recent_closed_candles 7
    (context StrategyId.MomentumV1 2 rising) [candle 0 90 true]
    [candle 1 101 true; candle 2 103 true; candle 3 104 true]).
  - apply config_u32. lia.
  - vm_compute. reflexivity.
  - vm_compute. discriminate.
  - cbn. transitivity [candle 2 103 true; candle 1 101 true; candle 3 104 true].
    + apply perm_skip, perm_swap.
    + apply perm_swap.
  - apply (bool_decide_eq_true_1 _). vm_compute. reflexivity.
Defined.

Example momentum_signals_iff_rising_closes_witness :
  (exists r, evaluate 7 (context StrategyId.MomentumV1 3 rising) = Ok r /\ sr_generated r = true) /\
  (exists r, evaluate 7 (context StrategyId.MomentumV1 0 [candle 3 104 true]) = Ok r /\
     sr_generated r = true).
Proof.
  split.
  - eexists. split; [vm_compute; reflexivity|reflexivity].
  - apply (momentum_signals_iff_rising_closes (DL := ExactDecimalLaws) 7
      (context StrategyId.MomentumV1 0 [candle 3 104 true]) [candle 3 104 true]);
      try reflexivity.
    cbn zeta. split; [cbn; lia|]. split; [reflexivity|]. intros [|i] a b _ Ha Hb; [|done].
    done.
Defined.
End StrategySample.
