(* ===== verification/PaperStore.v ===== *)
(** * Paper trading over its tables

    crates/db/src/lib.rs: the signals, risk decisions, paper orders, accounts,
    positions, fills, equity snapshots and journal entries, with the statements
    that read and write them; crates/api/src/lib.rs: the operations the API runs
    on them (persist_paper_fill_accounting, close_paper_position).

    A table is the list of its rows in the order of insertion; an operation is a
    function of the store in an error-and-state monad, so what it wrote before an
    error stays written, unless it ran in a transaction.  A statement fails only
    by violating a unique index.  A NUMERIC(20, 8) column stores [numeric d].
    The payloads of events and audit rows are left out. *)

From Stdlib Require Import ZArith QArith Qround Lqa Lia List String Sorted Permutation.
From stdpp Require Import base list strings.
From S2P Require Import Prelude Text Host Types MarketData Risk PaperOrder Accounting Strategy.

#[local] Open Scope Z_scope.

(** PostgreSQL: what a NUMERIC(20, 8) column keeps of a number, the order in which
    rows with equal sort keys are returned, and the start of the current day and
    week. *)
Class Database {DI : Decimal} {JS : Json} := {
  numeric : dec -> dec;
  newest_first : list PaperTradeJournalEntry -> list PaperTradeJournalEntry;
  date_trunc_day : Z -> Z;
  date_trunc_week : Z -> Z
}.

Class DatabaseLaws {DI : Decimal} {JS : Json} (DB : Database) := {
  numeric_nonneg : forall d, (0 <= dval d)%Q -> (0 <= dval (numeric d))%Q;
  numeric_nonpos : forall d, (dval d <= 0)%Q -> (dval (numeric d) <= 0)%Q;
  newest_first_perm : forall l, Permutation (newest_first l) l;
  newest_first_sorted : forall l,
    StronglySorted (fun a b => je_created_at b <= je_created_at a) (newest_first l);
  date_trunc_day_le : forall t, date_trunc_day t <= t;
  date_trunc_week_le : forall t, date_trunc_week t <= t
}.

Module PaperCloseValidationIssue.
Inductive t :=
  | PositionNotFound
  | AccountNotFound
  | PositionNotOpen
  | WrongConfirmationText
  | MissingMarketPrice
  | StaleMarketPrice
  | AlreadyClosed
  | UnsupportedCloseMode.
#[global] Instance eq_dec : EqDecision t.
Proof. solve_decision. Defined.
Definition as_str (x : t) : string :=
  match x with
  | PositionNotFound => "position_not_found"
  | AccountNotFound => "account_not_found"
  | PositionNotOpen => "position_not_open"
  | WrongConfirmationText => "wrong_confirmation_text"
  | MissingMarketPrice => "missing_market_price"
  | StaleMarketPrice => "stale_market_price"
  | AlreadyClosed => "already_closed"
  | UnsupportedCloseMode => "unsupported_close_mode"
  end.
End PaperCloseValidationIssue.

Section Tables.
Context {DI : Decimal} {CH : Chrono} {JS : Json} {JD : JsonScalars} {DB : Database}.

Record SignalRecord := {
  sn_id : Z;
  sn_strategy_id : string;
  sn_symbol : string;
  sn_side : string;
  sn_confidence : dec;
  sn_timeframe : string;
  sn_reason : string;
  sn_suggested_notional : dec;
  sn_stop_loss_pct : option dec;
  sn_take_profit_pct : option dec;
  sn_source_candle_open_time : Z;
  sn_correlation_id : Z;
  sn_created_at : Z
}.

Record InsertSignalOutcome := {
  io_signal : SignalRecord;
  io_inserted : bool
}.

(** A row of risk_decisions; of the JSON text of its rationale the fields that are
    read back. *)
Record RiskDecisionRow := {
  rd_id : Z;
  rd_correlation_id : Z;
  rd_signal_id : option Z;
  rd_decision : string;
  rd_strategy_id : option string;
  rd_suggested_notional : option dec;
  rd_decided_at : Z
}.

(** A row of orders; [market_mode] is 'PAPER'. *)
Record OrderRow := {
  ow_id : Z;
  ow_correlation_id : Z;
  ow_risk_decision_id : Z;
  ow_idempotency_key : string;
  ow_symbol : string;
  ow_side : string;
  ow_quantity : dec;
  ow_limit_price : option dec;
  ow_status : string;
  ow_execution_state : string;
  ow_status_reason : option string;
  ow_filled_price : option dec;
  ow_submitted_at : option Z;
  ow_filled_at : option Z;
  ow_cancelled_at : option Z;
  ow_rejected_at : option Z;
  ow_expired_at : option Z;
  ow_expires_at : option Z;
  ow_created_at : Z;
  ow_updated_at : Z
}.

(** A row of strategy_state. *)
Record StrategyStateRow := {
  st_strategy_id : string;
  st_last_evaluated_at : Z;
  st_last_evaluation_reason : string;
  st_last_signal_id : option Z;
  st_last_signal_at : option Z
}.

Record OrderRecord := {
  or_row : OrderRow;
  or_signal_id : option Z;
  or_strategy_id : option string;
  or_requested_notional : option dec;
  or_filled_qty : dec;
  or_avg_fill_price : option dec
}.

Record OrderCreateOutcome := {
  oc_order : OrderRecord;
  oc_transitions : list ExecutionState.t
}.

Inductive CreateOrderError :=
  | RiskDecisionNotFound
  | RiskDecisionNotApproved
  | DuplicateIdempotencyKey
  | InvalidIntent (error : CoreError.t)
  | Unexpected.

(** The tables, each in the order of its insertions. *)
Record Store := {
  t_signals : list SignalRecord;
  t_risk_decisions : list RiskDecisionRow;
  t_orders : list OrderRow;
  t_events : list (Z * string);
  t_accounts : list PaperAccount;
  t_positions : list PaperPosition;
  t_fills : list PaperFill;
  t_snapshots : list PaperEquitySnapshot;
  t_journal : list PaperTradeJournalEntry;
  t_strategy_states : list StrategyStateRow
}.

Definition set_signals (rows : list SignalRecord) (s : Store) : Store :=
  {| t_signals := rows; t_risk_decisions := t_risk_decisions s; t_orders := t_orders s; t_events
     := t_events s; t_accounts := t_accounts s; t_positions := t_positions s; t_fills := t_fills
     s; t_snapshots := t_snapshots s; t_journal := t_journal s; t_strategy_states :=
     t_strategy_states s |}.
Definition set_risk_decisions (rows : list RiskDecisionRow) (s : Store) : Store :=
  {| t_signals := t_signals s; t_risk_decisions := rows; t_orders := t_orders s; t_events :=
     t_events s; t_accounts := t_accounts s; t_positions := t_positions s; t_fills := t_fills s;
     t_snapshots := t_snapshots s; t_journal := t_journal s; t_strategy_states :=
     t_strategy_states s |}.
Definition set_orders (rows : list OrderRow) (s : Store) : Store :=
  {| t_signals := t_signals s; t_risk_decisions := t_risk_decisions s; t_orders := rows;
     t_events := t_events s; t_accounts := t_accounts s; t_positions := t_positions s; t_fills
     := t_fills s; t_snapshots := t_snapshots s; t_journal := t_journal s; t_strategy_states :=
     t_strategy_states s |}.
Definition set_events (rows : list (Z * string)) (s : Store) : Store :=
  {| t_signals := t_signals s; t_risk_decisions := t_risk_decisions s; t_orders := t_orders s;
     t_events := rows; t_accounts := t_accounts s; t_positions := t_positions s; t_fills :=
     t_fills s; t_snapshots := t_snapshots s; t_journal := t_journal s; t_strategy_states :=
     t_strategy_states s |}.
Definition set_accounts (rows : list PaperAccount) (s : Store) : Store :=
  {| t_signals := t_signals s; t_risk_decisions := t_risk_decisions s; t_orders := t_orders s;
     t_events := t_events s; t_accounts := rows; t_positions := t_positions s; t_fills :=
     t_fills s; t_snapshots := t_snapshots s; t_journal := t_journal s; t_strategy_states :=
     t_strategy_states s |}.
Definition set_positions (rows : list PaperPosition) (s : Store) : Store :=
  {| t_signals := t_signals s; t_risk_decisions := t_risk_decisions s; t_orders := t_orders s;
     t_events := t_events s; t_accounts := t_accounts s; t_positions := rows; t_fills := t_fills
     s; t_snapshots := t_snapshots s; t_journal := t_journal s; t_strategy_states :=
     t_strategy_states s |}.
Definition set_fills (rows : list PaperFill) (s : Store) : Store :=
  {| t_signals := t_signals s; t_risk_decisions := t_risk_decisions s; t_orders := t_orders s;
     t_events := t_events s; t_accounts := t_accounts s; t_positions := t_positions s; t_fills
     := rows; t_snapshots := t_snapshots s; t_journal := t_journal s; t_strategy_states :=
     t_strategy_states s |}.
Definition set_snapshots (rows : list PaperEquitySnapshot) (s : Store) : Store :=
  {| t_signals := t_signals s; t_risk_decisions := t_risk_decisions s; t_orders := t_orders s;
     t_events := t_events s; t_accounts := t_accounts s; t_positions := t_positions s; t_fills
     := t_fills s; t_snapshots := rows; t_journal := t_journal s; t_strategy_states :=
     t_strategy_states s |}.
Definition set_journal (rows : list PaperTradeJournalEntry) (s : Store) : Store :=
  {| t_signals := t_signals s; t_risk_decisions := t_risk_decisions s; t_orders := t_orders s;
     t_events := t_events s; t_accounts := t_accounts s; t_positions := t_positions s; t_fills
     := t_fills s; t_snapshots := t_snapshots s; t_journal := rows; t_strategy_states :=
     t_strategy_states s |}.
Definition set_strategy_states (rows : list StrategyStateRow) (s : Store) : Store :=
  {| t_signals := t_signals s; t_risk_decisions := t_risk_decisions s; t_orders := t_orders s;
     t_events := t_events s; t_accounts := t_accounts s; t_positions := t_positions s; t_fills
     := t_fills s; t_snapshots := t_snapshots s; t_journal := t_journal s; t_strategy_states :=
     rows |}.

(** ** Operations *)

Definition M (E A : Type) : Type := Store -> res E A * Store.

#[export] Instance M_ret E : MRet (M E) := fun _ a s => (Ok a, s).
#[export] Instance M_bind E : MBind (M E) := fun _ _ f m s =>
  match m s with
  | (Ok a, s') => f a s'
  | (Err e, s') => (Err e, s')
  | (Panic, s') => (Panic, s')
  end.

Definition read {E A} (f : Store -> A) : M E A := fun s => (Ok (f s), s).
Definition write {E} (f : Store -> Store) : M E unit := fun s => (Ok tt, f s).
Definition lift {E A} (m : res E A) : M E A := fun s => (m, s).
Definition fail {E A} (e : E) : M E A := fun s => (Err e, s).
(** [.context(..)], [.map_err(..)] *)
Definition map_err {E F A} (f : E -> F) (m : M E A) : M F A := fun s =>
  match m s with
  | (Ok a, s') => (Ok a, s')
  | (Err e, s') => (Err (f e), s')
  | (Panic, s') => (Panic, s')
  end.
(** A transaction that is dropped on an error. *)
Definition transaction {E A} (m : M E A) : M E A := fun s =>
  match m s with (Ok a, s') => (Ok a, s') | (r, _) => (r, s) end.

(** INSERT INTO system_events *)
Definition insert_system_event {E} (correlation_id : Z) (event_type : string) : M E unit :=
  write (fun s => set_events (t_events s ++ [(correlation_id, event_type)]) s).

Definition order_status_as_str (status : OrderStatus.t) : string :=
  match status with
  | OrderStatus.Open => "OPEN"
  | OrderStatus.Rejected => "REJECTED"
  | OrderStatus.Filled => "FILLED"
  | OrderStatus.Cancelled => "CANCELLED"
  | OrderStatus.Expired => "EXPIRED"
  end.
Definition execution_state_as_str (state : ExecutionState.t) : string :=
  match state with
  | ExecutionState.IntentCreated => "INTENT_CREATED"
  | ExecutionState.RiskApproved => "RISK_APPROVED"
  | ExecutionState.OrderPrepared => "ORDER_PREPARED"
  | ExecutionState.PaperSubmitted => "PAPER_SUBMITTED"
  | ExecutionState.PaperFilled => "PAPER_FILLED"
  | ExecutionState.PaperCancelled => "PAPER_CANCELLED"
  | ExecutionState.Rejected => "REJECTED"
  | ExecutionState.Expired => "EXPIRED"
  end.

(** ** Signals and risk decisions *)

(** The key of the unique index on signals. *)
Definition signal_key (signal : SignalRecord) : string * string * string * Z * string * string :=
  (sn_strategy_id signal, sn_symbol signal, sn_timeframe signal, sn_source_candle_open_time signal,
   sn_side signal, sn_reason signal).

Definition signal_row (now : Z) (signal : StrategySignal) : SignalRecord := {|
  sn_id := sg_signal_id signal;
  sn_strategy_id := StrategyId.as_str (sg_strategy_id signal);
  sn_symbol := symbol_text (sg_symbol signal);
  sn_side := SignalSide.as_str (sg_side signal);
  sn_confidence := numeric (confidence_value (sg_confidence signal));
  sn_timeframe := CandleInterval.as_str (sg_timeframe signal);
  sn_reason := SignalReason.as_str (sg_reason signal);
  sn_suggested_notional := numeric (sg_suggested_notional signal);
  sn_stop_loss_pct := option_map numeric (sg_stop_loss_pct signal);
  sn_take_profit_pct := option_map numeric (sg_take_profit_pct signal);
  sn_source_candle_open_time := sg_source_candle_open_time signal;
  sn_correlation_id := sg_correlation_id signal;
  sn_created_at := now
|}.

(** INSERT .. ON CONFLICT DO NOTHING, then SELECT the row that was there; [now] is
    NOW(). *)
Definition insert_signal_deduped (now : Z) (signal : StrategySignal) : M string InsertSignalOutcome :=
  let row := signal_row now signal in
  signals ← read t_signals;
  match find (fun existing => bool_decide (signal_key existing = signal_key row)) signals with
  | Some existing => mret {| io_signal := existing; io_inserted := false |}
  | None =>
      if existsb (fun existing => sn_id existing =? sn_id row) signals then fail "unique violation"
      else
        _ ← write (set_signals (signals ++ [row]));
        mret {| io_signal := row; io_inserted := true |}
  end.

(** INSERT .. ON CONFLICT (strategy_id) DO UPDATE *)
Definition update_strategy_state {E} (strategy_id : StrategyId.t) (last_evaluated_at : Z)
    (last_evaluation_reason : SignalReason.t) (last_signal_id last_signal_at : option Z) : M E unit :=
  let row := {| st_strategy_id := StrategyId.as_str strategy_id;
                st_last_evaluated_at := last_evaluated_at;
                st_last_evaluation_reason := SignalReason.as_str last_evaluation_reason;
                st_last_signal_id := last_signal_id; st_last_signal_at := last_signal_at |} in
  write (fun s => set_strategy_states
    (if existsb (fun other => String.eqb (st_strategy_id other) (st_strategy_id row)) (t_strategy_states s)
     then map (fun other => if String.eqb (st_strategy_id other) (st_strategy_id row) then row else other)
            (t_strategy_states s)
     else t_strategy_states s ++ [row]) s).

Definition decision_text (decision : RiskEvaluationDecision.t) : string :=
  match decision with
  | RiskEvaluationDecision.Approved => "APPROVED"
  | RiskEvaluationDecision.Rejected => "REJECTED"
  end.

Definition insert_risk_evaluation (now : Z) (context : RiskCheckContext)
    (evaluation : RiskEvaluationResult) : M string RiskDecisionRow :=
  transaction (
    let row := {|
      rd_id := re_risk_decision_id evaluation;
      rd_correlation_id := re_correlation_id evaluation;
      rd_signal_id := Some (rc_signal_id context);
      rd_decision := decision_text (re_decision evaluation);
      rd_strategy_id := Some (rc_strategy_id context);
      rd_suggested_notional := Some (rc_suggested_notional context);
      rd_decided_at := now |} in
    decisions ← read t_risk_decisions;
    if existsb (fun existing => rd_id existing =? rd_id row) decisions then fail "unique violation"
    else
      _ ← write (set_risk_decisions (decisions ++ [row]));
      _ ← insert_system_event (re_correlation_id evaluation)
            match re_decision evaluation with
            | RiskEvaluationDecision.Approved => "risk.approved"
            | RiskEvaluationDecision.Rejected => "risk.rejected"
            end;
      mret row).

(** ** Paper orders *)

Definition side_text (side : Side.t) : string :=
  match side with Side.Buy => "BUY" | Side.Sell => "SELL" end.

(** The row of an order after an update of its state. *)
Definition order_row (order : PaperOrder) : OrderRow :=
  let intent := po_intent order in
  {| ow_id := oi_order_id intent;
     ow_correlation_id := oi_correlation_id intent;
     ow_risk_decision_id := oi_risk_decision_id intent;
     ow_idempotency_key := oi_idempotency_key intent;
     ow_symbol := symbol_text (oi_symbol intent);
     ow_side := side_text (oi_side intent);
     ow_quantity := numeric (oi_quantity intent);
     ow_limit_price := option_map numeric (oi_limit_price intent);
     ow_status := order_status_as_str (po_status order);
     ow_execution_state := execution_state_as_str (po_execution_state order);
     ow_status_reason := po_status_reason order;
     ow_filled_price := option_map numeric (po_filled_price order);
     ow_submitted_at := po_submitted_at order;
     ow_filled_at := po_filled_at order;
     ow_cancelled_at := po_cancelled_at order;
     ow_rejected_at := po_rejected_at order;
     ow_expired_at := po_expired_at order;
     ow_expires_at := oi_expires_at intent;
     ow_created_at := oi_created_at intent;
     ow_updated_at := po_updated_at order |}.

(** The row with the columns of the joined risk decision and signal. *)
Definition map_order (s : Store) (row : OrderRow) : OrderRecord :=
  let risk := find (fun risk => rd_id risk =? ow_risk_decision_id row) (t_risk_decisions s) in
  let signal_id := risk ← risk; rd_signal_id risk in
  let signal := id ← signal_id; find (fun signal => sn_id signal =? id) (t_signals s) in
  {| or_row := row;
     or_signal_id := signal_id;
     or_strategy_id :=
       match signal with
       | Some signal => Some (sn_strategy_id signal)
       | None => risk ← risk; rd_strategy_id risk
       end;
     or_requested_notional := (risk ← risk; rd_suggested_notional risk);
     or_filled_qty := if String.eqb (ow_status row) "FILLED" then ow_quantity row else ZERO;
     or_avg_fill_price := ow_filled_price row |}.

Definition get_order_by_id (id : Z) (s : Store) : option OrderRecord :=
  option_map (map_order s) (find (fun row => ow_id row =? id) (t_orders s)).
Definition get_order_by_idempotency_key (key : string) (s : Store) : option OrderRecord :=
  option_map (map_order s) (find (fun row => String.eqb (ow_idempotency_key row) key) (t_orders s)).

(** INSERT INTO orders; the columns of the state are NULL. *)
Definition inserted_order_row (order : PaperOrder) : OrderRow :=
  let intent := po_intent order in
  {| ow_id := oi_order_id intent;
     ow_correlation_id := oi_correlation_id intent;
     ow_risk_decision_id := oi_risk_decision_id intent;
     ow_idempotency_key := oi_idempotency_key intent;
     ow_symbol := symbol_text (oi_symbol intent);
     ow_side := side_text (oi_side intent);
     ow_quantity := numeric (oi_quantity intent);
     ow_limit_price := option_map numeric (oi_limit_price intent);
     ow_status := order_status_as_str (po_status order);
     ow_execution_state := execution_state_as_str (po_execution_state order);
     ow_status_reason := None; ow_filled_price := None; ow_submitted_at := None;
     ow_filled_at := None; ow_cancelled_at := None; ow_rejected_at := None;
     ow_expired_at := None; ow_expires_at := oi_expires_at intent;
     ow_created_at := oi_created_at intent; ow_updated_at := oi_created_at intent |}.

(** UPDATE orders: the columns of the state only. *)
Definition updated_order_row (order : PaperOrder) (row : OrderRow) : OrderRow :=
  {| ow_id := ow_id row; ow_correlation_id := ow_correlation_id row;
     ow_risk_decision_id := ow_risk_decision_id row;
     ow_idempotency_key := ow_idempotency_key row; ow_symbol := ow_symbol row;
     ow_side := ow_side row; ow_quantity := ow_quantity row;
     ow_limit_price := ow_limit_price row;
     ow_status := order_status_as_str (po_status order);
     ow_execution_state := execution_state_as_str (po_execution_state order);
     ow_status_reason := po_status_reason order;
     ow_filled_price := option_map numeric (po_filled_price order);
     ow_submitted_at := po_submitted_at order; ow_filled_at := po_filled_at order;
     ow_cancelled_at := po_cancelled_at order; ow_rejected_at := po_rejected_at order;
     ow_expired_at := po_expired_at order; ow_expires_at := ow_expires_at row;
     ow_created_at := ow_created_at row; ow_updated_at := po_updated_at order |}.

Definition update_order_state (order : PaperOrder) : M CreateOrderError unit :=
  write (fun s => set_orders
    (map (fun row => if ow_id row =? oi_order_id (po_intent order) then updated_order_row order row
                     else row) (t_orders s)) s).

Definition insert_order_event (order : PaperOrder) (transition : ExecutionState.t)
    : M CreateOrderError unit :=
  insert_system_event (oi_correlation_id (po_intent order))
    ("order." +:+ to_ascii_lowercase (ExecutionState.as_event_name transition)).

(** [order.transition_to(..)?; update_order_state; insert_order_event] *)
Definition advance (order : PaperOrder) (next : ExecutionState.t) (at_ : Z) (reason : option string)
    : M CreateOrderError PaperOrder :=
  order ← map_err InvalidIntent (lift (transition_to order next at_ reason));
  _ ← update_order_state order;
  _ ← insert_order_event order next;
  mret order.

Definition with_filled_price (order : PaperOrder) (price : option dec) : PaperOrder :=
  {| po_intent := po_intent order; po_status := po_status order;
     po_execution_state := po_execution_state order; po_filled_price := price;
     po_submitted_at := po_submitted_at order; po_filled_at := po_filled_at order;
     po_cancelled_at := po_cancelled_at order; po_rejected_at := po_rejected_at order;
     po_expired_at := po_expired_at order; po_status_reason := po_status_reason order;
     po_updated_at := po_updated_at order |}.

(** The order read back after the commit. *)
Definition persisted (order : PaperOrder) (transitions : list ExecutionState.t)
    : M CreateOrderError OrderCreateOutcome :=
  row ← read (get_order_by_id (oi_order_id (po_intent order)));
  order ← lift (expect row);
  mret {| oc_order := order; oc_transitions := transitions |}.

(** [now n] is the [n]-th reading of the clock. *)
Definition create_paper_order (now : nat -> Z) (intent : OrderIntent)
    : M CreateOrderError OrderCreateOutcome :=
  _ ← map_err InvalidIntent (lift (OrderIntent_validate intent));
  order ← map_err InvalidIntent (lift (PaperOrder_new (now 0%nat) intent));
  transaction (
    decisions ← read t_risk_decisions;
    match find (fun risk => rd_id risk =? oi_risk_decision_id intent) decisions with
    | None => fail RiskDecisionNotFound
    | Some risk =>
        if negb (String.eqb (rd_decision risk) "APPROVED") then fail RiskDecisionNotApproved else
        orders ← read t_orders;
        if existsb (fun row => (ow_id row =? oi_order_id intent) ||
                               String.eqb (ow_idempotency_key row) (oi_idempotency_key intent)) orders
        then fail DuplicateIdempotencyKey
        else
          _ ← write (set_orders (orders ++ [inserted_order_row order]));
          _ ← insert_order_event order ExecutionState.IntentCreated;
          order ← advance order ExecutionState.RiskApproved (now 1%nat) None;
          order ← advance order ExecutionState.OrderPrepared (now 2%nat) None;
          let expired := match oi_expires_at intent with
                         | Some expires_at => expires_at <=? now 3%nat
                         | None => false
                         end in
          if expired then
            order ← advance order ExecutionState.Expired (now 4%nat)
                      (Some "order intent expired before paper submission");
            persisted order [ExecutionState.IntentCreated; ExecutionState.RiskApproved;
                             ExecutionState.OrderPrepared; ExecutionState.Expired]
          else
            order ← advance order ExecutionState.PaperSubmitted (now 4%nat) None;
            order ← advance (with_filled_price order (oi_limit_price intent))
                      ExecutionState.PaperFilled (now 5%nat) None;
            persisted order [ExecutionState.IntentCreated; ExecutionState.RiskApproved;
                             ExecutionState.OrderPrepared; ExecutionState.PaperSubmitted;
                             ExecutionState.PaperFilled]
    end).

(** ** Accounts, positions, fills and the journal *)

(** The rows as the columns keep them. *)
Definition account_row (account : PaperAccount) : PaperAccount := {|
  pa_id := pa_id account; pa_name := pa_name account;
  pa_base_currency := pa_base_currency account;
  pa_initial_equity := numeric (pa_initial_equity account);
  pa_current_equity := numeric (pa_current_equity account);
  pa_realized_pnl := numeric (pa_realized_pnl account);
  pa_unrealized_pnl := numeric (pa_unrealized_pnl account);
  pa_status := pa_status account; pa_created_at := pa_created_at account;
  pa_updated_at := pa_updated_at account |}.

Definition position_row (position : PaperPosition) : PaperPosition := {|
  pp_id := pp_id position; pp_account_id := pp_account_id position;
  pp_symbol := pp_symbol position; pp_side := pp_side position;
  pp_quantity := numeric (pp_quantity position);
  pp_entry_price := numeric (pp_entry_price position);
  pp_mark_price := option_map numeric (pp_mark_price position);
  pp_price_status := pp_price_status position;
  pp_notional := numeric (pp_notional position);
  pp_realized_pnl := numeric (pp_realized_pnl position);
  pp_unrealized_pnl := numeric (pp_unrealized_pnl position);
  pp_status := pp_status position; pp_opened_at := pp_opened_at position;
  pp_closed_at := pp_closed_at position; pp_strategy_id := pp_strategy_id position;
  pp_signal_id := pp_signal_id position; pp_risk_decision_id := pp_risk_decision_id position;
  pp_order_id := pp_order_id position; pp_updated_at := pp_updated_at position |}.

(** ON CONFLICT (id) DO UPDATE leaves these columns alone. *)
Definition updated_position_row (existing position : PaperPosition) : PaperPosition := {|
  pp_id := pp_id existing; pp_account_id := pp_account_id existing;
  pp_symbol := pp_symbol existing; pp_side := pp_side existing;
  pp_quantity := pp_quantity position; pp_entry_price := pp_entry_price position;
  pp_mark_price := pp_mark_price position; pp_price_status := pp_price_status position;
  pp_notional := pp_notional position; pp_realized_pnl := pp_realized_pnl position;
  pp_unrealized_pnl := pp_unrealized_pnl position; pp_status := pp_status position;
  pp_opened_at := pp_opened_at existing; pp_closed_at := pp_closed_at position;
  pp_strategy_id := pp_strategy_id position; pp_signal_id := pp_signal_id position;
  pp_risk_decision_id := pp_risk_decision_id position; pp_order_id := pp_order_id position;
  pp_updated_at := pp_updated_at position |}.

Definition fill_row (fill : PaperFill) : PaperFill := {|
  pf_id := pf_id fill; pf_account_id := pf_account_id fill; pf_order_id := pf_order_id fill;
  pf_position_id := pf_position_id fill; pf_symbol := pf_symbol fill; pf_side := pf_side fill;
  pf_price := numeric (pf_price fill); pf_quantity := numeric (pf_quantity fill);
  pf_notional := numeric (pf_notional fill); pf_fee := numeric (pf_fee fill);
  pf_slippage_cost := numeric (pf_slippage_cost fill); pf_filled_at := pf_filled_at fill;
  pf_strategy_id := pf_strategy_id fill; pf_signal_id := pf_signal_id fill;
  pf_risk_decision_id := pf_risk_decision_id fill; pf_correlation_id := pf_correlation_id fill |}.

(** [PaperFill { position_id, ..fill }] *)
Definition with_position_id (fill : PaperFill) (position_id : option Z) : PaperFill := {|
  pf_id := pf_id fill; pf_account_id := pf_account_id fill; pf_order_id := pf_order_id fill;
  pf_position_id := position_id; pf_symbol := pf_symbol fill; pf_side := pf_side fill;
  pf_price := pf_price fill; pf_quantity := pf_quantity fill; pf_notional := pf_notional fill;
  pf_fee := pf_fee fill; pf_slippage_cost := pf_slippage_cost fill;
  pf_filled_at := pf_filled_at fill; pf_strategy_id := pf_strategy_id fill;
  pf_signal_id := pf_signal_id fill; pf_risk_decision_id := pf_risk_decision_id fill;
  pf_correlation_id := pf_correlation_id fill |}.

Definition journal_row (entry : PaperTradeJournalEntry) : PaperTradeJournalEntry := {|
  je_id := je_id entry; je_account_id := je_account_id entry;
  je_position_id := je_position_id entry; je_order_id := je_order_id entry;
  je_event_type := je_event_type entry; je_symbol := je_symbol entry;
  je_pnl := option_map numeric (je_pnl entry); je_payload := je_payload entry;
  je_created_at := je_created_at entry; je_correlation_id := je_correlation_id entry |}.

Definition snapshot_row (snapshot : PaperEquitySnapshot) : PaperEquitySnapshot := {|
  es_id := es_id snapshot; es_account_id := es_account_id snapshot;
  es_equity := numeric (es_equity snapshot); es_realized_pnl := numeric (es_realized_pnl snapshot);
  es_unrealized_pnl := numeric (es_unrealized_pnl snapshot);
  es_drawdown_pct := numeric (es_drawdown_pct snapshot);
  es_snapshot_at := es_snapshot_at snapshot |}.

(** ORDER BY created_at ASC LIMIT 1 *)
Definition get_default_paper_account (s : Store) : option PaperAccount :=
  iter_min (fun a b => pa_created_at a <=? pa_created_at b) (t_accounts s).

(** ON CONFLICT (id) DO UPDATE; the name is unique too, the creation time is kept. *)
Definition insert_paper_account (account : PaperAccount) : M string PaperAccount := fun s =>
  let row := account_row account in
  if existsb (fun other => String.eqb (pa_name other) (pa_name row) &&
                           negb (pa_id other =? pa_id row)) (t_accounts s)
  then (Err "unique violation", s)
  else if existsb (fun other => pa_id other =? pa_id row) (t_accounts s) then
    let update other :=
      if pa_id other =? pa_id row then
        {| pa_id := pa_id row; pa_name := pa_name row; pa_base_currency := pa_base_currency row;
           pa_initial_equity := pa_initial_equity row; pa_current_equity := pa_current_equity row;
           pa_realized_pnl := pa_realized_pnl row; pa_unrealized_pnl := pa_unrealized_pnl row;
           pa_status := pa_status row; pa_created_at := pa_created_at other;
           pa_updated_at := pa_updated_at row |}
      else other in
    (ok_or (find (fun other => pa_id other =? pa_id row) (map update (t_accounts s))) "no row",
     set_accounts (map update (t_accounts s)) s)
  else (Ok row, set_accounts (t_accounts s ++ [row]) s).

Definition get_open_paper_position (account_id : Z) (symbol : string) (side : PositionSide.t)
    (s : Store) : option PaperPosition :=
  find (fun row => (pp_account_id row =? account_id) && String.eqb (pp_symbol row) symbol &&
                   String.eqb (PositionSide.as_str (pp_side row)) (PositionSide.as_str side) &&
                   String.eqb (PositionStatus.as_str (pp_status row)) "open") (t_positions s).

(** The partial unique index on open positions. *)
Definition same_open_slot (a b : PaperPosition) : bool :=
  (pp_account_id a =? pp_account_id b) && String.eqb (pp_symbol a) (pp_symbol b) &&
  bool_decide (pp_side a = pp_side b) && negb (pp_id a =? pp_id b) &&
  bool_decide (pp_status a = PositionStatus.Open) && bool_decide (pp_status b = PositionStatus.Open).

Definition upsert_paper_position (position : PaperPosition) : M string PaperPosition := fun s =>
  let row := position_row position in
  let row := match find (fun other => pp_id other =? pp_id row) (t_positions s) with
             | Some existing => updated_position_row existing row
             | None => row
             end in
  if existsb (same_open_slot row) (t_positions s) then (Err "unique violation", s)
  else if existsb (fun other => pp_id other =? pp_id row) (t_positions s) then
    (Ok row, set_positions (map (fun other => if pp_id other =? pp_id row then row else other)
                              (t_positions s)) s)
  else (Ok row, set_positions (t_positions s ++ [row]) s).

(** ON CONFLICT (order_id) DO UPDATE SET position_id *)
Definition insert_paper_fill (fill : PaperFill) : M string unit := fun s =>
  let row := fill_row fill in
  if existsb (fun other => pf_order_id other =? pf_order_id row) (t_fills s) then
    (Ok tt, set_fills (map (fun other => if pf_order_id other =? pf_order_id row
                                         then with_position_id other (pf_position_id row)
                                         else other) (t_fills s)) s)
  else (Ok tt, set_fills (t_fills s ++ [row]) s).

Definition insert_paper_trade_journal_entries (entries : list PaperTradeJournalEntry)
    : M string unit :=
  write (fun s => set_journal (t_journal s ++ map journal_row entries) s).
Definition insert_paper_equity_snapshot (snapshot : PaperEquitySnapshot) : M string unit :=
  write (fun s => set_snapshots (t_snapshots s ++ [snapshot_row snapshot]) s).

(** ** crates/api/src/lib.rs *)

Definition DEFAULT_PAPER_ACCOUNT_NAME : string := "Default Paper".
Definition DEFAULT_PAPER_ACCOUNT_BASE_CURRENCY : string := "USDT".
Definition DEFAULT_PAPER_ACCOUNT_INITIAL_EQUITY : Z := 1000000.

Definition default_accounting_config : PaperAccountingConfig :=
  {| fee_bps := ZERO; slippage_bps := ZERO; pnl_calculation_mode := PnlCalculationMode.WeightedAverage |}.

Definition ensure_default_paper_account (new_v4 now : Z) : M string PaperAccount :=
  existing ← read get_default_paper_account;
  account ← lift (create_default_paper_account_if_missing new_v4 existing
    DEFAULT_PAPER_ACCOUNT_NAME DEFAULT_PAPER_ACCOUNT_BASE_CURRENCY
    (dnew DEFAULT_PAPER_ACCOUNT_INITIAL_EQUITY 0) now);
  insert_paper_account account.

(** The price the fill is accounted at. *)
Definition fill_price (order : OrderRecord) : dec :=
  match ow_filled_price (or_row order) with
  | Some price => price
  | None =>
      match or_avg_fill_price order with
      | Some price => price
      | None => default (ow_quantity (or_row order)) (ow_limit_price (or_row order))
      end
  end.

(** [fresh] draws the identifiers: 0 the account, 1 the fill, 2 the snapshot, from 3 on
    those of the accounting engine; [now] is the clock. *)
Definition persist_paper_fill_accounting (fresh : nat -> Z) (now : nat -> Z) (order : OrderRecord)
    : M string (option PaperAccount) :=
  if negb (String.eqb (ow_execution_state (or_row order)) "PAPER_FILLED") then mret None else
  account ← ensure_default_paper_account (fresh 0%nat) (now 0%nat);
  existing_position ← read (get_open_paper_position (pa_id account) (ow_symbol (or_row order))
                              PositionSide.Long);
  let price := fill_price order in
  let fill := {|
    pf_id := fresh 1%nat; pf_account_id := pa_id account; pf_order_id := ow_id (or_row order);
    pf_position_id := option_map pp_id existing_position;
    pf_symbol := ow_symbol (or_row order); pf_side := PositionSide.Long;
    pf_price := price; pf_quantity := or_filled_qty order;
    pf_notional := (price * or_filled_qty order)%dec; pf_fee := ZERO; pf_slippage_cost := ZERO;
    pf_filled_at := default (now 1%nat) (ow_filled_at (or_row order));
    pf_strategy_id := or_strategy_id order; pf_signal_id := or_signal_id order;
    pf_risk_decision_id := Some (ow_risk_decision_id (or_row order));
    pf_correlation_id := ow_correlation_id (or_row order) |} in
  application ← lift (apply_paper_order_fill (fun n => fresh (3 + n)%nat) (now 2%nat) account
                        existing_position fill default_accounting_config);
  position_record ← upsert_paper_position (fa_position application);
  let fill := with_position_id (fa_fill application) (Some (pp_id position_record)) in
  _ ← insert_paper_fill fill;
  account_record ← insert_paper_account (fa_account application);
  _ ← insert_paper_trade_journal_entries (fa_journal_entries application);
  _ ← insert_paper_equity_snapshot {|
        es_id := fresh 2%nat; es_account_id := pa_id account;
        es_equity := ps_equity (fa_summary application);
        es_realized_pnl := ps_realized_pnl (fa_summary application);
        es_unrealized_pnl := ps_unrealized_pnl (fa_summary application);
        es_drawdown_pct := ps_drawdown_pct (fa_summary application);
        es_snapshot_at := pf_filled_at fill |};
  mret (Some account_record).

(** ** Closing a position *)

Record PaperClosePositionRequest := {
  cq_position_id : Z;
  cq_confirmation_text : string;
  cq_reason : option PaperCloseReason.t;
  cq_close_mode : PaperCloseMode.t;
  cq_correlation_id : option Z;
  cq_allow_stale_price : bool
}.

Inductive ClosePaperPositionError :=
  | Validation (issue : PaperCloseValidationIssue.t)
  | Failed (error : string).

Definition expected_paper_close_confirmation (symbol : string) : string :=
  "CLOSE " +:+ to_ascii_uppercase (trim symbol).

Definition validate_paper_close_confirmation (symbol confirmation_text : string)
    : res PaperCloseValidationIssue.t unit :=
  if String.eqb confirmation_text (expected_paper_close_confirmation symbol) then Ok tt
  else Err PaperCloseValidationIssue.WrongConfirmationText.

Definition validate_paper_close_status (status : PositionStatus.t)
    : res PaperCloseValidationIssue.t unit :=
  match status with
  | PositionStatus.Open => Ok tt
  | PositionStatus.Closed => Err PaperCloseValidationIssue.AlreadyClosed
  end.

(** A price from the future is not stale: [to_std] fails on a negative age. *)
Definition validate_mark_price_freshness (received_at now stale_threshold : Z)
    (allow_stale_price : bool) : res PaperCloseValidationIssue.t unit :=
  let age := now - received_at in
  let is_stale := (0 <=? age) && (stale_threshold <? age) in
  if is_stale && negb allow_stale_price then Err PaperCloseValidationIssue.StaleMarketPrice
  else Ok tt.

Definition get_paper_position (account_id position_id : Z) (s : Store) : option PaperPosition :=
  find (fun row => (pp_account_id row =? account_id) && (pp_id row =? position_id)) (t_positions s).

(** The latest fill and the latest closing entry of a closed position. *)
Definition get_paper_close_summary (account_id position_id : Z) (s : Store)
    : option PaperPositionCloseSummary :=
  p ← find (fun p => (pp_account_id p =? account_id) && (pp_id p =? position_id) &&
                     String.eqb (PositionStatus.as_str (pp_status p)) "closed") (t_positions s);
  f ← iter_max (fun a b => pf_filled_at a <? pf_filled_at b)
        (List.filter (fun f => bool_decide (pf_position_id f = Some (pp_id p))) (t_fills s));
  j ← iter_max (fun a b => je_created_at a <? je_created_at b)
        (List.filter (fun j => bool_decide (je_position_id j = Some (pp_id p)) &&
                               String.eqb (je_event_type j) "paper.position.closed") (t_journal s));
  closed_at ← pp_closed_at p;
  Some {| cs_status := PaperCloseStatus.AlreadyClosed; cs_position_id := pp_id p;
          cs_account_id := pp_account_id p; cs_symbol := pp_symbol p; cs_quantity := pf_quantity f;
          cs_entry_price := pp_entry_price p; cs_exit_price := pf_price f;
          cs_realized_pnl := pp_realized_pnl p; cs_fee := pf_fee f;
          cs_slippage_cost := pf_slippage_cost f; cs_closed_at := closed_at;
          cs_correlation_id := je_correlation_id j; cs_journal_entry_id := je_id j;
          cs_close_fill_id := pf_id f |}.

(** The UPDATE of a closed position; the identifying columns stay. *)
Definition closed_position_row (existing position : PaperPosition) (order_id : Z) : PaperPosition := {|
  pp_id := pp_id existing; pp_account_id := pp_account_id existing;
  pp_symbol := pp_symbol existing; pp_side := pp_side existing;
  pp_quantity := numeric (pp_quantity position); pp_entry_price := pp_entry_price existing;
  pp_mark_price := option_map numeric (pp_mark_price position);
  pp_price_status := pp_price_status position; pp_notional := numeric (pp_notional position);
  pp_realized_pnl := numeric (pp_realized_pnl position);
  pp_unrealized_pnl := numeric (pp_unrealized_pnl position); pp_status := pp_status position;
  pp_opened_at := pp_opened_at existing; pp_closed_at := pp_closed_at position;
  pp_strategy_id := pp_strategy_id existing; pp_signal_id := pp_signal_id existing;
  pp_risk_decision_id := pp_risk_decision_id existing; pp_order_id := Some order_id;
  pp_updated_at := pp_updated_at position |}.

Definition closed_account_row (existing account : PaperAccount) : PaperAccount := {|
  pa_id := pa_id existing; pa_name := pa_name existing;
  pa_base_currency := pa_base_currency existing; pa_initial_equity := pa_initial_equity existing;
  pa_current_equity := numeric (pa_current_equity account);
  pa_realized_pnl := numeric (pa_realized_pnl account);
  pa_unrealized_pnl := numeric (pa_unrealized_pnl account); pa_status := pa_status existing;
  pa_created_at := pa_created_at existing; pa_updated_at := pa_updated_at account |}.

(** The order recorded for the sale; its risk decision has the identifier of the fill. *)
Definition close_order_row (position : PaperPosition) (fill : PaperFill)
    (close_result : PaperClosePositionResult) (uuid_show : Z -> string) : OrderRow := {|
  ow_id := pf_order_id fill; ow_correlation_id := cr_correlation_id close_result;
  ow_risk_decision_id := cr_close_fill_id close_result;
  ow_idempotency_key := "paper-close:" +:+ uuid_show (pp_id position);
  ow_symbol := pp_symbol position; ow_side := "SELL"; ow_quantity := numeric (pp_quantity position);
  ow_limit_price := Some (numeric (pf_price fill)); ow_status := "FILLED";
  ow_execution_state := "PAPER_FILLED"; ow_status_reason := None;
  ow_filled_price := Some (numeric (pf_price fill));
  ow_submitted_at := Some (cr_closed_at close_result);
  ow_filled_at := Some (cr_closed_at close_result); ow_cancelled_at := None; ow_rejected_at := None;
  ow_expired_at := None; ow_expires_at := None; ow_created_at := cr_closed_at close_result;
  ow_updated_at := cr_closed_at close_result |}.

Definition with_fill_decision (fill : PaperFill) (risk_decision_id : Z) : PaperFill := {|
  pf_id := pf_id fill; pf_account_id := pf_account_id fill; pf_order_id := pf_order_id fill;
  pf_position_id := pf_position_id fill; pf_symbol := pf_symbol fill; pf_side := pf_side fill;
  pf_price := pf_price fill; pf_quantity := pf_quantity fill; pf_notional := pf_notional fill;
  pf_fee := pf_fee fill; pf_slippage_cost := pf_slippage_cost fill;
  pf_filled_at := pf_filled_at fill; pf_strategy_id := pf_strategy_id fill;
  pf_signal_id := pf_signal_id fill; pf_risk_decision_id := Some risk_decision_id;
  pf_correlation_id := pf_correlation_id fill |}.

Definition close_paper_position_transactional (uuid_show : Z -> string) (position : PaperPosition)
    (application : ClosePositionApplication) : M string PaperPositionCloseSummary :=
  let close_result := ca_close_result application in
  let fill := ca_fill application in
  let correlation_id := cr_correlation_id close_result in
  let order := close_order_row position fill close_result uuid_show in
  transaction (
    decisions ← read t_risk_decisions;
    orders ← read t_orders;
    fills ← read t_fills;
    if existsb (fun risk => rd_id risk =? cr_close_fill_id close_result) decisions ||
       existsb (fun row => (ow_id row =? ow_id order) ||
                           String.eqb (ow_idempotency_key row) (ow_idempotency_key order)) orders ||
       existsb (fun other => pf_order_id other =? pf_order_id fill) fills
    then fail "unique violation"
    else
      _ ← write (set_risk_decisions (decisions ++ [{|
            rd_id := cr_close_fill_id close_result; rd_correlation_id := correlation_id;
            rd_signal_id := pp_signal_id position; rd_decision := "APPROVED";
            rd_strategy_id := pp_strategy_id position; rd_suggested_notional := None;
            rd_decided_at := cr_closed_at close_result |}]));
      _ ← write (set_orders (orders ++ [order]));
      _ ← write (fun s => set_positions
            (map (fun row => if pp_id row =? pp_id (ca_position application)
                             then closed_position_row row (ca_position application) (pf_order_id fill)
                             else row) (t_positions s)) s);
      _ ← write (fun s => set_accounts
            (map (fun row => if pa_id row =? pa_id (ca_account application)
                             then closed_account_row row (ca_account application)
                             else row) (t_accounts s)) s);
      _ ← write (set_fills (fills ++
            [fill_row (with_fill_decision fill (cr_close_fill_id close_result))]));
      _ ← insert_paper_equity_snapshot (ca_snapshot application);
      _ ← insert_paper_trade_journal_entries (ca_journal_entries application);
      _ ← insert_system_event correlation_id "paper.position.close_requested";
      _ ← insert_system_event correlation_id "paper.fill.created";
      _ ← insert_system_event correlation_id "paper.position.closed";
      _ ← insert_system_event correlation_id "paper.equity.updated";
      mret (cr_summary close_result)).

(** [mark_tick] is the latest mark price of a symbol with the time it was received;
    [fresh] draws the identifiers: 0 an account, 1 the correlation, 2 the order, 3 the
    fill, 4 the journal entry, from 5 on those of the accounting engine. *)
Definition close_paper_position (fresh : nat -> Z) (now : nat -> Z) (uuid_show : Z -> string)
    (mark_tick : string -> option (dec * Z)) (stale_threshold : Z)
    (request : PaperClosePositionRequest) : M ClosePaperPositionError PaperPositionCloseSummary :=
  account ← map_err Failed (ensure_default_paper_account (fresh 0%nat) (now 0%nat));
  position ← read (get_paper_position (pa_id account) (cq_position_id request));
  match position with
  | None => fail (Validation PaperCloseValidationIssue.PositionNotFound)
  | Some position =>
      _ ← map_err Validation (lift (validate_paper_close_confirmation (pp_symbol position)
                                      (cq_confirmation_text request)));
      if bool_decide (pp_status position = PositionStatus.Closed) then
        summary ← read (get_paper_close_summary (pa_id account) (pp_id position));
        lift (ok_or summary (Validation PaperCloseValidationIssue.AlreadyClosed))
      else
        _ ← map_err Validation (lift (validate_paper_close_status (pp_status position)));
        match mark_tick (pp_symbol position) with
        | None => fail (Validation PaperCloseValidationIssue.MissingMarketPrice)
        | Some (price, received_at) =>
            _ ← map_err Validation (lift (validate_mark_price_freshness received_at (now 1%nat)
                                            stale_threshold (cq_allow_stale_price request)));
            application ← map_err Failed (lift (close_position_market_simulated
              (fun n => fresh (5 + n)%nat) (now 2%nat) account position (fresh 2%nat) (fresh 3%nat)
              (fresh 4%nat) price ZERO ZERO (now 1%nat)
              (default (fresh 1%nat) (cq_correlation_id request))));
            map_err Failed (close_paper_position_transactional uuid_show position application)
        end
  end.
End Tables.

(** ** Runs of operations *)
Section Runs.
Context {DI : Decimal} {CH : Chrono} {JS : Json} {JD : JsonScalars} {DB : Database}.
Context {E : Type}.

Lemma run_read {A B} (f : Store -> A) (k : A -> M E B) s : (read f ≫= k) s = k (f s) s.
Proof. done. Qed.
Lemma run_write {B} (f : Store -> Store) (k : unit -> M E B) s : (write f ≫= k) s = k tt (f s).
Proof. done. Qed.
Lemma run_event {B} correlation_id event_type (k : unit -> M E B) s :
  (insert_system_event correlation_id event_type ≫= k) s =
  k tt (set_events (t_events s ++ [(correlation_id, event_type)]) s).
Proof. done. Qed.
Lemma run_lift_ok {A B} (a : A) (k : A -> M E B) s : (lift (Ok a) ≫= k) s = k a s.
Proof. done. Qed.

Lemma run_lift {A B} (m : res E A) (k : A -> M E B) s :
  (lift m ≫= k) s = match m with Ok a => k a s | Err e => (Err e, s) | Panic => (Panic, s) end.
Proof. by destruct m. Qed.
Lemma run_map_err_lift {A B F} (f : F -> E) (m : res F A) (k : A -> M E B) s :
  (map_err f (lift m) ≫= k) s =
  match m with Ok a => k a s | Err e => (Err (f e), s) | Panic => (Panic, s) end.
Proof. by destruct m. Qed.
Lemma run_bind {A B} (m : M E A) (k : A -> M E B) s :
  (m ≫= k) s = match m s with
               | (Ok a, s1) => k a s1
               | (Err e, s1) => (Err e, s1)
               | (Panic, s1) => (Panic, s1)
               end.
Proof. done. Qed.

(** A run that succeeds succeeds at every step. *)
Lemma bind_inv {A B} (m : M E A) (k : A -> M E B) s b s' :
  (m ≫= k) s = (Ok b, s') -> exists a s1, m s = (Ok a, s1) /\ k a s1 = (Ok b, s').
Proof. unfold mbind, M_bind. destruct (m s) as [[a| |] s1]; [eauto|done..]. Qed.

Lemma lift_inv {A} (m : res E A) s a s' : lift m s = (Ok a, s') -> m = Ok a /\ s' = s.
Proof. unfold lift. by intros [= -> ->]. Qed.
Lemma map_err_inv {F A} (f : F -> E) (m : M F A) s a s' :
  map_err f m s = (Ok a, s') -> m s = (Ok a, s').
Proof. unfold map_err. destruct (m s) as [[]]; by intros [= -> ->]. Qed.
Lemma transaction_inv {A} (m : M E A) s a s' : transaction m s = (Ok a, s') -> m s = (Ok a, s').
Proof. unfold transaction. destruct (m s) as [[]]; by intros [= -> ->]. Qed.
(** A transaction writes all or nothing. *)
Lemma transaction_fails {A} (m : M E A) s :
  (forall a, fst (transaction m s) <> Ok a) -> snd (transaction m s) = s.
Proof. unfold transaction. destruct (m s) as [[a| |] s']; cbn; [|done..]. intros H. by destruct (H a). Qed.
End Runs.

(** ** Creating an order *)
Section CreateOrder.
Context {DI : Decimal} {CH : Chrono} {JS : Json} {JD : JsonScalars} {DB : Database}.

(** The event of a move of an order. *)
Definition order_event (intent : OrderIntent) (state : ExecutionState.t) : Z * string :=
  (oi_correlation_id intent, "order." +:+ to_ascii_lowercase (ExecutionState.as_event_name state)).

(** An order or an idempotency key of that name is in the table. *)
Definition order_taken (intent : OrderIntent) (s : Store) : bool :=
  existsb (fun row => (ow_id row =? oi_order_id intent) ||
                      String.eqb (ow_idempotency_key row) (oi_idempotency_key intent)) (t_orders s).

(** A store with an order appended and its events. *)
Definition with_order (row : OrderRow) (events : list (Z * string)) (s : Store) : Store :=
  set_events (t_events s ++ events) (set_orders (t_orders s ++ [row]) s).

Lemma transition_to_intent order next at_ reason order' :
  transition_to order next at_ reason = Ok order' -> po_intent order' = po_intent order.
Proof.
  unfold transition_to. intros H. apply bind_ok_inv in H as (state & _ & H).
  injection H as <-. by destruct next.
Qed.

Lemma update_last (id : Z) (rows : list OrderRow) (row : OrderRow) (update : OrderRow -> OrderRow) :
  Forall (fun other => ow_id other <> id) rows -> ow_id row = id ->
  map (fun other => if ow_id other =? id then update other else other) (rows ++ [row]) =
  rows ++ [update row].
Proof.
  intros Hrows Hid. rewrite map_app. cbn [map]. rewrite Hid, Z.eqb_refl. f_equal.
  induction Hrows as [|other rows Hother _ IH]; [done|]. cbn [map].
  destruct (Z.eqb_spec (ow_id other) id); [done|]. by rewrite IH.
Qed.

Lemma run_advance order next at_ reason order' row events s :
  Forall (fun other => ow_id other <> oi_order_id (po_intent order)) (t_orders s) ->
  ow_id row = oi_order_id (po_intent order) ->
  transition_to order next at_ reason = Ok order' ->
  updated_order_row order' row = order_row order' ->
  advance order next at_ reason (with_order row events s) =
  (Ok order', with_order (order_row order') (events ++ [order_event (po_intent order) next]) s).
Proof.
  intros Hrows Hid Ht Hrow. pose proof (transition_to_intent _ _ _ _ _ Ht) as Hi.
  unfold advance. rewrite Ht. unfold map_err, lift, update_order_state, insert_order_event, mret, M_ret.
  cbn [mbind M_bind]. unfold mbind, M_bind, write, insert_system_event, write. f_equal.
  unfold with_order. cbn. rewrite Hi, (update_last _ _ _ _ Hrows Hid), Hrow. unfold order_event.
  by rewrite (assoc_L (++)).
Qed.

Lemma run_persisted order transitions events s :
  Forall (fun other => ow_id other <> oi_order_id (po_intent order)) (t_orders s) ->
  let s' := with_order (order_row order) events s in
  persisted order transitions s' =
  (Ok {| oc_order := map_order s (order_row order); oc_transitions := transitions |}, s').
Proof.
  intros Hrows s'. unfold persisted. rewrite run_read. unfold get_order_by_id.
  enough (find (fun row => ow_id row =? oi_order_id (po_intent order)) (t_orders s') =
          Some (order_row order)) as -> by done.
  subst s'. cbn. induction Hrows as [|other rows Hother _ IH]; cbn.
  - by rewrite Z.eqb_refl.
  - by destruct (Z.eqb_spec (ow_id other) (oi_order_id (po_intent order))).
Qed.

Lemma not_taken intent s : order_taken intent s = false ->
  Forall (fun other => ow_id other <> oi_order_id intent) (t_orders s).
Proof.
  unfold order_taken. intros H. apply List.Forall_forall. intros row Hrow Hid.
  assert (existsb (fun row => (ow_id row =? oi_order_id intent) ||
    String.eqb (ow_idempotency_key row) (oi_idempotency_key intent)) (t_orders s) = true) as He;
    [|congruence].
  apply existsb_exists. exists row. by rewrite Hid, Z.eqb_refl.
Qed.

Lemma run_step {A B} (m : M CreateOrderError A) (k : A -> M CreateOrderError B) s a s1 :
  m s = (Ok a, s1) -> (m ≫= k) s = k a s1.
Proof. unfold mbind, M_bind. by intros ->. Qed.

Lemma run_checked {A B F} (f : F -> CreateOrderError) (a : A) (k : A -> M CreateOrderError B) s :
  (map_err f (lift (Ok a)) ≫= k) s = k a s.
Proof. done. Qed.

(** The intent had passed its expiry when it was about to be submitted. *)
Definition intent_expired (intent : OrderIntent) (at_ : Z) : bool :=
  match oi_expires_at intent with Some expires_at => expires_at <=? at_ | None => false end.

(** The moves of a new order. *)
Definition order_moves (expired : bool) : list ExecutionState.t :=
  [ExecutionState.IntentCreated; ExecutionState.RiskApproved; ExecutionState.OrderPrepared] ++
  if expired then [ExecutionState.Expired] else [ExecutionState.PaperSubmitted; ExecutionState.PaperFilled].

(** The order as it ends. *)
Definition finished_order (now : nat -> Z) (intent : OrderIntent) : PaperOrder :=
  let expired := intent_expired intent (now 3%nat) in
  {| po_intent := intent;
     po_status := if expired then OrderStatus.Expired else OrderStatus.Filled;
     po_execution_state := if expired then ExecutionState.Expired else ExecutionState.PaperFilled;
     po_filled_price := if expired then None else oi_limit_price intent;
     po_submitted_at := if expired then None else Some (now 4%nat);
     po_filled_at := if expired then None else Some (now 5%nat);
     po_cancelled_at := None;
     po_rejected_at := None;
     po_expired_at := if expired then Some (now 4%nat) else None;
     po_status_reason :=
       if expired then Some "order intent expired before paper submission" else None;
     po_updated_at := if expired then now 4%nat else now 5%nat |}.

(** Steps to the transaction of a valid intent. *)
Ltac opens := match goal with Ev : OrderIntent_validate _ = Ok tt |- _ =>
  unfold create_paper_order, PaperOrder_new; rewrite Ev; cbn [mbind res_bind];
  rewrite !run_checked; unfold transaction; rewrite run_read end.

Lemma validate_no_panic intent : OrderIntent_validate intent <> Panic.
Proof. unfold OrderIntent_validate. repeat case_match; discriminate. Qed.

Lemma create_order_runs now intent s risk :
  OrderIntent_validate intent = Ok tt ->
  find (fun risk => rd_id risk =? oi_risk_decision_id intent) (t_risk_decisions s) = Some risk ->
  rd_decision risk = "APPROVED" -> order_taken intent s = false ->
  let order := finished_order now intent in
  let moves := order_moves (intent_expired intent (now 3%nat)) in
  create_paper_order now intent s =
  (Ok {| oc_order := map_order s (order_row order); oc_transitions := moves |},
   with_order (order_row order) (map (order_event intent) moves) s).
Proof.
  intros Ev Hf Ha Ht. cbn zeta. opens. rewrite Hf, Ha.
  cbn [String.eqb Ascii.eqb Bool.eqb negb].
  rewrite run_read. fold (order_taken intent s). rewrite Ht. apply not_taken in Ht.
  rewrite run_write. unfold insert_order_event at 1. rewrite run_event.
  match goal with |- context [set_events ?e (set_orders ?o s)] =>
    change (set_events e (set_orders o s)) with (with_order (inserted_order_row
      {| po_intent := intent; po_status := OrderStatus.Open;
         po_execution_state := ExecutionState.IntentCreated; po_filled_price := None;
         po_submitted_at := None; po_filled_at := None; po_cancelled_at := None;
         po_rejected_at := None; po_expired_at := None; po_status_reason := None;
         po_updated_at := now 0%nat |}) [order_event intent ExecutionState.IntentCreated] s) end.
  do 2 (erewrite run_step by (apply run_advance; [exact Ht|done|reflexivity|reflexivity])).
  unfold finished_order. fold (intent_expired intent (now 3%nat)).
  destruct (intent_expired intent (now 3%nat)).
  - erewrite run_step by (apply run_advance; [exact Ht|done|reflexivity|reflexivity]).
    by rewrite run_persisted by exact Ht.
  - do 2 (erewrite run_step by (apply run_advance; [exact Ht|done|reflexivity|reflexivity])).
    by rewrite run_persisted by exact Ht.
Qed.

(** Creating an order adds it, or leaves the store alone. *)
Lemma create_order_cases now intent s :
  (exists risk, OrderIntent_validate intent = Ok tt /\
     find (fun risk => rd_id risk =? oi_risk_decision_id intent) (t_risk_decisions s) = Some risk /\
     rd_decision risk = "APPROVED" /\ order_taken intent s = false /\
     let order := finished_order now intent in
     let moves := order_moves (intent_expired intent (now 3%nat)) in
     create_paper_order now intent s =
     (Ok {| oc_order := map_order s (order_row order); oc_transitions := moves |},
      with_order (order_row order) (map (order_event intent) moves) s)) \/
  exists e, create_paper_order now intent s = (Err e, s).
Proof.
  destruct (OrderIntent_validate intent) as [[]|e|] eqn:Ev; cycle 1.
  { right. eexists. unfold create_paper_order. by rewrite Ev. }
  { by destruct (validate_no_panic intent). }
  destruct (find (fun risk => rd_id risk =? oi_risk_decision_id intent) (t_risk_decisions s))
    as [risk|] eqn:Hf; [|right; eexists; opens; by rewrite Hf].
  destruct (String.eqb_spec (rd_decision risk) "APPROVED") as [Ha|Ha];
    [|right; eexists; opens; rewrite Hf; by rewrite (proj2 (String.eqb_neq _ _) Ha)].
  destruct (order_taken intent s) eqn:Ht.
  - right. eexists. opens. rewrite Hf, Ha. cbn. rewrite run_read. fold (order_taken intent s).
    by rewrite Ht.
  - left. exists risk. do 4 (split; [done|]). by apply (create_order_runs now intent s risk).
Qed.

(** C34.  Creating a paper order, on every branch: an invalid intent, a missing or unapproved
    risk decision, a taken identifier or idempotency key is refused and nothing is written;
    otherwise exactly one order is added, which ends filled at its limit price, or expired
    when its expiry has passed, with one event per move in the order of the moves. *)
Theorem create_paper_order_spec now intent s :
  let run := create_paper_order now intent s in
  let order := finished_order now intent in
  let moves := order_moves (intent_expired intent (now 3%nat)) in
  match OrderIntent_validate intent with
  | Ok _ =>
      match find (fun risk => rd_id risk =? oi_risk_decision_id intent) (t_risk_decisions s) with
      | None => run = (Err RiskDecisionNotFound, s)
      | Some risk =>
          if negb (String.eqb (rd_decision risk) "APPROVED") then run = (Err RiskDecisionNotApproved, s)
          else if order_taken intent s then run = (Err DuplicateIdempotencyKey, s)
          else run = (Ok {| oc_order := map_order s (order_row order); oc_transitions := moves |},
                      with_order (order_row order) (map (order_event intent) moves) s)
      end
  | Err e => run = (Err (InvalidIntent e), s)
  | Panic => False
  end.
Proof.
  cbn zeta. destruct (OrderIntent_validate intent) as [[]|e|] eqn:Ev; cycle 1.
  { unfold create_paper_order. by rewrite Ev. }
  { by destruct (validate_no_panic intent). }
  destruct (find _ _) as [risk|] eqn:Hf.
  { destruct (String.eqb_spec (rd_decision risk) "APPROVED") as [Ha|Ha]; cbn [negb].
    { destruct (order_taken intent s) eqn:Ht; [|by apply (create_order_runs now intent s risk)].
      opens. rewrite Hf, Ha. cbn. rewrite run_read. fold (order_taken intent s). by rewrite Ht. }
    opens. rewrite Hf. by rewrite (proj2 (String.eqb_neq _ _) Ha). }
  opens. by rewrite Hf.
Qed.
End CreateOrder.

(** ** What operations leave alone *)
Section Keeps.
Context {DI : Decimal} {CH : Chrono} {JS : Json} {JD : JsonScalars} {DB : Database}.
Context {T : Type} (f : Store -> T).

(** Whatever the outcome, the operation leaves [f] as it was. *)
Definition keeps {E A} (m : M E A) : Prop := forall s, f (snd (m s)) = f s.

Lemma keeps_run {E A} (m : M E A) s r s' : keeps m -> m s = (r, s') -> f s' = f s.
Proof. intros H Hm. specialize (H s). by rewrite Hm in H. Qed.

Lemma keeps_bind {E A B} (m : M E A) (k : A -> M E B) :
  keeps m -> (forall a, keeps (k a)) -> keeps (m ≫= k).
Proof.
  intros Hm Hk s. specialize (Hm s). unfold mbind, M_bind.
  destruct (m s) as [[a| |] s1]; cbn in *; [|done..]. by rewrite Hk.
Qed.
Lemma keeps_ret {E A} (a : A) : keeps (mret a : M E A).
Proof. done. Qed.
Lemma keeps_read {E A} (g : Store -> A) : keeps (read g : M E A).
Proof. done. Qed.
Lemma keeps_lift {E A} (m : res E A) : keeps (lift m).
Proof. done. Qed.
Lemma keeps_fail {E A} (e : E) : keeps (fail e : M E A).
Proof. done. Qed.
Lemma keeps_write {E} (g : Store -> Store) : (forall s, f (g s) = f s) -> keeps (write g : M E unit).
Proof. intros H s. apply H. Qed.
Lemma keeps_event {E} correlation_id event_type :
  (forall rows s, f (set_events rows s) = f s) ->
  keeps (insert_system_event correlation_id event_type : M E unit).
Proof. intros H s. apply H. Qed.
Lemma keeps_map_err {E F A} (g : E -> F) (m : M E A) : keeps m -> keeps (map_err g m).
Proof. intros H s. specialize (H s). unfold map_err. by destruct (m s) as [[]]. Qed.
Lemma keeps_transaction {E A} (m : M E A) : keeps m -> keeps (transaction m).
Proof. intros H s. specialize (H s). unfold transaction. by destruct (m s) as [[]]. Qed.
End Keeps.

Create HintDb keeps.
#[export] Hint Resolve keeps_ret keeps_read keeps_lift keeps_fail : keeps.

(** Decides what an operation built of the combinators leaves alone. *)
Ltac keep := repeat first
  [ solve [auto with keeps]
  | apply keeps_write; intros; reflexivity
  | apply keeps_event; intros; reflexivity
  | apply keeps_map_err
  | apply keeps_transaction
  | apply keeps_bind; [|intros ?]
  | match goal with
    | |- keeps _ (if ?b then _ else _) => destruct b
    | |- keeps _ (match ?x with _ => _ end) => destruct x
    end ].

Section Frames.
Context {DI : Decimal} {CH : Chrono} {JS : Json} {JD : JsonScalars} {DB : Database}.

(** The accounting of the paper account. *)
Definition books (s : Store) : list PaperAccount * list PaperPosition * list PaperFill *
    list PaperEquitySnapshot * list PaperTradeJournalEntry :=
  (t_accounts s, t_positions s, t_fills s, t_snapshots s, t_journal s).

Lemma insert_paper_account_orders account : keeps t_orders (insert_paper_account account).
Proof. intros s. unfold insert_paper_account. by repeat case_match. Qed.
Lemma upsert_paper_position_orders position : keeps t_orders (upsert_paper_position position).
Proof. intros s. unfold upsert_paper_position. by repeat case_match. Qed.
Lemma insert_paper_fill_orders fill : keeps t_orders (insert_paper_fill fill).
Proof. intros s. unfold insert_paper_fill. by repeat case_match. Qed.
Hint Resolve insert_paper_account_orders upsert_paper_position_orders insert_paper_fill_orders : keeps.

(** Booking a fill writes no order. *)
Lemma persist_fill_orders fresh now order :
  keeps t_orders (persist_paper_fill_accounting fresh now order).
Proof.
  unfold persist_paper_fill_accounting, ensure_default_paper_account,
    insert_paper_trade_journal_entries, insert_paper_equity_snapshot. keep.
Qed.

Lemma insert_paper_account_decisions account : keeps t_risk_decisions (insert_paper_account account).
Proof. intros s. unfold insert_paper_account. by repeat case_match. Qed.
Lemma upsert_paper_position_decisions position : keeps t_risk_decisions (upsert_paper_position position).
Proof. intros s. unfold upsert_paper_position. by repeat case_match. Qed.
Lemma insert_paper_fill_decisions fill : keeps t_risk_decisions (insert_paper_fill fill).
Proof. intros s. unfold insert_paper_fill. by repeat case_match. Qed.
Hint Resolve insert_paper_account_decisions upsert_paper_position_decisions
  insert_paper_fill_decisions : keeps.

Lemma persist_fill_decisions fresh now order :
  keeps t_risk_decisions (persist_paper_fill_accounting fresh now order).
Proof.
  unfold persist_paper_fill_accounting, ensure_default_paper_account,
    insert_paper_trade_journal_entries, insert_paper_equity_snapshot. keep.
Qed.

Lemma insert_signal_keeps {T} (f : Store -> T) now signal :
  (forall rows s, f (set_signals rows s) = f s) -> keeps f (insert_signal_deduped now signal).
Proof. intros H. unfold insert_signal_deduped. keep. by apply keeps_write. Qed.
Lemma insert_risk_evaluation_keeps {T} (f : Store -> T) now context evaluation :
  (forall rows s, f (set_risk_decisions rows s) = f s) ->
  (forall rows s, f (set_events rows s) = f s) ->
  keeps f (insert_risk_evaluation now context evaluation).
Proof.
  intros H He. unfold insert_risk_evaluation. keep; [by apply keeps_write|by apply keeps_event].
Qed.
Lemma update_strategy_state_keeps {E T} (f : Store -> T) strategy_id at_ reason signal_id signal_at :
  (forall rows s, f (set_strategy_states rows s) = f s) ->
  keeps f (update_strategy_state strategy_id at_ reason signal_id signal_at : M E unit).
Proof. intros H. by apply keeps_write. Qed.

(** What is stored of a signal is the signal, or an earlier one with its key. *)
Lemma insert_signal_inv now signal s outcome s' :
  insert_signal_deduped now signal s = (Ok outcome, s') ->
  signal_key (io_signal outcome) = signal_key (signal_row now signal).
Proof.
  unfold insert_signal_deduped. rewrite run_read. destruct (find _ _) as [existing|] eqn:Hf.
  - intros [= <- <-]. apply find_some in Hf as [_ Hf]. by apply bool_decide_eq_true in Hf.
  - destruct (existsb _ _); [done|]. rewrite run_write. by intros [= <- <-].
Qed.

(** A stored decision is the last row of the table. *)
Lemma insert_risk_evaluation_inv now context evaluation s row s' :
  insert_risk_evaluation now context evaluation s = (Ok row, s') ->
  t_risk_decisions s' = t_risk_decisions s ++ [row] /\
  find (fun risk => rd_id risk =? rd_id row) (t_risk_decisions s') = Some row /\
  rd_id row = re_risk_decision_id evaluation /\
  rd_decision row = decision_text (re_decision evaluation) /\
  rd_suggested_notional row = Some (rc_suggested_notional context) /\
  rd_signal_id row = Some (rc_signal_id context).
Proof.
  unfold insert_risk_evaluation. intros H%transaction_inv. rewrite run_read in H.
  destruct (existsb _ _) eqn:Hnew; [done|]. rewrite run_write, run_event in H.
  apply pair_equal_spec in H as [[= <-] <-]. split; [done|]. split; [|done]. cbn in *.
  induction (t_risk_decisions s) as [|other rows IH]; cbn in *; [by rewrite Z.eqb_refl|].
  apply orb_false_iff in Hnew as [-> Hnew]. by apply IH.
Qed.
End Frames.

(** ** A database for the witnesses: eight decimals, days and weeks in UTC *)

Definition round8 (q : Q) : Q := Qmake (Qfloor (q * 100000000 + (1 # 2))) 100000000.

Definition PlainDatabase {JS : Json} : @Database ExactDecimal JS :=
  @Build_Database ExactDecimal JS round8
    (sort_by (fun a b => je_created_at b <=? je_created_at a))
    (fun t => t - t mod (86400 * NANOS))
    (fun t => t - (t + 3 * (86400 * NANOS)) mod (7 * (86400 * NANOS))).

Lemma round8_nonneg q : (0 <= q)%Q -> (0 <= round8 q)%Q.
Proof.
  intros H. unfold round8. assert (0 <= Qfloor (q * 100000000 + (1 # 2)))%Z.
  { change 0 with (Qfloor 0). apply Qfloor_resp_le. lra. }
  unfold Qle. cbn [Qnum Qden]. lia.
Qed.

Lemma round8_nonpos q : (q <= 0)%Q -> (round8 q <= 0)%Q.
Proof.
  intros H. unfold round8. assert (Qfloor (q * 100000000 + (1 # 2)) <= 0)%Z.
  { change 0 with (Qfloor (1 # 2)). apply Qfloor_resp_le. lra. }
  unfold Qle. cbn [Qnum Qden]. lia.
Qed.

Lemma newest_first_is_sorted {JS : Json} (l : list (@PaperTradeJournalEntry ExactDecimal JS)) :
  StronglySorted (fun a b => je_created_at b <= je_created_at a)
    (sort_by (fun a b => je_created_at b <=? je_created_at a) l).
Proof.
  assert (StronglySorted (fun a b => (je_created_at b <=? je_created_at a) = true)
    (sort_by (fun a b => je_created_at b <=? je_created_at a) l)) as H.
  { apply sort_by_sorted; intros *; rewrite ?Z.leb_gt, ?Z.leb_le; lia. }
  induction H as [|x rows _ IH Hx]; constructor; [done|].
  eapply Forall_impl; [exact Hx|]. cbn. intros *. rewrite Z.leb_le. lia.
Qed.

Definition PlainDatabaseLaws {JS : Json} : @DatabaseLaws ExactDecimal JS PlainDatabase.
Proof.
  split.
  - exact round8_nonneg.
  - exact round8_nonpos.
  - intros l. apply sort_by_perm.
  - apply newest_first_is_sorted.
  - intros t. cbn. pose proof (Z.mod_pos_bound t (86400 * NANOS)). unfold NANOS in *. lia.
  - intros t. cbn. pose proof (Z.mod_pos_bound (t + 3 * (86400 * NANOS)) (7 * (86400 * NANOS))).
    unfold NANOS in *. lia.
Defined.
