(* ===== verification/RiskState.v ===== *)
(** * What the risk rules are told

    crates/db/src/lib.rs, load_risk_state_snapshot: the state the risk evaluator
    checks a signal against, read from the tables of PaperStore.v.  A query that
    fails is turned into a missing value, which the rules let pass; [fails] says
    which queries fail. *)

From Stdlib Require Import ZArith QArith Qabs Lqa Lia List String Sorted Permutation.
From stdpp Require Import base list strings.
From S2P Require Import Prelude Text Host Types MarketData Risk PaperOrder Accounting Strategy PaperStore.

#[local] Open Scope Z_scope.

Module RiskQuery.
Inductive t :=
  | LatestMarketData
  | OpenPositions
  | CurrentEquity
  | DailyLoss
  | WeeklyLoss
  | RecentPnls
  | LastTrade.
#[global] Instance eq_dec : EqDecision t.
Proof. solve_decision. Defined.
End RiskQuery.

Section Snapshot.
Context {DI : Decimal} {CH : Chrono} {JS : Json} {JD : JsonScalars} {DB : Database}.
Context (fails : RiskQuery.t -> bool).

(** [.await.ok()] *)
Definition answered {A} (query : RiskQuery.t) (answer : A) : option A :=
  if fails query then None else Some answer.

(** SELECT COUNT( * ) FROM paper_positions WHERE status = 'OPEN' *)
Definition count_open_positions (s : Store) : Z :=
  Z.of_nat (length (List.filter
    (fun row => String.eqb (PositionStatus.as_str (pp_status row)) "OPEN") (t_positions s))).

(** [u32::try_from(value).ok()] *)
Definition u32_try_from (value : Z) : option Z :=
  if (0 <=? value) && (value <? 2 ^ 32) then Some value else None.

(** SELECT ABS(COALESCE(SUM(pnl), 0)) .. WHERE pnl < 0 AND created_at >= since *)
Definition loss_since (since : Z) (entry : PaperTradeJournalEntry) : option dec :=
  pnl ← je_pnl entry;
  if (pnl <? ZERO)%dec && (since <=? je_created_at entry) then Some pnl else None.
Definition realized_loss_since (since : Z) (s : Store) : dec :=
  dabs (dsum (omap (loss_since since) (t_journal s))).

(** SELECT pnl .. WHERE pnl IS NOT NULL ORDER BY created_at DESC LIMIT 20 *)
Definition recent_pnls (s : Store) : list dec :=
  firstn 20 (omap je_pnl (newest_first (t_journal s))).

(** [take_while(|pnl| pnl < 0).count()] *)
Fixpoint losing_streak (pnls : list dec) : Z :=
  match pnls with
  | pnl :: pnls => if (pnl <? ZERO)%dec then 1 + losing_streak pnls else 0
  | [] => 0
  end.

(** SELECT MAX(COALESCE(filled_at, submitted_at, created_at)) of the paper orders *)
Definition last_trade (s : Store) : option Z :=
  iter_max Z.leb (map (fun row =>
    match ow_filled_at row with
    | Some filled_at => filled_at
    | None => default (ow_created_at row) (ow_submitted_at row)
    end) (List.filter (fun row => String.eqb (ow_execution_state row) "PAPER_CREATED" ||
                                  String.eqb (ow_execution_state row) "PAPER_FILLED") (t_orders s))).

(** [Some((loss / equity) * 100)] when the equity is positive. *)
Definition loss_pct (loss equity : option dec) : option dec :=
  match loss, equity with
  | Some loss, Some equity =>
      if (equity >? ZERO)%dec then Some (ddiv loss equity * dnew 100 0)%dec else None
  | _, _ => None
  end.

(** [system_state] is the kill switch and its reason, [latest_market_data_at] the
    latest event of any feed, [now] the database's NOW(). *)
Definition load_risk_state_snapshot (system_state : bool * option string)
    (latest_market_data_at : option Z) (now : Z) (s : Store) : RiskStateSnapshot :=
  let current_equity :=
    account ← iter_max (fun a b => pa_updated_at a <? pa_updated_at b) (t_accounts s);
    answered RiskQuery.CurrentEquity (pa_current_equity account) in
  let daily_realized_loss :=
    answered RiskQuery.DailyLoss (realized_loss_since (date_trunc_day now) s) in
  let weekly_realized_loss :=
    answered RiskQuery.WeeklyLoss (realized_loss_since (date_trunc_week now) s) in
  let pnls := default [] (answered RiskQuery.RecentPnls (recent_pnls s)) in
  {| kill_switch_enabled := fst system_state;
     kill_switch_reason := snd system_state;
     open_positions_count :=
       (count ← answered RiskQuery.OpenPositions (count_open_positions s); u32_try_from count);
     daily_loss_pct := loss_pct daily_realized_loss current_equity;
     weekly_loss_pct := loss_pct weekly_realized_loss current_equity;
     consecutive_losses := u32_try_from (losing_streak pnls);
     latest_market_data_at :=
       (latest ← answered RiskQuery.LatestMarketData latest_market_data_at; latest);
     last_trade_at := (latest ← answered RiskQuery.LastTrade (last_trade s); latest) |}.
End Snapshot.

(** ** What the rules can see *)

Lemma omap_step {A B} (f : A -> option B) x l :
  omap f (x :: l) = match f x with Some y => y :: omap f l | None => omap f l end.
Proof. done. Qed.

Section SnapshotFacts.
Context {DI : Decimal} {CH : Chrono} {JS : Json} {JD : JsonScalars} {DB : Database}.
Context (fails : RiskQuery.t -> bool).

Lemma count_open_positions_zero s : count_open_positions s = 0.
Proof.
  unfold count_open_positions. induction (t_positions s) as [|row rows IH]; [done|].
  cbn [List.filter]. by destruct (pp_status row).
Qed.

(** The limit on open positions never applies: the count compares the stored text with
    'OPEN', the rows store 'open', so whatever positions are open the evaluator is told there
    are none, and no signal is rejected for MAX_OPEN_POSITIONS_EXCEEDED. *)
Theorem open_positions_never_limited new_v4 config context system feeds now s :
  0 < max_open_positions config ->
  ~ In RiskRejectionReason.MaxOpenPositionsExceeded (re_reasons
      (RiskEvaluator_evaluate new_v4 (RiskEvaluator_new config) context
         (load_risk_state_snapshot fails system feeds now s))).
Proof.
  intros Hmax. rewrite evaluate_breach. cbn [breach]. intros (n & Hn & Hle). revert Hn.
  cbn [load_risk_state_snapshot open_positions_count]. rewrite count_open_positions_zero.
  unfold answered. destruct (fails RiskQuery.OpenPositions); [done|]. intros [= <-]. lia.
Qed.

(** ** Losing streaks *)

(** The losses among some entries. *)
Definition losses (entries : list PaperTradeJournalEntry) : list dec :=
  List.filter (fun pnl => (pnl <? ZERO)%dec) (omap je_pnl entries).

Lemma losing_streak_nonneg pnls : 0 <= losing_streak pnls.
Proof. induction pnls as [|p pnls IH]; cbn [losing_streak]; [lia|]. case_match; lia. Qed.

Lemma losing_streak_firstn n pnls : losing_streak (firstn n pnls) <= losing_streak pnls.
Proof.
  revert n. induction pnls as [|p pnls IH]; intros [|n]; cbn [firstn losing_streak]; try lia.
  - case_match; [|lia]. pose proof (losing_streak_nonneg pnls). lia.
  - case_match; [|lia]. specialize (IH n). lia.
Qed.

Lemma losing_streak_length pnls : losing_streak pnls <= Z.of_nat (length pnls).
Proof. induction pnls as [|p pnls IH]; cbn [losing_streak length]; [lia|]. case_match; lia. Qed.

(** A streak ends at the latest with a value that is not a loss. *)
Lemma losing_streak_app pnls rest : existsb (fun pnl => negb (pnl <? ZERO)%dec) pnls = true ->
  losing_streak (pnls ++ rest) <=
  Z.of_nat (length (List.filter (fun pnl => (pnl <? ZERO)%dec) pnls)).
Proof.
  induction pnls as [|p pnls IH]; [done|]. cbn [existsb app losing_streak List.filter].
  destruct (p <? ZERO)%dec; cbn [negb orb length]; [intros H%IH; lia|lia].
Qed.

(** The newest entries come first. *)
Lemma newest_prefix t l : StronglySorted (fun a b => je_created_at b <= je_created_at a) l ->
  Forall (fun entry => je_created_at entry <= t) l ->
  l = List.filter (fun entry => je_created_at entry =? t) l ++
      List.filter (fun entry => negb (je_created_at entry =? t)) l.
Proof.
  induction 1 as [|x l Hs IH Hx]; [done|]. intros [Hxt Hl]%Forall_cons. cbn [List.filter].
  destruct (je_created_at x =? t) eqn:E; cbn [negb app]; [f_equal; by apply IH|].
  apply Z.eqb_neq in E.
  assert (Forall (fun entry => je_created_at entry < t) l) as Hlt
    by (eapply Forall_impl; [exact Hx|cbn; intros; lia]).
  clear IH Hs Hl Hx. assert (List.filter (fun entry => je_created_at entry =? t) l = [] /\
    List.filter (fun entry => negb (je_created_at entry =? t)) l = l) as [-> ->]; [|done].
  induction Hlt as [|y l Hy _ [IH1 IH2]]; [done|]. cbn [List.filter].
  destruct (Z.eqb_spec (je_created_at y) t); [lia|]. cbn [negb]. by rewrite IH1, IH2.
Qed.

Context {DBL : DatabaseLaws DB}.

(** A streak is confined to the newest entries when one of them is not a loss. *)
Lemma streak_of_newest t older newest :
  Forall (fun entry => je_created_at entry < t) older ->
  Forall (fun entry => je_created_at entry = t) newest ->
  existsb (fun pnl => negb (pnl <? ZERO)%dec) (omap je_pnl newest) = true ->
  losing_streak (firstn 20 (omap je_pnl (newest_first (older ++ newest)))) <=
  Z.of_nat (length (losses newest)).
Proof.
  intros Ho Hn He. set (l := newest_first (older ++ newest)).
  assert (Permutation l (older ++ newest)) as Hp by apply newest_first_perm.
  assert (Permutation (List.filter (fun entry => je_created_at entry =? t) l) newest) as Hf.
  { rewrite (filter_permutation _ _ _ Hp), List.filter_app.
    assert (List.filter (fun entry => je_created_at entry =? t) older = []) as ->.
    { clear -Ho. induction Ho as [|x older Hx _ IH]; [done|]. cbn. destruct (Z.eqb_spec (je_created_at x) t); [lia|done]. }
    assert (List.filter (fun entry => je_created_at entry =? t) newest = newest) as ->; [|done].
    clear -Hn. induction Hn as [|x newest Hx _ IH]; [done|]. cbn. rewrite Hx, Z.eqb_refl. by f_equal. }
  assert (Forall (fun entry => je_created_at entry <= t) l) as Hle.
  { rewrite Hp, Forall_app. split; [eapply Forall_impl; [exact Ho|cbn; intros; lia]|].
    eapply Forall_impl; [exact Hn|cbn; intros; lia]. }
  rewrite (newest_prefix t l (newest_first_sorted _) Hle).
  set (g := List.filter (fun entry => je_created_at entry =? t) l) in *.
  etrans; [apply losing_streak_firstn|]. rewrite omap_app.
  assert (Permutation (omap je_pnl g) (omap je_pnl newest)) as Hg by (by rewrite Hf).
  etrans; [apply losing_streak_app|].
  - rewrite <- He. apply eq_true_iff_eq. rewrite !existsb_exists.
    split; intros (x & Hx & ?); exists x; (split; [|done]).
    + by eapply Permutation_in.
    + by eapply Permutation_in; [symmetry|].
  - unfold losses. by rewrite (Permutation_length (filter_permutation _ _ _ Hg)).
Qed.

(** ** What a limit that was respected says of the tables

    A query that fails lifts its limit.  Nothing is said of the open positions. *)

Definition trade_time (row : OrderRow) : Z :=
  match ow_filled_at row with
  | Some filled_at => filled_at
  | None => default (ow_created_at row) (ow_submitted_at row)
  end.

Record tables_cleared (now evaluated_at : Z) (feeds : option Z) (config : RiskConfig) (s : Store)
    : Prop := {
  tc_daily_loss : fails RiskQuery.DailyLoss = false -> fails RiskQuery.CurrentEquity = false ->
    forall account, iter_max (fun a b => pa_updated_at a <? pa_updated_at b) (t_accounts s) = Some account ->
    (0 < dval (pa_current_equity account))%Q ->
    (dval (ddiv (realized_loss_since (date_trunc_day now) s) (pa_current_equity account) * dnew 100 0)%dec
     < dval (max_daily_loss_pct config))%Q;
  tc_weekly_loss : fails RiskQuery.WeeklyLoss = false -> fails RiskQuery.CurrentEquity = false ->
    forall account, iter_max (fun a b => pa_updated_at a <? pa_updated_at b) (t_accounts s) = Some account ->
    (0 < dval (pa_current_equity account))%Q ->
    (dval (ddiv (realized_loss_since (date_trunc_week now) s) (pa_current_equity account) * dnew 100 0)%dec
     < dval (max_weekly_loss_pct config))%Q;
  tc_streak : fails RiskQuery.RecentPnls = false ->
    losing_streak (recent_pnls s) < max_consecutive_losses config;
  tc_cooldown : fails RiskQuery.LastTrade = false ->
    forall row, In row (t_orders s) ->
    ow_execution_state row = "PAPER_CREATED" \/ ow_execution_state row = "PAPER_FILLED" ->
    seconds (cooldown_seconds config) <= evaluated_at - trade_time row;
  tc_feeds : fails RiskQuery.LatestMarketData = false ->
    forall latest, feeds = Some latest ->
    evaluated_at - latest <= seconds (stale_feed_threshold_seconds config)
}.

Lemma loss_pct_some loss equity : (0 < dval equity)%Q -> dval ZERO == 0 ->
  loss_pct (Some loss) (Some equity) = Some (ddiv loss equity * dnew 100 0)%dec.
Proof.
  intros H Hz. unfold loss_pct. assert ((equity >? ZERO)%dec = true) as ->; [|done].
  apply dltb_lt. by rewrite Hz.
Qed.

Lemma within_limits_cleared {DL : DecimalLaws DI} context system feeds now s config :
  within_limits context (load_risk_state_snapshot fails system feeds now s) config ->
  tables_cleared now (rc_evaluated_at context) feeds config s.
Proof.
  intros (_ & _ & Hd & Hw & Hc & Ht & Hf & _ & _).
  cbn [load_risk_state_snapshot daily_loss_pct weekly_loss_pct consecutive_losses last_trade_at
       latest_market_data_at] in *. unfold answered in *. split.
  - intros F1 F2 account Ha He. rewrite F1, F2, Ha in Hd. apply Hd. cbn [mbind option_bind].
    apply loss_pct_some; [done|apply dval_ZERO].
  - intros F1 F2 account Ha He. rewrite F1, F2, Ha in Hw. apply Hw. cbn [mbind option_bind].
    apply loss_pct_some; [done|apply dval_ZERO].
  - intros F. rewrite F in Hc. cbn [default from_option id] in Hc. apply Hc. unfold u32_try_from.
    pose proof (losing_streak_length (recent_pnls s)). pose proof (losing_streak_nonneg (recent_pnls s)).
    assert (length (recent_pnls s) <= 20)%nat by (unfold recent_pnls; rewrite length_firstn; lia).
    by rewrite (proj2 (Z.leb_le _ _)), (proj2 (Z.ltb_lt _ _)) by lia.
  - intros F row Hin Hst. rewrite F in Ht. cbn [mbind option_bind] in Ht. unfold last_trade in Ht.
    set (times := map _ _) in Ht. assert (In (trade_time row) times) as Hit.
    { apply (in_map trade_time), filter_In. split; [done|]. destruct Hst as [-> | ->]; done. }
    destruct (iter_max Z.leb times) as [latest|] eqn:Em.
    + specialize (Ht latest eq_refl).
      apply (iter_max_spec Z.leb) in Em as [_ Hmax]; [|intros; lia|intros; lia].
      specialize (Hmax _ Hit). lia.
    + by destruct times.
  - intros F latest ->. rewrite F in Hf. by apply Hf.
Qed.

(** ** After a close *)

Lemma simulated_journal fresh now account position order_id fill_id journal_id price fee slippage
    t correlation app :
  close_position_market_simulated fresh now account position order_id fill_id journal_id price fee
    slippage t correlation = Ok app ->
  exists r, cr_realized_pnl (ca_close_result app) = r /\
    map je_pnl (ca_journal_entries app) = [Some r; Some r; Some (ps_equity (ca_summary app))] /\
    Forall (fun entry => je_created_at entry = t) (ca_journal_entries app).
Proof.
  unfold close_position_market_simulated. intros H.
  apply bind_ok_inv in H as (f & _ & H). apply bind_ok_inv in H as (r & _ & H).
  apply bind_ok_inv in H as ([[a' p'] summary] & _ & H). injection H as <-. exists r.
  cbn. repeat split. by repeat constructor.
Qed.

Lemma close_transaction_journal uuid_show position app s summary s' :
  close_paper_position_transactional uuid_show position app s = (Ok summary, s') ->
  t_journal s' = t_journal s ++ map journal_row (ca_journal_entries app).
Proof.
  intros H%transaction_inv. rewrite !run_read in H.
  match type of H with context [if ?b then _ else _] => destruct b end; [done|].
  unfold insert_paper_equity_snapshot, insert_paper_trade_journal_entries in H.
  rewrite !run_write, !run_event in H. apply (f_equal snd) in H. cbn [snd] in H. by subst s'.
Qed.

Lemma close_journal_facts fresh now account position order_id fill_id journal_id price fee slippage
    t correlation app :
  close_position_market_simulated fresh now account position order_id fill_id journal_id price fee
    slippage t correlation = Ok app ->
  let rows := map journal_row (ca_journal_entries app) in
  Forall (fun entry => je_created_at entry = t) rows /\
  omap je_pnl rows = [numeric (cr_realized_pnl (ca_close_result app));
                      numeric (cr_realized_pnl (ca_close_result app));
                      numeric (ps_equity (ca_summary app))].
Proof.
  intros (r & -> & Hpnl & Ht)%simulated_journal. cbn zeta. split.
  - by rewrite Forall_map.
  - assert (forall entries, omap je_pnl (map journal_row entries) =
      omap (option_map numeric) (map je_pnl entries)) as ->; [|by rewrite Hpnl].
    intros entries. induction entries as [|entry entries IH]; [done|].
    cbn [map]. rewrite !omap_step, <- IH. by destruct (je_pnl entry) eqn:Ep; cbn; rewrite Ep.
Qed.

Lemma no_loss_before day entries : Forall (fun entry => je_created_at entry < day) entries ->
  omap (loss_since day) entries = [].
Proof.
  induction 1 as [|entry older Hlt _ IH]; [done|]. rewrite omap_step, IH. unfold loss_since.
  destruct (je_pnl entry); cbn; [|done]. destruct (Z.leb_spec day (je_created_at entry)); [lia|].
  by rewrite andb_false_r.
Qed.

Lemma loss_since_at day t entries : day <= t -> Forall (fun entry => je_created_at entry = t) entries ->
  omap (loss_since day) entries = losses entries.
Proof.
  intros Hday. unfold losses. induction 1 as [|entry rows Ht _ IH]; [done|].
  rewrite !omap_step, IH. unfold loss_since. rewrite Ht, (proj2 (Z.leb_le day t) Hday).
  destruct (je_pnl entry); cbn; [|done]. rewrite andb_true_r. by destruct (_ <? _)%dec.
Qed.

Context {DL : DecimalLaws DI}.

(** No losing streak of more than two is ever seen: every close also writes its equity to
    the journal as a profit, so whatever was lost before, the snapshot taken after a close
    that leaves the account solvent counts at most the two entries of that close, and a
    limit of three consecutive losses or more (three is the default) never rejects. *)
Theorem losing_streak_never_limits uuid_show fresh clock account position order_id fill_id journal_id
    price fee slippage t correlation app summary s s' new_v4 config context system feeds now :
  close_position_market_simulated fresh clock account position order_id fill_id journal_id price fee
    slippage t correlation = Ok app ->
  close_paper_position_transactional uuid_show position app s = (Ok summary, s') ->
  Forall (fun entry => je_created_at entry < t) (t_journal s) ->
  (0 <= dval (ps_equity (ca_summary app)))%Q ->
  3 <= max_consecutive_losses config ->
  ~ In RiskRejectionReason.MaxConsecutiveLossesExceeded (re_reasons
      (RiskEvaluator_evaluate new_v4 (RiskEvaluator_new config) context
         (load_risk_state_snapshot fails system feeds now s'))).
Proof.
  intros Happ%close_journal_facts Htx%close_transaction_journal Hold Heq Hmax.
  destruct Happ as [Hnew Hpnl]. rewrite evaluate_breach. cbn [breach]. intros (n & Hn & Hle).
  revert Hn. cbn [load_risk_state_snapshot consecutive_losses]. unfold u32_try_from.
  destruct (_ && _); [|done]. intros [= <-].
  enough (losing_streak (default [] (answered fails RiskQuery.RecentPnls (recent_pnls s'))) <= 2) by lia.
  unfold answered. destruct (fails _); [cbn; lia|]. cbn [default]. unfold recent_pnls. rewrite Htx.
  assert ((numeric (ps_equity (ca_summary app)) <? ZERO)%dec = false) as Hsolvent.
  { apply dltb_ge. rewrite dval_ZERO. by apply numeric_nonneg. }
  etrans; [apply (streak_of_newest t); [done|done|]|].
  - rewrite Hpnl. cbn [existsb]. rewrite Hsolvent. by rewrite !orb_true_r.
  - unfold losses. rewrite Hpnl. cbn [List.filter]. rewrite Hsolvent.
    repeat case_match; cbn; lia.
Qed.

(** The daily loss is counted twice: a close books its result in two journal entries,
    both of which the snapshot sums, so after one losing close the loss of the day is twice
    what was lost and a daily limit is reached at half of it, whenever the double of the loss
    is a number a decimal can hold. *)
Theorem daily_loss_counted_twice uuid_show fresh clock account position order_id fill_id journal_id
    price fee slippage t correlation app summary s s' day :
  close_position_market_simulated fresh clock account position order_id fill_id journal_id price fee
    slippage t correlation = Ok app ->
  close_paper_position_transactional uuid_show position app s = (Ok summary, s') ->
  Forall (fun entry => je_created_at entry < day) (t_journal s) -> day <= t ->
  (0 <= dval (ps_equity (ca_summary app)))%Q ->
  let realized := numeric (cr_realized_pnl (ca_close_result app)) in
  (dval realized < 0)%Q ->
  representable (2 * dval realized) ->
  (dval (realized_loss_since day s') == 2 * Qabs (dval realized))%Q.
Proof.
  intros Happ%close_journal_facts Htx%close_transaction_journal Hold Hday Heq realized Hneg H2.
  destruct Happ as [Hnew Hpnl]. unfold realized_loss_since. rewrite Htx, omap_app.
  rewrite (no_loss_before _ _ Hold), (loss_since_at _ _ _ Hday Hnew).
  unfold losses. rewrite Hpnl. fold realized. cbn [List.filter].
  assert ((realized <? ZERO)%dec = true) as -> by (apply dltb_lt; by rewrite dval_ZERO).
  assert ((numeric (ps_equity (ca_summary app)) <? ZERO)%dec = false) as ->.
  { apply dltb_ge. rewrite dval_ZERO. by apply numeric_nonneg. }
  rewrite dval_abs. unfold dsum. cbn [foldl List.app].
  assert (H1 : (dval (ZERO + realized)%dec == dval realized)%Q)
    by (rewrite dval_add, dval_ZERO, Qplus_0_l; apply drnd_dval).
  assert (E : (dval realized + dval realized == 2 * dval realized)%Q) by ring.
  rewrite dadd_exact by (by rewrite H1, E). rewrite H1, !Qabs_neg by lra. ring.
Qed.
End SnapshotFacts.

Module RiskStateSample.
#[local] Existing Instance ExactDecimal.
#[local] Existing Instance ExactDecimalLaws.
#[local] Existing Instance PlainChrono.
(** No rule looks at a payload. *)
#[local] Instance no_json : Json := {|
  json := unit; jnull := tt; jstr _ := tt; juuid _ := tt; jobj _ := tt |}.
#[local] Existing Instance PlainDatabase.
#[local] Existing Instance PlainDatabaseLaws.
#[local] Instance scalars : JsonScalars := { jdec := fun _ => jnull; jtime := fun _ => jnull }.

(** A position opened at 102 that is closed at 90. *)
Definition open_entry : PaperTradeJournalEntry := {|
  je_id := 20; je_account_id := 1; je_position_id := Some 7; je_order_id := Some 11;
  je_event_type := "paper.equity.updated"; je_symbol := Some "BTCUSDT"; je_pnl := Some (dint 10000);
  je_payload := jnull; je_created_at := 5; je_correlation_id := 12 |}.

Definition store : Store := {|
  t_signals := []; t_risk_decisions := []; t_orders := []; t_events := [];
  t_accounts := [AccountingSample.account]; t_positions := [AccountingSample.position];
  t_fills := [AccountingSample.fill]; t_snapshots := []; t_journal := [open_entry];
  t_strategy_states := [] |}.

Definition DAY : Z := 86400 * NANOS.
Definition closed_at : Z := DAY + 9.

Definition application : anyhow ClosePositionApplication :=
  close_position_market_simulated AccountingSample.fresh 0 AccountingSample.account
    AccountingSample.position 1 2 3 (dint 90) ZERO ZERO closed_at 4.

Definition closed : option (ClosePositionApplication * PaperPositionCloseSummary * Store) :=
  match application with
  | Ok app =>
      match close_paper_position_transactional show_int AccountingSample.position app store with
      | (Ok summary, s) => Some (app, summary, s)
      | _ => None
      end
  | _ => None
  end.

Definition checked (test : ClosePositionApplication -> bool) : bool :=
  match closed with Some (app, _, _) => test app | None => false end.

Lemma closed_some test : checked test = true ->
  exists app summary s, closed = Some (app, summary, s) /\ application = Ok app /\
    close_paper_position_transactional show_int AccountingSample.position app store = (Ok summary, s) /\
    test app = true.
Proof.
  unfold checked, closed. intros H. destruct application as [app| |]; [|done..].
  destruct (close_paper_position_transactional _ _ app store) as [[summary| |] s] eqn:Ec; [|done..].
  by exists app, summary, s.
Defined.

(** The account is left with 9976, the result is -24. *)
Definition solvent (app : ClosePositionApplication) : bool :=
  Qle_bool 0 (ps_equity (ca_summary app)).
Definition lost_24 (app : ClosePositionApplication) : bool :=
  solvent app && Qeq_bool (round8 (cr_realized_pnl (ca_close_result app))) (-24).

(** Both entries of the close are losses of 24: the streak is 2 and the loss of the day 48. *)
Example after_close :
  match closed with
  | Some (_, _, s) =>
      (losing_streak (recent_pnls s), Qred (realized_loss_since DAY s), count_open_positions s)
      = (2, Qred (dint 48), 0)
  | None => False
  end.
Proof. vm_compute. reflexivity. Qed.

Example open_positions_never_limited_witness :
  length (t_positions store) = 1%nat /\
  ~ In RiskRejectionReason.MaxOpenPositionsExceeded (re_reasons
      (RiskEvaluator_evaluate 7 (RiskEvaluator_new RiskConfig_default) RiskSample.context
         (load_risk_state_snapshot (fun _ => false) (false, None) None closed_at store))).
Proof.
  split; [reflexivity|]. apply (open_positions_never_limited (fun _ => false)). vm_compute. reflexivity.
Defined.

Example losing_streak_never_limits_witness :
  exists s', (exists app summary, closed = Some (app, summary, s')) /\
  ~ In RiskRejectionReason.MaxConsecutiveLossesExceeded (re_reasons
      (RiskEvaluator_evaluate 7 (RiskEvaluator_new RiskConfig_default) RiskSample.context
         (load_risk_state_snapshot (fun _ => false) (false, None) None (closed_at + 5) s'))).
Proof.
  destruct (closed_some solvent) as (app & summary & s' & Hc & Ha & Hs & Ht); [reflexivity|].
  exists s'. split; [by exists app, summary|].
  refine (losing_streak_never_limits (fun _ => false) show_int _ _ _ _ _ _ _ _ _ _ _ _ app summary
    store s' _ _ _ _ _ _ Ha Hs _ _ _).
  - repeat constructor.
  - by apply Qle_bool_iff.
  - vm_compute. discriminate.
Defined.

Example daily_loss_counted_twice_witness :
  exists s', (exists app summary, closed = Some (app, summary, s')) /\
  (dval (realized_loss_since DAY s') == 48)%Q.
Proof.
  destruct (closed_some lost_24) as (app & summary & s' & Hc & Ha & Hs & Ht); [reflexivity|].
  exists s'. split; [by exists app, summary|]. apply andb_prop in Ht as [Hq%Qle_bool_iff Hr%Qeq_bool_iff].
  rewrite (daily_loss_counted_twice show_int _ _ _ _ _ _ _ _ _ _ _ _ app summary store s' DAY
    Ha Hs).
  - change (2 * Qabs (round8 (cr_realized_pnl (ca_close_result app))) == 48)%Q. by rewrite Hr.
  - repeat constructor.
  - vm_compute. discriminate.
  - exact Hq.
  - change (round8 (cr_realized_pnl (ca_close_result app)) < 0)%Q. by rewrite Hr.
  - change (representable (2 * round8 (cr_realized_pnl (ca_close_result app)))). rewrite Hr.
    whole_number.
Defined.
End RiskStateSample.
