(* ===== verification/Pipeline.v ===== *)
(** * The paper trading pipeline

    crates/api/src/pipeline.rs: one run from a strategy to a paper order.  The
    configuration is looked up, the market feed and the strategy are consulted, a
    signal is stored, checked against the risk rules on what the tables say, and an
    approved signal becomes a paper order whose fill is booked.

    A run is a function of the store of PaperStore.v; what a failing run wrote before
    it failed stays written.  What it reads elsewhere (the stored configurations, the
    feeds, the candles, the kill switch) is a [PipelineEnv].  Telemetry and the
    payloads of the events are left out. *)

From Stdlib Require Import ZArith QArith Qround Qabs Lqa Lia List String Sorted Permutation.
From stdpp Require Import base list strings.
From S2P Require Import Prelude Text Host Types MarketData Risk PaperOrder Accounting Strategy PaperStore RiskState.

#[local] Open Scope Z_scope.

Module PipelineDecision.
Inductive t :=
  | NoSignal
  | RiskRejected
  | PaperOrderCreated
  | PaperOrderReused
  | StrategyDisabled
  | SafetyStopped.
#[global] Instance eq_dec : EqDecision t.
Proof. solve_decision. Defined.
End PipelineDecision.

Module PipelineStepStatus.
Inductive t :=
  | NotStarted
  | Completed
  | Skipped
  | Rejected
  | Reused.
#[global] Instance eq_dec : EqDecision t.
Proof. solve_decision. Defined.
End PipelineStepStatus.

Module PipelineRejectionReason.
Inductive t :=
  | ConditionsNotMet
  | InsufficientHistory
  | StrategyDisabled
  | KillSwitchActive
  | SignalTooOld
  | DataStale
  | MarketFeedUnavailable
  | MarketFeedDegraded
  | UnsupportedTimeframe
  | UnsupportedState.
#[global] Instance eq_dec : EqDecision t.
Proof. solve_decision. Defined.
Definition as_str (x : t) : string :=
  match x with
  | ConditionsNotMet => "conditions_not_met"
  | InsufficientHistory => "insufficient_history"
  | StrategyDisabled => "strategy_disabled"
  | KillSwitchActive => "kill_switch_active"
  | SignalTooOld => "signal_too_old"
  | DataStale => "data_stale"
  | MarketFeedUnavailable => "market_feed_unavailable"
  | MarketFeedDegraded => "market_feed_degraded"
  | UnsupportedTimeframe => "unsupported_timeframe"
  | UnsupportedState => "unsupported_state"
  end.
End PipelineRejectionReason.

Module OrderIntentSource.
Inductive t := StrategySignal.
End OrderIntentSource.

Record StrategyRiskExecutionTrace := {
  tr_strategy_evaluation : PipelineStepStatus.t;
  tr_signal : PipelineStepStatus.t;
  tr_risk_evaluation : PipelineStepStatus.t;
  tr_paper_order : PipelineStepStatus.t;
  tr_order_intent_source : option OrderIntentSource.t
}.

Record PaperTradingPipelineRequest := {
  pq_strategy_id : string;
  pq_symbol : string;
  pq_timeframe : string;
  pq_correlation_id : option Z
}.

Record PaperTradingPipelineResult := {
  pr_pipeline_decision : PipelineDecision.t;
  pr_strategy_id : string;
  pr_symbol : string;
  pr_timeframe : string;
  pr_signal_generated : bool;
  pr_signal_reused : bool;
  pr_signal_id : option Z;
  pr_risk_decision_id : option Z;
  pr_paper_order_id : option Z;
  pr_execution_state : option string;
  pr_reasons : list string;
  pr_correlation_id : Z;
  pr_trace : StrategyRiskExecutionTrace
}.

(** A row of market_feed_status. *)
Record FeedStatusRow := {
  fd_exchange : string;
  fd_symbol : string;
  fd_status : string;
  fd_freshness_status : DataFreshnessStatus.t
}.

Inductive PipelineError :=
  | Failure (context : string)
  | OrderFailed (error : CreateOrderError).

(** crates/api/src/lib.rs *)
Definition reason_code (reason : RiskRejectionReason.t) : string :=
  match reason with
  | RiskRejectionReason.KillSwitchActive => "kill_switch_active"
  | RiskRejectionReason.MaxOpenPositionsExceeded => "max_open_positions_exceeded"
  | RiskRejectionReason.MaxDailyLossExceeded => "max_daily_loss_exceeded"
  | RiskRejectionReason.MaxWeeklyLossExceeded => "max_weekly_loss_exceeded"
  | RiskRejectionReason.MaxConsecutiveLossesExceeded => "max_consecutive_losses_exceeded"
  | RiskRejectionReason.SignalTooOld => "signal_too_old"
  | RiskRejectionReason.DuplicateOrderDetected => "duplicate_order_detected"
  | RiskRejectionReason.DataStale => "data_stale"
  | RiskRejectionReason.PositionNotionalExceeded => "position_notional_exceeded"
  | RiskRejectionReason.CooldownActive => "cooldown_active"
  | RiskRejectionReason.UnsupportedState => "unsupported_state"
  end.

Definition signal_reason_to_pipeline_reason (reason : SignalReason.t) : PipelineRejectionReason.t :=
  match reason with
  | SignalReason.ConditionsNotMet => PipelineRejectionReason.ConditionsNotMet
  | SignalReason.InsufficientHistory => PipelineRejectionReason.InsufficientHistory
  | SignalReason.StrategyDisabled => PipelineRejectionReason.StrategyDisabled
  | _ => PipelineRejectionReason.UnsupportedState
  end.

Definition side_of_signal (side : SignalSide.t) : Side.t :=
  match side with SignalSide.Buy => Side.Buy | SignalSide.Sell => Side.Sell end.

Definition parse_signal_side (value : string) : res PipelineError Side.t :=
  match from_str value with
  | Ok side => Ok (side_of_signal side)
  | _ => Err (Failure "invalid persisted signal side")
  end.

Definition terminal_result (decision : PipelineDecision.t) (request : PaperTradingPipelineRequest)
    (correlation_id : Z) (reasons : list PipelineRejectionReason.t)
    (trace : StrategyRiskExecutionTrace) : PaperTradingPipelineResult := {|
  pr_pipeline_decision := decision;
  pr_strategy_id := pq_strategy_id request;
  pr_symbol := pq_symbol request;
  pr_timeframe := pq_timeframe request;
  pr_signal_generated := false;
  pr_signal_reused := false;
  pr_signal_id := None;
  pr_risk_decision_id := None;
  pr_paper_order_id := None;
  pr_execution_state := None;
  pr_reasons := map PipelineRejectionReason.as_str reasons;
  pr_correlation_id := correlation_id;
  pr_trace := trace
|}.

(** The trace of a run that stops before the strategy is consulted, or after it. *)
Definition skipped (strategy_evaluation : PipelineStepStatus.t) : StrategyRiskExecutionTrace := {|
  tr_strategy_evaluation := strategy_evaluation;
  tr_signal := PipelineStepStatus.Skipped;
  tr_risk_evaluation := PipelineStepStatus.Skipped;
  tr_paper_order := PipelineStepStatus.Skipped;
  tr_order_intent_source := None
|}.

Section PipelineRuns.
Context {DI : Decimal} {CH : Chrono} {JS : Json} {JD : JsonScalars} {DB : Database} {UT : UuidText}.

(** What a run reads outside the tables of PaperStore.v.  [pe_now n] is the n-th reading
    of a clock, [pe_fresh n] the n-th identifier drawn. *)
Record PipelineEnv := {
  pe_now : nat -> Z;
  pe_fresh : nat -> Z;
  pe_strategy_config : StrategyId.t -> option StrategyConfig;
  pe_exchange : string;
  pe_feeds : list FeedStatusRow;
  pe_closed_candles : Symbol -> CandleInterval.t -> Z -> list Candle;
  pe_risk_config : res PipelineError (option RiskConfig);
  pe_system_state : bool * option string;
  pe_latest_market_data_at : option Z;
  pe_fails : RiskQuery.t -> bool
}.

Definition feed_stop_reason (env : PipelineEnv) (symbol : Symbol) : option PipelineRejectionReason.t :=
  match find (fun feed => String.eqb (fd_exchange feed) (pe_exchange env) &&
                          String.eqb (fd_symbol feed) (symbol_text symbol)) (pe_feeds env) with
  | None => Some PipelineRejectionReason.MarketFeedUnavailable
  | Some feed =>
      if negb (bool_decide (fd_freshness_status feed = DataFreshnessStatus.Fresh))
      then Some PipelineRejectionReason.DataStale
      else if negb (String.eqb (fd_status feed) "connected")
      then Some PipelineRejectionReason.MarketFeedDegraded
      else None
  end.

Definition build_order_intent (order_id now correlation_id risk_decision_id : Z)
    (idempotency_key : string) (symbol : Symbol) (side : Side.t) (approved_notional : dec)
    (latest_candle : Candle) : res PipelineError OrderIntent :=
  if (c_close latest_candle <=? ZERO)%dec
  then Err (Failure "latest candle close must be greater than zero")
  else
    quantity ← dec_div approved_notional (c_close latest_candle);
    Ok {| oi_order_id := order_id; oi_correlation_id := correlation_id;
             oi_risk_decision_id := risk_decision_id; oi_idempotency_key := idempotency_key;
             oi_symbol := symbol; oi_side := side;
             oi_quantity := quantity;
             oi_limit_price := Some (c_close latest_candle);
             oi_created_at := now; oi_expires_at := None |}.

Definition build_idempotency_key (strategy_id : string) (signal_id risk_decision_id : Z)
    (symbol : string) (side : Side.t) (source_candle_open_time_ms : Z) : string :=
  strategy_id +:+ ":" +:+ uuid_show signal_id +:+ ":" +:+ uuid_show risk_decision_id +:+ ":" +:+
  symbol +:+ ":" +:+ match side with Side.Buy => "buy" | Side.Sell => "sell" end +:+ ":" +:+
  show_int source_candle_open_time_ms.

(** The result of a run that stored or found a signal. *)
Definition signalled_result (request : PaperTradingPipelineRequest) (correlation_id : Z)
    (signal_outcome : InsertSignalOutcome) (risk_decision_id : Z) (decision : PipelineDecision.t)
    (order : option OrderRecord) (reasons : list string)
    (risk_evaluation paper_order : PipelineStepStatus.t) : PaperTradingPipelineResult := {|
  pr_pipeline_decision := decision;
  pr_strategy_id := pq_strategy_id request;
  pr_symbol := pq_symbol request;
  pr_timeframe := pq_timeframe request;
  pr_signal_generated := io_inserted signal_outcome;
  pr_signal_reused := negb (io_inserted signal_outcome);
  pr_signal_id := Some (sn_id (io_signal signal_outcome));
  pr_risk_decision_id := Some risk_decision_id;
  pr_paper_order_id := option_map (fun order => ow_id (or_row order)) order;
  pr_execution_state := option_map (fun order => ow_execution_state (or_row order)) order;
  pr_reasons := reasons;
  pr_correlation_id := correlation_id;
  pr_trace := {|
    tr_strategy_evaluation := PipelineStepStatus.Completed;
    tr_signal := if io_inserted signal_outcome then PipelineStepStatus.Completed
                 else PipelineStepStatus.Reused;
    tr_risk_evaluation := risk_evaluation;
    tr_paper_order := paper_order;
    tr_order_intent_source := Some OrderIntentSource.StrategySignal |}
|}.

(** [insert_pipeline_event] *)
Definition insert_pipeline_event (correlation_id : Z) (event_type : string) : M PipelineError unit :=
  insert_system_event correlation_id event_type.

Definition context_of {E A} (message : string) : M E A -> M PipelineError A :=
  map_err (fun _ => Failure message).

(** From an approved signal to the order and its accounting. *)
Definition order_approved (env : PipelineEnv) (request : PaperTradingPipelineRequest)
    (correlation_id : Z) (symbol : Symbol) (candles : list Candle) (signal_outcome : InsertSignalOutcome)
    (risk_decision_id : Z) (approved_notional : option dec) : M PipelineError PaperTradingPipelineResult :=
  let signal := io_signal signal_outcome in
  let finish := signalled_result request correlation_id signal_outcome risk_decision_id in
  let reused existing :=
    _ ← insert_pipeline_event correlation_id "paper_pipeline.paper_order_reused";
    mret (finish PipelineDecision.PaperOrderReused (Some existing) [] PipelineStepStatus.Completed
            PipelineStepStatus.Reused) in
  latest_candle ← lift (ok_or (last candles) (Failure "closed candle history missing latest candle"));
  side ← lift (parse_signal_side (sn_side signal));
  let idempotency_key := build_idempotency_key (pq_strategy_id request) (sn_id signal)
    risk_decision_id (pq_symbol request) side
    (timestamp_millis (sn_source_candle_open_time signal)) in
  existing ← read (get_order_by_idempotency_key idempotency_key);
  match existing with
  | Some existing => reused existing
  | None =>
      order_intent ← lift (build_order_intent (pe_fresh env 3%nat) (pe_now env 5%nat) correlation_id
        risk_decision_id idempotency_key symbol side
        (default (sn_suggested_notional signal) approved_notional) latest_candle);
      outcome ← (fun s =>
        match create_paper_order (fun n => pe_now env (6 + n)%nat) order_intent s with
        | (Ok outcome, s) => (Ok (inl outcome), s)
        | (Err DuplicateIdempotencyKey, s) =>
            match get_order_by_idempotency_key idempotency_key s with
            | Some existing => (Ok (inr existing), s)
            | None => (Err (Failure "duplicate idempotency key without existing order"), s)
            end
        | (Err error, s) => (Err (OrderFailed error), s)
        | (Panic, s) => (Panic, s)
        end);
      match outcome with
      | inr existing => reused existing
      | inl order_outcome =>
          let order := oc_order order_outcome in
          let result := finish PipelineDecision.PaperOrderCreated (Some order) []
            PipelineStepStatus.Completed PipelineStepStatus.Completed in
          paper_account ← context_of "failed to persist paper accounting artifacts"
            (persist_paper_fill_accounting (fun n => pe_fresh env (4 + n)%nat)
               (fun n => pe_now env (12 + n)%nat) order);
          _ ← match paper_account with
              | Some account =>
                  _ ← insert_pipeline_event correlation_id "paper.fill.created";
                  _ ← insert_pipeline_event correlation_id "paper.position.opened";
                  insert_pipeline_event correlation_id "paper.equity.updated"
              | None => mret tt
              end;
          _ ← insert_pipeline_event correlation_id "paper_pipeline.paper_order_created";
          mret result
      end
  end.

(** The context the stored signal is checked in. *)
Definition risk_context_of (env : PipelineEnv) (correlation_id : Z) (symbol : Symbol)
    (signal : SignalRecord) (side : Side.t) : RiskCheckContext := {|
  rc_signal_id := sn_id signal;
  rc_correlation_id := correlation_id;
  rc_strategy_id := sn_strategy_id signal;
  rc_symbol := symbol;
  rc_side := side;
  rc_suggested_notional := sn_suggested_notional signal;
  rc_signal_created_at := sn_created_at signal;
  rc_evaluated_at := pe_now env 2%nat
|}.

(** From a generated signal to its result. *)
Definition process_signal (env : PipelineEnv) (request : PaperTradingPipelineRequest)
    (correlation_id : Z) (strategy_id : StrategyId.t) (symbol : Symbol) (candles : list Candle)
    (evaluation : StrategyEvaluationResult) (signal : StrategySignal)
    : M PipelineError PaperTradingPipelineResult :=
  signal_outcome ← context_of "failed to persist signal" (insert_signal_deduped (pe_now env 1%nat) signal);
  let signal := io_signal signal_outcome in
  _ ← update_strategy_state strategy_id (sr_evaluated_at evaluation) (sr_reason evaluation)
        (Some (sn_id signal)) (Some (sn_created_at signal));
  _ ← (if io_inserted signal_outcome
       then insert_pipeline_event (sn_correlation_id signal) "signal.generated"
       else mret tt);
  side ← lift (parse_signal_side (sn_side signal));
  let risk_context := risk_context_of env correlation_id symbol signal side in
  snapshot ← read (load_risk_state_snapshot (pe_fails env) (pe_system_state env)
                     (pe_latest_market_data_at env) (pe_now env 3%nat));
  risk_config ← lift (pe_risk_config env);
  let evaluator := RiskEvaluator_new (default RiskConfig_default risk_config) in
  let risk_evaluation := RiskEvaluator_evaluate (pe_fresh env 2%nat) evaluator risk_context snapshot in
  persisted_risk ← context_of "failed to persist risk decision"
    (insert_risk_evaluation (pe_now env 4%nat) risk_context risk_evaluation);
  if bool_decide (re_decision risk_evaluation = RiskEvaluationDecision.Rejected) then
    let result := signalled_result request correlation_id signal_outcome (rd_id persisted_risk)
      PipelineDecision.RiskRejected None (map reason_code (re_reasons risk_evaluation))
      PipelineStepStatus.Rejected PipelineStepStatus.Skipped in
    _ ← insert_pipeline_event correlation_id "paper_pipeline.risk_rejected";
    mret result
  else
    order_approved env request correlation_id symbol candles signal_outcome (rd_id persisted_risk)
      (re_approved_notional risk_evaluation).

Definition run_paper_pipeline (env : PipelineEnv) (request : PaperTradingPipelineRequest)
    : M PipelineError PaperTradingPipelineResult :=
  let parsed {A} (message : string) (r : res CoreError.t A) : M PipelineError A :=
    map_err (fun _ => Failure message) (lift r) in
  strategy_id ← parsed "invalid strategy_id" (from_str (A := StrategyId.t) (pq_strategy_id request));
  symbol ← parsed "invalid symbol" (Symbol_new (pq_symbol request));
  timeframe ← parsed "invalid timeframe" (from_str (A := CandleInterval.t) (pq_timeframe request));
  let correlation_id := default (pe_fresh env 0%nat) (pq_correlation_id request) in
  _ ← insert_pipeline_event correlation_id "paper_pipeline.started";
  config ← lift (ok_or (pe_strategy_config env strategy_id)
                   (Failure "strategy config not found after initialization"));
  if negb (sc_enabled config) then
    let result := terminal_result PipelineDecision.StrategyDisabled request correlation_id
      [PipelineRejectionReason.StrategyDisabled] (skipped PipelineStepStatus.Skipped) in
    _ ← insert_pipeline_event correlation_id "paper_pipeline.strategy_disabled";
    mret result
  else if negb (bool_decide (sc_timeframe config = timeframe)) then
    let result := terminal_result PipelineDecision.SafetyStopped request correlation_id
      [PipelineRejectionReason.UnsupportedTimeframe] (skipped PipelineStepStatus.Skipped) in
    _ ← insert_pipeline_event correlation_id "paper_pipeline.safety_stopped";
    mret result
  else
    match feed_stop_reason env symbol with
    | Some reason =>
        let result := terminal_result PipelineDecision.SafetyStopped request correlation_id [reason]
          (skipped PipelineStepStatus.Skipped) in
        _ ← insert_pipeline_event correlation_id "paper_pipeline.safety_stopped";
        mret result
    | None =>
        let candles := pe_closed_candles env symbol timeframe (required_candle_count config) in
        evaluation ← parsed "failed to evaluate strategy" (evaluate (pe_fresh env 1%nat) {|
          cx_correlation_id := correlation_id; cx_strategy_id := strategy_id; cx_symbol := symbol;
          cx_config := config; cx_candles := candles; cx_evaluated_at := pe_now env 0%nat |});
        match sr_signal evaluation with
        | Some signal =>
            process_signal env request correlation_id strategy_id symbol candles evaluation signal
        | None =>
            _ ← update_strategy_state strategy_id (sr_evaluated_at evaluation) (sr_reason evaluation)
                  None None;
            let result := terminal_result PipelineDecision.NoSignal request correlation_id
              [signal_reason_to_pipeline_reason (sr_reason evaluation)]
              (skipped PipelineStepStatus.Completed) in
            _ ← insert_pipeline_event correlation_id "paper_pipeline.no_signal";
            mret result
        end
    end.
End PipelineRuns.

(** ** What a run orders *)

Section PipelineFacts.
Context {DI : Decimal} {CH : Chrono} {JS : Json} {JD : JsonScalars} {DB : Database} {UT : UuidText}.
Implicit Types (env : PipelineEnv) (s : Store).

(** The rows that do not say what a run did to the orders. *)
Definition order_tables s := (t_orders s, books s).

(** An order placed for [notional] of [symbol] on an approved decision. *)
Record order_placed (symbol : Symbol) (side : Side.t) (candles : list Candle)
    (risk_decision_id : Z) (notional : dec) (row : OrderRow) : Prop := {
  op_symbol : ow_symbol row = symbol_text symbol;
  op_side : ow_side row = side_text side;
  op_decision : ow_risk_decision_id row = risk_decision_id;
  op_filled : ow_execution_state row = "PAPER_FILLED" /\ ow_status row = "FILLED";
  op_priced : exists candle quantity, last candles = Some candle /\
    (c_close candle <=? ZERO)%dec = false /\
    dec_div (E := PipelineError) notional (c_close candle) = Ok quantity /\
    (quantity <=? ZERO)%dec = false /\
    ow_quantity row = numeric quantity /\
    ow_limit_price row = Some (numeric (c_close candle)) /\
    ow_filled_price row = Some (numeric (c_close candle))
}.

Lemma build_order_intent_inv order_id now correlation_id risk_decision_id key symbol side notional
    candle intent :
  build_order_intent order_id now correlation_id risk_decision_id key symbol side notional candle
    = Ok intent ->
  (c_close candle <=? ZERO)%dec = false /\
  exists quantity, dec_div (E := PipelineError) notional (c_close candle) = Ok quantity /\
    intent = {| oi_order_id := order_id; oi_correlation_id := correlation_id;
                oi_risk_decision_id := risk_decision_id; oi_idempotency_key := key;
                oi_symbol := symbol; oi_side := side; oi_quantity := quantity;
                oi_limit_price := Some (c_close candle); oi_created_at := now;
                oi_expires_at := None |}.
Proof.
  unfold build_order_intent. destruct (c_close candle <=? ZERO)%dec; [done|]. intros H.
  apply bind_ok_inv in H as (quantity & Hq & [= <-]). eauto.
Qed.

(** An order made of such an intent. *)
Lemma intent_placed clock symbol side candles candle risk_decision_id notional intent order_id now
    correlation_id key :
  last candles = Some candle ->
  build_order_intent order_id now correlation_id risk_decision_id key symbol side notional candle
    = Ok intent ->
  OrderIntent_validate intent = Ok tt ->
  order_placed symbol side candles risk_decision_id notional (order_row (finished_order clock intent)).
Proof.
  intros Hl (Hc & quantity & Hq & ->)%build_order_intent_inv Hv. split; try done.
  exists candle, quantity. do 3 (split; [done|]). split; [|done].
  revert Hv. unfold OrderIntent_validate. cbn. destruct (is_empty _); [done|].
  by destruct (quantity <=? ZERO)%dec.
Qed.

(** What the last steps of a run do: they book an order on the decision, or change
    neither the orders nor the books. *)
Lemma order_approved_cases env request correlation_id symbol candles signal_outcome risk_decision_id
    notional s r s' :
  order_approved env request correlation_id symbol candles signal_outcome risk_decision_id notional s
    = (r, s') ->
  (exists row side risk, parse_signal_side (sn_side (io_signal signal_outcome)) = Ok side /\
     order_placed symbol side candles risk_decision_id
       (default (sn_suggested_notional (io_signal signal_outcome)) notional) row /\
     find (fun risk => rd_id risk =? risk_decision_id) (t_risk_decisions s) = Some risk /\
     rd_decision risk = "APPROVED" /\
     t_orders s' = t_orders s ++ [row] /\ t_risk_decisions s' = t_risk_decisions s /\
     forall result, r = Ok result ->
       pr_pipeline_decision result = PipelineDecision.PaperOrderCreated /\
       pr_paper_order_id result = Some (ow_id row)) \/
  (order_tables s' = order_tables s /\
   forall result, r = Ok result -> pr_pipeline_decision result = PipelineDecision.PaperOrderReused).
Proof.
  unfold order_approved. rewrite run_lift.
  destruct (ok_or _ _) as [candle| |] eqn:Hl; [|intros [= <- <-]; by right..].
  rewrite run_lift. destruct (parse_signal_side _) as [side| |] eqn:Hs; [|intros [= <- <-]; by right..].
  rewrite run_read. destruct (get_order_by_idempotency_key _ s).
  { unfold insert_pipeline_event. rewrite run_event. intros [= <- <-]. right. split; [done|].
    by intros result [= <-]. }
  rewrite run_lift.
  destruct (build_order_intent _ _ _ _ _ _ _ _ _) as [intent| |] eqn:Hi; [|intros [= <- <-]; by right..].
  rewrite run_bind.
  destruct (create_order_cases (fun n => pe_now env (6 + n)%nat) intent s)
    as [(risk & Hv & Hf & Ha & _ & ->)|[e ->]].
  - cbv zeta. intros H. left. exists (order_row (finished_order (fun n => pe_now env (6 + n)%nat) intent)), side, risk.
    assert (ok_or (last candles) (Failure "closed candle history missing latest candle") = Ok candle ->
      last candles = Some candle) as Hlast by (destruct (last candles); [intros [= ->]|]; done).
    pose proof (intent_placed (fun n => pe_now env (6 + n)%nat) symbol side candles _ _ _ _ _ _ _ _
      (Hlast Hl) Hi Hv) as Hp.
    pose proof (build_order_intent_inv _ _ _ _ _ _ _ _ _ _ Hi) as (_ & quantity & _ & Hint).
    split; [done|]. split; [exact Hp|].
    assert (oi_risk_decision_id intent = risk_decision_id) as Hid by (by rewrite Hint).
    rewrite Hid in Hf. do 2 (split; [done|]).
    cbn [oc_order] in H. match type of H with ?m ?s1 = _ => set (tail := m) in H end.
    assert (keeps t_orders tail) as Ko.
    { subst tail. unfold context_of, insert_pipeline_event. keep; apply persist_fill_orders. }
    assert (keeps t_risk_decisions tail) as Kd.
    { subst tail. unfold context_of, insert_pipeline_event. keep; apply persist_fill_decisions. }
    split; [by rewrite (keeps_run _ _ _ _ _ Ko H)|].
    split; [by rewrite (keeps_run _ _ _ _ _ Kd H)|].
    intros result ->. subst tail. apply bind_inv in H as (paper_account & s1 & _ & H).
    apply bind_inv in H as (u & s2 & _ & H). apply bind_inv in H as (u' & s3 & _ & H).
    by injection H as <- _.
  - destruct e; cbn; try (intros [= <- <-]; by right).
    destruct (get_order_by_idempotency_key _ s); [|intros [= <- <-]; by right].
    unfold insert_pipeline_event. rewrite run_event. intros [= <- <-]. right. split; [done|].
    by intros result [= <-].
Qed.

(** The snapshot reads the orders and the books only. *)
Lemma snapshot_reads env s s1 : order_tables s1 = order_tables s ->
  load_risk_state_snapshot (pe_fails env) (pe_system_state env) (pe_latest_market_data_at env)
    (pe_now env 3%nat) s1 =
  load_risk_state_snapshot (pe_fails env) (pe_system_state env) (pe_latest_market_data_at env)
    (pe_now env 3%nat) s.
Proof.
  unfold order_tables, books. intros H. injection H as Ho Ha Hp Hf Hs Hj.
  unfold load_risk_state_snapshot, count_open_positions, realized_loss_since, recent_pnls, last_trade.
  by rewrite Ho, Ha, Hp, Hj.
Qed.

(** What is known of an order a run placed: the rules let the stored signal pass in the
    state the run found, and the decision that records this carries its notional. *)
Record order_cleared env (request : PaperTradingPipelineRequest) (symbol : Symbol)
    (candles : list Candle) (generated : StrategySignal) s s' (row : OrderRow) : Prop := {
  oc_signal_clear : exists signal side risk_config decision,
    signal_key signal = signal_key (signal_row (pe_now env 1%nat) generated) /\
    parse_signal_side (sn_side signal) = Ok side /\
    pe_risk_config env = Ok risk_config /\
    within_limits (risk_context_of env (default (pe_fresh env 0%nat) (pq_correlation_id request))
        symbol signal side)
      (load_risk_state_snapshot (pe_fails env) (pe_system_state env) (pe_latest_market_data_at env)
         (pe_now env 3%nat) s)
      (default RiskConfig_default risk_config) /\
    t_risk_decisions s' = t_risk_decisions s ++ [decision] /\
    rd_decision decision = "APPROVED" /\
    rd_signal_id decision = Some (sn_id signal) /\
    rd_suggested_notional decision = Some (sn_suggested_notional signal) /\
    order_placed symbol side candles (rd_id decision) (sn_suggested_notional signal) row;
  oc_one_order : t_orders s' = t_orders s ++ [row]
}.

Lemma process_signal_cases env request strategy_id symbol candles evaluation generated s r s' :
  process_signal env request (default (pe_fresh env 0%nat) (pq_correlation_id request)) strategy_id
    symbol candles evaluation generated s = (r, s') ->
  (exists row, order_cleared env request symbol candles generated s s' row /\
     forall result, r = Ok result ->
       pr_pipeline_decision result = PipelineDecision.PaperOrderCreated /\
       pr_paper_order_id result = Some (ow_id row)) \/
  (order_tables s' = order_tables s /\
   forall result, r = Ok result -> pr_pipeline_decision result <> PipelineDecision.PaperOrderCreated).
Proof.
  unfold process_signal. rewrite run_bind.
  assert (keeps order_tables (context_of "failed to persist signal"
    (insert_signal_deduped (pe_now env 1%nat) generated))) as K1
    by (by apply keeps_map_err, insert_signal_keeps).
  assert (keeps t_risk_decisions (context_of "failed to persist signal"
    (insert_signal_deduped (pe_now env 1%nat) generated))) as Kd1
    by (by apply keeps_map_err, insert_signal_keeps).
  destruct (context_of _ _ s) as [[outcome| |] s1] eqn:E1; apply (keeps_run _ _ _ _ _ K1) in E1 as K1'.
  2-3: by intros [= <- <-]; right.
  apply (keeps_run _ _ _ _ _ Kd1) in E1 as Kd1'.
  apply map_err_inv, insert_signal_inv in E1. clear K1 Kd1.
  set (signal := io_signal outcome) in *. unfold update_strategy_state. rewrite run_write, run_bind.
  set (s2 := set_strategy_states _ s1).
  assert (exists s3, (if io_inserted outcome then insert_pipeline_event (sn_correlation_id signal)
      "signal.generated" else mret tt) s2 = (Ok tt, s3) /\ order_tables s3 = order_tables s /\
      t_risk_decisions s3 = t_risk_decisions s) as (s3 & -> & K3 & Kd3)
    by (destruct (io_inserted outcome); eexists; (split; [reflexivity|done])).
  clearbody s2. clear K1' Kd1' s1 s2. rewrite run_lift.
  destruct (parse_signal_side (sn_side signal)) as [side| |] eqn:Hside; [|by intros [= <- <-]; right..].
  rewrite run_read, (snapshot_reads env s s3 K3), run_lift.
  destruct (pe_risk_config env) as [risk_config| |] eqn:Hcfg; [|by intros [= <- <-]; right..].
  set (context := risk_context_of _ _ _ _ _). set (snapshot := load_risk_state_snapshot _ _ _ _ _).
  set (decided := RiskEvaluator_evaluate _ _ _ _). rewrite run_bind.
  assert (keeps order_tables (context_of "failed to persist risk decision"
    (insert_risk_evaluation (pe_now env 4%nat) context decided))) as K4
    by (by apply keeps_map_err, insert_risk_evaluation_keeps).
  destruct (context_of _ _ s3) as [[row| |] s4] eqn:E4; apply (keeps_run _ _ _ _ _ K4) in E4 as K4';
    rewrite K3 in K4'; [|by intros [= <- <-]; right..].
  apply map_err_inv, insert_risk_evaluation_inv in E4 as (Hd & Hfind & _ & Hdec & Hnot & Hsig).
  rewrite Kd3 in Hd. clear K4.
  destruct (evaluate_outcome (pe_fresh env 2%nat) (RiskEvaluator_new (default RiskConfig_default risk_config))
    context snapshot) as [Happ Hnotional]. fold decided in Happ, Hnotional.
  destruct (bool_decide_reflect (re_decision decided = RiskEvaluationDecision.Rejected)) as [Hrej|Hrej].
  { unfold insert_pipeline_event. rewrite run_event. intros [= <- <-]. right. split; [done|].
    by intros result [= <-]. }
  assert (re_decision decided = RiskEvaluationDecision.Approved) as Ha by (by destruct (re_decision decided)).
  rewrite Hnotional, Ha, bool_decide_true by done.
  intros [(order & side' & risk & Hs' & Hp & Hf & _ & Ho & Hd' & Hr)|[Hno Hr]]%order_approved_cases; cycle 1.
  { right. split; [by rewrite Hno|]. intros result ->. by rewrite (Hr result). }
  left. exists order. split; [|exact Hr]. split.
  - fold signal in Hs'. rewrite Hside in Hs'. injection Hs' as <-.
    exists signal, side, risk_config, row. do 3 (split; [done|]). split.
    { apply within_limits_iff. intros reason Hb. apply Happ in Ha.
      by apply (evaluate_breach (pe_fresh env 2%nat)), (proj1 (no_reasons_iff _) Ha) in Hb. }
    rewrite Hd', Hd. split; [done|]. rewrite Hdec, Ha. by split.
  - rewrite Ho. apply (f_equal fst) in K4'. cbn in K4'. by rewrite K4'.
Qed.

(** A strategy only ever suggests to buy. *)
Lemma evaluate_buys {DL : DecimalLaws DI} new_v4 context evaluation generated :
  evaluate new_v4 context = Ok evaluation -> sr_signal evaluation = Some generated ->
  sg_side generated = SignalSide.Buy.
Proof.
  intros (_ & _ & [[_ [= <-]]|[_ H]])%evaluate_ok_inv; [done|].
  apply evaluate_strategy_says in H as [(reason & ->)|(latest & reason & _ & _ & ->)]; [done|].
  by intros [= <-].
Qed.

(** A run consulted an enabled strategy on its own timeframe while the feed was fine. *)
Record consulted env (request : PaperTradingPipelineRequest) (symbol : Symbol)
    (candles : list Candle) (generated : StrategySignal) : Prop := {
  cn_symbol : Symbol_new (pq_symbol request) = Ok symbol;
  cn_feed : feed_stop_reason env symbol = None;
  cn_strategy : exists strategy_id timeframe config,
    from_str (A := StrategyId.t) (pq_strategy_id request) = Ok strategy_id /\
    from_str (A := CandleInterval.t) (pq_timeframe request) = Ok timeframe /\
    pe_strategy_config env strategy_id = Some config /\
    sc_enabled config = true /\ sc_timeframe config = timeframe /\
    candles = pe_closed_candles env symbol timeframe (required_candle_count config);
  cn_side : sg_side generated = SignalSide.Buy
}.

Context {DL : DecimalLaws DI}.

Lemma run_cases env request s r s' :
  run_paper_pipeline env request s = (r, s') ->
  (exists symbol candles generated row, consulted env request symbol candles generated /\
     order_cleared env request symbol candles generated s s' row /\
     forall result, r = Ok result ->
       pr_pipeline_decision result = PipelineDecision.PaperOrderCreated /\
       pr_paper_order_id result = Some (ow_id row)) \/
  (order_tables s' = order_tables s /\
   forall result, r = Ok result -> pr_pipeline_decision result <> PipelineDecision.PaperOrderCreated).
Proof.
  unfold run_paper_pipeline. rewrite run_map_err_lift.
  destruct (from_str (pq_strategy_id request)) as [strategy_id| |] eqn:Hid; [|by intros [= <- <-]; right..].
  rewrite run_map_err_lift.
  destruct (Symbol_new (pq_symbol request)) as [symbol| |] eqn:Hsym; [|by intros [= <- <-]; right..].
  rewrite run_map_err_lift.
  destruct (from_str (pq_timeframe request)) as [timeframe| |] eqn:Htf; [|by intros [= <- <-]; right..].
  unfold insert_pipeline_event. rewrite run_event, run_lift. set (s1 := set_events _ s).
  assert (order_tables s1 = order_tables s /\ t_risk_decisions s1 = t_risk_decisions s) as [K Kd] by done.
  assert (t_orders s1 = t_orders s) as Ko by done. clearbody s1.
  destruct (ok_or _ _) as [config| |] eqn:Hcfg; [|by intros [= <- <-]; right..].
  destruct (sc_enabled config) eqn:Hen; cbn [negb].
  2: { rewrite run_event. intros [= <- <-]. right. split; [done|]. by intros result [= <-]. }
  destruct (bool_decide_reflect (sc_timeframe config = timeframe)) as [Ht|]; cbn [negb].
  2: { rewrite run_event. intros [= <- <-]. right. split; [done|]. by intros result [= <-]. }
  destruct (feed_stop_reason env symbol) as [reason|] eqn:Hfeed.
  { rewrite run_event. intros [= <- <-]. right. split; [done|]. by intros result [= <-]. }
  rewrite run_map_err_lift. set (candles := pe_closed_candles _ _ _ _).
  destruct (evaluate _ _) as [evaluation| |] eqn:Hev; [|by intros [= <- <-]; right..].
  destruct (sr_signal evaluation) as [generated|] eqn:Hsig.
  2: { unfold update_strategy_state. rewrite run_write, run_event. intros [= <- <-]. right.
       split; [done|]. by intros result [= <-]. }
  intros [(row & Hc & Hr)|[Hno Hr]]%process_signal_cases; [left|right; by rewrite Hno].
  exists symbol, candles, generated, row. split; [|split; [|exact Hr]].
  - split; [done|done| |by eapply evaluate_buys]. exists strategy_id, timeframe, config.
    split; [done|]. split; [done|]. split; [|done].
    destruct (pe_strategy_config env strategy_id); [by injection Hcfg as ->|done].
  - destruct Hc as [(signal & side & risk_config & decision & Hk & Hsd & Hrc & Hw & Hd & Hrest) Ho].
    split; [|by rewrite Ho, Ko]. exists signal, side, risk_config, decision.
    do 3 (split; [done|]). split; [by rewrite (snapshot_reads env s s1 K) in Hw|].
    split; [by rewrite Hd, Kd|done].
Qed.
End PipelineFacts.

(** ** Theorems *)

Section PipelineTheorems.
Context {DI : Decimal} {DL : DecimalLaws DI} {CH : Chrono} {JS : Json} {JD : JsonScalars}.
Context {DB : Database} {UT : UuidText}.
Implicit Types (env : PipelineEnv) (s : Store).



(** C30.  A run writes at most one order, and books nothing without one: whatever the outcome
    of a run, errors included, either the orders, the accounts, the positions, the fills, the
    equity snapshots and the journal are what they were, and the run does not report an order;
    or one filled order on a stored approved decision was added, and a run that succeeds
    reports it. *)
Theorem pipeline_writes_at_most_one_order env request s r s' :
  run_paper_pipeline env request s = (r, s') ->
  (t_orders s' = t_orders s /\ books s' = books s /\
   forall result, r = Ok result -> pr_pipeline_decision result <> PipelineDecision.PaperOrderCreated) \/
  (exists row decision, t_orders s' = t_orders s ++ [row] /\
     t_risk_decisions s' = t_risk_decisions s ++ [decision] /\
     ow_execution_state row = "PAPER_FILLED" /\ ow_risk_decision_id row = rd_id decision /\
     rd_decision decision = "APPROVED" /\
     forall result, r = Ok result ->
       pr_pipeline_decision result = PipelineDecision.PaperOrderCreated /\
       pr_paper_order_id result = Some (ow_id row)).
Proof.
  intros [(symbol & candles & generated & row & _ & [(signal & side & risk_config & decision & _ &
    _ & _ & _ & Hd & Hdec & _ & _ & Hp) Ho] & Hr)|[Hno Hr]]%run_cases; [right|left].
  - exists row, decision. do 2 (split; [done|]). destruct Hp as [_ _ Hpd [Hf _] _]. by do 3 (split; [done|]).
  - split; [exact (f_equal fst Hno)|]. split; [exact (f_equal snd Hno)|exact Hr].
Qed.
End PipelineTheorems.

Module PipelineSample.
#[local] Existing Instance ExactDecimal.
#[local] Existing Instance ExactDecimalLaws.
#[local] Existing Instance PlainChrono.
#[local] Existing Instance PlainDatabase.
#[local] Existing Instance PlainUuidText.
(** No step looks at a payload. *)
#[local] Instance no_json : Json := {|
  json := unit; jnull := tt; jstr _ := tt; juuid _ := tt; jobj _ := tt |}.
#[local] Instance scalars : JsonScalars := { jdec := fun _ => jnull; jtime := fun _ => jnull }.

Definition risk_config : RiskConfig := {|
  max_open_positions := 3; max_daily_loss_pct := dnew 2 0; max_weekly_loss_pct := dnew 5 0;
  max_position_notional := dnew 200000 0; max_slippage_pct := dnew 1 0;
  max_consecutive_losses := 3; cooldown_seconds := 0; max_signal_age_ms := 6000;
  stale_feed_threshold_seconds := 10 |}.

(** A run at [start] with identifiers from [id] on; the momentum strategy sees rising closes. *)
Definition env (start id : Z) (kill_switch : bool) : PipelineEnv := {|
  pe_now n := start + milliseconds (Z.of_nat n);
  pe_fresh n := id + Z.of_nat n;
  pe_strategy_config strategy_id :=
    if bool_decide (strategy_id = StrategyId.MomentumV1)
    then Some (StrategySample.config StrategyId.MomentumV1 3) else None;
  pe_exchange := "binance";
  pe_feeds := [{| fd_exchange := "binance"; fd_symbol := "BTCUSDT"; fd_status := "connected";
                  fd_freshness_status := DataFreshnessStatus.Fresh |}];
  pe_closed_candles _ _ _ := sort_by_key c_open_time (List.filter c_is_closed StrategySample.rising);
  pe_risk_config := Ok (Some risk_config);
  pe_system_state := (kill_switch, None);
  pe_latest_market_data_at := Some (start - seconds 1);
  pe_fails _ := false
|}.

Definition request : PaperTradingPipelineRequest := {|
  pq_strategy_id := "momentum_v1"; pq_symbol := "btcusdt"; pq_timeframe := "1m";
  pq_correlation_id := None |}.

Definition empty : Store := {|
  t_signals := []; t_risk_decisions := []; t_orders := []; t_events := []; t_accounts := [];
  t_positions := []; t_fills := []; t_snapshots := []; t_journal := []; t_strategy_states := [] |}.

Definition first_run : res PipelineError PaperTradingPipelineResult * Store :=
  run_paper_pipeline (env (seconds 1000) 100 false) request empty.
Definition stopped_run : res PipelineError PaperTradingPipelineResult * Store :=
  run_paper_pipeline (env (seconds 1000) 100 true) request empty.
Definition second_run : res PipelineError PaperTradingPipelineResult * Store :=
  run_paper_pipeline (env (seconds 1002) 200 false) request (snd first_run).

(** What a run reported, and how many orders, positions and journal entries there are. *)
Definition report (run : res PipelineError PaperTradingPipelineResult * Store)
    : option (PipelineDecision.t * bool * list string) * nat * nat * nat :=
  (match fst run with
   | Ok result => Some (pr_pipeline_decision result, pr_signal_reused result, pr_reasons result)
   | _ => None
   end,
   length (t_orders (snd run)), length (t_positions (snd run)), length (t_journal (snd run))).

Example first_run_orders :
  report first_run = (Some (PipelineDecision.PaperOrderCreated, false, []), 1, 1, 3)%nat.
Proof. vm_compute. reflexivity. Qed.

Example kill_switch_stops :
  report stopped_run = (Some (PipelineDecision.RiskRejected, false, ["kill_switch_active"]), 0, 0, 0)%nat.
Proof. vm_compute. reflexivity. Qed.

(** Running again on the same candle reuses the signal, and orders again. *)
Example second_run_orders_again :
  report second_run = (Some (PipelineDecision.PaperOrderCreated, true, []), 2, 1, 6)%nat.
Proof. vm_compute. reflexivity. Qed.




Example pipeline_writes_at_most_one_order_witness :
  let s' := snd (run_paper_pipeline (env (seconds 1000) 100 true) request empty) in
  t_orders s' = [] /\ books s' = books empty.
Proof.
  assert (length (t_orders (snd (run_paper_pipeline (env (seconds 1000) 100 true) request empty))) = 0%nat)
    as H by (vm_compute; reflexivity).
  cbv zeta. destruct (run_paper_pipeline _ request empty) as [r s'] eqn:E.
  destruct (pipeline_writes_at_most_one_order (DL := ExactDecimalLaws) _ _ _ _ _ E)
    as [(Ho & Hb & _)|(row & _ & Ho & _)]; [by split|exfalso].
  cbn [snd] in H. rewrite Ho in H. discriminate.
Defined.
End PipelineSample.
