(* ===== verification/StrategyStore.v ===== *)
(** * Strategy configurations in the database, and the defaults

    crates/strategy-engine/src/lib.rs, build_default_strategy_configs: the
    configuration every strategy starts with; crates/db/src/lib.rs: the rows a
    configuration is stored as and read back from, its versions and its audit;
    ensure_strategy_configs of crates/api/src/main.rs (the API) and of
    crates/api/src/lib.rs (the shadow runner), which fill the table with the
    defaults.

    A table is the list of its rows.  The legacy columns status,
    momentum_lookback_candles and breakout_lookback_candles, which are written but
    never read, are left out. *)

From Stdlib Require Import ZArith QArith Lqa Lia List String Ascii.
From stdpp Require Import base list strings.
From S2P Require Import Prelude Text Host Types MarketData Risk PaperOrder Accounting Strategy PaperStore.

#[local] Open Scope Z_scope.

(** [value.split(',')] *)
Fixpoint split_on (separator : ascii) (s : string) : list string :=
  match s with
  | EmptyString => [""%string]
  | String c rest =>
      if Ascii.eqb c separator then ""%string :: split_on separator rest
      else match split_on separator rest with
           | word :: words => String c word :: words
           | [] => [String c ""]
           end
  end.

(** [iter.map(f).collect::<Result<Vec<_>, _>>()] *)
Fixpoint collect_res {E A B} (f : A -> res E B) (l : list A) : res E (list B) :=
  match l with
  | [] => Ok []
  | x :: l => y ← f x; ys ← collect_res f l; Ok (y :: ys)
  end.

(** [value as u32] of an [i32] *)
Definition as_u32 (value : Z) : Z := value mod 2 ^ 32.

Section Defaults.
Context {DI : Decimal}.

Definition default_momentum_v1 (symbols : list Symbol) (timeframe : CandleInterval.t)
    (suggested_notional : dec) (recommended_signal_age_ms : Z) (momentum_lookback_candles : Z) : StrategyConfig := {|
  sc_strategy_id := StrategyId.MomentumV1;
  sc_enabled := true;
  sc_mode := StrategyMode.Paper;
  sc_symbols := symbols;
  sc_timeframe := timeframe;
  sc_suggested_notional := suggested_notional;
  sc_max_signal_age_ms := recommended_signal_age_ms;
  sc_cooldown_seconds := 900;
  sc_lookback_candles := momentum_lookback_candles;
  sc_trend_lookback_candles := None;
  sc_momentum_lookback_candles := None;
  sc_compression_lookback_candles := None;
  sc_breakout_lookback_candles := None;
  sc_pullback_lookback_candles := None;
  sc_pullback_sma_lookback_candles := None;
  sc_compression_percentile_threshold := None;
  sc_min_breakout_pct := None;
  sc_max_breakout_extension_pct := None;
  sc_min_volume_expansion_ratio := None;
  sc_lower_band_pct := None;
  sc_upper_band_pct := None;
  sc_min_range_width_pct := None;
  sc_max_range_width_pct := None;
  sc_min_close_above_sma_pct := None;
  sc_max_close_above_sma_pct := None;
  sc_min_momentum_return_pct := None;
  sc_min_trend_return_pct := None;
  sc_min_trend_slope_pct := None;
  sc_min_pullback_depth_pct := None;
  sc_max_pullback_depth_pct := None;
  sc_min_reclaim_pct := None;
  sc_min_breakdown_pct := None;
  sc_min_reclaim_close_pct := None;
  sc_min_lower_wick_pct := None;
  sc_min_volume_ratio := None;
  sc_max_choppiness := None;
  sc_confidence_floor := None;
  sc_stop_loss_pct := None;
  sc_take_profit_pct := None;
  sc_holding_candles := (Some 3);
  sc_confirmation_candles := 0;
  sc_require_confirmation_close_above_lookback_low := false;
  sc_require_confirmation_low_above_breakdown_low := false;
  sc_notes := (Some "Default momentum paper config")
|}.

Definition default_volatility_breakout_v1 (symbols : list Symbol) (timeframe : CandleInterval.t)
    (suggested_notional : dec) (recommended_signal_age_ms : Z) (breakout_lookback_candles : Z) : StrategyConfig := {|
  sc_strategy_id := StrategyId.VolatilityBreakoutV1;
  sc_enabled := true;
  sc_mode := StrategyMode.Paper;
  sc_symbols := symbols;
  sc_timeframe := timeframe;
  sc_suggested_notional := suggested_notional;
  sc_max_signal_age_ms := recommended_signal_age_ms;
  sc_cooldown_seconds := 900;
  sc_lookback_candles := breakout_lookback_candles;
  sc_trend_lookback_candles := None;
  sc_momentum_lookback_candles := None;
  sc_compression_lookback_candles := None;
  sc_breakout_lookback_candles := None;
  sc_pullback_lookback_candles := None;
  sc_pullback_sma_lookback_candles := None;
  sc_compression_percentile_threshold := None;
  sc_min_breakout_pct := None;
  sc_max_breakout_extension_pct := None;
  sc_min_volume_expansion_ratio := None;
  sc_lower_band_pct := None;
  sc_upper_band_pct := None;
  sc_min_range_width_pct := None;
  sc_max_range_width_pct := None;
  sc_min_close_above_sma_pct := None;
  sc_max_close_above_sma_pct := None;
  sc_min_momentum_return_pct := None;
  sc_min_trend_return_pct := None;
  sc_min_trend_slope_pct := None;
  sc_min_pullback_depth_pct := None;
  sc_max_pullback_depth_pct := None;
  sc_min_reclaim_pct := None;
  sc_min_breakdown_pct := None;
  sc_min_reclaim_close_pct := None;
  sc_min_lower_wick_pct := None;
  sc_min_volume_ratio := None;
  sc_max_choppiness := None;
  sc_confidence_floor := None;
  sc_stop_loss_pct := None;
  sc_take_profit_pct := None;
  sc_holding_candles := (Some 3);
  sc_confirmation_candles := 0;
  sc_require_confirmation_close_above_lookback_low := false;
  sc_require_confirmation_low_above_breakdown_low := false;
  sc_notes := (Some "Default breakout paper config")
|}.

Definition default_trend_filter_momentum_v1 (symbols : list Symbol) (timeframe : CandleInterval.t)
    (suggested_notional : dec) : StrategyConfig := {|
  sc_strategy_id := StrategyId.TrendFilterMomentumV1;
  sc_enabled := true;
  sc_mode := StrategyMode.Research;
  sc_symbols := symbols;
  sc_timeframe := CandleInterval.FiveMinutes;
  sc_suggested_notional := suggested_notional;
  sc_max_signal_age_ms := 900000;
  sc_cooldown_seconds := 1800;
  sc_lookback_candles := 20;
  sc_trend_lookback_candles := (Some 20);
  sc_momentum_lookback_candles := (Some 3);
  sc_compression_lookback_candles := None;
  sc_breakout_lookback_candles := None;
  sc_pullback_lookback_candles := None;
  sc_pullback_sma_lookback_candles := None;
  sc_compression_percentile_threshold := None;
  sc_min_breakout_pct := None;
  sc_max_breakout_extension_pct := None;
  sc_min_volume_expansion_ratio := None;
  sc_lower_band_pct := None;
  sc_upper_band_pct := None;
  sc_min_range_width_pct := None;
  sc_max_range_width_pct := None;
  sc_min_close_above_sma_pct := None;
  sc_max_close_above_sma_pct := None;
  sc_min_momentum_return_pct := None;
  sc_min_trend_return_pct := None;
  sc_min_trend_slope_pct := None;
  sc_min_pullback_depth_pct := None;
  sc_max_pullback_depth_pct := None;
  sc_min_reclaim_pct := None;
  sc_min_breakdown_pct := None;
  sc_min_reclaim_close_pct := None;
  sc_min_lower_wick_pct := None;
  sc_min_volume_ratio := None;
  sc_max_choppiness := None;
  sc_confidence_floor := None;
  sc_stop_loss_pct := None;
  sc_take_profit_pct := None;
  sc_holding_candles := (Some 3);
  sc_confirmation_candles := 0;
  sc_require_confirmation_close_above_lookback_low := false;
  sc_require_confirmation_low_above_breakdown_low := false;
  sc_notes := (Some "Research baseline trend-filter momentum config")
|}.

Definition default_trend_filter_momentum_v2 (symbols : list Symbol) (timeframe : CandleInterval.t)
    (suggested_notional : dec) : StrategyConfig := {|
  sc_strategy_id := StrategyId.TrendFilterMomentumV2;
  sc_enabled := true;
  sc_mode := StrategyMode.Research;
  sc_symbols := symbols;
  sc_timeframe := CandleInterval.FifteenMinutes;
  sc_suggested_notional := suggested_notional;
  sc_max_signal_age_ms := 2700000;
  sc_cooldown_seconds := 1800;
  sc_lookback_candles := 20;
  sc_trend_lookback_candles := (Some 20);
  sc_momentum_lookback_candles := (Some 3);
  sc_compression_lookback_candles := None;
  sc_breakout_lookback_candles := None;
  sc_pullback_lookback_candles := None;
  sc_pullback_sma_lookback_candles := None;
  sc_compression_percentile_threshold := None;
  sc_min_breakout_pct := None;
  sc_max_breakout_extension_pct := None;
  sc_min_volume_expansion_ratio := None;
  sc_lower_band_pct := None;
  sc_upper_band_pct := None;
  sc_min_range_width_pct := None;
  sc_max_range_width_pct := None;
  sc_min_close_above_sma_pct := (Some ZERO);
  sc_max_close_above_sma_pct := (Some ONE);
  sc_min_momentum_return_pct := (Some ZERO);
  sc_min_trend_return_pct := None;
  sc_min_trend_slope_pct := None;
  sc_min_pullback_depth_pct := None;
  sc_max_pullback_depth_pct := None;
  sc_min_reclaim_pct := None;
  sc_min_breakdown_pct := None;
  sc_min_reclaim_close_pct := None;
  sc_min_lower_wick_pct := None;
  sc_min_volume_ratio := None;
  sc_max_choppiness := None;
  sc_confidence_floor := None;
  sc_stop_loss_pct := None;
  sc_take_profit_pct := None;
  sc_holding_candles := (Some 3);
  sc_confirmation_candles := 0;
  sc_require_confirmation_close_above_lookback_low := false;
  sc_require_confirmation_low_above_breakdown_low := false;
  sc_notes := (Some "Research baseline feature-filtered trend momentum config")
|}.

Definition default_volatility_breakout_v2 (symbols : list Symbol) (timeframe : CandleInterval.t)
    (suggested_notional : dec) : StrategyConfig := {|
  sc_strategy_id := StrategyId.VolatilityBreakoutV2;
  sc_enabled := true;
  sc_mode := StrategyMode.Research;
  sc_symbols := symbols;
  sc_timeframe := CandleInterval.FifteenMinutes;
  sc_suggested_notional := suggested_notional;
  sc_max_signal_age_ms := 2700000;
  sc_cooldown_seconds := 1800;
  sc_lookback_candles := 20;
  sc_trend_lookback_candles := None;
  sc_momentum_lookback_candles := None;
  sc_compression_lookback_candles := None;
  sc_breakout_lookback_candles := (Some 20);
  sc_pullback_lookback_candles := None;
  sc_pullback_sma_lookback_candles := None;
  sc_compression_percentile_threshold := None;
  sc_min_breakout_pct := None;
  sc_max_breakout_extension_pct := None;
  sc_min_volume_expansion_ratio := None;
  sc_lower_band_pct := None;
  sc_upper_band_pct := None;
  sc_min_range_width_pct := None;
  sc_max_range_width_pct := None;
  sc_min_close_above_sma_pct := None;
  sc_max_close_above_sma_pct := None;
  sc_min_momentum_return_pct := None;
  sc_min_trend_return_pct := None;
  sc_min_trend_slope_pct := None;
  sc_min_pullback_depth_pct := None;
  sc_max_pullback_depth_pct := None;
  sc_min_reclaim_pct := None;
  sc_min_breakdown_pct := None;
  sc_min_reclaim_close_pct := None;
  sc_min_lower_wick_pct := None;
  sc_min_volume_ratio := None;
  sc_max_choppiness := None;
  sc_confidence_floor := None;
  sc_stop_loss_pct := None;
  sc_take_profit_pct := None;
  sc_holding_candles := (Some 3);
  sc_confirmation_candles := 0;
  sc_require_confirmation_close_above_lookback_low := false;
  sc_require_confirmation_low_above_breakdown_low := false;
  sc_notes := (Some "Research baseline volume-confirmed breakout config")
|}.

Definition default_volatility_compression_breakout_v1 (symbols : list Symbol) (timeframe : CandleInterval.t)
    (suggested_notional : dec) : StrategyConfig := {|
  sc_strategy_id := StrategyId.VolatilityCompressionBreakoutV1;
  sc_enabled := true;
  sc_mode := StrategyMode.Research;
  sc_symbols := symbols;
  sc_timeframe := CandleInterval.OneHour;
  sc_suggested_notional := suggested_notional;
  sc_max_signal_age_ms := 7200000;
  sc_cooldown_seconds := 14400;
  sc_lookback_candles := 20;
  sc_trend_lookback_candles := None;
  sc_momentum_lookback_candles := None;
  sc_compression_lookback_candles := (Some 20);
  sc_breakout_lookback_candles := (Some 20);
  sc_pullback_lookback_candles := None;
  sc_pullback_sma_lookback_candles := None;
  sc_compression_percentile_threshold := (Some (dnew 25 0));
  sc_min_breakout_pct := (Some (dnew 5 2));
  sc_max_breakout_extension_pct := (Some (dnew 15 1));
  sc_min_volume_expansion_ratio := (Some (dnew 11 1));
  sc_lower_band_pct := None;
  sc_upper_band_pct := None;
  sc_min_range_width_pct := (Some (dnew 2 1));
  sc_max_range_width_pct := (Some (dnew 5 0));
  sc_min_close_above_sma_pct := None;
  sc_max_close_above_sma_pct := None;
  sc_min_momentum_return_pct := None;
  sc_min_trend_return_pct := None;
  sc_min_trend_slope_pct := None;
  sc_min_pullback_depth_pct := None;
  sc_max_pullback_depth_pct := None;
  sc_min_reclaim_pct := None;
  sc_min_breakdown_pct := None;
  sc_min_reclaim_close_pct := None;
  sc_min_lower_wick_pct := None;
  sc_min_volume_ratio := None;
  sc_max_choppiness := None;
  sc_confidence_floor := None;
  sc_stop_loss_pct := None;
  sc_take_profit_pct := None;
  sc_holding_candles := (Some 5);
  sc_confirmation_candles := 0;
  sc_require_confirmation_close_above_lookback_low := false;
  sc_require_confirmation_low_above_breakdown_low := false;
  sc_notes := (Some "Research baseline volatility compression breakout config")
|}.

Definition default_range_reversion_v1 (symbols : list Symbol) (timeframe : CandleInterval.t)
    (suggested_notional : dec) : StrategyConfig := {|
  sc_strategy_id := StrategyId.RangeReversionV1;
  sc_enabled := true;
  sc_mode := StrategyMode.Research;
  sc_symbols := symbols;
  sc_timeframe := CandleInterval.FifteenMinutes;
  sc_suggested_notional := suggested_notional;
  sc_max_signal_age_ms := 2700000;
  sc_cooldown_seconds := 1800;
  sc_lookback_candles := 20;
  sc_trend_lookback_candles := None;
  sc_momentum_lookback_candles := None;
  sc_compression_lookback_candles := None;
  sc_breakout_lookback_candles := None;
  sc_pullback_lookback_candles := None;
  sc_pullback_sma_lookback_candles := None;
  sc_compression_percentile_threshold := None;
  sc_min_breakout_pct := None;
  sc_max_breakout_extension_pct := None;
  sc_min_volume_expansion_ratio := None;
  sc_lower_band_pct := (Some (dnew 20 0));
  sc_upper_band_pct := (Some (dnew 80 0));
  sc_min_range_width_pct := (Some (dnew 15 2));
  sc_max_range_width_pct := (Some (dnew 3 0));
  sc_min_close_above_sma_pct := None;
  sc_max_close_above_sma_pct := None;
  sc_min_momentum_return_pct := None;
  sc_min_trend_return_pct := None;
  sc_min_trend_slope_pct := None;
  sc_min_pullback_depth_pct := None;
  sc_max_pullback_depth_pct := None;
  sc_min_reclaim_pct := None;
  sc_min_breakdown_pct := None;
  sc_min_reclaim_close_pct := None;
  sc_min_lower_wick_pct := None;
  sc_min_volume_ratio := None;
  sc_max_choppiness := None;
  sc_confidence_floor := None;
  sc_stop_loss_pct := None;
  sc_take_profit_pct := None;
  sc_holding_candles := (Some 5);
  sc_confirmation_candles := 0;
  sc_require_confirmation_close_above_lookback_low := false;
  sc_require_confirmation_low_above_breakdown_low := false;
  sc_notes := (Some "Research baseline range-reversion config")
|}.

Definition default_trend_pullback_continuation_v1 (symbols : list Symbol) (timeframe : CandleInterval.t)
    (suggested_notional : dec) : StrategyConfig := {|
  sc_strategy_id := StrategyId.TrendPullbackContinuationV1;
  sc_enabled := true;
  sc_mode := StrategyMode.Research;
  sc_symbols := symbols;
  sc_timeframe := CandleInterval.OneHour;
  sc_suggested_notional := suggested_notional;
  sc_max_signal_age_ms := 7200000;
  sc_cooldown_seconds := 14400;
  sc_lookback_candles := 20;
  sc_trend_lookback_candles := (Some 50);
  sc_momentum_lookback_candles := None;
  sc_compression_lookback_candles := None;
  sc_breakout_lookback_candles := None;
  sc_pullback_lookback_candles := (Some 10);
  sc_pullback_sma_lookback_candles := (Some 20);
  sc_compression_percentile_threshold := None;
  sc_min_breakout_pct := None;
  sc_max_breakout_extension_pct := None;
  sc_min_volume_expansion_ratio := None;
  sc_lower_band_pct := None;
  sc_upper_band_pct := None;
  sc_min_range_width_pct := None;
  sc_max_range_width_pct := None;
  sc_min_close_above_sma_pct := (Some ZERO);
  sc_max_close_above_sma_pct := (Some ONE);
  sc_min_momentum_return_pct := None;
  sc_min_trend_return_pct := (Some (dnew 2 0));
  sc_min_trend_slope_pct := (Some ZERO);
  sc_min_pullback_depth_pct := (Some (dnew 3 1));
  sc_max_pullback_depth_pct := (Some (dnew 5 0));
  sc_min_reclaim_pct := (Some (dnew 5 2));
  sc_min_breakdown_pct := None;
  sc_min_reclaim_close_pct := None;
  sc_min_lower_wick_pct := None;
  sc_min_volume_ratio := (Some (dnew 8 1));
  sc_max_choppiness := (Some (dnew 60 0));
  sc_confidence_floor := None;
  sc_stop_loss_pct := None;
  sc_take_profit_pct := None;
  sc_holding_candles := (Some 20);
  sc_confirmation_candles := 0;
  sc_require_confirmation_close_above_lookback_low := false;
  sc_require_confirmation_low_above_breakdown_low := false;
  sc_notes := (Some "Research baseline trend pullback continuation config")
|}.

Definition default_failed_breakdown_reclaim_v1 (symbols : list Symbol) (timeframe : CandleInterval.t)
    (suggested_notional : dec) : StrategyConfig := {|
  sc_strategy_id := StrategyId.FailedBreakdownReclaimV1;
  sc_enabled := true;
  sc_mode := StrategyMode.Research;
  sc_symbols := symbols;
  sc_timeframe := CandleInterval.OneHour;
  sc_suggested_notional := suggested_notional;
  sc_max_signal_age_ms := 7200000;
  sc_cooldown_seconds := 14400;
  sc_lookback_candles := 40;
  sc_trend_lookback_candles := None;
  sc_momentum_lookback_candles := None;
  sc_compression_lookback_candles := None;
  sc_breakout_lookback_candles := None;
  sc_pullback_lookback_candles := None;
  sc_pullback_sma_lookback_candles := None;
  sc_compression_percentile_threshold := None;
  sc_min_breakout_pct := None;
  sc_max_breakout_extension_pct := None;
  sc_min_volume_expansion_ratio := None;
  sc_lower_band_pct := None;
  sc_upper_band_pct := None;
  sc_min_range_width_pct := None;
  sc_max_range_width_pct := None;
  sc_min_close_above_sma_pct := None;
  sc_max_close_above_sma_pct := None;
  sc_min_momentum_return_pct := None;
  sc_min_trend_return_pct := None;
  sc_min_trend_slope_pct := None;
  sc_min_pullback_depth_pct := None;
  sc_max_pullback_depth_pct := None;
  sc_min_reclaim_pct := None;
  sc_min_breakdown_pct := (Some (dnew 5 2));
  sc_min_reclaim_close_pct := (Some ZERO);
  sc_min_lower_wick_pct := (Some ONE);
  sc_min_volume_ratio := (Some ZERO);
  sc_max_choppiness := None;
  sc_confidence_floor := None;
  sc_stop_loss_pct := None;
  sc_take_profit_pct := None;
  sc_holding_candles := (Some 5);
  sc_confirmation_candles := 0;
  sc_require_confirmation_close_above_lookback_low := false;
  sc_require_confirmation_low_above_breakdown_low := false;
  sc_notes := (Some "Research baseline failed breakdown reclaim config")
|}.

Definition build_default_strategy_configs (symbols : list Symbol) (timeframe : CandleInterval.t)
    (suggested_notional : dec) (momentum_lookback_candles breakout_lookback_candles : Z)
    : list StrategyConfig :=
  let recommended_signal_age_ms := fst (recommended_max_signal_age_ms timeframe) in
  [default_momentum_v1 symbols timeframe suggested_notional recommended_signal_age_ms
     momentum_lookback_candles;
   default_volatility_breakout_v1 symbols timeframe suggested_notional recommended_signal_age_ms
     breakout_lookback_candles;
   default_trend_filter_momentum_v1 symbols timeframe suggested_notional;
   default_trend_filter_momentum_v2 symbols timeframe suggested_notional;
   default_volatility_breakout_v2 symbols timeframe suggested_notional;
   default_volatility_compression_breakout_v1 symbols timeframe suggested_notional;
   default_range_reversion_v1 symbols timeframe suggested_notional;
   default_trend_pullback_continuation_v1 symbols timeframe suggested_notional;
   default_failed_breakdown_reclaim_v1 symbols timeframe suggested_notional].
End Defaults.

(** ** The table of configurations *)

Section ConfigStore.
Context {DI : Decimal} {JS : Json} {DB : Database}.

Record StrategyConfigRecord := {
  scr_strategy_id : string;
  scr_enabled : bool;
  scr_mode : string;
  scr_symbols : string;
  scr_timeframe : string;
  scr_suggested_notional : dec;
  scr_max_signal_age_ms : Z;
  scr_cooldown_seconds : Z;
  scr_lookback_candles : Z;
  scr_trend_lookback_candles : option Z;
  scr_momentum_lookback_candles : option Z;
  scr_compression_lookback_candles : option Z;
  scr_breakout_lookback_candles : option Z;
  scr_pullback_lookback_candles : option Z;
  scr_pullback_sma_lookback_candles : option Z;
  scr_compression_percentile_threshold : option dec;
  scr_min_breakout_pct : option dec;
  scr_max_breakout_extension_pct : option dec;
  scr_min_volume_expansion_ratio : option dec;
  scr_lower_band_pct : option dec;
  scr_upper_band_pct : option dec;
  scr_min_range_width_pct : option dec;
  scr_max_range_width_pct : option dec;
  scr_min_close_above_sma_pct : option dec;
  scr_max_close_above_sma_pct : option dec;
  scr_min_momentum_return_pct : option dec;
  scr_min_trend_return_pct : option dec;
  scr_min_trend_slope_pct : option dec;
  scr_min_pullback_depth_pct : option dec;
  scr_max_pullback_depth_pct : option dec;
  scr_min_reclaim_pct : option dec;
  scr_min_breakdown_pct : option dec;
  scr_min_reclaim_close_pct : option dec;
  scr_min_lower_wick_pct : option dec;
  scr_min_volume_ratio : option dec;
  scr_max_choppiness : option dec;
  scr_confidence_floor : option dec;
  scr_stop_loss_pct : option dec;
  scr_take_profit_pct : option dec;
  scr_holding_candles : option Z;
  scr_notes : option string;
  scr_current_version : Z;
  scr_created_at : Z;
  scr_updated_at : Z
}.

(** The row an upsert of [config] leaves; [created_at] is that of the row it replaces, or now. *)
Definition strategy_config_record (config : StrategyConfig) (current_version created_at now : Z)
    : StrategyConfigRecord := {|
  scr_strategy_id := StrategyId.as_str (sc_strategy_id config);
  scr_enabled := sc_enabled config;
  scr_mode := StrategyMode.as_str (sc_mode config);
  scr_symbols := join "," (map symbol_text (sc_symbols config));
  scr_timeframe := CandleInterval.as_str (sc_timeframe config);
  scr_suggested_notional := numeric (sc_suggested_notional config);
  scr_max_signal_age_ms := sc_max_signal_age_ms config;
  scr_cooldown_seconds := wrap_i32 (sc_cooldown_seconds config);
  scr_lookback_candles := wrap_i32 (sc_lookback_candles config);
  scr_trend_lookback_candles := option_map wrap_i32 (sc_trend_lookback_candles config);
  scr_momentum_lookback_candles := option_map wrap_i32 (sc_momentum_lookback_candles config);
  scr_compression_lookback_candles := option_map wrap_i32 (sc_compression_lookback_candles config);
  scr_breakout_lookback_candles := option_map wrap_i32 (sc_breakout_lookback_candles config);
  scr_pullback_lookback_candles := option_map wrap_i32 (sc_pullback_lookback_candles config);
  scr_pullback_sma_lookback_candles := option_map wrap_i32 (sc_pullback_sma_lookback_candles config);
  scr_compression_percentile_threshold := option_map numeric (sc_compression_percentile_threshold config);
  scr_min_breakout_pct := option_map numeric (sc_min_breakout_pct config);
  scr_max_breakout_extension_pct := option_map numeric (sc_max_breakout_extension_pct config);
  scr_min_volume_expansion_ratio := option_map numeric (sc_min_volume_expansion_ratio config);
  scr_lower_band_pct := option_map numeric (sc_lower_band_pct config);
  scr_upper_band_pct := option_map numeric (sc_upper_band_pct config);
  scr_min_range_width_pct := option_map numeric (sc_min_range_width_pct config);
  scr_max_range_width_pct := option_map numeric (sc_max_range_width_pct config);
  scr_min_close_above_sma_pct := option_map numeric (sc_min_close_above_sma_pct config);
  scr_max_close_above_sma_pct := option_map numeric (sc_max_close_above_sma_pct config);
  scr_min_momentum_return_pct := option_map numeric (sc_min_momentum_return_pct config);
  scr_min_trend_return_pct := option_map numeric (sc_min_trend_return_pct config);
  scr_min_trend_slope_pct := option_map numeric (sc_min_trend_slope_pct config);
  scr_min_pullback_depth_pct := option_map numeric (sc_min_pullback_depth_pct config);
  scr_max_pullback_depth_pct := option_map numeric (sc_max_pullback_depth_pct config);
  scr_min_reclaim_pct := option_map numeric (sc_min_reclaim_pct config);
  scr_min_breakdown_pct := option_map numeric (sc_min_breakdown_pct config);
  scr_min_reclaim_close_pct := option_map numeric (sc_min_reclaim_close_pct config);
  scr_min_lower_wick_pct := option_map numeric (sc_min_lower_wick_pct config);
  scr_min_volume_ratio := option_map numeric (sc_min_volume_ratio config);
  scr_max_choppiness := option_map numeric (sc_max_choppiness config);
  scr_confidence_floor := option_map numeric (sc_confidence_floor config);
  scr_stop_loss_pct := option_map numeric (sc_stop_loss_pct config);
  scr_take_profit_pct := option_map numeric (sc_take_profit_pct config);
  scr_holding_candles := option_map wrap_i32 (sc_holding_candles config);
  scr_notes := sc_notes config;
  scr_current_version := current_version;
  scr_created_at := created_at;
  scr_updated_at := now
|}.

Definition strategy_config_from_record (record : StrategyConfigRecord) : result StrategyConfig :=
  symbols ← collect_res Symbol_new
    (List.filter (fun value => negb (is_empty (trim value))) (split_on "," (scr_symbols record)));
  strategy_id ← from_str (A := StrategyId.t) (scr_strategy_id record);
  mode ← from_str (A := StrategyMode.t) (scr_mode record);
  timeframe ← from_str (A := CandleInterval.t) (scr_timeframe record);
  let config := {|
    sc_strategy_id := strategy_id;
    sc_enabled := scr_enabled record;
    sc_mode := mode;
    sc_symbols := symbols;
    sc_timeframe := timeframe;
    sc_suggested_notional := scr_suggested_notional record;
    sc_max_signal_age_ms := scr_max_signal_age_ms record;
    sc_cooldown_seconds := as_u32 (scr_cooldown_seconds record);
    sc_lookback_candles := as_u32 (scr_lookback_candles record);
    sc_trend_lookback_candles := option_map as_u32 (scr_trend_lookback_candles record);
    sc_momentum_lookback_candles := option_map as_u32 (scr_momentum_lookback_candles record);
    sc_compression_lookback_candles := option_map as_u32 (scr_compression_lookback_candles record);
    sc_breakout_lookback_candles := option_map as_u32 (scr_breakout_lookback_candles record);
    sc_pullback_lookback_candles := option_map as_u32 (scr_pullback_lookback_candles record);
    sc_pullback_sma_lookback_candles := option_map as_u32 (scr_pullback_sma_lookback_candles record);
    sc_compression_percentile_threshold := scr_compression_percentile_threshold record;
    sc_min_breakout_pct := scr_min_breakout_pct record;
    sc_max_breakout_extension_pct := scr_max_breakout_extension_pct record;
    sc_min_volume_expansion_ratio := scr_min_volume_expansion_ratio record;
    sc_lower_band_pct := scr_lower_band_pct record;
    sc_upper_band_pct := scr_upper_band_pct record;
    sc_min_range_width_pct := scr_min_range_width_pct record;
    sc_max_range_width_pct := scr_max_range_width_pct record;
    sc_min_close_above_sma_pct := scr_min_close_above_sma_pct record;
    sc_max_close_above_sma_pct := scr_max_close_above_sma_pct record;
    sc_min_momentum_return_pct := scr_min_momentum_return_pct record;
    sc_min_trend_return_pct := scr_min_trend_return_pct record;
    sc_min_trend_slope_pct := scr_min_trend_slope_pct record;
    sc_min_pullback_depth_pct := scr_min_pullback_depth_pct record;
    sc_max_pullback_depth_pct := scr_max_pullback_depth_pct record;
    sc_min_reclaim_pct := scr_min_reclaim_pct record;
    sc_min_breakdown_pct := scr_min_breakdown_pct record;
    sc_min_reclaim_close_pct := scr_min_reclaim_close_pct record;
    sc_min_lower_wick_pct := scr_min_lower_wick_pct record;
    sc_min_volume_ratio := scr_min_volume_ratio record;
    sc_max_choppiness := scr_max_choppiness record;
    sc_confidence_floor := scr_confidence_floor record;
    sc_stop_loss_pct := scr_stop_loss_pct record;
    sc_take_profit_pct := scr_take_profit_pct record;
    sc_holding_candles := option_map as_u32 (scr_holding_candles record);
    sc_confirmation_candles := 0;
    sc_require_confirmation_close_above_lookback_low := false;
    sc_require_confirmation_low_above_breakdown_low := false;
    sc_notes := scr_notes record
  |} in
  _ ← StrategyConfig_validate config;
  Ok config.

(** A row of strategy_config_versions. *)
Record StrategyConfigVersionRow := {
  vv_strategy_id : string;
  vv_version : Z;
  vv_config : StrategyConfig;
  vv_actor_id : option Z;
  vv_correlation_id : Z
}.

(** A row of strategy_config_audit; the validation issues of an accepted change are none. *)
Record StrategyConfigAuditRow := {
  ar_strategy_id : string;
  ar_version : option Z;
  ar_old_config : option StrategyConfig;
  ar_new_config : option StrategyConfig;
  ar_actor_id : option Z;
  ar_correlation_id : Z
}.

Record ConfigStore := {
  cf_configs : list StrategyConfigRecord;
  cf_versions : list StrategyConfigVersionRow;
  cf_audit : list StrategyConfigAuditRow
}.

Definition with_configs (rows : list StrategyConfigRecord) (s : ConfigStore) : ConfigStore :=
  {| cf_configs := rows; cf_versions := cf_versions s; cf_audit := cf_audit s |}.

Definition get_strategy_config (strategy_id : StrategyId.t) (s : ConfigStore)
    : option StrategyConfigRecord :=
  find (fun row => String.eqb (scr_strategy_id row) (StrategyId.as_str strategy_id)) (cf_configs s).

(** INSERT .. ON CONFLICT (strategy_id) DO UPDATE; the creation time stays. *)
Definition upsert_strategy_config_tx (now : Z) (config : StrategyConfig) (current_version : Z)
    (s : ConfigStore) : StrategyConfigRecord * ConfigStore :=
  let created_at := match get_strategy_config (sc_strategy_id config) s with
                    | Some existing => scr_created_at existing
                    | None => now
                    end in
  let row := strategy_config_record config current_version created_at now in
  let same other := String.eqb (scr_strategy_id other) (scr_strategy_id row) in
  (row,
   with_configs (if existsb same (cf_configs s)
                 then map (fun other => if same other then row else other) (cf_configs s)
                 else cf_configs s ++ [row]) s).

Definition upsert_strategy_config (now : Z) (config : StrategyConfig) (s : ConfigStore)
    : StrategyConfigRecord * ConfigStore :=
  let current_version := match get_strategy_config (sc_strategy_id config) s with
                         | Some existing => scr_current_version existing
                         | None => 1
                         end in
  upsert_strategy_config_tx now config current_version s.

(** MAX(version) .. unwrap_or(0) *)
Definition persisted_version (strategy_id : StrategyId.t) (s : ConfigStore) : Z :=
  default 0 (iter_max Z.leb (map vv_version
    (List.filter (fun row => String.eqb (vv_strategy_id row) (StrategyId.as_str strategy_id))
       (cf_versions s)))).

(** One transaction: the row, its version and the audit entry, or nothing. *)
Definition persist_strategy_config_version (now : Z) (config : StrategyConfig) (actor_id : option Z)
    (correlation_id : Z) (s : ConfigStore) : result StrategyConfigRecord * ConfigStore :=
  let strategy_id := sc_strategy_id config in
  let existing := get_strategy_config strategy_id s in
  let next_version :=
    i32_add (Z.max (match existing with Some record => scr_current_version record | None => 0 end)
                   (persisted_version strategy_id s)) 1 in
  let '(record, s1) := upsert_strategy_config_tx now config next_version s in
  let old_config := match existing with
                    | Some existing => config ← strategy_config_from_record existing; Ok (Some config)
                    | None => Ok None
                    end in
  match old_config with
  | Ok old_config =>
      (Ok record,
       {| cf_configs := cf_configs s1;
          cf_versions := cf_versions s ++ [{| vv_strategy_id := StrategyId.as_str strategy_id;
            vv_version := next_version; vv_config := config; vv_actor_id := actor_id;
            vv_correlation_id := correlation_id |}];
          cf_audit := cf_audit s ++ [{| ar_strategy_id := StrategyId.as_str strategy_id;
            ar_version := Some next_version; ar_old_config := old_config;
            ar_new_config := Some config; ar_actor_id := actor_id;
            ar_correlation_id := correlation_id |}] |})
  | Err e => (Err e, s)
  | Panic => (Panic, s)
  end.

(** ** Filling the table *)

(** crates/api/src/main.rs: a stored configuration is kept. *)
Fixpoint ensure_strategy_configs (now : Z) (defaults : list StrategyConfig) (s : ConfigStore)
    : result (list StrategyConfig) * ConfigStore :=
  match defaults with
  | [] => (Ok [], s)
  | config :: defaults =>
      let '(record, s) :=
        match get_strategy_config (sc_strategy_id config) s with
        | Some record => (record, s)
        | None => upsert_strategy_config now config s
        end in
      match strategy_config_from_record record with
      | Ok config =>
          match ensure_strategy_configs now defaults s with
          | (Ok configs, s) => (Ok (config :: configs), s)
          | (r, s) => (r, s)
          end
      | Err e => (Err e, s)
      | Panic => (Panic, s)
      end
  end.

(** crates/api/src/lib.rs, the function of the same name: every row is overwritten. *)
Fixpoint runner_ensure_strategy_configs (now : Z) (defaults : list StrategyConfig) (s : ConfigStore)
    : result (list StrategyConfig) * ConfigStore :=
  match defaults with
  | [] => (Ok [], s)
  | config :: defaults =>
      let '(record, s) := upsert_strategy_config now config s in
      match strategy_config_from_record record with
      | Ok config =>
          match runner_ensure_strategy_configs now defaults s with
          | (Ok configs, s) => (Ok (config :: configs), s)
          | (r, s) => (r, s)
          end
      | Err e => (Err e, s)
      | Panic => (Panic, s)
      end
  end.

(** [ensure_strategy_config]: the row of one strategy after all are ensured. *)
Definition ensure_with (ensure : ConfigStore -> result (list StrategyConfig) * ConfigStore)
    (strategy_id : StrategyId.t) (s : ConfigStore) : result StrategyConfig * ConfigStore :=
  match ensure s with
  | (Ok _, s) =>
      (match get_strategy_config strategy_id s with
       | Some record => strategy_config_from_record record
       | None => Err (CoreError.UnsupportedStrategyId "strategy config not found after initialization")
       end, s)
  | (Err e, s) => (Err e, s)
  | (Panic, s) => (Panic, s)
  end.
End ConfigStore.

(** ** Reading back what is stored *)

Section RoundTrip.
Context {DI : Decimal} {JS : Json} {DB : Database}.

(** What the columns keep of a configuration. *)
Definition kept_config (config : StrategyConfig) : StrategyConfig := {|
  sc_strategy_id := sc_strategy_id config;
  sc_enabled := sc_enabled config;
  sc_mode := sc_mode config;
  sc_symbols := sc_symbols config;
  sc_timeframe := sc_timeframe config;
  sc_suggested_notional := numeric (sc_suggested_notional config);
  sc_max_signal_age_ms := sc_max_signal_age_ms config;
  sc_cooldown_seconds := sc_cooldown_seconds config;
  sc_lookback_candles := sc_lookback_candles config;
  sc_trend_lookback_candles := sc_trend_lookback_candles config;
  sc_momentum_lookback_candles := sc_momentum_lookback_candles config;
  sc_compression_lookback_candles := sc_compression_lookback_candles config;
  sc_breakout_lookback_candles := sc_breakout_lookback_candles config;
  sc_pullback_lookback_candles := sc_pullback_lookback_candles config;
  sc_pullback_sma_lookback_candles := sc_pullback_sma_lookback_candles config;
  sc_compression_percentile_threshold := option_map numeric (sc_compression_percentile_threshold config);
  sc_min_breakout_pct := option_map numeric (sc_min_breakout_pct config);
  sc_max_breakout_extension_pct := option_map numeric (sc_max_breakout_extension_pct config);
  sc_min_volume_expansion_ratio := option_map numeric (sc_min_volume_expansion_ratio config);
  sc_lower_band_pct := option_map numeric (sc_lower_band_pct config);
  sc_upper_band_pct := option_map numeric (sc_upper_band_pct config);
  sc_min_range_width_pct := option_map numeric (sc_min_range_width_pct config);
  sc_max_range_width_pct := option_map numeric (sc_max_range_width_pct config);
  sc_min_close_above_sma_pct := option_map numeric (sc_min_close_above_sma_pct config);
  sc_max_close_above_sma_pct := option_map numeric (sc_max_close_above_sma_pct config);
  sc_min_momentum_return_pct := option_map numeric (sc_min_momentum_return_pct config);
  sc_min_trend_return_pct := option_map numeric (sc_min_trend_return_pct config);
  sc_min_trend_slope_pct := option_map numeric (sc_min_trend_slope_pct config);
  sc_min_pullback_depth_pct := option_map numeric (sc_min_pullback_depth_pct config);
  sc_max_pullback_depth_pct := option_map numeric (sc_max_pullback_depth_pct config);
  sc_min_reclaim_pct := option_map numeric (sc_min_reclaim_pct config);
  sc_min_breakdown_pct := option_map numeric (sc_min_breakdown_pct config);
  sc_min_reclaim_close_pct := option_map numeric (sc_min_reclaim_close_pct config);
  sc_min_lower_wick_pct := option_map numeric (sc_min_lower_wick_pct config);
  sc_min_volume_ratio := option_map numeric (sc_min_volume_ratio config);
  sc_max_choppiness := option_map numeric (sc_max_choppiness config);
  sc_confidence_floor := option_map numeric (sc_confidence_floor config);
  sc_stop_loss_pct := option_map numeric (sc_stop_loss_pct config);
  sc_take_profit_pct := option_map numeric (sc_take_profit_pct config);
  sc_holding_candles := sc_holding_candles config;
  sc_confirmation_candles := 0;
  sc_require_confirmation_close_above_lookback_low := false;
  sc_require_confirmation_low_above_breakdown_low := false;
  sc_notes := sc_notes config
|}.

(** The widths of the integer fields. *)
Definition integers_u32 (config : StrategyConfig) : Prop :=
  0 <= sc_cooldown_seconds config < 2 ^ 32 /\ lookbacks_u32 config /\
  match sc_holding_candles config with Some n => 0 <= n < 2 ^ 32 | None => True end.

(** A symbol as [Symbol::new] makes it, without the separator of the column. *)
Definition plain_symbol (symbol : Symbol) : Prop :=
  Symbol_new (symbol_text symbol) = Ok symbol /\
  Forall (fun c => c <> ","%char) (list_ascii_of_string (symbol_text symbol)).

Lemma split_on_word c w : Forall (fun a => a <> c) (list_ascii_of_string w) -> split_on c w = [w].
Proof.
  induction w as [|a w IH]; [done|]. cbn [list_ascii_of_string split_on].
  intros [Ha Hw]%Forall_cons. rewrite (proj2 (Ascii.eqb_neq a c) Ha). by rewrite IH.
Qed.

Lemma split_on_append c w rest : Forall (fun a => a <> c) (list_ascii_of_string w) ->
  split_on c (w ++ String c rest) = w :: split_on c rest.
Proof.
  induction w as [|a w IH]; cbn [list_ascii_of_string].
  - intros _. change ("" +:+ String c rest) with (String c rest). cbn. by rewrite Ascii.eqb_refl.
  - intros [Ha Hw]%Forall_cons.
    change (String a w +:+ String c rest) with (String a (w +:+ String c rest)). cbn [split_on].
    rewrite (proj2 (Ascii.eqb_neq a c) Ha). by rewrite IH.
Qed.

Lemma split_join words : words <> [] ->
  Forall (fun w => Forall (fun c => c <> ","%char) (list_ascii_of_string w)) words ->
  split_on "," (join "," words) = words.
Proof.
  induction words as [|w words IH]; [done|]. intros _ [Hw Hws]%Forall_cons.
  destruct words as [|w' words]; [by apply split_on_word|].
  change (join "," (w :: w' :: words)) with (w ++ String "," (join "," (w' :: words)))%string.
  rewrite split_on_append by done. by rewrite IH.
Qed.

Lemma symbol_not_blank symbol : Symbol_new (symbol_text symbol) = Ok symbol ->
  is_empty (trim (symbol_text symbol)) = false.
Proof.
  unfold Symbol_new. destruct (is_empty (to_ascii_uppercase _)) eqn:E; [done|]. intros _.
  by destruct (trim (symbol_text symbol)).
Qed.

(** The column of the symbols gives them back. *)
Lemma symbols_read_back symbols : symbols <> [] -> Forall plain_symbol symbols ->
  collect_res Symbol_new (List.filter (fun value => negb (is_empty (trim value)))
    (split_on "," (join "," (map symbol_text symbols)))) = Ok symbols.
Proof.
  intros Hne Hs. rewrite split_join; [|by destruct symbols|].
  2: { rewrite Forall_map. eapply Forall_impl; [exact Hs|]. by intros symbol [_ H]. }
  clear Hne. induction Hs as [|symbol symbols [Hn _] _ IH]; [done|]. cbn [map List.filter].
  rewrite (symbol_not_blank _ Hn). cbn [negb collect_res]. rewrite Hn. cbn [mbind res_bind].
  by rewrite IH.
Qed.

Lemma u32_as_i32 n : 0 <= n < 2 ^ 32 -> as_u32 (wrap_i32 n) = n.
Proof.
  intros H. unfold as_u32, wrap_i32. destruct (Z.lt_ge_cases n (2 ^ 31)).
  - rewrite (Z.mod_small (n + 2 ^ 31)) by lia. rewrite Z.mod_small; lia.
  - replace ((n + 2 ^ 31) mod 2 ^ 32) with (n - 2 ^ 31)
      by (apply (Z.mod_unique_pos _ _ 1); lia).
    replace (n - 2 ^ 31 - 2 ^ 31) with (n + (-1) * 2 ^ 32) by lia.
    rewrite Z.mod_add by lia. rewrite Z.mod_small; lia.
Qed.

Lemma option_u32_as_i32 o : match o with Some n => 0 <= n < 2 ^ 32 | None => True end ->
  option_map as_u32 (option_map wrap_i32 o) = o.
Proof. destruct o; [|done]. intros H. cbn. by rewrite u32_as_i32. Qed.

Lemma record_read_back config version created_at now :
  integers_u32 config -> sc_symbols config <> [] -> Forall plain_symbol (sc_symbols config) ->
  strategy_config_from_record (strategy_config_record config version created_at now) =
  (_ ← StrategyConfig_validate (kept_config config); Ok (kept_config config)).
Proof.
  intros (Hc & (Hl & Hls) & Hh) Hne Hs. rewrite !Forall_cons in Hls.
  destruct Hls as (H1 & H2 & H3 & H4 & H5 & H6 & _).
  unfold strategy_config_from_record, strategy_config_record.
  cbn [scr_symbols scr_strategy_id scr_mode scr_timeframe].
  rewrite symbols_read_back by done. cbn [mbind res_bind].
  rewrite (from_str_print (as_str := StrategyId.as_str)). cbn [mbind res_bind].
  rewrite (from_str_print (as_str := StrategyMode.as_str)). cbn [mbind res_bind].
  rewrite (from_str_print (as_str := CandleInterval.as_str)). cbn [mbind res_bind].
  unfold kept_config.
  cbn [scr_enabled scr_suggested_notional scr_max_signal_age_ms scr_cooldown_seconds
    scr_lookback_candles scr_trend_lookback_candles scr_momentum_lookback_candles
    scr_compression_lookback_candles scr_breakout_lookback_candles scr_pullback_lookback_candles
    scr_pullback_sma_lookback_candles scr_holding_candles].
  by rewrite !u32_as_i32, !option_u32_as_i32 by done.
Qed.
End RoundTrip.

(** ** Theorems *)

Section StoreTheorems.
Context {DI : Decimal} {JS : Json} {DB : Database}.
Implicit Types (s : ConfigStore) (config : StrategyConfig).

(** Nothing of the configuration is rounded away or dropped by the columns. *)
Definition fits_columns config : Prop :=
  numeric (sc_suggested_notional config) = sc_suggested_notional config /\
  Forall (fun o => option_map numeric o = o)
    [sc_compression_percentile_threshold config; sc_min_breakout_pct config;
     sc_max_breakout_extension_pct config; sc_min_volume_expansion_ratio config;
     sc_lower_band_pct config; sc_upper_band_pct config; sc_min_range_width_pct config;
     sc_max_range_width_pct config; sc_min_close_above_sma_pct config;
     sc_max_close_above_sma_pct config; sc_min_momentum_return_pct config;
     sc_min_trend_return_pct config; sc_min_trend_slope_pct config;
     sc_min_pullback_depth_pct config; sc_max_pullback_depth_pct config;
     sc_min_reclaim_pct config; sc_min_breakdown_pct config; sc_min_reclaim_close_pct config;
     sc_min_lower_wick_pct config; sc_min_volume_ratio config; sc_max_choppiness config;
     sc_confidence_floor config; sc_stop_loss_pct config; sc_take_profit_pct config] /\
  sc_confirmation_candles config = 0 /\
  sc_require_confirmation_close_above_lookback_low config = false /\
  sc_require_confirmation_low_above_breakdown_low config = false.

Lemma kept_config_id config : fits_columns config -> kept_config config = config.
Proof.
  intros (Hn & Hd & H1 & H2 & H3). rewrite !Forall_cons in Hd.
  repeat match type of Hd with _ /\ _ => destruct Hd as [? Hd] end.
  destruct config. unfold kept_config. cbn in *. by f_equal.
Qed.

(** C16.  A stored configuration reads back: the row of a valid configuration, with 32-bit
    integers and symbols that hold no comma, is read as the same configuration with its
    decimals at eight places and its three confirmation settings reset (they have no
    column), unless its notional vanishes in the column, which makes the row unreadable;
    a configuration that fits the columns comes back unchanged. *)
Theorem stored_config_reads_back config version created_at now :
  StrategyConfig_validate config = Ok tt -> integers_u32 config ->
  Forall plain_symbol (sc_symbols config) ->
  strategy_config_from_record (strategy_config_record config version created_at now) =
    (if (numeric (sc_suggested_notional config) <=? ZERO)%dec then Err CoreError.InvalidStrategyNotional
     else Ok (kept_config config)) /\
  (fits_columns config -> kept_config config = config).
Proof.
  intros Hv Hu Hs. split; [|apply kept_config_id].
  revert Hv. unfold StrategyConfig_validate. destruct (sc_suggested_notional config <=? ZERO)%dec; [done|].
  destruct (sc_max_signal_age_ms config <=? 0) eqn:Hage; [done|].
  destruct (sc_symbols config) as [|symbol symbols] eqn:Hsym; [done|]. intros _.
  rewrite record_read_back; [|done|by rewrite Hsym|by rewrite Hsym].
  unfold StrategyConfig_validate. cbn [kept_config sc_suggested_notional sc_max_signal_age_ms sc_symbols].
  rewrite Hage, Hsym. by destruct (numeric _ <=? ZERO)%dec.
Qed.

(** ** Lookups and upserts *)

Definition stored_for (strategy_id : StrategyId.t) (row : StrategyConfigRecord) : bool :=
  String.eqb (scr_strategy_id row) (StrategyId.as_str strategy_id).

Lemma stored_for_record strategy_id config version created_at now :
  stored_for strategy_id (strategy_config_record config version created_at now) =
  bool_decide (sc_strategy_id config = strategy_id).
Proof.
  unfold stored_for. cbn [scr_strategy_id strategy_config_record].
  apply eq_true_iff_eq. rewrite String.eqb_eq, bool_decide_eq_true. split; [|congruence].
  apply (as_str_injective (as_str := StrategyId.as_str)).
Qed.

(** Replacing the rows that match, or adding one. *)
Definition upsert_row {A} (same : A -> bool) (row : A) (rows : list A) : list A :=
  if existsb same rows then map (fun other => if same other then row else other) rows
  else rows ++ [row].

Lemma upsert_row_find {A} (same : A -> bool) row rows : same row = true ->
  find same (upsert_row same row rows) = Some row.
Proof.
  intros Hrow. unfold upsert_row. destruct (existsb same rows) eqn:E.
  - induction rows as [|other rows IH]; [done|]. cbn [existsb map find] in *.
    destruct (same other) eqn:Eo; [by rewrite Hrow|]. rewrite Eo. by apply IH.
  - induction rows as [|other rows IH]; cbn [existsb app find] in *; [by rewrite Hrow|].
    apply orb_false_iff in E as [-> E]. by apply IH.
Qed.

Lemma upsert_row_other {A} (same same' : A -> bool) row rows :
  (forall other, same other = true -> same' other = false) -> same' row = false ->
  find same' (upsert_row same row rows) = find same' rows.
Proof.
  intros Hd Hrow. unfold upsert_row. destruct (existsb same rows).
  - induction rows as [|other rows IH]; [done|]. cbn [map find].
    destruct (same other) eqn:Eo; [by rewrite Hrow, (Hd other Eo)|]. by rewrite IH.
  - induction rows as [|other rows IH]; cbn [app find]; [by rewrite Hrow|]. by rewrite IH.
Qed.

(** After an upsert the row of the strategy is the new one. *)
Lemma upsert_lookup now config version s record s' :
  upsert_strategy_config_tx now config version s = (record, s') ->
  get_strategy_config (sc_strategy_id config) s' = Some record /\
  (exists created_at, record = strategy_config_record config version created_at now) /\
  cf_configs s' = upsert_row (stored_for (sc_strategy_id config)) record (cf_configs s) /\
  cf_versions s' = cf_versions s /\ cf_audit s' = cf_audit s.
Proof.
  unfold upsert_strategy_config_tx. set (created_at := match _ with Some _ => _ | None => _ end).
  intros [= <- <-]. split; [|by split; [exists created_at|]].
  apply (upsert_row_find (stored_for (sc_strategy_id config))). apply String.eqb_refl.
Qed.

Lemma upsert_lookup_other now config version s record s' strategy_id :
  upsert_strategy_config_tx now config version s = (record, s') ->
  sc_strategy_id config <> strategy_id ->
  get_strategy_config strategy_id s' = get_strategy_config strategy_id s.
Proof.
  intros (_ & (created_at & ->) & Hrows & _)%upsert_lookup Hid. unfold get_strategy_config. rewrite Hrows.
  apply upsert_row_other.
  - intros other. unfold stored_for. rewrite String.eqb_eq, String.eqb_neq. intros -> H.
    by apply (as_str_injective (as_str := StrategyId.as_str)) in H.
  - change (stored_for strategy_id (strategy_config_record config version created_at now) = false).
    rewrite stored_for_record. by apply bool_decide_eq_false.
Qed.

(** ** Filling the table *)

(** [s'] is [s] with rows for some of the configurations that had none. *)
Definition only_added now (defaults : list StrategyConfig) s s' : Prop :=
  exists added, cf_configs s' = cf_configs s ++ added /\
    cf_versions s' = cf_versions s /\ cf_audit s' = cf_audit s /\
    Forall (fun row => exists config, In config defaults /\
      get_strategy_config (sc_strategy_id config) s = None /\
      row = strategy_config_record config 1 now now) added.

Lemma only_added_refl now defaults s : only_added now defaults s s.
Proof. exists []. by rewrite app_nil_r. Qed.

Lemma only_added_trans now defaults s s1 s' :
  only_added now defaults s s1 -> only_added now defaults s1 s' -> only_added now defaults s s'.
Proof.
  intros (a1 & H1 & Hv1 & Ha1 & F1) (a2 & H2 & Hv2 & Ha2 & F2). exists (a1 ++ a2).
  split; [by rewrite H2, H1, app_assoc|]. split; [congruence|]. split; [congruence|].
  apply Forall_app. split; [done|]. eapply Forall_impl; [exact F2|].
  intros row (config & Hin & Hnone & ->). exists config. split; [done|]. split; [|done].
  revert Hnone. unfold get_strategy_config. rewrite H1. clear.
  induction (cf_configs s) as [|row rows IH]; [done|]. cbn [app find]. by case_match.
Qed.

Lemma upsert_missing now config s record s' :
  get_strategy_config (sc_strategy_id config) s = None ->
  upsert_strategy_config now config s = (record, s') ->
  record = strategy_config_record config 1 now now /\ s' = with_configs (cf_configs s ++ [record]) s.
Proof.
  unfold upsert_strategy_config, upsert_strategy_config_tx. intros Hnone. rewrite Hnone. intros [= <- <-].
  split; [done|]. set (row := strategy_config_record _ _ _ _).
  assert (existsb (stored_for (sc_strategy_id config)) (cf_configs s) = false) as H.
  { apply not_true_is_false. intros (other & Hin & H)%existsb_exists.
    by pose proof (find_none _ _ Hnone other Hin) as Hf; unfold stored_for in H; rewrite Hf in H. }
  unfold stored_for in H. change (scr_strategy_id row) with (StrategyId.as_str (sc_strategy_id config)).
  by rewrite H.
Qed.

Lemma ensure_only_adds now all defaults s r s' : incl defaults all ->
  ensure_strategy_configs now defaults s = (r, s') -> only_added now all s s'.
Proof.
  revert s r s'. induction defaults as [|config defaults IH]; intros s r s' Hincl; cbn [ensure_strategy_configs].
  { intros [= <- <-]. apply only_added_refl. }
  destruct (match get_strategy_config (sc_strategy_id config) s with Some _ => _ | None => _ end)
    as [record s1] eqn:E.
  assert (only_added now all s s1) as H1.
  { destruct (get_strategy_config (sc_strategy_id config) s) eqn:Eg.
    - injection E as _ <-. apply only_added_refl.
    - apply upsert_missing in E as [-> ->]; [|done]. eexists. split; [reflexivity|]. do 2 (split; [done|]).
      constructor; [|constructor]. exists config. split; [apply Hincl; by left|done]. }
  destruct (strategy_config_from_record record); [|by intros [= _ <-]..].
  destruct (ensure_strategy_configs now defaults s1) as [r2 s2] eqn:E2.
  apply IH in E2; [|intros x Hx; apply Hincl; by right].
  assert (only_added now all s s2) by (by eapply only_added_trans). destruct r2; by intros [= _ <-].
Qed.

(** Nothing but missing rows is written by the API: whatever its outcome, filling the table
    with the defaults leaves every stored row as it was, in its place, and adds rows only for
    strategies that had none, made of their default. *)
Theorem ensure_keeps_stored_configs now defaults s :
  only_added now defaults s (snd (ensure_strategy_configs now defaults s)).
Proof.
  destruct (ensure_strategy_configs now defaults s) as [r s'] eqn:E.
  eapply ensure_only_adds; [apply incl_refl|exact E].
Qed.

(** The shadow runner resets every strategy: after it filled the table, whatever was stored
    before, the row of each default strategy is made of the default, so a strategy an operator
    disabled is enabled again. *)
Theorem runner_resets_stored_configs now defaults s configs s' :
  NoDup (map sc_strategy_id defaults) ->
  runner_ensure_strategy_configs now defaults s = (Ok configs, s') ->
  Forall (fun config => exists version created_at,
    get_strategy_config (sc_strategy_id config) s' =
    Some (strategy_config_record config version created_at now)) defaults.
Proof.
  intros Hnd. revert s configs s'.
  assert (forall defaults s r s' strategy_id, runner_ensure_strategy_configs now defaults s = (r, s') ->
    ~ In strategy_id (map sc_strategy_id defaults) ->
    get_strategy_config strategy_id s' = get_strategy_config strategy_id s) as Hother.
  { clear. intros defaults. induction defaults as [|config defaults IH]; intros s r s' strategy_id;
      cbn [runner_ensure_strategy_configs map].
    { by intros [= <- <-]. }
    intros H Hnot. revert H. destruct (upsert_strategy_config now config s) as [record s1] eqn:E.
    assert (get_strategy_config strategy_id s1 = get_strategy_config strategy_id s) as <-.
    { eapply upsert_lookup_other; [exact E|]. intros <-. apply Hnot. by left. }
    destruct (strategy_config_from_record record); [|by intros [= _ <-]..].
    destruct (runner_ensure_strategy_configs now defaults s1) as [r2 s2] eqn:E2.
    apply (IH _ _ _ strategy_id) in E2; [|intros Hin; apply Hnot; by right].
    destruct r2; by intros [= _ <-]. }
  induction defaults as [|config defaults IH]; intros s configs s'; [constructor|].
  cbn [map runner_ensure_strategy_configs] in *. apply NoDup_cons in Hnd as [Hnot Hnd].
  rewrite list_elem_of_In in Hnot.
  destruct (upsert_strategy_config now config s) as [record s1] eqn:E.
  destruct (strategy_config_from_record record); [|done..].
  destruct (runner_ensure_strategy_configs now defaults s1) as [[cs| |] s2] eqn:E2; [|done..].
  intros [= <- <-]. constructor; [|by eapply IH].
  rewrite (Hother _ _ _ _ _ E2 Hnot). apply upsert_lookup in E as (-> & (created_at & ->) & _). eauto.
Qed.

(** A row that cannot be read is stuck, and stops every strategy: while the row of a
    strategy is unreadable, no new configuration of it can be stored, so it stays, and with
    the strategy among the defaults filling the table fails, which every use of any
    configuration does first. *)
Theorem unreadable_config_is_stuck now record e s strategy_id :
  get_strategy_config strategy_id s = Some record ->
  strategy_config_from_record record = Err e ->
  (forall config actor_id correlation_id, sc_strategy_id config = strategy_id ->
     persist_strategy_config_version now config actor_id correlation_id s = (Err e, s)) /\
  (forall defaults, In strategy_id (map sc_strategy_id defaults) ->
     forall configs, fst (ensure_strategy_configs now defaults s) <> Ok configs).
Proof.
  intros Hrow He. split.
  - intros config actor_id correlation_id <-. unfold persist_strategy_config_version.
    rewrite Hrow. destruct (upsert_strategy_config_tx _ _ _ s) as [record' s1]. by rewrite He.
  - intros defaults. revert s Hrow. induction defaults as [|config defaults IH]; [done|].
    intros s Hrow Hin configs. cbn [ensure_strategy_configs].
    destruct (match get_strategy_config (sc_strategy_id config) s with Some _ => _ | None => _ end)
      as [record1 s1] eqn:E.
    destruct (decide (sc_strategy_id config = strategy_id)) as [Heq|Hne].
    { rewrite Heq, Hrow in E. injection E as <- <-. by rewrite He. }
    destruct Hin as [Hin|Hin]; [done|].
    assert (get_strategy_config strategy_id s1 = Some record) as Hrow1.
    { rewrite <- Hrow. destruct (get_strategy_config (sc_strategy_id config) s).
      - by injection E as _ <-.
      - by eapply upsert_lookup_other. }
    destruct (strategy_config_from_record record1); [|done..].
    specialize (IH s1 Hrow1 Hin). destruct (ensure_strategy_configs now defaults s1) as [[cs| |] s2];
      cbn in *; [|done..]. by destruct (IH cs).
Qed.

(** ** Versions *)

Lemma persisted_version_above strategy_id s row : In row (cf_versions s) ->
  vv_strategy_id row = StrategyId.as_str strategy_id -> vv_version row <= persisted_version strategy_id s.
Proof.
  intros Hin Hid. unfold persisted_version. set (rows := map vv_version _).
  assert (In (vv_version row) rows) as Hr.
  { apply in_map, filter_In. split; [done|]. by apply String.eqb_eq. }
  destruct (iter_max_some Z.leb rows) as [m Hm]; [by intros H; rewrite H in Hr|]. rewrite Hm. cbn.
  apply Z.leb_le. refine (proj2 (iter_max_spec Z.leb _ _ rows m Hm) _ Hr).
  - intros x y. destruct (Z.leb_spec x y), (Z.leb_spec y x); lia || auto.
  - intros x y z. rewrite !Z.leb_le. lia.
Qed.

Lemma next_version_above config s :
  let existing := get_strategy_config (sc_strategy_id config) s in
  let next := i32_add (Z.max (match existing with Some record => scr_current_version record | None => 0 end)
                             (persisted_version (sc_strategy_id config) s)) 1 in
  0 <= persisted_version (sc_strategy_id config) s < i32_max ->
  (forall record, existing = Some record -> 0 <= scr_current_version record < i32_max) ->
  (forall record, existing = Some record -> scr_current_version record < next) /\
  forall row, In row (cf_versions s) ->
    vv_strategy_id row = StrategyId.as_str (sc_strategy_id config) -> vv_version row < next.
Proof.
  cbn zeta. intros Hp He. set (current := match _ with Some _ => _ | None => _ end).
  assert (0 <= current < i32_max) as Hc.
  { subst current. destruct (get_strategy_config _ s); [by apply He|done]. }
  unfold i32_add. unfold i32_max in *. rewrite wrap_i32_id by lia. split.
  - intros record Hr. subst current. rewrite Hr in *. lia.
  - intros row Hin Hid. pose proof (persisted_version_above _ _ _ Hin Hid). lia.
Qed.

(** Storing a configuration on every branch: with an unreadable row it fails and nothing is
    written; otherwise the row of the strategy is the configuration with the new version, the
    rows of the other strategies stay, and one version and one audit entry are appended, the
    entry with what was stored before.  The new version is above every earlier one of the
    strategy (below the limit of 32 bits). *)
Theorem persist_strategy_config_spec now config actor_id correlation_id s :
  let strategy_id := sc_strategy_id config in
  let run := persist_strategy_config_version now config actor_id correlation_id s in
  let old := match get_strategy_config strategy_id s with
             | Some existing => config ← strategy_config_from_record existing; Ok (Some config)
             | None => Ok None
             end in
  match old with
  | Ok old =>
      exists record s', run = (Ok record, s') /\
        get_strategy_config strategy_id s' = Some record /\
        (exists created_at, record =
           strategy_config_record config (scr_current_version record) created_at now) /\
        (forall other, other <> strategy_id ->
           get_strategy_config other s' = get_strategy_config other s) /\
        cf_versions s' = cf_versions s ++
          [{| vv_strategy_id := StrategyId.as_str strategy_id;
              vv_version := scr_current_version record; vv_config := config;
              vv_actor_id := actor_id; vv_correlation_id := correlation_id |}] /\
        cf_audit s' = cf_audit s ++
          [{| ar_strategy_id := StrategyId.as_str strategy_id;
              ar_version := Some (scr_current_version record); ar_old_config := old;
              ar_new_config := Some config; ar_actor_id := actor_id;
              ar_correlation_id := correlation_id |}] /\
        (0 <= persisted_version strategy_id s < i32_max ->
         (forall existing, get_strategy_config strategy_id s = Some existing ->
            0 <= scr_current_version existing < i32_max) ->
         (forall existing, get_strategy_config strategy_id s = Some existing ->
            scr_current_version existing < scr_current_version record) /\
         forall row, In row (cf_versions s) -> vv_strategy_id row = StrategyId.as_str strategy_id ->
           vv_version row < scr_current_version record)
  | Err e => run = (Err e, s)
  | Panic => run = (Panic, s)
  end.
Proof.
  cbn zeta. unfold persist_strategy_config_version. set (old := match _ with Some _ => _ | None => _ end).
  set (version := i32_add _ 1). destruct (upsert_strategy_config_tx now config version s) as [record s1] eqn:E.
  pose proof (fun other => upsert_lookup_other now config version s record s1 other E) as Hother.
  apply upsert_lookup in E as (Hg & (created_at & ->) & _ & Hv & Ha).
  destruct old as [old|e|]; [|done..]. eexists _, _. split; [reflexivity|].
  change (scr_current_version (strategy_config_record config version created_at now)) with version.
  split; [exact Hg|]. split; [by exists created_at|].
  split; [intros other Hne; apply Hother; congruence|]. split; [done|]. split; [done|].
  intros Hp He. destruct (next_version_above config s Hp He) as [H1 H2]. by split.
Qed.
End StoreTheorems.

(** ** The defaults *)

Section DefaultFacts.
Context {DI : Decimal} {DL : DecimalLaws DI}.

Lemma defaults_sane symbols timeframe notional momentum breakout :
  Forall (fun config => sc_symbols config = symbols /\ sc_suggested_notional config = notional /\
      0 < sc_max_signal_age_ms config /\ sc_enabled config = true /\
      (1 <= momentum -> 1 <= breakout -> degenerate_lookback config = false))
    (build_default_strategy_configs symbols timeframe notional momentum breakout).
Proof.
  repeat constructor; try (by destruct timeframe); intros Hm Hb;
    unfold degenerate_lookback, breakout_lookback; cbn; try done; by apply Z.eqb_neq; lia.
Qed.

(** The defaults are a full set of usable configurations: one per strategy, enabled, valid
    for every non-empty list of symbols and every positive notional, and, with lookbacks of
    at least one candle, none of those on which its strategy panics. *)
Theorem default_configs_usable symbols timeframe notional momentum breakout :
  symbols <> [] -> (0 < dval notional)%Q -> 1 <= momentum -> 1 <= breakout ->
  let defaults := build_default_strategy_configs symbols timeframe notional momentum breakout in
  map sc_strategy_id defaults = StrategyId.variants /\
  Forall (fun config => StrategyConfig_validate config = Ok tt /\ sc_enabled config = true /\
    degenerate_lookback config = false) defaults.
Proof.
  intros Hs Hn Hm Hb. split; [reflexivity|].
  eapply Forall_impl; [apply (defaults_sane symbols timeframe notional momentum breakout)|].
  intros config (Hsym & Hnot & Hage & Hen & Hdeg). split; [|by split; [|apply Hdeg]].
  apply config_valid; [by rewrite Hnot|done|by rewrite Hsym].
Qed.
End DefaultFacts.

Module StrategyStoreSample.
#[local] Existing Instance ExactDecimal.
#[local] Existing Instance PlainJson.
#[local] Existing Instance PlainDatabase.

Definition btc : Symbol := {| symbol_text := "BTCUSDT" |}.
Definition eth : Symbol := {| symbol_text := "ETHUSDT" |}.
Definition defaults : list StrategyConfig :=
  build_default_strategy_configs [btc; eth] CandleInterval.OneMinute (dint 100) 3 20.
Definition no_rows : ConfigStore := {| cf_configs := []; cf_versions := []; cf_audit := [] |}.

Definition momentum (enabled : bool) (notional : dec) : StrategyConfig :=
  let config := default_momentum_v1 [btc; eth] CandleInterval.OneMinute notional 120000 3 in
  {| sc_strategy_id := sc_strategy_id config; sc_enabled := enabled; sc_mode := sc_mode config;
     sc_symbols := sc_symbols config; sc_timeframe := sc_timeframe config;
     sc_suggested_notional := notional; sc_max_signal_age_ms := sc_max_signal_age_ms config;
     sc_cooldown_seconds := 900; sc_lookback_candles := 3; sc_trend_lookback_candles := None;
     sc_momentum_lookback_candles := Some 4294967295; sc_compression_lookback_candles := None;
     sc_breakout_lookback_candles := None; sc_pullback_lookback_candles := None;
     sc_pullback_sma_lookback_candles := None; sc_compression_percentile_threshold := None;
     sc_min_breakout_pct := None; sc_max_breakout_extension_pct := None;
     sc_min_volume_expansion_ratio := None; sc_lower_band_pct := None; sc_upper_band_pct := None;
     sc_min_range_width_pct := None; sc_max_range_width_pct := None;
     sc_min_close_above_sma_pct := None; sc_max_close_above_sma_pct := None;
     sc_min_momentum_return_pct := None; sc_min_trend_return_pct := None;
     sc_min_trend_slope_pct := None; sc_min_pullback_depth_pct := None;
     sc_max_pullback_depth_pct := None; sc_min_reclaim_pct := None; sc_min_breakdown_pct := None;
     sc_min_reclaim_close_pct := None; sc_min_lower_wick_pct := None; sc_min_volume_ratio := None;
     sc_max_choppiness := None; sc_confidence_floor := Some (dnew 6 1); sc_stop_loss_pct := None;
     sc_take_profit_pct := None; sc_holding_candles := Some 3; sc_confirmation_candles := 0;
     sc_require_confirmation_close_above_lookback_low := false;
     sc_require_confirmation_low_above_breakdown_low := false; sc_notes := None |}.

(** A store in which momentum is disabled, and one in which its notional vanished. *)
Definition disabled : ConfigStore :=
  snd (persist_strategy_config_version 5 (momentum false (dint 50)) None 1 no_rows).
Definition vanished : ConfigStore :=
  snd (persist_strategy_config_version 5 (momentum true (dnew 1 9)) None 1 no_rows).

Definition enabled_after (run : result (list StrategyConfig) * ConfigStore) : option bool :=
  option_map scr_enabled (get_strategy_config StrategyId.MomentumV1 (snd run)).

Example api_keeps_it_disabled :
  enabled_after (ensure_strategy_configs 9 defaults disabled) = Some false.
Proof. vm_compute. reflexivity. Qed.
Example runner_enables_it :
  enabled_after (runner_ensure_strategy_configs 9 defaults disabled) = Some true.
Proof. vm_compute. reflexivity. Qed.

Lemma plain_symbols : Forall plain_symbol [btc; eth].
Proof. repeat constructor; discriminate. Qed.
Lemma stored_momentum_u32 enabled notional : integers_u32 (momentum enabled notional).
Proof.
  unfold integers_u32, lookbacks_u32. cbn. repeat first [split | apply Forall_cons | apply Forall_nil]; lia.
Qed.

(** A lookback of 2^32 - 1 goes through a signed column and comes back. *)
Example stored_config_reads_back_witness :
  strategy_config_from_record (strategy_config_record (momentum false (dint 50)) 3 5 5) =
  Ok (kept_config (momentum false (dint 50))) /\
  sc_momentum_lookback_candles (kept_config (momentum false (dint 50))) = Some 4294967295.
Proof.
  split; [|reflexivity].
  rewrite (proj1 (stored_config_reads_back (momentum false (dint 50)) 3 5 5 eq_refl
    (stored_momentum_u32 false (dint 50)) plain_symbols)).
  reflexivity.
Defined.

Example runner_resets_stored_configs_witness :
  exists s' row, get_strategy_config StrategyId.MomentumV1 s' = Some row /\
    scr_enabled row = true /\
    enabled_after (Ok [], disabled) = Some false.
Proof.
  destruct (runner_ensure_strategy_configs 9 defaults disabled) as [r s'] eqn:E.
  assert (match r with Ok _ => true | _ => false end = true) as Hr.
  { replace r with (fst (runner_ensure_strategy_configs 9 defaults disabled)) by (by rewrite E).
    vm_compute. reflexivity. }
  destruct r as [configs| |]; [|discriminate Hr..].
  assert (NoDup (map sc_strategy_id defaults)) as Hnd by (apply (bool_decide_unpack _); vm_compute; exact I).
  pose proof (runner_resets_stored_configs 9 defaults disabled configs s' Hnd E) as H.
  apply Forall_cons in H as [(version & created_at & H) _]. exists s'. eexists. split; [exact H|].
  split; [reflexivity|]. vm_compute. reflexivity.
Defined.

Example unreadable_config_is_stuck_witness :
  exists e, fst (persist_strategy_config_version 7 (momentum true (dint 50)) None 2 vanished) = Err e /\
    forall configs, fst (ensure_strategy_configs 9 defaults vanished) <> Ok configs.
Proof.
  destruct (get_strategy_config StrategyId.MomentumV1 vanished) as [record|] eqn:Hg; [|discriminate Hg].
  assert (match get_strategy_config StrategyId.MomentumV1 vanished with
          | Some record => match strategy_config_from_record record with Err _ => true | _ => false end
          | None => false end = true) as H by (vm_compute; reflexivity).
  rewrite Hg in H. destruct (strategy_config_from_record record) as [|e|] eqn:He; [discriminate H| |discriminate H].
  destruct (unreadable_config_is_stuck 7 record e vanished StrategyId.MomentumV1 Hg He) as [H1 _].
  destruct (unreadable_config_is_stuck 9 record e vanished StrategyId.MomentumV1 Hg He) as [_ H2].
  exists e. split; [by rewrite (H1 (momentum true (dint 50)) None 2 eq_refl)|]. apply H2. left. reflexivity.
Defined.

Example default_configs_usable_witness :
  Forall (fun config => StrategyConfig_validate config = Ok tt /\ sc_enabled config = true /\
    degenerate_lookback config = false) defaults.
Proof.
  refine (proj2 (default_configs_usable (DL := ExactDecimalLaws) [btc; eth] CandleInterval.OneMinute
    (dint 100) 3 20 _ _ _ _)); [discriminate|reflexivity|lia|lia].
Defined.
End StrategyStoreSample.
