(* ===== verification/ShadowRun.v ===== *)
(** * Shadow runs

    crates/api/src/testnet_shadow.rs: one observation of what a strategy would have
    submitted to the testnet.  A run reads the kill switch, the configuration, the
    feed and the candles, consults the strategy, stores its signal, has the risk rules
    decide, resolves a price, and records the outcome; nothing is submitted.

    The first part of a run works on the tables of PaperStore.v, the record and its
    link to a research candidate on [ShadowStore].  What is read elsewhere is a
    [ShadowEnv].  Audit rows, telemetry and the payloads of events are left out. *)

From Stdlib Require Import ZArith QArith Qabs Lqa Lia List String.
From stdpp Require Import base list strings.
From S2P Require Import Prelude Text Host Types ShadowTypes MarketData DataQuality Risk PaperOrder Accounting Strategy PaperStore RiskState Pipeline StrategyStore.

#[local] Open Scope Z_scope.

Record ResolvedPrice {DI : Decimal} := {
  rp_source : string;
  rp_price : dec
}.

Record TestnetShadowIntent {DI : Decimal} := {
  ti_exchange : ExchangeName.t;
  ti_environment : ExchangeEnvironment.t;
  ti_symbol : Symbol;
  ti_side : ExchangeOrderSide.t;
  ti_order_type : ExchangeOrderType.t;
  ti_time_in_force : option ExchangeOrderTimeInForce.t;
  ti_quantity : option dec;
  ti_quote_notional : option dec;
  ti_limit_price : option dec;
  ti_risk_decision_id : option Z
}.

Record TestnetShadowRunRequest := {
  sq_strategy_id : string;
  sq_symbol : string;
  sq_timeframe : string;
  sq_correlation_id : option Z
}.

(** [ShadowValidation] and [ShadowConflict] by their code; any other failure by its context. *)
Inductive ShadowRunError :=
  | ShadowValidation (code : string)
  | ShadowConflict (code candidate_linking_result : string)
  | ShadowUnexpected (context : string).

Module ShadowRunCandidateMatchOutcome.
Inductive t :=
  | NotFound
  | Matched (candidate_id : Z)
  | Ambiguous.
End ShadowRunCandidateMatchOutcome.

Section Outcome.
Context {DI : Decimal}.

Record ShadowOutcomePlan := {
  pl_decision : TestnetShadowDecision.t;
  pl_status : TestnetShadowStatus.t;
  pl_signal_id : option Z;
  pl_risk_decision_id : option Z;
  pl_would_submit_order : option TestnetShadowIntent;
  pl_reasons : list TestnetShadowRejectionReason.t;
  pl_price_source : option string;
  pl_resolved_price : option dec
}.

Record ShadowEvaluationInput := {
  si_kill_switch_active : bool;
  si_strategy_enabled : bool;
  si_required_feed_block : option TestnetShadowRejectionReason.t;
  si_feed_warning : option TestnetShadowRejectionReason.t;
  si_candle_block : option TestnetShadowRejectionReason.t;
  si_timeframe_matches : bool;
  si_signal : option StrategySignal;
  si_signal_reason : SignalReason.t;
  si_risk_decision_id : option Z;
  si_risk_decision : option RiskEvaluationDecision.t;
  si_risk_reasons : list RiskRejectionReason.t;
  si_price : option ResolvedPrice;
  si_approved_notional : option dec
}.

Definition signal_reason_to_shadow_reasons (reason : SignalReason.t)
    : list TestnetShadowRejectionReason.t :=
  match reason with
  | SignalReason.ConditionsNotMet => [TestnetShadowRejectionReason.ConditionsNotMet]
  | SignalReason.InsufficientHistory => [TestnetShadowRejectionReason.InsufficientHistory]
  | SignalReason.StrategyDisabled => [TestnetShadowRejectionReason.StrategyDisabled]
  | _ => [TestnetShadowRejectionReason.NoSignal]
  end.

Definition risk_reason_to_shadow_reason (reason : RiskRejectionReason.t)
    : TestnetShadowRejectionReason.t :=
  let code := reason_code reason in
  if String.eqb code "kill_switch_active" then TestnetShadowRejectionReason.KillSwitchActive
  else if String.eqb code "max_open_positions_exceeded"
  then TestnetShadowRejectionReason.MaxOpenPositionsExceeded
  else if String.eqb code "max_daily_loss_exceeded"
  then TestnetShadowRejectionReason.MaxDailyLossExceeded
  else if String.eqb code "max_weekly_loss_exceeded"
  then TestnetShadowRejectionReason.MaxWeeklyLossExceeded
  else if String.eqb code "max_consecutive_losses_exceeded"
  then TestnetShadowRejectionReason.MaxConsecutiveLossesExceeded
  else if String.eqb code "signal_too_old" then TestnetShadowRejectionReason.SignalTooOld
  else if String.eqb code "duplicate_order_detected"
  then TestnetShadowRejectionReason.DuplicateOrderDetected
  else if String.eqb code "data_stale" then TestnetShadowRejectionReason.DataStale
  else if String.eqb code "position_notional_exceeded"
  then TestnetShadowRejectionReason.PositionNotionalExceeded
  else if String.eqb code "cooldown_active" then TestnetShadowRejectionReason.CooldownActive
  else TestnetShadowRejectionReason.UnsupportedState.

Definition exchange_order_side_from_signal (side : SignalSide.t) : ExchangeOrderSide.t :=
  match side with
  | SignalSide.Buy => ExchangeOrderSide.Buy
  | SignalSide.Sell => ExchangeOrderSide.Sell
  end.

(** A plan without an order. *)
Definition no_order (decision : TestnetShadowDecision.t) (status : TestnetShadowStatus.t)
    (signal_id risk_decision_id : option Z) (reasons : list TestnetShadowRejectionReason.t)
    (price : option ResolvedPrice) : ShadowOutcomePlan := {|
  pl_decision := decision; pl_status := status; pl_signal_id := signal_id;
  pl_risk_decision_id := risk_decision_id; pl_would_submit_order := None; pl_reasons := reasons;
  pl_price_source := option_map rp_source price; pl_resolved_price := option_map rp_price price
|}.

Definition warning_reasons (warning : option TestnetShadowRejectionReason.t)
    : list TestnetShadowRejectionReason.t :=
  match warning with Some warning => [warning] | None => [] end.

Definition evaluate_shadow_outcome (input : ShadowEvaluationInput)
    : res ShadowRunError ShadowOutcomePlan :=
  if si_kill_switch_active input then
    Ok (no_order TestnetShadowDecision.SkippedKillSwitch TestnetShadowStatus.Rejected None None
          [TestnetShadowRejectionReason.KillSwitchActive] None)
  else if negb (si_strategy_enabled input) then
    Ok (no_order TestnetShadowDecision.SkippedDisabledStrategy TestnetShadowStatus.Rejected None None
          [TestnetShadowRejectionReason.StrategyDisabled] None)
  else if negb (si_timeframe_matches input) then
    Ok (no_order TestnetShadowDecision.Error TestnetShadowStatus.Error None None
          [TestnetShadowRejectionReason.UnsupportedTimeframe] None)
  else
  match si_required_feed_block input with
  | Some reason =>
      Ok (no_order TestnetShadowDecision.SkippedStaleFeed TestnetShadowStatus.Rejected None None
            [reason] None)
  | None =>
  match si_candle_block input with
  | Some reason =>
      Ok (no_order
            match reason with
            | TestnetShadowRejectionReason.CandleDataStale
            | TestnetShadowRejectionReason.DataStale
            | TestnetShadowRejectionReason.InsufficientHistory => TestnetShadowDecision.CandleDataStale
            | _ => TestnetShadowDecision.Error
            end TestnetShadowStatus.Rejected None None [reason] None)
  | None =>
  match si_signal input with
  | None =>
      Ok (no_order TestnetShadowDecision.NoSignal TestnetShadowStatus.Completed None None
            (signal_reason_to_shadow_reasons (si_signal_reason input) ++
             warning_reasons (si_feed_warning input)) None)
  | Some signal =>
  let rejected decision reasons price :=
    Ok (no_order decision TestnetShadowStatus.Rejected (Some (sg_signal_id signal))
          (si_risk_decision_id input) reasons price) in
  if negb (bool_decide (si_risk_decision input = Some RiskEvaluationDecision.Approved)) then
    rejected TestnetShadowDecision.RiskRejected
      match si_risk_reasons input with
      | [] => [TestnetShadowRejectionReason.RiskRejected]
      | reasons => map risk_reason_to_shadow_reason reasons
      end None
  else
  match si_price input with
  | None =>
      rejected TestnetShadowDecision.SkippedStalePrice [TestnetShadowRejectionReason.StalePrice] None
  | Some price =>
      quote_notional ← ok_or (si_approved_notional input)
        (ShadowUnexpected "approved notional is required for WOULD_SUBMIT");
      quotient ← dec_div quote_notional (rp_price price);
      let quantity := dround_dp quotient 8 in
      if (quantity <=? ZERO)%dec then
        rejected TestnetShadowDecision.SkippedStalePrice [TestnetShadowRejectionReason.InvalidPrice]
          (Some price)
      else
        Ok {| pl_decision := TestnetShadowDecision.WouldSubmit;
              pl_status := TestnetShadowStatus.Completed;
              pl_signal_id := Some (sg_signal_id signal);
              pl_risk_decision_id := si_risk_decision_id input;
              pl_would_submit_order := Some {|
                ti_exchange := ExchangeName.Binance;
                ti_environment := ExchangeEnvironment.Testnet;
                ti_symbol := sg_symbol signal;
                ti_side := exchange_order_side_from_signal (sg_side signal);
                ti_order_type := ExchangeOrderType.Market;
                ti_time_in_force := None;
                ti_quantity := Some quantity;
                ti_quote_notional := Some quote_notional;
                ti_limit_price := None;
                ti_risk_decision_id := si_risk_decision_id input |};
              pl_reasons := warning_reasons (si_feed_warning input);
              pl_price_source := Some (rp_source price);
              pl_resolved_price := Some (rp_price price) |}
  end end end end.
End Outcome.

Section ShadowRuns.
Context {DI : Decimal} {CH : Chrono} {CA : ChronoArith} {CS : ChronoSeconds} {JS : Json} {JD : JsonScalars}
  {DB : Database}.

(** What a run reads outside the tables.  [se_created_at] is the time of the run,
    [se_now n] the database's, [se_fresh n] the n-th identifier drawn;
    [se_promoted strategy symbol timeframe] lists the promoted candidates of that name,
    with the times of their promotions, latest first, and [se_still_promoted id] tells
    whether the candidate is still promoted when the statement that links it runs. *)
Record ShadowEnv := {
  se_observation_only : bool;
  se_created_at : Z;
  se_now : nat -> Z;
  se_fresh : nat -> Z;
  se_system_state : bool * option string;
  se_strategy_config : StrategyId.t -> option StrategyConfig;
  se_risk_config : res ShadowRunError (option RiskConfig);
  se_exchange : MarketDataSource.t;
  se_feeds : list FeedStatusRow;
  se_closed_candles : Symbol -> CandleInterval.t -> Z -> list Candle;
  se_latest_market_tick : Symbol -> option (dec * Z);
  se_latest_market_data_at : option Z;
  se_fails : RiskQuery.t -> bool;
  se_promoted : string -> string -> string -> list (Z * Z);
  se_still_promoted : Z -> bool
}.

Definition ensure_shadow_observation_only (env : ShadowEnv) : res ShadowRunError unit :=
  if se_observation_only env then Ok tt
  else Err (ShadowValidation "shadow_observation_only_required").

Definition strategy_requires_live_market_feed (_strategy_id : StrategyId.t) : bool := false.

Definition shadow_price_threshold_seconds (config : StrategyConfig) (risk_config : RiskConfig) : Z :=
  let strategy_threshold_seconds := Z.max (Z.quot (sc_max_signal_age_ms config) 1000) 1 in
  let threshold := Z.max (stale_feed_threshold_seconds risk_config) strategy_threshold_seconds in
  if threshold <? 2 ^ 32 then threshold else 2 ^ 32 - 1.

Definition optional_market_feed_warning (reason : TestnetShadowRejectionReason.t)
    : TestnetShadowRejectionReason.t :=
  match reason with
  | TestnetShadowRejectionReason.StaleFeed | TestnetShadowRejectionReason.MarketFeedDegraded =>
      TestnetShadowRejectionReason.MarketFeedStaleWarning
  | other => other
  end.

Definition shadow_feed_block_reason (env : ShadowEnv) (symbol : Symbol)
    : option TestnetShadowRejectionReason.t :=
  match find (fun feed => String.eqb (fd_exchange feed) (MarketDataSource.as_str (se_exchange env)) &&
                          String.eqb (fd_symbol feed) (symbol_text symbol)) (se_feeds env) with
  | None => Some TestnetShadowRejectionReason.MarketFeedUnavailable
  | Some feed =>
      if negb (bool_decide (fd_freshness_status feed = DataFreshnessStatus.Fresh))
      then Some TestnetShadowRejectionReason.StaleFeed
      else if negb (String.eqb (fd_status feed) "connected")
      then Some TestnetShadowRejectionReason.MarketFeedDegraded
      else None
  end.

Definition shadow_candle_max_age_ms (config : StrategyConfig) (timeframe : CandleInterval.t) : Z :=
  Z.max (sc_max_signal_age_ms config) (num_milliseconds (duration timeframe)).

(** [now] is the clock of [summarize_candle_continuity]. *)
Definition shadow_candle_block_reason (now : Z) (exchange : MarketDataSource.t) (symbol : Symbol)
    (timeframe : CandleInterval.t) (config : StrategyConfig) (evaluated_at : Z) (candles : list Candle)
    : res ShadowRunError (option TestnetShadowRejectionReason.t) :=
  if Z.of_nat (length candles) <? required_candle_count config
  then Ok (Some TestnetShadowRejectionReason.InsufficientHistory) else
  match head candles, last candles with
  | Some first, Some latest =>
      let max_age_ms := shadow_candle_max_age_ms config timeframe in
      let latest_age_ms := num_milliseconds (evaluated_at - c_close_time latest) in
      if max_age_ms <? latest_age_ms then Ok (Some TestnetShadowRejectionReason.CandleDataStale) else
      let quality_request := {|
        q_exchange := exchange; q_symbol := symbol_text symbol;
        q_interval := CandleInterval.as_str timeframe;
        q_start_time := c_open_time first;
        q_end_time := c_open_time latest + duration timeframe;
        q_expected_interval_seconds := Some (num_seconds (duration timeframe));
        q_max_allowed_gap_count := Some 0; q_max_allowed_gap_pct := Some ZERO |} in
      match summarize_candle_continuity now quality_request candles 5 with
      | Ok quality =>
          match rep_status quality with
          | MarketDataQualityStatus.Bad | MarketDataQualityStatus.Degraded
          | MarketDataQualityStatus.InsufficientData => Ok (Some TestnetShadowRejectionReason.DataStale)
          | _ => Ok None
          end
      | Err _ => Err (ShadowUnexpected "failed to summarize shadow candle continuity")
      | Panic => Panic
      end
  | _, _ => Ok (Some TestnetShadowRejectionReason.InsufficientHistory)
  end.

Definition resolve_shadow_price (env : ShadowEnv) (symbol : Symbol) (timeframe : CandleInterval.t)
    (now stale_price_threshold_seconds : Z) : option ResolvedPrice :=
  let stale_threshold := seconds stale_price_threshold_seconds in
  let from_candle :=
    match last (se_closed_candles env symbol timeframe 1) with
    | None => None
    | Some candle =>
        if (c_close candle <=? ZERO)%dec || (stale_threshold <? now - c_close_time candle) then None
        else Some {| rp_source := "closed_candle"; rp_price := c_close candle |}
    end in
  match se_latest_market_tick env symbol with
  | Some (price, received_at) =>
      if (price >? ZERO)%dec && (now - received_at <=? stale_threshold)
      then Some {| rp_source := "market_tick"; rp_price := price |} else from_candle
  | None => from_candle
  end.

Definition shadow_context_of {A} (message : string) : M string A -> M ShadowRunError A :=
  map_err (fun _ => ShadowUnexpected message).

Definition shadow_side (value : string) : res ShadowRunError Side.t :=
  match from_str value with
  | Ok side => Ok (side_of_signal side)
  | _ => Err (ShadowUnexpected "invalid persisted signal side")
  end.

(** The part of a run that depends on the evaluation: what is known of the signal, the
    decision and the price. *)
Record ShadowEvaluated := {
  ev_signal : option StrategySignal;
  ev_signal_reason : SignalReason.t;
  ev_risk_decision_id : option Z;
  ev_risk_decision : option RiskEvaluationDecision.t;
  ev_risk_reasons : list RiskRejectionReason.t;
  ev_approved_notional : option dec;
  ev_price : option ResolvedPrice
}.

Definition not_evaluated : ShadowEvaluated := {|
  ev_signal := None; ev_signal_reason := SignalReason.ConditionsNotMet; ev_risk_decision_id := None;
  ev_risk_decision := None; ev_risk_reasons := []; ev_approved_notional := None; ev_price := None |}.

Definition shadow_evaluate (env : ShadowEnv) (correlation_id : Z) (strategy_id : StrategyId.t)
    (symbol : Symbol) (timeframe : CandleInterval.t) (config : StrategyConfig) (risk_config : RiskConfig)
    (candles : list Candle) : M ShadowRunError ShadowEvaluated :=
  evaluation ← map_err (fun _ => ShadowUnexpected "failed to evaluate strategy")
    (lift (evaluate (se_fresh env 1%nat) {|
      cx_correlation_id := correlation_id; cx_strategy_id := strategy_id; cx_symbol := symbol;
      cx_config := config; cx_candles := candles; cx_evaluated_at := se_created_at env |}));
  match sr_signal evaluation with
  | None =>
      _ ← update_strategy_state strategy_id (sr_evaluated_at evaluation) (sr_reason evaluation) None None;
      mret {| ev_signal := None; ev_signal_reason := sr_reason evaluation; ev_risk_decision_id := None;
              ev_risk_decision := None; ev_risk_reasons := []; ev_approved_notional := None;
              ev_price := None |}
  | Some generated_signal =>
      signal_outcome ← shadow_context_of "failed to persist signal"
        (insert_signal_deduped (se_now env 0%nat) generated_signal);
      let stored := io_signal signal_outcome in
      _ ← update_strategy_state strategy_id (sr_evaluated_at evaluation) (sr_reason evaluation)
            (Some (sn_id stored)) (Some (sn_created_at stored));
      side ← lift (shadow_side (sn_side stored));
      let risk_context := {|
        rc_signal_id := sn_id stored; rc_correlation_id := correlation_id;
        rc_strategy_id := sn_strategy_id stored; rc_symbol := symbol; rc_side := side;
        rc_suggested_notional := sn_suggested_notional stored;
        rc_signal_created_at := sn_created_at stored; rc_evaluated_at := se_created_at env |} in
      snapshot ← read (load_risk_state_snapshot (se_fails env) (se_system_state env)
                         (se_latest_market_data_at env) (se_now env 1%nat));
      let risk_evaluation := RiskEvaluator_evaluate (se_fresh env 2%nat) (RiskEvaluator_new risk_config)
        risk_context snapshot in
      persisted_risk ← shadow_context_of "failed to persist risk decision"
        (insert_risk_evaluation (se_now env 2%nat) risk_context risk_evaluation);
      mret {| ev_signal := Some generated_signal; ev_signal_reason := sr_reason evaluation;
              ev_risk_decision_id := Some (rd_id persisted_risk);
              ev_risk_decision := Some (re_decision risk_evaluation);
              ev_risk_reasons := re_reasons risk_evaluation;
              ev_approved_notional := re_approved_notional risk_evaluation;
              ev_price :=
                if bool_decide (re_decision risk_evaluation = RiskEvaluationDecision.Approved)
                then resolve_shadow_price env symbol timeframe (se_created_at env)
                       (shadow_price_threshold_seconds config risk_config)
                else None |}
  end.

(** The run up to its plan; also the signal and the last candle it looked at. *)
Definition plan_shadow_run (env : ShadowEnv) (request : TestnetShadowRunRequest) (correlation_id : Z)
    : M ShadowRunError (ShadowOutcomePlan * option StrategySignal * option Z) :=
  let parsed {A} (code : string) (r : res CoreError.t A) : M ShadowRunError A :=
    map_err (fun _ => ShadowValidation code) (lift r) in
  _ ← lift (ensure_shadow_observation_only env);
  strategy_id ← parsed "invalid_strategy_id" (from_str (A := StrategyId.t) (sq_strategy_id request));
  symbol ← parsed "invalid_symbol" (Symbol_new (sq_symbol request));
  timeframe ← parsed "invalid_timeframe" (from_str (A := CandleInterval.t) (sq_timeframe request));
  _ ← insert_system_event correlation_id "exchange.testnet.shadow.started";
  config ← lift (ok_or (se_strategy_config env strategy_id)
                   (ShadowUnexpected "failed to load strategy config"));
  risk_config ← lift (se_risk_config env);
  let risk_config := default RiskConfig_default risk_config in
  let feed_status_block := shadow_feed_block_reason env symbol in
  let '(required_feed_block, feed_warning) :=
    if strategy_requires_live_market_feed strategy_id then (feed_status_block, None)
    else (None, option_map optional_market_feed_warning feed_status_block) in
  let candles := se_closed_candles env symbol timeframe (required_candle_count config) in
  candle_block ← lift (shadow_candle_block_reason (se_created_at env) (se_exchange env) symbol timeframe
                         config (se_created_at env) candles);
  let kill_switch := fst (se_system_state env) in
  let timeframe_matches := bool_decide (sc_timeframe config = timeframe) in
  evaluated ←
    (if negb kill_switch && sc_enabled config && timeframe_matches &&
        bool_decide (required_feed_block = None) && bool_decide (candle_block = None)
     then shadow_evaluate env correlation_id strategy_id symbol timeframe config risk_config candles
     else mret not_evaluated);
  plan ← lift (evaluate_shadow_outcome {|
    si_kill_switch_active := kill_switch;
    si_strategy_enabled := sc_enabled config;
    si_required_feed_block := required_feed_block;
    si_feed_warning := feed_warning;
    si_candle_block := candle_block;
    si_timeframe_matches := timeframe_matches;
    si_signal := ev_signal evaluated;
    si_signal_reason := ev_signal_reason evaluated;
    si_risk_decision_id := ev_risk_decision_id evaluated;
    si_risk_decision := ev_risk_decision evaluated;
    si_risk_reasons := ev_risk_reasons evaluated;
    si_price := ev_price evaluated;
    si_approved_notional := match ev_approved_notional evaluated with
                            | Some notional => Some notional
                            | None => Some (sc_suggested_notional config)
                            end |});
  mret (plan, ev_signal evaluated, option_map c_open_time (last candles)).

(** ** Recording a run *)

(** A row of testnet_shadow_runs. *)
Record TestnetShadowRunRecord := {
  sw_id : Z;
  sw_strategy_id : string;
  sw_symbol : string;
  sw_timeframe : string;
  sw_decision : string;
  sw_signal_id : option Z;
  sw_risk_decision_id : option Z;
  sw_would_submit_payload : option TestnetShadowIntent;
  sw_price_source : option string;
  sw_resolved_price : option dec;
  sw_reasons : list string;
  sw_status : string;
  sw_evaluated_candle_open_time : option Z;
  sw_created_at : Z;
  sw_correlation_id : option Z
}.

Record TestnetShadowRunResult := {
  sx_run_id : Z;
  sx_strategy_id : string;
  sx_symbol : string;
  sx_timeframe : string;
  sx_decision : TestnetShadowDecision.t;
  sx_signal_id : option Z;
  sx_risk_decision_id : option Z;
  sx_would_submit_order : option TestnetShadowIntent;
  sx_reasons : list TestnetShadowRejectionReason.t;
  sx_price_source : option string;
  sx_resolved_price : option dec;
  sx_status : TestnetShadowStatus.t;
  sx_evaluated_candle_open_time : option Z;
  sx_created_at : Z;
  sx_correlation_id : Z
}.

(** The tables with the shadow runs and their links, (candidate, run). *)
Record ShadowStore := {
  sh_tables : Store;
  sh_runs : list TestnetShadowRunRecord;
  sh_links : list (Z * Z)
}.

(** [rows] are the matching candidates, latest promotion first. *)
Definition resolve_promoted_research_candidate_for_shadow_run (rows : list (Z * Z))
    : ShadowRunCandidateMatchOutcome.t :=
  match rows with
  | [] => ShadowRunCandidateMatchOutcome.NotFound
  | (first_id, first_promoted_at) :: rest =>
      match rest with
      | (_, second_promoted_at) :: _ =>
          if second_promoted_at =? first_promoted_at then ShadowRunCandidateMatchOutcome.Ambiguous
          else ShadowRunCandidateMatchOutcome.Matched first_id
      | [] => ShadowRunCandidateMatchOutcome.Matched first_id
      end
  end.

Definition candidate_match_outcome_label (outcome : ShadowRunCandidateMatchOutcome.t) : string :=
  match outcome with
  | ShadowRunCandidateMatchOutcome.NotFound => "not_found"
  | ShadowRunCandidateMatchOutcome.Matched _ => "matched"
  | ShadowRunCandidateMatchOutcome.Ambiguous => "ambiguous"
  end.

Definition get_signal_by_id (id : Z) (s : Store) : option SignalRecord :=
  find (fun row => sn_id row =? id) (t_signals s).
Definition find_signal_by_identity (signal : StrategySignal) (s : Store) : option SignalRecord :=
  find (fun row => bool_decide (signal_key row = signal_key (signal_row 0 signal))) (t_signals s).

Definition stabilize_shadow_signal_id (s : Store) (signal_id : option Z)
    (signal : option StrategySignal) (candidate_linking_result : string)
    : res ShadowRunError (option Z) :=
  match signal_id with
  | None => Ok None
  | Some signal_id =>
      if bool_decide (is_Some (get_signal_by_id signal_id s)) then Ok (Some signal_id) else
      let conflict := Err (ShadowConflict "shadow_signal_conflict" candidate_linking_result) in
      match signal with
      | None => conflict
      | Some signal =>
          match find_signal_by_identity signal s with
          | Some repaired => Ok (Some (sn_id repaired))
          | None => conflict
          end
      end
  end.

Definition testnet_shadow_run_result_from_record (record : TestnetShadowRunRecord)
    : result TestnetShadowRunResult :=
  decision ← from_str (A := TestnetShadowDecision.t) (sw_decision record);
  reasons ← collect_res (from_str (A := TestnetShadowRejectionReason.t)) (sw_reasons record);
  status ← from_str (A := TestnetShadowStatus.t) (sw_status record);
  Ok {| sx_run_id := sw_id record; sx_strategy_id := sw_strategy_id record;
        sx_symbol := sw_symbol record; sx_timeframe := sw_timeframe record;
        sx_decision := decision; sx_signal_id := sw_signal_id record;
        sx_risk_decision_id := sw_risk_decision_id record;
        sx_would_submit_order := sw_would_submit_payload record;
        sx_reasons := reasons; sx_price_source := sw_price_source record;
        sx_resolved_price := sw_resolved_price record; sx_status := status;
        sx_evaluated_candle_open_time := sw_evaluated_candle_open_time record;
        sx_created_at := sw_created_at record;
        sx_correlation_id := default (sw_id record) (sw_correlation_id record) |}.

Definition shadow_event (correlation_id : Z) (event_type : string) (s : Store) : Store :=
  set_events (t_events s ++ [(correlation_id, event_type)]) s.

(** The record a plan is stored as. *)
Definition shadow_run_record (env : ShadowEnv) (request : TestnetShadowRunRequest)
    (correlation_id : Z) (plan : ShadowOutcomePlan) (signal_id evaluated_candle_open_time : option Z)
    : TestnetShadowRunRecord := {|
  sw_id := se_fresh env 3%nat; sw_strategy_id := sq_strategy_id request;
  sw_symbol := sq_symbol request; sw_timeframe := sq_timeframe request;
  sw_decision := TestnetShadowDecision.as_str (pl_decision plan);
  sw_signal_id := signal_id; sw_risk_decision_id := pl_risk_decision_id plan;
  sw_would_submit_payload := pl_would_submit_order plan;
  sw_price_source := pl_price_source plan; sw_resolved_price := pl_resolved_price plan;
  sw_reasons := map TestnetShadowRejectionReason.as_str (pl_reasons plan);
  sw_status := TestnetShadowStatus.as_str (pl_status plan);
  sw_evaluated_candle_open_time := evaluated_candle_open_time;
  sw_created_at := se_created_at env; sw_correlation_id := Some correlation_id
|}.

(** One statement: it adds a link unless the candidate is no longer promoted or the run is
    linked already. *)
Definition insert_research_candidate_shadow_run_link (still_promoted : Z -> bool)
    (candidate_id shadow_run_id : Z) (links : list (Z * Z)) : option (list (Z * Z)) :=
  if negb (still_promoted candidate_id) || existsb (fun link => snd link =? shadow_run_id) links
  then None else Some (links ++ [(candidate_id, shadow_run_id)]).

Definition persist_shadow_result (env : ShadowEnv) (request : TestnetShadowRunRequest)
    (correlation_id : Z) (plan : ShadowOutcomePlan) (signal : option StrategySignal)
    (evaluated_candle_open_time : option Z) (s : ShadowStore)
    : res ShadowRunError TestnetShadowRunResult * ShadowStore :=
  let candidate_match := resolve_promoted_research_candidate_for_shadow_run
    (se_promoted env (to_ascii_lowercase (trim (sq_strategy_id request)))
       (to_ascii_uppercase (trim (sq_symbol request)))
       (to_ascii_lowercase (trim (sq_timeframe request)))) in
  match stabilize_shadow_signal_id (sh_tables s) (pl_signal_id plan) signal
          (candidate_match_outcome_label candidate_match) with
  | Err e => (Err e, s)
  | Panic => (Panic, s)
  | Ok signal_id =>
      let record := shadow_run_record env request correlation_id plan signal_id
        evaluated_candle_open_time in
      if existsb (fun other => sw_id other =? sw_id record) (sh_runs s)
      then (Err (ShadowUnexpected "failed to persist testnet shadow run"), s) else
      let s := {| sh_tables := sh_tables s; sh_runs := sh_runs s ++ [record]; sh_links := sh_links s |} in
      match testnet_shadow_run_result_from_record record with
      | Err _ => (Err (ShadowUnexpected "invalid testnet shadow run record"), s)
      | Panic => (Panic, s)
      | Ok result =>
          let s :=
            match candidate_match with
            | ShadowRunCandidateMatchOutcome.Matched candidate_id =>
                match insert_research_candidate_shadow_run_link (se_still_promoted env) candidate_id
                        (sw_id record) (sh_links s) with
                | None => s
                | Some links =>
                    {| sh_tables := shadow_event correlation_id "research.candidate.shadow_run_linked"
                         (sh_tables s);
                       sh_runs := sh_runs s; sh_links := links |}
                end
            | _ => s
            end in
          let event_type := match sx_decision result with
                            | TestnetShadowDecision.WouldSubmit | TestnetShadowDecision.NoSignal =>
                                "exchange.testnet.shadow.completed"
                            | _ => "exchange.testnet.shadow.rejected"
                            end in
          (Ok result,
           {| sh_tables := shadow_event correlation_id event_type (sh_tables s);
              sh_runs := sh_runs s; sh_links := sh_links s |})
      end
  end.

Definition run_testnet_shadow_once (env : ShadowEnv) (request : TestnetShadowRunRequest)
    (s : ShadowStore) : res ShadowRunError TestnetShadowRunResult * ShadowStore :=
  let correlation_id := default (se_fresh env 0%nat) (sq_correlation_id request) in
  let '(planned, tables) := plan_shadow_run env request correlation_id (sh_tables s) in
  let s := {| sh_tables := tables; sh_runs := sh_runs s; sh_links := sh_links s |} in
  match planned with
  | Ok (plan, signal, evaluated_candle_open_time) =>
      persist_shadow_result env request correlation_id plan signal evaluated_candle_open_time s
  | Err e => (Err e, s)
  | Panic => (Panic, s)
  end.
End ShadowRuns.

(** ** Facts *)

Section OutcomeFacts.
Context {DI : Decimal}.

(** What lets an input be planned as an order. *)
Record submits (input : ShadowEvaluationInput) (signal : StrategySignal) (price : ResolvedPrice)
    (notional quantity : dec) : Prop := {
  su_running : si_kill_switch_active input = false;
  su_enabled : si_strategy_enabled input = true;
  su_timeframe : si_timeframe_matches input = true;
  su_feed : si_required_feed_block input = None;
  su_candles : si_candle_block input = None;
  su_signal : si_signal input = Some signal;
  su_approved : si_risk_decision input = Some RiskEvaluationDecision.Approved;
  su_price : si_price input = Some price;
  su_notional : si_approved_notional input = Some notional;
  su_quantity : exists quotient, dec_div (E := ShadowRunError) notional (rp_price price) = Ok quotient /\
    quantity = dround_dp quotient 8;
  su_positive : (quantity <=? ZERO)%dec = false
}.

(** The plan of an order. *)
Definition order_plan (input : ShadowEvaluationInput) (signal : StrategySignal) (price : ResolvedPrice)
    (notional quantity : dec) : ShadowOutcomePlan := {|
  pl_decision := TestnetShadowDecision.WouldSubmit; pl_status := TestnetShadowStatus.Completed;
  pl_signal_id := Some (sg_signal_id signal); pl_risk_decision_id := si_risk_decision_id input;
  pl_would_submit_order := Some {|
    ti_exchange := ExchangeName.Binance; ti_environment := ExchangeEnvironment.Testnet;
    ti_symbol := sg_symbol signal; ti_side := exchange_order_side_from_signal (sg_side signal);
    ti_order_type := ExchangeOrderType.Market; ti_time_in_force := None;
    ti_quantity := Some quantity; ti_quote_notional := Some notional; ti_limit_price := None;
    ti_risk_decision_id := si_risk_decision_id input |};
  pl_reasons := warning_reasons (si_feed_warning input); pl_price_source := Some (rp_source price);
  pl_resolved_price := Some (rp_price price)
|}.

Lemma evaluate_outcome_cases input plan : evaluate_shadow_outcome input = Ok plan ->
  (exists signal price notional quantity, submits input signal price notional quantity /\
     plan = order_plan input signal price notional quantity) \/
  (pl_decision plan <> TestnetShadowDecision.WouldSubmit /\ pl_would_submit_order plan = None /\
   pl_reasons plan <> [] /\
   (pl_signal_id plan = None \/
    exists signal, si_signal input = Some signal /\ pl_signal_id plan = Some (sg_signal_id signal))).
Proof.
  unfold evaluate_shadow_outcome.
  destruct (si_kill_switch_active input) eqn:Hk; [intros [= <-]; right; eauto|].
  destruct (si_strategy_enabled input) eqn:He; [cbn [negb]|intros [= <-]; right; eauto].
  destruct (si_timeframe_matches input) eqn:Ht; [cbn [negb]|intros [= <-]; right; eauto].
  destruct (si_required_feed_block input) eqn:Hf; [intros [= <-]; right; eauto|].
  destruct (si_candle_block input) as [[]|] eqn:Hc;
    try (intros [= <-]; right; cbn; by repeat split; eauto).
  destruct (si_signal input) as [signal|] eqn:Hs; cbv zeta; cycle 1.
  { intros [= <-]. right. cbn. repeat split; eauto. by destruct (si_signal_reason input). }
  case_bool_decide as Ha; cbn [negb]; cycle 1.
  { intros [= <-]. right. cbn. repeat split; eauto. by destruct (si_risk_reasons input). }
  destruct (si_price input) as [price|] eqn:Hp; cycle 1.
  { intros [= <-]. right. cbn. repeat split; eauto. }
  intros (notional & Hn & (quotient & Hq & H)%bind_ok_inv)%bind_ok_inv.
  assert (si_approved_notional input = Some notional) as Hn'
    by (destruct (si_approved_notional input); [injection Hn as <-|]; done).
  cbv zeta in H. destruct (dround_dp quotient 8 <=? ZERO)%dec eqn:Hz.
  { injection H as <-. right. cbn. repeat split; eauto. }
  injection H as <-. left. exists signal, price, notional, (dround_dp quotient 8).
  split; [|done]. split; eauto.
Qed.

(** The decision to submit comes with an order, and only it does. *)
Lemma submit_iff_order input plan : evaluate_shadow_outcome input = Ok plan ->
  pl_decision plan = TestnetShadowDecision.WouldSubmit <-> is_Some (pl_would_submit_order plan).
Proof.
  intros [(signal & price & notional & quantity & _ & ->)|(Hd & Ho & _)]%evaluate_outcome_cases.
  - cbn. split; [eauto|done].
  - rewrite Ho. split; [done|]. by intros [? [=]].
Qed.
End OutcomeFacts.

Section ShadowRunFacts.
Context {DI : Decimal} {CH : Chrono} {CA : ChronoArith} {CS : ChronoSeconds} {JS : Json} {JD : JsonScalars}
  {DB : Database}.
Implicit Types (env : ShadowEnv).

(** Rows are only appended to the signals. *)
Definition signals_grow {E A} (m : M E A) : Prop :=
  forall s, exists rows, t_signals (snd (m s)) = t_signals s ++ rows.

Lemma keeps_signals_grow {E A} (m : M E A) : keeps t_signals m -> signals_grow m.
Proof. intros H s. exists []. by rewrite H, app_nil_r. Qed.

Lemma insert_signal_stores now signal s r s' : insert_signal_deduped now signal s = (r, s') ->
  (exists rows, t_signals s' = t_signals s ++ rows) /\
  forall outcome, r = Ok outcome -> In (io_signal outcome) (t_signals s').
Proof.
  unfold insert_signal_deduped. rewrite run_read. destruct (find _ _) as [existing|] eqn:Hf.
  - intros [= <- <-]. split; [exists []; by rewrite app_nil_r|]. intros outcome [= <-].
    by apply find_some in Hf as [Hf _].
  - destruct (existsb _ _).
    { intros [= <- <-]. split; [exists []; by rewrite app_nil_r|done]. }
    rewrite run_write. intros [= <- <-]. split; [by eexists|]. intros outcome [= <-].
    apply in_or_app. right. by left.
Qed.

Lemma map_err_result {E F A} (f : E -> F) (m : M E A) s r s' : map_err f m s = (r, s') ->
  exists r0, m s = (r0, s') /\ forall a, r = Ok a -> r0 = Ok a.
Proof.
  unfold map_err. destruct (m s) as [[a|e|] s1]; intros [= <- <-]; eexists; (split; [reflexivity|]);
    by intros ? [= <-].
Qed.

(** What an evaluation that produced a signal knows: a stored signal stands for it, the
    decision recorded on it is the one reported, and an approval means that the rules
    let the signal pass in the state the run found. *)
Record signal_decided env (correlation_id : Z) (symbol : Symbol) (timeframe : CandleInterval.t)
    (config : StrategyConfig) (risk_config : RiskConfig) (generated : StrategySignal) (s s' : Store)
    (evaluated : ShadowEvaluated) : Prop := {
  sd_signal : exists stored side row,
    In stored (t_signals s') /\ signal_key stored = signal_key (signal_row 0 generated) /\
    shadow_side (sn_side stored) = Ok side /\
    t_risk_decisions s' = t_risk_decisions s ++ [row] /\
    ev_risk_decision_id evaluated = Some (rd_id row) /\
    rd_signal_id row = Some (sn_id stored) /\
    (ev_risk_decision evaluated = Some RiskEvaluationDecision.Approved ->
       rd_decision row = "APPROVED" /\
       ev_approved_notional evaluated = Some (sn_suggested_notional stored) /\
       within_limits {| rc_signal_id := sn_id stored; rc_correlation_id := correlation_id;
                        rc_strategy_id := sn_strategy_id stored; rc_symbol := symbol; rc_side := side;
                        rc_suggested_notional := sn_suggested_notional stored;
                        rc_signal_created_at := sn_created_at stored;
                        rc_evaluated_at := se_created_at env |}
         (load_risk_state_snapshot (se_fails env) (se_system_state env) (se_latest_market_data_at env)
            (se_now env 1%nat) s) risk_config);
  sd_price : forall price, ev_price evaluated = Some price ->
    resolve_shadow_price env symbol timeframe (se_created_at env)
      (shadow_price_threshold_seconds config risk_config) = Some price
}.

Lemma shadow_snapshot_reads env s s1 : order_tables s1 = order_tables s ->
  load_risk_state_snapshot (se_fails env) (se_system_state env) (se_latest_market_data_at env)
    (se_now env 1%nat) s1 =
  load_risk_state_snapshot (se_fails env) (se_system_state env) (se_latest_market_data_at env)
    (se_now env 1%nat) s.
Proof.
  unfold order_tables, books. intros H. injection H as Ho Ha Hp Hf Hs Hj.
  unfold load_risk_state_snapshot, count_open_positions, realized_loss_since, recent_pnls, last_trade.
  by rewrite Ho, Ha, Hp, Hj.
Qed.

Lemma shadow_evaluate_tables env correlation_id strategy_id symbol timeframe config risk_config candles :
  keeps order_tables
    (shadow_evaluate env correlation_id strategy_id symbol timeframe config risk_config candles).
Proof.
  unfold shadow_evaluate, shadow_context_of, update_strategy_state. keep.
Qed.

Lemma shadow_evaluate_inv env correlation_id strategy_id symbol timeframe config risk_config candles
    s r s' :
  shadow_evaluate env correlation_id strategy_id symbol timeframe config risk_config candles s
    = (r, s') ->
  (exists rows, t_signals s' = t_signals s ++ rows) /\
  forall evaluated, r = Ok evaluated ->
  match ev_signal evaluated with
  | Some generated =>
      signal_decided env correlation_id symbol timeframe config risk_config generated s s' evaluated
  | None => True
  end.
Proof.
  assert (forall s1 : Store, t_signals s1 = t_signals s -> exists rows, t_signals s1 = t_signals s ++ rows)
    as Hsame by (intros s1 ->; exists []; by rewrite app_nil_r).
  unfold shadow_evaluate. rewrite run_map_err_lift.
  destruct (evaluate _ _) as [evaluation| |]; [|by intros [= <- <-]; split; [apply Hsame|]..].
  destruct (sr_signal evaluation) as [generated|]; cycle 1.
  { unfold update_strategy_state. rewrite run_write. intros [= <- <-]. split; [by apply Hsame|].
    by intros evaluated [= <-]. }
  rewrite run_bind. unfold shadow_context_of at 1.
  destruct (map_err _ (insert_signal_deduped (se_now env 0%nat) generated) s) as [r1 s1] eqn:E1.
  assert (keeps order_tables (map_err (fun _ => ShadowUnexpected "failed to persist signal")
    (insert_signal_deduped (se_now env 0%nat) generated))) as K1
    by (by apply keeps_map_err, insert_signal_keeps).
  assert (keeps t_risk_decisions (map_err (fun _ => ShadowUnexpected "failed to persist signal")
    (insert_signal_deduped (se_now env 0%nat) generated))) as Kd1
    by (by apply keeps_map_err, insert_signal_keeps).
  apply (keeps_run _ _ _ _ _ K1) in E1 as K1'. apply (keeps_run _ _ _ _ _ Kd1) in E1 as Kd1'.
  apply map_err_result in E1 as (r0 & E1 & Hr0).
  apply insert_signal_stores in E1 as Hst. destruct Hst as [Hgrow Hin].
  destruct r1 as [outcome| |]; [|by intros [= <- <-]..].
  rewrite (Hr0 _ eq_refl) in E1, Hin. specialize (Hin _ eq_refl).
  apply insert_signal_inv in E1. set (stored := io_signal outcome) in *. cbv zeta.
  unfold update_strategy_state. rewrite run_write, run_lift. set (s2 := set_strategy_states _ s1).
  destruct (shadow_side (sn_side stored)) as [side| |] eqn:Hside; [|by intros [= <- <-]..].
  rewrite run_read, (shadow_snapshot_reads env s s2 K1'). set (context := Build_RiskCheckContext _ _ _ _ _ _ _ _).
  set (snapshot := load_risk_state_snapshot _ _ _ _ _). set (decided := RiskEvaluator_evaluate _ _ _ _).
  rewrite run_bind. unfold shadow_context_of.
  assert (keeps t_signals (map_err (fun _ => ShadowUnexpected "failed to persist risk decision")
    (insert_risk_evaluation (se_now env 2%nat) context decided))) as K4
    by (by apply keeps_map_err, insert_risk_evaluation_keeps).
  destruct (map_err _ (insert_risk_evaluation (se_now env 2%nat) context decided) s2) as [[row| |] s4] eqn:E4;
    apply (keeps_run _ _ _ _ _ K4) in E4 as K4'; [|by intros [= <- <-]; rewrite K4'..].
  apply map_err_inv, insert_risk_evaluation_inv in E4 as (Hd & _ & _ & Hdec & _ & Hsig).
  destruct (evaluate_outcome (se_fresh env 2%nat) (RiskEvaluator_new risk_config) context snapshot)
    as [Happ Hnotional]. fold decided in Happ, Hnotional.
  assert (re_decision decided = RiskEvaluationDecision.Approved ->
    within_limits context snapshot risk_config) as Hlim.
  { intros Ha%Happ. apply within_limits_iff. intros reason Hb.
    by apply (evaluate_breach (se_fresh env 2%nat)), (proj1 (no_reasons_iff _) Ha) in Hb. }
  clearbody decided. clear Happ.
  intros [= <- <-]. rewrite K4'. split; [done|]. intros evaluated [= <-]. cbn [ev_signal].
  split.
  - exists stored, side, row. rewrite K4', Hd. cbn [t_risk_decisions s2 set_strategy_states]. rewrite Kd1'.
    do 5 (split; [done|]). split; [done|]. cbn [ev_risk_decision ev_approved_notional].
    intros [= Ha]. rewrite Hdec, Hnotional, Ha, bool_decide_true by done. by eauto.
  - cbn [ev_price]. intros price. by case_bool_decide.
Qed.

(** The signal a plan refers to is the one the run evaluated, and is stored. *)
Definition plan_signal_stored (s : Store) (plan : ShadowOutcomePlan) (signal : option StrategySignal)
    : Prop :=
  pl_signal_id plan = None \/
  exists generated stored, signal = Some generated /\
    pl_signal_id plan = Some (sg_signal_id generated) /\
    In stored (t_signals s) /\ signal_key stored = signal_key (signal_row 0 generated).

(** What stands behind an order a run would submit. *)
Record order_backed env (request : TestnetShadowRunRequest) (correlation_id : Z) (s s' : Store)
    (signal : StrategySignal) (price : ResolvedPrice) (quantity : dec)
    (plan : ShadowOutcomePlan) : Prop := {
  ob_run : exists strategy_id symbol timeframe config risk_config evaluated,
    from_str (sq_strategy_id request) = Ok strategy_id /\
    Symbol_new (sq_symbol request) = Ok symbol /\
    from_str (sq_timeframe request) = Ok timeframe /\
    se_strategy_config env strategy_id = Some config /\
    se_risk_config env = Ok risk_config /\
    sc_enabled config = true /\ sc_timeframe config = timeframe /\
    shadow_candle_block_reason (se_created_at env) (se_exchange env) symbol timeframe config
      (se_created_at env) (se_closed_candles env symbol timeframe (required_candle_count config)) = Ok None /\
    signal_decided env correlation_id symbol timeframe config (default RiskConfig_default risk_config)
      signal s s' evaluated /\
    ev_risk_decision evaluated = Some RiskEvaluationDecision.Approved /\
    ev_price evaluated = Some price /\
    pl_risk_decision_id plan = ev_risk_decision_id evaluated /\
    exists notional quotient, ev_approved_notional evaluated = Some notional /\
      dec_div (E := ShadowRunError) notional (rp_price price) = Ok quotient /\
      quantity = dround_dp quotient 8 /\
      pl_would_submit_order plan = Some {|
        ti_exchange := ExchangeName.Binance; ti_environment := ExchangeEnvironment.Testnet;
        ti_symbol := sg_symbol signal; ti_side := exchange_order_side_from_signal (sg_side signal);
        ti_order_type := ExchangeOrderType.Market; ti_time_in_force := None;
        ti_quantity := Some quantity; ti_quote_notional := Some notional; ti_limit_price := None;
        ti_risk_decision_id := ev_risk_decision_id evaluated |};
  ob_running : fst (se_system_state env) = false;
  ob_positive : (quantity <=? ZERO)%dec = false
}.

Lemma signal_decided_notional env correlation_id symbol timeframe config risk_config generated s s'
    evaluated :
  signal_decided env correlation_id symbol timeframe config risk_config generated s s' evaluated ->
  ev_risk_decision evaluated = Some RiskEvaluationDecision.Approved ->
  exists notional, ev_approved_notional evaluated = Some notional.
Proof. intros [(stored & side & row & _ & _ & _ & _ & _ & _ & H) _] (_ & -> & _)%H. eauto. Qed.

Lemma run_parsed {A B} (code : string) (r : res CoreError.t A) (k : A -> M ShadowRunError B) s :
  (map_err (fun _ => ShadowValidation code) (lift r) ≫= k) s =
  match r with Ok a => k a s | Err _ => (Err (ShadowValidation code), s) | Panic => (Panic, s) end.
Proof. by destruct r. Qed.

Lemma signals_grow_bind {E A B} (m : M E A) (k : A -> M E B) :
  signals_grow m -> (forall a, signals_grow (k a)) -> signals_grow (m ≫= k).
Proof.
  intros Hm Hk s. destruct (Hm s) as [rows Hrows]. rewrite run_bind.
  destruct (m s) as [[a| |] s1]; cbn in *; [|by exists rows..].
  destruct (Hk a s1) as [rows' ->]. exists (rows ++ rows'). by rewrite Hrows, app_assoc.
Qed.

Lemma plan_signals_grow env request correlation_id :
  signals_grow (plan_shadow_run env request correlation_id).
Proof.
  unfold plan_shadow_run. cbv zeta.
  repeat (apply signals_grow_bind; [solve [apply keeps_signals_grow; keep] | intros ?]).
  apply signals_grow_bind; [destruct (_ && _)|intros evaluated; apply keeps_signals_grow; keep].
  - intros s. destruct (shadow_evaluate _ _ _ _ _ _ _ _ s) as [r s'] eqn:E.
    by apply shadow_evaluate_inv in E as [H _].
  - apply keeps_signals_grow. keep.
Qed.

Lemma plan_tables env request correlation_id :
  keeps order_tables (plan_shadow_run env request correlation_id).
Proof. unfold plan_shadow_run. cbv zeta. keep; apply shadow_evaluate_tables. Qed.

Lemma plan_cases env request correlation_id s plan signal open_time s' :
  plan_shadow_run env request correlation_id s = (Ok (plan, signal, open_time), s') ->
  plan_signal_stored s' plan signal /\
  (pl_decision plan <> TestnetShadowDecision.WouldSubmit \/
   exists generated price quantity, signal = Some generated /\
     order_backed env request correlation_id s s' generated price quantity plan) /\
  (pl_decision plan = TestnetShadowDecision.WouldSubmit <-> is_Some (pl_would_submit_order plan)).
Proof.
  unfold plan_shadow_run. cbv zeta. rewrite run_lift.
  destruct (ensure_shadow_observation_only env); [|done..].
  rewrite run_parsed. destruct (from_str (sq_strategy_id request)) as [strategy_id| |] eqn:Hid; [|done..].
  rewrite run_parsed. destruct (Symbol_new (sq_symbol request)) as [symbol| |] eqn:Hsym; [|done..].
  rewrite run_parsed. destruct (from_str (sq_timeframe request)) as [timeframe| |] eqn:Htf; [|done..].
  rewrite run_event, run_lift.
  destruct (se_strategy_config env strategy_id) as [config|] eqn:Hcfg; [cbn [ok_or]|done].
  rewrite run_lift. destruct (se_risk_config env) as [risk_config| |] eqn:Hrc; [|done..].
  unfold strategy_requires_live_market_feed. set (candles := se_closed_candles _ _ _ _).
  rewrite run_lift. destruct (shadow_candle_block_reason _ _ _ _ _ _ candles) as [candle_block| |] eqn:Hcb;
    [|done..].
  intros (evaluated & s2 & He & (plan' & s3 & [Hplan ->]%lift_inv & H)%bind_inv)%bind_inv.
  injection H as <- <- <- <-. apply and_assoc. split; [|by apply submit_iff_order in Hplan].
  apply evaluate_outcome_cases in Hplan.
  destruct (_ && _) eqn:Hguard; cycle 1.
  { injection He as <- <-. destruct Hplan as [(generated & price & notional & quantity & Hsub & _)|H].
    - by apply su_signal in Hsub.
    - destruct H as (Hd & _ & _ & [Hn|(generated & [=] & _)]). split; [by left|by left]. }
  apply shadow_evaluate_inv in He as [_ Hev]. specialize (Hev _ eq_refl).
  assert (match ev_signal evaluated with
    | Some generated => signal_decided env correlation_id symbol timeframe config
        (default RiskConfig_default risk_config) generated s s2 evaluated
    | None => True
    end) as Hev' by (destruct (ev_signal evaluated); [destruct Hev; by split|done]).
  clear Hev. rename Hev' into Hev.
  rewrite !andb_true_iff, negb_true_iff, !bool_decide_eq_true in Hguard.
  destruct Hguard as [[[[Hk Hen] Htime] _] ->].
  assert (forall generated, ev_signal evaluated = Some generated ->
    pl_signal_id plan' = Some (sg_signal_id generated) ->
    plan_signal_stored s2 plan' (ev_signal evaluated)) as Hstored.
  { intros generated Hg Hp. rewrite Hg in Hev |- *.
    destruct Hev as [(stored & side & row & Hin & Hkey & _) _]. right. by exists generated, stored. }
  destruct Hplan as [(generated & price & notional & quantity & Hsub & ->)|(Hd & _ & _ & Hs)].
  - destruct Hsub as [_ _ _ _ _ Hsig Happ Hprice Hnot (quotient & Hq & ->) Hpos].
    cbn in Hsig, Happ, Hprice, Hnot. split; [by apply (Hstored generated)|right].
    rewrite Hsig in Hev. destruct (signal_decided_notional _ _ _ _ _ _ _ _ _ _ Hev Happ) as [n Hn].
    rewrite Hn in Hnot. injection Hnot as ->.
    exists generated, price, (dround_dp quotient 8). split; [done|]. split; [|done|done].
    exists strategy_id, symbol, timeframe, config, risk_config, evaluated.
    repeat (split; [done|]). by exists notional, quotient.
  - split; [|by left]. destruct Hs as [Hn|(generated & Hg & Hp)]; [by left|].
    by apply (Hstored generated).
Qed.

(** ** The record of a run *)

Lemma collect_printed {A} `{FS : FromStr A} {as_str : A -> string} `{!FromStrLaws A as_str} (l : list A) :
  collect_res from_str (map as_str l) = Ok l.
Proof.
  induction l as [|x l IH]; [done|]. cbn [map collect_res]. rewrite from_str_print.
  cbn [mbind res_bind]. by rewrite IH.
Qed.

(** What is read back of a recorded plan is the plan. *)
Lemma shadow_result_of_record env request correlation_id plan signal_id open_time :
  testnet_shadow_run_result_from_record
    (shadow_run_record env request correlation_id plan signal_id open_time) =
  Ok {| sx_run_id := se_fresh env 3%nat; sx_strategy_id := sq_strategy_id request;
        sx_symbol := sq_symbol request; sx_timeframe := sq_timeframe request;
        sx_decision := pl_decision plan; sx_signal_id := signal_id;
        sx_risk_decision_id := pl_risk_decision_id plan;
        sx_would_submit_order := pl_would_submit_order plan; sx_reasons := pl_reasons plan;
        sx_price_source := pl_price_source plan; sx_resolved_price := pl_resolved_price plan;
        sx_status := pl_status plan; sx_evaluated_candle_open_time := open_time;
        sx_created_at := se_created_at env; sx_correlation_id := correlation_id |}.
Proof.
  unfold testnet_shadow_run_result_from_record. cbn [shadow_run_record sw_decision sw_reasons sw_status].
  rewrite (from_str_print (as_str := TestnetShadowDecision.as_str)). cbn [mbind res_bind].
  rewrite (collect_printed (as_str := TestnetShadowRejectionReason.as_str)). cbn [mbind res_bind].
  by rewrite (from_str_print (as_str := TestnetShadowStatus.as_str)).
Qed.

(** A stored signal makes the reference of a plan good: conflicts do not happen. *)
Lemma stabilize_stored s plan signal label : plan_signal_stored s plan signal ->
  exists signal_id, stabilize_shadow_signal_id s (pl_signal_id plan) signal label = Ok signal_id /\
    (signal_id = None <-> pl_signal_id plan = None) /\
    forall id, signal_id = Some id -> exists row, In row (t_signals s) /\ sn_id row = id.
Proof.
  intros [Hn|(generated & stored & -> & Hp & Hin & Hkey)]; [rewrite Hn; by exists None|].
  rewrite Hp. cbn [stabilize_shadow_signal_id].
  destruct (get_signal_by_id (sg_signal_id generated) s) as [row|] eqn:Hget.
  { rewrite bool_decide_true by done. eexists. do 2 (split; [done|]). intros id [= <-].
    apply find_some in Hget as [Hrow Hid%Z.eqb_eq]. by exists row. }
  rewrite bool_decide_false by (by intros [? [=]]).
  destruct (find_signal_by_identity generated s) as [row|] eqn:Hfind.
  { eexists. do 2 (split; [done|]). intros id [= <-]. apply find_some in Hfind as [Hrow _]. by exists row. }
  unfold find_signal_by_identity in Hfind. eapply find_none in Hfind; [|exact Hin].
  by rewrite bool_decide_true in Hfind.
Qed.

(** What recording a plan with such a reference does. *)
Lemma persist_stored env request correlation_id plan signal open_time s :
  plan_signal_stored (sh_tables s) plan signal ->
  existsb (fun other => sw_id other =? se_fresh env 3%nat) (sh_runs s) = false ->
  exists result s' signal_id,
    persist_shadow_result env request correlation_id plan signal open_time s = (Ok result, s') /\
    testnet_shadow_run_result_from_record
      (shadow_run_record env request correlation_id plan signal_id open_time) = Ok result /\
    (signal_id = None <-> pl_signal_id plan = None) /\
    (forall id, signal_id = Some id -> exists row, In row (t_signals (sh_tables s')) /\ sn_id row = id) /\
    sh_runs s' = sh_runs s ++ [shadow_run_record env request correlation_id plan signal_id open_time] /\
    order_tables (sh_tables s') = order_tables (sh_tables s) /\
    t_signals (sh_tables s') = t_signals (sh_tables s) /\
    t_risk_decisions (sh_tables s') = t_risk_decisions (sh_tables s) /\
    (sh_links s' = sh_links s \/
     exists candidate_id, sh_links s' = sh_links s ++ [(candidate_id, se_fresh env 3%nat)] /\
       existsb (fun link => snd link =? se_fresh env 3%nat) (sh_links s) = false).
Proof.
  intros Hst Hnew. unfold persist_shadow_result. set (candidate_match := resolve_promoted_research_candidate_for_shadow_run _).
  destruct (stabilize_stored _ _ _ (candidate_match_outcome_label candidate_match) Hst)
    as (signal_id & -> & Hnone & Hsome).
  cbv zeta. change (sw_id (shadow_run_record _ _ _ _ _ _)) with (se_fresh env 3%nat).
  rewrite Hnew, shadow_result_of_record. destruct candidate_match as [|candidate_id|].
  1, 3: eexists _, _, signal_id; (split; [reflexivity|]); rewrite shadow_result_of_record;
    do 7 (split; [done|]); by left.
  cbn [sh_links]. unfold insert_research_candidate_shadow_run_link.
  destruct (negb (se_still_promoted env candidate_id) || _) eqn:Hl.
  all: eexists _, _, signal_id; (split; [reflexivity|]); rewrite shadow_result_of_record;
    do 7 (split; [done|]).
  - by left.
  - right. apply orb_false_iff in Hl as [_ Hl]. by exists candidate_id.
Qed.

(** Whatever is recorded or not, the tables of the orders stay as they were. *)
Lemma persist_tables env request correlation_id plan signal open_time s :
  order_tables (sh_tables (snd (persist_shadow_result env request correlation_id plan signal open_time s)))
    = order_tables (sh_tables s).
Proof.
  unfold persist_shadow_result. cbv zeta. destruct (stabilize_shadow_signal_id _ _ _ _); [|done..].
  destruct (existsb _ (sh_runs s)); [done|].
  destruct (testnet_shadow_run_result_from_record _); [|done..].
  destruct (resolve_promoted_research_candidate_for_shadow_run _) as [|candidate_id|]; [done| |done].
  cbn [sh_links]. by destruct (insert_research_candidate_shadow_run_link _ _ _ _).
Qed.

(** The correlation of a run. *)
Definition shadow_correlation env (request : TestnetShadowRunRequest) : Z :=
  default (se_fresh env 0%nat) (sq_correlation_id request).

(** A shadow run never touches an order or the books of the paper account: whatever
    the strategy signals and the rules decide, and however the run ends, the orders, the
    accounts, the positions, the fills, the snapshots and the journal are what they were. *)
Lemma shadow_runs_never_order env (request : TestnetShadowRunRequest) (s : ShadowStore) :
  order_tables (sh_tables (snd (run_testnet_shadow_once env request s))) = order_tables (sh_tables s).
Proof.
  unfold run_testnet_shadow_once. cbv zeta.
  pose proof (plan_tables env request (default (se_fresh env 0%nat) (sq_correlation_id request)) (sh_tables s)) as Hp.
  destruct (plan_shadow_run _ _ _ _) as [[[[plan signal] open_time]| |] tables]; [|exact Hp..].
  by rewrite persist_tables.
Qed.

(** A run whose plan was reached is recorded as planned, and reports what it recorded:
    one row is added with the decision, the reasons, the order and the status of the plan.
    The signal the row refers to is in the table of the signals even when the signal of
    the run was dropped as a repetition, so the signal conflict of the interface is never
    raised by a run on its own. *)
Theorem shadow_run_records_its_plan env request s plan signal open_time tables :
  plan_shadow_run env request (shadow_correlation env request) (sh_tables s)
    = (Ok (plan, signal, open_time), tables) ->
  Forall (fun run => sw_id run <> se_fresh env 3%nat) (sh_runs s) ->
  exists result s' signal_id,
    run_testnet_shadow_once env request s = (Ok result, s') /\
    sh_runs s' = sh_runs s ++
      [shadow_run_record env request (shadow_correlation env request) plan signal_id open_time] /\
    sx_decision result = pl_decision plan /\ sx_reasons result = pl_reasons plan /\
    sx_status result = pl_status plan /\ sx_would_submit_order result = pl_would_submit_order plan /\
    sx_signal_id result = signal_id /\ (signal_id = None <-> pl_signal_id plan = None) /\
    forall id, signal_id = Some id ->
      exists row, In row (t_signals (sh_tables s')) /\ sn_id row = id.
Proof.
  intros Hplan Hnew. apply plan_cases in Hplan as Hst. destruct Hst as [Hst _].
  destruct (persist_stored env request (shadow_correlation env request) plan signal open_time
    {| sh_tables := tables; sh_runs := sh_runs s; sh_links := sh_links s |} Hst)
    as (result & s' & signal_id & Hrun & Hres & Hnone & Hsome & Hruns & _).
  { apply not_true_is_false. intros (run & Hin & Hid%Z.eqb_eq)%existsb_exists.
    rewrite List.Forall_forall in Hnew. by apply (Hnew run). }
  exists result, s', signal_id. unfold run_testnet_shadow_once. cbv zeta.
  fold (shadow_correlation env request). rewrite Hplan. split; [exact Hrun|]. split; [exact Hruns|].
  rewrite shadow_result_of_record in Hres. injection Hres as <-. done.
Qed.

(** A run that reports a result, taken apart. *)
Lemma shadow_run_inv env request s result s' :
  run_testnet_shadow_once env request s = (Ok result, s') ->
  exists plan signal open_time tables signal_id,
    plan_shadow_run env request (shadow_correlation env request) (sh_tables s)
      = (Ok (plan, signal, open_time), tables) /\
    existsb (fun other => sw_id other =? se_fresh env 3%nat) (sh_runs s) = false /\
    persist_shadow_result env request (shadow_correlation env request) plan signal open_time
      {| sh_tables := tables; sh_runs := sh_runs s; sh_links := sh_links s |} = (Ok result, s') /\
    testnet_shadow_run_result_from_record
      (shadow_run_record env request (shadow_correlation env request) plan signal_id open_time) = Ok result /\
    t_signals (sh_tables s') = t_signals tables /\
    t_risk_decisions (sh_tables s') = t_risk_decisions tables.
Proof.
  unfold run_testnet_shadow_once. cbv zeta. fold (shadow_correlation env request).
  destruct (plan_shadow_run _ _ _ _) as [[[[plan signal] open_time]| |] tables] eqn:Hplan; [|done..].
  intros Hrun. apply plan_cases in Hplan as Hst. destruct Hst as [Hst _].
  set (s1 := {| sh_tables := tables; sh_runs := sh_runs s; sh_links := sh_links s |}) in *.
  destruct (existsb (fun other => sw_id other =? se_fresh env 3%nat) (sh_runs s)) eqn:Hnew.
  { exfalso. revert Hrun. unfold persist_shadow_result. cbv zeta.
    destruct (stabilize_shadow_signal_id _ _ _ _); [|done..].
    change (sw_id (shadow_run_record _ _ _ _ _ _)) with (se_fresh env 3%nat).
    change (sh_runs s1) with (sh_runs s). by rewrite Hnew. }
  destruct (persist_stored env request (shadow_correlation env request) plan signal open_time s1 Hst Hnew)
    as (result' & s2 & signal_id & Hrun' & Hres & _ & _ & _ & _ & Hs & Hd & _).
  rewrite Hrun' in Hrun. injection Hrun as -> ->.
  exists plan, signal, open_time, tables, signal_id. repeat (split; [done|]). done.
Qed.

(** C17.  A run reports WOULD_SUBMIT only with everything a real submission would need: the
    kill switch is off, the strategy is enabled on the timeframe asked for, the candles
    are complete and fresh, the strategy signalled, the signal is stored, the rules let it
    pass in the state the run found, an approving decision on it was recorded, and a price
    was found; the order is a market order on the testnet, on the side of the signal, for
    the approved notional at that price, of a positive quantity. *)
Theorem shadow_orders_are_backed env request s result s' :
  run_testnet_shadow_once env request s = (Ok result, s') ->
  sx_decision result = TestnetShadowDecision.WouldSubmit ->
  exists signal price quantity plan,
    order_backed env request (shadow_correlation env request) (sh_tables s) (sh_tables s')
      signal price quantity plan /\
    sx_would_submit_order result = pl_would_submit_order plan /\
    sx_risk_decision_id result = pl_risk_decision_id plan /\
    sx_resolved_price result = pl_resolved_price plan.
Proof.
  intros (plan & signal & open_time & tables & signal_id & Hplan & _ & _ & Hres & Hs & Hd)%shadow_run_inv Hw.
  rewrite shadow_result_of_record in Hres. injection Hres as <-. cbn in Hw.
  apply plan_cases in Hplan as (_ & [Hn|(generated & price & quantity & _ & Hb)] & _); [done|].
  exists generated, price, quantity, plan. split; [|done].
  destruct Hb as [(strategy_id & symbol & timeframe & config & risk_config & evaluated & H1 & H2 & H3 & H4 &
    H5 & H6 & H7 & H8 & [Hsig Hprice] & Hrest) Hk Hp].
  split; [|done|done]. exists strategy_id, symbol, timeframe, config, risk_config, evaluated.
  do 8 (split; [done|]). split; [|done]. by split; [rewrite Hs, Hd|].
Qed.

(** ** The table of the runs *)

Record shadow_wf (s : ShadowStore) : Prop := {
  wf_ids : List.NoDup (map sw_id (sh_runs s));
  wf_signals : forall run id, In run (sh_runs s) -> sw_signal_id run = Some id ->
    exists signal, In signal (t_signals (sh_tables s)) /\ sn_id signal = id;
  wf_orders : forall run, In run (sh_runs s) ->
    sw_decision run = TestnetShadowDecision.as_str TestnetShadowDecision.WouldSubmit <->
    is_Some (sw_would_submit_payload run);
  wf_links : forall link, In link (sh_links s) -> In (snd link) (map sw_id (sh_runs s));
  wf_one_link : List.NoDup (map snd (sh_links s))
}.

Lemma existsb_not_in {A} (f : A -> Z) x (l : list A) :
  existsb (fun y => f y =? x) l = false -> ~ In x (map f l).
Proof.
  intros H (y & <- & Hin)%in_map_iff. apply not_true_iff_false in H. apply H.
  apply existsb_exists. exists y. by rewrite Z.eqb_refl.
Qed.

Lemma no_dup_snoc {A} (x : A) (l : list A) : List.NoDup l -> ~ In x l -> List.NoDup (l ++ [x]).
Proof.
  intros Hl Hx. apply List.NoDup_app; [done| |].
  - constructor; [by intros []|constructor].
  - intros y Hy [<-|[]]. done.
Qed.

(** Tables whose signals only grew keep the references good. *)
Lemma shadow_wf_grow s tables : shadow_wf s ->
  (exists rows, t_signals tables = t_signals (sh_tables s) ++ rows) ->
  shadow_wf {| sh_tables := tables; sh_runs := sh_runs s; sh_links := sh_links s |}.
Proof.
  intros [Hids Hsig Hord Hlinks Hone] [rows Hr]. split; [done| |done|done|done].
  intros run id Hin Hid. destruct (Hsig run id Hin Hid) as (signal & Hs & <-). exists signal.
  split; [|done]. cbn. rewrite Hr. apply in_or_app. by left.
Qed.

(** A recorded plan keeps the table of the runs well-formed. *)
Lemma persist_wf env request correlation_id plan signal open_time s :
  plan_signal_stored (sh_tables s) plan signal ->
  (pl_decision plan = TestnetShadowDecision.WouldSubmit <-> is_Some (pl_would_submit_order plan)) ->
  shadow_wf s ->
  shadow_wf (snd (persist_shadow_result env request correlation_id plan signal open_time s)).
Proof.
  intros Hst Hplan [Hids Hsig Hord Hlinks Hone].
  destruct (existsb (fun other => sw_id other =? se_fresh env 3%nat) (sh_runs s)) eqn:Hnew.
  { unfold persist_shadow_result. cbv zeta. destruct (stabilize_shadow_signal_id _ _ _ _); [|by split..].
    change (sw_id (shadow_run_record _ _ _ _ _ _)) with (se_fresh env 3%nat). rewrite Hnew. by split. }
  destruct (persist_stored env request correlation_id plan signal open_time s Hst Hnew)
    as (result & s' & signal_id & -> & _ & _ & Hsome & Hruns & _ & Hs & _ & Hl). cbn [snd].
  apply existsb_not_in in Hnew as Hfresh.
  split; rewrite ?Hruns, ?map_app.
  - by apply no_dup_snoc.
  - intros run id [Hin|[<-|[]]]%in_app_or Hid; [|by apply Hsome]. rewrite Hs. by apply (Hsig run).
  - intros run [Hin|[<-|[]]]%in_app_or; [by apply Hord|]. cbn [shadow_run_record sw_decision sw_would_submit_payload].
    rewrite <- Hplan. split; [apply (as_str_injective (as_str := TestnetShadowDecision.as_str))|by intros ->].
  - intros link Hin. apply in_or_app. destruct Hl as [Hl|(candidate_id & Hl & _)]; rewrite Hl in Hin.
    + left. by apply Hlinks.
    + apply in_app_or in Hin as [Hin|[<-|[]]]; [left; by apply Hlinks|right; by left].
  - destruct Hl as [->|(candidate_id & -> & Hlink)]; [done|]. rewrite map_app.
    apply existsb_not_in in Hlink. by apply no_dup_snoc.
Qed.

(** The table of the runs stays well-formed whatever a run does: identifiers are
    unique, a referenced signal exists, a row holds an order exactly when its decision is
    WOULD_SUBMIT, and a run is linked to at most one candidate. *)
Lemma shadow_run_keeps_table env request s :
  shadow_wf s -> shadow_wf (snd (run_testnet_shadow_once env request s)).
Proof.
  intros Hwf. unfold run_testnet_shadow_once. cbv zeta. fold (shadow_correlation env request).
  pose proof (plan_signals_grow env request (shadow_correlation env request) (sh_tables s)) as Hgrow.
  destruct (plan_shadow_run _ _ _ _) as [[[[plan signal] open_time]| |] tables] eqn:Hplan;
    [|by apply shadow_wf_grow..].
  apply plan_cases in Hplan as (Hst & _ & Hiff). apply persist_wf; [done|done|].
  by apply shadow_wf_grow.
Qed.
End ShadowRunFacts.

(** ** Runs on a small store *)

Module ShadowRunSample.
#[local] Existing Instance ExactDecimal.
#[local] Existing Instance ExactDecimalLaws.
#[local] Existing Instance PlainChrono.
#[local] Existing Instance PlainArith.
#[local] Existing Instance PlainSeconds.
#[local] Existing Instance PlainDatabase.
#[local] Existing Instance PipelineSample.no_json.
#[local] Existing Instance PipelineSample.scalars.

(** A run one second after the last candle, with identifiers from [id] on. *)
Definition env (id : Z) (kill_switch observation_only : bool) : ShadowEnv := {|
  se_observation_only := observation_only;
  se_created_at := seconds 241;
  se_now n := seconds 241 + milliseconds (Z.of_nat n);
  se_fresh n := id + Z.of_nat n;
  se_system_state := (kill_switch, None);
  se_strategy_config strategy_id :=
    if bool_decide (strategy_id = StrategyId.MomentumV1)
    then Some (StrategySample.config StrategyId.MomentumV1 3) else None;
  se_risk_config := Ok (Some PipelineSample.risk_config);
  se_exchange := MarketDataSource.Binance;
  se_feeds := [];
  se_closed_candles _ _ _ := sort_by_key c_open_time (List.filter c_is_closed StrategySample.rising);
  se_latest_market_tick _ := Some (dnew 100 0, seconds 240);
  se_latest_market_data_at := Some (seconds 240);
  se_fails _ := false;
  se_promoted _ _ _ := [(7, 5)];
  se_still_promoted _ := true
|}.

Definition request : TestnetShadowRunRequest := {|
  sq_strategy_id := "momentum_v1"; sq_symbol := "btcusdt"; sq_timeframe := "1m";
  sq_correlation_id := None |}.

Definition empty : ShadowStore := {|
  sh_tables := PipelineSample.empty; sh_runs := []; sh_links := [] |}.

(** What a run reported: the decision, whether there is an order, the reasons, the signal,
    and the numbers of runs and of links. *)
Definition report (run : res ShadowRunError TestnetShadowRunResult * ShadowStore)
    : option (TestnetShadowDecision.t * bool * list TestnetShadowRejectionReason.t * option Z) * nat * nat :=
  (match fst run with
   | Ok result => Some (sx_decision result, bool_decide (is_Some (sx_would_submit_order result)),
                        sx_reasons result, sx_signal_id result)
   | _ => None
   end, length (sh_runs (snd run)), length (sh_links (snd run))).

Definition first_run : res ShadowRunError TestnetShadowRunResult * ShadowStore :=
  run_testnet_shadow_once (env 100 false true) request empty.
Definition second_run : res ShadowRunError TestnetShadowRunResult * ShadowStore :=
  run_testnet_shadow_once (env 200 false true) request (snd first_run).
Definition stopped_run : res ShadowRunError TestnetShadowRunResult * ShadowStore :=
  run_testnet_shadow_once (env 100 true true) request empty.

Example first_run_would_submit :
  report first_run = (Some (TestnetShadowDecision.WouldSubmit, true,
    [TestnetShadowRejectionReason.MarketFeedUnavailable], Some 101%Z), 1, 1)%nat.
Proof. vm_compute. reflexivity. Qed.

(** The signal of a second run is a repetition; the row refers to the stored one. *)
Example second_run_refers_to_first_signal :
  report second_run = (Some (TestnetShadowDecision.WouldSubmit, true,
    [TestnetShadowRejectionReason.MarketFeedUnavailable], Some 101%Z), 2, 2)%nat.
Proof. vm_compute. reflexivity. Qed.

Example stopped_run_is_recorded :
  report stopped_run = (Some (TestnetShadowDecision.SkippedKillSwitch, false,
    [TestnetShadowRejectionReason.KillSwitchActive], None), 1, 1)%nat.
Proof. vm_compute. reflexivity. Qed.

(** Without the observation flag a run is refused and nothing is written. *)
Example observation_is_required :
  run_testnet_shadow_once (env 100 false false) request empty =
    (Err (ShadowValidation "shadow_observation_only_required"), empty).
Proof. reflexivity. Qed.

Lemma ok_inv {E A B} (run : res E A * B) (f : A -> bool) :
  match fst run with Ok a => f a | _ => false end = true ->
  exists a s', run = (Ok a, s') /\ f a = true.
Proof. destruct run as [[a| |] s']; [|done..]. eauto. Qed.

Example shadow_orders_are_backed_witness :
  exists result s' signal price quantity plan,
    run_testnet_shadow_once (env 100 false true) request empty = (Ok result, s') /\
    order_backed (env 100 false true) request (shadow_correlation (env 100 false true) request)
      (sh_tables empty) (sh_tables s') signal price quantity plan.
Proof.
  destruct (ok_inv (run_testnet_shadow_once (env 100 false true) request empty)
    (fun result => bool_decide (sx_decision result = TestnetShadowDecision.WouldSubmit)))
    as (result & s' & Hrun & Hd%bool_decide_eq_true); [vm_compute; reflexivity|].
  destruct (shadow_orders_are_backed _ _ _ _ _ Hrun Hd) as (signal & price & quantity & plan & Hb & _).
  exists result, s', signal, price, quantity, plan. split; [exact Hrun|exact Hb].
Defined.

Example shadow_run_records_its_plan_witness :
  exists result s', run_testnet_shadow_once (env 100 false true) request empty = (Ok result, s') /\
    length (sh_runs s') = 1%nat.
Proof.
  destruct (ok_inv (plan_shadow_run (env 100 false true) request
      (shadow_correlation (env 100 false true) request) (sh_tables empty)) (fun _ => true))
    as ([[plan signal] open_time] & tables & Hplan & _); [vm_compute; reflexivity|].
  destruct (shadow_run_records_its_plan (env 100 false true) request empty _ _ _ _ Hplan)
    as (result & s' & signal_id & Hrun & Hruns & _); [constructor|].
  exists result, s'. split; [exact Hrun|]. rewrite Hruns. reflexivity.
Defined.

Lemma empty_wf : shadow_wf empty.
Proof. by split; cbn; try constructor. Qed.
End ShadowRunSample.
