(* ===== verification/Readiness.v ===== *)
(** * Execution readiness

    crates/api/src/readiness.rs, and crates/core/src/lib.rs, 4917-4935 and 5122-5156.

    Before the paper pipeline, a shadow run, a promotion or a testnet submission,
    a list of checks is run against the stored state; each failed check blocks or
    costs points, and the findings are summed up in a status.  Every query is an
    argument: a query that fails fails the call. *)

From Stdlib Require Import ZArith QArith Lqa Lia List String Sorted Permutation.
From stdpp Require Import base list strings.
From S2P Require Import Prelude Text Host Types MarketData Risk Accounting Strategy ShadowTypes.

#[local] Open Scope Z_scope.

Abbreviation Severity := ExecutionReadinessCheckSeverity.t.
Abbreviation Blocker := ExecutionReadinessBlockingReason.t.
Abbreviation Advice := ExecutionReadinessRecommendation.t.

Definition score_penalty (self : Severity) : Z :=
  match self with
  | ExecutionReadinessCheckSeverity.Low => 3
  | ExecutionReadinessCheckSeverity.Medium => 8
  | ExecutionReadinessCheckSeverity.High => 15
  | ExecutionReadinessCheckSeverity.Critical => 0
  end.

Section Evaluating.
Context {DI : Decimal} {CH : Chrono} {JS : Json}.

Record ExecutionReadinessCheck := {
  ck_code : string;
  ck_name : string;
  ck_passed : bool;
  ck_blocking : bool;
  ck_severity : Severity;
  ck_summary : string;
  ck_details : option json
}.

Record ExecutionReadinessRequest := {
  eq_target : ExecutionReadinessTarget.t;
  eq_symbol : option string;
  eq_strategy_id : option string;
  eq_timeframe : option string;
  eq_promotion_id : option Z;
  eq_risk_decision_id : option Z;
  eq_start_time : option Z;
  eq_end_time : option Z;
  eq_persist : bool;
  eq_correlation_id : option Z
}.

Record ExecutionReadinessResult := {
  er_readiness_id : Z;
  er_target : ExecutionReadinessTarget.t;
  er_status : ExecutionReadinessStatus.t;
  er_score : Z;
  er_blocking_reasons : list Blocker;
  er_warnings : list ExecutionReadinessCheck;
  er_checks : list ExecutionReadinessCheck;
  er_recommendations : list Advice;
  er_computed_at : Z;
  er_correlation_id : Z
}.

Record ReadinessContext := {
  xc_strategy_id : string;
  xc_symbol : string;
  xc_timeframe : CandleInterval.t;
  xc_window_start : Z;
  xc_window_end : Z;
  xc_now : Z
}.

Definition is_failing (blocking : bool) (check : ExecutionReadinessCheck) : bool :=
  negb (ck_passed check) && Bool.eqb (ck_blocking check) blocking.
Definition is_critical (check : ExecutionReadinessCheck) : bool :=
  bool_decide (ck_severity check = ExecutionReadinessCheckSeverity.Critical).

(** [score.clamp(0, 100)] *)
Definition score_execution_readiness (checks : list ExecutionReadinessCheck) : Z :=
  Z.max 0 (Z.min 100
    (foldl (fun score check => score - score_penalty (ck_severity check)) 100
       (List.filter (is_failing false) checks))).

Definition execution_readiness_status_from_checks (checks : list ExecutionReadinessCheck) (score : Z)
    : ExecutionReadinessStatus.t :=
  if existsb (fun check => is_failing true check && is_critical check) checks then
    ExecutionReadinessStatus.Unknown
  else if existsb (is_failing true) checks || (score <? 60) then ExecutionReadinessStatus.NotReady
  else if 85 <=? score then ExecutionReadinessStatus.Ready
  else ExecutionReadinessStatus.Degraded.

(** ** Findings *)

(** The three lists the source threads through the checks. *)
Record findings := {
  fi_checks : list ExecutionReadinessCheck;
  fi_blockers : list Blocker;
  fi_recommendations : list Advice
}.

(** The order of the variants, that of the [BTreeSet]. *)
Definition recommendation_rank (advice : Advice) : Z :=
  match advice with
  | ExecutionReadinessRecommendation.RestoreDatabaseHealth => 0
  | ExecutionReadinessRecommendation.ResumeFromKillSwitch => 1
  | ExecutionReadinessRecommendation.ValidateRiskConfig => 2
  | ExecutionReadinessRecommendation.RefreshMarketFeed => 3
  | ExecutionReadinessRecommendation.EnableAuth => 4
  | ExecutionReadinessRecommendation.SeedRecentMarketPrice => 5
  | ExecutionReadinessRecommendation.EnableStrategy => 6
  | ExecutionReadinessRecommendation.FixStrategyConfig => 7
  | ExecutionReadinessRecommendation.BackfillClosedCandles => 8
  | ExecutionReadinessRecommendation.CreateOrRepairPaperAccount => 9
  | ExecutionReadinessRecommendation.ReviewPaperPnl => 10
  | ExecutionReadinessRecommendation.RestartShadowRunner => 11
  | ExecutionReadinessRecommendation.IncreaseShadowCoverage => 12
  | ExecutionReadinessRecommendation.ReducePromotionRejections => 13
  | ExecutionReadinessRecommendation.ReduceRiskRejections => 14
  | ExecutionReadinessRecommendation.ConfigureTestnetAdapter => 15
  | ExecutionReadinessRecommendation.ReconnectPrivateStream => 16
  | ExecutionReadinessRecommendation.ReconcileTestnetOrders => 17
  | ExecutionReadinessRecommendation.ResolveRepairFailures => 18
  | ExecutionReadinessRecommendation.PreviewOrRenewPromotion => 19
  | ExecutionReadinessRecommendation.ApproveRiskDecision => 20
  | ExecutionReadinessRecommendation.UseOwnerActor => 21
  | ExecutionReadinessRecommendation.RunRecentBacktest => 22
  | ExecutionReadinessRecommendation.VerifyRunnerState => 23
  end.

(** What is pushed: a check with its blocker and its recommendation, a warning, a
    recommendation of its own, or a check alone. *)
Inductive finding :=
  | Checked (check : ExecutionReadinessCheck) (blocker : Blocker) (recommendation : Advice)
  | Warned (check : ExecutionReadinessCheck)
  | Advised (recommendation : Advice).

Definition push_check (code name : string) (passed blocking : bool) (severity : Severity)
    (pass_summary fail_summary : string) (blocker : Blocker) (recommendation : Advice) : finding :=
  Checked {| ck_code := code; ck_name := name; ck_passed := passed; ck_blocking := blocking;
             ck_severity := severity;
             ck_summary := if passed then pass_summary else fail_summary; ck_details := None |}
    blocker recommendation.

Definition push_warning (code name : string) (severity : Severity) (summary : string) : finding :=
  Warned {| ck_code := code; ck_name := name; ck_passed := false; ck_blocking := false;
            ck_severity := severity; ck_summary := summary; ck_details := None |}.

Definition record_finding (acc : findings) (f : finding) : findings :=
  match f with
  | Checked check blocker recommendation =>
      {| fi_checks := fi_checks acc ++ [check];
         fi_blockers :=
           if negb (ck_passed check) && ck_blocking check &&
              negb (bool_decide (blocker ∈ fi_blockers acc))
           then fi_blockers acc ++ [blocker] else fi_blockers acc;
         fi_recommendations :=
           if ck_passed check then fi_recommendations acc
           else set_insert recommendation_rank recommendation (fi_recommendations acc) |}
  | Warned check =>
      {| fi_checks := fi_checks acc ++ [check]; fi_blockers := fi_blockers acc;
         fi_recommendations := fi_recommendations acc |}
  | Advised recommendation =>
      {| fi_checks := fi_checks acc; fi_blockers := fi_blockers acc;
         fi_recommendations :=
           set_insert recommendation_rank recommendation (fi_recommendations acc) |}
  end.

Definition record_all (fs : list finding) : findings :=
  foldl record_finding {| fi_checks := []; fi_blockers := []; fi_recommendations := [] |} fs.

(** [if test { f }] *)
Definition when (test : bool) (fs : list finding) : list finding := if test then fs else [].

Definition persist_allowed (role : option UserRole.t) : bool :=
  match role with Some UserRole.Owner | Some UserRole.Operator => true | _ => false end.

Definition SNAPSHOT_LIST_DEFAULT_LIMIT : Z := 20.
Definition SNAPSHOT_LIST_MAX_LIMIT : Z := 100.
Definition bounded_snapshot_list_limit (limit : option Z) : Z :=
  match limit with
  | Some value => if 0 <? value then Z.min value SNAPSHOT_LIST_MAX_LIMIT
                  else SNAPSHOT_LIST_DEFAULT_LIMIT
  | None => SNAPSHOT_LIST_DEFAULT_LIMIT
  end.

(** ** What is read *)

Record MarketFeedRow := {
  mf_exchange : string;
  mf_symbol : string;
  mf_freshness_status : DataFreshnessStatus.t;
  mf_last_event_at : option Z
}.

Record ReconciliationRunRow := {
  rn_mismatched_orders : Z;
  rn_unknown_orders : Z;
  rn_status : string
}.

(** The rows and settings the computation reads; [rs_risk_record] is the risk row,
    if any, with the configuration it decodes to, and [rs_strategy] the stored
    configuration of a strategy. *)
Record ReadinessReads := {
  rs_now : Z;
  rs_new_id : Z;
  rs_new_correlation_id : Z;
  rs_db_healthy : bool;
  rs_kill_switch_enabled : bool;
  rs_risk_record : option (option RiskConfig);
  rs_market_exchange : string;
  rs_feeds : list MarketFeedRow;
  rs_auth_disabled : bool;
  rs_environment : string;
  rs_default_symbols : list Symbol;
  rs_default_timeframe : string;
  rs_mark_price_received_at : string -> option Z;
  rs_strategy : StrategyId.t -> option StrategyConfig;
  rs_recent_closed_candles : Symbol -> CandleInterval.t -> Z -> list Candle;
  rs_paper_account : option PaperAccount;
  rs_runner_status : option TestnetShadowRunnerStatus.t;
  rs_shadow_would_submit_count : Z;
  rs_reconciliation_required_rate_pct : dec;
  rs_submit_rate_pct : dec;
  rs_risk_rejection_rate : dec;
  rs_testnet_configured : bool;
  rs_private_stream : option (ExchangePrivateStreamStatus.t * option Z);
  rs_order_states : list string;
  rs_reconciliation_runs : list ReconciliationRunRow;
  rs_repair_failures : Z;
  rs_promotion : Z -> option (string * Z);       (** status and expiry *)
  rs_risk_decision : Z -> option string;
  rs_backtest_count : Z
}.

Definition DEFAULT_WINDOW_HOURS : Z := 24.

Definition symbol_of (o : option Symbol) : option string := option_map symbol_text o.

Definition resolve_context (reads : ReadinessReads) (request : ExecutionReadinessRequest)
    : result ReadinessContext :=
  let now := rs_now reads in
  let strategy_id := default "momentum_v1" (eq_strategy_id request) in
  let strategy_config :=
    match from_str (A := StrategyId.t) strategy_id with
    | Ok strategy_id => rs_strategy reads strategy_id
    | _ => None
    end in
  let symbol :=
    match eq_symbol request with
    | Some symbol => symbol
    | None =>
        match symbol_of (config ← strategy_config; head (sc_symbols config)) with
        | Some symbol => symbol
        | None => default "BTCUSDT" (symbol_of (head (rs_default_symbols reads)))
        end
    end in
  timeframe ← from_str (A := CandleInterval.t)
    match eq_timeframe request with
    | Some timeframe => timeframe
    | None =>
        match strategy_config with
        | Some config => CandleInterval.as_str (sc_timeframe config)
        | None => rs_default_timeframe reads
        end
    end;
  let window_end := default now (eq_end_time request) in
  Ok {| xc_strategy_id := strategy_id;
        xc_symbol := symbol;
        xc_timeframe := timeframe;
        xc_window_start := default (window_end - hours DEFAULT_WINDOW_HOURS) (eq_start_time request);
        xc_window_end := window_end;
        xc_now := now |}.

Section Checks.
Context (reads : ReadinessReads) (request : ExecutionReadinessRequest) (context : ReadinessContext)
  (role : option UserRole.t).

Abbreviation High := ExecutionReadinessCheckSeverity.High.
Abbreviation Medium := ExecutionReadinessCheckSeverity.Medium.
Abbreviation Low := ExecutionReadinessCheckSeverity.Low.

Definition is_paper : bool := bool_decide (eq_target request = ExecutionReadinessTarget.PaperPipeline).
Definition is_paper_or_shadow : bool :=
  match eq_target request with
  | ExecutionReadinessTarget.PaperPipeline | ExecutionReadinessTarget.TestnetShadow => true
  | _ => false
  end.
Definition uses_strategy : bool :=
  match eq_target request with
  | ExecutionReadinessTarget.PaperPipeline | ExecutionReadinessTarget.TestnetShadow
  | ExecutionReadinessTarget.TestnetPromotion => true
  | _ => false
  end.

Definition system_checks : list finding :=
  [push_check "db_healthy" "Database health" (rs_db_healthy reads) true High
     "Database health query succeeded." "Database health query failed."
     ExecutionReadinessBlockingReason.DbUnhealthy
     ExecutionReadinessRecommendation.RestoreDatabaseHealth;
   push_check "kill_switch_inactive" "Kill switch inactive"
     (negb (rs_kill_switch_enabled reads)) true High
     "Kill switch is inactive." "Kill switch is active."
     ExecutionReadinessBlockingReason.KillSwitchActive
     ExecutionReadinessRecommendation.ResumeFromKillSwitch;
   push_check "validated_risk_config" "Validated risk config"
     match rs_risk_record reads with Some _ => true | None => false end true High
     "Validated risk config exists." "Validated risk config is missing."
     ExecutionReadinessBlockingReason.MissingValidatedRiskConfig
     ExecutionReadinessRecommendation.ValidateRiskConfig] ++
  when is_paper_or_shadow
  [push_check "risk_config_valid" "Risk config valid"
     match rs_risk_record reads with Some (Some _) => true | _ => false end true High
     "Risk config validation passed." "Risk config validation failed."
     ExecutionReadinessBlockingReason.RiskConfigInvalid
     ExecutionReadinessRecommendation.ValidateRiskConfig].

Definition feed_threshold_seconds : Z :=
  match rs_risk_record reads with
  | Some (Some config) => stale_feed_threshold_seconds config
  | _ => 10
  end.

Definition market_feed : option MarketFeedRow :=
  find (fun feed => String.eqb (mf_exchange feed) (rs_market_exchange reads) &&
                    String.eqb (mf_symbol feed) (xc_symbol context)) (rs_feeds reads).

(** [now.signed_duration_since(at).num_seconds()] *)
Definition age_seconds (at_ : Z) : Z := num_seconds (xc_now context - at_).

Definition market_checks : list finding :=
  [push_check "market_feed_fresh" "Market feed fresh"
     match market_feed with
     | Some feed => bool_decide (mf_freshness_status feed = DataFreshnessStatus.Fresh)
     | None => false
     end true High
     "Market feed is fresh." "Market feed is stale or unavailable."
     ExecutionReadinessBlockingReason.StaleMarketFeed
     ExecutionReadinessRecommendation.RefreshMarketFeed] ++
  match (feed ← market_feed; mf_last_event_at feed) with
  | Some last_event_at =>
      let age := age_seconds last_event_at in
      when ((Z.quot (feed_threshold_seconds * 4) 5 <=? age) && (age <? feed_threshold_seconds))
        [push_warning "feed_age_near_threshold" "Feed age near threshold" Low
           ("Feed age is " +:+ show_int age +:+ "s and approaching the " +:+
            show_int feed_threshold_seconds +:+ "s threshold.")]
  | None => []
  end.

Definition auth_checks : list finding :=
  [push_check "auth_enabled" "Auth enabled"
     (negb (rs_auth_disabled reads) ||
      is_paper && eq_ignore_ascii_case (rs_environment reads) "development")
     (negb is_paper) High
     "Auth is enabled for readiness target." "Auth is disabled for readiness target."
     ExecutionReadinessBlockingReason.AuthDisabled
     ExecutionReadinessRecommendation.EnableAuth] ++
  when (rs_auth_disabled reads && is_paper)
  [push_warning "auth_disabled_local_dev" "Auth disabled in local development" Low
     "Auth-disabled local development mode is active."].

Definition price_recent : bool :=
  match rs_mark_price_received_at reads (xc_symbol context) with
  | Some received_at => age_seconds received_at <=? feed_threshold_seconds
  | None => false
  end.

Definition price_checks : list finding :=
  [push_check "recent_market_price" "Recent market price" price_recent true High
     "Recent market price is available." "Recent market price is missing or stale."
     ExecutionReadinessBlockingReason.MissingRecentMarketPrice
     ExecutionReadinessRecommendation.SeedRecentMarketPrice].

Definition strategy_checks (strategy_config : option StrategyConfig) : list finding :=
  when uses_strategy
  ([push_check "strategy_enabled" "Strategy enabled"
     match strategy_config with Some config => sc_enabled config | None => false end true High
     "Strategy is enabled." "Strategy is disabled or unavailable."
     ExecutionReadinessBlockingReason.StrategyDisabled
     ExecutionReadinessRecommendation.EnableStrategy] ++
   when is_paper
   [push_check "strategy_config_valid" "Strategy config valid"
     match strategy_config with
     | Some config => is_ok (StrategyConfig_validate config)
     | None => false
     end true High
     "Strategy config validation passed." "Strategy config validation failed."
     ExecutionReadinessBlockingReason.StrategyConfigInvalid
     ExecutionReadinessRecommendation.FixStrategyConfig]).

(** The candles the strategy needs, at least one. *)
Definition required_candles (strategy_config : option StrategyConfig) : Z :=
  Z.max match strategy_config with Some config => required_candle_count config | None => 1 end 1.

Definition candle_checks (strategy_config : option StrategyConfig) : result (list finding) :=
  if is_paper_or_shadow then
    let required := required_candles strategy_config in
    symbol ← Symbol_new (xc_symbol context);
    let candles := rs_recent_closed_candles reads symbol (xc_timeframe context) required in
    Ok [push_check "recent_closed_candles" "Recent closed candles"
          (required <=? Z.of_nat (length candles)) true High
          "Recent closed candles are available." "Recent closed candles are missing."
          ExecutionReadinessBlockingReason.MissingRecentClosedCandles
          ExecutionReadinessRecommendation.BackfillClosedCandles]
  else Ok [].

Definition paper_checks : list finding :=
  let paper_account := rs_paper_account reads in
  [push_check "paper_account_present" "Paper account present"
     match paper_account with Some _ => true | None => false end true High
     "Default paper account exists." "Default paper account is missing."
     ExecutionReadinessBlockingReason.PaperAccountMissing
     ExecutionReadinessRecommendation.CreateOrRepairPaperAccount;
   push_check "paper_account_healthy" "Paper account healthy"
     match paper_account with
     | Some account => bool_decide (pa_status account = PaperAccountStatus.Active)
     | None => false
     end true High
     "Paper account is active." "Paper account is unhealthy."
     ExecutionReadinessBlockingReason.PaperAccountUnhealthy
     ExecutionReadinessRecommendation.CreateOrRepairPaperAccount] ++
  match paper_account with
  | Some account =>
      when (pa_realized_pnl account + pa_unrealized_pnl account <? ZERO)%dec
        [push_warning "paper_pnl_negative" "Paper PnL negative" Medium
           "Paper account realized plus unrealized PnL is negative.";
         Advised ExecutionReadinessRecommendation.ReviewPaperPnl]
  | None => []
  end.

Definition shadow_checks : list finding :=
  [push_check "shadow_runner_not_error" "Shadow runner not error"
     (negb (bool_decide (rs_runner_status reads = Some TestnetShadowRunnerStatus.Error))) true High
     "Shadow runner is not in error state." "Shadow runner is in error state."
     ExecutionReadinessBlockingReason.ShadowRunnerError
     ExecutionReadinessRecommendation.RestartShadowRunner] ++
  when match rs_runner_status reads with
       | Some TestnetShadowRunnerStatus.Paused | Some TestnetShadowRunnerStatus.Stopped => true
       | _ => false
       end
    [push_warning "shadow_runner_paused" "Shadow runner paused or stopped" Medium
       "Shadow runner is paused or stopped.";
     push_warning "shadow_runner_not_active" "Shadow runner not actively processing ticks" Medium
       "Shadow runner is not actively processing shadow ticks.";
     Advised ExecutionReadinessRecommendation.VerifyRunnerState].

Definition promotion_checks : list finding :=
  let would_submit := rs_shadow_would_submit_count reads in
  let rejection_rate := rs_reconciliation_required_rate_pct reads in
  [push_check "shadow_would_submit_count_positive" "Shadow would-submit count positive"
     (0 <? would_submit) true High
     "Recent shadow would-submit count is positive." "Recent shadow would-submit count is zero."
     ExecutionReadinessBlockingReason.ZeroShadowWouldSubmitCount
     ExecutionReadinessRecommendation.IncreaseShadowCoverage] ++
  when ((0 <? would_submit) && (would_submit <? 3))
    [push_warning "shadow_would_submit_low" "Shadow would-submit count low" Medium
       "Recent shadow would-submit count is low."] ++
  [push_check "promotion_rejection_rate_acceptable" "Promotion rejection/expiry rate acceptable"
     (rejection_rate <=? dint 50)%dec true High
     "Promotion rejection/expiry rate is acceptable." "Promotion rejection/expiry rate is too high."
     ExecutionReadinessBlockingReason.PromotionFunnelHighRejectionRate
     ExecutionReadinessRecommendation.ReducePromotionRejections;
   push_check "risk_rejection_rate_acceptable" "Risk rejection rate acceptable"
     (rs_risk_rejection_rate reads <=? dint 50)%dec true High
     "Risk rejection rate is acceptable." "Risk rejection rate is too high."
     ExecutionReadinessBlockingReason.HighRiskRejectionRate
     ExecutionReadinessRecommendation.ReduceRiskRejections] ++
  when (rs_risk_rejection_rate reads >? dint 25)%dec
    [push_warning "risk_rejection_rate_high" "Risk rejection rate high" Medium
       "Risk rejection rate is elevated."] ++
  when (rs_submit_rate_pct reads <? dint 25)%dec
    [push_warning "promotion_submit_rate_low" "Promotion submit rate low" Low
       "Promotion submit rate is low."] ++
  [push_check "local_price_fresh_for_promotion" "Local price fresh" price_recent true High
     "Local price is fresh for promotion." "Local price is stale for promotion."
     ExecutionReadinessBlockingReason.StaleLocalPrice
     ExecutionReadinessRecommendation.SeedRecentMarketPrice].

Definition stream_recent : bool :=
  match (stream ← rs_private_stream reads; snd stream) with
  | Some last_event_at => age_seconds last_event_at <=? feed_threshold_seconds
  | None => false
  end.

Definition stream_checks : list finding :=
  [push_check "testnet_adapter_configured" "Testnet adapter configured" (rs_testnet_configured reads)
     true High
     "Testnet adapter is configured." "Testnet adapter is not configured."
     ExecutionReadinessBlockingReason.TestnetAdapterNotConfigured
     ExecutionReadinessRecommendation.ConfigureTestnetAdapter;
   push_check "private_stream_connected" "Private stream connected"
     match rs_private_stream reads with
     | Some (status, _) => bool_decide (status = ExchangePrivateStreamStatus.Connected)
     | None => false
     end true High
     "Private stream is connected." "Private stream is disconnected or unavailable."
     ExecutionReadinessBlockingReason.PrivateStreamDisconnected
     ExecutionReadinessRecommendation.ReconnectPrivateStream;
   push_check "private_stream_recent" "Private stream recent" stream_recent true High
     "Private stream has recent events." "Private stream is stale."
     ExecutionReadinessBlockingReason.PrivateStreamStale
     ExecutionReadinessRecommendation.ReconnectPrivateStream] ++
  match (stream ← rs_private_stream reads; snd stream) with
  | Some last_event_at =>
      when ((Z.quot (feed_threshold_seconds * 4) 5 <=? age_seconds last_event_at) && stream_recent)
        [push_warning "private_stream_quiet" "Private stream quiet" Low
           "Private stream has not produced events recently."]
  | None => []
  end.

(** No row is in the given execution state. *)
Definition no_order_in (state : TestnetExecutionState.t) : bool :=
  vec_is_empty (List.filter (fun order => String.eqb order (TestnetExecutionState.as_str state))
    (rs_order_states reads)).

Definition unresolved_run (run : ReconciliationRunRow) : bool :=
  (0 <? rn_mismatched_orders run) || (0 <? rn_unknown_orders run) ||
  eq_ignore_ascii_case (rn_status run) "FAILED".

Definition order_checks : list finding :=
  [push_check "no_reconciliation_required_orders" "No reconciliation-required orders"
     (no_order_in TestnetExecutionState.ReconciliationRequired) true High
     "No reconciliation-required orders are present." "Reconciliation-required orders are present."
     ExecutionReadinessBlockingReason.ReconciliationRequiredOrdersPresent
     ExecutionReadinessRecommendation.ReconcileTestnetOrders;
   push_check "no_unknown_exchange_state_orders" "No unknown exchange-state orders"
     (no_order_in TestnetExecutionState.UnknownExchangeState) true High
     "No unknown exchange-state orders are present." "Unknown exchange-state orders are present."
     ExecutionReadinessBlockingReason.UnknownExchangeStateOrdersPresent
     ExecutionReadinessRecommendation.ReconcileTestnetOrders;
   push_check "reconciliation_runs_clean" "Reconciliation runs clean"
     (negb (existsb unresolved_run (rs_reconciliation_runs reads))) true High
     "Recent reconciliation runs are clean."
     "Recent reconciliation runs contain unresolved mismatches."
     ExecutionReadinessBlockingReason.UnresolvedReconciliationMismatches
     ExecutionReadinessRecommendation.ReconcileTestnetOrders;
   push_check "no_recent_repair_failures" "No recent repair failures"
     (rs_repair_failures reads =? 0) true High
     "No recent repair failures were observed." "Recent repair failures were observed."
     ExecutionReadinessBlockingReason.RecentRepairFailures
     ExecutionReadinessRecommendation.ResolveRepairFailures].

Definition submit_checks : list finding :=
  match eq_promotion_id request with
  | Some promotion_id =>
      let promotion := rs_promotion reads promotion_id in
      [push_check "promotion_previewed" "Promotion previewed"
         match promotion with
         | Some (status, _) => eq_ignore_ascii_case status "PREVIEWED" ||
                               eq_ignore_ascii_case status "SUBMITTED"
         | None => false
         end true High
         "Promotion has been previewed." "Promotion has not been previewed."
         ExecutionReadinessBlockingReason.PromotionNotPreviewed
         ExecutionReadinessRecommendation.PreviewOrRenewPromotion;
       push_check "promotion_not_expired" "Promotion not expired"
         match promotion with Some (_, expires_at) => xc_now context <=? expires_at | None => false end
         true High
         "Promotion is still valid." "Promotion has expired."
         ExecutionReadinessBlockingReason.PromotionExpired
         ExecutionReadinessRecommendation.PreviewOrRenewPromotion]
  | None => []
  end ++
  [push_check "approved_risk_decision_present" "Approved risk decision present"
     match (id ← eq_risk_decision_id request; rs_risk_decision reads id) with
     | Some decision => eq_ignore_ascii_case decision "approved"
     | None => false
     end true High
     "Approved risk decision is present." "Approved risk decision is missing."
     ExecutionReadinessBlockingReason.MissingApprovedRiskDecision
     ExecutionReadinessRecommendation.ApproveRiskDecision;
   push_check "owner_actor_present" "Owner actor present"
     (bool_decide (role = Some UserRole.Owner)) true High
     "Owner actor is present." "Owner actor is required for submit readiness."
     ExecutionReadinessBlockingReason.NonOwnerActor
     ExecutionReadinessRecommendation.UseOwnerActor].

Definition target_checks : list finding :=
  match eq_target request with
  | ExecutionReadinessTarget.PaperPipeline => paper_checks
  | ExecutionReadinessTarget.TestnetShadow => shadow_checks
  | ExecutionReadinessTarget.TestnetPromotion => promotion_checks
  | ExecutionReadinessTarget.TestnetSubmit => stream_checks ++ order_checks ++ submit_checks
  end.

Definition minimal_context_missing : ExecutionReadinessCheck := {|
  ck_code := "minimal_context_missing"; ck_name := "Minimal context missing"; ck_passed := false;
  ck_blocking := true; ck_severity := ExecutionReadinessCheckSeverity.Critical;
  ck_summary := "Symbol and strategy filters were both omitted; target-specific checks are incomplete.";
  ck_details := None |}.

Definition closing_checks : list finding :=
  when (rs_backtest_count reads =? 0)
    [push_warning "no_recent_backtest" "No recent backtest" Low
       "No recent backtest run was found in the readiness window.";
     Advised ExecutionReadinessRecommendation.RunRecentBacktest] ++
  when match eq_symbol request, eq_strategy_id request with None, None => true | _, _ => false end
    [Warned minimal_context_missing].

Definition readiness_findings : result (list finding) :=
  strategy_id ← from_str (A := StrategyId.t) (xc_strategy_id context);
  let strategy_config := rs_strategy reads strategy_id in
  candles ← candle_checks strategy_config;
  Ok (system_checks ++ market_checks ++ auth_checks ++ price_checks ++
      strategy_checks strategy_config ++ candles ++ target_checks ++ closing_checks).
End Checks.

Definition finalize_readiness_result (new_v4 : Z) (target : ExecutionReadinessTarget.t)
    (checks : list ExecutionReadinessCheck) (blockers : list Blocker) (recommendations : list Advice)
    (computed_at correlation_id : Z) : ExecutionReadinessResult :=
  let score := score_execution_readiness checks in
  let score := if negb (vec_is_empty blockers) then Z.min score 40 else score in
  {| er_readiness_id := new_v4;
     er_target := target;
     er_status :=
       if existsb (fun check => is_failing true check && is_critical check) checks then
         ExecutionReadinessStatus.Unknown
       else if negb (vec_is_empty blockers) || (score <? 60) then ExecutionReadinessStatus.NotReady
       else if 85 <=? score then ExecutionReadinessStatus.Ready
       else ExecutionReadinessStatus.Degraded;
     er_score := score;
     er_blocking_reasons := blockers;
     er_warnings := List.filter (is_failing false) checks;
     er_checks := checks;
     er_recommendations := recommendations;
     er_computed_at := computed_at;
     er_correlation_id := correlation_id |}.

(** Up to the telemetry and the snapshot a caller may ask to be stored. *)
Definition compute_execution_readiness (reads : ReadinessReads) (request : ExecutionReadinessRequest)
    (role : option UserRole.t) : result ExecutionReadinessResult :=
  context ← resolve_context reads request;
  fs ← readiness_findings reads request context role;
  let acc := record_all fs in
  Ok (finalize_readiness_result (rs_new_id reads) (eq_target request) (fi_checks acc)
        (fi_blockers acc) (fi_recommendations acc) (xc_now context)
        (default (rs_new_correlation_id reads) (eq_correlation_id request))).
End Evaluating.

(** ** What the findings add up to *)

Lemma recommendation_rank_inj x y : recommendation_rank x = recommendation_rank y -> x = y.
Proof. by destruct x, y. Qed.

Section FindingFacts.
Context {DI : Decimal} {CH : Chrono} {JS : Json}.

Definition check_of (f : finding) : option ExecutionReadinessCheck :=
  match f with Checked check _ _ | Warned check => Some check | Advised _ => None end.

Definition advice_of (f : finding) : option Advice :=
  match f with
  | Checked check _ recommendation => if ck_passed check then None else Some recommendation
  | Warned _ => None
  | Advised recommendation => Some recommendation
  end.

(** The finding adds no blocker. *)
Definition clear (f : finding) : Prop :=
  match f with
  | Checked check _ _ => ck_passed check = true \/ ck_blocking check = false
  | _ => True
  end.

Lemma record_all_snoc fs f : record_all (fs ++ [f]) = record_finding (record_all fs) f.
Proof. unfold record_all. by rewrite foldl_app. Qed.

Lemma record_all_checks fs : fi_checks (record_all fs) = omap check_of fs.
Proof.
  induction fs as [|f fs IH] using rev_ind; [done|].
  rewrite record_all_snoc, omap_app, <- IH. destruct f; cbn; rewrite ?app_nil_r; done.
Qed.

Lemma record_all_advice fs : fi_recommendations (record_all fs) = set_collect recommendation_rank advice_of fs.
Proof.
  unfold set_collect. induction fs as [|f fs IH] using rev_ind; [done|].
  rewrite record_all_snoc, foldl_app. cbn [foldl]. rewrite <- IH.
  destruct f as [check b r| |]; cbn; [|done..]. by destruct (ck_passed check).
Qed.

Lemma record_all_blockers fs b : b ∈ fi_blockers (record_all fs) <->
  exists check advice, In (Checked check b advice) fs /\ ck_passed check = false /\ ck_blocking check = true.
Proof.
  induction fs as [|f fs IH] using rev_ind.
  { cbn. split; [by intros ?%elem_of_nil|]. by intros (? & ? & [] & _). }
  rewrite record_all_snoc. transitivity (b ∈ fi_blockers (record_all fs) \/
    exists check advice, f = Checked check b advice /\ ck_passed check = false /\ ck_blocking check = true).
  - destruct f as [check b' advice|check|advice]; cbn [record_finding fi_blockers].
    + destruct (ck_passed check) eqn:Ep, (ck_blocking check) eqn:Eb; cbn [negb andb].
      all: try (split; [by left|intros [?|(? & ? & [= -> -> ->] & ? & ?)]; [done|congruence]]).
      case_bool_decide as Hin; cbn [negb].
      * split; [by left|]. intros [?|(? & ? & [= -> -> ->] & _)]; done.
      * rewrite elem_of_app, list_elem_of_singleton. split.
        -- intros [?| ->]; [by left|]. right. by exists check, advice.
        -- intros [?|(? & ? & [= -> -> ->] & _)]; auto.
    + split; [by left|]. by intros [?|(? & ? & ? & _)].
    + split; [by left|]. by intros [?|(? & ? & ? & _)].
  - rewrite IH. setoid_rewrite in_app_iff. split.
    + intros [(c & a & H & ?)|(c & a & -> & ?)]; exists c, a; split; auto. right. by left.
    + intros (c & a & [H|[->|[]]] & ?); [left|right]; by exists c, a.
Qed.

Lemma no_blockers_iff fs : fi_blockers (record_all fs) = [] <-> Forall clear fs.
Proof.
  rewrite Forall_forall. split.
  - intros Hn f Hf. apply list_elem_of_In in Hf. destruct f as [check b advice| |]; cbn; [|done..].
    destruct (ck_passed check) eqn:Ep; [by left|]. destruct (ck_blocking check) eqn:Eb; [|by right].
    assert (b ∈ fi_blockers (record_all fs)) as H
      by (apply record_all_blockers; exists check, advice; auto).
    rewrite Hn in H. by apply elem_of_nil in H.
  - intros H. destruct (fi_blockers (record_all fs)) as [|b l] eqn:E; [done|].
    assert (b ∈ fi_blockers (record_all fs)) as Hb by (rewrite E; by left).
    apply record_all_blockers in Hb as (check & advice & Hin & Hp & Hbl).
    apply list_elem_of_In, H in Hin. cbn in Hin. destruct Hin; congruence.
Qed.

(** ** The score *)

Definition penalty_of (check : ExecutionReadinessCheck) : Z :=
  if is_failing false check then score_penalty (ck_severity check) else 0.
Definition total_penalty (checks : list ExecutionReadinessCheck) : Z :=
  foldr (fun check n => penalty_of check + n) 0 checks.

Lemma score_penalty_nonneg s : 0 <= score_penalty s <= 15.
Proof. destruct s; cbn; lia. Qed.

Lemma total_penalty_nonneg checks : 0 <= total_penalty checks.
Proof.
  induction checks as [|check checks IH]; [done|]. unfold total_penalty in *. cbn [foldr].
  unfold penalty_of at 1. destruct (is_failing false check); [|lia].
  pose proof (score_penalty_nonneg (ck_severity check)). lia.
Qed.

Lemma total_penalty_app a b : total_penalty (a ++ b) = total_penalty a + total_penalty b.
Proof. unfold total_penalty. induction a as [|x a IH]; cbn [app foldr]; lia. Qed.

Lemma score_spec checks : score_execution_readiness checks = Z.max 0 (100 - total_penalty checks).
Proof.
  assert (forall s, foldl (fun score check => score - score_penalty (ck_severity check)) s
      (List.filter (is_failing false) checks) = s - total_penalty checks) as H.
  { induction checks as [|check checks IH]; intros s; [cbn; lia|].
    unfold total_penalty in *. cbn [List.filter foldr]. unfold penalty_of at 1.
    destruct (is_failing false check); cbn [foldl]; rewrite IH; lia. }
  unfold score_execution_readiness. rewrite H. pose proof (total_penalty_nonneg checks). lia.
Qed.
End FindingFacts.

(** ** What the checks cost *)

Section ReadinessFacts.
Context {DI : Decimal} {CH : Chrono} {JS : Json}.

(** What a finding costs, and whether it is a failed critical blocking check. *)
Definition fpen (f : finding) : Z :=
  match check_of f with Some check => penalty_of check | None => 0 end.
Definition fcrit (f : finding) : bool :=
  match check_of f with
  | Some check => is_failing true check && is_critical check
  | None => false
  end.
Definition pen (fs : list finding) : Z := foldr (fun f n => fpen f + n) 0 fs.

Lemma pen_spec fs : total_penalty (omap check_of fs) = pen fs.
Proof.
  unfold total_penalty, pen, fpen. induction fs as [|f fs IH]; [done|].
  change (omap check_of (f :: fs)) with
    match check_of f with Some c => c :: omap check_of fs | None => omap check_of fs end.
  cbn [foldr]. rewrite <- IH. by destruct (check_of f).
Qed.
Lemma crit_spec fs :
  existsb (fun check => is_failing true check && is_critical check) (omap check_of fs) = existsb fcrit fs.
Proof.
  unfold fcrit. induction fs as [|f fs IH]; [done|].
  change (omap check_of (f :: fs)) with
    match check_of f with Some c => c :: omap check_of fs | None => omap check_of fs end.
  cbn [existsb]. rewrite <- IH. by destruct (check_of f).
Qed.

Lemma pen_nil : pen [] = 0. Proof. done. Qed.
Lemma pen_cons f fs : pen (f :: fs) = fpen f + pen fs. Proof. done. Qed.
Lemma pen_app a b : pen (a ++ b) = pen a + pen b.
Proof. unfold pen. induction a as [|x a IH]; cbn [app foldr]; lia. Qed.
Lemma pen_when test fs : pen (when test fs) = if test then pen fs else 0.
Proof. by destruct test. Qed.
Lemma fpen_check code name passed blocking severity pass_summary fail_summary blocker advice :
  fpen (push_check code name passed blocking severity pass_summary fail_summary blocker advice) =
  if blocking then 0 else if passed then 0 else score_penalty severity.
Proof. unfold fpen, penalty_of, is_failing. cbn. by destruct passed, blocking. Qed.
Lemma fpen_warning code name severity summary :
  fpen (push_warning code name severity summary) = score_penalty severity.
Proof. done. Qed.
Lemma fpen_advised advice : fpen (Advised advice) = 0. Proof. done. Qed.
Lemma clear_check code name passed severity pass_summary fail_summary blocker advice :
  clear (push_check code name passed true severity pass_summary fail_summary blocker advice) <->
  passed = true.
Proof. cbn. intuition congruence. Qed.
Lemma clear_when test fs : Forall clear (when test fs) <-> (test = true -> Forall clear fs).
Proof. destruct test; cbn; split; auto; done. Qed.

Context (reads : ReadinessReads) (request : ExecutionReadinessRequest) (context : ReadinessContext)
  (role : option UserRole.t).

(** A failed blocking check that no blocker stands for. *)
Definition warned (f : finding) : bool :=
  match f with Warned check => is_failing true check | _ => false end.

Lemma failing_spec fs : existsb (is_failing true) (omap check_of fs) =
  negb (vec_is_empty (fi_blockers (record_all fs))) || existsb warned fs.
Proof.
  apply eq_true_iff_eq. rewrite orb_true_iff, negb_true_iff, !existsb_exists.
  rewrite <- not_true_iff_false, vec_is_empty_iff, no_blockers_iff. split.
  - intros (check & Hin & Hf). apply list_elem_of_In, list_elem_of_omap in Hin as (f & Hin & Hc).
    apply list_elem_of_In in Hin. destruct f as [c b a|c|]; cbn in Hc; [|injection Hc as ->|done].
    + left. injection Hc as ->. rewrite Forall_forall. intros H.
      apply list_elem_of_In, H in Hin. cbn in Hin. unfold is_failing in Hf.
      apply andb_true_iff in Hf as [Hp Hb]. destruct Hin as [H'|H']; rewrite H' in *; done.
    + right. by exists (Warned check).
  - intros [Hn|(f & Hin & Hw)].
    + destruct (existsb (is_failing true) (omap check_of fs)) eqn:E; [by apply existsb_exists|].
      destruct Hn. apply Forall_forall. intros f Hf. destruct f as [c b a|c|]; [|done..].
      assert (is_failing true c = false) as Hc.
      { destruct (is_failing true c) eqn:Ec; [|done]. rewrite <- E. symmetry. apply existsb_exists.
        exists c. split; [|done]. apply list_elem_of_In, list_elem_of_omap. by exists (Checked c b a). }
      revert Hc. unfold is_failing. cbn. destruct (ck_passed c), (ck_blocking c); cbn; auto.
    + destruct f as [|c|]; [done| |done]. exists c. split; [|done].
      apply list_elem_of_In, list_elem_of_omap. exists (Warned c). split; [by apply list_elem_of_In|done].
Qed.

(** A test that only the missing context passes. *)
Record only_missing_context (p : finding -> bool) : Prop := {
  om_check : forall code name passed blocking severity pass_summary fail_summary blocker advice,
    severity <> ExecutionReadinessCheckSeverity.Critical ->
    p (push_check code name passed blocking severity pass_summary fail_summary blocker advice) = false;
  om_warning : forall code name severity summary, p (push_warning code name severity summary) = false;
  om_advised : forall advice, p (Advised advice) = false;
  om_missing : p (Warned minimal_context_missing) = true
}.

Lemma fcrit_only : only_missing_context fcrit.
Proof.
  split; try done. intros *. intros H. unfold fcrit, is_critical. cbn.
  rewrite bool_decide_eq_false_2 by done. by rewrite andb_false_r.
Qed.
Lemma warned_only : only_missing_context warned.
Proof. by split. Qed.

(** Neither a symbol nor a strategy was asked for. *)
Definition no_filters : bool :=
  match eq_symbol request, eq_strategy_id request with None, None => true | _, _ => false end.

Create Rewrite HintDb pen.
Hint Rewrite pen_app pen_cons pen_nil pen_when fpen_check fpen_warning fpen_advised : pen.
Ltac count := autorewrite with pen; cbn; repeat case_match; cbn; autorewrite with pen; cbn; repeat case_match; lia.

Lemma candle_checks_spec config fs : candle_checks reads request context config = Ok fs ->
  pen fs = 0 /\ forall p, only_missing_context p -> existsb p fs = false.
Proof.
  unfold candle_checks. destruct (is_paper_or_shadow request); [|by intros [= <-]].
  destruct (Symbol_new _); cbn [mbind res_bind]; [|done..]. intros [= <-].
  split; [by autorewrite with pen|]. intros p [Hp _ _ _]. cbn [existsb]. by rewrite Hp.
Qed.

Lemma pen_system : pen (system_checks reads request) = 0.
Proof. unfold system_checks. count. Qed.
Lemma pen_market : 0 <= pen (market_checks reads context) <= 3.
Proof. unfold market_checks. count. Qed.
Lemma pen_auth : 0 <= pen (auth_checks reads request) <=
  match eq_target request with ExecutionReadinessTarget.PaperPipeline => 18 | _ => 0 end.
Proof.
  unfold auth_checks, is_paper. destruct (eq_target request); case_bool_decide; try congruence; count.
Qed.
Lemma pen_price : pen (price_checks reads context) = 0.
Proof. unfold price_checks. count. Qed.
Lemma pen_strategy config : pen (strategy_checks request config) = 0.
Proof. unfold strategy_checks. count. Qed.
Lemma pen_closing : 0 <= pen (closing_checks reads request) <= 3.
Proof.
  unfold closing_checks. autorewrite with pen. cbn [score_penalty]. unfold fpen. cbn.
  unfold penalty_of, is_failing. cbn. repeat case_match; lia.
Qed.
Lemma pen_target : 0 <= pen (target_checks reads request context role) <=
  match eq_target request with
  | ExecutionReadinessTarget.PaperPipeline => 8
  | ExecutionReadinessTarget.TestnetShadow => 16
  | ExecutionReadinessTarget.TestnetPromotion => 19
  | ExecutionReadinessTarget.TestnetSubmit => 3
  end.
Proof.
  unfold target_checks. destruct (eq_target request).
  - unfold paper_checks. count.
  - unfold shadow_checks. count.
  - unfold promotion_checks. count.
  - unfold stream_checks, order_checks, submit_checks. autorewrite with pen.
    destruct (eq_promotion_id request); count.
Qed.

Lemma readiness_findings_inv fs : readiness_findings reads request context role = Ok fs ->
  exists strategy_id candles,
    from_str (A := StrategyId.t) (xc_strategy_id context) = Ok strategy_id /\
    candle_checks reads request context (rs_strategy reads strategy_id) = Ok candles /\
    fs = system_checks reads request ++ market_checks reads context ++ auth_checks reads request ++
         price_checks reads context ++ strategy_checks request (rs_strategy reads strategy_id) ++
         candles ++ target_checks reads request context role ++ closing_checks reads request.
Proof.
  unfold readiness_findings. destruct (from_str _) as [id| |]; cbn [mbind res_bind]; [|done..].
  destruct (candle_checks _ _ _ _) as [candles| |] eqn:Hc; cbn [mbind res_bind]; [|done..].
  intros H. exists id, candles. repeat split; [done|]. congruence.
Qed.

(** Warnings alone cost at most 32 points, and 9 for a submission. *)
Lemma findings_penalty fs : readiness_findings reads request context role = Ok fs ->
  0 <= pen fs <= match eq_target request with
                 | ExecutionReadinessTarget.TestnetSubmit => 9
                 | _ => 32
                 end.
Proof.
  intros (id & candles & _ & [Hc _]%candle_checks_spec & ->)%readiness_findings_inv. rewrite !pen_app.
  pose proof pen_system. pose proof pen_market. pose proof pen_auth. pose proof pen_price.
  pose proof (pen_strategy (rs_strategy reads id)). pose proof pen_closing. pose proof pen_target.
  destruct (eq_target request); lia.
Qed.

Section Counting.
Context (p : finding -> bool) (Hp : only_missing_context p).

Lemma existsb_when test fs : existsb p (when test fs) = test && existsb p fs.
Proof. by destruct test. Qed.

Ltac quiet :=
  repeat first [ progress cbn [existsb orb] | rewrite existsb_app | rewrite existsb_when
               | rewrite (om_check p Hp) by done | rewrite (om_warning p Hp)
               | rewrite (om_advised p Hp) | rewrite andb_false_r
               | rewrite orb_false_r ]; try done.

Lemma quiet_target : existsb p (target_checks reads request context role) = false.
Proof using Hp.
  unfold target_checks. destruct (eq_target request).
  - unfold paper_checks. quiet. case_match; by quiet.
  - unfold shadow_checks. by quiet.
  - unfold promotion_checks. by quiet.
  - unfold stream_checks, order_checks, submit_checks. quiet. do 2 case_match; by quiet.
Qed.

(** The missing context is the only finding of its kind. *)
Lemma findings_missing_context fs : readiness_findings reads request context role = Ok fs ->
  existsb p fs = no_filters.
Proof using Hp.
  intros (id & candles & _ & [_ Hcandles]%candle_checks_spec & ->)%readiness_findings_inv.
  rewrite !existsb_app, (Hcandles p Hp), quiet_target. clear Hcandles.
  unfold system_checks, market_checks, auth_checks, price_checks, strategy_checks, closing_checks.
  quiet. rewrite (om_missing p Hp). case_match; quiet; unfold no_filters; by rewrite andb_true_r.
Qed.
End Counting.
End ReadinessFacts.

(** ** The status *)

Section Verdict.
Context {DI : Decimal} {CH : Chrono} {JS : Json}.
Context (reads : ReadinessReads) (request : ExecutionReadinessRequest) (role : option UserRole.t).

(** What a computed result is made of. *)
Lemma compute_inv r : compute_execution_readiness reads request role = Ok r ->
  exists context fs, resolve_context reads request = Ok context /\
    readiness_findings reads request context role = Ok fs /\
    let blocked := negb (vec_is_empty (fi_blockers (record_all fs))) in
    let score := Z.max 0 (100 - pen fs) in
    let score := if blocked then Z.min score 40 else score in
    er_blocking_reasons r = fi_blockers (record_all fs) /\
    er_checks r = omap check_of fs /\ er_score r = score /\
    er_status r = if no_filters request then ExecutionReadinessStatus.Unknown
                  else if blocked || (score <? 60) then ExecutionReadinessStatus.NotReady
                  else if 85 <=? score then ExecutionReadinessStatus.Ready
                  else ExecutionReadinessStatus.Degraded.
Proof.
  unfold compute_execution_readiness.
  destruct (resolve_context reads request) as [context| |]; cbn [mbind res_bind]; [|done..].
  destruct (readiness_findings reads request context role) as [fs| |] eqn:Hfs; cbn [mbind res_bind];
    [|done..]. intros H. injection H as <-. exists context, fs. do 2 (split; [done|]).
  pose proof (findings_missing_context _ _ _ _ _ fcrit_only _ Hfs) as Hm.
  unfold finalize_readiness_result. cbn [er_blocking_reasons er_checks er_score er_status].
  rewrite record_all_checks, crit_spec, Hm, score_spec, pen_spec. done.
Qed.

(** The score of a computation without blockers is that of its warnings. *)
Lemma compute_score_bounds r : compute_execution_readiness reads request role = Ok r ->
  er_blocking_reasons r = [] ->
  match eq_target request with ExecutionReadinessTarget.TestnetSubmit => 91 | _ => 68 end
    <= er_score r <= 100.
Proof.
  intros (context & fs & _ & Hfs & Hb & _ & -> & _)%compute_inv H. rewrite H in Hb. rewrite <- Hb.
  cbn [vec_is_empty negb]. apply findings_penalty in Hfs. destruct (eq_target request); lia.
Qed.

(** The status of a readiness result: UNKNOWN exactly when the caller named neither a
    symbol nor a strategy, otherwise NOT_READY exactly when some check blocks, otherwise
    READY or DEGRADED as the score reaches 85 or not.  Blockers hold the score to 40;
    without one the warnings leave at least 68, so the 60-point floor never decides; and
    the status is the one the core crate derives from the same checks and score. *)
Theorem readiness_status_spec r : compute_execution_readiness reads request role = Ok r ->
  0 <= er_score r <= 100 /\
  (er_status r = ExecutionReadinessStatus.Unknown <->
   eq_symbol request = None /\ eq_strategy_id request = None) /\
  (er_status r = ExecutionReadinessStatus.NotReady <->
   er_status r <> ExecutionReadinessStatus.Unknown /\ er_blocking_reasons r <> []) /\
  (er_status r = ExecutionReadinessStatus.Ready <->
   er_status r <> ExecutionReadinessStatus.Unknown /\ er_blocking_reasons r = [] /\ 85 <= er_score r) /\
  (er_blocking_reasons r <> [] -> er_score r <= 40) /\
  (er_blocking_reasons r = [] -> 68 <= er_score r) /\
  er_status r = execution_readiness_status_from_checks (er_checks r) (er_score r).
Proof.
  intros H. pose proof (compute_score_bounds _ H) as Hlow.
  apply compute_inv in H as (context & fs & _ & Hfs & Hb & Hc & Hs & Hst).
  pose proof (findings_penalty _ _ _ _ _ Hfs) as Hp.
  assert (0 <= pen fs) as Hp0 by (destruct (eq_target request); lia).
  assert (er_blocking_reasons r = [] -> 68 <= er_score r) as Hl
    by (intros E; specialize (Hlow E); destruct (eq_target request); lia).
  assert (er_status r = execution_readiness_status_from_checks (er_checks r) (er_score r)) as Hcore.
  { unfold execution_readiness_status_from_checks.
    rewrite Hst, Hc, crit_spec, failing_spec, (findings_missing_context _ _ _ _ _ fcrit_only _ Hfs),
      (findings_missing_context _ _ _ _ _ warned_only _ Hfs), Hs.
    by destruct (no_filters request); [|rewrite orb_false_r]. }
  assert (no_filters request = true <-> eq_symbol request = None /\ eq_strategy_id request = None) as <-.
  { unfold no_filters. destruct (eq_symbol request), (eq_strategy_id request); intuition congruence. }
  rewrite <- Hb in Hst, Hs. rewrite <- Hs in Hst. clear Hc Hfs Hlow.
  assert (er_blocking_reasons r <> [] -> er_score r <= 40) as Hh.
  { intros E. rewrite Hs. destruct (er_blocking_reasons r); [done|]. cbn [vec_is_empty negb]. lia. }
  split; [rewrite Hs; destruct (negb _); lia|]. split; [|split; [|split]].
  - rewrite Hst. repeat case_match; intuition congruence.
  - rewrite Hst. destruct (no_filters request); [intuition congruence|].
    destruct (er_blocking_reasons r); cbn [vec_is_empty negb orb]; [|intuition congruence].
    specialize (Hl eq_refl). destruct (Z.ltb_spec (er_score r) 60); [lia|].
    destruct (85 <=? er_score r); intuition congruence.
  - rewrite Hst. destruct (no_filters request); [intuition congruence|].
    destruct (er_blocking_reasons r); cbn [vec_is_empty negb orb]; [|intuition congruence].
    specialize (Hl eq_refl). destruct (Z.ltb_spec (er_score r) 60); [lia|].
    destruct (Z.leb_spec 85 (er_score r)); intuition (congruence || lia).
  - done.
Qed.

(** ** Readiness to submit *)

(** What READY requires of a testnet submission. *)
Definition submit_requirements (context : ReadinessContext) : Prop :=
  rs_db_healthy reads = true /\ rs_kill_switch_enabled reads = false /\ rs_risk_record reads <> None /\
  (exists feed, market_feed reads context = Some feed /\
     mf_freshness_status feed = DataFreshnessStatus.Fresh) /\
  rs_auth_disabled reads = false /\
  (exists received_at, rs_mark_price_received_at reads (xc_symbol context) = Some received_at /\
     age_seconds context received_at <= feed_threshold_seconds reads) /\
  rs_testnet_configured reads = true /\
  (exists last_event_at,
     rs_private_stream reads = Some (ExchangePrivateStreamStatus.Connected, Some last_event_at) /\
     age_seconds context last_event_at <= feed_threshold_seconds reads) /\
  no_order_in reads TestnetExecutionState.ReconciliationRequired = true /\
  no_order_in reads TestnetExecutionState.UnknownExchangeState = true /\
  existsb unresolved_run (rs_reconciliation_runs reads) = false /\ rs_repair_failures reads = 0 /\
  (forall promotion_id, eq_promotion_id request = Some promotion_id ->
     exists status expires_at, rs_promotion reads promotion_id = Some (status, expires_at) /\
       (eq_ignore_ascii_case status "PREVIEWED" = true \/
        eq_ignore_ascii_case status "SUBMITTED" = true) /\ xc_now context <= expires_at) /\
  (exists risk_decision_id decision, eq_risk_decision_id request = Some risk_decision_id /\
     rs_risk_decision reads risk_decision_id = Some decision /\
     eq_ignore_ascii_case decision "approved" = true) /\
  role = Some UserRole.Owner.

Lemma Forall_clear_cons code name passed severity pass_summary fail_summary blocker advice fs :
  Forall clear (push_check code name passed true severity pass_summary fail_summary blocker advice :: fs)
  <-> passed = true /\ Forall clear fs.
Proof. by rewrite Forall_cons, clear_check. Qed.

Context (context : ReadinessContext) (E : eq_target request = ExecutionReadinessTarget.TestnetSubmit).

Lemma system_clear : Forall clear (system_checks reads request) <->
  rs_db_healthy reads = true /\ rs_kill_switch_enabled reads = false /\ rs_risk_record reads <> None.
Proof using E.
  unfold system_checks, is_paper_or_shadow. rewrite E. cbn [when app].
  rewrite !Forall_clear_cons, Forall_nil, negb_true_iff. destruct (rs_risk_record reads); intuition congruence.
Qed.

Lemma market_clear : Forall clear (market_checks reads context) <->
  exists feed, market_feed reads context = Some feed /\
    mf_freshness_status feed = DataFreshnessStatus.Fresh.
Proof.
  unfold market_checks. rewrite Forall_app, Forall_clear_cons, Forall_nil.
  destruct (market_feed reads context) as [feed|]; [rewrite bool_decide_eq_true|].
  - split; [intros [[H _] _]; eauto|]. intros (f & [= <-] & H). split; [done|].
    unfold when. repeat case_match; repeat constructor.
  - split; [intros [[[=] _] _]|]. by intros (? & [=] & _).
Qed.

Lemma auth_clear : Forall clear (auth_checks reads request) <-> rs_auth_disabled reads = false.
Proof using E.
  unfold auth_checks, is_paper. rewrite E, bool_decide_eq_false_2 by done. cbn [negb andb].
  rewrite andb_false_r, orb_false_r, Forall_app, Forall_clear_cons, negb_true_iff. cbn [when].
  rewrite !Forall_nil. tauto.
Qed.

Lemma recent_iff (at_ : option Z) :
  match at_ with Some t => age_seconds context t <=? feed_threshold_seconds reads | None => false end
    = true <->
  exists t, at_ = Some t /\ age_seconds context t <= feed_threshold_seconds reads.
Proof.
  destruct at_ as [t|]; [rewrite Z.leb_le|]; split; try done; eauto; by intros (? & [= <-] & ?).
Qed.

Lemma price_clear : Forall clear (price_checks reads context) <->
  exists received_at, rs_mark_price_received_at reads (xc_symbol context) = Some received_at /\
    age_seconds context received_at <= feed_threshold_seconds reads.
Proof.
  unfold price_checks, price_recent. rewrite Forall_clear_cons, recent_iff, Forall_nil. tauto.
Qed.

Lemma stream_clear : Forall clear (stream_checks reads context) <->
  rs_testnet_configured reads = true /\
  exists last_event_at,
    rs_private_stream reads = Some (ExchangePrivateStreamStatus.Connected, Some last_event_at) /\
    age_seconds context last_event_at <= feed_threshold_seconds reads.
Proof.
  unfold stream_checks. rewrite Forall_app, !Forall_clear_cons, Forall_nil.
  assert (forall fs, Forall clear (match (stream ← rs_private_stream reads; snd stream) with
    | Some last_event_at => when (fs last_event_at) [push_warning "private_stream_quiet" "Private stream quiet"
        ExecutionReadinessCheckSeverity.Low "Private stream has not produced events recently."]
    | None => [] end)) as Hw.
  { intros fs. unfold when. repeat case_match; repeat constructor. }
  transitivity (rs_testnet_configured reads = true /\
    match rs_private_stream reads with
    | Some (status, _) => bool_decide (status = ExchangePrivateStreamStatus.Connected)
    | None => false end = true /\ stream_recent reads context = true).
  { split; [tauto|]. intros (? & ? & ?). split; [tauto|]. apply Hw. }
  unfold stream_recent. rewrite recent_iff. destruct (rs_private_stream reads) as [[status at_]|]; cbn.
  - rewrite bool_decide_eq_true. split.
    + intros (? & -> & t & -> & ?). eauto.
    + intros (? & t & [= -> ->] & ?). eauto.
  - split; [by intros (_ & ? & _)|]. by intros (_ & ? & [=] & _).
Qed.

Lemma order_clear : Forall clear (order_checks reads) <->
  no_order_in reads TestnetExecutionState.ReconciliationRequired = true /\
  no_order_in reads TestnetExecutionState.UnknownExchangeState = true /\
  existsb unresolved_run (rs_reconciliation_runs reads) = false /\ rs_repair_failures reads = 0.
Proof.
  unfold order_checks. rewrite !Forall_clear_cons, Forall_nil, negb_true_iff, Z.eqb_eq. tauto.
Qed.

Lemma and_iff (A B C D : Prop) : (A <-> B) -> (C <-> D) -> (A /\ C <-> B /\ D).
Proof. tauto. Qed.

Lemma submit_clear : Forall clear (submit_checks reads request context role) <->
  (forall promotion_id, eq_promotion_id request = Some promotion_id ->
     exists status expires_at, rs_promotion reads promotion_id = Some (status, expires_at) /\
       (eq_ignore_ascii_case status "PREVIEWED" = true \/
        eq_ignore_ascii_case status "SUBMITTED" = true) /\ xc_now context <= expires_at) /\
  (exists risk_decision_id decision, eq_risk_decision_id request = Some risk_decision_id /\
     rs_risk_decision reads risk_decision_id = Some decision /\
     eq_ignore_ascii_case decision "approved" = true) /\
  role = Some UserRole.Owner.
Proof.
  unfold submit_checks. rewrite Forall_app, !Forall_clear_cons, Forall_nil, bool_decide_eq_true.
  apply and_iff.
  - destruct (eq_promotion_id request) as [id|]; [|split; [done|constructor]].
    rewrite !Forall_clear_cons, Forall_nil. split.
    + intros (H1 & H2 & _) id' [= <-]. destruct (rs_promotion reads id) as [[status expires_at]|]; [|done].
      exists status, expires_at. by rewrite <- orb_true_iff, <- Z.leb_le.
    + intros H. destruct (H id eq_refl) as (status & expires_at & -> & H1 & H2).
      by rewrite orb_true_iff, Z.leb_le.
  - apply and_iff; [|tauto]. destruct (eq_risk_decision_id request) as [id|]; cbn.
    + destruct (rs_risk_decision reads id) as [decision|] eqn:Ed.
      * split; [eauto|]. by intros (? & ? & [= <-] & Hd & H); simplify_eq.
      * split; [done|]. by intros (? & ? & [= <-] & Hd & H); simplify_eq.
    + split; [done|]. by intros (? & ? & [=] & _).
Qed.

Lemma no_strategy_checks config : strategy_checks request config = [] /\
  candle_checks reads request context config = Ok [].
Proof using E. unfold strategy_checks, uses_strategy, candle_checks, is_paper_or_shadow. by rewrite E. Qed.

Lemma submit_clear_iff fs : readiness_findings reads request context role = Ok fs ->
  Forall clear fs <-> submit_requirements context.
Proof using E.
  intros (id & candles & _ & Hc & ->)%readiness_findings_inv.
  destruct (no_strategy_checks (rs_strategy reads id)) as [-> Hc']. rewrite Hc' in Hc.
  injection Hc as <-. unfold target_checks. rewrite E, !Forall_app, Forall_nil.
  rewrite system_clear, market_clear, auth_clear, price_clear, stream_clear, order_clear, submit_clear.
  assert (Forall clear (closing_checks reads request)) as Hclose.
  { unfold closing_checks, when. repeat case_match; repeat constructor. }
  unfold submit_requirements. tauto.
Qed.

(** C37.  READY for a testnet submission means exactly that the database answers, the kill
    switch is off, a risk configuration is stored, the market feed, the price and the
    private stream are fresh, authentication is on, the adapter is configured, no order or
    reconciliation run is unresolved and no repair failed, the promotion, if one is named,
    is previewed and unexpired, the named risk decision is approved, the caller is the
    owner, and a symbol or a strategy was named.  There is no degraded submission: the
    warnings alone leave at least 91 points. *)
Theorem submit_ready_iff r : compute_execution_readiness reads request role = Ok r ->
  resolve_context reads request = Ok context ->
  (er_status r = ExecutionReadinessStatus.Ready <->
   (eq_symbol request <> None \/ eq_strategy_id request <> None) /\ submit_requirements context) /\
  er_status r <> ExecutionReadinessStatus.Degraded.
Proof using E.
  intros H Hctx. pose proof (compute_score_bounds _ H) as Hlow. rewrite E in Hlow.
  apply compute_inv in H as (context' & fs & Hctx' & Hfs & Hb & _ & Hs & Hst).
  rewrite Hctx in Hctx'. injection Hctx' as <-.
  rewrite <- (submit_clear_iff _ Hfs), <- no_blockers_iff, <- Hb.
  rewrite <- Hb in Hst, Hs. rewrite <- Hs in Hst. rewrite Hst. unfold no_filters.
  destruct (er_blocking_reasons r); cbn [vec_is_empty negb orb].
  - specialize (Hlow eq_refl). destruct (Z.ltb_spec (er_score r) 60); [lia|].
    destruct (Z.leb_spec 85 (er_score r)); [|lia].
    destruct (eq_symbol request), (eq_strategy_id request); intuition congruence.
  - destruct (eq_symbol request), (eq_strategy_id request); intuition congruence.
Qed.
End Verdict.

(** ** On a sample *)
Module ReadinessSample.
#[local] Existing Instance ExactDecimal.
#[local] Existing Instance PlainChrono.
#[local] Existing Instance PlainJson.

(** Everything in order for a submission; [running] turns the kill switch on or off. *)
Definition reads (kill_switch : bool) : ReadinessReads := {|
  rs_now := seconds 1000; rs_new_id := 1; rs_new_correlation_id := 2; rs_db_healthy := true;
  rs_kill_switch_enabled := kill_switch; rs_risk_record := Some None;
  rs_market_exchange := "binance";
  rs_feeds := [{| mf_exchange := "binance"; mf_symbol := "BTCUSDT";
                  mf_freshness_status := DataFreshnessStatus.Fresh;
                  mf_last_event_at := Some (seconds 999) |}];
  rs_auth_disabled := false; rs_environment := "production"; rs_default_symbols := [];
  rs_default_timeframe := "5m"; rs_mark_price_received_at := fun _ => Some (seconds 995);
  rs_strategy := fun _ => None; rs_recent_closed_candles := fun _ _ _ => [];
  rs_paper_account := None; rs_runner_status := None; rs_shadow_would_submit_count := 0;
  rs_reconciliation_required_rate_pct := ZERO; rs_submit_rate_pct := ZERO;
  rs_risk_rejection_rate := ZERO; rs_testnet_configured := true;
  rs_private_stream := Some (ExchangePrivateStreamStatus.Connected, Some (seconds 999));
  rs_order_states := []; rs_reconciliation_runs := []; rs_repair_failures := 0;
  rs_promotion := fun _ => Some ("previewed", seconds 2000);
  rs_risk_decision := fun _ => Some "APPROVED"; rs_backtest_count := 0 |}.

Definition request : ExecutionReadinessRequest := {|
  eq_target := ExecutionReadinessTarget.TestnetSubmit; eq_symbol := Some "BTCUSDT";
  eq_strategy_id := None; eq_timeframe := Some "5m"; eq_promotion_id := Some 5;
  eq_risk_decision_id := Some 6; eq_start_time := None; eq_end_time := None; eq_persist := false;
  eq_correlation_id := None |}.

Definition computed (kill_switch : bool) (role : UserRole.t) : ExecutionReadinessResult :=
  match compute_execution_readiness (reads kill_switch) request (Some role) with
  | Ok r => r
  | _ => {| er_readiness_id := 0; er_target := ExecutionReadinessTarget.PaperPipeline;
            er_status := ExecutionReadinessStatus.Unknown; er_score := 0;
            er_blocking_reasons := []; er_warnings := []; er_checks := [];
            er_recommendations := []; er_computed_at := 0; er_correlation_id := 0 |}
  end.

Example ready_for_owner :
  (er_status (computed false UserRole.Owner), er_score (computed false UserRole.Owner),
   er_recommendations (computed false UserRole.Owner)) =
  (ExecutionReadinessStatus.Ready, 97, [ExecutionReadinessRecommendation.RunRecentBacktest]).
Proof. vm_compute. reflexivity. Qed.

Example blocked_twice :
  (er_status (computed true UserRole.Operator), er_score (computed true UserRole.Operator),
   er_blocking_reasons (computed true UserRole.Operator)) =
  (ExecutionReadinessStatus.NotReady, 40,
   [ExecutionReadinessBlockingReason.KillSwitchActive; ExecutionReadinessBlockingReason.NonOwnerActor]).
Proof. vm_compute. reflexivity. Qed.

Lemma readiness_status_spec_witness :
  let r := computed true UserRole.Operator in
  er_status r = execution_readiness_status_from_checks (er_checks r) (er_score r) /\ er_score r <= 40.
Proof.
  destruct (readiness_status_spec (reads true) request (Some UserRole.Operator)
    (computed true UserRole.Operator)) as (_ & _ & _ & _ & H & _ & Hc).
  - vm_compute. reflexivity.
  - split; [exact Hc|]. apply H. vm_compute. discriminate.
Defined.

Definition context : ReadinessContext := {|
  xc_strategy_id := "momentum_v1"; xc_symbol := "BTCUSDT"; xc_timeframe := CandleInterval.FiveMinutes;
  xc_window_start := seconds 1000 - hours 24; xc_window_end := seconds 1000; xc_now := seconds 1000 |}.

Lemma submit_ready_iff_witness : submit_requirements (reads false) request (Some UserRole.Owner) context.
Proof.
  destruct (submit_ready_iff (reads false) request (Some UserRole.Owner) context eq_refl
    (computed false UserRole.Owner)) as [[H _] _]; [vm_compute; reflexivity..|].
  apply H. vm_compute. reflexivity.
Defined.
End ReadinessSample.
