(* ===== verification/StrategyRequest.v ===== *)
(** * Strategy configuration requests: crates/strategy-engine/src/lib.rs, 18-22, 38-822 and 4885-4950

    [validate_strategy_config] reads a [StrategyConfigUpdateRequest] and returns
    the issues it found, in order, and, when none of them is an error, the
    [StrategyConfig] that will be stored.  Each block of checks of the function
    is a definition here; [check b i] is [if b { issues.push(i) }].  [now] is
    the value of [Utc::now()]. *)

From Stdlib Require Import ZArith QArith Lqa Lia List String.
From stdpp Require Import base list strings.
From S2P Require Import Prelude Text Host Types MarketData Strategy.

#[local] Open Scope Z_scope.

Record StrategyConfigValidationIssue := {
  vi_severity : StrategyConfigValidationSeverity.t;
  vi_code : string;
  vi_field : string;
  vi_message : string
}.

Definition issue (severity : StrategyConfigValidationSeverity.t) (code field message : string)
    : StrategyConfigValidationIssue :=
  {| vi_severity := severity; vi_code := code; vi_field := field; vi_message := message |}.

Definition has_error (issues : list StrategyConfigValidationIssue) : bool :=
  existsb (fun i => bool_decide (vi_severity i = StrategyConfigValidationSeverity.Error)) issues.

Definition check (b : bool) (i : StrategyConfigValidationIssue) : list StrategyConfigValidationIssue :=
  if b then [i] else [].

Definition normalize_notes (notes : option string) : option string :=
  match notes with
  | None => None
  | Some notes => let trimmed := trim notes in if is_empty trimmed then None else Some trimmed
  end.

Abbreviation error := (issue StrategyConfigValidationSeverity.Error).
Abbreviation warning := (issue StrategyConfigValidationSeverity.Warn).

Section Validation.
Context {DI : Decimal}.

Record StrategyValidationContext := {
  vc_supported_symbols : list Symbol;
  vc_max_position_notional : option dec
}.

Record StrategyConfigValidationResult := {
  vr_strategy_id : string;
  vr_valid : bool;
  vr_issues : list StrategyConfigValidationIssue;
  vr_normalized_config : option StrategyConfig;
  vr_validated_at : Z
}.

Definition validate_optional_percent (value : option dec) (min_exclusive max_inclusive : dec)
    (field : string) : list StrategyConfigValidationIssue :=
  match value with
  | None => []
  | Some value =>
    check ((value <=? min_exclusive)%dec || (value >? max_inclusive)%dec)
      (error ("invalid_" +:+ field) field
         (field +:+ " must be greater than 0 and less than or equal to " +:+ dshow max_inclusive))
  end.

Definition max_strategy_confidence (strategy_id : StrategyId.t) : dec :=
  match strategy_id with
  | StrategyId.MomentumV1 => dnew 65 2
  | StrategyId.VolatilityBreakoutV1 => dnew 70 2
  | StrategyId.TrendFilterMomentumV1 | StrategyId.TrendFilterMomentumV2 => dnew 68 2
  | StrategyId.VolatilityBreakoutV2 => dnew 72 2
  | StrategyId.VolatilityCompressionBreakoutV1 => dnew 71 2
  | StrategyId.RangeReversionV1 => dnew 66 2
  | StrategyId.TrendPullbackContinuationV1 => dnew 69 2
  | StrategyId.FailedBreakdownReclaimV1 => dnew 70 2
  end.

(** *** Symbols *)

(** One turn of [for raw_symbol in &request.symbols]: the issue, or the symbol,
    it adds. *)
Definition validate_symbol (supported_symbols : list string) (raw_symbol : string)
    : list StrategyConfigValidationIssue * list Symbol :=
  let trimmed := trim raw_symbol in
  if is_empty trimmed then
    ([error "symbol_empty" "symbols" "symbols cannot contain empty entries"], [])
  else if negb (String.eqb trimmed (to_ascii_uppercase trimmed)) then
    ([error "symbol_not_uppercase" "symbols" "symbols must be uppercase"], [])
  else match Symbol_new trimmed with
  | Ok symbol =>
    (check (negb (bool_decide (supported_symbols = []))
            && negb (existsb (String.eqb (symbol_text symbol)) supported_symbols))
       (error "unsupported_symbol" "symbols"
          ("symbol " +:+ symbol_text symbol +:+ " is not supported")), [symbol])
  | _ => ([error "invalid_symbol" "symbols" "symbol cannot be empty"], [])
  end.

Definition validate_symbols (request : StrategyConfigUpdateRequest)
    (context : StrategyValidationContext) : list StrategyConfigValidationIssue * list Symbol :=
  match su_symbols request with
  | [] => ([error "symbols_empty" "symbols" "at least one symbol is required"], [])
  | symbols =>
    let supported_symbols := map symbol_text (vc_supported_symbols context) in
    (concat (map (fun s => fst (validate_symbol supported_symbols s)) symbols),
     concat (map (fun s => snd (validate_symbol supported_symbols s)) symbols))
  end.

(** *** Fields every strategy has *)

Definition validate_notional (request : StrategyConfigUpdateRequest)
    (context : StrategyValidationContext) : list StrategyConfigValidationIssue :=
  check (su_suggested_notional request <=? ZERO)%dec
    (error "invalid_suggested_notional" "suggested_notional"
       "suggested_notional must be greater than zero") ++
  match vc_max_position_notional context with
  | Some limit =>
    check (su_suggested_notional request >? limit)%dec
      (error "suggested_notional_above_risk_limit" "suggested_notional"
         ("suggested_notional exceeds risk max_position_notional " +:+ dshow limit))
  | None => []
  end.

Definition validate_signal_age (request : StrategyConfigUpdateRequest)
    (timeframe : CandleInterval.t) : list StrategyConfigValidationIssue :=
  let '(recommended_min, recommended_max) := recommended_max_signal_age_ms timeframe in
  let tf := CandleInterval.as_str timeframe in
  let range := "; recommended range is " +:+ show_int recommended_min +:+ "-"
                 +:+ show_int recommended_max +:+ "ms" in
  check (su_max_signal_age_ms request <? 1000)
    (error "invalid_max_signal_age_ms" "max_signal_age_ms"
       "max_signal_age_ms must be greater than or equal to 1_000") ++
  check (su_max_signal_age_ms request <? recommended_min)
    (warning ("max_signal_age_ms_too_low_for_" +:+ tf) "max_signal_age_ms"
       (tf +:+ " candle strategies should use at least " +:+ show_int recommended_min +:+ "ms"
          +:+ range)) ++
  check (su_max_signal_age_ms request >? recommended_max)
    (warning ("max_signal_age_ms_high_for_" +:+ tf) "max_signal_age_ms"
       (tf +:+ " candle strategies typically use at most " +:+ show_int recommended_max +:+ "ms"
          +:+ range)).

Definition lookback_range (strategy_id : StrategyId.t) : Z * Z :=
  match strategy_id with
  | StrategyId.MomentumV1 => (2, 50)
  | StrategyId.VolatilityBreakoutV1 | StrategyId.VolatilityBreakoutV2 => (5, 500)
  | _ => (2, 500)
  end.

Definition validate_lookback (request : StrategyConfigUpdateRequest) (strategy_id : StrategyId.t)
    : list StrategyConfigValidationIssue :=
  let '(first, last) := lookback_range strategy_id in
  check (negb ((first <=? su_lookback_candles request) && (su_lookback_candles request <=? last)))
    (error "invalid_lookback_candles" "lookback_candles"
       ("lookback_candles must be within " +:+ show_int first +:+ "..=" +:+ show_int last
          +:+ " for " +:+ StrategyId.as_str strategy_id)).

(** [if let Some(n) = lookback { if n <= bound { .. } }] *)
Definition check_lookback (lookback : option Z) (bound : Z) (field bound_text : string)
    : list StrategyConfigValidationIssue :=
  match lookback with
  | Some n => check (n <=? bound)
      (error ("invalid_" +:+ field) field (field +:+ " must be greater than " +:+ bound_text))
  | None => []
  end.

(** *** Fields of one strategy *)

Definition validate_trend_filter_v2 (request : StrategyConfigUpdateRequest)
    : list StrategyConfigValidationIssue :=
  let min_close_above_sma_pct := default ZERO (su_min_close_above_sma_pct request) in
  let max_close_above_sma_pct := default ONE (su_max_close_above_sma_pct request) in
  let min_momentum_return_pct := default ZERO (su_min_momentum_return_pct request) in
  check (min_close_above_sma_pct <? ZERO)%dec
    (error "invalid_min_close_above_sma_pct" "min_close_above_sma_pct"
       "min_close_above_sma_pct must be greater than or equal to 0") ++
  check (max_close_above_sma_pct <? min_close_above_sma_pct)%dec
    (error "invalid_close_above_sma_band" "max_close_above_sma_pct"
       "max_close_above_sma_pct must be greater than or equal to min_close_above_sma_pct") ++
  check (min_momentum_return_pct <? ZERO)%dec
    (error "invalid_min_momentum_return_pct" "min_momentum_return_pct"
       "min_momentum_return_pct must be greater than or equal to 0").

(** The last check of the three research strategies. *)
Definition check_reasonable_age (request : StrategyConfigUpdateRequest)
    (timeframe : CandleInterval.t) (research : string) : list StrategyConfigValidationIssue :=
  let recommended_max := snd (recommended_max_signal_age_ms timeframe) in
  check (su_max_signal_age_ms request >? recommended_max)
    (error ("max_signal_age_ms_unreasonable_for_" +:+ CandleInterval.as_str timeframe)
       "max_signal_age_ms"
       ("max_signal_age_ms must be at most " +:+ show_int recommended_max +:+ "ms for "
          +:+ CandleInterval.as_str timeframe +:+ " " +:+ research)).

Definition validate_trend_pullback (request : StrategyConfigUpdateRequest)
    (timeframe : CandleInterval.t) : list StrategyConfigValidationIssue :=
  let trend_lookback := default 50 (su_trend_lookback_candles request) in
  let pullback_lookback := default 10 (su_pullback_lookback_candles request) in
  let pullback_sma_lookback := default 20 (su_pullback_sma_lookback_candles request) in
  let min_pullback_depth := default (dnew 3 1) (su_min_pullback_depth_pct request) in
  let max_pullback_depth := default (dnew 5 0) (su_max_pullback_depth_pct request) in
  let max_close_above_sma := default ONE (su_max_close_above_sma_pct request) in
  let min_volume_ratio := default (dnew 8 1) (su_min_volume_ratio request) in
  let max_choppiness := default (dnew 60 0) (su_max_choppiness request) in
  check ((trend_lookback <=? 1) || (pullback_lookback <=? 1) || (pullback_sma_lookback <=? 1))
    (error "invalid_pullback_lookbacks" "trend_lookback_candles"
       "trend, pullback, and pullback SMA lookbacks must be greater than 1") ++
  check (trend_lookback <? pullback_lookback)
    (error "trend_lookback_below_pullback_lookback" "trend_lookback_candles"
       "trend_lookback_candles must be greater than or equal to pullback_lookback_candles") ++
  check (max_pullback_depth <=? min_pullback_depth)%dec
    (error "invalid_pullback_depth_bounds" "max_pullback_depth_pct"
       "max_pullback_depth_pct must be greater than min_pullback_depth_pct") ++
  check (max_close_above_sma <? ZERO)%dec
    (error "invalid_max_close_above_sma_pct" "max_close_above_sma_pct"
       "max_close_above_sma_pct must be greater than or equal to 0") ++
  check (min_volume_ratio <? ZERO)%dec
    (error "invalid_min_volume_ratio" "min_volume_ratio"
       "min_volume_ratio must be greater than or equal to 0") ++
  check (max_choppiness <=? ZERO)%dec
    (error "invalid_max_choppiness" "max_choppiness" "max_choppiness must be greater than 0") ++
  check_reasonable_age request timeframe "pullback continuation research".

Definition validate_failed_breakdown (request : StrategyConfigUpdateRequest)
    (timeframe : CandleInterval.t) : list StrategyConfigValidationIssue :=
  let min_breakdown := default (dnew 5 2) (su_min_breakdown_pct request) in
  let min_reclaim_close := default ZERO (su_min_reclaim_close_pct request) in
  let min_lower_wick := default ONE (su_min_lower_wick_pct request) in
  let min_volume_ratio := default ZERO (su_min_volume_ratio request) in
  check (su_lookback_candles request <=? 1)
    (error "invalid_lookback_candles" "lookback_candles"
       "lookback_candles must be greater than 1 for failed breakdown reclaim") ++
  check (min_breakdown <? ZERO)%dec
    (error "invalid_min_breakdown_pct" "min_breakdown_pct"
       "min_breakdown_pct must be greater than or equal to 0") ++
  check (min_reclaim_close <? ZERO)%dec
    (error "invalid_min_reclaim_close_pct" "min_reclaim_close_pct"
       "min_reclaim_close_pct must be greater than or equal to 0") ++
  check (min_lower_wick <? ZERO)%dec
    (error "invalid_min_lower_wick_pct" "min_lower_wick_pct"
       "min_lower_wick_pct must be greater than or equal to 0") ++
  check (min_volume_ratio <? ZERO)%dec
    (error "invalid_min_volume_ratio" "min_volume_ratio"
       "min_volume_ratio must be greater than or equal to 0") ++
  check_reasonable_age request timeframe "failed breakdown reclaim research".

Definition validate_compression_breakout (request : StrategyConfigUpdateRequest)
    (timeframe : CandleInterval.t) : list StrategyConfigValidationIssue :=
  let compression_lookback := default 20 (su_compression_lookback_candles request) in
  let breakout_lookback := default 20 (su_breakout_lookback_candles request) in
  let compression_threshold := default (dnew 25 0) (su_compression_percentile_threshold request) in
  let min_breakout := default (dnew 5 2) (su_min_breakout_pct request) in
  let max_extension := default (dnew 15 1) (su_max_breakout_extension_pct request) in
  let min_volume_ratio := default (dnew 11 1) (su_min_volume_expansion_ratio request) in
  let min_width := default (dnew 2 1) (su_min_range_width_pct request) in
  let max_width := default (dnew 5 0) (su_max_range_width_pct request) in
  check (compression_lookback >? breakout_lookback)
    (error "compression_lookback_above_breakout_lookback" "compression_lookback_candles"
       "compression_lookback_candles must be less than or equal to breakout_lookback_candles") ++
  check ((compression_threshold <=? ZERO)%dec || (compression_threshold >? dnew 100 0)%dec)
    (error "invalid_compression_percentile_threshold" "compression_percentile_threshold"
       "compression_percentile_threshold must be greater than 0 and at most 100") ++
  check (min_breakout <? ZERO)%dec
    (error "invalid_min_breakout_pct" "min_breakout_pct"
       "min_breakout_pct must be greater than or equal to 0") ++
  check (max_extension <=? min_breakout)%dec
    (error "invalid_max_breakout_extension_pct" "max_breakout_extension_pct"
       "max_breakout_extension_pct must be greater than min_breakout_pct") ++
  check (min_volume_ratio <? ONE)%dec
    (error "invalid_min_volume_expansion_ratio" "min_volume_expansion_ratio"
       "min_volume_expansion_ratio must be greater than or equal to 1") ++
  check (min_width <=? ZERO)%dec
    (error "invalid_min_range_width_pct" "min_range_width_pct"
       "min_range_width_pct must be greater than 0") ++
  check (max_width <=? min_width)%dec
    (error "invalid_max_range_width_pct" "max_range_width_pct"
       "max_range_width_pct must be greater than min_range_width_pct") ++
  check_reasonable_age request timeframe "compression breakout experiments".

Definition validate_range_reversion (request : StrategyConfigUpdateRequest)
    : list StrategyConfigValidationIssue :=
  let lower_band_pct := default (dnew 20 0) (su_lower_band_pct request) in
  let upper_band_pct := default (dnew 80 0) (su_upper_band_pct request) in
  let min_range_width_pct := default (dnew 15 2) (su_min_range_width_pct request) in
  let max_range_width_pct := default (dnew 3 0) (su_max_range_width_pct request) in
  check ((lower_band_pct <? ZERO)%dec || (lower_band_pct >? dnew 50 0)%dec)
    (error "invalid_lower_band_pct" "lower_band_pct" "lower_band_pct must be between 0 and 50") ++
  check ((upper_band_pct <? dnew 50 0)%dec || (upper_band_pct >? dnew 100 0)%dec)
    (error "invalid_upper_band_pct" "upper_band_pct" "upper_band_pct must be between 50 and 100") ++
  check (lower_band_pct >=? upper_band_pct)%dec
    (error "invalid_range_band_order" "lower_band_pct"
       "lower_band_pct must be less than upper_band_pct") ++
  check (min_range_width_pct <=? ZERO)%dec
    (error "invalid_min_range_width_pct" "min_range_width_pct"
       "min_range_width_pct must be greater than 0") ++
  check (max_range_width_pct <=? min_range_width_pct)%dec
    (error "invalid_max_range_width_pct" "max_range_width_pct"
       "max_range_width_pct must be greater than min_range_width_pct").

Definition validate_confirmation (request : StrategyConfigUpdateRequest)
    (strategy_id : StrategyId.t) : list StrategyConfigValidationIssue :=
  let flags := su_require_confirmation_close_above_lookback_low request
               || su_require_confirmation_low_above_breakdown_low request in
  if bool_decide (strategy_id = StrategyId.FailedBreakdownReclaimV1) then
    check (su_confirmation_candles request >? 100)
      (error "invalid_confirmation_candles" "confirmation_candles"
         "confirmation_candles must be between 0 and 100") ++
    check ((su_confirmation_candles request =? 0) && flags)
      (warning "confirmation_flags_without_confirmation_candles" "confirmation_candles"
         "confirmation flags have no effect when confirmation_candles is 0")
  else
    check ((su_confirmation_candles request >? 0) || flags)
      (warning "confirmation_ignored_for_strategy" "confirmation_candles"
         "entry confirmation is only used by failed_breakdown_reclaim_v1 research replay").

Definition validate_confidence_floor (request : StrategyConfigUpdateRequest)
    (strategy_id : StrategyId.t) : list StrategyConfigValidationIssue :=
  match su_confidence_floor request with
  | None => []
  | Some confidence_floor =>
    if negb ((ZERO <=? confidence_floor)%dec && (confidence_floor <=? ONE)%dec) then
      [error "invalid_confidence_floor" "confidence_floor" "confidence_floor must be between 0 and 1"]
    else
      let max_confidence := max_strategy_confidence strategy_id in
      check (confidence_floor >? max_confidence)%dec
        (error "unreachable_confidence_floor" "confidence_floor"
           ("confidence_floor exceeds the maximum deterministic confidence "
              +:+ dshow max_confidence +:+ " for " +:+ StrategyId.as_str strategy_id))
  end.

Definition validate_exit_order (request : StrategyConfigUpdateRequest)
    : list StrategyConfigValidationIssue :=
  match su_stop_loss_pct request, su_take_profit_pct request with
  | Some stop_loss_pct, Some take_profit_pct =>
    check (stop_loss_pct >=? take_profit_pct)%dec
      (warning "stop_loss_not_below_take_profit" "stop_loss_pct"
         "stop_loss_pct is greater than or equal to take_profit_pct")
  | _, _ => []
  end.

(** *** The stored configuration *)

(** [field.or((strategy_id == of).then_some(value))] *)
Definition or_for {A} (strategy_id of_ : StrategyId.t) (value : A) (field : option A) : option A :=
  match field with
  | Some x => Some x
  | None => if bool_decide (strategy_id = of_) then Some value else None
  end.

Definition normalized_config (request : StrategyConfigUpdateRequest) (strategy_id : StrategyId.t)
    (symbols : list Symbol) (timeframe : CandleInterval.t) : StrategyConfig :=
  let v2 {A} (v : A) := or_for strategy_id StrategyId.TrendFilterMomentumV2 v in
  let compression {A} (v : A) := or_for strategy_id StrategyId.VolatilityCompressionBreakoutV1 v in
  let range {A} (v : A) := or_for strategy_id StrategyId.RangeReversionV1 v in
  let pullback {A} (v : A) := or_for strategy_id StrategyId.TrendPullbackContinuationV1 v in
  let reclaim {A} (v : A) := or_for strategy_id StrategyId.FailedBreakdownReclaimV1 v in
  let is_reclaim := bool_decide (strategy_id = StrategyId.FailedBreakdownReclaimV1) in
  {| sc_strategy_id := strategy_id;
     sc_enabled := su_enabled request;
     sc_mode := su_mode request;
     sc_symbols := symbols;
     sc_timeframe := timeframe;
     sc_suggested_notional := su_suggested_notional request;
     sc_max_signal_age_ms := su_max_signal_age_ms request;
     sc_cooldown_seconds := su_cooldown_seconds request;
     sc_lookback_candles := su_lookback_candles request;
     sc_trend_lookback_candles := su_trend_lookback_candles request;
     sc_momentum_lookback_candles := su_momentum_lookback_candles request;
     sc_compression_lookback_candles := compression 20 (su_compression_lookback_candles request);
     sc_breakout_lookback_candles := compression 20 (su_breakout_lookback_candles request);
     sc_pullback_lookback_candles := pullback 10 (su_pullback_lookback_candles request);
     sc_pullback_sma_lookback_candles := pullback 20 (su_pullback_sma_lookback_candles request);
     sc_compression_percentile_threshold :=
       compression (dnew 25 0) (su_compression_percentile_threshold request);
     sc_min_breakout_pct := compression (dnew 5 2) (su_min_breakout_pct request);
     sc_max_breakout_extension_pct :=
       compression (dnew 15 1) (su_max_breakout_extension_pct request);
     sc_min_volume_expansion_ratio :=
       compression (dnew 11 1) (su_min_volume_expansion_ratio request);
     sc_lower_band_pct :=
       range (default (dnew 20 0) (su_lower_band_pct request)) (su_lower_band_pct request);
     sc_upper_band_pct :=
       range (default (dnew 80 0) (su_upper_band_pct request)) (su_upper_band_pct request);
     sc_min_range_width_pct :=
       compression (dnew 2 1)
         (range (default (dnew 15 2) (su_min_range_width_pct request))
            (su_min_range_width_pct request));
     sc_max_range_width_pct :=
       compression (dnew 5 0)
         (range (default (dnew 3 0) (su_max_range_width_pct request))
            (su_max_range_width_pct request));
     sc_min_close_above_sma_pct := v2 ZERO (su_min_close_above_sma_pct request);
     sc_max_close_above_sma_pct := v2 ONE (su_max_close_above_sma_pct request);
     sc_min_momentum_return_pct := v2 ZERO (su_min_momentum_return_pct request);
     sc_min_trend_return_pct := pullback (dnew 2 0) (su_min_trend_return_pct request);
     sc_min_trend_slope_pct := pullback ZERO (su_min_trend_slope_pct request);
     sc_min_pullback_depth_pct := pullback (dnew 3 1) (su_min_pullback_depth_pct request);
     sc_max_pullback_depth_pct := pullback (dnew 5 0) (su_max_pullback_depth_pct request);
     sc_min_reclaim_pct := pullback (dnew 5 2) (su_min_reclaim_pct request);
     sc_min_breakdown_pct := reclaim (dnew 5 2) (su_min_breakdown_pct request);
     sc_min_reclaim_close_pct := reclaim ZERO (su_min_reclaim_close_pct request);
     sc_min_lower_wick_pct := reclaim ONE (su_min_lower_wick_pct request);
     sc_min_volume_ratio := reclaim ZERO (pullback (dnew 8 1) (su_min_volume_ratio request));
     sc_max_choppiness := pullback (dnew 60 0) (su_max_choppiness request);
     sc_confidence_floor := su_confidence_floor request;
     sc_stop_loss_pct := su_stop_loss_pct request;
     sc_take_profit_pct := su_take_profit_pct request;
     sc_holding_candles := su_holding_candles request;
     sc_confirmation_candles := if is_reclaim then su_confirmation_candles request else 0;
     sc_require_confirmation_close_above_lookback_low :=
       is_reclaim && su_require_confirmation_close_above_lookback_low request;
     sc_require_confirmation_low_above_breakdown_low :=
       is_reclaim && su_require_confirmation_low_above_breakdown_low request;
     sc_notes := normalize_notes (su_notes request) |}.

(** *** The whole function *)

Definition only_for (strategy_id of_ : StrategyId.t)
    (issues : list StrategyConfigValidationIssue) : list StrategyConfigValidationIssue :=
  if bool_decide (strategy_id = of_) then issues else [].

Definition strategy_issues (request : StrategyConfigUpdateRequest) (strategy_id : StrategyId.t)
    (timeframe : CandleInterval.t) : list StrategyConfigValidationIssue :=
  check (su_cooldown_seconds request >? 86400)
    (error "invalid_cooldown_seconds" "cooldown_seconds"
       "cooldown_seconds must be between 0 and 86_400") ++
  validate_lookback request strategy_id ++
  check_lookback (su_trend_lookback_candles request) 0 "trend_lookback_candles" "zero" ++
  check_lookback (su_momentum_lookback_candles request) 0 "momentum_lookback_candles" "zero" ++
  check_lookback (su_compression_lookback_candles request) 1 "compression_lookback_candles" "1" ++
  only_for strategy_id StrategyId.TrendFilterMomentumV2 (validate_trend_filter_v2 request) ++
  check_lookback (su_breakout_lookback_candles request) 1 "breakout_lookback_candles" "1" ++
  check_lookback (su_pullback_lookback_candles request) 1 "pullback_lookback_candles" "1" ++
  check_lookback (su_pullback_sma_lookback_candles request) 1 "pullback_sma_lookback_candles" "1" ++
  only_for strategy_id StrategyId.TrendPullbackContinuationV1
    (validate_trend_pullback request timeframe) ++
  only_for strategy_id StrategyId.FailedBreakdownReclaimV1
    (validate_failed_breakdown request timeframe) ++
  only_for strategy_id StrategyId.VolatilityCompressionBreakoutV1
    (validate_compression_breakout request timeframe) ++
  only_for strategy_id StrategyId.RangeReversionV1 (validate_range_reversion request) ++
  validate_optional_percent (su_stop_loss_pct request) ZERO (dnew 20 0) "stop_loss_pct" ++
  validate_optional_percent (su_take_profit_pct request) ZERO (dnew 50 0) "take_profit_pct" ++
  match su_holding_candles request with
  | Some holding_candles =>
    check (negb ((1 <=? holding_candles) && (holding_candles <=? 10000)))
      (error "invalid_holding_candles" "holding_candles"
         "holding_candles must be between 1 and 10_000")
  | None => []
  end ++
  validate_confirmation request strategy_id ++
  validate_confidence_floor request strategy_id ++
  validate_exit_order request.

Definition validate_strategy_config (now : Z) (request : StrategyConfigUpdateRequest)
    (context : StrategyValidationContext) : StrategyConfigValidationResult :=
  match from_str (A := StrategyId.t) (su_strategy_id request) with
  | Ok strategy_id =>
    let '(symbol_issues, symbols) := validate_symbols request context in
    let '(timeframe_issues, timeframe) :=
      match from_str (A := CandleInterval.t) (su_timeframe request) with
      | Ok timeframe => ([], timeframe)
      | _ => ([error "unsupported_timeframe" "timeframe"
                 "timeframe must be one of 1m, 5m, 15m, or 1h"], CandleInterval.OneMinute)
      end in
    let issues :=
      check (bool_decide (su_mode request = StrategyMode.Live))
        (error "live_mode_blocked" "mode" "live mode is blocked; use paper, research, or shadow") ++
      symbol_issues ++ timeframe_issues ++ validate_notional request context ++
      validate_signal_age request timeframe ++ strategy_issues request strategy_id timeframe in
    {| vr_strategy_id := su_strategy_id request;
       vr_valid := negb (has_error issues);
       vr_issues := issues;
       vr_normalized_config :=
         if has_error issues then None
         else Some (normalized_config request strategy_id symbols timeframe);
       vr_validated_at := now |}
  | _ =>
    {| vr_strategy_id := su_strategy_id request;
       vr_valid := false;
       vr_issues := [error "unknown_strategy" "strategy_id"
         "strategy_id must be one of momentum_v1, volatility_breakout_v1, trend_filter_momentum_v2, trend_filter_momentum_v1, volatility_breakout_v2, volatility_compression_breakout_v1, range_reversion_v1, trend_pullback_continuation_v1, or failed_breakdown_reclaim_v1"];
       vr_normalized_config := None;
       vr_validated_at := now |}
  end.

Definition known_strategy_ids : list StrategyId.t :=
  [StrategyId.MomentumV1; StrategyId.VolatilityBreakoutV1; StrategyId.TrendFilterMomentumV1;
   StrategyId.TrendFilterMomentumV2; StrategyId.VolatilityBreakoutV2;
   StrategyId.VolatilityCompressionBreakoutV1; StrategyId.RangeReversionV1;
   StrategyId.TrendPullbackContinuationV1; StrategyId.FailedBreakdownReclaimV1].

(** *** Reading a stored configuration back: api/src/main.rs, 5117-5165

    The three confirmation fields are not copied. *)
Definition strategy_update_request_from_config (config : StrategyConfig)
    : StrategyConfigUpdateRequest := {|
  su_strategy_id := StrategyId.as_str (sc_strategy_id config);
  su_enabled := sc_enabled config;
  su_mode := sc_mode config;
  su_symbols := map symbol_text (sc_symbols config);
  su_timeframe := CandleInterval.as_str (sc_timeframe config);
  su_suggested_notional := sc_suggested_notional config;
  su_max_signal_age_ms := sc_max_signal_age_ms config;
  su_cooldown_seconds := sc_cooldown_seconds config;
  su_lookback_candles := sc_lookback_candles config;
  su_trend_lookback_candles := sc_trend_lookback_candles config;
  su_momentum_lookback_candles := sc_momentum_lookback_candles config;
  su_compression_lookback_candles := sc_compression_lookback_candles config;
  su_breakout_lookback_candles := sc_breakout_lookback_candles config;
  su_pullback_lookback_candles := sc_pullback_lookback_candles config;
  su_pullback_sma_lookback_candles := sc_pullback_sma_lookback_candles config;
  su_compression_percentile_threshold := sc_compression_percentile_threshold config;
  su_min_breakout_pct := sc_min_breakout_pct config;
  su_max_breakout_extension_pct := sc_max_breakout_extension_pct config;
  su_min_volume_expansion_ratio := sc_min_volume_expansion_ratio config;
  su_lower_band_pct := sc_lower_band_pct config;
  su_upper_band_pct := sc_upper_band_pct config;
  su_min_range_width_pct := sc_min_range_width_pct config;
  su_max_range_width_pct := sc_max_range_width_pct config;
  su_min_close_above_sma_pct := sc_min_close_above_sma_pct config;
  su_max_close_above_sma_pct := sc_max_close_above_sma_pct config;
  su_min_momentum_return_pct := sc_min_momentum_return_pct config;
  su_min_trend_return_pct := sc_min_trend_return_pct config;
  su_min_trend_slope_pct := sc_min_trend_slope_pct config;
  su_min_pullback_depth_pct := sc_min_pullback_depth_pct config;
  su_max_pullback_depth_pct := sc_max_pullback_depth_pct config;
  su_min_reclaim_pct := sc_min_reclaim_pct config;
  su_min_breakdown_pct := sc_min_breakdown_pct config;
  su_min_reclaim_close_pct := sc_min_reclaim_close_pct config;
  su_min_lower_wick_pct := sc_min_lower_wick_pct config;
  su_min_volume_ratio := sc_min_volume_ratio config;
  su_max_choppiness := sc_max_choppiness config;
  su_confidence_floor := sc_confidence_floor config;
  su_stop_loss_pct := sc_stop_loss_pct config;
  su_take_profit_pct := sc_take_profit_pct config;
  su_holding_candles := sc_holding_candles config;
  su_confirmation_candles := 0;
  su_require_confirmation_close_above_lookback_low := false;
  su_require_confirmation_low_above_breakdown_low := false;
  su_notes := sc_notes config
|}.
End Validation.

(** ** Which issues are errors *)

Lemma has_error_app a b : has_error (a ++ b) = has_error a || has_error b.
Proof. apply existsb_app. Qed.
Lemma has_error_error b code field message : has_error (check b (error code field message)) = b.
Proof. by destruct b. Qed.
Lemma has_error_warning b code field message : has_error (check b (warning code field message)) = false.
Proof. by destruct b. Qed.
Lemma has_error_check_lookback lookback bound field text :
  has_error (check_lookback lookback bound field text)
    = match lookback with Some n => n <=? bound | None => false end.
Proof. destruct lookback; [apply has_error_error|done]. Qed.
Create Rewrite HintDb has_error.
#[export] Hint Rewrite has_error_app has_error_error has_error_warning has_error_check_lookback
  @orb_false_iff : has_error.

Lemma has_error_concat {A} (f : A -> list StrategyConfigValidationIssue) l :
  has_error (concat (map f l)) = false <-> forall x, In x l -> has_error (f x) = false.
Proof.
  induction l as [|x l IH]; cbn [map concat]; [done|].
  rewrite has_error_app, orb_false_iff, IH. split.
  - intros [Hx Hl] y [<-|Hy]; auto.
  - intros H. split; [apply H; by left|]. intros y Hy. apply H. by right.
Qed.

(** Split [has_error (checks) = false] into the tests that were passed. *)
Ltac no_error H := autorewrite with has_error in H; cbn [has_error existsb] in H.

(** ** What acceptance means *)

Section Accepted.
Context {DI : Decimal}.
Implicit Types (request : StrategyConfigUpdateRequest) (context : StrategyValidationContext).

Definition accepted (now : Z) request context (config : StrategyConfig) : Prop :=
  vr_normalized_config (validate_strategy_config now request context) = Some config.

(** The lookbacks, the confirmation count and the cooldown are [u32]. *)
Definition request_unsigned request : Prop :=
  0 <= su_lookback_candles request < 2 ^ 32 /\ 0 <= su_confirmation_candles request < 2 ^ 32 /\
  0 <= su_cooldown_seconds request < 2 ^ 32 /\
  Forall (fun o => match o with Some n => 0 <= n < 2 ^ 32 | None => True end)
    [su_trend_lookback_candles request; su_momentum_lookback_candles request;
     su_compression_lookback_candles request; su_breakout_lookback_candles request;
     su_pullback_lookback_candles request; su_pullback_sma_lookback_candles request].

Lemma accepted_iff now request context config :
  accepted now request context config <->
  exists strategy_id timeframe,
    from_str (su_strategy_id request) = Ok strategy_id /\
    from_str (su_timeframe request) = Ok timeframe /\
    su_mode request <> StrategyMode.Live /\
    has_error (fst (validate_symbols request context)) = false /\
    has_error (validate_notional request context) = false /\
    1000 <= su_max_signal_age_ms request /\
    has_error (strategy_issues request strategy_id timeframe) = false /\
    config = normalized_config request strategy_id (snd (validate_symbols request context)) timeframe.
Proof.
  unfold accepted, validate_strategy_config.
  destruct (from_str (su_strategy_id request)) as [id|e|]; cbn [vr_normalized_config];
    [|split; [done|by intros (? & ? & ? & _)]..].
  destruct (validate_symbols request context) as [sym_issues symbols]. cbn [fst snd].
  destruct (from_str (su_timeframe request)) as [tf|e|]; cbn [vr_normalized_config];
    [|split; [|by intros (? & ? & _ & ? & _)]; rewrite !has_error_app, !orb_true_r; done..].
  rewrite !has_error_app, has_error_error. unfold validate_signal_age.
  destruct (recommended_max_signal_age_ms tf) as [lo hi].
  rewrite !has_error_app, has_error_error, !has_error_warning, !orb_false_r.
  destruct (_ || _) eqn:E; split; try done.
  - intros (? & ? & [= <-] & [= <-] & Hm & Hs & Hn & Ha & Hi & _). exfalso.
    rewrite (bool_decide_eq_false_2 _ Hm), Hs, Hn, Hi in E. cbn in E.
    rewrite orb_false_r in E. apply Z.ltb_lt in E. lia.
  - intros [= <-]. rewrite !orb_false_iff in E. destruct E as (Em & Es & _ & En & Ea & Ei).
    apply bool_decide_eq_false in Em. apply Z.ltb_ge in Ea. by exists id, tf.
  - by intros (? & ? & [= <-] & [= <-] & _ & _ & _ & _ & _ & ->).
Qed.

(** A result is valid exactly when it has no error, and then it carries the
    configuration. *)
Lemma valid_iff_accepted now request context :
  vr_valid (validate_strategy_config now request context)
    = bool_decide (is_Some (vr_normalized_config (validate_strategy_config now request context))).
Proof.
  unfold validate_strategy_config. destruct (from_str (su_strategy_id request)); [|done..].
  destruct (validate_symbols request context). destruct (match from_str _ with Ok _ => _ | _ => _ end).
  cbn [vr_valid vr_normalized_config]. by destruct (has_error _).
Qed.

Lemma validate_symbol_ok supported raw :
  has_error (fst (validate_symbol supported raw)) = false ->
  let t := trim raw in
  snd (validate_symbol supported raw) = [{| symbol_text := t |}] /\
  t <> "" /\ to_ascii_uppercase t = t /\ (supported <> [] -> In t supported).
Proof.
  unfold validate_symbol, Symbol_new. cbv zeta. rewrite trim_idem.
  destruct (is_empty (trim raw)) eqn:E1; [done|].
  destruct (String.eqb_spec (trim raw) (to_ascii_uppercase (trim raw))) as [<-|]; [|done].
  rewrite E1. cbn [negb fst snd symbol_text]. rewrite has_error_error. intros H.
  split; [done|]. split; [by intros E2; rewrite E2 in E1|]. split; [done|]. intros Hs.
  rewrite bool_decide_eq_false_2 in H by done. cbn in H. apply negb_false_iff in H.
  apply existsb_exists in H as (x & Hx & Heq). apply String.eqb_eq in Heq. by subst.
Qed.

Lemma validate_symbols_ok request context :
  has_error (fst (validate_symbols request context)) = false ->
  snd (validate_symbols request context)
    = map (fun raw => {| symbol_text := trim raw |}) (su_symbols request) /\
  su_symbols request <> [] /\
  forall raw, In raw (su_symbols request) ->
    let t := trim raw in
    t <> "" /\ to_ascii_uppercase t = t /\
    (vc_supported_symbols context <> [] -> In {| symbol_text := t |} (vc_supported_symbols context)).
Proof.
  unfold validate_symbols. destruct (su_symbols request) as [|s l]; [done|].
  assert (s :: l <> []) as Hne by done. revert Hne. generalize (s :: l). clear s l.
  intros l Hne. cbn [fst snd].
  set (sup := map symbol_text (vc_supported_symbols context)).
  rewrite has_error_concat. intros H. split; [|split; [done|]].
  - clear Hne. induction l as [|x l IH]; cbn [map concat]; [done|].
    rewrite (proj1 (validate_symbol_ok sup x ltac:(apply H; by left))). cbn. f_equal.
    apply IH. intros y Hy. apply H. by right.
  - intros raw Hraw. pose proof (validate_symbol_ok sup raw (H _ Hraw)) as (_ & H1 & H2 & H3).
    split; [done|]. split; [done|]. intros Hs. subst sup.
    destruct (vc_supported_symbols context) as [|a b]; [done|].
    destruct (proj1 (in_map_iff _ _ _) (H3 ltac:(done))) as ([t] & Ht & Hin). cbn in Ht. by subst.
Qed.

(** *** The checks, block by block *)

Definition own_issues request (strategy_id : StrategyId.t) (timeframe : CandleInterval.t)
    : list StrategyConfigValidationIssue :=
  match strategy_id with
  | StrategyId.TrendFilterMomentumV2 => validate_trend_filter_v2 request
  | StrategyId.TrendPullbackContinuationV1 => validate_trend_pullback request timeframe
  | StrategyId.FailedBreakdownReclaimV1 => validate_failed_breakdown request timeframe
  | StrategyId.VolatilityCompressionBreakoutV1 => validate_compression_breakout request timeframe
  | StrategyId.RangeReversionV1 => validate_range_reversion request
  | _ => []
  end.

Definition above (o : option Z) (bound : Z) : Prop :=
  match o with Some n => bound < n | None => True end.
Definition within (o : option dec) (bound : dec) : Prop :=
  match o with Some x => (ZERO <? x)%dec = true /\ (x <=? bound)%dec = true | None => True end.

Lemma has_error_lookback lookback bound field text :
  has_error (check_lookback lookback bound field text) = false <-> above lookback bound.
Proof.
  rewrite has_error_check_lookback. destruct lookback; cbn; [|done]. apply Z.leb_gt.
Qed.

Lemma has_error_percent value bound field :
  has_error (validate_optional_percent value ZERO bound field) = false <-> within value bound.
Proof.
  destruct value as [x|]; cbn; [|done]. rewrite has_error_error, orb_false_iff.
  unfold dltb. rewrite negb_false_iff, negb_true_iff. done.
Qed.

Lemma has_error_floor request strategy_id :
  has_error (validate_confidence_floor request strategy_id) = false <->
  match su_confidence_floor request with
  | Some floor => (ZERO <=? floor)%dec = true /\ (floor <=? ONE)%dec = true /\
                  (floor <=? max_strategy_confidence strategy_id)%dec = true
  | None => True
  end.
Proof.
  unfold validate_confidence_floor. destruct (su_confidence_floor request) as [f|]; [|done].
  destruct (ZERO <=? f)%dec, (f <=? ONE)%dec; cbn [negb andb];
    try (split; [done|by intros (? & ? & ?)]).
  rewrite has_error_error. unfold dltb. rewrite negb_false_iff. tauto.
Qed.

Lemma strategy_issues_iff request strategy_id timeframe :
  has_error (strategy_issues request strategy_id timeframe) = false <->
  su_cooldown_seconds request <= 86400 /\
  fst (lookback_range strategy_id) <= su_lookback_candles request
    <= snd (lookback_range strategy_id) /\
  (above (su_trend_lookback_candles request) 0 /\ above (su_momentum_lookback_candles request) 0 /\
   above (su_compression_lookback_candles request) 1 /\ above (su_breakout_lookback_candles request) 1 /\
   above (su_pullback_lookback_candles request) 1 /\
   above (su_pullback_sma_lookback_candles request) 1) /\
  has_error (own_issues request strategy_id timeframe) = false /\
  within (su_stop_loss_pct request) (dnew 20 0) /\ within (su_take_profit_pct request) (dnew 50 0) /\
  match su_holding_candles request with Some n => 1 <= n <= 10000 | None => True end /\
  (strategy_id = StrategyId.FailedBreakdownReclaimV1 -> su_confirmation_candles request <= 100) /\
  has_error (validate_confidence_floor request strategy_id) = false.
Proof.
  assert (has_error (validate_exit_order request) = false) as Hx.
  { unfold validate_exit_order. repeat case_match; try done. apply has_error_warning. }
  assert (has_error (validate_confirmation request strategy_id) = false <->
    (strategy_id = StrategyId.FailedBreakdownReclaimV1 -> su_confirmation_candles request <= 100)) as Hc.
  { unfold validate_confirmation. case_bool_decide; autorewrite with has_error; [|tauto].
    rewrite Z.gtb_ltb, Z.ltb_ge. tauto. }
  assert (has_error (validate_lookback request strategy_id) = false <->
    fst (lookback_range strategy_id) <= su_lookback_candles request
      <= snd (lookback_range strategy_id)) as Hl.
  { unfold validate_lookback. destruct (lookback_range strategy_id). cbn [fst snd].
    rewrite has_error_error, negb_false_iff, andb_true_iff, !Z.leb_le. done. }
  assert (has_error (match su_holding_candles request with
     | Some n => check (negb ((1 <=? n) && (n <=? 10000)))
        (error "invalid_holding_candles" "holding_candles"
           "holding_candles must be between 1 and 10_000")
     | None => [] end) = false <->
     match su_holding_candles request with Some n => 1 <= n <= 10000 | None => True end) as Hh.
  { destruct (su_holding_candles request); [|done].
    rewrite has_error_error, negb_false_iff, andb_true_iff, !Z.leb_le. done. }
  unfold strategy_issues.
  rewrite !has_error_app, has_error_error, !orb_false_iff, !has_error_lookback, !has_error_percent,
    Z.gtb_ltb, Z.ltb_ge, Hc, Hl, Hh, Hx.
  unfold own_issues, only_for. destruct strategy_id; cbn [bool_decide has_error existsb]; tauto.
Qed.

(** An accepted configuration: where it comes from and which tests it passed. *)
Lemma accepted_inv now request context config : accepted now request context config ->
  let id := sc_strategy_id config in
  let tf := sc_timeframe config in
  from_str (su_strategy_id request) = Ok id /\ from_str (su_timeframe request) = Ok tf /\
  su_mode request <> StrategyMode.Live /\
  has_error (fst (validate_symbols request context)) = false /\
  has_error (validate_notional request context) = false /\
  1000 <= su_max_signal_age_ms request /\
  has_error (strategy_issues request id tf) = false /\
  config = normalized_config request id (snd (validate_symbols request context)) tf.
Proof.
  intros (id & tf & H)%accepted_iff. destruct H as (H1 & H2 & H3 & H4 & H5 & H6 & H7 & ->).
  cbn [sc_strategy_id sc_timeframe normalized_config]. tauto.
Qed.

Lemma or_for_u32 id of_ n o : 0 <= n < 2 ^ 32 ->
  match o with Some n => 0 <= n < 2 ^ 32 | None => True end ->
  match or_for id of_ n o with Some n => 0 <= n < 2 ^ 32 | None => True end.
Proof. intros Hn Ho. unfold or_for. destruct o; [done|]. by case_bool_decide. Qed.

Lemma accepted_lookbacks_u32 now request context config :
  request_unsigned request -> accepted now request context config -> lookbacks_u32 config.
Proof.
  intros (Hl & _ & _ & Hu) (_ & _ & _ & _ & _ & _ & _ & ->)%accepted_inv.
  rewrite !Forall_cons in Hu. destruct Hu as (H1 & H2 & H3 & H4 & H5 & H6 & _).
  split; [exact Hl|]. rewrite !Forall_cons. cbn [normalized_config sc_trend_lookback_candles
    sc_momentum_lookback_candles sc_compression_lookback_candles sc_breakout_lookback_candles
    sc_pullback_lookback_candles sc_pullback_sma_lookback_candles].
  split; [done|]. split; [done|]. split_and!; [apply or_for_u32; done || lia..|by constructor].
Qed.

Lemma lookback_range_pos id : 2 <= fst (lookback_range id).
Proof. by destruct id. Qed.

Lemma accepted_not_degenerate now request context config :
  accepted now request context config -> degenerate_lookback config = false.
Proof.
  intros (_ & _ & _ & _ & _ & _ & Hi & Hc)%accepted_inv.
  apply strategy_issues_iff in Hi as (_ & Hl & (_ & _ & _ & Hb & _) & _).
  pose proof (lookback_range_pos (sc_strategy_id config)) as Hp.
  assert (sc_lookback_candles config = su_lookback_candles request) as El by (by rewrite Hc).
  unfold degenerate_lookback.
  destruct (sc_strategy_id config) eqn:Eid; try done; rewrite ?El; try (apply Z.eqb_neq; lia).
  unfold breakout_lookback. rewrite Hc. cbn [normalized_config sc_lookback_candles
    sc_breakout_lookback_candles or_for]. unfold or_for.
  destruct (su_breakout_lookback_candles request); [|rewrite bool_decide_eq_false_2 by done];
    cbn in *; apply Z.eqb_neq; lia.
Qed.

Lemma accepted_validates now request context config :
  accepted now request context config -> StrategyConfig_validate config = Ok tt.
Proof.
  intros (_ & _ & _ & Hs & Hn & Ha & _ & ->)%accepted_inv.
  apply validate_symbols_ok in Hs as (Hs & Hne & _).
  unfold validate_notional in Hn. rewrite has_error_app, has_error_error, orb_false_iff in Hn.
  unfold StrategyConfig_validate. cbn [normalized_config sc_suggested_notional
    sc_max_signal_age_ms sc_symbols]. rewrite (proj1 Hn), Hs.
  destruct (Z.leb_spec (su_max_signal_age_ms request) 0); [lia|].
  by destruct (su_symbols request).
Qed.

(** *** The checks of the configuration itself

    Three strategies check their configuration again when they are evaluated. *)

Lemma default_or_for {A} id (v d : A) o : default d (or_for id id v o) = default v o.
Proof. destruct o; cbn; [done|]. by rewrite bool_decide_eq_true_2. Qed.
Lemma or_for_other {A} id of_ (v : A) o : id <> of_ -> or_for id of_ v o = o.
Proof. intros H. destruct o; cbn; [done|]. by rewrite bool_decide_eq_false_2. Qed.

Lemma own_compression request symbols timeframe :
  has_error (validate_compression_breakout request timeframe) = false ->
  above (su_compression_lookback_candles request) 1 ->
  above (su_breakout_lookback_candles request) 1 ->
  validate_compression_breakout_config (normalized_config request
    StrategyId.VolatilityCompressionBreakoutV1 symbols timeframe) = None.
Proof.
  unfold validate_compression_breakout, check_reasonable_age. intros Ho Hc Hb.
  autorewrite with has_error in Ho.
  unfold validate_compression_breakout_config, compression_lookback, breakout_lookback,
    min_breakout_pct, max_breakout_extension_pct, min_range_width_pct, max_range_width_pct,
    min_volume_expansion_ratio.
  cbn [normalized_config sc_compression_lookback_candles sc_breakout_lookback_candles
    sc_min_breakout_pct sc_max_breakout_extension_pct sc_min_range_width_pct
    sc_max_range_width_pct sc_min_volume_expansion_ratio sc_max_signal_age_ms sc_timeframe].
  rewrite !default_or_for, !(or_for_other _ StrategyId.RangeReversionV1) by done.
  destruct Ho as (H1 & _ & H2 & H3 & H4 & H5 & H6 & H7). rewrite H1, H2, H3, H4, H5, H6, H7.
  destruct (_ || _) eqn:E; [exfalso|done]. apply orb_true_iff in E.
  unfold above in *. destruct E as [E%Z.leb_le|E%Z.leb_le];
    destruct (su_compression_lookback_candles request), (su_breakout_lookback_candles request);
    cbn in E; lia.
Qed.

Lemma own_reclaim request symbols timeframe :
  has_error (validate_failed_breakdown request timeframe) = false ->
  validate_failed_breakdown_reclaim_config (normalized_config request
    StrategyId.FailedBreakdownReclaimV1 symbols timeframe) = None.
Proof.
  unfold validate_failed_breakdown, check_reasonable_age. intros Ho.
  autorewrite with has_error in Ho.
  unfold validate_failed_breakdown_reclaim_config, min_breakdown_pct, min_reclaim_close_pct,
    min_lower_wick_pct, min_volume_ratio_failed_reclaim.
  cbn [normalized_config sc_min_breakdown_pct sc_min_reclaim_close_pct sc_min_lower_wick_pct
    sc_min_volume_ratio sc_lookback_candles sc_max_signal_age_ms sc_timeframe].
  rewrite !default_or_for, !(or_for_other _ StrategyId.TrendPullbackContinuationV1) by done.
  destruct Ho as (H1 & H2 & H3 & H4 & H5 & H6). by rewrite H1, H2, H3, H4, H5, H6.
Qed.

Lemma own_pullback request symbols timeframe :
  has_error (validate_trend_pullback request timeframe) = false ->
  2 <= su_lookback_candles request ->
  let config := normalized_config request StrategyId.TrendPullbackContinuationV1 symbols timeframe in
  validate_trend_pullback_config config = None <->
  is_Some (su_trend_lookback_candles request) \/
  default 10 (su_pullback_lookback_candles request) <= su_lookback_candles request.
Proof.
  unfold validate_trend_pullback, check_reasonable_age. intros Ho Hl.
  autorewrite with has_error in Ho. cbv zeta.
  unfold validate_trend_pullback_config, trend_lookback, pullback_lookback, pullback_sma_lookback,
    min_pullback_depth_pct, max_pullback_depth_pct, max_close_above_sma_pct, min_volume_ratio,
    max_choppiness.
  cbn [normalized_config sc_trend_lookback_candles sc_pullback_lookback_candles
    sc_pullback_sma_lookback_candles sc_min_pullback_depth_pct sc_max_pullback_depth_pct
    sc_max_close_above_sma_pct sc_min_volume_ratio sc_max_choppiness sc_lookback_candles].
  rewrite (or_for_other _ StrategyId.FailedBreakdownReclaimV1),
    (or_for_other _ StrategyId.TrendFilterMomentumV2), !default_or_for by done.
  destruct Ho as (((Ht & Hp) & Hs) & Htp & H1 & H2 & H3 & H4 & _).
  rewrite H1, H2, H3, H4, Hp, Hs. cbn [orb].
  destruct (su_trend_lookback_candles request) as [n|]; cbn [default from_option] in *.
  - rewrite Ht, Htp. split; [by left|done].
  - destruct (Z.leb_spec (su_lookback_candles request) 1); [lia|]. cbn [orb].
    set (p := default 10 _) in *.
    destruct (Z.ltb_spec (su_lookback_candles request) p); split; try done.
    + intros [[x Hx]|?]; [discriminate Hx|lia].
    + intros _. by right.
Qed.

Lemma invalid_pullback_never_signals cx new_v4 r :
  sc_strategy_id (cx_config cx) = StrategyId.TrendPullbackContinuationV1 ->
  validate_trend_pullback_config (cx_config cx) <> None ->
  evaluate new_v4 cx = Ok r -> sr_generated r = false.
Proof.
  intros Hid Hv (_ & Hcx & [(_ & Hr)|(_ & Hr)])%evaluate_ok_inv; [by injection Hr as <-|].
  unfold evaluate_strategy in Hr. rewrite <- Hcx, Hid in Hr.
  unfold evaluate_trend_pullback_continuation in Hr. cbv zeta in Hr.
  rewrite bool_decide_eq_true_2 in Hr by (by apply not_eq_None_Some). by injection Hr as <-.
Qed.

(** *** Reading back what was stored *)

Lemma or_for_same {A} id (v : A) o : or_for id id v o = Some (default v o).
Proof. destruct o; cbn; [done|]. by rewrite bool_decide_eq_true_2. Qed.

Lemma default_default {A} (v : A) o : default (default v o) o = default v o.
Proof. by destruct o. Qed.

Lemma normalize_notes_idem o : normalize_notes (normalize_notes o) = normalize_notes o.
Proof.
  destruct o as [s|]; [|done]. cbn. destruct (is_empty (trim s)) eqn:E; cbn; [done|].
  by rewrite trim_idem, E.
Qed.

Lemma validate_symbol_trim supported raw :
  validate_symbol supported (trim raw) = validate_symbol supported raw.
Proof. unfold validate_symbol. by rewrite trim_idem. Qed.

Lemma validate_symbols_trim request request' context :
  su_symbols request' = map trim (su_symbols request) ->
  validate_symbols request' context = validate_symbols request context.
Proof.
  intros E. unfold validate_symbols. rewrite E. destruct (su_symbols request) as [|s l]; [done|].
  cbn [map]. rewrite !validate_symbol_trim, !map_map.
  f_equal; f_equal; f_equal; apply map_ext; intros; by rewrite validate_symbol_trim.
Qed.

Lemma above_or_for id of_ n o bound : bound < n -> above o bound -> above (or_for id of_ n o) bound.
Proof. unfold or_for, above. destruct o; [done|]. by case_bool_decide. Qed.

Section Resubmit.
Variables (request : StrategyConfigUpdateRequest) (id : StrategyId.t) (tf : CandleInterval.t).
Variable (symbols : list Symbol).
Abbreviation config := (normalized_config request id symbols tf).
Abbreviation request' := (strategy_update_request_from_config config).

#[local] Ltac stored := cbn [strategy_update_request_from_config normalized_config
  su_symbols su_timeframe su_lookback_candles su_max_signal_age_ms su_cooldown_seconds
  su_trend_lookback_candles su_momentum_lookback_candles su_compression_lookback_candles
  su_breakout_lookback_candles su_pullback_lookback_candles su_pullback_sma_lookback_candles
  su_compression_percentile_threshold su_min_breakout_pct su_max_breakout_extension_pct
  su_min_volume_expansion_ratio su_lower_band_pct su_upper_band_pct su_min_range_width_pct
  su_max_range_width_pct su_min_close_above_sma_pct su_max_close_above_sma_pct
  su_min_momentum_return_pct su_min_trend_return_pct su_min_trend_slope_pct
  su_min_pullback_depth_pct su_max_pullback_depth_pct su_min_reclaim_pct su_min_breakdown_pct
  su_min_reclaim_close_pct su_min_lower_wick_pct su_min_volume_ratio su_max_choppiness
  su_confidence_floor su_stop_loss_pct su_take_profit_pct su_holding_candles
  su_confirmation_candles su_notes su_enabled su_mode su_suggested_notional
  sc_strategy_id sc_timeframe sc_lookback_candles sc_max_signal_age_ms sc_cooldown_seconds
  sc_trend_lookback_candles sc_momentum_lookback_candles sc_compression_lookback_candles
  sc_breakout_lookback_candles sc_pullback_lookback_candles sc_pullback_sma_lookback_candles
  sc_compression_percentile_threshold sc_min_breakout_pct sc_max_breakout_extension_pct
  sc_min_volume_expansion_ratio sc_lower_band_pct sc_upper_band_pct sc_min_range_width_pct
  sc_max_range_width_pct sc_min_close_above_sma_pct sc_max_close_above_sma_pct
  sc_min_momentum_return_pct sc_min_trend_return_pct sc_min_trend_slope_pct
  sc_min_pullback_depth_pct sc_max_pullback_depth_pct sc_min_reclaim_pct sc_min_breakdown_pct
  sc_min_reclaim_close_pct sc_min_lower_wick_pct sc_min_volume_ratio sc_max_choppiness
  sc_confidence_floor sc_stop_loss_pct sc_take_profit_pct sc_holding_candles
  sc_confirmation_candles sc_notes sc_enabled sc_mode sc_suggested_notional].

#[local] Ltac settled := rewrite ?or_for_same; rewrite ?or_for_other by done; cbn [default from_option]; rewrite ?default_default.

Lemma resubmit_own : own_issues request' id tf = own_issues request id tf.
Proof.
  unfold own_issues. destruct id; try done;
    unfold validate_trend_filter_v2, validate_trend_pullback, validate_failed_breakdown,
      validate_compression_breakout, validate_range_reversion, check_reasonable_age;
    stored; settled; reflexivity.
Qed.

Lemma resubmit_issues :
  has_error (strategy_issues request id tf) = false ->
  has_error (strategy_issues request' id tf) = false.
Proof.
  rewrite !strategy_issues_iff, resubmit_own.
  intros (H1 & H2 & (H3 & H4 & H5 & H6 & H7 & H8) & H9 & H10 & H11 & H12 & _ & H14).
  stored. split_and!; first [done | lia | apply above_or_for; [lia|done] | tauto].
Qed.

(** A second round changes nothing, and the first one only the confirmation. *)
Lemma resubmit_again :
  let config' := normalized_config request' id symbols tf in
  strategy_update_request_from_config config' = request' /\
  (sc_confirmation_candles config = 0 ->
   sc_require_confirmation_close_above_lookback_low config = false ->
   sc_require_confirmation_low_above_breakdown_low config = false -> config' = config).
Proof.
  cbv zeta. split.
  - unfold normalized_config, strategy_update_request_from_config at 1. stored.
    rewrite normalize_notes_idem. destruct id; settled; reflexivity.
  - unfold normalized_config, strategy_update_request_from_config. stored.
    cbn [sc_require_confirmation_close_above_lookback_low
      sc_require_confirmation_low_above_breakdown_low].
    intros -> -> ->. rewrite normalize_notes_idem. destruct id; settled; reflexivity.
Qed.
End Resubmit.

(** ** Theorems *)

(** The settings of its own that a strategy stores, each with a value, and their ranges. *)
Definition own_ranges (config : StrategyConfig) : Prop :=
  let reasonable_age :=
    sc_max_signal_age_ms config <= snd (recommended_max_signal_age_ms (sc_timeframe config)) in
  match sc_strategy_id config with
  | StrategyId.TrendFilterMomentumV2 => exists low high momentum,
      sc_min_close_above_sma_pct config = Some low /\ sc_max_close_above_sma_pct config = Some high /\
      sc_min_momentum_return_pct config = Some momentum /\
      (dval ZERO <= dval low <= dval high)%Q /\ (dval ZERO <= dval momentum)%Q
  | StrategyId.TrendPullbackContinuationV1 => exists pullback sma shallow deep volume choppiness,
      sc_pullback_lookback_candles config = Some pullback /\
      sc_pullback_sma_lookback_candles config = Some sma /\
      sc_min_pullback_depth_pct config = Some shallow /\ sc_max_pullback_depth_pct config = Some deep /\
      sc_min_volume_ratio config = Some volume /\ sc_max_choppiness config = Some choppiness /\
      1 < pullback <= default 50 (sc_trend_lookback_candles config) /\ 1 < sma /\
      (dval shallow < dval deep)%Q /\
      (dval ZERO <= dval (default ONE (sc_max_close_above_sma_pct config)))%Q /\
      (dval ZERO <= dval volume)%Q /\ (dval ZERO < dval choppiness)%Q /\ reasonable_age
  | StrategyId.FailedBreakdownReclaimV1 => exists breakdown reclaim_close wick volume,
      sc_min_breakdown_pct config = Some breakdown /\
      sc_min_reclaim_close_pct config = Some reclaim_close /\
      sc_min_lower_wick_pct config = Some wick /\ sc_min_volume_ratio config = Some volume /\
      (dval ZERO <= dval breakdown)%Q /\ (dval ZERO <= dval reclaim_close)%Q /\
      (dval ZERO <= dval wick)%Q /\ (dval ZERO <= dval volume)%Q /\ reasonable_age
  | StrategyId.VolatilityCompressionBreakoutV1 => exists compression breakout threshold
      min_breakout extension volume narrow wide,
      sc_compression_lookback_candles config = Some compression /\
      sc_breakout_lookback_candles config = Some breakout /\
      sc_compression_percentile_threshold config = Some threshold /\
      sc_min_breakout_pct config = Some min_breakout /\
      sc_max_breakout_extension_pct config = Some extension /\
      sc_min_volume_expansion_ratio config = Some volume /\
      sc_min_range_width_pct config = Some narrow /\ sc_max_range_width_pct config = Some wide /\
      compression <= breakout /\ (dval ZERO < dval threshold <= dval (dnew 100 0))%Q /\
      (dval ZERO <= dval min_breakout)%Q /\ (dval min_breakout < dval extension)%Q /\
      (dval ONE <= dval volume)%Q /\ (dval ZERO < dval narrow)%Q /\ (dval narrow < dval wide)%Q /\
      reasonable_age
  | StrategyId.RangeReversionV1 => exists lower upper narrow wide,
      sc_lower_band_pct config = Some lower /\ sc_upper_band_pct config = Some upper /\
      sc_min_range_width_pct config = Some narrow /\ sc_max_range_width_pct config = Some wide /\
      (dval ZERO <= dval lower <= dval (dnew 50 0))%Q /\
      (dval (dnew 50 0) <= dval upper <= dval (dnew 100 0))%Q /\ (dval lower < dval upper)%Q /\
      (dval ZERO < dval narrow)%Q /\ (dval narrow < dval wide)%Q
  | _ => True
  end.

Lemma own_in_range request id symbols timeframe :
  has_error (own_issues request id timeframe) = false ->
  own_ranges (normalized_config request id symbols timeframe).
Proof.
  destruct id; try done; cbn [own_issues];
    unfold validate_trend_filter_v2, validate_trend_pullback, validate_failed_breakdown,
      validate_compression_breakout, validate_range_reversion, check_reasonable_age;
    intros H; autorewrite with has_error in H; unfold own_ranges;
    cbn [normalized_config sc_strategy_id sc_timeframe sc_max_signal_age_ms
      sc_min_close_above_sma_pct sc_max_close_above_sma_pct sc_min_momentum_return_pct
      sc_pullback_lookback_candles sc_pullback_sma_lookback_candles sc_min_pullback_depth_pct
      sc_max_pullback_depth_pct sc_min_volume_ratio sc_max_choppiness sc_trend_lookback_candles
      sc_min_breakdown_pct sc_min_reclaim_close_pct sc_min_lower_wick_pct
      sc_compression_lookback_candles sc_breakout_lookback_candles
      sc_compression_percentile_threshold sc_min_breakout_pct sc_max_breakout_extension_pct
      sc_min_volume_expansion_ratio sc_min_range_width_pct sc_max_range_width_pct
      sc_lower_band_pct sc_upper_band_pct];
    rewrite ?or_for_same; rewrite ?or_for_other by done; rewrite ?default_default;
    rewrite ?Z.gtb_ltb, ?Z.ltb_ge, ?Z.leb_gt, ?dltb_ge, ?dleb_gt in H;
    repeat eexists; try reflexivity; try (apply H); tauto || lia.
Qed.

(** C15.  An accepted configuration is well formed: it passes its own validation, its
    mode is not live, its symbols, at least one, are trimmed upper-case names from the
    supported list, the notional is positive and respects the risk limit, the signal age,
    cooldown, lookbacks, exits, holding period and confirmation lie in their documented
    ranges, the confidence floor lies between zero and one and is at most the confidence the
    strategy ever reports, the settings of a strategy's own have values in their ranges
    ([own_ranges]; those of other strategies are stored unchecked, but for the lookbacks), the
    confirmation settings are off where the strategy does not use them, and the lookbacks
    still fit their machine type. *)
Theorem accepted_config_well_formed now request context config :
  request_unsigned request -> accepted now request context config ->
  StrategyConfig_validate config = Ok tt /\ lookbacks_u32 config /\
  from_str (su_strategy_id request) = Ok (sc_strategy_id config) /\
  from_str (su_timeframe request) = Ok (sc_timeframe config) /\
  sc_mode config <> StrategyMode.Live /\
  sc_symbols config <> [] /\
  (forall s, In s (sc_symbols config) ->
     let t := symbol_text s in t <> "" /\ trim t = t /\ to_ascii_uppercase t = t /\
     (vc_supported_symbols context <> [] -> In s (vc_supported_symbols context))) /\
  (dval ZERO < dval (sc_suggested_notional config))%Q /\
  (forall limit, vc_max_position_notional context = Some limit ->
     (dval (sc_suggested_notional config) <= dval limit)%Q) /\
  1000 <= sc_max_signal_age_ms config /\ 0 <= sc_cooldown_seconds config <= 86400 /\
  fst (lookback_range (sc_strategy_id config)) <= sc_lookback_candles config
    <= snd (lookback_range (sc_strategy_id config)) /\
  (above (sc_trend_lookback_candles config) 0 /\ above (sc_momentum_lookback_candles config) 0 /\
   above (sc_compression_lookback_candles config) 1 /\ above (sc_breakout_lookback_candles config) 1 /\
   above (sc_pullback_lookback_candles config) 1 /\
   above (sc_pullback_sma_lookback_candles config) 1) /\
  within (sc_stop_loss_pct config) (dnew 20 0) /\ within (sc_take_profit_pct config) (dnew 50 0) /\
  match sc_holding_candles config with Some n => 1 <= n <= 10000 | None => True end /\
  match sc_confidence_floor config with
  | Some floor => (dval ZERO <= dval floor <= dval ONE)%Q /\
      (dval floor <= dval (max_strategy_confidence (sc_strategy_id config)))%Q
  | None => True
  end /\
  own_ranges config /\ 0 <= sc_confirmation_candles config <= 100 /\
  (sc_strategy_id config <> StrategyId.FailedBreakdownReclaimV1 ->
   sc_confirmation_candles config = 0 /\
   sc_require_confirmation_close_above_lookback_low config = false /\
   sc_require_confirmation_low_above_breakdown_low config = false).
Proof.
  intros Hu Ha. pose proof (accepted_validates _ _ _ _ Ha) as Hv.
  pose proof (accepted_lookbacks_u32 _ _ _ _ Hu Ha) as Hl.
  apply accepted_inv in Ha as (Hid & Htf & Hm & Hs & Hn & Hage & Hi & Hc).
  do 4 (split; [done|]). apply validate_symbols_ok in Hs as (Hs & Hne & Hsym).
  apply strategy_issues_iff in Hi as (H1 & H2 & H3 & Ho & H5 & H6 & H7 & H8 & Hf%has_error_floor).
  unfold validate_notional in Hn. rewrite has_error_app, has_error_error, orb_false_iff in Hn.
  destruct Hn as [Hpos%dleb_gt Hn], Hu as (_ & Hcc & Hcd & _). rewrite Hs in Hc. clear Hs Hv Hl.
  generalize dependent (sc_timeframe config). generalize dependent (sc_strategy_id config).
  intros id Hid H2 H8 Hf tf Htf Ho Hc.
  pose proof (own_in_range _ _ (map (fun raw => {| symbol_text := trim raw |}) (su_symbols request))
    _ Ho) as Hown. rewrite <- Hc in Hown.
  assert (0 <= sc_confirmation_candles config <= 100 /\ (id <> StrategyId.FailedBreakdownReclaimV1 ->
    sc_confirmation_candles config = 0 /\
    sc_require_confirmation_close_above_lookback_low config = false /\
    sc_require_confirmation_low_above_breakdown_low config = false)) as [Hconf Hoff].
  { subst config. cbn. case_bool_decide; split; try done; lia || (split; [lia|by apply H8]). }
  split; [by subst config|]. split; [by subst config; cbn; destruct (su_symbols request)|].
  split.
  { subst config. intros s (raw & <- & Hraw)%in_map_iff. cbn [symbol_text]. cbv zeta.
    rewrite trim_idem. destruct (Hsym raw Hraw) as (? & ? & ?). done. }
  split; [by subst config|]. split.
  { intros limit El. rewrite El, has_error_error in Hn. subst config. by apply dltb_ge. }
  split; [by subst config|]. split; [subst config; cbn; lia|]. split; [by subst config|].
  split; [subst config; split_and!; try (apply above_or_for; [lia|]); apply H3|].
  do 3 (split; [by subst config|]). split; [|done].
  subst config. cbn. destruct (su_confidence_floor request); [|done].
  rewrite !dleb_le in Hf. tauto.
Qed.

(** An accepted configuration can be run: evaluating it never panics and never
    fails, and its confidence floor never holds a signal back, since it is at
    most the fixed confidence of the strategy. *)
Theorem accepted_config_evaluates {DL : DecimalLaws DI} now request context cx new_v4 :
  request_unsigned request -> accepted now request context (cx_config cx) ->
  cx_strategy_id cx = sc_strategy_id (cx_config cx) ->
  (exists r, evaluate new_v4 cx = Ok r) /\
  passes_floor cx (dnew (base_confidence (cx_strategy_id cx)) 2) = true.
Proof.
  intros Hu Ha Hid. split.
  - apply evaluate_answers; [by eapply accepted_lookbacks_u32|by eapply accepted_validates|done|].
    by eapply accepted_not_degenerate.
  - apply accepted_inv in Ha as (_ & _ & _ & _ & _ & _ & Hi & Hc).
    apply strategy_issues_iff in Hi as (_ & _ & _ & _ & _ & _ & _ & _ & Hf).
    apply has_error_floor in Hf. unfold passes_floor. rewrite Hid.
    assert (sc_confidence_floor (cx_config cx) = su_confidence_floor request) as -> by (by rewrite Hc).
    destruct (su_confidence_floor request); [|done]. destruct Hf as (_ & _ & Hf).
    by destruct (sc_strategy_id (cx_config cx)).
Qed.

(** The checks a strategy repeats when it is evaluated agree with those made on
    the request, with one exception: a pull-back configuration is validated
    with a trend lookback of 50 when the request has none, but evaluated with
    [lookback_candles] in its place, so an accepted configuration whose
    [lookback_candles] is below the pull-back lookback never signals. *)
Theorem accepted_config_own_checks now request context config :
  accepted now request context config ->
  match sc_strategy_id config with
  | StrategyId.VolatilityCompressionBreakoutV1 => validate_compression_breakout_config config = None
  | StrategyId.FailedBreakdownReclaimV1 => validate_failed_breakdown_reclaim_config config = None
  | StrategyId.TrendPullbackContinuationV1 =>
    if bool_decide (is_Some (su_trend_lookback_candles request)) ||
       (default 10 (su_pullback_lookback_candles request) <=? su_lookback_candles request)
    then validate_trend_pullback_config config = None
    else forall cx new_v4 r, cx_config cx = config -> evaluate new_v4 cx = Ok r ->
           sr_generated r = false
  | _ => True
  end.
Proof.
  intros (_ & _ & _ & _ & _ & _ & Hi & Hc)%accepted_inv.
  apply strategy_issues_iff in Hi as (_ & Hl & (_ & _ & Hcl & Hbl & _) & Ho & _).
  generalize dependent (sc_timeframe config). generalize dependent (sc_strategy_id config).
  intros id Hl tf Ho Hc. rewrite Hc. destruct id; try done; cbn [own_issues] in Ho.
  - by apply own_compression.
  - pose proof (own_pullback request (snd (validate_symbols request context)) tf Ho
      ltac:(cbn in Hl; lia)) as Hp. cbv zeta in Hp.
    destruct (_ || _) eqn:E.
    + apply Hp. apply orb_true_iff in E as [E|E];
        [left; by apply bool_decide_eq_true in E|right; by apply Z.leb_le].
    + intros cx new_v4 r Hcx Hr. apply (invalid_pullback_never_signals cx new_v4); [by rewrite Hcx| |done].
      rewrite Hcx. intros Hn%Hp. apply orb_false_iff in E as [E1%bool_decide_eq_false E2%Z.leb_gt].
      destruct Hn; [done|lia].
  - by apply own_reclaim.
Qed.

(** Reading an accepted configuration back as a request and validating it again
    accepts it, and stores what was stored, except that the three confirmation
    settings are reset (the conversion does not copy them). *)
Theorem stored_config_resubmits now now' request context config :
  request_unsigned request -> accepted now request context config ->
  exists config',
    accepted now' (strategy_update_request_from_config config) context config' /\
    strategy_update_request_from_config config' = strategy_update_request_from_config config /\
    sc_confirmation_candles config' = 0 /\
    sc_require_confirmation_close_above_lookback_low config' = false /\
    sc_require_confirmation_low_above_breakdown_low config' = false /\
    (sc_confirmation_candles config = 0 ->
     sc_require_confirmation_close_above_lookback_low config = false ->
     sc_require_confirmation_low_above_breakdown_low config = false -> config' = config).
Proof.
  intros Hu (Hid & Htf & Hm & Hs & Hn & Hage & Hi & Hc)%accepted_inv.
  pose proof (proj1 (validate_symbols_ok _ _ Hs)) as Hsym.
  generalize dependent (sc_timeframe config). generalize dependent (sc_strategy_id config).
  intros id Hid tf Htf Hi ->. set (symbols := snd (validate_symbols request context)) in *.
  set (request' := strategy_update_request_from_config _).
  assert (validate_symbols request' context = validate_symbols request context) as Es.
  { apply validate_symbols_trim. subst request' symbols. cbn. by rewrite Hsym, map_map. }
  pose proof (resubmit_again request id tf symbols) as [H1 H2].
  exists (normalized_config request' id symbols tf). split; [|split; [exact H1|]].
  - apply accepted_iff. exists id, tf. rewrite Es. split_and!; try done.
    + exact (from_str_print (as_str := StrategyId.as_str) id).
    + exact (from_str_print (as_str := CandleInterval.as_str) tf).
    + by apply resubmit_issues.
  - cbn [normalized_config sc_confirmation_candles sc_require_confirmation_close_above_lookback_low
      sc_require_confirmation_low_above_breakdown_low request' strategy_update_request_from_config
      su_confirmation_candles su_require_confirmation_close_above_lookback_low
      su_require_confirmation_low_above_breakdown_low].
    rewrite !andb_false_r. split_and!; [by case_bool_decide|done|done|exact H2].
Qed.
End Accepted.

Module RequestSample.
#[local] Existing Instance ExactDecimal.

Definition request (id : string) (lookback : Z) (trend : option Z) : StrategyConfigUpdateRequest := {|
  su_strategy_id := id; su_enabled := true; su_mode := StrategyMode.Paper;
  su_symbols := [" BTCUSDT"; "ETHUSDT"]; su_timeframe := "1m";
  su_suggested_notional := dint 50; su_max_signal_age_ms := 120000; su_cooldown_seconds := 60;
  su_lookback_candles := lookback; su_trend_lookback_candles := trend;
  su_momentum_lookback_candles := None; su_compression_lookback_candles := None;
  su_breakout_lookback_candles := None; su_pullback_lookback_candles := None;
  su_pullback_sma_lookback_candles := None; su_compression_percentile_threshold := None;
  su_min_breakout_pct := None; su_max_breakout_extension_pct := None;
  su_min_volume_expansion_ratio := None; su_lower_band_pct := None; su_upper_band_pct := None;
  su_min_range_width_pct := None; su_max_range_width_pct := None;
  su_min_close_above_sma_pct := None; su_max_close_above_sma_pct := None;
  su_min_momentum_return_pct := None; su_min_trend_return_pct := None;
  su_min_trend_slope_pct := None; su_min_pullback_depth_pct := None;
  su_max_pullback_depth_pct := None; su_min_reclaim_pct := None; su_min_breakdown_pct := None;
  su_min_reclaim_close_pct := None; su_min_lower_wick_pct := None; su_min_volume_ratio := None;
  su_max_choppiness := None; su_confidence_floor := Some (dnew 6 1);
  su_stop_loss_pct := Some (dint 2); su_take_profit_pct := Some (dint 1);
  su_holding_candles := Some 12; su_confirmation_candles := 2;
  su_require_confirmation_close_above_lookback_low := true;
  su_require_confirmation_low_above_breakdown_low := false; su_notes := Some " note " |}.

Definition limits : StrategyValidationContext := {|
  vc_supported_symbols := [{| symbol_text := "ETHUSDT" |}; {| symbol_text := "BTCUSDT" |}];
  vc_max_position_notional := Some (dint 100) |}.

Lemma unsigned id lookback trend :
  0 <= lookback < 2 ^ 32 -> match trend with Some n => 0 <= n < 2 ^ 32 | None => True end ->
  request_unsigned (request id lookback trend).
Proof. intros Hl Ht. split; [exact Hl|]. do 2 (split; [cbn; lia|]). by repeat constructor. Qed.

Abbreviation reclaim := (request "failed_breakdown_reclaim_v1" 20 None).
Abbreviation pullback := (request "Trend_Pullback_Continuation_V1 " 5 None).
Abbreviation config_of r id := (normalized_config r id
  [{| symbol_text := "BTCUSDT" |}; {| symbol_text := "ETHUSDT" |}] CandleInterval.OneMinute).

Lemma reclaim_accepted :
  accepted 3 reclaim limits (config_of reclaim StrategyId.FailedBreakdownReclaimV1).
Proof. vm_compute. reflexivity. Qed.
Lemma pullback_accepted :
  accepted 3 pullback limits (config_of pullback StrategyId.TrendPullbackContinuationV1).
Proof. vm_compute. reflexivity. Qed.

Example accepted_config_well_formed_witness :
  StrategyConfig_validate (config_of reclaim StrategyId.FailedBreakdownReclaimV1) = Ok tt.
Proof.
  exact (proj1 (accepted_config_well_formed 3 _ _ _
    (unsigned "failed_breakdown_reclaim_v1" 20 None ltac:(lia) I) reclaim_accepted)).
Defined.

Definition context_of (config : StrategyConfig) : StrategyEvaluationContext := {|
  cx_correlation_id := 9; cx_strategy_id := sc_strategy_id config;
  cx_symbol := {| symbol_text := "BTCUSDT" |}; cx_config := config;
  cx_candles := StrategySample.rising; cx_evaluated_at := minutes 9 |}.

Example accepted_config_evaluates_witness :
  exists r, evaluate 7 (context_of (config_of reclaim StrategyId.FailedBreakdownReclaimV1)) = Ok r.
Proof.
  exact (proj1 (accepted_config_evaluates (DL := ExactDecimalLaws) 3 reclaim limits (context_of _) 7
    (unsigned "failed_breakdown_reclaim_v1" 20 None ltac:(lia) I) reclaim_accepted eq_refl)).
Defined.

(** Accepted, and unable to signal. *)
Example accepted_config_own_checks_witness :
  exists r, evaluate 7 (context_of (config_of pullback StrategyId.TrendPullbackContinuationV1)) = Ok r
    /\ sr_generated r = false.
Proof.
  destruct (evaluate 7 _) as [r| |] eqn:E1; [|vm_compute in E1; discriminate E1..].
  exists r. split; [reflexivity|].
  exact (accepted_config_own_checks 3 pullback limits _ pullback_accepted (context_of _) 7 r eq_refl E1).
Defined.

Example stored_config_resubmits_witness :
  exists config', accepted 4 (strategy_update_request_from_config
    (config_of reclaim StrategyId.FailedBreakdownReclaimV1)) limits config' /\
    sc_confirmation_candles (config_of reclaim StrategyId.FailedBreakdownReclaimV1) = 2 /\
    sc_confirmation_candles config' = 0.
Proof.
  destruct (stored_config_resubmits 3 4 reclaim limits _
    (unsigned "failed_breakdown_reclaim_v1" 20 None ltac:(lia) I) reclaim_accepted)
    as (config' & H1 & _ & H2 & _).
  exists config'. split; [exact H1|]. split; [reflexivity|exact H2].
Defined.
End RequestSample.
