(* ===== verification/Diagnose.v ===== *)
(** * Strategy diagnostics: crates/strategy-engine/src/lib.rs, 886-1063 and 2374-3918

    [diagnose] explains what [evaluate] would do: it repeats the tests of the
    nine strategies one by one, records each as a check, and stops at the first
    that fails.  [condition_checks.push(c)] followed by the rest of the function
    is [push c rest]; [return Ok(outcome)] is [stop outcome]; a run is the list
    of checks it pushed and its outcome. *)

From Stdlib Require Import ZArith QArith Lqa Lia List String.
From stdpp Require Import base list strings.
From S2P Require Import Prelude Text Host Types MarketData Strategy StrategyRequest.

#[local] Open Scope Z_scope.

Module StrategyDiagnosticSeverity.
Inductive t := Info | Warn | Error.
Definition as_str (x : t) : string :=
  match x with Info => "INFO" | Warn => "WARN" | Error => "ERROR" end.
End StrategyDiagnosticSeverity.

Module StrategyNoSignalReason.
Inductive t :=
  | MomentumNotStrictlyHigherCloses | TrendCloseNotAboveSma | CloseBelowSma | CloseTooCloseToSma
  | CloseTooExtendedAboveSma | MomentumNotConfirmed | TrendNotConfirmed | PullbackTooShallow
  | PullbackTooDeep | TrendMomentumNotPositive | TrendTooExtended | VolatilityBelowMinimum
  | BreakoutNotAboveRecentHigh | BreakoutVolumeBelowAverage | NoCompression | NoBreakout
  | NoBreakdown | BreakoutTooSmall | BreakdownTooSmall | BreakoutTooExtended | VolumeNotConfirmed
  | LowerWickTooSmall | InsufficientData | RangeTooNarrow | RangeTooWide | NotNearLowerBand
  | NoReversalConfirmation | ReclaimNotConfirmed | TooChoppy | ConfidenceBelowFloor
  | InsufficientCandles | StrategyDisabled | InvalidConfig | StaleData.
#[global] Instance eq_dec : EqDecision t.
Proof. solve_decision. Defined.
Definition as_str (x : t) : string :=
  match x with
  | MomentumNotStrictlyHigherCloses => "MOMENTUM_NOT_STRICTLY_HIGHER_CLOSES"
  | TrendCloseNotAboveSma => "TREND_CLOSE_NOT_ABOVE_SMA"
  | CloseBelowSma => "CLOSE_BELOW_SMA"
  | CloseTooCloseToSma => "CLOSE_TOO_CLOSE_TO_SMA"
  | CloseTooExtendedAboveSma => "CLOSE_TOO_EXTENDED_ABOVE_SMA"
  | MomentumNotConfirmed => "MOMENTUM_NOT_CONFIRMED"
  | TrendNotConfirmed => "TREND_NOT_CONFIRMED"
  | PullbackTooShallow => "PULLBACK_TOO_SHALLOW"
  | PullbackTooDeep => "PULLBACK_TOO_DEEP"
  | TrendMomentumNotPositive => "TREND_MOMENTUM_NOT_POSITIVE"
  | TrendTooExtended => "TREND_TOO_EXTENDED"
  | VolatilityBelowMinimum => "VOLATILITY_BELOW_MINIMUM"
  | BreakoutNotAboveRecentHigh => "BREAKOUT_NOT_ABOVE_RECENT_HIGH"
  | BreakoutVolumeBelowAverage => "BREAKOUT_VOLUME_BELOW_AVERAGE"
  | NoCompression => "NO_COMPRESSION"
  | NoBreakout => "NO_BREAKOUT"
  | NoBreakdown => "NO_BREAKDOWN"
  | BreakoutTooSmall => "BREAKOUT_TOO_SMALL"
  | BreakdownTooSmall => "BREAKDOWN_TOO_SMALL"
  | BreakoutTooExtended => "BREAKOUT_TOO_EXTENDED"
  | VolumeNotConfirmed => "VOLUME_NOT_CONFIRMED"
  | LowerWickTooSmall => "LOWER_WICK_TOO_SMALL"
  | InsufficientData => "INSUFFICIENT_DATA"
  | RangeTooNarrow => "RANGE_TOO_NARROW"
  | RangeTooWide => "RANGE_TOO_WIDE"
  | NotNearLowerBand => "NOT_NEAR_LOWER_BAND"
  | NoReversalConfirmation => "NO_REVERSAL_CONFIRMATION"
  | ReclaimNotConfirmed => "RECLAIM_NOT_CONFIRMED"
  | TooChoppy => "TOO_CHOPPY"
  | ConfidenceBelowFloor => "CONFIDENCE_BELOW_FLOOR"
  | InsufficientCandles => "INSUFFICIENT_CANDLES"
  | StrategyDisabled => "STRATEGY_DISABLED"
  | InvalidConfig => "INVALID_CONFIG"
  | StaleData => "STALE_DATA"
  end.
End StrategyNoSignalReason.

Module StrategyDiagnosticsDecision.
Inductive t := WouldSignal | NoSignal | InsufficientData | StrategyDisabled | InvalidConfig | StaleData.
#[global] Instance eq_dec : EqDecision t.
Proof. solve_decision. Defined.
Definition as_str (x : t) : string :=
  match x with
  | WouldSignal => "WOULD_SIGNAL"
  | NoSignal => "NO_SIGNAL"
  | InsufficientData => "INSUFFICIENT_DATA"
  | StrategyDisabled => "STRATEGY_DISABLED"
  | InvalidConfig => "INVALID_CONFIG"
  | StaleData => "STALE_DATA"
  end.
End StrategyDiagnosticsDecision.

Abbreviation NoSignalReason := StrategyNoSignalReason.t.
Abbreviation Decision := StrategyDiagnosticsDecision.t.

Definition show_bool (b : bool) : string := if b then "true" else "false".

Record StrategyDiagnosticCheck := {
  dc_name : string;
  dc_passed : bool;
  dc_severity : StrategyDiagnosticSeverity.t;
  dc_message : string;
  dc_actual : option string;
  dc_expected : option string
}.

Record StrategyDataHealth := {
  dh_required_lookback_candles : Z;
  dh_required_closed_candles : Z;
  dh_available_closed_candles : Z;
  dh_latest_closed_candle_time : option Z;
  dh_latest_closed_candle_age_ms : option Z;
  dh_stale : bool;
  dh_latest_closes : list string
}.

(** A check whose severity is [Info] when it passed and [Warn] when it did not. *)
Definition tested (name : string) (passed : bool) (message : string)
    (actual expected : option string) : StrategyDiagnosticCheck := {|
  dc_name := name; dc_passed := passed;
  dc_severity := if passed then StrategyDiagnosticSeverity.Info else StrategyDiagnosticSeverity.Warn;
  dc_message := message; dc_actual := actual; dc_expected := expected |}.

(** A check recorded for information. *)
Definition noted (name : string) (passed : bool) (message : string)
    (actual expected : option string) : StrategyDiagnosticCheck := {|
  dc_name := name; dc_passed := passed; dc_severity := StrategyDiagnosticSeverity.Info;
  dc_message := message; dc_actual := actual; dc_expected := expected |}.

Definition invalid_check (message expected : string) : StrategyDiagnosticCheck := {|
  dc_name := "valid_config"; dc_passed := false; dc_severity := StrategyDiagnosticSeverity.Error;
  dc_message := message; dc_actual := Some "INVALID_CONFIG"; dc_expected := Some expected |}.

Section Diagnose.
Context {DI : Decimal}.

Record DiagnosticOutcome := {
  do_final_decision : Decision;
  do_no_signal_reason : option NoSignalReason;
  do_summary : string;
  do_source_candle_open_time : option Z;
  do_confidence : option dec
}.

Record StrategyDiagnosticsResult := {
  dg_strategy_id : string;
  dg_symbol : string;
  dg_timeframe : string;
  dg_strategy_enabled : bool;
  dg_config_valid : bool;
  dg_validation_issues : list StrategyConfigValidationIssue;
  dg_data_health : StrategyDataHealth;
  dg_condition_checks : list StrategyDiagnosticCheck;
  dg_final_decision : Decision;
  dg_no_signal_reason : option NoSignalReason;
  dg_summary : string;
  dg_source_candle_open_time : option Z;
  dg_confidence : option dec;
  dg_correlation_id : Z;
  dg_evaluated_at : Z
}.

Definition diagnosis : Type := list StrategyDiagnosticCheck * DiagnosticOutcome.
Definition push (c : StrategyDiagnosticCheck) (rest : diagnosis) : diagnosis :=
  (c :: fst rest, snd rest).
Definition stop (outcome : DiagnosticOutcome) : diagnosis := ([], outcome).

(** An outcome that is not a signal. *)
Definition declined (decision : Decision) (reason : NoSignalReason) (summary : string)
    : DiagnosticOutcome := {|
  do_final_decision := decision; do_no_signal_reason := Some reason; do_summary := summary;
  do_source_candle_open_time := None; do_confidence := None |}.

Abbreviation no_signal_outcome := (declined StrategyDiagnosticsDecision.NoSignal).
Abbreviation invalid_config_outcome := (declined StrategyDiagnosticsDecision.InvalidConfig
  StrategyNoSignalReason.InvalidConfig).

Definition would_signal (open_time : option Z) (confidence : dec) (summary : string)
    : DiagnosticOutcome := {|
  do_final_decision := StrategyDiagnosticsDecision.WouldSignal; do_no_signal_reason := None;
  do_summary := summary; do_source_candle_open_time := open_time;
  do_confidence := Some confidence |}.

Definition failed_reclaim_no_signal_outcome (reason : NoSignalReason) (reason_label : string)
    (metrics : FailedBreakdownReclaimMetrics) : DiagnosticOutcome :=
  no_signal_outcome reason
    ("Failed breakdown reclaim did not trigger: " +:+ reason_label
       +:+ "; lookback_low=" +:+ dshow (fb_lookback_low metrics)
       +:+ ", latest_low=" +:+ dshow (fb_latest_low metrics)
       +:+ ", latest_close=" +:+ dshow (fb_latest_close metrics)
       +:+ ", breakdown_pct=" +:+ dshow (fb_breakdown_pct metrics)
       +:+ ", reclaim_close_pct=" +:+ dshow (fb_reclaim_close_pct metrics)
       +:+ ", lower_wick_pct=" +:+ dshow (fb_lower_wick_pct metrics)
       +:+ ", volume_ratio=" +:+ dshow (fb_volume_ratio metrics)
       +:+ ", average_volume=" +:+ dshow (fb_average_volume metrics)
       +:+ ", final_decision=NO_SIGNAL.").

Definition pullback_no_signal_outcome (reason : NoSignalReason) (reason_label : string)
    (metrics : TrendPullbackMetrics) : DiagnosticOutcome :=
  no_signal_outcome reason
    ("Trend pullback continuation did not trigger: " +:+ reason_label
       +:+ "; trend_return_pct=" +:+ dshow (tp_trend_return_pct metrics)
       +:+ ", trend_slope_pct=" +:+ dshow (tp_trend_slope_pct metrics)
       +:+ ", recent_high=" +:+ dshow (tp_recent_high metrics)
       +:+ ", pullback_depth_pct=" +:+ dshow (tp_pullback_depth_pct metrics)
       +:+ ", pullback_sma=" +:+ dshow (tp_pullback_sma metrics)
       +:+ ", close_vs_sma_pct=" +:+ dshow (tp_close_vs_sma_pct metrics)
       +:+ ", reclaim_confirmed=" +:+ show_bool (tp_reclaim_confirmed metrics)
       +:+ ", volume_ratio=" +:+ dshow (tp_volume_ratio metrics)
       +:+ ", choppiness=" +:+ dshow (tp_choppiness metrics)
       +:+ ", final_decision=NO_SIGNAL.").

Definition compression_no_signal_outcome (reason : NoSignalReason) (reason_label : string)
    (latest : Candle) (metrics : CompressionBreakoutMetrics) : DiagnosticOutcome :=
  no_signal_outcome reason
    ("Volatility compression breakout did not trigger: " +:+ reason_label
       +:+ "; compression_ratio=" +:+ dshow (cb_compression_ratio metrics)
       +:+ ", breakout_level=" +:+ dshow (cb_breakout_level metrics)
       +:+ ", latest_close=" +:+ dshow (c_close latest)
       +:+ ", breakout_pct=" +:+ dshow (cb_breakout_pct metrics)
       +:+ ", volume_ratio=" +:+ dshow (cb_volume_ratio metrics)
       +:+ ", range_width_pct=" +:+ dshow (cb_range_width_pct metrics) +:+ ".").

(** [confidence_floor.map(|floor| confidence >= floor).unwrap_or(true)] *)
Definition confidence_passed (context : StrategyEvaluationContext) (confidence : dec) : bool :=
  match sc_confidence_floor (cx_config context) with
  | Some floor => (confidence >=? floor)%dec
  | None => true
  end.

Definition confidence_outcome (context : StrategyEvaluationContext) (latest : Candle)
    (reason : SignalReason.t) (confidence : dec) : DiagnosticOutcome :=
  if negb (confidence_passed context confidence) then
    no_signal_outcome StrategyNoSignalReason.ConfidenceBelowFloor
      (SignalReason.as_str reason +:+ " conditions passed, but confidence " +:+ dshow confidence
         +:+ " is below the configured floor.")
  else would_signal (Some (c_open_time latest)) confidence
         (SignalReason.as_str reason +:+ " would signal on the latest closed candle.").

(** The check of the two strategies that record it. *)
Definition confidence_check (context : StrategyEvaluationContext) (confidence : dec)
    : StrategyDiagnosticCheck :=
  let passed := confidence_passed context confidence in
  tested "confidence_floor" passed
    (match sc_confidence_floor (cx_config context) with
     | Some floor =>
       if passed then "Deterministic confidence " +:+ dshow confidence
                        +:+ " meets configured floor " +:+ dshow floor +:+ "."
       else "Deterministic confidence " +:+ dshow confidence
              +:+ " is below configured floor " +:+ dshow floor +:+ "."
     | None => "No confidence floor is configured."
     end)
    (Some (dshow confidence))
    (option_map (fun value => ">= " +:+ dshow value) (sc_confidence_floor (cx_config context))).

(** ** One function per strategy *)

Definition diagnose_momentum (context : StrategyEvaluationContext) (candles : list Candle)
    : result diagnosis :=
  recent ← slice_back candles (Z.to_nat (required_candle_count (cx_config context))) 0;
  let is_higher_closes :=
    forallb (fun '(c0, c1) => (c_close c1 >? c_close c0)%dec) (pairs recent) in
  let count := show_int (Z.of_nat (length recent)) in
  Ok (push (tested "momentum_higher_closes" is_higher_closes
        (if is_higher_closes then
           "Each close in the lookback window is strictly higher than the previous close."
         else "Momentum requires strictly higher closes across the lookback window, but the sequence breaks.")
        (Some (join " -> " (map (fun candle => dshow (c_close candle)) recent)))
        (Some "strictly increasing closes"))
   (if negb is_higher_closes then
      stop (no_signal_outcome StrategyNoSignalReason.MomentumNotStrictlyHigherCloses
        ("Momentum did not trigger because the latest " +:+ count
           +:+ " closes are not strictly increasing."))
    else
    let confidence := dnew 65 2 in
    push (confidence_check context confidence)
    (if negb (confidence_passed context confidence) then
       stop (no_signal_outcome StrategyNoSignalReason.ConfidenceBelowFloor
         ("Momentum conditions passed, but confidence " +:+ dshow confidence
            +:+ " is below the configured floor."))
     else
     stop (would_signal (option_map c_open_time (last recent)) confidence
       ("Momentum would signal because the latest " +:+ count
          +:+ " closes are strictly increasing."))))).

Definition diagnose_breakout (context : StrategyEvaluationContext) (candles : list Candle)
    : result diagnosis :=
  recent ← slice_back candles (Z.to_nat (required_candle_count (cx_config context))) 0;
  latest ← expect (last recent);
  previous_window ← slice recent 0 (length recent - 1);
  recent_high ← expect (high_of previous_window);
  let breakout := (c_close latest >? recent_high)%dec in
  Ok (push (tested "breakout_above_recent_high" breakout
        (if breakout then "Latest close is above the highest high in the prior lookback window."
         else "Latest close is not above the highest high in the prior lookback window.")
        (Some (dshow (c_close latest))) (Some ("> " +:+ dshow recent_high)))
   (if negb breakout then
      stop (no_signal_outcome StrategyNoSignalReason.BreakoutNotAboveRecentHigh
        ("Breakout did not trigger because latest close " +:+ dshow (c_close latest)
           +:+ " is not above recent high " +:+ dshow recent_high +:+ "."))
    else
    let confidence := dnew 70 2 in
    push (confidence_check context confidence)
    (if negb (confidence_passed context confidence) then
       stop (no_signal_outcome StrategyNoSignalReason.ConfidenceBelowFloor
         ("Breakout conditions passed, but confidence " +:+ dshow confidence
            +:+ " is below the configured floor."))
     else
     stop (would_signal (Some (c_open_time latest)) confidence
       ("Breakout would signal because latest close " +:+ dshow (c_close latest)
          +:+ " is above recent high " +:+ dshow recent_high +:+ "."))))).

Definition diagnose_trend_filter_momentum (context : StrategyEvaluationContext)
    (candles : list Candle) : result diagnosis :=
  let config := cx_config context in
  let trend := Z.to_nat (trend_lookback config) in
  let momentum := Z.to_nat (momentum_lookback config) in
  latest ← expect (last candles);
  previous ← index_back candles 2;
  trend_window ← slice_back candles (trend + 1) 1;
  let sma := average_decimal (map c_close trend_window) in
  momentum_reference ← index_back candles (momentum + 1);
  let close := dshow (c_close latest) in
  let trend_text := show_int (Z.of_nat trend) in
  let momentum_text := show_int (Z.of_nat momentum) in
  let above_sma := (c_close latest >? sma)%dec in
  let latest_above_previous := (c_close latest >? c_close previous)%dec in
  let momentum_passed := (c_close latest >? c_close momentum_reference)%dec in
  Ok (push (tested "trend_close_above_sma" above_sma
        ("Latest close " +:+ close +:+ (if above_sma then " is above SMA(" else " is not above SMA(")
           +:+ trend_text +:+ ") " +:+ dshow sma +:+ ".")
        (Some close) (Some ("> " +:+ dshow sma)))
   (if negb above_sma then
      stop (no_signal_outcome StrategyNoSignalReason.TrendCloseNotAboveSma
        ("Trend-filter momentum did not trigger because latest close " +:+ close
           +:+ " is not above SMA(" +:+ trend_text +:+ ") " +:+ dshow sma +:+ "."))
    else
    push (tested "latest_close_above_previous_close" latest_above_previous
        (if latest_above_previous then "Latest close is above the previous close."
         else "Latest close is not above the previous close.")
        (Some close) (Some ("> " +:+ dshow (c_close previous))))
    (if negb latest_above_previous then
       stop (no_signal_outcome StrategyNoSignalReason.TrendMomentumNotPositive
         ("Trend-filter momentum did not trigger because latest close " +:+ close
            +:+ " is not above previous close " +:+ dshow (c_close previous) +:+ "."))
     else
     push (tested "momentum_lookback_close_check" momentum_passed
         ((if momentum_passed then "Latest close is above the close from "
           else "Latest close is not above the close from ") +:+ momentum_text +:+ " candles ago.")
         (Some close) (Some ("> " +:+ dshow (c_close momentum_reference))))
     (if negb momentum_passed then
        stop (no_signal_outcome StrategyNoSignalReason.TrendMomentumNotPositive
          ("Trend-filter momentum did not trigger because latest close " +:+ close
             +:+ " is not above the " +:+ momentum_text +:+ "-candle momentum reference "
             +:+ dshow (c_close momentum_reference) +:+ "."))
      else
      stop (confidence_outcome context latest SignalReason.TrendFilterMomentum (dnew 68 2)))))).

Definition diagnose_trend_filter_momentum_v2 (context : StrategyEvaluationContext)
    (candles : list Candle) : result diagnosis :=
  let config := cx_config context in
  let min_band := min_close_above_sma_pct config in
  let max_band := max_close_above_sma_pct config in
  if (max_band <? min_band)%dec then
    Ok (stop (no_signal_outcome StrategyNoSignalReason.InvalidConfig
      ("Invalid trend-filter momentum v2 config: max_close_above_sma_pct " +:+ dshow max_band
         +:+ " is below min_close_above_sma_pct " +:+ dshow min_band +:+ ".")))
  else
  let trend := Z.to_nat (trend_lookback config) in
  let momentum := Z.to_nat (momentum_lookback config) in
  latest ← expect (last candles);
  trend_window ← slice_back candles (trend + 1) 1;
  let sma := average_decimal (map c_close trend_window) in
  momentum_reference ← index_back candles (momentum + 1);
  let close_vs_sma_pct := pct_ratio (c_close latest - sma) sma in
  let momentum_return_pct :=
    pct_ratio (c_close latest - c_close momentum_reference) (c_close momentum_reference) in
  let min_momentum := min_momentum_return_pct config in
  let close := dshow (c_close latest) in
  let trend_text := show_int (Z.of_nat trend) in
  let distance := dshow close_vs_sma_pct in
  let close_above_sma := (c_close latest >? sma)%dec in
  let above_min := (close_vs_sma_pct >=? min_band)%dec in
  let below_max := (close_vs_sma_pct <=? max_band)%dec in
  let momentum_confirmed := (c_close latest >? c_close momentum_reference)%dec
                            && (momentum_return_pct >=? min_momentum)%dec in
  Ok (push (tested "close_above_sma" close_above_sma
        ("Latest close " +:+ close +:+ " compared with SMA(" +:+ trend_text +:+ ") " +:+ dshow sma
           +:+ " gives close_vs_sma_pct " +:+ distance +:+ ".")
        (Some close) (Some ("> " +:+ dshow sma)))
   (if negb close_above_sma then
      stop (no_signal_outcome StrategyNoSignalReason.CloseBelowSma
        ("Trend-filter momentum v2 did not trigger because latest close " +:+ close
           +:+ " is not above SMA(" +:+ trend_text +:+ ") " +:+ dshow sma +:+ "."))
    else
    push (tested "close_above_sma_min_band" above_min
        ("close_vs_sma_pct " +:+ distance +:+ " must be at least configured min "
           +:+ dshow min_band +:+ ".")
        (Some distance) (Some (">= " +:+ dshow min_band)))
    (if negb above_min then
       stop (no_signal_outcome StrategyNoSignalReason.CloseTooCloseToSma
         ("Trend-filter momentum v2 did not trigger because close_vs_sma_pct " +:+ distance
            +:+ " is below min band " +:+ dshow min_band +:+ "."))
     else
     push (tested "close_below_sma_max_band" below_max
         ("close_vs_sma_pct " +:+ distance +:+ " must be at most configured max "
            +:+ dshow max_band +:+ ".")
         (Some distance) (Some ("<= " +:+ dshow max_band)))
     (if negb below_max then
        stop (no_signal_outcome StrategyNoSignalReason.CloseTooExtendedAboveSma
          ("Trend-filter momentum v2 did not trigger because close_vs_sma_pct " +:+ distance
             +:+ " is above max band " +:+ dshow max_band +:+ "."))
      else
      push (tested "momentum_confirmed" momentum_confirmed
          ("Latest close " +:+ close +:+ " versus " +:+ show_int (Z.of_nat momentum)
             +:+ "-candle reference " +:+ dshow (c_close momentum_reference)
             +:+ " gives momentum_return_pct " +:+ dshow momentum_return_pct +:+ "; min is "
             +:+ dshow min_momentum +:+ ".")
          (Some (dshow momentum_return_pct))
          (Some (">= " +:+ dshow min_momentum +:+ " and close > "
                   +:+ dshow (c_close momentum_reference))))
      (if negb momentum_confirmed then
         stop (no_signal_outcome StrategyNoSignalReason.MomentumNotConfirmed
           ("Trend-filter momentum v2 did not trigger because momentum_return_pct "
              +:+ dshow momentum_return_pct +:+ " is not confirmed."))
       else
       push (noted "close_within_sma_band" true
           ("close_vs_sma_pct " +:+ distance +:+ " is within configured band " +:+ dshow min_band
              +:+ " to " +:+ dshow max_band +:+ ".")
           (Some distance) (Some (dshow min_band +:+ "..=" +:+ dshow max_band)))
       (stop (confidence_outcome context latest SignalReason.TrendFilterMomentum (dnew 68 2)))))))).

Definition diagnose_volume_breakout (context : StrategyEvaluationContext) (candles : list Candle)
    : result diagnosis :=
  let lookback := Z.to_nat (breakout_lookback (cx_config context)) in
  recent ← slice_back candles (lookback + 1) 0;
  latest ← expect (last recent);
  previous_window ← slice recent 0 (length recent - 1);
  breakout_level ← expect (high_of previous_window);
  let average_volume := average_decimal (map c_volume previous_window) in
  let breakout := (c_close latest >? breakout_level)%dec in
  let volume_confirmed := (c_volume latest >? average_volume)%dec in
  Ok (push (tested "breakout_close_above_prior_high" breakout
        (if breakout then "Latest close is above the prior breakout high."
         else "Latest close is not above the prior breakout high.")
        (Some (dshow (c_close latest))) (Some ("> " +:+ dshow breakout_level)))
   (if negb breakout then
      stop (no_signal_outcome StrategyNoSignalReason.BreakoutNotAboveRecentHigh
        ("Volatility breakout did not trigger because latest close " +:+ dshow (c_close latest)
           +:+ " is not above prior high " +:+ dshow breakout_level +:+ "."))
    else
    push (tested "breakout_volume_above_average" volume_confirmed
        (if volume_confirmed then "Latest volume is above the lookback average volume."
         else "Latest volume is not above the lookback average volume.")
        (Some (dshow (c_volume latest))) (Some ("> " +:+ dshow average_volume)))
    (if negb volume_confirmed then
       stop (no_signal_outcome StrategyNoSignalReason.BreakoutVolumeBelowAverage
         ("Volatility breakout did not trigger because latest volume " +:+ dshow (c_volume latest)
            +:+ " is not above average volume " +:+ dshow average_volume +:+ "."))
     else
     stop (confidence_outcome context latest SignalReason.VolumeConfirmedBreakout (dnew 72 2))))).

Definition diagnose_volatility_compression_breakout (context : StrategyEvaluationContext)
    (candles : list Candle) : result diagnosis :=
  let config := cx_config context in
  match validate_compression_breakout_config config with
  | Some message =>
    Ok (push (invalid_check message "valid compression breakout config")
          (stop (invalid_config_outcome message)))
  | None =>
  recent ← slice_back candles (Z.to_nat (required_candle_count config)) 0;
  latest ← expect (last recent);
  metrics ← calculate_compression_breakout_metrics config recent;
  let min_width := min_range_width_pct config in
  let max_width := max_range_width_pct config in
  let min_breakout := min_breakout_pct config in
  let max_extension := max_breakout_extension_pct config in
  let min_volume_ratio := min_volume_expansion_ratio config in
  let compression_passed := cb_compression_passed metrics in
  let breakout_passed := (c_close latest >? cb_breakout_level metrics)%dec in
  let breakout_large_enough := (cb_breakout_pct metrics >=? min_breakout)%dec in
  let breakout_not_overextended := (cb_breakout_pct metrics <=? max_extension)%dec in
  let volume_confirmed := (cb_volume_ratio metrics >=? min_volume_ratio)%dec in
  let bullish_close := (c_close latest >? c_open latest)%dec in
  let fail reason label := stop (compression_no_signal_outcome reason label latest metrics) in
  Ok (push (noted "compression_lookback" true "Compression lookback closed candles."
        (Some (show_int (compression_lookback config))) None)
   (push (noted "breakout_lookback" true "Breakout lookback closed candles excluding latest candle."
        (Some (show_int (breakout_lookback config))) None)
   (push (tested "compression_passed" compression_passed
        ("recent_avg_range_pct " +:+ dshow (cb_recent_avg_range_pct metrics) +:+ " versus baseline "
           +:+ dshow (compression_percentile_threshold config) +:+ "th percentile range "
           +:+ dshow (cb_compression_threshold_range_pct metrics) +:+ " gives compression_ratio "
           +:+ dshow (cb_compression_ratio metrics) +:+ ".")
        (Some (dshow (cb_recent_avg_range_pct metrics)))
        (Some ("<= " +:+ dshow (cb_compression_threshold_range_pct metrics))))
   (if negb compression_passed then fail StrategyNoSignalReason.NoCompression "NO_COMPRESSION"
    else
    push (tested "range_width_pct" (cb_range_width_within_bounds metrics)
        "Prior breakout range width must remain within configured bounds."
        (Some (dshow (cb_range_width_pct metrics)))
        (Some (dshow min_width +:+ "..=" +:+ dshow max_width)))
    (if (cb_range_width_pct metrics <? min_width)%dec
     then fail StrategyNoSignalReason.RangeTooNarrow "RANGE_TOO_NARROW"
     else if (cb_range_width_pct metrics >? max_width)%dec
     then fail StrategyNoSignalReason.RangeTooWide "RANGE_TOO_WIDE"
     else
     push (tested "breakout_passed" breakout_passed
         "Latest close must break above prior breakout level."
         (Some (dshow (c_close latest))) (Some ("> " +:+ dshow (cb_breakout_level metrics))))
     (if negb breakout_passed then fail StrategyNoSignalReason.NoBreakout "NO_BREAKOUT"
      else
      push (tested "breakout_large_enough" breakout_large_enough
          "Breakout percent must meet the configured minimum."
          (Some (dshow (cb_breakout_pct metrics))) (Some (">= " +:+ dshow min_breakout)))
      (if negb breakout_large_enough
       then fail StrategyNoSignalReason.BreakoutTooSmall "BREAKOUT_TOO_SMALL"
       else
       push (tested "breakout_not_overextended" breakout_not_overextended
           "Breakout percent must not exceed the configured extension cap."
           (Some (dshow (cb_breakout_pct metrics))) (Some ("<= " +:+ dshow max_extension)))
       (if negb breakout_not_overextended
        then fail StrategyNoSignalReason.BreakoutTooExtended "BREAKOUT_TOO_EXTENDED"
        else
        push (tested "volume_confirmed" volume_confirmed
            "Latest volume must expand versus prior average volume."
            (Some (dshow (cb_volume_ratio metrics))) (Some (">= " +:+ dshow min_volume_ratio)))
        (if negb volume_confirmed
         then fail StrategyNoSignalReason.VolumeNotConfirmed "VOLUME_NOT_CONFIRMED"
         else
         push (tested "bullish_close" bullish_close "Latest close must be above latest open."
             (Some ("close=" +:+ dshow (c_close latest) +:+ " open=" +:+ dshow (c_open latest)))
             (Some "close > open"))
         (if negb bullish_close then fail StrategyNoSignalReason.NoBreakout "NO_BREAKOUT"
          else
          push (noted "final_decision" true "Volatility compression breakout conditions passed."
              (Some "WOULD_SIGNAL") (Some "WOULD_SIGNAL"))
          (stop (confidence_outcome context latest SignalReason.VolatilityCompressionBreakout
             (dnew 71 2)))))))))))))
  end.

Definition diagnose_range_reversion (context : StrategyEvaluationContext) (candles : list Candle)
    : result diagnosis :=
  let config := cx_config context in
  let lookback := Z.to_nat (sc_lookback_candles config) in
  recent ← slice_back candles (lookback + 1) 0;
  latest ← expect (last recent);
  previous ← index_back recent 2;
  range_window ← slice_back recent lookback 0;
  let range := calculate_range_metrics range_window in
  let min_width := min_range_width_pct config in
  let max_width := max_range_width_pct config in
  let lower_band := lower_band_pct config in
  let width := dshow (rm_range_width_pct range) in
  let position := dshow (rm_range_position_pct range) in
  let width_above_min := (rm_range_width_pct range >=? min_width)%dec in
  let width_below_max := (rm_range_width_pct range <=? max_width)%dec in
  let near_lower_band := (rm_range_position_pct range <=? lower_band)%dec in
  let reversal_confirmed := (c_close latest >? c_close previous)%dec
                            || (c_close latest >? c_open latest)%dec in
  let falling_knife_avoided := (c_low latest >=? c_low previous)%dec in
  let reversal_passed := reversal_confirmed && falling_knife_avoided in
  Ok (push (noted "range_lookback_candles_required" true
        ("Range reversion uses " +:+ show_int (Z.of_nat lookback)
           +:+ " closed candles for range bounds.")
        (Some (show_int (Z.of_nat lookback))) (Some (show_int (sc_lookback_candles config))))
   (push (noted "range_high" true "Highest high over the range lookback."
        (Some (dshow (rm_range_high range))) None)
   (push (noted "range_low" true "Lowest low over the range lookback."
        (Some (dshow (rm_range_low range))) None)
   (push (tested "range_width_above_minimum" width_above_min
        ("Range width is " +:+ width +:+ "%.") (Some width) (Some (">= " +:+ dshow min_width)))
   (if negb width_above_min then
      stop (no_signal_outcome StrategyNoSignalReason.RangeTooNarrow
        ("Range reversion did not trigger because range width " +:+ width +:+ "% is below "
           +:+ dshow min_width +:+ "%."))
    else
    push (tested "range_width_below_maximum" width_below_max
        ("Range width is " +:+ width +:+ "%.") (Some width) (Some ("<= " +:+ dshow max_width)))
    (if negb width_below_max then
       stop (no_signal_outcome StrategyNoSignalReason.RangeTooWide
         ("Range reversion did not trigger because range width " +:+ width +:+ "% is above "
            +:+ dshow max_width +:+ "%."))
     else
     push (tested "range_position_near_lower_band" near_lower_band
         ("Latest close " +:+ dshow (c_close latest) +:+ " is at " +:+ position
            +:+ "% of the range.") (Some position) (Some ("<= " +:+ dshow lower_band)))
     (if negb near_lower_band then
        stop (no_signal_outcome StrategyNoSignalReason.NotNearLowerBand
          ("Range reversion did not trigger because range position " +:+ position
             +:+ "% is above lower band " +:+ dshow lower_band +:+ "%."))
      else
      push (noted "latest_close" true "Latest closed candle close."
          (Some (dshow (c_close latest))) None)
      (push (noted "previous_close" true "Previous closed candle close."
          (Some (dshow (c_close previous))) None)
      (push (tested "reversal_confirmation" reversal_passed
          "Requires close uptick or green candle and latest low not below previous low."
          (Some ("close>" +:+ dshow (c_close previous) +:+ ": "
             +:+ show_bool (c_close latest >? c_close previous)%dec +:+ ", close>open: "
             +:+ show_bool (c_close latest >? c_open latest)%dec +:+ ", low>="
             +:+ dshow (c_low previous) +:+ ": "
             +:+ show_bool (c_low latest >=? c_low previous)%dec))
          (Some "reversal confirmation and no lower low"))
      (if negb reversal_passed then
         stop (no_signal_outcome StrategyNoSignalReason.NoReversalConfirmation
           "Range reversion did not trigger because reversal confirmation failed.")
       else
       push (noted "final_decision" true "Range reversion conditions passed."
           (Some "WOULD_SIGNAL") (Some "WOULD_SIGNAL"))
       (stop (confidence_outcome context latest SignalReason.RangeReversion (dnew 66 2))))))))))))).

Definition diagnose_trend_pullback_continuation (context : StrategyEvaluationContext)
    (candles : list Candle) : result diagnosis :=
  let config := cx_config context in
  match validate_trend_pullback_config config with
  | Some message =>
    Ok (push (invalid_check message "valid trend pullback continuation config")
          (stop (invalid_config_outcome message)))
  | None =>
  recent ← slice_back candles (Z.to_nat (required_candle_count config)) 0;
  latest ← expect (last recent);
  metrics ← calculate_trend_pullback_metrics config recent;
  let min_depth := min_pullback_depth_pct config in
  let max_depth := max_pullback_depth_pct config in
  let fail reason label := stop (pullback_no_signal_outcome reason label metrics) in
  Ok (push (noted "recent_high" (tp_recent_high metrics >? ZERO)%dec
        "Recent high over the configured pullback lookback."
        (Some (dshow (tp_recent_high metrics))) (Some "> 0"))
   (push (noted "pullback_sma" (tp_pullback_sma metrics >? ZERO)%dec
        "SMA over the configured pullback SMA lookback."
        (Some (dshow (tp_pullback_sma metrics))) (Some "> 0"))
   (push (tested "trend_return_pct" (tp_trend_return_pct metrics >=? min_trend_return_pct config)%dec
        "Trend return over the configured lookback."
        (Some (dshow (tp_trend_return_pct metrics)))
        (Some (">= " +:+ dshow (min_trend_return_pct config))))
   (push (tested "trend_slope_pct" (tp_trend_slope_pct metrics >=? min_trend_slope_pct config)%dec
        "Trend slope proxy uses net trend return over lookback."
        (Some (dshow (tp_trend_slope_pct metrics)))
        (Some (">= " +:+ dshow (min_trend_slope_pct config))))
   (if (tp_trend_return_pct metrics <? min_trend_return_pct config)%dec
       || (tp_trend_slope_pct metrics <? min_trend_slope_pct config)%dec
    then fail StrategyNoSignalReason.TrendNotConfirmed "TREND_NOT_CONFIRMED"
    else
    push (tested "pullback_depth_pct"
        ((tp_pullback_depth_pct metrics >=? min_depth)%dec
         && (tp_pullback_depth_pct metrics <=? max_depth)%dec)
        "Pullback depth from recent high to latest low/close."
        (Some (dshow (tp_pullback_depth_pct metrics)))
        (Some (dshow min_depth +:+ "..=" +:+ dshow max_depth)))
    (if (tp_pullback_depth_pct metrics <? min_depth)%dec
     then fail StrategyNoSignalReason.PullbackTooShallow "PULLBACK_TOO_SHALLOW"
     else if (tp_pullback_depth_pct metrics >? max_depth)%dec
     then fail StrategyNoSignalReason.PullbackTooDeep "PULLBACK_TOO_DEEP"
     else
     push (tested "close_vs_sma_pct"
         ((tp_close_vs_sma_pct metrics >=? ZERO)%dec
          && (tp_close_vs_sma_pct metrics <=? max_close_above_sma_pct config)%dec)
         "Latest close distance from pullback SMA."
         (Some (dshow (tp_close_vs_sma_pct metrics)))
         (Some ("0..=" +:+ dshow (max_close_above_sma_pct config))))
     (if (tp_close_vs_sma_pct metrics <? ZERO)%dec
      then fail StrategyNoSignalReason.CloseBelowSma "CLOSE_BELOW_SMA"
      else if (tp_close_vs_sma_pct metrics >? max_close_above_sma_pct config)%dec
      then fail StrategyNoSignalReason.CloseTooExtendedAboveSma "CLOSE_TOO_EXTENDED_ABOVE_SMA"
      else
      push (tested "reclaim_confirmed" (tp_reclaim_confirmed metrics)
          "Latest candle must close above previous close and above open."
          (Some (show_bool (tp_reclaim_confirmed metrics))) (Some "true"))
      (if negb (tp_reclaim_confirmed metrics)
       then fail StrategyNoSignalReason.ReclaimNotConfirmed "RECLAIM_NOT_CONFIRMED"
       else
       push (tested "volume_ratio" (tp_volume_ratio metrics >=? min_volume_ratio config)%dec
           "Latest volume versus prior pullback-window average volume."
           (Some (dshow (tp_volume_ratio metrics)))
           (Some (">= " +:+ dshow (min_volume_ratio config))))
       (if (tp_volume_ratio metrics <? min_volume_ratio config)%dec
        then fail StrategyNoSignalReason.VolumeNotConfirmed "VOLUME_NOT_CONFIRMED"
        else
        push (tested "choppiness" (tp_choppiness metrics <=? max_choppiness config)%dec
            "Choppiness proxy must stay below configured maximum."
            (Some (dshow (tp_choppiness metrics))) (Some ("<= " +:+ dshow (max_choppiness config))))
        (if (tp_choppiness metrics >? max_choppiness config)%dec
         then fail StrategyNoSignalReason.TooChoppy "TOO_CHOPPY"
         else
         push (noted "final_decision" true "Trend pullback continuation conditions passed."
             (Some "WOULD_SIGNAL") (Some "WOULD_SIGNAL"))
         (stop (confidence_outcome context latest SignalReason.TrendPullbackContinuation
            (dnew 69 2)))))))))))))
  end.

Definition diagnose_failed_breakdown_reclaim (context : StrategyEvaluationContext)
    (candles : list Candle) : result diagnosis :=
  let config := cx_config context in
  match validate_failed_breakdown_reclaim_config config with
  | Some message =>
    Ok (push (invalid_check message "valid failed breakdown reclaim config")
          (stop (invalid_config_outcome message)))
  | None =>
  recent ← slice_back candles (Z.to_nat (required_candle_count config)) 0;
  latest ← expect (last recent);
  metrics ← calculate_failed_breakdown_reclaim_metrics config recent;
  let min_breakdown := min_breakdown_pct config in
  let min_reclaim_close := min_reclaim_close_pct config in
  let min_lower_wick := min_lower_wick_pct config in
  let min_volume := min_volume_ratio_failed_reclaim config in
  let low := dshow (fb_lookback_low metrics) in
  let breakdown_detected := (c_low latest <? fb_lookback_low metrics)%dec in
  let reclaim_confirmed := (c_close latest >=? fb_lookback_low metrics)%dec
                           && (fb_reclaim_close_pct metrics >=? min_reclaim_close)%dec in
  let volume_confirmed := (min_volume =? ZERO)%dec
                          || (fb_volume_ratio metrics >=? min_volume)%dec in
  let fail reason label := stop (failed_reclaim_no_signal_outcome reason label metrics) in
  Ok (push (noted "lookback_low" (fb_lookback_low metrics >? ZERO)%dec
        "Lowest low over the previous lookback candles, excluding the latest candle."
        (Some low) (Some "> 0"))
   (push (noted "latest_low" (c_low latest >? ZERO)%dec "Latest closed candle low."
        (Some (dshow (fb_latest_low metrics))) (Some "> 0"))
   (push (noted "latest_close" (c_close latest >? ZERO)%dec "Latest closed candle close."
        (Some (dshow (fb_latest_close metrics))) (Some "> 0"))
   (push (tested "breakdown_detected" breakdown_detected
        "Latest low must undercut the previous lookback low."
        (Some ("latest_low=" +:+ dshow (c_low latest) +:+ ", lookback_low=" +:+ low))
        (Some "latest_low < lookback_low"))
   (if negb breakdown_detected then fail StrategyNoSignalReason.NoBreakdown "NO_BREAKDOWN"
    else
    push (tested "breakdown_pct" (fb_breakdown_pct metrics >=? min_breakdown)%dec
        "Breakdown depth below the lookback low."
        (Some (dshow (fb_breakdown_pct metrics))) (Some (">= " +:+ dshow min_breakdown)))
    (if (fb_breakdown_pct metrics <? min_breakdown)%dec
     then fail StrategyNoSignalReason.BreakdownTooSmall "BREAKDOWN_TOO_SMALL"
     else
     push (tested "reclaim_confirmed" reclaim_confirmed
         "Latest close must reclaim the lookback low by the configured threshold."
         (Some ("latest_close=" +:+ dshow (c_close latest) +:+ ", lookback_low=" +:+ low
            +:+ ", reclaim_close_pct=" +:+ dshow (fb_reclaim_close_pct metrics)))
         (Some ("latest_close >= lookback_low and reclaim_close_pct >= "
            +:+ dshow min_reclaim_close)))
     (if negb reclaim_confirmed
      then fail StrategyNoSignalReason.ReclaimNotConfirmed "RECLAIM_NOT_CONFIRMED"
      else
      push (tested "lower_wick_pct" (fb_lower_wick_pct metrics >=? min_lower_wick)%dec
          "Lower wick size as a percent of open."
          (Some (dshow (fb_lower_wick_pct metrics))) (Some (">= " +:+ dshow min_lower_wick)))
      (if (fb_lower_wick_pct metrics <? min_lower_wick)%dec
       then fail StrategyNoSignalReason.LowerWickTooSmall "LOWER_WICK_TOO_SMALL"
       else
       push (tested "volume_ratio" volume_confirmed
           "Latest volume versus previous lookback average volume."
           (Some ("volume_ratio=" +:+ dshow (fb_volume_ratio metrics) +:+ ", average_volume="
              +:+ dshow (fb_average_volume metrics)))
           (if (min_volume =? ZERO)%dec then Some "disabled"
            else Some (">= " +:+ dshow min_volume)))
       (if negb volume_confirmed
        then fail StrategyNoSignalReason.VolumeNotConfirmed "VOLUME_NOT_CONFIRMED"
        else
        push (noted "final_decision" true "Failed breakdown reclaim conditions passed."
            (Some "WOULD_SIGNAL") (Some "WOULD_SIGNAL"))
        (stop (confidence_outcome context latest SignalReason.FailedBreakdownReclaim
           (dnew 70 2))))))))))))
  end.

(** ** [diagnose] *)

Definition diagnose_strategy (context : StrategyEvaluationContext) (candles : list Candle)
    : result diagnosis :=
  match cx_strategy_id context with
  | StrategyId.MomentumV1 => diagnose_momentum context candles
  | StrategyId.VolatilityBreakoutV1 => diagnose_breakout context candles
  | StrategyId.TrendFilterMomentumV1 => diagnose_trend_filter_momentum context candles
  | StrategyId.TrendFilterMomentumV2 => diagnose_trend_filter_momentum_v2 context candles
  | StrategyId.VolatilityBreakoutV2 => diagnose_volume_breakout context candles
  | StrategyId.VolatilityCompressionBreakoutV1 =>
    diagnose_volatility_compression_breakout context candles
  | StrategyId.RangeReversionV1 => diagnose_range_reversion context candles
  | StrategyId.TrendPullbackContinuationV1 => diagnose_trend_pullback_continuation context candles
  | StrategyId.FailedBreakdownReclaimV1 => diagnose_failed_breakdown_reclaim context candles
  end.

Context {CH : Chrono}.

(** [age_ms] is [evaluated_at.signed_duration_since(close_time).num_milliseconds()]. *)
Definition data_health (context : StrategyEvaluationContext) (candles : list Candle)
    : StrategyDataHealth :=
  let config := cx_config context in
  let latest_closed_candle_time := option_map c_close_time (last candles) in
  let latest_closed_candle_age_ms :=
    option_map (fun time => num_milliseconds (cx_evaluated_at context - time))
      latest_closed_candle_time in
  {| dh_required_lookback_candles := sc_lookback_candles config;
     dh_required_closed_candles := required_candle_count config;
     dh_available_closed_candles := Z.of_nat (length candles);
     dh_latest_closed_candle_time := latest_closed_candle_time;
     dh_latest_closed_candle_age_ms := latest_closed_candle_age_ms;
     dh_stale := match latest_closed_candle_age_ms with
                 | Some age_ms => age_ms >? sc_max_signal_age_ms config
                 | None => false
                 end;
     dh_latest_closes := rev (map (fun candle => to_rfc3339 (c_close_time candle) +:+ " close="
       +:+ dshow (c_close candle)) (firstn 20 (rev candles))) |}.

(** The three checks made for every strategy. *)
Definition health_checks (config : StrategyConfig) (health : StrategyDataHealth)
    : list StrategyDiagnosticCheck :=
  let available := show_int (dh_available_closed_candles health) in
  let required := show_int (dh_required_closed_candles health) in
  let max_age := show_int (sc_max_signal_age_ms config) in
  [tested "strategy_enabled" (sc_enabled config)
     (if sc_enabled config then "Strategy is enabled."
      else "Strategy is disabled in configuration.")
     (Some (show_bool (sc_enabled config))) (Some "true");
   tested "closed_candle_coverage"
     (dh_required_closed_candles health <=? dh_available_closed_candles health)
     ("Found " +:+ available +:+ " closed candles; strategy needs " +:+ required +:+ ".")
     (Some available) (Some (">= " +:+ required));
   tested "closed_candle_freshness" (negb (dh_stale health))
     (match dh_latest_closed_candle_age_ms health with
      | Some age_ms => "Latest closed candle age is " +:+ show_int age_ms
                         +:+ " ms; max signal age is " +:+ max_age +:+ " ms."
      | None => "No closed candle is available to evaluate freshness."
      end)
     (option_map show_int (dh_latest_closed_candle_age_ms health)) (Some ("<= " +:+ max_age))].

Definition diagnose (context : StrategyEvaluationContext) : result StrategyDiagnosticsResult :=
  let config := cx_config context in
  _ ← StrategyConfig_validate config;
  if negb (bool_decide (sc_strategy_id config = cx_strategy_id context)) then
    Err (CoreError.UnsupportedStrategyId
      ("strategy config does not match evaluation target: "
         +:+ StrategyId.as_str (sc_strategy_id config) +:+ " != "
         +:+ StrategyId.as_str (cx_strategy_id context)))
  else
  let candles := normalize_closed_candles (cx_candles context) in
  let health := data_health context candles in
  let available := dh_available_closed_candles health in
  let required := dh_required_closed_candles health in
  final_result ←
    (if negb (sc_enabled config) then
       Ok (stop (declined StrategyDiagnosticsDecision.StrategyDisabled
         StrategyNoSignalReason.StrategyDisabled
         "Strategy is disabled, so it would not emit a signal."))
     else if available <? required then
       Ok (stop (declined StrategyDiagnosticsDecision.InsufficientData
         (if bool_decide (cx_strategy_id context = StrategyId.RangeReversionV1)
          then StrategyNoSignalReason.InsufficientData
          else StrategyNoSignalReason.InsufficientCandles)
         ("Only " +:+ show_int available +:+ " closed candles are available, below the required "
            +:+ show_int required +:+ " candles.")))
     else if dh_stale health then
       Ok (stop (declined StrategyDiagnosticsDecision.StaleData StrategyNoSignalReason.StaleData
         (match dh_latest_closed_candle_age_ms health with
          | Some age_ms => "Latest closed candle is stale at " +:+ show_int age_ms
              +:+ " ms old; max signal age is " +:+ show_int (sc_max_signal_age_ms config) +:+ " ms."
          | None => "No closed candle is available, so data is stale."
          end)))
     else diagnose_strategy context candles);
  let '(checks, outcome) := final_result in
  Ok {| dg_strategy_id := StrategyId.as_str (cx_strategy_id context);
        dg_symbol := symbol_text (cx_symbol context);
        dg_timeframe := CandleInterval.as_str (sc_timeframe config);
        dg_strategy_enabled := sc_enabled config;
        dg_config_valid := true;
        dg_validation_issues := [];
        dg_data_health := health;
        dg_condition_checks := health_checks config health ++ checks;
        dg_final_decision := do_final_decision outcome;
        dg_no_signal_reason := do_no_signal_reason outcome;
        dg_summary := do_summary outcome;
        dg_source_candle_open_time := do_source_candle_open_time outcome;
        dg_confidence := do_confidence outcome;
        dg_correlation_id := cx_correlation_id context;
        dg_evaluated_at := cx_evaluated_at context |}.
End Diagnose.

(** ** Agreement with [evaluate] *)

Section Agreement.
Context {DI : Decimal} {DL : DecimalLaws DI} (new_v4 : Z).
Implicit Types (cx : StrategyEvaluationContext) (cs : list Candle).

(** Both decline, or both signal on the same candle with the same confidence. *)
Inductive agrees cx cs : result StrategyEvaluationResult -> result diagnosis -> Prop :=
  | agrees_declined reason d :
      do_final_decision (snd d) <> StrategyDiagnosticsDecision.WouldSignal ->
      agrees cx cs (no_signal cx reason) (Ok d)
  | agrees_signal latest reason confidence d :
      last cs = Some latest ->
      do_final_decision (snd d) = StrategyDiagnosticsDecision.WouldSignal ->
      do_source_candle_open_time (snd d) = Some (c_open_time latest) ->
      do_confidence (snd d) = Some confidence ->
      agrees cx cs (Ok (signal_result new_v4 cx latest reason confidence)) (Ok d).

Lemma agrees_push cx cs m c d : agrees cx cs m (Ok d) -> agrees cx cs m (Ok (push c d)).
Proof. inversion 1; subst; econstructor; eauto. Qed.

Lemma agrees_stop cx cs reason decision why summary :
  decision <> StrategyDiagnosticsDecision.WouldSignal ->
  agrees cx cs (no_signal cx reason) (Ok (stop (declined decision why summary))).
Proof. intros H. by constructor. Qed.

Lemma agrees_outcome cx cs latest reason reason' summary summary' n : 0 <= n <= 100 ->
  last cs = Some latest ->
  agrees cx cs (generated_result new_v4 cx latest reason (dnew n 2))
    (Ok (if negb (confidence_passed cx (dnew n 2))
         then stop (declined StrategyDiagnosticsDecision.NoSignal reason' summary)
         else stop (would_signal (Some (c_open_time latest)) (dnew n 2) summary'))).
Proof.
  intros Hn Hl. rewrite generated_result_ok by done.
  change (confidence_passed cx (dnew n 2)) with (passes_floor cx (dnew n 2)).
  destruct (passes_floor _ _); cbn [negb]; by econstructor.
Qed.

Lemma agrees_confidence cx cs latest reason n : 0 <= n <= 100 -> last cs = Some latest ->
  agrees cx cs (generated_result new_v4 cx latest reason (dnew n 2))
    (Ok (stop (confidence_outcome cx latest reason (dnew n 2)))).
Proof.
  intros Hn Hl. unfold confidence_outcome.
  pose proof (fun r s s' => agrees_outcome cx cs latest reason r s s' n Hn Hl) as H.
  specialize (H StrategyNoSignalReason.ConfidenceBelowFloor).
  destruct (negb _); apply H; exact "".
Qed.

(** Walk down the tests of a diagnosis: each one decides the same test of the
    evaluation. *)
#[local] Ltac decide_head c :=
  lazymatch c with
  | negb ?b => decide_head b
  | ?a && ?b => decide_head a
  | ?a || ?b => decide_head a
  | ?b => destruct b eqn:?
  end.
#[local] Ltac agree :=
  repeat first
    [ apply agrees_push
    | progress cbn [negb orb andb]
    | progress rewrite ?orb_true_r
    | lazymatch goal with
      | |- agrees _ _ (no_signal _ _) (Ok (stop (declined _ _ _))) => apply agrees_stop; discriminate
      | |- agrees _ _ (no_signal _ _) (Ok (stop _)) => constructor; discriminate
      | |- agrees _ _ _ (Ok (if negb (confidence_passed _ _) then _ else _)) =>
        apply agrees_outcome; [lia|done]
      | |- agrees _ _ _ (Ok (stop (confidence_outcome _ _ _ _))) =>
        apply agrees_confidence; [lia|done]
      | |- agrees _ _ _ (Ok (if ?c then _ else _)) => decide_head c
      end ].
#[local] Ltac read_ok := cbn [mbind res_bind expect].
#[local] Ltac have_candles H :=
  match goal with |- context [(?a <? ?b)%nat] => destruct (Nat.ltb_spec a b) as [H|H]; [lia|] end.

(** The two places where the evaluation and the diagnosis write a test differently. *)
Lemma compression_width_within config w m :
  calculate_compression_breakout_metrics config w = Ok m ->
  cb_range_width_within_bounds m
    = (cb_range_width_pct m >=? min_range_width_pct config)%dec
      && (cb_range_width_pct m <=? max_range_width_pct config)%dec.
Proof. unfold calculate_compression_breakout_metrics. intros H. res_inv. by subst. Qed.

Lemma reclaim_volume_test config ratio :
  validate_failed_breakdown_reclaim_config config = None ->
  let min_volume := min_volume_ratio_failed_reclaim config in
  (min_volume =? ZERO)%dec || (ratio >=? min_volume)%dec
    = negb ((min_volume >? ZERO)%dec && (ratio <? min_volume)%dec).
Proof.
  unfold validate_failed_breakdown_reclaim_config. intros H. cbv zeta.
  destruct (_ <=? _) in H; [done|]. destruct (_ || _) eqn:E in H; [done|].
  rewrite !orb_false_iff in E. destruct E as [_ E]. unfold dltb in *.
  apply negb_false_iff in E. apply dleb_le in E. rewrite negb_andb, !negb_involutive. f_equal.
  destruct (deqb _ _) eqn:E1, (dleb _ ZERO) eqn:E2; dec_to_Q; try done; lra.
Qed.

Lemma agrees_momentum cx cs :
  1 <= sc_lookback_candles (cx_config cx) -> sc_strategy_id (cx_config cx) = StrategyId.MomentumV1 ->
  required_candle_count (cx_config cx) <= Z.of_nat (length cs) ->
  agrees cx cs (evaluate_momentum new_v4 cx cs) (diagnose_momentum cx cs).
Proof.
  unfold required_candle_count. intros Hl Hid Hr. rewrite Hid in Hr.
  unfold evaluate_momentum, diagnose_momentum, required_candle_count. rewrite Hid. cbv zeta.
  replace (Z.to_nat (Z.max (sc_lookback_candles (cx_config cx) + 1) 2))
    with (Z.to_nat (sc_lookback_candles (cx_config cx)) + 1)%nat by lia.
  have_candles H. destruct (recent_ok cs (Z.to_nat (sc_lookback_candles (cx_config cx)) + 1))
    as (r & l & -> & Hlen & Hlr & Hlast); [lia|]. read_ok. rewrite Hlr. read_ok. cbn [option_map].
  agree.
Qed.

Lemma agrees_breakout cx cs :
  1 <= sc_lookback_candles (cx_config cx) ->
  sc_strategy_id (cx_config cx) = StrategyId.VolatilityBreakoutV1 ->
  required_candle_count (cx_config cx) <= Z.of_nat (length cs) ->
  agrees cx cs (evaluate_breakout new_v4 cx cs) (diagnose_breakout cx cs).
Proof.
  unfold required_candle_count. intros Hl Hid Hr. rewrite Hid in Hr.
  unfold evaluate_breakout, diagnose_breakout, required_candle_count. rewrite Hid. cbv zeta.
  replace (Z.to_nat (Z.max (sc_lookback_candles (cx_config cx) + 1) 2))
    with (Z.to_nat (sc_lookback_candles (cx_config cx)) + 1)%nat by lia.
  have_candles H. destruct (recent_ok cs (Z.to_nat (sc_lookback_candles (cx_config cx)) + 1))
    as (r & l & -> & Hlen & Hlr & Hlast); [lia|]. read_ok. rewrite Hlr. read_ok.
  destruct (previous_high_ok r) as (w & h & -> & Hh & _); [lia|]. read_ok. rewrite Hh. read_ok.
  unfold dltb. agree.
Qed.

Lemma agrees_trend_filter cx cs :
  lookbacks_u32 (cx_config cx) ->
  sc_strategy_id (cx_config cx) = StrategyId.TrendFilterMomentumV1 ->
  required_candle_count (cx_config cx) <= Z.of_nat (length cs) ->
  agrees cx cs (evaluate_trend_filter_momentum new_v4 cx cs) (diagnose_trend_filter_momentum cx cs).
Proof.
  intros (H1 & H2 & H3 & _)%lookbacks_nonneg Hid Hr.
  unfold evaluate_trend_filter_momentum, diagnose_trend_filter_momentum. cbv zeta.
  unfold required_candle_count in *. rewrite Hid in *. have_candles H.
  destruct (last_nonempty cs) as [l Hl]; [lia|]. rewrite Hl. read_ok.
  destruct (index_back_some (E := CoreError.t) cs 2) as [p ->]; [lia|]. read_ok.
  rewrite slice_back_le by lia. read_ok.
  destruct (index_back_some (E := CoreError.t) cs
    (Z.to_nat (momentum_lookback (cx_config cx)) + 1)) as [m ->]; [lia|]. read_ok.
  unfold dltb. agree.
Qed.

Lemma agrees_trend_filter_v2 cx cs :
  lookbacks_u32 (cx_config cx) ->
  sc_strategy_id (cx_config cx) = StrategyId.TrendFilterMomentumV2 ->
  required_candle_count (cx_config cx) <= Z.of_nat (length cs) ->
  agrees cx cs (evaluate_trend_filter_momentum_v2 new_v4 cx cs)
    (diagnose_trend_filter_momentum_v2 cx cs).
Proof.
  intros (H1 & H2 & H3 & _)%lookbacks_nonneg Hid Hr.
  unfold evaluate_trend_filter_momentum_v2, diagnose_trend_filter_momentum_v2. cbv zeta.
  unfold required_candle_count in *. rewrite Hid in *. destruct (dltb _ _); [agree|].
  have_candles H. destruct (last_nonempty cs) as [l Hl]; [lia|]. rewrite Hl. read_ok.
  rewrite slice_back_le by lia. read_ok.
  destruct (index_back_some (E := CoreError.t) cs
    (Z.to_nat (momentum_lookback (cx_config cx)) + 1)) as [m ->]; [lia|]. read_ok.
  unfold dltb. agree.
Qed.

Lemma agrees_volume_breakout cx cs :
  1 <= breakout_lookback (cx_config cx) ->
  sc_strategy_id (cx_config cx) = StrategyId.VolatilityBreakoutV2 ->
  required_candle_count (cx_config cx) <= Z.of_nat (length cs) ->
  agrees cx cs (evaluate_volume_breakout new_v4 cx cs) (diagnose_volume_breakout cx cs).
Proof.
  unfold required_candle_count. intros Hb Hid Hr. rewrite Hid in Hr.
  unfold evaluate_volume_breakout, diagnose_volume_breakout. cbv zeta.
  have_candles H. destruct (recent_ok cs (Z.to_nat (breakout_lookback (cx_config cx)) + 1))
    as (r & l & -> & Hlen & Hlr & Hlast); [lia|]. read_ok. rewrite Hlr. read_ok.
  destruct (previous_high_ok r) as (w & h & -> & Hh & _); [lia|]. read_ok. rewrite Hh. read_ok.
  unfold dltb. agree.
Qed.

Lemma agrees_range_reversion cx cs :
  1 <= sc_lookback_candles (cx_config cx) ->
  sc_strategy_id (cx_config cx) = StrategyId.RangeReversionV1 ->
  required_candle_count (cx_config cx) <= Z.of_nat (length cs) ->
  agrees cx cs (evaluate_range_reversion new_v4 cx cs) (diagnose_range_reversion cx cs).
Proof.
  unfold required_candle_count. intros Hl Hid Hr. rewrite Hid in Hr.
  unfold evaluate_range_reversion, diagnose_range_reversion. cbv zeta.
  have_candles H. destruct (recent_ok cs (Z.to_nat (sc_lookback_candles (cx_config cx)) + 1))
    as (r & l & -> & Hlen & Hlr & Hlast); [lia|]. read_ok. rewrite Hlr. read_ok.
  destruct (index_back_some (E := CoreError.t) r 2) as [p ->]; [lia|]. read_ok.
  rewrite slice_back_le by lia. read_ok.
  unfold dltb. agree.
Qed.

Lemma agrees_compression cx cs :
  lookbacks_u32 (cx_config cx) ->
  sc_strategy_id (cx_config cx) = StrategyId.VolatilityCompressionBreakoutV1 ->
  required_candle_count (cx_config cx) <= Z.of_nat (length cs) ->
  agrees cx cs (evaluate_volatility_compression_breakout new_v4 cx cs)
    (diagnose_volatility_compression_breakout cx cs).
Proof.
  intros (_ & _ & _ & H4 & H5 & _)%lookbacks_nonneg Hid Hr.
  unfold evaluate_volatility_compression_breakout, diagnose_volatility_compression_breakout.
  destruct (validate_compression_breakout_config _); [|rewrite bool_decide_eq_false_2 by (by intros [? ?])].
  { rewrite bool_decide_eq_true_2 by done. agree. }
  assert (2 <= required_candle_count (cx_config cx)) as H2
    by (unfold required_candle_count; rewrite Hid; cbv zeta; lia).
  cbv zeta. have_candles H.
  destruct (recent_ok cs (Z.to_nat (required_candle_count (cx_config cx))))
    as (r & l & -> & Hlen & Hlr & Hlast); [lia|]. read_ok. rewrite Hlr. read_ok.
  destruct (compression_metrics_ok (cx_config cx) r) as [m Hm]; [lia|].
  rewrite Hm. read_ok. apply compression_width_within in Hm as ->. unfold dltb. agree.
Qed.

Lemma agrees_pullback cx cs :
  lookbacks_u32 (cx_config cx) ->
  sc_strategy_id (cx_config cx) = StrategyId.TrendPullbackContinuationV1 ->
  required_candle_count (cx_config cx) <= Z.of_nat (length cs) ->
  agrees cx cs (evaluate_trend_pullback_continuation new_v4 cx cs)
    (diagnose_trend_pullback_continuation cx cs).
Proof.
  intros (_ & H2 & _)%lookbacks_nonneg Hid Hr.
  unfold evaluate_trend_pullback_continuation, diagnose_trend_pullback_continuation.
  destruct (validate_trend_pullback_config _) eqn:Hv;
    [|rewrite bool_decide_eq_false_2 by (by intros [? ?])].
  { rewrite bool_decide_eq_true_2 by done. agree. }
  apply pullback_config_bounds in Hv.
  pose proof (Z.le_refl (required_candle_count (cx_config cx))) as Hq.
  unfold required_candle_count at 1 in Hq. rewrite Hid in Hq. cbv zeta in *.
  have_candles H. destruct (recent_ok cs (Z.to_nat (required_candle_count (cx_config cx))))
    as (r & l & -> & Hlen & Hlr & Hlast); [lia|]. read_ok. rewrite Hlr. read_ok.
  destruct (pullback_metrics_ok (cx_config cx) r) as [m ->]; [lia..|]. read_ok.
  unfold dltb. agree.
Qed.

Lemma agrees_reclaim cx cs :
  lookbacks_u32 (cx_config cx) ->
  sc_strategy_id (cx_config cx) = StrategyId.FailedBreakdownReclaimV1 ->
  required_candle_count (cx_config cx) <= Z.of_nat (length cs) ->
  agrees cx cs (evaluate_failed_breakdown_reclaim new_v4 cx cs)
    (diagnose_failed_breakdown_reclaim cx cs).
Proof.
  intros (H1 & _)%lookbacks_nonneg Hid Hr.
  unfold evaluate_failed_breakdown_reclaim, diagnose_failed_breakdown_reclaim.
  destruct (validate_failed_breakdown_reclaim_config _) eqn:Hv;
    [|rewrite bool_decide_eq_false_2 by (by intros [? ?])].
  { rewrite bool_decide_eq_true_2 by done. agree. }
  pose proof (Z.le_refl (required_candle_count (cx_config cx))) as Hq.
  unfold required_candle_count at 1 in Hq. rewrite Hid in Hq. cbv zeta in *.
  have_candles H. destruct (recent_ok cs (Z.to_nat (required_candle_count (cx_config cx))))
    as (r & l & -> & Hlen & Hlr & Hlast); [lia|]. read_ok. rewrite Hlr. read_ok.
  destruct (reclaim_metrics_ok (cx_config cx) r) as [m ->]; [lia..|]. read_ok.
  rewrite (reclaim_volume_test _ _ Hv). unfold dltb. agree.
Qed.

Lemma agrees_strategy cx cs :
  lookbacks_u32 (cx_config cx) -> sc_strategy_id (cx_config cx) = cx_strategy_id cx ->
  1 <= sc_lookback_candles (cx_config cx) -> 1 <= breakout_lookback (cx_config cx) ->
  required_candle_count (cx_config cx) <= Z.of_nat (length cs) ->
  agrees cx cs (evaluate_strategy new_v4 cx cs) (diagnose_strategy cx cs).
Proof.
  intros Hu Hid Hl Hb Hr. unfold evaluate_strategy, diagnose_strategy. rewrite <- Hid.
  destruct (sc_strategy_id (cx_config cx)) eqn:E.
  - by apply agrees_momentum.
  - by apply agrees_breakout.
  - by apply agrees_trend_filter.
  - by apply agrees_trend_filter_v2.
  - by apply agrees_volume_breakout.
  - by apply agrees_compression.
  - by apply agrees_range_reversion.
  - by apply agrees_pullback.
  - by apply agrees_reclaim.
Qed.

(** A history that is too short never signals. *)
Lemma insufficient_declines cx cs :
  sc_strategy_id (cx_config cx) = cx_strategy_id cx ->
  1 <= sc_lookback_candles (cx_config cx) -> 1 <= breakout_lookback (cx_config cx) ->
  Z.of_nat (length cs) < required_candle_count (cx_config cx) ->
  exists reason, evaluate_strategy new_v4 cx cs = no_signal cx reason.
Proof.
  intros Hid Hl Hb Hr.
  assert (exists b reason, evaluate_strategy new_v4 cx cs =
    if b : bool then no_signal cx reason else no_signal cx SignalReason.InsufficientHistory)
    as (b & reason & ->); [|destruct b; eauto].
  unfold evaluate_strategy, evaluate_momentum, evaluate_breakout, evaluate_trend_filter_momentum,
    evaluate_trend_filter_momentum_v2, evaluate_volume_breakout,
    evaluate_volatility_compression_breakout, evaluate_range_reversion,
    evaluate_trend_pullback_continuation, evaluate_failed_breakdown_reclaim. rewrite <- Hid.
  unfold required_candle_count in *. destruct (sc_strategy_id (cx_config cx)); cbv zeta in *;
    match goal with |- context [(length cs <? ?n)%nat] =>
      destruct (Nat.ltb_spec (length cs) n) as [_|H]; [|exfalso; lia] end;
    first [ by exists false, SignalReason.ConditionsNotMet
          | eexists _, SignalReason.ConditionsNotMet; reflexivity ].
Qed.

(** C20.  Diagnostics tell what an evaluation would do: with lookbacks of at least
    one, both always answer; the diagnosis is [WOULD_SIGNAL] exactly when the
    evaluation generates a signal and the latest closed candle is not older than
    the configured signal age, and then it names the signal's candle and
    confidence. *)
Theorem diagnose_agrees_with_evaluate {CH : Chrono} cx :
  lookbacks_u32 (cx_config cx) ->
  1 <= sc_lookback_candles (cx_config cx) -> 1 <= breakout_lookback (cx_config cx) ->
  StrategyConfig_validate (cx_config cx) = Ok tt ->
  sc_strategy_id (cx_config cx) = cx_strategy_id cx ->
  exists d r, diagnose cx = Ok d /\ evaluate new_v4 cx = Ok r /\
    (dg_final_decision d = StrategyDiagnosticsDecision.WouldSignal <->
     sr_generated r = true /\ dh_stale (dg_data_health d) = false) /\
    (dg_final_decision d = StrategyDiagnosticsDecision.WouldSignal ->
     exists s, sr_signal r = Some s /\
       dg_source_candle_open_time d = Some (sg_source_candle_open_time s) /\
       dg_confidence d = Some (confidence_value (sg_confidence s))).
Proof.
  intros Hu Hl Hb Hv Hid. unfold diagnose, evaluate. rewrite Hv.
  cbn [mbind res_bind]. rewrite bool_decide_eq_true_2 by done. cbn [negb].
  set (cs := normalize_closed_candles (cx_candles cx)). set (health := data_health cx cs).
  destruct (sc_enabled (cx_config cx)); cbn [negb mbind res_bind].
  2: { do 2 eexists. split; [reflexivity|]. split; [reflexivity|]. cbn. split; [|discriminate].
       split; [discriminate|by intros [? _]]. }
  change (dh_available_closed_candles health) with (Z.of_nat (length cs)).
  change (dh_required_closed_candles health) with (required_candle_count (cx_config cx)).
  destruct (Z.ltb_spec (Z.of_nat (length cs)) (required_candle_count (cx_config cx))) as [Hlt|Hge].
  { destruct (insufficient_declines cx cs Hid Hl Hb Hlt) as [reason ->]. cbn [mbind res_bind].
    do 2 eexists. split; [reflexivity|]. split; [reflexivity|]. cbn. split; [|discriminate].
    split; [discriminate|by intros [? _]]. }
  pose proof (agrees_strategy cx cs Hu Hid Hl Hb Hge) as Ha.
  destruct (dh_stale health) eqn:Hs; cbn [mbind res_bind].
  - destruct Ha as [reason d Hd|latest reason c d Hlast Hd Hsrc Hc]; (do 2 eexists;
      split; [reflexivity|]; split; [reflexivity|]; cbn -[health]; rewrite Hs;
      split; [|discriminate]; split; [discriminate|by intros [_ ?]]).
  - destruct Ha as [reason [checks o] Hd|latest reason c [checks o] Hlast Hd Hsrc Hc];
      cbn [mbind res_bind snd] in *; (do 2 eexists; split; [reflexivity|]; split; [reflexivity|];
      cbn [dg_final_decision dg_data_health dg_source_candle_open_time dg_confidence sr_generated
           sr_signal no_signal_result signal_result]; rewrite Hs).
    + split; [|done]. split; [done|by intros [? _]].
    + split; [by split|]. intros _. eexists. split; [reflexivity|]. by split.
Qed.
End Agreement.

(** ** The checks explain the decision *)

Section Explained.
Context {DI : Decimal}.
Implicit Types (cx : StrategyEvaluationContext) (cs : list Candle).

Definition clean (c : StrategyDiagnosticCheck) : bool :=
  match dc_severity c with StrategyDiagnosticSeverity.Info => true | _ => false end.

(** A signal has no warning among its checks; a refusal has one, or says that
    the confidence floor or the configured band is the reason. *)
Definition explained (checks : list StrategyDiagnosticCheck) (decision : Decision)
    (reason : option NoSignalReason) : Prop :=
  if bool_decide (decision = StrategyDiagnosticsDecision.WouldSignal)
  then forallb clean checks = true
  else forallb clean checks = false \/ reason = Some StrategyNoSignalReason.ConfidenceBelowFloor
       \/ reason = Some StrategyNoSignalReason.InvalidConfig.
Definition explains (d : diagnosis) : Prop :=
  explained (fst d) (do_final_decision (snd d)) (do_no_signal_reason (snd d)).

Lemma explains_push c d : clean c = true -> explains d -> explains (push c d).
Proof. unfold explains, explained. cbn. intros ->. done. Qed.

Lemma explains_failed c d : clean c = false ->
  do_final_decision (snd d) <> StrategyDiagnosticsDecision.WouldSignal -> explains (push c d).
Proof.
  unfold explains, explained. cbn. intros -> H. rewrite bool_decide_eq_false_2 by done. by left.
Qed.

Lemma explains_floor summary : explains (stop (declined StrategyDiagnosticsDecision.NoSignal
  StrategyNoSignalReason.ConfidenceBelowFloor summary)).
Proof. right. by left. Qed.

Lemma explains_confidence cx latest reason confidence :
  explains (stop (confidence_outcome cx latest reason confidence)).
Proof. unfold confidence_outcome. destruct (negb _); [apply explains_floor|done]. Qed.

(** A test followed by the refusal it leads to. *)
Lemma explains_gate name b message actual expected failed rest :
  do_final_decision (snd failed) <> StrategyDiagnosticsDecision.WouldSignal ->
  explains rest ->
  explains (push (tested name b message actual expected) (if negb b then failed else rest)).
Proof. intros Hf Hr. destruct b; cbn [negb]; [by apply explains_push|by apply explains_failed]. Qed.

#[local] Ltac explain :=
  repeat first
    [ apply explains_confidence
    | apply explains_gate; [discriminate|]
    | apply explains_push; [reflexivity|]
    | apply explains_failed; [reflexivity|discriminate] ].
#[local] Ltac explain_run H := res_inv; subst; unfold confidence_check, dltb; explain.

Lemma momentum_explains cx cs d : diagnose_momentum cx cs = Ok d -> explains d.
Proof. unfold diagnose_momentum. intros H. explain_run H. done. Qed.
Lemma breakout_explains cx cs d : diagnose_breakout cx cs = Ok d -> explains d.
Proof. unfold diagnose_breakout. intros H. explain_run H. done. Qed.
Lemma trend_filter_explains cx cs d : diagnose_trend_filter_momentum cx cs = Ok d -> explains d.
Proof. unfold diagnose_trend_filter_momentum. intros H. explain_run H. Qed.
Lemma trend_filter_v2_explains cx cs d :
  diagnose_trend_filter_momentum_v2 cx cs = Ok d -> explains d.
Proof.
  unfold diagnose_trend_filter_momentum_v2. destruct (_ <? _)%dec.
  - intros [= <-]. right. by right.
  - intros H. explain_run H.
Qed.
Lemma volume_breakout_explains cx cs d : diagnose_volume_breakout cx cs = Ok d -> explains d.
Proof. unfold diagnose_volume_breakout. intros H. explain_run H. Qed.
Lemma compression_explains cx cs d :
  diagnose_volatility_compression_breakout cx cs = Ok d -> explains d.
Proof.
  unfold diagnose_volatility_compression_breakout.
  destruct (validate_compression_breakout_config _); [intros [= <-]; explain|].
  intros H. res_inv. subst. match goal with Hm : calculate_compression_breakout_metrics _ _ = _ |- _ =>
    apply compression_width_within in Hm as -> end. unfold dltb. explain.
  destruct (dleb (min_range_width_pct _) _); cbn [andb negb]; [|explain].
  destruct (dleb _ (max_range_width_pct _)); cbn [andb negb]; explain.
Qed.
Lemma range_reversion_explains cx cs d : diagnose_range_reversion cx cs = Ok d -> explains d.
Proof. unfold diagnose_range_reversion. intros H. explain_run H. Qed.
Lemma pullback_explains cx cs d :
  diagnose_trend_pullback_continuation cx cs = Ok d -> explains d.
Proof.
  unfold diagnose_trend_pullback_continuation.
  destruct (validate_trend_pullback_config _); [intros [= <-]; explain|].
  intros H. res_inv. subst. unfold dltb. explain.
  destruct (dleb (min_trend_return_pct _) _), (dleb (min_trend_slope_pct _) _); cbn [orb negb]; explain.
  destruct (dleb (min_pullback_depth_pct _) _); cbn [andb negb]; [|explain].
  destruct (dleb _ (max_pullback_depth_pct _)); cbn [andb negb]; explain.
  destruct (dleb ZERO _); cbn [andb negb]; [|explain].
  destruct (dleb _ (max_close_above_sma_pct _)); cbn [andb negb]; explain.
Qed.
Lemma reclaim_explains cx cs d : diagnose_failed_breakdown_reclaim cx cs = Ok d -> explains d.
Proof.
  unfold diagnose_failed_breakdown_reclaim.
  destruct (validate_failed_breakdown_reclaim_config _); [intros [= <-]; explain|].
  intros H. explain_run H.
Qed.

Lemma ok_inj {E A} (a b : A) : @Ok E A a = Ok b -> a = b.
Proof. congruence. Qed.

Lemma health_clean config health checks :
  forallb clean (health_checks config health ++ checks)
    = sc_enabled config
      && (dh_required_closed_candles health <=? dh_available_closed_candles health)
      && negb (dh_stale health) && forallb clean checks.
Proof.
  rewrite forallb_app. unfold health_checks. cbn [forallb clean tested dc_severity].
  destruct (sc_enabled config), (_ <=? _), (negb (dh_stale health)); by rewrite ?andb_true_r.
Qed.

(** The checks account for the decision: when the diagnosis is [WOULD_SIGNAL]
    no check warns, and otherwise some check does, unless the reason given is
    the confidence floor or the configuration, which seven of the nine
    strategies do not record as a check. *)
Theorem diagnosis_explained {CH : Chrono} cx d :
  diagnose cx = Ok d ->
  explained (dg_condition_checks d) (dg_final_decision d) (dg_no_signal_reason d).
Proof.
  unfold diagnose. intros H. apply bind_ok_inv in H as ([] & _ & H).
  destruct (negb _) in H; [done|].
  set (cs := normalize_closed_candles (cx_candles cx)) in *. set (health := data_health cx cs) in *.
  apply bind_ok_inv in H as ([checks o] & Hf & H). apply ok_inj in H. subst d.
  cbn [dg_condition_checks dg_final_decision dg_no_signal_reason].
  unfold explained. rewrite health_clean, Z.leb_antisym.
  destruct (sc_enabled (cx_config cx)); cbn [negb andb] in *.
  2: { injection Hf as <- <-. by left. }
  destruct (_ <? _); cbn [negb andb] in *.
  { injection Hf as <- <-. by left. }
  destruct (dh_stale health); cbn [negb andb] in *.
  { injection Hf as <- <-. by left. }
  change (explains (checks, o)). unfold diagnose_strategy in Hf. revert Hf.
  destruct (cx_strategy_id cx); eauto using momentum_explains, breakout_explains,
    trend_filter_explains, trend_filter_v2_explains, volume_breakout_explains,
    compression_explains, range_reversion_explains, pullback_explains, reclaim_explains.
Qed.
End Explained.

Module DiagnoseSample.
#[local] Existing Instance ExactDecimal.
#[local] Existing Instance PlainChrono.

Definition context_at (minute : Z) : StrategyEvaluationContext := {|
  cx_correlation_id := 9; cx_strategy_id := StrategyId.MomentumV1;
  cx_symbol := {| symbol_text := "BTCUSDT" |};
  cx_config := StrategySample.config StrategyId.MomentumV1 3;
  cx_candles := StrategySample.rising; cx_evaluated_at := minutes minute |}.

Lemma generated : forall r m, m = 5 \/ m = 9 -> evaluate 7 (context_at m) = Ok r -> sr_generated r = true.
Proof.
  assert (forall m, m = 5 \/ m = 9 -> match evaluate 7 (context_at m) with
    | Ok r => sr_generated r = true | _ => False end) as H
    by (intros m [-> | ->]; vm_compute; reflexivity).
  intros r m Hm E1. specialize (H m Hm). by rewrite E1 in H.
Qed.

Lemma staleness : forall d m, m = 5 \/ m = 9 -> diagnose (context_at m) = Ok d ->
  dh_stale (dg_data_health d) = (m =? 9).
Proof.
  assert (forall m, m = 5 \/ m = 9 -> match diagnose (context_at m) with
    | Ok d => dh_stale (dg_data_health d) = (m =? 9) | _ => False end) as H
    by (intros m [-> | ->]; vm_compute; reflexivity).
  intros d m Hm E1. specialize (H m Hm). by rewrite E1 in H.
Qed.

Lemma usable m : lookbacks_u32 (cx_config (context_at m)).
Proof. apply StrategySample.config_u32. lia. Qed.

(** The last candle closes at minute 4 and signals may be two minutes old. *)
Example diagnose_agrees_with_evaluate_witness :
  (exists d, diagnose (context_at 5) = Ok d /\
     dg_final_decision d = StrategyDiagnosticsDecision.WouldSignal) /\
  (exists d r, diagnose (context_at 9) = Ok d /\ evaluate 7 (context_at 9) = Ok r /\
     sr_generated r = true /\ dg_final_decision d <> StrategyDiagnosticsDecision.WouldSignal).
Proof.
  split.
  - destruct (diagnose_agrees_with_evaluate (DL := ExactDecimalLaws) 7 (context_at 5)
      (usable 5) ltac:(cbn; lia) ltac:(cbn; lia) eq_refl eq_refl) as (d & r & Hd & Hr & Hiff & _).
    exists d. split; [exact Hd|]. apply Hiff. split.
    + exact (generated r 5 (or_introl eq_refl) Hr).
    + exact (staleness d 5 (or_introl eq_refl) Hd).
  - destruct (diagnose_agrees_with_evaluate (DL := ExactDecimalLaws) 7 (context_at 9)
      (usable 9) ltac:(cbn; lia) ltac:(cbn; lia) eq_refl eq_refl) as (d & r & Hd & Hr & Hiff & _).
    exists d, r. split; [exact Hd|]. split; [exact Hr|]. split.
    + exact (generated r 9 (or_intror eq_refl) Hr).
    + intros Hw. apply Hiff in Hw as [_ Hw].
      rewrite (staleness d 9 (or_intror eq_refl) Hd) in Hw. discriminate Hw.
Defined.

Lemma runs : match diagnose (context_at 5) with Ok _ => True | _ => False end.
Proof. vm_compute. exact I. Qed.

Example diagnosis_explained_witness : exists d, diagnose (context_at 5) = Ok d /\
  explained (dg_condition_checks d) (dg_final_decision d) (dg_no_signal_reason d).
Proof.
  pose proof runs as H. destruct (diagnose (context_at 5)) as [d| |] eqn:E1; [|destruct H..].
  exists d. split; [reflexivity|exact (diagnosis_explained _ d E1)].
Defined.
End DiagnoseSample.
