(* ===== verification/Replay.v ===== *)
(** * Backtests: crates/replay-engine/src/lib.rs (867-1055, 4317-4359, 4840-5239)

    [simulate_backtest] runs a strategy over a list of candles and simulates
    one long position at a time; types from crates/core/src/lib.rs (2770-2830,
    3062-3226, 3591-3687).  [generate_walk_forward_windows] cuts a time range
    into train and test windows.  The evaluation at candle [i] draws the
    identifier [new_v4 i]. *)

From Stdlib Require Import ZArith QArith Qabs Lqa Lia List Permutation Sorted String.
From stdpp Require Import base list strings.
From S2P Require Import Prelude Text Host Types MarketData Strategy.

#[local] Open Scope Z_scope.

Section ReplayTypes.
Context {DI : Decimal} {CH : Chrono} {JS : Json}.

Record BacktestConfig := {
  bc_replay_mode : ReplayMode.t;
  bc_holding_candles : Z;
  bc_fee_model : FeeModel.t;
  bc_slippage_model : SlippageModel.t;
  bc_fee_bps : dec;
  bc_slippage_bps : dec;
  bc_risk_config_id : option Z;
  bc_risk_config : option json
}.

Definition BacktestConfig_validate (self : BacktestConfig) : result unit :=
  if bc_holding_candles self =? 0 then Err CoreError.InvalidHoldingCandles else
  if (bc_fee_bps self <? ZERO)%dec then Err (CoreError.InvalidBacktestBps "fee_bps") else
  if (bc_slippage_bps self <? ZERO)%dec then Err (CoreError.InvalidBacktestBps "slippage_bps") else
  Ok tt.

Record BacktestRequest := {
  br_strategy_id : string;
  br_symbol : string;
  br_timeframe : string;
  br_start_time : Z;
  br_end_time : Z;
  br_initial_capital : dec;
  br_risk_config_id : option Z;
  br_risk_config : option json;
  br_fee_bps : dec;
  br_slippage_bps : dec;
  br_correlation_id : option Z;
  br_holding_candles : option Z;
  br_strategy_config_override : option StrategyConfigUpdateRequest
}.

Definition BacktestRequest_config (self : BacktestRequest) : BacktestConfig := {|
  bc_replay_mode := ReplayMode.Backtest;
  bc_holding_candles := default 3 (br_holding_candles self);
  bc_fee_model := FeeModel.Bps;
  bc_slippage_model := SlippageModel.Bps;
  bc_fee_bps := br_fee_bps self;
  bc_slippage_bps := br_slippage_bps self;
  bc_risk_config_id := br_risk_config_id self;
  bc_risk_config := br_risk_config self
|}.

Definition BacktestRequest_validate (self : BacktestRequest) : result unit :=
  if is_empty (trim (br_strategy_id self)) then Err CoreError.EmptyBacktestStrategyId else
  if is_empty (trim (br_symbol self)) then Err CoreError.EmptyBacktestSymbol else
  if is_empty (trim (br_timeframe self)) then Err CoreError.EmptyBacktestTimeframe else
  if br_end_time self <=? br_start_time self then Err CoreError.InvalidBacktestTimeRange else
  if (br_initial_capital self <=? ZERO)%dec then Err CoreError.InvalidBacktestInitialCapital else
  _ ← from_str (A := CandleInterval.t) (br_timeframe self);
  _ ← BacktestConfig_validate (BacktestRequest_config self);
  Ok tt.

Record BacktestTrade := {
  bt_id : Z;
  bt_run_id : Z;
  bt_strategy_id : string;
  bt_symbol : string;
  bt_side : Side.t;
  bt_entry_time : Z;
  bt_entry_price : dec;
  bt_exit_time : option Z;
  bt_exit_price : option dec;
  bt_quantity : dec;
  bt_notional : dec;
  bt_fee_paid : dec;
  bt_slippage_cost : dec;
  bt_realized_pnl : dec;
  bt_reason : string;
  bt_created_at : Z
}.

Record BacktestPosition := {
  bp_side : Side.t;
  bp_entry_time : Z;
  bp_entry_price : dec;
  bp_quantity : dec;
  bp_notional : dec;
  bp_fee_paid : dec;
  bp_slippage_cost : dec;
  bp_remaining_holding_candles : Z;
  bp_stop_loss_price : option dec;
  bp_take_profit_price : option dec
}.

Record BacktestEquityPoint := {
  ep_id : Z;
  ep_run_id : Z;
  ep_timestamp : Z;
  ep_equity : dec;
  ep_drawdown_pct : dec
}.

Record ReplaySuppressionCount := {
  rc_reason : ReplaySuppressionReason.t;
  rc_count : Z
}.

Record BacktestResult := {
  bs_run_id : Z;
  bs_strategy_id : string;
  bs_symbol : string;
  bs_timeframe : string;
  bs_start_time : Z;
  bs_end_time : Z;
  bs_initial_capital : dec;
  bs_final_equity : dec;
  bs_pnl : dec;
  bs_pnl_pct : dec;
  bs_max_drawdown_pct : dec;
  bs_win_rate : dec;
  bs_trade_count : Z;
  bs_winning_trades : Z;
  bs_losing_trades : Z;
  bs_avg_win : dec;
  bs_avg_loss : dec;
  bs_fee_paid : dec;
  bs_slippage_cost : dec;
  bs_raw_signal_count : Z;
  bs_cooldown_suppressed_count : Z;
  bs_open_position_suppressed_count : Z;
  bs_executed_trade_count : Z;
  bs_suppression_breakdown : list ReplaySuppressionCount;
  bs_last_signal_time : option Z;
  bs_last_executed_entry_time : option Z;
  bs_status : ReplayRunStatus.t;
  bs_created_at : Z;
  bs_correlation_id : option Z
}.

Record BacktestExecution := {
  be_result : BacktestResult;
  be_trades : list BacktestTrade;
  be_equity_curve : list BacktestEquityPoint
}.

(** [BTreeMap<ReplaySuppressionReason, i32>]: keys in declaration order. *)
Definition suppression_key (reason : ReplaySuppressionReason.t) : Z :=
  match reason with
  | ReplaySuppressionReason.CooldownActive => 0
  | ReplaySuppressionReason.PositionAlreadyOpen => 1
  | ReplaySuppressionReason.InsufficientForwardData => 2
  | ReplaySuppressionReason.InvalidSignal => 3
  | ReplaySuppressionReason.None_ => 4
  end.

Record SimulationState := {
  ss_cash : dec;
  ss_peak_equity : dec;
  ss_position : option BacktestPosition;
  ss_trades : list BacktestTrade;
  ss_equity_curve : list BacktestEquityPoint;
  ss_fee_paid : dec;
  ss_slippage_cost : dec;
  ss_raw_signal_count : Z;
  ss_suppression_counts : list (Z * Z);
  ss_last_signal_time : option Z;
  ss_last_executed_entry_time : option Z
}.

(** *** Field assignments *)

Definition set_position (position : option BacktestPosition) (st : SimulationState) := {|
  ss_cash := ss_cash st; ss_peak_equity := ss_peak_equity st; ss_position := position;
  ss_trades := ss_trades st; ss_equity_curve := ss_equity_curve st;
  ss_fee_paid := ss_fee_paid st; ss_slippage_cost := ss_slippage_cost st;
  ss_raw_signal_count := ss_raw_signal_count st;
  ss_suppression_counts := ss_suppression_counts st;
  ss_last_signal_time := ss_last_signal_time st;
  ss_last_executed_entry_time := ss_last_executed_entry_time st |}.

Definition set_last_executed (time : option Z) (st : SimulationState) := {|
  ss_cash := ss_cash st; ss_peak_equity := ss_peak_equity st; ss_position := ss_position st;
  ss_trades := ss_trades st; ss_equity_curve := ss_equity_curve st;
  ss_fee_paid := ss_fee_paid st; ss_slippage_cost := ss_slippage_cost st;
  ss_raw_signal_count := ss_raw_signal_count st;
  ss_suppression_counts := ss_suppression_counts st;
  ss_last_signal_time := ss_last_signal_time st;
  ss_last_executed_entry_time := time |}.

(** [state.raw_signal_count += 1; state.last_signal_time = Some(time)] *)
Definition count_signal (time : Z) (st : SimulationState) := {|
  ss_cash := ss_cash st; ss_peak_equity := ss_peak_equity st; ss_position := ss_position st;
  ss_trades := ss_trades st; ss_equity_curve := ss_equity_curve st;
  ss_fee_paid := ss_fee_paid st; ss_slippage_cost := ss_slippage_cost st;
  ss_raw_signal_count := i32_add (ss_raw_signal_count st) 1;
  ss_suppression_counts := ss_suppression_counts st;
  ss_last_signal_time := Some time;
  ss_last_executed_entry_time := ss_last_executed_entry_time st |}.

Definition record_suppression (st : SimulationState) (reason : ReplaySuppressionReason.t) := {|
  ss_cash := ss_cash st; ss_peak_equity := ss_peak_equity st; ss_position := ss_position st;
  ss_trades := ss_trades st; ss_equity_curve := ss_equity_curve st;
  ss_fee_paid := ss_fee_paid st; ss_slippage_cost := ss_slippage_cost st;
  ss_raw_signal_count := ss_raw_signal_count st;
  ss_suppression_counts :=
    btree_update (suppression_key reason) (fun n => i32_add (default 0 n) 1)
      (ss_suppression_counts st);
  ss_last_signal_time := ss_last_signal_time st;
  ss_last_executed_entry_time := ss_last_executed_entry_time st |}.
End ReplayTypes.

(** ** Prices, fees and identifiers *)

Section Simulation.
Context {DI : Decimal} {CH : Chrono} {JS : Json}.

Definition BPS_DENOMINATOR : Z := 10000.

Definition fee_amount (notional fee_bps : dec) : dec :=
  ddiv (notional * fee_bps)%dec (dint BPS_DENOMINATOR).
Definition apply_entry_slippage (price slippage_bps : dec) : dec :=
  (price * (ONE + ddiv slippage_bps (dint BPS_DENOMINATOR)))%dec.
Definition apply_exit_slippage (price slippage_bps : dec) : dec :=
  (price * (ONE - ddiv slippage_bps (dint BPS_DENOMINATOR)))%dec.

Definition deterministic_trade_id (run_id entry_time exit_time : Z) : Z :=
  let seed := Z.lor (u128_mask (Z.shiftl (u128_mask (timestamp_millis entry_time)) 64))
                    (u128_mask (timestamp_millis exit_time)) in
  Z.lxor run_id seed.
Definition deterministic_point_id (run_id time : Z) : Z :=
  Z.lxor run_id (u128_mask (timestamp_millis time)).

Definition cooldown_active (last_executed_entry_time : option Z)
    (signal_time cooldown_seconds : Z) : bool :=
  match last_executed_entry_time with
  | None => false
  | Some last_entry =>
    if cooldown_seconds =? 0 then false
    else signal_time - last_entry <? seconds cooldown_seconds
  end.

(** ** Opening and closing a position *)

Definition maybe_open_position (backtest_config : BacktestConfig)
    (strategy_config : StrategyConfig) (next_candle : Candle) (available_cash : dec)
    : result (option BacktestPosition) :=
  let fee_multiplier := (ONE + ddiv (bc_fee_bps backtest_config) (dint BPS_DENOMINATOR))%dec in
  max_notional ← dec_div available_cash fee_multiplier;
  let target_notional := dmin (sc_suggested_notional strategy_config) max_notional in
  if (target_notional <=? ZERO)%dec then Ok None else
  let entry_price := apply_entry_slippage (c_open next_candle) (bc_slippage_bps backtest_config) in
  quantity ← dec_div target_notional entry_price;
  if (quantity <=? ZERO)%dec then Ok None else
  let executed_notional := (quantity * entry_price)%dec in
  Ok (Some {|
    bp_side := Side.Buy;
    bp_entry_time := c_open_time next_candle;
    bp_entry_price := entry_price;
    bp_quantity := quantity;
    bp_notional := executed_notional;
    bp_fee_paid := fee_amount executed_notional (bc_fee_bps backtest_config);
    bp_slippage_cost := ((entry_price - c_open next_candle) * quantity)%dec;
    bp_remaining_holding_candles := bc_holding_candles backtest_config;
    bp_stop_loss_price :=
      option_map (fun pct => entry_price * (ONE - pct))%dec (sc_stop_loss_pct strategy_config);
    bp_take_profit_price :=
      option_map (fun pct => entry_price * (ONE + ddiv pct (dnew 100 0)))%dec
        (sc_take_profit_pct strategy_config) |}).

Definition close_position (run_id created_at : Z) (backtest_config : BacktestConfig)
    (position : BacktestPosition) (exit_time : Z) (reference_exit_price : dec) (reason : string)
    (state : SimulationState) (strategy_id symbol : string) : SimulationState :=
  let exit_price := apply_exit_slippage reference_exit_price (bc_slippage_bps backtest_config) in
  let exit_notional := (bp_quantity position * exit_price)%dec in
  let exit_fee := fee_amount exit_notional (bc_fee_bps backtest_config) in
  let exit_slippage_cost := ((reference_exit_price - exit_price) * bp_quantity position)%dec in
  let realized_pnl := (exit_notional - exit_fee - bp_notional position - bp_fee_paid position)%dec in
  {| ss_cash := ((ss_cash state - (bp_notional position + bp_fee_paid position))
                 + (exit_notional - exit_fee))%dec;
     ss_peak_equity := ss_peak_equity state;
     ss_position := ss_position state;
     ss_trades := ss_trades state ++ [{|
       bt_id := deterministic_trade_id run_id (bp_entry_time position) exit_time;
       bt_run_id := run_id;
       bt_strategy_id := strategy_id;
       bt_symbol := symbol;
       bt_side := bp_side position;
       bt_entry_time := bp_entry_time position;
       bt_entry_price := bp_entry_price position;
       bt_exit_time := Some exit_time;
       bt_exit_price := Some exit_price;
       bt_quantity := bp_quantity position;
       bt_notional := bp_notional position;
       bt_fee_paid := (bp_fee_paid position + exit_fee)%dec;
       bt_slippage_cost := (bp_slippage_cost position + exit_slippage_cost)%dec;
       bt_realized_pnl := realized_pnl;
       bt_reason := reason;
       bt_created_at := created_at |}];
     ss_equity_curve := ss_equity_curve state;
     ss_fee_paid := (ss_fee_paid state + (bp_fee_paid position + exit_fee))%dec;
     ss_slippage_cost :=
       (ss_slippage_cost state + (bp_slippage_cost position + exit_slippage_cost))%dec;
     ss_raw_signal_count := ss_raw_signal_count state;
     ss_suppression_counts := ss_suppression_counts state;
     ss_last_signal_time := ss_last_signal_time state;
     ss_last_executed_entry_time := ss_last_executed_entry_time state |}.

(** [position.remaining_holding_candles], a [u32], counted down to 0. *)
Definition hold_one_candle (position : BacktestPosition) : BacktestPosition := {|
  bp_side := bp_side position;
  bp_entry_time := bp_entry_time position;
  bp_entry_price := bp_entry_price position;
  bp_quantity := bp_quantity position;
  bp_notional := bp_notional position;
  bp_fee_paid := bp_fee_paid position;
  bp_slippage_cost := bp_slippage_cost position;
  bp_remaining_holding_candles :=
    if bp_remaining_holding_candles position >? 0
    then bp_remaining_holding_candles position - 1
    else bp_remaining_holding_candles position;
  bp_stop_loss_price := bp_stop_loss_price position;
  bp_take_profit_price := bp_take_profit_price position |}.

(** The position that stays open, and the state. *)
Definition evaluate_exit (run_id created_at : Z) (backtest_config : BacktestConfig)
    (position : BacktestPosition) (candle : Candle) (state : SimulationState)
    (strategy_id symbol : string) : option BacktestPosition * SimulationState :=
  let close position price reason :=
    close_position run_id created_at backtest_config position (c_close_time candle) price reason
      state strategy_id symbol in
  let stop_loss_hit := match bp_stop_loss_price position with
                       | Some p => if (c_low candle <=? p)%dec then Some p else None
                       | None => None
                       end in
  match stop_loss_hit with
  | Some stop_loss_price => (None, close position stop_loss_price "stop_loss")
  | None =>
    let take_profit_hit := match bp_take_profit_price position with
                           | Some p => if (c_high candle >=? p)%dec then Some p else None
                           | None => None
                           end in
    match take_profit_hit with
    | Some take_profit_price => (None, close position take_profit_price "take_profit")
    | None =>
      let position := hold_one_candle position in
      if bp_remaining_holding_candles position =? 0
      then (None, close position (c_close candle) "holding_period")
      else (Some position, state)
    end
  end.

(** ** The equity curve *)

(** [find(|e| e.timestamp == timestamp)] and overwrite, or push. *)
Fixpoint upsert_point (point : BacktestEquityPoint) (curve : list BacktestEquityPoint)
    : list BacktestEquityPoint :=
  match curve with
  | [] => [point]
  | existing :: curve =>
    if ep_timestamp existing =? ep_timestamp point then point :: curve
    else existing :: upsert_point point curve
  end.

Definition mark_equity (state : SimulationState) (mark_price : dec) : dec :=
  match ss_position state with
  | Some position =>
    (ss_cash state + bp_quantity position * mark_price - bp_fee_paid position
     - bp_notional position)%dec
  | None => ss_cash state
  end.

Definition record_equity (run_id time : Z) (mark_price : dec) (state : SimulationState)
    : SimulationState :=
  let equity := mark_equity state mark_price in
  let peak_equity := if (equity >? ss_peak_equity state)%dec then equity
                     else ss_peak_equity state in
  let drawdown_pct := if (peak_equity >? ZERO)%dec
                      then (ddiv (peak_equity - equity) peak_equity * dnew 100 0)%dec
                      else ZERO in
  {| ss_cash := ss_cash state;
     ss_peak_equity := peak_equity;
     ss_position := ss_position state;
     ss_trades := ss_trades state;
     ss_equity_curve := upsert_point {|
       ep_id := deterministic_point_id run_id time;
       ep_run_id := run_id;
       ep_timestamp := time;
       ep_equity := equity;
       ep_drawdown_pct := drawdown_pct |} (ss_equity_curve state);
     ss_fee_paid := ss_fee_paid state;
     ss_slippage_cost := ss_slippage_cost state;
     ss_raw_signal_count := ss_raw_signal_count state;
     ss_suppression_counts := ss_suppression_counts state;
     ss_last_signal_time := ss_last_signal_time state;
     ss_last_executed_entry_time := ss_last_executed_entry_time state |}.

(** ** The simulation *)

(** The index of the candle a signal enters on; [None] when the confirmation
    fails (or its candles are missing). *)
Definition confirmed_entry_index (strategy_config : StrategyConfig) (candles : list Candle)
    (signal_index : nat) : result (option nat) :=
  if negb (bool_decide (sc_strategy_id strategy_config = StrategyId.FailedBreakdownReclaimV1))
  then Ok (Some (signal_index + 1)%nat) else
  let confirmation_candles := Z.to_nat (sc_confirmation_candles strategy_config) in
  if (confirmation_candles =? 0)%nat then Ok (Some (signal_index + 1)%nat) else
  match candles !! signal_index with
  | None => Ok None
  | Some signal_candle =>
    let lookback := Z.to_nat (sc_lookback_candles strategy_config) in
    if (signal_index <? lookback)%nat then Ok None else
    window ← slice candles (signal_index - lookback) signal_index;
    let lookback_low := default (c_low signal_candle) (low_of window) in
    let breakdown_low := c_low signal_candle in
    let confirmation_end_index := (signal_index + confirmation_candles)%nat in
    (* [candles.get(signal_index + 1..=confirmation_end_index)] *)
    if negb (confirmation_end_index <? length candles)%nat then Ok None else
    let confirmation_window := firstn confirmation_candles (skipn (signal_index + 1) candles) in
    if sc_require_confirmation_close_above_lookback_low strategy_config
       && existsb (fun candle => (c_close candle <? lookback_low)%dec) confirmation_window
    then Ok None else
    if sc_require_confirmation_low_above_breakdown_low strategy_config
       && existsb (fun candle => (c_low candle <? breakdown_low)%dec) confirmation_window
    then Ok None else
    Ok (Some (confirmation_end_index + 1)%nat)
  end.

Definition suppression_count (counts : list (Z * Z)) (reason : ReplaySuppressionReason.t) : Z :=
  default 0 (btree_get (suppression_key reason) counts).

Definition suppression_breakdown (counts : list (Z * Z)) : list ReplaySuppressionCount :=
  map (fun reason => {| rc_reason := reason; rc_count := suppression_count counts reason |})
    [ReplaySuppressionReason.CooldownActive; ReplaySuppressionReason.PositionAlreadyOpen;
     ReplaySuppressionReason.InsufficientForwardData; ReplaySuppressionReason.InvalidSignal;
     ReplaySuppressionReason.None_].

(** [values.fold(ZERO, +) / Decimal::from(count)] *)
Definition average_trade_pnl (values : list dec) (count : Z) : dec :=
  if count =? 0 then ZERO else ddiv (dsum values) (dint count).

Definition build_result (run_id created_at : Z) (correlation_id : option Z)
    (request : BacktestRequest) (trades : list BacktestTrade)
    (equity_curve : list BacktestEquityPoint) (fee_paid slippage_cost final_equity : dec)
    (raw_signal_count : Z) (suppression_counts : list (Z * Z))
    (last_signal_time last_executed_entry_time : option Z) : BacktestResult :=
  let winners := List.filter (fun trade => (bt_realized_pnl trade >? ZERO)%dec) trades in
  let losers := List.filter (fun trade => (bt_realized_pnl trade <? ZERO)%dec) trades in
  let winning_trades := wrap_i32 (Z.of_nat (length winners)) in
  let losing_trades := wrap_i32 (Z.of_nat (length losers)) in
  let trade_count := wrap_i32 (Z.of_nat (length trades)) in
  let pnl := (final_equity - br_initial_capital request)%dec in
  let pnl_pct := if (br_initial_capital request >? ZERO)%dec
                 then (ddiv pnl (br_initial_capital request) * dnew 100 0)%dec else ZERO in
  let max_drawdown_pct := default ZERO (iter_max dleb (map ep_drawdown_pct equity_curve)) in
  let win_rate := if trade_count >? 0
                  then (ddiv (dint winning_trades) (dint trade_count) * dnew 100 0)%dec
                  else ZERO in
  {| bs_run_id := run_id;
     bs_strategy_id := br_strategy_id request;
     bs_symbol := br_symbol request;
     bs_timeframe := br_timeframe request;
     bs_start_time := br_start_time request;
     bs_end_time := br_end_time request;
     bs_initial_capital := br_initial_capital request;
     bs_final_equity := final_equity;
     bs_pnl := pnl;
     bs_pnl_pct := pnl_pct;
     bs_max_drawdown_pct := max_drawdown_pct;
     bs_win_rate := win_rate;
     bs_trade_count := trade_count;
     bs_winning_trades := winning_trades;
     bs_losing_trades := losing_trades;
     bs_avg_win := average_trade_pnl (map bt_realized_pnl winners) winning_trades;
     bs_avg_loss := average_trade_pnl (map bt_realized_pnl losers) losing_trades;
     bs_fee_paid := fee_paid;
     bs_slippage_cost := slippage_cost;
     bs_raw_signal_count := raw_signal_count;
     bs_cooldown_suppressed_count :=
       suppression_count suppression_counts ReplaySuppressionReason.CooldownActive;
     bs_open_position_suppressed_count :=
       suppression_count suppression_counts ReplaySuppressionReason.PositionAlreadyOpen;
     bs_executed_trade_count := trade_count;
     bs_suppression_breakdown := suppression_breakdown suppression_counts;
     bs_last_signal_time := last_signal_time;
     bs_last_executed_entry_time := last_executed_entry_time;
     bs_status := ReplayRunStatus.Completed;
     bs_created_at := created_at;
     bs_correlation_id := correlation_id |}.

Definition failure_result (run_id created_at : Z) (correlation_id : option Z)
    (request : BacktestRequest) : BacktestResult := {|
  bs_run_id := run_id;
  bs_strategy_id := br_strategy_id request;
  bs_symbol := br_symbol request;
  bs_timeframe := br_timeframe request;
  bs_start_time := br_start_time request;
  bs_end_time := br_end_time request;
  bs_initial_capital := br_initial_capital request;
  bs_final_equity := br_initial_capital request;
  bs_pnl := ZERO;
  bs_pnl_pct := ZERO;
  bs_max_drawdown_pct := ZERO;
  bs_win_rate := ZERO;
  bs_trade_count := 0;
  bs_winning_trades := 0;
  bs_losing_trades := 0;
  bs_avg_win := ZERO;
  bs_avg_loss := ZERO;
  bs_fee_paid := ZERO;
  bs_slippage_cost := ZERO;
  bs_raw_signal_count := 0;
  bs_cooldown_suppressed_count := 0;
  bs_open_position_suppressed_count := 0;
  bs_executed_trade_count := 0;
  bs_suppression_breakdown := suppression_breakdown [];
  bs_last_signal_time := None;
  bs_last_executed_entry_time := None;
  bs_status := ReplayRunStatus.Failed;
  bs_created_at := created_at;
  bs_correlation_id := correlation_id |}.

Definition initial_state (request : BacktestRequest) : SimulationState := {|
  ss_cash := br_initial_capital request;
  ss_peak_equity := br_initial_capital request;
  ss_position := None;
  ss_trades := [];
  ss_equity_curve := [];
  ss_fee_paid := ZERO;
  ss_slippage_cost := ZERO;
  ss_raw_signal_count := 0;
  ss_suppression_counts := [];
  ss_last_signal_time := None;
  ss_last_executed_entry_time := None |}.

(** [state.position.take()] and the exit test of the open position. *)
Definition exit_step (run_id created_at : Z) (request : BacktestRequest) (candle : Candle)
    (state : SimulationState) : SimulationState :=
  match ss_position state with
  | None => state
  | Some position =>
    let '(position, state) := evaluate_exit run_id created_at (BacktestRequest_config request)
      position candle (set_position None state) (br_strategy_id request) (br_symbol request) in
    set_position position state
  end.

(** [if let Some(signal) = evaluation.signal { .. }]: the state, and whether the
    candle's equity is recorded ([continue] skips it). *)
Definition signal_step (request : BacktestRequest) (strategy_config : StrategyConfig)
    (candles : list Candle) (index : nat) (candle : Candle) (signal : StrategySignal)
    (state : SimulationState) : result (SimulationState * bool) :=
  let state := count_signal (c_close_time candle) state in
  if negb (bool_decide (sg_side signal = SignalSide.Buy)) then
    Ok (record_suppression state ReplaySuppressionReason.InvalidSignal, true)
  else if cooldown_active (ss_last_executed_entry_time state) (c_close_time candle)
            (sc_cooldown_seconds strategy_config) then
    Ok (record_suppression state ReplaySuppressionReason.CooldownActive, true)
  else match ss_position state with
  | Some _ => Ok (record_suppression state ReplaySuppressionReason.PositionAlreadyOpen, true)
  | None =>
    entry ← confirmed_entry_index strategy_config candles index;
    match entry with
    | None => Ok (record_suppression state ReplaySuppressionReason.InvalidSignal, false)
    | Some entry_index =>
      if (length candles <=? entry_index)%nat then
        Ok (record_suppression state ReplaySuppressionReason.InsufficientForwardData, false)
      else
      next_candle ← Prelude.index candles entry_index;
      position ← maybe_open_position (BacktestRequest_config request) strategy_config next_candle
        (ss_cash state);
      let state := set_position position state in
      match position with
      | Some position =>
        Ok (record_suppression (set_last_executed (Some (bp_entry_time position)) state)
              ReplaySuppressionReason.None_, true)
      | None => Ok (record_suppression state ReplaySuppressionReason.InvalidSignal, true)
      end
    end
  end.

(** One turn of [for index in 0..candles.len()]. *)
Definition simulate_step (new_v4 : nat -> Z) (run_id created_at correlation_id : Z)
    (request : BacktestRequest) (strategy_id : StrategyId.t) (symbol : Symbol)
    (strategy_config : StrategyConfig) (candles : list Candle) (state : SimulationState)
    (index : nat) : result SimulationState :=
  candle ← Prelude.index candles index;
  let state := exit_step run_id created_at request candle state in
  evaluation ← evaluate (new_v4 index) {|
    cx_correlation_id := correlation_id;
    cx_strategy_id := strategy_id;
    cx_symbol := symbol;
    cx_config := strategy_config;
    cx_candles := firstn (index + 1) candles;
    cx_evaluated_at := c_close_time candle |};
  match sr_signal evaluation with
  | None => Ok (record_equity run_id (c_close_time candle) (c_close candle) state)
  | Some signal =>
    '(state, recorded) ← signal_step request strategy_config candles index candle signal state;
    Ok (if recorded : bool
        then record_equity run_id (c_close_time candle) (c_close candle) state else state)
  end.

(** After the loop: the open position is closed at the last candle. *)
Definition finish (run_id created_at : Z) (request : BacktestRequest) (candles : list Candle)
    (state : SimulationState) : SimulationState :=
  match ss_position state, last candles with
  | Some position, Some last_candle =>
    let state := close_position run_id created_at (BacktestRequest_config request) position
      (c_close_time last_candle) (c_close last_candle) "replay_end" (set_position None state)
      (br_strategy_id request) (br_symbol request) in
    record_equity run_id (c_close_time last_candle) (c_close last_candle) state
  | _, _ => set_position None state
  end.

Definition simulate_backtest (new_v4 : nat -> Z) (run_id created_at correlation_id : Z)
    (request : BacktestRequest) (strategy_config : StrategyConfig) (candles : list Candle)
    : result BacktestExecution :=
  match candles with
  | [] => Ok {| be_result := failure_result run_id created_at (Some correlation_id) request;
                be_trades := []; be_equity_curve := [] |}
  | _ =>
    strategy_id ← from_str (A := StrategyId.t) (br_strategy_id request);
    symbol ← Symbol_new (br_symbol request);
    state ← fold_res (simulate_step new_v4 run_id created_at correlation_id request strategy_id
                        symbol strategy_config candles)
              (initial_state request) (seq 0 (length candles));
    let state := finish run_id created_at request candles state in
    Ok {| be_result := build_result run_id created_at (Some correlation_id) request
            (ss_trades state) (ss_equity_curve state) (ss_fee_paid state)
            (ss_slippage_cost state) (ss_cash state) (ss_raw_signal_count state)
            (ss_suppression_counts state) (ss_last_signal_time state)
            (ss_last_executed_entry_time state);
          be_trades := ss_trades state;
          be_equity_curve := ss_equity_curve state |}
  end.
End Simulation.

(** ** The loop *)

Lemma fold_seq_inv {E S} (f : S -> nat -> res E S) (I : nat -> S -> Prop) n s s' :
  I 0%nat s ->
  (forall i st st', (i < n)%nat -> I i st -> f st i = Ok st' -> I (i + 1)%nat st') ->
  fold_res f s (seq 0 n) = Ok s' -> I n s'.
Proof.
  intros H0 Hstep Hrun.
  assert (forall m st, (m <= n)%nat -> fold_res f s (seq 0 m) = Ok st -> I m st) as Hall.
  { induction m as [|m IH]; intros st Hm Hf; [by injection Hf as <-|].
    rewrite List.seq_S, fold_res_app in Hf. apply bind_ok_inv in Hf as (st1 & H1 & H2). cbn in H2.
    destruct (f st1 m) as [st2| |] eqn:E1; try done. injection H2 as <-.
    replace (Datatypes.S m) with (m + 1)%nat by lia.
    apply (Hstep m st1); [lia|by apply IH; [lia|]|done]. }
  by apply (Hall n).
Qed.

Section Loop.
Context {DI : Decimal} {CH : Chrono} {JS : Json}.
Context (new_v4 : nat -> Z) (run_id created_at correlation_id : Z).
Context (request : BacktestRequest) (strategy_id : StrategyId.t) (symbol : Symbol).
Context (config : StrategyConfig) (candles : list Candle).
Abbreviation step := (simulate_step new_v4 run_id created_at correlation_id request strategy_id
  symbol config candles).
Abbreviation exit_step' := (exit_step run_id created_at request).

(** What a step does: an exit test, a possible signal, a possible equity point. *)
Lemma simulate_step_inv st i st' :
  step st i = Ok st' ->
  exists candle, candles !! i = Some candle /\
    let record := record_equity run_id (c_close_time candle) (c_close candle) in
    let st1 := exit_step' candle st in
    st' = record st1 \/
    exists signal st2 recorded,
      signal_step request config candles i candle signal st1 = Ok (st2, recorded) /\
      st' = if recorded : bool then record st2 else st2.
Proof.
  unfold simulate_step. intros H. apply bind_ok_inv in H as (candle & Hc & H).
  apply index_lookup in Hc. exists candle. split; [done|]. cbv zeta in *.
  apply bind_ok_inv in H as (ev & _ & H). destruct (sr_signal ev) as [signal|].
  - apply bind_ok_inv in H as ([st2 recorded] & Hs & H). right. exists signal, st2, recorded.
    split; [done|]. congruence.
  - left. congruence.
Qed.

(** A signal changes no book. *)
Lemma signal_step_books i candle signal st st' recorded :
  signal_step request config candles i candle signal st = Ok (st', recorded) ->
  ss_cash st' = ss_cash st /\ ss_trades st' = ss_trades st /\ ss_fee_paid st' = ss_fee_paid st /\
  ss_slippage_cost st' = ss_slippage_cost st.
Proof.
  unfold signal_step. cbv zeta. intros H.
  repeat match type of H with
  | (if ?b then _ else _) = _ => destruct b
  | match ?o with Some _ => _ | None => _ end = _ => destruct o
  | mbind _ _ = _ => apply bind_ok_inv in H as (? & _ & H)
  end; by injection H as <- <-.
Qed.

(** A signal step counts the signal and gives it one reason. *)
Lemma signal_step_cases i candle signal st st' recorded :
  signal_step request config candles i candle signal st = Ok (st', recorded) ->
  let st1 := count_signal (c_close_time candle) st in
  (exists reason, reason <> ReplaySuppressionReason.None_ /\
     (st' = record_suppression st1 reason \/
      ss_position st = None /\ st' = record_suppression (set_position None st1) reason)) \/
  exists p k entry, ss_position st = None /\
    cooldown_active (ss_last_executed_entry_time st) (c_close_time candle)
      (sc_cooldown_seconds config) = false /\
    confirmed_entry_index config candles i = Ok (Some k) /\ candles !! k = Some entry /\
    maybe_open_position (BacktestRequest_config request) config entry (ss_cash st) = Ok (Some p) /\
    st' = record_suppression (set_last_executed (Some (bp_entry_time p)) (set_position (Some p) st1))
            ReplaySuppressionReason.None_.
Proof.
  unfold signal_step. cbv zeta. cbn [ss_last_executed_entry_time ss_position ss_cash count_signal].
  intros H.
  destruct (negb _); [injection H as <- <-; left; eexists; split; [|by left]; done|].
  destruct (cooldown_active _ _ _) eqn:Hcool; [injection H as <- <-; left; eexists; split; [|by left]; done|].
  destruct (ss_position st) eqn:Hp; [injection H as <- <-; left; eexists; split; [|by left]; done|].
  apply bind_ok_inv in H as (entry & He & H).
  destruct entry as [k|]; [|injection H as <- <-; left; eexists; split; [|by left]; done].
  destruct (_ <=? _)%nat; [injection H as <- <-; left; eexists; split; [|by left]; done|].
  apply bind_ok_inv in H as (next & Hn & H). apply index_lookup in Hn.
  apply bind_ok_inv in H as (p & Hopen & H). destruct p as [p|]; injection H as <- <-.
  - right. exists p, k, next. done.
  - left. eexists. split; [|by right]. done.
Qed.

Lemma exit_step_cases candle st :
  exit_step' candle st = st /\ ss_position st = None \/
  exists p, ss_position st = Some p /\
    ((exists price reason, exit_step' candle st
        = set_position None (close_position run_id created_at (BacktestRequest_config request) p
            (c_close_time candle) price reason (set_position None st)
            (br_strategy_id request) (br_symbol request))) \/
     exit_step' candle st = set_position (Some (hold_one_candle p)) st).
Proof.
  unfold exit_step. destruct (ss_position st) as [p|]; [right|by left].
  exists p. split; [done|]. unfold evaluate_exit. cbv zeta.
  destruct (match bp_stop_loss_price p with Some q => _ | None => None end) as [q|];
    [left; by eexists _, _|].
  destruct (match bp_take_profit_price p with Some q => _ | None => None end) as [q|];
    [left; by eexists _, _|].
  destruct (_ =? 0); [left; by eexists _, _|]. by right.
Qed.
End Loop.

(** ** The books *)

Section Books.
Context {DI : Decimal} {CH : Chrono} {JS : Json}.
Context (new_v4 : nat -> Z) (run_id created_at correlation_id : Z).
Context (request : BacktestRequest) (config : StrategyConfig).

(** The fee of an amount, what entering a trade cost, and what leaving it brought. *)
Definition fee_of (amount : dec) : dec :=
  fee_amount amount (bc_fee_bps (BacktestRequest_config request)).
Definition spent (t : BacktestTrade) : dec := (bt_notional t + fee_of (bt_notional t))%dec.
Definition exit_value (t : BacktestTrade) : dec :=
  (bt_quantity t * default ZERO (bt_exit_price t))%dec.
Definition proceeds (t : BacktestTrade) : dec := (exit_value t - fee_of (exit_value t))%dec.

(** What a trade does to the cash. *)
Definition settle (cash : dec) (t : BacktestTrade) : dec := (cash - spent t + proceeds t)%dec.

(** A closed trade earned its proceeds less the entry value and the entry fee, and paid both fees. *)
Definition trade_settled (t : BacktestTrade) : Prop :=
  is_Some (bt_exit_price t) /\ is_Some (bt_exit_time t) /\
  bt_realized_pnl t = (proceeds t - bt_notional t - fee_of (bt_notional t))%dec /\
  bt_fee_paid t = (fee_of (bt_notional t) + fee_of (exit_value t))%dec.

Record books_ok (st : SimulationState) : Prop := {
  bk_cash : ss_cash st = foldl settle (br_initial_capital request) (ss_trades st);
  bk_fees : ss_fee_paid st = dsum (map bt_fee_paid (ss_trades st));
  bk_slippage : ss_slippage_cost st = dsum (map bt_slippage_cost (ss_trades st));
  bk_settled : Forall trade_settled (ss_trades st);
  bk_position : forall p, ss_position st = Some p -> bp_fee_paid p = fee_of (bp_notional p)
}.

Lemma close_position_books p time price reason sid sym st :
  books_ok st -> ss_position st = Some p ->
  books_ok (close_position run_id created_at (BacktestRequest_config request) p time price reason
              (set_position None st) sid sym).
Proof.
  intros [Hc Hf Hs Ht Hp] Hpos. apply Hp in Hpos as Hfee. unfold dsum in *.
  split; cbn [close_position ss_cash ss_trades ss_fee_paid ss_slippage_cost ss_position set_position].
  - rewrite foldl_app, <- Hc. cbn. unfold settle, spent, proceeds, exit_value. cbn. by rewrite Hfee.
  - unfold dsum. rewrite map_app, foldl_app, <- Hf. done.
  - unfold dsum. rewrite map_app, foldl_app, <- Hs. done.
  - apply Forall_app. split; [done|]. repeat constructor; cbn; [by eexists..| |];
      unfold proceeds, exit_value; cbn; by rewrite Hfee.
  - done.
Qed.

(** The books are unchanged, and so is the position unless it is new or held. *)
Lemma books_ok_fields st st' :
  ss_cash st' = ss_cash st /\ ss_trades st' = ss_trades st /\ ss_fee_paid st' = ss_fee_paid st /\
  ss_slippage_cost st' = ss_slippage_cost st ->
  (forall p, ss_position st' = Some p ->
     ss_position st = Some p \/ bp_fee_paid p = fee_of (bp_notional p)) ->
  books_ok st -> books_ok st'.
Proof.
  intros (E1 & E2 & E3 & E4) Hpos [Hc Hf Hs Ht Hp]. split; rewrite ?E1, ?E2, ?E3, ?E4; try done.
  intros p H%Hpos. destruct H; auto.
Qed.

Lemma opened_position_fee entry cash p :
  maybe_open_position (BacktestRequest_config request) config entry cash = Ok (Some p) ->
  bp_fee_paid p = fee_of (bp_notional p).
Proof.
  unfold maybe_open_position. cbv zeta. intros H.
  apply bind_ok_inv in H as (m & _ & H). destruct (_ <=? _)%dec; [done|].
  apply bind_ok_inv in H as (q & _ & H). destruct (_ <=? _)%dec; [done|].
  by injection H as <-.
Qed.

Lemma exit_step_books candle st : books_ok st ->
  books_ok (exit_step run_id created_at request candle st).
Proof.
  intros Hb. destruct (exit_step_cases run_id created_at request candle st)
    as [[-> _]|(p & Hp & [(price & reason & ->) | ->])]; [done| |].
  - apply (books_ok_fields (close_position run_id created_at (BacktestRequest_config request) p
      (c_close_time candle) price reason (set_position None st) (br_strategy_id request)
      (br_symbol request))); [done|done|by apply close_position_books].
  - apply (books_ok_fields st); [done| |exact Hb]. cbn. intros q [= <-]. right.
    cbn. by apply (bk_position st Hb).
Qed.

Lemma simulate_step_books strategy_id symbol candles st i st' :
  simulate_step new_v4 run_id created_at correlation_id request strategy_id symbol config candles
    st i = Ok st' -> books_ok st -> books_ok st'.
Proof.
  intros H Hb. apply simulate_step_inv in H as (candle & _ & H). cbv zeta in H.
  apply (exit_step_books candle) in Hb.
  assert (Hrec : forall st1, books_ok st1 ->
    books_ok (record_equity run_id (c_close_time candle) (c_close candle) st1)).
  { intros st1. apply books_ok_fields; [done|]. cbn. auto. }
  destruct H as [->|(signal & st2 & recorded & Hs & ->)]; [by apply Hrec|].
  assert (books_ok st2); [|by destruct recorded; [apply Hrec|]].
  revert Hb. apply books_ok_fields; [by eapply signal_step_books|].
  apply signal_step_cases in Hs
    as [(reason & _ & [->|[Hp ->]])|(p & k & entry & Hp & _ & _ & _ & Hopen & ->)]; cbn; auto.
  - done.
  - intros q [= <-]. right. by eapply opened_position_fee.
Qed.

Lemma finish_books candles st : books_ok st -> books_ok (finish run_id created_at request candles st).
Proof.
  intros Hb. unfold finish. destruct (ss_position st) as [p|] eqn:Hp; [destruct (last candles) as [c|]|].
  - apply (books_ok_fields (close_position run_id created_at (BacktestRequest_config request) p
      (c_close_time c) (c_close c) "replay_end" (set_position None st) (br_strategy_id request)
      (br_symbol request))); [done|cbn; auto|by apply close_position_books].
  - by revert Hb; apply books_ok_fields.
  - by revert Hb; apply books_ok_fields.
Qed.

Context {DL : DecimalLaws DI}.

(** Every amount that settling the trades passes through has at most [k] digits before the point. *)
Fixpoint settle_within (k : Z) (cash : dec) (trades : list BacktestTrade) : Prop :=
  match trades with
  | [] => True
  | t :: trades =>
    let fits q := (Qabs q <= inject_Z (10 ^ k))%Q in
    fits (dval (bt_notional t) + dval (fee_of (bt_notional t)))%Q /\
    fits (dval cash - dval (spent t))%Q /\
    fits (dval (cash - spent t)%dec + dval (proceeds t))%Q /\
    fits (dval (proceeds t) - dval (bt_notional t))%Q /\
    fits (dval (proceeds t - bt_notional t)%dec - dval (fee_of (bt_notional t)))%Q /\
    settle_within k (settle cash t) trades
  end.

Lemma settle_near k trades : forall cash, 0 <= k <= 27 ->
  Forall trade_settled trades -> settle_within k cash trades ->
  near (dval (foldl settle cash trades))
    (dval cash + qsum (map (fun t => dval (bt_realized_pnl t)) trades))
    (inject_Z (5 * Z.of_nat (length trades)) * ulp k).
Proof.
  induction trades as [|t trades IH]; intros cash Hk Hset; cbn [foldl map settle_within length].
  - intros _. unfold qsum. cbn [foldr]. apply near_iff. change (inject_Z (5 * Z.of_nat 0)) with 0%Q. lra.
  - apply Forall_cons in Hset as [(_ & _ & Hpnl & _) Hset].
    intros (B1 & B2 & B3 & B4 & B5 & Hw). specialize (IH _ Hk Hset Hw).
    pose proof (dadd_near _ _ _ Hk B1) as N1. pose proof (dsub_near _ _ _ Hk B2) as N2.
    pose proof (dadd_near _ _ _ Hk B3) as N3. pose proof (dsub_near _ _ _ Hk B4) as N4.
    pose proof (dsub_near _ _ _ Hk B5) as N5. fold (spent t) in N1. fold (settle cash t) in N3.
    rewrite Nat2Z.inj_succ, <- Z.add_1_r, Z.mul_add_distr_l, inject_Z_plus.
    change (inject_Z (5 * 1)) with 5%Q. unfold qsum in *. cbn [foldr]. rewrite Hpnl.
    rewrite near_iff in *. lra.
Qed.

(** C5.  The books of a completed backtest.  Every trade is closed; it earned its exit value
    less the exit fee, the entry value and the entry fee, and paid both fees.  The final equity
    is the initial capital settled with the trades in their order, the profit is the difference
    of the two, and fees and slippage are the sums of the trades' fees and slippage.  These are
    equalities of decimals, whatever the operations round.  Measured in exact arithmetic, with
    amounts of at most [k] digits before the point (28 digits in all), the final equity is off
    the initial capital plus the trades' results by at most five units of the 28th digit per
    trade. *)
Theorem backtest_books_balance candles be :
  candles <> [] ->
  simulate_backtest new_v4 run_id created_at correlation_id request config candles = Ok be ->
  let r := be_result be in let trades := be_trades be in
  Forall trade_settled trades /\
  bs_final_equity r = foldl settle (br_initial_capital request) trades /\
  bs_pnl r = (bs_final_equity r - br_initial_capital request)%dec /\
  bs_fee_paid r = dsum (map bt_fee_paid trades) /\
  bs_slippage_cost r = dsum (map bt_slippage_cost trades) /\
  forall k, 0 <= k <= 27 -> settle_within k (br_initial_capital request) trades ->
    near (dval (bs_final_equity r))
      (dval (br_initial_capital request) + qsum (map (fun t => dval (bt_realized_pnl t)) trades))
      (inject_Z (5 * Z.of_nat (length trades)) * ulp k).
Proof.
  intros Hne H. destruct candles as [|c cs]; [done|]. unfold simulate_backtest in H.
  apply bind_ok_inv in H as (sid & _ & H). apply bind_ok_inv in H as (sym & _ & H).
  apply bind_ok_inv in H as (st & Hrun & H). injection H as <-. cbn -[qsum].
  assert (Hb : books_ok st).
  { refine (fold_seq_inv _ (fun _ s => books_ok s) _ _ _ _ _ Hrun); [by split|].
    intros i s s' _ Hs Hstep. by eapply simulate_step_books. }
  apply (finish_books (c :: cs)) in Hb as [Hc Hf Hs Ht _].
  do 5 (split; [done|]). intros k Hk Hw. rewrite Hc. by apply settle_near.
Qed.
End Books.

(** ** The counters *)

Section Counters.
Context {DI : Decimal} {CH : Chrono} {JS : Json}.
Context (new_v4 : nat -> Z) (run_id created_at correlation_id : Z).
Context (request : BacktestRequest) (config : StrategyConfig).

Definition all_suppressions (counts : list (Z * Z)) : Z :=
  suppression_count counts ReplaySuppressionReason.CooldownActive
  + suppression_count counts ReplaySuppressionReason.PositionAlreadyOpen
  + suppression_count counts ReplaySuppressionReason.InsufficientForwardData
  + suppression_count counts ReplaySuppressionReason.InvalidSignal
  + suppression_count counts ReplaySuppressionReason.None_.

Definition open_positions (st : SimulationState) : Z :=
  match ss_position st with Some _ => 1 | None => 0 end.

Record counters_ok (i : nat) (st : SimulationState) : Prop := {
  co_tree : btree_ok (ss_suppression_counts st);
  co_nonneg : forall reason, 0 <= suppression_count (ss_suppression_counts st) reason;
  co_raw : ss_raw_signal_count st = all_suppressions (ss_suppression_counts st);
  co_bound : ss_raw_signal_count st <= Z.of_nat i;
  co_executed : suppression_count (ss_suppression_counts st) ReplaySuppressionReason.None_
                = Z.of_nat (length (ss_trades st)) + open_positions st
}.

(** Incrementing one counter, while it fits an [i32]. *)
Lemma suppression_count_record st reason reason' :
  btree_ok (ss_suppression_counts st) ->
  0 <= suppression_count (ss_suppression_counts st) reason < 2 ^ 31 - 1 ->
  suppression_count (ss_suppression_counts (record_suppression st reason)) reason'
    = suppression_count (ss_suppression_counts st) reason'
      + if bool_decide (reason = reason') then 1 else 0.
Proof.
  intros Hok Hb. unfold suppression_count in *. cbn [record_suppression ss_suppression_counts].
  destruct (bool_decide_reflect (reason = reason')) as [<-|Hne].
  - rewrite btree_get_update_eq by done. cbn. unfold i32_add. by rewrite wrap_i32_id by lia.
  - rewrite btree_get_update_ne; [lia|]. by destruct reason, reason'.
Qed.


Lemma suppression_le_all counts reason :
  (forall r, 0 <= suppression_count counts r) -> suppression_count counts reason <= all_suppressions counts.
Proof.
  intros H. unfold all_suppressions.
  pose proof (H ReplaySuppressionReason.CooldownActive).
  pose proof (H ReplaySuppressionReason.PositionAlreadyOpen).
  pose proof (H ReplaySuppressionReason.InsufficientForwardData).
  pose proof (H ReplaySuppressionReason.InvalidSignal).
  pose proof (H ReplaySuppressionReason.None_). destruct reason; lia.
Qed.

(** Counting a signal and recording its reason keeps the counters consistent,
    when a position is opened exactly for the reason [None]. *)
Lemma signal_counters i reason st st' :
  Z.of_nat i < 2 ^ 31 - 1 -> counters_ok i st ->
  btree_ok (ss_suppression_counts st') ->
  (forall r, suppression_count (ss_suppression_counts st') r
     = suppression_count (ss_suppression_counts st) r + if bool_decide (reason = r) then 1 else 0) ->
  ss_raw_signal_count st' = i32_add (ss_raw_signal_count st) 1 ->
  ss_trades st' = ss_trades st ->
  open_positions st' = open_positions st
    + (if bool_decide (reason = ReplaySuppressionReason.None_) then 1 else 0) ->
  counters_ok (i + 1) st'.
Proof.
  intros Hi [Ht Hn Hr Hb He] Hbt Hc Hraw Htr Hop.
  pose proof (suppression_le_all _ ReplaySuppressionReason.None_ Hn).
  pose proof (Hn ReplaySuppressionReason.None_).
  unfold i32_add in Hraw. rewrite wrap_i32_id in Hraw by lia. split.
  - done.
  - intros r. rewrite Hc. pose proof (Hn r). destruct (bool_decide (reason = r)); lia.
  - rewrite Hraw, Hr. unfold all_suppressions. rewrite !Hc.
    destruct reason; repeat match goal with
    | |- context [bool_decide ?P] => let b := eval vm_compute in (bool_decide P) in
                                     change (bool_decide P) with b end; cbv iota; lia.
  - lia.
  - rewrite Hc, Htr, Hop, He. lia.
Qed.

Lemma simulate_step_counters strategy_id symbol candles st i st' :
  Z.of_nat i < 2 ^ 31 - 1 ->
  simulate_step new_v4 run_id created_at correlation_id request strategy_id symbol config candles
    st i = Ok st' -> counters_ok i st -> counters_ok (i + 1) st'.
Proof.
  intros Hi H Hc. apply simulate_step_inv in H as (candle & _ & H). cbv zeta in H.
  assert (Hexit : counters_ok i (exit_step run_id created_at request candle st)).
  { destruct (exit_step_cases run_id created_at request candle st)
      as [[-> _]|(p & Hp & [(price & reason & ->) | ->])]; [done|..];
      destruct Hc as [Ht Hn Hr Hb He]; split; try done; cbn -[suppression_count open_positions]; rewrite He;
      unfold open_positions; rewrite Hp; cbn; rewrite ?length_app; cbn; lia. }
  revert H Hexit. generalize (exit_step run_id created_at request candle st).
  intros st1 H Hc1. assert (Hkeep : counters_ok (i + 1) st1).
  { destruct Hc1 as [Ht Hn Hr Hb He]. split; try done. lia. }
  assert (Hrec : forall s price, counters_ok (i + 1) s ->
            counters_ok (i + 1) (record_equity run_id (c_close_time candle) price s))
    by (intros s price [Ht Hn Hr Hb He]; by split).
  destruct H as [->|(signal & st2 & recorded & Hs & ->)]; [by apply Hrec|].
  assert (Hst2 : counters_ok (i + 1) st2); [|by destruct recorded; [apply Hrec|]].
  assert (Hcount : forall reason s, ss_suppression_counts s = ss_suppression_counts st1 ->
     btree_ok (ss_suppression_counts (record_suppression s reason)) /\
     forall r, suppression_count (ss_suppression_counts (record_suppression s reason)) r
       = suppression_count (ss_suppression_counts st1) r + if bool_decide (reason = r) then 1 else 0).
  { intros reason s Hs1. destruct Hc1 as [Ht Hn Hr Hb He]. split.
    - apply btree_update_ok. by rewrite Hs1.
    - intros r. rewrite suppression_count_record; rewrite Hs1; [done..|].
      pose proof (suppression_le_all _ reason Hn). pose proof (Hn reason). lia. }
  apply signal_step_cases in Hs as [(reason & Hne & [->|[Hp ->]])|(p & k & entry & Hp & _ & _ & _ & _ & ->)].
  - eapply (signal_counters i reason st1); try done; try (by apply Hcount).
    rewrite bool_decide_eq_false_2 by done. by rewrite Z.add_0_r.
  - eapply (signal_counters i reason st1); try done; try (by apply Hcount).
    rewrite bool_decide_eq_false_2 by done. unfold open_positions. cbn. rewrite Hp. lia.
  - eapply (signal_counters i ReplaySuppressionReason.None_ st1); try done; try (by apply Hcount).
    unfold open_positions. cbn. rewrite Hp. done.
Qed.

(** The counters of a backtest account for every signal: the raw signal
    count is the sum of the five entries of the suppression breakdown, the
    entry [None] is the number of executed trades (every position that was
    opened has been closed by the end), and winners and losers are trades. *)
Theorem backtest_counts_every_signal candles be :
  candles <> [] -> Z.of_nat (length candles) < 2 ^ 31 ->
  simulate_backtest new_v4 run_id created_at correlation_id request config candles = Ok be ->
  let r := be_result be in
  map rc_reason (bs_suppression_breakdown r) = ReplaySuppressionReason.variants /\
  bs_raw_signal_count r
    = foldr Z.add 0 (map rc_count (bs_suppression_breakdown r)) /\
  (forall e, In e (bs_suppression_breakdown r) -> 0 <= rc_count e) /\
  (forall e, In e (bs_suppression_breakdown r) -> rc_reason e = ReplaySuppressionReason.None_ ->
     rc_count e = bs_executed_trade_count r) /\
  bs_executed_trade_count r = Z.of_nat (length (be_trades be)) /\
  bs_trade_count r = bs_executed_trade_count r /\
  bs_raw_signal_count r <= Z.of_nat (length candles) /\
  bs_winning_trades r + bs_losing_trades r <= bs_trade_count r.
Proof.
  intros Hne Hlen H. destruct candles as [|c cs]; [done|]. unfold simulate_backtest in H.
  apply bind_ok_inv in H as (sid & _ & H). apply bind_ok_inv in H as (sym & _ & H).
  apply bind_ok_inv in H as (st & Hrun & H). injection H as <-.
  assert (Hc : counters_ok (length (c :: cs)) st).
  { refine (fold_seq_inv _ counters_ok _ _ _ _ _ Hrun).
    - split; cbn; try done; constructor.
    - intros i s s' Hi Hs Hstep. eapply simulate_step_counters; [|done|done]. lia. }
  assert (Hf : counters_ok (length (c :: cs)) (finish run_id created_at request (c :: cs) st) /\
               ss_position (finish run_id created_at request (c :: cs) st) = None).
  { destruct Hc as [Ht Hn Hr Hb He]. unfold finish.
    destruct (ss_position st) as [p|] eqn:Hp; [destruct (last_nonempty (c :: cs)) as [l ->]; [cbn; lia|]|];
      (split; [split|]); try done; cbn -[suppression_count open_positions]; rewrite He; unfold open_positions; rewrite Hp; cbn;
      rewrite ?length_app; cbn; lia. }
  revert Hf. clear Hc Hrun. generalize (finish run_id created_at request (c :: cs) st). clear st.
  intros st [[Ht Hn Hr Hb He] Hp].
  pose proof (suppression_le_all _ ReplaySuppressionReason.None_ Hn) as Hle.
  unfold open_positions in He. rewrite Hp in He.
  cbn [be_result be_trades build_result bs_suppression_breakdown bs_raw_signal_count
    bs_executed_trade_count bs_trade_count bs_winning_trades bs_losing_trades].
  assert (Hw : wrap_i32 (Z.of_nat (length (ss_trades st))) = Z.of_nat (length (ss_trades st)))
    by (apply wrap_i32_id; lia).
  rewrite Hw. split; [done|]. split; [rewrite Hr; unfold all_suppressions; cbn; lia|].
  split. { intros e He'. apply in_map_iff in He' as (r & <- & _). apply Hn. }
  split. { intros e He' Hr'. apply in_map_iff in He' as (r & <- & _). cbn in *. subst r. lia. }
  split; [done|]. split; [done|]. split; [done|].
  pose proof (filter_disjoint_length (fun trade => (bt_realized_pnl trade >? ZERO)%dec)
    (fun trade => (bt_realized_pnl trade <? ZERO)%dec) (ss_trades st)) as Hfd.
  assert (Hdisj : forall x, (bt_realized_pnl x >? ZERO)%dec = true -> (bt_realized_pnl x <? ZERO)%dec = false).
  { intros x Hx. apply dltb_lt in Hx. apply dltb_ge. lra. }
  specialize (Hfd Hdisj). rewrite !wrap_i32_id by lia. lia.
Qed.
End Counters.

(** ** No look-ahead *)

Section LookAhead.
Context {DI : Decimal} {CH : Chrono} {JS : Json}.
Context (new_v4 : nat -> Z) (run_id created_at correlation_id : Z).
Context (request : BacktestRequest) (strategy_id : StrategyId.t) (symbol : Symbol).
Context (config : StrategyConfig).

(** How many candles after the signal an entry can depend on: the entry candle,
    and the confirmation candles before it. *)
Definition entry_horizon : nat :=
  if bool_decide (sc_strategy_id config = StrategyId.FailedBreakdownReclaimV1)
  then (Z.to_nat (sc_confirmation_candles config) + 1)%nat else 1%nat.

Lemma slice_prefix (p r : list Candle) a b :
  (a <= b <= length p)%nat -> slice (E := CoreError.t) (p ++ r) a b = slice p a b.
Proof.
  intros H. rewrite !slice_le by (rewrite ?length_app; lia). f_equal.
  rewrite skipn_app, firstn_app, length_skipn.
  replace (b - a - (length p - a))%nat with 0%nat by lia. by rewrite app_nil_r.
Qed.

Lemma index_prefix (p r : list Candle) i :
  (i < length p)%nat -> Prelude.index (E := CoreError.t) (p ++ r) i = Prelude.index p i.
Proof. intros H. unfold Prelude.index. by rewrite lookup_app_l by done. Qed.

Lemma confirmed_entry_prefix p r i : (i + entry_horizon < length p)%nat ->
  confirmed_entry_index config (p ++ r) i = confirmed_entry_index config p i.
Proof.
  unfold entry_horizon, confirmed_entry_index. intros H.
  destruct (bool_decide _); cbn [negb]; [|done]. cbv zeta.
  destruct (_ =? 0)%nat; [done|].
  rewrite lookup_app_l by lia. destruct (p !! i) as [c|]; [|done].
  destruct (Nat.ltb_spec i (Z.to_nat (sc_lookback_candles config))); [done|].
  rewrite slice_prefix by lia. set (k := Z.to_nat (sc_confirmation_candles config)) in *.
  rewrite (proj2 (Nat.ltb_lt (i + k) (length (p ++ r)))) by (rewrite length_app; lia).
  rewrite (proj2 (Nat.ltb_lt (i + k) (length p))) by lia. cbn [negb].
  rewrite skipn_app, firstn_app, length_skipn.
  replace (k - (length p - (i + 1)))%nat with 0%nat by lia. by rewrite app_nil_r.
Qed.

Lemma confirmed_entry_horizon cs i k :
  confirmed_entry_index config cs i = Ok (Some k) -> (k <= i + entry_horizon)%nat.
Proof.
  unfold entry_horizon, confirmed_entry_index. intros H.
  destruct (bool_decide _); cbn [negb] in H; [|injection H as <-; lia]. cbv zeta in H.
  destruct (_ =? 0)%nat; [injection H as <-; lia|].
  destruct (cs !! i); [|done]. destruct (_ <? _)%nat; [done|].
  apply bind_ok_inv in H as (w & _ & H).
  repeat (match type of H with (if ?b then _ else _) = _ => destruct b end; [done|]).
  injection H as <-. lia.
Qed.

Lemma signal_step_prefix p r i candle signal st : (i + entry_horizon < length p)%nat ->
  signal_step request config (p ++ r) i candle signal st
    = signal_step request config p i candle signal st.
Proof.
  intros H. unfold signal_step. cbv zeta. rewrite confirmed_entry_prefix by done.
  destruct (negb _); [done|]. destruct (cooldown_active _ _ _); [done|].
  destruct (ss_position _); [done|].
  destruct (confirmed_entry_index config p i) as [[k|]| |] eqn:Hk; cbn [mbind res_bind]; try done.
  apply confirmed_entry_horizon in Hk. rewrite length_app.
  destruct (Nat.leb_spec (length p + length r) k), (Nat.leb_spec (length p) k); try lia.
  rewrite index_prefix by lia. done.
Qed.

(** C6.  A backtest does not look ahead: the state after the first [k] candles
    is a function of those candles, the next one (whose open is the entry
    price) and the confirmation candles of the strategy.  What comes later
    ([r]) has no influence on it, whatever the strategy. *)
Theorem backtest_no_look_ahead p r k :
  (k + entry_horizon <= length p)%nat ->
  let run cs := fold_res (simulate_step new_v4 run_id created_at correlation_id request strategy_id
                            symbol config cs) (initial_state request) (seq 0 k) in
  run (p ++ r) = run p.
Proof.
  intros H. cbv zeta. generalize (initial_state request).
  assert (forall l st, Forall (fun i => (i + entry_horizon < length p)%nat) l ->
    fold_res (simulate_step new_v4 run_id created_at correlation_id request strategy_id symbol
      config (p ++ r)) st l
    = fold_res (simulate_step new_v4 run_id created_at correlation_id request strategy_id symbol
      config p) st l) as Hall.
  { induction l as [|i l IH]; intros st Hl; [done|]. inversion Hl as [|? ? Hi Hl']; subst. cbn.
    assert (simulate_step new_v4 run_id created_at correlation_id request strategy_id symbol
      config (p ++ r) st i = simulate_step new_v4 run_id created_at correlation_id request
      strategy_id symbol config p st i) as ->.
    { unfold simulate_step. rewrite index_prefix by lia. destruct (Prelude.index p i); [|done..].
      cbn [mbind res_bind]. cbv zeta. rewrite take_app_le by lia.
      destruct (evaluate _ _) as [ev| |]; [|done..]. cbn [mbind res_bind].
      destruct (sr_signal ev); [|done]. by rewrite signal_step_prefix. }
    destruct (simulate_step _ _ _ _ _ _ _ _ p st i); [by apply IH|done..]. }
  intros st. apply Hall. apply List.Forall_forall. intros i Hi. apply in_seq in Hi. lia.
Qed.
End LookAhead.

(** ** Sequencing of trades *)

Section Sequence.
Context {DI : Decimal} {CH : Chrono} {JS : Json}.
Context (new_v4 : nat -> Z) (run_id created_at correlation_id : Z).
Context (request : BacktestRequest) (config : StrategyConfig) (candles : list Candle).

(** Each candle closes no earlier than it opens and no later than the next opens. *)
Definition chronological : Prop :=
  Forall (fun c => c_open_time c <= c_close_time c) candles /\
  forall i a b, candles !! i = Some a -> candles !! S i = Some b -> c_close_time a <= c_open_time b.

(** Entries happen at the next candle: no confirmation candles are waited for. *)
Definition enters_on_next_candle : Prop :=
  sc_strategy_id config <> StrategyId.FailedBreakdownReclaimV1 \/ sc_confirmation_candles config = 0.

(** [t] then [t']: the first is over when the second starts, and the entries
    are a cooldown apart. *)
Definition trade_before (t t' : BacktestTrade) : Prop :=
  (exists x, bt_exit_time t = Some x /\ x <= bt_entry_time t') /\
  sc_cooldown_seconds config * NANOS <= bt_entry_time t' - bt_entry_time t.

Definition trade_proper (t : BacktestTrade) : Prop :=
  exists x, bt_exit_time t = Some x /\ bt_entry_time t <= x.

(** The invariant before candle [i]: everything recorded happened by [time]. *)
Record sequence_ok (time : Z) (st : SimulationState) : Prop := {
  so_proper : Forall trade_proper (ss_trades st);
  so_sorted : StronglySorted trade_before (ss_trades st);
  so_past : Forall (fun t => exists x, bt_exit_time t = Some x /\ x <= time) (ss_trades st);
  so_last : Forall (fun t => exists e, ss_last_executed_entry_time st = Some e /\ bt_entry_time t <= e)
              (ss_trades st);
  so_position : forall p, ss_position st = Some p ->
    ss_last_executed_entry_time st = Some (bp_entry_time p) /\
    Forall (fun t => (exists x, bt_exit_time t = Some x /\ x <= bp_entry_time p) /\
              sc_cooldown_seconds config * NANOS <= bp_entry_time p - bt_entry_time t)
      (ss_trades st)
}.

Lemma sequence_ok_later time time' st : time <= time' -> sequence_ok time st -> sequence_ok time' st.
Proof.
  intros Hle [H1 H2 H3 H4 H5]. split; try done. eapply Forall_impl; [exact H3|].
  cbn. intros t (x & Hx & Hle'). exists x. split; [done|lia].
Qed.

(** Closing the position at [exit_time]. *)
Lemma close_sequence p time exit_time price reason st sid sym :
  sequence_ok time st -> ss_position st = Some p ->
  bp_entry_time p <= exit_time -> time <= exit_time ->
  sequence_ok exit_time (set_position None (close_position run_id created_at
    (BacktestRequest_config request) p exit_time price reason (set_position None st) sid sym)).
Proof.
  intros Hs Hp Hpe Hte. destruct (sequence_ok_later _ _ _ Hte Hs) as [H1 H2 H3 H4 H5].
  destruct (H5 p Hp) as [Hlast Hall].
  assert (Forall (fun t => exists x, bt_exit_time t = Some x /\ x <= exit_time) (ss_trades st)) by done.
  split; cbn.
  - apply Forall_app. split; [done|]. repeat constructor. by exists exit_time.
  - apply strongly_sorted_snoc; [done|]. eapply Forall_impl; [exact Hall|]. done.
  - apply Forall_app. split; [done|]. repeat constructor. exists exit_time. split; [done|lia].
  - apply Forall_app. split; [done|]. repeat constructor. exists (bp_entry_time p).
    split; [done|cbn; lia].
  - done.
Qed.

Lemma entry_on_next i k :
  enters_on_next_candle -> confirmed_entry_index config candles i = Ok (Some k) -> k = S i.
Proof.
  unfold confirmed_entry_index. intros [Hn|Hn] H.
  - rewrite bool_decide_eq_false_2 in H by done. injection H as <-. lia.
  - rewrite Hn in H. destruct (negb _); cbn in H; injection H as <-; lia.
Qed.

Lemma opened_position_entry bc next cash p :
  maybe_open_position bc config next cash = Ok (Some p) -> bp_entry_time p = c_open_time next.
Proof.
  unfold maybe_open_position. cbv zeta. intros H.
  apply bind_ok_inv in H as (m & _ & H). destruct (_ <=? _)%dec; [done|].
  apply bind_ok_inv in H as (q & _ & H). destruct (_ <=? _)%dec; [done|].
  by injection H as <-.
Qed.

Hypothesis chrono : chronological.
Hypothesis next_candle : enters_on_next_candle.

Lemma candles_monotone i j a b : (i <= j)%nat -> candles !! i = Some a -> candles !! j = Some b ->
  c_open_time a <= c_open_time b /\ c_open_time a <= c_close_time b.
Proof.
  destruct chrono as [Hoc Hnext]. rewrite Forall_lookup in Hoc.
  intros Hij Ha. revert b. induction Hij as [|j Hij IH]; intros b Hb.
  - assert (a = b) as -> by congruence. apply Hoc in Hb. lia.
  - destruct (lookup_lt_is_Some_2 candles j) as [c Hc]; [apply lookup_lt_Some in Hb; lia|].
    destruct (IH c Hc) as [H1 H2]. pose proof (Hnext j c b Hc Hb). pose proof (Hoc _ _ Hb). cbn in *. lia.
Qed.

(** The moment candle [i] is about to be processed. *)
Definition end_of (i : nat) : Z :=
  match i with
  | O => default 0 (option_map c_open_time (candles !! 0%nat))
  | S j => default 0 (option_map c_close_time (candles !! j))
  end.

Lemma end_of_le i c : candles !! i = Some c -> end_of i <= c_open_time c <= c_close_time c.
Proof.
  destruct chrono as [Hoc Hnext]. intros Hc. pose proof (proj1 (Forall_lookup _ _) Hoc _ _ Hc).
  destruct i as [|i]; cbn; [rewrite Hc; cbn in *; lia|].
  destruct (lookup_lt_is_Some_2 candles i) as [b Hb]; [apply lookup_lt_Some in Hc; lia|].
  rewrite Hb. cbn in *. pose proof (Hnext i b c Hb Hc). lia.
Qed.

(** The open position was entered on a candle no later than the one at hand. *)
Definition entered_by (i : nat) (st : SimulationState) : Prop :=
  forall p, ss_position st = Some p ->
    exists k c, (k <= i)%nat /\ candles !! k = Some c /\ bp_entry_time p = c_open_time c.

Definition ordered (i : nat) (st : SimulationState) : Prop :=
  sequence_ok (end_of i) st /\ entered_by i st.

(** Nothing that [ordered] looks at has changed. *)
Lemma sequence_ok_same time st st' :
  ss_trades st' = ss_trades st -> ss_position st' = ss_position st ->
  ss_last_executed_entry_time st' = ss_last_executed_entry_time st ->
  sequence_ok time st -> sequence_ok time st'.
Proof. intros Ht Hp Hl [H1 H2 H3 H4 H5]. split; rewrite ?Ht, ?Hl, ?Hp; done. Qed.

Lemma exit_ordered i c st : candles !! i = Some c -> ordered i st ->
  sequence_ok (c_close_time c) (exit_step run_id created_at request c st) /\
  entered_by i (exit_step run_id created_at request c st).
Proof.
  intros Hc [Hs He]. pose proof (end_of_le i c Hc) as Hle.
  destruct (exit_step_cases run_id created_at request c st)
    as [[-> Hp]|(p & Hp & [(price & reason & ->) | ->])].
  - split; [by eapply sequence_ok_later; [|exact Hs]; lia|done].
  - split; [|by intros ? [=]]. destruct (He p Hp) as (k & ck & Hk & Hck & Heq).
    apply (close_sequence p (end_of i)); [done|done| |lia].
    rewrite Heq. by eapply (candles_monotone k i).
  - split.
    + apply (sequence_ok_later _ (c_close_time c)) in Hs; [|lia]. destruct Hs as [H1 H2 H3 H4 H5].
      split; cbn; try done. intros q [= <-]. exact (H5 p Hp).
    + intros q [= <-]. exact (He p Hp).
Qed.

(** A new position starts after everything recorded, a cooldown after the last entry. *)
Lemma open_ordered i c entry st p :
  candles !! i = Some c -> candles !! S i = Some entry -> sequence_ok (c_close_time c) st ->
  cooldown_active (ss_last_executed_entry_time st) (c_close_time c) (sc_cooldown_seconds config)
    = false ->
  bp_entry_time p = c_open_time entry ->
  Forall (fun t => (exists x, bt_exit_time t = Some x /\ x <= bp_entry_time p) /\
            sc_cooldown_seconds config * NANOS <= bp_entry_time p - bt_entry_time t) (ss_trades st) /\
  Forall (fun t => bt_entry_time t <= bp_entry_time p) (ss_trades st).
Proof.
  intros Hc Hen [H1 H2 H3 H4 H5] Hcool Hp. pose proof (proj2 chrono i c entry Hc Hen) as Hnext.
  rewrite !List.Forall_forall in *. split; intros t Ht.
  - destruct (H3 t Ht) as (x & Hx & Hxle). destruct (H1 t Ht) as (x' & Hx' & Hex).
    assert (x' = x) as -> by congruence. split; [exists x; split; [done|lia]|].
    destruct (H4 t Ht) as (e & He & Hle). rewrite He in Hcool. cbn in Hcool.
    destruct (Z.eqb_spec (sc_cooldown_seconds config) 0) as [->|]; [lia|].
    apply Z.ltb_ge in Hcool. unfold seconds in Hcool. lia.
  - destruct (H3 t Ht) as (x & Hx & Hxle). destruct (H1 t Ht) as (x' & Hx' & Hex).
    assert (x' = x) as -> by congruence. lia.
Qed.

Lemma signal_ordered i c signal st st' recorded :
  candles !! i = Some c -> sequence_ok (c_close_time c) st -> entered_by i st ->
  signal_step request config candles i c signal st = Ok (st', recorded) ->
  sequence_ok (c_close_time c) st' /\ entered_by (S i) st'.
Proof.
  intros Hc Hs He H.
  assert (Hlater : forall st2, ss_position st2 = ss_position st -> entered_by (S i) st2).
  { intros st2 Hp p. rewrite Hp. intros Hq. destruct (He p Hq) as (k & ck & Hk & Hrest).
    exists k, ck. split; [lia|done]. }
  apply signal_step_cases in H
    as [(reason & Hne & [->|[Hp ->]])|(p & k & entry & Hp & Hcool & Hk & Hen & Hopen & ->)].
  - split; [by eapply sequence_ok_same; [..|exact Hs]|by apply Hlater].
  - split; [eapply sequence_ok_same; [..|exact Hs]; done|by apply Hlater].
  - apply entry_on_next in Hk as ->; [|done]. apply opened_position_entry in Hopen.
    destruct (open_ordered i c entry st p Hc Hen Hs Hcool Hopen) as [Hall Hle].
    split.
    + destruct Hs as [H1 H2 H3 H4 H5]. split; cbn; try done.
      * eapply Forall_impl; [exact Hle|]. cbn. intros t Ht. by exists (bp_entry_time p).
      * intros q [= <-]. done.
    + intros q [= <-]. by exists (S i), entry.
Qed.

Lemma simulate_step_ordered strategy_id symbol st i st' :
  simulate_step new_v4 run_id created_at correlation_id request strategy_id symbol config candles
    st i = Ok st' -> ordered i st -> ordered (S i) st'.
Proof.
  intros H Ho. apply simulate_step_inv in H as (c & Hc & H). cbv zeta in H.
  destruct (exit_ordered i c st Hc Ho) as [Hs He].
  assert (Hend : end_of (S i) = c_close_time c) by (cbn; by rewrite Hc).
  unfold ordered. rewrite Hend. destruct H as [->|(signal & st2 & recorded & Hsig & ->)].
  - split; [by eapply sequence_ok_same; [..|exact Hs]|]. intros p Hp.
    destruct (He p Hp) as (k & ck & Hk & Hrest). exists k, ck. split; [lia|done].
  - apply (signal_ordered i c) in Hsig as [Hs2 He2]; [|done..].
    destruct recorded; [|done]. split; [by eapply sequence_ok_same; [..|exact Hs2]|done].
Qed.

(** C14.  On chronological candles, and for a configuration that enters on the candle after
    the signal (any strategy but failed_breakdown_reclaim_v1, or that one without
    confirmation candles):
    every trade is closed, no earlier than it was opened; trades do not overlap
    and follow one another in time; and successive entries are at least the
    configured cooldown apart.  With confirmation candles this fails, see
    [confirmed_entry_exits_before_it_enters]. *)
Theorem backtest_trades_are_sequential be :
  simulate_backtest new_v4 run_id created_at correlation_id request config candles = Ok be ->
  Forall trade_proper (be_trades be) /\ StronglySorted trade_before (be_trades be).
Proof.
  unfold simulate_backtest. destruct candles as [|c0 cs] eqn:Hcs.
  { intros [= <-]. split; constructor. }
  rewrite <- Hcs. intros H.
  apply bind_ok_inv in H as (sid & _ & H). apply bind_ok_inv in H as (sym & _ & H).
  apply bind_ok_inv in H as (st & Hrun & H). injection H as <-. cbn [be_trades].
  assert (ordered (length candles) st) as [Hs He].
  { refine (fold_seq_inv _ ordered _ _ _ _ _ Hrun).
    - split; [split; cbn; try constructor; done|done].
    - intros i s s' Hi Ho Hstep. rewrite Nat.add_1_r. by eapply simulate_step_ordered. }
  unfold finish. destruct (ss_position st) as [p|] eqn:Hp; [|by destruct Hs].
  destruct (last_nonempty candles) as [l Hl]; [rewrite Hcs; cbn; lia|]. rewrite Hl.
  rewrite last_lookup in Hl.
  destruct (He p Hp) as (k & ck & Hk & Hck & Heq).
  assert (Hend : end_of (length candles) = c_close_time l).
  { destruct (length candles) as [|n] eqn:Hn; [by rewrite Hcs in Hn|]. cbn in *. by rewrite Hl. }
  apply (close_sequence p (end_of (length candles)) (c_close_time l) (c_close l) "replay_end"
    _ (br_strategy_id request) (br_symbol request)) in Hs as [H1 H2 _ _ _]; [done|done| |lia].
  rewrite Heq. eapply (candles_monotone k (pred (length candles))); [|done|done].
  apply lookup_lt_Some in Hck. lia.
Qed.
End Sequence.

(** ** Stop losses *)

Section StopLoss.
Context {DI : Decimal} {DL : DecimalLaws DI} {CH : Chrono} {JS : Json}.
Context (new_v4 : nat -> Z) (run_id created_at correlation_id : Z).
Context (request : BacktestRequest) (config : StrategyConfig) (candles : list Candle).

Definition not_stopped (st : SimulationState) : Prop :=
  Forall (fun t => bt_reason t <> "stop_loss"%string) (ss_trades st) /\
  forall p, ss_position st = Some p ->
    exists s, bp_stop_loss_price p = Some s /\ (dval s <= 0)%Q.

Lemma stop_price_nonpositive bc next cash pct p :
  sc_stop_loss_pct config = Some pct -> (1 <= dval pct)%Q -> (0 <= dval (c_open next))%Q ->
  (0 <= dval (bc_slippage_bps bc))%Q ->
  maybe_open_position bc config next cash = Ok (Some p) ->
  exists s, bp_stop_loss_price p = Some s /\ (dval s <= 0)%Q.
Proof.
  intros Hs Hpct Ho Hsl. unfold maybe_open_position. cbv zeta. intros H.
  apply bind_ok_inv in H as (m & _ & H). destruct (_ <=? _)%dec; [done|].
  apply bind_ok_inv in H as (q & _ & H). destruct (_ <=? _)%dec; [done|].
  injection H as <-. cbn. rewrite Hs. cbn. eexists. split; [done|].
  assert (0 <= dval (apply_entry_slippage (c_open next) (bc_slippage_bps bc)))%Q as Hp.
  { unfold apply_entry_slippage. apply dmul_nonneg; [done|].
    apply dadd_nonneg; [rewrite dval_ONE; lra|].
    assert (dval (dint BPS_DENOMINATOR) == 10000)%Q as Hd by (apply dval_int; unfold BPS_DENOMINATOR; lia).
    rewrite dval_div by (rewrite Hd; lra). apply drnd_nonneg. rewrite Hd.
    apply Qle_shift_div_l; lra. }
  rewrite dval_mul. apply drnd_nonpos.
  assert (dval (ONE - pct)%dec <= 0)%Q as Hn.
  { rewrite dval_sub. apply drnd_nonpos. rewrite dval_ONE. lra. }
  revert Hp Hn. generalize (dval (apply_entry_slippage (c_open next) (bc_slippage_bps bc))).
  generalize (dval (ONE - pct)%dec). intros x y Hy Hx. nra.
Qed.

Lemma exit_not_stopped candle st : (0 < dval (c_low candle))%Q -> not_stopped st ->
  not_stopped (exit_step run_id created_at request candle st).
Proof.
  intros Hlow [Ht Hp]. unfold exit_step. destruct (ss_position st) as [p|] eqn:E1;
    [|split; [done|by rewrite E1]].
  destruct (Hp p eq_refl) as (s & Hs & Hle). unfold evaluate_exit. cbv zeta. rewrite Hs.
  destruct (c_low candle <=? s)%dec eqn:E2; [dec_to_Q; lra|].
  destruct (match bp_take_profit_price p with Some q => _ | None => None end).
  - split; [|done]. cbn. apply Forall_app. split; [done|]. by repeat constructor.
  - destruct (_ =? 0).
    + split; [|done]. cbn. apply Forall_app. split; [done|]. by repeat constructor.
    + split; [done|]. intros q [= <-]. exists s. done.
Qed.

(** [stop_loss_pct] is a percentage wherever it is validated (above 0, at
    most 20) and the take profit divides it by 100, but the stop price is
    [entry * (1 - pct)]: with a stop loss of one percent or more no trade of a
    backtest is ever stopped out, however far the price falls. *)
Theorem stop_loss_of_one_percent_never_fires pct be :
  sc_stop_loss_pct config = Some pct -> (1 <= dval pct)%Q ->
  (0 <= dval (br_slippage_bps request))%Q ->
  Forall (fun c => 0 < dval (c_low c) /\ 0 <= dval (c_open c))%Q candles ->
  simulate_backtest new_v4 run_id created_at correlation_id request config candles = Ok be ->
  Forall (fun t => bt_reason t <> "stop_loss"%string) (be_trades be).
Proof.
  intros Hs Hpct Hsl Hcs. unfold simulate_backtest. destruct candles as [|c0 cs] eqn:Heq.
  { intros [= <-]. constructor. }
  rewrite <- Heq in *. intros H.
  apply bind_ok_inv in H as (sid & _ & H). apply bind_ok_inv in H as (sym & _ & H).
  apply bind_ok_inv in H as (st & Hrun & H). injection H as <-. cbn [be_trades].
  assert (not_stopped st) as [Ht Hp].
  { refine (fold_seq_inv _ (fun _ => not_stopped) _ _ _ _ _ Hrun); [by split|].
    intros i s s' _ Hi H. apply simulate_step_inv in H as (c & Hc & H). cbv zeta in H.
    rewrite Forall_lookup in Hcs. pose proof (Hcs i c Hc) as [Hlow _].
    apply (exit_not_stopped c) in Hi; [|done].
    destruct H as [->|(signal & st2 & recorded & Hsig & ->)]; [done|].
    enough (not_stopped st2) by (by destruct recorded).
    apply signal_step_cases in Hsig
      as [(reason & _ & [->|[_ ->]])|(p & k & entry & _ & _ & _ & Hen & Hopen & ->)].
    - done.
    - split; [apply Hi|done].
    - split; [apply Hi|]. intros q [= <-]. pose proof (Hcs k entry Hen) as [_ Ho].
      by eapply stop_price_nonpositive in Hopen. }
  unfold finish. destruct (ss_position st); [destruct (last candles)|]; [|done..].
  cbn. apply Forall_app. split; [done|]. by repeat constructor.
Qed.
End StopLoss.

Module ReplaySample.
#[local] Existing Instance ExactDecimal.
#[local] Existing Instance PlainChrono.
#[local] Existing Instance PlainJson.

Definition bar (i o h l c : Z) : Candle := {|
  c_id := i; c_exchange := MarketDataSource.Binance; c_symbol := {| symbol_text := "BTCUSDT" |};
  c_interval := CandleInterval.OneMinute; c_open_time := minutes i;
  c_close_time := minutes (i + 1) - milliseconds 1; c_open := dint o; c_high := dint h;
  c_low := dint l; c_close := dint c; c_volume := dint 10;
  c_quote_volume := None; c_trade_count := 3; c_is_closed := true;
  c_created_at := 0; c_updated_at := 0 |}.

Definition request (id : string) (holding : Z) : BacktestRequest := {|
  br_strategy_id := id; br_symbol := "BTCUSDT"; br_timeframe := "1m"; br_start_time := 0;
  br_end_time := minutes 20; br_initial_capital := dint 1000; br_risk_config_id := None;
  br_risk_config := None; br_fee_bps := dint 10; br_slippage_bps := dint 5;
  br_correlation_id := None; br_holding_candles := Some holding;
  br_strategy_config_override := None |}.

(** Momentum with a one percent stop loss, no cooldown. *)
Definition config (id : StrategyId.t) (lookback confirmation : Z) : StrategyConfig := {|
  sc_strategy_id := id; sc_enabled := true; sc_mode := StrategyMode.Paper;
  sc_symbols := [{| symbol_text := "BTCUSDT" |}]; sc_timeframe := CandleInterval.OneMinute;
  sc_suggested_notional := dint 50; sc_max_signal_age_ms := 120000; sc_cooldown_seconds := 60;
  sc_lookback_candles := lookback; sc_trend_lookback_candles := None;
  sc_momentum_lookback_candles := None; sc_compression_lookback_candles := None;
  sc_breakout_lookback_candles := None; sc_pullback_lookback_candles := None;
  sc_pullback_sma_lookback_candles := None; sc_compression_percentile_threshold := None;
  sc_min_breakout_pct := None; sc_max_breakout_extension_pct := None;
  sc_min_volume_expansion_ratio := None; sc_lower_band_pct := None; sc_upper_band_pct := None;
  sc_min_range_width_pct := None; sc_max_range_width_pct := None;
  sc_min_close_above_sma_pct := None; sc_max_close_above_sma_pct := None;
  sc_min_momentum_return_pct := None; sc_min_trend_return_pct := None;
  sc_min_trend_slope_pct := None; sc_min_pullback_depth_pct := None;
  sc_max_pullback_depth_pct := None; sc_min_reclaim_pct := None; sc_min_breakdown_pct := None;
  sc_min_reclaim_close_pct := None; sc_min_lower_wick_pct := None; sc_min_volume_ratio := None;
  sc_max_choppiness := None; sc_confidence_floor := None; sc_stop_loss_pct := Some (dint 1);
  sc_take_profit_pct := None; sc_holding_candles := None; sc_confirmation_candles := confirmation;
  sc_require_confirmation_close_above_lookback_low := false;
  sc_require_confirmation_low_above_breakdown_low := false; sc_notes := None |}.

Definition momentum : StrategyConfig := config StrategyId.MomentumV1 2 0.

(** Rising closes, then a crash to a tenth of the price. *)
Definition bars : list Candle :=
  [bar 0 100 102 99 101; bar 1 101 103 100 102; bar 2 102 104 101 103; bar 3 103 105 102 104;
   bar 4 104 106 10 11; bar 5 11 13 10 12; bar 6 12 14 11 13; bar 7 13 15 12 14].

Abbreviation outcome :=
  (simulate_backtest (fun i => Z.of_nat i) 7 0 8 (request "momentum_v1" 2) momentum bars).

Lemma outcome_ok : exists be, outcome = Ok be /\ length (be_trades be) = 2%nat /\
  bs_raw_signal_count (be_result be) = 4 /\ bs_cooldown_suppressed_count (be_result be) = 2.
Proof.
  assert (match outcome with
          | Ok be => (Z.of_nat (length (be_trades be)) =? 2) &&
                     (bs_raw_signal_count (be_result be) =? 4) &&
                     (bs_cooldown_suppressed_count (be_result be) =? 2)
          | _ => false end = true) as H by (vm_compute; reflexivity).
  destruct outcome as [be| |]; [|done..]. bool_to_prop. exists be. split; [done|].
  split; [lia|]. split; done.
Qed.

Example backtest_books_balance_witness : exists be : BacktestExecution, outcome = Ok be /\
  length (be_trades be) = 2%nat /\
  bs_fee_paid (be_result be) = dsum (map bt_fee_paid (be_trades be)).
Proof.
  destruct outcome_ok as (be & E1 & Hlen & _). exists be. split; [exact E1|]. split; [exact Hlen|].
  destruct (backtest_books_balance (DL := ExactDecimalLaws) _ _ _ _ _ _ bars be ltac:(discriminate) E1)
    as (_ & _ & _ & Hfee & _). exact Hfee.
Defined.

Example backtest_counts_every_signal_witness : exists be : BacktestExecution, outcome = Ok be /\
  bs_raw_signal_count (be_result be) = 4 /\ bs_cooldown_suppressed_count (be_result be) = 2 /\
  bs_executed_trade_count (be_result be) = Z.of_nat (length (be_trades be)).
Proof.
  destruct outcome_ok as (be & E1 & _ & Hraw & Hcool). exists be. split; [exact E1|].
  split; [exact Hraw|]. split; [exact Hcool|].
  pose proof (backtest_counts_every_signal _ _ _ _ _ _ bars be
    ltac:(discriminate) ltac:(vm_compute; reflexivity) E1) as (_ & _ & _ & _ & Hex & _). exact Hex.
Defined.

Example backtest_no_look_ahead_witness :
  let sym := {| symbol_text := "BTCUSDT" |} in
  let run cs := fold_res (simulate_step (fun i => Z.of_nat i) 7 0 8 (request "momentum_v1" 2)
    StrategyId.MomentumV1 sym momentum cs) (initial_state (request "momentum_v1" 2)) (seq 0 5) in
  run bars = run (firstn 6 bars) /\ exists st, run bars = Ok st.
Proof.
  cbv zeta. split.
  - exact (backtest_no_look_ahead (fun i => Z.of_nat i) 7 0 8 (request "momentum_v1" 2)
      StrategyId.MomentumV1 {| symbol_text := "BTCUSDT" |} momentum (firstn 6 bars) (skipn 6 bars) 5
      ltac:(vm_compute; lia)).
  - match goal with |- exists st, ?m = Ok st =>
      assert (is_ok m = true) as H by (vm_compute; reflexivity); destruct m as [st| |] end;
      [by exists st|discriminate H..].
Defined.

Lemma bars_chronological : chronological bars.
Proof.
  split; [repeat constructor; vm_compute; discriminate|].
  intros i a b Ha Hb.
  do 7 (destruct i as [|i]; [injection Ha as <-; injection Hb as <-; vm_compute; discriminate|]).
  destruct i as [|i]; [discriminate Hb|discriminate Ha].
Defined.
Example backtest_trades_are_sequential_witness : exists be : BacktestExecution, outcome = Ok be /\
  length (be_trades be) = 2%nat /\ StronglySorted (trade_before momentum) (be_trades be).
Proof.
  destruct outcome_ok as (be & E1 & Hlen & _). exists be. split; [exact E1|]. split; [exact Hlen|].
  exact (proj2 (backtest_trades_are_sequential _ _ _ _ _ momentum bars bars_chronological
    (or_intror eq_refl) be E1)).
Defined.

(** The price falls from 104 to 11 and the one percent stop loss is not used. *)
Example stop_loss_of_one_percent_never_fires_witness : exists be : BacktestExecution,
  outcome = Ok be /\ Forall (fun t => bt_reason t <> "stop_loss"%string) (be_trades be).
Proof.
  destruct outcome_ok as (be & E1 & _). exists be. split; [exact E1|].
  refine (stop_loss_of_one_percent_never_fires (DL := ExactDecimalLaws) _ _ _ _ _ momentum bars
    (dint 1) be eq_refl _ _ _ E1).
  - vm_compute. discriminate.
  - vm_compute. discriminate.
  - repeat constructor; vm_compute; (reflexivity || discriminate).
Defined.

(** A failed breakdown at candle 2, to be confirmed by two candles. *)
Definition reclaim_bars : list Candle :=
  [bar 0 101 102 100 101; bar 1 101 102 100 101; bar 2 101 103 99 102; bar 3 102 103 101 102;
   bar 4 102 103 101 102; bar 5 102 103 101 102; bar 6 102 103 101 102].

(** With confirmation candles the position exists from the signal on, but its
    entry candle lies after the confirmation: its holding period runs before
    it is entered, and the trade exits before its entry. *)
Example confirmed_entry_exits_before_it_enters : exists be t,
  simulate_backtest (fun i => Z.of_nat i) 7 0 8 (request "failed_breakdown_reclaim_v1" 1)
    (config StrategyId.FailedBreakdownReclaimV1 2 2) reclaim_bars = Ok be /\ In t (be_trades be) /\
  exists x, bt_exit_time t = Some x /\ x < bt_entry_time t.
Proof.
  assert (match simulate_backtest (fun i => Z.of_nat i) 7 0 8 (request "failed_breakdown_reclaim_v1" 1)
                  (config StrategyId.FailedBreakdownReclaimV1 2 2) reclaim_bars with
          | Ok be => existsb (fun t => match bt_exit_time t with
                                       | Some x => x <? bt_entry_time t | None => false end)
                       (be_trades be)
          | _ => false end = true) as H by (vm_compute; reflexivity).
  destruct (simulate_backtest _ _ _ _ _ _ _) as [be| |]; [|done..].
  apply existsb_exists in H as (t & Ht & H). exists be, t. split; [done|]. split; [done|].
  destruct (bt_exit_time t) as [x|]; [|done]. exists x. split; [done|lia].
Qed.
End ReplaySample.
