(* ===== verification/Experiment.v ===== *)
(** * Strategy experiments

    crates/core/src/lib.rs, 3226-4300, and crates/replay-engine/src/lib.rs, 3059-3647 and
    4732-4838.

    An experiment request lists candidate values for each parameter;
    [candidates] enumerates their combinations; each combination becomes a
    configuration request over the stored configuration, is validated, and is
    run with [simulate_backtest]; the runs are scored and ranked.  The nested
    [for] loops of [candidates] are binds of the list monad.  Identifiers drawn
    by [Uuid::new_v4] are arguments, one supply per place they are drawn. *)

From Stdlib Require Import ZArith QArith Lqa Lia List String Sorted Permutation.
From stdpp Require Import base list strings.
From S2P Require Import Prelude Text Host Types MarketData Risk Strategy StrategyRequest Replay.

#[local] Open Scope Z_scope.

Module StrategyExperimentStatus.
Inductive t := Pending | Running | Completed | Failed.
#[global] Instance eq_dec : EqDecision t.
Proof. solve_decision. Defined.
Definition as_str (x : t) : string :=
  match x with
  | Pending => "PENDING" | Running => "RUNNING" | Completed => "COMPLETED" | Failed => "FAILED"
  end.
End StrategyExperimentStatus.

#[export] Instance StrategyExperimentStatus_from_str : FromStr StrategyExperimentStatus.t := {|
  normalise := to_ascii_uppercase;
  table := [("PENDING", StrategyExperimentStatus.Pending);
    ("RUNNING", StrategyExperimentStatus.Running);
    ("COMPLETED", StrategyExperimentStatus.Completed);
    ("FAILED", StrategyExperimentStatus.Failed)];
  unsupported := CoreError.UnsupportedStrategyExperimentStatus
|}.
#[export] Instance StrategyExperimentStatus_from_str_laws :
  FromStrLaws StrategyExperimentStatus.t StrategyExperimentStatus.as_str.
Proof. split; intros []; vm_compute; reflexivity. Qed.

Module StrategyExperimentMetric.
Inductive t :=
    NetPnlPct | MaxDrawdownPct | TradeCount | WinRate | FeeSlippageDragPct | RiskAdjustedScore.
Definition as_str (x : t) : string :=
  match x with
  | NetPnlPct => "net_pnl_pct" | MaxDrawdownPct => "max_drawdown_pct" | TradeCount => "trade_count"
  | WinRate => "win_rate" | FeeSlippageDragPct => "fee_slippage_drag_pct"
  | RiskAdjustedScore => "risk_adjusted_score"
  end.
End StrategyExperimentMetric.

(** [values.filter(|v| !v.is_empty()).unwrap_or(fallback)] *)
Definition non_empty_or {A} (values : option (list A)) (fallback : list A) : list A :=
  match values with
  | Some (x :: l) => x :: l
  | _ => fallback
  end.

(** [cond.then_some(value)] *)
Definition then_some {A} (cond : bool) (value : A) : option A := if cond then Some value else None.

(** [option.filter(|_| cond).or(fallback)] *)
Definition filter_or {A} (cond : bool) (option fallback : option A) : Datatypes.option A :=
  match option with
  | Some value => if cond then Some value else fallback
  | None => fallback
  end.

(** [push] and [if max_runs.is_some_and(|m| len >= m) { return }] in the innermost loop. *)
Fixpoint push_until {A} (max_runs : option Z) (pushed all : list A) : list A :=
  match all with
  | [] => pushed
  | candidate :: all =>
    let pushed := pushed ++ [candidate] in
    if match max_runs with Some m => m <=? Z.of_nat (length pushed) | None => false end
    then pushed else push_until max_runs pushed all
  end.

Section ExperimentTypes.
Context {DI : Decimal}.

Record StrategyExperimentCandidate := {
  ec_lookback_candles : Z;
  ec_trend_lookback_candles : option Z;
  ec_momentum_lookback_candles : option Z;
  ec_compression_lookback_candles : option Z;
  ec_breakout_lookback_candles : option Z;
  ec_pullback_lookback_candles : option Z;
  ec_pullback_sma_lookback_candles : option Z;
  ec_compression_percentile_threshold : option dec;
  ec_min_breakout_pct : option dec;
  ec_max_breakout_extension_pct : option dec;
  ec_min_volume_expansion_ratio : option dec;
  ec_lower_band_pct : option dec;
  ec_upper_band_pct : option dec;
  ec_min_range_width_pct : option dec;
  ec_max_range_width_pct : option dec;
  ec_min_close_above_sma_pct : option dec;
  ec_max_close_above_sma_pct : option dec;
  ec_min_momentum_return_pct : option dec;
  ec_min_trend_return_pct : option dec;
  ec_min_trend_slope_pct : option dec;
  ec_min_pullback_depth_pct : option dec;
  ec_max_pullback_depth_pct : option dec;
  ec_min_reclaim_pct : option dec;
  ec_min_breakdown_pct : option dec;
  ec_min_reclaim_close_pct : option dec;
  ec_min_lower_wick_pct : option dec;
  ec_min_volume_ratio : option dec;
  ec_max_choppiness : option dec;
  ec_holding_candles : option Z;
  ec_stop_loss_pct : option dec;
  ec_take_profit_pct : option dec;
  ec_confirmation_candles : Z;
  ec_require_confirmation_close_above_lookback_low : bool;
  ec_require_confirmation_low_above_breakdown_low : bool;
  ec_max_signal_age_ms : option Z
}.

Record InvalidStrategyConfigExample := {
  ix_candidate : StrategyExperimentCandidate;
  ix_issues : list StrategyConfigValidationIssue
}.

Record StrategyExperimentRequest := {
  er_strategy_id : string;
  er_symbol : string;
  er_timeframe : string;
  er_start_time : Z;
  er_end_time : Z;
  er_initial_capital : dec;
  er_fee_bps : dec;
  er_slippage_bps : dec;
  er_lookback_candidates : list Z;
  er_trend_lookback_candidates : option (list Z);
  er_momentum_lookback_candidates : option (list Z);
  er_compression_lookback_candidates : option (list Z);
  er_breakout_lookback_candidates : option (list Z);
  er_pullback_lookback_candidates : option (list Z);
  er_pullback_sma_lookback_candidates : option (list Z);
  er_compression_percentile_threshold_candidates : option (list dec);
  er_min_breakout_pct_candidates : option (list dec);
  er_max_breakout_extension_pct_candidates : option (list dec);
  er_min_volume_expansion_ratio_candidates : option (list dec);
  er_lower_band_pct_candidates : option (list dec);
  er_upper_band_pct_candidates : option (list dec);
  er_min_range_width_pct_candidates : option (list dec);
  er_max_range_width_pct_candidates : option (list dec);
  er_min_close_above_sma_pct_candidates : option (list dec);
  er_max_close_above_sma_pct_candidates : option (list dec);
  er_min_momentum_return_pct_candidates : option (list dec);
  er_min_trend_return_pct_candidates : option (list dec);
  er_min_trend_slope_pct_candidates : option (list dec);
  er_min_pullback_depth_pct_candidates : option (list dec);
  er_max_pullback_depth_pct_candidates : option (list dec);
  er_min_reclaim_pct_candidates : option (list dec);
  er_min_breakdown_pct_candidates : option (list dec);
  er_min_reclaim_close_pct_candidates : option (list dec);
  er_min_lower_wick_pct_candidates : option (list dec);
  er_min_volume_ratio_candidates : option (list dec);
  er_max_choppiness_candidates : option (list dec);
  er_holding_candles_candidates : option (list Z);
  er_stop_loss_pct_candidates : option (list dec);
  er_take_profit_pct_candidates : option (list dec);
  er_confirmation_candles_candidates : option (list Z);
  er_require_confirmation_close_above_lookback_low_candidates : option (list bool);
  er_require_confirmation_low_above_breakdown_low_candidates : option (list bool);
  er_max_signal_age_ms : option Z;
  er_max_runs : option Z;
  er_correlation_id : option Z
}.

Record StrategyExperimentRun := {
  xr_id : Z;
  xr_experiment_id : Z;
  xr_rank : Z;
  xr_candidate : StrategyExperimentCandidate;
  xr_final_equity : dec;
  xr_pnl : dec;
  xr_pnl_pct : dec;
  xr_max_drawdown_pct : dec;
  xr_win_rate : dec;
  xr_trade_count : Z;
  xr_fee_paid : dec;
  xr_slippage_cost : dec;
  xr_fee_slippage_drag_pct : dec;
  xr_raw_signal_count : Z;
  xr_cooldown_suppressed_count : Z;
  xr_open_position_suppressed_count : Z;
  xr_executed_trade_count : Z;
  xr_suppression_breakdown : list ReplaySuppressionCount;
  xr_last_signal_time : option Z;
  xr_last_executed_entry_time : option Z;
  xr_score : dec;
  xr_status : StrategyExperimentStatus.t;
  xr_warnings : list string;
  xr_created_at : Z
}.

Record StrategyExperimentComparison := {
  xc_ranking_metric : StrategyExperimentMetric.t;
  xc_best_run_id : option Z;
  xc_worst_run_id : option Z;
  xc_ranked_run_ids : list Z
}.

Record StrategyExperimentResult := {
  xs_experiment_id : Z;
  xs_experiment_group_id : option Z;
  xs_strategy_id : string;
  xs_symbol : string;
  xs_timeframe : string;
  xs_start_time : Z;
  xs_end_time : Z;
  xs_initial_capital : dec;
  xs_fee_bps : dec;
  xs_slippage_bps : dec;
  xs_max_signal_age_ms : option Z;
  xs_max_runs : option Z;
  xs_status : StrategyExperimentStatus.t;
  xs_run_count : Z;
  xs_total_candidate_configs : Z;
  xs_skipped_invalid_config_count : Z;
  xs_executed_config_count : Z;
  xs_invalid_config_examples : list InvalidStrategyConfigExample;
  xs_comparison : StrategyExperimentComparison;
  xs_best_run : option StrategyExperimentRun;
  xs_worst_run : option StrategyExperimentRun;
  xs_candle_count : option Z;
  xs_warnings : list string;
  xs_skipped_reason : option string;
  xs_created_at : Z;
  xs_correlation_id : option Z
}.

Record StrategyExperimentExecution := {
  xe_result : StrategyExperimentResult;
  xe_runs : list StrategyExperimentRun
}.

Definition StrategyExperimentRequest_validate (self : StrategyExperimentRequest) : result unit :=
  if is_empty (trim (er_strategy_id self)) then Err CoreError.EmptyStrategyExperimentStrategyId else
  if is_empty (trim (er_symbol self)) then Err CoreError.EmptyStrategyExperimentSymbol else
  if is_empty (trim (er_timeframe self)) then Err CoreError.EmptyStrategyExperimentTimeframe else
  if er_end_time self <=? er_start_time self then
    Err CoreError.InvalidStrategyExperimentTimeRange else
  if (er_initial_capital self <=? ZERO)%dec then
    Err CoreError.InvalidStrategyExperimentInitialCapital else
  _ ← from_str (A := CandleInterval.t) (er_timeframe self);
  if (er_fee_bps self <? ZERO)%dec then Err (CoreError.InvalidBacktestBps "fee_bps") else
  if (er_slippage_bps self <? ZERO)%dec then Err (CoreError.InvalidBacktestBps "slippage_bps") else
  if bool_decide (er_lookback_candidates self = []) then
    Err CoreError.EmptyStrategyExperimentCandidates else
  let lookbacks := default [] (er_trend_lookback_candidates self)
    ++ default [] (er_momentum_lookback_candidates self)
    ++ default [] (er_compression_lookback_candidates self)
    ++ default [] (er_breakout_lookback_candidates self)
    ++ default [] (er_pullback_lookback_candidates self)
    ++ default [] (er_pullback_sma_lookback_candidates self) in
  if existsb (fun lookback => lookback =? 0) lookbacks then
    Err CoreError.EmptyStrategyExperimentCandidates else
  if match er_max_runs self with Some max_runs => max_runs =? 0 | None => false end then
    Err CoreError.InvalidStrategyExperimentMaxRuns else
  if existsb (fun holding => holding =? 0) (default [] (er_holding_candles_candidates self)) then
    Err CoreError.InvalidHoldingCandles else
  match er_max_signal_age_ms self with
  | Some max_signal_age_ms =>
    if max_signal_age_ms <=? 0 then Err (CoreError.InvalidStrategyMaxSignalAgeMs max_signal_age_ms)
    else Ok tt
  | None => Ok tt
  end.

(** The three enumerations, each in the order its loops push. *)
Definition reclaim_grid (self : StrategyExperimentRequest) : list StrategyExperimentCandidate :=
  lookback_candles ← er_lookback_candidates self;
  min_breakdown_pct ← non_empty_or (er_min_breakdown_pct_candidates self) [dnew 5 2];
  min_reclaim_close_pct ← non_empty_or (er_min_reclaim_close_pct_candidates self) [ZERO];
  min_lower_wick_pct ← non_empty_or (er_min_lower_wick_pct_candidates self) [ONE];
  min_volume_ratio ← non_empty_or (er_min_volume_ratio_candidates self) [ZERO];
  holding_candles ← non_empty_or (er_holding_candles_candidates self) [0];
  take_profit_pct ← non_empty_or (er_take_profit_pct_candidates self) [ZERO];
  confirmation_candles ← non_empty_or (er_confirmation_candles_candidates self) [0];
  require_close ←
    non_empty_or (er_require_confirmation_close_above_lookback_low_candidates self) [false];
  require_low ←
    non_empty_or (er_require_confirmation_low_above_breakdown_low_candidates self) [false];
  [{| ec_lookback_candles := lookback_candles;
     ec_trend_lookback_candles := None;
     ec_momentum_lookback_candles := None;
     ec_compression_lookback_candles := None;
     ec_breakout_lookback_candles := None;
     ec_pullback_lookback_candles := None;
     ec_pullback_sma_lookback_candles := None;
     ec_compression_percentile_threshold := None;
     ec_min_breakout_pct := None;
     ec_max_breakout_extension_pct := None;
     ec_min_volume_expansion_ratio := None;
     ec_lower_band_pct := None;
     ec_upper_band_pct := None;
     ec_min_range_width_pct := None;
     ec_max_range_width_pct := None;
     ec_min_close_above_sma_pct := None;
     ec_max_close_above_sma_pct := None;
     ec_min_momentum_return_pct := None;
     ec_min_trend_return_pct := None;
     ec_min_trend_slope_pct := None;
     ec_min_pullback_depth_pct := None;
     ec_max_pullback_depth_pct := None;
     ec_min_reclaim_pct := None;
     ec_min_breakdown_pct := Some min_breakdown_pct;
     ec_min_reclaim_close_pct := Some min_reclaim_close_pct;
     ec_min_lower_wick_pct := Some min_lower_wick_pct;
     ec_min_volume_ratio := Some min_volume_ratio;
     ec_max_choppiness := None;
     ec_holding_candles := then_some (negb (holding_candles =? 0)) holding_candles;
     ec_stop_loss_pct := None;
     ec_take_profit_pct := then_some (negb (take_profit_pct =? ZERO)%dec) take_profit_pct;
     ec_confirmation_candles := confirmation_candles;
     ec_require_confirmation_close_above_lookback_low := require_close;
     ec_require_confirmation_low_above_breakdown_low := require_low;
     ec_max_signal_age_ms := er_max_signal_age_ms self |}].

Definition pullback_grid (self : StrategyExperimentRequest) : list StrategyExperimentCandidate :=
  trend_lookback_candles ←
    non_empty_or (er_trend_lookback_candidates self) (er_lookback_candidates self);
  pullback_lookback_candles ←
    non_empty_or (er_pullback_lookback_candidates self) (er_lookback_candidates self);
  pullback_sma_lookback_candles ← non_empty_or (er_pullback_sma_lookback_candidates self) [20];
  min_trend_return_pct ← non_empty_or (er_min_trend_return_pct_candidates self) [dnew 2 0];
  min_trend_slope_pct ← non_empty_or (er_min_trend_slope_pct_candidates self) [ZERO];
  min_pullback_depth_pct ← non_empty_or (er_min_pullback_depth_pct_candidates self) [dnew 3 1];
  max_pullback_depth_pct ← non_empty_or (er_max_pullback_depth_pct_candidates self) [dnew 5 0];
  max_close_above_sma_pct ← non_empty_or (er_max_close_above_sma_pct_candidates self) [ZERO];
  min_reclaim_pct ← non_empty_or (er_min_reclaim_pct_candidates self) [dnew 5 2];
  min_volume_ratio ← non_empty_or (er_min_volume_ratio_candidates self) [dnew 8 1];
  max_choppiness ← non_empty_or (er_max_choppiness_candidates self) [dnew 60 0];
  holding_candles ← non_empty_or (er_holding_candles_candidates self) [0];
  [{| ec_lookback_candles := pullback_sma_lookback_candles;
     ec_trend_lookback_candles := Some trend_lookback_candles;
     ec_momentum_lookback_candles := None;
     ec_compression_lookback_candles := None;
     ec_breakout_lookback_candles := None;
     ec_pullback_lookback_candles := Some pullback_lookback_candles;
     ec_pullback_sma_lookback_candles := Some pullback_sma_lookback_candles;
     ec_compression_percentile_threshold := None;
     ec_min_breakout_pct := None;
     ec_max_breakout_extension_pct := None;
     ec_min_volume_expansion_ratio := None;
     ec_lower_band_pct := None;
     ec_upper_band_pct := None;
     ec_min_range_width_pct := None;
     ec_max_range_width_pct := None;
     ec_min_close_above_sma_pct := Some ZERO;
     ec_max_close_above_sma_pct := Some max_close_above_sma_pct;
     ec_min_momentum_return_pct := None;
     ec_min_trend_return_pct := Some min_trend_return_pct;
     ec_min_trend_slope_pct := Some min_trend_slope_pct;
     ec_min_pullback_depth_pct := Some min_pullback_depth_pct;
     ec_max_pullback_depth_pct := Some max_pullback_depth_pct;
     ec_min_reclaim_pct := Some min_reclaim_pct;
     ec_min_breakdown_pct := None;
     ec_min_reclaim_close_pct := None;
     ec_min_lower_wick_pct := None;
     ec_min_volume_ratio := Some min_volume_ratio;
     ec_max_choppiness := Some max_choppiness;
     ec_holding_candles := then_some (negb (holding_candles =? 0)) holding_candles;
     ec_stop_loss_pct := None;
     ec_take_profit_pct := None;
     ec_confirmation_candles := 0;
     ec_require_confirmation_close_above_lookback_low := false;
     ec_require_confirmation_low_above_breakdown_low := false;
     ec_max_signal_age_ms := er_max_signal_age_ms self |}].

Definition general_grid (self : StrategyExperimentRequest) : list StrategyExperimentCandidate :=
  let is_compression := String.eqb (er_strategy_id self) "volatility_compression_breakout_v1" in
  let is_range := String.eqb (er_strategy_id self) "range_reversion_v1" in
  let is_trend_v2 := String.eqb (er_strategy_id self) "trend_filter_momentum_v2" in
  lookback_candles ← er_lookback_candidates self;
  trend_lookback_candles ←
    non_empty_or (er_trend_lookback_candidates self) (er_lookback_candidates self);
  momentum_lookback_candles ← non_empty_or (er_momentum_lookback_candidates self) [0];
  compression_lookback_candles ←
    non_empty_or (er_compression_lookback_candidates self) (er_lookback_candidates self);
  breakout_lookback_candles ←
    non_empty_or (er_breakout_lookback_candidates self) (er_lookback_candidates self);
  compression_threshold ←
    non_empty_or (er_compression_percentile_threshold_candidates self) [dnew 25 0];
  min_breakout_pct ← non_empty_or (er_min_breakout_pct_candidates self) [ZERO];
  max_extension_pct ← non_empty_or (er_max_breakout_extension_pct_candidates self) [ZERO];
  volume_ratio ← non_empty_or (er_min_volume_expansion_ratio_candidates self) [ZERO];
  lower_band_pct ← non_empty_or (er_lower_band_pct_candidates self) [dnew 20 0];
  upper_band_pct ← non_empty_or (er_upper_band_pct_candidates self) [dnew 80 0];
  min_range_width_pct ← non_empty_or (er_min_range_width_pct_candidates self) [ZERO];
  max_range_width_pct ← non_empty_or (er_max_range_width_pct_candidates self) [ZERO];
  min_close_above_sma_pct ← non_empty_or (er_min_close_above_sma_pct_candidates self) [ZERO];
  max_close_above_sma_pct ← non_empty_or (er_max_close_above_sma_pct_candidates self) [ZERO];
  min_momentum_return_pct ← non_empty_or (er_min_momentum_return_pct_candidates self) [ZERO];
  holding_candles ← non_empty_or (er_holding_candles_candidates self) [0];
  stop_loss_pct ← non_empty_or (er_stop_loss_pct_candidates self) [ZERO];
  take_profit_pct ← non_empty_or (er_take_profit_pct_candidates self) [ZERO];
  [{| ec_lookback_candles := lookback_candles;
     ec_trend_lookback_candles := Some trend_lookback_candles;
     ec_momentum_lookback_candles :=
         then_some (negb (momentum_lookback_candles =? 0)) momentum_lookback_candles;
     ec_compression_lookback_candles := then_some is_compression compression_lookback_candles;
     ec_breakout_lookback_candles := Some breakout_lookback_candles;
     ec_pullback_lookback_candles := None;
     ec_pullback_sma_lookback_candles := None;
     ec_compression_percentile_threshold := then_some is_compression compression_threshold;
     ec_min_breakout_pct :=
         then_some (is_compression && negb (min_breakout_pct =? ZERO)%dec) min_breakout_pct;
     ec_max_breakout_extension_pct :=
         then_some (is_compression && negb (max_extension_pct =? ZERO)%dec) max_extension_pct;
     ec_min_volume_expansion_ratio :=
         then_some (is_compression && negb (volume_ratio =? ZERO)%dec) volume_ratio;
     ec_lower_band_pct := then_some is_range lower_band_pct;
     ec_upper_band_pct := then_some is_range upper_band_pct;
     ec_min_range_width_pct :=
         then_some ((is_range || is_compression) && negb (min_range_width_pct =? ZERO)%dec)
           min_range_width_pct;
     ec_max_range_width_pct :=
         then_some ((is_range || is_compression) && negb (max_range_width_pct =? ZERO)%dec)
           max_range_width_pct;
     ec_min_close_above_sma_pct := then_some is_trend_v2 min_close_above_sma_pct;
     ec_max_close_above_sma_pct :=
         then_some (is_trend_v2 && negb (max_close_above_sma_pct =? ZERO)%dec)
           max_close_above_sma_pct;
     ec_min_momentum_return_pct := then_some is_trend_v2 min_momentum_return_pct;
     ec_min_trend_return_pct := None;
     ec_min_trend_slope_pct := None;
     ec_min_pullback_depth_pct := None;
     ec_max_pullback_depth_pct := None;
     ec_min_reclaim_pct := None;
     ec_min_breakdown_pct := None;
     ec_min_reclaim_close_pct := None;
     ec_min_lower_wick_pct := None;
     ec_min_volume_ratio := None;
     ec_max_choppiness := None;
     ec_holding_candles := then_some (negb (holding_candles =? 0)) holding_candles;
     ec_stop_loss_pct := then_some (negb (stop_loss_pct =? ZERO)%dec) stop_loss_pct;
     ec_take_profit_pct := then_some (negb (take_profit_pct =? ZERO)%dec) take_profit_pct;
     ec_confirmation_candles := 0;
     ec_require_confirmation_close_above_lookback_low := false;
     ec_require_confirmation_low_above_breakdown_low := false;
     ec_max_signal_age_ms := er_max_signal_age_ms self |}].

Definition candidates (self : StrategyExperimentRequest) : list StrategyExperimentCandidate :=
  if String.eqb (er_strategy_id self) "failed_breakdown_reclaim_v1" then
    push_until (er_max_runs self) [] (reclaim_grid self)
  else if String.eqb (er_strategy_id self) "trend_pullback_continuation_v1" then
    push_until (er_max_runs self) [] (pullback_grid self)
  else match er_max_runs self with
  | Some max_runs => firstn (Z.to_nat max_runs) (general_grid self)
  | None => general_grid self
  end.

(** ** The configuration request of a candidate *)

(** [x.or(Some(y))] is [Some (default y x)]. *)
Definition strategy_config_update_from_candidate (base_config : StrategyConfig)
    (strategy_id symbol timeframe : string) (candidate : StrategyExperimentCandidate)
    : StrategyConfigUpdateRequest :=
  let named id := String.eqb strategy_id (StrategyId.as_str id) in
  let trend_v1 := named StrategyId.TrendFilterMomentumV1 in
  let trend_v2 := named StrategyId.TrendFilterMomentumV2 in
  let breakout_v2 := named StrategyId.VolatilityBreakoutV2 in
  let compression := named StrategyId.VolatilityCompressionBreakoutV1 in
  let range := named StrategyId.RangeReversionV1 in
  let pullback := named StrategyId.TrendPullbackContinuationV1 in
  let reclaim := named StrategyId.FailedBreakdownReclaimV1 in
  {| su_strategy_id := strategy_id;
     su_enabled := sc_enabled base_config;
     su_mode := sc_mode base_config;
     su_symbols := [symbol];
     su_timeframe := timeframe;
     su_suggested_notional := sc_suggested_notional base_config;
     su_max_signal_age_ms :=
       default (sc_max_signal_age_ms base_config) (ec_max_signal_age_ms candidate);
     su_cooldown_seconds := sc_cooldown_seconds base_config;
     su_lookback_candles := ec_lookback_candles candidate;
     su_trend_lookback_candles :=
       filter_or (trend_v1 || trend_v2 || pullback)
         (Some (default (ec_lookback_candles candidate) (ec_trend_lookback_candles candidate)))
         (sc_trend_lookback_candles base_config);
     su_momentum_lookback_candles :=
       filter_or (trend_v1 || trend_v2) (ec_momentum_lookback_candles candidate)
         (sc_momentum_lookback_candles base_config);
     su_compression_lookback_candles :=
       filter_or compression
         (Some (default (ec_lookback_candles candidate) (ec_compression_lookback_candles candidate)))
         (sc_compression_lookback_candles base_config);
     su_breakout_lookback_candles :=
       filter_or (breakout_v2 || compression)
         (Some (default (ec_lookback_candles candidate) (ec_breakout_lookback_candles candidate)))
         (sc_breakout_lookback_candles base_config);
     su_pullback_lookback_candles :=
       filter_or pullback (ec_pullback_lookback_candles candidate)
         (sc_pullback_lookback_candles base_config);
     su_pullback_sma_lookback_candles :=
       filter_or pullback (ec_pullback_sma_lookback_candles candidate)
         (sc_pullback_sma_lookback_candles base_config);
     su_compression_percentile_threshold :=
       filter_or compression (ec_compression_percentile_threshold candidate)
         (sc_compression_percentile_threshold base_config);
     su_min_breakout_pct :=
       filter_or compression (ec_min_breakout_pct candidate) (sc_min_breakout_pct base_config);
     su_max_breakout_extension_pct :=
       filter_or compression (ec_max_breakout_extension_pct candidate)
         (sc_max_breakout_extension_pct base_config);
     su_min_volume_expansion_ratio :=
       filter_or compression (ec_min_volume_expansion_ratio candidate)
         (sc_min_volume_expansion_ratio base_config);
     su_lower_band_pct :=
       filter_or range (ec_lower_band_pct candidate) (sc_lower_band_pct base_config);
     su_upper_band_pct :=
       filter_or range (ec_upper_band_pct candidate) (sc_upper_band_pct base_config);
     su_min_range_width_pct :=
       filter_or range (ec_min_range_width_pct candidate) (sc_min_range_width_pct base_config);
     su_max_range_width_pct :=
       filter_or range (ec_max_range_width_pct candidate) (sc_max_range_width_pct base_config);
     su_min_close_above_sma_pct :=
       filter_or trend_v2 (ec_min_close_above_sma_pct candidate)
         (sc_min_close_above_sma_pct base_config);
     su_max_close_above_sma_pct :=
       filter_or trend_v2 (ec_max_close_above_sma_pct candidate)
         (sc_max_close_above_sma_pct base_config);
     su_min_momentum_return_pct :=
       filter_or trend_v2 (ec_min_momentum_return_pct candidate)
         (sc_min_momentum_return_pct base_config);
     su_min_trend_return_pct :=
       filter_or pullback (ec_min_trend_return_pct candidate)
         (sc_min_trend_return_pct base_config);
     su_min_trend_slope_pct :=
       filter_or pullback (ec_min_trend_slope_pct candidate) (sc_min_trend_slope_pct base_config);
     su_min_pullback_depth_pct :=
       filter_or pullback (ec_min_pullback_depth_pct candidate)
         (sc_min_pullback_depth_pct base_config);
     su_max_pullback_depth_pct :=
       filter_or pullback (ec_max_pullback_depth_pct candidate)
         (sc_max_pullback_depth_pct base_config);
     su_min_reclaim_pct :=
       filter_or pullback (ec_min_reclaim_pct candidate) (sc_min_reclaim_pct base_config);
     su_min_breakdown_pct :=
       filter_or reclaim (ec_min_breakdown_pct candidate) (sc_min_breakdown_pct base_config);
     su_min_reclaim_close_pct :=
       filter_or reclaim (ec_min_reclaim_close_pct candidate)
         (sc_min_reclaim_close_pct base_config);
     su_min_lower_wick_pct :=
       filter_or reclaim (ec_min_lower_wick_pct candidate) (sc_min_lower_wick_pct base_config);
     su_min_volume_ratio :=
       filter_or (pullback || reclaim) (ec_min_volume_ratio candidate)
         (sc_min_volume_ratio base_config);
     su_max_choppiness :=
       filter_or pullback (ec_max_choppiness candidate) (sc_max_choppiness base_config);
     su_confidence_floor := sc_confidence_floor base_config;
     su_stop_loss_pct := filter_or true (ec_stop_loss_pct candidate) (sc_stop_loss_pct base_config);
     su_take_profit_pct :=
       filter_or true (ec_take_profit_pct candidate) (sc_take_profit_pct base_config);
     su_holding_candles :=
       filter_or true (ec_holding_candles candidate) (sc_holding_candles base_config);
     su_confirmation_candles := ec_confirmation_candles candidate;
     su_require_confirmation_close_above_lookback_low :=
       ec_require_confirmation_close_above_lookback_low candidate;
     su_require_confirmation_low_above_breakdown_low :=
       ec_require_confirmation_low_above_breakdown_low candidate;
     su_notes := sc_notes base_config |}.

Definition experiment_strategy_override (base_config : StrategyConfig)
    (request : StrategyExperimentRequest) (candidate : StrategyExperimentCandidate)
    : StrategyConfigUpdateRequest :=
  strategy_config_update_from_candidate base_config (er_strategy_id request) (er_symbol request)
    (er_timeframe request) candidate.
End ExperimentTypes.


(** ** Scores: crates/replay-engine/src/lib.rs, 3457-3502 and 4777-4838 *)

Definition i32_saturating_mul (a b : Z) : Z := Z.max (- 2 ^ 31) (Z.min i32_max (a * b)).

Section Scores.
Context {DI : Decimal}.

Definition required_candles_for_candidate (candidate : StrategyExperimentCandidate) : Z :=
  Z.max (ec_lookback_candles candidate)
    (Z.max (default 0 (ec_trend_lookback_candles candidate))
      (Z.max (default 0 (ec_momentum_lookback_candles candidate))
        (Z.max (default 0 (ec_compression_lookback_candles candidate))
          (default 0 (ec_breakout_lookback_candles candidate)))))
  + default 0 (ec_holding_candles candidate) + 2.

Definition insufficient_data_penalty (candle_count required_candles : Z) : dec :=
  if candle_count <=? required_candles then dnew 25 0 else
  let surplus := wrap_i32 (candle_count - required_candles) in
  if surplus <? required_candles then dnew 3 0
  else if surplus <? i32_saturating_mul required_candles 2 then dnew 1 0
  else ZERO.

Definition overtrading_penalty (trade_count candle_count : Z) : dec :=
  if (trade_count <=? 0) || (candle_count <=? 0) then ZERO else
  if 200 <=? trade_count then (dint (Z.quot (trade_count - 200) 10) + dnew 2 0)%dec else
  let activity_pct := (ddiv (dint trade_count) (dint candle_count) * dnew 100 0)%dec in
  if (activity_pct >=? dnew 25 0)%dec then dnew 3 0 else ZERO.

Definition low_trade_count_penalty (trade_count : Z) : dec :=
  if (0 <? trade_count) && (trade_count <? 3) then dnew 5 0 else ZERO.

Definition calculate_fee_slippage_drag_pct (initial_capital fee_paid slippage_cost : dec) : dec :=
  if (initial_capital <=? ZERO)%dec then ZERO
  else (ddiv (fee_paid + slippage_cost) initial_capital * dnew 100 0)%dec.

(** [required as i32] wraps. *)
Definition calculate_strategy_experiment_score (run : StrategyExperimentRun) (candle_count : Z)
    : dec :=
    
  let trade_penalty := (overtrading_penalty (xr_trade_count run) candle_count
                        + low_trade_count_penalty (xr_trade_count run))%dec in
  let insufficient_data_penalty := insufficient_data_penalty candle_count
    (wrap_i32 (required_candles_for_candidate (xr_candidate run))) in
  (xr_pnl_pct run - ddiv (xr_max_drawdown_pct run) (dnew 2 0)
   + ddiv (xr_win_rate run) (dnew 10 0)
   - xr_fee_slippage_drag_pct run - trade_penalty - insufficient_data_penalty)%dec.

(** ** Ranking *)

Definition dcmp (a b : dec) : comparison := Qcompare (dval a) (dval b).

(** The closure of [sort_by]. *)
Definition run_order (left right : StrategyExperimentRun) : comparison :=
  then_with (dcmp (xr_score right) (xr_score left))
  (then_with (dcmp (xr_pnl_pct right) (xr_pnl_pct left))
  (then_with (dcmp (xr_max_drawdown_pct left) (xr_max_drawdown_pct right))
  (then_with (dcmp (xr_win_rate right) (xr_win_rate left))
  (then_with (dcmp (xr_fee_slippage_drag_pct left) (xr_fee_slippage_drag_pct right))
  (then_with (Z.compare (xr_trade_count right) (xr_trade_count left))
             (Z.compare (xr_id left) (xr_id right))))))).

Definition set_rank (rank : Z) (run : StrategyExperimentRun) : StrategyExperimentRun := {|
  xr_id := xr_id run;
  xr_experiment_id := xr_experiment_id run;
  xr_rank := rank;
  xr_candidate := xr_candidate run;
  xr_final_equity := xr_final_equity run;
  xr_pnl := xr_pnl run;
  xr_pnl_pct := xr_pnl_pct run;
  xr_max_drawdown_pct := xr_max_drawdown_pct run;
  xr_win_rate := xr_win_rate run;
  xr_trade_count := xr_trade_count run;
  xr_fee_paid := xr_fee_paid run;
  xr_slippage_cost := xr_slippage_cost run;
  xr_fee_slippage_drag_pct := xr_fee_slippage_drag_pct run;
  xr_raw_signal_count := xr_raw_signal_count run;
  xr_cooldown_suppressed_count := xr_cooldown_suppressed_count run;
  xr_open_position_suppressed_count := xr_open_position_suppressed_count run;
  xr_executed_trade_count := xr_executed_trade_count run;
  xr_suppression_breakdown := xr_suppression_breakdown run;
  xr_last_signal_time := xr_last_signal_time run;
  xr_last_executed_entry_time := xr_last_executed_entry_time run;
  xr_score := xr_score run;
  xr_status := xr_status run;
  xr_warnings := xr_warnings run;
  xr_created_at := xr_created_at run |}.

Definition set_score (score : dec) (run : StrategyExperimentRun) : StrategyExperimentRun := {|
  xr_id := xr_id run;
  xr_experiment_id := xr_experiment_id run;
  xr_rank := xr_rank run;
  xr_candidate := xr_candidate run;
  xr_final_equity := xr_final_equity run;
  xr_pnl := xr_pnl run;
  xr_pnl_pct := xr_pnl_pct run;
  xr_max_drawdown_pct := xr_max_drawdown_pct run;
  xr_win_rate := xr_win_rate run;
  xr_trade_count := xr_trade_count run;
  xr_fee_paid := xr_fee_paid run;
  xr_slippage_cost := xr_slippage_cost run;
  xr_fee_slippage_drag_pct := xr_fee_slippage_drag_pct run;
  xr_raw_signal_count := xr_raw_signal_count run;
  xr_cooldown_suppressed_count := xr_cooldown_suppressed_count run;
  xr_open_position_suppressed_count := xr_open_position_suppressed_count run;
  xr_executed_trade_count := xr_executed_trade_count run;
  xr_suppression_breakdown := xr_suppression_breakdown run;
  xr_last_signal_time := xr_last_signal_time run;
  xr_last_executed_entry_time := xr_last_executed_entry_time run;
  xr_score := score;
  xr_status := xr_status run;
  xr_warnings := xr_warnings run;
  xr_created_at := xr_created_at run |}.

(** [runs.sort_by(..)], then [run.rank = index as i32 + 1]. *)
Definition rank_strategy_experiment_runs (runs : list StrategyExperimentRun)
    : list StrategyExperimentRun :=
  imap (fun index run => set_rank (i32_add (wrap_i32 (Z.of_nat index)) 1) run)
    (sort_by (not_greater run_order) runs).

Definition strategy_experiment_comparison (runs : list StrategyExperimentRun)
    : StrategyExperimentComparison := {|
  xc_ranking_metric := StrategyExperimentMetric.RiskAdjustedScore;
  xc_best_run_id := option_map xr_id (head runs);
  xc_worst_run_id := option_map xr_id (last runs);
  xc_ranked_run_ids := map xr_id runs |}.

Definition experiment_warnings (trade_count : Z) (pnl max_drawdown_pct fee_slippage_drag_pct : dec)
    (candle_count : Z) : list string :=
  (if (overtrading_penalty trade_count candle_count >? ZERO)%dec
   then ["overtrading_warning"] else []) ++
  (if (pnl <? ZERO)%dec && (fee_slippage_drag_pct >? ZERO)%dec
   then ["negative_after_fees"] else []) ++
  (if (max_drawdown_pct >=? dnew 15 0)%dec then ["high_drawdown"] else []) ++
  (if (0 <? trade_count) && (trade_count <? 3) then ["too_few_trades"] else []).

(** The distinct warnings, in order of first appearance. *)
Definition aggregate_experiment_warnings (runs : list StrategyExperimentRun) : list string :=
  foldl (fun warnings warning =>
           if existsb (String.eqb warning) warnings then warnings else warnings ++ [warning])
    [] (concat (map xr_warnings runs)).
End Scores.

(** ** Running an experiment: crates/replay-engine/src/lib.rs, 3229-3455 *)

Section Experiment.
Context {DI : Decimal} {CH : Chrono} {JS : Json}.

Definition experiment_status (status : ReplayRunStatus.t) : StrategyExperimentStatus.t :=
  match status with
  | ReplayRunStatus.Completed => StrategyExperimentStatus.Completed
  | ReplayRunStatus.Failed => StrategyExperimentStatus.Failed
  | ReplayRunStatus.Pending => StrategyExperimentStatus.Pending
  | ReplayRunStatus.Running => StrategyExperimentStatus.Running
  end.

Definition strategy_experiment_run_from_backtest (id experiment_id created_at : Z)
    (initial_capital : dec) (candidate : StrategyExperimentCandidate) (result : BacktestResult)
    (candle_count : Z) : StrategyExperimentRun :=
  let fee_slippage_drag_pct := calculate_fee_slippage_drag_pct initial_capital
    (bs_fee_paid result) (bs_slippage_cost result) in
  let warnings := experiment_warnings (bs_trade_count result) (bs_pnl result)
    (bs_max_drawdown_pct result) fee_slippage_drag_pct candle_count in
  let run := {|
     xr_id := id;
     xr_experiment_id := experiment_id;
     xr_rank := 0;
     xr_candidate := candidate;
     xr_final_equity := bs_final_equity result;
     xr_pnl := bs_pnl result;
     xr_pnl_pct := bs_pnl_pct result;
     xr_max_drawdown_pct := bs_max_drawdown_pct result;
     xr_win_rate := bs_win_rate result;
     xr_trade_count := bs_trade_count result;
     xr_fee_paid := bs_fee_paid result;
     xr_slippage_cost := bs_slippage_cost result;
     xr_fee_slippage_drag_pct := fee_slippage_drag_pct;
     xr_raw_signal_count := bs_raw_signal_count result;
     xr_cooldown_suppressed_count := bs_cooldown_suppressed_count result;
     xr_open_position_suppressed_count := bs_open_position_suppressed_count result;
     xr_executed_trade_count := bs_executed_trade_count result;
     xr_suppression_breakdown := bs_suppression_breakdown result;
     xr_last_signal_time := bs_last_signal_time result;
     xr_last_executed_entry_time := bs_last_executed_entry_time result;
     xr_score := ZERO;
     xr_status := experiment_status (bs_status result);
     xr_warnings := warnings;
     xr_created_at := created_at |} in
  set_score (calculate_strategy_experiment_score run candle_count) run.

(** What the loop over the candidates accumulates. *)
Record ExperimentState := {
  xt_runs : list StrategyExperimentRun;
  xt_skipped_invalid_config_count : Z;
  xt_invalid_config_examples : list InvalidStrategyConfigExample
}.

Definition experiment_context (symbol : Symbol) : StrategyValidationContext := {|
  vc_supported_symbols := [symbol];
  vc_max_position_notional := Some (max_position_notional RiskConfig_default) |}.

(** The backtest of a candidate whose configuration was accepted. *)
Definition candidate_request (request : StrategyExperimentRequest) (correlation_id : Z)
    (candidate : StrategyExperimentCandidate) (strategy_config : StrategyConfig)
    (override_request : StrategyConfigUpdateRequest) : BacktestRequest := {|
  br_strategy_id := er_strategy_id request;
  br_symbol := er_symbol request;
  br_timeframe := er_timeframe request;
  br_start_time := er_start_time request;
  br_end_time := er_end_time request;
  br_initial_capital := er_initial_capital request;
  br_risk_config_id := None;
  br_risk_config := None;
  br_fee_bps := er_fee_bps request;
  br_slippage_bps := er_slippage_bps request;
  br_correlation_id := Some correlation_id;
  br_holding_candles := match ec_holding_candles candidate with
                        | Some n => Some n
                        | None => sc_holding_candles strategy_config
                        end;
  br_strategy_config_override := Some override_request |}.

(** Identifiers: of the simulation and of the run of candidate [k], and of the
    signals of its simulation; [now] is the clock of the validation. *)
Record Drawn := {
  dr_simulation : nat -> Z;
  dr_run : nat -> Z;
  dr_signal : nat -> nat -> Z;
  dr_now : Z
}.

Definition experiment_step (drawn : Drawn) (base_config : StrategyConfig) (symbol : Symbol)
    (request : StrategyExperimentRequest) (candles : list Candle)
    (created_at correlation_id experiment_id : Z) (state : ExperimentState)
    (indexed : nat * StrategyExperimentCandidate) : result ExperimentState :=
  let '(k, candidate) := indexed in
  let override_request := experiment_strategy_override base_config request candidate in
  let validation := validate_strategy_config (dr_now drawn) override_request
    (experiment_context symbol) in
  match vr_normalized_config validation with
  | None =>
    Ok {| xt_runs := xt_runs state;
          xt_skipped_invalid_config_count := i32_add (xt_skipped_invalid_config_count state) 1;
          xt_invalid_config_examples :=
            if (length (xt_invalid_config_examples state) <? 10)%nat then
              xt_invalid_config_examples state ++ [{|
                ix_candidate := candidate;
                ix_issues := List.filter (fun issue =>
                  bool_decide (vi_severity issue = StrategyConfigValidationSeverity.Error))
                  (vr_issues validation) |}]
            else xt_invalid_config_examples state |}
  | Some strategy_config =>
    let run_request := candidate_request request correlation_id candidate strategy_config
      override_request in
    execution ← simulate_backtest (dr_signal drawn k) (dr_simulation drawn k) created_at
      correlation_id run_request strategy_config candles;
    Ok {| xt_runs := xt_runs state ++ [strategy_experiment_run_from_backtest (dr_run drawn k)
            experiment_id created_at (er_initial_capital request) candidate (be_result execution)
            (wrap_i32 (Z.of_nat (length candles)))];
          xt_skipped_invalid_config_count := xt_skipped_invalid_config_count state;
          xt_invalid_config_examples := xt_invalid_config_examples state |}
  end.

(** [find(|run| run.id == id)] *)
Definition find_run (id : option Z) (runs : list StrategyExperimentRun)
    : option StrategyExperimentRun :=
  match id with
  | Some id => List.find (fun run => xr_id run =? id) runs
  | None => None
  end.

(** The error is [anyhow!("strategy experiment requires at least one candidate")]. *)
Definition build_strategy_experiment_execution (drawn : Drawn) (experiment_id : Z)
    (base_config : StrategyConfig) (symbol : Symbol) (request : StrategyExperimentRequest)
    (candles : list Candle) (created_at correlation_id : Z) (experiment_group_id : option Z)
    : res (string + CoreError.t) StrategyExperimentExecution :=
  let all := candidates request in
  match all with
  | [] => Err (inl "strategy experiment requires at least one candidate")
  | _ =>
  let total_candidate_configs :=
    match i32_try_from (Z.of_nat (length all)) with Some n => n | None => i32_max end in
  match fold_res (experiment_step drawn base_config symbol request candles created_at
                    correlation_id experiment_id)
          {| xt_runs :=
              []; xt_skipped_invalid_config_count := 0; xt_invalid_config_examples := [] |}
          (imap (fun k candidate => (k, candidate)) all) with
  | Err e => Err (inr e)
  | Panic => Panic
  | Ok state =>
    let runs := rank_strategy_experiment_runs (xt_runs state) in
    let comparison := strategy_experiment_comparison runs in
    let best_run := find_run (xc_best_run_id comparison) runs in
    let worst_run := find_run (xc_worst_run_id comparison) runs in
    let warnings := aggregate_experiment_warnings runs ++
      (if xt_skipped_invalid_config_count state >? 0
       then ["Invalid strategy configurations were skipped before replay."] else []) in
    let status :=
      if negb (Nat.eqb (length runs) 0) &&
         forallb (fun run => bool_decide (xr_status run = StrategyExperimentStatus.Completed)) runs
      then StrategyExperimentStatus.Completed else StrategyExperimentStatus.Failed in
    Ok {| xe_result := {|
     xs_experiment_id := experiment_id;
     xs_experiment_group_id := experiment_group_id;
     xs_strategy_id := er_strategy_id request;
     xs_symbol := er_symbol request;
     xs_timeframe := er_timeframe request;
     xs_start_time := er_start_time request;
     xs_end_time := er_end_time request;
     xs_initial_capital := er_initial_capital request;
     xs_fee_bps := er_fee_bps request;
     xs_slippage_bps := er_slippage_bps request;
     xs_max_signal_age_ms := er_max_signal_age_ms request;
     xs_max_runs := er_max_runs request;
     xs_status := status;
     xs_run_count := wrap_i32 (Z.of_nat (length runs));
     xs_total_candidate_configs := total_candidate_configs;
     xs_skipped_invalid_config_count := xt_skipped_invalid_config_count state;
     xs_executed_config_count := wrap_i32 (Z.of_nat (length runs));
     xs_invalid_config_examples := xt_invalid_config_examples state;
     xs_comparison := comparison;
     xs_best_run := best_run;
     xs_worst_run := worst_run;
     xs_candle_count := Some (wrap_i32 (Z.of_nat (length candles)));
     xs_warnings := warnings;
     xs_skipped_reason := None;
     xs_created_at := created_at;
     xs_correlation_id := Some correlation_id |};
          xe_runs := runs |}
  end
  end.
End Experiment.

(** ** A backtest always completes *)

Section Completes.
Context {DI : Decimal} {DL : DecimalLaws DI} {CH : Chrono} {JS : Json}.
Implicit Types (config : StrategyConfig) (candles : list Candle).

(** An open price a position can be entered at. *)
Definition tradable (candle : Candle) : Prop := (0 < dval (c_open candle))%Q.

Lemma one_plus_bps bps : (0 <= dval bps)%Q ->
  (1 <= dval (ONE + ddiv bps (dint BPS_DENOMINATOR))%dec)%Q.
Proof.
  intros H. rewrite dval_add, dval_ONE. rewrite <- (drnd_1 OpAdd) at 1. apply drnd_mono.
  assert (dval (dint BPS_DENOMINATOR) == 10000)%Q as Hd
    by (rewrite dval_int by (unfold BPS_DENOMINATOR; lia); done).
  enough (0 <= dval (ddiv bps (dint BPS_DENOMINATOR)))%Q by lra.
  rewrite dval_div by (rewrite Hd; lra). apply drnd_nonneg. rewrite Hd. apply Qle_shift_div_l; lra.
Qed.

Lemma entry_price_positive candle bps : tradable candle -> (0 <= dval bps)%Q ->
  (0 < dval (apply_entry_slippage (c_open candle) bps))%Q.
Proof.
  unfold tradable. intros H0 Hb. unfold apply_entry_slippage. pose proof (one_plus_bps bps Hb) as H1.
  rewrite dval_mul. eapply Qlt_le_trans; [exact H0|].
  rewrite <- (drnd_dval OpMul (c_open candle)) at 1. apply drnd_mono.
  set (x := dval (c_open candle)) in *. set (m := dval _) in *. nra.
Qed.

Lemma maybe_open_ok bc config candle cash :
  (0 <= dval (bc_fee_bps bc))%Q -> (0 <= dval (bc_slippage_bps bc))%Q -> tradable candle ->
  exists p, maybe_open_position bc config candle cash = Ok p.
Proof.
  intros Hf Hs Ht. unfold maybe_open_position. cbv zeta.
  pose proof (one_plus_bps _ Hf) as H1. rewrite dec_div_pos by lra. cbn [mbind res_bind].
  destruct (_ <=? _)%dec; [by eexists|].
  rewrite dec_div_pos by (by apply entry_price_positive). cbn [mbind res_bind].
  destruct (_ <=? _)%dec; by eexists.
Qed.

Lemma confirmed_entry_ok config candles i : 0 <= sc_lookback_candles config ->
  exists k, confirmed_entry_index config candles i = Ok k.
Proof.
  intros Hl. unfold confirmed_entry_index. cbv zeta. destruct (negb _); [by eexists|].
  destruct (_ =? 0)%nat; [by eexists|]. destruct (candles !! i) as [c|] eqn:Hc; [|by eexists].
  destruct (Nat.ltb_spec i (Z.to_nat (sc_lookback_candles config))); [by eexists|].
  apply lookup_lt_Some in Hc. rewrite slice_le by lia. cbn [mbind res_bind].
  repeat match goal with |- context [if ?b then _ else _] => destruct b end; by eexists.
Qed.

Lemma signal_step_ok request config candles i candle signal st :
  (0 <= dval (br_fee_bps request))%Q -> (0 <= dval (br_slippage_bps request))%Q ->
  0 <= sc_lookback_candles config -> Forall tradable candles ->
  exists r, signal_step request config candles i candle signal st = Ok r.
Proof.
  intros Hf Hs Hl Ht. unfold signal_step. cbv zeta. destruct (negb _); [by eexists|].
  destruct (cooldown_active _ _ _); [by eexists|]. destruct (ss_position _); [by eexists|].
  destruct (confirmed_entry_ok config candles i Hl) as [[k|] ->];
    cbn [mbind res_bind]; [|by eexists].
  destruct (Nat.leb_spec (length candles) k); [by eexists|].
  destruct (lookup_lt_is_Some_2 candles k) as [next Hn]; [lia|].
  unfold index. rewrite Hn. cbn [expect mbind res_bind].
  destruct (maybe_open_ok (BacktestRequest_config request) config next
    (ss_cash (count_signal (c_close_time candle) st)) Hf Hs) as [[p|] ->];
    [by eapply Forall_lookup_1|by eexists..].
Qed.

(** The configuration can be evaluated and the request is for its strategy. *)
Record runnable (request : BacktestRequest) config : Prop := {
  rn_lookbacks : lookbacks_u32 config;
  rn_valid : StrategyConfig_validate config = Ok tt;
  rn_lookback : degenerate_lookback config = false;
  rn_strategy : from_str (br_strategy_id request) = Ok (sc_strategy_id config);
  rn_symbol : exists symbol, Symbol_new (br_symbol request) = Ok symbol;
  rn_fee : (0 <= dval (br_fee_bps request))%Q;
  rn_slippage : (0 <= dval (br_slippage_bps request))%Q
}.

Lemma simulate_backtest_ok new_v4 run_id created_at correlation_id request config candles :
  runnable request config -> Forall tradable candles ->
  exists be,
    simulate_backtest new_v4 run_id created_at correlation_id request config candles = Ok be /\
    bs_status (be_result be)
      = if (length candles =? 0)%nat then ReplayRunStatus.Failed else ReplayRunStatus.Completed.
Proof.
  intros [Hu Hv Hd Hid [symbol Hsym] Hf Hs] Ht. unfold simulate_backtest.
  destruct candles as [|c0 rest] eqn:Ec; [by eexists|]. rewrite <- Ec in *.
  rewrite Hid, Hsym. cbn [mbind res_bind].
  edestruct (fold_res_total (simulate_step new_v4 run_id created_at correlation_id request
    (sc_strategy_id config) symbol config candles)) as [st ->].
  - intros st i Hi%in_seq. unfold simulate_step.
    destruct (lookup_lt_is_Some_2 candles i) as [c Hc]; [lia|].
    unfold index. rewrite Hc. cbn [expect mbind res_bind].
    edestruct (evaluate_answers (new_v4 i)) as [r Hr]; [..|rewrite Hr; clear Hr];
      cbn [cx_config]; try done.
    cbn [mbind res_bind]. destruct (sr_signal r) as [signal|]; [|by eexists].
    pose proof (lookbacks_nonneg _ Hu) as (Hl & _).
    destruct (signal_step_ok request config candles i c signal
      (exit_step run_id created_at request c st) Hf Hs Hl Ht) as [[st' recorded] ->].
    by eexists.
  - eexists. split; [reflexivity|]. subst candles. done.
Qed.
End Completes.

(** ** The enumeration of candidates *)

Section Candidates.
Context {DI : Decimal}.

Lemma push_until_firstn {A} m (pushed all : list A) :
  (length pushed < Z.to_nat m)%nat ->
  push_until (Some m) pushed all = firstn (Z.to_nat m) (pushed ++ all).
Proof.
  revert pushed; induction all as [|c all IH]; intros pushed H; cbn [push_until].
  - rewrite app_nil_r, firstn_all2 by lia. done.
  - cbv zeta. rewrite length_app. cbn [length].
    destruct (Z.leb_spec m (Z.of_nat (length pushed + 1))) as [Hle|Hgt].
    + rewrite firstn_app, firstn_all2 by lia.
      replace (Z.to_nat m - length pushed)%nat with 1%nat by lia. cbn. done.
    + rewrite IH by (rewrite length_app; cbn; lia). by rewrite <- app_assoc.
Qed.

Lemma push_until_none {A} (pushed all : list A) : push_until None pushed all = pushed ++ all.
Proof.
  revert pushed; induction all as [|c all IH]; intros pushed; cbn; [by rewrite app_nil_r|].
  by rewrite IH, <- app_assoc.
Qed.

(** The combinations of a request, without the limit. *)
Definition full_grid (self : StrategyExperimentRequest) : list StrategyExperimentCandidate :=
  if String.eqb (er_strategy_id self) "failed_breakdown_reclaim_v1" then reclaim_grid self
  else if String.eqb (er_strategy_id self) "trend_pullback_continuation_v1" then pullback_grid self
  else general_grid self.

(** The loops that return early and the one that truncates compute the same: the
    first [max_runs] combinations, so a validated request never runs more. *)
Lemma candidates_firstn self :
  match er_max_runs self with Some m => 0 < m | None => True end ->
  candidates self = match er_max_runs self with
                    | Some m => firstn (Z.to_nat m) (full_grid self)
                    | None => full_grid self
                    end.
Proof.
  unfold candidates, full_grid. intros Hm.
  destruct (er_max_runs self) as [m|]; repeat case_match; try done;
    rewrite ?push_until_none, ?push_until_firstn by (cbn; lia); done.
Qed.

(** *** The same candidate several times *)

Definition repeated {A} (n : nat) (l : list A) : list A := concat (replicate n l).

Lemma bind_const {A B} (l : list A) (r : list B) : (l ≫= fun _ => r) = repeated (length l) r.
Proof. induction l as [|x l IH]; cbn; [done|]. f_equal. exact IH. Qed.

Lemma repeated_S {A} n (l : list A) : repeated (S n) l = l ++ repeated n l.
Proof. done. Qed.

Lemma repeated_app {A} n (l k : list A) :
  Permutation (repeated n (l ++ k)) (repeated n l ++ repeated n k).
Proof.
  induction n as [|n IH]; [done|]. rewrite !repeated_S, IH.
  rewrite <- !app_assoc. apply Permutation_app_head.
  rewrite !app_assoc. apply Permutation_app_tail. apply Permutation_app_comm.
Qed.

Lemma bind_repeated {A B} n (l : list A) (f : A -> list B) :
  Permutation (l ≫= fun x => repeated n (f x)) (repeated n (l ≫= f)).
Proof.
  induction l as [|x l IH]; cbn.
  - induction n; done.
  - rewrite repeated_app. by apply Permutation_app_head.
Qed.

Lemma bind_perm {A B} (l : list A) (f g : A -> list B) :
  (forall x, Permutation (f x) (g x)) -> Permutation (l ≫= f) (l ≫= g).
Proof. intros H. induction l as [|x l IH]; cbn; [done|]. by rewrite (H x), IH. Qed.

Lemma inner_repeats {A B C D E} (l1 : list A) (l2 : list B) (l3 : list C) (l4 : list D)
    (f : A -> B -> C -> list E) :
  Permutation (a ← l1; b ← l2; c ← l3; _ ← l4; f a b c)
    (repeated (length l4) (a ← l1; b ← l2; c ← l3; f a b c)).
Proof.
  rewrite <- bind_repeated. apply bind_perm. intros a.
  rewrite <- bind_repeated. apply bind_perm. intros b.
  rewrite <- bind_repeated. apply bind_perm. intros c. by rewrite bind_const.
Qed.

(** Without a compression strategy the compression lookback does not reach the
    candidate, but it is still enumerated, over [lookback_candidates] when the
    request has no list of its own: every combination is run that many times. *)
Theorem general_grid_repeats self :
  er_strategy_id self <> "volatility_compression_breakout_v1" ->
  exists distinct, Permutation (general_grid self)
    (repeated (length (non_empty_or (er_compression_lookback_candidates self)
                         (er_lookback_candidates self))) distinct).
Proof.
  intros H. unfold general_grid. apply String.eqb_neq in H. rewrite H. cbv zeta.
  cbn [then_some]. eexists. apply inner_repeats.
Qed.

(** *** Candidate parameters that have no effect *)

Definition with_range_width (lo hi : option dec) (candidate : StrategyExperimentCandidate)
    : StrategyExperimentCandidate := {|
  ec_lookback_candles := ec_lookback_candles candidate;
  ec_trend_lookback_candles := ec_trend_lookback_candles candidate;
  ec_momentum_lookback_candles := ec_momentum_lookback_candles candidate;
  ec_compression_lookback_candles := ec_compression_lookback_candles candidate;
  ec_breakout_lookback_candles := ec_breakout_lookback_candles candidate;
  ec_pullback_lookback_candles := ec_pullback_lookback_candles candidate;
  ec_pullback_sma_lookback_candles := ec_pullback_sma_lookback_candles candidate;
  ec_compression_percentile_threshold := ec_compression_percentile_threshold candidate;
  ec_min_breakout_pct := ec_min_breakout_pct candidate;
  ec_max_breakout_extension_pct := ec_max_breakout_extension_pct candidate;
  ec_min_volume_expansion_ratio := ec_min_volume_expansion_ratio candidate;
  ec_lower_band_pct := ec_lower_band_pct candidate;
  ec_upper_band_pct := ec_upper_band_pct candidate;
  ec_min_range_width_pct := lo;
  ec_max_range_width_pct := hi;
  ec_min_close_above_sma_pct := ec_min_close_above_sma_pct candidate;
  ec_max_close_above_sma_pct := ec_max_close_above_sma_pct candidate;
  ec_min_momentum_return_pct := ec_min_momentum_return_pct candidate;
  ec_min_trend_return_pct := ec_min_trend_return_pct candidate;
  ec_min_trend_slope_pct := ec_min_trend_slope_pct candidate;
  ec_min_pullback_depth_pct := ec_min_pullback_depth_pct candidate;
  ec_max_pullback_depth_pct := ec_max_pullback_depth_pct candidate;
  ec_min_reclaim_pct := ec_min_reclaim_pct candidate;
  ec_min_breakdown_pct := ec_min_breakdown_pct candidate;
  ec_min_reclaim_close_pct := ec_min_reclaim_close_pct candidate;
  ec_min_lower_wick_pct := ec_min_lower_wick_pct candidate;
  ec_min_volume_ratio := ec_min_volume_ratio candidate;
  ec_max_choppiness := ec_max_choppiness candidate;
  ec_holding_candles := ec_holding_candles candidate;
  ec_stop_loss_pct := ec_stop_loss_pct candidate;
  ec_take_profit_pct := ec_take_profit_pct candidate;
  ec_confirmation_candles := ec_confirmation_candles candidate;
  ec_require_confirmation_close_above_lookback_low :=
      ec_require_confirmation_close_above_lookback_low candidate;
  ec_require_confirmation_low_above_breakdown_low :=
      ec_require_confirmation_low_above_breakdown_low candidate;
  ec_max_signal_age_ms := ec_max_signal_age_ms candidate |}.

Definition with_max_close_above_sma (value : option dec) (candidate : StrategyExperimentCandidate)
    : StrategyExperimentCandidate := {|
  ec_lookback_candles := ec_lookback_candles candidate;
  ec_trend_lookback_candles := ec_trend_lookback_candles candidate;
  ec_momentum_lookback_candles := ec_momentum_lookback_candles candidate;
  ec_compression_lookback_candles := ec_compression_lookback_candles candidate;
  ec_breakout_lookback_candles := ec_breakout_lookback_candles candidate;
  ec_pullback_lookback_candles := ec_pullback_lookback_candles candidate;
  ec_pullback_sma_lookback_candles := ec_pullback_sma_lookback_candles candidate;
  ec_compression_percentile_threshold := ec_compression_percentile_threshold candidate;
  ec_min_breakout_pct := ec_min_breakout_pct candidate;
  ec_max_breakout_extension_pct := ec_max_breakout_extension_pct candidate;
  ec_min_volume_expansion_ratio := ec_min_volume_expansion_ratio candidate;
  ec_lower_band_pct := ec_lower_band_pct candidate;
  ec_upper_band_pct := ec_upper_band_pct candidate;
  ec_min_range_width_pct := ec_min_range_width_pct candidate;
  ec_max_range_width_pct := ec_max_range_width_pct candidate;
  ec_min_close_above_sma_pct := ec_min_close_above_sma_pct candidate;
  ec_max_close_above_sma_pct := value;
  ec_min_momentum_return_pct := ec_min_momentum_return_pct candidate;
  ec_min_trend_return_pct := ec_min_trend_return_pct candidate;
  ec_min_trend_slope_pct := ec_min_trend_slope_pct candidate;
  ec_min_pullback_depth_pct := ec_min_pullback_depth_pct candidate;
  ec_max_pullback_depth_pct := ec_max_pullback_depth_pct candidate;
  ec_min_reclaim_pct := ec_min_reclaim_pct candidate;
  ec_min_breakdown_pct := ec_min_breakdown_pct candidate;
  ec_min_reclaim_close_pct := ec_min_reclaim_close_pct candidate;
  ec_min_lower_wick_pct := ec_min_lower_wick_pct candidate;
  ec_min_volume_ratio := ec_min_volume_ratio candidate;
  ec_max_choppiness := ec_max_choppiness candidate;
  ec_holding_candles := ec_holding_candles candidate;
  ec_stop_loss_pct := ec_stop_loss_pct candidate;
  ec_take_profit_pct := ec_take_profit_pct candidate;
  ec_confirmation_candles := ec_confirmation_candles candidate;
  ec_require_confirmation_close_above_lookback_low :=
      ec_require_confirmation_close_above_lookback_low candidate;
  ec_require_confirmation_low_above_breakdown_low :=
      ec_require_confirmation_low_above_breakdown_low candidate;
  ec_max_signal_age_ms := ec_max_signal_age_ms candidate |}.

(** The range widths enumerated for a compression breakout and the distance from
    the moving average enumerated for a pull-back never reach the configuration:
    candidates that differ only there run the same backtest. *)
Theorem override_ignores_enumerated_parameters base_config symbol timeframe candidate lo hi value :
  let update := strategy_config_update_from_candidate base_config in
  update "volatility_compression_breakout_v1" symbol timeframe (with_range_width lo hi candidate)
    = update "volatility_compression_breakout_v1" symbol timeframe candidate /\
  update "trend_pullback_continuation_v1" symbol timeframe
      (with_max_close_above_sma value candidate)
    = update "trend_pullback_continuation_v1" symbol timeframe candidate.
Proof.
  cbv zeta. assert (forall A (o o' fallback : option A),
    filter_or false o fallback = filter_or false o' fallback) as Hf by (by intros A [|] [|]).
  split; unfold strategy_config_update_from_candidate; cbv zeta; f_equal; apply Hf.
Qed.

End Candidates.

(** ** Ranking *)

Section Ranking.
Context {DI : Decimal}.

Lemma dcmp_preorder : total_preorder dcmp.
Proof.
  split; [intros; unfold dcmp; symmetry; apply Qcompare_antisym|].
  intros x y z. unfold dcmp. rewrite <- !Qle_alt. apply Qle_trans.
Qed.

Lemma run_order_preorder : total_preorder run_order.
Proof.
  unfold run_order. repeat apply then_with_preorder;
    first [ exact (on_preorder _ xr_id compare_preorder)
          | exact (flip_preorder _ (on_preorder _ xr_trade_count compare_preorder))
          | exact (on_preorder _ xr_max_drawdown_pct dcmp_preorder)
          | exact (on_preorder _ xr_fee_slippage_drag_pct dcmp_preorder)
          | exact (flip_preorder _ (on_preorder _ xr_score dcmp_preorder))
          | exact (flip_preorder _ (on_preorder _ xr_pnl_pct dcmp_preorder))
          | exact (flip_preorder _ (on_preorder _ xr_win_rate dcmp_preorder)) ].
Qed.

Lemma set_rank_order m n a b : run_order (set_rank m a) (set_rank n b) = run_order a b.
Proof. done. Qed.

(** Two runs that tie on everything have the same identifier. *)
Lemma run_order_eq a b : run_order a b = Eq -> xr_id a = xr_id b.
Proof.
  unfold run_order, then_with. repeat (match goal with |- context [match ?c with _ => _ end] =>
    destruct c end; [|done..]). apply Z.compare_eq.
Qed.

Lemma sorted_runs_ranked runs :
  StronglySorted (fun a b => run_order a b <> Gt) (sort_by (not_greater run_order) runs).
Proof.
  apply (strongly_sorted_impl (fun x y => not_greater run_order x y = true)).
  { intros x y. apply not_greater_iff. }
  apply sort_by_sorted; [apply not_greater_total|apply not_greater_trans]; apply run_order_preorder.
Qed.

(** With distinct identifiers the ranking is a function of the set of runs. *)
Lemma sorted_runs_unique runs runs' :
  NoDup (map xr_id runs) -> Permutation runs runs' ->
  sort_by (not_greater run_order) runs = sort_by (not_greater run_order) runs'.
Proof.
  intros Hn Hp. pose proof run_order_preorder as Ho.
  apply (sorted_unique (not_greater run_order)).
  - intros x y Hx Hy Hxy Hyx. rewrite in_sort_by in Hx, Hy. rewrite not_greater_iff in Hxy, Hyx.
    rewrite (tp_opp _ Ho) in Hyx. apply (NoDup_map_inj xr_id runs); try done.
    apply run_order_eq. by destruct (run_order x y).
  - by rewrite !sort_by_perm.
  - apply sort_by_sorted; [by apply not_greater_total|by apply not_greater_trans].
  - apply sort_by_sorted; [by apply not_greater_total|by apply not_greater_trans].
Qed.

Lemma ranks_from_one runs : Z.of_nat (length runs) <= i32_max ->
  map xr_rank (rank_strategy_experiment_runs runs)
  = map (fun k => Z.of_nat k + 1) (seq 0 (length runs)).
Proof.
  intros Hl. unfold rank_strategy_experiment_runs.
  rewrite <- (sort_by_length (not_greater run_order) runs).
  set (l := sort_by _ _).
  assert (Z.of_nat (length l) <= i32_max) as Hl' by (by unfold l; rewrite sort_by_length).
  clearbody l. clear Hl.
  apply list_eq. intros i. rewrite !list_lookup_fmap, list_lookup_imap.
  destruct (decide (i < length l)%nat) as [Hi|Hi].
  - rewrite lookup_seq_lt by done. destruct (lookup_lt_is_Some_2 l i Hi) as [x ->]. cbn.
    unfold i32_max in Hl'. rewrite (wrap_i32_id (Z.of_nat i)) by lia.
    unfold i32_add. by rewrite wrap_i32_id by lia.
  - rewrite lookup_seq_ge by lia. by rewrite lookup_ge_None_2 by lia.
Qed.

Lemma best_score runs best run : head (rank_strategy_experiment_runs runs) = Some best ->
  In run runs -> (dval (xr_score run) <= dval (xr_score best))%Q.
Proof.
  unfold rank_strategy_experiment_runs. pose proof (sorted_runs_ranked runs) as Hs.
  intros Hb Hr. apply (in_sort_by (not_greater run_order)) in Hr.
  destruct (sort_by _ runs) as [|x l]; [done|]. cbn in Hb. injection Hb as <-.
  inversion Hs as [|? ? _ Hx]; subst. cbn. destruct Hr as [->|Hr]; [apply Qle_refl|].
  apply list_elem_of_In in Hr. rewrite Forall_forall in Hx. specialize (Hx _ Hr).
  apply Qnot_lt_le. intros Hlt. apply Hx. unfold run_order, dcmp.
  rewrite (proj1 (Qgt_alt _ _)) by exact Hlt. done.
Qed.

(** Ranking only renumbers: the ranked runs are the runs, from the best to
    the worst, numbered from 1; no run has a better score than the first; and with
    distinct identifiers the order in which the runs were made does not matter. *)
Theorem ranking_orders_runs runs :
  Z.of_nat (length runs) <= i32_max ->
  let ranked := rank_strategy_experiment_runs runs in
  Permutation (map (set_rank 0) ranked) (map (set_rank 0) runs) /\
  map xr_rank ranked = map (fun k => Z.of_nat k + 1) (seq 0 (length runs)) /\
  StronglySorted (fun a b => run_order a b <> Gt) ranked /\
  (forall best run, head ranked = Some best -> In run runs ->
     (dval (xr_score run) <= dval (xr_score best))%Q) /\
  (NoDup (map xr_id runs) -> forall runs', Permutation runs runs' ->
     rank_strategy_experiment_runs runs' = ranked).
Proof.
  intros Hl. cbv zeta. unfold rank_strategy_experiment_runs at 1 3 5.
  split_and!.
  - rewrite (map_imap _ _ (set_rank 0)) by done. by rewrite sort_by_perm.
  - by apply ranks_from_one.
  - eapply imap_sorted; [|apply sorted_runs_ranked]. by intros.
  - intros best run. apply best_score.
  - intros Hn runs' Hp. unfold rank_strategy_experiment_runs.
    by rewrite (sorted_runs_unique _ _ Hn Hp).
Qed.

End Ranking.

(** ** An experiment always completes *)

Section ExperimentRuns.
Context {DI : Decimal} {DL : DecimalLaws DI} {CH : Chrono} {JS : Json}.

Definition u32 (z : Z) : Prop := 0 <= z < 2 ^ 32.
Definition u32_opt (o : option Z) : Prop := match o with Some z => u32 z | None => True end.
Definition u32_list (o : option (list Z)) : Prop := Forall u32 (default [] o).

(** The counts of a request, a candidate and a stored configuration are [u32]. *)
Record experiment_u32 (request : StrategyExperimentRequest) : Prop := {
  eu_lookback : Forall u32 (er_lookback_candidates request);
  eu_trend : u32_list (er_trend_lookback_candidates request);
  eu_momentum : u32_list (er_momentum_lookback_candidates request);
  eu_compression : u32_list (er_compression_lookback_candidates request);
  eu_breakout : u32_list (er_breakout_lookback_candidates request);
  eu_pullback : u32_list (er_pullback_lookback_candidates request);
  eu_pullback_sma : u32_list (er_pullback_sma_lookback_candidates request);
  eu_confirmation : u32_list (er_confirmation_candles_candidates request);
  eu_max_runs : u32_opt (er_max_runs request)
}.

Record candidate_u32 (candidate : StrategyExperimentCandidate) : Prop := {
  cu_lookback : u32 (ec_lookback_candles candidate);
  cu_trend : u32_opt (ec_trend_lookback_candles candidate);
  cu_momentum : u32_opt (ec_momentum_lookback_candles candidate);
  cu_compression : u32_opt (ec_compression_lookback_candles candidate);
  cu_breakout : u32_opt (ec_breakout_lookback_candles candidate);
  cu_pullback : u32_opt (ec_pullback_lookback_candles candidate);
  cu_pullback_sma : u32_opt (ec_pullback_sma_lookback_candles candidate);
  cu_confirmation : u32 (ec_confirmation_candles candidate)
}.

Record stored_u32 (config : StrategyConfig) : Prop := {
  tu_cooldown : u32 (sc_cooldown_seconds config);
  tu_trend : u32_opt (sc_trend_lookback_candles config);
  tu_momentum : u32_opt (sc_momentum_lookback_candles config);
  tu_compression : u32_opt (sc_compression_lookback_candles config);
  tu_breakout : u32_opt (sc_breakout_lookback_candles config);
  tu_pullback : u32_opt (sc_pullback_lookback_candles config);
  tu_pullback_sma : u32_opt (sc_pullback_sma_lookback_candles config)
}.

Lemma non_empty_or_in {A} (P : A -> Prop) o (fallback : list A) x :
  Forall P (default [] o) -> Forall P fallback -> x ∈ non_empty_or o fallback -> P x.
Proof. rewrite !Forall_forall. destruct o as [[|y l]|]; cbn; auto. Qed.

Lemma non_empty_or_ne {A} o (fallback : list A) : fallback <> [] -> non_empty_or o fallback <> [].
Proof. by destruct o as [[|y l]|]. Qed.

Lemma then_some_u32 b z : u32 z -> u32_opt (then_some b z).
Proof. by destruct b. Qed.

Lemma u32_0 : u32 0. Proof. unfold u32. lia. Qed.

Lemma grid_u32 request candidate : experiment_u32 request ->
  candidate ∈ full_grid request -> candidate_u32 candidate.
Proof.
  intros [H1 H2 H3 H4 H5 H6 H7 H8 _] Hin. unfold full_grid in Hin.
  repeat case_match; unfold reclaim_grid, pullback_grid, general_grid in Hin; cbv zeta in Hin;
    repeat (apply list_elem_of_bind in Hin as (? & Hin & ?));
    apply list_elem_of_singleton in Hin as ->;
    split; cbn; try apply then_some_u32; try exact I; try exact u32_0;
    match goal with
    | H : ?x ∈ er_lookback_candidates _ |- u32 ?x => by apply (proj1 (Forall_forall _ _) H1)
    | H : ?x ∈ non_empty_or ?o ?l |- u32 ?x =>
      apply (non_empty_or_in u32 o l); [done|first [done|by repeat constructor]|done]
    end.
Qed.

Lemma push_until_in {A} m (pushed all : list A) x :
  x ∈ push_until m pushed all -> x ∈ pushed \/ x ∈ all.
Proof.
  revert pushed; induction all as [|c all IH]; intros pushed; cbn [push_until]; [by left|].
  cbv zeta. rewrite elem_of_cons. case_match.
  - rewrite elem_of_app, list_elem_of_singleton. tauto.
  - intros [Hp|Hp]%IH; [|tauto]. rewrite elem_of_app, list_elem_of_singleton in Hp. tauto.
Qed.

Lemma candidates_in request candidate :
  candidate ∈ candidates request -> candidate ∈ full_grid request.
Proof.
  unfold candidates, full_grid. repeat case_match; try done; try (by apply in_firstn);
    intros [Hp|Hp]%push_until_in; try done; by inversion Hp.
Qed.

Lemma full_grid_ne request : er_lookback_candidates request <> [] -> full_grid request <> [].
Proof.
  intros H. unfold full_grid.
  repeat case_match; unfold reclaim_grid, pullback_grid, general_grid; cbv zeta;
    repeat (apply bind_ne; [solve [done | by apply non_empty_or_ne]|intros ?]); done.
Qed.

Lemma candidates_ne request : er_lookback_candidates request <> [] ->
  match er_max_runs request with Some m => 0 < m | None => True end -> candidates request <> [].
Proof.
  intros H Hm. pose proof (full_grid_ne request H) as Hg. rewrite candidates_firstn by done.
  destruct (er_max_runs request) as [m|]; [|done].
  destruct (full_grid request); [done|]. by destruct (Z.to_nat m) eqn:E; [lia|].
Qed.

Lemma filter_or_u32 b o o' : u32_opt o -> u32_opt o' -> u32_opt (filter_or b o o').
Proof. by destruct o, b. Qed.

Lemma override_unsigned base_config request candidate :
  stored_u32 base_config -> candidate_u32 candidate ->
  request_unsigned (experiment_strategy_override base_config request candidate).
Proof.
  intros [T1 T2 T3 T4 T5 T6 T7] [C1 C2 C3 C4 C5 C6 C7 C8].
  split; [exact C1|]. split; [exact C8|]. split; [exact T1|].
  repeat constructor; try done; apply filter_or_u32; try done;
    first [by destruct (ec_trend_lookback_candles candidate)
          |by destruct (ec_compression_lookback_candles candidate)
          |by destruct (ec_breakout_lookback_candles candidate)].
Qed.

(** What a validated request guarantees to the runs. *)
Lemma experiment_request_ok request : StrategyExperimentRequest_validate request = Ok tt ->
  er_lookback_candidates request <> [] /\ (0 <= dval (er_fee_bps request))%Q /\
  (0 <= dval (er_slippage_bps request))%Q /\ er_max_runs request <> Some 0.
Proof.
  unfold StrategyExperimentRequest_validate. intros H.
  repeat (case_match; try discriminate H); res_inv; repeat (case_match; try discriminate);
    repeat match goal with
    | H : (_ <? ZERO)%dec = false |- _ => apply dltb_ge in H; rewrite dval_ZERO in H
    | H : bool_decide _ = false |- _ => apply bool_decide_eq_false in H
    end; bool_to_prop; split_and!; congruence || done.
Qed.
(** An accepted configuration can be run by a request for its strategy. *)
Lemma accepted_runnable now update context config request :
  request_unsigned update -> accepted now update context config ->
  br_strategy_id request = su_strategy_id update ->
  (exists symbol, Symbol_new (br_symbol request) = Ok symbol) ->
  (0 <= dval (br_fee_bps request))%Q -> (0 <= dval (br_slippage_bps request))%Q ->
  runnable request config.
Proof.
  intros Hu Ha Hid Hsym Hf Hs.
  split; [by eapply accepted_lookbacks_u32|by eapply accepted_validates
    |by eapply accepted_not_degenerate| |done|done|done].
  rewrite Hid. by apply accepted_inv in Ha as [Ha _].
Qed.

(** What holds after the candidates [done_] were run over [candles]. *)
Record tally (candles : list Candle) (done_ : list (nat * StrategyExperimentCandidate))
    (state : ExperimentState) : Prop := {
  ta_count : Z.of_nat (length (xt_runs state)) + xt_skipped_invalid_config_count state
             = Z.of_nat (length done_);
  ta_skipped : 0 <= xt_skipped_invalid_config_count state;
  ta_examples : (length (xt_invalid_config_examples state) <= 10)%nat;
  ta_status : Forall (fun run => xr_status run =
    if (length candles =? 0)%nat then StrategyExperimentStatus.Failed
    else StrategyExperimentStatus.Completed) (xt_runs state)
}.

Section Steps.
Context (drawn : Drawn) (base_config : StrategyConfig) (symbol : Symbol)
  (request : StrategyExperimentRequest) (candles : list Candle)
  (created_at correlation_id experiment_id : Z).
Hypothesis Hvalid : StrategyExperimentRequest_validate request = Ok tt.
Hypothesis Hu32 : experiment_u32 request.
Hypothesis Hstored : stored_u32 base_config.
Hypothesis Hsymbol : Symbol_new (er_symbol request) = Ok symbol.
Hypothesis Htradable : Forall tradable candles.
Abbreviation step := (experiment_step drawn base_config symbol request candles created_at
  correlation_id experiment_id).

(** A candidate's accepted configuration can be run. *)
Lemma candidate_runnable candidate config :
  candidate ∈ candidates request ->
  vr_normalized_config (validate_strategy_config (dr_now drawn)
    (experiment_strategy_override base_config request candidate) (experiment_context symbol))
    = Some config ->
  runnable (candidate_request request correlation_id candidate config
    (experiment_strategy_override base_config request candidate)) config.
Proof.
  intros Hc Ha. destruct (experiment_request_ok request Hvalid) as (_ & Hf & Hs & _).
  eapply accepted_runnable; [|exact Ha|done|by exists symbol|done|done].
  apply override_unsigned; [done|]. apply (grid_u32 request); [done|]. by apply candidates_in.
Qed.

Lemma step_total state k candidate : candidate ∈ candidates request ->
  exists state', step state (k, candidate) = Ok state'.
Proof.
  intros Hc. unfold experiment_step. case_match eqn:Ha; [|by eexists].
  destruct (simulate_backtest_ok (dr_signal drawn k) (dr_simulation drawn k) created_at
    correlation_id _ _ candles (candidate_runnable _ _ Hc Ha) Htradable) as (be & -> & _).
  by eexists.
Qed.

Lemma step_tally state done_ k candidate state' : candidate ∈ candidates request ->
  Z.of_nat (length done_) < i32_max -> tally candles done_ state ->
  step state (k, candidate) = Ok state' -> tally candles (done_ ++ [(k, candidate)]) state'.
Proof.
  intros Hc Hl [H1 H2 H3 H4]. unfold experiment_step, i32_max in *.
  destruct (vr_normalized_config _) as [config|] eqn:Ha.
  - destruct (simulate_backtest_ok (dr_signal drawn k) (dr_simulation drawn k) created_at
      correlation_id _ _ candles (candidate_runnable _ _ Hc Ha) Htradable) as (be & -> & Hs).
    cbn [mbind res_bind]. intros [= <-]. split; cbn; rewrite ?length_app; cbn; try lia.
    apply Forall_app. split; [done|]. constructor; [|done]. cbn. rewrite Hs. by case_match.
  - intros [= <-]. split; cbn [xt_runs xt_skipped_invalid_config_count xt_invalid_config_examples];
      rewrite ?length_app; cbn [length]; try done.
    + unfold i32_add. rewrite wrap_i32_id; lia.
    + unfold i32_add. rewrite wrap_i32_id; lia.
    + destruct (Nat.ltb_spec (length (xt_invalid_config_examples state)) 10);
        rewrite ?length_app; cbn [length]; lia.
Qed.

Lemma steps_tally : Z.of_nat (length (candidates request)) <= i32_max ->
  exists state,
    fold_res step {| xt_runs := []; xt_skipped_invalid_config_count := 0;
                     xt_invalid_config_examples := [] |}
      (imap (fun k candidate => (k, candidate)) (candidates request)) = Ok state /\
    tally candles (imap (fun k candidate => (k, candidate)) (candidates request)) state.
Proof.
  intros Hl. assert (forall k candidate,
    In (k, candidate) (imap (fun k candidate => (k, candidate)) (candidates request)) ->
    candidate ∈ candidates request) as Hin.
  { intros k c H. apply list_elem_of_In, elem_of_lookup_imap in H as (i & c' & [= _ ->] & H).
    by eapply list_elem_of_lookup_2. }
  edestruct (fold_res_total step) as [state Hs]; [|exists state; split; [exact Hs|]].
  - intros st [k c] H. by eapply step_total, Hin.
  - revert Hs. apply fold_res_inv; [by split; cbn; (lia || constructor)|].
    intros pre [k c] st st' [post Hp] Ht. apply step_tally; [|..|done].
    + apply (Hin k). rewrite Hp. apply in_app_iff. right. by left.
    + apply (f_equal length) in Hp. rewrite length_imap, length_app in Hp. cbn in Hp. lia.
Qed.
End Steps.

Lemma ranked_length runs : length (rank_strategy_experiment_runs runs) = length runs.
Proof. unfold rank_strategy_experiment_runs. by rewrite length_imap, sort_by_length. Qed.

Lemma ranked_in run runs : In run (rank_strategy_experiment_runs runs) ->
  exists r, In r runs /\ xr_score run = xr_score r.
Proof.
  unfold rank_strategy_experiment_runs. intros H%list_elem_of_In.
  apply elem_of_lookup_imap in H as (i & r & -> & H). exists r. split; [|done].
  apply list_elem_of_lookup_2, list_elem_of_In in H. by apply in_sort_by in H.
Qed.

Lemma best_run_head runs :
  let ranked := rank_strategy_experiment_runs runs in
  match find_run (xc_best_run_id (strategy_experiment_comparison ranked)) ranked with
  | Some best => In best ranked /\
      forall run, In run ranked -> (dval (xr_score run) <= dval (xr_score best))%Q
  | None => ranked = []
  end.
Proof.
  cbv zeta.
  destruct (rank_strategy_experiment_runs runs) as [|best l] eqn:E; [done|].
  unfold strategy_experiment_comparison, find_run. cbn. rewrite Z.eqb_refl.
  split; [by left|]. intros run Hr. change (In run (best :: l)) in Hr. rewrite <- E in Hr.
  apply ranked_in in Hr as (r & Hr & ->). apply (best_score runs); [by rewrite E|done].
Qed.

(** A test that does not look at the rank. *)
Lemma ranked_statuses runs :
  forallb (fun run => bool_decide (xr_status run = StrategyExperimentStatus.Completed))
    (rank_strategy_experiment_runs runs)
  = forallb (fun run => bool_decide (xr_status run = StrategyExperimentStatus.Completed)) runs.
Proof.
  transitivity (forallb (fun status => bool_decide (status = StrategyExperimentStatus.Completed))
    (map xr_status (rank_strategy_experiment_runs runs))); [by rewrite forallb_map|].
  unfold rank_strategy_experiment_runs. rewrite (map_imap _ _ xr_status) by done.
  rewrite (forallb_perm _ _ _
    (Permutation_map xr_status (sort_by_perm (not_greater run_order) runs))).
  by rewrite forallb_map.
Qed.

Lemma experiment_status_iff (candles : list Candle) runs :
  Forall (fun run => xr_status run =
    if (length candles =? 0)%nat then StrategyExperimentStatus.Failed
    else StrategyExperimentStatus.Completed) runs ->
  (if negb (Nat.eqb (length runs) 0) &&
      forallb (fun run => bool_decide (xr_status run = StrategyExperimentStatus.Completed))
        (rank_strategy_experiment_runs runs)
   then StrategyExperimentStatus.Completed else StrategyExperimentStatus.Failed)
    = StrategyExperimentStatus.Completed <-> 0 < Z.of_nat (length runs) /\ candles <> [].
Proof.
  intros Hs. destruct (Nat.eqb_spec (length runs) 0) as [E|E]; cbn [negb andb].
  { split; [discriminate|lia]. }
  rewrite ranked_statuses. destruct runs as [|run runs]; [done|]. cbn [forallb].
  inversion Hs as [|? ? H1 H2]; subst. rewrite H1.
  destruct candles as [|c candles]; cbn [length Nat.eqb andb bool_decide].
  - split; [discriminate|by intros []].
  - rewrite bool_decide_eq_true_2 by done. cbn [andb].
    rewrite (proj2 (forallb_forall _ _)); [split; [split; [cbn; lia|done]|done]|].
    intros x Hx. apply bool_decide_eq_true_2. rewrite List.Forall_forall in H2. by apply H2.
Qed.


(** A validated experiment over tradable candles always answers, with one run or
    one skipped configuration per candidate, and there is at least one candidate.  It
    is completed when something ran over candles, and its best run has the best score. *)
Theorem experiment_completes drawn experiment_id base_config symbol request candles created_at
    correlation_id experiment_group_id :
  StrategyExperimentRequest_validate request = Ok tt -> experiment_u32 request ->
  stored_u32 base_config -> Symbol_new (er_symbol request) = Ok symbol ->
  Forall tradable candles -> Z.of_nat (length (candidates request)) <= i32_max ->
  exists execution,
    build_strategy_experiment_execution drawn experiment_id base_config symbol request candles
      created_at correlation_id experiment_group_id = Ok execution /\
    let result := xe_result execution in
    0 < xs_total_candidate_configs result /\
    xs_total_candidate_configs result = Z.of_nat (length (candidates request)) /\
    xs_run_count result = Z.of_nat (length (xe_runs execution)) /\
    xs_run_count result + xs_skipped_invalid_config_count result
      = xs_total_candidate_configs result /\
    (xs_status result = StrategyExperimentStatus.Completed
       <-> 0 < xs_run_count result /\ candles <> []) /\
    match xs_best_run result with
    | Some best => In best (xe_runs execution) /\ forall run, In run (xe_runs execution) ->
                     (dval (xr_score run) <= dval (xr_score best))%Q
    | None => xe_runs execution = []
    end.
Proof.
  intros Hv Hu Hb Hsym Ht Hl.
  destruct (experiment_request_ok request Hv) as (Hne & _ & _ & Hm).
  assert (candidates request <> []) as Hc.
  { apply candidates_ne; [done|]. pose proof (eu_max_runs _ Hu) as Hm'.
    destruct (er_max_runs request) as [m|]; [|done]. cbn in Hm'. unfold u32 in Hm'.
    assert (m <> 0) by congruence. lia. }
  destruct (steps_tally drawn base_config symbol request candles created_at correlation_id
    experiment_id Hv Hu Hb Hsym Ht Hl) as (state & Hs & [T1 T2 T3 T4]).
  rewrite length_imap in T1. unfold build_strategy_experiment_execution.
  destruct (candidates request) as [|c all] eqn:Ec; [done|]. rewrite <- Ec in *. rewrite Hs.
  eexists. split; [reflexivity|].
  assert (i32_try_from (Z.of_nat (length (candidates request))) =
    Some (Z.of_nat (length (candidates request)))) as ->.
  { apply i32_try_from_small. split; [lia|exact Hl]. }
  cbv zeta. cbn [xe_result xe_runs xs_total_candidate_configs xs_run_count
    xs_skipped_invalid_config_count xs_status xs_best_run].
  rewrite ranked_length. unfold i32_max in Hl. rewrite wrap_i32_id by lia.
  assert (0 < length (candidates request))%nat by (rewrite Ec; cbn; lia).
  split; [lia|]. do 2 (split; [done|]). split; [lia|]. split; [|apply best_run_head].
  by apply experiment_status_iff.
Qed.
End ExperimentRuns.

(** ** Concrete experiments *)

Module ExperimentSample.
#[local] Existing Instance ExactDecimal.
#[local] Existing Instance PlainChrono.
#[local] Existing Instance PlainJson.

Definition request (id : string) (lookbacks : list Z) (max_runs : option Z)
    : StrategyExperimentRequest := {|
  er_strategy_id := id; er_symbol := "BTCUSDT"; er_timeframe := "1m"; er_start_time := 0;
  er_end_time := minutes 20; er_initial_capital := dint 1000; er_fee_bps := dint 10;
  er_slippage_bps := dint 5; er_lookback_candidates := lookbacks;
  er_trend_lookback_candidates := Some [2]; er_momentum_lookback_candidates := None;
  er_compression_lookback_candidates := Some [2; 3]; er_breakout_lookback_candidates := Some [2];
  er_pullback_lookback_candidates := None; er_pullback_sma_lookback_candidates := None;
  er_compression_percentile_threshold_candidates := None; er_min_breakout_pct_candidates := None;
  er_max_breakout_extension_pct_candidates := None;
  er_min_volume_expansion_ratio_candidates := None; er_lower_band_pct_candidates := None;
  er_upper_band_pct_candidates := None; er_min_range_width_pct_candidates := None;
  er_max_range_width_pct_candidates := None; er_min_close_above_sma_pct_candidates := None;
  er_max_close_above_sma_pct_candidates := None; er_min_momentum_return_pct_candidates := None;
  er_min_trend_return_pct_candidates := None; er_min_trend_slope_pct_candidates := None;
  er_min_pullback_depth_pct_candidates := None; er_max_pullback_depth_pct_candidates := None;
  er_min_reclaim_pct_candidates := None; er_min_breakdown_pct_candidates := None;
  er_min_reclaim_close_pct_candidates := None; er_min_lower_wick_pct_candidates := None;
  er_min_volume_ratio_candidates := None; er_max_choppiness_candidates := None;
  er_holding_candles_candidates := None; er_stop_loss_pct_candidates := None;
  er_take_profit_pct_candidates := None; er_confirmation_candles_candidates := None;
  er_require_confirmation_close_above_lookback_low_candidates := None;
  er_require_confirmation_low_above_breakdown_low_candidates := None;
  er_max_signal_age_ms := None; er_max_runs := max_runs; er_correlation_id := None |}.

Definition drawn : Drawn := {|
  dr_simulation := fun k => 100 + Z.of_nat k; dr_run := fun k => 10 - Z.of_nat k;
  dr_signal := fun k i => 1000 + 100 * Z.of_nat k + Z.of_nat i; dr_now := 5 |}.

Abbreviation momentum := (request "momentum_v1" [2; 200] None).
Abbreviation symbol := ({| symbol_text := "BTCUSDT" |}).

Lemma momentum_valid : StrategyExperimentRequest_validate momentum = Ok tt.
Proof. vm_compute. reflexivity. Qed.
Lemma momentum_u32 : experiment_u32 momentum.
Proof. split; cbn; repeat constructor; unfold u32; lia. Qed.
Lemma stored : stored_u32 ReplaySample.momentum.
Proof. split; cbn; try exact I; unfold u32; lia. Qed.
Lemma bar_tradable i o h l c : 0 < o -> tradable (ReplaySample.bar i o h l c).
Proof. intros H. unfold tradable, Qlt. cbn. lia. Qed.
Lemma bars_tradable : Forall tradable ReplaySample.bars.
Proof. unfold ReplaySample.bars. repeat (constructor; [apply bar_tradable; lia|]). constructor. Qed.

Abbreviation outcome := (build_strategy_experiment_execution drawn 1 ReplaySample.momentum symbol
  momentum ReplaySample.bars 0 8 None).

(** Four candidates: each lookback twice, and a lookback of 200 is out of range. *)
Example outcome_runs :
  match outcome with
  | Ok execution =>
    (xs_run_count (xe_result execution), xs_skipped_invalid_config_count (xe_result execution),
     map xr_rank (xe_runs execution))
  | _ => (0, 0, [])
  end = (2, 2, [1; 2]).
Proof. vm_compute. reflexivity. Qed.

Lemma four : Z.of_nat (length (candidates momentum)) <= i32_max.
Proof. vm_compute. discriminate. Qed.

Example experiment_completes_witness :
  exists execution, outcome = Ok execution /\ 0 < xs_total_candidate_configs (xe_result execution).
Proof.
  destruct (experiment_completes (DL := ExactDecimalLaws) drawn 1 ReplaySample.momentum symbol
    momentum ReplaySample.bars 0 8 None momentum_valid momentum_u32 stored eq_refl bars_tradable
    four)
    as (execution & H & H0 & _).
  exists execution. split; [exact H|exact H0].
Defined.

(** The same two combinations, each as often as there are compression lookbacks. *)
Example general_grid_repeats_witness :
  exists distinct, Permutation (general_grid momentum) (repeated 2 distinct).
Proof. exact (general_grid_repeats momentum ltac:(vm_compute; discriminate)). Defined.

Definition plain_candidate : StrategyExperimentCandidate := {|
  ec_lookback_candles := 2; ec_trend_lookback_candles := None;
  ec_momentum_lookback_candles := None; ec_compression_lookback_candles := None;
  ec_breakout_lookback_candles := None; ec_pullback_lookback_candles := None;
  ec_pullback_sma_lookback_candles := None; ec_compression_percentile_threshold := None;
  ec_min_breakout_pct := None; ec_max_breakout_extension_pct := None;
  ec_min_volume_expansion_ratio := None; ec_lower_band_pct := None; ec_upper_band_pct := None;
  ec_min_range_width_pct := None; ec_max_range_width_pct := None;
  ec_min_close_above_sma_pct := None; ec_max_close_above_sma_pct := None;
  ec_min_momentum_return_pct := None; ec_min_trend_return_pct := None;
  ec_min_trend_slope_pct := None; ec_min_pullback_depth_pct := None;
  ec_max_pullback_depth_pct := None; ec_min_reclaim_pct := None; ec_min_breakdown_pct := None;
  ec_min_reclaim_close_pct := None; ec_min_lower_wick_pct := None; ec_min_volume_ratio := None;
  ec_max_choppiness := None; ec_holding_candles := None; ec_stop_loss_pct := None;
  ec_take_profit_pct := None; ec_confirmation_candles := 0;
  ec_require_confirmation_close_above_lookback_low := false;
  ec_require_confirmation_low_above_breakdown_low := false; ec_max_signal_age_ms := None |}.

(** Three runs of which two have the same score. *)
Definition run (id score pnl_pct : Z) : StrategyExperimentRun := {|
  xr_id := id; xr_experiment_id := 1; xr_rank := 0;
  xr_candidate := plain_candidate; xr_final_equity := dint 1000; xr_pnl := ZERO;
  xr_pnl_pct := dint pnl_pct; xr_max_drawdown_pct := ZERO; xr_win_rate := ZERO; xr_trade_count := 3;
  xr_fee_paid := ZERO; xr_slippage_cost := ZERO; xr_fee_slippage_drag_pct := ZERO;
  xr_raw_signal_count := 3; xr_cooldown_suppressed_count := 0;
  xr_open_position_suppressed_count := 0; xr_executed_trade_count := 3;
  xr_suppression_breakdown := []; xr_last_signal_time := None; xr_last_executed_entry_time := None;
  xr_score := dint score; xr_status := StrategyExperimentStatus.Completed; xr_warnings := [];
  xr_created_at := 0 |}.
Abbreviation runs := ([run 7 1 2; run 8 5 1; run 9 1 3]).

Lemma few_runs : Z.of_nat (length runs) <= i32_max.
Proof. vm_compute. discriminate. Qed.
Lemma distinct_ids : NoDup (map xr_id runs).
Proof. by apply (bool_decide_unpack _). Qed.

Example ranking_orders_runs_witness :
  map xr_id (rank_strategy_experiment_runs runs) = [8; 9; 7] /\
  rank_strategy_experiment_runs (rev runs) = rank_strategy_experiment_runs runs.
Proof.
  split; [reflexivity|].
  exact (proj2 (proj2 (proj2 (proj2 (ranking_orders_runs runs few_runs)))) distinct_ids _
    (Permutation_rev runs)).
Defined.
End ExperimentSample.
