(* ===== verification/WalkForward.v ===== *)
(** * Walk-forward tests

    crates/core/src/lib.rs, 3383-3768 and 4480-4560, and crates/replay-engine/src/lib.rs,
    813-857, 3649-4075 and 4317-4730.

    A walk-forward run slides a train and a test window over a range, runs the
    candidate's configuration on the candles of every test window, and sums the
    windows up: how many were profitable, how robust the candidate is, what to do
    with it.  Instants and durations are added with the checked operations of
    [chrono], whose overflow panics; [serde_json::to_value] of a backtest result
    is an argument. *)

From Stdlib Require Import ZArith QArith Lqa Lia List String Sorted Permutation.
From stdpp Require Import base list strings.
From S2P Require Import Prelude Text Host Types MarketData Risk Strategy StrategyRequest.
From S2P Require Import Replay Experiment.

#[local] Open Scope Z_scope.

Module StrategyWalkForwardStatus.
Inductive t := Pending | Running | Completed | Failed | Skipped.
#[global] Instance eq_dec : EqDecision t.
Proof. solve_decision. Defined.
Definition as_str (x : t) : string :=
  match x with
  | Pending => "PENDING"
  | Running => "RUNNING"
  | Completed => "COMPLETED"
  | Failed => "FAILED"
  | Skipped => "SKIPPED"
  end.
End StrategyWalkForwardStatus.

#[export] Instance StrategyWalkForwardStatus_from_str : FromStr StrategyWalkForwardStatus.t := {|
  normalise := to_ascii_uppercase;
  table := [("PENDING", StrategyWalkForwardStatus.Pending);
    ("RUNNING", StrategyWalkForwardStatus.Running);
    ("COMPLETED", StrategyWalkForwardStatus.Completed);
    ("FAILED", StrategyWalkForwardStatus.Failed);
    ("SKIPPED", StrategyWalkForwardStatus.Skipped)];
  unsupported := CoreError.UnsupportedStrategyWalkForwardStatus
|}.
#[export] Instance StrategyWalkForwardStatus_from_str_laws :
  FromStrLaws StrategyWalkForwardStatus.t StrategyWalkForwardStatus.as_str.
Proof. split; intros []; vm_compute; reflexivity. Qed.

Module StrategyWalkForwardRobustnessStatus.
Inductive t := Robust | Weak | OverfitRisk | InsufficientData | Failed.
#[global] Instance eq_dec : EqDecision t.
Proof. solve_decision. Defined.
Definition as_str (x : t) : string :=
  match x with
  | Robust => "ROBUST"
  | Weak => "WEAK"
  | OverfitRisk => "OVERFIT_RISK"
  | InsufficientData => "INSUFFICIENT_DATA"
  | Failed => "FAILED"
  end.
End StrategyWalkForwardRobustnessStatus.

#[export] Instance StrategyWalkForwardRobustnessStatus_from_str :
  FromStr StrategyWalkForwardRobustnessStatus.t := {|
  normalise := to_ascii_uppercase;
  table := [("ROBUST", StrategyWalkForwardRobustnessStatus.Robust);
    ("WEAK", StrategyWalkForwardRobustnessStatus.Weak);
    ("OVERFIT_RISK", StrategyWalkForwardRobustnessStatus.OverfitRisk);
    ("INSUFFICIENT_DATA", StrategyWalkForwardRobustnessStatus.InsufficientData);
    ("FAILED", StrategyWalkForwardRobustnessStatus.Failed)];
  unsupported := CoreError.UnsupportedStrategyWalkForwardStatus
|}.
#[export] Instance StrategyWalkForwardRobustnessStatus_from_str_laws :
  FromStrLaws StrategyWalkForwardRobustnessStatus.t StrategyWalkForwardRobustnessStatus.as_str.
Proof. split; intros []; vm_compute; reflexivity. Qed.

Section WalkForwardTypes.
Context {DI : Decimal} {JS : Json}.

Record StrategyWalkForwardCandidate := {
  wc_lookback_candles : Z;
  wc_trend_lookback_candles : option Z;
  wc_momentum_lookback_candles : option Z;
  wc_compression_lookback_candles : option Z;
  wc_breakout_lookback_candles : option Z;
  wc_pullback_lookback_candles : option Z;
  wc_pullback_sma_lookback_candles : option Z;
  wc_compression_percentile_threshold : option dec;
  wc_min_breakout_pct : option dec;
  wc_max_breakout_extension_pct : option dec;
  wc_min_volume_expansion_ratio : option dec;
  wc_lower_band_pct : option dec;
  wc_upper_band_pct : option dec;
  wc_min_range_width_pct : option dec;
  wc_max_range_width_pct : option dec;
  wc_min_close_above_sma_pct : option dec;
  wc_max_close_above_sma_pct : option dec;
  wc_min_momentum_return_pct : option dec;
  wc_min_trend_return_pct : option dec;
  wc_min_trend_slope_pct : option dec;
  wc_min_pullback_depth_pct : option dec;
  wc_max_pullback_depth_pct : option dec;
  wc_min_reclaim_pct : option dec;
  wc_min_breakdown_pct : option dec;
  wc_min_reclaim_close_pct : option dec;
  wc_min_lower_wick_pct : option dec;
  wc_min_volume_ratio : option dec;
  wc_max_choppiness : option dec;
  wc_holding_candles : option Z;
  wc_stop_loss_pct : option dec;
  wc_take_profit_pct : option dec;
  wc_confirmation_candles : option Z;
  wc_require_confirmation_close_above_lookback_low : option bool;
  wc_require_confirmation_low_above_breakdown_low : option bool;
  wc_max_signal_age_ms : option Z
}.

Record StrategyWalkForwardRecommendation := {
  wr_action : string;
  wr_reason : string
}.

Record StrategyWalkForwardRequest := {
  wq_strategy_id : string;
  wq_symbol : string;
  wq_timeframe : string;
  wq_config : option json;
  wq_experiment_run_id : option Z;
  wq_start_time : Z;
  wq_end_time : Z;
  wq_window_train_size_hours : Z;
  wq_window_test_size_hours : Z;
  wq_step_size_hours : Z;
  wq_initial_capital : dec;
  wq_fee_bps : dec;
  wq_slippage_bps : dec;
  wq_candidate_config : StrategyWalkForwardCandidate;
  wq_min_required_test_windows : option Z;
  wq_correlation_id : option Z
}.

Record StrategyWalkForwardWindow := {
  ww_window_index : Z;
  ww_train_start : Z;
  ww_train_end : Z;
  ww_test_start : Z;
  ww_test_end : Z
}.

Record StrategyWalkForwardRobustnessSummary := {
  wy_profitable_window_pct : dec;
  wy_total_trade_count : Z;
  wy_avg_trades_per_completed_window : dec;
  wy_avg_fee_slippage_drag_pct : dec;
  wy_skipped_window_pct : dec;
  wy_dominant_winner_share_pct : dec;
  wy_recommendation : StrategyWalkForwardRecommendation
}.

Record StrategyWalkForwardWindowResult := {
  wn_id : Z;
  wn_walk_forward_id : Z;
  wn_window : StrategyWalkForwardWindow;
  wn_status : StrategyWalkForwardStatus.t;
  wn_skip_reason : option string;
  wn_trade_count : Z;
  wn_pnl : dec;
  wn_pnl_pct : dec;
  wn_max_drawdown_pct : dec;
  wn_win_rate : dec;
  wn_fee_paid : dec;
  wn_slippage_cost : dec;
  wn_raw_signal_count : Z;
  wn_cooldown_suppressed_count : Z;
  wn_open_position_suppressed_count : Z;
  wn_executed_trade_count : Z;
  wn_suppression_breakdown : list ReplaySuppressionCount;
  wn_last_signal_time : option Z;
  wn_last_executed_entry_time : option Z;
  wn_result : json;
  wn_created_at : Z
}.

Record StrategyWalkForwardResult := {
  wl_walk_forward_id : Z;
  wl_strategy_id : string;
  wl_symbol : string;
  wl_timeframe : string;
  wl_total_windows : Z;
  wl_completed_windows : Z;
  wl_failed_windows : Z;
  wl_skipped_windows : Z;
  wl_profitable_test_windows : Z;
  wl_profitable_windows : Z;
  wl_losing_test_windows : Z;
  wl_losing_windows : Z;
  wl_avg_test_pnl_pct : dec;
  wl_avg_pnl_pct : dec;
  wl_median_test_pnl_pct : dec;
  wl_median_pnl_pct : dec;
  wl_worst_test_pnl_pct : dec;
  wl_worst_pnl_pct : dec;
  wl_best_test_pnl_pct : dec;
  wl_best_pnl_pct : dec;
  wl_avg_max_drawdown_pct : dec;
  wl_max_drawdown_pct : dec;
  wl_avg_trade_count : dec;
  wl_robustness_score : dec;
  wl_consistency_score : dec;
  wl_status : StrategyWalkForwardStatus.t;
  wl_robustness_status : StrategyWalkForwardRobustnessStatus.t;
  wl_robustness_summary : StrategyWalkForwardRobustnessSummary;
  wl_recommendation : StrategyWalkForwardRecommendation;
  wl_warnings : list string;
  wl_created_at : Z;
  wl_correlation_id : option Z
}.

Record StrategyWalkForwardExecution := {
  wx_result : StrategyWalkForwardResult;
  wx_windows : list StrategyWalkForwardWindowResult
}.

Definition StrategyWalkForwardRequest_validate (self : StrategyWalkForwardRequest) : result unit :=
  if is_empty (trim (wq_strategy_id self)) then
    Err CoreError.EmptyStrategyWalkForwardStrategyId else
  if is_empty (trim (wq_symbol self)) then Err CoreError.EmptyStrategyWalkForwardSymbol else
  if is_empty (trim (wq_timeframe self)) then Err CoreError.EmptyStrategyWalkForwardTimeframe else
  if wq_end_time self <=? wq_start_time self then
    Err CoreError.InvalidStrategyWalkForwardTimeRange else
  if wq_window_train_size_hours self <? 0 then
    Err (CoreError.InvalidStrategyWalkForwardWindowSize "window_train_size_hours") else
  if wq_window_test_size_hours self <=? 0 then
    Err (CoreError.InvalidStrategyWalkForwardWindowSize "window_test_size_hours") else
  if wq_step_size_hours self <=? 0 then Err CoreError.InvalidStrategyWalkForwardStepSize else
  if (wq_initial_capital self <=? ZERO)%dec then
    Err CoreError.InvalidStrategyWalkForwardInitialCapital else
  if (wq_fee_bps self <? ZERO)%dec then Err (CoreError.InvalidBacktestBps "fee_bps") else
  if (wq_slippage_bps self <? ZERO)%dec then Err (CoreError.InvalidBacktestBps "slippage_bps") else
  if (wc_lookback_candles (wq_candidate_config self) =? 0)
     && negb (bool_decide (is_Some (wq_config self)))
     && negb (bool_decide (is_Some (wq_experiment_run_id self))) then
    Err CoreError.EmptyStrategyWalkForwardCandidateLookback else
  if match wc_holding_candles (wq_candidate_config self) with Some n => n =? 0 | None => false end
  then Err CoreError.InvalidHoldingCandles else
  if match wc_max_signal_age_ms (wq_candidate_config self) with
     | Some max_signal_age_ms => max_signal_age_ms <=? 0 | None => false end
  then Err (CoreError.InvalidStrategyMaxSignalAgeMs
              (default 0 (wc_max_signal_age_ms (wq_candidate_config self)))) else
  if match wq_min_required_test_windows self with Some n => n =? 0 | None => false end
  then Err CoreError.InvalidStrategyWalkForwardMinRequiredWindows else
  _ ← from_str (A := CandleInterval.t) (wq_timeframe self);
  Ok tt.

Definition strategy_walk_forward_candidate_from_experiment (candidate : StrategyExperimentCandidate)
    : StrategyWalkForwardCandidate := {|
  wc_lookback_candles := ec_lookback_candles candidate;
  wc_trend_lookback_candles := ec_trend_lookback_candles candidate;
  wc_momentum_lookback_candles := ec_momentum_lookback_candles candidate;
  wc_compression_lookback_candles := ec_compression_lookback_candles candidate;
  wc_breakout_lookback_candles := ec_breakout_lookback_candles candidate;
  wc_pullback_lookback_candles := ec_pullback_lookback_candles candidate;
  wc_pullback_sma_lookback_candles := ec_pullback_sma_lookback_candles candidate;
  wc_compression_percentile_threshold := ec_compression_percentile_threshold candidate;
  wc_min_breakout_pct := ec_min_breakout_pct candidate;
  wc_max_breakout_extension_pct := ec_max_breakout_extension_pct candidate;
  wc_min_volume_expansion_ratio := ec_min_volume_expansion_ratio candidate;
  wc_lower_band_pct := ec_lower_band_pct candidate;
  wc_upper_band_pct := ec_upper_band_pct candidate;
  wc_min_range_width_pct := ec_min_range_width_pct candidate;
  wc_max_range_width_pct := ec_max_range_width_pct candidate;
  wc_min_close_above_sma_pct := ec_min_close_above_sma_pct candidate;
  wc_max_close_above_sma_pct := ec_max_close_above_sma_pct candidate;
  wc_min_momentum_return_pct := ec_min_momentum_return_pct candidate;
  wc_min_trend_return_pct := ec_min_trend_return_pct candidate;
  wc_min_trend_slope_pct := ec_min_trend_slope_pct candidate;
  wc_min_pullback_depth_pct := ec_min_pullback_depth_pct candidate;
  wc_max_pullback_depth_pct := ec_max_pullback_depth_pct candidate;
  wc_min_reclaim_pct := ec_min_reclaim_pct candidate;
  wc_min_breakdown_pct := ec_min_breakdown_pct candidate;
  wc_min_reclaim_close_pct := ec_min_reclaim_close_pct candidate;
  wc_min_lower_wick_pct := ec_min_lower_wick_pct candidate;
  wc_min_volume_ratio := ec_min_volume_ratio candidate;
  wc_max_choppiness := ec_max_choppiness candidate;
  wc_holding_candles := ec_holding_candles candidate;
  wc_stop_loss_pct := ec_stop_loss_pct candidate;
  wc_take_profit_pct := ec_take_profit_pct candidate;
  wc_confirmation_candles := Some (ec_confirmation_candles candidate);
  wc_require_confirmation_close_above_lookback_low :=
      Some (ec_require_confirmation_close_above_lookback_low candidate);
  wc_require_confirmation_low_above_breakdown_low :=
      Some (ec_require_confirmation_low_above_breakdown_low candidate);
  wc_max_signal_age_ms := ec_max_signal_age_ms candidate |}.

(** [x.or(Some(y))] is [Some (default y x)]. *)
Definition walk_forward_strategy_override (base_config : StrategyConfig)
    (request : StrategyWalkForwardRequest) : StrategyConfigUpdateRequest :=
  let candidate := wq_candidate_config request in
  let named id := String.eqb (wq_strategy_id request) (StrategyId.as_str id) in
  let trend_v1 := named StrategyId.TrendFilterMomentumV1 in
  let trend_v2 := named StrategyId.TrendFilterMomentumV2 in
  let breakout_v2 := named StrategyId.VolatilityBreakoutV2 in
  let compression := named StrategyId.VolatilityCompressionBreakoutV1 in
  let range := named StrategyId.RangeReversionV1 in
  let pullback := named StrategyId.TrendPullbackContinuationV1 in
  let reclaim := named StrategyId.FailedBreakdownReclaimV1 in
  {| su_strategy_id := wq_strategy_id request;
     su_enabled := sc_enabled base_config;
     su_mode := sc_mode base_config;
     su_symbols := [wq_symbol request];
     su_timeframe := wq_timeframe request;
     su_suggested_notional := sc_suggested_notional base_config;
     su_max_signal_age_ms :=
       default (sc_max_signal_age_ms base_config) (wc_max_signal_age_ms candidate);
     su_cooldown_seconds := sc_cooldown_seconds base_config;
     su_lookback_candles := wc_lookback_candles candidate;
     su_trend_lookback_candles :=
       filter_or (trend_v1 || trend_v2 || pullback)
         (Some (default (wc_lookback_candles candidate) (wc_trend_lookback_candles candidate)))
         (sc_trend_lookback_candles base_config);
     su_momentum_lookback_candles :=
       filter_or (trend_v1 || trend_v2) (wc_momentum_lookback_candles candidate)
         (sc_momentum_lookback_candles base_config);
     su_compression_lookback_candles :=
       filter_or compression
         (Some (default (wc_lookback_candles candidate)
            (wc_compression_lookback_candles candidate)))
         (sc_compression_lookback_candles base_config);
     su_breakout_lookback_candles :=
       filter_or (breakout_v2 || compression)
         (Some (default (wc_lookback_candles candidate) (wc_breakout_lookback_candles candidate)))
         (sc_breakout_lookback_candles base_config);
     su_pullback_lookback_candles :=
       filter_or pullback (wc_pullback_lookback_candles candidate)
         (sc_pullback_lookback_candles base_config);
     su_pullback_sma_lookback_candles :=
       filter_or pullback (wc_pullback_sma_lookback_candles candidate)
         (sc_pullback_sma_lookback_candles base_config);
     su_compression_percentile_threshold :=
       filter_or compression (wc_compression_percentile_threshold candidate)
         (sc_compression_percentile_threshold base_config);
     su_min_breakout_pct :=
       filter_or compression (wc_min_breakout_pct candidate) (sc_min_breakout_pct base_config);
     su_max_breakout_extension_pct :=
       filter_or compression (wc_max_breakout_extension_pct candidate)
         (sc_max_breakout_extension_pct base_config);
     su_min_volume_expansion_ratio :=
       filter_or compression (wc_min_volume_expansion_ratio candidate)
         (sc_min_volume_expansion_ratio base_config);
     su_lower_band_pct :=
       filter_or range (wc_lower_band_pct candidate) (sc_lower_band_pct base_config);
     su_upper_band_pct :=
       filter_or range (wc_upper_band_pct candidate) (sc_upper_band_pct base_config);
     su_min_range_width_pct :=
       filter_or range (wc_min_range_width_pct candidate) (sc_min_range_width_pct base_config);
     su_max_range_width_pct :=
       filter_or range (wc_max_range_width_pct candidate) (sc_max_range_width_pct base_config);
     su_min_close_above_sma_pct :=
       filter_or trend_v2 (wc_min_close_above_sma_pct candidate)
         (sc_min_close_above_sma_pct base_config);
     su_max_close_above_sma_pct :=
       filter_or trend_v2 (wc_max_close_above_sma_pct candidate)
         (sc_max_close_above_sma_pct base_config);
     su_min_momentum_return_pct :=
       filter_or trend_v2 (wc_min_momentum_return_pct candidate)
         (sc_min_momentum_return_pct base_config);
     su_min_trend_return_pct :=
       filter_or pullback (wc_min_trend_return_pct candidate)
         (sc_min_trend_return_pct base_config);
     su_min_trend_slope_pct :=
       filter_or pullback (wc_min_trend_slope_pct candidate) (sc_min_trend_slope_pct base_config);
     su_min_pullback_depth_pct :=
       filter_or pullback (wc_min_pullback_depth_pct candidate)
         (sc_min_pullback_depth_pct base_config);
     su_max_pullback_depth_pct :=
       filter_or pullback (wc_max_pullback_depth_pct candidate)
         (sc_max_pullback_depth_pct base_config);
     su_min_reclaim_pct :=
       filter_or pullback (wc_min_reclaim_pct candidate) (sc_min_reclaim_pct base_config);
     su_min_breakdown_pct :=
       filter_or reclaim (wc_min_breakdown_pct candidate) (sc_min_breakdown_pct base_config);
     su_min_reclaim_close_pct :=
       filter_or reclaim (wc_min_reclaim_close_pct candidate)
         (sc_min_reclaim_close_pct base_config);
     su_min_lower_wick_pct :=
       filter_or reclaim (wc_min_lower_wick_pct candidate) (sc_min_lower_wick_pct base_config);
     su_min_volume_ratio :=
       filter_or (pullback || reclaim) (wc_min_volume_ratio candidate)
         (sc_min_volume_ratio base_config);
     su_max_choppiness :=
       filter_or pullback (wc_max_choppiness candidate) (sc_max_choppiness base_config);
     su_confidence_floor := sc_confidence_floor base_config;
     su_stop_loss_pct := filter_or true (wc_stop_loss_pct candidate) (sc_stop_loss_pct base_config);
     su_take_profit_pct :=
       filter_or true (wc_take_profit_pct candidate) (sc_take_profit_pct base_config);
     su_holding_candles :=
       filter_or true (wc_holding_candles candidate) (sc_holding_candles base_config);
     su_confirmation_candles := default 0 (wc_confirmation_candles candidate);
     su_require_confirmation_close_above_lookback_low :=
       default false (wc_require_confirmation_close_above_lookback_low candidate);
     su_require_confirmation_low_above_breakdown_low :=
       default false (wc_require_confirmation_low_above_breakdown_low candidate);
     su_notes := sc_notes base_config |}.

(** ** A configuration as JSON: the candidate of a request that carries one *)

Section FromConfig.
Context {JR : JsonRead JS}.

Definition as_u64 (v : json) : option Z := match jview v with ViewNumber n _ _ => n | _ => None end.
Definition as_i64 (v : json) : option Z := match jview v with ViewNumber _ n _ => n | _ => None end.
Definition as_bool (v : json) : option bool :=
    match jview v with ViewBool b => Some b | _ => None end.

Definition read_u32 (params : json) (keys : list string) : option Z :=
  value ← find_map (fun key => v ← jget params key; as_u64 v) keys;
  if value <? 2 ^ 32 then Some value else None.
Definition read_i64 (params : json) (keys : list string) : option Z :=
  find_map (fun key => v ← jget params key; as_i64 v) keys.
Definition read_bool (params : json) (keys : list string) : option bool :=
  find_map (fun key => v ← jget params key; as_bool v) keys.

(** A key that is present must hold a decimal. *)
Definition read_decimal (params : json) (keys : list string) : res string (option dec) :=
  match find_map (fun key => jget params key) keys with
  | None => Ok None
  | Some value =>
    match match jview value with
          | ViewString raw => dparse raw
          | ViewNumber _ _ text => dparse text
          | _ => None
          end with
    | Some d => Ok (Some d)
    | None => Err "invalid decimal strategy walk-forward config value"
    end
  end.

Definition strategy_walk_forward_candidate_from_config (config : json)
    : res string StrategyWalkForwardCandidate :=
  let params := default config (jget config "params") in
  compression_percentile_threshold ←
    read_decimal params ["compression_percentile_threshold"; "compression_threshold"];
  min_breakout_pct ← read_decimal params ["min_breakout_pct"];
  max_breakout_extension_pct ← read_decimal params ["max_breakout_extension_pct"];
  min_volume_expansion_ratio ← read_decimal params ["min_volume_expansion_ratio"];
  lower_band_pct ← read_decimal params ["lower_band_pct"; "lower_band"];
  upper_band_pct ← read_decimal params ["upper_band_pct"; "upper_band"];
  min_range_width_pct ← read_decimal params ["min_range_width_pct"; "min_range_width"];
  max_range_width_pct ← read_decimal params ["max_range_width_pct"; "max_range_width"];
  min_close_above_sma_pct ← read_decimal params ["min_close_above_sma_pct"];
  max_close_above_sma_pct ← read_decimal params ["max_close_above_sma_pct"];
  min_momentum_return_pct ← read_decimal params ["min_momentum_return_pct"];
  min_trend_return_pct ← read_decimal params ["min_trend_return_pct"];
  min_trend_slope_pct ← read_decimal params ["min_trend_slope_pct"];
  min_pullback_depth_pct ← read_decimal params ["min_pullback_depth_pct"];
  max_pullback_depth_pct ← read_decimal params ["max_pullback_depth_pct"];
  min_reclaim_pct ← read_decimal params ["min_reclaim_pct"];
  min_breakdown_pct ← read_decimal params ["min_breakdown_pct"; "breakdown_pct"];
  min_reclaim_close_pct ← read_decimal params ["min_reclaim_close_pct"; "reclaim_close_pct"];
  min_lower_wick_pct ← read_decimal params ["min_lower_wick_pct"; "lower_wick_pct"];
  min_volume_ratio ← read_decimal params ["min_volume_ratio"];
  max_choppiness ← read_decimal params ["max_choppiness"];
  stop_loss_pct ← read_decimal params ["stop_loss_pct"];
  take_profit_pct ← read_decimal params ["take_profit_pct"];
  Ok {| wc_lookback_candles := match read_u32 params ["lookback_candles"] with
      | Some n => n
      | None => default 0 (read_u32 params ["trend_lookback_candles"; "trend_lookback";
                                            "breakout_lookback_candles"; "breakout_lookback"])
      end;
     wc_trend_lookback_candles := read_u32 params ["trend_lookback_candles"; "trend_lookback"];
     wc_momentum_lookback_candles :=
         read_u32 params ["momentum_lookback_candles"; "momentum_lookback"];
     wc_compression_lookback_candles :=
         read_u32 params ["compression_lookback_candles"; "compression_lookback"];
     wc_breakout_lookback_candles :=
         read_u32 params ["breakout_lookback_candles"; "breakout_lookback"];
     wc_pullback_lookback_candles :=
         read_u32 params ["pullback_lookback_candles"; "pullback_lookback"];
     wc_pullback_sma_lookback_candles :=
         read_u32 params ["pullback_sma_lookback_candles"; "pullback_sma_lookback"];
     wc_compression_percentile_threshold := compression_percentile_threshold;
     wc_min_breakout_pct := min_breakout_pct;
     wc_max_breakout_extension_pct := max_breakout_extension_pct;
     wc_min_volume_expansion_ratio := min_volume_expansion_ratio;
     wc_lower_band_pct := lower_band_pct;
     wc_upper_band_pct := upper_band_pct;
     wc_min_range_width_pct := min_range_width_pct;
     wc_max_range_width_pct := max_range_width_pct;
     wc_min_close_above_sma_pct := min_close_above_sma_pct;
     wc_max_close_above_sma_pct := max_close_above_sma_pct;
     wc_min_momentum_return_pct := min_momentum_return_pct;
     wc_min_trend_return_pct := min_trend_return_pct;
     wc_min_trend_slope_pct := min_trend_slope_pct;
     wc_min_pullback_depth_pct := min_pullback_depth_pct;
     wc_max_pullback_depth_pct := max_pullback_depth_pct;
     wc_min_reclaim_pct := min_reclaim_pct;
     wc_min_breakdown_pct := min_breakdown_pct;
     wc_min_reclaim_close_pct := min_reclaim_close_pct;
     wc_min_lower_wick_pct := min_lower_wick_pct;
     wc_min_volume_ratio := min_volume_ratio;
     wc_max_choppiness := max_choppiness;
     wc_holding_candles := read_u32 params ["holding_candles"; "holding"];
     wc_stop_loss_pct := stop_loss_pct;
     wc_take_profit_pct := take_profit_pct;
     wc_confirmation_candles := read_u32 params ["confirmation_candles"];
     wc_require_confirmation_close_above_lookback_low :=
         read_bool params ["require_confirmation_close_above_lookback_low"];
     wc_require_confirmation_low_above_breakdown_low :=
         read_bool params ["require_confirmation_low_above_breakdown_low"];
     wc_max_signal_age_ms := read_i64 params ["max_signal_age_ms"] |}.
End FromConfig.
End WalkForwardTypes.

(** The errors of the run: text of [anyhow!], or the error it has as context. *)
Abbreviation wf_error := (string + CoreError.t)%type.

(** ** Windows and statistics *)

Section WalkForward.
Context {DI : Decimal} {CH : Chrono} {CA : ChronoArith} {JS : Json}.

Definition or_panic {E A} (o : option A) : res E A :=
  match o with Some x => Ok x | None => Panic end.

(** The [loop] of [generate_walk_forward_windows]; [None] when the fuel runs out. *)
Fixpoint windows_loop {E} (fuel : nat) (end_time train_size test_size step_size : Z)
    (train_start window_index : Z) (windows : list StrategyWalkForwardWindow)
    : option (res E (list StrategyWalkForwardWindow)) :=
  match fuel with
  | O => None
  | S fuel =>
    match checked_add train_start train_size with
    | None => Some Panic
    | Some train_end =>
      let test_start := train_end in
      match checked_add test_start test_size with
      | None => Some Panic
      | Some test_end =>
        if end_time <? test_end then Some (Ok windows) else
        let windows := windows ++ [{| ww_window_index := window_index;
          ww_train_start := train_start; ww_train_end := train_end;
          ww_test_start := test_start; ww_test_end := test_end |}] in
        match checked_add train_start step_size with
        | None => Some Panic
        | Some train_start =>
          windows_loop fuel end_time train_size test_size step_size train_start
            (i32_add window_index 1) windows
        end
      end
    end
  end.

(** One turn per step that fits the range, and one more to leave the loop. *)
Definition windows_fuel (request : StrategyWalkForwardRequest) : nat :=
  Z.to_nat ((wq_end_time request - wq_start_time request)
            / hours (wq_step_size_hours request) + 2).

Definition generate_walk_forward_windows {E} (request : StrategyWalkForwardRequest)
    : option (res E (list StrategyWalkForwardWindow)) :=
  match try_hours (wq_window_train_size_hours request),
        try_hours (wq_window_test_size_hours request),
        try_hours (wq_step_size_hours request) with
  | Some train_size, Some test_size, Some step_size =>
    windows_loop (windows_fuel request) (wq_end_time request) train_size test_size step_size
      (wq_start_time request) 0 []
  | _, _, _ => Some Panic
  end.

Definition candles_for_range (candles : list Candle) (start_time end_time : Z) : list Candle :=
  List.filter (fun candle =>
    (start_time <=? c_open_time candle) && (c_open_time candle <? end_time))
    candles.

Definition required_candles_for_walk_forward_candidate (candidate : StrategyWalkForwardCandidate)
    : Z :=
  Z.max (wc_lookback_candles candidate)
    (Z.max (default 0 (wc_trend_lookback_candles candidate))
      (Z.max (default 0 (wc_momentum_lookback_candles candidate))
        (default 0 (wc_breakout_lookback_candles candidate))))
  + default 0 (wc_holding_candles candidate) + 2.

Definition average_decimal (values : list dec) : dec :=
  let '(total, count) := foldl (fun '(total, count) value =>
    ((total + value)%dec, i32_add count 1)) (ZERO, 0) values in
  if count =? 0 then ZERO else ddiv total (dint count).

Definition median_decimal (values : list dec) : dec :=
  match sort_by (not_greater dcmp) values with
  | [] => ZERO
  | values =>
    let mid := Nat.div (length values) 2 in
    if (length values mod 2 =? 0)%nat
    then ddiv (nth (mid - 1) values ZERO + nth mid values ZERO)%dec (dnew 2 0)
    else nth mid values ZERO
  end.

(** [Iterator::min]/[max] of decimals. *)
Definition dec_min_of (values : list dec) : dec := default ZERO (iter_min dleb values).
Definition dec_max_of (values : list dec) : dec := default ZERO (iter_max dleb values).

Definition is_completed (window : StrategyWalkForwardWindowResult) : bool :=
  bool_decide (wn_status window = StrategyWalkForwardStatus.Completed).
Definition is_failed (window : StrategyWalkForwardWindowResult) : bool :=
  bool_decide (wn_status window = StrategyWalkForwardStatus.Failed).
Definition is_skipped (window : StrategyWalkForwardWindowResult) : bool :=
  bool_decide (wn_status window = StrategyWalkForwardStatus.Skipped).
Definition is_profitable (window : StrategyWalkForwardWindowResult) : bool :=
  (wn_pnl_pct window >? ZERO)%dec.
Definition is_losing (window : StrategyWalkForwardWindowResult) : bool :=
  (wn_pnl_pct window <? ZERO)%dec.

(** [filter(..).count() as i32] *)
Definition count_i32 {A} (p : A -> bool) (l : list A) : Z :=
  wrap_i32 (Z.of_nat (length (List.filter p l))).

Definition share_pct (count total : Z) : dec := (ddiv (dint count) (dint total) * dnew 100 0)%dec.

Definition review : StrategyWalkForwardRecommendation := {|
  wr_action := "REVIEW";
  wr_reason := "Review walk-forward robustness before candidate acceptance." |}.

Definition build_walk_forward_robustness_summary
    (windows completed : list StrategyWalkForwardWindowResult) (initial_capital : dec)
    : StrategyWalkForwardRobustnessSummary :=
  let completed_count := wrap_i32 (Z.of_nat (length completed)) in
  let total_trade_count :=
      foldl (fun sum window => i32_add sum (wn_trade_count window)) 0 completed in
  let total_positive_pnl := foldl (fun acc window => (acc + wn_pnl_pct window)%dec) ZERO
    (List.filter is_profitable completed) in
  {| wy_profitable_window_pct :=
       match completed with
       | [] => ZERO
       | _ => share_pct (count_i32 is_profitable completed) completed_count
       end;
     wy_total_trade_count := total_trade_count;
     wy_avg_trades_per_completed_window :=
       match completed with
       | [] => ZERO
       | _ => ddiv (dint total_trade_count) (dint completed_count)
       end;
     wy_avg_fee_slippage_drag_pct :=
       match completed with
       | [] => ZERO
       | _ => average_decimal (map (fun window => calculate_fee_slippage_drag_pct initial_capital
                (wn_fee_paid window) (wn_slippage_cost window)) completed)
       end;
     wy_skipped_window_pct :=
       match windows with
       | [] => ZERO
       | _ => share_pct (count_i32 is_skipped windows) (wrap_i32 (Z.of_nat (length windows)))
       end;
     wy_dominant_winner_share_pct :=
       match iter_max dleb (map (fun window => dmax (wn_pnl_pct window) ZERO) completed) with
       | Some best =>
         if (total_positive_pnl >? ZERO)%dec
         then (ddiv best total_positive_pnl * dnew 100 0)%dec else ZERO
       | None => ZERO
       end;
     wy_recommendation := review |}.

Definition calculate_walk_forward_robustness_score
    (completed_windows profitable_test_windows losing_test_windows : Z)
    (avg_test_pnl_pct worst_test_pnl_pct avg_max_drawdown_pct : dec)
    (skipped_windows total_windows : Z) (summary : StrategyWalkForwardRobustnessSummary) : dec :=
  let profitable_pct :=
    if completed_windows <=? 0 then ZERO else share_pct profitable_test_windows completed_windows in
  let skip_penalty :=
    if total_windows <=? 0 then ZERO
    else (ddiv (dint skipped_windows) (dint total_windows) * dnew 20 0)%dec in
  let low_trade_penalty :=
    if wy_total_trade_count summary <? wrap_i32 (Z.max completed_windows 1 * 2) then dnew 12 0
    else if wy_total_trade_count summary <? wrap_i32 (Z.max completed_windows 1 * 4) then dnew 5 0
    else ZERO in
  let loser_penalty :=
    if profitable_test_windows <? losing_test_windows
    then (dint (wrap_i32 (losing_test_windows - profitable_test_windows)) * dnew 3 0)%dec
    else ZERO in
  let concentration_penalty :=
    if (wy_dominant_winner_share_pct summary >=? dnew 70 0)%dec
       && (profitable_test_windows <=? losing_test_windows) then dnew 12 0
    else if (wy_dominant_winner_share_pct summary >=? dnew 55 0)%dec then dnew 5 0
    else ZERO in
  (profitable_pct + avg_test_pnl_pct * dnew 3 0 + worst_test_pnl_pct
   - avg_max_drawdown_pct * dnew 2 0
   - wy_avg_fee_slippage_drag_pct summary * dnew 2 0
   - skip_penalty - low_trade_penalty - loser_penalty - concentration_penalty)%dec.

Definition classify_walk_forward_robustness (status : StrategyWalkForwardStatus.t)
    (completed_windows min_required_test_windows profitable_test_windows losing_test_windows : Z)
    (avg_test_pnl_pct worst_test_pnl_pct : dec) (skipped_windows total_windows : Z)
    (robustness_score : dec) (summary : StrategyWalkForwardRobustnessSummary)
    : StrategyWalkForwardRobustnessStatus.t :=
  if bool_decide (status = StrategyWalkForwardStatus.Failed) then
    StrategyWalkForwardRobustnessStatus.Failed else
  if (completed_windows <? min_required_test_windows) || (completed_windows =? 0)
     || ((0 <? total_windows) && (skipped_windows =? total_windows)) then
    StrategyWalkForwardRobustnessStatus.InsufficientData else
  if (profitable_test_windows =? 1) && (2 <=? losing_test_windows)
     && (wy_dominant_winner_share_pct summary >=? dnew 55 0)%dec then
    StrategyWalkForwardRobustnessStatus.OverfitRisk else
  if (profitable_test_windows <=? losing_test_windows) || (avg_test_pnl_pct <=? ZERO)%dec
     || (worst_test_pnl_pct <? dnew (-2) 0)%dec then
    StrategyWalkForwardRobustnessStatus.OverfitRisk else
  if (robustness_score >=? dnew 60 0)%dec
     && (wy_profitable_window_pct summary >=? dnew 65 0)%dec
     && (wy_dominant_winner_share_pct summary <? dnew 55 0)%dec then
    StrategyWalkForwardRobustnessStatus.Robust else
  StrategyWalkForwardRobustnessStatus.Weak.

Definition walk_forward_recommendation (robustness_status : StrategyWalkForwardRobustnessStatus.t)
    : StrategyWalkForwardRecommendation :=
  match robustness_status with
  | StrategyWalkForwardRobustnessStatus.Robust => {|
      wr_action := "REVIEW_FOR_CANDIDATE";
      wr_reason :=
        "Multiple out-of-sample windows were profitable without concentrated winners." |}
  | StrategyWalkForwardRobustnessStatus.Weak => {|
      wr_action := "KEEP_RESEARCHING";
      wr_reason := "The candidate has mixed walk-forward evidence and needs more data." |}
  | StrategyWalkForwardRobustnessStatus.OverfitRisk => {|
      wr_action := "DO_NOT_ACCEPT";
      wr_reason := "Walk-forward results are dominated by weak or inconsistent test windows." |}
  | StrategyWalkForwardRobustnessStatus.InsufficientData => {|
      wr_action := "COLLECT_MORE_DATA";
      wr_reason := "Not enough completed out-of-sample windows were available." |}
  | StrategyWalkForwardRobustnessStatus.Failed => {|
      wr_action := "INVESTIGATE";
      wr_reason := "The walk-forward run failed validation or execution." |}
  end.

Definition build_strategy_walk_forward_result (walk_forward_id created_at : Z)
    (correlation_id : option Z) (request : StrategyWalkForwardRequest)
    (windows : list StrategyWalkForwardWindowResult) : StrategyWalkForwardResult :=
  let completed := List.filter is_completed windows in
  let failed_windows := count_i32 is_failed windows in
  let skipped_windows := count_i32 is_skipped windows in
  let profitable_test_windows := count_i32 is_profitable completed in
  let losing_test_windows := count_i32 is_losing completed in
  let completed_windows := wrap_i32 (Z.of_nat (length completed)) in
  let total_windows := wrap_i32 (Z.of_nat (length windows)) in
  let avg_test_pnl_pct := average_decimal (map wn_pnl_pct completed) in
  let median_test_pnl_pct := median_decimal (map wn_pnl_pct completed) in
  let worst_test_pnl_pct := dec_min_of (map wn_pnl_pct completed) in
  let best_test_pnl_pct := dec_max_of (map wn_pnl_pct completed) in
  let avg_max_drawdown_pct := average_decimal (map wn_max_drawdown_pct completed) in
  let max_drawdown_pct := dec_max_of (map wn_max_drawdown_pct completed) in
  let avg_trade_count :=
      average_decimal (map (fun window => dint (wn_trade_count window)) completed) in
  let robustness_summary :=
    build_walk_forward_robustness_summary windows completed (wq_initial_capital request) in
  let robustness_score := calculate_walk_forward_robustness_score completed_windows
    profitable_test_windows losing_test_windows avg_test_pnl_pct worst_test_pnl_pct
    avg_max_drawdown_pct skipped_windows total_windows robustness_summary in
  let min_required_test_windows := wrap_i32 (default 1 (wq_min_required_test_windows request)) in
  let status :=
    if (completed_windows =? 0) && (0 <? skipped_windows) then StrategyWalkForwardStatus.Skipped
    else if completed_windows <? min_required_test_windows then StrategyWalkForwardStatus.Failed
    else StrategyWalkForwardStatus.Completed in
  let robustness_status := classify_walk_forward_robustness status completed_windows
    min_required_test_windows profitable_test_windows losing_test_windows avg_test_pnl_pct
    worst_test_pnl_pct skipped_windows total_windows robustness_score robustness_summary in
  let recommendation := walk_forward_recommendation robustness_status in
  {| wl_walk_forward_id := walk_forward_id;
     wl_strategy_id := wq_strategy_id request;
     wl_symbol := wq_symbol request;
     wl_timeframe := wq_timeframe request;
     wl_total_windows := total_windows;
     wl_completed_windows := completed_windows;
     wl_failed_windows := failed_windows;
     wl_skipped_windows := skipped_windows;
     wl_profitable_test_windows := profitable_test_windows;
     wl_profitable_windows := profitable_test_windows;
     wl_losing_test_windows := losing_test_windows;
     wl_losing_windows := losing_test_windows;
     wl_avg_test_pnl_pct := avg_test_pnl_pct;
     wl_avg_pnl_pct := avg_test_pnl_pct;
     wl_median_test_pnl_pct := median_test_pnl_pct;
     wl_median_pnl_pct := median_test_pnl_pct;
     wl_worst_test_pnl_pct := worst_test_pnl_pct;
     wl_worst_pnl_pct := worst_test_pnl_pct;
     wl_best_test_pnl_pct := best_test_pnl_pct;
     wl_best_pnl_pct := best_test_pnl_pct;
     wl_avg_max_drawdown_pct := avg_max_drawdown_pct;
     wl_max_drawdown_pct := max_drawdown_pct;
     wl_avg_trade_count := avg_trade_count;
     wl_robustness_score := robustness_score;
     wl_consistency_score := robustness_score;
     wl_status := status;
     wl_robustness_status := robustness_status;
     wl_robustness_summary := robustness_summary;
     wl_recommendation := recommendation;
     wl_warnings := [];
     wl_created_at := created_at;
     wl_correlation_id := correlation_id |}.

(** ** The run *)

(** Identifiers: of the simulation and of the result of window [k], and of its
    signals; [to_value] is [serde_json::to_value] of a backtest result. *)
Record WalkForwardDrawn := {
  wd_simulation : nat -> Z;
  wd_window : nat -> Z;
  wd_signal : nat -> nat -> Z;
  wd_now : Z
}.

Definition walk_forward_status (status : ReplayRunStatus.t) : StrategyWalkForwardStatus.t :=
  match status with
  | ReplayRunStatus.Completed => StrategyWalkForwardStatus.Completed
  | ReplayRunStatus.Failed => StrategyWalkForwardStatus.Failed
  | ReplayRunStatus.Pending => StrategyWalkForwardStatus.Pending
  | ReplayRunStatus.Running => StrategyWalkForwardStatus.Running
  end.

Definition skipped_window (id walk_forward_id created_at : Z) (window : StrategyWalkForwardWindow)
    (skip_reason : string) : StrategyWalkForwardWindowResult := {|
  wn_id := id;
  wn_walk_forward_id := walk_forward_id;
  wn_window := window;
  wn_status := StrategyWalkForwardStatus.Skipped;
  wn_skip_reason := Some skip_reason;
  wn_trade_count := 0;
  wn_pnl := ZERO;
  wn_pnl_pct := ZERO;
  wn_max_drawdown_pct := ZERO;
  wn_win_rate := ZERO;
  wn_fee_paid := ZERO;
  wn_slippage_cost := ZERO;
  wn_raw_signal_count := 0;
  wn_cooldown_suppressed_count := 0;
  wn_open_position_suppressed_count := 0;
  wn_executed_trade_count := 0;
  wn_suppression_breakdown := suppression_breakdown [];
  wn_last_signal_time := None;
  wn_last_executed_entry_time := None;
  wn_result := jobj [("status", jstr "SKIPPED"); ("skip_reason", jstr skip_reason)];
  wn_created_at := created_at |}.

Definition finished_window (id walk_forward_id created_at : Z) (window : StrategyWalkForwardWindow)
    (result : BacktestResult) (value : json) : StrategyWalkForwardWindowResult := {|
  wn_id := id;
  wn_walk_forward_id := walk_forward_id;
  wn_window := window;
  wn_status := walk_forward_status (bs_status result);
  wn_skip_reason := None;
  wn_trade_count := bs_trade_count result;
  wn_pnl := bs_pnl result;
  wn_pnl_pct := bs_pnl_pct result;
  wn_max_drawdown_pct := bs_max_drawdown_pct result;
  wn_win_rate := bs_win_rate result;
  wn_fee_paid := bs_fee_paid result;
  wn_slippage_cost := bs_slippage_cost result;
  wn_raw_signal_count := bs_raw_signal_count result;
  wn_cooldown_suppressed_count := bs_cooldown_suppressed_count result;
  wn_open_position_suppressed_count := bs_open_position_suppressed_count result;
  wn_executed_trade_count := bs_executed_trade_count result;
  wn_suppression_breakdown := bs_suppression_breakdown result;
  wn_last_signal_time := bs_last_signal_time result;
  wn_last_executed_entry_time := bs_last_executed_entry_time result;
  wn_result := value;
  wn_created_at := created_at |}.

Definition window_request (request : StrategyWalkForwardRequest) (correlation_id : Z)
    (strategy_config : StrategyConfig) (override_request : StrategyConfigUpdateRequest)
    (window : StrategyWalkForwardWindow) : BacktestRequest := {|
  br_strategy_id := wq_strategy_id request;
  br_symbol := wq_symbol request;
  br_timeframe := wq_timeframe request;
  br_start_time := ww_test_start window;
  br_end_time := ww_test_end window;
  br_initial_capital := wq_initial_capital request;
  br_risk_config_id := None;
  br_risk_config := None;
  br_fee_bps := wq_fee_bps request;
  br_slippage_bps := wq_slippage_bps request;
  br_correlation_id := Some correlation_id;
  br_holding_candles := match wc_holding_candles (wq_candidate_config request) with
                        | Some n => Some n
                        | None => sc_holding_candles strategy_config
                        end;
  br_strategy_config_override := Some override_request |}.

Definition core {A} (m : result A) : res wf_error A :=
  match m with Ok x => Ok x | Err e => Err (inr e) | Panic => Panic end.

Section Run.
Context (to_value : BacktestResult -> option json).

Definition window_step (drawn : WalkForwardDrawn) (walk_forward_id created_at correlation_id : Z)
    (request : StrategyWalkForwardRequest) (timeframe : CandleInterval.t)
    (strategy_config : StrategyConfig) (override_request : StrategyConfigUpdateRequest)
    (candles : list Candle) (window_results : list StrategyWalkForwardWindowResult)
    (indexed : nat * StrategyWalkForwardWindow)
    : res wf_error (list StrategyWalkForwardWindowResult) :=
  let '(k, window) := indexed in
  expected_candles ← core (candles_between timeframe (ww_test_start window) (ww_test_end window));
  let test_candles := candles_for_range candles (ww_test_start window) (ww_test_end window) in
  let required_candles :=
    wrap_i32 (required_candles_for_walk_forward_candidate (wq_candidate_config request)) in
  let actual := wrap_i32 (Z.of_nat (length test_candles)) in
  if negb (actual =? expected_candles) || (actual <? required_candles) then
    let skip_reason := "insufficient_candle_coverage: expected=" +:+ show_int expected_candles
      +:+ " actual=" +:+ show_int actual +:+ " required=" +:+ show_int required_candles in
    Ok (window_results ++ [skipped_window (wd_window drawn k) walk_forward_id created_at window
                             skip_reason])
  else
  execution ← core (simulate_backtest (wd_signal drawn k) (wd_simulation drawn k) created_at
    correlation_id (window_request request correlation_id strategy_config override_request window)
    strategy_config test_candles);
  match to_value (be_result execution) with
  | None => Err (inl "serialization")
  | Some value =>
    Ok (window_results ++ [finished_window (wd_window drawn k) walk_forward_id created_at window
                             (be_result execution) value])
  end.

(** [None]: the windows do not end. *)
Definition build_strategy_walk_forward_execution (drawn : WalkForwardDrawn)
    (walk_forward_id created_at correlation_id : Z) (base_config : StrategyConfig)
    (request : StrategyWalkForwardRequest) (candles : list Candle)
    : option (res wf_error StrategyWalkForwardExecution) :=
  match generate_walk_forward_windows request with
  | None => None
  | Some windows => Some (
    windows ← windows;
    let override_request := walk_forward_strategy_override base_config request in
    normalized_symbol ← core (Symbol_new (wq_symbol request));
    match vr_normalized_config (validate_strategy_config (wd_now drawn) override_request
            (experiment_context normalized_symbol)) with
    | None => Err (inl "invalid strategy walk-forward candidate override")
    | Some strategy_config =>
      timeframe ← core (from_str (A := CandleInterval.t) (wq_timeframe request));
      window_results ← fold_res
        (window_step drawn walk_forward_id created_at correlation_id request
           timeframe strategy_config override_request candles)
                         [] (imap (fun k window => (k, window)) windows);
      Ok {| wx_result := build_strategy_walk_forward_result walk_forward_id created_at
              (Some correlation_id) request window_results;
            wx_windows := window_results |}
    end)
  end.
End Run.
End WalkForward.

(** ** The windows *)

Section Windows.
Context {DI : Decimal} {CH : Chrono} {CA : ChronoArith} {CAL : ChronoArithLaws CA} {JS : Json}.

Definition supported (t : Z) : Prop := supported_seconds (t / NANOS).

Lemma supported_between a b t : supported a -> supported b -> a <= t <= b -> supported t.
Proof.
  unfold supported, supported_seconds. intros Ha Hb Ht.
  pose proof (Z.div_le_mono a t NANOS ltac:(done)). pose proof (Z.div_le_mono t b NANOS ltac:(done)).
  lia.
Qed.

Lemma supported_bounds t : supported t -> - 377705116800 * NANOS <= t < 253402300800 * NANOS.
Proof.
  unfold supported, supported_seconds. intros H.
  pose proof (Z.div_mod t NANOS ltac:(done)). pose proof (Z.mod_pos_bound t NANOS ltac:(done)).
  unfold NANOS in *. lia.
Qed.

(** Window [k] of a run. *)
Definition window_at (start train test step : Z) (k : nat) : StrategyWalkForwardWindow := {|
  ww_window_index := Z.of_nat k;
  ww_train_start := start + Z.of_nat k * step;
  ww_train_end := start + Z.of_nat k * step + train;
  ww_test_start := start + Z.of_nat k * step + train;
  ww_test_end := start + Z.of_nat k * step + train + test |}.

Section Loop.
Context (start end_time train test step : Z).
Hypothesis Htrain : 0 <= train.
Hypothesis Htest : 0 < test.
Hypothesis Hstep : 3600 * NANOS <= step.
Hypothesis Hstart : supported start.
Hypothesis Hlt : start < end_time.
Hypothesis Hend : supported (end_time + train + test + step).

Lemma add_ok t d : start <= t -> 0 <= d -> t + d <= end_time + train + test + step ->
  checked_add t d = Some (t + d).
Proof using All.
  intros H1 H2 H3. apply checked_add_some. apply (supported_between start _ (t + d) Hstart Hend). lia.
Qed.

(** Fewer windows than an [i32] counts. *)
Lemma window_count_i32 k : start + Z.of_nat k * step <= end_time -> Z.of_nat k < i32_max.
Proof using All.
  intros H. apply supported_bounds in Hstart, Hend. unfold i32_max, NANOS in *. nia.
Qed.

Lemma windows_loop_spec {E} fuel k :
  start + Z.of_nat k * step <= end_time + step ->
  (1 <= fuel)%nat -> end_time - (start + Z.of_nat k * step) < (Z.of_nat fuel - 1) * step ->
  exists n, (k <= n)%nat /\
    windows_loop (E := E) fuel end_time train test step (start + Z.of_nat k * step) (Z.of_nat k)
      (map (window_at start train test step) (seq 0 k))
    = Some (Ok (map (window_at start train test step) (seq 0 n))) /\
    (forall i, (k <= i)%nat ->
       (i < n)%nat <-> start + Z.of_nat i * step + train + test <= end_time).
Proof using All.
  revert k; induction fuel as [|fuel IH]; intros k Hk H1 Hf; [lia|]. cbn [windows_loop].
  assert (0 < step) by (unfold NANOS in *; lia).
  rewrite add_ok by nia. rewrite add_ok by nia.
  destruct (Z.ltb_spec end_time (start + Z.of_nat k * step + train + test)) as [Hout|Hin].
  - exists k. split; [done|]. split; [done|]. intros i Hi. split; [lia|]. nia.
  - rewrite add_ok by nia.
    assert (start + Z.of_nat k * step + step = start + Z.of_nat (S k) * step) as -> by lia.
    assert (i32_add (Z.of_nat k) 1 = Z.of_nat (S k)) as ->.
    { unfold i32_add. pose proof (window_count_i32 k ltac:(lia)) as Hb. unfold i32_max in Hb.
      rewrite wrap_i32_id; lia. }
    assert (map (window_at start train test step) (seq 0 k) ++ [window_at start train test step k]
      = map (window_at start train test step) (seq 0 (S k))) as Hs
      by (rewrite List.seq_S, map_app; done).
    destruct (IH (S k)) as (n & Hn & Hrun & Hiff); [nia|nia|nia|].
    exists n. split; [lia|]. split; [rewrite <- Hrun, <- Hs; done|].
    intros i Hi. destruct (decide (i = k)) as [->|]; [|apply Hiff; lia]. split; [done|lia].
Qed.
End Loop.

(** The bounds of the calendar within which a run stays. *)
Record windows_supported (request : StrategyWalkForwardRequest) : Prop := {
  sw_start : supported (wq_start_time request);
  sw_end : supported (wq_end_time request + hours (wq_window_train_size_hours request)
             + hours (wq_window_test_size_hours request) + hours (wq_step_size_hours request))
}.

Lemma walk_forward_request_ok request : StrategyWalkForwardRequest_validate request = Ok tt ->
  wq_start_time request < wq_end_time request /\ 0 <= wq_window_train_size_hours request /\
  0 < wq_window_test_size_hours request /\ 0 < wq_step_size_hours request /\
  wq_min_required_test_windows request <> Some 0.
Proof.
  unfold StrategyWalkForwardRequest_validate. intros H.
  repeat (case_match; try discriminate H); bool_to_prop; split_and!; lia || congruence.
Qed.

(** The windows of a validated request: the loop ends within its fuel. *)
Lemma generated_windows {E} request :
  StrategyWalkForwardRequest_validate request = Ok tt -> windows_supported request ->
  let train := hours (wq_window_train_size_hours request) in
  let test := hours (wq_window_test_size_hours request) in
  let step := hours (wq_step_size_hours request) in
  let start := wq_start_time request in
  exists n, generate_walk_forward_windows (E := E) request
      = Some (Ok (map (window_at start train test step) (seq 0 n))) /\
    (forall i, (i < n)%nat <-> start + Z.of_nat i * step + train + test <= wq_end_time request) /\
    Z.of_nat n <= i32_max.
Proof.
  intros (Hlt & H1 & H2 & H3 & _)%walk_forward_request_ok [S1 S2]. cbv zeta.
  unfold generate_walk_forward_windows.
  pose proof (supported_bounds _ S1) as B1. pose proof (supported_bounds _ S2) as B2.
  unfold hours, seconds, NANOS in B1, B2.
  rewrite !try_hours_some by (unfold i64_max; lia).
  set (step := hours (wq_step_size_hours request)) in *. assert (3600 * NANOS <= step) as Hstep
    by (unfold step, hours, seconds, NANOS; lia).
  destruct (windows_loop_spec (wq_start_time request) (wq_end_time request)
    (hours (wq_window_train_size_hours request)) (hours (wq_window_test_size_hours request)) step
    ltac:(unfold hours, seconds, NANOS; lia) ltac:(unfold hours, seconds, NANOS; lia)
    Hstep S1 Hlt S2 (E := E) (windows_fuel request) 0) as (n & _ & Hrun & Hiff).
  - unfold NANOS in *. lia.
  - unfold windows_fuel. fold step.
    assert (0 <= (wq_end_time request - wq_start_time request) / step)
      by (apply Z.div_pos; unfold NANOS in *; lia). lia.
  - unfold windows_fuel. fold step. assert (0 < step) by (unfold NANOS in *; lia).
    pose proof (Z.div_mod (wq_end_time request - wq_start_time request) step ltac:(lia)).
    pose proof (Z.mod_pos_bound (wq_end_time request - wq_start_time request) step ltac:(lia)).
    assert (0 <= (wq_end_time request - wq_start_time request) / step) by (apply Z.div_pos; lia).
    nia.
  - exists n. rewrite Z.mul_0_l, Z.add_0_r in Hrun. split; [exact Hrun|].
    assert (forall i, (i < n)%nat <-> wq_start_time request + Z.of_nat i * step
      + hours (wq_window_train_size_hours request) + hours (wq_window_test_size_hours request)
      <= wq_end_time request) as Hall by (intros i; apply Hiff; lia).
    split; [exact Hall|]. destruct n as [|n]; [unfold i32_max; lia|].
    pose proof (proj1 (Hall n) ltac:(lia)) as Hlast.
    enough (Z.of_nat n < i32_max) by lia.
    apply (window_count_i32 (wq_start_time request) (wq_end_time request)
      (hours (wq_window_train_size_hours request)) (hours (wq_window_test_size_hours request)) step);
      try done; unfold hours, seconds, NANOS in *; lia.
Qed.

(** The sliding windows of a validated request whose sizes stay within the calendar
    are exactly the windows [start + k * step] whose test part ends by the end of the
    range; their loop terminates.  A size beyond the calendar is not rejected by the
    validation: the run panics. *)
Theorem walk_forward_windows_spec request :
  StrategyWalkForwardRequest_validate request = Ok tt ->
  (windows_supported request ->
   exists windows, generate_walk_forward_windows (E := CoreError.t) request = Some (Ok windows) /\
     (forall w, In w windows -> wq_start_time request <= ww_train_start w /\
        ww_train_end w = ww_test_start w /\ ww_test_start w < ww_test_end w <= wq_end_time request) /\
     (forall k, let test_end := wq_start_time request + k * hours (wq_step_size_hours request)
          + hours (wq_window_train_size_hours request) + hours (wq_window_test_size_hours request) in
        0 <= k -> test_end <= wq_end_time request <->
          exists w, windows !! Z.to_nat k = Some w /\ ww_window_index w = k /\
            ww_test_end w = test_end)) /\
  (i64_max < wq_step_size_hours request * 3600000 ->
   generate_walk_forward_windows (E := CoreError.t) request = Some Panic).
Proof.
  intros Hv. pose proof (walk_forward_request_ok request Hv) as (Hlt & H1 & H2 & H3 & _). split.
  - intros Hs. destruct (generated_windows (E := CoreError.t) request Hv Hs) as (n & Hrun & Hiff & _).
    eexists. split; [exact Hrun|]. split.
    + intros w (i & <- & Hi%in_seq)%in_map_iff. cbn.
      pose proof (proj1 (Hiff i) ltac:(lia)). unfold hours, seconds, NANOS in *. split_and!; nia.
    + cbv zeta. intros k Hk. specialize (Hiff (Z.to_nat k)). rewrite Z2Nat.id in Hiff by done.
      rewrite <- Hiff. rewrite list_lookup_fmap. split.
      * intros Hn. rewrite lookup_seq_lt by done. cbn. eexists. split; [reflexivity|].
        cbn. rewrite Z2Nat.id by done. done.
      * intros (w & Hw & _). destruct (decide (Z.to_nat k < n)%nat); [done|].
        by rewrite lookup_seq_ge in Hw by lia.
  - intros Hbig. unfold generate_walk_forward_windows.
    rewrite (try_hours_none (wq_step_size_hours request)) by lia. by repeat case_match.
Qed.
End Windows.

(** ** Statistics and verdict *)

Section Verdict.
Context {DI : Decimal} {CH : Chrono} {JS : Json}.
Implicit Types (windows : list StrategyWalkForwardWindowResult).

Lemma dleb_min_le values : values <> [] ->
  forall x, In x values -> (dval (dec_min_of values) <= dval x)%Q.
Proof.
  intros Hn x Hx. destruct (iter_min_some dleb values Hn) as [m Hm].
  unfold dec_min_of. rewrite Hm. cbn. apply dleb_le.
  by apply (iter_min_spec dleb dleb_total dleb_trans values m Hm).
Qed.

Lemma dleb_max_ge values : values <> [] ->
  forall x, In x values -> (dval x <= dval (dec_max_of values))%Q.
Proof.
  intros Hn x Hx. destruct (iter_max_some dleb values Hn) as [m Hm].
  unfold dec_max_of. rewrite Hm. cbn. apply dleb_le.
  by apply (iter_max_spec dleb dleb_total dleb_trans values m Hm).
Qed.

Lemma count_i32_length {A} (p : A -> bool) l : Z.of_nat (length l) <= i32_max ->
  count_i32 p l = Z.of_nat (length (List.filter p l)) /\
  (length (List.filter p l) <= length l)%nat.
Proof.
  intros H. assert (length (List.filter p l) <= length l)%nat as Hf by apply List.filter_length_le.
  split; [|done]. unfold count_i32, i32_max in *. rewrite wrap_i32_id; lia.
Qed.

(** Disjoint tests select at most the list. *)
Lemma filter_disjoint {A} (p q : A -> bool) l : (forall x, p x = true -> q x = false) ->
  (length (List.filter p l) + length (List.filter q l) <= length l)%nat.
Proof.
  intros H. induction l as [|x l IH]; cbn; [lia|].
  specialize (H x). destruct (p x), (q x); cbn; first [lia|discriminate (H eq_refl)].
Qed.

Lemma filter_disjoint3 {A} (p q r : A -> bool) l :
  (forall x, p x = true -> q x = false) -> (forall x, p x = true -> r x = false) ->
  (forall x, q x = true -> r x = false) ->
  (length (List.filter p l) + length (List.filter q l) + length (List.filter r l) <= length l)%nat.
Proof.
  intros H1 H2 H3. induction l as [|x l IH]; cbn; [lia|].
  specialize (H1 x); specialize (H2 x); specialize (H3 x).
  destruct (p x), (q x), (r x); cbn;
    first [lia|discriminate (H1 eq_refl)|discriminate (H2 eq_refl)|discriminate (H3 eq_refl)].
Qed.

Lemma status_tests_disjoint w :
  (is_completed w = true -> is_failed w = false) /\ (is_completed w = true -> is_skipped w = false)
  /\ (is_failed w = true -> is_skipped w = false).
Proof. unfold is_completed, is_failed, is_skipped. by destruct (wn_status w). Qed.

(** The counts of a result are those of the windows. *)
Lemma result_counts walk_forward_id created_at correlation_id request windows :
  Z.of_nat (length windows) <= i32_max ->
  let r := build_strategy_walk_forward_result walk_forward_id created_at correlation_id request windows in
  wl_total_windows r = Z.of_nat (length windows) /\
  wl_completed_windows r = Z.of_nat (length (List.filter is_completed windows)) /\
  wl_failed_windows r = Z.of_nat (length (List.filter is_failed windows)) /\
  wl_skipped_windows r = Z.of_nat (length (List.filter is_skipped windows)) /\
  wl_completed_windows r + wl_failed_windows r + wl_skipped_windows r <= wl_total_windows r /\
  0 <= wl_profitable_test_windows r /\ 0 <= wl_losing_test_windows r /\
  wl_profitable_test_windows r + wl_losing_test_windows r <= wl_completed_windows r.
Proof.
  intros Hl. cbv zeta. unfold build_strategy_walk_forward_result. cbv zeta.
  cbn [wl_total_windows wl_completed_windows wl_failed_windows wl_skipped_windows
    wl_profitable_test_windows wl_losing_test_windows].
  destruct (count_i32_length is_completed windows Hl) as [Hc Hc'].
  destruct (count_i32_length is_failed windows Hl) as [-> Hf'].
  destruct (count_i32_length is_skipped windows Hl) as [-> Hs'].
  destruct (count_i32_length is_profitable (List.filter is_completed windows) ltac:(lia)) as [-> Hp'].
  destruct (count_i32_length is_losing (List.filter is_completed windows) ltac:(lia)) as [-> Hl'].
  pose proof (filter_disjoint3 is_completed is_failed is_skipped windows
    (fun w => proj1 (status_tests_disjoint w)) (fun w => proj1 (proj2 (status_tests_disjoint w)))
    (fun w => proj2 (proj2 (status_tests_disjoint w)))).
  assert (length (List.filter is_profitable (List.filter is_completed windows))
    + length (List.filter is_losing (List.filter is_completed windows))
    <= length (List.filter is_completed windows))%nat.
  { apply filter_disjoint. intros w. unfold is_profitable, is_losing. intros Hp.
    dec_to_Q. lra. }
  unfold i32_max in *. rewrite !wrap_i32_id by lia. lia.
Qed.

Definition verdict_status (completed skipped required : Z) : StrategyWalkForwardStatus.t :=
  if (completed =? 0) && (0 <? skipped) then StrategyWalkForwardStatus.Skipped
  else if completed <? required then StrategyWalkForwardStatus.Failed
  else StrategyWalkForwardStatus.Completed.

Lemma verdict_status_spec c s m : 0 < m -> 0 <= c ->
  (verdict_status c s m = StrategyWalkForwardStatus.Skipped <-> c = 0 /\ 0 < s) /\
  (verdict_status c s m = StrategyWalkForwardStatus.Completed <-> m <= c) /\
  (verdict_status c s m = StrategyWalkForwardStatus.Failed <-> c < m /\ ~ (c = 0 /\ 0 < s)).
Proof.
  intros Hm Hc. unfold verdict_status.
  destruct (Z.eqb_spec c 0), (Z.ltb_spec 0 s), (Z.ltb_spec c m); cbn [andb]; split_and!;
    split; (discriminate || lia || done).
Qed.

Lemma overfit_first_test p l b : l < p -> (p =? 1) && (2 <=? l) && b = false.
Proof. intros H. destruct (Z.eqb_spec p 1), (Z.leb_spec 2 l); cbn; lia || done. Qed.

(** The first test for an overfit risk is implied by the second. *)
Lemma classify_spec c m p l avg worst s t score sy :
  0 < m -> 0 <= c -> 0 <= s -> c + s <= t ->
  let status := verdict_status c s m in
  let robustness := classify_walk_forward_robustness status c m p l avg worst s t score sy in
  let sound := l < p /\ (dval ZERO < dval avg)%Q /\ (dval (dnew (-2) 0) <= dval worst)%Q in
  let convincing := (dval (dnew 60 0) <= dval score)%Q /\
    (dval (dnew 65 0) <= dval (wy_profitable_window_pct sy))%Q /\
    (dval (wy_dominant_winner_share_pct sy) < dval (dnew 55 0))%Q in
  (robustness = StrategyWalkForwardRobustnessStatus.InsufficientData
     <-> status = StrategyWalkForwardStatus.Skipped) /\
  (robustness = StrategyWalkForwardRobustnessStatus.Failed
     <-> status = StrategyWalkForwardStatus.Failed) /\
  (robustness = StrategyWalkForwardRobustnessStatus.OverfitRisk
     <-> status = StrategyWalkForwardStatus.Completed /\ ~ sound) /\
  (robustness = StrategyWalkForwardRobustnessStatus.Robust
     <-> status = StrategyWalkForwardStatus.Completed /\ sound /\ convincing).
Proof.
  intros Hm Hc Hs Ht. cbv zeta. unfold verdict_status, classify_walk_forward_robustness.
  destruct (Z.eqb_spec c 0) as [E0|E0], (Z.ltb_spec 0 s) as [E1|E1], (Z.ltb_spec c m) as [E2|E2];
    try lia; cbn [andb orb]; rewrite ?bool_decide_eq_true_2, ?bool_decide_eq_false_2 by done;
    try (split_and!; split; intros; (discriminate || done || by destruct_and?)).
  all: assert ((0 <? t) && (s =? t) = false) as -> by
    (destruct (Z.eqb_spec s t); [lia|apply andb_false_r]).
  all: destruct (Z.leb_spec p l) as [E3|E3], (avg <=? ZERO)%dec eqn:E4,
    (worst <? dnew (-2) 0)%dec eqn:E5; cbn [orb];
    try (case_match; split_and!; split; intros; (discriminate || done || idtac); dec_to_Q;
         intuition (try discriminate; try lia; try lra); fail).
  all: rewrite overfit_first_test by done.
  all: match goal with |- context [if ?b then StrategyWalkForwardRobustnessStatus.Robust else _] =>
    assert (b = true <-> (dval (dnew 60 0) <= dval score)%Q /\
      (dval (dnew 65 0) <= dval (wy_profitable_window_pct sy))%Q /\
      (dval (wy_dominant_winner_share_pct sy) < dval (dnew 55 0))%Q) as Hb
      by (rewrite !andb_true_iff, !dleb_le, dltb_lt; tauto); destruct b end.
  all: dec_to_Q; split_and!; split; intros; (discriminate || done || tauto || idtac).
  all: intuition (discriminate || done).
Qed.
(** What a result says of its windows: it is skipped when none completed and some
    were skipped, failed when fewer completed than required, and completed otherwise;
    only a skipped result has insufficient data (too few completed windows count as a
    failure); a completed one is an overfit risk unless more windows won than lost,
    on average and without a loss of over two percent; a robust one also has the
    score, the share of winners and no dominant winner. *)
Theorem walk_forward_verdict_spec walk_forward_id created_at correlation_id request windows :
  Z.of_nat (length windows) <= i32_max ->
  match wq_min_required_test_windows request with Some m => 0 < m <= i32_max | None => True end ->
  let r := build_strategy_walk_forward_result walk_forward_id created_at correlation_id request windows in
  let sy := wl_robustness_summary r in
  let required := default 1 (wq_min_required_test_windows request) in
  let sound := wl_losing_windows r < wl_profitable_windows r /\ (dval ZERO < dval (wl_avg_pnl_pct r))%Q
    /\ (dval (dnew (-2) 0) <= dval (wl_worst_pnl_pct r))%Q in
  let convincing := (dval (dnew 60 0) <= dval (wl_robustness_score r))%Q /\
    (dval (dnew 65 0) <= dval (wy_profitable_window_pct sy))%Q /\
    (dval (wy_dominant_winner_share_pct sy) < dval (dnew 55 0))%Q in
  (wl_status r = StrategyWalkForwardStatus.Skipped
     <-> wl_completed_windows r = 0 /\ 0 < wl_skipped_windows r) /\
  (wl_status r = StrategyWalkForwardStatus.Completed <-> required <= wl_completed_windows r) /\
  (wl_robustness_status r = StrategyWalkForwardRobustnessStatus.InsufficientData
     <-> wl_status r = StrategyWalkForwardStatus.Skipped) /\
  (wl_robustness_status r = StrategyWalkForwardRobustnessStatus.Failed
     <-> wl_status r = StrategyWalkForwardStatus.Failed) /\
  (wl_robustness_status r = StrategyWalkForwardRobustnessStatus.OverfitRisk
     <-> wl_status r = StrategyWalkForwardStatus.Completed /\ ~ sound) /\
  (wl_robustness_status r = StrategyWalkForwardRobustnessStatus.Robust
     <-> wl_status r = StrategyWalkForwardStatus.Completed /\ sound /\ convincing).
Proof.
  intros Hl Hm. cbv zeta.
  destruct (result_counts walk_forward_id created_at correlation_id request windows Hl)
    as (Ht & Hc & Hf & Hs & Hsum & _).
  set (required := default 1 (wq_min_required_test_windows request)).
  assert (0 < required <= i32_max) as Hr
    by (unfold required; destruct (wq_min_required_test_windows request); [exact Hm|done]).
  set (r := build_strategy_walk_forward_result _ _ _ _ _) in *.
  assert (wl_status r = verdict_status (wl_completed_windows r) (wl_skipped_windows r) required) as Hst.
  { unfold r, verdict_status. cbn [build_strategy_walk_forward_result wl_status
      wl_completed_windows wl_skipped_windows]. fold required.
    unfold i32_max in Hr. by rewrite (wrap_i32_id required) by lia. }
  assert (wl_robustness_status r = classify_walk_forward_robustness
    (verdict_status (wl_completed_windows r) (wl_skipped_windows r) required)
    (wl_completed_windows r) required (wl_profitable_windows r) (wl_losing_windows r)
    (wl_avg_pnl_pct r) (wl_worst_pnl_pct r) (wl_skipped_windows r) (wl_total_windows r)
    (wl_robustness_score r) (wl_robustness_summary r)) as Hrob.
  { rewrite <- Hst. unfold r. cbn [build_strategy_walk_forward_result wl_status
      wl_completed_windows wl_skipped_windows wl_robustness_status wl_profitable_windows
      wl_losing_windows wl_avg_pnl_pct wl_worst_pnl_pct wl_total_windows wl_robustness_score
      wl_robustness_summary]. fold required.
    unfold i32_max in Hr. by rewrite (wrap_i32_id required) by lia. }
  rewrite Hrob, Hst.
  destruct (verdict_status_spec (wl_completed_windows r) (wl_skipped_windows r) required)
    as (V1 & V2 & _); [lia|lia|].
  split; [exact V1|]. split; [exact V2|].
  apply classify_spec; lia.
Qed.
End Verdict.

(** ** The override and the run *)

Section Completion.
Context {DI : Decimal} {DL : DecimalLaws DI} {CH : Chrono} {CL : ChronoLaws CH}
  {CA : ChronoArith} {CAL : ChronoArithLaws CA} {JS : Json}.

(** The candidate of an experiment run is tested walk-forward with the very
    configuration it was ranked with. *)
Theorem walk_forward_override_agrees base_config request candidate :
  wq_candidate_config request = strategy_walk_forward_candidate_from_experiment candidate ->
  walk_forward_strategy_override base_config request
  = strategy_config_update_from_candidate base_config (wq_strategy_id request) (wq_symbol request)
      (wq_timeframe request) candidate.
Proof. intros H. unfold walk_forward_strategy_override. by rewrite H. Qed.

(** The counts of a walk-forward candidate are [u32]. *)
Record wf_candidate_u32 (candidate : StrategyWalkForwardCandidate) : Prop := {
  fu_lookback : u32 (wc_lookback_candles candidate);
  fu_trend : u32_opt (wc_trend_lookback_candles candidate);
  fu_momentum : u32_opt (wc_momentum_lookback_candles candidate);
  fu_compression : u32_opt (wc_compression_lookback_candles candidate);
  fu_breakout : u32_opt (wc_breakout_lookback_candles candidate);
  fu_pullback : u32_opt (wc_pullback_lookback_candles candidate);
  fu_pullback_sma : u32_opt (wc_pullback_sma_lookback_candles candidate);
  fu_holding : u32_opt (wc_holding_candles candidate);
  fu_confirmation : u32_opt (wc_confirmation_candles candidate)
}.

Lemma wf_override_unsigned base_config request :
  stored_u32 base_config -> wf_candidate_u32 (wq_candidate_config request) ->
  request_unsigned (walk_forward_strategy_override base_config request).
Proof.
  intros [T1 T2 T3 T4 T5 T6 T7] [C1 C2 C3 C4 C5 C6 C7 C8 C9].
  split; [exact C1|]. split.
  { cbn. destruct (wc_confirmation_candles _); [exact C9|cbn; lia]. }
  split; [exact T1|].
  repeat constructor; try done; apply filter_or_u32; try done;
    first [by destruct (wc_trend_lookback_candles _)
          |by destruct (wc_compression_lookback_candles _)
          |by destruct (wc_breakout_lookback_candles _)].
Qed.

Lemma required_at_least_two candidate : wf_candidate_u32 candidate ->
  2 <= required_candles_for_walk_forward_candidate candidate.
Proof.
  intros [C1 C2 C3 C4 C5 C6 C7 C8 C9]. unfold required_candles_for_walk_forward_candidate, u32 in *.
  destruct (wc_holding_candles candidate); cbn [from_option id u32_opt] in *; unfold u32 in *; lia.
Qed.

Lemma walk_forward_fees request : StrategyWalkForwardRequest_validate request = Ok tt ->
  (0 <= dval (wq_fee_bps request))%Q /\ (0 <= dval (wq_slippage_bps request))%Q.
Proof.
  unfold StrategyWalkForwardRequest_validate. intros H.
  repeat (case_match; try discriminate H);
    repeat match goal with
    | H : (_ <? ZERO)%dec = false |- _ => apply dltb_ge in H; rewrite dval_ZERO in H
    end; done.
Qed.

Section Steps.
Context (to_value : BacktestResult -> option json) (drawn : WalkForwardDrawn)
  (walk_forward_id created_at correlation_id : Z) (base_config : StrategyConfig)
  (request : StrategyWalkForwardRequest) (symbol : Symbol) (timeframe : CandleInterval.t)
  (config : StrategyConfig) (candles : list Candle).
Abbreviation override := (walk_forward_strategy_override base_config request).
Abbreviation required := (required_candles_for_walk_forward_candidate (wq_candidate_config request)).
Hypothesis Hvalue : forall r, is_Some (to_value r).
Hypothesis Hvalid : StrategyWalkForwardRequest_validate request = Ok tt.
Hypothesis Hu32 : wf_candidate_u32 (wq_candidate_config request).
Hypothesis Hstored : stored_u32 base_config.
Hypothesis Hsymbol : Symbol_new (wq_symbol request) = Ok symbol.
Hypothesis Hconfig : accepted (wd_now drawn) override (experiment_context symbol) config.
Hypothesis Htradable : Forall tradable candles.
Hypothesis Hcandles : Z.of_nat (length candles) <= i32_max.
Hypothesis Hrequired : required <= i32_max.
Abbreviation step := (window_step to_value drawn walk_forward_id created_at correlation_id request
  timeframe config override candles).

(** What the result of a window says. *)
Definition window_answer (window : StrategyWalkForwardWindow) (expected : Z)
    (result : StrategyWalkForwardWindowResult) : Prop :=
  let test_candles := candles_for_range candles (ww_test_start window) (ww_test_end window) in
  wn_window result = window /\
  wn_status result =
    if (Z.of_nat (length test_candles) =? expected) && (required <=? expected)
    then StrategyWalkForwardStatus.Completed else StrategyWalkForwardStatus.Skipped.

Lemma range_length a b : (length (candles_for_range candles a b) <= length candles)%nat.
Proof. apply List.filter_length_le. Qed.

Lemma range_tradable a b : Forall tradable (candles_for_range candles a b).
Proof using Htradable.
  rewrite Forall_forall in *. intros c Hc. apply Htradable.
  apply list_elem_of_In in Hc. apply filter_In in Hc as [Hc _]. by apply list_elem_of_In.
Qed.

Lemma window_runnable window :
  runnable (window_request request correlation_id config override window) config.
Proof using All.
  destruct (walk_forward_fees request Hvalid) as [Hf Hs].
  eapply accepted_runnable; [|exact Hconfig|done|by exists symbol|done|done].
  by apply wf_override_unsigned.
Qed.

Lemma step_answers results k window expected :
  candles_between timeframe (ww_test_start window) (ww_test_end window) = Ok expected ->
  exists result, step results (k, window) = Ok (results ++ [result]) /\
    window_answer window expected result.
Proof using All.
  intros He. unfold window_step. rewrite He. cbn [core mbind res_bind].
  set (test_candles := candles_for_range _ _ _).
  pose proof (range_length (ww_test_start window) (ww_test_end window)) as Hlen. fold test_candles in Hlen.
  pose proof (required_at_least_two _ Hu32) as H2. unfold window_answer. fold test_candles.
  unfold i32_max in *. rewrite !wrap_i32_id by lia.
  destruct (Z.eqb_spec (Z.of_nat (length test_candles)) expected) as [E1|E1]; cbn [negb orb andb].
  - rewrite <- E1. destruct (Z.ltb_spec (Z.of_nat (length test_candles)) required) as [E2|E2].
    + eexists. split; [reflexivity|]. split; [done|].
      by rewrite (proj2 (Z.leb_gt _ _)) by lia.
    + destruct (simulate_backtest_ok (wd_signal drawn k) (wd_simulation drawn k) created_at
        correlation_id _ _ test_candles (window_runnable window) (range_tradable _ _))
        as (be & -> & Hs).
      cbn [core mbind res_bind]. destruct (Hvalue (be_result be)) as [value ->].
      eexists. split; [reflexivity|]. split; [done|].
      rewrite (proj2 (Z.leb_le _ _)) by lia. cbn [finished_window wn_status]. rewrite Hs.
      destruct (Nat.eqb_spec (length test_candles) 0); [lia|done].
  - eexists. split; [reflexivity|]. split; done.
Qed.

Lemma steps_answer (counts : StrategyWalkForwardWindow -> Z) windows :
  (forall w, In w windows ->
     candles_between timeframe (ww_test_start w) (ww_test_end w) = Ok (counts w)) ->
  exists results, fold_res step [] (imap (fun k w => (k, w)) windows) = Ok results /\
    Forall2 (fun w result => window_answer w (counts w) result) windows results.
Proof using All.
  intros Hw.
  enough (forall pre, exists results,
    fold_res step pre (imap (fun k w => (k, w)) windows) = Ok (pre ++ results) /\
    Forall2 (fun w result => window_answer w (counts w) result) windows results) as H
    by (destruct (H []) as (rs & Hr & Ha); exists rs; split; [exact Hr|exact Ha]).
  intros pre.
  assert (forall f : nat -> nat, exists results,
    fold_res step pre (imap (fun k w => (f k, w)) windows) = Ok (pre ++ results) /\
    Forall2 (fun w result => window_answer w (counts w) result) windows results) as H;
    [|exact (H (fun k => k))].
  revert pre; induction windows as [|w windows IH]; intros pre f.
  { exists []. rewrite app_nil_r. split; [done|constructor]. }
  cbn [imap fold_res]. destruct (step_answers pre (f 0%nat) w (counts w)) as (r & -> & Hr).
  { apply Hw. by left. }
  destruct (IH (fun w' H => Hw w' (or_intror H)) (pre ++ [r]) (fun k => f (S k))) as (rs & Hrs & Ha).
  exists (r :: rs). split; [|by constructor].
  rewrite <- app_assoc in Hrs. exact Hrs.
Qed.
End Steps.

(** Hours hold a number of candles of every interval. *)
Lemma window_candles timeframe a n : 0 < n -> n * 60 <= i32_max ->
  exists expected, candles_between timeframe a (a + hours n) = Ok expected.
Proof.
  intros H0 H1. pose proof (candles_between_spec timeframe a (a + hours n)) as H.
  destruct (candles_between _ _ _) as [expected|e|]; [by exists expected| |done].
  assert (minutes 1 <= duration timeframe) by (destruct timeframe; vm_compute; discriminate).
  unfold hours, minutes, seconds, NANOS in *.
  destruct e; try done; exfalso; [lia|]. assert (0 <= i32_max) by done. nia.
Qed.

(** Results that are completed or skipped. *)
Lemma completed_or_skipped results :
  Forall (fun w => wn_status w = StrategyWalkForwardStatus.Completed \/
                   wn_status w = StrategyWalkForwardStatus.Skipped) results ->
  (length (List.filter is_completed results) + length (List.filter is_skipped results)
     = length results)%nat /\ List.filter is_failed results = [].
Proof.
  induction 1 as [|w l Hw _ [IH1 IH2]]; [done|]. cbn [List.filter length].
  assert (is_failed w = false /\ is_skipped w = negb (is_completed w)) as [-> ->]
    by (unfold is_failed, is_skipped, is_completed; by destruct Hw as [-> | ->]).
  split; [|done]. destruct (is_completed w); cbn [negb length]; lia.
Qed.

Lemma window_answer_status request candles window expected result :
  window_answer request candles window expected result ->
  wn_status result = StrategyWalkForwardStatus.Completed \/
  wn_status result = StrategyWalkForwardStatus.Skipped.
Proof. intros [_ ->]. case_match; auto. Qed.

Lemma answers_windows request candles counts windows results :
  Forall2 (fun w result => window_answer request candles w (counts w) result) windows results ->
  map wn_window results = windows /\
  Forall (fun w => wn_status w = StrategyWalkForwardStatus.Completed \/
                   wn_status w = StrategyWalkForwardStatus.Skipped) results.
Proof.
  induction 1 as [|w r ws rs Hw _ [IH1 IH2]]; [done|]. split.
  - cbn. rewrite IH1. by destruct Hw as [-> _].
  - constructor; [by eapply window_answer_status|done].
Qed.

(** C39.  A walk-forward answers: for a request that validates, whose windows lie in the range
    of chrono ([windows_supported]; outside of it a request that validates can panic, see
    [endless_valid]), whose override of the stored configuration is accepted, on tradable
    candles and results that serialise, with the counts that the program keeps in 32 bits
    (the stored counts, the candles, the minutes of a test window, the candles a candidate
    needs) within them, every window is run or skipped and none fails; a window is run
    exactly when the number of its candles is the number its length calls for, and that is at
    least what the candidate needs. *)
Theorem walk_forward_completes (to_value : BacktestResult -> option json) drawn walk_forward_id
    created_at correlation_id base_config request symbol config candles :
  (forall r, is_Some (to_value r)) ->
  StrategyWalkForwardRequest_validate request = Ok tt -> windows_supported request ->
  wq_window_test_size_hours request * 60 <= i32_max ->
  wf_candidate_u32 (wq_candidate_config request) ->
  required_candles_for_walk_forward_candidate (wq_candidate_config request) <= i32_max ->
  stored_u32 base_config -> Symbol_new (wq_symbol request) = Ok symbol ->
  accepted (wd_now drawn) (walk_forward_strategy_override base_config request)
    (experiment_context symbol) config ->
  Forall tradable candles -> Z.of_nat (length candles) <= i32_max ->
  exists windows execution,
    generate_walk_forward_windows (E := wf_error) request = Some (Ok windows) /\
    build_strategy_walk_forward_execution to_value drawn walk_forward_id created_at correlation_id
      base_config request candles = Some (Ok execution) /\
    let result := wx_result execution in
    map wn_window (wx_windows execution) = windows /\
    wl_total_windows result = Z.of_nat (length windows) /\
    wl_completed_windows result + wl_skipped_windows result = wl_total_windows result /\
    wl_failed_windows result = 0 /\
    forall w, In w (wx_windows execution) -> exists expected,
      from_str (wq_timeframe request) = Ok (sc_timeframe config) /\
      candles_between (sc_timeframe config) (ww_test_start (wn_window w)) (ww_test_end (wn_window w))
        = Ok expected /\
      (wn_status w = StrategyWalkForwardStatus.Completed <->
         Z.of_nat (length (candles_for_range candles (ww_test_start (wn_window w))
           (ww_test_end (wn_window w)))) = expected /\
         required_candles_for_walk_forward_candidate (wq_candidate_config request) <= expected).
Proof.
  intros Hvalue Hvalid Hsup Htest Hu Hreq Hst Hsym Hacc Htr Hlen.
  destruct (generated_windows (E := wf_error) request Hvalid Hsup) as (n & Hrun & _ & Hn).
  set (windows := map _ _) in Hrun.
  pose proof (walk_forward_request_ok request Hvalid) as (_ & _ & Htest0 & _).
  pose proof (accepted_inv _ _ _ _ Hacc) as (_ & Htf & _). cbn [walk_forward_strategy_override
    su_timeframe] in Htf.
  assert (forall w, In w windows -> exists expected,
    candles_between (sc_timeframe config) (ww_test_start w) (ww_test_end w) = Ok expected) as Hexp.
  { intros w (k & <- & _)%in_map_iff. by apply window_candles. }
  set (counts := fun w => match candles_between (sc_timeframe config) (ww_test_start w) (ww_test_end w)
                          with Ok expected => expected | _ => 0 end).
  assert (forall w, In w windows -> candles_between (sc_timeframe config) (ww_test_start w)
    (ww_test_end w) = Ok (counts w)) as Hcounts.
  { intros w Hw. unfold counts. by destruct (Hexp w Hw) as [expected ->]. }
  destruct (steps_answer to_value drawn walk_forward_id created_at correlation_id base_config request
    symbol (sc_timeframe config) config candles Hvalue Hvalid Hu Hst Hsym Hacc Htr Hlen Hreq
    counts windows Hcounts) as (results & Hfold & Hall).
  destruct (answers_windows _ _ _ _ _ Hall) as [Hmap Hstatus].
  destruct (completed_or_skipped results Hstatus) as [Hsum Hfail].
  assert (length results = length windows) as Hlr by (by rewrite <- Hmap, length_map).
  assert (length windows = n) as Hlw by (unfold windows; by rewrite length_map, length_seq).
  eexists windows, _. split; [exact Hrun|]. split.
  { unfold build_strategy_walk_forward_execution. rewrite Hrun. cbn [mbind res_bind].
    rewrite Hsym. cbn [core mbind res_bind]. unfold accepted in Hacc. rewrite Hacc, Htf.
    cbn [core mbind res_bind]. rewrite Hfold. reflexivity. }
  cbv zeta. cbn [wx_result wx_windows].
  destruct (result_counts walk_forward_id created_at (Some correlation_id) request results)
    as (-> & -> & -> & -> & _); [lia|].
  rewrite Hfail. split; [done|]. split; [lia|]. split; [lia|]. split; [done|].
  intros w Hw. apply list_elem_of_In, list_elem_of_lookup in Hw as [i Hi].
  destruct (Forall2_lookup_r _ _ _ _ _ Hall Hi) as (window & Hwin & <- & Hs).
  exists (counts (wn_window w)). split; [done|]. split.
  { apply Hcounts, list_elem_of_In. by eapply list_elem_of_lookup_2. }
  rewrite Hs. rewrite <- Z.eqb_eq, <- Z.leb_le, <- andb_true_iff. by case_match.
Qed.
End Completion.

(** ** Bounds of the statistics *)

Section Statistics.
Context {DI : Decimal} {DL : DecimalLaws DI} {CH : Chrono} {JS : Json}.

(** The multiples of a number that summing [n] numbers can reach fit a decimal. *)
Definition multiples_fit (n : nat) (q : Q) : Prop :=
  forall k : Z, 0 <= k <= Z.of_nat n -> representable (inject_Z k * q).

(** [p] is at most, or at least, [q]. *)
Definition bounded (upper : bool) (p q : Q) : Prop := if upper then (p <= q)%Q else (q <= p)%Q.

Lemma drnd_bounded upper o p q : representable q -> bounded upper p q -> bounded upper (drnd o p) q.
Proof. intros Hq H. destruct upper; unfold bounded in *; rewrite <- (drnd_fix o q Hq); by apply drnd_mono. Qed.

Lemma bounded_wd upper p q q' : (q == q')%Q -> bounded upper p q -> bounded upper p q'.
Proof. intros E H. destruct upper; unfold bounded in *; by rewrite <- E. Qed.

Lemma average_fold upper bound values : forall total count,
  multiples_fit (Z.to_nat count + length values) bound ->
  (forall x, In x values -> bounded upper (dval x) bound) ->
  0 <= count -> count + Z.of_nat (length values) <= i32_max ->
  bounded upper (dval total) (inject_Z count * bound) ->
  exists total', foldl (fun '(total, count) value => ((total + value)%dec, i32_add count 1))
      (total, count) values = (total', count + Z.of_nat (length values)) /\
    bounded upper (dval total') (inject_Z (count + Z.of_nat (length values)) * bound).
Proof.
  induction values as [|x values IH]; intros total count Hfit Hx H0 Hc Ht.
  - exists total. cbn [foldl length]. by rewrite Z.add_0_r.
  - cbn [foldl length] in *. unfold i32_max in Hc.
    assert (i32_add count 1 = count + 1) as -> by (unfold i32_add; rewrite wrap_i32_id; lia).
    destruct (IH (total + x)%dec (count + 1)) as (total' & -> & Hb).
    + intros k Hk. apply Hfit. lia.
    + intros y Hy. apply Hx. by right.
    + lia.
    + unfold i32_max. lia.
    + assert (bounded upper (dval total + dval x) (inject_Z (count + 1) * bound)) as Hs.
      { specialize (Hx x (or_introl eq_refl)). rewrite inject_Z_plus. change (inject_Z 1) with 1%Q.
        destruct upper; unfold bounded in *; lra. }
      destruct upper; unfold bounded; rewrite dval_add; [apply (drnd_bounded true)|apply (drnd_bounded false)];
        try exact Hs; apply Hfit; lia.
    + exists total'. replace (count + Z.of_nat (S (length values)))
        with (count + 1 + Z.of_nat (length values)) by lia. done.
Qed.

Lemma average_bounded upper bound values : values <> [] -> Z.of_nat (length values) <= i32_max ->
  multiples_fit (length values) bound -> (forall x, In x values -> bounded upper (dval x) bound) ->
  bounded upper (dval (average_decimal values)) bound.
Proof.
  intros Hn Hl Hfit Hx. unfold average_decimal.
  destruct (average_fold upper bound values ZERO 0) as (total & -> & Ht); [done..|lia|lia| |].
  { destruct upper; unfold bounded; rewrite dval_ZERO; change (inject_Z 0) with 0%Q; lra. }
  rewrite Z.add_0_l in *.
  assert (0 < Z.of_nat (length values)) as H0 by (destruct values; [done|cbn; lia]).
  rewrite (proj2 (Z.eqb_neq _ _)) by lia.
  assert (0 < inject_Z (Z.of_nat (length values)))%Q as Hq by (by rewrite <- (Zlt_Qlt 0)).
  assert (dval (dint (Z.of_nat (length values))) == inject_Z (Z.of_nat (length values)))%Q as Hd
    by (rewrite dval_int by (unfold i32_max in *; lia); done).
  assert (representable bound) as Hr
    by (rewrite <- (Qmult_1_l bound); apply (Hfit 1); destruct values; [done|cbn; lia]).
  assert (bounded upper (dval total / dval (dint (Z.of_nat (length values)))) bound) as Hb.
  { destruct upper; unfold bounded in *; rewrite Hd; [apply Qle_shift_div_r|apply Qle_shift_div_l]; lra. }
  destruct upper; unfold bounded; rewrite dval_div by (rewrite Hd; lra);
    [by apply (drnd_bounded true)|by apply (drnd_bounded false)].
Qed.

Lemma median_bounded upper bound values : values <> [] -> multiples_fit (length values) bound ->
  (forall x, In x values -> bounded upper (dval x) bound) ->
  bounded upper (dval (median_decimal values)) bound.
Proof.
  intros Hn Hfit Hx. unfold median_decimal.
  assert (forall k, (k < length values)%nat ->
    bounded upper (dval (nth k (sort_by (not_greater dcmp) values) ZERO)) bound) as Hnth.
  { intros k Hk. apply Hx. apply (in_sort_by (not_greater dcmp)). apply nth_In.
    by rewrite sort_by_length. }
  pose proof (sort_by_length (not_greater dcmp) values) as Hl.
  destruct (sort_by _ values) as [|y l] eqn:E; [by destruct values|]. rewrite <- E in *.
  assert (0 < length values)%nat by (rewrite <- Hl, E; cbn; lia). rewrite Hl.
  pose proof (Nat.div_mod_eq (length values) 2) as Hdm.
  pose proof (Nat.mod_upper_bound (length values) 2 ltac:(lia)).
  destruct (Nat.eqb_spec (length values mod 2) 0).
  - pose proof (Hnth (length values / 2 - 1)%nat ltac:(lia)) as HA.
    pose proof (Hnth (length values / 2)%nat ltac:(lia)) as HB.
    assert (dval (dnew 2 0) == 2)%Q as H2 by (rewrite dval_new by lia; done).
    assert (representable (2 * bound)) as Hr2 by (apply (Hfit 2); lia).
    assert (representable bound) as Hr1 by (rewrite <- (Qmult_1_l bound); apply (Hfit 1); lia).
    set (a := nth _ _ _) in HA |- *. set (b := nth (length values / 2) _ _) in HB |- *.
    assert (bounded upper (dval (a + b)%dec) (2 * bound)) as Hs.
    { destruct upper; unfold bounded in *; rewrite dval_add;
        [apply (drnd_bounded true)|apply (drnd_bounded false)]; try done; unfold bounded; lra. }
    destruct upper; unfold bounded in *; rewrite dval_div by (rewrite H2; lra);
      [apply (drnd_bounded true)|apply (drnd_bounded false)]; try done; unfold bounded; rewrite H2;
      [apply Qle_shift_div_r|apply Qle_shift_div_l]; lra.
  - apply Hnth. lia.
Qed.

(** A fraction times one hundred is a percentage. *)
Lemma percentage a b : (0 <= dval a)%Q -> (dval a <= dval b)%Q -> (0 < dval b)%Q ->
  (0 <= dval (ddiv a b * dnew 100 0)%dec <= 100)%Q.
Proof.
  intros Ha Hab Hb. destruct (ddiv_fraction a b Ha Hab Hb) as [H0 H1].
  assert (dval (dnew 100 0) == 100)%Q as Hh by (rewrite dval_new by lia; done).
  assert (representable 100) as Hr by (exists 100, 0; repeat split; lia).
  rewrite dval_mul, Hh. split; [apply drnd_nonneg; lra|].
  apply (Qle_trans _ (drnd OpMul 100)); [apply drnd_mono; lra|]. rewrite (drnd_fix _ _ Hr). lra.
Qed.

Lemma share_pct_bounds count total : 0 <= count <= total -> 0 < total <= i32_max ->
  (0 <= dval (share_pct count total) <= 100)%Q.
Proof.
  intros H1 H2. unfold share_pct, i32_max in *.
  assert (dval (dint total) == inject_Z total)%Q as Ht by (rewrite dval_int by lia; done).
  assert (dval (dint count) == inject_Z count)%Q as Hc by (rewrite dval_int by lia; done).
  assert (0 < inject_Z total)%Q as Hq by (rewrite <- (Zlt_Qlt 0); lia).
  assert (0 <= inject_Z count)%Q as Hq0 by (rewrite <- (Zle_Qle 0); lia).
  assert (inject_Z count <= inject_Z total)%Q as Hq1 by (rewrite <- Zle_Qle; lia).
  apply percentage; rewrite ?Ht, ?Hc; done.
Qed.

(** A sum of gains is at least each of them. *)
Lemma gains_fold l : forall acc, Forall (fun w => is_profitable w = true) l ->
  let total := foldl (fun acc window => (acc + wn_pnl_pct window)%dec) acc l in
  (dval acc <= dval total)%Q /\
  ((0 <= dval acc)%Q -> forall w, In w l -> (dval (wn_pnl_pct w) <= dval total)%Q).
Proof.
  induction l as [|w l IH]; intros acc Hp; cbn [foldl].
  - split; [apply Qle_refl|done].
  - inversion Hp as [|? ? Hw Hl]; subst. cbv zeta in IH.
    destruct (IH (acc + wn_pnl_pct w)%dec Hl) as [H1 H2].
    unfold is_profitable in Hw. apply dltb_lt in Hw. rewrite dval_ZERO in Hw.
    assert (dval acc <= dval (acc + wn_pnl_pct w)%dec)%Q as Hacc.
    { rewrite dval_add, <- (drnd_dval OpAdd acc) at 1. apply drnd_mono. lra. }
    split; [lra|]. intros H0 w' [<-|Hin]; [|apply H2; [lra|done]].
    apply (Qle_trans _ (dval (acc + wn_pnl_pct w)%dec)); [|exact H1]. rewrite dval_add, <- (drnd_dval OpAdd (wn_pnl_pct w)) at 1.
    apply drnd_mono. lra.
Qed.

Lemma dominant_share_bounds windows completed initial_capital :
  let share := wy_dominant_winner_share_pct
    (build_walk_forward_robustness_summary windows completed initial_capital) in
  (0 <= dval share <= 100)%Q.
Proof.
  cbv zeta. cbn [build_walk_forward_robustness_summary wy_dominant_winner_share_pct].
  assert (0 <= dval ZERO <= 100)%Q as Hz by (rewrite dval_ZERO; lra).
  destruct (iter_max _ _) as [best|] eqn:Hb; [|exact Hz].
  set (total := foldl _ _ _). destruct (total >? ZERO)%dec eqn:Ht; [|exact Hz].
  apply dltb_lt in Ht. rewrite dval_ZERO in Ht.
  apply (iter_max_spec dleb dleb_total dleb_trans) in Hb as [Hin _].
  apply in_map_iff in Hin as (w & <- & Hw).
  assert (Forall (fun w => is_profitable w = true) (List.filter is_profitable completed)) as Hp.
  { rewrite Forall_forall. intros x Hx. apply list_elem_of_In, filter_In in Hx. apply Hx. }
  destruct (gains_fold _ ZERO Hp) as [_ Hsum]. fold total in Hsum.
  specialize (Hsum ltac:(rewrite dval_ZERO; lra)).
  assert (0 <= dval (dmax (wn_pnl_pct w) ZERO) <= dval total)%Q as [M1 M2].
  { destruct (is_profitable w) eqn:E.
    - pose proof (Hsum w ltac:(by apply filter_In)) as Hle.
      unfold is_profitable in E. apply dltb_lt in E. rewrite dval_ZERO in E.
      destruct (dmax_spec (wn_pnl_pct w) ZERO) as [[-> ?]|[-> ?]]; rewrite ?dval_ZERO in *; lra.
    - unfold is_profitable in E. apply dltb_ge in E. rewrite dval_ZERO in E.
      destruct (dmax_spec (wn_pnl_pct w) ZERO) as [[-> ?]|[-> ?]]; rewrite ?dval_ZERO in *; lra. }
  by apply percentage.
Qed.

(** The share of the windows a test selects. *)
Lemma share_of_windows {A} (p : A -> bool) l : Z.of_nat (length l) <= i32_max ->
  (0 <= dval match l with [] => ZERO
             | _ => share_pct (count_i32 p l) (wrap_i32 (Z.of_nat (length l))) end <= 100)%Q.
Proof.
  intros Hl. destruct (count_i32_length p l Hl) as [-> Hp].
  destruct l as [|x l'] eqn:E; [rewrite dval_ZERO; lra|]. rewrite <- E in *.
  assert (0 < length l)%nat by (rewrite E; cbn; lia). unfold i32_max in Hl.
  rewrite wrap_i32_id by lia. apply share_pct_bounds; [lia|unfold i32_max; lia].
Qed.

(** The statistics of a result: the average and the median of the completed test
    windows lie between the worst and the best and the average drawdown is at most the
    largest, provided the sums of the worst, of the best and of the largest drawdown with
    themselves are numbers a decimal holds; percentages are percentages, and the counts
    partition the windows. *)
Theorem walk_forward_statistics_bounded walk_forward_id created_at correlation_id request windows :
  Z.of_nat (length windows) <= i32_max ->
  let r := build_strategy_walk_forward_result walk_forward_id created_at correlation_id request
             windows in
  let sy := wl_robustness_summary r in
  Forall (fun d => multiples_fit (length windows) (dval d))
    [wl_worst_pnl_pct r; wl_best_pnl_pct r; wl_max_drawdown_pct r] ->
  (0 < wl_completed_windows r ->
     (dval (wl_worst_pnl_pct r) <= dval (wl_avg_pnl_pct r) <= dval (wl_best_pnl_pct r))%Q /\
     (dval (wl_worst_pnl_pct r) <= dval (wl_median_pnl_pct r) <= dval (wl_best_pnl_pct r))%Q /\
     (dval (wl_avg_max_drawdown_pct r) <= dval (wl_max_drawdown_pct r))%Q) /\
  (0 <= dval (wy_profitable_window_pct sy) <= 100)%Q /\
  (0 <= dval (wy_skipped_window_pct sy) <= 100)%Q /\
  (0 <= dval (wy_dominant_winner_share_pct sy) <= 100)%Q /\
  wl_completed_windows r + wl_failed_windows r + wl_skipped_windows r <= wl_total_windows r /\
  wl_profitable_windows r + wl_losing_windows r <= wl_completed_windows r.
Proof.
  intros Hl r sy Hfit.
  destruct (result_counts walk_forward_id created_at correlation_id request windows Hl)
    as (_ & Hc & _ & _ & Hsum & _ & _ & Hpl).
  pose proof (List.filter_length_le is_completed windows) as Hlen.
  split; [|split; [|split; [|split; [apply dominant_share_bounds|split; [exact Hsum|exact Hpl]]]]].
  - unfold r. rewrite Hc. intros H0.
    assert (forall f : StrategyWalkForwardWindowResult -> dec,
      map f (List.filter is_completed windows) <> []) as Hne
      by (intros f; by destruct (List.filter is_completed windows)).
    assert (forall (f : StrategyWalkForwardWindowResult -> dec) q, multiples_fit (length windows) q ->
      multiples_fit (length (map f (List.filter is_completed windows))) q) as Hmono.
    { intros f q H k Hk. apply H. rewrite length_map in Hk. lia. }
    inversion Hfit as [|? ? Hworst Hfit']; subst. inversion Hfit' as [|? ? Hbest Hfit'']; subst.
    inversion Hfit'' as [|? ? Hdd _]; subst. clear Hfit Hfit' Hfit''.
    split; [split|split; [split|]].
    1: apply (average_bounded false). 5: apply (average_bounded true).
    9: apply (median_bounded false). 12: apply (median_bounded true).
    15: apply (average_bounded true).
    all: try done; try (by apply Hmono); try (rewrite length_map; lia).
    all: intros x Hx; cbn; first [by apply dleb_min_le|by apply dleb_max_ge].
  - apply share_of_windows. lia.
  - by apply share_of_windows.
Qed.
End Statistics.

(** ** Reading a candidate from JSON *)

Section FromConfigFacts.
Context {DI : Decimal} {JS : Json} {JR : JsonRead JS}.

Definition decimal_keys : list string :=
  ["compression_percentile_threshold"; "min_breakout_pct"; "max_breakout_extension_pct";
   "min_volume_expansion_ratio"; "lower_band_pct"; "upper_band_pct"; "min_range_width_pct";
   "max_range_width_pct"; "min_close_above_sma_pct"; "max_close_above_sma_pct";
   "min_momentum_return_pct"; "min_trend_return_pct"; "min_trend_slope_pct";
   "min_pullback_depth_pct"; "max_pullback_depth_pct"; "min_reclaim_pct"; "min_breakdown_pct";
   "min_reclaim_close_pct"; "min_lower_wick_pct"; "min_volume_ratio"; "max_choppiness";
   "stop_loss_pct"; "take_profit_pct"].

(** One read of the chain: it fails, or leaves it to the rest to fail. *)
Lemma read_null {A} params key keys v (f : option dec -> res string A) :
  jget params key = Some v -> jview v = ViewNull ->
  mbind f (read_decimal params (key :: keys))
  = Err "invalid decimal strategy walk-forward config value".
Proof. intros Hk Hv. unfold read_decimal. cbn [find_map]. by rewrite Hk, Hv. Qed.

Lemma read_any {A} params keys (f : option dec -> res string A) :
  (forall o, f o = Err "invalid decimal strategy walk-forward config value") ->
  mbind f (read_decimal params keys) = Err "invalid decimal strategy walk-forward config value".
Proof. intros H. unfold read_decimal. repeat case_match; cbn; auto. Qed.

(** A candidate that holds [null] for a decimal it does not set, as every candidate
    serialised by the program does, cannot be read back. *)
Theorem null_decimal_rejected config key v :
  In key decimal_keys -> jget config "params" = None ->
  jget config key = Some v -> jview v = ViewNull ->
  strategy_walk_forward_candidate_from_config config
  = Err "invalid decimal strategy walk-forward config value".
Proof.
  intros Hin Hp Hk Hv. unfold strategy_walk_forward_candidate_from_config. rewrite Hp.
  cbn [default from_option id].
  repeat (destruct Hin as [<-|Hin];
    [repeat first [eapply read_null; eassumption|apply read_any; intros ?]|]).
  destruct Hin.
Qed.
End FromConfigFacts.

(** ** Concrete runs *)

Module WalkForwardSample.
#[local] Existing Instance ExactDecimal.
#[local] Existing Instance PlainChrono.
#[local] Existing Instance PlainArith.
#[local] Existing Instance TreeJson.
#[local] Existing Instance TreeRead.

Definition candidate : StrategyWalkForwardCandidate := {|
  wc_lookback_candles := 2; wc_trend_lookback_candles := None;
  wc_momentum_lookback_candles := None; wc_compression_lookback_candles := None;
  wc_breakout_lookback_candles := None; wc_pullback_lookback_candles := None;
  wc_pullback_sma_lookback_candles := None; wc_compression_percentile_threshold := None;
  wc_min_breakout_pct := None; wc_max_breakout_extension_pct := None;
  wc_min_volume_expansion_ratio := None; wc_lower_band_pct := None; wc_upper_band_pct := None;
  wc_min_range_width_pct := None; wc_max_range_width_pct := None;
  wc_min_close_above_sma_pct := None; wc_max_close_above_sma_pct := None;
  wc_min_momentum_return_pct := None; wc_min_trend_return_pct := None;
  wc_min_trend_slope_pct := None; wc_min_pullback_depth_pct := None;
  wc_max_pullback_depth_pct := None; wc_min_reclaim_pct := None; wc_min_breakdown_pct := None;
  wc_min_reclaim_close_pct := None; wc_min_lower_wick_pct := None; wc_min_volume_ratio := None;
  wc_max_choppiness := None; wc_holding_candles := None; wc_stop_loss_pct := None;
  wc_take_profit_pct := None; wc_confirmation_candles := None;
  wc_require_confirmation_close_above_lookback_low := None;
  wc_require_confirmation_low_above_breakdown_low := None; wc_max_signal_age_ms := Some 2700000 |}.

Definition request (step : Z) : StrategyWalkForwardRequest := {|
  wq_strategy_id := "momentum_v1"; wq_symbol := "BTCUSDT"; wq_timeframe := "15m";
  wq_config := None; wq_experiment_run_id := None; wq_start_time := 0; wq_end_time := hours 4;
  wq_window_train_size_hours := 1; wq_window_test_size_hours := 1; wq_step_size_hours := step;
  wq_initial_capital := dint 1000; wq_fee_bps := dint 10; wq_slippage_bps := dint 5;
  wq_candidate_config := candidate; wq_min_required_test_windows := None;
  wq_correlation_id := None |}.

Definition drawn : WalkForwardDrawn := {|
  wd_simulation := fun k => 100 + Z.of_nat k; wd_window := fun k => 10 + Z.of_nat k;
  wd_signal := fun k i => 1000 + 100 * Z.of_nat k + Z.of_nat i; wd_now := 5 |}.

Definition quarter (k o c : Z) : Candle := {|
  c_id := k; c_exchange := MarketDataSource.Binance; c_symbol := {| symbol_text := "BTCUSDT" |};
  c_interval := CandleInterval.FifteenMinutes; c_open_time := minutes (15 * k);
  c_close_time := minutes (15 * (k + 1)) - milliseconds 1; c_open := dint o;
  c_high := dint (Z.max o c + 1); c_low := dint (Z.min o c - 1); c_close := dint c;
  c_volume := dint 10; c_quote_volume := None; c_trade_count := 3; c_is_closed := true;
  c_created_at := 0; c_updated_at := 0 |}.

(** The second hour rises, the third lacks a candle, the fourth falls at its end. *)
Definition quarters : list Candle :=
  [quarter 4 100 101; quarter 5 101 102; quarter 6 102 103; quarter 7 103 110;
   quarter 8 110 111; quarter 9 111 112; quarter 10 112 113;
   quarter 12 113 114; quarter 13 114 115; quarter 14 115 116; quarter 15 116 90].

Abbreviation symbol := ({| symbol_text := "BTCUSDT" |}).
Abbreviation hourly := (request 1).

Lemma hourly_valid : StrategyWalkForwardRequest_validate hourly = Ok tt.
Proof. vm_compute. reflexivity. Qed.
Lemma hourly_supported : windows_supported hourly.
Proof. split; vm_compute; split; discriminate. Qed.
Lemma candidate_unsigned : wf_candidate_u32 candidate.
Proof. split; cbn; try exact I; unfold u32; lia. Qed.
Lemma quarter_tradable k o c : 0 < o -> tradable (quarter k o c).
Proof.
  intros H. unfold tradable, Qlt. cbn. lia.
Qed.
Lemma quarters_tradable : Forall tradable quarters.
Proof. unfold quarters. repeat (constructor; [apply quarter_tradable; lia|]). constructor. Qed.

Definition to_value (r : BacktestResult) : option json := Some (jstr (bs_strategy_id r)).

Abbreviation normalized := (normalized_config
  (walk_forward_strategy_override ReplaySample.momentum hourly) StrategyId.MomentumV1
  [symbol] CandleInterval.FifteenMinutes).

Lemma override_accepted : accepted (wd_now drawn)
  (walk_forward_strategy_override ReplaySample.momentum hourly) (experiment_context symbol) normalized.
Proof. vm_compute. reflexivity. Qed.

Abbreviation outcome := (build_strategy_walk_forward_execution to_value drawn 1 0 8
  ReplaySample.momentum hourly quarters).

Example outcome_windows :
  match outcome with
  | Some (Ok execution) =>
    let r := wx_result execution in
    (map wn_status (wx_windows execution), wl_profitable_windows r, wl_losing_windows r,
     wl_robustness_status r)
  | _ => ([], 0, 0, StrategyWalkForwardRobustnessStatus.Failed)
  end = ([StrategyWalkForwardStatus.Completed; StrategyWalkForwardStatus.Skipped;
          StrategyWalkForwardStatus.Completed], 1, 1,
         StrategyWalkForwardRobustnessStatus.OverfitRisk).
Proof. vm_compute. reflexivity. Qed.

Example walk_forward_completes_witness :
  exists windows execution, generate_walk_forward_windows (E := wf_error) hourly = Some (Ok windows)
    /\ outcome = Some (Ok execution) /\ wl_failed_windows (wx_result execution) = 0.
Proof.
  destruct (walk_forward_completes (DL := ExactDecimalLaws) (CL := PlainChronoLaws)
    (CAL := PlainArithLaws) to_value drawn 1 0 8 ReplaySample.momentum hourly symbol normalized
    quarters (fun r => mk_is_Some _ _ eq_refl) hourly_valid hourly_supported
    ltac:(vm_compute; discriminate) candidate_unsigned ltac:(vm_compute; discriminate) ExperimentSample.stored
    eq_refl override_accepted quarters_tradable ltac:(vm_compute; discriminate))
    as (windows & execution & H1 & H2 & _ & _ & _ & H3 & _).
  exists windows, execution. split; [exact H1|]. split; [exact H2|exact H3].
Defined.

(** Four hours hold three windows; a step of ten trillion hours passes the validation. *)
Abbreviation endless := (request (10 ^ 13)).
Lemma endless_valid : StrategyWalkForwardRequest_validate endless = Ok tt.
Proof. vm_compute. reflexivity. Qed.

Example walk_forward_windows_spec_witness :
  (exists windows, generate_walk_forward_windows (E := CoreError.t) hourly = Some (Ok windows)) /\
  generate_walk_forward_windows (E := CoreError.t) endless = Some Panic.
Proof.
  split.
  - destruct (proj1 (walk_forward_windows_spec (CAL := PlainArithLaws) hourly hourly_valid)
      hourly_supported) as (windows & H & _).
    exists windows. exact H.
  - exact (proj2 (walk_forward_windows_spec (CAL := PlainArithLaws) endless endless_valid)
      ltac:(vm_compute; reflexivity)).
Defined.

Definition ran (k pnl_pct : Z) : StrategyWalkForwardWindowResult := {|
  wn_id := k; wn_walk_forward_id := 1;
  wn_window := window_at 0 (hours 1) (hours 1) (hours 1) (Z.to_nat k);
  wn_status := StrategyWalkForwardStatus.Completed; wn_skip_reason := None; wn_trade_count := 4;
  wn_pnl := dint pnl_pct; wn_pnl_pct := dint pnl_pct; wn_max_drawdown_pct := ZERO;
  wn_win_rate := ZERO; wn_fee_paid := ZERO; wn_slippage_cost := ZERO; wn_raw_signal_count := 4;
  wn_cooldown_suppressed_count := 4; wn_open_position_suppressed_count := 4;
  wn_executed_trade_count := 4; wn_suppression_breakdown := []; wn_last_signal_time := None;
  wn_last_executed_entry_time := None; wn_result := jnull; wn_created_at := 0 |}.
Abbreviation good := [ran 0 20; ran 1 19; ran 2 18].
Abbreviation verdict := (build_strategy_walk_forward_result 1 0 None hourly good).

Example walk_forward_verdict_spec_witness :
  wl_robustness_status verdict = StrategyWalkForwardRobustnessStatus.Robust /\
  wl_losing_windows verdict < wl_profitable_windows verdict.
Proof.
  assert (wl_robustness_status verdict = StrategyWalkForwardRobustnessStatus.Robust) as H
    by (vm_compute; reflexivity).
  split; [exact H|].
  exact (proj1 (proj1 (proj2 (proj1 (proj2 (proj2 (proj2 (proj2 (proj2
    (walk_forward_verdict_spec 1 0 None hourly good ltac:(vm_compute; discriminate) I)))))) H)))).
Defined.

Example walk_forward_statistics_bounded_witness :
  (dval (wl_worst_pnl_pct verdict) <= dval (wl_median_pnl_pct verdict)
   <= dval (wl_best_pnl_pct verdict))%Q.
Proof.
  refine (proj1 (proj2 (proj1 (walk_forward_statistics_bounded (DL := ExactDecimalLaws)
    1 0 None hourly good ltac:(vm_compute; discriminate) _)
    ltac:(vm_compute; reflexivity)))).
  repeat (apply Forall_cons_2; [|]); [..|apply Forall_nil_2].
  all: intros k Hk; change (0 <= k <= 3) in Hk.
  all: assert (k = 0 \/ k = 1 \/ k = 2 \/ k = 3) as [-> | [-> | [-> | ->]]] by lia.
  all: whole_number.
Defined.

Definition ranked : StrategyWalkForwardRequest := {|
  wq_strategy_id := wq_strategy_id hourly; wq_symbol := wq_symbol hourly;
  wq_timeframe := wq_timeframe hourly; wq_config := wq_config hourly;
  wq_experiment_run_id := wq_experiment_run_id hourly; wq_start_time := wq_start_time hourly;
  wq_end_time := wq_end_time hourly;
  wq_window_train_size_hours := wq_window_train_size_hours hourly;
  wq_window_test_size_hours := wq_window_test_size_hours hourly;
  wq_step_size_hours := wq_step_size_hours hourly;
  wq_initial_capital := wq_initial_capital hourly; wq_fee_bps := wq_fee_bps hourly;
  wq_slippage_bps := wq_slippage_bps hourly;
  wq_candidate_config := 
    strategy_walk_forward_candidate_from_experiment ExperimentSample.plain_candidate;
  wq_min_required_test_windows := wq_min_required_test_windows hourly;
  wq_correlation_id := wq_correlation_id hourly |}.

Example walk_forward_override_agrees_witness :
  walk_forward_strategy_override ReplaySample.momentum ranked
  = strategy_config_update_from_candidate ReplaySample.momentum "momentum_v1" "BTCUSDT" "15m"
      ExperimentSample.plain_candidate.
Proof. exact (walk_forward_override_agrees ReplaySample.momentum ranked _ eq_refl). Defined.

Example null_decimal_rejected_witness :
  strategy_walk_forward_candidate_from_config
    (TObject [("lookback_candles", TInt 5); ("stop_loss_pct", TNull)])
  = Err "invalid decimal strategy walk-forward config value" /\
  exists c, strategy_walk_forward_candidate_from_config (TObject [("lookback_candles", TInt 5)]) = Ok c.
Proof.
  split; [|eexists; reflexivity].
  exact (null_decimal_rejected (TObject [("lookback_candles", TInt 5); ("stop_loss_pct", TNull)])
    "stop_loss_pct" TNull ltac:(cbn; tauto) eq_refl eq_refl eq_refl).
Defined.
End WalkForwardSample.
