(* ===== verification/ResearchTypes.v ===== *)
(** * Research vocabulary: crates/core/src/research.rs

    The enumerations of the research module, as in Types.v: one Module each,
    with [as_str], and the parsers as instances of [FromStr] with the law that
    every printed name is accepted.  A status stored in a row is read back
    through these parsers, so the law is what makes a stored state machine
    resume in the state it was left in. *)

From Stdlib Require Import ZArith Lia List String Ascii.
From stdpp Require Import base list strings.
From S2P Require Import Prelude Text Types.

#[local] Open Scope string_scope.

Module ScheduledResearchJobStatus.
Inductive t :=
  | Disabled
  | Enabled
  | Paused
  | Running
  | BackingOff
  | Error
  | AutoPaused.
#[global] Instance eq_dec : EqDecision t.
Proof. solve_decision. Defined.
Definition as_str (x : t) : string :=
  match x with
  | Disabled => "DISABLED"
  | Enabled => "ENABLED"
  | Paused => "PAUSED"
  | Running => "RUNNING"
  | BackingOff => "BACKING_OFF"
  | Error => "ERROR"
  | AutoPaused => "AUTO_PAUSED"
  end.
End ScheduledResearchJobStatus.

Module ScheduledResearchJobKind.
Inductive t :=
  | ProviderHealth
  | MarketDataQuality
  | AggregationStatus
  | CrossAssetMarketDataRefresh
  | DerivativesContextRefresh
  | CandidateShadowObserveOnce
  | CrossAssetCandidateShadowObserveOnce
  | ResearchBatch
  | ResearchCampaign
  | RegimeDiscovery
  | RobustnessMatrix
  | OperatorReport.
#[global] Instance eq_dec : EqDecision t.
Proof. solve_decision. Defined.
Definition as_str (x : t) : string :=
  match x with
  | ProviderHealth => "PROVIDER_HEALTH"
  | MarketDataQuality => "MARKET_DATA_QUALITY"
  | AggregationStatus => "AGGREGATION_STATUS"
  | CrossAssetMarketDataRefresh => "CROSS_ASSET_MARKET_DATA_REFRESH"
  | DerivativesContextRefresh => "DERIVATIVES_CONTEXT_REFRESH"
  | CandidateShadowObserveOnce => "CANDIDATE_SHADOW_OBSERVE_ONCE"
  | CrossAssetCandidateShadowObserveOnce => "CROSS_ASSET_CANDIDATE_SHADOW_OBSERVE_ONCE"
  | ResearchBatch => "RESEARCH_BATCH"
  | ResearchCampaign => "RESEARCH_CAMPAIGN"
  | RegimeDiscovery => "REGIME_DISCOVERY"
  | RobustnessMatrix => "ROBUSTNESS_MATRIX"
  | OperatorReport => "OPERATOR_REPORT"
  end.
End ScheduledResearchJobKind.

Module ScheduledResearchJobRunStatus.
Inductive t :=
  | Completed
  | Failed
  | Skipped
  | SkippedOverlap
  | SkippedBackoff
  | PartialSuccess.
#[global] Instance eq_dec : EqDecision t.
Proof. solve_decision. Defined.
Definition as_str (x : t) : string :=
  match x with
  | Completed => "COMPLETED"
  | Failed => "FAILED"
  | Skipped => "SKIPPED"
  | SkippedOverlap => "SKIPPED_OVERLAP"
  | SkippedBackoff => "SKIPPED_BACKOFF"
  | PartialSuccess => "PARTIAL_SUCCESS"
  end.
End ScheduledResearchJobRunStatus.

Module ResearchBatchStatus.
Inductive t :=
  | Started
  | Partial
  | Completed
  | Failed.
#[global] Instance eq_dec : EqDecision t.
Proof. solve_decision. Defined.
Definition as_str (x : t) : string :=
  match x with
  | Started => "STARTED"
  | Partial => "PARTIAL"
  | Completed => "COMPLETED"
  | Failed => "FAILED"
  end.
End ResearchBatchStatus.

Module ResearchBatchStepStatus.
Inductive t :=
  | Pending
  | Running
  | Completed
  | Skipped
  | Failed.
#[global] Instance eq_dec : EqDecision t.
Proof. solve_decision. Defined.
Definition as_str (x : t) : string :=
  match x with
  | Pending => "PENDING"
  | Running => "RUNNING"
  | Completed => "COMPLETED"
  | Skipped => "SKIPPED"
  | Failed => "FAILED"
  end.
End ResearchBatchStepStatus.

Module ResearchBatchTriageStatus.
Inductive t :=
  | Actionable
  | Weak
  | OverfitOnly
  | NoCandidates
  | DataQualityBlocked
  | Failed
  | Unknown.
#[global] Instance eq_dec : EqDecision t.
Proof. solve_decision. Defined.
Definition as_str (x : t) : string :=
  match x with
  | Actionable => "ACTIONABLE"
  | Weak => "WEAK"
  | OverfitOnly => "OVERFIT_ONLY"
  | NoCandidates => "NO_CANDIDATES"
  | DataQualityBlocked => "DATA_QUALITY_BLOCKED"
  | Failed => "FAILED"
  | Unknown => "UNKNOWN"
  end.
End ResearchBatchTriageStatus.

Module ResearchCandidateCreationMode.
Inductive t :=
  | CreateAll
  | CreateActionableOnly
  | CreatePromisingOnly
  | ProposalOnly
  | Disabled.
#[global] Instance eq_dec : EqDecision t.
Proof. solve_decision. Defined.
Definition as_str (x : t) : string :=
  match x with
  | CreateAll => "CREATE_ALL"
  | CreateActionableOnly => "CREATE_ACTIONABLE_ONLY"
  | CreatePromisingOnly => "CREATE_PROMISING_ONLY"
  | ProposalOnly => "PROPOSAL_ONLY"
  | Disabled => "DISABLED"
  end.
End ResearchCandidateCreationMode.

Module ResearchCampaignStatus.
Inductive t :=
  | Started
  | Completed
  | PartialSuccess
  | Failed
  | Cancelled.
#[global] Instance eq_dec : EqDecision t.
Proof. solve_decision. Defined.
Definition as_str (x : t) : string :=
  match x with
  | Started => "STARTED"
  | Completed => "COMPLETED"
  | PartialSuccess => "PARTIAL_SUCCESS"
  | Failed => "FAILED"
  | Cancelled => "CANCELLED"
  end.
End ResearchCampaignStatus.

Module ResearchStaleRunRecoveryTargetType.
Inductive t :=
  | ResearchCampaign
  | ResearchCampaignBatch
  | ResearchBatch
  | ResearchBatchStep
  | StrategyExperiment
  | StrategyWalkForwardRun
  | StrategyRobustnessMatrixRun
  | ResearchExperimentPlanRun.
#[global] Instance eq_dec : EqDecision t.
Proof. solve_decision. Defined.
Definition as_str (x : t) : string :=
  match x with
  | ResearchCampaign => "RESEARCH_CAMPAIGN"
  | ResearchCampaignBatch => "RESEARCH_CAMPAIGN_BATCH"
  | ResearchBatch => "RESEARCH_BATCH"
  | ResearchBatchStep => "RESEARCH_BATCH_STEP"
  | StrategyExperiment => "STRATEGY_EXPERIMENT"
  | StrategyWalkForwardRun => "STRATEGY_WALK_FORWARD_RUN"
  | StrategyRobustnessMatrixRun => "STRATEGY_ROBUSTNESS_MATRIX_RUN"
  | ResearchExperimentPlanRun => "RESEARCH_EXPERIMENT_PLAN_RUN"
  end.
End ResearchStaleRunRecoveryTargetType.

Module ResearchStaleRunRecoveryStatus.
Inductive t :=
  | Proposed
  | Recovered
  | Skipped.
#[global] Instance eq_dec : EqDecision t.
Proof. solve_decision. Defined.
Definition as_str (x : t) : string :=
  match x with
  | Proposed => "PROPOSED"
  | Recovered => "RECOVERED"
  | Skipped => "SKIPPED"
  end.
End ResearchStaleRunRecoveryStatus.

Module ResearchRegimeStrategyStatus.
Inductive t :=
  | Robust
  | Promising
  | Weak
  | Negative
  | Overfit
  | InsufficientData
  | DataQualityBlocked.
#[global] Instance eq_dec : EqDecision t.
Proof. solve_decision. Defined.
Definition as_str (x : t) : string :=
  match x with
  | Robust => "ROBUST"
  | Promising => "PROMISING"
  | Weak => "WEAK"
  | Negative => "NEGATIVE"
  | Overfit => "OVERFIT"
  | InsufficientData => "INSUFFICIENT_DATA"
  | DataQualityBlocked => "DATA_QUALITY_BLOCKED"
  end.
End ResearchRegimeStrategyStatus.

Module ResearchRegimeLabel.
Inductive t :=
  | TrendUp
  | TrendDown
  | Range
  | HighVolatility
  | LowVolatility
  | Mixed
  | Unknown.
#[global] Instance eq_dec : EqDecision t.
Proof. solve_decision. Defined.
Definition as_str (x : t) : string :=
  match x with
  | TrendUp => "TREND_UP"
  | TrendDown => "TREND_DOWN"
  | Range => "RANGE"
  | HighVolatility => "HIGH_VOLATILITY"
  | LowVolatility => "LOW_VOLATILITY"
  | Mixed => "MIXED"
  | Unknown => "UNKNOWN"
  end.
End ResearchRegimeLabel.

Module ResearchRegimeDatasetStatus.
Inductive t :=
  | Completed
  | Partial
  | Failed.
#[global] Instance eq_dec : EqDecision t.
Proof. solve_decision. Defined.
Definition as_str (x : t) : string :=
  match x with
  | Completed => "COMPLETED"
  | Partial => "PARTIAL"
  | Failed => "FAILED"
  end.
End ResearchRegimeDatasetStatus.

Module ResearchRegimeDiscoveryStatus.
Inductive t :=
  | Completed
  | Partial
  | InsufficientData
  | Failed.
#[global] Instance eq_dec : EqDecision t.
Proof. solve_decision. Defined.
Definition as_str (x : t) : string :=
  match x with
  | Completed => "COMPLETED"
  | Partial => "PARTIAL"
  | InsufficientData => "INSUFFICIENT_DATA"
  | Failed => "FAILED"
  end.
End ResearchRegimeDiscoveryStatus.

Module ResearchRegimeCalibrationStatus.
Inductive t :=
  | Completed
  | Partial
  | InsufficientData
  | Failed.
#[global] Instance eq_dec : EqDecision t.
Proof. solve_decision. Defined.
Definition as_str (x : t) : string :=
  match x with
  | Completed => "COMPLETED"
  | Partial => "PARTIAL"
  | InsufficientData => "INSUFFICIENT_DATA"
  | Failed => "FAILED"
  end.
End ResearchRegimeCalibrationStatus.

Module StrategyRobustnessMatrixStatus.
Inductive t :=
  | Robust
  | PromisingButWeak
  | Mixed
  | OverfitRisk
  | Negative
  | InsufficientData
  | Failed.
#[global] Instance eq_dec : EqDecision t.
Proof. solve_decision. Defined.
Definition as_str (x : t) : string :=
  match x with
  | Robust => "ROBUST"
  | PromisingButWeak => "PROMISING_BUT_WEAK"
  | Mixed => "MIXED"
  | OverfitRisk => "OVERFIT_RISK"
  | Negative => "NEGATIVE"
  | InsufficientData => "INSUFFICIENT_DATA"
  | Failed => "FAILED"
  end.
End StrategyRobustnessMatrixStatus.

Module ResearchCandidateFailureReason.
Inductive t :=
  | OverfitRisk
  | FeeDrag
  | NoBreakout
  | BreakoutTooExtended
  | TooManyTrades
  | TooFewTrades
  | LowWinRate
  | HighDrawdown
  | WeakEdge
  | DataQualityDegraded
  | RegimeMismatch
  | InsufficientData.
#[global] Instance eq_dec : EqDecision t.
Proof. solve_decision. Defined.
Definition as_str (x : t) : string :=
  match x with
  | OverfitRisk => "OVERFIT_RISK"
  | FeeDrag => "FEE_DRAG"
  | NoBreakout => "NO_BREAKOUT"
  | BreakoutTooExtended => "BREAKOUT_TOO_EXTENDED"
  | TooManyTrades => "TOO_MANY_TRADES"
  | TooFewTrades => "TOO_FEW_TRADES"
  | LowWinRate => "LOW_WIN_RATE"
  | HighDrawdown => "HIGH_DRAWDOWN"
  | WeakEdge => "WEAK_EDGE"
  | DataQualityDegraded => "DATA_QUALITY_DEGRADED"
  | RegimeMismatch => "REGIME_MISMATCH"
  | InsufficientData => "INSUFFICIENT_DATA"
  end.
End ResearchCandidateFailureReason.

Module ResearchHypothesisSource.
Inductive t :=
  | CampaignFailureAttribution
  | RegimeLeaderboard
  | OpportunityAnalysis
  | SignalFeatureAttribution
  | ExitAttribution
  | DataQuality.
#[global] Instance eq_dec : EqDecision t.
Proof. solve_decision. Defined.
Definition as_str (x : t) : string :=
  match x with
  | CampaignFailureAttribution => "CAMPAIGN_FAILURE_ATTRIBUTION"
  | RegimeLeaderboard => "REGIME_LEADERBOARD"
  | OpportunityAnalysis => "OPPORTUNITY_ANALYSIS"
  | SignalFeatureAttribution => "SIGNAL_FEATURE_ATTRIBUTION"
  | ExitAttribution => "EXIT_ATTRIBUTION"
  | DataQuality => "DATA_QUALITY"
  end.
End ResearchHypothesisSource.

Module ResearchHypothesisStatus.
Inductive t :=
  | Proposed
  | AcceptedForExperiment
  | Rejected
  | Archived.
#[global] Instance eq_dec : EqDecision t.
Proof. solve_decision. Defined.
Definition as_str (x : t) : string :=
  match x with
  | Proposed => "PROPOSED"
  | AcceptedForExperiment => "ACCEPTED_FOR_EXPERIMENT"
  | Rejected => "REJECTED"
  | Archived => "ARCHIVED"
  end.
End ResearchHypothesisStatus.

Module ResearchHypothesisPriority.
Inductive t :=
  | High
  | Medium
  | Low.
#[global] Instance eq_dec : EqDecision t.
Proof. solve_decision. Defined.
Definition as_str (x : t) : string :=
  match x with
  | High => "HIGH"
  | Medium => "MEDIUM"
  | Low => "LOW"
  end.
End ResearchHypothesisPriority.

Module ResearchExperimentPlanStatus.
Inductive t :=
  | Draft
  | Ready
  | Invalid
  | Runnable
  | Archived.
#[global] Instance eq_dec : EqDecision t.
Proof. solve_decision. Defined.
Definition as_str (x : t) : string :=
  match x with
  | Draft => "DRAFT"
  | Ready => "READY"
  | Invalid => "INVALID"
  | Runnable => "RUNNABLE"
  | Archived => "ARCHIVED"
  end.
End ResearchExperimentPlanStatus.

Module ResearchExperimentPlanSource.
Inductive t :=
  | AcceptedHypothesis
  | OperatorDraft.
#[global] Instance eq_dec : EqDecision t.
Proof. solve_decision. Defined.
Definition as_str (x : t) : string :=
  match x with
  | AcceptedHypothesis => "ACCEPTED_HYPOTHESIS"
  | OperatorDraft => "OPERATOR_DRAFT"
  end.
End ResearchExperimentPlanSource.

Module ResearchExperimentPlanType.
Inductive t :=
  | StrategyExperiment
  | ResearchBatch
  | ResearchCampaign
  | RobustnessMatrix
  | WalkForward.
#[global] Instance eq_dec : EqDecision t.
Proof. solve_decision. Defined.
Definition as_str (x : t) : string :=
  match x with
  | StrategyExperiment => "STRATEGY_EXPERIMENT"
  | ResearchBatch => "RESEARCH_BATCH"
  | ResearchCampaign => "RESEARCH_CAMPAIGN"
  | RobustnessMatrix => "ROBUSTNESS_MATRIX"
  | WalkForward => "WALK_FORWARD"
  end.
End ResearchExperimentPlanType.

Module ResearchExperimentPlanRunMode.
Inductive t :=
  | Preview
  | Run.
#[global] Instance eq_dec : EqDecision t.
Proof. solve_decision. Defined.
Definition as_str (x : t) : string :=
  match x with
  | Preview => "PREVIEW"
  | Run => "RUN"
  end.
End ResearchExperimentPlanRunMode.

Module ResearchExperimentPlanRunStatus.
Inductive t :=
  | Ready
  | Running
  | Completed
  | Failed
  | Blocked
  | InvalidPlan.
#[global] Instance eq_dec : EqDecision t.
Proof. solve_decision. Defined.
Definition as_str (x : t) : string :=
  match x with
  | Ready => "READY"
  | Running => "RUNNING"
  | Completed => "COMPLETED"
  | Failed => "FAILED"
  | Blocked => "BLOCKED"
  | InvalidPlan => "INVALID_PLAN"
  end.
End ResearchExperimentPlanRunStatus.

Module ResearchDataReadinessStatus.
Inductive t :=
  | Ready
  | Degraded
  | Insufficient.
#[global] Instance eq_dec : EqDecision t.
Proof. solve_decision. Defined.
Definition as_str (x : t) : string :=
  match x with
  | Ready => "READY"
  | Degraded => "DEGRADED"
  | Insufficient => "INSUFFICIENT"
  end.
End ResearchDataReadinessStatus.

Module CrossAssetResearchStatus.
Inductive t :=
  | Completed
  | Failed
  | InsufficientData.
#[global] Instance eq_dec : EqDecision t.
Proof. solve_decision. Defined.
Definition as_str (x : t) : string :=
  match x with
  | Completed => "COMPLETED"
  | Failed => "FAILED"
  | InsufficientData => "INSUFFICIENT_DATA"
  end.
End CrossAssetResearchStatus.

Module CrossAssetStrategyKind.
Inductive t :=
  | RelativeStrengthContinuationV1Research.
#[global] Instance eq_dec : EqDecision t.
Proof. solve_decision. Defined.
Definition as_str (x : t) : string :=
  match x with
  | RelativeStrengthContinuationV1Research => "RELATIVE_STRENGTH_CONTINUATION_V1_RESEARCH"
  end.
End CrossAssetStrategyKind.

Module CrossAssetRankMetric.
Inductive t :=
  | RawReturn
  | VolAdjustedReturn.
#[global] Instance eq_dec : EqDecision t.
Proof. solve_decision. Defined.
Definition as_str (x : t) : string :=
  match x with
  | RawReturn => "raw_return"
  | VolAdjustedReturn => "vol_adjusted_return"
  end.
End CrossAssetRankMetric.

Module CrossAssetSizingMode.
Inductive t :=
  | EqualNotional
  | VolatilityNormalized.
#[global] Instance eq_dec : EqDecision t.
Proof. solve_decision. Defined.
Definition as_str (x : t) : string :=
  match x with
  | EqualNotional => "equal_notional"
  | VolatilityNormalized => "volatility_normalized"
  end.
End CrossAssetSizingMode.

Module CrossAssetPortfolioStatus.
Inductive t :=
  | Promising
  | Weak
  | OverfitRisk
  | Negative
  | TooSparse.
#[global] Instance eq_dec : EqDecision t.
Proof. solve_decision. Defined.
Definition as_str (x : t) : string :=
  match x with
  | Promising => "PROMISING"
  | Weak => "WEAK"
  | OverfitRisk => "OVERFIT_RISK"
  | Negative => "NEGATIVE"
  | TooSparse => "TOO_SPARSE"
  end.
End CrossAssetPortfolioStatus.

Module CrossAssetResearchRecommendation.
Inductive t :=
  | KeepResearching
  | Reject
  | ConsiderImplementationResearchOnly.
#[global] Instance eq_dec : EqDecision t.
Proof. solve_decision. Defined.
Definition as_str (x : t) : string :=
  match x with
  | KeepResearching => "KEEP_RESEARCHING"
  | Reject => "REJECT"
  | ConsiderImplementationResearchOnly => "CONSIDER_IMPLEMENTATION_RESEARCH_ONLY"
  end.
End CrossAssetResearchRecommendation.

Module CrossAssetCandidateGatePreviewStatus.
Inductive t :=
  | NotReady
  | NearReady
  | ReadyForResearchCandidateReview
  | Blocked.
#[global] Instance eq_dec : EqDecision t.
Proof. solve_decision. Defined.
Definition as_str (x : t) : string :=
  match x with
  | NotReady => "NOT_READY"
  | NearReady => "NEAR_READY"
  | ReadyForResearchCandidateReview => "READY_FOR_RESEARCH_CANDIDATE_REVIEW"
  | Blocked => "BLOCKED"
  end.
End CrossAssetCandidateGatePreviewStatus.

Module CrossAssetCandidateCreationPolicyStrictness.
Inductive t :=
  | Conservative
  | Balanced
  | Experimental.
#[global] Instance eq_dec : EqDecision t.
Proof. solve_decision. Defined.
Definition as_str (x : t) : string :=
  match x with
  | Conservative => "conservative"
  | Balanced => "balanced"
  | Experimental => "experimental"
  end.
End CrossAssetCandidateCreationPolicyStrictness.

Module CrossAssetCandidateCreationPolicyStatus.
Inductive t :=
  | PolicyBlocked
  | PolicyNeedsReview
  | PolicyReadyForManualCreate
  | PolicyNotApplicable.
#[global] Instance eq_dec : EqDecision t.
Proof. solve_decision. Defined.
Definition as_str (x : t) : string :=
  match x with
  | PolicyBlocked => "POLICY_BLOCKED"
  | PolicyNeedsReview => "POLICY_NEEDS_REVIEW"
  | PolicyReadyForManualCreate => "POLICY_READY_FOR_MANUAL_CREATE"
  | PolicyNotApplicable => "POLICY_NOT_APPLICABLE"
  end.
End CrossAssetCandidateCreationPolicyStatus.

Module CrossAssetCandidateReviewStatus.
Inductive t :=
  | CandidateReviewReady
  | NeedsHumanReview
  | Blocked
  | NotApplicable.
#[global] Instance eq_dec : EqDecision t.
Proof. solve_decision. Defined.
Definition as_str (x : t) : string :=
  match x with
  | CandidateReviewReady => "CANDIDATE_REVIEW_READY"
  | NeedsHumanReview => "NEEDS_HUMAN_REVIEW"
  | Blocked => "BLOCKED"
  | NotApplicable => "NOT_APPLICABLE"
  end.
End CrossAssetCandidateReviewStatus.

Module CrossAssetAcceptShadowPreviewStatus.
Inductive t :=
  | Blocked
  | NotApplicable.
#[global] Instance eq_dec : EqDecision t.
Proof. solve_decision. Defined.
Definition as_str (x : t) : string :=
  match x with
  | Blocked => "BLOCKED"
  | NotApplicable => "NOT_APPLICABLE"
  end.
End CrossAssetAcceptShadowPreviewStatus.

Module CrossAssetShadowObservationDecision.
Inductive t :=
  | WouldSelect
  | NoSignal
  | SkippedNoNewCandle
  | SkippedStaleCandles
  | BlockedNotPromotedOrNotAccepted
  | Error.
#[global] Instance eq_dec : EqDecision t.
Proof. solve_decision. Defined.
Definition as_str (x : t) : string :=
  match x with
  | WouldSelect => "WOULD_SELECT"
  | NoSignal => "NO_SIGNAL"
  | SkippedNoNewCandle => "SKIPPED_NO_NEW_CANDLE"
  | SkippedStaleCandles => "SKIPPED_STALE_CANDLES"
  | BlockedNotPromotedOrNotAccepted => "BLOCKED_NOT_PROMOTED_OR_NOT_ACCEPTED"
  | Error => "ERROR"
  end.
End CrossAssetShadowObservationDecision.

Module CrossAssetShadowObservationStatus.
Inductive t :=
  | PreviewOnly
  | ObservationRecorded
  | Skipped
  | Blocked
  | Error.
#[global] Instance eq_dec : EqDecision t.
Proof. solve_decision. Defined.
Definition as_str (x : t) : string :=
  match x with
  | PreviewOnly => "PREVIEW_ONLY"
  | ObservationRecorded => "OBSERVATION_RECORDED"
  | Skipped => "SKIPPED"
  | Blocked => "BLOCKED"
  | Error => "ERROR"
  end.
End CrossAssetShadowObservationStatus.

Module CrossAssetObservationHealthStatus.
Inductive t :=
  | HealthyAccumulating
  | WaitingForNewCandle
  | DataStale
  | JobDisabled
  | SchedulerDisabled
  | ExecutionSafetyViolation.
#[global] Instance eq_dec : EqDecision t.
Proof. solve_decision. Defined.
Definition as_str (x : t) : string :=
  match x with
  | HealthyAccumulating => "HEALTHY_ACCUMULATING"
  | WaitingForNewCandle => "WAITING_FOR_NEW_CANDLE"
  | DataStale => "DATA_STALE"
  | JobDisabled => "JOB_DISABLED"
  | SchedulerDisabled => "SCHEDULER_DISABLED"
  | ExecutionSafetyViolation => "EXECUTION_SAFETY_VIOLATION"
  end.
End CrossAssetObservationHealthStatus.

Module CrossAssetRobustnessStatus.
Inductive t :=
  | Robust
  | Promising
  | Weak
  | OverfitRisk
  | Negative
  | TooSparse.
#[global] Instance eq_dec : EqDecision t.
Proof. solve_decision. Defined.
Definition as_str (x : t) : string :=
  match x with
  | Robust => "ROBUST"
  | Promising => "PROMISING"
  | Weak => "WEAK"
  | OverfitRisk => "OVERFIT_RISK"
  | Negative => "NEGATIVE"
  | TooSparse => "TOO_SPARSE"
  end.
End CrossAssetRobustnessStatus.

Module CrossAssetRobustnessRecommendation.
Inductive t :=
  | ImplementResearchOnly
  | KeepResearchOnly
  | RejectFamily.
#[global] Instance eq_dec : EqDecision t.
Proof. solve_decision. Defined.
Definition as_str (x : t) : string :=
  match x with
  | ImplementResearchOnly => "IMPLEMENT_RESEARCH_ONLY"
  | KeepResearchOnly => "KEEP_RESEARCH_ONLY"
  | RejectFamily => "REJECT_FAMILY"
  end.
End CrossAssetRobustnessRecommendation.

Module ResearchDatasetBuildStatus.
Inductive t :=
  | Started
  | Completed
  | Failed.
#[global] Instance eq_dec : EqDecision t.
Proof. solve_decision. Defined.
Definition as_str (x : t) : string :=
  match x with
  | Started => "STARTED"
  | Completed => "COMPLETED"
  | Failed => "FAILED"
  end.
End ResearchDatasetBuildStatus.

Module ResearchDatasetBuildStepStatus.
Inductive t :=
  | Started
  | Completed
  | Failed.
#[global] Instance eq_dec : EqDecision t.
Proof. solve_decision. Defined.
Definition as_str (x : t) : string :=
  match x with
  | Started => "STARTED"
  | Completed => "COMPLETED"
  | Failed => "FAILED"
  end.
End ResearchDatasetBuildStepStatus.

Module ResearchCandidateStatus.
Inductive t :=
  | Discovered
  | Observing
  | AcceptedForShadow
  | PromotedToShadowConfig
  | Rejected
  | Archived.
#[global] Instance eq_dec : EqDecision t.
Proof. solve_decision. Defined.
Definition as_str (x : t) : string :=
  match x with
  | Discovered => "DISCOVERED"
  | Observing => "OBSERVING"
  | AcceptedForShadow => "ACCEPTED_FOR_SHADOW"
  | PromotedToShadowConfig => "PROMOTED_TO_SHADOW_CONFIG"
  | Rejected => "REJECTED"
  | Archived => "ARCHIVED"
  end.
End ResearchCandidateStatus.

Module ResearchCandidateDecision.
Inductive t :=
  | AcceptForShadow
  | PromoteToShadowConfig
  | Reject
  | Archive
  | Reopen.
#[global] Instance eq_dec : EqDecision t.
Proof. solve_decision. Defined.
Definition as_str (x : t) : string :=
  match x with
  | AcceptForShadow => "ACCEPT_FOR_SHADOW"
  | PromoteToShadowConfig => "PROMOTE_TO_SHADOW_CONFIG"
  | Reject => "REJECT"
  | Archive => "ARCHIVE"
  | Reopen => "REOPEN"
  end.
End ResearchCandidateDecision.

Module ResearchCandidateAcceptForShadowPreviewStatus.
Inductive t :=
  | ReadyForHumanAcceptance
  | Blocked
  | NeedsMoreData
  | WarningReviewRequired.
#[global] Instance eq_dec : EqDecision t.
Proof. solve_decision. Defined.
Definition as_str (x : t) : string :=
  match x with
  | ReadyForHumanAcceptance => "READY_FOR_HUMAN_ACCEPTANCE"
  | Blocked => "BLOCKED"
  | NeedsMoreData => "NEEDS_MORE_DATA"
  | WarningReviewRequired => "WARNING_REVIEW_REQUIRED"
  end.
End ResearchCandidateAcceptForShadowPreviewStatus.

Module ResearchCandidateAcceptForShadowApplyRejection.
Inductive t :=
  | InvalidConfirmation
  | CandidateNotEligible
  | PreviewBlocked
  | PreviewNotReady
  | WarningAcknowledgementRequired.
#[global] Instance eq_dec : EqDecision t.
Proof. solve_decision. Defined.
Definition as_str (x : t) : string :=
  match x with
  | InvalidConfirmation => "invalid_confirmation"
  | CandidateNotEligible => "candidate_not_eligible"
  | PreviewBlocked => "preview_blocked"
  | PreviewNotReady => "preview_not_ready"
  | WarningAcknowledgementRequired => "warning_acknowledgement_required"
  end.
End ResearchCandidateAcceptForShadowApplyRejection.

Module ResearchCandidateReviewAction.
Inductive t :=
  | MarkReviewed
  | MarkNeedsMoreObservation
  | MarkReadyForTestnetReview
  | MarkInvestigated
  | RejectFromWatchlist
  | ArchiveFromWatchlist.
#[global] Instance eq_dec : EqDecision t.
Proof. solve_decision. Defined.
Definition as_str (x : t) : string :=
  match x with
  | MarkReviewed => "MARK_REVIEWED"
  | MarkNeedsMoreObservation => "MARK_NEEDS_MORE_OBSERVATION"
  | MarkReadyForTestnetReview => "MARK_READY_FOR_TESTNET_REVIEW"
  | MarkInvestigated => "MARK_INVESTIGATED"
  | RejectFromWatchlist => "REJECT_FROM_WATCHLIST"
  | ArchiveFromWatchlist => "ARCHIVE_FROM_WATCHLIST"
  end.
End ResearchCandidateReviewAction.

Module ResearchCandidateReviewStatus.
Inductive t :=
  | Recorded
  | CandidateStatusUpdated.
#[global] Instance eq_dec : EqDecision t.
Proof. solve_decision. Defined.
Definition as_str (x : t) : string :=
  match x with
  | Recorded => "RECORDED"
  | CandidateStatusUpdated => "CANDIDATE_STATUS_UPDATED"
  end.
End ResearchCandidateReviewStatus.

Module ResearchCandidateShadowPromotionMode.
Inductive t :=
  | PreviewOnly
  | Apply.
#[global] Instance eq_dec : EqDecision t.
Proof. solve_decision. Defined.
Definition as_str (x : t) : string :=
  match x with
  | PreviewOnly => "PREVIEW_ONLY"
  | Apply => "APPLY"
  end.
End ResearchCandidateShadowPromotionMode.

Module ResearchCandidateShadowPromotionStatus.
Inductive t :=
  | Ready
  | WarningReviewRequired
  | Blocked
  | NoChanges
  | Applied.
#[global] Instance eq_dec : EqDecision t.
Proof. solve_decision. Defined.
Definition as_str (x : t) : string :=
  match x with
  | Ready => "READY"
  | WarningReviewRequired => "WARNING_REVIEW_REQUIRED"
  | Blocked => "BLOCKED"
  | NoChanges => "NO_CHANGES"
  | Applied => "APPLIED"
  end.
End ResearchCandidateShadowPromotionStatus.

Module StrategyResearchCandidateSource.
Inductive t :=
  | ExperimentRun
  | MultiTimeframeExperiment
  | WalkForward
  | Manual.
#[global] Instance eq_dec : EqDecision t.
Proof. solve_decision. Defined.
Definition as_str (x : t) : string :=
  match x with
  | ExperimentRun => "EXPERIMENT_RUN"
  | MultiTimeframeExperiment => "MULTI_TIMEFRAME_EXPERIMENT"
  | WalkForward => "WALK_FORWARD"
  | Manual => "MANUAL"
  end.
End StrategyResearchCandidateSource.

Module StrategyResearchCandidateStatus.
Inductive t :=
  | Draft
  | Registered
  | Rejected
  | PromotedToShadowConfig
  | Archived.
#[global] Instance eq_dec : EqDecision t.
Proof. solve_decision. Defined.
Definition as_str (x : t) : string :=
  match x with
  | Draft => "DRAFT"
  | Registered => "REGISTERED"
  | Rejected => "REJECTED"
  | PromotedToShadowConfig => "PROMOTED_TO_SHADOW_CONFIG"
  | Archived => "ARCHIVED"
  end.
End StrategyResearchCandidateStatus.

Module StrategyResearchCandidateRejectionReason.
Inductive t :=
  | InvalidConfig
  | InvalidSource
  | MissingEvidence
  | CandidateNotRegistered
  | AlreadyPromoted
  | WrongConfirmationText.
#[global] Instance eq_dec : EqDecision t.
Proof. solve_decision. Defined.
Definition as_str (x : t) : string :=
  match x with
  | InvalidConfig => "invalid_config"
  | InvalidSource => "invalid_source"
  | MissingEvidence => "missing_evidence"
  | CandidateNotRegistered => "candidate_not_registered"
  | AlreadyPromoted => "already_promoted"
  | WrongConfirmationText => "wrong_confirmation_text"
  end.
End StrategyResearchCandidateRejectionReason.

Module StrategyCandidateObservationStatus.
Inductive t :=
  | Observing
  | ReadyForReview
  | Failed
  | InsufficientData
  | Archived.
#[global] Instance eq_dec : EqDecision t.
Proof. solve_decision. Defined.
Definition as_str (x : t) : string :=
  match x with
  | Observing => "OBSERVING"
  | ReadyForReview => "READY_FOR_REVIEW"
  | Failed => "FAILED"
  | InsufficientData => "INSUFFICIENT_DATA"
  | Archived => "ARCHIVED"
  end.
End StrategyCandidateObservationStatus.

Module StrategyCandidateObservationDecision.
Inductive t :=
  | Pass
  | Fail
  | ContinueObserving
  | InsufficientData.
#[global] Instance eq_dec : EqDecision t.
Proof. solve_decision. Defined.
Definition as_str (x : t) : string :=
  match x with
  | Pass => "PASS"
  | Fail => "FAIL"
  | ContinueObserving => "CONTINUE_OBSERVING"
  | InsufficientData => "INSUFFICIENT_DATA"
  end.
End StrategyCandidateObservationDecision.

Module ResearchCandidateObservationFreshnessStatus.
Inductive t :=
  | Fresh
  | Stale
  | Unknown.
#[global] Instance eq_dec : EqDecision t.
Proof. solve_decision. Defined.
Definition as_str (x : t) : string :=
  match x with
  | Fresh => "FRESH"
  | Stale => "STALE"
  | Unknown => "UNKNOWN"
  end.
End ResearchCandidateObservationFreshnessStatus.

Module ResearchCandidateShadowPerformanceStatus.
Inductive t :=
  | NotPromotedToShadowConfig
  | InsufficientData
  | Healthy
  | UnderObservation
  | NeedsReview.
#[global] Instance eq_dec : EqDecision t.
Proof. solve_decision. Defined.
Definition as_str (x : t) : string :=
  match x with
  | NotPromotedToShadowConfig => "NOT_PROMOTED_TO_SHADOW_CONFIG"
  | InsufficientData => "INSUFFICIENT_DATA"
  | Healthy => "HEALTHY"
  | UnderObservation => "UNDER_OBSERVATION"
  | NeedsReview => "NEEDS_REVIEW"
  end.
End ResearchCandidateShadowPerformanceStatus.

Module ResearchCandidateShadowPerformanceRecommendation.
Inductive t :=
  | PromoteToShadowConfig
  | InsufficientData
  | KeepObserving
  | NeedsReview
  | CandidateNotCoveredByRunner
  | RejectCandidate.
#[global] Instance eq_dec : EqDecision t.
Proof. solve_decision. Defined.
Definition as_str (x : t) : string :=
  match x with
  | PromoteToShadowConfig => "PROMOTE_TO_SHADOW_CONFIG"
  | InsufficientData => "INSUFFICIENT_DATA"
  | KeepObserving => "KEEP_OBSERVING"
  | NeedsReview => "NEEDS_REVIEW"
  | CandidateNotCoveredByRunner => "CANDIDATE_NOT_COVERED_BY_RUNNER"
  | RejectCandidate => "REJECT_CANDIDATE"
  end.
End ResearchCandidateShadowPerformanceRecommendation.

Module ResearchShadowPnlStatus.
Inductive t :=
  | Attributed
  | InsufficientForwardData
  | GapDetected
  | ExtremePnl.
#[global] Instance eq_dec : EqDecision t.
Proof. solve_decision. Defined.
Definition as_str (x : t) : string :=
  match x with
  | Attributed => "ATTRIBUTED"
  | InsufficientForwardData => "INSUFFICIENT_FORWARD_DATA"
  | GapDetected => "GAP_DETECTED"
  | ExtremePnl => "EXTREME_PNL"
  end.
End ResearchShadowPnlStatus.

Module ResearchShadowPnlRecommendation.
Inductive t :=
  | Promising
  | Weak
  | Negative
  | InsufficientData.
#[global] Instance eq_dec : EqDecision t.
Proof. solve_decision. Defined.
Definition as_str (x : t) : string :=
  match x with
  | Promising => "PROMISING"
  | Weak => "WEAK"
  | Negative => "NEGATIVE"
  | InsufficientData => "INSUFFICIENT_DATA"
  end.
End ResearchShadowPnlRecommendation.

Module ResearchCandidateQualificationStatus.
Inductive t :=
  | Qualified
  | NotQualified
  | NeedsMoreData
  | Degraded
  | Unknown.
#[global] Instance eq_dec : EqDecision t.
Proof. solve_decision. Defined.
Definition as_str (x : t) : string :=
  match x with
  | Qualified => "QUALIFIED"
  | NotQualified => "NOT_QUALIFIED"
  | NeedsMoreData => "NEEDS_MORE_DATA"
  | Degraded => "DEGRADED"
  | Unknown => "UNKNOWN"
  end.
End ResearchCandidateQualificationStatus.

Module ResearchCandidateQualificationTrend.
Inductive t :=
  | Improving
  | Stable
  | Degrading
  | NewlyQualified
  | LostQualification
  | NeedsAttention
  | InsufficientHistory.
#[global] Instance eq_dec : EqDecision t.
Proof. solve_decision. Defined.
Definition as_str (x : t) : string :=
  match x with
  | Improving => "IMPROVING"
  | Stable => "STABLE"
  | Degrading => "DEGRADING"
  | NewlyQualified => "NEWLY_QUALIFIED"
  | LostQualification => "LOST_QUALIFICATION"
  | NeedsAttention => "NEEDS_ATTENTION"
  | InsufficientHistory => "INSUFFICIENT_HISTORY"
  end.
End ResearchCandidateQualificationTrend.

Module ResearchCandidateWatchlistStatus.
Inductive t :=
  | Improving
  | Stable
  | Degrading
  | NewlyQualified
  | LostQualification
  | NeedsAttention
  | InsufficientHistory.
#[global] Instance eq_dec : EqDecision t.
Proof. solve_decision. Defined.
Definition as_str (x : t) : string :=
  match x with
  | Improving => "IMPROVING"
  | Stable => "STABLE"
  | Degrading => "DEGRADING"
  | NewlyQualified => "NEWLY_QUALIFIED"
  | LostQualification => "LOST_QUALIFICATION"
  | NeedsAttention => "NEEDS_ATTENTION"
  | InsufficientHistory => "INSUFFICIENT_HISTORY"
  end.
End ResearchCandidateWatchlistStatus.

Module ResearchCandidateQualificationSeverity.
Inductive t :=
  | Low
  | Medium
  | High
  | Critical.
#[global] Instance eq_dec : EqDecision t.
Proof. solve_decision. Defined.
Definition as_str (x : t) : string :=
  match x with
  | Low => "LOW"
  | Medium => "MEDIUM"
  | High => "HIGH"
  | Critical => "CRITICAL"
  end.
End ResearchCandidateQualificationSeverity.

Module ResearchCandidateQualificationRecommendation.
Inductive t :=
  | RefreshCandidateObservation
  | FixRunnerAlignment
  | ExpandShadowRunnerCoverage
  | GatherMoreShadowRuns
  | GenerateMoreWouldSubmitEvidence
  | ReviewRiskRejections
  | ReduceShadowErrorsOrSkips
  | RestoreTestnetShadowReadiness
  | ReAcceptCandidateForShadow
  | ReadyForTestnetPromotionConsideration.
#[global] Instance eq_dec : EqDecision t.
Proof. solve_decision. Defined.
Definition as_str (x : t) : string :=
  match x with
  | RefreshCandidateObservation => "REFRESH_CANDIDATE_OBSERVATION"
  | FixRunnerAlignment => "FIX_RUNNER_ALIGNMENT"
  | ExpandShadowRunnerCoverage => "EXPAND_SHADOW_RUNNER_COVERAGE"
  | GatherMoreShadowRuns => "GATHER_MORE_SHADOW_RUNS"
  | GenerateMoreWouldSubmitEvidence => "GENERATE_MORE_WOULD_SUBMIT_EVIDENCE"
  | ReviewRiskRejections => "REVIEW_RISK_REJECTIONS"
  | ReduceShadowErrorsOrSkips => "REDUCE_SHADOW_ERRORS_OR_SKIPS"
  | RestoreTestnetShadowReadiness => "RESTORE_TESTNET_SHADOW_READINESS"
  | ReAcceptCandidateForShadow => "RE_ACCEPT_CANDIDATE_FOR_SHADOW"
  | ReadyForTestnetPromotionConsideration => "READY_FOR_TESTNET_PROMOTION_CONSIDERATION"
  end.
End ResearchCandidateQualificationRecommendation.

Module ResearchCandidateTestnetReviewStatus.
Inductive t :=
  | ReadyForReview
  | NotReady
  | NeedsMoreShadowData
  | NeedsOperatorReview
  | Blocked.
#[global] Instance eq_dec : EqDecision t.
Proof. solve_decision. Defined.
Definition as_str (x : t) : string :=
  match x with
  | ReadyForReview => "READY_FOR_REVIEW"
  | NotReady => "NOT_READY"
  | NeedsMoreShadowData => "NEEDS_MORE_SHADOW_DATA"
  | NeedsOperatorReview => "NEEDS_OPERATOR_REVIEW"
  | Blocked => "BLOCKED"
  end.
End ResearchCandidateTestnetReviewStatus.

Module ResearchCandidateTestnetReviewSection.
Inductive t :=
  | Identity
  | Qualification
  | ShadowPerformance
  | Observation
  | RunnerAlignment
  | Readiness
  | Provenance
  | WalkForward
  | OperatorReview
  | Controls.
#[global] Instance eq_dec : EqDecision t.
Proof. solve_decision. Defined.
Definition as_str (x : t) : string :=
  match x with
  | Identity => "IDENTITY"
  | Qualification => "QUALIFICATION"
  | ShadowPerformance => "SHADOW_PERFORMANCE"
  | Observation => "OBSERVATION"
  | RunnerAlignment => "RUNNER_ALIGNMENT"
  | Readiness => "READINESS"
  | Provenance => "PROVENANCE"
  | WalkForward => "WALK_FORWARD"
  | OperatorReview => "OPERATOR_REVIEW"
  | Controls => "CONTROLS"
  end.
End ResearchCandidateTestnetReviewSection.

Module ResearchCandidateTestnetReviewRecommendation.
Inductive t :=
  | RefreshObservation
  | GatherMoreShadowData
  | ReevaluateQualification
  | FixRunnerAlignment
  | ClearReadinessBlockers
  | RecordReadyForTestnetReview
  | ReviewPrivateStreamFreshness
  | VerifyExperimentProvenance
  | ManualOperatorReview.
#[global] Instance eq_dec : EqDecision t.
Proof. solve_decision. Defined.
Definition as_str (x : t) : string :=
  match x with
  | RefreshObservation => "REFRESH_OBSERVATION"
  | GatherMoreShadowData => "GATHER_MORE_SHADOW_DATA"
  | ReevaluateQualification => "RE_EVALUATE_QUALIFICATION"
  | FixRunnerAlignment => "FIX_RUNNER_ALIGNMENT"
  | ClearReadinessBlockers => "CLEAR_READINESS_BLOCKERS"
  | RecordReadyForTestnetReview => "RECORD_READY_FOR_TESTNET_REVIEW"
  | ReviewPrivateStreamFreshness => "REVIEW_PRIVATE_STREAM_FRESHNESS"
  | VerifyExperimentProvenance => "VERIFY_EXPERIMENT_PROVENANCE"
  | ManualOperatorReview => "MANUAL_OPERATOR_REVIEW"
  end.
End ResearchCandidateTestnetReviewRecommendation.

(** [replace('-', "_")] of a one-byte pattern by a one-byte text. *)
Definition replace_hyphen (s : string) : string :=
  string_map (fun c => if Ascii.eqb c "-"%char then "_"%char else c) s.
Definition upper_underscored (s : string) : string := to_ascii_uppercase (replace_hyphen s).

#[export] Instance ScheduledResearchJobStatus_from_str : FromStr ScheduledResearchJobStatus.t := {|
  normalise := to_ascii_uppercase;
  table := [("DISABLED", ScheduledResearchJobStatus.Disabled);
    ("ENABLED", ScheduledResearchJobStatus.Enabled);
    ("PAUSED", ScheduledResearchJobStatus.Paused);
    ("RUNNING", ScheduledResearchJobStatus.Running);
    ("BACKING_OFF", ScheduledResearchJobStatus.BackingOff);
    ("ERROR", ScheduledResearchJobStatus.Error);
    ("AUTO_PAUSED", ScheduledResearchJobStatus.AutoPaused)];
  unsupported := CoreError.UnsupportedScheduledResearchJobStatus
|}.
#[export] Instance ScheduledResearchJobKind_from_str : FromStr ScheduledResearchJobKind.t := {|
  normalise := to_ascii_uppercase;
  table := [("PROVIDER_HEALTH", ScheduledResearchJobKind.ProviderHealth);
    ("MARKET_DATA_QUALITY", ScheduledResearchJobKind.MarketDataQuality);
    ("AGGREGATION_STATUS", ScheduledResearchJobKind.AggregationStatus);
    ("CROSS_ASSET_MARKET_DATA_REFRESH", ScheduledResearchJobKind.CrossAssetMarketDataRefresh);
    ("DERIVATIVES_CONTEXT_REFRESH", ScheduledResearchJobKind.DerivativesContextRefresh);
    ("CANDIDATE_SHADOW_OBSERVE_ONCE", ScheduledResearchJobKind.CandidateShadowObserveOnce);
    ("CROSS_ASSET_CANDIDATE_SHADOW_OBSERVE_ONCE", ScheduledResearchJobKind.CrossAssetCandidateShadowObserveOnce);
    ("RESEARCH_BATCH", ScheduledResearchJobKind.ResearchBatch);
    ("RESEARCH_CAMPAIGN", ScheduledResearchJobKind.ResearchCampaign);
    ("REGIME_DISCOVERY", ScheduledResearchJobKind.RegimeDiscovery);
    ("ROBUSTNESS_MATRIX", ScheduledResearchJobKind.RobustnessMatrix);
    ("OPERATOR_REPORT", ScheduledResearchJobKind.OperatorReport)];
  unsupported := CoreError.UnsupportedScheduledResearchJobKind
|}.
#[export] Instance ScheduledResearchJobRunStatus_from_str : FromStr ScheduledResearchJobRunStatus.t := {|
  normalise := to_ascii_uppercase;
  table := [("COMPLETED", ScheduledResearchJobRunStatus.Completed);
    ("FAILED", ScheduledResearchJobRunStatus.Failed);
    ("SKIPPED", ScheduledResearchJobRunStatus.Skipped);
    ("SKIPPED_OVERLAP", ScheduledResearchJobRunStatus.SkippedOverlap);
    ("SKIPPED_BACKOFF", ScheduledResearchJobRunStatus.SkippedBackoff);
    ("PARTIAL_SUCCESS", ScheduledResearchJobRunStatus.PartialSuccess)];
  unsupported := CoreError.UnsupportedScheduledResearchJobRunStatus
|}.
#[export] Instance ResearchBatchStatus_from_str : FromStr ResearchBatchStatus.t := {|
  normalise := to_ascii_uppercase;
  table := [("STARTED", ResearchBatchStatus.Started);
    ("PARTIAL", ResearchBatchStatus.Partial);
    ("COMPLETED", ResearchBatchStatus.Completed);
    ("FAILED", ResearchBatchStatus.Failed)];
  unsupported := CoreError.UnsupportedResearchBatchStatus
|}.
#[export] Instance ResearchBatchStepStatus_from_str : FromStr ResearchBatchStepStatus.t := {|
  normalise := to_ascii_uppercase;
  table := [("PENDING", ResearchBatchStepStatus.Pending);
    ("RUNNING", ResearchBatchStepStatus.Running);
    ("COMPLETED", ResearchBatchStepStatus.Completed);
    ("SKIPPED", ResearchBatchStepStatus.Skipped);
    ("FAILED", ResearchBatchStepStatus.Failed)];
  unsupported := CoreError.UnsupportedResearchBatchStepStatus
|}.
#[export] Instance ResearchBatchTriageStatus_from_str : FromStr ResearchBatchTriageStatus.t := {|
  normalise := to_ascii_uppercase;
  table := [("ACTIONABLE", ResearchBatchTriageStatus.Actionable);
    ("WEAK", ResearchBatchTriageStatus.Weak);
    ("OVERFIT_ONLY", ResearchBatchTriageStatus.OverfitOnly);
    ("NO_CANDIDATES", ResearchBatchTriageStatus.NoCandidates);
    ("DATA_QUALITY_BLOCKED", ResearchBatchTriageStatus.DataQualityBlocked);
    ("FAILED", ResearchBatchTriageStatus.Failed);
    ("UNKNOWN", ResearchBatchTriageStatus.Unknown)];
  unsupported := CoreError.UnsupportedResearchBatchStatus
|}.
#[export] Instance ResearchCandidateCreationMode_from_str : FromStr ResearchCandidateCreationMode.t := {|
  normalise := upper_underscored;
  table := [("CREATE_ALL", ResearchCandidateCreationMode.CreateAll);
    ("CREATE_ACTIONABLE_ONLY", ResearchCandidateCreationMode.CreateActionableOnly);
    ("ACTIONABLE_ONLY", ResearchCandidateCreationMode.CreateActionableOnly);
    ("CREATE_PROMISING_ONLY", ResearchCandidateCreationMode.CreatePromisingOnly);
    ("PROMISING_ONLY", ResearchCandidateCreationMode.CreatePromisingOnly);
    ("PROPOSAL_ONLY", ResearchCandidateCreationMode.ProposalOnly);
    ("DISABLED", ResearchCandidateCreationMode.Disabled)];
  unsupported := CoreError.UnsupportedResearchCandidateCreationMode
|}.
#[export] Instance ResearchCampaignStatus_from_str : FromStr ResearchCampaignStatus.t := {|
  normalise := to_ascii_uppercase;
  table := [("STARTED", ResearchCampaignStatus.Started);
    ("COMPLETED", ResearchCampaignStatus.Completed);
    ("PARTIAL_SUCCESS", ResearchCampaignStatus.PartialSuccess);
    ("FAILED", ResearchCampaignStatus.Failed);
    ("CANCELLED", ResearchCampaignStatus.Cancelled)];
  unsupported := CoreError.UnsupportedResearchCampaignStatus
|}.
#[export] Instance ResearchStaleRunRecoveryTargetType_from_str : FromStr ResearchStaleRunRecoveryTargetType.t := {|
  normalise := to_ascii_uppercase;
  table := [("RESEARCH_CAMPAIGN", ResearchStaleRunRecoveryTargetType.ResearchCampaign);
    ("RESEARCH_CAMPAIGNS", ResearchStaleRunRecoveryTargetType.ResearchCampaign);
    ("RESEARCH_CAMPAIGN_BATCH", ResearchStaleRunRecoveryTargetType.ResearchCampaignBatch);
    ("RESEARCH_CAMPAIGN_BATCHES", ResearchStaleRunRecoveryTargetType.ResearchCampaignBatch);
    ("RESEARCH_BATCH", ResearchStaleRunRecoveryTargetType.ResearchBatch);
    ("RESEARCH_BATCHES", ResearchStaleRunRecoveryTargetType.ResearchBatch);
    ("RESEARCH_BATCH_STEP", ResearchStaleRunRecoveryTargetType.ResearchBatchStep);
    ("RESEARCH_BATCH_STEPS", ResearchStaleRunRecoveryTargetType.ResearchBatchStep);
    ("STRATEGY_EXPERIMENT", ResearchStaleRunRecoveryTargetType.StrategyExperiment);
    ("STRATEGY_EXPERIMENTS", ResearchStaleRunRecoveryTargetType.StrategyExperiment);
    ("STRATEGY_WALK_FORWARD_RUN", ResearchStaleRunRecoveryTargetType.StrategyWalkForwardRun);
    ("STRATEGY_WALK_FORWARD_RUNS", ResearchStaleRunRecoveryTargetType.StrategyWalkForwardRun);
    ("STRATEGY_ROBUSTNESS_MATRIX_RUN", ResearchStaleRunRecoveryTargetType.StrategyRobustnessMatrixRun);
    ("STRATEGY_ROBUSTNESS_MATRIX_RUNS", ResearchStaleRunRecoveryTargetType.StrategyRobustnessMatrixRun);
    ("RESEARCH_EXPERIMENT_PLAN_RUN", ResearchStaleRunRecoveryTargetType.ResearchExperimentPlanRun);
    ("RESEARCH_EXPERIMENT_PLAN_RUNS", ResearchStaleRunRecoveryTargetType.ResearchExperimentPlanRun)];
  unsupported := CoreError.UnsupportedResearchStaleRunRecoveryTargetType
|}.
#[export] Instance ResearchRegimeLabel_from_str : FromStr ResearchRegimeLabel.t := {|
  normalise := to_ascii_uppercase;
  table := [("TREND_UP", ResearchRegimeLabel.TrendUp);
    ("TREND_DOWN", ResearchRegimeLabel.TrendDown);
    ("RANGE", ResearchRegimeLabel.Range);
    ("HIGH_VOLATILITY", ResearchRegimeLabel.HighVolatility);
    ("LOW_VOLATILITY", ResearchRegimeLabel.LowVolatility);
    ("MIXED", ResearchRegimeLabel.Mixed);
    ("UNKNOWN", ResearchRegimeLabel.Unknown)];
  unsupported := CoreError.UnsupportedResearchRegimeLabel
|}.
#[export] Instance ResearchRegimeDatasetStatus_from_str : FromStr ResearchRegimeDatasetStatus.t := {|
  normalise := to_ascii_uppercase;
  table := [("COMPLETED", ResearchRegimeDatasetStatus.Completed);
    ("PARTIAL", ResearchRegimeDatasetStatus.Partial);
    ("FAILED", ResearchRegimeDatasetStatus.Failed)];
  unsupported := CoreError.UnsupportedResearchRegimeDatasetStatus
|}.
#[export] Instance ResearchRegimeDiscoveryStatus_from_str : FromStr ResearchRegimeDiscoveryStatus.t := {|
  normalise := to_ascii_uppercase;
  table := [("COMPLETED", ResearchRegimeDiscoveryStatus.Completed);
    ("PARTIAL", ResearchRegimeDiscoveryStatus.Partial);
    ("INSUFFICIENT_DATA", ResearchRegimeDiscoveryStatus.InsufficientData);
    ("FAILED", ResearchRegimeDiscoveryStatus.Failed)];
  unsupported := CoreError.UnsupportedResearchRegimeDiscoveryStatus
|}.
#[export] Instance ResearchRegimeCalibrationStatus_from_str : FromStr ResearchRegimeCalibrationStatus.t := {|
  normalise := to_ascii_uppercase;
  table := [("COMPLETED", ResearchRegimeCalibrationStatus.Completed);
    ("PARTIAL", ResearchRegimeCalibrationStatus.Partial);
    ("INSUFFICIENT_DATA", ResearchRegimeCalibrationStatus.InsufficientData);
    ("FAILED", ResearchRegimeCalibrationStatus.Failed)];
  unsupported := CoreError.UnsupportedResearchRegimeCalibrationStatus
|}.
#[export] Instance StrategyRobustnessMatrixStatus_from_str : FromStr StrategyRobustnessMatrixStatus.t := {|
  normalise := to_ascii_uppercase;
  table := [("ROBUST", StrategyRobustnessMatrixStatus.Robust);
    ("PROMISING_BUT_WEAK", StrategyRobustnessMatrixStatus.PromisingButWeak);
    ("MIXED", StrategyRobustnessMatrixStatus.Mixed);
    ("OVERFIT_RISK", StrategyRobustnessMatrixStatus.OverfitRisk);
    ("NEGATIVE", StrategyRobustnessMatrixStatus.Negative);
    ("INSUFFICIENT_DATA", StrategyRobustnessMatrixStatus.InsufficientData);
    ("FAILED", StrategyRobustnessMatrixStatus.Failed)];
  unsupported := CoreError.UnsupportedStrategyRobustnessMatrixStatus
|}.
#[export] Instance ResearchExperimentPlanStatus_from_str : FromStr ResearchExperimentPlanStatus.t := {|
  normalise := to_ascii_uppercase;
  table := [("DRAFT", ResearchExperimentPlanStatus.Draft);
    ("READY", ResearchExperimentPlanStatus.Ready);
    ("INVALID", ResearchExperimentPlanStatus.Invalid);
    ("RUNNABLE", ResearchExperimentPlanStatus.Runnable);
    ("ARCHIVED", ResearchExperimentPlanStatus.Archived)];
  unsupported := CoreError.UnsupportedResearchExperimentPlanStatus
|}.
#[export] Instance ResearchExperimentPlanSource_from_str : FromStr ResearchExperimentPlanSource.t := {|
  normalise := to_ascii_uppercase;
  table := [("ACCEPTED_HYPOTHESIS", ResearchExperimentPlanSource.AcceptedHypothesis);
    ("OPERATOR_DRAFT", ResearchExperimentPlanSource.OperatorDraft)];
  unsupported := CoreError.UnsupportedResearchExperimentPlanSource
|}.
#[export] Instance ResearchExperimentPlanType_from_str : FromStr ResearchExperimentPlanType.t := {|
  normalise := to_ascii_uppercase;
  table := [("STRATEGY_EXPERIMENT", ResearchExperimentPlanType.StrategyExperiment);
    ("RESEARCH_BATCH", ResearchExperimentPlanType.ResearchBatch);
    ("RESEARCH_CAMPAIGN", ResearchExperimentPlanType.ResearchCampaign);
    ("ROBUSTNESS_MATRIX", ResearchExperimentPlanType.RobustnessMatrix);
    ("WALK_FORWARD", ResearchExperimentPlanType.WalkForward)];
  unsupported := CoreError.UnsupportedResearchExperimentPlanType
|}.
#[export] Instance ResearchExperimentPlanRunMode_from_str : FromStr ResearchExperimentPlanRunMode.t := {|
  normalise := to_ascii_uppercase;
  table := [("PREVIEW", ResearchExperimentPlanRunMode.Preview);
    ("RUN", ResearchExperimentPlanRunMode.Run)];
  unsupported := CoreError.UnsupportedResearchExperimentPlanRunMode
|}.
#[export] Instance ResearchExperimentPlanRunStatus_from_str : FromStr ResearchExperimentPlanRunStatus.t := {|
  normalise := to_ascii_uppercase;
  table := [("READY", ResearchExperimentPlanRunStatus.Ready);
    ("RUNNING", ResearchExperimentPlanRunStatus.Running);
    ("COMPLETED", ResearchExperimentPlanRunStatus.Completed);
    ("FAILED", ResearchExperimentPlanRunStatus.Failed);
    ("BLOCKED", ResearchExperimentPlanRunStatus.Blocked);
    ("INVALID_PLAN", ResearchExperimentPlanRunStatus.InvalidPlan)];
  unsupported := CoreError.UnsupportedResearchExperimentPlanRunStatus
|}.
#[export] Instance CrossAssetResearchStatus_from_str : FromStr CrossAssetResearchStatus.t := {|
  normalise := to_ascii_uppercase;
  table := [("COMPLETED", CrossAssetResearchStatus.Completed);
    ("FAILED", CrossAssetResearchStatus.Failed);
    ("INSUFFICIENT_DATA", CrossAssetResearchStatus.InsufficientData)];
  unsupported := CoreError.UnsupportedCrossAssetResearchStatus
|}.
#[export] Instance CrossAssetStrategyKind_from_str : FromStr CrossAssetStrategyKind.t := {|
  normalise := to_ascii_uppercase;
  table := [("RELATIVE_STRENGTH_CONTINUATION_V1_RESEARCH", CrossAssetStrategyKind.RelativeStrengthContinuationV1Research)];
  unsupported := CoreError.UnsupportedCrossAssetStrategyKind
|}.
#[export] Instance CrossAssetRankMetric_from_str : FromStr CrossAssetRankMetric.t := {|
  normalise := to_ascii_lowercase;
  table := [("raw_return", CrossAssetRankMetric.RawReturn);
    ("vol_adjusted_return", CrossAssetRankMetric.VolAdjustedReturn);
    ("vol_adjusted", CrossAssetRankMetric.VolAdjustedReturn);
    ("norm24", CrossAssetRankMetric.VolAdjustedReturn)];
  unsupported := CoreError.UnsupportedCrossAssetRankMetric
|}.
#[export] Instance CrossAssetSizingMode_from_str : FromStr CrossAssetSizingMode.t := {|
  normalise := to_ascii_lowercase;
  table := [("equal_notional", CrossAssetSizingMode.EqualNotional);
    ("equal", CrossAssetSizingMode.EqualNotional);
    ("volatility_normalized", CrossAssetSizingMode.VolatilityNormalized);
    ("vol_norm", CrossAssetSizingMode.VolatilityNormalized)];
  unsupported := CoreError.UnsupportedCrossAssetSizingMode
|}.
#[export] Instance CrossAssetPortfolioStatus_from_str : FromStr CrossAssetPortfolioStatus.t := {|
  normalise := to_ascii_uppercase;
  table := [("PROMISING", CrossAssetPortfolioStatus.Promising);
    ("WEAK", CrossAssetPortfolioStatus.Weak);
    ("OVERFIT_RISK", CrossAssetPortfolioStatus.OverfitRisk);
    ("NEGATIVE", CrossAssetPortfolioStatus.Negative);
    ("TOO_SPARSE", CrossAssetPortfolioStatus.TooSparse)];
  unsupported := CoreError.UnsupportedCrossAssetResearchStatus
|}.
#[export] Instance CrossAssetResearchRecommendation_from_str : FromStr CrossAssetResearchRecommendation.t := {|
  normalise := to_ascii_uppercase;
  table := [("KEEP_RESEARCHING", CrossAssetResearchRecommendation.KeepResearching);
    ("REJECT", CrossAssetResearchRecommendation.Reject);
    ("CONSIDER_IMPLEMENTATION_RESEARCH_ONLY", CrossAssetResearchRecommendation.ConsiderImplementationResearchOnly)];
  unsupported := CoreError.UnsupportedCrossAssetResearchRecommendation
|}.
#[export] Instance CrossAssetRobustnessStatus_from_str : FromStr CrossAssetRobustnessStatus.t := {|
  normalise := to_ascii_uppercase;
  table := [("ROBUST", CrossAssetRobustnessStatus.Robust);
    ("PROMISING", CrossAssetRobustnessStatus.Promising);
    ("WEAK", CrossAssetRobustnessStatus.Weak);
    ("OVERFIT_RISK", CrossAssetRobustnessStatus.OverfitRisk);
    ("NEGATIVE", CrossAssetRobustnessStatus.Negative);
    ("TOO_SPARSE", CrossAssetRobustnessStatus.TooSparse)];
  unsupported := CoreError.UnsupportedCrossAssetRobustnessStatus
|}.
#[export] Instance CrossAssetRobustnessRecommendation_from_str : FromStr CrossAssetRobustnessRecommendation.t := {|
  normalise := to_ascii_uppercase;
  table := [("IMPLEMENT_RESEARCH_ONLY", CrossAssetRobustnessRecommendation.ImplementResearchOnly);
    ("KEEP_RESEARCH_ONLY", CrossAssetRobustnessRecommendation.KeepResearchOnly);
    ("REJECT_FAMILY", CrossAssetRobustnessRecommendation.RejectFamily)];
  unsupported := CoreError.UnsupportedCrossAssetRobustnessRecommendation
|}.
#[export] Instance ResearchCandidateStatus_from_str : FromStr ResearchCandidateStatus.t := {|
  normalise := to_ascii_uppercase;
  table := [("DISCOVERED", ResearchCandidateStatus.Discovered);
    ("OBSERVING", ResearchCandidateStatus.Observing);
    ("ACCEPTED_FOR_SHADOW", ResearchCandidateStatus.AcceptedForShadow);
    ("PROMOTED_TO_SHADOW_CONFIG", ResearchCandidateStatus.PromotedToShadowConfig);
    ("REJECTED", ResearchCandidateStatus.Rejected);
    ("ARCHIVED", ResearchCandidateStatus.Archived)];
  unsupported := CoreError.UnsupportedResearchCandidateStatus
|}.
#[export] Instance ResearchCandidateDecision_from_str : FromStr ResearchCandidateDecision.t := {|
  normalise := to_ascii_uppercase;
  table := [("ACCEPT_FOR_SHADOW", ResearchCandidateDecision.AcceptForShadow);
    ("PROMOTE_TO_SHADOW_CONFIG", ResearchCandidateDecision.PromoteToShadowConfig);
    ("REJECT", ResearchCandidateDecision.Reject);
    ("ARCHIVE", ResearchCandidateDecision.Archive);
    ("REOPEN", ResearchCandidateDecision.Reopen)];
  unsupported := CoreError.UnsupportedResearchCandidateDecision
|}.
#[export] Instance ResearchCandidateReviewAction_from_str : FromStr ResearchCandidateReviewAction.t := {|
  normalise := to_ascii_uppercase;
  table := [("MARK_REVIEWED", ResearchCandidateReviewAction.MarkReviewed);
    ("MARK_NEEDS_MORE_OBSERVATION", ResearchCandidateReviewAction.MarkNeedsMoreObservation);
    ("MARK_READY_FOR_TESTNET_REVIEW", ResearchCandidateReviewAction.MarkReadyForTestnetReview);
    ("MARK_INVESTIGATED", ResearchCandidateReviewAction.MarkInvestigated);
    ("REJECT_FROM_WATCHLIST", ResearchCandidateReviewAction.RejectFromWatchlist);
    ("ARCHIVE_FROM_WATCHLIST", ResearchCandidateReviewAction.ArchiveFromWatchlist)];
  unsupported := CoreError.UnsupportedResearchCandidateReviewAction
|}.
#[export] Instance ResearchCandidateReviewStatus_from_str : FromStr ResearchCandidateReviewStatus.t := {|
  normalise := to_ascii_uppercase;
  table := [("RECORDED", ResearchCandidateReviewStatus.Recorded);
    ("CANDIDATE_STATUS_UPDATED", ResearchCandidateReviewStatus.CandidateStatusUpdated)];
  unsupported := CoreError.UnsupportedResearchCandidateReviewStatus
|}.
#[export] Instance ResearchCandidateShadowPromotionMode_from_str : FromStr ResearchCandidateShadowPromotionMode.t := {|
  normalise := to_ascii_uppercase;
  table := [("PREVIEW_ONLY", ResearchCandidateShadowPromotionMode.PreviewOnly);
    ("APPLY", ResearchCandidateShadowPromotionMode.Apply)];
  unsupported := CoreError.UnsupportedResearchCandidateDecision
|}.
#[export] Instance StrategyResearchCandidateSource_from_str : FromStr StrategyResearchCandidateSource.t := {|
  normalise := to_ascii_uppercase;
  table := [("EXPERIMENT_RUN", StrategyResearchCandidateSource.ExperimentRun);
    ("MULTI_TIMEFRAME_EXPERIMENT", StrategyResearchCandidateSource.MultiTimeframeExperiment);
    ("WALK_FORWARD", StrategyResearchCandidateSource.WalkForward);
    ("MANUAL", StrategyResearchCandidateSource.Manual)];
  unsupported := CoreError.UnsupportedStrategyResearchCandidateSource
|}.
#[export] Instance StrategyResearchCandidateStatus_from_str : FromStr StrategyResearchCandidateStatus.t := {|
  normalise := to_ascii_uppercase;
  table := [("DRAFT", StrategyResearchCandidateStatus.Draft);
    ("REGISTERED", StrategyResearchCandidateStatus.Registered);
    ("REJECTED", StrategyResearchCandidateStatus.Rejected);
    ("PROMOTED_TO_SHADOW_CONFIG", StrategyResearchCandidateStatus.PromotedToShadowConfig);
    ("ARCHIVED", StrategyResearchCandidateStatus.Archived)];
  unsupported := CoreError.UnsupportedStrategyResearchCandidateStatus
|}.
#[export] Instance StrategyResearchCandidateRejectionReason_from_str : FromStr StrategyResearchCandidateRejectionReason.t := {|
  normalise := to_ascii_lowercase;
  table := [("invalid_config", StrategyResearchCandidateRejectionReason.InvalidConfig);
    ("invalid_source", StrategyResearchCandidateRejectionReason.InvalidSource);
    ("missing_evidence", StrategyResearchCandidateRejectionReason.MissingEvidence);
    ("candidate_not_registered", StrategyResearchCandidateRejectionReason.CandidateNotRegistered);
    ("already_promoted", StrategyResearchCandidateRejectionReason.AlreadyPromoted);
    ("wrong_confirmation_text", StrategyResearchCandidateRejectionReason.WrongConfirmationText)];
  unsupported := CoreError.UnsupportedStrategyResearchCandidateRejectionReason
|}.
#[export] Instance StrategyCandidateObservationStatus_from_str : FromStr StrategyCandidateObservationStatus.t := {|
  normalise := to_ascii_uppercase;
  table := [("OBSERVING", StrategyCandidateObservationStatus.Observing);
    ("READY_FOR_REVIEW", StrategyCandidateObservationStatus.ReadyForReview);
    ("FAILED", StrategyCandidateObservationStatus.Failed);
    ("INSUFFICIENT_DATA", StrategyCandidateObservationStatus.InsufficientData);
    ("ARCHIVED", StrategyCandidateObservationStatus.Archived)];
  unsupported := CoreError.UnsupportedStrategyCandidateObservationStatus
|}.
#[export] Instance StrategyCandidateObservationDecision_from_str : FromStr StrategyCandidateObservationDecision.t := {|
  normalise := to_ascii_uppercase;
  table := [("PASS", StrategyCandidateObservationDecision.Pass);
    ("FAIL", StrategyCandidateObservationDecision.Fail);
    ("CONTINUE_OBSERVING", StrategyCandidateObservationDecision.ContinueObserving);
    ("INSUFFICIENT_DATA", StrategyCandidateObservationDecision.InsufficientData)];
  unsupported := CoreError.UnsupportedStrategyCandidateObservationDecision
|}.
#[export] Instance ResearchCandidateShadowPerformanceStatus_from_str : FromStr ResearchCandidateShadowPerformanceStatus.t := {|
  normalise := to_ascii_uppercase;
  table := [("NOT_PROMOTED_TO_SHADOW_CONFIG", ResearchCandidateShadowPerformanceStatus.NotPromotedToShadowConfig);
    ("INSUFFICIENT_DATA", ResearchCandidateShadowPerformanceStatus.InsufficientData);
    ("HEALTHY", ResearchCandidateShadowPerformanceStatus.Healthy);
    ("UNDER_OBSERVATION", ResearchCandidateShadowPerformanceStatus.UnderObservation);
    ("NEEDS_REVIEW", ResearchCandidateShadowPerformanceStatus.NeedsReview)];
  unsupported := CoreError.UnsupportedResearchCandidateShadowPerformanceStatus
|}.
#[export] Instance ResearchCandidateShadowPerformanceRecommendation_from_str : FromStr ResearchCandidateShadowPerformanceRecommendation.t := {|
  normalise := to_ascii_uppercase;
  table := [("PROMOTE_TO_SHADOW_CONFIG", ResearchCandidateShadowPerformanceRecommendation.PromoteToShadowConfig);
    ("INSUFFICIENT_DATA", ResearchCandidateShadowPerformanceRecommendation.InsufficientData);
    ("KEEP_OBSERVING", ResearchCandidateShadowPerformanceRecommendation.KeepObserving);
    ("NEEDS_REVIEW", ResearchCandidateShadowPerformanceRecommendation.NeedsReview);
    ("CANDIDATE_NOT_COVERED_BY_RUNNER", ResearchCandidateShadowPerformanceRecommendation.CandidateNotCoveredByRunner);
    ("REJECT_CANDIDATE", ResearchCandidateShadowPerformanceRecommendation.RejectCandidate)];
  unsupported := CoreError.UnsupportedResearchCandidateShadowPerformanceRecommendation
|}.
#[export] Instance ResearchCandidateQualificationStatus_from_str : FromStr ResearchCandidateQualificationStatus.t := {|
  normalise := to_ascii_uppercase;
  table := [("QUALIFIED", ResearchCandidateQualificationStatus.Qualified);
    ("NOT_QUALIFIED", ResearchCandidateQualificationStatus.NotQualified);
    ("NEEDS_MORE_DATA", ResearchCandidateQualificationStatus.NeedsMoreData);
    ("DEGRADED", ResearchCandidateQualificationStatus.Degraded);
    ("UNKNOWN", ResearchCandidateQualificationStatus.Unknown)];
  unsupported := CoreError.UnsupportedResearchCandidateStatus
|}.
#[export] Instance ResearchCandidateQualificationTrend_from_str : FromStr ResearchCandidateQualificationTrend.t := {|
  normalise := to_ascii_uppercase;
  table := [("IMPROVING", ResearchCandidateQualificationTrend.Improving);
    ("STABLE", ResearchCandidateQualificationTrend.Stable);
    ("DEGRADING", ResearchCandidateQualificationTrend.Degrading);
    ("NEWLY_QUALIFIED", ResearchCandidateQualificationTrend.NewlyQualified);
    ("LOST_QUALIFICATION", ResearchCandidateQualificationTrend.LostQualification);
    ("NEEDS_ATTENTION", ResearchCandidateQualificationTrend.NeedsAttention);
    ("INSUFFICIENT_HISTORY", ResearchCandidateQualificationTrend.InsufficientHistory)];
  unsupported := CoreError.UnsupportedResearchCandidateStatus
|}.
#[export] Instance ResearchCandidateWatchlistStatus_from_str : FromStr ResearchCandidateWatchlistStatus.t := {|
  normalise := to_ascii_uppercase;
  table := [("IMPROVING", ResearchCandidateWatchlistStatus.Improving);
    ("STABLE", ResearchCandidateWatchlistStatus.Stable);
    ("DEGRADING", ResearchCandidateWatchlistStatus.Degrading);
    ("NEWLY_QUALIFIED", ResearchCandidateWatchlistStatus.NewlyQualified);
    ("LOST_QUALIFICATION", ResearchCandidateWatchlistStatus.LostQualification);
    ("NEEDS_ATTENTION", ResearchCandidateWatchlistStatus.NeedsAttention);
    ("INSUFFICIENT_HISTORY", ResearchCandidateWatchlistStatus.InsufficientHistory)];
  unsupported := CoreError.UnsupportedResearchCandidateStatus
|}.
#[export] Instance ResearchCandidateQualificationRecommendation_from_str : FromStr ResearchCandidateQualificationRecommendation.t := {|
  normalise := to_ascii_uppercase;
  table := [("REFRESH_CANDIDATE_OBSERVATION", ResearchCandidateQualificationRecommendation.RefreshCandidateObservation);
    ("FIX_RUNNER_ALIGNMENT", ResearchCandidateQualificationRecommendation.FixRunnerAlignment);
    ("EXPAND_SHADOW_RUNNER_COVERAGE", ResearchCandidateQualificationRecommendation.ExpandShadowRunnerCoverage);
    ("GATHER_MORE_SHADOW_RUNS", ResearchCandidateQualificationRecommendation.GatherMoreShadowRuns);
    ("GENERATE_MORE_WOULD_SUBMIT_EVIDENCE", ResearchCandidateQualificationRecommendation.GenerateMoreWouldSubmitEvidence);
    ("REVIEW_RISK_REJECTIONS", ResearchCandidateQualificationRecommendation.ReviewRiskRejections);
    ("REDUCE_SHADOW_ERRORS_OR_SKIPS", ResearchCandidateQualificationRecommendation.ReduceShadowErrorsOrSkips);
    ("RESTORE_TESTNET_SHADOW_READINESS", ResearchCandidateQualificationRecommendation.RestoreTestnetShadowReadiness);
    ("RE_ACCEPT_CANDIDATE_FOR_SHADOW", ResearchCandidateQualificationRecommendation.ReAcceptCandidateForShadow);
    ("READY_FOR_TESTNET_PROMOTION_CONSIDERATION", ResearchCandidateQualificationRecommendation.ReadyForTestnetPromotionConsideration)];
  unsupported := CoreError.UnsupportedResearchCandidateStatus
|}.

(** Every name that is printed is accepted. *)
#[export] Instance ScheduledResearchJobStatus_from_str_laws :
  FromStrLaws ScheduledResearchJobStatus.t ScheduledResearchJobStatus.as_str.
Proof. solve_from_str. Qed.
#[export] Instance ScheduledResearchJobKind_from_str_laws :
  FromStrLaws ScheduledResearchJobKind.t ScheduledResearchJobKind.as_str.
Proof. solve_from_str. Qed.
#[export] Instance ScheduledResearchJobRunStatus_from_str_laws :
  FromStrLaws ScheduledResearchJobRunStatus.t ScheduledResearchJobRunStatus.as_str.
Proof. solve_from_str. Qed.
#[export] Instance ResearchBatchStatus_from_str_laws :
  FromStrLaws ResearchBatchStatus.t ResearchBatchStatus.as_str.
Proof. solve_from_str. Qed.
#[export] Instance ResearchBatchStepStatus_from_str_laws :
  FromStrLaws ResearchBatchStepStatus.t ResearchBatchStepStatus.as_str.
Proof. solve_from_str. Qed.
#[export] Instance ResearchBatchTriageStatus_from_str_laws :
  FromStrLaws ResearchBatchTriageStatus.t ResearchBatchTriageStatus.as_str.
Proof. solve_from_str. Qed.
#[export] Instance ResearchCandidateCreationMode_from_str_laws :
  FromStrLaws ResearchCandidateCreationMode.t ResearchCandidateCreationMode.as_str.
Proof. solve_from_str. Qed.
#[export] Instance ResearchCampaignStatus_from_str_laws :
  FromStrLaws ResearchCampaignStatus.t ResearchCampaignStatus.as_str.
Proof. solve_from_str. Qed.
#[export] Instance ResearchStaleRunRecoveryTargetType_from_str_laws :
  FromStrLaws ResearchStaleRunRecoveryTargetType.t ResearchStaleRunRecoveryTargetType.as_str.
Proof. solve_from_str. Qed.
#[export] Instance ResearchRegimeLabel_from_str_laws :
  FromStrLaws ResearchRegimeLabel.t ResearchRegimeLabel.as_str.
Proof. solve_from_str. Qed.
#[export] Instance ResearchRegimeDatasetStatus_from_str_laws :
  FromStrLaws ResearchRegimeDatasetStatus.t ResearchRegimeDatasetStatus.as_str.
Proof. solve_from_str. Qed.
#[export] Instance ResearchRegimeDiscoveryStatus_from_str_laws :
  FromStrLaws ResearchRegimeDiscoveryStatus.t ResearchRegimeDiscoveryStatus.as_str.
Proof. solve_from_str. Qed.
#[export] Instance ResearchRegimeCalibrationStatus_from_str_laws :
  FromStrLaws ResearchRegimeCalibrationStatus.t ResearchRegimeCalibrationStatus.as_str.
Proof. solve_from_str. Qed.
#[export] Instance StrategyRobustnessMatrixStatus_from_str_laws :
  FromStrLaws StrategyRobustnessMatrixStatus.t StrategyRobustnessMatrixStatus.as_str.
Proof. solve_from_str. Qed.
#[export] Instance ResearchExperimentPlanStatus_from_str_laws :
  FromStrLaws ResearchExperimentPlanStatus.t ResearchExperimentPlanStatus.as_str.
Proof. solve_from_str. Qed.
#[export] Instance ResearchExperimentPlanSource_from_str_laws :
  FromStrLaws ResearchExperimentPlanSource.t ResearchExperimentPlanSource.as_str.
Proof. solve_from_str. Qed.
#[export] Instance ResearchExperimentPlanType_from_str_laws :
  FromStrLaws ResearchExperimentPlanType.t ResearchExperimentPlanType.as_str.
Proof. solve_from_str. Qed.
#[export] Instance ResearchExperimentPlanRunMode_from_str_laws :
  FromStrLaws ResearchExperimentPlanRunMode.t ResearchExperimentPlanRunMode.as_str.
Proof. solve_from_str. Qed.
#[export] Instance ResearchExperimentPlanRunStatus_from_str_laws :
  FromStrLaws ResearchExperimentPlanRunStatus.t ResearchExperimentPlanRunStatus.as_str.
Proof. solve_from_str. Qed.
#[export] Instance CrossAssetResearchStatus_from_str_laws :
  FromStrLaws CrossAssetResearchStatus.t CrossAssetResearchStatus.as_str.
Proof. solve_from_str. Qed.
#[export] Instance CrossAssetStrategyKind_from_str_laws :
  FromStrLaws CrossAssetStrategyKind.t CrossAssetStrategyKind.as_str.
Proof. solve_from_str. Qed.
#[export] Instance CrossAssetRankMetric_from_str_laws :
  FromStrLaws CrossAssetRankMetric.t CrossAssetRankMetric.as_str.
Proof. solve_from_str. Qed.
#[export] Instance CrossAssetSizingMode_from_str_laws :
  FromStrLaws CrossAssetSizingMode.t CrossAssetSizingMode.as_str.
Proof. solve_from_str. Qed.
#[export] Instance CrossAssetPortfolioStatus_from_str_laws :
  FromStrLaws CrossAssetPortfolioStatus.t CrossAssetPortfolioStatus.as_str.
Proof. solve_from_str. Qed.
#[export] Instance CrossAssetResearchRecommendation_from_str_laws :
  FromStrLaws CrossAssetResearchRecommendation.t CrossAssetResearchRecommendation.as_str.
Proof. solve_from_str. Qed.
#[export] Instance CrossAssetRobustnessStatus_from_str_laws :
  FromStrLaws CrossAssetRobustnessStatus.t CrossAssetRobustnessStatus.as_str.
Proof. solve_from_str. Qed.
#[export] Instance CrossAssetRobustnessRecommendation_from_str_laws :
  FromStrLaws CrossAssetRobustnessRecommendation.t CrossAssetRobustnessRecommendation.as_str.
Proof. solve_from_str. Qed.
#[export] Instance ResearchCandidateStatus_from_str_laws :
  FromStrLaws ResearchCandidateStatus.t ResearchCandidateStatus.as_str.
Proof. solve_from_str. Qed.
#[export] Instance ResearchCandidateDecision_from_str_laws :
  FromStrLaws ResearchCandidateDecision.t ResearchCandidateDecision.as_str.
Proof. solve_from_str. Qed.
#[export] Instance ResearchCandidateReviewAction_from_str_laws :
  FromStrLaws ResearchCandidateReviewAction.t ResearchCandidateReviewAction.as_str.
Proof. solve_from_str. Qed.
#[export] Instance ResearchCandidateReviewStatus_from_str_laws :
  FromStrLaws ResearchCandidateReviewStatus.t ResearchCandidateReviewStatus.as_str.
Proof. solve_from_str. Qed.
#[export] Instance ResearchCandidateShadowPromotionMode_from_str_laws :
  FromStrLaws ResearchCandidateShadowPromotionMode.t ResearchCandidateShadowPromotionMode.as_str.
Proof. solve_from_str. Qed.
#[export] Instance StrategyResearchCandidateSource_from_str_laws :
  FromStrLaws StrategyResearchCandidateSource.t StrategyResearchCandidateSource.as_str.
Proof. solve_from_str. Qed.
#[export] Instance StrategyResearchCandidateStatus_from_str_laws :
  FromStrLaws StrategyResearchCandidateStatus.t StrategyResearchCandidateStatus.as_str.
Proof. solve_from_str. Qed.
#[export] Instance StrategyResearchCandidateRejectionReason_from_str_laws :
  FromStrLaws StrategyResearchCandidateRejectionReason.t StrategyResearchCandidateRejectionReason.as_str.
Proof. solve_from_str. Qed.
#[export] Instance StrategyCandidateObservationStatus_from_str_laws :
  FromStrLaws StrategyCandidateObservationStatus.t StrategyCandidateObservationStatus.as_str.
Proof. solve_from_str. Qed.
#[export] Instance StrategyCandidateObservationDecision_from_str_laws :
  FromStrLaws StrategyCandidateObservationDecision.t StrategyCandidateObservationDecision.as_str.
Proof. solve_from_str. Qed.
#[export] Instance ResearchCandidateShadowPerformanceStatus_from_str_laws :
  FromStrLaws ResearchCandidateShadowPerformanceStatus.t ResearchCandidateShadowPerformanceStatus.as_str.
Proof. solve_from_str. Qed.
#[export] Instance ResearchCandidateShadowPerformanceRecommendation_from_str_laws :
  FromStrLaws ResearchCandidateShadowPerformanceRecommendation.t ResearchCandidateShadowPerformanceRecommendation.as_str.
Proof. solve_from_str. Qed.
#[export] Instance ResearchCandidateQualificationStatus_from_str_laws :
  FromStrLaws ResearchCandidateQualificationStatus.t ResearchCandidateQualificationStatus.as_str.
Proof. solve_from_str. Qed.
#[export] Instance ResearchCandidateQualificationTrend_from_str_laws :
  FromStrLaws ResearchCandidateQualificationTrend.t ResearchCandidateQualificationTrend.as_str.
Proof. solve_from_str. Qed.
#[export] Instance ResearchCandidateWatchlistStatus_from_str_laws :
  FromStrLaws ResearchCandidateWatchlistStatus.t ResearchCandidateWatchlistStatus.as_str.
Proof. solve_from_str. Qed.
#[export] Instance ResearchCandidateQualificationRecommendation_from_str_laws :
  FromStrLaws ResearchCandidateQualificationRecommendation.t ResearchCandidateQualificationRecommendation.as_str.
Proof. solve_from_str. Qed.
