(* ===== verification/JobSchedule.v ===== *)
(** * Scheduled research jobs

    The table of jobs and its runs: the controls of the API (crates/api/src/main.rs,
    22529-23035), the statements (crates/db/src/research.rs, 489-850) and the scheduler
    (crates/api/src/scheduled_research.rs, 314-676), which claims the jobs that are due,
    runs each, and pauses a job that keeps failing.

    What the work of a job answers is an argument ([jv_execute]), and so is what other
    sessions do to the tables meanwhile ([jv_others]).  Identifiers are fresh.  The
    statement that marks the end of a run, whose result the code ignores, may fail
    ([jv_mark_fails]); the others fail only on a constraint of their table. *)

From Stdlib Require Import ZArith Lia List String Permutation Sorted.
From stdpp Require Import base list strings relations.
From S2P Require Import Prelude Text Host Types ResearchTypes.

#[local] Open Scope Z_scope.

Definition saturate_i64 (z : Z) : Z := Z.max (- 2 ^ 63) (Z.min i64_max z).

(** [2_i64.saturating_pow(n)]. *)
Definition saturating_pow2 (n : Z) : Z := if n <? 63 then 2 ^ n else i64_max.

Record ScheduledResearchFailurePolicy := {
  fp_max_consecutive_failures : Z;
  fp_backoff_base_seconds : Z;
  fp_backoff_max_seconds : Z
}.

Definition default_failure_policy : ScheduledResearchFailurePolicy := {|
  fp_max_consecutive_failures := 5; fp_backoff_base_seconds := 300; fp_backoff_max_seconds := 3600 |}.

(** Each argument is its environment variable, read as an integer. *)
Definition failure_policy_from_env (max_failures base_seconds max_seconds : option Z)
    : ScheduledResearchFailurePolicy := {|
  fp_max_consecutive_failures :=
    Z.max (default (fp_max_consecutive_failures default_failure_policy) max_failures) 1;
  fp_backoff_base_seconds :=
    Z.max (default (fp_backoff_base_seconds default_failure_policy) base_seconds) 1;
  fp_backoff_max_seconds :=
    Z.max (default (fp_backoff_max_seconds default_failure_policy) max_seconds) 1 |}.

Record ExecutionTableCounts := {
  tn_orders : Z;
  tn_paper_positions : Z;
  tn_paper_fills : Z;
  tn_exchange_testnet_orders : Z;
  tn_exchange_testnet_order_lifecycle_events : Z;
  tn_testnet_shadow_promotions : Z
}.

#[export] Instance ExecutionTableCounts_eq_dec : EqDecision ExecutionTableCounts.
Proof. solve_decision. Defined.

(** Every kind is in the list. *)
Definition is_safe_research_kind (kind : ScheduledResearchJobKind.t) : bool :=
  match kind with
  | ScheduledResearchJobKind.ProviderHealth | ScheduledResearchJobKind.MarketDataQuality
  | ScheduledResearchJobKind.AggregationStatus | ScheduledResearchJobKind.CrossAssetMarketDataRefresh
  | ScheduledResearchJobKind.DerivativesContextRefresh
  | ScheduledResearchJobKind.CandidateShadowObserveOnce
  | ScheduledResearchJobKind.CrossAssetCandidateShadowObserveOnce
  | ScheduledResearchJobKind.ResearchBatch | ScheduledResearchJobKind.ResearchCampaign
  | ScheduledResearchJobKind.RegimeDiscovery | ScheduledResearchJobKind.RobustnessMatrix
  | ScheduledResearchJobKind.OperatorReport => true
  end.

Section Jobs.
Context {JS : Json} {JB : JsonBuild} {CA : ChronoArith} {CS : ChronoSeconds}.

(** ** The rows *)

Record ScheduledResearchJob := {
  sj_id : Z;
  sj_name : string;
  sj_kind : ScheduledResearchJobKind.t;
  sj_enabled : bool;
  sj_interval_seconds : Z;
  sj_request : json;
  sj_max_runs_per_tick : Z;
  sj_last_run_at : option Z;
  sj_last_failure_at : option Z;
  sj_last_failure_reason : option string;
  sj_last_success_at : option Z;
  sj_next_run_at : option Z;
  sj_backoff_until : option Z;
  sj_consecutive_failure_count : Z;
  sj_auto_paused_reason : option string;
  sj_status : ScheduledResearchJobStatus.t;
  sj_created_at : Z;
  sj_updated_at : Z
}.

(** The row: the kind and the status are texts. *)
Record ScheduledResearchJobRecord := {
  jr_id : Z;
  jr_name : string;
  jr_kind : string;
  jr_enabled : bool;
  jr_interval_seconds : Z;
  jr_request : json;
  jr_max_runs_per_tick : Z;
  jr_last_run_at : option Z;
  jr_last_failure_at : option Z;
  jr_last_failure_reason : option string;
  jr_last_success_at : option Z;
  jr_next_run_at : option Z;
  jr_backoff_until : option Z;
  jr_consecutive_failure_count : Z;
  jr_auto_paused_reason : option string;
  jr_status : string;
  jr_created_at : Z;
  jr_updated_at : Z
}.

Record ScheduledResearchJobRun := {
  ur_id : Z;
  ur_job_id : Z;
  ur_status : ScheduledResearchJobRunStatus.t;
  ur_started_at : Z;
  ur_completed_at : option Z;
  ur_result : json;
  ur_error : option string;
  ur_created_artifact_type : option string;
  ur_created_artifact_id : option Z;
  ur_correlation_id : option Z
}.

Record ScheduledResearchJobRunRecord := {
  uw_id : Z;
  uw_job_id : Z;
  uw_status : string;
  uw_started_at : Z;
  uw_completed_at : option Z;
  uw_result : json;
  uw_error : option string;
  uw_created_artifact_type : option string;
  uw_created_artifact_id : option Z;
  uw_correlation_id : option Z
}.

Record ScheduledResearchJobRequest := {
  jq_name : string;
  jq_kind : ScheduledResearchJobKind.t;
  jq_enabled : bool;
  jq_interval_seconds : Z;
  jq_request : json;
  jq_max_runs_per_tick : Z;
  jq_next_run_at : option Z
}.

Record ScheduledJobExecution := {
  jx_status : ScheduledResearchJobRunStatus.t;
  jx_result : json;
  jx_error : option string;
  jx_artifact_type : option string;
  jx_artifact_id : option Z
}.

Record ScheduledJobCompletionUpdate := {
  ju_status : ScheduledResearchJobStatus.t;
  ju_next_run_at : option Z;
  ju_backoff_until : option Z;
  ju_consecutive_failure_count : Z;
  ju_last_failure_at : option Z;
  ju_last_failure_reason : option string;
  ju_last_success_at : option Z;
  ju_enabled : bool;
  ju_auto_paused_reason : option string
}.

Definition scheduled_research_job_from_record (record : ScheduledResearchJobRecord)
    : res CoreError.t ScheduledResearchJob :=
  kind ← from_str (A := ScheduledResearchJobKind.t) (jr_kind record);
  status ← from_str (A := ScheduledResearchJobStatus.t) (jr_status record);
  mret {| sj_id := jr_id record; sj_name := jr_name record; sj_kind := kind;
    sj_enabled := jr_enabled record; sj_interval_seconds := jr_interval_seconds record;
    sj_request := jr_request record; sj_max_runs_per_tick := jr_max_runs_per_tick record;
    sj_last_run_at := jr_last_run_at record; sj_last_failure_at := jr_last_failure_at record;
    sj_last_failure_reason := jr_last_failure_reason record;
    sj_last_success_at := jr_last_success_at record; sj_next_run_at := jr_next_run_at record;
    sj_backoff_until := jr_backoff_until record;
    sj_consecutive_failure_count := jr_consecutive_failure_count record;
    sj_auto_paused_reason := jr_auto_paused_reason record; sj_status := status;
    sj_created_at := jr_created_at record; sj_updated_at := jr_updated_at record |}.

Definition scheduled_research_job_run_from_record (record : ScheduledResearchJobRunRecord)
    : res CoreError.t ScheduledResearchJobRun :=
  status ← from_str (A := ScheduledResearchJobRunStatus.t) (uw_status record);
  mret {| ur_id := uw_id record; ur_job_id := uw_job_id record; ur_status := status;
    ur_started_at := uw_started_at record; ur_completed_at := uw_completed_at record;
    ur_result := uw_result record; ur_error := uw_error record;
    ur_created_artifact_type := uw_created_artifact_type record;
    ur_created_artifact_id := uw_created_artifact_id record;
    ur_correlation_id := uw_correlation_id record |}.

Definition ScheduledResearchJobRequest_validate (request : ScheduledResearchJobRequest) : res CoreError.t unit :=
  if is_empty (trim (jq_name request)) then Err CoreError.EmptyScheduledResearchJobName
  else if negb (is_safe_research_kind (jq_kind request))
  then Err (CoreError.UnsafeScheduledResearchJobKind (ScheduledResearchJobKind.as_str (jq_kind request)))
  else if jq_interval_seconds request <=? 0 then Err CoreError.InvalidScheduledResearchJobInterval
  else if jq_max_runs_per_tick request <=? 0 then Err CoreError.InvalidScheduledResearchJobMaxRuns
  else mret tt.

(** ** The table *)

Inductive JobError :=
  | JobInvalid (e : CoreError.t)
  | JobDatabase (what : string).

Record JobStore := {
  jb_jobs : list ScheduledResearchJobRecord;
  jb_runs : list ScheduledResearchJobRunRecord;
  jb_counts : ExecutionTableCounts
}.

(** An operation on the tables. *)
Definition J (A : Type) : Type := JobStore -> res JobError A * JobStore.
#[local] Instance J_ret : MRet J := fun A a s => (Ok a, s).
#[local] Instance J_bind : MBind J := fun A B k m s =>
  match m s with
  | (Ok a, s) => k a s
  | (Err e, s) => (Err e, s)
  | (Panic, s) => (Panic, s)
  end.
Definition J_fail {A} (e : JobError) : J A := fun s => (Err e, s).
Definition J_read {A} (m : res CoreError.t A) : J A := fun s =>
  (match m with Ok a => Ok a | Err e => Err (JobInvalid e) | Panic => Panic end, s).

Definition set_jobs (rows : list ScheduledResearchJobRecord) (s : JobStore) : JobStore :=
  {| jb_jobs := rows; jb_runs := jb_runs s; jb_counts := jb_counts s |}.

Definition find_job (id : Z) (s : JobStore) : option ScheduledResearchJobRecord :=
  find_key jr_id id (jb_jobs s).

(** [UPDATE .. WHERE id = $1 AND guard RETURNING ..]: identifiers are a primary key. *)
Definition update_job (id : Z) (guard : ScheduledResearchJobRecord -> bool)
    (change : ScheduledResearchJobRecord -> ScheduledResearchJobRecord)
    : J (option ScheduledResearchJobRecord) := fun s =>
  match find_job id s with
  | Some row =>
      if guard row then
        (Ok (Some (change row)), set_jobs (rewrite_key jr_id id change (jb_jobs s)) s)
      else (Ok None, s)
  | None => (Ok None, s)
  end.

(** The row with a new status, as the statements that set little else leave it. *)
Definition with_job_status (status : string) (now : Z) (row : ScheduledResearchJobRecord)
    : ScheduledResearchJobRecord := {|
  jr_id := jr_id row; jr_name := jr_name row; jr_kind := jr_kind row; jr_enabled := jr_enabled row;
  jr_interval_seconds := jr_interval_seconds row; jr_request := jr_request row;
  jr_max_runs_per_tick := jr_max_runs_per_tick row; jr_last_run_at := jr_last_run_at row;
  jr_last_failure_at := jr_last_failure_at row;
  jr_last_failure_reason := jr_last_failure_reason row;
  jr_last_success_at := jr_last_success_at row; jr_next_run_at := jr_next_run_at row;
  jr_backoff_until := jr_backoff_until row;
  jr_consecutive_failure_count := jr_consecutive_failure_count row;
  jr_auto_paused_reason := jr_auto_paused_reason row; jr_status := status;
  jr_created_at := jr_created_at row; jr_updated_at := now |}.

Definition status_in (status : string) (names : list string) : bool :=
  existsb (String.eqb status) names.

(** [backoff_until IS NULL OR backoff_until <= $1] *)
Definition backoff_over (now : Z) (row : ScheduledResearchJobRecord) : bool :=
  match jr_backoff_until row with None => true | Some t => t <=? now end.

Definition requested_status (enabled : bool) : ScheduledResearchJobStatus.t :=
  if enabled then ScheduledResearchJobStatus.Enabled else ScheduledResearchJobStatus.Disabled.

Definition requested_next_run_at (request : ScheduledResearchJobRequest) (now : Z) : option Z :=
  match jq_next_run_at request with
  | Some t => Some t
  | None => if jq_enabled request then Some now else None
  end.

Definition append_job (row : ScheduledResearchJobRecord) : J ScheduledResearchJobRecord :=
  fun s => (Ok row, set_jobs (jb_jobs s ++ [row]) s).

(** [id]: the fresh identifier; [now]: the clock, and NOW() of the database. *)
Definition insert_scheduled_research_job (id now db_now : Z) (request : ScheduledResearchJobRequest)
    : J ScheduledResearchJobRecord :=
  _ ← J_read (ScheduledResearchJobRequest_validate request);
  let row := {| jr_id := id; jr_name := trim (jq_name request);
    jr_kind := ScheduledResearchJobKind.as_str (jq_kind request); jr_enabled := jq_enabled request;
    jr_interval_seconds := jq_interval_seconds request; jr_request := jq_request request;
    jr_max_runs_per_tick := jq_max_runs_per_tick request; jr_last_run_at := None;
    jr_last_failure_at := None; jr_last_failure_reason := None; jr_last_success_at := None;
    jr_next_run_at := requested_next_run_at request now; jr_backoff_until := None;
    jr_consecutive_failure_count := 0; jr_auto_paused_reason := None;
    jr_status := ScheduledResearchJobStatus.as_str (requested_status (jq_enabled request));
    jr_created_at := db_now; jr_updated_at := db_now |} in
  append_job row.

Definition get_scheduled_research_job (id : Z) : J (option ScheduledResearchJobRecord) :=
  fun s => (Ok (find_job id s), s).

Definition update_scheduled_research_job_definition (id now db_now : Z)
    (request : ScheduledResearchJobRequest) : J (option ScheduledResearchJobRecord) :=
  _ ← J_read (ScheduledResearchJobRequest_validate request);
  update_job id (fun _ => true) (fun row => {|
    jr_id := jr_id row; jr_name := trim (jq_name request);
    jr_kind := ScheduledResearchJobKind.as_str (jq_kind request); jr_enabled := jq_enabled request;
    jr_interval_seconds := jq_interval_seconds request; jr_request := jq_request request;
    jr_max_runs_per_tick := jq_max_runs_per_tick request; jr_last_run_at := jr_last_run_at row;
    jr_last_failure_at := None; jr_last_failure_reason := None;
    jr_last_success_at := jr_last_success_at row;
    jr_next_run_at := requested_next_run_at request now; jr_backoff_until := None;
    jr_consecutive_failure_count := 0; jr_auto_paused_reason := None;
    jr_status := ScheduledResearchJobStatus.as_str (requested_status (jq_enabled request));
    jr_created_at := jr_created_at row; jr_updated_at := db_now |}).

Definition is_due (now : Z) (row : ScheduledResearchJobRecord) : bool :=
  jr_enabled row && status_in (jr_status row) ["ENABLED"; "ERROR"; "BACKING_OFF"] &&
  match jr_next_run_at row with Some t => t <=? now | None => false end &&
  backoff_over now row.

(** [due_first] is [ORDER BY next_run_at ASC, created_at ASC]. *)
Definition list_due_scheduled_research_jobs
    (due_first : list ScheduledResearchJobRecord -> list ScheduledResearchJobRecord)
    (now limit : Z) : J (list ScheduledResearchJobRecord) := fun s =>
  if limit <? 0 then (Err (JobDatabase "LIMIT must not be negative"), s)
  else (Ok (firstn (Z.to_nat limit) (due_first (List.filter (is_due now) (jb_jobs s)))), s).

Definition claimable (now : Z) (manual : bool) (row : ScheduledResearchJobRecord) : bool :=
  negb (String.eqb (jr_status row) "RUNNING") &&
  (manual || jr_enabled row) &&
  (manual || status_in (jr_status row) ["ENABLED"; "ERROR"; "BACKING_OFF"]) &&
  (manual || backoff_over now row).

Definition try_claim_scheduled_research_job (id now db_now : Z) (manual : bool)
    : J (option ScheduledResearchJobRecord) :=
  update_job id (claimable now manual) (with_job_status "RUNNING" db_now).

Definition update_scheduled_research_job_status (id db_now : Z) (enabled : bool)
    (status : ScheduledResearchJobStatus.t) (next_run_at : option Z)
    : J (option ScheduledResearchJobRecord) :=
  update_job id (fun _ => true) (fun row => {|
    jr_id := jr_id row; jr_name := jr_name row; jr_kind := jr_kind row; jr_enabled := enabled;
    jr_interval_seconds := jr_interval_seconds row; jr_request := jr_request row;
    jr_max_runs_per_tick := jr_max_runs_per_tick row; jr_last_run_at := jr_last_run_at row;
    jr_last_failure_at := jr_last_failure_at row;
    jr_last_failure_reason := jr_last_failure_reason row;
    jr_last_success_at := jr_last_success_at row; jr_next_run_at := next_run_at;
    jr_backoff_until := None; jr_consecutive_failure_count := jr_consecutive_failure_count row;
    jr_auto_paused_reason :=
      if String.eqb (ScheduledResearchJobStatus.as_str status) "AUTO_PAUSED"
      then jr_auto_paused_reason row else None;
    jr_status := ScheduledResearchJobStatus.as_str status;
    jr_created_at := jr_created_at row; jr_updated_at := db_now |}).

Definition mark_scheduled_research_job_after_run (id completed_at db_now : Z)
    (completion : ScheduledJobCompletionUpdate) : J (option ScheduledResearchJobRecord) :=
  update_job id (fun _ => true) (fun row => {|
    jr_id := jr_id row; jr_name := jr_name row; jr_kind := jr_kind row;
    jr_enabled := ju_enabled completion; jr_interval_seconds := jr_interval_seconds row;
    jr_request := jr_request row; jr_max_runs_per_tick := jr_max_runs_per_tick row;
    jr_last_run_at := Some completed_at;
    jr_last_failure_at := coalesce (ju_last_failure_at completion) (jr_last_failure_at row);
    jr_last_failure_reason := ju_last_failure_reason completion;
    jr_last_success_at := coalesce (ju_last_success_at completion) (jr_last_success_at row);
    jr_next_run_at := ju_next_run_at completion; jr_backoff_until := ju_backoff_until completion;
    jr_consecutive_failure_count := ju_consecutive_failure_count completion;
    jr_auto_paused_reason := ju_auto_paused_reason completion;
    jr_status := ScheduledResearchJobStatus.as_str (ju_status completion);
    jr_created_at := jr_created_at row; jr_updated_at := db_now |}).

Definition reset_scheduled_research_job_failures (id db_now : Z)
    : J (option ScheduledResearchJobRecord) :=
  update_job id (fun _ => true) (fun row =>
    let failing := status_in (jr_status row) ["BACKING_OFF"; "ERROR"] in
    let auto_paused := String.eqb (jr_status row) "AUTO_PAUSED" in {|
    jr_id := jr_id row; jr_name := jr_name row; jr_kind := jr_kind row;
    jr_enabled := if auto_paused then false else jr_enabled row;
    jr_interval_seconds := jr_interval_seconds row; jr_request := jr_request row;
    jr_max_runs_per_tick := jr_max_runs_per_tick row; jr_last_run_at := jr_last_run_at row;
    jr_last_failure_at := jr_last_failure_at row;
    jr_last_failure_reason := jr_last_failure_reason row;
    jr_last_success_at := jr_last_success_at row;
    jr_next_run_at := if failing && jr_enabled row then Some db_now else jr_next_run_at row;
    jr_backoff_until := None; jr_consecutive_failure_count := 0; jr_auto_paused_reason := None;
    jr_status :=
      if auto_paused then "PAUSED" else if failing then "ENABLED" else jr_status row;
    jr_created_at := jr_created_at row; jr_updated_at := db_now |}).

Definition run_row (run : ScheduledResearchJobRun) : ScheduledResearchJobRunRecord := {|
  uw_id := ur_id run; uw_job_id := ur_job_id run;
  uw_status := ScheduledResearchJobRunStatus.as_str (ur_status run);
  uw_started_at := ur_started_at run; uw_completed_at := ur_completed_at run;
  uw_result := ur_result run; uw_error := ur_error run;
  uw_created_artifact_type := ur_created_artifact_type run;
  uw_created_artifact_id := ur_created_artifact_id run;
  uw_correlation_id := ur_correlation_id run |}.

(** A run belongs to a job of the table. *)
Definition insert_scheduled_research_job_run (run : ScheduledResearchJobRun)
    : J ScheduledResearchJobRunRecord := fun s =>
  match find_job (ur_job_id run) s with
  | None => (Err (JobDatabase "scheduled_research_job_runs_job_id_fkey"), s)
  | Some _ =>
      (Ok (run_row run),
       {| jb_jobs := jb_jobs s; jb_runs := jb_runs s ++ [run_row run]; jb_counts := jb_counts s |})
  end.

(** ** The end of a run *)

Definition scheduled_research_next_run_at (completed_at interval_seconds : Z) : res CoreError.t Z :=
  if interval_seconds <=? 0 then Err CoreError.InvalidScheduledResearchJobInterval
  else match after_seconds completed_at interval_seconds with Some t => Ok t | None => Panic end.

Definition backoff_seconds (consecutive_failure_count base_seconds max_seconds : Z) : Z :=
  let multiplier :=
    if consecutive_failure_count =? 2 then 1
    else saturate_i64 (3 * saturating_pow2 (consecutive_failure_count - 3)) in
  Z.min (saturate_i64 (base_seconds * multiplier)) max_seconds.

Definition scheduled_research_backoff_until
    (completed_at consecutive_failure_count base_seconds max_seconds : Z) : res CoreError.t (option Z) :=
  if consecutive_failure_count <? 2 then Ok None
  else match after_seconds completed_at
               (backoff_seconds consecutive_failure_count base_seconds max_seconds) with
       | Some t => Ok (Some t)
       | None => Panic
       end.

(** [i32::saturating_add(1)] *)
Definition next_failure_count (count : Z) : Z := Z.min i32_max (count + 1).

Definition auto_pause (job : ScheduledResearchJob) (count completed_at : Z)
    (last_failure_reason : option string) : ScheduledJobCompletionUpdate := {|
  ju_status := ScheduledResearchJobStatus.AutoPaused; ju_next_run_at := None;
  ju_backoff_until := None; ju_consecutive_failure_count := count;
  ju_last_failure_at := Some completed_at; ju_last_failure_reason := last_failure_reason;
  ju_last_success_at := sj_last_success_at job; ju_enabled := false;
  ju_auto_paused_reason :=
    Some ("auto-paused after " +:+ show_int count +:+ " consecutive scheduled research failures") |}.

Definition back_off (job : ScheduledResearchJob) (count completed_at : Z)
    (last_failure_reason : option string) (normal_next_run_at backoff_until : option Z)
    : ScheduledJobCompletionUpdate := {|
  ju_status := match backoff_until with
               | Some _ => ScheduledResearchJobStatus.BackingOff
               | None => ScheduledResearchJobStatus.Error
               end;
  ju_next_run_at := coalesce backoff_until normal_next_run_at; ju_backoff_until := backoff_until;
  ju_consecutive_failure_count := count; ju_last_failure_at := Some completed_at;
  ju_last_failure_reason := last_failure_reason; ju_last_success_at := sj_last_success_at job;
  ju_enabled := sj_enabled job; ju_auto_paused_reason := None |}.

Definition succeed (job : ScheduledResearchJob) (completed_at : Z) (normal_next_run_at : option Z)
    : ScheduledJobCompletionUpdate := {|
  ju_status := requested_status (sj_enabled job); ju_next_run_at := normal_next_run_at;
  ju_backoff_until := None; ju_consecutive_failure_count := 0;
  ju_last_failure_at := sj_last_failure_at job; ju_last_failure_reason := None;
  ju_last_success_at := Some completed_at; ju_enabled := sj_enabled job;
  ju_auto_paused_reason := None |}.

(** [.ok()] *)
Definition ok_of {E A} (m : res E A) : res E (option A) :=
  match m with Ok a => Ok (Some a) | Err _ => Ok None | Panic => Panic end.

Definition job_completion_update (job : ScheduledResearchJob) (execution : ScheduledJobExecution)
    (completed_at : Z) (policy : ScheduledResearchFailurePolicy) : res CoreError.t ScheduledJobCompletionUpdate :=
  normal_next_run_at ←
    ok_of (scheduled_research_next_run_at completed_at (sj_interval_seconds job));
  if bool_decide (jx_status execution = ScheduledResearchJobRunStatus.Failed) then
    let count := next_failure_count (sj_consecutive_failure_count job) in
    let last_failure_reason :=
      coalesce (jx_error execution) (Some "scheduled research job failed") in
    if fp_max_consecutive_failures policy <=? count
    then mret (auto_pause job count completed_at last_failure_reason)
    else
      backoff_until ← scheduled_research_backoff_until completed_at count
        (fp_backoff_base_seconds policy) (fp_backoff_max_seconds policy);
      mret (back_off job count completed_at last_failure_reason normal_next_run_at backoff_until)
  else mret (succeed job completed_at normal_next_run_at).

(** ** A run *)

(** What a run reads outside the tables. *)
Record JobEnv := {
  jv_started_at : Z;
  jv_completed_at : Z;
  jv_claimed_now : Z;   (** NOW() of the claim and of the last statement *)
  jv_marked_now : Z;
  jv_run_id : Z;
  jv_correlation_id : Z;
  jv_policy : ScheduledResearchFailurePolicy;
  jv_shadow_observation_only : bool;
  jv_mark_fails : bool;   (** the last statement fails *)
  jv_execute : ScheduledResearchJob -> res string ScheduledJobExecution;
  jv_others : JobStore -> JobStore
}.

Definition scheduler_skips (kind : ScheduledResearchJobKind.t) : ScheduledJobExecution := {|
  jx_status := ScheduledResearchJobRunStatus.Skipped;
  jx_result := jobj [("skipped", jbool true);
    ("reason", jstr "job_kind_not_enabled_in_scheduler_worker");
    ("kind", jstr (ScheduledResearchJobKind.as_str kind))];
  jx_error := None; jx_artifact_type := None; jx_artifact_id := None |}.

Definition observation_only_required : ScheduledJobExecution := {|
  jx_status := ScheduledResearchJobRunStatus.Failed;
  jx_result := jobj [("error", jstr "shadow_observation_only_required");
    ("message", jstr "CROSS_ASSET_CANDIDATE_SHADOW_OBSERVE_ONCE requires server SHADOW_OBSERVATION_ONLY=true.");
    ("server_observation_only_mode", jbool false);
    ("research_observation_only_acknowledged", jbool true); ("no_order_submission", jbool true);
    ("execution_authority", jstr "NONE")];
  jx_error := Some "failed to run CROSS_ASSET_CANDIDATE_SHADOW_OBSERVE_ONCE job";
  jx_artifact_type := None; jx_artifact_id := None |}.

(** The kinds that read feeds, candles and candidates are left to [jv_execute]. *)
Definition execute_job_kind (env : JobEnv) (job : ScheduledResearchJob)
    : res string ScheduledJobExecution :=
  match sj_kind job with
  | ScheduledResearchJobKind.CrossAssetCandidateShadowObserveOnce =>
      if negb (jv_shadow_observation_only env) then Ok observation_only_required
      else jv_execute env job
  | ScheduledResearchJobKind.ResearchBatch | ScheduledResearchJobKind.ResearchCampaign
  | ScheduledResearchJobKind.RegimeDiscovery | ScheduledResearchJobKind.RobustnessMatrix =>
      Ok (scheduler_skips (sj_kind job))
  | _ => jv_execute env job
  end.

Definition before_counts_json (counts : ExecutionTableCounts) : json :=
  jobj [("orders", jint (tn_orders counts)); ("paper_positions", jint (tn_paper_positions counts));
        ("paper_fills", jint (tn_paper_fills counts));
        ("exchange_testnet_orders", jint (tn_exchange_testnet_orders counts));
        ("exchange_testnet_order_lifecycle_events",
           jint (tn_exchange_testnet_order_lifecycle_events counts));
        ("testnet_shadow_promotions", jint (tn_testnet_shadow_promotions counts))].

Definition skipped_run (env : JobEnv) (job : ScheduledResearchJob)
    (status : ScheduledResearchJobRunStatus.t) (reason : string) : ScheduledResearchJobRun := {|
  ur_id := jv_run_id env; ur_job_id := sj_id job; ur_status := status;
  ur_started_at := jv_started_at env; ur_completed_at := Some (jv_completed_at env);
  ur_result := jobj [("skipped", jbool true); ("reason", jstr reason)]; ur_error := None;
  ur_created_artifact_type := None; ur_created_artifact_id := None;
  ur_correlation_id := Some (jv_correlation_id env) |}.

Definition record_skip_without_run_history (env : JobEnv) (job : ScheduledResearchJob)
    (status : ScheduledResearchJobRunStatus.t) (reason : string) : J ScheduledResearchJobRun :=
  let run := skipped_run env job status reason in
  if bool_decide (status = ScheduledResearchJobRunStatus.SkippedBackoff) then mret run
  else
    record ← insert_scheduled_research_job_run run;
    J_read (scheduled_research_job_run_from_record record).

(** The outcome of the work, after the check that the execution tables kept their sizes. *)
Definition checked_execution (outcome : string + ScheduledJobExecution) (isolation_ok : bool)
    : ScheduledJobExecution :=
  let execution := match outcome with
    | inr value => value
    | inl err => {| jx_status := ScheduledResearchJobRunStatus.Failed; jx_result := jobj [];
                    jx_error := Some err; jx_artifact_type := None; jx_artifact_id := None |}
    end in
  if isolation_ok then execution
  else {| jx_status := ScheduledResearchJobRunStatus.Failed; jx_result := jx_result execution;
          jx_error := Some "execution table counts changed during scheduled research job";
          jx_artifact_type := jx_artifact_type execution;
          jx_artifact_id := jx_artifact_id execution |}.

Definition executed_run (env : JobEnv) (job : ScheduledResearchJob) (manual : bool)
    (before after : ExecutionTableCounts) (execution : ScheduledJobExecution)
    : ScheduledResearchJobRun := {|
  ur_id := jv_run_id env; ur_job_id := sj_id job; ur_status := jx_status execution;
  ur_started_at := jv_started_at env; ur_completed_at := Some (jv_completed_at env);
  ur_result := jobj [("job_kind", jstr (ScheduledResearchJobKind.as_str (sj_kind job)));
    ("manual", jbool manual); ("payload", jx_result execution);
    ("execution_isolation", jobj [("unchanged", jbool (bool_decide (before = after)));
       ("before", before_counts_json before); ("after", before_counts_json after)])];
  ur_error := jx_error execution; ur_created_artifact_type := jx_artifact_type execution;
  ur_created_artifact_id := jx_artifact_id execution;
  ur_correlation_id := Some (jv_correlation_id env) |}.

(** What is written once the work is done. *)
Definition record_execution (env : JobEnv) (job : ScheduledResearchJob) (manual : bool)
    (before : ExecutionTableCounts) (outcome : string + ScheduledJobExecution)
    : J ScheduledResearchJobRun := fun s =>
  let after := jb_counts s in
  let execution := checked_execution outcome (bool_decide (before = after)) in
  (record ← insert_scheduled_research_job_run (executed_run env job manual before after execution);
   completion ← J_read (job_completion_update job execution (jv_completed_at env) (jv_policy env));
   _ ← (if jv_mark_fails env then mret None else
        mark_scheduled_research_job_after_run (sj_id job) (jv_completed_at env) (jv_marked_now env)
          completion);
   J_read (scheduled_research_job_run_from_record record)) s.

(** The work of a claimed job, between the two counts of the execution tables. *)
Definition run_claimed_job (env : JobEnv) (job : ScheduledResearchJob) (manual : bool)
    : J ScheduledResearchJobRun := fun s =>
  let before := jb_counts s in
  match execute_job_kind env job with
  | Ok execution => record_execution env job manual before (inr execution) (jv_others env s)
  | Err err => record_execution env job manual before (inl err) (jv_others env s)
  | Panic => (Panic, jv_others env s)
  end.

Definition not_claimed_status (reason : string) : ScheduledResearchJobRunStatus.t :=
  if String.eqb reason "RUNNING" then ScheduledResearchJobRunStatus.SkippedOverlap
  else if String.eqb reason "BACKING_OFF" then ScheduledResearchJobRunStatus.SkippedBackoff
  else ScheduledResearchJobRunStatus.Skipped.

Definition is_backing_off (env : JobEnv) (job : ScheduledResearchJob) : bool :=
  match sj_backoff_until job with Some t => jv_started_at env <? t | None => false end.

Definition run_scheduled_research_job (env : JobEnv) (job : ScheduledResearchJob) (manual : bool)
    : J ScheduledResearchJobRun :=
  if negb manual &&
     (negb (sj_enabled job) || bool_decide (sj_status job = ScheduledResearchJobStatus.Paused)) then
    record ← insert_scheduled_research_job_run
      (skipped_run env job ScheduledResearchJobRunStatus.Skipped "job_disabled_or_paused");
    J_read (scheduled_research_job_run_from_record record)
  else if negb manual && is_backing_off env job then
    record_skip_without_run_history env job ScheduledResearchJobRunStatus.SkippedBackoff
      "job_backing_off"
  else
    claimed ← try_claim_scheduled_research_job (sj_id job) (jv_started_at env) (jv_claimed_now env)
                manual;
    match claimed with
    | Some record =>
        claimed_job ← J_read (scheduled_research_job_from_record record);
        run_claimed_job env claimed_job manual
    | None =>
        latest ← get_scheduled_research_job (sj_id job);
        let reason := match latest with Some record => jr_status record | None => "not_found" end in
        record_skip_without_run_history env job (not_claimed_status reason) reason
    end.

(** ** A tick of the scheduler *)

Record ScheduledResearchTickResult := {
  tr_attempted_jobs : Z;
  tr_completed_runs : Z;
  tr_failed_runs : Z;
  tr_skipped_runs : Z
}.

Definition count_tick_run (outcome : res JobError ScheduledResearchJobRun)
    (tick : ScheduledResearchTickResult) : ScheduledResearchTickResult :=
  let completed := {| tr_attempted_jobs := tr_attempted_jobs tick;
    tr_completed_runs := tr_completed_runs tick + 1; tr_failed_runs := tr_failed_runs tick;
    tr_skipped_runs := tr_skipped_runs tick |} in
  let failed := {| tr_attempted_jobs := tr_attempted_jobs tick;
    tr_completed_runs := tr_completed_runs tick; tr_failed_runs := tr_failed_runs tick + 1;
    tr_skipped_runs := tr_skipped_runs tick |} in
  let skipped := {| tr_attempted_jobs := tr_attempted_jobs tick;
    tr_completed_runs := tr_completed_runs tick; tr_failed_runs := tr_failed_runs tick;
    tr_skipped_runs := tr_skipped_runs tick + 1 |} in
  match outcome with
  | Ok run =>
      match ur_status run with
      | ScheduledResearchJobRunStatus.Completed | ScheduledResearchJobRunStatus.PartialSuccess =>
          completed
      | ScheduledResearchJobRunStatus.Failed => failed
      | ScheduledResearchJobRunStatus.Skipped | ScheduledResearchJobRunStatus.SkippedOverlap
      | ScheduledResearchJobRunStatus.SkippedBackoff => skipped
      end
  | _ => failed
  end.

(** The inner loop; [n] counts the runs made so far. *)
Fixpoint run_job_times (env : nat -> JobEnv) (job : ScheduledResearchJob) (times n : nat)
    (tick : ScheduledResearchTickResult) : J (nat * ScheduledResearchTickResult) := fun s =>
  match times with
  | O => (Ok (n, tick), s)
  | S times =>
      match run_scheduled_research_job (env n) job false s with
      | (Panic, s) => (Panic, s)
      | (outcome, s) => run_job_times env job times (S n) (count_tick_run outcome tick) s
      end
  end.

Fixpoint run_due_jobs (env : nat -> JobEnv) (records : list ScheduledResearchJobRecord) (n : nat)
    (tick : ScheduledResearchTickResult) : J ScheduledResearchTickResult :=
  match records with
  | [] => mret tick
  | record :: records =>
      job ← J_read (scheduled_research_job_from_record record);
      '(n, tick) ← run_job_times env job (Z.to_nat (Z.max (sj_max_runs_per_tick job) 1)) n tick;
      run_due_jobs env records n tick
  end.

Definition run_scheduled_research_tick
    (due_first : list ScheduledResearchJobRecord -> list ScheduledResearchJobRecord)
    (env : nat -> JobEnv) (now max_jobs : Z) : J ScheduledResearchTickResult :=
  due_jobs ← list_due_scheduled_research_jobs due_first now max_jobs;
  run_due_jobs env due_jobs 0%nat {| tr_attempted_jobs := Z.of_nat (length due_jobs);
    tr_completed_runs := 0; tr_failed_runs := 0; tr_skipped_runs := 0 |}.

(** ** The calls of the API *)

(** A control answers with the job, or with 404. *)
Definition answer_job (update : J (option ScheduledResearchJobRecord))
    : J (option ScheduledResearchJob) :=
  row ← update;
  match row with
  | None => mret None
  | Some record => job ← J_read (scheduled_research_job_from_record record); mret (Some job)
  end.

Definition create_scheduled_research_job (id now db_now : Z) (payload : ScheduledResearchJobRequest)
    : J ScheduledResearchJob :=
  _ ← J_read (ScheduledResearchJobRequest_validate payload);
  record ← insert_scheduled_research_job id now db_now payload;
  J_read (scheduled_research_job_from_record record).

Definition pause_scheduled_research_job (id db_now : Z) : J (option ScheduledResearchJob) :=
  answer_job (update_scheduled_research_job_status id db_now false ScheduledResearchJobStatus.Paused
                None).

Definition resume_scheduled_research_job (id now db_now : Z) : J (option ScheduledResearchJob) :=
  answer_job (update_scheduled_research_job_status id db_now true ScheduledResearchJobStatus.Enabled
                (Some now)).

Definition reset_scheduled_research_job (id db_now : Z) : J (option ScheduledResearchJob) :=
  answer_job (reset_scheduled_research_job_failures id db_now).

Definition run_once_scheduled_research_job (env : JobEnv) (id : Z)
    : J (option ScheduledResearchJobRun) :=
  row ← get_scheduled_research_job id;
  match row with
  | None => mret None
  | Some record =>
      job ← J_read (scheduled_research_job_from_record record);
      run ← run_scheduled_research_job env job true;
      mret (Some run)
  end.

(** ** The statements on the table *)

Definition keeps_id (change : ScheduledResearchJobRecord -> ScheduledResearchJobRecord) : Prop :=
  forall row, jr_id (change row) = jr_id row.

Lemma find_job_some id s row : find_job id s = Some row -> In row (jb_jobs s) /\ jr_id row = id.
Proof. apply find_key_some. Qed.

(** What an update of the table does. *)
Lemma update_job_spec id guard change s :
  update_job id guard change s =
  match find_job id s with
  | Some row => if guard row
                then (Ok (Some (change row)), set_jobs (rewrite_key jr_id id change (jb_jobs s)) s)
                else (Ok None, s)
  | None => (Ok None, s)
  end.
Proof. done. Qed.

Lemma find_updated id change s id' :
  keeps_id change ->
  find_job id' (set_jobs (rewrite_key jr_id id change (jb_jobs s)) s) =
  option_map (fun row => if id' =? id then change row else row) (find_job id' s).
Proof. apply find_key_rewrite. Qed.

Lemma keeps_with_job_status status now : keeps_id (with_job_status status now).
Proof. done. Qed.

(** ** What stays true of the tables *)

Definition schedulable_status (row : ScheduledResearchJobRecord) : bool :=
  status_in (jr_status row) ["ENABLED"; "ERROR"; "BACKING_OFF"].

(** A row that the controls and the scheduler can leave behind. *)
Record job_row_ok (row : ScheduledResearchJobRecord) : Prop := {
  ok_kind : exists kind, jr_kind row = ScheduledResearchJobKind.as_str kind;
  ok_status : exists status, jr_status row = ScheduledResearchJobStatus.as_str status;
  ok_off : status_in (jr_status row) ["DISABLED"; "PAUSED"; "AUTO_PAUSED"] = true ->
    jr_enabled row = false;
  ok_interval : 0 < jr_interval_seconds row;
  ok_max_runs : 0 < jr_max_runs_per_tick row;
  ok_count : 0 <= jr_consecutive_failure_count row <= i32_max;
  ok_auto_paused : jr_status row = "AUTO_PAUSED" ->
    jr_next_run_at row = None /\ is_Some (jr_auto_paused_reason row) /\
    0 < jr_consecutive_failure_count row;
  ok_reason : is_Some (jr_auto_paused_reason row) ->
    status_in (jr_status row) ["AUTO_PAUSED"; "RUNNING"] = true;
  ok_backing_off : jr_status row = "BACKING_OFF" ->
    is_Some (jr_backoff_until row) /\ jr_next_run_at row = jr_backoff_until row /\
    2 <= jr_consecutive_failure_count row;
  ok_backoff : is_Some (jr_backoff_until row) ->
    status_in (jr_status row) ["BACKING_OFF"; "RUNNING"] = true
}.

Record job_tables_ok (s : JobStore) : Prop := {
  ok_rows : Forall job_row_ok (jb_jobs s);
  ok_ids : NoDup (map jr_id (jb_jobs s));
  ok_runs : Forall (fun run => (exists status, uw_status run = ScheduledResearchJobRunStatus.as_str status) /\
                               In (uw_job_id run) (map jr_id (jb_jobs s))) (jb_runs s)
}.

Lemma find_job_ok s id row : job_tables_ok s -> find_job id s = Some row -> job_row_ok row.
Proof.
  intros Hok [Hin _]%find_job_some. exact (proj1 (List.Forall_forall _ _) (ok_rows _ Hok) _ Hin).
Qed.

(** A stored row can be read. *)
Lemma read_job_ok row : job_row_ok row ->
  exists kind status, jr_kind row = ScheduledResearchJobKind.as_str kind /\
    jr_status row = ScheduledResearchJobStatus.as_str status /\
    from_str (A := ScheduledResearchJobKind.t) (jr_kind row) = Ok kind /\
    from_str (A := ScheduledResearchJobStatus.t) (jr_status row) = Ok status.
Proof.
  intros [[kind Hk] [status Hs]]. exists kind, status. rewrite Hk, Hs, !from_str_print. done.
Qed.

Definition job_of (row : ScheduledResearchJobRecord) (kind : ScheduledResearchJobKind.t)
    (status : ScheduledResearchJobStatus.t) : ScheduledResearchJob := {|
  sj_id := jr_id row; sj_name := jr_name row; sj_kind := kind; sj_enabled := jr_enabled row;
  sj_interval_seconds := jr_interval_seconds row; sj_request := jr_request row;
  sj_max_runs_per_tick := jr_max_runs_per_tick row; sj_last_run_at := jr_last_run_at row;
  sj_last_failure_at := jr_last_failure_at row;
  sj_last_failure_reason := jr_last_failure_reason row;
  sj_last_success_at := jr_last_success_at row; sj_next_run_at := jr_next_run_at row;
  sj_backoff_until := jr_backoff_until row;
  sj_consecutive_failure_count := jr_consecutive_failure_count row;
  sj_auto_paused_reason := jr_auto_paused_reason row; sj_status := status;
  sj_created_at := jr_created_at row; sj_updated_at := jr_updated_at row |}.

Lemma job_from_row row : job_row_ok row ->
  exists kind status, jr_kind row = ScheduledResearchJobKind.as_str kind /\
    jr_status row = ScheduledResearchJobStatus.as_str status /\
    scheduled_research_job_from_record row = Ok (job_of row kind status).
Proof.
  intros (kind & status & Hk & Hs & Hk' & Hs')%read_job_ok. exists kind, status.
  split; [done|]. split; [done|]. unfold scheduled_research_job_from_record. by rewrite Hk', Hs'.
Qed.

Lemma run_row_reads run : scheduled_research_job_run_from_record (run_row run) = Ok run.
Proof.
  unfold scheduled_research_job_run_from_record, run_row. cbn [uw_status].
  rewrite from_str_print. by destruct run.
Qed.

(** The rows after an update whose result is again such a row. *)
Lemma update_job_ok id guard change s r s' :
  keeps_id change ->
  (forall row, find_job id s = Some row -> guard row = true -> job_row_ok (change row)) ->
  job_tables_ok s -> update_job id guard change s = (r, s') -> job_tables_ok s'.
Proof.
  intros Hid Hch Hok. rewrite update_job_spec. destruct (find_job id s) as [row|] eqn:Hrow.
  2: by intros [= <- <-].
  destruct (guard row) eqn:Hg; intros [= <- <-]; [|done]. specialize (Hch row eq_refl Hg).
  pose proof (find_job_some _ _ _ Hrow) as [Hin Hrid].
  split; cbn [jb_jobs jb_runs set_jobs]; rewrite ?rewrite_key_keys by done; [|apply Hok..].
  apply List.Forall_forall. intros row' [Hin'|(row0 & Hin0 & Hid0 & ->)]%in_rewrite_key.
  { exact (proj1 (List.Forall_forall _ _) (ok_rows _ Hok) _ Hin'). }
  assert (row0 = row) as ->; [|done].
  assert (Hnd := ok_ids _ Hok). clear -Hin Hin0 Hrid Hid0 Hnd.
  rewrite <- Hrid in Hid0. exact (NoDup_map_inj jr_id _ _ _ Hnd Hin0 Hin Hid0).
Qed.

(** What the end of a run may write. *)
Record completion_ok (completion : ScheduledJobCompletionUpdate) : Prop := {
  co_off : ju_status completion = ScheduledResearchJobStatus.Disabled \/
           ju_status completion = ScheduledResearchJobStatus.Paused \/
           ju_status completion = ScheduledResearchJobStatus.AutoPaused ->
    ju_enabled completion = false;
  co_count : 0 <= ju_consecutive_failure_count completion <= i32_max;
  co_auto_paused : ju_status completion = ScheduledResearchJobStatus.AutoPaused ->
    ju_next_run_at completion = None /\ is_Some (ju_auto_paused_reason completion) /\
    0 < ju_consecutive_failure_count completion;
  co_reason : is_Some (ju_auto_paused_reason completion) ->
    ju_status completion = ScheduledResearchJobStatus.AutoPaused;
  co_backing_off : ju_status completion = ScheduledResearchJobStatus.BackingOff ->
    is_Some (ju_backoff_until completion) /\
    ju_next_run_at completion = ju_backoff_until completion /\
    2 <= ju_consecutive_failure_count completion;
  co_backoff : is_Some (ju_backoff_until completion) ->
    ju_status completion = ScheduledResearchJobStatus.BackingOff
}.

Lemma next_failure_count_bounds count : 0 <= count <= i32_max -> 1 <= next_failure_count count <= i32_max.
Proof. unfold next_failure_count, i32_max. lia. Qed.

Lemma backoff_until_some completed_at count base max t :
  scheduled_research_backoff_until completed_at count base max = Ok (Some t) -> 2 <= count.
Proof.
  unfold scheduled_research_backoff_until. destruct (Z.ltb_spec count 2) as [_|H]; [|intros _; exact H].
  intros [=].
Qed.

Lemma job_completion_ok job execution completed_at policy completion :
  0 <= sj_consecutive_failure_count job <= i32_max ->
  job_completion_update job execution completed_at policy = Ok completion -> completion_ok completion.
Proof.
  intros Hc%next_failure_count_bounds. unfold job_completion_update.
  destruct (ok_of _) as [normal| |]; cbn; try discriminate.
  case_bool_decide as Hf; [destruct (_ <=? _)|].
  - injection 1 as <-. split; cbn -[i32_max]; try done; try lia.
    intros _; repeat split; [by eexists|lia].
  - destruct (scheduled_research_backoff_until _ _ _ _) as [[t|]| |] eqn:Hb; cbn; try discriminate;
      injection 1 as <-; split; cbn; try done; try lia; try (by intros [? [=]]).
    1: by intros [[=]|[[=]|[=]]].
    2: by intros [[=]|[[=]|[=]]].
    apply backoff_until_some in Hb. intros _. repeat split; [by eexists|lia].
  - injection 1 as <-. unfold succeed, requested_status.
    split; cbn; try done; try lia; try (by intros [? [=]]); destruct (sj_enabled job); try done.
    by intros [[=]|[[=]|[=]]].
Qed.

(** One statement of some session. *)
Inductive job_step : JobStore -> JobStore -> Prop :=
  | step_insert id now db_now request r s s' :
      find_job id s = None ->
      insert_scheduled_research_job id now db_now request s = (r, s') -> job_step s s'
  | step_define id now db_now request r s s' :
      update_scheduled_research_job_definition id now db_now request s = (r, s') -> job_step s s'
  | step_control id db_now (enabled : bool) status next_run_at r s s' :
      status = (if enabled then ScheduledResearchJobStatus.Enabled
                else ScheduledResearchJobStatus.Paused) \/
      status = requested_status enabled ->
      update_scheduled_research_job_status id db_now enabled status next_run_at s = (r, s') ->
      job_step s s'
  | step_reset id db_now r s s' :
      reset_scheduled_research_job_failures id db_now s = (r, s') -> job_step s s'
  | step_claim id now db_now manual r s s' :
      try_claim_scheduled_research_job id now db_now manual s = (r, s') -> job_step s s'
  | step_record run r s s' :
      insert_scheduled_research_job_run run s = (r, s') -> job_step s s'
  | step_mark id completed_at db_now completion r s s' :
      completion_ok completion ->
      mark_scheduled_research_job_after_run id completed_at db_now completion s = (r, s') ->
      job_step s s'
  | step_execution_tables counts s :
      job_step s {| jb_jobs := jb_jobs s; jb_runs := jb_runs s; jb_counts := counts |}.

Lemma validated_request request u : ScheduledResearchJobRequest_validate request = Ok u ->
  0 < jq_interval_seconds request /\ 0 < jq_max_runs_per_tick request.
Proof.
  unfold ScheduledResearchJobRequest_validate. destruct (is_empty _); [discriminate|].
  destruct (negb _); [discriminate|]. destruct (Z.leb_spec (jq_interval_seconds request) 0); [discriminate|].
  destruct (Z.leb_spec (jq_max_runs_per_tick request) 0); [discriminate|]. done.
Qed.

Lemma insert_job_ok id now db_now request r s s' :
  find_job id s = None -> insert_scheduled_research_job id now db_now request s = (r, s') ->
  job_tables_ok s -> job_tables_ok s'.
Proof.
  intros Hnone. unfold insert_scheduled_research_job, mbind, J_bind, J_read, append_job.
  destruct (ScheduledResearchJobRequest_validate request) as [u| |] eqn:Hv; intros [= <- <-]; try done.
  apply validated_request in Hv as [Hi Hm]. intros Hok.
  split; cbn [jb_jobs jb_runs set_jobs]; rewrite ?map_app.
  - apply Forall_app. split; [apply Hok|]. apply Forall_singleton.
    split; cbn -[i32_max status_in]; eauto; try done; try (by intros [? [=]]);
      try (unfold i32_max; lia); destruct (jq_enabled request); try done.
  - apply NoDup_app. split; [apply Hok|]. split; [|apply NoDup_singleton].
    intros x Hx Hx'%list_elem_of_singleton. cbn in Hx'. subst x.
    apply list_elem_of_In, in_map_iff in Hx as (row & Hid & Hin).
    pose proof (List.find_none _ _ Hnone _ Hin) as Hne. cbn in Hne. by apply Z.eqb_neq in Hne.
  - eapply Forall_impl; [apply Hok|]. intros run [Hst Hin]. split; [done|].
    apply in_or_app. by left.
Qed.

Lemma define_job_ok id now db_now request r s s' :
  update_scheduled_research_job_definition id now db_now request s = (r, s') ->
  job_tables_ok s -> job_tables_ok s'.
Proof.
  unfold update_scheduled_research_job_definition, mbind, J_bind, J_read.
  destruct (ScheduledResearchJobRequest_validate request) as [u| |] eqn:Hv.
  2-3: by intros [= <- <-].
  apply validated_request in Hv as [Hi Hm]. intros Hup Hok. revert Hup.
  apply update_job_ok; [done| |done]. intros row _ _.
  split; cbn -[i32_max status_in]; eauto; try done; try (by intros [? [=]]);
    try (unfold i32_max; lia); destruct (jq_enabled request); try done.
Qed.

Lemma control_job_ok id db_now (enabled : bool) status next_run_at r s s' :
  status = (if enabled then ScheduledResearchJobStatus.Enabled
            else ScheduledResearchJobStatus.Paused) \/
  status = requested_status enabled ->
  update_scheduled_research_job_status id db_now enabled status next_run_at s = (r, s') ->
  job_tables_ok s -> job_tables_ok s'.
Proof.
  intros Hst Hup Hok. revert Hup. apply update_job_ok; [done| |done].
  intros row Hrow%(find_job_ok _ _ _ Hok) _.
  split; cbn -[i32_max status_in]; try apply Hrow; eauto; try (by intros [? [=]]);
    destruct enabled, Hst as [-> | ->]; cbn; try done; try (by intros [? [=]]).
Qed.

Lemma claim_job_ok id now db_now manual r s s' :
  try_claim_scheduled_research_job id now db_now manual s = (r, s') ->
  job_tables_ok s -> job_tables_ok s'.
Proof.
  intros Hup Hok. revert Hup. apply update_job_ok; [done| |done].
  intros row Hrow%(find_job_ok _ _ _ Hok) _.
  split; cbn -[i32_max]; try apply Hrow; try done. by exists ScheduledResearchJobStatus.Running.
Qed.

Lemma mark_job_ok id completed_at db_now completion r s s' :
  completion_ok completion ->
  mark_scheduled_research_job_after_run id completed_at db_now completion s = (r, s') ->
  job_tables_ok s -> job_tables_ok s'.
Proof.
  intros Hco Hup Hok. revert Hup. apply update_job_ok; [done| |done].
  intros row Hrow%(find_job_ok _ _ _ Hok) _. destruct Hco as [Hoff Hcount Hap Hre Hbo Hback].
  split; cbn -[i32_max status_in]; try apply Hrow; eauto.
  - intros H. apply Hoff. destruct (ju_status completion); cbn in H; try discriminate; auto.
  - intros H. apply Hap. by destruct (ju_status completion); cbn in H; try discriminate.
  - intros H. by rewrite (Hre H).
  - intros H. apply Hbo. by destruct (ju_status completion); cbn in H; try discriminate.
  - intros H. by rewrite (Hback H).
Qed.

Lemma reset_job_ok id db_now r s s' :
  reset_scheduled_research_job_failures id db_now s = (r, s') -> job_tables_ok s -> job_tables_ok s'.
Proof.
  intros Hup Hok. revert Hup. apply update_job_ok; [done| |done].
  intros row Hrow%(find_job_ok _ _ _ Hok) _. pose proof (ok_status _ Hrow) as [status Hs].
  pose proof (ok_off _ Hrow) as Hoff. rewrite Hs in Hoff.
  split; cbn -[i32_max status_in]; rewrite ?Hs; try apply Hrow; try (by intros [? [=]]);
    try (unfold i32_max; lia); destruct status; cbn in *; try done; try (by eauto);
    first [by exists ScheduledResearchJobStatus.Paused | by exists ScheduledResearchJobStatus.Enabled
          | by exists ScheduledResearchJobStatus.Disabled | by exists ScheduledResearchJobStatus.Running].
Qed.

Lemma record_run_ok run r s s' :
  insert_scheduled_research_job_run run s = (r, s') -> job_tables_ok s -> job_tables_ok s'.
Proof.
  unfold insert_scheduled_research_job_run. destruct (find_job _ _) as [row|] eqn:Hrow; intros [= <- <-] Hok.
  2: done.
  split; cbn [jb_jobs jb_runs]; [apply Hok..|]. apply Forall_app. split; [apply Hok|].
  apply Forall_singleton. split; [by eexists|]. cbn. apply find_job_some in Hrow as [Hin <-].
  by apply in_map.
Qed.

Lemma job_step_ok s s' : job_step s s' -> job_tables_ok s -> job_tables_ok s'.
Proof.
  intros [];
    eauto using insert_job_ok, define_job_ok, control_job_ok, reset_job_ok, claim_job_ok, record_run_ok,
      mark_job_ok.
  intros []. by split.
Qed.

Lemma job_steps_ok s s' : rtc job_step s s' -> job_tables_ok s -> job_tables_ok s'.
Proof. induction 1; eauto using job_step_ok. Qed.

(** ** The calls as sequences of statements *)

(** From well-formed tables the call runs a sequence of statements, its own and those of
    other sessions, and its answer satisfies [Q]. *)
Definition takes_steps {A} (m : J A) (Q : A -> Prop) : Prop :=
  forall s r s', job_tables_ok s -> m s = (r, s') ->
    rtc job_step s s' /\ (forall a, r = Ok a -> Q a).

Definition any {A} (a : A) : Prop := True.

Lemma takes_ret {A} (a : A) (Q : A -> Prop) : Q a -> takes_steps (mret a) Q.
Proof. intros Ha s r s' _ [= <- <-]. split; [done|]. by intros a' [= ->]. Qed.

Lemma takes_bind {A B} (m : J A) (k : A -> J B) Q R :
  takes_steps m Q -> (forall a, Q a -> takes_steps (k a) R) -> takes_steps (m ≫= k) R.
Proof.
  intros Hm Hk s r s' Hok. unfold mbind, J_bind.
  destruct (m s) as [[a|e|] s1] eqn:Hms; destruct (Hm _ _ _ Hok Hms) as [Hsteps Ha].
  2-3: by intros [= <- <-].
  intros Hks. destruct (Hk a (Ha a eq_refl) _ _ _ (job_steps_ok _ _ Hsteps Hok) Hks) as [Hsteps' Hb].
  split; [by transitivity s1|exact Hb].
Qed.

Lemma takes_read {A} (m : res CoreError.t A) (Q : A -> Prop) :
  (forall a, m = Ok a -> Q a) -> takes_steps (J_read m) Q.
Proof.
  intros Ha s r s' _ [= <- <-]. split; [done|]. intros a.
  destruct m as [a'| |] eqn:Hm; [|done..]. intros [= ->]. by apply Ha.
Qed.

Lemma takes_step {A} (m : J A) : (forall s r s', m s = (r, s') -> job_step s s') -> takes_steps m any.
Proof. intros Hm s r s' _ Hms. split; [by eapply rtc_once, Hm|done]. Qed.

Lemma takes_weaken {A} (m : J A) (Q R : A -> Prop) :
  (forall a, Q a -> R a) -> takes_steps m Q -> takes_steps m R.
Proof. intros HQR Hm s r s' Hok Hms. destruct (Hm _ _ _ Hok Hms) as [H1 H2]. eauto. Qed.

Definition count_ok (job : ScheduledResearchJob) : Prop :=
  0 <= sj_consecutive_failure_count job <= i32_max.

Lemma takes_claim id now db_now manual :
  takes_steps (try_claim_scheduled_research_job id now db_now manual)
    (fun claimed => forall record, claimed = Some record ->
       0 <= jr_consecutive_failure_count record <= i32_max).
Proof.
  intros s r s' Hok Hclaim. split; [by eapply rtc_once, step_claim|].
  intros claimed -> record ->. revert Hclaim. unfold try_claim_scheduled_research_job.
  rewrite update_job_spec. destruct (find_job id s) as [row|] eqn:Hrow; [|done].
  destruct (claimable _ _ _); [|done]. intros [= <- <-]. cbn -[i32_max].
  apply (find_job_ok _ _ _ Hok Hrow).
Qed.

Lemma takes_insert_run run : takes_steps (insert_scheduled_research_job_run run) any.
Proof. apply takes_step. intros. by eapply step_record. Qed.

Lemma takes_skip env job status reason :
  takes_steps (record_skip_without_run_history env job status reason) any.
Proof.
  unfold record_skip_without_run_history. case_bool_decide; [by apply takes_ret|].
  eapply takes_bind; [apply takes_insert_run|]. intros record _. by apply takes_read.
Qed.

Lemma takes_record_execution env job manual before outcome : count_ok job ->
  takes_steps (record_execution env job manual before outcome) any.
Proof.
  intros Hcount s r s' Hok. unfold record_execution. revert s r s' Hok.
  cut (forall after, takes_steps (
    record ← insert_scheduled_research_job_run (executed_run env job manual before after
               (checked_execution outcome (bool_decide (before = after))));
    completion ← J_read (job_completion_update job (checked_execution outcome (bool_decide (before = after)))
                  (jv_completed_at env) (jv_policy env));
    _ ← (if jv_mark_fails env then mret None else
         mark_scheduled_research_job_after_run (sj_id job) (jv_completed_at env) (jv_marked_now env)
           completion);
    J_read (scheduled_research_job_run_from_record record)) any).
  { intros Hall s r s' Hok Hrun. exact (Hall (jb_counts s) s r s' Hok Hrun). }
  intros after. eapply takes_bind; [apply takes_insert_run|]. intros record _.
  eapply takes_bind; [apply takes_read; intros completion; exact (job_completion_ok _ _ _ _ _ Hcount)|].
  cbn. intros completion Hco. eapply takes_bind with (Q := any); [|intros; by apply takes_read].
  destruct (jv_mark_fails env); [by apply takes_ret|].
  apply (takes_step (mark_scheduled_research_job_after_run _ _ _ _)). intros. by eapply step_mark.
Qed.

Definition others_step (env : JobEnv) : Prop := forall s, rtc job_step s (jv_others env s).

Lemma takes_claimed env job manual : others_step env -> count_ok job ->
  takes_steps (run_claimed_job env job manual) any.
Proof.
  intros Hothers Hcount s r s' Hok. unfold run_claimed_job.
  pose proof (job_steps_ok _ _ (Hothers s) Hok) as Hok'.
  destruct (execute_job_kind env job) as [execution|err|].
  3: { intros [= <- <-]. split; [apply Hothers|done]. }
  all: intros Hrun; destruct (takes_record_execution _ _ _ _ _ Hcount _ _ _ Hok' Hrun) as [Hsteps _];
    split; [|done]; etransitivity; [apply Hothers|exact Hsteps].
Qed.

Lemma takes_run env job manual : others_step env ->
  takes_steps (run_scheduled_research_job env job manual) any.
Proof.
  intros Hothers. unfold run_scheduled_research_job. destruct (negb manual && _).
  { eapply takes_bind; [apply takes_insert_run|]. intros. by apply takes_read. }
  destruct (negb manual && _); [apply takes_skip|].
  eapply takes_bind; [apply takes_claim|]. intros [record|] Hrec.
  - eapply takes_bind; [apply (takes_read _ count_ok)|intros job'; by apply takes_claimed].
    intros job' Hjob'. unfold scheduled_research_job_from_record, mbind, res_bind in Hjob'.
    destruct (from_str (jr_kind record)); [|discriminate..].
    destruct (from_str (jr_status record)); [|discriminate..]. injection Hjob' as <-.
    by apply Hrec.
  - eapply takes_bind with (Q := any); [|intros; apply takes_skip].
    intros s r s' _ [= <- <-]. by split.
Qed.

Lemma takes_times env job times n tick : (forall n, others_step (env n)) ->
  takes_steps (run_job_times env job times n tick) any.
Proof.
  intros Hothers. revert n tick. induction times as [|times IH]; intros n tick.
  { intros s r s' _ [= <- <-]. by split. }
  intros s r s' Hok. cbn [run_job_times].
  destruct (run_scheduled_research_job (env n) job false s) as [outcome s1] eqn:Hrun.
  destruct (takes_run _ _ _ (Hothers n) _ _ _ Hok Hrun) as [Hsteps _].
  pose proof (job_steps_ok _ _ Hsteps Hok) as Hok1.
  destruct outcome as [run|e|]; [..|by intros [= <- <-]]; intros Hrest;
    destruct (IH _ _ _ _ _ Hok1 Hrest) as [Hsteps' _]; split; try done; by transitivity s1.
Qed.

Lemma takes_due env records n tick : (forall n, others_step (env n)) ->
  takes_steps (run_due_jobs env records n tick) any.
Proof.
  intros Hothers. revert n tick. induction records as [|record records IH]; intros n tick.
  { by apply takes_ret. }
  cbn [run_due_jobs]. eapply takes_bind with (Q := any); [by apply takes_read|]. intros job _.
  eapply takes_bind; [by apply takes_times|]. intros [n' tick'] _. apply IH.
Qed.

Lemma takes_tick due_first env now max_jobs : (forall n, others_step (env n)) ->
  takes_steps (run_scheduled_research_tick due_first env now max_jobs) any.
Proof.
  intros Hothers. unfold run_scheduled_research_tick.
  eapply takes_bind with (Q := any); [|intros; by apply takes_due].
  intros s r s' _. unfold list_due_scheduled_research_jobs. destruct (_ <? 0); intros [= <- <-]; by split.
Qed.

Lemma takes_answer update :
  (forall s r s', update s = (r, s') -> job_step s s') -> takes_steps (answer_job update) any.
Proof.
  intros Hstep. eapply takes_bind; [exact (takes_step update Hstep)|]. intros [record|] _.
  - eapply takes_bind with (Q := any); [by apply takes_read|]. intros. by apply takes_ret.
  - by apply takes_ret.
Qed.

Lemma takes_run_once env id : others_step env ->
  takes_steps (run_once_scheduled_research_job env id) any.
Proof.
  intros Hothers. unfold run_once_scheduled_research_job.
  eapply takes_bind with (Q := any).
  { intros s r s' _ [= <- <-]. by split. }
  intros [record|] _; [|by apply takes_ret].
  eapply takes_bind with (Q := any); [by apply takes_read|]. intros job _.
  eapply takes_bind; [by apply takes_run|]. intros. by apply takes_ret.
Qed.

Lemma takes_create id now db_now payload s r s' :
  find_job id s = None -> job_tables_ok s ->
  create_scheduled_research_job id now db_now payload s = (r, s') -> rtc job_step s s'.
Proof.
  intros Hnone Hok. unfold create_scheduled_research_job, mbind, J_bind, J_read at 1.
  destruct (ScheduledResearchJobRequest_validate payload); try (by intros [= <- <-]).
  destruct (insert_scheduled_research_job id now db_now payload s) as [outcome s1] eqn:Hins.
  pose proof (step_insert _ _ _ _ _ _ _ Hnone Hins) as Hstep.
  destruct outcome as [record| |]; intros [= <- <-]; by apply rtc_once.
Qed.

(** A call of the API or of the scheduler, other sessions interfering as they like. *)
Inductive job_call : JobStore -> JobStore -> Prop :=
  | call_create id now db_now payload r s s' :
      find_job id s = None -> create_scheduled_research_job id now db_now payload s = (r, s') ->
      job_call s s'
  | call_pause id db_now r s s' : pause_scheduled_research_job id db_now s = (r, s') -> job_call s s'
  | call_resume id now db_now r s s' :
      resume_scheduled_research_job id now db_now s = (r, s') -> job_call s s'
  | call_reset id db_now r s s' : reset_scheduled_research_job id db_now s = (r, s') -> job_call s s'
  | call_run_once env id r s s' :
      others_step env -> run_once_scheduled_research_job env id s = (r, s') -> job_call s s'
  | call_tick due_first env now max_jobs r s s' :
      (forall n, others_step (env n)) ->
      run_scheduled_research_tick due_first env now max_jobs s = (r, s') -> job_call s s'.

Lemma job_call_steps s s' : job_call s s' -> job_tables_ok s -> rtc job_step s s'.
Proof.
  intros Hcall Hok. destruct Hcall as
    [id now db_now payload r s s' Hnone Hc|id db_now r s s' Hc|id now db_now r s s' Hc
    |id db_now r s s' Hc|env id r s s' Ho Hc|due_first env now max_jobs r s s' Ho Hc].
  - by eapply takes_create.
  - apply (fun H => proj1 (takes_answer _ H _ _ _ Hok Hc)). intros s1 r1 s1' Hu.
    exact (step_control id db_now false _ _ _ _ _ (or_introl eq_refl) Hu).
  - apply (fun H => proj1 (takes_answer _ H _ _ _ Hok Hc)). intros s1 r1 s1' Hu.
    exact (step_control id db_now true _ _ _ _ _ (or_introl eq_refl) Hu).
  - apply (fun H => proj1 (takes_answer _ H _ _ _ Hok Hc)). intros s1 r1 s1' Hu. by eapply step_reset.
  - by eapply takes_run_once.
  - by eapply takes_tick.
Qed.

(** C24.  However the calls of the API, the ticks of the scheduler and the runs of other sessions are
    interleaved, the tables stay well-formed: the rows can be read; a job that is disabled,
    paused or auto-paused is switched off; an auto-paused one has its reason and no due time;
    one that backs off is due exactly when its backoff ends; every run belongs to a job.  Each
    call is a sequence of single statements, and the scheduler claims only what is enabled and
    schedulable. *)
Theorem job_calls_keep_tables s s' :
  job_tables_ok s -> rtc job_call s s' ->
  rtc job_step s s' /\ job_tables_ok s' /\
  forall id now db_now record s'',
    try_claim_scheduled_research_job id now db_now false s' = (Ok (Some record), s'') ->
    jr_enabled record = true /\ jr_status record = "RUNNING" /\
    (forall t, jr_backoff_until record = Some t -> t <= now) /\
    forall now' db_now' manual,
      try_claim_scheduled_research_job id now' db_now' manual s'' = (Ok None, s'').
Proof.
  intros Hok Hcalls.
  assert (rtc job_step s s') as Hsteps.
  { induction Hcalls as [|s s1 s' Hcall _ IH]; [done|]. pose proof (job_call_steps _ _ Hcall Hok) as H1.
    transitivity s1; [done|]. apply IH. by eapply job_steps_ok. }
  split; [done|]. split; [by eapply job_steps_ok|].
  intros id now db_now record s''. unfold try_claim_scheduled_research_job.
  rewrite update_job_spec. destruct (find_job id s') as [row|] eqn:Hrow; [|discriminate].
  unfold claimable at 1. destruct (jr_enabled row) eqn:Hen; cbn -[status_in]; [|by rewrite andb_false_r].
  destruct (String.eqb_spec (jr_status row) "RUNNING") as [|Hne]; [done|]. cbn -[status_in].
  destruct (status_in (jr_status row) ["ENABLED"; "ERROR"; "BACKING_OFF"]); [|done].
  cbn -[status_in]. destruct (backoff_over now row) eqn:Hb; [|done].
  intros [= <- <-]. cbn. split; [done|]. split; [done|]. split.
  - intros t Ht. unfold backoff_over in Hb. rewrite Ht in Hb. lia.
  - intros now' db_now' manual. rewrite update_job_spec, find_updated by done.
    rewrite Hrow. cbn. by rewrite Z.eqb_refl.
Qed.

(** ** A job that keeps failing *)

Definition executions (id : Z) (s : JobStore) : Z :=
  Z.of_nat (length (List.filter
    (fun run => (uw_job_id run =? id) && String.eqb (uw_status run) "FAILED") (jb_runs s))).

(** How many failing runs the scheduler still has for a job. *)
Definition remaining (max_failures id : Z) (s : JobStore) : Z :=
  match find_job id s with
  | Some row =>
      if jr_enabled row && schedulable_status row
      then Z.max 1 (max_failures - jr_consecutive_failure_count row) else 0
  | None => 0
  end.

Definition fails (outcome : res string ScheduledJobExecution) : Prop :=
  match outcome with
  | Ok execution => jx_status execution = ScheduledResearchJobRunStatus.Failed
  | Err _ => True
  | Panic => False
  end.

Definition outcome_of (outcome : res string ScheduledJobExecution) : string + ScheduledJobExecution :=
  match outcome with Ok execution => inr execution | Err e => inl e | Panic => inl "" end.

(** The work fails, the policy pauses at [max_failures], and nobody else touches the job. *)
Record failing_env (id max_failures : Z) (kind : ScheduledResearchJobKind.t) (env : JobEnv) : Prop := {
  fe_fails : forall job, sj_id job = id -> sj_kind job = kind -> fails (execute_job_kind env job);
  fe_policy : fp_max_consecutive_failures (jv_policy env) = max_failures;
  fe_others : forall s, find_job id (jv_others env s) = find_job id s /\
    executions id (jv_others env s) = executions id s
}.

Lemma checked_fails outcome ok : fails outcome ->
  jx_status (checked_execution (outcome_of outcome) ok) = ScheduledResearchJobRunStatus.Failed.
Proof. destruct outcome as [execution| |], ok; cbn; intros H; by try destruct H. Qed.

Lemma failing_completion job execution completed_at policy completion :
  jx_status execution = ScheduledResearchJobRunStatus.Failed ->
  job_completion_update job execution completed_at policy = Ok completion ->
  ju_consecutive_failure_count completion = next_failure_count (sj_consecutive_failure_count job) /\
  if fp_max_consecutive_failures policy <=? next_failure_count (sj_consecutive_failure_count job)
  then ju_status completion = ScheduledResearchJobStatus.AutoPaused /\
       ju_enabled completion = false /\ ju_next_run_at completion = None
  else ju_enabled completion = sj_enabled job /\
       (ju_status completion = ScheduledResearchJobStatus.BackingOff \/
        ju_status completion = ScheduledResearchJobStatus.Error).
Proof.
  intros Hf. unfold job_completion_update. destruct (ok_of _) as [normal| |]; cbn; try discriminate.
  rewrite bool_decide_true by done. destruct (_ <=? _); [by injection 1 as <-|].
  destruct (scheduled_research_backoff_until _ _ _ _) as [[t|]| |]; cbn; try discriminate;
    injection 1 as <-; cbn; auto.
Qed.

Definition marked (completed_at db_now : Z) (completion : ScheduledJobCompletionUpdate)
    (row row' : ScheduledResearchJobRecord) : Prop :=
  jr_kind row' = jr_kind row /\ jr_enabled row' = ju_enabled completion /\
  jr_interval_seconds row' = jr_interval_seconds row /\
  jr_status row' = ScheduledResearchJobStatus.as_str (ju_status completion) /\
  jr_next_run_at row' = ju_next_run_at completion /\
  jr_backoff_until row' = ju_backoff_until completion /\
  jr_consecutive_failure_count row' = ju_consecutive_failure_count completion /\
  jr_last_run_at row' = Some completed_at.

(** What the end of a run leaves of the job and of its runs. *)
Lemma record_execution_spec env job manual before outcome s r s' row :
  find_job (sj_id job) s = Some row ->
  let execution := checked_execution outcome (bool_decide (before = jb_counts s)) in
  let run := executed_run env job manual before (jb_counts s) execution in
  record_execution env job manual before outcome s = (r, s') ->
  jb_runs s' = jb_runs s ++ [run_row run] /\
  match job_completion_update job execution (jv_completed_at env) (jv_policy env) with
  | Ok completion => r = Ok run /\
      if jv_mark_fails env then find_job (sj_id job) s' = Some row
      else exists row', find_job (sj_id job) s' = Some row' /\
        marked (jv_completed_at env) (jv_marked_now env) completion row row'
  | Err e => r = Err (JobInvalid e) /\ find_job (sj_id job) s' = Some row
  | Panic => r = Panic /\ find_job (sj_id job) s' = Some row
  end.
Proof.
  intros Hrow execution run. unfold record_execution. fold execution. fold run.
  clearbody execution. unfold mbind, J_bind, insert_scheduled_research_job_run.
  change (ur_job_id run) with (sj_id job). rewrite Hrow. unfold J_read at 1.
  destruct (job_completion_update _ _ _ _) as [completion| |]; [|by intros [= <- <-]..].
  destruct (jv_mark_fails env).
  { unfold mret, J_ret, J_read. rewrite run_row_reads. by intros [= <- <-]. }
  unfold mark_scheduled_research_job_after_run. rewrite update_job_spec.
  assert (find_job (sj_id job) {| jb_jobs := jb_jobs s; jb_runs := jb_runs s ++ [run_row run];
                                  jb_counts := jb_counts s |} = Some row) as -> by done.
  unfold J_read. rewrite run_row_reads. intros [= <- <-]. split; [done|]. split; [done|].
  eexists. split; [unfold find_job in Hrow |- *; cbn [jb_jobs set_jobs]; rewrite find_key_rewrite by done;
                   rewrite Hrow; cbn; by rewrite Z.eqb_refl|].
  done.
Qed.

Lemma executions_app id s runs : executions id {| jb_jobs := jb_jobs s; jb_runs := jb_runs s ++ runs;
    jb_counts := jb_counts s |} =
  executions id s + executions id {| jb_jobs := []; jb_runs := runs; jb_counts := jb_counts s |}.
Proof. unfold executions. cbn [jb_runs]. rewrite List.filter_app, length_app. lia. Qed.

Lemma insert_run_effect run s r s' id :
  insert_scheduled_research_job_run run s = (r, s') ->
  ur_status run <> ScheduledResearchJobRunStatus.Failed ->
  find_job id s' = find_job id s /\ executions id s' = executions id s.
Proof.
  intros Hins Hst. revert Hins. unfold insert_scheduled_research_job_run.
  destruct (find_job _ s); intros [= <- <-]; [|done]. split; [done|].
  rewrite executions_app. unfold executions at 2. cbn.
  destruct (ur_status run); cbn; rewrite ?andb_false_r; cbn; try done; lia.
Qed.

Lemma skip_effect env job status reason s r s' id :
  status <> ScheduledResearchJobRunStatus.Failed ->
  record_skip_without_run_history env job status reason s = (r, s') ->
  find_job id s' = find_job id s /\ executions id s' = executions id s.
Proof.
  intros Hst. unfold record_skip_without_run_history. case_bool_decide; [by intros [= <- <-]|].
  unfold mbind, J_bind.
  destruct (insert_scheduled_research_job_run _ s) as [outcome s1] eqn:Hins.
  destruct (insert_run_effect _ _ _ _ id Hins Hst) as [Hf He].
  destruct outcome as [record| |]; intros [= <- <-]; done.
Qed.

(** The guards that a scheduled run passes before it tries to claim its job. *)
Definition passes_guards (env : JobEnv) (job : ScheduledResearchJob) : bool :=
  sj_enabled job && negb (bool_decide (sj_status job = ScheduledResearchJobStatus.Paused)) &&
  negb (is_backing_off env job).

Definition claims (env : JobEnv) (job : ScheduledResearchJob) (s : JobStore) : bool :=
  passes_guards env job &&
  match find_job (sj_id job) s with
  | Some row => claimable (jv_started_at env) false row
  | None => false
  end.

(** A scheduled run that does not claim its job leaves it alone. *)
Lemma unclaimed_run env job s r s' id :
  claims env job s = false -> run_scheduled_research_job env job false s = (r, s') ->
  find_job id s' = find_job id s /\ executions id s' = executions id s.
Proof.
  unfold claims, passes_guards, run_scheduled_research_job. cbn [negb andb].
  destruct (sj_enabled job), (bool_decide (sj_status job = ScheduledResearchJobStatus.Paused)); cbn [negb orb andb].
  2: destruct (is_backing_off env job) eqn:Hback; cbn [negb andb].
  2: intros _; by apply skip_effect.
  2: { intros Hcl. unfold mbind at 1, J_bind at 1. unfold try_claim_scheduled_research_job.
       rewrite update_job_spec. destruct (find_job (sj_id job) s) as [row|] eqn:Hrow; [rewrite Hcl|];
         unfold mbind, J_bind, get_scheduled_research_job; rewrite Hrow; apply skip_effect;
         unfold not_claimed_status; repeat case_match; done. }
  all: intros _; unfold mbind, J_bind;
    destruct (insert_scheduled_research_job_run _ s) as [outcome s1] eqn:Hins;
    apply (insert_run_effect _ _ _ _ id) in Hins; [|done]; destruct outcome; by intros [= <- <-].
Qed.

Definition claimed (env : JobEnv) (row : ScheduledResearchJobRecord) : ScheduledResearchJobRecord :=
  with_job_status "RUNNING" (jv_claimed_now env) row.

(** A row that can be read. *)
Definition readable (kind : ScheduledResearchJobKind.t) (row : ScheduledResearchJobRecord) : Prop :=
  jr_kind row = ScheduledResearchJobKind.as_str kind /\
  exists status, jr_status row = ScheduledResearchJobStatus.as_str status.

(** One that claims it runs it. *)
Lemma claimed_run env job s row kind :
  claims env job s = true -> find_job (sj_id job) s = Some row -> readable kind row ->
  let s1 := set_jobs (rewrite_key jr_id (sj_id job) (claimed env) (jb_jobs s)) s in
  find_job (sj_id job) s1 = Some (claimed env row) /\
  run_scheduled_research_job env job false s =
    run_claimed_job env (job_of (claimed env row) kind ScheduledResearchJobStatus.Running) false s1.
Proof.
  intros Hcl Hrow [Hkind _] s1. unfold claims, passes_guards in Hcl. rewrite Hrow in Hcl.
  apply andb_true_iff in Hcl as [[[Hen Hp]%andb_true_iff Hb]%andb_true_iff Hcl]. split.
  { unfold s1. rewrite find_updated, Hrow by done. cbn. by rewrite Z.eqb_refl. }
  unfold run_scheduled_research_job. rewrite Hen. apply negb_true_iff in Hp, Hb. rewrite Hp, Hb.
  cbn [negb andb orb]. unfold mbind at 1, J_bind at 1, try_claim_scheduled_research_job.
  rewrite update_job_spec, Hrow, Hcl. fold (claimed env row). fold (claimed env). fold s1.
  unfold mbind, J_bind, J_read. unfold scheduled_research_job_from_record.
  change (jr_kind (claimed env row)) with (jr_kind row). rewrite Hkind, from_str_print.
  change (jr_status (claimed env row)) with
    (ScheduledResearchJobStatus.as_str ScheduledResearchJobStatus.Running).
  by rewrite from_str_print.
Qed.

Definition failing_row (kind : ScheduledResearchJobKind.t) (row : ScheduledResearchJobRecord) : Prop :=
  readable kind row /\ 0 <= jr_consecutive_failure_count row <= i32_max.

Definition after_failure (max_failures : Z) (row row' : ScheduledResearchJobRecord) : Prop :=
  jr_consecutive_failure_count row' = next_failure_count (jr_consecutive_failure_count row) /\
  jr_interval_seconds row' = jr_interval_seconds row /\
  if max_failures <=? next_failure_count (jr_consecutive_failure_count row)
  then jr_status row' = "AUTO_PAUSED" /\ jr_enabled row' = false /\ jr_next_run_at row' = None
  else jr_enabled row' = jr_enabled row /\ schedulable_status row' = true.

Lemma completion_never_errs job execution completed_at policy e :
  job_completion_update job execution completed_at policy <> Err e.
Proof.
  unfold job_completion_update, ok_of, scheduled_research_backoff_until.
  destruct (scheduled_research_next_run_at _ _); cbn; try done; case_bool_decide; try done;
    destruct (_ <=? _); try done; destruct (_ <? _); try done; by destruct (after_seconds _ _).
Qed.

Lemma failed_run_counts env job manual before after execution id s :
  sj_id job = id -> jx_status execution = ScheduledResearchJobRunStatus.Failed ->
  forall s', jb_runs s' = jb_runs s ++ [run_row (executed_run env job manual before after execution)] ->
  executions id s' = executions id s + 1.
Proof.
  intros Hid Hf s' Hruns. unfold executions. rewrite Hruns, List.filter_app, length_app. cbn.
  rewrite Hid, Z.eqb_refl, Hf. cbn. lia.
Qed.

(** A run whose work fails. *)
Lemma failing_attempt id max_failures kind env job s r s' row :
  failing_env id max_failures kind env -> sj_id job = id ->
  find_job id s = Some row -> failing_row kind row ->
  run_scheduled_research_job env job false s = (r, s') ->
  exists row', find_job id s' = Some row' /\ failing_row kind row' /\
    if claims env job s then
      executions id s' = executions id s + 1 /\
      (jr_status row' = "RUNNING" /\ (r = Panic \/ jv_mark_fails env = true) \/
       r <> Panic /\ after_failure max_failures row row')
    else row' = row /\ executions id s' = executions id s.
Proof.
  intros [Hfails Hpol Hothers] Hid Hrow [Hread Hcount] Hrun. destruct (claims env job s) eqn:Hcl.
  2: { destruct (unclaimed_run _ _ _ _ _ id Hcl Hrun) as [Hf He]. exists row. by rewrite Hf. }
  rewrite <- Hid in Hrow. destruct (claimed_run _ _ _ _ _ Hcl Hrow Hread) as [Hrow1 Heq].
  rewrite Heq in Hrun. clear Heq. rewrite Hid in *.
  set (s1 := set_jobs _ s) in *. assert (executions id s1 = executions id s) as He1 by done.
  clearbody s1. set (job1 := job_of _ _ _) in *. destruct (Hothers s1) as [Ho He].
  assert (sj_id job1 = id) as Hid1 by (rewrite <- (proj2 (find_job_some _ _ _ Hrow)); done).
  specialize (Hfails job1 Hid1 eq_refl).
  assert (record_execution env job1 false (jb_counts s1) (outcome_of (execute_job_kind env job1))
            (jv_others env s1) = (r, s')) as Hrec.
  { unfold run_claimed_job in Hrun. by destruct (execute_job_kind env job1). }
  rewrite <- Ho, <- Hid1 in Hrow1. pose proof (checked_fails _ (bool_decide
    (jb_counts s1 = jb_counts (jv_others env s1))) Hfails) as Hfailed.
  destruct (record_execution_spec _ _ _ _ _ _ _ _ _ Hrow1 Hrec) as [Hruns Hend]. rewrite Hid1 in *.
  set (execution := checked_execution _ _) in *. clearbody execution.
  assert (executions id s' = executions id s + 1) as He'.
  { rewrite <- He1, <- He. by eapply failed_run_counts. }
  assert (failing_row kind (claimed env row)) as Hclaimed.
  { split; [|done]. split; [apply Hread|]. by exists ScheduledResearchJobStatus.Running. }
  destruct (job_completion_update _ _ _ _) as [completion|e|] eqn:Hc.
  2: by apply completion_never_errs in Hc.
  2: { destruct Hend as [-> Hf]. exists (claimed env row). do 3 (split; [done|]). left. auto. }
  destruct (jv_mark_fails env).
  { destruct Hend as [-> Hf]. exists (claimed env row). do 3 (split; [done|]). left. auto. }
  destruct Hend as (-> & row' & Hf & Hk & Hen & Hi & Hst & Hn & _ & Hcnt & _).
  destruct (failing_completion _ _ _ _ _ Hfailed Hc) as [Hcount' Hshape].
  exists row'. split; [done|].
  change (sj_consecutive_failure_count job1) with (jr_consecutive_failure_count row) in *.
  pose proof (next_failure_count_bounds _ Hcount) as Hb. split.
  - split; [split|rewrite Hcnt, Hcount'; lia].
    + rewrite Hk. apply Hread.
    + by exists (ju_status completion).
  - split; [done|]. right. split; [done|]. split; [congruence|]. split; [done|].
    rewrite Hpol in Hshape. destruct (_ <=? _).
    + destruct Hshape as (Hs & He2 & Hn2). rewrite Hst, Hs, Hen, Hn. done.
    + destruct Hshape as (He2 & Hs). rewrite Hen, He2. split; [done|].
      unfold schedulable_status. rewrite Hst. by destruct Hs as [-> | ->].
Qed.

Lemma remaining_nonneg max_failures id s : 0 <= remaining max_failures id s.
Proof. unfold remaining. destruct (find_job id s); [destruct (_ && _)|]; lia. Qed.

Lemma claims_schedulable id env job s row :
  sj_id job = id -> find_job id s = Some row -> claims env job s = true ->
  jr_enabled row = true /\ schedulable_status row = true.
Proof.
  intros Hid Hrow. unfold claims. rewrite Hid, Hrow. unfold claimable, schedulable_status.
  intros [_ [[[_ Hen]%andb_true_iff Hst]%andb_true_iff _]%andb_true_iff]%andb_true_iff. done.
Qed.

(** Each execution uses up one of the remaining runs. *)
Lemma failing_attempt_remaining id max_failures kind env job s r s' row :
  1 <= max_failures <= i32_max -> failing_env id max_failures kind env -> sj_id job = id ->
  find_job id s = Some row -> failing_row kind row ->
  run_scheduled_research_job env job false s = (r, s') ->
  exists row', find_job id s' = Some row' /\ failing_row kind row' /\
    if claims env job s then
      executions id s' = executions id s + 1 /\
      (r <> Panic /\ after_failure max_failures row row' /\
       remaining max_failures id s' = remaining max_failures id s - 1 \/
       (r = Panic \/ jv_mark_fails env = true) /\
       remaining max_failures id s' <= remaining max_failures id s - 1)
    else row' = row /\ executions id s' = executions id s /\
         remaining max_failures id s' = remaining max_failures id s.
Proof.
  intros Hm Henv Hid Hrow Hok Hrun.
  destruct (failing_attempt _ _ _ _ _ _ _ _ _ Henv Hid Hrow Hok Hrun) as (row' & Hrow' & Hok' & Hcase).
  exists row'. split; [done|]. split; [done|]. unfold remaining. rewrite Hrow', Hrow.
  destruct (claims env job s) eqn:Hcl.
  2: { by destruct Hcase as [-> ->]. }
  destruct (claims_schedulable _ _ _ _ _ Hid Hrow Hcl) as [Hen Hst]. rewrite Hen, Hst. cbn [andb].
  destruct Hcase as [He [[Hrunning Hend]|[Hr Hafter]]]; (split; [done|]).
  - right. split; [done|]. unfold schedulable_status. rewrite Hrunning. cbn. rewrite andb_false_r. lia.
  - left. split; [done|]. split; [done|]. destruct Hafter as (Hn & _ & Hshape).
    destruct (proj2 Hok). unfold next_failure_count in *.
    destruct (Z.leb_spec max_failures (Z.min i32_max (jr_consecutive_failure_count row + 1))) as [Hle|Hgt].
    + destruct Hshape as (_ & -> & _). cbn. lia.
    + destruct Hshape as [-> ->]. rewrite Hen, Hn. cbn [andb]. lia.
Qed.

(** *** When the clock does not fail *)

(** Times up to the longest wait of a job exist. *)
Definition clock_reaches (env : JobEnv) (interval_seconds : Z) : Prop :=
  1 <= fp_backoff_base_seconds (jv_policy env) /\ 1 <= fp_backoff_max_seconds (jv_policy env) /\
  forall n, 0 < n <= Z.max interval_seconds (fp_backoff_max_seconds (jv_policy env)) ->
    is_Some (after_seconds (jv_completed_at env) n).

Lemma backoff_seconds_bounds count base max :
  2 <= count -> 1 <= base -> 1 <= max -> 0 < backoff_seconds count base max <= max.
Proof.
  intros Hc Hb Hm. unfold backoff_seconds.
  assert (1 <= (if count =? 2 then 1 else saturate_i64 (3 * saturating_pow2 (count - 3)))) as Hmul.
  { destruct (Z.eqb_spec count 2); [done|]. unfold saturating_pow2, saturate_i64.
    destruct (Z.ltb_spec (count - 3) 63); [|unfold i64_max; lia].
    assert (0 < 2 ^ (count - 3)) by (apply Z.pow_pos_nonneg; lia). unfold i64_max. lia. }
  assert (1 <= base * (if count =? 2 then 1 else saturate_i64 (3 * saturating_pow2 (count - 3)))) by nia.
  set (product := base * _) in *. clearbody product. unfold saturate_i64, i64_max. lia.
Qed.

Lemma completion_returns env job execution :
  clock_reaches env (sj_interval_seconds job) ->
  job_completion_update job execution (jv_completed_at env) (jv_policy env) <> Panic.
Proof.
  intros (Hb & Hm & Hclock). unfold job_completion_update, scheduled_research_next_run_at.
  assert (forall count, scheduled_research_backoff_until (jv_completed_at env) count
    (fp_backoff_base_seconds (jv_policy env)) (fp_backoff_max_seconds (jv_policy env)) <> Panic) as Hback.
  { intros count. unfold scheduled_research_backoff_until. destruct (Z.ltb_spec count 2); [done|].
    destruct (Hclock (backoff_seconds count (fp_backoff_base_seconds (jv_policy env))
                        (fp_backoff_max_seconds (jv_policy env)))) as [t ->]; [|done].
    pose proof (backoff_seconds_bounds count _ _ ltac:(lia) Hb Hm). lia. }
  destruct (Z.leb_spec (sj_interval_seconds job) 0) as [Hi|Hi];
    [|destruct (Hclock (sj_interval_seconds job)) as [t ->]; [lia|]]; cbn;
    (case_bool_decide; [|done]); (destruct (_ <=? _); [done|]);
    specialize (Hback (next_failure_count (sj_consecutive_failure_count job)));
    by destruct (scheduled_research_backoff_until _ _ _ _).
Qed.

Lemma claimed_run_returns id max_failures kind env job s r s' row :
  failing_env id max_failures kind env -> sj_id job = id ->
  find_job id s = Some row -> readable kind row -> claims env job s = true ->
  clock_reaches env (jr_interval_seconds row) ->
  run_scheduled_research_job env job false s = (r, s') -> r <> Panic.
Proof.
  intros [Hfails _ Hothers] Hid Hrow Hread Hcl Hclock Hrun. rewrite <- Hid in Hrow.
  destruct (claimed_run _ _ _ _ _ Hcl Hrow Hread) as [Hrow1 Heq]. rewrite Heq in Hrun. clear Heq.
  rewrite Hid in *. set (s1 := set_jobs _ s) in *. clearbody s1. set (job1 := job_of _ _ _) in *.
  assert (sj_id job1 = id) as Hid1 by (rewrite <- (proj2 (find_job_some _ _ _ Hrow)); done).
  specialize (Hfails job1 Hid1 eq_refl).
  assert (record_execution env job1 false (jb_counts s1) (outcome_of (execute_job_kind env job1))
            (jv_others env s1) = (r, s')) as Hrec.
  { unfold run_claimed_job in Hrun. by destruct (execute_job_kind env job1). }
  rewrite <- (proj1 (Hothers s1)), <- Hid1 in Hrow1.
  destruct (record_execution_spec _ _ _ _ _ _ _ _ _ Hrow1 Hrec) as [_ Hend].
  pose proof (completion_returns env job1
    (checked_execution (outcome_of (execute_job_kind env job1))
       (bool_decide (jb_counts s1 = jb_counts (jv_others env s1)))) Hclock) as Hret.
  destruct (job_completion_update _ _ _ _); [by destruct Hend as [-> _]|by destruct Hend as [-> _]|done].
Qed.

(** The end of a run is stored: its times exist and the statement that marks it succeeds. *)
Definition finishes (env : JobEnv) (interval_seconds : Z) : Prop :=
  clock_reaches env interval_seconds /\ jv_mark_fails env = false.

(** The runs that the scheduler attempts one after the other, each with what it read of the job. *)
Fixpoint attempt_runs (attempts : list (JobEnv * ScheduledResearchJob)) (s : JobStore) : JobStore :=
  match attempts with
  | [] => s
  | (env, job) :: attempts => attempt_runs attempts (snd (run_scheduled_research_job env job false s))
  end.

Fixpoint all_claim (attempts : list (JobEnv * ScheduledResearchJob)) (s : JobStore) : Prop :=
  match attempts with
  | [] => True
  | (env, job) :: attempts =>
      claims env job s = true /\ all_claim attempts (snd (run_scheduled_research_job env job false s))
  end.

(** The runs left are bounded by the policy, and used up by executions. *)
Lemma failing_runs_bounded id max_failures kind attempts s row :
  1 <= max_failures <= i32_max ->
  Forall (fun '(env, job) => sj_id job = id /\ failing_env id max_failures kind env) attempts ->
  find_job id s = Some row -> failing_row kind row ->
  executions id (attempt_runs attempts s) + remaining max_failures id (attempt_runs attempts s)
    <= executions id s + remaining max_failures id s.
Proof.
  intros Hm. revert s row. induction attempts as [|[env job] attempts IH]; intros s row Hall Hrow Hok.
  { done. }
  apply Forall_cons in Hall as [[Hid Henv] Hall]. cbn [attempt_runs].
  destruct (run_scheduled_research_job env job false s) as [r s1] eqn:Hrun. cbn [snd].
  destruct (failing_attempt_remaining _ _ _ _ _ _ _ _ _ Hm Henv Hid Hrow Hok Hrun)
    as (row1 & Hrow1 & Hok1 & Hcase).
  etransitivity; [exact (IH s1 row1 Hall Hrow1 Hok1)|].
  destruct (claims env job s); [destruct Hcase as [-> [(_ & _ & ->)|[_ Hle]]]; lia|].
  destruct Hcase as (_ & -> & ->). done.
Qed.

Lemma claiming_runs_execute id max_failures kind attempts s row :
  1 <= max_failures <= i32_max ->
  Forall (fun '(env, job) => sj_id job = id /\ failing_env id max_failures kind env) attempts ->
  find_job id s = Some row -> failing_row kind row -> all_claim attempts s ->
  executions id (attempt_runs attempts s) = executions id s + Z.of_nat (length attempts).
Proof.
  intros Hm. revert s row. induction attempts as [|[env job] attempts IH]; intros s row Hall Hrow Hok Hcl.
  { cbn. lia. }
  apply Forall_cons in Hall as [[Hid Henv] Hall]. cbn [attempt_runs all_claim] in *.
  destruct Hcl as [Hcl Hrest]. destruct (run_scheduled_research_job env job false s) as [r s1] eqn:Hrun.
  cbn [snd] in *.
  destruct (failing_attempt_remaining _ _ _ _ _ _ _ _ _ Hm Henv Hid Hrow Hok Hrun)
    as (row1 & Hrow1 & Hok1 & Hcase).
  rewrite Hcl in Hcase. rewrite (IH s1 row1 Hall Hrow1 Hok1 Hrest), (proj1 Hcase). cbn [length]. lia.
Qed.

Definition auto_paused (id : Z) (s : JobStore) : Prop :=
  exists row, find_job id s = Some row /\ jr_status row = "AUTO_PAUSED" /\ jr_enabled row = false /\
    jr_next_run_at row = None.

Lemma failing_runs_pause id max_failures kind interval attempts s row :
  1 <= max_failures <= i32_max ->
  Forall (fun '(env, job) => sj_id job = id /\ failing_env id max_failures kind env /\
                             finishes env interval) attempts ->
  find_job id s = Some row -> failing_row kind row -> jr_interval_seconds row = interval ->
  all_claim attempts s -> Z.of_nat (length attempts) = remaining max_failures id s ->
  attempts <> [] -> auto_paused id (attempt_runs attempts s).
Proof.
  intros Hm. revert s row. induction attempts as [|[env job] attempts IH]; intros s row Hall Hrow Hok Hi Hcl Hlen Hne.
  { done. }
  apply Forall_cons in Hall as [(Hid & Henv & [Hclock Hmark]) Hall]. cbn [attempt_runs all_claim] in *.
  destruct Hcl as [Hcl Hrest]. destruct (run_scheduled_research_job env job false s) as [r s1] eqn:Hrun.
  cbn [snd] in *.
  destruct (failing_attempt_remaining _ _ _ _ _ _ _ _ _ Hm Henv Hid Hrow Hok Hrun)
    as (row1 & Hrow1 & Hok1 & Hcase).
  rewrite Hcl in Hcase. rewrite <- Hi in Hclock.
  pose proof (claimed_run_returns _ _ _ _ _ _ _ _ _ Henv Hid Hrow (proj1 Hok) Hcl Hclock Hrun) as Hret.
  destruct Hcase as [_ [(_ & (_ & Hi1 & Hshape) & Hrem)|[[?|?] _]]]; [|done|congruence].
  destruct attempts as [|attempt attempts].
  - cbn [attempt_runs length Z.of_nat Pos.of_succ_nat] in *. exists row1. unfold remaining in Hrem, Hlen. rewrite Hrow1 in Hrem. rewrite Hrow in Hrem, Hlen.
    destruct (claims_schedulable _ _ _ _ _ Hid Hrow Hcl) as [Hen Hst]. rewrite Hen, Hst in Hrem, Hlen.
    cbn [andb] in Hrem, Hlen. split; [done|]. destruct (_ <=? _); [done|].
    destruct Hshape as [Hen1 Hst1]. rewrite Hen1, Hen, Hst1 in Hrem. cbn [andb] in Hrem. lia.
  - apply (IH s1 row1 Hall Hrow1 Hok1); [congruence|done| |done].
    rewrite Hrem. cbn [length] in *. lia.
Qed.

(** C35.  A job whose work always fails is stopped by the scheduler.  However often it is attempted,
    by whichever ticks and with whatever stale copies of the row, it is executed at most as often
    as the policy leaves it failures ([remaining]: at least one, at most
    [max_consecutive_failures]), whether or not the ends of its runs are stored; once that many
    attempts have found it due and stored their end ([finishes]), it is AUTO_PAUSED, switched off
    and without a due time, and no tick lists it again. *)
Theorem failing_job_is_auto_paused id max_failures kind interval attempts s row :
  1 <= max_failures <= i32_max ->
  Forall (fun '(env, job) => sj_id job = id /\ failing_env id max_failures kind env) attempts ->
  find_job id s = Some row -> failing_row kind row -> jr_interval_seconds row = interval ->
  let s' := attempt_runs attempts s in
  executions id s' <= executions id s + remaining max_failures id s /\
  remaining max_failures id s <= max_failures /\
  (all_claim attempts s -> Z.of_nat (length attempts) <= remaining max_failures id s) /\
  (Forall (fun '(env, _) => finishes env interval) attempts ->
   all_claim attempts s -> attempts <> [] -> Z.of_nat (length attempts) = remaining max_failures id s ->
   auto_paused id s' /\ executions id s' = executions id s + Z.of_nat (length attempts) /\
   forall row' now, find_job id s' = Some row' ->
     is_due now row' = false /\ claimable now false row' = false).
Proof.
  intros Hm Hall Hrow Hok Hi s'.
  pose proof (failing_runs_bounded _ _ _ _ _ _ Hm Hall Hrow Hok) as Hbound. fold s' in Hbound.
  pose proof (remaining_nonneg max_failures id s').
  split; [lia|]. split.
  { unfold remaining. rewrite Hrow. destruct (proj2 Hok). destruct (_ && _); lia. }
  split.
  - intros Hcl. pose proof (claiming_runs_execute _ _ _ _ _ _ Hm Hall Hrow Hok Hcl) as He.
    fold s' in He. lia.
  - intros Hfin Hcl Hne Hlen.
    assert (Forall (fun '(env, job) => sj_id job = id /\ failing_env id max_failures kind env /\
      finishes env interval) attempts) as Hall'.
    { eapply Forall_impl; [exact (proj2 (Forall_and _ _) (conj Hall Hfin))|].
      intros [env job] [[Hid Henv] Hend]. done. }
    pose proof (failing_runs_pause _ _ _ _ _ _ _ Hm Hall' Hrow Hok Hi Hcl Hlen Hne) as Hpaused.
    fold s' in Hpaused. split; [done|]. split; [by eapply claiming_runs_execute|].
    intros row' now Hrow'. destruct Hpaused as (row1 & Hrow1 & Hst & Hen & _).
    assert (row1 = row') as -> by congruence. unfold is_due, claimable. rewrite Hen. cbn.
    by rewrite andb_false_r.
Qed.

(** ** A job that is left RUNNING *)

(** The call leaves a running job as it is. *)
Definition leaves_running {A} (id : Z) (m : J A) (Q : A -> Prop) : Prop :=
  forall s r s' row, find_job id s = Some row -> jr_status row = "RUNNING" -> m s = (r, s') ->
    find_job id s' = Some row /\ (forall a, r = Ok a -> Q a).

Definition others_leave (id : Z) (env : JobEnv) : Prop :=
  forall s, find_job id (jv_others env s) = find_job id s.

Lemma leaves_ret {A} id (a : A) (Q : A -> Prop) : Q a -> leaves_running id (mret a) Q.
Proof. intros Ha s r s' row Hrow _ [= <- <-]. split; [done|]. by intros a' [= ->]. Qed.

Lemma leaves_bind {A B} id (m : J A) (k : A -> J B) Q R :
  leaves_running id m Q -> (forall a, Q a -> leaves_running id (k a) R) ->
  leaves_running id (m ≫= k) R.
Proof.
  intros Hm Hk s r s' row Hrow Hst. unfold mbind, J_bind.
  destruct (m s) as [[a|e|] s1] eqn:Hms; destruct (Hm _ _ _ _ Hrow Hst Hms) as [Hrow1 Ha].
  2-3: by intros [= <- <-].
  exact (Hk a (Ha a eq_refl) _ _ _ _ Hrow1 Hst).
Qed.

Lemma leaves_read {A} id (m : res CoreError.t A) (Q : A -> Prop) :
  (forall a, m = Ok a -> Q a) -> leaves_running id (J_read m) Q.
Proof.
  intros Ha s r s' row Hrow _ [= <- <-]. split; [done|]. intros a.
  destruct m as [a'| |] eqn:Hm; [|done..]. intros [= ->]. by apply Ha.
Qed.

Lemma leaves_insert_run id run : leaves_running id (insert_scheduled_research_job_run run) any.
Proof.
  intros s r s' row Hrow _. unfold insert_scheduled_research_job_run.
  destruct (find_job (ur_job_id run) s); intros [= <- <-]; done.
Qed.

Lemma leaves_skip id env job status reason :
  leaves_running id (record_skip_without_run_history env job status reason) any.
Proof.
  unfold record_skip_without_run_history. case_bool_decide; [by apply leaves_ret|].
  eapply leaves_bind; [apply leaves_insert_run|]. intros record _. by apply leaves_read.
Qed.

Lemma leaves_update id id' guard change :
  keeps_id change -> (forall row, jr_id row = id -> jr_status row = "RUNNING" -> id' = id -> guard row = false) ->
  leaves_running id (update_job id' guard change)
    (fun r => forall record, r = Some record -> jr_id record <> id).
Proof.
  intros Hid Hguard s r s' row Hrow Hst. rewrite update_job_spec.
  destruct (Z.eq_dec id' id) as [->|Hne].
  - rewrite Hrow, (Hguard row); [|by apply (find_job_some _ s)|done..].
    intros [= <- <-]. split; [done|]. by intros a [= <-].
  - destruct (find_job id' s) as [row'|] eqn:Hrow'.
    2: { intros [= <- <-]. split; [done|]. by intros a [= <-]. }
    destruct (guard row'); intros [= <- <-]; (split; [|intros a [= <-]]); try done.
    + rewrite find_updated, Hrow by done. cbn. by rewrite (proj2 (Z.eqb_neq id id')) by congruence.
    + intros record [= <-]. rewrite Hid. by rewrite (proj2 (find_job_some _ _ _ Hrow')).
Qed.

Lemma leaves_claimed id env job manual : others_leave id env -> sj_id job <> id ->
  leaves_running id (run_claimed_job env job manual) any.
Proof.
  intros Hothers Hne s r s' row Hrow Hst. unfold run_claimed_job.
  assert (forall outcome, leaves_running id (record_execution env job manual (jb_counts s) outcome) any)
    as Hrec.
  { intros outcome s1 r1 s1' row1 Hrow1 Hst1 Hrun. unfold record_execution in Hrun.
    revert Hrun. apply (leaves_bind id _ _ any any); [apply leaves_insert_run| |done..].
    intros record _. apply (leaves_bind id _ _ any any); [by apply leaves_read|]. intros completion _.
    apply (leaves_bind id _ _ any any); [|intros; by apply leaves_read].
    destruct (jv_mark_fails env); [by apply leaves_ret|]. intros s2 r2 s2' row2 Hrow2 Hst2 Hrun2.
    split; [|done]. eapply leaves_update; [..|exact Hrun2]; done. }
  rewrite <- Hothers in Hrow.
  destruct (execute_job_kind env job); [by apply Hrec..|]. by intros [= <- <-].
Qed.

Lemma leaves_run id env job manual : others_leave id env ->
  leaves_running id (run_scheduled_research_job env job manual) any.
Proof.
  intros Hothers. unfold run_scheduled_research_job. destruct (negb manual && _).
  { eapply leaves_bind; [apply leaves_insert_run|]. intros. by apply leaves_read. }
  destruct (negb manual && _); [apply leaves_skip|]. eapply leaves_bind.
  - apply leaves_update; [done|]. intros row _ Hst _. unfold claimable. by rewrite Hst.
  - intros [record|] Hrec.
    + eapply leaves_bind; [apply (leaves_read _ _ (fun job' => sj_id job' <> id))|
        intros job'; by apply leaves_claimed].
      intros job' Hjob'. unfold scheduled_research_job_from_record, mbind, res_bind in Hjob'.
      destruct (from_str (jr_kind record)); [|discriminate..].
      destruct (from_str (jr_status record)); [|discriminate..]. injection Hjob' as <-.
      by apply Hrec.
    + eapply leaves_bind with (Q := any); [|intros; apply leaves_skip].
      intros s r s' row Hrow _ [= <- <-]. by split.
Qed.

Lemma leaves_times id env job times n tick : (forall n, others_leave id (env n)) ->
  leaves_running id (run_job_times env job times n tick) any.
Proof.
  intros Hothers. revert n tick. induction times as [|times IH]; intros n tick s r s' row Hrow Hst.
  { intros [= <- <-]. by split. }
  cbn [run_job_times].
  destruct (run_scheduled_research_job (env n) job false s) as [outcome s1] eqn:Hrun.
  destruct (leaves_run _ _ _ _ (Hothers n) _ _ _ _ Hrow Hst Hrun) as [Hrow1 _].
  destruct outcome as [run|e|]; [..|by intros [= <- <-]]; intros Hrest; by eapply IH.
Qed.

Lemma leaves_due id env records n tick : (forall n, others_leave id (env n)) ->
  leaves_running id (run_due_jobs env records n tick) any.
Proof.
  intros Hothers. revert n tick. induction records as [|record records IH]; intros n tick.
  { by apply leaves_ret. }
  cbn [run_due_jobs]. eapply leaves_bind with (Q := any); [by apply leaves_read|]. intros job _.
  eapply leaves_bind; [by apply leaves_times|]. intros [n' tick'] _. apply IH.
Qed.

(** The scheduler and the run-once call, with sessions that leave the job alone. *)
Inductive scheduler_call (id : Z) : JobStore -> JobStore -> Prop :=
  | scheduler_tick due_first env now max_jobs r s s' :
      (forall n, others_leave id (env n)) ->
      run_scheduled_research_tick due_first env now max_jobs s = (r, s') -> scheduler_call id s s'
  | scheduler_run_once env id' r s s' :
      others_leave id env ->
      run_once_scheduled_research_job env id' s = (r, s') -> scheduler_call id s s'.

Lemma scheduler_leaves_running id s s' row :
  find_job id s = Some row -> jr_status row = "RUNNING" -> rtc (scheduler_call id) s s' ->
  find_job id s' = Some row.
Proof.
  intros Hrow Hst Hcalls. induction Hcalls as [|s s1 s' Hcall _ IH]; [done|]. apply IH. clear IH.
  destruct Hcall as [due_first env now max_jobs r s s1 Ho Hrun|env id' r s s1 Ho Hrun].
  - revert Hrun. unfold run_scheduled_research_tick. intros Hrun.
    refine (proj1 (leaves_bind id _ _ any any _ _ _ _ _ _ Hrow Hst Hrun)).
    + intros s2 r2 s2' row2 Hrow2 _. unfold list_due_scheduled_research_jobs.
      destruct (_ <? 0); intros [= <- <-]; by split.
    + intros records _. by apply leaves_due.
  - refine (proj1 (leaves_bind id _ _ any any _ _ _ _ _ _ Hrow Hst Hrun)).
    + intros s2 r2 s2' row2 Hrow2 _ [= <- <-]. by split.
    + intros [record|] _; [|by apply leaves_ret].
      eapply leaves_bind with (Q := any); [by apply leaves_read|]. intros job _.
      eapply leaves_bind; [by apply leaves_run|]. intros. by apply leaves_ret.
Qed.

(** A run whose last statement fails is reported, and leaves its job RUNNING for good. *)
Lemma failed_mark_wedges_job env job s row kind :
  jv_mark_fails env = true -> clock_reaches env (jr_interval_seconds row) ->
  find_job (sj_id job) s = Some row -> readable kind row -> others_leave (sj_id job) env ->
  claims env job s = true ->
  execute_job_kind env (job_of (claimed env row) kind ScheduledResearchJobStatus.Running) <> Panic ->
  exists run s', run_scheduled_research_job env job false s = (Ok run, s') /\
    forall s'', rtc (scheduler_call (sj_id job)) s' s'' ->
      find_job (sj_id job) s'' = Some (claimed env row).
Proof.
  intros Hmark Hclock Hrow Hread Hothers Hcl Hexec.
  destruct (claimed_run _ _ _ _ _ Hcl Hrow Hread) as [Hrow1 ->].
  set (s1 := set_jobs _ s) in *. set (job1 := job_of _ _ _) in *.
  assert (sj_id job1 = sj_id job) as Hid by exact (proj2 (find_job_some _ _ _ Hrow)).
  rewrite <- Hothers, <- Hid in Hrow1.
  assert (run_claimed_job env job1 false s1 = record_execution env job1 false (jb_counts s1)
            (outcome_of (execute_job_kind env job1)) (jv_others env s1)) as ->.
  { unfold run_claimed_job. by destruct (execute_job_kind env job1). }
  destruct (record_execution _ _ _ _ _ _) as [r s'] eqn:Hrec.
  destruct (record_execution_spec _ _ _ _ _ _ _ _ _ Hrow1 Hrec) as [_ Hend].
  pose proof (completion_returns env job1 (checked_execution (outcome_of (execute_job_kind env job1))
    (bool_decide (jb_counts s1 = jb_counts (jv_others env s1)))) Hclock) as Hret.
  destruct (job_completion_update _ _ _ _) as [completion|e|] eqn:Hco;
    [|by apply completion_never_errs in Hco|done].
  rewrite Hmark, Hid in Hend. destruct Hend as [-> Hrow']. eexists _, s'. split; [done|].
  intros s'' Hcalls. by eapply scheduler_leaves_running.
Qed.

Section Seconds.
Context {CSL : ChronoSecondsLaws CS}.

(** C38.  A job whose interval is longer than a duration can be ([i64::MAX] milliseconds) is accepted
    when it is created.  Its first run does its work and records the run, then panics on the next
    due time; the job is left RUNNING, and neither a tick nor a run-once call ever touches it
    again: only a control of the API does. *)
Theorem interval_beyond_duration_wedges_job request env job s row kind :
  i64_max < jq_interval_seconds request * 1000 -> jr_interval_seconds row = jq_interval_seconds request ->
  is_empty (trim (jq_name request)) = false -> 0 < jq_max_runs_per_tick request ->
  find_job (sj_id job) s = Some row -> readable kind row -> others_leave (sj_id job) env ->
  claims env job s = true ->
  ScheduledResearchJobRequest_validate request = Ok tt /\
  exists s', run_scheduled_research_job env job false s = (Panic, s') /\
    (execute_job_kind env (job_of (claimed env row) kind ScheduledResearchJobStatus.Running) <> Panic ->
     exists run, jb_runs s' = jb_runs (jv_others env
       (set_jobs (rewrite_key jr_id (sj_id job) (claimed env) (jb_jobs s)) s)) ++ [run]) /\
    forall s'', rtc (scheduler_call (sj_id job)) s' s'' ->
      find_job (sj_id job) s'' = Some (claimed env row) /\
      forall now, is_due now (claimed env row) = false.
Proof.
  intros Hbig Hi Hname Hruns Hrow Hread Hothers Hcl.
  assert (0 < jq_interval_seconds request) as Hpos by (unfold i64_max in Hbig; lia). split.
  { unfold ScheduledResearchJobRequest_validate. rewrite Hname.
    replace (negb _) with false by by destruct (jq_kind request).
    by rewrite (proj2 (Z.leb_gt _ _) Hpos), (proj2 (Z.leb_gt _ _) Hruns). }
  destruct (claimed_run _ _ _ _ _ Hcl Hrow Hread) as [Hrow1 ->].
  set (s1 := set_jobs _ s) in *. set (job1 := job_of _ _ _).
  assert (sj_id job1 = sj_id job) as Hid by exact (proj2 (find_job_some _ _ _ Hrow)).
  assert (forall execution at_ policy, job_completion_update job1 execution at_ policy = Panic) as Hpanic.
  { intros execution at_ policy. unfold job_completion_update, scheduled_research_next_run_at.
    change (sj_interval_seconds job1) with (jr_interval_seconds row). rewrite Hi.
    rewrite (proj2 (Z.leb_gt _ _) Hpos). unfold after_seconds. rewrite try_seconds_none by lia. done. }
  assert (exists s', run_claimed_job env job1 false s1 = (Panic, s') /\
    find_job (sj_id job) s' = Some (claimed env row) /\
    (execute_job_kind env job1 <> Panic -> exists run, jb_runs s' = jb_runs (jv_others env s1) ++ [run]))
    as (s' & -> & Hrow' & Hrun').
  { unfold run_claimed_job. rewrite <- Hothers, <- Hid in Hrow1.
    assert (forall outcome, exists s', record_execution env job1 false (jb_counts s1) outcome
        (jv_others env s1) = (Panic, s') /\ find_job (sj_id job) s' = Some (claimed env row) /\
        exists run, jb_runs s' = jb_runs (jv_others env s1) ++ [run]) as Hall.
    { intros outcome. destruct (record_execution _ _ _ _ _ _) as [r s'] eqn:Hrec.
      destruct (record_execution_spec _ _ _ _ _ _ _ _ _ Hrow1 Hrec) as [Hr Hend].
      rewrite Hpanic, Hid in Hend. destruct Hend as [-> Hf]. eauto 10. }
    destruct (execute_job_kind env job1) as [execution|e|];
      [destruct (Hall (inr execution)) as (s' & ? & ? & ?)
      |destruct (Hall (inl e)) as (s' & ? & ? & ?)|]; eauto.
    exists (jv_others env s1). rewrite <- Hid. done. }
  exists s'. split; [done|]. split; [done|]. intros s'' Hcalls. split.
  - by eapply scheduler_leaves_running.
  - intros now. unfold is_due. cbn. by rewrite andb_false_r.
Qed.
End Seconds.

(** ** When a job is due again *)

(** The wait without saturation. *)
Definition backoff_wait (count base_seconds max_seconds : Z) : Z :=
  Z.min (base_seconds * (if count =? 2 then 1 else 3 * 2 ^ (count - 3))) max_seconds.

Lemma backoff_seconds_exact count base max :
  2 <= count -> 1 <= base -> 1 <= max <= i64_max ->
  backoff_seconds count base max = backoff_wait count base max.
Proof.
  intros Hc Hb Hm. unfold backoff_seconds, backoff_wait.
  assert (forall mult, 1 <= mult ->
    Z.min (saturate_i64 (base * saturate_i64 mult)) max = Z.min (base * mult) max) as Hsat.
  { intros mult Hmult. unfold saturate_i64.
    destruct (Z.le_gt_cases mult i64_max) as [Hle|Hgt].
    - rewrite (Z.min_r i64_max mult), (Z.max_r _ mult) by (unfold i64_max in *; lia).
      unfold i64_max in *. nia.
    - rewrite (Z.min_l i64_max mult), (Z.max_r _ i64_max) by (unfold i64_max in *; lia).
      assert (i64_max <= base * i64_max) by (unfold i64_max; lia). assert (i64_max <= base * mult) by nia.
      unfold i64_max in *. lia. }
  destruct (Z.eqb_spec count 2) as [|Hne]; [exact (Hsat 1 ltac:(done))|].
  assert (0 < 2 ^ (count - 3)) as Hpow by (apply Z.pow_pos_nonneg; lia).
  rewrite <- (Hsat (3 * 2 ^ (count - 3))) by lia. do 3 f_equal. unfold saturating_pow2.
  destruct (Z.ltb_spec (count - 3) 63) as [|Hge]; [done|].
  assert (2 ^ 63 <= 2 ^ (count - 3)) by (apply Z.pow_le_mono_r; lia).
  unfold saturate_i64, i64_max. lia.
Qed.

(** What a claimed run leaves. *)
Lemma claimed_run_spec env job s row kind :
  claims env job s = true -> find_job (sj_id job) s = Some row -> readable kind row ->
  others_leave (sj_id job) env -> finishes env (jr_interval_seconds row) ->
  let job1 := job_of (claimed env row) kind ScheduledResearchJobStatus.Running in
  let s1 := set_jobs (rewrite_key jr_id (sj_id job) (claimed env) (jb_jobs s)) s in
  let execution := checked_execution (outcome_of (execute_job_kind env job1))
    (bool_decide (jb_counts s1 = jb_counts (jv_others env s1))) in
  execute_job_kind env job1 <> Panic ->
  exists completion run row' s',
    job_completion_update job1 execution (jv_completed_at env) (jv_policy env) = Ok completion /\
    run_scheduled_research_job env job false s = (Ok run, s') /\
    ur_status run = jx_status execution /\ jb_runs s' = jb_runs (jv_others env s1) ++ [run_row run] /\
    find_job (sj_id job) s' = Some row' /\
    marked (jv_completed_at env) (jv_marked_now env) completion row row'.
Proof.
  intros Hcl Hrow Hread Hothers [Hclock Hmark] job1 s1 execution Hexec.
  destruct (claimed_run _ _ _ _ _ Hcl Hrow Hread) as [Hrow1 ->]. fold s1 in Hrow1 |- *. fold job1.
  assert (sj_id job1 = sj_id job) as Hid by exact (proj2 (find_job_some _ _ _ Hrow)).
  rewrite <- Hothers, <- Hid in Hrow1.
  assert (run_claimed_job env job1 false s1 = record_execution env job1 false (jb_counts s1)
            (outcome_of (execute_job_kind env job1)) (jv_others env s1)) as ->.
  { unfold run_claimed_job. by destruct (execute_job_kind env job1). }
  destruct (record_execution _ _ _ _ _ _) as [r s'] eqn:Hrec.
  destruct (record_execution_spec _ _ _ _ _ _ _ _ _ Hrow1 Hrec) as [Hr Hend].
  fold execution in Hr, Hend.
  pose proof (completion_returns env job1 execution Hclock) as Hret.
  pose proof (completion_never_errs job1 execution (jv_completed_at env) (jv_policy env)) as Hnoerr.
  destruct (job_completion_update _ _ _ _) as [completion|e|]; [|by destruct (Hnoerr e)|done].
  rewrite Hmark in Hend. destruct Hend as (-> & row' & Hrow' & Hmarked). rewrite Hid in Hrow'.
  exists completion, (executed_run env job1 false (jb_counts s1) (jb_counts (jv_others env s1)) execution),
    row', s'. done.
Qed.

Lemma checked_isolation outcome :
  jx_status (checked_execution outcome false) = ScheduledResearchJobRunStatus.Failed.
Proof. done. Qed.


(** Whether a job is due, as the end of its run leaves it. *)
Definition completion_due (completion : ScheduledJobCompletionUpdate) (now : Z) : bool :=
  ju_enabled completion &&
  match ju_status completion with
  | ScheduledResearchJobStatus.Enabled | ScheduledResearchJobStatus.Error
  | ScheduledResearchJobStatus.BackingOff => true
  | _ => false
  end &&
  match ju_next_run_at completion with Some t => t <=? now | None => false end &&
  match ju_backoff_until completion with Some t => t <=? now | None => true end.

Lemma marked_due completed_at db_now completion row row' now :
  marked completed_at db_now completion row row' -> is_due now row' = completion_due completion now.
Proof.
  intros (_ & Hen & _ & Hst & Hn & Hb & _). unfold is_due, completion_due, backoff_over.
  rewrite Hen, Hst, Hn, Hb. by destruct (ju_status completion).
Qed.

(** The end of a run of an enabled job, case by case. *)
Lemma completion_cases {CSL : ChronoSecondsLaws CS} {CAL : ChronoArithLaws CA} env job execution completion :
  sj_enabled job = true -> 0 <= sj_consecutive_failure_count job < i32_max ->
  0 < sj_interval_seconds job -> clock_reaches env (sj_interval_seconds job) ->
  fp_backoff_max_seconds (jv_policy env) <= i64_max ->
  job_completion_update job execution (jv_completed_at env) (jv_policy env) = Ok completion ->
  let count := sj_consecutive_failure_count job + 1 in
  let policy := jv_policy env in
  if bool_decide (jx_status execution = ScheduledResearchJobRunStatus.Failed) then
    ju_consecutive_failure_count completion = count /\
    if fp_max_consecutive_failures policy <=? count
    then forall now, completion_due completion now = false
    else forall now, completion_due completion now =
      (jv_completed_at env + seconds (if count =? 1 then sj_interval_seconds job
         else backoff_wait count (fp_backoff_base_seconds policy) (fp_backoff_max_seconds policy))
       <=? now)
  else
    ju_consecutive_failure_count completion = 0 /\
    ju_status completion = ScheduledResearchJobStatus.Enabled /\
    forall now, completion_due completion now =
      (jv_completed_at env + seconds (sj_interval_seconds job) <=? now).
Proof.
  intros Hen Hcount Hint (Hbase & Hmax & Hreach) Hmax64 Hco count policy.
  destruct (Hreach (sj_interval_seconds job)) as [next Hnext]; [lia|].
  pose proof (after_seconds_val _ _ _ Hnext) as Hnext'. unfold job_completion_update in Hco.
  assert (ok_of (scheduled_research_next_run_at (jv_completed_at env) (sj_interval_seconds job)) =
          Ok (Some next)) as Hok.
  { unfold scheduled_research_next_run_at. by rewrite (proj2 (Z.leb_gt _ _) Hint), Hnext. }
  rewrite Hok in Hco. clear Hok. cbn in Hco.
  assert (next_failure_count (sj_consecutive_failure_count job) = count) as Hnfc
    by (unfold next_failure_count, count; lia).
  rewrite Hnfc in Hco. fold policy in Hco. unfold completion_due. case_bool_decide as Hf.
  2: { injection Hco as <-. unfold succeed. cbn. rewrite Hen. split; [done|]. split; [done|].
       intros now. by rewrite Hnext', andb_true_r. }
  destruct (_ <=? _); [by injection Hco as <-|].
  unfold scheduled_research_backoff_until in Hco. destruct (Z.ltb_spec count 2) as [Hlt|Hge].
  - cbn in Hco. injection Hco as <-. cbn. rewrite (proj2 (Z.eqb_eq count 1)) by lia. split; [done|].
    intros now. by rewrite Hen, Hnext', andb_true_r.
  - rewrite (proj2 (Z.eqb_neq count 1)) by lia.
    pose proof (backoff_seconds_bounds _ _ _ Hge Hbase Hmax) as Hb. fold policy in Hb.
    destruct (Hreach (backoff_seconds count (fp_backoff_base_seconds policy)
                        (fp_backoff_max_seconds policy))) as [t Ht]; [unfold policy in *; lia|].
    rewrite Ht in Hco. cbn in Hco. injection Hco as <-. cbn. split; [done|].
    apply after_seconds_val in Ht. rewrite backoff_seconds_exact in Ht by (unfold policy; lia).
    intros now. rewrite Hen, Ht. apply andb_diag.
Qed.

(** C40.  A job that ran is due again exactly from one time on.  After a run that did not fail, a
    skipped one included, that is one interval after its end, and its failures are forgotten.
    After a first failure it is one interval too; after the n-th failure in a row, n > 1, it is
    the backoff of n: base seconds, then base times 3, 6, 12, .. up to the maximum, whatever the
    interval.  After [max_consecutive_failures] failures it is never due.  The run counts as failed,
    whatever its work answered, when another session changed the size of an execution table
    meanwhile.  The end of the run must have been stored ([finishes]). *)
Theorem next_due_after_run {CSL : ChronoSecondsLaws CS} {CAL : ChronoArithLaws CA} env job s row kind :
  claims env job s = true -> find_job (sj_id job) s = Some row -> readable kind row ->
  0 <= jr_consecutive_failure_count row < i32_max -> 0 < jr_interval_seconds row ->
  others_leave (sj_id job) env -> finishes env (jr_interval_seconds row) ->
  fp_backoff_max_seconds (jv_policy env) <= i64_max ->
  let job1 := job_of (claimed env row) kind ScheduledResearchJobStatus.Running in
  let s1 := set_jobs (rewrite_key jr_id (sj_id job) (claimed env) (jb_jobs s)) s in
  execute_job_kind env job1 <> Panic ->
  exists run row' s',
    run_scheduled_research_job env job false s = (Ok run, s') /\ find_job (sj_id job) s' = Some row' /\
    (jb_counts s <> jb_counts (jv_others env s1) ->
     ur_status run = ScheduledResearchJobRunStatus.Failed) /\
    (jb_counts s = jb_counts (jv_others env s1) ->
     ur_status run = jx_status (checked_execution (outcome_of (execute_job_kind env job1)) true)) /\
    let count := jr_consecutive_failure_count row + 1 in
    let policy := jv_policy env in
    if bool_decide (ur_status run = ScheduledResearchJobRunStatus.Failed) then
      jr_consecutive_failure_count row' = count /\
      if fp_max_consecutive_failures policy <=? count then forall now, is_due now row' = false
      else forall now, is_due now row' =
        (jv_completed_at env + seconds (if count =? 1 then jr_interval_seconds row
           else backoff_wait count (fp_backoff_base_seconds policy) (fp_backoff_max_seconds policy))
         <=? now)
    else
      jr_consecutive_failure_count row' = 0 /\ jr_status row' = "ENABLED" /\
      forall now, is_due now row' =
        (jv_completed_at env + seconds (jr_interval_seconds row) <=? now).
Proof.
  intros Hcl Hrow Hread Hcount Hint Hothers Hclock Hmax64 job1 s1 Hexec.
  destruct (claimed_run_spec _ _ _ _ _ Hcl Hrow Hread Hothers Hclock Hexec)
    as (completion & run & row' & s' & Hco & Hrun & Hst & _ & Hrow' & Hmarked).
  fold job1 s1 in Hco, Hst. exists run, row', s'. split; [done|]. split; [done|].
  change (jb_counts s1) with (jb_counts s) in *. split; [|split].
  { intros Hne. by rewrite Hst, bool_decide_false. }
  { intros Heq. by rewrite Hst, bool_decide_true. }
  set (execution := checked_execution _ _) in *. clearbody execution. cbn zeta. rewrite Hst.
  destruct (claims_schedulable _ _ _ _ _ eq_refl Hrow Hcl) as [Hen _].
  pose proof Hmarked as (_ & _ & _ & Hst' & _ & _ & Hcnt' & _).
  pose proof (fun now => marked_due _ _ _ _ _ now Hmarked) as Hdue. rewrite Hst', Hcnt'.
  pose proof (completion_cases env job1 execution completion Hen Hcount Hint (proj1 Hclock) Hmax64 Hco) as Hcases.
  cbn zeta in Hcases. change (sj_consecutive_failure_count job1) with (jr_consecutive_failure_count row) in Hcases.
  change (sj_interval_seconds job1) with (jr_interval_seconds row) in Hcases. case_bool_decide.
  - destruct Hcases as [-> Hcases]. split; [done|].
    destruct (_ <=? _); intros now; by rewrite Hdue, Hcases.
  - destruct Hcases as (-> & -> & Hcases). do 2 (split; [done|]). intros now. by rewrite Hdue, Hcases.
Qed.
End Jobs.

Module JobSample.
#[local] Instance no_json : Json := {|
  json := unit; jnull := tt; jstr _ := tt; juuid _ := tt; jobj _ := tt |}.
#[local] Instance no_build : JsonBuild := { jbool := fun _ => tt; jint := fun _ => tt; jarr := fun _ => tt }.
#[local] Existing Instance PlainArith.
#[local] Existing Instance PlainArithLaws.
#[local] Existing Instance PlainSeconds.
#[local] Existing Instance PlainSecondsLaws.

Definition request (interval_seconds : Z) : ScheduledResearchJobRequest := {|
  jq_name := " feeds "; jq_kind := ScheduledResearchJobKind.ProviderHealth; jq_enabled := true;
  jq_interval_seconds := interval_seconds; jq_request := tt; jq_max_runs_per_tick := 1;
  jq_next_run_at := None |}.

Definition counts (orders : Z) : ExecutionTableCounts := {|
  tn_orders := orders; tn_paper_positions := 0; tn_paper_fills := 0; tn_exchange_testnet_orders := 0;
  tn_exchange_testnet_order_lifecycle_events := 0; tn_testnet_shadow_promotions := 0 |}.

Definition no_tables : JobStore := {| jb_jobs := []; jb_runs := []; jb_counts := counts 0 |}.

(** One job, due since its creation at time 5. *)
Definition tables (interval_seconds : Z) : JobStore :=
  snd (create_scheduled_research_job 7 5 5 (request interval_seconds) no_tables).

Definition policy (max_failures : Z) : ScheduledResearchFailurePolicy :=
  failure_policy_from_env (Some max_failures) None None.

Definition done_execution : ScheduledJobExecution := {|
  jx_status := ScheduledResearchJobRunStatus.Completed; jx_result := tt; jx_error := None;
  jx_artifact_type := None; jx_artifact_id := None |}.

Definition env (execute : res string ScheduledJobExecution) (others : JobStore -> JobStore) (at_ : Z)
    : JobEnv := {|
  jv_started_at := at_; jv_completed_at := at_ + 1; jv_claimed_now := at_; jv_marked_now := at_ + 1;
  jv_run_id := at_; jv_correlation_id := at_; jv_policy := policy 2;
  jv_shadow_observation_only := true; jv_mark_fails := false; jv_execute _ := execute; jv_others := others |}.

Definition job (interval_seconds : Z) : ScheduledResearchJob :=
  match find_job 7 (tables interval_seconds) with
  | Some row => job_of row ScheduledResearchJobKind.ProviderHealth ScheduledResearchJobStatus.Enabled
  | None => {| sj_id := 0; sj_name := ""; sj_kind := ScheduledResearchJobKind.ProviderHealth;
      sj_enabled := true; sj_interval_seconds := 0; sj_request := tt; sj_max_runs_per_tick := 1;
      sj_last_run_at := None; sj_last_failure_at := None; sj_last_failure_reason := None;
      sj_last_success_at := None; sj_next_run_at := None; sj_backoff_until := None;
      sj_consecutive_failure_count := 0; sj_auto_paused_reason := None;
      sj_status := ScheduledResearchJobStatus.Enabled; sj_created_at := 0; sj_updated_at := 0 |}
  end.

Definition by_table (rows : list ScheduledResearchJobRecord) : list ScheduledResearchJobRecord := rows.

Definition report (s : JobStore) : list (string * bool * Z * option Z) * list string :=
  (map (fun row => (jr_status row, jr_enabled row, jr_consecutive_failure_count row, jr_next_run_at row))
     (jb_jobs s), map uw_status (jb_runs s)).

Definition after_tick (execute : res string ScheduledJobExecution) (others : JobStore -> JobStore)
    (s : JobStore) : JobStore :=
  snd (run_scheduled_research_tick by_table (fun _ => env execute others 10) 10 100 s).

Definition pausing (s : JobStore) : JobStore := snd (pause_scheduled_research_job 7 10 s).
Definition ordering (s : JobStore) : JobStore :=
  {| jb_jobs := jb_jobs s; jb_runs := jb_runs s; jb_counts := counts (tn_orders (jb_counts s) + 1) |}.
Definition resetting (s : JobStore) : JobStore := snd (reset_scheduled_research_job 7 12 s).
Definition running_once (execute : res string ScheduledJobExecution) (s : JobStore) : JobStore :=
  snd (run_once_scheduled_research_job (env execute id 11) 7 s).

Example tick_completed_report : report (after_tick (Ok done_execution) id (tables 60)) =
  ([("ENABLED", true, 0, Some (11 + seconds 60))], ["COMPLETED"]).
Proof. vm_compute. reflexivity. Qed.

(** A pause that is answered while the job runs is lost. *)
Example pause_during_run_is_lost : report (after_tick (Ok done_execution) pausing (tables 60)) =
  ([("ENABLED", true, 0, Some (11 + seconds 60))], ["COMPLETED"]).
Proof. vm_compute. reflexivity. Qed.

(** A job fails when somebody else places an order while it runs. *)
Example order_during_run_fails_job : report (after_tick (Ok done_execution) ordering (tables 60)) =
  ([("ERROR", true, 1, Some (11 + seconds 60))], ["FAILED"]).
Proof. vm_compute. reflexivity. Qed.

(** Running a paused job once leaves it DISABLED, and ERROR when the run fails; clearing the
    failures then says ENABLED of a job that is switched off. *)
Example run_once_forgets_pause :
  report (running_once (Ok done_execution) (pausing (tables 60))) =
    ([("DISABLED", false, 0, Some (12 + seconds 60))], ["COMPLETED"]) /\
  report (resetting (running_once (Err "down") (pausing (tables 60)))) =
    ([("ENABLED", false, 0, Some (12 + seconds 60))], ["FAILED"]).
Proof. vm_compute. split; reflexivity. Qed.

Lemma no_tables_ok : job_tables_ok no_tables.
Proof. split; cbn; [constructor|constructor|constructor]. Qed.

Lemma alone_steps execute at_ : others_step (env execute id at_).
Proof. intros s. apply rtc_refl. Qed.

Example job_calls_keep_tables_witness :
  exists record s'', let s' := after_tick (Err "down") id (tables 60) in
    rtc job_step no_tables s' /\ job_tables_ok s' /\
    try_claim_scheduled_research_job 7 (12 + seconds 60) 0 false s' = (Ok (Some record), s'') /\
    try_claim_scheduled_research_job 7 (12 + seconds 60) 0 true s'' = (Ok None, s'').
Proof.
  set (s' := after_tick (Err "down") id (tables 60)).
  assert (rtc job_call no_tables s') as Hcalls.
  { eapply rtc_l; [exact (call_create 7 5 5 (request 60) _ no_tables (tables 60) eq_refl
                            (surjective_pairing _))|].
    eapply rtc_once. exact (call_tick by_table (fun _ => env (Err "down") id 10) 10 100 _ (tables 60) s'
      (fun _ => alone_steps _ _) (surjective_pairing _)). }
  destruct (job_calls_keep_tables _ _ no_tables_ok Hcalls) as (Hsteps & Hok & Hclaim).
  destruct (try_claim_scheduled_research_job 7 (12 + seconds 60) 0 false s') as [r s''] eqn:Hc.
  assert (match r with Ok (Some _) => true | _ => false end = true) as Hr.
  { change r with (fst (r, s'')). rewrite <- Hc. vm_compute. reflexivity. }
  destruct r as [[record|]| |]; [|discriminate..].
  exists record, s''. split; [exact Hsteps|]. split; [exact Hok|]. split; [exact Hc|].
  destruct (Hclaim _ _ _ _ _ Hc) as (_ & _ & _ & Hno). apply Hno.
Defined.

Lemma sample_clock execute others at_ : 0 <= at_ <= 1000000 -> clock_reaches (env execute others at_) 60.
Proof.
  intros Hat. split; [by vm_compute|]. split; [by vm_compute|].
  change (fp_backoff_max_seconds (jv_policy (env execute others at_))) with 3600. intros n Hn.
  unfold after_seconds. cbn [try_seconds PlainSeconds].
  rewrite (proj2 (Z.leb_le (Z.abs n * 1000) i64_max)) by (unfold i64_max; lia).
  cbn [checked_add PlainArith jv_completed_at env].
  rewrite (proj2 (Z.leb_le (Z.abs (at_ + 1 + seconds n)) (10 ^ 22))); [by eexists|].
  unfold seconds, NANOS. lia.
Qed.

Lemma sample_finishes execute others at_ : 0 <= at_ <= 1000000 -> finishes (env execute others at_) 60.
Proof. intros Hat. split; [by apply sample_clock|done]. Qed.

Lemma sample_fails at_ : failing_env 7 2 ScheduledResearchJobKind.ProviderHealth (env (Err "down") id at_).
Proof.
  split; [|done|done]. intros job' _ Hk. unfold execute_job_kind. by rewrite Hk.
Qed.

Definition attempts : list (JobEnv * ScheduledResearchJob) :=
  [(env (Err "down") id 10, job 60); (env (Err "down") id 20, job 60)].

Definition row (interval_seconds : Z) : ScheduledResearchJobRecord :=
  default {| jr_id := 0; jr_name := ""; jr_kind := ""; jr_enabled := true; jr_interval_seconds := 0;
    jr_request := tt; jr_max_runs_per_tick := 1; jr_last_run_at := None; jr_last_failure_at := None;
    jr_last_failure_reason := None; jr_last_success_at := None; jr_next_run_at := None;
    jr_backoff_until := None; jr_consecutive_failure_count := 0; jr_auto_paused_reason := None;
    jr_status := ""; jr_created_at := 0; jr_updated_at := 0 |} (find_job 7 (tables interval_seconds)).

Lemma row_readable : readable ScheduledResearchJobKind.ProviderHealth (row 60).
Proof. split; [vm_compute; reflexivity|]. by exists ScheduledResearchJobStatus.Enabled. Qed.

Example failing_job_is_auto_paused_witness :
  auto_paused 7 (attempt_runs attempts (tables 60)) /\ executions 7 (attempt_runs attempts (tables 60)) = 2.
Proof.
  assert (failing_row ScheduledResearchJobKind.ProviderHealth (row 60)) as Hrow.
  { split; [exact row_readable|]. vm_compute. split; discriminate. }
  destruct (failing_job_is_auto_paused 7 2 ScheduledResearchJobKind.ProviderHealth 60 attempts (tables 60)
    (row 60)) as (_ & _ & _ & Hpaused).
  - unfold i32_max. lia.
  - do 2 (apply Forall_cons; split; [split; [reflexivity|apply sample_fails]|]). constructor.
  - vm_compute. reflexivity.
  - exact Hrow.
  - vm_compute. reflexivity.
  - destruct Hpaused as (H1 & H2 & _).
    + do 2 (apply Forall_cons; split; [apply sample_finishes; lia|]). constructor.
    + vm_compute. repeat split; reflexivity.
    + discriminate.
    + vm_compute. reflexivity.
    + split; [exact H1|]. rewrite H2. vm_compute. reflexivity.
Defined.

Definition endless : Z := 2 ^ 60.

Example interval_beyond_duration_wedges_job_witness :
  ScheduledResearchJobRequest_validate (request endless) = Ok tt /\ endless <= i64_max /\
  exists s', run_scheduled_research_job (env (Ok done_execution) id 10) (job endless) false
    (tables endless) = (Panic, s').
Proof.
  destruct (interval_beyond_duration_wedges_job (request endless) (env (Ok done_execution) id 10)
    (job endless) (tables endless) (row endless) ScheduledResearchJobKind.ProviderHealth)
    as [Hvalid (s' & Hrun & _)].
  - vm_compute. reflexivity.
  - vm_compute. reflexivity.
  - vm_compute. reflexivity.
  - vm_compute. reflexivity.
  - vm_compute. reflexivity.
  - split; [vm_compute; reflexivity|]. exists ScheduledResearchJobStatus.Enabled. vm_compute. reflexivity.
  - intros s. reflexivity.
  - vm_compute. reflexivity.
  - split; [exact Hvalid|]. split; [vm_compute; discriminate|]. exists s'. exact Hrun.
Defined.

Example next_due_after_run_witness :
  exists run row' s', run_scheduled_research_job (env (Ok done_execution) id 10) (job 60) false
      (tables 60) = (Ok run, s') /\ find_job 7 s' = Some row' /\
    ur_status run = ScheduledResearchJobRunStatus.Completed /\
    forall now, is_due now row' = (11 + seconds 60 <=? now).
Proof.
  destruct (next_due_after_run (env (Ok done_execution) id 10) (job 60) (tables 60) (row 60)
    ScheduledResearchJobKind.ProviderHealth) as (run & row' & s' & Hrun & Hrow' & _ & Hst & Hcases).
  - vm_compute. reflexivity.
  - vm_compute. reflexivity.
  - exact row_readable.
  - vm_compute. split; [discriminate|reflexivity].
  - vm_compute. reflexivity.
  - intros s. reflexivity.
  - apply sample_finishes. lia.
  - vm_compute. discriminate.
  - vm_compute. discriminate.
  - exists run, row', s'. specialize (Hst eq_refl). change (jx_status _) with
      ScheduledResearchJobRunStatus.Completed in Hst. rewrite Hst in Hcases. cbn zeta in Hcases.
    rewrite bool_decide_false in Hcases by discriminate. destruct Hcases as (_ & _ & Hdue).
    split; [exact Hrun|]. split; [exact Hrow'|]. split; [exact Hst|exact Hdue].
Defined.
End JobSample.
