(* ===== verification/Candidate.v ===== *)
(** * Research candidates: the creation gate, the lifecycle, the acceptance preview

    crates/core/src/research.rs, 733-1068, 10958-11040, 11440-11880, 13438-13537
    and 13584-13896.

    A research run proposes candidates; the gate decides which are created.  A
    candidate then moves by decisions ([research_candidate_next_status]) and by
    watch-list reviews ([research_candidate_review_outcome]); the acceptance
    preview collects the evidence an operator confirms.  Messages keep the text of
    the source. *)

From Stdlib Require Import ZArith QArith Lqa Lia List String Sorted Permutation.
From stdpp Require Import base list strings.
From S2P Require Import Prelude Text Host Types MarketData WalkForward ResearchTypes.

#[local] Open Scope Z_scope.

Section Candidate.
Context {DI : Decimal} {JS : Json} {JD : JsonScalars} {JB : JsonBuild} {UT : UuidText}.

Record ResearchCandidate := {
  rc_id : Z;
  rc_experiment_id : option Z;
  rc_experiment_run_id : option Z;
  rc_strategy_id : string;
  rc_symbol : string;
  rc_timeframe : string;
  rc_config : json;
  rc_score : option dec;
  rc_pnl_pct : option dec;
  rc_max_drawdown_pct : option dec;
  rc_trade_count : option Z;
  rc_win_rate : option dec;
  rc_fee_drag : option dec;
  rc_status : ResearchCandidateStatus.t;
  rc_rejection_reason : option string;
  rc_notes : option string;
  rc_created_at : Z;
  rc_updated_at : Z;
  rc_correlation_id : option Z
}.

Record ResearchCandidateCreationPolicy := {
  pol_mode : ResearchCandidateCreationMode.t;
  pol_min_trade_count : Z;
  pol_min_score : dec
}.

Record ResearchCandidateCreationInput := {
  ci_source_batch_id : option Z;
  ci_experiment_run_id : Z;
  ci_source_walk_forward_run_id : option Z;
  ci_source_robustness_matrix_run_id : option Z;
  ci_walk_forward_status : option StrategyWalkForwardRobustnessStatus.t;
  ci_batch_triage_status : ResearchBatchTriageStatus.t;
  ci_robustness_status : option StrategyRobustnessMatrixStatus.t;
  ci_data_quality_status : option MarketDataQualityStatus.t;
  ci_normalized_strategy_config : option json;
  ci_config_fingerprint : option string;
  ci_evidence_status_summary : option json;
  ci_gate_evidence_mismatch : bool;
  ci_trade_count : Z;
  ci_pnl_pct : dec;
  ci_score : dec
}.

Record ResearchCandidateCreationDecision := {
  cd_should_create_candidate : bool;
  cd_should_create_proposal : bool;
  cd_reason : string;
  cd_blockers : list string;
  cd_warnings : list string;
  cd_source_batch_id : option Z;
  cd_source_experiment_run_id : option Z;
  cd_source_walk_forward_run_id : option Z;
  cd_source_robustness_matrix_run_id : option Z;
  cd_experiment_run_id : Z;
  cd_walk_forward_status : option string;
  cd_batch_triage_status : ResearchBatchTriageStatus.t;
  cd_robustness_status : option string;
  cd_data_quality_status : option string;
  cd_normalized_strategy_config : option json;
  cd_config_fingerprint : option string;
  cd_evidence_status_summary : option json;
  cd_gate_evidence_mismatch : bool;
  cd_pnl_pct : dec;
  cd_score : dec
}.

Record ResearchCandidateReviewContext := {
  rx_latest_qualification_status : option ResearchCandidateQualificationStatus.t;
  rx_latest_watchlist_status : option ResearchCandidateWatchlistStatus.t
}.

Record ResearchCandidateReviewOutcome := {
  ro_status : ResearchCandidateReviewStatus.t;
  ro_next_candidate_status : option ResearchCandidateStatus.t
}.

Record ResearchCandidateQualificationThresholds := {
  th_min_shadow_runs : Z;
  th_min_would_submit_count : Z;
  th_max_risk_rejection_rate_pct : dec;
  th_max_error_or_skipped_rate_pct : dec;
  th_max_runner_mismatch_count : Z;
  th_require_fresh_observation : bool;
  th_require_runner_alignment : bool;
  th_require_readiness_not_not_ready : bool
}.

Record ResearchCandidateQualificationEvaluation := {
  qe_id : Z;
  qe_candidate_id : Z;
  qe_status : ResearchCandidateQualificationStatus.t;
  qe_score : Z;
  qe_latest_readiness_status : option ExecutionReadinessStatus.t;
  qe_total_shadow_runs : Z;
  qe_would_submit_count : Z;
  qe_risk_rejection_rate_pct : option dec;
  qe_walk_forward_status : option StrategyWalkForwardRobustnessStatus.t;
  qe_walk_forward_run_id : option Z;
  qe_walk_forward_score : option dec;
  qe_walk_forward_consistency_score : option dec;
  qe_walk_forward_recommendation : option string;
  qe_walk_forward_blockers : list string;
  qe_walk_forward_warnings : list string;
  qe_warnings : list string;
  qe_blockers : list string;
  qe_recommendations : list ResearchCandidateQualificationRecommendation.t;
  qe_thresholds : ResearchCandidateQualificationThresholds;
  qe_evaluated_at : Z;
  qe_correlation_id : option Z
}.

Record ResearchCandidateQualificationChange := {
  qc_status_changed : bool;
  qc_material_score_change : bool;
  qc_newly_qualified : bool;
  qc_lost_qualification : bool;
  qc_previous_status : option ResearchCandidateQualificationStatus.t;
  qc_current_status : ResearchCandidateQualificationStatus.t;
  qc_previous_score : option Z;
  qc_current_score : Z;
  qc_score_delta : Z
}.

Record ResearchCandidateWalkForwardEvidence := {
  we_walk_forward_run_id : Z;
  we_robustness_status : StrategyWalkForwardRobustnessStatus.t;
  we_status : string;
  we_recommendation_action : option string;
  we_recommendation_reason : option string;
  we_total_windows : Z;
  we_completed_windows : Z;
  we_profitable_windows : Z;
  we_losing_windows : Z;
  we_avg_pnl_pct : dec;
  we_worst_pnl_pct : dec;
  we_best_pnl_pct : dec;
  we_robustness_score : dec;
  we_consistency_score : dec;
  we_created_at : Z;
  we_linked_at : Z
}.

Record StrategyCandidateRunnerAlignment := {
  al_strategy_config_matches_runner : bool;
  al_runner_enabled : bool;
  al_runner_status : string;
  al_runner_timeframe : string;
  al_runner_symbols : list string;
  al_runner_strategies : list string;
  al_mismatch_reasons : list string
}.

Record ResearchCandidateAcceptForShadowCheck := {
  ac_code : string;
  ac_name : string;
  ac_passed : bool;
  ac_blocking : bool;
  ac_summary : string;
  ac_details : option json
}.

Record ResearchCandidateAcceptForShadowEvidenceSummary := {
  ae_candidate_score : option dec;
  ae_candidate_pnl_pct : option dec;
  ae_candidate_max_drawdown_pct : option dec;
  ae_candidate_trade_count : option Z;
  ae_candidate_win_rate : option dec;
  ae_candidate_fee_drag : option dec;
  ae_source_experiment_id : option Z;
  ae_source_experiment_run_id : option Z;
  ae_source_walk_forward_run_id : option Z;
  ae_source_robustness_matrix_run_id : option Z;
  ae_config_fingerprint : option string;
  ae_data_quality_status : option MarketDataQualityStatus.t;
  ae_evaluated_start_time : option Z;
  ae_evaluated_end_time : option Z;
  ae_walk_forward_status : option StrategyWalkForwardRobustnessStatus.t;
  ae_walk_forward_total_windows : option Z;
  ae_walk_forward_profitable_windows : option Z;
  ae_walk_forward_losing_windows : option Z;
  ae_walk_forward_worst_pnl_pct : option dec;
  ae_robustness_matrix_status : option StrategyRobustnessMatrixStatus.t;
  ae_shadow_run_count : Z
}.

Record ResearchCandidateAcceptForShadowPreviewInput := {
  ap_candidate : ResearchCandidate;
  ap_evidence_summary : ResearchCandidateAcceptForShadowEvidenceSummary;
  ap_source_experiment_exists : bool;
  ap_source_walk_forward_exists : bool;
  ap_source_robustness_matrix_exists : bool;
  ap_fresh_observation : bool;
  ap_require_fresh_observation : bool;
  ap_runner_alignment : StrategyCandidateRunnerAlignment;
  ap_required_runner_config_change : list string;
  ap_holdout_2025_available : bool;
  ap_btc_generalization_failed : bool;
  ap_generated_at : Z
}.

Record ResearchCandidateAcceptForShadowPreviewResult := {
  pr_candidate_id : Z;
  pr_current_status : ResearchCandidateStatus.t;
  pr_strategy_id : string;
  pr_symbol : string;
  pr_timeframe : string;
  pr_evidence_summary : ResearchCandidateAcceptForShadowEvidenceSummary;
  pr_checks : list ResearchCandidateAcceptForShadowCheck;
  pr_blockers : list string;
  pr_warnings : list string;
  pr_recommended_action : string;
  pr_runner_alignment : StrategyCandidateRunnerAlignment;
  pr_required_runner_config_change : list string;
  pr_status : ResearchCandidateAcceptForShadowPreviewStatus.t;
  pr_no_mutation : bool;
  pr_generated_at : Z
}.

(** ** The creation gate *)

Definition should_create_proposal_for_blocked (mode : ResearchCandidateCreationMode.t) : bool :=
  match mode with
  | ResearchCandidateCreationMode.CreateActionableOnly
  | ResearchCandidateCreationMode.CreatePromisingOnly
  | ResearchCandidateCreationMode.ProposalOnly => true
  | _ => false
  end.

Definition default_research_candidate_creation_min_trades : Z := 3.
Definition default_research_candidate_creation_min_score : dec := ZERO.
Definition default_campaign_candidate_creation_mode : ResearchCandidateCreationMode.t :=
  ResearchCandidateCreationMode.CreateActionableOnly.
Definition default_batch_candidate_creation_mode : ResearchCandidateCreationMode.t :=
  ResearchCandidateCreationMode.CreateAll.

Definition for_mode (mode : ResearchCandidateCreationMode.t) : ResearchCandidateCreationPolicy := {|
  pol_mode := mode;
  pol_min_trade_count := default_research_candidate_creation_min_trades;
  pol_min_score := default_research_candidate_creation_min_score
|}.

(** The decision record, built at both exits of the gate. *)
Definition creation_decision (input : ResearchCandidateCreationInput)
    (should_create_candidate should_create_proposal : bool) (reason : string)
    (blockers warnings : list string) : ResearchCandidateCreationDecision := {|
  cd_should_create_candidate := should_create_candidate;
  cd_should_create_proposal := should_create_proposal;
  cd_reason := reason;
  cd_blockers := blockers;
  cd_warnings := warnings;
  cd_source_batch_id := ci_source_batch_id input;
  cd_source_experiment_run_id := Some (ci_experiment_run_id input);
  cd_source_walk_forward_run_id := ci_source_walk_forward_run_id input;
  cd_source_robustness_matrix_run_id := ci_source_robustness_matrix_run_id input;
  cd_experiment_run_id := ci_experiment_run_id input;
  cd_walk_forward_status :=
    option_map StrategyWalkForwardRobustnessStatus.as_str (ci_walk_forward_status input);
  cd_batch_triage_status := ci_batch_triage_status input;
  cd_robustness_status :=
    option_map StrategyRobustnessMatrixStatus.as_str (ci_robustness_status input);
  cd_data_quality_status := option_map MarketDataQualityStatus.as_str (ci_data_quality_status input);
  cd_normalized_strategy_config := ci_normalized_strategy_config input;
  cd_config_fingerprint := ci_config_fingerprint input;
  cd_evidence_status_summary := ci_evidence_status_summary input;
  cd_gate_evidence_mismatch := ci_gate_evidence_mismatch input;
  cd_pnl_pct := ci_pnl_pct input;
  cd_score := ci_score input
|}.

Definition mode_blockers (mode : ResearchCandidateCreationMode.t) : list string :=
  match mode with
  | ResearchCandidateCreationMode.Disabled => ["candidate_creation_disabled"]
  | ResearchCandidateCreationMode.ProposalOnly => ["candidate_creation_proposal_only"]
  | _ => []
  end.

Definition triage_blockers (status : ResearchBatchTriageStatus.t) : list string :=
  match status with
  | ResearchBatchTriageStatus.Actionable => []
  | ResearchBatchTriageStatus.OverfitOnly => ["batch_triage_overfit_only"]
  | ResearchBatchTriageStatus.Weak => ["batch_triage_weak"]
  | ResearchBatchTriageStatus.DataQualityBlocked => ["batch_triage_data_quality_blocked"]
  | ResearchBatchTriageStatus.NoCandidates => ["batch_triage_no_candidates"]
  | ResearchBatchTriageStatus.Failed => ["batch_triage_failed"]
  | ResearchBatchTriageStatus.Unknown => ["batch_triage_unknown"]
  end.

(** The blockers and the warnings a walk-forward status adds. *)
Definition walk_forward_gate (mode : ResearchCandidateCreationMode.t)
    (status : option StrategyWalkForwardRobustnessStatus.t) : list string * list string :=
  match status with
  | Some StrategyWalkForwardRobustnessStatus.Robust => ([], [])
  | Some StrategyWalkForwardRobustnessStatus.Weak =>
      if bool_decide (mode = ResearchCandidateCreationMode.CreatePromisingOnly)
      then ([], ["walk_forward_weak_promising_only"])
      else (["walk_forward_weak"], [])
  | Some StrategyWalkForwardRobustnessStatus.OverfitRisk => (["walk_forward_overfit_risk"], [])
  | Some StrategyWalkForwardRobustnessStatus.InsufficientData =>
      (["walk_forward_insufficient_data"], [])
  | Some StrategyWalkForwardRobustnessStatus.Failed => (["walk_forward_failed"], [])
  | None => (["walk_forward_missing"], [])
  end.

Definition quality_blockers (status : option MarketDataQualityStatus.t) : list string :=
  match status with
  | Some MarketDataQualityStatus.Good => []
  | Some MarketDataQualityStatus.Degraded => ["data_quality_degraded"]
  | Some MarketDataQualityStatus.Bad => ["data_quality_bad"]
  | Some MarketDataQualityStatus.InsufficientData => ["data_quality_insufficient_data"]
  | Some MarketDataQualityStatus.Unknown | None => ["data_quality_not_good"]
  end.

(** [if b { v.push(s) }] *)
Definition push_if (b : bool) (s : string) : list string := if b then [s] else [].

(** [v.sort(); v.dedup();] on strings: byte order, equal neighbours merged. *)
Fixpoint dedup (l : list string) : list string :=
  match l with
  | [] => []
  | x :: t =>
      match t with
      | y :: _ => if String.eqb x y then dedup t else x :: dedup t
      | [] => [x]
      end
  end.
Definition sort_dedup (l : list string) : list string := dedup (sort_by String.leb l).

Definition evaluate_research_candidate_creation (policy : ResearchCandidateCreationPolicy)
    (input : ResearchCandidateCreationInput) : ResearchCandidateCreationDecision :=
  let mode := pol_mode policy in
  if bool_decide (mode = ResearchCandidateCreationMode.CreateAll) then
    creation_decision input true false "CREATE_ALL override allowed candidate creation."
      [] ["create_all_override_bypassed_candidate_creation_gate"]
  else
    let robust := bool_decide (ci_walk_forward_status input =
                               Some StrategyWalkForwardRobustnessStatus.Robust) in
    let '(walk_forward_blockers, walk_forward_warnings) :=
      walk_forward_gate mode (ci_walk_forward_status input) in
    let blockers := sort_dedup
      (mode_blockers mode ++ triage_blockers (ci_batch_triage_status input) ++
       walk_forward_blockers ++
       push_if (bool_decide (ci_robustness_status input =
                             Some StrategyRobustnessMatrixStatus.Negative))
         "robustness_matrix_negative" ++
       quality_blockers (ci_data_quality_status input) ++
       push_if (ci_trade_count input <? pol_min_trade_count policy)
         ("trade_count_below_threshold:" +:+ show_int (ci_trade_count input) +:+ "<" +:+
          show_int (pol_min_trade_count policy)) ++
       push_if (ci_score input <? pol_min_score policy)%dec
         ("score_below_threshold:" +:+ dshow (ci_score input) +:+ "<" +:+
          dshow (pol_min_score policy)) ++
       push_if ((ci_pnl_pct input <? ZERO)%dec && negb robust)
         "negative_pnl_without_strong_walk_forward") in
    let warnings := sort_dedup
      (walk_forward_warnings ++
       push_if (ci_gate_evidence_mismatch input) "gate_evidence_mismatch") in
    let should_create_candidate := match blockers with [] => true | _ => false end in
    let should_create_proposal :=
      negb should_create_candidate && should_create_proposal_for_blocked mode in
    let reason :=
      if should_create_candidate then "Candidate creation allowed by gate."
      else "Candidate creation blocked by gate: " +:+ join ", " blockers +:+ "." in
    creation_decision input should_create_candidate should_create_proposal reason blockers warnings.

(** ** Decisions and reviews *)

Definition research_candidate_next_status (current_status : ResearchCandidateStatus.t)
    (decision : ResearchCandidateDecision.t) : result ResearchCandidateStatus.t :=
  let invalid := Err (CoreError.InvalidResearchCandidateTransition
    (ResearchCandidateStatus.as_str current_status)
    (ResearchCandidateDecision.as_str decision)) in
  match decision with
  | ResearchCandidateDecision.AcceptForShadow =>
      match current_status with
      | ResearchCandidateStatus.Discovered | ResearchCandidateStatus.Observing =>
          Ok ResearchCandidateStatus.AcceptedForShadow
      | _ => invalid
      end
  | ResearchCandidateDecision.PromoteToShadowConfig =>
      match current_status with
      | ResearchCandidateStatus.AcceptedForShadow => Ok ResearchCandidateStatus.PromotedToShadowConfig
      | ResearchCandidateStatus.PromotedToShadowConfig => Ok current_status
      | _ => invalid
      end
  | ResearchCandidateDecision.Reject =>
      match current_status with
      | ResearchCandidateStatus.Discovered | ResearchCandidateStatus.Observing
      | ResearchCandidateStatus.AcceptedForShadow
      | ResearchCandidateStatus.PromotedToShadowConfig => Ok ResearchCandidateStatus.Rejected
      | _ => invalid
      end
  | ResearchCandidateDecision.Archive =>
      match current_status with
      | ResearchCandidateStatus.Archived => invalid
      | _ => Ok ResearchCandidateStatus.Archived
      end
  | ResearchCandidateDecision.Reopen =>
      match current_status with
      | ResearchCandidateStatus.Rejected | ResearchCandidateStatus.Archived =>
          Ok ResearchCandidateStatus.Discovered
      | _ => invalid
      end
  end.

(** [reason.map(str::trim).filter(|value| !value.is_empty()).is_none()] *)
Definition reason_missing (reason : option string) : bool :=
  match reason with Some value => is_empty (trim value) | None => true end.

Definition recorded : ResearchCandidateReviewOutcome :=
  {| ro_status := ResearchCandidateReviewStatus.Recorded; ro_next_candidate_status := None |}.
Definition status_updated (next : ResearchCandidateStatus.t) : ResearchCandidateReviewOutcome :=
  {| ro_status := ResearchCandidateReviewStatus.CandidateStatusUpdated;
     ro_next_candidate_status := Some next |}.

Definition research_candidate_review_outcome (current_status : ResearchCandidateStatus.t)
    (action : ResearchCandidateReviewAction.t) (context : ResearchCandidateReviewContext)
    (reason : option string) : result ResearchCandidateReviewOutcome :=
  let name := ResearchCandidateReviewAction.as_str action in
  match action with
  | ResearchCandidateReviewAction.MarkReviewed => Ok recorded
  | ResearchCandidateReviewAction.MarkNeedsMoreObservation =>
      match current_status with
      | ResearchCandidateStatus.Discovered => Ok (status_updated ResearchCandidateStatus.Observing)
      | ResearchCandidateStatus.Observing | ResearchCandidateStatus.AcceptedForShadow => Ok recorded
      | _ => Err (CoreError.InvalidResearchCandidateReviewAction
                    (ResearchCandidateStatus.as_str current_status) name)
      end
  | ResearchCandidateReviewAction.MarkReadyForTestnetReview =>
      if bool_decide (rx_latest_qualification_status context =
                      Some ResearchCandidateQualificationStatus.Qualified)
      then Ok recorded
      else Err (CoreError.ResearchCandidateReviewRequiresQualified name)
  | ResearchCandidateReviewAction.MarkInvestigated =>
      let investigation_allowed :=
        match rx_latest_watchlist_status context with
        | Some ResearchCandidateWatchlistStatus.LostQualification
        | Some ResearchCandidateWatchlistStatus.NeedsAttention => true
        | _ => false
        end ||
        bool_decide (rx_latest_qualification_status context =
                     Some ResearchCandidateQualificationStatus.NotQualified) in
      if investigation_allowed then Ok recorded
      else Err (CoreError.ResearchCandidateReviewRequiresInvestigationContext name)
  | ResearchCandidateReviewAction.RejectFromWatchlist =>
      if reason_missing reason then Err (CoreError.MissingResearchCandidateReviewReason name)
      else Ok (status_updated ResearchCandidateStatus.Rejected)
  | ResearchCandidateReviewAction.ArchiveFromWatchlist =>
      if reason_missing reason then Err (CoreError.MissingResearchCandidateReviewReason name)
      else Ok (status_updated ResearchCandidateStatus.Archived)
  end.

(** ** Qualification history *)

Definition qualification_status_counts_as_qualified
    (status : ResearchCandidateQualificationStatus.t) : bool :=
  bool_decide (status = ResearchCandidateQualificationStatus.Qualified).

(** [i32] arithmetic: the difference and its absolute value wrap. *)
Definition research_candidate_qualification_change
    (current : ResearchCandidateQualificationEvaluation)
    (previous : option ResearchCandidateQualificationEvaluation)
    : option ResearchCandidateQualificationChange :=
  option_map (fun previous =>
    let score_delta := wrap_i32 (qe_score current - qe_score previous) in
    {| qc_status_changed := negb (bool_decide (qe_status previous = qe_status current));
       qc_material_score_change := 10 <=? wrap_i32 (Z.abs score_delta);
       qc_newly_qualified :=
         negb (qualification_status_counts_as_qualified (qe_status previous)) &&
         qualification_status_counts_as_qualified (qe_status current);
       qc_lost_qualification :=
         qualification_status_counts_as_qualified (qe_status previous) &&
         negb (qualification_status_counts_as_qualified (qe_status current));
       qc_previous_status := Some (qe_status previous);
       qc_current_status := qe_status current;
       qc_previous_score := Some (qe_score previous);
       qc_current_score := qe_score current;
       qc_score_delta := score_delta |}) previous.

Definition research_candidate_qualification_trend
    (current : ResearchCandidateQualificationEvaluation)
    (previous : option ResearchCandidateQualificationEvaluation)
    : ResearchCandidateQualificationTrend.t :=
  match research_candidate_qualification_change current previous with
  | None => ResearchCandidateQualificationTrend.InsufficientHistory
  | Some change =>
      if qc_newly_qualified change then ResearchCandidateQualificationTrend.NewlyQualified
      else if qc_lost_qualification change then
        ResearchCandidateQualificationTrend.LostQualification
      else if match qe_status current with
              | ResearchCandidateQualificationStatus.Degraded
              | ResearchCandidateQualificationStatus.NotQualified => true
              | _ => false
              end then ResearchCandidateQualificationTrend.NeedsAttention
      else if 10 <=? qc_score_delta change then ResearchCandidateQualificationTrend.Improving
      else if qc_score_delta change <=? -10 then ResearchCandidateQualificationTrend.Degrading
      else ResearchCandidateQualificationTrend.Stable
  end.

Definition research_candidate_watchlist_status
    (latest : option ResearchCandidateQualificationEvaluation)
    (trend : ResearchCandidateQualificationTrend.t) (now stale_after : Z)
    : ResearchCandidateWatchlistStatus.t :=
  match latest with
  | None => ResearchCandidateWatchlistStatus.InsufficientHistory
  | Some latest =>
      if stale_after <? now - qe_evaluated_at latest then
        ResearchCandidateWatchlistStatus.NeedsAttention
      else match trend with
      | ResearchCandidateQualificationTrend.Improving => ResearchCandidateWatchlistStatus.Improving
      | ResearchCandidateQualificationTrend.Stable => ResearchCandidateWatchlistStatus.Stable
      | ResearchCandidateQualificationTrend.Degrading => ResearchCandidateWatchlistStatus.Degrading
      | ResearchCandidateQualificationTrend.NewlyQualified =>
          ResearchCandidateWatchlistStatus.NewlyQualified
      | ResearchCandidateQualificationTrend.LostQualification =>
          ResearchCandidateWatchlistStatus.LostQualification
      | ResearchCandidateQualificationTrend.NeedsAttention =>
          ResearchCandidateWatchlistStatus.NeedsAttention
      | ResearchCandidateQualificationTrend.InsufficientHistory =>
          ResearchCandidateWatchlistStatus.InsufficientHistory
      end
  end.

Definition is_research_candidate_evaluation_stale
    (evaluation : ResearchCandidateQualificationEvaluation) (now stale_after : Z) : bool :=
  stale_after <? now - qe_evaluated_at evaluation.

(** ** Accepting a candidate for shadow observation: preview and confirmation *)

Definition accept_shadow_check (code name : string) (passed blocking : bool) (summary : string)
    (details : option json) : ResearchCandidateAcceptForShadowCheck :=
  {| ac_code := code; ac_name := name; ac_passed := passed; ac_blocking := blocking;
     ac_summary := summary; ac_details := details |}.

(** [matches!(status, Discovered | Observing)] *)
Definition status_eligible (status : ResearchCandidateStatus.t) : bool :=
  match status with
  | ResearchCandidateStatus.Discovered | ResearchCandidateStatus.Observing => true
  | _ => false
  end.

Definition preview_walk_forward_robust (input : ResearchCandidateAcceptForShadowPreviewInput) : bool :=
  bool_decide (ae_walk_forward_status (ap_evidence_summary input) =
               Some StrategyWalkForwardRobustnessStatus.Robust).
Definition preview_matrix_robust (input : ResearchCandidateAcceptForShadowPreviewInput) : bool :=
  bool_decide (ae_robustness_matrix_status (ap_evidence_summary input) =
               Some StrategyRobustnessMatrixStatus.Robust).
Definition preview_data_quality_good (input : ResearchCandidateAcceptForShadowPreviewInput) : bool :=
  bool_decide (ae_data_quality_status (ap_evidence_summary input) =
               Some MarketDataQualityStatus.Good).

(** The checks, in the order in which they are pushed. *)
Definition accept_preview_checks (input : ResearchCandidateAcceptForShadowPreviewInput)
    : list ResearchCandidateAcceptForShadowCheck :=
  let candidate := ap_candidate input in
  let evidence := ap_evidence_summary input in
  let eligible := status_eligible (rc_status candidate) in
  let current_status := Some (jobj [("current_status",
    jstr (ResearchCandidateStatus.as_str (rc_status candidate)))]) in
  let wf_robust := preview_walk_forward_robust input in
  let matrix_robust := preview_matrix_robust input in
  let good := preview_data_quality_good input in
  let runner_aligned := al_strategy_config_matches_runner (ap_runner_alignment input) in
  let shadow_run_count := ae_shadow_run_count evidence in
  [accept_shadow_check "candidate_pre_acceptance_status" "Candidate is in a pre-acceptance state"
     eligible true
     (if eligible then "Candidate is eligible for accept-for-shadow preview."
      else "Candidate is already accepted, promoted, rejected, archived, or otherwise not eligible for pre-acceptance.")
     current_status;
   accept_shadow_check "source_experiment_exists" "Source experiment exists"
     (ap_source_experiment_exists input) true
     (if ap_source_experiment_exists input then "Source experiment provenance is present."
      else "Source experiment provenance is missing.")
     (Some (jobj [("experiment_id", jopt juuid (ae_source_experiment_id evidence));
                  ("experiment_run_id", jopt juuid (ae_source_experiment_run_id evidence))]));
   accept_shadow_check "source_walk_forward_robust" "Source walk-forward exists and is ROBUST"
     (ap_source_walk_forward_exists input && wf_robust) true
     (if ap_source_walk_forward_exists input && wf_robust then
        "Source walk-forward evidence is ROBUST."
      else if ap_source_walk_forward_exists input then
        "Source walk-forward evidence is not ROBUST."
      else "Source walk-forward evidence is missing.")
     (Some (jobj [("walk_forward_run_id", jopt juuid (ae_source_walk_forward_run_id evidence));
                  ("walk_forward_status",
                   jopt (fun s => jstr (StrategyWalkForwardRobustnessStatus.as_str s))
                     (ae_walk_forward_status evidence))]));
   accept_shadow_check "source_robustness_matrix_robust"
     "Source robustness matrix exists and is ROBUST"
     (ap_source_robustness_matrix_exists input && matrix_robust) true
     (if ap_source_robustness_matrix_exists input && matrix_robust then
        "Source robustness matrix evidence is ROBUST."
      else if ap_source_robustness_matrix_exists input then
        "Source robustness matrix evidence is not ROBUST."
      else "Source robustness matrix evidence is missing.")
     (Some (jobj [("robustness_matrix_run_id",
                   jopt juuid (ae_source_robustness_matrix_run_id evidence));
                  ("robustness_matrix_status",
                   jopt (fun s => jstr (StrategyRobustnessMatrixStatus.as_str s))
                     (ae_robustness_matrix_status evidence))]));
   accept_shadow_check "data_quality_good" "Data quality is GOOD" good true
     (if good then "Data quality is GOOD for the evaluated window."
      else "Data quality is not GOOD for the evaluated window.")
     (Some (jobj [("data_quality_status",
                   jopt (fun s => jstr (MarketDataQualityStatus.as_str s))
                     (ae_data_quality_status evidence))]));
   accept_shadow_check "fresh_observation_exists" "Fresh observation exists"
     (negb (ap_require_fresh_observation input) || ap_fresh_observation input)
     (ap_require_fresh_observation input)
     (if ap_fresh_observation input then "A fresh persisted observation exists."
      else if ap_require_fresh_observation input then
        "A fresh persisted observation is required but missing."
      else "Fresh observation is not required by this preview request.")
     None;
   accept_shadow_check "candidate_not_already_terminal_or_accepted"
     "Candidate is not already accepted/promoted/rejected/archived" eligible true
     (if eligible then "Candidate has not already moved beyond pre-acceptance review."
      else "Candidate has already moved beyond pre-acceptance review.")
     current_status;
   accept_shadow_check "runner_alignment" "Runner alignment status" runner_aligned false
     (if runner_aligned then "Current shadow runner config already covers the candidate."
      else "Current shadow runner config does not cover the candidate.")
     (Some (jobj [("mismatch_reasons", jstrs (al_mismatch_reasons (ap_runner_alignment input)));
                  ("required_runner_config_change",
                   jstrs (ap_required_runner_config_change input))]));
   accept_shadow_check "symbol_specific_generalization" "Evidence is symbol-specific" true false
     "Preview treats this as symbol-specific evidence only."
     (Some (jobj [("symbol", jstr (rc_symbol candidate));
                  ("btc_generalization_failed", jbool (ap_btc_generalization_failed input))]));
   accept_shadow_check "holdout_2025_available" "2025+ holdout data is available"
     (ap_holdout_2025_available input) false
     (if ap_holdout_2025_available input then
        "2025+ holdout candles are available for later validation."
      else "2025+ holdout evidence is unavailable.")
     None;
   accept_shadow_check "no_shadow_runs_yet" "No shadow runs yet" (0 <? shadow_run_count) false
     (if 0 <? shadow_run_count then "Linked shadow runs exist."
      else "No linked shadow runs exist yet.")
     (Some (jobj [("shadow_run_count", jint shadow_run_count)]))].

Definition accept_preview_blockers (input : ResearchCandidateAcceptForShadowPreviewInput)
    : list string :=
  push_if (negb (status_eligible (rc_status (ap_candidate input))))
    ("Candidate status " +:+ ResearchCandidateStatus.as_str (rc_status (ap_candidate input)) +:+
     " is not eligible for accept-for-shadow preview.") ++
  push_if (negb (ap_source_experiment_exists input)) "Source experiment provenance is missing." ++
  (if negb (ap_source_walk_forward_exists input) then
     ["Source walk-forward evidence is missing."]
   else push_if (negb (preview_walk_forward_robust input))
          "Source walk-forward evidence is not ROBUST.") ++
  (if negb (ap_source_robustness_matrix_exists input) then
     ["Source robustness matrix evidence is missing."]
   else push_if (negb (preview_matrix_robust input))
          "Source robustness matrix evidence is not ROBUST.") ++
  push_if (negb (preview_data_quality_good input))
    "Data quality is not GOOD for the evaluated window.".

Definition accept_preview_warnings (input : ResearchCandidateAcceptForShadowPreviewInput)
    : list string :=
  push_if (ap_require_fresh_observation input && negb (ap_fresh_observation input))
    "Fresh persisted observation is missing." ++
  push_if (negb (al_strategy_config_matches_runner (ap_runner_alignment input)))
    "Current shadow runner config does not cover the candidate." ++
  push_if (ap_btc_generalization_failed input)
    "BTC/generalization evidence is failed or unavailable; candidate is ETH-specific only." ++
  push_if (negb (ap_holdout_2025_available input)) "2025+ holdout evidence is unavailable." ++
  push_if (ae_shadow_run_count (ap_evidence_summary input) =? 0)
    "No linked shadow runs exist yet.".

Definition evaluate_research_candidate_accept_for_shadow_preview
    (input : ResearchCandidateAcceptForShadowPreviewInput)
    : ResearchCandidateAcceptForShadowPreviewResult :=
  let candidate := ap_candidate input in
  let blockers := accept_preview_blockers input in
  let warnings := accept_preview_warnings input in
  let status :=
    if negb (vec_is_empty blockers) then ResearchCandidateAcceptForShadowPreviewStatus.Blocked
    else if ap_require_fresh_observation input && negb (ap_fresh_observation input) then
      ResearchCandidateAcceptForShadowPreviewStatus.NeedsMoreData
    else if negb (vec_is_empty warnings) then
      ResearchCandidateAcceptForShadowPreviewStatus.WarningReviewRequired
    else ResearchCandidateAcceptForShadowPreviewStatus.ReadyForHumanAcceptance in
  {| pr_candidate_id := rc_id candidate;
     pr_current_status := rc_status candidate;
     pr_strategy_id := rc_strategy_id candidate;
     pr_symbol := rc_symbol candidate;
     pr_timeframe := rc_timeframe candidate;
     pr_evidence_summary := ap_evidence_summary input;
     pr_checks := accept_preview_checks input;
     pr_blockers := blockers;
     pr_warnings := warnings;
     pr_recommended_action :=
       match status with
       | ResearchCandidateAcceptForShadowPreviewStatus.ReadyForHumanAcceptance =>
           "HUMAN_ACCEPT_FOR_SHADOW_REVIEW"
       | ResearchCandidateAcceptForShadowPreviewStatus.NeedsMoreData => "RUN_CANDIDATE_OBSERVATION"
       | ResearchCandidateAcceptForShadowPreviewStatus.WarningReviewRequired =>
           "HUMAN_REVIEW_WARNINGS_BEFORE_ACCEPTANCE"
       | ResearchCandidateAcceptForShadowPreviewStatus.Blocked =>
           if bool_decide (rc_status candidate = ResearchCandidateStatus.AcceptedForShadow)
           then "PREVIEW_SHADOW_RUNNER_PROMOTION" else "KEEP_DISCOVERED"
       end;
     pr_runner_alignment := ap_runner_alignment input;
     pr_required_runner_config_change := ap_required_runner_config_change input;
     pr_status := status;
     pr_no_mutation := true;
     pr_generated_at := ap_generated_at input |}.

Definition expected_research_candidate_accept_shadow_confirmation (candidate_id : Z) : string :=
  "ACCEPT CANDIDATE " +:+ uuid_show candidate_id +:+ " FOR SHADOW".
Definition is_valid_research_candidate_accept_shadow_confirmation (candidate_id : Z)
    (confirmation_text : string) : bool :=
  String.eqb confirmation_text (expected_research_candidate_accept_shadow_confirmation candidate_id).
Definition expected_research_candidate_shadow_promotion_confirmation (candidate_id : Z) : string :=
  "PROMOTE CANDIDATE " +:+ uuid_show candidate_id +:+ " TO SHADOW".
Definition is_valid_research_candidate_shadow_promotion_confirmation (candidate_id : Z)
    (confirmation_text : string) : bool :=
  String.eqb confirmation_text
    (expected_research_candidate_shadow_promotion_confirmation candidate_id).

Definition validate_research_candidate_accept_for_shadow_apply (candidate_id : Z)
    (preview : ResearchCandidateAcceptForShadowPreviewResult) (confirm : string)
    (acknowledge_warnings : bool)
    : res ResearchCandidateAcceptForShadowApplyRejection.t unit :=
  if negb (is_valid_research_candidate_accept_shadow_confirmation candidate_id confirm) then
    Err ResearchCandidateAcceptForShadowApplyRejection.InvalidConfirmation
  else if negb (status_eligible (pr_current_status preview)) then
    Err ResearchCandidateAcceptForShadowApplyRejection.CandidateNotEligible
  else if negb (vec_is_empty (pr_blockers preview)) then
    Err ResearchCandidateAcceptForShadowApplyRejection.PreviewBlocked
  else if negb match pr_status preview with
               | ResearchCandidateAcceptForShadowPreviewStatus.ReadyForHumanAcceptance
               | ResearchCandidateAcceptForShadowPreviewStatus.WarningReviewRequired => true
               | _ => false
               end then
    Err ResearchCandidateAcceptForShadowApplyRejection.PreviewNotReady
  else if negb (vec_is_empty (pr_warnings preview)) && negb acknowledge_warnings then
    Err ResearchCandidateAcceptForShadowApplyRejection.WarningAcknowledgementRequired
  else Ok tt.
End Candidate.

(** ** Sorted and merged messages *)

Lemma string_leb_total x y : String.leb x y = false -> String.leb y x = true.
Proof. intros H. destruct (String.leb_total x y) as [E|E]; congruence. Qed.

Lemma string_leb_trans x y z :
  String.leb x y = true -> String.leb y z = true -> String.leb x z = true.
Proof.
  unfold String.leb. revert y z. induction x as [|a x IH]; intros y z.
  - by destruct y, z.
  - destruct y as [|b y], z as [|c z]; cbn; try done.
    unfold Ascii.compare.
    destruct (N.compare_spec (Ascii.N_of_ascii a) (Ascii.N_of_ascii b)) as [E1|E1|E1],
      (N.compare_spec (Ascii.N_of_ascii b) (Ascii.N_of_ascii c)) as [E2|E2|E2],
      (N.compare_spec (Ascii.N_of_ascii a) (Ascii.N_of_ascii c)) as [E3|E3|E3];
      try done; try (exfalso; lia). apply IH.
Qed.

Lemma dedup_in x l : In x (dedup l) <-> In x l.
Proof.
  induction l as [|a [|b l] IH]; [done..|]. cbn [dedup] in *.
  destruct (String.eqb_spec a b) as [->|Hab]; [|cbn [In] in *]; rewrite IH; cbn [In]; intuition.
Qed.

Lemma dedup_nodup l : StronglySorted (fun x y => String.leb x y = true) l -> NoDup (dedup l).
Proof.
  induction 1 as [|a l Hs IH Ha]; [constructor|].
  destruct l as [|b l]; [apply NoDup_singleton|].
  change (NoDup (if String.eqb a b then dedup (b :: l) else a :: dedup (b :: l))).
  destruct (String.eqb_spec a b) as [->|Hab]; [done|]. constructor; [|done].
  rewrite list_elem_of_In, dedup_in. intros [->|Hin]; [done|].
  rewrite Forall_forall in Ha. inversion Hs as [|? ? _ Hb]; subst. rewrite Forall_forall in Hb.
  apply Hab, String.leb_antisym.
  - apply Ha. by left.
  - apply Hb. by apply list_elem_of_In.
Qed.

Lemma sort_dedup_in x l : In x (sort_dedup l) <-> In x l.
Proof. unfold sort_dedup. by rewrite dedup_in, in_sort_by. Qed.

Lemma sort_dedup_nodup l : NoDup (sort_dedup l).
Proof.
  apply dedup_nodup, sort_by_sorted; [exact string_leb_total|exact string_leb_trans].
Qed.

Lemma sort_dedup_nil l : sort_dedup l = [] <-> l = [].
Proof.
  split; [|by intros ->]. intros H. destruct l as [|x l]; [done|].
  assert (In x (sort_dedup (x :: l))) as Hin by (apply sort_dedup_in; by left). by rewrite H in Hin.
Qed.

Lemma push_if_nil b s : push_if b s = [] <-> b = false.
Proof. by destruct b. Qed.


(** ** What the gate decides *)

Section Gate.
Context {DI : Decimal} {DL : DecimalLaws DI} {JS : Json}.

(** The evidence a gated mode demands. *)
Definition gate_evidence (policy : ResearchCandidateCreationPolicy)
    (input : ResearchCandidateCreationInput) : Prop :=
  (pol_mode policy = ResearchCandidateCreationMode.CreateActionableOnly \/
   pol_mode policy = ResearchCandidateCreationMode.CreatePromisingOnly) /\
  ci_batch_triage_status input = ResearchBatchTriageStatus.Actionable /\
  (ci_walk_forward_status input = Some StrategyWalkForwardRobustnessStatus.Robust \/
   ci_walk_forward_status input = Some StrategyWalkForwardRobustnessStatus.Weak /\
   pol_mode policy = ResearchCandidateCreationMode.CreatePromisingOnly) /\
  ci_robustness_status input <> Some StrategyRobustnessMatrixStatus.Negative /\
  ci_data_quality_status input = Some MarketDataQualityStatus.Good /\
  pol_min_trade_count policy <= ci_trade_count input /\
  (dval (pol_min_score policy) <= dval (ci_score input))%Q /\
  ((0 <= dval (ci_pnl_pct input))%Q \/
   ci_walk_forward_status input = Some StrategyWalkForwardRobustnessStatus.Robust).

Lemma negative_pnl_iff (input : ResearchCandidateCreationInput) :
  (ci_pnl_pct input <? ZERO)%dec &&
  negb (bool_decide (ci_walk_forward_status input =
                     Some StrategyWalkForwardRobustnessStatus.Robust)) = false <->
  (0 <= dval (ci_pnl_pct input))%Q \/
  ci_walk_forward_status input = Some StrategyWalkForwardRobustnessStatus.Robust.
Proof.
  rewrite andb_false_iff, dltb_ge, dval_ZERO, negb_false_iff, bool_decide_eq_true. done.
Qed.

Lemma gate_blockers_nil policy input :
  pol_mode policy <> ResearchCandidateCreationMode.CreateAll ->
  cd_blockers (evaluate_research_candidate_creation policy input) = [] <->
  gate_evidence policy input.
Proof.
  intros Hm. unfold evaluate_research_candidate_creation, gate_evidence.
  rewrite bool_decide_eq_false_2 by done.
  destruct (walk_forward_gate _ _) as [wb ww] eqn:Hw. cbn [cd_blockers creation_decision].
  rewrite sort_dedup_nil, !app_nil, !push_if_nil, negative_pnl_iff, Z.ltb_ge, dltb_ge,
    bool_decide_eq_false.
  assert (mode_blockers (pol_mode policy) = [] <->
    pol_mode policy = ResearchCandidateCreationMode.CreateActionableOnly \/
    pol_mode policy = ResearchCandidateCreationMode.CreatePromisingOnly) as ->.
  { destruct (pol_mode policy); cbn; naive_solver. }
  assert (triage_blockers (ci_batch_triage_status input) = [] <->
    ci_batch_triage_status input = ResearchBatchTriageStatus.Actionable) as ->.
  { destruct (ci_batch_triage_status input); cbn; naive_solver. }
  assert (quality_blockers (ci_data_quality_status input) = [] <->
    ci_data_quality_status input = Some MarketDataQualityStatus.Good) as ->.
  { destruct (ci_data_quality_status input) as [[]|]; cbn; naive_solver. }
  assert (wb = [] <->
    ci_walk_forward_status input = Some StrategyWalkForwardRobustnessStatus.Robust \/
    ci_walk_forward_status input = Some StrategyWalkForwardRobustnessStatus.Weak /\
    pol_mode policy = ResearchCandidateCreationMode.CreatePromisingOnly) as ->.
  { unfold walk_forward_gate in Hw. destruct (ci_walk_forward_status input) as [[]|];
      try (injection Hw as <- <-; naive_solver).
    case_bool_decide; injection Hw as <- <-; naive_solver. }
  done.
Qed.

Lemma gated_creates_iff policy input :
  pol_mode policy <> ResearchCandidateCreationMode.CreateAll ->
  let d := evaluate_research_candidate_creation policy input in
  cd_should_create_candidate d = true <-> cd_blockers d = [].
Proof.
  intros Hm. unfold evaluate_research_candidate_creation.
  rewrite bool_decide_eq_false_2 by done. destruct (walk_forward_gate _ _) as [wb ww].
  cbn [cd_blockers cd_should_create_candidate creation_decision].
  by destruct (sort_dedup _).
Qed.
End Gate.

(** C. The creation gate creates a candidate exactly when the policy is
    CREATE_ALL, or when the mode creates, triage found it actionable, the walk
    forward is robust (or weak, in promising-only mode), the robustness matrix is
    not negative, the data is good, the trade count and the score reach the
    thresholds and the PnL is not negative unless the walk forward is robust.  A
    candidate is never both created and proposed, a refusal names at least one
    blocker, and no blocker is named twice. *)
Theorem candidate_created_iff_evidence {DI : Decimal} {DL : DecimalLaws DI} {JS : Json}
    (policy : ResearchCandidateCreationPolicy) (input : ResearchCandidateCreationInput) :
  let d := evaluate_research_candidate_creation policy input in
  (cd_should_create_candidate d = true <->
   pol_mode policy = ResearchCandidateCreationMode.CreateAll \/ gate_evidence policy input) /\
  (cd_should_create_proposal d = true <->
   cd_should_create_candidate d = false /\
   pol_mode policy <> ResearchCandidateCreationMode.Disabled) /\
  (cd_should_create_candidate d = true <-> cd_blockers d = []) /\
  NoDup (cd_blockers d).
Proof.
  cbv zeta. destruct (decide (pol_mode policy = ResearchCandidateCreationMode.CreateAll)) as [Hm|Hm].
  - unfold evaluate_research_candidate_creation. rewrite Hm, bool_decide_eq_true_2 by done.
    cbn [creation_decision cd_should_create_candidate cd_should_create_proposal cd_blockers].
    split; [|split; [|split; [done|constructor]]].
    + split; [by left|done].
    + split; [done|by intros [? _]].
  - pose proof (gated_creates_iff policy input Hm) as Hc. cbv zeta in Hc.
    pose proof (gate_blockers_nil policy input Hm) as Hb.
    split; [rewrite Hc, Hb; naive_solver|]. split; [|split; [done|]];
      unfold evaluate_research_candidate_creation in *;
      rewrite bool_decide_eq_false_2 in * by done; destruct (walk_forward_gate _ _) as [wb ww];
      cbn [cd_should_create_proposal cd_should_create_candidate cd_blockers creation_decision];
      [|apply sort_dedup_nodup].
    rewrite andb_true_iff, negb_true_iff.
    destruct (pol_mode policy); cbn; naive_solver.
Qed.

(** ** What the acceptance preview promises *)

Section Preview.
Context {DI : Decimal} {JS : Json} {JD : JsonScalars} {JB : JsonBuild} {UT : UuidText}.

(** The evidence that must be in place before a candidate is accepted. *)
Definition acceptance_evidence (input : ResearchCandidateAcceptForShadowPreviewInput) : Prop :=
  status_eligible (rc_status (ap_candidate input)) = true /\
  ap_source_experiment_exists input = true /\
  ap_source_walk_forward_exists input = true /\
  ae_walk_forward_status (ap_evidence_summary input) =
    Some StrategyWalkForwardRobustnessStatus.Robust /\
  ap_source_robustness_matrix_exists input = true /\
  ae_robustness_matrix_status (ap_evidence_summary input) =
    Some StrategyRobustnessMatrixStatus.Robust /\
  ae_data_quality_status (ap_evidence_summary input) = Some MarketDataQualityStatus.Good.

Lemma accept_blockers_nil input :
  accept_preview_blockers input = [] <-> acceptance_evidence input.
Proof.
  unfold accept_preview_blockers, acceptance_evidence, preview_walk_forward_robust,
    preview_matrix_robust, preview_data_quality_good.
  rewrite !app_nil, !push_if_nil, !negb_false_iff, bool_decide_eq_true.
  destruct (ap_source_walk_forward_exists input), (ap_source_robustness_matrix_exists input);
    cbn [negb]; rewrite ?push_if_nil, ?negb_false_iff, ?bool_decide_eq_true; naive_solver.
Qed.

Lemma preview_status_spec input :
  let p := evaluate_research_candidate_accept_for_shadow_preview input in
  (match pr_status p with
   | ResearchCandidateAcceptForShadowPreviewStatus.ReadyForHumanAcceptance
   | ResearchCandidateAcceptForShadowPreviewStatus.WarningReviewRequired => true
   | _ => false
   end = true <->
   acceptance_evidence input /\
   (ap_require_fresh_observation input = true -> ap_fresh_observation input = true)).
Proof.
  cbv zeta. cbn [pr_status evaluate_research_candidate_accept_for_shadow_preview].
  rewrite <- accept_blockers_nil.
  destruct (accept_preview_blockers input) as [|b bs]; cbn [vec_is_empty negb]; [|naive_solver].
  destruct (ap_require_fresh_observation input), (ap_fresh_observation input);
    cbn [andb negb]; try (destruct (vec_is_empty _)); naive_solver.
Qed.

Lemma blocking_checks_spec input :
  Forall (fun c => ac_blocking c = true -> ac_passed c = true) (accept_preview_checks input) <->
  acceptance_evidence input /\
  (ap_require_fresh_observation input = true -> ap_fresh_observation input = true).
Proof.
  unfold accept_preview_checks, acceptance_evidence, preview_walk_forward_robust,
    preview_matrix_robust, preview_data_quality_good, accept_shadow_check.
  rewrite !Forall_cons. cbn [ac_blocking ac_passed].
  rewrite !andb_true_iff, !bool_decide_eq_true, orb_true_iff, negb_true_iff.
  destruct (ap_require_fresh_observation input); naive_solver.
Qed.
End Preview.

(** C. Confirming an acceptance succeeds exactly when the confirmation text is
    the expected one, every piece of evidence the preview demands is in place
    (pre-acceptance status, experiment, robust walk forward, robust matrix, good
    data), a required observation is fresh, and the warnings, if any, are
    acknowledged; and the preview offers acceptance exactly when all its blocking
    checks pass. *)
Theorem acceptance_confirmed_iff_evidence {DI : Decimal} {JS : Json} {JD : JsonScalars}
    {JB : JsonBuild} {UT : UuidText} (input : ResearchCandidateAcceptForShadowPreviewInput)
    (confirm : string) (acknowledge_warnings : bool) :
  let id := rc_id (ap_candidate input) in
  let p := evaluate_research_candidate_accept_for_shadow_preview input in
  let evidence := acceptance_evidence input /\
    (ap_require_fresh_observation input = true -> ap_fresh_observation input = true) in
  (validate_research_candidate_accept_for_shadow_apply id p confirm acknowledge_warnings = Ok tt <->
   confirm = "ACCEPT CANDIDATE " +:+ uuid_show id +:+ " FOR SHADOW" /\ evidence /\
   (acknowledge_warnings = true \/ pr_warnings p = [])) /\
  (Forall (fun c => ac_blocking c = true -> ac_passed c = true) (pr_checks p) <-> evidence).
Proof.
  cbv zeta. split; [|apply blocking_checks_spec].
  rewrite <- preview_status_spec. unfold validate_research_candidate_accept_for_shadow_apply,
    is_valid_research_candidate_accept_shadow_confirmation,
    expected_research_candidate_accept_shadow_confirmation.
  set (p := evaluate_research_candidate_accept_for_shadow_preview input).
  assert (match pr_status p with
   | ResearchCandidateAcceptForShadowPreviewStatus.ReadyForHumanAcceptance
   | ResearchCandidateAcceptForShadowPreviewStatus.WarningReviewRequired => true
   | _ => false end = true ->
   status_eligible (pr_current_status p) = true /\ vec_is_empty (pr_blockers p) = true) as Hready.
  { intros H. apply preview_status_spec in H as [H _]. pose proof (proj2 (accept_blockers_nil input) H).
    split; [apply H|]. by apply vec_is_empty_iff. }
  destruct (String.eqb_spec confirm
    ("ACCEPT CANDIDATE " +:+ uuid_show (rc_id (ap_candidate input)) +:+ " FOR SHADOW")) as [Hc|Hc];
    cbn [negb]; [|naive_solver].
  destruct (match pr_status p with
   | ResearchCandidateAcceptForShadowPreviewStatus.ReadyForHumanAcceptance
   | ResearchCandidateAcceptForShadowPreviewStatus.WarningReviewRequired => true
   | _ => false end) eqn:Hs; cbn [negb].
  - destruct (Hready eq_refl) as [-> ->]. cbn [negb].
    destruct (vec_is_empty (pr_warnings p)) eqn:Hw, acknowledge_warnings; cbn [negb andb].
    all: rewrite <- vec_is_empty_iff, Hw; naive_solver.
  - destruct (status_eligible _), (vec_is_empty _); cbn [negb]; naive_solver.
Qed.
