(* ===== verification/ShadowRunner.v ===== *)
(** * Shadow observation: candidate observations and the shadow runner's coverage

    crates/core/src/research.rs, 11954-12000, 12303-12416 and 15973-16121;
    crates/api/src/testnet_shadow_runner.rs, 45-165; crates/api/src/main.rs,
    4787-4872, 25924-25955, 26918-26968 and 26993-27306.

    An observation sums the shadow runs of a candidate up and judges them.  The
    shadow runner has one configuration: strategies, symbols, a time frame.  A
    promotion compares the candidate with it, proposes a configuration that covers
    the candidate alone, and stores the proposal normalised.  [num_hours] of
    [chrono], the [Debug] rendering of a string and the hash of a configuration
    are arguments. *)

From Stdlib Require Import ZArith QArith Lqa Lia List String Sorted Permutation.
From stdpp Require Import base list strings.
From S2P Require Import Prelude Text Host Types MarketData WalkForward ResearchTypes Candidate.

#[local] Open Scope Z_scope.

Module TestnetShadowRunnerStaleFeedPolicy.
Inductive t := Skip.
Definition as_str (x : t) : string := match x with Skip => "SKIP" end.
End TestnetShadowRunnerStaleFeedPolicy.

Section ShadowRunner.
Context {DI : Decimal} {JS : Json}.

Record StrategyCandidateObservationRequirement := {
  oq_candidate_id : Z;
  oq_strategy_id : string;
  oq_symbol : string;
  oq_timeframe : string;
  oq_min_observation_hours : Z;
  oq_min_shadow_runs : Z;
  oq_max_risk_rejection_rate : option dec;
  oq_min_would_submit_count : Z;
  oq_max_no_signal_rate : option dec;
  oq_require_readiness_ready : bool
}.

Record StrategyCandidateObservationFinding := {
  of_code : string;
  of_message : string;
  of_blocking : bool
}.

Record StrategyCandidateObservationSummary := {
  os_candidate_id : Z;
  os_window_start : Z;
  os_window_end : Z;
  os_shadow_runs : Z;
  os_would_submit_count : Z;
  os_no_signal_count : Z;
  os_risk_rejected_count : Z;
  os_skipped_count : Z;
  os_risk_rejection_rate : dec;
  os_no_signal_rate : dec;
  os_latest_readiness_status : option ExecutionReadinessStatus.t;
  os_latest_readiness_score : option Z;
  os_runner_alignment : StrategyCandidateRunnerAlignment;
  os_decision : StrategyCandidateObservationDecision.t;
  os_findings : list StrategyCandidateObservationFinding;
  os_recommendations : list string;
  os_created_at : Z
}.

Record StrategyCandidateObservationResult := {
  ob_observation_id : Z;
  ob_candidate_id : Z;
  ob_strategy_id : string;
  ob_symbol : string;
  ob_timeframe : string;
  ob_status : StrategyCandidateObservationStatus.t;
  ob_requirements : StrategyCandidateObservationRequirement;
  ob_runner_alignment : StrategyCandidateRunnerAlignment;
  ob_summary : StrategyCandidateObservationSummary;
  ob_decision : StrategyCandidateObservationDecision.t;
  ob_started_at : Z;
  ob_evaluated_at : Z;
  ob_last_observed_at : Z;
  ob_observation_expires_at : option Z;
  ob_observation_max_age_seconds : option Z;
  ob_observation_snapshot_hash : option string;
  ob_runner_config_snapshot : option json;
  ob_readiness_snapshot : option json;
  ob_created_by : option Z;
  ob_correlation_id : option Z
}.

Record ResearchCandidatePromotionReadiness := {
  rd_candidate_id : Z;
  rd_target : string;
  rd_latest_observation_id : option Z;
  rd_latest_observation_decision : option StrategyCandidateObservationDecision.t;
  rd_last_observed_at : option Z;
  rd_observation_expires_at : option Z;
  rd_observation_age_seconds : option Z;
  rd_observation_max_age_seconds : option Z;
  rd_observation_snapshot_hash : option string;
  rd_latest_recommendation : option string;
  rd_readiness_status : option ExecutionReadinessStatus.t;
  rd_readiness_score : option Z;
  rd_runner_alignment : StrategyCandidateRunnerAlignment;
  rd_blockers : list string;
  rd_is_ready : bool;
  rd_evaluated_at : Z
}.

Record TestnetShadowRunnerConfigInput := {
  ri_enabled : bool;
  ri_interval_seconds : Z;
  ri_strategies : list string;
  ri_symbols : list string;
  ri_timeframe : string;
  ri_max_runs_per_tick : Z;
  ri_stale_feed_policy : TestnetShadowRunnerStaleFeedPolicy.t;
  ri_notes : option string
}.

Record TestnetShadowRunnerConfig := {
  rf_id : Z;
  rf_enabled : bool;
  rf_interval_seconds : Z;
  rf_strategies : list string;
  rf_symbols : list string;
  rf_timeframe : string;
  rf_max_runs_per_tick : Z;
  rf_stale_feed_policy : TestnetShadowRunnerStaleFeedPolicy.t;
  rf_notes : option string;
  rf_updated_by : option Z;
  rf_updated_at : Z
}.

Record TestnetShadowRunnerConfigValidation := {
  rl_valid : bool;
  rl_issues : list string;
  rl_normalized_config : option TestnetShadowRunnerConfigInput
}.

Record ResearchCandidateShadowPromotionRequest := {
  sp_mode : ResearchCandidateShadowPromotionMode.t;
  sp_allow_missing_runner_alignment : bool;
  sp_confirmation_text : option string;
  sp_correlation_id : option Z
}.

Record ResearchCandidateShadowPromotionTimeframeChange := {
  tc_from : string;
  tc_to : string
}.

Record ResearchCandidateShadowPromotionEnabledChange := {
  ec_from : bool;
  ec_to : bool
}.

Record ResearchCandidateShadowPromotionDiff := {
  sd_added_strategies : list string;
  sd_removed_strategies : list string;
  sd_added_symbols : list string;
  sd_removed_symbols : list string;
  sd_timeframe_change : option ResearchCandidateShadowPromotionTimeframeChange;
  sd_enabled_change : option ResearchCandidateShadowPromotionEnabledChange
}.

Record ResearchCandidateShadowPromotionPreview := {
  pp_candidate_id : Z;
  pp_candidate_status : ResearchCandidateStatus.t;
  pp_strategy_id : string;
  pp_symbol : string;
  pp_timeframe : string;
  pp_current_runner_config : TestnetShadowRunnerConfig;
  pp_proposed_runner_config : TestnetShadowRunnerConfig;
  pp_diff : ResearchCandidateShadowPromotionDiff;
  pp_changes : list string;
  pp_status : ResearchCandidateShadowPromotionStatus.t;
  pp_reasons : list string;
  pp_blockers : list string;
  pp_warnings : list string;
  pp_recommendation : string;
  pp_confirmation_required : bool;
  pp_correlation_id : Z;
  pp_mode : ResearchCandidateShadowPromotionMode.t;
  pp_allow_missing_runner_alignment : bool
}.

Record ResearchCandidateShadowPromotionResult := {
  ps_candidate_id : Z;
  ps_candidate_status : ResearchCandidateStatus.t;
  ps_strategy_id : string;
  ps_symbol : string;
  ps_timeframe : string;
  ps_current_runner_config : TestnetShadowRunnerConfig;
  ps_proposed_runner_config : TestnetShadowRunnerConfig;
  ps_diff : ResearchCandidateShadowPromotionDiff;
  ps_changes : list string;
  ps_status : ResearchCandidateShadowPromotionStatus.t;
  ps_reasons : list string;
  ps_blockers : list string;
  ps_warnings : list string;
  ps_recommendation : string;
  ps_confirmation_required : bool;
  ps_correlation_id : Z;
  ps_mode : ResearchCandidateShadowPromotionMode.t;
  ps_allow_missing_runner_alignment : bool;
  ps_applied : bool
}.

(** ** Observing a candidate *)

Definition calculate_strategy_rejection_rate (rejected total : Z) : dec :=
  if total <=? 0 then ZERO else ddiv (dint rejected) (dint total).
Definition calculate_observation_rate (count total : Z) : dec :=
  if (count <=? 0) || (total <=? 0) then ZERO else ddiv (dint count) (dint total).

Definition blocking_finding (code message : string) : StrategyCandidateObservationFinding :=
  {| of_code := code; of_message := message; of_blocking := true |}.

(** The running decision and the findings pushed so far. *)
Definition observing : Type :=
  StrategyCandidateObservationDecision.t * list StrategyCandidateObservationFinding.

(** [if test { decision = verdict; findings.push(finding); }] *)
Definition fail_when (test : bool) (verdict : StrategyCandidateObservationDecision.t)
    (finding : StrategyCandidateObservationFinding) (st : observing) : observing :=
  if test then (verdict, snd st ++ [finding]) else st.

Definition is_pass (decision : StrategyCandidateObservationDecision.t) : bool :=
  bool_decide (decision = StrategyCandidateObservationDecision.Pass).

(** [if let Some(max) = bound { if rate > max { .. } }] *)
Definition above (rate : dec) (bound : option dec) : bool :=
  match bound with Some max => (rate >? max)%dec | None => false end.
Definition bound_text (bound : option dec) : string :=
  match bound with Some max => dshow (dround_dp max 4) | None => "" end.

Definition evaluate_strategy_candidate_observation (num_hours : Z -> Z)
    (requirements : StrategyCandidateObservationRequirement)
    (window_start window_end shadow_runs would_submit_count no_signal_count risk_rejected_count
     skipped_count : Z) (latest_readiness_status : option ExecutionReadinessStatus.t)
    (latest_readiness_score : option Z) (runner_alignment : StrategyCandidateRunnerAlignment)
    (created_at : Z) : StrategyCandidateObservationSummary :=
  let risk_rejection_rate := calculate_strategy_rejection_rate risk_rejected_count shadow_runs in
  let no_signal_rate := calculate_observation_rate no_signal_count shadow_runs in
  let observed_hours := num_hours (window_end - window_start) in
  let mismatch := negb (al_strategy_config_matches_runner runner_alignment) in
  let st0 := fail_when mismatch StrategyCandidateObservationDecision.InsufficientData
    (blocking_finding "shadow_runner_config_mismatch"
       "Shadow runner is not configured for candidate timeframe/symbol/strategy.")
    (StrategyCandidateObservationDecision.Pass, []) in
  let recommendations := push_if mismatch
    ("Update shadow runner config to include " +:+ oq_strategy_id requirements +:+ " " +:+
     oq_symbol requirements +:+ " " +:+ oq_timeframe requirements +:+ ".") in
  let st1 := fail_when (observed_hours <? oq_min_observation_hours requirements)
    (if is_pass (fst st0) then StrategyCandidateObservationDecision.ContinueObserving else fst st0)
    (blocking_finding "not_enough_time_observed"
       ("Observed " +:+ show_int observed_hours +:+ "h but requires at least " +:+
        show_int (oq_min_observation_hours requirements) +:+ "h.")) st0 in
  let st2 := fail_when (shadow_runs <? oq_min_shadow_runs requirements)
    StrategyCandidateObservationDecision.InsufficientData
    (blocking_finding "not_enough_shadow_runs"
       ("Observed " +:+ show_int shadow_runs +:+ " shadow runs but requires at least " +:+
        show_int (oq_min_shadow_runs requirements) +:+ ".")) st1 in
  let st3 :=
    if is_pass (fst st2) then
      fail_when (above no_signal_rate (oq_max_no_signal_rate requirements))
        StrategyCandidateObservationDecision.Fail
        (blocking_finding "high_no_signal_rate"
           ("No-signal rate " +:+ dshow (dround_dp no_signal_rate 4) +:+ " exceeded max " +:+
            bound_text (oq_max_no_signal_rate requirements) +:+ "."))
      (fail_when (above risk_rejection_rate (oq_max_risk_rejection_rate requirements))
        StrategyCandidateObservationDecision.Fail
        (blocking_finding "high_risk_rejection_rate"
           ("Risk rejection rate " +:+ dshow (dround_dp risk_rejection_rate 4) +:+
            " exceeded max " +:+ bound_text (oq_max_risk_rejection_rate requirements) +:+ "."))
      (fail_when (would_submit_count <? oq_min_would_submit_count requirements)
        StrategyCandidateObservationDecision.Fail
        (blocking_finding "zero_or_low_would_submit"
           ("Observed " +:+ show_int would_submit_count +:+
            " WOULD_SUBMIT runs but requires at least " +:+
            show_int (oq_min_would_submit_count requirements) +:+ "."))
      (fail_when (oq_require_readiness_ready requirements &&
                  negb (bool_decide (latest_readiness_status = Some ExecutionReadinessStatus.Ready)))
        StrategyCandidateObservationDecision.Fail
        (blocking_finding "readiness_not_ready"
           ("Latest TESTNET_SHADOW readiness was " +:+
            match latest_readiness_status with
            | Some value => ExecutionReadinessStatus.as_str value
            | None => "UNKNOWN"
            end +:+ ".")) st2)))
    else st2 in
  let findings :=
    if vec_is_empty (snd st3) then
      [{| of_code := "requirements_met"; of_message := "Observation requirements were met.";
          of_blocking := false |}]
    else snd st3 in
  {| os_candidate_id := oq_candidate_id requirements;
     os_window_start := window_start; os_window_end := window_end;
     os_shadow_runs := shadow_runs; os_would_submit_count := would_submit_count;
     os_no_signal_count := no_signal_count; os_risk_rejected_count := risk_rejected_count;
     os_skipped_count := skipped_count;
     os_risk_rejection_rate := dround_dp risk_rejection_rate 4;
     os_no_signal_rate := dround_dp no_signal_rate 4;
     os_latest_readiness_status := latest_readiness_status;
     os_latest_readiness_score := latest_readiness_score;
     os_runner_alignment := runner_alignment;
     os_decision := fst st3;
     os_findings := findings;
     os_recommendations := recommendations;
     os_created_at := created_at |}.

(** ** The runner's configuration *)

(** [format!("{value:?}")] of a string is [debug_str]. *)
Definition validate_testnet_shadow_runner_config (debug_str : string -> string)
    (input : TestnetShadowRunnerConfigInput) : TestnetShadowRunnerConfigValidation :=
  let strategies := List.filter (fun value => negb (is_empty value))
    (map (fun value => to_ascii_lowercase (trim value)) (ri_strategies input)) in
  let symbols := omap (fun value => option_map symbol_text (ok (Symbol_new value)))
    (ri_symbols input) in
  let symbol_issues := omap (fun value =>
    match Symbol_new value with
    | Err _ => Some ("invalid symbol " +:+ debug_str value +:+ ": symbol cannot be empty")
    | _ => None
    end) (ri_symbols input) in
  let timeframe := to_ascii_lowercase (trim (ri_timeframe input)) in
  let issues :=
    push_if (ri_interval_seconds input <=? 0) "interval_seconds must be greater than 0" ++
    push_if (ri_max_runs_per_tick input <=? 0) "max_runs_per_tick must be greater than 0" ++
    push_if (vec_is_empty strategies) "at least one strategy is required" ++
    symbol_issues ++
    push_if (vec_is_empty symbols) "at least one symbol is required" ++
    push_if (negb (is_ok (from_str (A := CandleInterval.t) timeframe)))
      "timeframe must be a supported candle interval" in
  if vec_is_empty issues then
    {| rl_valid := true; rl_issues := issues;
       rl_normalized_config := Some
         {| ri_enabled := ri_enabled input;
            ri_interval_seconds := ri_interval_seconds input;
            ri_strategies := strategies;
            ri_symbols := symbols;
            ri_timeframe := timeframe;
            ri_max_runs_per_tick := ri_max_runs_per_tick input;
            ri_stale_feed_policy := ri_stale_feed_policy input;
            ri_notes :=
              match option_map trim (ri_notes input) with
              | Some value => if is_empty value then None else Some value
              | None => None
              end |} |}
  else {| rl_valid := false; rl_issues := issues; rl_normalized_config := None |}.

(** The upsert replaces the single row; the error is the joined issues. *)
Definition persist_testnet_shadow_runner_config (debug_str : string -> string) (config_id now : Z)
    (input : TestnetShadowRunnerConfigInput) (updated_by : option Z)
    : res string TestnetShadowRunnerConfig :=
  let normalized := validate_testnet_shadow_runner_config debug_str input in
  if negb (rl_valid normalized) then Err (join "; " (rl_issues normalized))
  else
    normalized ← expect (rl_normalized_config normalized);
    Ok {| rf_id := config_id;
          rf_enabled := ri_enabled normalized;
          rf_interval_seconds := ri_interval_seconds normalized;
          rf_strategies := ri_strategies normalized;
          rf_symbols := ri_symbols normalized;
          rf_timeframe := ri_timeframe normalized;
          rf_max_runs_per_tick := ri_max_runs_per_tick normalized;
          rf_stale_feed_policy := ri_stale_feed_policy normalized;
          rf_notes := ri_notes normalized;
          rf_updated_by := updated_by;
          rf_updated_at := now |}.

(** ** Coverage of a candidate *)

Definition contains_case_insensitive (values : list string) (candidate_value : string) : bool :=
  existsb (fun value => eq_ignore_ascii_case (trim value) candidate_value) values.

Definition candidate_runner_alignment_detail (candidate : ResearchCandidate)
    (config : TestnetShadowRunnerConfig) (runner_status : string)
    : StrategyCandidateRunnerAlignment :=
  let strategy_matches := contains_case_insensitive (rf_strategies config) (rc_strategy_id candidate) in
  let symbol_matches := contains_case_insensitive (rf_symbols config) (rc_symbol candidate) in
  let timeframe_matches :=
    eq_ignore_ascii_case (trim (rf_timeframe config)) (rc_timeframe candidate) in
  {| al_strategy_config_matches_runner := timeframe_matches && symbol_matches && strategy_matches;
     al_runner_enabled := rf_enabled config;
     al_runner_status := runner_status;
     al_runner_timeframe := rf_timeframe config;
     al_runner_symbols := rf_symbols config;
     al_runner_strategies := rf_strategies config;
     al_mismatch_reasons :=
       push_if (negb timeframe_matches)
         ("runner timeframe " +:+ rf_timeframe config +:+ " does not include candidate timeframe " +:+
          rc_timeframe candidate) ++
       push_if (negb symbol_matches)
         ("runner symbols [" +:+ join ", " (rf_symbols config) +:+
          "] do not include candidate symbol " +:+ rc_symbol candidate) ++
       push_if (negb strategy_matches)
         ("runner strategies [" +:+ join ", " (rf_strategies config) +:+
          "] do not include candidate strategy " +:+ rc_strategy_id candidate) |}.

Definition required_runner_config_changes_for_candidate (candidate : ResearchCandidate)
    (config : TestnetShadowRunnerConfig) : list string :=
  push_if (negb (eq_ignore_ascii_case (trim (rf_timeframe config)) (rc_timeframe candidate)))
    ("set timeframe from " +:+ rf_timeframe config +:+ " to " +:+ rc_timeframe candidate) ++
  push_if (negb (contains_case_insensitive (rf_symbols config) (rc_symbol candidate)))
    ("add symbol " +:+ rc_symbol candidate) ++
  push_if (negb (contains_case_insensitive (rf_strategies config) (rc_strategy_id candidate)))
    ("add strategy " +:+ rc_strategy_id candidate) ++
  push_if (negb (rf_enabled config))
    "enable shadow runner when human-approved shadow observation begins".

Definition values_added_case_insensitive (current proposed : list string) : list string :=
  List.filter (fun value => negb (contains_case_insensitive current value)) proposed.
Definition values_removed_case_insensitive (current proposed : list string) : list string :=
  List.filter (fun value => negb (contains_case_insensitive proposed value)) current.

Definition build_shadow_runner_config_diff (current proposed : TestnetShadowRunnerConfig)
    : ResearchCandidateShadowPromotionDiff := {|
  sd_added_strategies := values_added_case_insensitive (rf_strategies current) (rf_strategies proposed);
  sd_removed_strategies :=
    values_removed_case_insensitive (rf_strategies current) (rf_strategies proposed);
  sd_added_symbols := values_added_case_insensitive (rf_symbols current) (rf_symbols proposed);
  sd_removed_symbols := values_removed_case_insensitive (rf_symbols current) (rf_symbols proposed);
  sd_timeframe_change :=
    if negb (String.eqb (trim (rf_timeframe current)) (trim (rf_timeframe proposed))) then
      Some {| tc_from := rf_timeframe current; tc_to := rf_timeframe proposed |}
    else None;
  sd_enabled_change :=
    if negb (Bool.eqb (rf_enabled current) (rf_enabled proposed)) then
      Some {| ec_from := rf_enabled current; ec_to := rf_enabled proposed |}
    else None
|}.

Definition show_bool (b : bool) : string := if b then "true" else "false".

Definition describe_shadow_runner_config_changes (current proposed : TestnetShadowRunnerConfig)
    : list string :=
  let diff := build_shadow_runner_config_diff current proposed in
  map (fun strategy => "add strategy " +:+ strategy) (sd_added_strategies diff) ++
  map (fun strategy => "remove strategy " +:+ strategy) (sd_removed_strategies diff) ++
  map (fun symbol => "add symbol " +:+ symbol) (sd_added_symbols diff) ++
  map (fun symbol => "remove symbol " +:+ symbol) (sd_removed_symbols diff) ++
  match sd_timeframe_change diff with
  | Some change => ["change timeframe " +:+ tc_from change +:+ " -> " +:+ tc_to change]
  | None => []
  end ++
  match sd_enabled_change diff with
  | Some change => ["change enabled " +:+ show_bool (ec_from change) +:+ " -> " +:+
                    show_bool (ec_to change)]
  | None => []
  end.

Definition none_or_joined (values : list string) : string :=
  if vec_is_empty values then "none" else join "," values.

Definition build_shadow_promotion_proposed_runner_config (current : TestnetShadowRunnerConfig)
    (candidate : ResearchCandidate)
    : TestnetShadowRunnerConfig * ResearchCandidateShadowPromotionDiff * list string * list string :=
  let proposed := {|
    rf_id := rf_id current;
    rf_enabled := rf_enabled current;
    rf_interval_seconds := rf_interval_seconds current;
    rf_strategies := [rc_strategy_id candidate];
    rf_symbols := [rc_symbol candidate];
    rf_timeframe := rc_timeframe candidate;
    rf_max_runs_per_tick := rf_max_runs_per_tick current;
    rf_stale_feed_policy := rf_stale_feed_policy current;
    rf_notes := rf_notes current;
    rf_updated_by := rf_updated_by current;
    rf_updated_at := rf_updated_at current |} in
  let diff := build_shadow_runner_config_diff current proposed in
  let changes := describe_shadow_runner_config_changes current proposed in
  let warnings :=
    match sd_timeframe_change diff with
    | Some change =>
        ["Singleton shadow runner timeframe will change from " +:+ tc_from change +:+ " to " +:+
         tc_to change +:+
         "; existing shadow config entries are replaced with candidate-only coverage."]
    | None => []
    end ++
    push_if (negb (vec_is_empty (sd_removed_strategies diff)) ||
             negb (vec_is_empty (sd_removed_symbols diff)))
      ("Candidate-only shadow promotion will remove existing runner entries: strategies=[" +:+
       none_or_joined (sd_removed_strategies diff) +:+ "], symbols=[" +:+
       none_or_joined (sd_removed_symbols diff) +:+ "].") ++
    push_if (rf_enabled current)
      "Shadow runner is currently enabled; promotion preserves the enabled flag and only changes config coverage." in
  (proposed, diff, changes, warnings).

(** The fields the promotion hands to [persist_testnet_shadow_runner_config]. *)
Definition runner_input (config : TestnetShadowRunnerConfig) : TestnetShadowRunnerConfigInput := {|
  ri_enabled := rf_enabled config;
  ri_interval_seconds := rf_interval_seconds config;
  ri_strategies := rf_strategies config;
  ri_symbols := rf_symbols config;
  ri_timeframe := rf_timeframe config;
  ri_max_runs_per_tick := rf_max_runs_per_tick config;
  ri_stale_feed_policy := rf_stale_feed_policy config;
  ri_notes := rf_notes config
|}.

(** ** Readiness of an observation *)

Context {CH : Chrono}.

(** The observation's age, in whole seconds. *)
Definition observation_age_seconds (observation : StrategyCandidateObservationResult) (now : Z) : Z :=
  num_seconds (now - ob_last_observed_at observation).

Definition observation_freshness_status (observation : StrategyCandidateObservationResult) (now : Z)
    : ResearchCandidateObservationFreshnessStatus.t :=
  match ob_observation_max_age_seconds observation with
  | Some max_age =>
      if observation_age_seconds observation now <=? max_age
      then ResearchCandidateObservationFreshnessStatus.Fresh
      else ResearchCandidateObservationFreshnessStatus.Stale
  | None => ResearchCandidateObservationFreshnessStatus.Unknown
  end.

Definition latest_recommendation (observation : StrategyCandidateObservationResult) : option string :=
  head (os_recommendations (ob_summary observation)).

Definition candidate_promotion_readiness (candidate_id : Z)
    (observation : StrategyCandidateObservationResult) (now : Z)
    : ResearchCandidatePromotionReadiness :=
  let readiness_status := os_latest_readiness_status (ob_summary observation) in
  let observation_age := observation_age_seconds observation now in
  let observation_max_age := ob_observation_max_age_seconds observation in
  let blockers :=
    push_if (negb (al_strategy_config_matches_runner (ob_runner_alignment observation)))
      "shadow_runner_mismatch" ++
    push_if match observation_max_age with
            | Some max_age => max_age <? observation_age
            | None => false
            end "observation_stale" ++
    push_if (bool_decide (readiness_status = Some ExecutionReadinessStatus.NotReady))
      "testnet_shadow_not_ready" ++
    push_if (negb (is_pass (ob_decision observation)))
      ("observation_" +:+
       to_ascii_lowercase (StrategyCandidateObservationDecision.as_str (ob_decision observation))) in
  {| rd_candidate_id := candidate_id;
     rd_target := "TESTNET_SHADOW";
     rd_latest_observation_id := Some (ob_observation_id observation);
     rd_latest_observation_decision := Some (ob_decision observation);
     rd_last_observed_at := Some (ob_last_observed_at observation);
     rd_observation_expires_at := ob_observation_expires_at observation;
     rd_observation_age_seconds := Some observation_age;
     rd_observation_max_age_seconds := observation_max_age;
     rd_observation_snapshot_hash := ob_observation_snapshot_hash observation;
     rd_latest_recommendation := latest_recommendation observation;
     rd_readiness_status := readiness_status;
     rd_readiness_score := os_latest_readiness_score (ob_summary observation);
     rd_runner_alignment := ob_runner_alignment observation;
     rd_blockers := blockers;
     rd_is_ready := vec_is_empty blockers;
     rd_evaluated_at := now |}.

Definition accept_for_shadow_eligibility (observation : StrategyCandidateObservationResult) (now : Z)
    (runner_config_drifted : bool) : bool * list string :=
  let readiness := candidate_promotion_readiness (ob_candidate_id observation) observation now in
  let blockers := rd_blockers readiness ++ push_if runner_config_drifted "runner_config_changed" in
  (vec_is_empty blockers, blockers).

(** ** Previewing a promotion *)

(** One round of [for reason in &readiness.blockers]: a blocker or a warning. *)
Definition preview_reason (allow_missing_runner_alignment : bool)
    (observation : StrategyCandidateObservationResult) (reason : string) : string + string :=
  if String.eqb reason "shadow_runner_mismatch" then
    inr "Current shadow runner config does not cover the candidate; preview proposes candidate-only runner coverage."
  else if allow_missing_runner_alignment &&
          negb (al_strategy_config_matches_runner (ob_runner_alignment observation)) &&
          String.prefix "observation_" reason then
    inr ("Latest observation decision was " +:+
         StrategyCandidateObservationDecision.as_str (ob_decision observation) +:+
         "; runner mismatch is being treated as a config proposal warning for this promotion preview.")
  else if String.eqb reason "testnet_shadow_not_ready" then
    inr "Latest TESTNET_SHADOW readiness is NOT_READY; config promotion remains no-submit and may be required before useful shadow evidence can be collected."
  else inl reason.

Definition blockers_of (reasons : list (string + string)) : list string :=
  omap (fun r => match r with inl s => Some s | inr _ => None end) reasons.
Definition warnings_of (reasons : list (string + string)) : list string :=
  omap (fun r => match r with inr s => Some s | inl _ => None end) reasons.

(** [current_runner_hash] is the hash of the serialised current configuration,
    if it could be computed. *)
Definition build_research_candidate_shadow_promotion_preview
    (snapshot_config : TestnetShadowRunnerConfig)
    (latest_observation : option StrategyCandidateObservationResult)
    (current_runner_hash : option string) (candidate : ResearchCandidate)
    (payload : ResearchCandidateShadowPromotionRequest) (correlation_id now : Z)
    : ResearchCandidateShadowPromotionPreview :=
  let no_diff := {| sd_added_strategies := []; sd_removed_strategies := []; sd_added_symbols := [];
                    sd_removed_symbols := []; sd_timeframe_change := None;
                    sd_enabled_change := None |} in
  let allow := sp_allow_missing_runner_alignment payload in
  let status_blockers :=
    push_if match rc_status candidate with
            | ResearchCandidateStatus.AcceptedForShadow
            | ResearchCandidateStatus.PromotedToShadowConfig => false
            | _ => true
            end
      ("candidate status " +:+ ResearchCandidateStatus.as_str (rc_status candidate) +:+
       " is not ACCEPTED_FOR_SHADOW or PROMOTED_TO_SHADOW_CONFIG") in
  let '(blockers, warnings, (proposed, diff, changes)) :=
    match latest_observation with
    | Some observation =>
        let readiness := candidate_promotion_readiness (rc_id candidate) observation now in
        let reasons := map (preview_reason allow observation) (rd_blockers readiness) in
        let drift := push_if
          match ob_observation_snapshot_hash observation, current_runner_hash with
          | Some observed, Some current => negb (String.eqb observed current)
          | _, _ => false
          end
          "Runner configuration changed after the latest observation; proposed config is based on the current persisted runner config." in
        if al_strategy_config_matches_runner (ob_runner_alignment observation) then
          (status_blockers ++ blockers_of reasons, warnings_of reasons ++ drift,
           (snapshot_config, no_diff, []))
        else if allow then
          let '(proposed, proposed_diff, proposed_changes, proposal_warnings) :=
            build_shadow_promotion_proposed_runner_config snapshot_config candidate in
          (status_blockers ++ blockers_of reasons, warnings_of reasons ++ drift ++ proposal_warnings,
           (proposed, proposed_diff, proposed_changes))
        else
          (status_blockers ++ blockers_of reasons ++
             ["latest observation runner alignment does not match current shadow runner config"],
           warnings_of reasons ++ drift, (snapshot_config, no_diff, []))
    | None =>
        (status_blockers ++ ["latest persisted observation is missing"], [],
         (snapshot_config, no_diff, []))
    end in
  let warnings := sort_dedup warnings in
  let status :=
    if negb (vec_is_empty blockers) then ResearchCandidateShadowPromotionStatus.Blocked
    else if negb (vec_is_empty warnings) then
      ResearchCandidateShadowPromotionStatus.WarningReviewRequired
    else if vec_is_empty changes then ResearchCandidateShadowPromotionStatus.NoChanges
    else ResearchCandidateShadowPromotionStatus.Ready in
  {| pp_candidate_id := rc_id candidate;
     pp_candidate_status := rc_status candidate;
     pp_strategy_id := rc_strategy_id candidate;
     pp_symbol := rc_symbol candidate;
     pp_timeframe := rc_timeframe candidate;
     pp_current_runner_config := snapshot_config;
     pp_proposed_runner_config := proposed;
     pp_diff := diff;
     pp_changes := changes;
     pp_status := status;
     pp_reasons := blockers;
     pp_blockers := blockers;
     pp_warnings := warnings;
     pp_recommendation :=
       match status with
       | ResearchCandidateShadowPromotionStatus.Ready => "CONFIRM_PROMOTION_TO_SHADOW_CONFIG"
       | ResearchCandidateShadowPromotionStatus.WarningReviewRequired =>
           "REVIEW_WARNINGS_THEN_CONFIRM_PROMOTION"
       | ResearchCandidateShadowPromotionStatus.NoChanges => "CONFIRM_STATUS_PROMOTION_IF_NEEDED"
       | ResearchCandidateShadowPromotionStatus.Blocked => "RESOLVE_SHADOW_PROMOTION_BLOCKERS"
       | ResearchCandidateShadowPromotionStatus.Applied => "PROMOTION_ALREADY_APPLIED"
       end;
     pp_confirmation_required :=
       bool_decide (sp_mode payload = ResearchCandidateShadowPromotionMode.Apply);
     pp_correlation_id := correlation_id;
     pp_mode := sp_mode payload;
     pp_allow_missing_runner_alignment := allow |}.

Definition preview_to_shadow_promotion_result (preview : ResearchCandidateShadowPromotionPreview)
    (status : ResearchCandidateShadowPromotionStatus.t) (applied : bool)
    : ResearchCandidateShadowPromotionResult :=
  {| ps_candidate_id := pp_candidate_id preview;
     ps_candidate_status := pp_candidate_status preview;
     ps_strategy_id := pp_strategy_id preview;
     ps_symbol := pp_symbol preview;
     ps_timeframe := pp_timeframe preview;
     ps_current_runner_config := pp_current_runner_config preview;
     ps_proposed_runner_config := pp_proposed_runner_config preview;
     ps_diff := pp_diff preview;
     ps_changes := pp_changes preview;
     ps_status := status;
     ps_reasons := pp_reasons preview;
     ps_blockers := pp_blockers preview;
     ps_warnings := pp_warnings preview;
     ps_recommendation := pp_recommendation preview;
     ps_confirmation_required := pp_confirmation_required preview;
     ps_correlation_id := pp_correlation_id preview;
     ps_mode := pp_mode preview;
     ps_allow_missing_runner_alignment := pp_allow_missing_runner_alignment preview;
     ps_applied := applied |}.
End ShadowRunner.

(** ** What an observation concludes *)

Section Observation.
Context {DI : Decimal}.

Definition within (rate : dec) (bound : option dec) : Prop :=
  match bound with Some max => (dval rate <= dval max)%Q | None => True end.

Lemma above_false rate bound : above rate bound = false <-> within rate bound.
Proof. destruct bound; cbn; [apply dltb_ge|done]. Qed.
End Observation.

(** C. An observation passes exactly when the runner covers the candidate, enough
    hours and runs were observed, readiness is READY where that is required, enough
    runs would have submitted, and the risk-rejection and no-signal rates stay
    within their bounds.  It reports a blocking finding exactly when it does not
    pass, and a FAIL is only given on sufficient observation of a covered
    candidate. *)
Theorem observation_passes_iff_requirements {DI : Decimal} (num_hours : Z -> Z)
    (requirements : StrategyCandidateObservationRequirement)
    (window_start window_end shadow_runs would_submit no_signal risk_rejected skipped : Z)
    (readiness : option ExecutionReadinessStatus.t) (score : option Z)
    (alignment : StrategyCandidateRunnerAlignment) (created_at : Z) :
  let s := evaluate_strategy_candidate_observation num_hours requirements window_start window_end
    shadow_runs would_submit no_signal risk_rejected skipped readiness score alignment created_at in
  let observed := al_strategy_config_matches_runner alignment = true /\
    oq_min_observation_hours requirements <= num_hours (window_end - window_start) /\
    oq_min_shadow_runs requirements <= shadow_runs in
  (os_decision s = StrategyCandidateObservationDecision.Pass <->
   observed /\
   (oq_require_readiness_ready requirements = true ->
    readiness = Some ExecutionReadinessStatus.Ready) /\
   oq_min_would_submit_count requirements <= would_submit /\
   within (calculate_strategy_rejection_rate risk_rejected shadow_runs)
     (oq_max_risk_rejection_rate requirements) /\
   within (calculate_observation_rate no_signal shadow_runs)
     (oq_max_no_signal_rate requirements)) /\
  (Exists (fun f => of_blocking f = true) (os_findings s) <->
   os_decision s <> StrategyCandidateObservationDecision.Pass) /\
  (os_decision s = StrategyCandidateObservationDecision.Fail -> observed).
Proof.
  cbv zeta. rewrite <- !above_false.
  unfold evaluate_strategy_candidate_observation.
  cbn [os_decision os_findings].
  set (r1 := above (calculate_strategy_rejection_rate _ _) _).
  set (r2 := above (calculate_observation_rate _ _) _).
  set (b := oq_require_readiness_ready requirements && _).
  assert ((oq_require_readiness_ready requirements = true ->
           readiness = Some ExecutionReadinessStatus.Ready) <-> b = false) as ->.
  { subst b. rewrite andb_false_iff, negb_false_iff, bool_decide_eq_true.
    destruct (oq_require_readiness_ready requirements); naive_solver. }
  rewrite <- !Z.ltb_ge.
  change (is_pass StrategyCandidateObservationDecision.Pass) with true.
  destruct (al_strategy_config_matches_runner alignment),
    (num_hours (window_end - window_start) <? oq_min_observation_hours requirements),
    (shadow_runs <? oq_min_shadow_runs requirements); unfold fail_when;
    cbn -[blocking_finding is_pass];
    change (is_pass StrategyCandidateObservationDecision.Pass) with true;
    change (is_pass StrategyCandidateObservationDecision.ContinueObserving) with false;
    change (is_pass StrategyCandidateObservationDecision.InsufficientData) with false;
    cbn -[blocking_finding];
    try (destruct b, (would_submit <? oq_min_would_submit_count requirements), r1, r2;
         cbn -[blocking_finding]);
    (split; [|split]);
    try (split; [intros H; repeat split; congruence|]);
    rewrite ?Exists_cons, ?Exists_nil; cbn [of_blocking blocking_finding];
    try done; try naive_solver.
Qed.

(** ** What a promotion does to the runner *)

Section Coverage.
Context {DI : Decimal} {JS : Json}.

(** The configuration covers the candidate. *)
Definition covers (candidate : ResearchCandidate) (config : TestnetShadowRunnerConfig) : bool :=
  al_strategy_config_matches_runner (candidate_runner_alignment_detail candidate config "").

(** The candidate's names carry no surrounding white space. *)
Definition trimmed_names (candidate : ResearchCandidate) : Prop :=
  trim (rc_strategy_id candidate) = rc_strategy_id candidate /\
  trim (rc_symbol candidate) = rc_symbol candidate /\
  trim (rc_timeframe candidate) = rc_timeframe candidate.

Lemma covers_iff candidate config :
  covers candidate config = true <->
  eq_ignore_ascii_case (trim (rf_timeframe config)) (rc_timeframe candidate) = true /\
  contains_case_insensitive (rf_symbols config) (rc_symbol candidate) = true /\
  contains_case_insensitive (rf_strategies config) (rc_strategy_id candidate) = true.
Proof.
  unfold covers, candidate_runner_alignment_detail. cbn [al_strategy_config_matches_runner].
  rewrite !andb_true_iff. tauto.
Qed.

Lemma persist_normalizes debug_str config_id now input by_ config :
  persist_testnet_shadow_runner_config debug_str config_id now input by_ = Ok config ->
  rf_strategies config = List.filter (fun value => negb (is_empty value))
    (map (fun value => to_ascii_lowercase (trim value)) (ri_strategies input)) /\
  rf_symbols config = omap (fun value => option_map symbol_text (ok (Symbol_new value)))
    (ri_symbols input) /\
  rf_timeframe config = to_ascii_lowercase (trim (ri_timeframe input)) /\
  rf_enabled config = ri_enabled input /\
  rf_strategies config <> [] /\ rf_symbols config <> [] /\
  is_ok (from_str (A := CandleInterval.t) (rf_timeframe config)) = true /\
  0 < rf_interval_seconds config /\ 0 < rf_max_runs_per_tick config.
Proof.
  unfold persist_testnet_shadow_runner_config, validate_testnet_shadow_runner_config.
  destruct (vec_is_empty _) eqn:Hi; cbn [rl_valid rl_normalized_config negb]; [|discriminate].
  cbn [expect mbind res_bind]. intros [= <-].
  cbn [ri_enabled ri_interval_seconds ri_strategies ri_symbols ri_timeframe ri_max_runs_per_tick
       ri_stale_feed_policy ri_notes rf_strategies rf_symbols rf_timeframe rf_enabled
       rf_interval_seconds rf_max_runs_per_tick].
  apply vec_is_empty_iff in Hi. rewrite !app_nil, !push_if_nil, negb_false_iff, !Z.leb_gt in Hi.
  destruct Hi as (H1 & H2 & H3 & _ & H4 & H5).
  repeat split; try done.
  - intros E. by rewrite E in H3.
  - intros E. by rewrite E in H4.
Qed.

Lemma eq_ignore_lower_trim s t :
  trim s = t -> eq_ignore_ascii_case (trim (to_ascii_lowercase (trim s))) t = true.
Proof.
  intros <-. unfold eq_ignore_ascii_case.
  rewrite trim_to_ascii_lowercase, trim_idem, to_ascii_lowercase_idem. apply String.eqb_refl.
Qed.

(** The stored proposal covers the candidate: names are normalised on the way in
    and compared without case and surrounding white space. *)
Lemma proposal_covers debug_str config_id now by_ current candidate config :
  trimmed_names candidate ->
  persist_testnet_shadow_runner_config debug_str config_id now
    (runner_input (build_shadow_promotion_proposed_runner_config current candidate).1.1.1) by_
    = Ok config ->
  covers candidate config = true /\ rf_enabled config = rf_enabled current.
Proof.
  intros (Hs & Hy & Ht) Hp.
  apply persist_normalizes in Hp as (E1 & E2 & E3 & E4 & N1 & N2 & _).
  cbn [runner_input ri_strategies ri_symbols ri_timeframe ri_enabled fst snd map omap list_omap
       build_shadow_promotion_proposed_runner_config rf_strategies rf_symbols rf_timeframe
       rf_enabled List.filter] in E1, E2, E3, E4. split; [|done]. rewrite covers_iff, E3. split; [by apply eq_ignore_lower_trim|].
  split.
  - rewrite E2 in N2 |- *. unfold Symbol_new in *.
    destruct (is_empty (to_ascii_uppercase (trim (rc_symbol candidate)))); cbn [ok option_map] in *;
      [done|].
    unfold contains_case_insensitive. cbn [existsb symbol_text]. rewrite orb_false_r.
    unfold eq_ignore_ascii_case.
    rewrite trim_to_ascii_uppercase, trim_idem, lowercase_uppercase, Hy. apply String.eqb_refl.
  - rewrite E1 in N1 |- *.
    destruct (is_empty (to_ascii_lowercase (trim (rc_strategy_id candidate)))); cbn [negb] in *; [done|].
    unfold contains_case_insensitive. cbn [existsb]. rewrite orb_false_r.
    by apply eq_ignore_lower_trim.
Qed.

(** Nothing to change: the current configuration already covers the candidate. *)
Lemma no_changes_covers current candidate :
  trimmed_names candidate ->
  (build_shadow_promotion_proposed_runner_config current candidate).1.2 = [] ->
  covers candidate current = true.
Proof.
  intros (Hs & Hy & Ht). cbn [fst snd build_shadow_promotion_proposed_runner_config].
  unfold describe_shadow_runner_config_changes. rewrite !app_nil.
  cbn [sd_added_strategies sd_added_symbols sd_timeframe_change build_shadow_runner_config_diff
       rf_strategies rf_symbols rf_timeframe].
  intros (H1 & _ & H3 & _ & H5 & _). apply covers_iff. split; [|split].
  - destruct (String.eqb_spec (trim (rf_timeframe current)) (trim (rc_timeframe candidate)))
      as [->|]; cbn [negb] in H5; [|done].
    rewrite Ht. apply eq_ignore_ascii_case_refl.
  - unfold values_added_case_insensitive in H3. cbn [List.filter] in H3.
    by destruct (contains_case_insensitive (rf_symbols current) (rc_symbol candidate)).
  - unfold values_added_case_insensitive in H1. cbn [List.filter] in H1.
    by destruct (contains_case_insensitive (rf_strategies current) (rc_strategy_id candidate)).
Qed.

Lemma required_changes_iff candidate config :
  required_runner_config_changes_for_candidate candidate config = [] <->
  covers candidate config = true /\ rf_enabled config = true.
Proof.
  unfold required_runner_config_changes_for_candidate.
  rewrite covers_iff, !app_nil, !push_if_nil, !negb_false_iff. tauto.
Qed.

Lemma mismatch_reasons_iff candidate config status :
  al_mismatch_reasons (candidate_runner_alignment_detail candidate config status) = [] <->
  covers candidate config = true.
Proof.
  rewrite covers_iff. cbn [al_mismatch_reasons candidate_runner_alignment_detail].
  rewrite !app_nil, !push_if_nil, !negb_false_iff. tauto.
Qed.
End Coverage.

Section PreviewBlocked.
Context {DI : Decimal} {JS : Json} {CH : Chrono}.

Lemma blockers_of_map (f : string -> string + string) l : blockers_of (map f l) =
  omap (fun s => match f s with inl b => Some b | inr _ => None end) l.
Proof.
  unfold blockers_of. induction l as [|s l IH]; [done|]. cbn. rewrite <- IH. by destruct (f s).
Qed.

Lemma omap_push_if {A} (f : string -> option A) b s :
  omap f (push_if b s) = if b then match f s with Some a => [a] | None => [] end else [].
Proof. destruct b; cbn; [by destruct (f s)|done]. Qed.

Definition observation_expired (observation : StrategyCandidateObservationResult) (now : Z) : Prop :=
  exists max_age, ob_observation_max_age_seconds observation = Some max_age /\
    max_age < observation_age_seconds observation now.

Lemma expired_test observation now :
  match ob_observation_max_age_seconds observation with
  | Some max_age => max_age <? observation_age_seconds observation now
  | None => false
  end = true <-> observation_expired observation now.
Proof.
  unfold observation_expired. destruct (ob_observation_max_age_seconds observation) as [m|].
  - rewrite Z.ltb_lt. naive_solver.
  - naive_solver.
Qed.

Lemma blocked_iff (blockers warnings changes : list string) :
  (if negb (vec_is_empty blockers) then ResearchCandidateShadowPromotionStatus.Blocked
   else if negb (vec_is_empty warnings) then
     ResearchCandidateShadowPromotionStatus.WarningReviewRequired
   else if vec_is_empty changes then ResearchCandidateShadowPromotionStatus.NoChanges
   else ResearchCandidateShadowPromotionStatus.Ready) =
  ResearchCandidateShadowPromotionStatus.Blocked <-> blockers <> [].
Proof.
  destruct blockers; cbn [vec_is_empty negb]; [|naive_solver].
  destruct (vec_is_empty warnings), (vec_is_empty changes); cbn [negb]; naive_solver.
Qed.

(** The readiness blockers that stay blockers. *)
Lemma preview_blockers_nil allow observation id now :
  blockers_of (map (preview_reason allow observation)
    (rd_blockers (candidate_promotion_readiness id observation now))) = [] <->
  (al_strategy_config_matches_runner (ob_runner_alignment observation) = false /\ allow = true) \/
  (~ observation_expired observation now /\
   ob_decision observation = StrategyCandidateObservationDecision.Pass).
Proof.
  rewrite <- expired_test. cbn [rd_blockers candidate_promotion_readiness].
  set (stale := match ob_observation_max_age_seconds observation with Some _ => _ | None => _ end).
  rewrite blockers_of_map, !omap_app, !omap_push_if. unfold preview_reason.
  destruct (al_strategy_config_matches_runner _) eqn:Hm, allow, stale,
    (bool_decide (os_latest_readiness_status _ = _)), (ob_decision observation) eqn:Hd;
    vm_compute; naive_solver.
Qed.
End PreviewBlocked.

(** C. The promotion preview blocks exactly when the candidate is neither accepted
    nor promoted, or no observation is stored, or the observation covers the
    candidate but is stale or did not pass, or it does not cover the candidate and
    the caller did not allow that.  In particular, once a missing alignment is
    allowed, neither the age nor the verdict of a mismatched observation blocks. *)
Theorem promotion_preview_blocked_iff {DI : Decimal} {JS : Json} {CH : Chrono}
    (config : TestnetShadowRunnerConfig)
    (latest_observation : option StrategyCandidateObservationResult) (hash : option string)
    (candidate : ResearchCandidate) (payload : ResearchCandidateShadowPromotionRequest)
    (correlation_id now : Z) :
  let p := build_research_candidate_shadow_promotion_preview config latest_observation hash
             candidate payload correlation_id now in
  pp_status p = ResearchCandidateShadowPromotionStatus.Blocked <->
  (rc_status candidate <> ResearchCandidateStatus.AcceptedForShadow /\
   rc_status candidate <> ResearchCandidateStatus.PromotedToShadowConfig) \/
  match latest_observation with
  | None => True
  | Some observation =>
      if al_strategy_config_matches_runner (ob_runner_alignment observation)
      then observation_expired observation now \/
           ob_decision observation <> StrategyCandidateObservationDecision.Pass
      else sp_allow_missing_runner_alignment payload = false
  end.
Proof.
  cbv zeta. unfold build_research_candidate_shadow_promotion_preview.
  set (sb := push_if _ _).
  assert (sb = [] <-> ~ (rc_status candidate <> ResearchCandidateStatus.AcceptedForShadow /\
    rc_status candidate <> ResearchCandidateStatus.PromotedToShadowConfig)) as Hsb.
  { subst sb. rewrite push_if_nil. destruct (rc_status candidate); naive_solver. }
  destruct latest_observation as [observation|]; cycle 1.
  { cbn [pp_status]. rewrite blocked_iff. split; [by right|]. intros _. by destruct sb. }
  pose proof (preview_blockers_nil (sp_allow_missing_runner_alignment payload) observation
                (rc_id candidate) now) as Hb.
  assert (observation_expired observation now \/ ~ observation_expired observation now) as Hdec.
  { rewrite <- expired_test. destruct (match ob_observation_max_age_seconds observation with
      Some _ => _ | None => _ end); auto. }
  assert (ob_decision observation = StrategyCandidateObservationDecision.Pass \/
          ob_decision observation <> StrategyCandidateObservationDecision.Pass) as Hd.
  { destruct (decide (ob_decision observation = StrategyCandidateObservationDecision.Pass)); auto. }
  assert (rc_status candidate <> ResearchCandidateStatus.AcceptedForShadow /\
    rc_status candidate <> ResearchCandidateStatus.PromotedToShadowConfig \/
    ~ (rc_status candidate <> ResearchCandidateStatus.AcceptedForShadow /\
       rc_status candidate <> ResearchCandidateStatus.PromotedToShadowConfig)) as Hst.
  { destruct (rc_status candidate); naive_solver. }
  destruct (al_strategy_config_matches_runner (ob_runner_alignment observation)) eqn:Hm.
  - cbn [pp_status]. rewrite blocked_iff, app_nil, Hb, Hsb. naive_solver.
  - destruct (sp_allow_missing_runner_alignment payload) eqn:Ha.
    + destruct (build_shadow_promotion_proposed_runner_config config candidate) as [[[? ?] ?] ?].
      cbn [pp_status]. rewrite blocked_iff, app_nil, Hb, Hsb. naive_solver.
    + cbn [pp_status]. rewrite blocked_iff, !app_nil. naive_solver.
Qed.

(** A preview that is not blocked on a mismatched observation: the missing
    alignment was allowed, and the proposal is the candidate's own coverage. *)
Lemma mismatched_preview {DI : Decimal} {JS : Json} {CH : Chrono}
    (config : TestnetShadowRunnerConfig) (observation : StrategyCandidateObservationResult)
    (hash : option string) (candidate : ResearchCandidate)
    (payload : ResearchCandidateShadowPromotionRequest) (correlation_id now : Z) :
  let p := build_research_candidate_shadow_promotion_preview config (Some observation) hash
             candidate payload correlation_id now in
  let b := build_shadow_promotion_proposed_runner_config config candidate in
  al_strategy_config_matches_runner (ob_runner_alignment observation) = false ->
  pp_status p <> ResearchCandidateShadowPromotionStatus.Blocked ->
  (rc_status candidate = ResearchCandidateStatus.AcceptedForShadow \/
   rc_status candidate = ResearchCandidateStatus.PromotedToShadowConfig) /\
  pp_proposed_runner_config p = b.1.1.1 /\ pp_changes p = b.1.2.
Proof.
  cbv zeta. intros Hm Hb. unfold build_research_candidate_shadow_promotion_preview in *.
  rewrite Hm in *. destruct (sp_allow_missing_runner_alignment payload).
  - destruct (build_shadow_promotion_proposed_runner_config config candidate) as [[[q d] ch] w] eqn:E.
    cbn [pp_status pp_proposed_runner_config pp_changes] in *. split; [|done].
    rewrite blocked_iff, app_nil, push_if_nil in Hb.
    destruct (rc_status candidate); try (by left); try (by right); exfalso; apply Hb; by intros [? _].
  - cbn [pp_status] in Hb. rewrite blocked_iff, !app_nil in Hb. exfalso. apply Hb. by intros (_ & _ & ?).
Qed.
