(* ===== verification/ShadowTick.v ===== *)
(** * The shadow runner

    crates/api/src/testnet_shadow_runner.rs, with the two rows it keeps
    (crates/db/src/lib.rs, 2864-3082): the configuration and the state of the runner, the
    controls, and the tick, which makes one shadow run (ShadowRun.v) per pair of a strategy
    and a symbol.

    Each of the two tables holds at most one row, since every statement uses the same
    identifier.  The counters of ticks and runs are BIGINT columns, which a tick per
    nanosecond would fill in 292 years.  Telemetry, logging and the payloads of events are
    left out. *)

From Stdlib Require Import ZArith QArith Lia List String.
From stdpp Require Import base list strings relations.
From S2P Require Import Prelude Text Host Types ShadowTypes MarketData DataQuality Risk PaperOrder Accounting Strategy PaperStore RiskState Pipeline StrategyStore ShadowRun Replay Experiment WalkForward ResearchTypes Candidate ShadowRunner.

#[local] Open Scope Z_scope.

Module RunnerTickMode.
Inductive t :=
  | Scheduled
  | ManualRunOnce.
#[global] Instance eq_dec : EqDecision t.
Proof. solve_decision. Defined.
Definition scheduled (x : t) : bool := match x with Scheduled => true | ManualRunOnce => false end.
End RunnerTickMode.

Record TestnetShadowRunnerState := {
  rt_id : Z;
  rt_status : TestnetShadowRunnerStatus.t;
  rt_last_tick_at : option Z;
  rt_last_success_at : option Z;
  rt_last_error : option string;
  rt_total_ticks : Z;
  rt_total_runs : Z;
  rt_updated_at : Z
}.

Record TestnetShadowRunnerStateRecord := {
  rw_id : Z;
  rw_status : string;
  rw_last_tick_at : option Z;
  rw_last_success_at : option Z;
  rw_last_error : option string;
  rw_total_ticks : Z;
  rw_total_runs : Z;
  rw_updated_at : Z
}.

Record TestnetShadowRunnerSnapshot := {
  rp_config : TestnetShadowRunnerConfig;
  rp_state : TestnetShadowRunnerState
}.

Record TestnetShadowRunnerTickResult := {
  tk_status : TestnetShadowRunnerTickStatus.t;
  tk_started_at : Z;
  tk_completed_at : Z;
  tk_scheduled : bool;
  tk_attempted_runs : Z;
  tk_completed_runs : Z;
  tk_failed_runs : Z;
  tk_correlation_id : Z;
  tk_message : option string
}.

Definition TESTNET_SHADOW_RUNNER_CONFIG_ID : Z := 0x01800000000000000000000000000001.
Definition TESTNET_SHADOW_RUNNER_STATE_ID : Z := 0x01800000000000000000000000000002.

Definition default_testnet_shadow_runner_config (now : Z) : TestnetShadowRunnerConfig := {|
  rf_id := TESTNET_SHADOW_RUNNER_CONFIG_ID; rf_enabled := false; rf_interval_seconds := 60;
  rf_strategies := ["momentum_v1"]; rf_symbols := ["BTCUSDT"]; rf_timeframe := "1m";
  rf_max_runs_per_tick := 1; rf_stale_feed_policy := TestnetShadowRunnerStaleFeedPolicy.Skip;
  rf_notes := None; rf_updated_by := None; rf_updated_at := now |}.

Definition default_testnet_shadow_runner_state (now : Z) : TestnetShadowRunnerState := {|
  rt_id := TESTNET_SHADOW_RUNNER_STATE_ID; rt_status := TestnetShadowRunnerStatus.Stopped;
  rt_last_tick_at := None; rt_last_success_at := None; rt_last_error := None;
  rt_total_ticks := 0; rt_total_runs := 0; rt_updated_at := now |}.

(** ** Which runs a tick makes *)

(** The inner loop over the symbols; [true] when it left the outer loop. *)
Fixpoint push_pairs (limit : Z) (strategy_id : string) (symbols : list string)
    (pairs : list (string * string)) : list (string * string) * bool :=
  match symbols with
  | [] => (pairs, false)
  | symbol :: symbols =>
      if limit <=? Z.of_nat (length pairs) then (pairs, true)
      else push_pairs limit strategy_id symbols (pairs ++ [(strategy_id, symbol)])
  end.

Fixpoint push_strategies (limit : Z) (strategies symbols : list string)
    (pairs : list (string * string)) : list (string * string) :=
  match strategies with
  | [] => pairs
  | strategy_id :: strategies =>
      let '(pairs, broke) := push_pairs limit strategy_id symbols pairs in
      if broke then pairs else push_strategies limit strategies symbols pairs
  end.

(** [as usize] of an i32, on a 64-bit machine. *)
Definition as_usize (x : Z) : Z := x mod 2 ^ 64.

Definition bounded_strategy_symbol_pairs (config : TestnetShadowRunnerConfig)
    : list (string * string) :=
  push_strategies (as_usize (rf_max_runs_per_tick config)) (rf_strategies config)
    (rf_symbols config) [].

Definition scheduled_tick_noop_reason (config : TestnetShadowRunnerConfig)
    (state : TestnetShadowRunnerState) (mode : RunnerTickMode.t) : option string :=
  if negb (RunnerTickMode.scheduled mode) then None
  else if negb (rf_enabled config) then Some "runner config is disabled"
  else match rt_status state with
       | TestnetShadowRunnerStatus.Paused | TestnetShadowRunnerStatus.Stopped =>
           Some ("runner state is " +:+ TestnetShadowRunnerStatus.as_str (rt_status state))
       | _ => None
       end.

(** The text of an error of a run: the message of its code, or its context. *)
Definition shadow_error_text (e : ShadowRunError) : string :=
  match e with
  | ShadowValidation code =>
      if String.eqb code "shadow_observation_only_required"
      then "SHADOW_OBSERVATION_ONLY=true is required before recording shadow observations."
      else if String.eqb code "invalid_strategy_id"
      then "strategy_id is invalid for shadow execution."
      else if String.eqb code "invalid_symbol" then "symbol is invalid for shadow execution."
      else "timeframe is invalid for shadow execution."
  | ShadowConflict _ _ =>
      "A duplicate-like signal persistence race prevented this shadow run from being recorded. Retry the request."
  | ShadowUnexpected context => context
  end.

Section Runner.
Context {DI : Decimal} {CH : Chrono} {CA : ChronoArith} {CS : ChronoSeconds} {JS : Json} {JD : JsonScalars}
  {DB : Database}.

(** ** The rows *)

Record RunnerStore := {
  rn_config : option TestnetShadowRunnerConfig;
  rn_state : option TestnetShadowRunnerStateRecord;
  rn_shadow : ShadowStore
}.

(** What a call reads outside the store: [rv_shadow n] is read by its n-th run,
    [rv_now n] is its n-th look at the clock. *)
Record RunnerEnv := {
  rv_shadow : nat -> ShadowEnv;
  rv_now : nat -> Z;
  rv_fresh : Z;
  rv_debug_str : string -> string
}.

(** An operation on the store, failing with the text of its error. *)
Definition R (A : Type) : Type := RunnerStore -> res string A * RunnerStore.
#[local] Instance R_ret : MRet R := fun A a s => (Ok a, s).
#[local] Instance R_bind : MBind R := fun A B k m s =>
  match m s with
  | (Ok a, s) => k a s
  | (Err e, s) => (Err e, s)
  | (Panic, s) => (Panic, s)
  end.
Definition R_fail {A} (e : string) : R A := fun s => (Err e, s).
Definition R_lift {A} (m : res string A) : R A := fun s => (m, s).

Definition set_runner_state (row : TestnetShadowRunnerStateRecord) (s : RunnerStore) : RunnerStore :=
  {| rn_config := rn_config s; rn_state := Some row; rn_shadow := rn_shadow s |}.
Definition set_runner_config (row : TestnetShadowRunnerConfig) (s : RunnerStore) : RunnerStore :=
  {| rn_config := Some row; rn_state := rn_state s; rn_shadow := rn_shadow s |}.
Definition set_runner_shadow (shadow : ShadowStore) (s : RunnerStore) : RunnerStore :=
  {| rn_config := rn_config s; rn_state := rn_state s; rn_shadow := shadow |}.

Definition runner_state_row (state : TestnetShadowRunnerState) : TestnetShadowRunnerStateRecord := {|
  rw_id := rt_id state; rw_status := TestnetShadowRunnerStatus.as_str (rt_status state);
  rw_last_tick_at := rt_last_tick_at state; rw_last_success_at := rt_last_success_at state;
  rw_last_error := rt_last_error state; rw_total_ticks := rt_total_ticks state;
  rw_total_runs := rt_total_runs state; rw_updated_at := rt_updated_at state |}.

Definition upsert_testnet_shadow_runner_state (state : TestnetShadowRunnerState)
    : R TestnetShadowRunnerStateRecord :=
  fun s => (Ok (runner_state_row state), set_runner_state (runner_state_row state) s).

Definition upsert_testnet_shadow_runner_config (config : TestnetShadowRunnerConfig)
    : R TestnetShadowRunnerConfig :=
  fun s => (Ok config, set_runner_config config s).

Definition ensure_testnet_shadow_runner_config (now : Z) : R TestnetShadowRunnerConfig := fun s =>
  match rn_config s with
  | Some record => (Ok record, s)
  | None => upsert_testnet_shadow_runner_config (default_testnet_shadow_runner_config now) s
  end.

Definition ensure_testnet_shadow_runner_state (now : Z) : R TestnetShadowRunnerStateRecord := fun s =>
  match rn_state s with
  | Some record => (Ok record, s)
  | None => upsert_testnet_shadow_runner_state (default_testnet_shadow_runner_state now) s
  end.

Definition testnet_shadow_runner_state_from_record (record : TestnetShadowRunnerStateRecord)
    : res string TestnetShadowRunnerState :=
  match from_str (A := TestnetShadowRunnerStatus.t) (rw_status record) with
  | Ok status =>
      Ok {| rt_id := rw_id record; rt_status := status; rt_last_tick_at := rw_last_tick_at record;
            rt_last_success_at := rw_last_success_at record; rt_last_error := rw_last_error record;
            rt_total_ticks := rw_total_ticks record; rt_total_runs := rw_total_runs record;
            rt_updated_at := rw_updated_at record |}
  | _ => Err "unsupported testnet shadow runner status"
  end.

(** ** The calls *)

Definition load_testnet_shadow_runner_snapshot (env : RunnerEnv) : R TestnetShadowRunnerSnapshot :=
  config ← ensure_testnet_shadow_runner_config (rv_now env 0%nat);
  record ← ensure_testnet_shadow_runner_state (rv_now env 1%nat);
  runner_state ← R_lift (testnet_shadow_runner_state_from_record record);
  mret {| rp_config := config; rp_state := runner_state |}.

Definition persist_runner_state (runner_state : TestnetShadowRunnerState) : R TestnetShadowRunnerState :=
  record ← upsert_testnet_shadow_runner_state runner_state;
  R_lift (testnet_shadow_runner_state_from_record record).

Definition put_runner_config (env : RunnerEnv) (input : TestnetShadowRunnerConfigInput)
    (updated_by : option Z) : R TestnetShadowRunnerConfig :=
  config ← R_lift (persist_testnet_shadow_runner_config (rv_debug_str env)
                     TESTNET_SHADOW_RUNNER_CONFIG_ID (rv_now env 0%nat) input updated_by);
  upsert_testnet_shadow_runner_config config.

Definition runner_event (correlation_id : Z) (event_type : string) : R unit := fun s =>
  let shadow := rn_shadow s in
  (Ok tt, set_runner_shadow {| sh_tables := shadow_event correlation_id event_type (sh_tables shadow);
                               sh_runs := sh_runs shadow; sh_links := sh_links shadow |} s).

(** The state with its status, error and time of change replaced. *)
Definition with_status (state : TestnetShadowRunnerState) (status : TestnetShadowRunnerStatus.t)
    (last_error : option string) (updated_at : Z) : TestnetShadowRunnerState := {|
  rt_id := rt_id state; rt_status := status; rt_last_tick_at := rt_last_tick_at state;
  rt_last_success_at := rt_last_success_at state; rt_last_error := last_error;
  rt_total_ticks := rt_total_ticks state; rt_total_runs := rt_total_runs state;
  rt_updated_at := updated_at |}.

(** The three counters of a tick and the texts of its failed runs. *)
Record TickCounts := {
  tc_attempted : Z;
  tc_completed : Z;
  tc_failed : Z;
  tc_errors : list string
}.

Definition no_counts : TickCounts := {|
  tc_attempted := 0; tc_completed := 0; tc_failed := 0; tc_errors := [] |}.

Definition count_completed (counts : TickCounts) : TickCounts := {|
  tc_attempted := tc_attempted counts + 1; tc_completed := tc_completed counts + 1;
  tc_failed := tc_failed counts; tc_errors := tc_errors counts |}.

Definition count_failed (error : string) (counts : TickCounts) : TickCounts := {|
  tc_attempted := tc_attempted counts + 1; tc_completed := tc_completed counts;
  tc_failed := tc_failed counts + 1; tc_errors := tc_errors counts ++ [error] |}.

(** The loop of a tick over its pairs; [n] counts the runs made. *)
Fixpoint run_pairs (env : RunnerEnv) (timeframe : string) (correlation_id : Z) (n : nat)
    (pairs : list (string * string)) (counts : TickCounts) : R TickCounts :=
  match pairs with
  | [] => mret counts
  | (strategy_id, symbol) :: pairs => fun s =>
      let request := {| sq_strategy_id := strategy_id; sq_symbol := symbol;
                        sq_timeframe := timeframe; sq_correlation_id := Some correlation_id |} in
      match run_testnet_shadow_once (rv_shadow env n) request (rn_shadow s) with
      | (Ok _, shadow) =>
          run_pairs env timeframe correlation_id (S n) pairs (count_completed counts)
            (set_runner_shadow shadow s)
      | (Err err, shadow) =>
          run_pairs env timeframe correlation_id (S n) pairs
            (count_failed (strategy_id +:+ "/" +:+ symbol +:+ ": " +:+ shadow_error_text err) counts)
            (set_runner_shadow shadow s)
      | (Panic, shadow) => (Panic, set_runner_shadow shadow s)
      end
  end.

Definition tick_status (counts : TickCounts) : TestnetShadowRunnerTickStatus.t :=
  if tc_failed counts =? 0 then TestnetShadowRunnerTickStatus.Completed
  else if 0 <? tc_completed counts then TestnetShadowRunnerTickStatus.PartialFailure
  else TestnetShadowRunnerTickStatus.Failed.

Definition tick_message (counts : TickCounts) : option string :=
  match tc_errors counts with [] => None | errors => Some (join " | " errors) end.

Definition tick_result (env : RunnerEnv) (mode : RunnerTickMode.t) (correlation_id started_at : Z)
    (status : TestnetShadowRunnerTickStatus.t) (counts : TickCounts) (message : option string)
    : TestnetShadowRunnerTickResult := {|
  tk_status := status; tk_started_at := started_at; tk_completed_at := rv_now env 5%nat;
  tk_scheduled := RunnerTickMode.scheduled mode; tk_attempted_runs := tc_attempted counts;
  tk_completed_runs := tc_completed counts; tk_failed_runs := tc_failed counts;
  tk_correlation_id := correlation_id; tk_message := message |}.

(** The end of a tick: what it writes once its runs are made. *)
Definition finish_tick (env : RunnerEnv) (mode : RunnerTickMode.t) (correlation_id started_at : Z)
    (snapshot : TestnetShadowRunnerSnapshot) (counts : TickCounts) : R TestnetShadowRunnerTickResult :=
  let state := rp_state snapshot in
  let status := tick_status counts in
  let message := tick_message counts in
  let next_runner_status :=
    if bool_decide (rt_status state = TestnetShadowRunnerStatus.Error) && RunnerTickMode.scheduled mode
    then TestnetShadowRunnerStatus.Error else rt_status state in
  persisted_state ← persist_runner_state {|
    rt_id := rt_id state; rt_status := next_runner_status; rt_last_tick_at := Some started_at;
    rt_last_success_at :=
      if bool_decide (status <> TestnetShadowRunnerTickStatus.Failed) then Some (rv_now env 3%nat)
      else rt_last_success_at state;
    rt_last_error := message; rt_total_ticks := rt_total_ticks state + 1;
    rt_total_runs := rt_total_runs state + tc_completed counts; rt_updated_at := rv_now env 4%nat |};
  _ ← runner_event correlation_id
        (if bool_decide (status = TestnetShadowRunnerTickStatus.Failed)
         then "exchange.testnet.shadow_runner.tick_failed"
         else "exchange.testnet.shadow_runner.tick_completed");
  mret (tick_result env mode correlation_id started_at status counts message).

(** A tick once it has read the runner's rows. *)
Definition tick_from (env : RunnerEnv) (mode : RunnerTickMode.t) (correlation_id started_at : Z)
    (snapshot : TestnetShadowRunnerSnapshot) : R TestnetShadowRunnerTickResult :=
  let validation := validate_testnet_shadow_runner_config (rv_debug_str env)
    (runner_input (rp_config snapshot)) in
  if negb (rl_valid validation) then
    _ ← persist_runner_state (with_status (rp_state snapshot) TestnetShadowRunnerStatus.Error
          (Some (join "; " (rl_issues validation))) (rv_now env 3%nat));
    _ ← runner_event correlation_id "exchange.testnet.shadow_runner.tick_failed";
    mret (tick_result env mode correlation_id started_at TestnetShadowRunnerTickStatus.Failed no_counts
            (Some "persisted runner config is invalid"))
  else match scheduled_tick_noop_reason (rp_config snapshot) (rp_state snapshot) mode with
  | Some reason =>
      mret (tick_result env mode correlation_id started_at TestnetShadowRunnerTickStatus.NoOp no_counts
              (Some reason))
  | None =>
      _ ← runner_event correlation_id "exchange.testnet.shadow_runner.tick_started";
      counts ← run_pairs env (rf_timeframe (rp_config snapshot)) correlation_id 0
                 (bounded_strategy_symbol_pairs (rp_config snapshot)) no_counts;
      finish_tick env mode correlation_id started_at snapshot counts
  end.

Definition run_shadow_runner_tick (env : RunnerEnv) (correlation_id : option Z)
    (mode : RunnerTickMode.t) : R TestnetShadowRunnerTickResult :=
  snapshot ← load_testnet_shadow_runner_snapshot env;
  tick_from env mode (default (rv_fresh env) correlation_id) (rv_now env 2%nat) snapshot.

Definition apply_testnet_shadow_runner_control_action (env : RunnerEnv)
    (action : TestnetShadowRunnerControlAction.t) (correlation_id : Z)
    : R (TestnetShadowRunnerState * option TestnetShadowRunnerTickResult) :=
  snapshot ← load_testnet_shadow_runner_snapshot env;
  let state := rp_state snapshot in
  let updated (status : TestnetShadowRunnerStatus.t) (last_error : option string)
      : R (TestnetShadowRunnerState * option TestnetShadowRunnerTickResult) :=
    updated ← persist_runner_state (with_status state status last_error (rv_now env 2%nat));
    mret (updated, None) in
  match action with
  | TestnetShadowRunnerControlAction.RunOnce =>
      tick ← run_shadow_runner_tick env (Some correlation_id) RunnerTickMode.ManualRunOnce;
      record ← ensure_testnet_shadow_runner_state (rv_now env 6%nat);
      updated_state ← R_lift (testnet_shadow_runner_state_from_record record);
      mret (updated_state, Some tick)
  | TestnetShadowRunnerControlAction.Start => updated TestnetShadowRunnerStatus.Running None
  | TestnetShadowRunnerControlAction.Stop =>
      updated TestnetShadowRunnerStatus.Stopped (rt_last_error state)
  | TestnetShadowRunnerControlAction.Pause =>
      if negb (bool_decide (rt_status state = TestnetShadowRunnerStatus.Running))
      then R_fail "runner can only be paused from RUNNING"
      else updated TestnetShadowRunnerStatus.Paused (rt_last_error state)
  | TestnetShadowRunnerControlAction.Resume =>
      match rt_status state with
      | TestnetShadowRunnerStatus.Paused | TestnetShadowRunnerStatus.Error =>
          updated TestnetShadowRunnerStatus.Running None
      | _ => R_fail "runner can only be resumed from PAUSED or ERROR"
      end
  end.

(** ** What can be relied on *)

(** Whatever rows a store holds, the configuration passes the validation a tick repeats,
    and the state is not ERROR. *)
Record runner_wf (s : RunnerStore) : Prop := {
  rn_config_valid : forall debug_str config, rn_config s = Some config ->
    rl_valid (validate_testnet_shadow_runner_config debug_str (runner_input config)) = true;
  rn_state_known : forall row, rn_state s = Some row -> exists status,
    rw_status row = TestnetShadowRunnerStatus.as_str status /\ status <> TestnetShadowRunnerStatus.Error;
  rn_shadow_wf : shadow_wf (rn_shadow s)
}.

(** The calls on the runner, with single shadow runs; [True] of the environment of each. *)
Inductive runner_call : RunnerStore -> RunnerStore -> Prop :=
  | call_tick env correlation_id mode s :
      runner_call s (snd (run_shadow_runner_tick env correlation_id mode s))
  | call_control env action correlation_id s :
      runner_call s (snd (apply_testnet_shadow_runner_control_action env action correlation_id s))
  | call_configure env input updated_by s :
      runner_call s (snd (put_runner_config env input updated_by s))
  | call_run env request s :
      runner_call s (set_runner_shadow (snd (run_testnet_shadow_once env request (rn_shadow s))) s).

(** What the runner keeps in step: its invariant, and the orders and books it never touches. *)
Definition runner_safe {A} (m : R A) : Prop := forall s, runner_wf s ->
  runner_wf (snd (m s)) /\
  order_tables (sh_tables (rn_shadow (snd (m s)))) = order_tables (sh_tables (rn_shadow s)).

Lemma runner_safe_bind {A B} (m : R A) (k : A -> R B) :
  runner_safe m -> (forall a, runner_safe (k a)) -> runner_safe (m ≫= k).
Proof.
  intros Hm Hk s Hs. destruct (Hm s Hs) as [Hwf Ho]. unfold mbind, R_bind.
  destruct (m s) as [[a| |] s1]; cbn [snd] in *; [|by split..].
  destruct (Hk a s1 Hwf) as [Hwf' Ho']. split; [done|]. by rewrite Ho'.
Qed.
Lemma runner_safe_ret {A} (a : A) : runner_safe (mret a : R A).
Proof. by intros s Hs. Qed.
Lemma runner_safe_lift {A} (r : res string A) : runner_safe (R_lift r).
Proof. by intros s Hs. Qed.
Lemma runner_safe_fail {A} e : runner_safe (R_fail e : R A).
Proof. by intros s Hs. Qed.

Lemma runner_safe_state state : rt_status state <> TestnetShadowRunnerStatus.Error ->
  runner_safe (upsert_testnet_shadow_runner_state state).
Proof.
  intros Hst s [Hc Hr Hw]. split; [|done]. split; [exact Hc| |exact Hw].
  intros row [= <-]. by exists (rt_status state).
Qed.

Lemma runner_safe_config config :
  (forall debug_str, rl_valid (validate_testnet_shadow_runner_config debug_str (runner_input config)) = true) ->
  runner_safe (upsert_testnet_shadow_runner_config config).
Proof.
  intros Hv s [Hc Hr Hw]. split; [|done]. split; [|exact Hr|exact Hw].
  intros debug_str c [= <-]. apply Hv.
Qed.

Lemma runner_safe_event correlation_id event_type : runner_safe (runner_event correlation_id event_type).
Proof.
  intros s [Hc Hr Hw]. split; [|done]. split; [exact Hc|exact Hr|].
  cbn. apply shadow_wf_grow; [exact Hw|]. exists []. by rewrite app_nil_r.
Qed.

Lemma runner_safe_pairs env timeframe correlation_id pairs : forall n counts,
  runner_safe (run_pairs env timeframe correlation_id n pairs counts).
Proof.
  induction pairs as [|[strategy_id symbol] pairs IH]; intros n counts; [apply runner_safe_ret|].
  intros s [Hc Hr Hw]. cbn [run_pairs]. set (request := {| sq_strategy_id := strategy_id |}).
  pose proof (shadow_runs_never_order (rv_shadow env n) request (rn_shadow s)) as Ho.
  pose proof (shadow_run_keeps_table (rv_shadow env n) request (rn_shadow s) Hw) as Hw'.
  destruct (run_testnet_shadow_once _ _ _) as [[result|err|] shadow]; cbn [snd] in *.
  3: by split.
  all: match goal with |- context [run_pairs _ _ _ _ _ ?counts' ?s'] =>
         destruct (IH (S n) counts' s') as [Hwf' Ho']; [by split|] end;
       split; [exact Hwf'|]; by rewrite Ho'.
Qed.

(** ** The validation of a stored configuration *)

Lemma omap_nil {A B} (f : A -> option B) (l : list A) :
  omap f l = [] <-> Forall (fun x => f x = None) l.
Proof.
  induction l as [|x l IH]; [by split|]. rewrite Forall_cons, <- IH. cbn.
  destruct (f x); split; [done|by intros [[=] _]|done|by intros [_ ->]].
Qed.

Lemma valid_iff debug_str input :
  rl_valid (validate_testnet_shadow_runner_config debug_str input) = true <->
  0 < ri_interval_seconds input /\ 0 < ri_max_runs_per_tick input /\
  List.filter (fun value => negb (is_empty value))
    (map (fun value => to_ascii_lowercase (trim value)) (ri_strategies input)) <> [] /\
  ri_symbols input <> [] /\ Forall (fun value => is_ok (Symbol_new value) = true) (ri_symbols input) /\
  is_ok (from_str (A := CandleInterval.t) (to_ascii_lowercase (trim (ri_timeframe input)))) = true.
Proof.
  unfold validate_testnet_shadow_runner_config.
  set (strategies := List.filter _ _). set (symbol_issues := omap _ (ri_symbols input)).
  set (symbols := omap _ (ri_symbols input)).
  assert (symbol_issues = [] /\ symbols <> [] <->
    ri_symbols input <> [] /\ Forall (fun value => is_ok (Symbol_new value) = true) (ri_symbols input))
    as Hsym.
  { subst symbols symbol_issues. rewrite !omap_nil. split.
    - intros [Hi Hs]. split; [intros Hn; rewrite Hn in Hs; by apply Hs|].
      eapply Forall_impl; [exact Hi|]. cbn. intros value. unfold Symbol_new. cbv zeta. by destruct (is_empty _).
    - intros [Hn Hf]. split.
      + eapply Forall_impl; [exact Hf|]. cbn. intros value. unfold Symbol_new. cbv zeta. by destruct (is_empty _).
      + intros Hs. destruct (ri_symbols input) as [|value values]; [done|].
        apply Forall_cons in Hs as [Hs _]. apply Forall_cons in Hf as [Hf _].
        revert Hs Hf. unfold Symbol_new. cbv zeta. by destruct (is_empty _). }
  destruct (vec_is_empty _) eqn:Hi; cbn [rl_valid].
  - apply vec_is_empty_iff in Hi. rewrite !app_nil, !push_if_nil, negb_false_iff, !Z.leb_gt in Hi.
    destruct Hi as (H1 & H2 & H3 & H4 & H5 & H6). split; [intros _|done].
    assert (strategies <> []) by (intros E; by rewrite E in H3).
    assert (symbols <> []) by (intros E; by rewrite E in H5). tauto.
  - split; [done|]. intros (H1 & H2 & H3 & H4 & H5 & H6). exfalso.
    destruct (proj2 Hsym (conj H4 H5)) as [Hn Hs].
    apply not_true_iff_false in Hi. apply Hi. apply vec_is_empty_iff.
    rewrite !app_nil, !push_if_nil, negb_false_iff, !Z.leb_gt.
    by destruct strategies, symbols.
Qed.

(** What is stored was normalised, and passes the validation again. *)
Lemma persisted_valid debug_str debug_str' config_id now input by_ config :
  persist_testnet_shadow_runner_config debug_str config_id now input by_ = Ok config ->
  rl_valid (validate_testnet_shadow_runner_config debug_str' (runner_input config)) = true.
Proof.
  intros (Hst & Hsy & Htf & _ & Hns & Hny & Hok & Hi & Hm)%persist_normalizes.
  apply valid_iff. cbn [runner_input ri_interval_seconds ri_max_runs_per_tick ri_strategies ri_symbols
    ri_timeframe]. do 2 (split; [done|]). split; [|split; [done|split]].
  - rewrite Hst in Hns |- *. destruct (List.filter _ (map _ (ri_strategies input))) as [|value values] eqn:E;
      [done|]. assert (In value (value :: values)) as Hin by (by left).
    rewrite <- E in Hin. apply filter_In in Hin as [(raw & <- & _)%in_map_iff Hne].
    cbn. by rewrite trim_to_ascii_lowercase, to_ascii_lowercase_idem, trim_idem, Hne.
  - rewrite Hsy. clear. induction (ri_symbols input) as [|value values IH]; [constructor|]. cbn.
    destruct (Symbol_new value) as [symbol| |] eqn:E; cbn; [|done..]. constructor; [|done].
    unfold Symbol_new in E |- *. destruct (is_empty (to_ascii_uppercase (trim value))) eqn:En; [done|].
    injection E as <-. cbn [symbol_text].
    by rewrite trim_to_ascii_uppercase, to_ascii_uppercase_idem, trim_idem, En.
  - rewrite Htf in Hok |- *. by rewrite trim_to_ascii_lowercase, to_ascii_lowercase_idem, trim_idem.
Qed.

Lemma default_config_valid debug_str now :
  rl_valid (validate_testnet_shadow_runner_config debug_str
    (runner_input (default_testnet_shadow_runner_config now))) = true.
Proof. reflexivity. Qed.

Lemma runner_safe_ensure_config now : runner_safe (ensure_testnet_shadow_runner_config now).
Proof.
  intros s Hs. unfold ensure_testnet_shadow_runner_config. destruct (rn_config s); [done|].
  apply runner_safe_config; [|done]. intros. apply default_config_valid.
Qed.

Lemma runner_safe_ensure_state now : runner_safe (ensure_testnet_shadow_runner_state now).
Proof.
  intros s Hs. unfold ensure_testnet_shadow_runner_state. destruct (rn_state s); [done|].
  by apply runner_safe_state.
Qed.

(** What a successful load of the rows found: they are in the store. *)
Lemma load_inv env s snapshot s' :
  runner_wf s -> load_testnet_shadow_runner_snapshot env s = (Ok snapshot, s') ->
  rp_config snapshot = default (default_testnet_shadow_runner_config (rv_now env 0%nat)) (rn_config s) /\
  rn_config s' = Some (rp_config snapshot) /\ rn_state s' = Some (runner_state_row (rp_state snapshot)) /\
  (forall row, rn_state s = Some row -> rn_state s' = Some row) /\
  (rn_state s = None ->
     rp_state snapshot = default_testnet_shadow_runner_state (rv_now env 1%nat)) /\
  rn_shadow s' = rn_shadow s /\ rt_status (rp_state snapshot) <> TestnetShadowRunnerStatus.Error.
Proof.
  intros [_ Hr _]. unfold load_testnet_shadow_runner_snapshot, ensure_testnet_shadow_runner_config.
  unfold mbind at 1, R_bind at 1.
  set (loaded := match rn_config s with Some _ => _ | None => _ end).
  assert (exists config, loaded = (Ok config, set_runner_config config s) /\
    config = default (default_testnet_shadow_runner_config (rv_now env 0%nat)) (rn_config s))
    as (config & -> & Hc).
  { subst loaded. destruct s as [[config|] row shadow]; cbn; eauto. }
  unfold mbind at 1, R_bind at 1, ensure_testnet_shadow_runner_state.
  cbn [rn_state set_runner_config]. destruct (rn_state s) as [row|] eqn:Hrow.
  - destruct (Hr row eq_refl) as (status & Hst & Hne).
    unfold mbind, R_bind, R_lift, testnet_shadow_runner_state_from_record. rewrite Hst.
    rewrite (from_str_print (as_str := TestnetShadowRunnerStatus.as_str)). intros [= <- <-].
    cbn. rewrite Hrow. split; [done|]. split; [done|]. split.
    + f_equal. unfold runner_state_row. cbn. rewrite <- Hst. by destruct row.
    + split; [by intros row' [= <-]|]. split; [done|]. by split.
  - unfold upsert_testnet_shadow_runner_state, mbind, R_bind, R_lift. intros H. injection H as <- <-.
    cbn. do 3 (split; [done|]). split; [done|]. by split.
Qed.

Lemma runner_safe_load env : runner_safe (load_testnet_shadow_runner_snapshot env).
Proof.
  unfold load_testnet_shadow_runner_snapshot.
  apply runner_safe_bind; [apply runner_safe_ensure_config|intros config].
  apply runner_safe_bind; [apply runner_safe_ensure_state|intros record].
  apply runner_safe_bind; [apply runner_safe_lift|intros state; apply runner_safe_ret].
Qed.

Lemma runner_safe_persist state : rt_status state <> TestnetShadowRunnerStatus.Error ->
  runner_safe (persist_runner_state state).
Proof.
  intros H. apply runner_safe_bind; [by apply runner_safe_state|intros; apply runner_safe_lift].
Qed.

(** After loading, the rows the rest of a call works on are valid. *)
Lemma runner_safe_loaded {A} env (k : TestnetShadowRunnerSnapshot -> R A) :
  (forall snapshot, rt_status (rp_state snapshot) <> TestnetShadowRunnerStatus.Error ->
     (forall debug_str, rl_valid (validate_testnet_shadow_runner_config debug_str
        (runner_input (rp_config snapshot))) = true) -> runner_safe (k snapshot)) ->
  runner_safe (load_testnet_shadow_runner_snapshot env ≫= k).
Proof.
  intros Hk s Hs. pose proof (runner_safe_load env s Hs) as [Hwf Ho]. unfold mbind, R_bind.
  destruct (load_testnet_shadow_runner_snapshot env s) as [[snapshot| |] s1] eqn:E; cbn [snd] in *;
    [|by split..].
  apply load_inv in E as (_ & Hc & _ & _ & _ & _ & Hne); [|done].
  destruct (Hk snapshot Hne (fun debug_str => rn_config_valid _ Hwf debug_str _ Hc) s1 Hwf) as [Hwf' Ho'].
  split; [done|]. by rewrite Ho'.
Qed.

Lemma runner_safe_finish env mode correlation_id at_ snapshot counts :
  rt_status (rp_state snapshot) <> TestnetShadowRunnerStatus.Error ->
  runner_safe (finish_tick env mode correlation_id at_ snapshot counts).
Proof.
  intros Hne. unfold finish_tick. cbv zeta. apply runner_safe_bind; [apply runner_safe_persist|intros state].
  - cbn. by rewrite bool_decide_false.
  - apply runner_safe_bind; [apply runner_safe_event|intros; apply runner_safe_ret].
Qed.

Lemma runner_safe_tick env correlation_id mode :
  runner_safe (run_shadow_runner_tick env correlation_id mode).
Proof.
  apply runner_safe_loaded. intros snapshot Hne Hv. unfold tick_from. rewrite Hv. cbn [negb].
  destruct (scheduled_tick_noop_reason _ _ _); [apply runner_safe_ret|].
  apply runner_safe_bind; [apply runner_safe_event|intros u].
  apply runner_safe_bind; [apply runner_safe_pairs|intros counts]. by apply runner_safe_finish.
Qed.

Lemma runner_safe_control env action correlation_id :
  runner_safe (apply_testnet_shadow_runner_control_action env action correlation_id).
Proof.
  apply runner_safe_loaded. intros snapshot Hne _. cbv zeta.
  assert (forall status last_error, status <> TestnetShadowRunnerStatus.Error ->
    runner_safe (updated ← persist_runner_state
        (with_status (rp_state snapshot) status last_error (rv_now env 2%nat));
      mret (updated, None : option TestnetShadowRunnerTickResult))) as Hup.
  { intros status last_error H. apply runner_safe_bind; [by apply runner_safe_persist|].
    intros; apply runner_safe_ret. }
  destruct action; [by apply Hup|by apply Hup| | |].
  - destruct (negb _); [apply runner_safe_fail|by apply Hup].
  - destruct (rt_status _); [apply runner_safe_fail..|by apply Hup|by apply Hup].
  - apply runner_safe_bind; [apply runner_safe_tick|intros tick].
    apply runner_safe_bind; [apply runner_safe_ensure_state|intros record].
    apply runner_safe_bind; [apply runner_safe_lift|intros state; apply runner_safe_ret].
Qed.

Lemma runner_safe_put env input updated_by : runner_safe (put_runner_config env input updated_by).
Proof.
  intros s Hs. unfold put_runner_config, mbind, R_bind, R_lift.
  destruct (persist_testnet_shadow_runner_config _ _ _ _ _) as [config| |] eqn:E; [|by split..].
  apply runner_safe_config; [|done]. intros debug_str. by eapply persisted_valid.
Qed.

(** C18.  However shadow runs, ticks, controls and configuration changes follow each other,
    the runner's rows stay in order: the configuration passes the validation every tick
    repeats, so no tick fails on it; the state of the runner is a known one and never
    ERROR, which no call writes; the table of the runs stays well-formed; and the orders
    and the books of the paper account are what they were. *)
Theorem runner_calls_safe s s' : runner_wf s -> rtc runner_call s s' ->
  runner_wf s' /\ order_tables (sh_tables (rn_shadow s')) = order_tables (sh_tables (rn_shadow s)).
Proof.
  intros Hs H. induction H as [s|s s1 s' H1 _ IH]; [done|].
  assert (runner_wf s1 /\ order_tables (sh_tables (rn_shadow s1)) = order_tables (sh_tables (rn_shadow s)))
    as [Hwf Ho].
  { destruct H1 as [env correlation_id mode s|env action correlation_id s|env input updated_by s|env request s].
    - by apply runner_safe_tick.
    - by apply runner_safe_control.
    - by apply runner_safe_put.
    - destruct Hs as [Hc Hr Hw]. split; [|cbn; apply shadow_runs_never_order].
      split; [exact Hc|exact Hr|]. by apply shadow_run_keeps_table. }
  destruct (IH Hwf) as [Hwf' Ho']. split; [done|]. by rewrite Ho'.
Qed.

(** ** The pairs of a tick *)

Lemma push_pairs_spec limit strategy_id symbols : forall pairs,
  (length pairs <= limit)%nat ->
  push_pairs (Z.of_nat limit) strategy_id symbols pairs =
  (pairs ++ firstn (limit - length pairs) (map (pair strategy_id) symbols),
   negb (length symbols <=? limit - length pairs)%nat).
Proof.
  induction symbols as [|symbol symbols IH]; intros pairs Hl.
  { by rewrite firstn_nil, app_nil_r. }
  cbn [push_pairs map]. destruct (Z.leb_spec (Z.of_nat limit) (Z.of_nat (length pairs))) as [H|H].
  { replace (limit - length pairs)%nat with 0%nat by lia. cbn. by rewrite app_nil_r. }
  rewrite IH by (rewrite length_app; cbn; lia). rewrite length_app. cbn [length].
  replace (limit - length pairs)%nat with (S (limit - (length pairs + 1)))%nat by lia.
  cbn [firstn]. by rewrite <- app_assoc.
Qed.

Lemma push_strategies_spec limit strategies symbols : forall pairs,
  (length pairs <= limit)%nat ->
  push_strategies (Z.of_nat limit) strategies symbols pairs =
  pairs ++ firstn (limit - length pairs) (list_prod strategies symbols).
Proof.
  induction strategies as [|strategy_id strategies IH]; intros pairs Hl.
  { cbn. by rewrite firstn_nil, app_nil_r. }
  cbn [push_strategies]. rewrite push_pairs_spec by done. cbn [list_prod].
  change (fun y => (strategy_id, y)) with (@pair string string strategy_id).
  rewrite firstn_app, length_map. destruct (Nat.leb_spec (length symbols) (limit - length pairs)) as [H|H].
  - cbn [negb]. rewrite firstn_all2 by (by rewrite length_map).
    rewrite IH by (rewrite length_app, length_map; lia).
    rewrite <- app_assoc. do 3 f_equal. rewrite length_app, length_map. lia.
  - cbn [negb]. replace (limit - length pairs - length symbols)%nat with 0%nat by lia.
    by rewrite firstn_O, app_nil_r.
Qed.

(** The pairs of a tick are the first ones of the product, strategy by strategy. *)
Lemma bounded_pairs_spec config : 0 < rf_max_runs_per_tick config < 2 ^ 31 ->
  bounded_strategy_symbol_pairs config =
  firstn (Z.to_nat (rf_max_runs_per_tick config)) (list_prod (rf_strategies config) (rf_symbols config)).
Proof.
  intros H. unfold bounded_strategy_symbol_pairs, as_usize. rewrite Z.mod_small by lia.
  rewrite <- (Z2Nat.id (rf_max_runs_per_tick config)) at 1 by lia.
  rewrite push_strategies_spec by (cbn; lia). by rewrite Nat.sub_0_r.
Qed.

(** ** The counters of a tick *)

(** A run adds one row when it reports a result, and none otherwise. *)
Lemma shadow_run_rows env request s r s' : run_testnet_shadow_once env request s = (r, s') ->
  length (sh_runs s') = (length (sh_runs s) + match r with Ok _ => 1 | _ => 0 end)%nat.
Proof.
  unfold run_testnet_shadow_once. cbv zeta.
  destruct (plan_shadow_run _ _ _ _) as [[[[plan signal] open_time]| |] tables];
    [|intros [= <- <-]; cbn; lia..].
  unfold persist_shadow_result. cbv zeta. cbn [sh_tables sh_runs sh_links].
  destruct (stabilize_shadow_signal_id _ _ _ _) as [signal_id| |]; [|intros [= <- <-]; cbn; lia..].
  destruct (existsb _ (sh_runs s)); [intros [= <- <-]; cbn; lia|].
  rewrite shadow_result_of_record. intros H. apply (f_equal (fun p => (fst p, sh_runs (snd p)))) in H.
  cbn [fst snd] in H. injection H as <- <-.
  assert (forall rows : list TestnetShadowRunRecord,
    length (rows ++ [shadow_run_record env request (default (se_fresh env 0%nat) (sq_correlation_id request))
      plan signal_id open_time]) = (length rows + 1)%nat) as Hlen by (intros; by rewrite length_app).
  destruct (resolve_promoted_research_candidate_for_shadow_run _); [by cbn; rewrite Hlen| |by cbn; rewrite Hlen].
  destruct (insert_research_candidate_shadow_run_link _ _ _ _); by cbn; rewrite Hlen.
Qed.

(** What the loop counts: every pair is attempted, and the completed runs are the rows. *)
Lemma run_pairs_counts env timeframe correlation_id pairs : forall n counts s counts' s',
  run_pairs env timeframe correlation_id n pairs counts s = (Ok counts', s') ->
  rn_config s' = rn_config s /\ rn_state s' = rn_state s /\
  exists completed : nat, tc_completed counts' = tc_completed counts + Z.of_nat completed /\
    (completed <= length pairs)%nat /\
    tc_attempted counts' = tc_attempted counts + Z.of_nat (length pairs) /\
    tc_failed counts' = tc_failed counts + Z.of_nat (length pairs - completed) /\
    length (tc_errors counts') = (length (tc_errors counts) + (length pairs - completed))%nat /\
    length (sh_runs (rn_shadow s')) = (length (sh_runs (rn_shadow s)) + completed)%nat.
Proof.
  induction pairs as [|[strategy_id symbol] pairs IH]; intros n counts s counts' s'.
  { intros [= <- <-]. do 2 (split; [done|]). exists 0%nat. cbn. repeat split; lia. }
  cbn [run_pairs]. destruct (run_testnet_shadow_once _ _ (rn_shadow s)) as [[result|err|] shadow] eqn:E;
    [| |done]; apply shadow_run_rows in E.
  - intros (Hc & Hr & completed & H1 & H2 & H3 & H4 & H5 & H6)%IH. do 2 (split; [done|]).
    exists (S completed). cbn in *. rewrite H1, H3, H4, H5, H6. repeat split; lia.
  - intros (Hc & Hr & completed & H1 & H2 & H3 & H4 & H5 & H6)%IH. do 2 (split; [done|]).
    exists completed. cbn in *. rewrite H1, H3, H4, H5, H6, length_app. cbn. repeat split; lia.
Qed.

(** What the end of a tick writes and reports. *)
Lemma finish_tick_run env mode correlation_id at_ snapshot counts s :
  exists s', finish_tick env mode correlation_id at_ snapshot counts s =
    (Ok (tick_result env mode correlation_id at_ (tick_status counts) counts (tick_message counts)), s') /\
    rn_config s' = rn_config s /\ sh_runs (rn_shadow s') = sh_runs (rn_shadow s) /\
    exists row, rn_state s' = Some row /\
      rw_status row = TestnetShadowRunnerStatus.as_str (rt_status (rp_state snapshot)) /\
      rw_total_ticks row = rt_total_ticks (rp_state snapshot) + 1 /\
      rw_total_runs row = rt_total_runs (rp_state snapshot) + tc_completed counts /\
      rw_last_error row = tick_message counts.
Proof.
  unfold finish_tick. cbv zeta. set (status := if bool_decide (rt_status _ = _) && _ then _ else _).
  assert (status = rt_status (rp_state snapshot)) as ->.
  { subst status. by case_bool_decide as H; cbn; [destruct mode; cbn; rewrite ?H|]. }
  unfold persist_runner_state, upsert_testnet_shadow_runner_state, mbind, R_bind, R_lift,
    testnet_shadow_runner_state_from_record.
  cbn [runner_state_row rw_status rt_status].
  rewrite (from_str_print (as_str := TestnetShadowRunnerStatus.as_str)).
  eexists. split; [reflexivity|]. do 2 (split; [done|]). eexists. by split.
Qed.

Lemma noop_iff config state mode :
  is_Some (scheduled_tick_noop_reason config state mode) <->
  mode = RunnerTickMode.Scheduled /\
  (rf_enabled config = false \/ rt_status state = TestnetShadowRunnerStatus.Paused \/
   rt_status state = TestnetShadowRunnerStatus.Stopped).
Proof.
  unfold scheduled_tick_noop_reason. destruct mode; cbn; [|split; [by intros [? [=]]|by intros [[=] _]]].
  destruct (rf_enabled config); cbn; [|split; [tauto|by eauto]].
  destruct (rt_status state); (split; [intros [? H]; try discriminate; tauto|]);
    intros [_ [H|[H|H]]]; try discriminate; by eauto.
Qed.

Lemma tick_status_spec counts : 0 <= tc_completed counts -> 0 <= tc_failed counts ->
  (tick_status counts = TestnetShadowRunnerTickStatus.Completed <-> tc_failed counts = 0) /\
  (tick_status counts = TestnetShadowRunnerTickStatus.PartialFailure <->
     0 < tc_failed counts /\ 0 < tc_completed counts) /\
  (tick_status counts = TestnetShadowRunnerTickStatus.Failed <->
     0 < tc_failed counts /\ tc_completed counts = 0).
Proof.
  intros Hc Hf. unfold tick_status.
  destruct (Z.eqb_spec (tc_failed counts) 0), (Z.ltb_spec 0 (tc_completed counts));
    repeat split; intros; try done; lia.
Qed.

Lemma tick_message_none counts : tick_message counts = None <-> length (tc_errors counts) = 0%nat.
Proof. unfold tick_message. by destruct (tc_errors counts). Qed.

(** What a tick did that made its runs. *)
Record tick_ran (config : TestnetShadowRunnerConfig) (state : TestnetShadowRunnerState)
    (s s' : RunnerStore) (result : TestnetShadowRunnerTickResult) : Prop := {
  tr_attempted : tk_attempted_runs result =
    Z.min (rf_max_runs_per_tick config)
      (Z.of_nat (length (rf_strategies config)) * Z.of_nat (length (rf_symbols config)));
  tr_split : tk_attempted_runs result = tk_completed_runs result + tk_failed_runs result;
  tr_nonneg : 0 <= tk_completed_runs result /\ 0 <= tk_failed_runs result;
  tr_completed : tk_status result = TestnetShadowRunnerTickStatus.Completed <-> tk_failed_runs result = 0;
  tr_partial : tk_status result = TestnetShadowRunnerTickStatus.PartialFailure <->
    0 < tk_failed_runs result /\ 0 < tk_completed_runs result;
  tr_failed : tk_status result = TestnetShadowRunnerTickStatus.Failed <->
    0 < tk_failed_runs result /\ tk_completed_runs result = 0;
  tr_message : tk_message result = None <-> tk_failed_runs result = 0;
  tr_rows : Z.of_nat (length (sh_runs (rn_shadow s'))) =
    Z.of_nat (length (sh_runs (rn_shadow s))) + tk_completed_runs result;
  tr_state : exists row, rn_state s' = Some row /\
    rw_status row = TestnetShadowRunnerStatus.as_str (rt_status state) /\
    rw_total_ticks row = rt_total_ticks state + 1 /\
    rw_total_runs row = rt_total_runs state + tk_completed_runs result
}.

(** A tick that answers did one of two things.  A scheduled tick of a runner that is
    disabled, paused or stopped makes no run and leaves the rows it loaded.  Any other
    tick attempts one run per pair of a strategy and a symbol, strategy by strategy, up
    to the configured maximum; every attempt is counted as completed or failed, the
    completed ones are the rows added, the status says whether some or all failed, and
    the state keeps its status and adds the tick and its completed runs to the totals. *)
Theorem tick_counts_its_runs env correlation_id mode s result s' :
  runner_wf s -> (forall config, rn_config s = Some config -> rf_max_runs_per_tick config < 2 ^ 31) ->
  run_shadow_runner_tick env correlation_id mode s = (Ok result, s') ->
  exists snapshot s0, load_testnet_shadow_runner_snapshot env s = (Ok snapshot, s0) /\
    if bool_decide (mode = RunnerTickMode.Scheduled /\
         (rf_enabled (rp_config snapshot) = false \/
          rt_status (rp_state snapshot) = TestnetShadowRunnerStatus.Paused \/
          rt_status (rp_state snapshot) = TestnetShadowRunnerStatus.Stopped))
    then s' = s0 /\ tk_status result = TestnetShadowRunnerTickStatus.NoOp /\ tk_attempted_runs result = 0
    else tick_ran (rp_config snapshot) (rp_state snapshot) s s' result.
Proof.
  intros Hwf Hi32 Htick. unfold run_shadow_runner_tick, mbind at 1, R_bind at 1 in Htick.
  pose proof (proj1 (runner_safe_load env s Hwf)) as Hwf0.
  destruct (load_testnet_shadow_runner_snapshot env s) as [[snapshot| |] s0] eqn:Hload; [|done..].
  cbn [snd] in Hwf0. exists snapshot, s0. split; [done|].
  apply load_inv in Hload as (Hcfg & Hc & Hr & _ & _ & Hsh & Hne); [|done].
  pose proof (rn_config_valid _ Hwf0 (rv_debug_str env) _ Hc) as Hv.
  pose proof (noop_iff (rp_config snapshot) (rp_state snapshot) mode) as Hnoop.
  unfold tick_from in Htick. rewrite Hv in Htick. cbn [negb] in Htick.
  apply valid_iff in Hv as (_ & Hmax & _). cbn [runner_input ri_max_runs_per_tick] in Hmax.
  destruct (scheduled_tick_noop_reason _ _ _) as [reason|].
  { rewrite bool_decide_true by (apply Hnoop; eauto). injection Htick as <- <-. by repeat split. }
  rewrite bool_decide_false by (rewrite <- Hnoop; by intros [? [=]]).
  unfold mbind, R_bind in Htick. cbn [runner_event] in Htick.
  set (s1 := set_runner_shadow _ s0) in Htick.
  destruct (run_pairs _ _ _ _ _ _ s1) as [[counts| |] s2] eqn:Hpairs; [|done..].
  apply run_pairs_counts in Hpairs as (_ & _ & completed & H1 & H2 & H3 & H4 & H5 & H6).
  assert (Z.of_nat (length (bounded_strategy_symbol_pairs (rp_config snapshot))) =
    Z.min (rf_max_runs_per_tick (rp_config snapshot))
      (Z.of_nat (length (rf_strategies (rp_config snapshot))) *
       Z.of_nat (length (rf_symbols (rp_config snapshot))))) as Hlen.
  { rewrite bounded_pairs_spec, length_firstn, length_prod; [lia|]. split; [done|].
    rewrite Hcfg. by destruct (rn_config s) eqn:E; [apply Hi32|]. }
  destruct (finish_tick_run env mode (default (rv_fresh env) correlation_id) (rv_now env 2%nat)
    snapshot counts s2) as (s3 & Hfin & _ & Hruns & row & Hrow & Hst & Hticks & Htotal & _).
  rewrite Hfin in Htick. injection Htick as <- <-. cbn [tc_attempted tc_completed tc_failed tc_errors no_counts] in *.
  destruct (tick_status_spec counts) as (S1 & S2 & S3); [lia|lia|].
  split; cbn [tick_result tk_attempted_runs tk_completed_runs tk_failed_runs tk_status tk_message];
    [lia|lia|lia|done|done|done| | |].
  - rewrite tick_message_none, H5, H4. cbn [length]. lia.
  - rewrite Hruns, H6. cbn [s1 set_runner_shadow rn_shadow sh_runs]. rewrite Hsh. lia.
  - by exists row.
Qed.

(** A control that stops or pauses the runner while a tick is at work is undone when
    the tick ends: the tick writes the status it read before its runs, so the runner that
    was reported as stopped is RUNNING again, and the next scheduled tick makes its runs. *)
Theorem stop_during_tick_is_undone env env' mode correlation_id control_id at_ snapshot counts s state s1 :
  rt_status (rp_state snapshot) = TestnetShadowRunnerStatus.Running ->
  apply_testnet_shadow_runner_control_action env' TestnetShadowRunnerControlAction.Stop control_id s
    = (Ok (state, None), s1) ->
  rt_status state = TestnetShadowRunnerStatus.Stopped /\
  exists result s2 row, finish_tick env mode correlation_id at_ snapshot counts s1 = (Ok result, s2) /\
    rn_state s2 = Some row /\ rw_status row = "RUNNING" /\
    forall next config, testnet_shadow_runner_state_from_record row = Ok next ->
      rf_enabled config = true ->
      scheduled_tick_noop_reason config next RunnerTickMode.Scheduled = None.
Proof.
  intros Hrun Hstop. split.
  - unfold apply_testnet_shadow_runner_control_action, mbind at 1, R_bind at 1 in Hstop.
    destruct (load_testnet_shadow_runner_snapshot env' s) as [[loaded| |] s0]; [|done..].
    by injection Hstop as <- _.
  - destruct (finish_tick_run env mode correlation_id at_ snapshot counts s1)
      as (s2 & Hfin & _ & _ & row & Hrow & Hst & _). rewrite Hrun in Hst.
    eexists _, s2, row. do 3 (split; [done|]). intros next config Hnext Hen.
    unfold testnet_shadow_runner_state_from_record in Hnext. rewrite Hst in Hnext.
    injection Hnext as <-. unfold scheduled_tick_noop_reason. by rewrite Hen.
Qed.
End Runner.

(** ** A runner on a small store *)

Module ShadowTickSample.
#[local] Existing Instance ExactDecimal.
#[local] Existing Instance ExactDecimalLaws.
#[local] Existing Instance PlainChrono.
#[local] Existing Instance PlainArith.
#[local] Existing Instance PlainSeconds.
#[local] Existing Instance PlainDatabase.
#[local] Existing Instance PipelineSample.no_json.
#[local] Existing Instance PipelineSample.scalars.

(** Every run of a tick has its own identifiers. *)
Definition env : RunnerEnv := {|
  rv_shadow n := ShadowRunSample.env (1000 + 100 * Z.of_nat n) false true;
  rv_now n := seconds 242 + Z.of_nat n;
  rv_fresh := 77;
  rv_debug_str s := s |}.

(** Two known strategies and one unknown; at most two of the three runs are made. *)
Definition input : TestnetShadowRunnerConfigInput := {|
  ri_enabled := true; ri_interval_seconds := 60;
  ri_strategies := [" Momentum_v1"; "unknown"; "momentum_v1"]; ri_symbols := ["btcusdt"];
  ri_timeframe := "1M"; ri_max_runs_per_tick := 2;
  ri_stale_feed_policy := TestnetShadowRunnerStaleFeedPolicy.Skip; ri_notes := None |}.

Definition fresh : RunnerStore := {|
  rn_config := None; rn_state := None; rn_shadow := ShadowRunSample.empty |}.
Definition configured : RunnerStore := snd (put_runner_config env input None fresh).
Definition started : RunnerStore :=
  snd (apply_testnet_shadow_runner_control_action env TestnetShadowRunnerControlAction.Start 5 configured).

Definition report (run : res string TestnetShadowRunnerTickResult * RunnerStore)
    : option (TestnetShadowRunnerTickStatus.t * Z * Z * Z * option string) * option string :=
  (match fst run with
   | Ok result => Some (tk_status result, tk_attempted_runs result, tk_completed_runs result,
                        tk_failed_runs result, tk_message result)
   | _ => None
   end, option_map rw_status (rn_state (snd run))).

Example fresh_tick_is_idle :
  report (run_shadow_runner_tick env None RunnerTickMode.Scheduled fresh) =
    (Some (TestnetShadowRunnerTickStatus.NoOp, 0, 0, 0, Some "runner config is disabled"), Some "STOPPED").
Proof. vm_compute. reflexivity. Qed.

Example started_tick_partly_fails :
  report (run_shadow_runner_tick env None RunnerTickMode.Scheduled started) =
    (Some (TestnetShadowRunnerTickStatus.PartialFailure, 2, 1, 1,
           Some "unknown/BTCUSDT: strategy_id is invalid for shadow execution."), Some "RUNNING").
Proof. vm_compute. reflexivity. Qed.

Lemma fresh_wf : runner_wf fresh.
Proof. split; [done|done|]. exact ShadowRunSample.empty_wf. Qed.

Lemma small_maximum s :
  match rn_config s with Some config => rf_max_runs_per_tick config <? 2 ^ 31 | None => true end = true ->
  forall config, rn_config s = Some config -> rf_max_runs_per_tick config < 2 ^ 31.
Proof. intros H config E. rewrite E in H. by apply Z.ltb_lt. Qed.

Lemma started_wf : runner_wf started.
Proof.
  apply (runner_safe_control env TestnetShadowRunnerControlAction.Start 5 configured).
  apply (runner_safe_put env input None fresh fresh_wf).
Qed.

Lemma started_small : forall config, rn_config started = Some config ->
  rf_max_runs_per_tick config < 2 ^ 31.
Proof. apply small_maximum. vm_compute. reflexivity. Qed.

Example runner_calls_safe_witness :
  runner_wf fresh /\
  runner_wf (snd (run_shadow_runner_tick env None RunnerTickMode.Scheduled started)).
Proof.
  split; [exact fresh_wf|].
  refine (proj1 (runner_calls_safe fresh _ fresh_wf _)).
  eapply rtc_l; [apply (call_configure env input None fresh)|].
  eapply rtc_l; [apply (call_control env TestnetShadowRunnerControlAction.Start 5 configured)|].
  apply rtc_once. apply (call_tick env None RunnerTickMode.Scheduled started).
Defined.

Example tick_counts_its_runs_witness :
  exists result s' config state,
    run_shadow_runner_tick env None RunnerTickMode.Scheduled started = (Ok result, s') /\
    tick_ran config state started s' result.
Proof.
  destruct (ShadowRunSample.ok_inv (run_shadow_runner_tick env None RunnerTickMode.Scheduled started)
    (fun result => negb (bool_decide (tk_status result = TestnetShadowRunnerTickStatus.NoOp))))
    as (result & s' & Hrun & Hst); [vm_compute; reflexivity|].
  destruct (tick_counts_its_runs env None RunnerTickMode.Scheduled started result s'
    started_wf started_small Hrun) as (snapshot & s0 & _ & Hran).
  exists result, s', (rp_config snapshot), (rp_state snapshot). split; [exact Hrun|].
  apply negb_true_iff, bool_decide_eq_false in Hst.
  destruct (bool_decide (_ /\ _)); [|exact Hran]. exfalso. apply Hst, Hran.
Defined.

(** A tick read the started runner; the runner is stopped before the tick ends. *)
Example stop_during_tick_is_undone_witness :
  exists snapshot state s1 result s2 row,
    load_testnet_shadow_runner_snapshot env started = (Ok snapshot, started) /\
    apply_testnet_shadow_runner_control_action env TestnetShadowRunnerControlAction.Stop 6 started
      = (Ok (state, None), s1) /\
    finish_tick env RunnerTickMode.Scheduled 77 (seconds 242) snapshot no_counts s1 = (Ok result, s2) /\
    rn_state s2 = Some row /\ rw_status row = "RUNNING".
Proof.
  assert (exists snapshot, load_testnet_shadow_runner_snapshot env started = (Ok snapshot, started) /\
    rt_status (rp_state snapshot) = TestnetShadowRunnerStatus.Running) as (snapshot & Hl & Hr)
    by (eexists; split; reflexivity).
  assert (exists state s1, apply_testnet_shadow_runner_control_action env
      TestnetShadowRunnerControlAction.Stop 6 started = (Ok (state, None), s1)) as (state & s1 & Hs)
    by (unfold apply_testnet_shadow_runner_control_action, mbind at 1, R_bind at 1; rewrite Hl;
        eexists _, _; reflexivity).
  destruct (stop_during_tick_is_undone env env RunnerTickMode.Scheduled 77 6 (seconds 242) snapshot no_counts
    started state s1 Hr Hs) as (_ & result & s2 & row & Hf & Hrow & Hst & _).
  exists snapshot, state, s1, result, s2, row. repeat (split; [assumption|]). exact Hst.
Defined.
End ShadowTickSample.
