(* ===== verification/CandidateApi.v ===== *)
(** * Deciding on research candidates: the API handlers and their store

    crates/api/src/main.rs, 26626-26790, 29309-29640, 29725-30050, 33042-33400 and
    34010-34290; crates/api/src/research_candidate_observation.rs, 102-262;
    crates/db/src/research.rs, 1148-1162, 5367-5450, 5632-5760 and 7323-7370.

    Four handlers move a candidate: a decision, a watch-list review, the
    confirmation of an acceptance, and the promotion into the shadow runner's
    configuration; an observation asked for explicitly moves a discovered candidate,
    and the older promotion endpoint writes the mirror alone.  Each reads the
    candidate, computes, and writes the row with its mirror in the older candidate
    table, and then the log of life-cycle events: the handlers are split into what
    they check ([decide_checks], [accept_checks], [review_checks]), what they write
    ([decide_plan] and the like, a [CandidateWrite]) and the statements
    ([update_candidate], [append_research_candidate_event]).  The handlers as written
    run these in a row; [Trail] interleaves the statements of any number of calls,
    with stale reads and insertions that fail, and [call_continues] shows that a
    handler is such a sequence.  An error is its HTTP status and its error code.
    Authentication gives the role of the caller.  A query that fails before the first
    write ends the handler with an error and no effect, which is left out, as are the
    telemetry and the audit log. *)

From Stdlib Require Import ZArith QArith Lqa Lia List String Sorted Permutation.
From stdpp Require Import base list strings.
From S2P Require Import Prelude Text Host Types MarketData WalkForward ResearchTypes.
From S2P Require Import Candidate ShadowRunner.

#[local] Open Scope Z_scope.

(** ** Responses *)

Record ErrorResponse := { er_status : Z; er_error : string }.

Definition FORBIDDEN : Z := 403.
Definition NOT_FOUND : Z := 404.
Definition BAD_REQUEST : Z := 400.
Definition CONFLICT : Z := 409.
Definition INTERNAL_SERVER_ERROR : Z := 500.

Definition reject {A} (status : Z) (error : string) : res ErrorResponse A :=
  Err {| er_status := status; er_error := error |}.

Section Api.
Context {DI : Decimal} {CH : Chrono} {JS : Json} {JD : JsonScalars} {JB : JsonBuild} {UT : UuidText}.

Record ResearchCandidateLifecycleEvent := {
  ev_id : Z;
  ev_candidate_id : Z;
  ev_previous_status : option ResearchCandidateStatus.t;
  ev_next_status : ResearchCandidateStatus.t;
  ev_decision : ResearchCandidateDecision.t;
  ev_reason : option string;
  ev_notes : option string;
  ev_actor_id : option Z;
  ev_payload : json;
  ev_created_at : Z;
  ev_correlation_id : option Z
}.

Record ResearchCandidateReview := {
  rv_id : Z;
  rv_candidate_id : Z;
  rv_action : ResearchCandidateReviewAction.t;
  rv_status : ResearchCandidateReviewStatus.t;
  rv_previous_candidate_status : ResearchCandidateStatus.t;
  rv_next_candidate_status : option ResearchCandidateStatus.t;
  rv_reason : option string;
  rv_notes : option string;
  rv_actor_id : option Z;
  rv_created_at : Z;
  rv_correlation_id : option Z;
  rv_qualification_evaluation_id : option Z
}.

Record ResearchCandidateDecisionRequest := {
  dr_decision : ResearchCandidateDecision.t;
  dr_reason : option string;
  dr_notes : option string;
  dr_acknowledge_runner_mismatch : bool;
  dr_acknowledge_overfit_risk : bool;
  dr_correlation_id : option Z
}.

Record ResearchCandidateAcceptForShadowApplyRequest := {
  aa_confirm : string;
  aa_acknowledge_warnings : bool;
  aa_acknowledged_warning_codes : list string;
  aa_operator_note : option string;
  aa_correlation_id : option Z
}.

Record ResearchCandidateReviewRequest := {
  rr_action : ResearchCandidateReviewAction.t;
  rr_reason : option string;
  rr_notes : option string;
  rr_qualification_evaluation_id : option Z;
  rr_correlation_id : option Z
}.


(** ** The store *)

Definition legacy_status_for_research_candidate (status : ResearchCandidateStatus.t)
    : StrategyResearchCandidateStatus.t :=
  match status with
  | ResearchCandidateStatus.Discovered | ResearchCandidateStatus.Observing =>
      StrategyResearchCandidateStatus.Registered
  | ResearchCandidateStatus.AcceptedForShadow => StrategyResearchCandidateStatus.Registered
  | ResearchCandidateStatus.PromotedToShadowConfig =>
      StrategyResearchCandidateStatus.PromotedToShadowConfig
  | ResearchCandidateStatus.Rejected => StrategyResearchCandidateStatus.Rejected
  | ResearchCandidateStatus.Archived => StrategyResearchCandidateStatus.Archived
  end.

(** The columns of [strategy_research_candidates] that mirror the candidate. *)
Record LegacyCandidate := {
  lc_status : string;
  lc_promoted_at : option Z;
  lc_updated_at : Z;
  lc_correlation_id : option Z
}.

(** The rows of one candidate: [research_candidates], its mirror, the event log
    (oldest first), the reviews, and the runner's configuration. *)
Record CandidateStore := {
  st_candidate : option ResearchCandidate;
  st_legacy : option LegacyCandidate;
  st_events : list ResearchCandidateLifecycleEvent;
  st_reviews : list ResearchCandidateReview;
  st_runner : TestnetShadowRunnerConfig
}.

Definition update_candidate_row (next_status : ResearchCandidateStatus.t)
    (rejection_reason notes : option string) (updated_at : Z) (correlation_id : option Z)
    (row : ResearchCandidate) : ResearchCandidate := {|
  rc_id := rc_id row; rc_experiment_id := rc_experiment_id row;
  rc_experiment_run_id := rc_experiment_run_id row; rc_strategy_id := rc_strategy_id row;
  rc_symbol := rc_symbol row; rc_timeframe := rc_timeframe row; rc_config := rc_config row;
  rc_score := rc_score row; rc_pnl_pct := rc_pnl_pct row;
  rc_max_drawdown_pct := rc_max_drawdown_pct row; rc_trade_count := rc_trade_count row;
  rc_win_rate := rc_win_rate row; rc_fee_drag := rc_fee_drag row;
  rc_status := next_status;
  rc_rejection_reason := rejection_reason;
  rc_notes := coalesce notes (rc_notes row);
  rc_created_at := rc_created_at row;
  rc_updated_at := updated_at;
  rc_correlation_id := coalesce correlation_id (rc_correlation_id row)
|}.

Definition update_legacy_row (next_status : ResearchCandidateStatus.t) (updated_at : Z)
    (correlation_id : option Z) (row : LegacyCandidate) : LegacyCandidate :=
  let status := StrategyResearchCandidateStatus.as_str
                  (legacy_status_for_research_candidate next_status) in
  {| lc_status := status;
     lc_promoted_at :=
       if String.eqb status "PROMOTED_TO_SHADOW_CONFIG"
       then coalesce (lc_promoted_at row) (Some updated_at) else lc_promoted_at row;
     lc_updated_at := updated_at;
     lc_correlation_id := coalesce correlation_id (lc_correlation_id row) |}.

(** One transaction over the two tables: nothing when the candidate is gone. *)
Definition update_research_candidate_status (next_status : ResearchCandidateStatus.t)
    (rejection_reason notes : option string) (updated_at : Z) (correlation_id : option Z)
    (store : CandidateStore) : option CandidateStore :=
  match st_candidate store with
  | None => None
  | Some row => Some
      {| st_candidate :=
           Some (update_candidate_row next_status rejection_reason notes updated_at correlation_id row);
         st_legacy := option_map (update_legacy_row next_status updated_at correlation_id)
                        (st_legacy store);
         st_events := st_events store;
         st_reviews := st_reviews store;
         st_runner := st_runner store |}
  end.

(** The insertion of an event: [inserted] says whether the database took it. *)
Definition append_research_candidate_event (inserted : bool)
    (event : ResearchCandidateLifecycleEvent) (store : CandidateStore) : CandidateStore :=
  {| st_candidate := st_candidate store; st_legacy := st_legacy store;
     st_events := if inserted then st_events store ++ [event] else st_events store;
     st_reviews := st_reviews store; st_runner := st_runner store |}.

(** [apply_research_candidate_review]: one transaction for the row, its mirror,
    the review and the event. *)
Definition apply_research_candidate_review (review : ResearchCandidateReview)
    (lifecycle_event : option ResearchCandidateLifecycleEvent) (store : CandidateStore)
    : CandidateStore :=
  let moved :=
    match rv_next_candidate_status review with
    | Some next_status =>
        match update_research_candidate_status next_status
                (if bool_decide (next_status = ResearchCandidateStatus.Rejected)
                 then rv_reason review else None)
                (rv_notes review) (rv_created_at review) (rv_correlation_id review) store with
        | Some store => store
        | None => store
        end
    | None => store
    end in
  {| st_candidate := st_candidate moved; st_legacy := st_legacy moved;
     st_events := match lifecycle_event with
                  | Some event => st_events moved ++ [event]
                  | None => st_events moved
                  end;
     st_reviews := st_reviews moved ++ [review];
     st_runner := st_runner moved |}.

(** The creation of a candidate, whose identifier is new: the mirror row unless
    one exists, the row with its symbol normalised, the first event. *)
Definition create_research_candidate (candidate : ResearchCandidate) (actor_id : option Z)
    (event_decision : ResearchCandidateDecision.t) (reason notes : option string) (payload : json)
    (event_id : Z) (existing_legacy : option LegacyCandidate) (runner : TestnetShadowRunnerConfig)
    : CandidateStore := {|
  st_candidate := Some {|
    rc_id := rc_id candidate; rc_experiment_id := rc_experiment_id candidate;
    rc_experiment_run_id := rc_experiment_run_id candidate;
    rc_strategy_id := rc_strategy_id candidate;
    rc_symbol := to_ascii_uppercase (trim (rc_symbol candidate));
    rc_timeframe := rc_timeframe candidate; rc_config := rc_config candidate;
    rc_score := rc_score candidate; rc_pnl_pct := rc_pnl_pct candidate;
    rc_max_drawdown_pct := rc_max_drawdown_pct candidate;
    rc_trade_count := rc_trade_count candidate; rc_win_rate := rc_win_rate candidate;
    rc_fee_drag := rc_fee_drag candidate; rc_status := rc_status candidate;
    rc_rejection_reason := rc_rejection_reason candidate; rc_notes := rc_notes candidate;
    rc_created_at := rc_created_at candidate; rc_updated_at := rc_updated_at candidate;
    rc_correlation_id := rc_correlation_id candidate |};
  st_legacy := coalesce existing_legacy (Some
    {| lc_status := StrategyResearchCandidateStatus.as_str
                      (legacy_status_for_research_candidate (rc_status candidate));
       lc_promoted_at := None;
       lc_updated_at := rc_updated_at candidate;
       lc_correlation_id := rc_correlation_id candidate |});
  st_events :=
    [{| ev_id := event_id; ev_candidate_id := rc_id candidate; ev_previous_status := None;
        ev_next_status := rc_status candidate; ev_decision := event_decision; ev_reason := reason;
        ev_notes := notes; ev_actor_id := actor_id; ev_payload := payload;
        ev_created_at := rc_created_at candidate;
        ev_correlation_id := rc_correlation_id candidate |}];
  st_reviews := [];
  st_runner := runner
|}.

(** ** Calls *)

(** What surrounds a call: the authenticated user, the clock (read twice), the
    identifiers it draws, and whether the event log takes its event. *)
Record ApiCall := {
  ca_role : option UserRole.t;
  ca_user_id : Z;
  ca_request_correlation_id : Z;
  ca_now : Z;
  ca_updated_at : Z;
  ca_new_id : Z;
  ca_new_event_id : Z;
  ca_event_inserted : bool
}.

(** The response of a handler, and the store it leaves. *)
Definition handled : Type := res ErrorResponse unit * CandidateStore.

(** [matches!(value.role, UserRole::Owner | UserRole::Operator)] *)
Definition may_operate (role : option UserRole.t) : bool :=
  match role with Some UserRole.Owner | Some UserRole.Operator => true | _ => false end.

Definition text_or_empty (text : option string) : string :=
  match text with Some value => value | None => "" end.

(** What a handler writes once its checks have passed: the arguments of the update of
    the row, and the event it logs afterwards, in a statement of its own. *)
Record CandidateWrite := {
  cw_next_status : ResearchCandidateStatus.t;
  cw_rejection_reason : option string;
  cw_notes : option string;
  cw_updated_at : Z;
  cw_correlation_id : option Z;
  cw_event : ResearchCandidateLifecycleEvent
}.

Definition update_candidate (write : CandidateWrite) (store : CandidateStore)
    : option CandidateStore :=
  update_research_candidate_status (cw_next_status write) (cw_rejection_reason write)
    (cw_notes write) (cw_updated_at write) (cw_correlation_id write) store.

(** ** Deciding *)

(** What [decide_research_candidate_handler] reads besides the candidate.  The
    hash is that of the current runner configuration, when it could be loaded and
    hashed; an observation that cannot be mapped panics, a failed query counts as
    no observation. *)
Record DecisionReads := {
  dq_latest_observation : res string (option StrategyCandidateObservationResult);
  dq_runner_hash : option string;
  dq_walk_forward_evidence : res string (option ResearchCandidateWalkForwardEvidence)
}.

Definition read_latest_observation (reads : DecisionReads)
    : res ErrorResponse (option StrategyCandidateObservationResult) :=
  match dq_latest_observation reads with
  | Ok latest => Ok latest
  | Err _ => Ok None
  | Panic => Panic
  end.

Definition observation_stale (readiness : ResearchCandidatePromotionReadiness) : bool :=
  match rd_observation_max_age_seconds readiness with
  | Some max_age =>
      max_age <? match rd_observation_age_seconds readiness with Some age => age | None => 0 end
  | None => false
  end.

Definition runner_config_changed (observation : StrategyCandidateObservationResult)
    (current : option string) : bool :=
  match ob_observation_snapshot_hash observation, current with
  | Some observed, Some current => negb (String.eqb current observed)
  | _, _ => false
  end.

Definition accept_for_shadow_checks (payload : ResearchCandidateDecisionRequest)
    (reads : DecisionReads) (candidate : ResearchCandidate) (now : Z)
    (latest_observation : option StrategyCandidateObservationResult) : res ErrorResponse unit :=
  match latest_observation with
  | None => reject CONFLICT "observation_required"
  | Some observation =>
      let readiness := candidate_promotion_readiness (rc_id candidate) observation now in
      if observation_stale readiness then reject CONFLICT "observation_stale"
      else if runner_config_changed observation (dq_runner_hash reads) then
        reject CONFLICT "runner_config_changed"
      else if negb (al_strategy_config_matches_runner (ob_runner_alignment observation)) &&
              negb (dr_acknowledge_runner_mismatch payload) then
        reject CONFLICT "runner_alignment_mismatch"
      else if bool_decide (rd_readiness_status readiness = Some ExecutionReadinessStatus.NotReady) then
        reject CONFLICT "candidate_not_ready_for_shadow"
      else match dq_walk_forward_evidence reads with
      | Ok (Some evidence) =>
          if bool_decide (we_robustness_status evidence =
                          StrategyWalkForwardRobustnessStatus.OverfitRisk) &&
             negb (dr_acknowledge_overfit_risk payload) then
            reject CONFLICT "walk_forward_overfit_risk"
          else match we_robustness_status evidence with
          | StrategyWalkForwardRobustnessStatus.Failed
          | StrategyWalkForwardRobustnessStatus.InsufficientData =>
              reject CONFLICT "walk_forward_not_validated"
          | _ => Ok tt
          end
      | Ok None => Ok tt
      | Err _ => reject INTERNAL_SERVER_ERROR "failed_to_query_candidate_walk_forward"
      | Panic => Panic
      end
  end.

(** From the loaded candidate to the status to write. *)
Definition decide_checks (payload : ResearchCandidateDecisionRequest) (reads : DecisionReads)
    (now : Z) (candidate : ResearchCandidate) : res ErrorResponse ResearchCandidateStatus.t :=
  if bool_decide (dr_decision payload = ResearchCandidateDecision.Reject) &&
     is_empty (trim (text_or_empty (dr_reason payload))) then
    reject BAD_REQUEST "reason_required"
  else match research_candidate_next_status (rc_status candidate) (dr_decision payload) with
  | Err _ => reject CONFLICT "invalid_research_candidate_transition"
  | Panic => Panic
  | Ok next_status =>
      latest_observation ← read_latest_observation reads;
      _ ← (if bool_decide (dr_decision payload = ResearchCandidateDecision.AcceptForShadow)
           then accept_for_shadow_checks payload reads candidate now latest_observation
           else Ok tt);
      Ok next_status
  end.

(** [readiness_json] is the serialisation of a readiness record. *)
Context (readiness_json : ResearchCandidatePromotionReadiness -> json).

(** The update of the row by identifier, then the event, whose previous status
    is the one read before the checks. *)
Definition decide_plan (call : ApiCall) (payload : ResearchCandidateDecisionRequest)
    (reads : DecisionReads) (candidate : ResearchCandidate)
    (next_status : ResearchCandidateStatus.t) : CandidateWrite :=
  let correlation_id := match dr_correlation_id payload with
                        | Some id => id | None => ca_request_correlation_id call end in
  {| cw_next_status := next_status;
     cw_rejection_reason := if bool_decide (next_status = ResearchCandidateStatus.Rejected)
                            then dr_reason payload else None;
     cw_notes := dr_notes payload;
     cw_updated_at := ca_updated_at call;
     cw_correlation_id := Some correlation_id;
     cw_event :=
        {| ev_id := ca_new_event_id call;
           ev_candidate_id := rc_id candidate;
           ev_previous_status := Some (rc_status candidate);
           ev_next_status := next_status;
           ev_decision := dr_decision payload;
           ev_reason := dr_reason payload;
           ev_notes := dr_notes payload;
           ev_actor_id := Some (ca_user_id call);
           ev_payload := jobj
             [("acknowledge_runner_mismatch", jbool (dr_acknowledge_runner_mismatch payload));
              ("acknowledge_overfit_risk", jbool (dr_acknowledge_overfit_risk payload));
              ("promotion_readiness",
               jopt (fun observation => readiness_json
                       (candidate_promotion_readiness (rc_id candidate) observation
                          (ca_updated_at call)))
                 match read_latest_observation reads with Ok latest => latest | _ => None end)];
           ev_created_at := ca_updated_at call;
           ev_correlation_id := Some correlation_id |} |}.

Definition decide_write (call : ApiCall) (payload : ResearchCandidateDecisionRequest)
    (reads : DecisionReads) (candidate : ResearchCandidate)
    (next_status : ResearchCandidateStatus.t) (store : CandidateStore) : handled :=
  let plan := decide_plan call payload reads candidate next_status in
  match update_candidate plan store with
  | None => (reject NOT_FOUND "research_candidate_not_found", store)
  | Some store => (Ok tt, append_research_candidate_event (ca_event_inserted call) (cw_event plan) store)
  end.

Definition decide_research_candidate_handler (call : ApiCall)
    (payload : ResearchCandidateDecisionRequest) (reads : DecisionReads) (store : CandidateStore)
    : handled :=
  if negb (may_operate (ca_role call)) then (reject FORBIDDEN "forbidden", store)
  else match st_candidate store with
  | None => (reject NOT_FOUND "research_candidate_not_found", store)
  | Some candidate =>
      match decide_checks payload reads (ca_now call) candidate with
      | Ok next_status => decide_write call payload reads candidate next_status store
      | Err error => (Err error, store)
      | Panic => (Panic, store)
      end
  end.

(** ** Reviewing *)

(** The latest and the previous evaluation a review looks at: the one it names,
    or the two most recent ([latest_evaluations], newest first). *)
Definition review_context (qualification_record : option ResearchCandidateQualificationEvaluation)
    (latest_evaluations : list ResearchCandidateQualificationEvaluation) (now : Z)
    : ResearchCandidateReviewContext :=
  let latest_evaluation :=
    match qualification_record with
    | Some record => Some record
    | None => head latest_evaluations
    end in
  let previous_evaluation :=
    match qualification_record with
    | Some record =>
        List.find (fun item => negb (qe_id item =? qe_id record)) latest_evaluations
    | None => latest_evaluations !! 1%nat
    end in
  {| rx_latest_qualification_status := option_map qe_status latest_evaluation;
     rx_latest_watchlist_status :=
       option_map (fun current => research_candidate_watchlist_status (Some current)
           (research_candidate_qualification_trend current previous_evaluation) now (hours 24))
         latest_evaluation |}.

Definition review_lifecycle_event (call : ApiCall) (payload : ResearchCandidateReviewRequest)
    (candidate : ResearchCandidate) (outcome : ResearchCandidateReviewOutcome) (correlation_id : Z)
    : option ResearchCandidateLifecycleEvent :=
  option_map (fun next_status =>
    {| ev_id := ca_new_event_id call;
       ev_candidate_id := rc_id candidate;
       ev_previous_status := Some (rc_status candidate);
       ev_next_status := next_status;
       ev_decision := if bool_decide (next_status = ResearchCandidateStatus.Rejected)
                      then ResearchCandidateDecision.Reject else ResearchCandidateDecision.Archive;
       ev_reason := rr_reason payload;
       ev_notes := rr_notes payload;
       ev_actor_id := Some (ca_user_id call);
       ev_payload := jobj
         [("review_action", jstr (ResearchCandidateReviewAction.as_str (rr_action payload)));
          ("review_status", jstr (ResearchCandidateReviewStatus.as_str (ro_status outcome)));
          ("qualification_evaluation_id", jopt juuid (rr_qualification_evaluation_id payload))];
       ev_created_at := ca_now call;
       ev_correlation_id := Some correlation_id |}) (ro_next_candidate_status outcome).

(** From the loaded candidate to the review and its event.  [find_evaluation] looks a
    qualification evaluation up by its identifier; [latest_evaluations] are the two most
    recent ones of the candidate. *)
Definition review_checks (call : ApiCall) (payload : ResearchCandidateReviewRequest)
    (find_evaluation : Z -> option ResearchCandidateQualificationEvaluation)
    (latest_evaluations : list ResearchCandidateQualificationEvaluation)
    (candidate : ResearchCandidate)
    : res ErrorResponse (ResearchCandidateReview * option ResearchCandidateLifecycleEvent) :=
  qualification_record ←
    match rr_qualification_evaluation_id payload with
    | None => Ok None
    | Some evaluation_id =>
        match find_evaluation evaluation_id with
        | Some record =>
            if qe_candidate_id record =? rc_id candidate then Ok (Some record)
            else reject 422 "qualification_evaluation_candidate_mismatch"
        | None => reject NOT_FOUND "qualification_evaluation_not_found"
        end
    end;
  match research_candidate_review_outcome (rc_status candidate) (rr_action payload)
          (review_context qualification_record latest_evaluations (ca_now call))
          (rr_reason payload) with
  | Err _ => reject CONFLICT "invalid_research_candidate_review_action"
  | Panic => Panic
  | Ok outcome =>
      let correlation_id := match rr_correlation_id payload with
                            | Some id => id | None => ca_request_correlation_id call end in
      Ok ({|
        rv_id := ca_new_id call;
        rv_candidate_id := rc_id candidate;
        rv_action := rr_action payload;
        rv_status := ro_status outcome;
        rv_previous_candidate_status := rc_status candidate;
        rv_next_candidate_status := ro_next_candidate_status outcome;
        rv_reason := rr_reason payload;
        rv_notes := rr_notes payload;
        rv_actor_id := Some (ca_user_id call);
        rv_created_at := ca_now call;
        rv_correlation_id := Some correlation_id;
        rv_qualification_evaluation_id := rr_qualification_evaluation_id payload |},
        review_lifecycle_event call payload candidate outcome correlation_id)
  end.

Definition create_research_candidate_review_handler (call : ApiCall)
    (payload : ResearchCandidateReviewRequest)
    (find_evaluation : Z -> option ResearchCandidateQualificationEvaluation)
    (latest_evaluations : list ResearchCandidateQualificationEvaluation) (store : CandidateStore)
    : handled :=
  if negb (may_operate (ca_role call)) then (reject FORBIDDEN "forbidden", store)
  else match st_candidate store with
  | None => (reject NOT_FOUND "research_candidate_not_found", store)
  | Some candidate =>
      match review_checks call payload find_evaluation latest_evaluations candidate with
      | Err error => (Err error, store)
      | Panic => (Panic, store)
      | Ok (review, event) => (Ok tt, apply_research_candidate_review review event store)
      end
  end.

(** ** Confirming an acceptance *)

(** What [build_research_candidate_accept_for_shadow_preview] gathers: the rows it
    finds, the fields of the gate decision, the counts and flags it queries. *)
Record AcceptReads := {
  ar_source_experiment : option (Z * Z * Z);   (** id, start and end time *)
  ar_source_experiment_run : bool;
  ar_walk_forward_evidence : option ResearchCandidateWalkForwardEvidence;
  ar_source_robustness_matrix_run_id : option Z;
  ar_config_fingerprint : option string;
  ar_robustness_matrix_status : option string; (** the matrix row's status *)
  ar_data_quality : option MarketDataQualityStatus.t;
  ar_latest_observation : option StrategyCandidateObservationResult;
  ar_runner_status : string;
  ar_shadow_run_count : Z;
  ar_holdout_2025_available : bool;
  ar_same_strategy_btc_candidate_exists : bool
}.

Definition build_research_candidate_accept_for_shadow_preview (reads : AcceptReads)
    (runner : TestnetShadowRunnerConfig) (candidate : ResearchCandidate) (now : Z)
    : ResearchCandidateAcceptForShadowPreviewResult :=
  let experiment := ar_source_experiment reads in
  let evidence := ar_walk_forward_evidence reads in
  evaluate_research_candidate_accept_for_shadow_preview {|
    ap_candidate := candidate;
    ap_evidence_summary := {|
      ae_candidate_score := rc_score candidate;
      ae_candidate_pnl_pct := rc_pnl_pct candidate;
      ae_candidate_max_drawdown_pct := rc_max_drawdown_pct candidate;
      ae_candidate_trade_count := rc_trade_count candidate;
      ae_candidate_win_rate := rc_win_rate candidate;
      ae_candidate_fee_drag := rc_fee_drag candidate;
      ae_source_experiment_id := option_map (fun e => e.1.1) experiment;
      ae_source_experiment_run_id := rc_experiment_run_id candidate;
      ae_source_walk_forward_run_id := option_map we_walk_forward_run_id evidence;
      ae_source_robustness_matrix_run_id := ar_source_robustness_matrix_run_id reads;
      ae_config_fingerprint := ar_config_fingerprint reads;
      ae_data_quality_status :=
        match experiment with Some _ => ar_data_quality reads | None => None end;
      ae_evaluated_start_time := option_map (fun e => e.1.2) experiment;
      ae_evaluated_end_time := option_map (fun e => e.2) experiment;
      ae_walk_forward_status := option_map we_robustness_status evidence;
      ae_walk_forward_total_windows := option_map we_total_windows evidence;
      ae_walk_forward_profitable_windows := option_map we_profitable_windows evidence;
      ae_walk_forward_losing_windows := option_map we_losing_windows evidence;
      ae_walk_forward_worst_pnl_pct := option_map we_worst_pnl_pct evidence;
      ae_robustness_matrix_status :=
        match ar_robustness_matrix_status reads with
        | Some status => ok (from_str (A := StrategyRobustnessMatrixStatus.t) status)
        | None => None
        end;
      ae_shadow_run_count := ar_shadow_run_count reads |};
    ap_source_experiment_exists :=
      match experiment with Some _ => ar_source_experiment_run reads | None => false end;
    ap_source_walk_forward_exists := match evidence with Some _ => true | None => false end;
    ap_source_robustness_matrix_exists :=
      match ar_robustness_matrix_status reads with Some _ => true | None => false end;
    ap_fresh_observation :=
      match ar_latest_observation reads with
      | Some observation =>
          bool_decide (observation_freshness_status observation now =
                       ResearchCandidateObservationFreshnessStatus.Fresh)
      | None => false
      end;
    ap_require_fresh_observation := true;
    ap_runner_alignment := candidate_runner_alignment_detail candidate runner (ar_runner_status reads);
    ap_required_runner_config_change := required_runner_config_changes_for_candidate candidate runner;
    ap_holdout_2025_available := ar_holdout_2025_available reads;
    ap_btc_generalization_failed :=
      negb (eq_ignore_ascii_case (rc_symbol candidate) "BTCUSDT") &&
      negb (ar_same_strategy_btc_candidate_exists reads);
    ap_generated_at := now |}.

Definition apply_rejection_response (rejection : ResearchCandidateAcceptForShadowApplyRejection.t)
    : ErrorResponse :=
  match rejection with
  | ResearchCandidateAcceptForShadowApplyRejection.InvalidConfirmation =>
      {| er_status := BAD_REQUEST; er_error := "invalid_confirmation" |}
  | ResearchCandidateAcceptForShadowApplyRejection.CandidateNotEligible =>
      {| er_status := CONFLICT; er_error := "candidate_not_eligible_for_accept_shadow" |}
  | ResearchCandidateAcceptForShadowApplyRejection.PreviewBlocked =>
      {| er_status := CONFLICT; er_error := "accept_shadow_blocked" |}
  | ResearchCandidateAcceptForShadowApplyRejection.PreviewNotReady =>
      {| er_status := CONFLICT; er_error := "accept_shadow_not_ready" |}
  | ResearchCandidateAcceptForShadowApplyRejection.WarningAcknowledgementRequired =>
      {| er_status := BAD_REQUEST; er_error := "warning_acknowledgement_required" |}
  end.

Definition accept_plan (call : ApiCall) (payload : ResearchCandidateAcceptForShadowApplyRequest)
    (preview : ResearchCandidateAcceptForShadowPreviewResult) (candidate : ResearchCandidate)
    (next_status : ResearchCandidateStatus.t) : CandidateWrite :=
  let correlation_id := match aa_correlation_id payload with
                        | Some id => id | None => ca_request_correlation_id call end in
  {| cw_next_status := next_status;
     cw_rejection_reason := None;
     cw_notes := aa_operator_note payload;
     cw_updated_at := ca_updated_at call;
     cw_correlation_id := Some correlation_id;
     cw_event :=
       {| ev_id := ca_new_event_id call;
          ev_candidate_id := rc_id candidate;
          ev_previous_status := Some (rc_status candidate);
          ev_next_status := next_status;
          ev_decision := ResearchCandidateDecision.AcceptForShadow;
          ev_reason := Some "accepted_for_shadow_observation_review";
          ev_notes := aa_operator_note payload;
          ev_actor_id := Some (ca_user_id call);
          ev_payload := jobj
            [("decision", jstr (ResearchCandidateDecision.as_str
                                  ResearchCandidateDecision.AcceptForShadow));
             ("confirm", jstr (aa_confirm payload));
             ("acknowledge_warnings", jbool (aa_acknowledge_warnings payload));
             ("acknowledged_warning_codes", jstrs (aa_acknowledged_warning_codes payload));
             ("warnings", jstrs (pr_warnings preview));
             ("blockers", jstrs (pr_blockers preview));
             ("preview_status", jstr (ResearchCandidateAcceptForShadowPreviewStatus.as_str
                                        (pr_status preview)));
             ("preview_recommended_action", jstr (pr_recommended_action preview));
             ("operator_note", jopt jstr (aa_operator_note payload));
             ("runner_config_unchanged", jbool true);
             ("shadow_runs_created", jint 0);
             ("execution_tables_mutated", jbool false)];
          ev_created_at := ca_updated_at call;
          ev_correlation_id := Some correlation_id |} |}.

(** From the loaded candidate and the runner's configuration to what to write. *)
Definition accept_checks (call : ApiCall) (payload : ResearchCandidateAcceptForShadowApplyRequest)
    (reads : AcceptReads) (runner : TestnetShadowRunnerConfig) (candidate : ResearchCandidate)
    : res ErrorResponse CandidateWrite :=
  match research_candidate_next_status (rc_status candidate)
          ResearchCandidateDecision.AcceptForShadow with
  | Err _ => reject CONFLICT "candidate_not_eligible_for_accept_shadow"
  | Panic => Panic
  | Ok next_status =>
      let preview := build_research_candidate_accept_for_shadow_preview reads runner candidate
                       (ca_now call) in
      match validate_research_candidate_accept_for_shadow_apply (rc_id candidate) preview
              (aa_confirm payload) (aa_acknowledge_warnings payload) with
      | Err rejection => Err (apply_rejection_response rejection)
      | Panic => Panic
      | Ok _ => Ok (accept_plan call payload preview candidate next_status)
      end
  end.

(** The event is appended after the row is written: when the log refuses it, the
    response is an error and the candidate is accepted all the same. *)
Definition apply_research_candidate_accept_shadow_handler (call : ApiCall) (candidate_id : Z)
    (payload : ResearchCandidateAcceptForShadowApplyRequest) (reads : AcceptReads)
    (store : CandidateStore) : handled :=
  if negb (may_operate (ca_role call)) then (reject FORBIDDEN "forbidden", store)
  else if negb (is_valid_research_candidate_accept_shadow_confirmation candidate_id (aa_confirm payload))
  then (reject BAD_REQUEST "invalid_confirmation", store)
  else match st_candidate store with
  | None => (reject NOT_FOUND "research_candidate_not_found", store)
  | Some candidate =>
      match accept_checks call payload reads (st_runner store) candidate with
      | Err error => (Err error, store)
      | Panic => (Panic, store)
      | Ok plan =>
          match update_candidate plan store with
          | None => (reject NOT_FOUND "research_candidate_not_found", store)
          | Some store =>
              (if ca_event_inserted call then Ok tt
               else reject INTERNAL_SERVER_ERROR "failed_to_append_research_candidate_event",
               append_research_candidate_event (ca_event_inserted call) (cw_event plan) store)
          end
      end
  end.

(** ** Promoting into the runner's configuration *)

Record PromotionReads := {
  pq_latest_observation : option StrategyCandidateObservationResult;
  pq_runner_hash : option string
}.

Definition store_runner (config : TestnetShadowRunnerConfig) (store : CandidateStore)
    : CandidateStore :=
  {| st_candidate := st_candidate store; st_legacy := st_legacy store;
     st_events := st_events store; st_reviews := st_reviews store; st_runner := config |}.

(** [event_payload] is the serialised preview. *)
Definition promote_plan
    (event_payload : ResearchCandidateShadowPromotionPreview -> bool -> bool -> json)
    (call : ApiCall) (payload : ResearchCandidateShadowPromotionRequest)
    (preview : ResearchCandidateShadowPromotionPreview) (applied : bool)
    (candidate : ResearchCandidate) (next_candidate_status : ResearchCandidateStatus.t)
    : CandidateWrite :=
  let correlation_id := match sp_correlation_id payload with
                        | Some id => id | None => ca_request_correlation_id call end in
  {| cw_next_status := next_candidate_status;
     cw_rejection_reason := None;
     cw_notes := None;
     cw_updated_at := ca_updated_at call;
     cw_correlation_id := Some correlation_id;
     cw_event :=
       {| ev_id := ca_new_event_id call;
          ev_candidate_id := pp_candidate_id preview;
          ev_previous_status := Some (rc_status candidate);
          ev_next_status := next_candidate_status;
          ev_decision := ResearchCandidateDecision.PromoteToShadowConfig;
          ev_reason := Some (if applied then "shadow_runner_config_updated"
                             else "shadow_runner_config_already_in_sync");
          ev_notes := Some
            "Accepted research candidate promoted to shadow runner config coverage.";
          ev_actor_id := Some (ca_user_id call);
          ev_payload := event_payload preview applied true;
          ev_created_at := ca_updated_at call;
          ev_correlation_id := Some correlation_id |} |}.

(** [debug_str] and [config_id] are those of [persist_testnet_shadow_runner_config]. *)
Definition apply_research_candidate_shadow_promotion_handler (debug_str : string -> string)
    (config_id : Z) (event_payload : ResearchCandidateShadowPromotionPreview -> bool -> bool -> json)
    (call : ApiCall) (candidate_id : Z) (payload : ResearchCandidateShadowPromotionRequest)
    (reads : PromotionReads) (store : CandidateStore) : handled :=
  let correlation_id := match sp_correlation_id payload with
                        | Some id => id | None => ca_request_correlation_id call end in
  if negb (bool_decide (ca_role call = Some UserRole.Owner)) then (reject FORBIDDEN "forbidden", store)
  else if negb (bool_decide (sp_mode payload = ResearchCandidateShadowPromotionMode.Apply)) then
    (reject BAD_REQUEST "invalid_promotion_mode", store)
  else if negb (is_valid_research_candidate_shadow_promotion_confirmation candidate_id
                  (text_or_empty (sp_confirmation_text payload))) then
    (reject BAD_REQUEST "invalid_confirmation_text", store)
  else match st_candidate store with
  | None => (reject NOT_FOUND "research_candidate_not_found", store)
  | Some candidate =>
      let preview := build_research_candidate_shadow_promotion_preview (st_runner store)
        (pq_latest_observation reads) (pq_runner_hash reads) candidate payload correlation_id
        (ca_now call) in
      if bool_decide (pp_status preview = ResearchCandidateShadowPromotionStatus.Blocked) then
        (reject CONFLICT "BLOCKED", store)
      else
        let persisted :=
          if vec_is_empty (pp_changes preview) then Ok (store, false)
          else match persist_testnet_shadow_runner_config debug_str config_id (ca_now call)
                       (runner_input (pp_proposed_runner_config preview))
                       (Some (ca_user_id call)) with
               | Ok config => Ok (store_runner config store, true)
               | Err _ => reject INTERNAL_SERVER_ERROR "failed_to_update_shadow_runner_config"
               | Panic => Panic
               end in
        match persisted with
        | Err error => (Err error, store)
        | Panic => (Panic, store)
        | Ok (store, applied) =>
            let next_candidate_status :=
              match research_candidate_next_status (rc_status candidate)
                      ResearchCandidateDecision.PromoteToShadowConfig with
              | Ok next => next
              | _ => rc_status candidate
              end in
            if bool_decide (next_candidate_status = rc_status candidate) then (Ok tt, store)
            else
              let plan := promote_plan event_payload call payload preview applied candidate
                            next_candidate_status in
              let store :=
                match update_candidate plan store with
                | Some updated => updated
                | None => store
                end in
              (Ok tt, append_research_candidate_event (ca_event_inserted call) (cw_event plan) store)
        end
  end.

(** ** Moving a candidate under observation *)

(** The end of [evaluate_candidate_observation]: an observation asked for explicitly moves
    a candidate it read as discovered. [observation] is the payload of the event. *)
Definition mark_observing_plan (call : ApiCall) (correlation_id : Z) (observation : json)
    (candidate : ResearchCandidate) : CandidateWrite :=
  {| cw_next_status := ResearchCandidateStatus.Observing;
     cw_rejection_reason := None;
     cw_notes := Some "Observation explicitly requested.";
     cw_updated_at := ca_now call;
     cw_correlation_id := Some correlation_id;
     cw_event :=
       {| ev_id := ca_new_event_id call;
          ev_candidate_id := rc_id candidate;
          ev_previous_status := Some ResearchCandidateStatus.Discovered;
          ev_next_status := ResearchCandidateStatus.Observing;
          ev_decision := ResearchCandidateDecision.Reopen;
          ev_reason := Some "observation_requested";
          ev_notes := Some "Candidate moved into OBSERVING after explicit observation request.";
          ev_actor_id := Some (ca_user_id call);
          ev_payload := observation;
          ev_created_at := ca_now call;
          ev_correlation_id := Some correlation_id |} |}.

(** The results of both statements are ignored: [updated] says whether the update ran. *)
Definition mark_candidate_observing (call : ApiCall) (correlation_id : Z) (observation : json)
    (mark_observing updated : bool) (candidate : ResearchCandidate) (store : CandidateStore)
    : CandidateStore :=
  if mark_observing && bool_decide (rc_status candidate = ResearchCandidateStatus.Discovered) then
    let plan := mark_observing_plan call correlation_id observation candidate in
    let store := if updated then default store (update_candidate plan store) else store in
    append_research_candidate_event (ca_event_inserted call) (cw_event plan) store
  else store.

(** The older promotion endpoint writes the mirror alone. *)
Definition mark_strategy_research_candidate_promoted (promoted_at : Z) (correlation_id : option Z)
    (store : CandidateStore) : CandidateStore :=
  {| st_candidate := st_candidate store;
     st_legacy := option_map (fun row =>
       {| lc_status := StrategyResearchCandidateStatus.as_str
                         StrategyResearchCandidateStatus.PromotedToShadowConfig;
          lc_promoted_at := Some promoted_at;
          lc_updated_at := promoted_at;
          lc_correlation_id := coalesce correlation_id (lc_correlation_id row) |}) (st_legacy store);
     st_events := st_events store; st_reviews := st_reviews store; st_runner := st_runner store |}.
End Api.

(** ** How a candidate moves

    The handlers interleave: between the read of the row and its update, and between the
    update and the insertion of the event, other calls may run, and either statement may fail.
    A trail is what happened so far, statement by statement: every version of the row with the
    event that reports it, the events still to be inserted and those whose insertion failed. *)

Section Moves.
Context {DI : Decimal} {CH : Chrono} {JS : Json} {JD : JsonScalars} {JB : JsonBuild} {UT : UuidText}.
Context (readiness_json : ResearchCandidatePromotionReadiness -> json)
  (event_payload : ResearchCandidateShadowPromotionPreview -> bool -> bool -> json).

(** The writes the handlers decide on after reading [row]. *)
Inductive planned (row : ResearchCandidate) : CandidateWrite -> Prop :=
  | PlanDecide call payload reads next :
      may_operate (ca_role call) = true ->
      decide_checks payload reads (ca_now call) row = Ok next ->
      planned row (decide_plan readiness_json call payload reads row next)
  | PlanAccept call payload reads runner plan :
      may_operate (ca_role call) = true ->
      accept_checks call payload reads runner row = Ok plan ->
      planned row plan
  | PlanPromote call payload reads runner correlation_id applied next :
      let preview := build_research_candidate_shadow_promotion_preview runner
        (pq_latest_observation reads) (pq_runner_hash reads) row payload correlation_id
        (ca_now call) in
      ca_role call = Some UserRole.Owner ->
      pp_status preview <> ResearchCandidateShadowPromotionStatus.Blocked ->
      research_candidate_next_status (rc_status row)
        ResearchCandidateDecision.PromoteToShadowConfig = Ok next ->
      next <> rc_status row ->
      planned row (promote_plan event_payload call payload preview applied row next)
  | PlanObserve call correlation_id observation :
      rc_status row = ResearchCandidateStatus.Discovered ->
      planned row (mark_observing_plan call correlation_id observation row).

Record Trail := {
  tr_moves : list (ResearchCandidate * ResearchCandidateLifecycleEvent);  (** newest first *)
  tr_strays : list ResearchCandidateLifecycleEvent;  (** of observations whose update failed *)
  tr_pending : list ResearchCandidateLifecycleEvent; (** not inserted yet, oldest first *)
  tr_lost : list ResearchCandidateLifecycleEvent;    (** whose insertion failed *)
  tr_mirror_promoted : bool;  (** the older endpoint wrote the mirror after the last update *)
  tr_in_order : Prop;  (** no stale read, no failed statement, events inserted in their order *)
  tr_store : CandidateStore
}.

Definition tr_rows (t : Trail) : list ResearchCandidate := map fst (tr_moves t).

(** One statement or transaction of some call.  A call works with any version of the row. *)
Inductive trail_step (t : Trail) : Trail -> Prop :=
  | StepUpdate row write store' row' :
      In row (tr_rows t) -> planned row write ->
      update_candidate write (tr_store t) = Some store' -> st_candidate store' = Some row' ->
      trail_step t {|
        tr_moves := (row', cw_event write) :: tr_moves t; tr_strays := tr_strays t;
        tr_pending := tr_pending t ++ [cw_event write]; tr_lost := tr_lost t;
        tr_mirror_promoted := false; tr_in_order := tr_in_order t /\ head (tr_rows t) = Some row;
        tr_store := store' |}
  | StepLog before event after :
      tr_pending t = before ++ event :: after ->
      trail_step t {|
        tr_moves := tr_moves t; tr_strays := tr_strays t; tr_pending := before ++ after;
        tr_lost := tr_lost t; tr_mirror_promoted := tr_mirror_promoted t;
        tr_in_order := tr_in_order t /\ before = [];
        tr_store := append_research_candidate_event true event (tr_store t) |}
  | StepLose before event after :
      tr_pending t = before ++ event :: after ->
      trail_step t {|
        tr_moves := tr_moves t; tr_strays := tr_strays t; tr_pending := before ++ after;
        tr_lost := event :: tr_lost t; tr_mirror_promoted := tr_mirror_promoted t;
        tr_in_order := False;
        tr_store := append_research_candidate_event false event (tr_store t) |}
  | StepStray row call correlation_id observation :
      In row (tr_rows t) -> rc_status row = ResearchCandidateStatus.Discovered ->
      let event := cw_event (mark_observing_plan call correlation_id observation row) in
      trail_step t {|
        tr_moves := tr_moves t; tr_strays := event :: tr_strays t;
        tr_pending := tr_pending t ++ [event]; tr_lost := tr_lost t;
        tr_mirror_promoted := tr_mirror_promoted t; tr_in_order := False; tr_store := tr_store t |}
  | StepRecord row call payload find_evaluation latest review :
      In row (tr_rows t) -> may_operate (ca_role call) = true ->
      review_checks call payload find_evaluation latest row = Ok (review, None) ->
      trail_step t {|
        tr_moves := tr_moves t; tr_strays := tr_strays t; tr_pending := tr_pending t;
        tr_lost := tr_lost t; tr_mirror_promoted := tr_mirror_promoted t;
        tr_in_order := tr_in_order t;
        tr_store := apply_research_candidate_review review None (tr_store t) |}
  | StepReview row call payload find_evaluation latest review event row' :
      In row (tr_rows t) -> may_operate (ca_role call) = true ->
      review_checks call payload find_evaluation latest row = Ok (review, Some event) ->
      let store' := apply_research_candidate_review review (Some event) (tr_store t) in
      st_candidate store' = Some row' ->
      trail_step t {|
        tr_moves := (row', event) :: tr_moves t; tr_strays := tr_strays t;
        tr_pending := tr_pending t; tr_lost := tr_lost t; tr_mirror_promoted := false;
        tr_in_order := tr_in_order t /\ head (tr_rows t) = Some row /\ tr_pending t = [];
        tr_store := store' |}
  | StepRunner config :
      trail_step t {|
        tr_moves := tr_moves t; tr_strays := tr_strays t; tr_pending := tr_pending t;
        tr_lost := tr_lost t; tr_mirror_promoted := tr_mirror_promoted t;
        tr_in_order := tr_in_order t; tr_store := store_runner config (tr_store t) |}
  | StepMirror promoted_at correlation_id :
      trail_step t {|
        tr_moves := tr_moves t; tr_strays := tr_strays t; tr_pending := tr_pending t;
        tr_lost := tr_lost t; tr_mirror_promoted := true; tr_in_order := tr_in_order t;
        tr_store := mark_strategy_research_candidate_promoted promoted_at correlation_id
                      (tr_store t) |}.

(** A candidate fresh from discovery, and everything the calls make of it. *)
Inductive served : Trail -> Prop :=
  | Created candidate actor decision reason notes payload event_id runner row event :
      rc_status candidate = ResearchCandidateStatus.Discovered ->
      rc_rejection_reason candidate = None ->
      let store := create_research_candidate candidate actor decision reason notes payload event_id
                     None runner in
      st_candidate store = Some row -> st_events store = [event] ->
      served {| tr_moves := [(row, event)]; tr_strays := []; tr_pending := []; tr_lost := [];
                tr_mirror_promoted := false; tr_in_order := True; tr_store := store |}
  | Served t t' : served t -> trail_step t t' -> served t'.

(** *** What every trail satisfies *)

(** The moves between statuses the handlers can make. *)
Definition legal_move (from to : ResearchCandidateStatus.t) : bool :=
  match to, from with
  | ResearchCandidateStatus.Discovered,
      (ResearchCandidateStatus.Rejected | ResearchCandidateStatus.Archived)
  | ResearchCandidateStatus.Observing, ResearchCandidateStatus.Discovered
  | ResearchCandidateStatus.AcceptedForShadow,
      (ResearchCandidateStatus.Discovered | ResearchCandidateStatus.Observing)
  | ResearchCandidateStatus.PromotedToShadowConfig,
      (ResearchCandidateStatus.AcceptedForShadow | ResearchCandidateStatus.PromotedToShadowConfig)
  | (ResearchCandidateStatus.Rejected | ResearchCandidateStatus.Archived), _ => true
  | _, _ => false
  end.

(** A reason is stored exactly for a rejected candidate, and is not blank. *)
Definition reason_stored (status : ResearchCandidateStatus.t) (reason : option string) : Prop :=
  if bool_decide (status = ResearchCandidateStatus.Rejected)
  then exists text, reason = Some text /\ is_empty (trim text) = false else reason = None.

(** What no call changes. *)
Definition fixed_fields (row : ResearchCandidate) :=
  (rc_id row, rc_experiment_id row, rc_experiment_run_id row,
   (rc_strategy_id row, rc_symbol row, rc_timeframe row, rc_config row),
   (rc_score row, rc_pnl_pct row, rc_max_drawdown_pct row, rc_trade_count row, rc_win_rate row,
    rc_fee_drag row), rc_created_at row).

(** The versions of a row, newest first, each with its event: it reports a legal move from a
    status the row once had, and only what was once accepted is promoted. *)
Inductive history : list (ResearchCandidate * ResearchCandidateLifecycleEvent) -> Prop :=
  | HistoryCreated row event :
      rc_status row = ResearchCandidateStatus.Discovered -> rc_rejection_reason row = None ->
      ev_candidate_id event = rc_id row -> ev_previous_status event = None ->
      ev_next_status event = rc_status row -> history [(row, event)]
  | HistoryMoved row event current read older :
      history older -> head (map fst older) = Some current -> In read (map fst older) ->
      fixed_fields row = fixed_fields current ->
      reason_stored (rc_status row) (rc_rejection_reason row) ->
      ev_candidate_id event = rc_id row -> ev_previous_status event = Some (rc_status read) ->
      ev_next_status event = rc_status row -> legal_move (rc_status read) (rc_status row) = true ->
      (rc_status row = ResearchCandidateStatus.PromotedToShadowConfig ->
       exists accepted, In accepted (map fst older) /\
         rc_status accepted = ResearchCandidateStatus.AcceptedForShadow) ->
      history ((row, event) :: older).

(** The status at the end of the log, when every event starts where the one
    before it ended. *)
Fixpoint log_path (from : option ResearchCandidateStatus.t)
    (events : list ResearchCandidateLifecycleEvent) : option (option ResearchCandidateStatus.t) :=
  match events with
  | [] => Some from
  | event :: events =>
      if bool_decide (ev_previous_status event = from)
      then log_path (Some (ev_next_status event)) events else None
  end.

Lemma log_path_app from events event :
  log_path from (events ++ [event]) =
  match log_path from events with
  | Some reached => if bool_decide (ev_previous_status event = reached)
                    then Some (Some (ev_next_status event)) else None
  | None => None
  end.
Proof.
  revert from; induction events as [|e events IH]; intros from; cbn; [by case_bool_decide|].
  case_bool_decide; [apply IH|done].
Qed.

Record consistent (t : Trail) (row : ResearchCandidate) : Prop := {
  (** the stored row is the newest version *)
  co_row : st_candidate (tr_store t) = Some row /\ head (tr_rows t) = Some row;
  co_history : history (tr_moves t);
  (** the log holds the events of the moves and of the strays, each at most once *)
  co_log : Permutation (map snd (tr_moves t) ++ tr_strays t)
             (st_events (tr_store t) ++ tr_pending t ++ tr_lost t);
  co_strays : Forall (fun event =>
      ev_previous_status event = Some ResearchCandidateStatus.Discovered /\
      ev_next_status event = ResearchCandidateStatus.Observing) (tr_strays t);
  co_mirror : exists legacy, st_legacy (tr_store t) = Some legacy /\
    lc_status legacy = StrategyResearchCandidateStatus.as_str
      (if tr_mirror_promoted t then StrategyResearchCandidateStatus.PromotedToShadowConfig
       else legacy_status_for_research_candidate (rc_status row)) /\
    (lc_status legacy = "PROMOTED_TO_SHADOW_CONFIG" -> lc_promoted_at legacy <> None);
  (** served in order, the log is an unbroken path to the stored status *)
  co_in_order : tr_in_order t ->
    st_events (tr_store t) ++ tr_pending t = rev (map snd (tr_moves t)) /\
    log_path None (st_events (tr_store t) ++ tr_pending t) = Some (Some (rc_status row))
}.

Lemma next_status_promoted status decision :
  research_candidate_next_status status decision = Ok ResearchCandidateStatus.PromotedToShadowConfig ->
  status = ResearchCandidateStatus.AcceptedForShadow \/
  status = ResearchCandidateStatus.PromotedToShadowConfig.
Proof. destruct decision, status; cbn; naive_solver. Qed.

Lemma next_status_rejected status decision :
  research_candidate_next_status status decision = Ok ResearchCandidateStatus.Rejected ->
  decision = ResearchCandidateDecision.Reject.
Proof. destruct decision, status; cbn; naive_solver. Qed.

Lemma next_status_legal status decision next :
  research_candidate_next_status status decision = Ok next -> legal_move status next = true.
Proof. destruct decision, status; cbn; try discriminate; by intros [= <-]. Qed.

Lemma review_outcome_next status action context reason outcome next :
  research_candidate_review_outcome status action context reason = Ok outcome ->
  ro_next_candidate_status outcome = Some next ->
  next <> ResearchCandidateStatus.PromotedToShadowConfig /\ legal_move status next = true /\
  (next = ResearchCandidateStatus.Rejected -> reason_missing reason = false).
Proof.
  destruct action; cbn [research_candidate_review_outcome]; try destruct status;
    try destruct (reason_missing reason) eqn:?; try case_bool_decide; try (destruct (_ || _));
    intros [= <-] Hn; cbn in Hn; naive_solver.
Qed.

Lemma legal_promotion from to : legal_move from to = true ->
  to = ResearchCandidateStatus.PromotedToShadowConfig ->
  from = ResearchCandidateStatus.AcceptedForShadow \/
  from = ResearchCandidateStatus.PromotedToShadowConfig.
Proof. intros H ->. destruct from; cbn in H; auto; discriminate. Qed.

(** A write fits the row it was decided on. *)
Record fits (row : ResearchCandidate) (write : CandidateWrite) : Prop := {
  ft_id : ev_candidate_id (cw_event write) = rc_id row;
  ft_from : ev_previous_status (cw_event write) = Some (rc_status row);
  ft_to : ev_next_status (cw_event write) = cw_next_status write;
  ft_legal : legal_move (rc_status row) (cw_next_status write) = true;
  ft_reason : reason_stored (cw_next_status write) (cw_rejection_reason write)
}.

Lemma decide_checks_next payload reads now row next :
  decide_checks payload reads now row = Ok next ->
  research_candidate_next_status (rc_status row) (dr_decision payload) = Ok next /\
  (dr_decision payload = ResearchCandidateDecision.Reject ->
   is_empty (trim (text_or_empty (dr_reason payload))) = false).
Proof.
  intros Hchk. unfold decide_checks in Hchk.
  destruct (bool_decide (dr_decision payload = _) && _) eqn:Hrej; [discriminate|].
  destruct (research_candidate_next_status _ _) eqn:Hns; try discriminate.
  apply bind_ok_inv in Hchk as (latest & _ & Hchk).
  apply bind_ok_inv in Hchk as (? & _ & [= <-]). split; [done|]. intros Hd.
  by rewrite Hd, bool_decide_eq_true_2 in Hrej.
Qed.

Lemma unreasoned status decision next :
  research_candidate_next_status status decision = Ok next ->
  decision <> ResearchCandidateDecision.Reject -> reason_stored next None.
Proof.
  intros H Hd. unfold reason_stored. case_bool_decide as Hr; [|done]. subst next.
  by apply next_status_rejected in H.
Qed.

Lemma preview_candidate_id runner observation hash row payload correlation_id now :
  pp_candidate_id (build_research_candidate_shadow_promotion_preview runner observation hash row
                     payload correlation_id now) = rc_id row.
Proof. unfold build_research_candidate_shadow_promotion_preview. by repeat case_match. Qed.

Lemma planned_fits row write : planned row write -> fits row write.
Proof.
  destruct 1 as [call payload reads next _ Hchk|call payload reads runner plan _ Hchk
                |call payload reads runner correlation applied next preview _ _ Hn _
                |call correlation observation Hs].
  - apply decide_checks_next in Hchk as [Hnext Htext]. split; try done.
    + by eapply next_status_legal.
    + unfold reason_stored. cbn. case_bool_decide as Hr; [|done]. subst next.
      apply next_status_rejected in Hnext. specialize (Htext Hnext). unfold text_or_empty in Htext.
      destruct (dr_reason payload) as [text|]; [by exists text|]. by vm_compute in Htext.
  - unfold accept_checks in Hchk.
    destruct (research_candidate_next_status _ _) as [next|?|] eqn:Hn; [|discriminate..].
    destruct (validate_research_candidate_accept_for_shadow_apply _ _ _ _); [|discriminate..].
    injection Hchk as <-. split; try done; [by eapply next_status_legal|by eapply unreasoned].
  - split; [apply preview_candidate_id|done|done|by eapply next_status_legal|by eapply unreasoned].
  - split; try done; cbn; by rewrite Hs.
Qed.

Lemma update_status_some next reason notes at_ correlation store row :
  st_candidate store = Some row ->
  update_research_candidate_status next reason notes at_ correlation store = Some
    {| st_candidate := Some (update_candidate_row next reason notes at_ correlation row);
       st_legacy := option_map (update_legacy_row next at_ correlation) (st_legacy store);
       st_events := st_events store; st_reviews := st_reviews store; st_runner := st_runner store |}.
Proof. intros H. unfold update_research_candidate_status. by rewrite H. Qed.

(** *** The invariant *)

Lemma history_fixed moves current : history moves -> head (map fst moves) = Some current ->
  forall row, In row (map fst moves) -> fixed_fields row = fixed_fields current.
Proof.
  intros H. revert current.
  induction H as [|row event top read older Hh IH Htop _ Hf]; intros current [= <-] r; cbn.
  - by intros [<-|[]].
  - intros [<-|Hin]; [done|]. rewrite Hf. by apply IH.
Qed.

(** A version read as accepted or promoted comes after an acceptance. *)
Lemma history_accepted moves : history moves -> forall row, In row (map fst moves) ->
  rc_status row = ResearchCandidateStatus.AcceptedForShadow \/
  rc_status row = ResearchCandidateStatus.PromotedToShadowConfig ->
  exists accepted, In accepted (map fst moves) /\
    rc_status accepted = ResearchCandidateStatus.AcceptedForShadow.
Proof.
  induction 1 as [row event Hs|row event current read older _ IH _ _ _ _ _ _ _ _ Hp]; intros r; cbn.
  - intros [<-|[]]. rewrite Hs. naive_solver.
  - intros [<-|Hin] [Hr|Hr]; [by exists row; auto|..].
    + destruct (Hp Hr) as (a & ? & ?). exists a. auto.
    + destruct (IH r Hin (or_introl Hr)) as (a & ? & ?). exists a. auto.
    + destruct (IH r Hin (or_intror Hr)) as (a & ? & ?). exists a. auto.
Qed.

(** The next version of the newest row, decided on [read]. *)
Lemma history_extend moves current read next reason notes at_ correlation event :
  history moves -> head (map fst moves) = Some current -> In read (map fst moves) ->
  reason_stored next reason -> legal_move (rc_status read) next = true ->
  ev_candidate_id event = rc_id read -> ev_previous_status event = Some (rc_status read) ->
  ev_next_status event = next ->
  history ((update_candidate_row next reason notes at_ correlation current, event) :: moves).
Proof.
  intros Hh Hc Hr Hreason Hl Hid Hp Hn. apply (HistoryMoved _ _ current read); try done.
  - rewrite Hid. cbn. pose proof (history_fixed _ _ Hh Hc _ Hr) as E. by injection E.
  - intros Hprom. apply (history_accepted _ Hh read Hr). by eapply legal_promotion.
Qed.

Lemma mirror_updated next at_ correlation legacy :
  let row := update_legacy_row next at_ correlation legacy in
  lc_status row = StrategyResearchCandidateStatus.as_str (legacy_status_for_research_candidate next) /\
  (lc_status row = "PROMOTED_TO_SHADOW_CONFIG" -> lc_promoted_at row <> None).
Proof. split; [done|]. destruct next; try discriminate. cbn. by destruct (lc_promoted_at legacy). Qed.

Lemma path_extend events event reached :
  log_path None events = Some reached -> ev_previous_status event = reached ->
  log_path None (events ++ [event]) = Some (Some (ev_next_status event)).
Proof. intros H E. by rewrite log_path_app, H, bool_decide_eq_true_2. Qed.

Lemma created_consistent candidate actor decision reason notes payload event_id runner row event :
  rc_status candidate = ResearchCandidateStatus.Discovered ->
  rc_rejection_reason candidate = None ->
  let store := create_research_candidate candidate actor decision reason notes payload event_id
                 None runner in
  st_candidate store = Some row -> st_events store = [event] ->
  consistent {| tr_moves := [(row, event)]; tr_strays := []; tr_pending := []; tr_lost := [];
                tr_mirror_promoted := false; tr_in_order := True; tr_store := store |} row.
Proof.
  intros Hs Hr store [= Hrow] [= Hev]. split; cbn.
  - by rewrite <- Hrow.
  - apply HistoryCreated; subst; cbn; done.
  - by subst.
  - constructor.
  - eexists. split; [done|]. subst. cbn. rewrite Hs. by split.
  - intros _. subst. by cbn.
Qed.

Lemma update_consistent t row write store' row' current : consistent t current ->
  In row (tr_rows t) -> planned row write ->
  update_candidate write (tr_store t) = Some store' -> st_candidate store' = Some row' ->
  consistent {|
    tr_moves := (row', cw_event write) :: tr_moves t; tr_strays := tr_strays t;
    tr_pending := tr_pending t ++ [cw_event write]; tr_lost := tr_lost t;
    tr_mirror_promoted := false; tr_in_order := tr_in_order t /\ head (tr_rows t) = Some row;
    tr_store := store' |} row'.
Proof.
  intros [[Hc Hh] Hist Hlog Hstray (legacy & Hl & _) Hord] Hin Hw Hup Hrow'.
  apply planned_fits in Hw as [Hid Hfrom Hto Hlegal Hreason].
  unfold update_candidate in Hup. rewrite (update_status_some _ _ _ _ _ _ _ Hc) in Hup.
  injection Hup as <-. injection Hrow' as <-. split; cbn -[update_candidate_row].
  - done.
  - by eapply history_extend.
  - rewrite Hlog. rewrite <- !app_assoc. cbn [app]. rewrite !app_assoc. apply Permutation_middle.
  - done.
  - rewrite Hl. eexists. split; [done|]. apply mirror_updated.
  - intros [Ho Hhead]. specialize (Hord Ho) as [E Hpath]. rewrite Hh in Hhead. injection Hhead as ->.
    rewrite app_assoc, E. split; [done|]. rewrite <- E.
    rewrite (path_extend _ _ _ Hpath) by done. by rewrite Hto.
Qed.

Lemma review_consistent t row call payload find_evaluation latest review event row' current :
  consistent t current -> In row (tr_rows t) ->
  review_checks call payload find_evaluation latest row = Ok (review, Some event) ->
  let store' := apply_research_candidate_review review (Some event) (tr_store t) in
  st_candidate store' = Some row' ->
  consistent {|
    tr_moves := (row', event) :: tr_moves t; tr_strays := tr_strays t;
    tr_pending := tr_pending t; tr_lost := tr_lost t; tr_mirror_promoted := false;
    tr_in_order := tr_in_order t /\ head (tr_rows t) = Some row /\ tr_pending t = [];
    tr_store := store' |} row'.
Proof.
  intros [[Hc Hh] Hist Hlog Hstray (legacy & Hl & _) Hord] Hin Hchk store'. subst store'.
  unfold review_checks in Hchk. apply bind_ok_inv in Hchk as (record & _ & Hchk).
  destruct (research_candidate_review_outcome _ _ _ _) as [outcome|?|] eqn:Ho; [|discriminate..].
  unfold review_lifecycle_event in Hchk.
  destruct (ro_next_candidate_status outcome) as [next|] eqn:Hn; [|discriminate].
  destruct (review_outcome_next _ _ _ _ _ _ Ho Hn) as (_ & Hlegal & Hrej).
  injection Hchk as <- <-. unfold apply_research_candidate_review.
  cbn [rv_next_candidate_status rv_reason rv_notes rv_created_at rv_correlation_id].
  rewrite (update_status_some _ _ _ _ _ _ _ Hc). intros [= <-]. split; cbn -[update_candidate_row].
  - done.
  - eapply history_extend; try done. unfold reason_stored. case_bool_decide as Hr; [|done].
    specialize (Hrej Hr). unfold reason_missing in Hrej.
    destruct (rr_reason payload) as [text|]; [by exists text|done].
  - rewrite Hlog, <- app_assoc. apply Permutation_middle.
  - done.
  - rewrite Hl. eexists. split; [done|]. apply mirror_updated.
  - intros (Hor & Hhead & Hpend). specialize (Hord Hor) as [E Hpath].
    rewrite Hh in Hhead. injection Hhead as ->. rewrite Hpend, app_nil_r in *.
    rewrite E. split; [done|]. rewrite <- E. by rewrite (path_extend _ _ _ Hpath).
Qed.

Lemma record_consistent t row call payload find_evaluation latest review current :
  consistent t current ->
  review_checks call payload find_evaluation latest row = Ok (review, None) ->
  consistent {|
    tr_moves := tr_moves t; tr_strays := tr_strays t; tr_pending := tr_pending t;
    tr_lost := tr_lost t; tr_mirror_promoted := tr_mirror_promoted t;
    tr_in_order := tr_in_order t;
    tr_store := apply_research_candidate_review review None (tr_store t) |} current.
Proof.
  intros [H1 H2 H3 H4 H5 H6] Hchk.
  unfold review_checks in Hchk. apply bind_ok_inv in Hchk as (record & _ & Hchk).
  destruct (research_candidate_review_outcome _ _ _ _) as [outcome|?|]; [|discriminate..].
  unfold review_lifecycle_event in Hchk.
  destruct (ro_next_candidate_status outcome) eqn:En; [discriminate|].
  injection Hchk as <-. unfold apply_research_candidate_review.
  cbn [rv_next_candidate_status]. by split.
Qed.

Lemma step_consistent t t' row : consistent t row -> trail_step t t' ->
  exists row', consistent t' row'.
Proof.
  intros Hcon Hstep. pose proof Hcon as [[Hc Hh] Hist Hlog Hstray Hmir Hord].
  destruct Hstep as [read write store' row' Hin Hw Hup Hr'|before event after Hp|before event after Hp
    |read call correlation observation Hin Hs event|read call payload find latest review Hin _ Hchk
    |read call payload find latest review event row' Hin _ Hchk store' Hr'|config
    |promoted_at correlation];
    [exists row'; exact (update_consistent _ _ _ _ _ _ Hcon Hin Hw Hup Hr')| | |
    |exists row; exact (record_consistent _ _ _ _ _ _ _ _ Hcon Hchk)
    |exists row'; exact (review_consistent _ _ _ _ _ _ _ _ _ _ Hcon Hin Hchk Hr')| |];
    exists row; split; cbn -[review_checks]; try done.
  - rewrite Hlog, Hp, <- !app_assoc. cbn.
    apply Permutation_app_head. symmetry. apply Permutation_middle.
  - intros [Ho ->]. specialize (Hord Ho). rewrite Hp in Hord. by rewrite <- app_assoc.
  - rewrite Hlog, Hp, <- !app_assoc. cbn. do 2 apply Permutation_app_head. apply Permutation_middle.
  - rewrite <- Permutation_middle, Hlog, <- !app_assoc. cbn. rewrite !app_assoc.
    apply Permutation_middle.
  - by constructor.
  - destruct Hmir as (legacy & -> & _). eexists. split; [done|]. by split.
Qed.
Lemma served_consistent t : served t -> exists row, consistent t row.
Proof.
  induction 1 as [|t t' _ [row IH] Hstep]; [eexists; by apply created_consistent|].
  by eapply step_consistent.
Qed.

(** *** The handlers are made of these steps *)

(** One call served from its first read to its last write; [complete] says that none of its
    statements failed. *)
Inductive candidate_call (debug_str : string -> string) (config_id : Z)
    : bool -> CandidateStore -> CandidateStore -> Prop :=
  | CallDecide call payload reads response store store' :
      decide_research_candidate_handler readiness_json call payload reads store = (response, store') ->
      candidate_call debug_str config_id (ca_event_inserted call) store store'
  | CallReview call payload find_evaluation latest response store store' :
      create_research_candidate_review_handler call payload find_evaluation latest store
        = (response, store') ->
      candidate_call debug_str config_id true store store'
  | CallAccept call candidate_id payload reads response store store' :
      apply_research_candidate_accept_shadow_handler call candidate_id payload reads store
        = (response, store') ->
      candidate_call debug_str config_id (ca_event_inserted call) store store'
  | CallPromote call candidate_id payload reads response store store' :
      apply_research_candidate_shadow_promotion_handler debug_str config_id event_payload call
        candidate_id payload reads store = (response, store') ->
      candidate_call debug_str config_id (ca_event_inserted call) store store'
  | CallObserve call correlation_id observation mark updated row store :
      st_candidate store = Some row ->
      candidate_call debug_str config_id (updated && ca_event_inserted call) store
        (mark_candidate_observing call correlation_id observation mark updated row store)
  | CallMirror promoted_at correlation_id store :
      candidate_call debug_str config_id true store
        (mark_strategy_research_candidate_promoted promoted_at correlation_id store).

(** A trail continues to [store'], in order when the call was complete. *)
Definition continues (t : Trail) (complete : bool) (store' : CandidateStore) : Prop :=
  exists t', served t' /\ tr_store t' = store' /\
    (complete = true -> tr_in_order t -> tr_pending t = [] -> tr_in_order t' /\ tr_pending t' = []).

Lemma continues_same t complete : served t -> continues t complete (tr_store t).
Proof. by exists t. Qed.

(** The last pending event is inserted, or its insertion fails. *)
Lemma continues_event t before event inserted : served t -> tr_pending t = before ++ [event] ->
  exists t', served t' /\
    tr_store t' = append_research_candidate_event inserted event (tr_store t) /\
    tr_pending t' = before /\
    (inserted = true -> before = [] -> tr_in_order t -> tr_in_order t').
Proof.
  intros Ht Hp. destruct inserted.
  - eexists. split; [exact (Served _ _ Ht (StepLog _ _ _ _ Hp))|]. cbn. by rewrite app_nil_r.
  - eexists. split; [exact (Served _ _ Ht (StepLose _ _ _ _ Hp))|]. cbn. by rewrite app_nil_r.
Qed.

Lemma continues_write t row write mid inserted : served t -> st_candidate (tr_store t) = Some row ->
  planned row write -> update_candidate write (tr_store t) = Some mid ->
  continues t inserted (append_research_candidate_event inserted (cw_event write) mid).
Proof.
  intros Ht Hrow Hw Hup. destruct (served_consistent t Ht) as [row0 [[Hc Hh] _ _ _ _ _]].
  rewrite Hrow in Hc. injection Hc as <-.
  assert (exists row', st_candidate mid = Some row') as [row' Hrow'].
  { unfold update_candidate in Hup. rewrite (update_status_some _ _ _ _ _ _ _ Hrow) in Hup.
    injection Hup as <-. by eexists. }
  assert (In row (tr_rows t)) as Hin by (destruct (tr_rows t); [done|injection Hh as <-; by left]).
  pose proof (Served _ _ Ht (StepUpdate _ _ _ _ _ Hin Hw Hup Hrow')) as H1.
  destruct (continues_event _ _ _ inserted H1 eq_refl) as (t' & H2 & Hs & Hp & Hord).
  exists t'. split; [done|]. split; [done|]. intros -> Ho Hpend. rewrite Hp. split; [|done].
  apply Hord; done.
Qed.

Lemma decide_continues t call payload reads response store' : served t ->
  decide_research_candidate_handler readiness_json call payload reads (tr_store t)
    = (response, store') ->
  continues t (ca_event_inserted call) store'.
Proof.
  intros Ht. unfold decide_research_candidate_handler.
  destruct (may_operate _) eqn:Hrole; [cbn [negb]|intros [= _ <-]; by apply continues_same].
  destruct (st_candidate _) as [row|] eqn:Hrow; [|intros [= _ <-]; by apply continues_same].
  destruct (decide_checks _ _ _ _) as [next|e|] eqn:Hchk;
    [|intros [= _ <-]; by apply continues_same..].
  unfold decide_write. destruct (update_candidate _ _) as [mid|] eqn:Hup;
    intros [= _ <-]; [|by apply continues_same].
  apply (continues_write t row (decide_plan readiness_json call payload reads row next));
    [done|done|by apply PlanDecide|done].
Qed.

Lemma accept_continues t call candidate_id payload reads response store' : served t ->
  apply_research_candidate_accept_shadow_handler call candidate_id payload reads (tr_store t)
    = (response, store') ->
  continues t (ca_event_inserted call) store'.
Proof.
  intros Ht. unfold apply_research_candidate_accept_shadow_handler.
  destruct (may_operate _) eqn:Hrole; [cbn [negb]|intros [= _ <-]; by apply continues_same].
  destruct (negb _); [intros [= _ <-]; by apply continues_same|].
  destruct (st_candidate _) as [row|] eqn:Hrow; [|intros [= _ <-]; by apply continues_same].
  destruct (accept_checks _ _ _ _ _) as [plan|e|] eqn:Hchk;
    [|intros [= _ <-]; by apply continues_same..].
  destruct (update_candidate _ _) as [mid|] eqn:Hup; intros [= _ <-]; [|by apply continues_same].
  apply (continues_write t row plan); [done|done|by eapply PlanAccept|done].
Qed.

Lemma review_continues t call payload find_evaluation latest response store' complete : served t ->
  create_research_candidate_review_handler call payload find_evaluation latest (tr_store t)
    = (response, store') ->
  continues t complete store'.
Proof.
  intros Ht. unfold create_research_candidate_review_handler.
  destruct (may_operate _) eqn:Hrole; [cbn [negb]|intros [= _ <-]; by apply continues_same].
  destruct (served_consistent t Ht) as [row [[Hc Hh] _ _ _ _ _]]. rewrite Hc.
  assert (In row (tr_rows t)) as Hin by (destruct (tr_rows t); [done|injection Hh as <-; by left]).
  destruct (review_checks _ _ _ _ _) as [[review [event|]]|e|] eqn:Hchk; intros [= _ <-];
    [|eexists; split; [exact (Served _ _ Ht (StepRecord _ _ _ _ _ _ _ Hin Hrole Hchk))|done]
     |by apply continues_same..].
  assert (exists row', st_candidate (apply_research_candidate_review review (Some event) (tr_store t))
    = Some row') as [row' Hrow'].
  { unfold apply_research_candidate_review. cbn. destruct (rv_next_candidate_status review); [|by eexists].
    rewrite (update_status_some _ _ _ _ _ _ _ Hc). by eexists. }
  eexists. split; [exact (Served _ _ Ht (StepReview _ _ _ _ _ _ _ _ _ Hin Hrole Hchk Hrow'))|].
  cbn. auto.
Qed.

Lemma promote_continues debug_str config_id t call candidate_id payload reads response store' :
  served t ->
  apply_research_candidate_shadow_promotion_handler debug_str config_id event_payload call
    candidate_id payload reads (tr_store t) = (response, store') ->
  continues t (ca_event_inserted call) store'.
Proof.
  intros Ht. unfold apply_research_candidate_shadow_promotion_handler.
  case_bool_decide as Hrole; cbn [negb]; [|intros [= _ <-]; by apply continues_same].
  do 2 (destruct (negb _); [intros [= _ <-]; by apply continues_same|]).
  destruct (st_candidate _) as [row|] eqn:Hrow; [|intros [= _ <-]; by apply continues_same].
  case_bool_decide as Hb; [intros [= _ <-]; by apply continues_same|].
  set (persisted := if vec_is_empty _ then _ else _).
  assert (forall mid applied, persisted = Ok (mid, applied) ->
    st_candidate mid = Some row /\ exists t1, served t1 /\ tr_store t1 = mid /\
      tr_in_order t1 = tr_in_order t /\ tr_pending t1 = tr_pending t) as Hmid.
  { subst persisted. intros mid applied.
    destruct (vec_is_empty _); [intros [= <- _]; split; [done|by exists t]|].
    destruct (persist_testnet_shadow_runner_config _ _ _ _ _) as [config| |]; [|discriminate..].
    intros [= <- _]. split; [done|]. eexists.
    split; [exact (Served _ _ Ht (StepRunner _ config))|done]. }
  destruct persisted as [[mid applied]|e|]; [|intros [= _ <-]; by apply continues_same..].
  destruct (Hmid mid applied eq_refl) as (Hc & t1 & Ht1 & <- & Ho & Hp). clear Hmid.
  assert (forall complete store, continues t1 complete store -> continues t complete store) as Hback.
  { intros complete store (t' & ? & ? & H). rewrite Ho, Hp in H. by exists t'. }
  case_bool_decide as Hsame; [intros [= _ <-]; by apply Hback, continues_same|].
  destruct (research_candidate_next_status _ _) as [next|e|] eqn:Hnext; [|done..].
  destruct (update_candidate _ _) as [new|] eqn:Hup; intros [= _ <-]; apply Hback.
  - eapply (continues_write t1 row (promote_plan _ _ _ _ _ _ _)); [done|exact Hc| |exact Hup].
    by apply PlanPromote.
  - unfold update_candidate in Hup. by rewrite (update_status_some _ _ _ _ _ _ _ Hc) in Hup.
Qed.

Lemma observe_continues t call correlation_id observation mark updated row : served t ->
  st_candidate (tr_store t) = Some row ->
  continues t (updated && ca_event_inserted call)
    (mark_candidate_observing call correlation_id observation mark updated row (tr_store t)).
Proof.
  intros Ht Hrow. unfold mark_candidate_observing.
  destruct mark; [|by apply continues_same]. case_bool_decide as Hs; [|by apply continues_same].
  cbn [andb]. destruct updated.
  - destruct (update_candidate _ _) as [mid|] eqn:Hup.
    + apply (continues_write t row (mark_observing_plan call correlation_id observation row));
        [done|done|by apply PlanObserve|done].
    + unfold update_candidate in Hup. by rewrite (update_status_some _ _ _ _ _ _ _ Hrow) in Hup.
  - destruct (served_consistent t Ht) as [row0 [[Hc Hh] _ _ _ _ _]].
    rewrite Hrow in Hc. injection Hc as <-.
    assert (In row (tr_rows t)) as Hin by (destruct (tr_rows t); [done|injection Hh as <-; by left]).
    pose proof (Served _ _ Ht (StepStray _ _ call correlation_id observation Hin Hs)) as H1.
    destruct (continues_event _ _ _ (ca_event_inserted call) H1 eq_refl) as (t' & H2 & Hst & _).
    by exists t'.
Qed.

Lemma call_continues debug_str config_id t complete store' : served t ->
  candidate_call debug_str config_id complete (tr_store t) store' -> continues t complete store'.
Proof.
  intros Ht Hcall. inversion Hcall; subst;
    eauto using decide_continues, accept_continues, review_continues, promote_continues,
      observe_continues.
  eexists. split; [exact (Served _ _ Ht (StepMirror _ promoted_at correlation_id))|done].
Qed.
End Moves.

(** C8.  The history of a candidate, for every interleaving of the statements of decisions,
    reviews, acceptances, promotions and observation requests, with stale reads and failed
    insertions: the stored row is the newest version and only its status, reason, notes,
    correlation and update time ever changed; each version came with one event, which reports a
    legal move from a status that the row once had to the one it got; a rejection reason is
    stored exactly for rejected versions and is never blank; only what was once accepted is
    promoted; every event in the log is that of a move, or of an observation whose update failed,
    and none is there twice; the older table holds the corresponding status, unless the
    older endpoint promoted it since, and a promotion time once promoted.  When no read was stale,
    no statement failed and the events were inserted in their order, the log with the pending
    event is an unbroken path from the creation to the stored status.  Each handler, served at
    once, is such a sequence of statements, in order unless one of them failed. *)
Theorem candidate_history_consistent {DI : Decimal} {CH : Chrono} {JS : Json} {JD : JsonScalars}
    {JB : JsonBuild} {UT : UuidText}
    (readiness_json : ResearchCandidatePromotionReadiness -> json) (debug_str : string -> string)
    (config_id : Z) (event_payload : ResearchCandidateShadowPromotionPreview -> bool -> bool -> json)
    (t : Trail) :
  served readiness_json event_payload t ->
  (exists row, consistent t row) /\
  forall complete store',
    candidate_call readiness_json event_payload debug_str config_id complete (tr_store t) store' ->
    exists t', served readiness_json event_payload t' /\ tr_store t' = store' /\
      (complete = true -> tr_in_order t -> tr_pending t = [] ->
       tr_in_order t' /\ tr_pending t' = []).
Proof.
  intros Ht. split; [by eapply served_consistent|]. intros complete store' Hcall.
  by eapply call_continues.
Qed.

(** ** The decision endpoint *)

Section Decisions.
Context {DI : Decimal} {CH : Chrono} {JS : Json} {JD : JsonScalars} {JB : JsonBuild} {UT : UuidText}.

(** The walk-forward evidence lets an acceptance through. *)
Definition walk_forward_admits (payload : ResearchCandidateDecisionRequest)
    (evidence : res string (option ResearchCandidateWalkForwardEvidence)) : Prop :=
  match evidence with
  | Ok None => True
  | Ok (Some evidence) =>
      match we_robustness_status evidence with
      | StrategyWalkForwardRobustnessStatus.Robust
      | StrategyWalkForwardRobustnessStatus.Weak => True
      | StrategyWalkForwardRobustnessStatus.OverfitRisk => dr_acknowledge_overfit_risk payload = true
      | _ => False
      end
  | _ => False
  end.

Lemma observation_stale_iff id observation now :
  observation_stale (candidate_promotion_readiness id observation now) = true <->
  observation_expired observation now.
Proof. apply expired_test. Qed.

(** What an acceptance asks of the observation it rests on. *)
Definition observation_admits (payload : ResearchCandidateDecisionRequest)
    (observation : StrategyCandidateObservationResult) (runner_hash : option string) (now : Z) : Prop :=
  ~ observation_expired observation now /\
  runner_config_changed observation runner_hash = false /\
  (al_strategy_config_matches_runner (ob_runner_alignment observation) = true \/
   dr_acknowledge_runner_mismatch payload = true) /\
  os_latest_readiness_status (ob_summary observation) <> Some ExecutionReadinessStatus.NotReady.

Lemma accept_checks_some payload reads candidate now observation :
  accept_for_shadow_checks payload reads candidate now (Some observation) = Ok tt <->
  observation_admits payload observation (dq_runner_hash reads) now /\
  walk_forward_admits payload (dq_walk_forward_evidence reads).
Proof.
  unfold accept_for_shadow_checks, reject, observation_admits.
  rewrite <- (observation_stale_iff (rc_id candidate)).
  destruct (observation_stale _); [naive_solver|].
  destruct (runner_config_changed _ _); [naive_solver|].
  destruct (al_strategy_config_matches_runner (ob_runner_alignment observation)) eqn:Ha,
    (dr_acknowledge_runner_mismatch payload) eqn:Hk; cbn [negb andb];
    try (split; [discriminate|naive_solver]);
    (case_bool_decide as Hr; cbn [rd_readiness_status candidate_promotion_readiness] in Hr;
     [split; [discriminate|naive_solver]|]);
    unfold walk_forward_admits;
    destruct (dq_walk_forward_evidence reads) as [[e|]|?|]; try naive_solver;
    destruct (we_robustness_status e); cbn; destruct (dr_acknowledge_overfit_risk payload);
    cbn; naive_solver.
Qed.

Lemma accept_checks_none payload reads candidate now :
  accept_for_shadow_checks payload reads candidate now None <> Ok tt.
Proof. done. Qed.

Lemma decide_ok_iff readiness_json call payload reads store row :
  st_candidate store = Some row ->
  (exists store', decide_research_candidate_handler readiness_json call payload reads store
                  = (Ok tt, store')) <->
  may_operate (ca_role call) = true /\
  exists next, decide_checks payload reads (ca_now call) row = Ok next.
Proof.
  intros Hrow. unfold decide_research_candidate_handler, reject. rewrite Hrow.
  destruct (may_operate _); cbn [negb]; [|naive_solver].
  destruct (decide_checks _ _ _ _) as [next|e|]; [|naive_solver..].
  unfold decide_write, update_candidate.
  rewrite (update_status_some _ _ _ _ _ _ _ Hrow). naive_solver.
Qed.
End Decisions.

(** C25.  C. The decision endpoint accepts a candidate for shadow exactly when the
    caller is an operator or the owner, the candidate is discovered or observing,
    an observation is stored that is not stale, was not made under another runner
    configuration, covers the candidate (or the mismatch is acknowledged) and does
    not report NOT_READY, and the walk-forward evidence, if any, is robust, weak,
    or an acknowledged overfit risk.  The observation's own verdict, the
    robustness matrix and the data quality are not consulted. *)
Theorem decision_accepts_iff {DI : Decimal} {CH : Chrono} {JS : Json} {JD : JsonScalars}
    {JB : JsonBuild} {UT : UuidText}
    (readiness_json : ResearchCandidatePromotionReadiness -> json) (call : ApiCall)
    (payload : ResearchCandidateDecisionRequest) (reads : DecisionReads) (store : CandidateStore)
    (row : ResearchCandidate) :
  st_candidate store = Some row ->
  dr_decision payload = ResearchCandidateDecision.AcceptForShadow ->
  (exists store', decide_research_candidate_handler readiness_json call payload reads store
                  = (Ok tt, store')) <->
  may_operate (ca_role call) = true /\
  status_eligible (rc_status row) = true /\
  (exists observation, read_latest_observation reads = Ok (Some observation) /\
    observation_admits payload observation (dq_runner_hash reads) (ca_now call)) /\
  walk_forward_admits payload (dq_walk_forward_evidence reads).
Proof.
  intros Hrow Hd. rewrite (decide_ok_iff _ _ _ _ _ _ Hrow).
  assert ((exists next, decide_checks payload reads (ca_now call) row = Ok next) <->
    status_eligible (rc_status row) = true /\ exists latest,
      read_latest_observation reads = Ok latest /\
      accept_for_shadow_checks payload reads row (ca_now call) latest = Ok tt) as ->.
  { unfold decide_checks. rewrite Hd, bool_decide_eq_false_2 by done.
    rewrite bool_decide_eq_true_2 by done. cbn [andb].
    destruct (rc_status row); cbn [research_candidate_next_status status_eligible];
      try (split; [by intros [? ?]|by intros [? _]]);
      (destruct (read_latest_observation reads) as [latest|e|]; cbn [mbind res_bind];
       [|split; [by intros [? ?]|by intros (_ & ? & ? & _)]..];
       destruct (accept_for_shadow_checks _ _ _ _ latest) as [[]|e|] eqn:Hc; cbn [mbind res_bind];
       [split; [intros _; split; [done|]; by exists latest|intros _; by eexists]|..];
       (split; [by intros [? ?]|intros (_ & l & [= <-] & E); congruence])). }
  split.
  - intros (H1 & H2 & [o|] & Hl & Ho); [|by apply accept_checks_none in Ho].
    apply accept_checks_some in Ho as [Ho Hw]. eauto 6.
  - intros (H1 & H2 & (o & Hl & Ho) & Hw). split; [done|]. split; [done|]. exists (Some o).
    split; [done|]. by apply accept_checks_some.
Qed.

(** C. A decision to promote needs only an accepted candidate and an operator: it
    marks the candidate as promoted without an observation, without the owner the
    promotion endpoint demands, and without touching the runner's configuration. *)
Theorem decision_promotes_without_runner {DI : Decimal} {CH : Chrono} {JS : Json} {JD : JsonScalars}
    {JB : JsonBuild} {UT : UuidText}
    (readiness_json : ResearchCandidatePromotionReadiness -> json) (call : ApiCall)
    (payload : ResearchCandidateDecisionRequest) (reads : DecisionReads) (store : CandidateStore)
    (row : ResearchCandidate) :
  st_candidate store = Some row ->
  rc_status row = ResearchCandidateStatus.AcceptedForShadow ->
  dr_decision payload = ResearchCandidateDecision.PromoteToShadowConfig ->
  ca_role call = Some UserRole.Operator ->
  dq_latest_observation reads <> Panic ->
  exists store' row',
    decide_research_candidate_handler readiness_json call payload reads store = (Ok tt, store') /\
    st_candidate store' = Some row' /\
    rc_status row' = ResearchCandidateStatus.PromotedToShadowConfig /\
    st_runner store' = st_runner store.
Proof.
  intros Hrow Hs Hd Hrole Hobs. unfold decide_research_candidate_handler, decide_checks.
  rewrite Hrole, Hrow, Hs, Hd. cbn [may_operate negb].
  rewrite bool_decide_eq_false_2 by done. cbn [andb research_candidate_next_status].
  rewrite bool_decide_eq_false_2 by done.
  assert (exists latest, read_latest_observation reads = Ok latest) as [latest Hl].
  { unfold read_latest_observation. destruct (dq_latest_observation reads); eauto. done. }
  rewrite Hl. cbn [mbind res_bind]. unfold decide_write, update_candidate.
  rewrite (update_status_some _ _ _ _ _ _ _ Hrow). cbn. do 2 eexists. repeat split.
Qed.

(** C. Two decisions that were checked against the same row both succeed: an
    archiving that is written first is overwritten by the acceptance checked before
    it, and the log no longer is a path to the stored status. *)
Theorem concurrent_decisions_lose_update {DI : Decimal} {CH : Chrono} {JS : Json}
    {JD : JsonScalars} {JB : JsonBuild} {UT : UuidText}
    (readiness_json : ResearchCandidatePromotionReadiness -> json) (call1 call2 : ApiCall)
    (archive accept : ResearchCandidateDecisionRequest) (reads : DecisionReads)
    (store : CandidateStore) (row : ResearchCandidate) :
  st_candidate store = Some row ->
  dr_decision archive = ResearchCandidateDecision.Archive ->
  ca_event_inserted call1 = true -> ca_event_inserted call2 = true ->
  decide_checks accept reads (ca_now call2) row = Ok ResearchCandidateStatus.AcceptedForShadow ->
  exists row',
    decide_checks archive reads (ca_now call1) row = Ok ResearchCandidateStatus.Archived /\
    let '(first, between) := decide_write readiness_json call1 archive reads row
                               ResearchCandidateStatus.Archived store in
    let '(second, after) := decide_write readiness_json call2 accept reads row
                              ResearchCandidateStatus.AcceptedForShadow between in
    first = Ok tt /\ second = Ok tt /\ st_candidate after = Some row' /\
    rc_status row' = ResearchCandidateStatus.AcceptedForShadow /\
    log_path None (st_events after) = None.
Proof.
  intros Hrow Hd H1 H2 Hacc.
  assert (rc_status row <> ResearchCandidateStatus.Archived /\
          exists latest, read_latest_observation reads = Ok latest) as [Hs [latest Hl]].
  { unfold decide_checks in Hacc. destruct (_ && _); [discriminate|].
    destruct (research_candidate_next_status _ _) as [n|?|] eqn:Hn; [|discriminate..].
    apply bind_ok_inv in Hacc as (latest & Hl & Hacc). apply bind_ok_inv in Hacc as (? & _ & [= ->]).
    split; [|eauto]. intros E. rewrite E in Hn. destruct (dr_decision accept); cbn in Hn; congruence. }
  unfold decide_write, update_candidate.
  rewrite (update_status_some _ _ _ _ _ _ _ Hrow), H1, H2. cbn.
  eexists. split.
  - unfold decide_checks. rewrite Hd, bool_decide_eq_false_2 by done. cbn [andb].
    destruct (rc_status row) eqn:E; cbn [research_candidate_next_status]; try done;
      rewrite Hl; cbn [mbind res_bind]; rewrite bool_decide_eq_false_2 by done; done.
  - repeat split. rewrite log_path_app, log_path_app. cbn.
    destruct (log_path None (st_events store)); [|done]. case_bool_decide; [|done].
    rewrite bool_decide_eq_false_2; [done|]. congruence.
Qed.

(** ** Reviews *)

(** C. A review that sends a discovered candidate back to observation is logged
    as the decision ARCHIVE, although the candidate becomes OBSERVING, which no
    decision leads to. *)
Theorem observation_review_logged_as_archive {DI : Decimal} {CH : Chrono} {JS : Json}
    {JD : JsonScalars} {JB : JsonBuild} {UT : UuidText} (call : ApiCall)
    (payload : ResearchCandidateReviewRequest)
    (find_evaluation : Z -> option ResearchCandidateQualificationEvaluation)
    (latest : list ResearchCandidateQualificationEvaluation) (store : CandidateStore)
    (row : ResearchCandidate) :
  st_candidate store = Some row ->
  rc_status row = ResearchCandidateStatus.Discovered ->
  may_operate (ca_role call) = true ->
  rr_action payload = ResearchCandidateReviewAction.MarkNeedsMoreObservation ->
  rr_qualification_evaluation_id payload = None ->
  (exists store' event row',
    create_research_candidate_review_handler call payload find_evaluation latest store
      = (Ok tt, store') /\
    st_candidate store' = Some row' /\ rc_status row' = ResearchCandidateStatus.Observing /\
    st_events store' = st_events store ++ [event] /\
    ev_decision event = ResearchCandidateDecision.Archive /\
    ev_next_status event = ResearchCandidateStatus.Observing) /\
  (forall status decision,
    research_candidate_next_status status decision <> Ok ResearchCandidateStatus.Observing).
Proof.
  intros Hrow Hs Hrole Ha Hq. split; [|by intros [] []].
  unfold create_research_candidate_review_handler, apply_research_candidate_review, review_checks,
    review_lifecycle_event. rewrite Hrole, Hrow, Hq, Hs, Ha.
  cbn [negb mbind res_bind research_candidate_review_outcome status_updated ro_next_candidate_status
       rv_next_candidate_status option_map].
  rewrite (update_status_some _ _ _ _ _ _ _ Hrow). do 3 eexists. repeat split.
Qed.

(** C. An operator may mark a candidate as investigated exactly when its latest
    evaluation is older than a day, is not qualified, is degraded although an
    earlier one exists, or lost a qualification. *)
Theorem investigation_allowed_iff {DI : Decimal}
    (latest : list ResearchCandidateQualificationEvaluation) (now : Z)
    (status : ResearchCandidateStatus.t) (reason : option string) :
  research_candidate_review_outcome status ResearchCandidateReviewAction.MarkInvestigated
    (review_context None latest now) reason = Ok recorded <->
  exists current earlier, latest = current :: earlier /\
    (hours 24 < now - qe_evaluated_at current \/
     qe_status current = ResearchCandidateQualificationStatus.NotQualified \/
     exists previous rest, earlier = previous :: rest /\
       (qe_status current = ResearchCandidateQualificationStatus.Degraded \/
        qe_status previous = ResearchCandidateQualificationStatus.Qualified /\
        qe_status current <> ResearchCandidateQualificationStatus.Qualified)).
Proof.
  cbn [research_candidate_review_outcome review_context rx_latest_watchlist_status
       rx_latest_qualification_status].
  destruct latest as [|current earlier]; cbn [head option_map lookup list_lookup].
  { split; [by case_bool_decide|by intros (? & ? & ? & _)]. }
  assert (forall P : ResearchCandidateQualificationEvaluation ->
                     list ResearchCandidateQualificationEvaluation -> Prop,
    (exists c e, current :: earlier = c :: e /\ P c e) <-> P current earlier) as Hex.
  { intros P. split; [by intros (? & ? & [= <- <-] & ?)|by exists current, earlier]. }
  rewrite Hex. clear Hex. unfold research_candidate_watchlist_status.
  destruct (Z.ltb_spec (hours 24) (now - qe_evaluated_at current)) as [Hold|Hfresh].
  { cbn [orb]. split; [by left|done]. }
  assert (~ hours 24 < now - qe_evaluated_at current) as Hn by lia. clear Hfresh.
  unfold research_candidate_qualification_trend.
  destruct earlier as [|previous rest]; cbn [research_candidate_qualification_change option_map orb].
  - case_bool_decide as Hq.
    + split; [intros _; right; left; congruence|done].
    + split; [done|]. intros [?|[E|(? & ? & [=] & _)]]; [done|]. by rewrite E in Hq.
  - change ((previous :: rest) !! 0%nat) with (Some previous).
    cbn [research_candidate_qualification_change option_map qc_newly_qualified
         qc_lost_qualification qc_score_delta].
    assert (forall P : ResearchCandidateQualificationEvaluation -> Prop,
      (exists c (e : list ResearchCandidateQualificationEvaluation),
         previous :: rest = c :: e /\ P c) <-> P previous) as Hex.
    { intros P. split; [by intros (? & ? & [= <- _] & ?)|by exists previous, rest]. }
    rewrite Hex. clear Hex.
    unfold qualification_status_counts_as_qualified.
    destruct (qe_status current) eqn:E1, (qe_status previous) eqn:E2;
      repeat (first [rewrite bool_decide_eq_true_2 by done | rewrite bool_decide_eq_false_2 by done]);
      cbn [negb andb orb]; repeat case_match; split; intros; try done; try (intuition congruence).
Qed.

(** C. A promotion that the endpoint applies to a candidate the observation did
    not find covered leaves the candidate promoted and the runner's stored
    configuration covering it, with the runner enabled or disabled as before: the
    proposal survives the normalisation it is stored through. *)
Theorem promotion_covers_candidate {DI : Decimal} {CH : Chrono} {JS : Json} {JD : JsonScalars}
    {JB : JsonBuild} {UT : UuidText} (debug_str : string -> string) (config_id : Z)
    (event_payload : ResearchCandidateShadowPromotionPreview -> bool -> bool -> json)
    (call : ApiCall) (candidate_id : Z) (payload : ResearchCandidateShadowPromotionRequest)
    (reads : PromotionReads) (store store' : CandidateStore) (row : ResearchCandidate)
    (observation : StrategyCandidateObservationResult) :
  st_candidate store = Some row -> trimmed_names row ->
  pq_latest_observation reads = Some observation ->
  al_strategy_config_matches_runner (ob_runner_alignment observation) = false ->
  apply_research_candidate_shadow_promotion_handler debug_str config_id event_payload call
    candidate_id payload reads store = (Ok tt, store') ->
  covers row (st_runner store') = true /\
  rf_enabled (st_runner store') = rf_enabled (st_runner store) /\
  exists row', st_candidate store' = Some row' /\
    rc_status row' = ResearchCandidateStatus.PromotedToShadowConfig.
Proof.
  intros Hrow Htrim Hobs Hm. unfold apply_research_candidate_shadow_promotion_handler, reject.
  do 3 (destruct (negb _); [discriminate|]). rewrite Hrow, Hobs.
  case_bool_decide as Hb; [discriminate|].
  destruct (mismatched_preview _ _ _ _ _ _ _ Hm Hb) as (Hs & Hp & Hc). rewrite Hp, Hc. clear Hb.
  set (persisted := if vec_is_empty _ then _ else _).
  assert (forall mid applied, persisted = Ok (mid, applied) ->
    st_candidate mid = Some row /\ covers row (st_runner mid) = true /\
    rf_enabled (st_runner mid) = rf_enabled (st_runner store)) as Hmid.
  { subst persisted. intros mid applied. destruct (vec_is_empty _) eqn:He.
    - intros [= <- _]. split; [done|]. split; [|done].
      apply no_changes_covers; [done|]. by apply vec_is_empty_iff.
    - destruct (persist_testnet_shadow_runner_config _ _ _ _ _) as [config| |] eqn:Hper;
        [|discriminate..]. intros [= <- _]. split; [done|]. cbn. by eapply proposal_covers. }
  destruct persisted as [[mid applied]| |]; [|discriminate..].
  destruct (Hmid mid applied eq_refl) as (Hcand & Hcov & Hen). clear Hmid.
  destruct Hs as [Hs|Hs]; rewrite Hs; cbn [research_candidate_next_status].
  - rewrite bool_decide_eq_false_2 by done. unfold update_candidate.
    rewrite (update_status_some _ _ _ _ _ _ _ Hcand).
    intros [= <-]. cbn. eauto.
  - rewrite bool_decide_eq_true_2 by done. intros [= <-]. eauto.
Qed.

(** ** Instances *)

Module CandidateSample.
#[local] Existing Instance ExactDecimal.
#[local] Existing Instance PlainChrono.
#[local] Existing Instance TreeJson.
#[local] Existing Instance TreeBuild.
#[local] Existing Instance TreeScalars.
#[local] Existing Instance PlainUuidText.

Definition alignment (matches : bool) : StrategyCandidateRunnerAlignment :=
{|
  al_strategy_config_matches_runner := matches; al_runner_enabled := true;
  al_runner_status := ""; al_runner_timeframe := ""; al_runner_symbols := [];
  al_runner_strategies := []; al_mismatch_reasons := [] |}.
Definition candidate (status : ResearchCandidateStatus.t) : ResearchCandidate :=
{|
  rc_id := 7; rc_experiment_id := None; rc_experiment_run_id := None;
  rc_strategy_id := "momentum_v1"; rc_symbol := "ETHUSDT"; rc_timeframe := "1h";
  rc_config := (TNull : @json TreeJson); rc_score := None; rc_pnl_pct := None;
  rc_max_drawdown_pct := None; rc_trade_count := None; rc_win_rate := None;
  rc_fee_drag := None; rc_status := status; rc_rejection_reason := None; rc_notes := None;
  rc_created_at := 0; rc_updated_at := 0; rc_correlation_id := None |}.
Definition runner : TestnetShadowRunnerConfig :=
{|
  rf_id := 0; rf_enabled := true; rf_interval_seconds := 60;
  rf_strategies := ["breakout_v1"]; rf_symbols := ["BTCUSDT"]; rf_timeframe := "5m";
  rf_max_runs_per_tick := 1;
  rf_stale_feed_policy := TestnetShadowRunnerStaleFeedPolicy.Skip; rf_notes := None;
  rf_updated_by := None; rf_updated_at := 0 |}.
Definition requirements : StrategyCandidateObservationRequirement :=
{|
  oq_candidate_id := 7; oq_strategy_id := ""; oq_symbol := ""; oq_timeframe := "";
  oq_min_observation_hours := 0; oq_min_shadow_runs := 0;
  oq_max_risk_rejection_rate := None; oq_min_would_submit_count := 0;
  oq_max_no_signal_rate := None; oq_require_readiness_ready := false |}.
Definition observation (matches : bool) : StrategyCandidateObservationResult :=
{|
  ob_observation_id := 0; ob_candidate_id := 7; ob_strategy_id := ""; ob_symbol := "";
  ob_timeframe := ""; ob_status := StrategyCandidateObservationStatus.ReadyForReview;
  ob_requirements := requirements; ob_runner_alignment := alignment matches;
  ob_summary := evaluate_strategy_candidate_observation (fun d => d / hours 1)
    requirements 0 (hours 24) 40 5 30 5 0 (Some ExecutionReadinessStatus.Ready) None
    (alignment matches) 0;
  ob_decision := StrategyCandidateObservationDecision.Fail; ob_started_at := 0;
  ob_evaluated_at := 0; ob_last_observed_at := 0; ob_observation_expires_at := None;
  ob_observation_max_age_seconds := None; ob_observation_snapshot_hash := None;
  ob_runner_config_snapshot := None; ob_readiness_snapshot := None; ob_created_by := None;
  ob_correlation_id := None |}.

Definition call (role : UserRole.t) : ApiCall :=
  {| ca_role := Some role; ca_user_id := 1; ca_request_correlation_id := 2; ca_now := 100;
     ca_updated_at := 101; ca_new_id := 3; ca_new_event_id := 4; ca_event_inserted := true |}.
Definition decision (d : ResearchCandidateDecision.t) : ResearchCandidateDecisionRequest :=
{|
  dr_decision := d; dr_reason := None; dr_notes := None;
  dr_acknowledge_runner_mismatch := false; dr_acknowledge_overfit_risk := false;
  dr_correlation_id := None |}.
Definition reads : DecisionReads :=
  {| dq_latest_observation := Ok (Some (observation true)); dq_runner_hash := None;
     dq_walk_forward_evidence := Ok None |}.
Definition promotion : ResearchCandidateShadowPromotionRequest :=
  {| sp_mode := ResearchCandidateShadowPromotionMode.Apply;
     sp_allow_missing_runner_alignment := true;
     sp_confirmation_text := Some "PROMOTE CANDIDATE 7 TO SHADOW"; sp_correlation_id := None |}.
Definition promotion_reads : PromotionReads :=
  {| pq_latest_observation := Some (observation false); pq_runner_hash := None |}.
Definition review : ResearchCandidateReviewRequest :=
{|
  rr_action := ResearchCandidateReviewAction.MarkNeedsMoreObservation; rr_reason := None;
  rr_notes := None; rr_qualification_evaluation_id := None; rr_correlation_id := None |}.

Definition to_json (r : ResearchCandidatePromotionReadiness) : @json TreeJson := TNull.
Definition preview_json (p : ResearchCandidateShadowPromotionPreview) (applied changed : bool)
    : @json TreeJson := TNull.

Definition created : CandidateStore :=
  create_research_candidate (candidate ResearchCandidateStatus.Discovered) None
    ResearchCandidateDecision.Reopen None None (TNull : @json TreeJson) 9 None runner.
Definition reviewed : handled :=
  create_research_candidate_review_handler (call UserRole.Operator) review (fun _ => None) [] created.
Definition accepted : handled :=
  decide_research_candidate_handler to_json (call UserRole.Operator)
    (decision ResearchCandidateDecision.AcceptForShadow) reads reviewed.2.
Definition promoted : handled :=
  apply_research_candidate_shadow_promotion_handler id 5 preview_json (call UserRole.Owner) 7
    promotion promotion_reads accepted.2.

Example candidate_is_promoted :
  reviewed.1 = Ok tt /\ accepted.1 = Ok tt /\ promoted.1 = Ok tt /\
  option_map rc_status (st_candidate promoted.2)
    = Some ResearchCandidateStatus.PromotedToShadowConfig /\
  rf_symbols (st_runner promoted.2) = ["ETHUSDT"] /\
  map ev_decision (st_events promoted.2) =
    [ResearchCandidateDecision.Reopen; ResearchCandidateDecision.Archive;
     ResearchCandidateDecision.AcceptForShadow; ResearchCandidateDecision.PromoteToShadowConfig].
Proof. vm_compute. repeat split. Qed.

(** Two decisions on the fresh candidate, one archiving, one accepting it: both updates run
    before either event is inserted, the first insertion fails. *)
Definition archiving : CandidateWrite :=
  decide_plan to_json (call UserRole.Owner) (decision ResearchCandidateDecision.Archive) reads
    (candidate ResearchCandidateStatus.Discovered) ResearchCandidateStatus.Archived.
Definition accepting : CandidateWrite :=
  decide_plan to_json (call UserRole.Operator) (decision ResearchCandidateDecision.AcceptForShadow)
    reads (candidate ResearchCandidateStatus.Discovered) ResearchCandidateStatus.AcceptedForShadow.

Lemma candidate_history_consistent_witness :
  exists t row, served to_json preview_json t /\ consistent t row /\
    rc_status row = ResearchCandidateStatus.AcceptedForShadow /\
    length (tr_moves t) = 3%nat /\ length (st_events (tr_store t)) = 2%nat /\
    length (tr_lost t) = 1%nat.
Proof.
  pose proof (Created to_json preview_json (candidate ResearchCandidateStatus.Discovered) None
    ResearchCandidateDecision.Reopen None None (TNull : @json TreeJson) 9 runner _ _
    eq_refl eq_refl eq_refl eq_refl) as H0.
  eassert (served to_json preview_json _) as H1.
  { eapply Served; [exact H0|]. eapply (StepUpdate _ _ _ (candidate ResearchCandidateStatus.Discovered)
      archiving); [left; reflexivity|apply PlanDecide; reflexivity|reflexivity|reflexivity]. }
  eassert (served to_json preview_json _) as H2.
  { eapply Served; [exact H1|]. eapply (StepUpdate _ _ _ (candidate ResearchCandidateStatus.Discovered)
      accepting); [right; left; reflexivity|apply PlanDecide; reflexivity|reflexivity|reflexivity]. }
  eassert (served to_json preview_json _) as H3.
  { eapply Served; [exact H2|]. apply (StepLose _ _ _ [] (cw_event archiving) [cw_event accepting]).
    reflexivity. }
  eassert (served to_json preview_json _) as H4.
  { eapply Served; [exact H3|]. apply (StepLog _ _ _ [] (cw_event accepting) []). reflexivity. }
  destruct (proj1 (candidate_history_consistent to_json id 5 preview_json _ H4)) as [row Hc].
  eexists _, row. split; [exact H4|]. split; [exact Hc|].
  pose proof (proj1 (co_row _ _ Hc)) as E. cbn in E. injection E as <-. done.
Defined.

(** The accepted candidate's observation did not pass. *)
Lemma decision_accepts_iff_witness :
  ob_decision (observation true) = StrategyCandidateObservationDecision.Fail /\
  exists store', decide_research_candidate_handler to_json (call UserRole.Operator)
    (decision ResearchCandidateDecision.AcceptForShadow) reads created = (Ok tt, store').
Proof.
  split; [reflexivity|].
  apply (decision_accepts_iff to_json (call UserRole.Operator)
    (decision ResearchCandidateDecision.AcceptForShadow) reads created
    (candidate ResearchCandidateStatus.Discovered)); [reflexivity|reflexivity|].
  split; [reflexivity|]. split; [reflexivity|]. split; [|exact I].
  exists (observation true). split; [reflexivity|]. split; [by intros (? & [=] & _)|].
  split; [reflexivity|]. split; [by left|done].
Defined.

Lemma decision_promotes_without_runner_witness :
  exists store' row',
    decide_research_candidate_handler to_json (call UserRole.Operator)
      (decision ResearchCandidateDecision.PromoteToShadowConfig) reads accepted.2
      = (Ok tt, store') /\
    st_candidate store' = Some row' /\
    rc_status row' = ResearchCandidateStatus.PromotedToShadowConfig /\
    st_runner store' = runner.
Proof.
  eapply (decision_promotes_without_runner to_json (call UserRole.Operator)
    (decision ResearchCandidateDecision.PromoteToShadowConfig) reads accepted.2);
    [reflexivity|reflexivity|reflexivity|reflexivity|discriminate].
Defined.

Lemma concurrent_decisions_lose_update_witness :
  let row := candidate ResearchCandidateStatus.Discovered in
  let archive := decision ResearchCandidateDecision.Archive in
  let accept := decision ResearchCandidateDecision.AcceptForShadow in
  exists row',
    decide_checks archive reads 100 row = Ok ResearchCandidateStatus.Archived /\
    let '(first, between) := decide_write to_json (call UserRole.Owner) archive reads row
                               ResearchCandidateStatus.Archived created in
    let '(second, after) := decide_write to_json (call UserRole.Operator) accept reads row
                              ResearchCandidateStatus.AcceptedForShadow between in
    first = Ok tt /\ second = Ok tt /\ st_candidate after = Some row' /\
    rc_status row' = ResearchCandidateStatus.AcceptedForShadow /\
    log_path None (st_events after) = None.
Proof.
  apply (concurrent_decisions_lose_update to_json (call UserRole.Owner) (call UserRole.Operator)
    (decision ResearchCandidateDecision.Archive) (decision ResearchCandidateDecision.AcceptForShadow)
    reads created (candidate ResearchCandidateStatus.Discovered));
    [reflexivity|reflexivity|reflexivity|reflexivity|vm_compute; reflexivity].
Defined.

Lemma observation_review_logged_as_archive_witness :
  exists store' event row',
    create_research_candidate_review_handler (call UserRole.Operator) review (fun _ => None) []
      created = (Ok tt, store') /\
    st_candidate store' = Some row' /\ rc_status row' = ResearchCandidateStatus.Observing /\
    st_events store' = st_events created ++ [event] /\
    ev_decision event = ResearchCandidateDecision.Archive /\
    ev_next_status event = ResearchCandidateStatus.Observing.
Proof.
  apply (observation_review_logged_as_archive (call UserRole.Operator) review (fun _ => None) []
    created (candidate ResearchCandidateStatus.Discovered)); reflexivity.
Defined.

Lemma promotion_covers_candidate_witness :
  let row := default (candidate ResearchCandidateStatus.Discovered) (st_candidate accepted.2) in
  covers row (st_runner promoted.2) = true /\
  rf_enabled (st_runner promoted.2) = rf_enabled (st_runner accepted.2) /\
  exists row', st_candidate promoted.2 = Some row' /\
    rc_status row' = ResearchCandidateStatus.PromotedToShadowConfig.
Proof.
  eapply (promotion_covers_candidate id 5 preview_json (call UserRole.Owner) 7 promotion
    promotion_reads accepted.2 promoted.2
    (default (candidate ResearchCandidateStatus.Discovered) (st_candidate accepted.2))
    (observation false));
    [vm_compute; reflexivity|split; [|split]; vm_compute; reflexivity|reflexivity|reflexivity|].
  vm_compute. reflexivity.
Defined.
End CandidateSample.
