(* ===== verification/ShadowPnl.v ===== *)
(** * What shadow signals would have earned

    crates/core/src/research.rs, 12664-12800 and 15644-15970; 14672-14674.

    Every shadow run is entered at the open of the first closed candle after its
    signal and left at the close of the candle a fixed number of candles later,
    once per holding window; a hole between the two is reported.  The trades are
    then summed up per holding window. *)

From Stdlib Require Import ZArith QArith Lqa Lia List String Sorted Permutation.
From stdpp Require Import base list strings.
From S2P Require Import Prelude Text Host Types MarketData ResearchTypes Candidate ShadowRunner.

#[local] Open Scope Z_scope.

Section Attribution.
Context {DI : Decimal} {CH : Chrono} {JS : Json}.

Record ResearchShadowPnlAttributionRequest := {
  sq_candidate_id : Z;
  sq_holding_windows : list Z;
  sq_fee_bps : dec;
  sq_slippage_bps : dec;
  sq_extreme_pnl_threshold_pct : dec;
  sq_start_time : option Z;
  sq_end_time : option Z;
  sq_limit : option Z
}.

Record ResearchShadowPnlRunInput := {
  sr_shadow_run_id : Z;
  sr_strategy_id : string;
  sr_symbol : string;
  sr_timeframe : string;
  sr_shadow_created_at : Z;
  sr_signal_time : option Z
}.

Record ResearchShadowPnlTradeHoldingWindowResult := {
  sw_holding_window : Z;
  sw_status : ResearchShadowPnlStatus.t;
  sw_attribution_status : ResearchShadowPnlStatus.t;
  sw_exit_candle_open_time : option Z;
  sw_exit_candle_close_time : option Z;
  sw_exit_price : option dec;
  sw_gross_pnl_pct : option dec;
  sw_fee_bps : dec;
  sw_slippage_bps : dec;
  sw_net_pnl_pct : option dec;
  sw_fee_drag_pct : dec;
  sw_candle_gap_seconds : option Z;
  sw_warning : option string
}.

Record ResearchShadowPnlAttributionTrade := {
  sx_candidate_id : Z;
  sx_shadow_run_id : Z;
  sx_strategy_id : string;
  sx_symbol : string;
  sx_timeframe : string;
  sx_shadow_created_at : Z;
  sx_signal_time : option Z;
  sx_status : ResearchShadowPnlStatus.t;
  sx_attribution_status : ResearchShadowPnlStatus.t;
  sx_entry_candle_open_time : option Z;
  sx_entry_candle_close_time : option Z;
  sx_entry_price : option dec;
  sx_holding_windows : list ResearchShadowPnlTradeHoldingWindowResult
}.

Record ResearchShadowPnlHoldingWindowResult := {
  sh_holding_window : Z;
  sh_trade_count : Z;
  sh_win_rate : dec;
  sh_avg_net_pnl_pct : dec;
  sh_median_net_pnl_pct : dec;
  sh_best_net_pnl_pct : dec;
  sh_worst_net_pnl_pct : dec;
  sh_total_net_pnl_pct : dec;
  sh_fee_drag_pct : dec;
  sh_recommendation : ResearchShadowPnlRecommendation.t
}.

Record ResearchShadowPnlSummary := {
  su_total_attributed_runs : Z;
  su_extreme_pnl_count : Z;
  su_gap_detected_count : Z;
  su_insufficient_forward_data_count : Z;
  su_negative_all_windows : bool;
  su_warnings : list string;
  su_per_holding_window : list ResearchShadowPnlHoldingWindowResult
}.

Record ResearchShadowPnlAttributionResult := {
  sa_candidate_id : Z;
  sa_strategy_id : string;
  sa_symbol : string;
  sa_timeframe : string;
  sa_holding_windows : list Z;
  sa_fee_bps : dec;
  sa_slippage_bps : dec;
  sa_extreme_pnl_threshold_pct : dec;
  sa_start_time : option Z;
  sa_end_time : option Z;
  sa_summary : ResearchShadowPnlSummary;
  sa_trades : list ResearchShadowPnlAttributionTrade;
  sa_latest_shadow_pnl_status : ResearchShadowPnlRecommendation.t;
  sa_best_holding_window : option Z;
  sa_best_avg_net_pnl_pct : option dec;
  sa_computed_at : Z
}.

Definition default_shadow_pnl_holding_windows : list Z := [1; 3; 5; 10].
Definition default_shadow_pnl_extreme_threshold_pct : dec := dnew 5 0.

Definition calculate_percentage_rate (count total : Z) : dec :=
  dround_dp (calculate_observation_rate count total * dint 100)%dec 2.

(** [dedup] of a sorted [Vec<u32>]. *)
Fixpoint dedup_windows (l : list Z) : list Z :=
  match l with
  | [] => []
  | x :: t =>
      match t with
      | y :: _ => if x =? y then dedup_windows t else x :: dedup_windows t
      | [] => [x]
      end
  end.

Definition normalized_holding_windows (self : ResearchShadowPnlAttributionRequest) : list Z :=
  let windows := List.filter (fun value => 0 <? value) (sq_holding_windows self) in
  let windows := match windows with [] => default_shadow_pnl_holding_windows | _ => windows end in
  dedup_windows (sort_by Z.leb windows).

(** [iter().position(..)] *)
Fixpoint position {A} (f : A -> bool) (l : list A) : option nat :=
  match l with
  | [] => None
  | x :: l => if f x then Some O else option_map S (position f l)
  end.

(** [iter().max()] *)
Definition max_of (l : list Z) : option Z :=
  match l with [] => None | x :: l => Some (foldl Z.max x l) end.

(** [iter().max_by(..)]: the last of the greatest elements. *)
Definition max_by {A} (leb : A -> A -> bool) (l : list A) : option A :=
  foldl (fun best x => match best with
                       | Some m => if leb m x then Some x else Some m
                       | None => Some x
                       end) None l.

(** A window without enough candles after the entry. *)
Definition insufficient_window (request : ResearchShadowPnlAttributionRequest) (fee_drag_pct : dec)
    (holding_window : Z) : ResearchShadowPnlTradeHoldingWindowResult := {|
  sw_holding_window := holding_window;
  sw_status := ResearchShadowPnlStatus.InsufficientForwardData;
  sw_attribution_status := ResearchShadowPnlStatus.InsufficientForwardData;
  sw_exit_candle_open_time := None; sw_exit_candle_close_time := None; sw_exit_price := None;
  sw_gross_pnl_pct := None; sw_fee_bps := sq_fee_bps request;
  sw_slippage_bps := sq_slippage_bps request; sw_net_pnl_pct := None;
  sw_fee_drag_pct := fee_drag_pct; sw_candle_gap_seconds := None; sw_warning := None
|}.

(** The longest step, in seconds, between the openings of the candles from
    [entry_index] to [exit_index]. *)
Definition max_gap_seconds (sorted_candles : list Candle) (entry_index exit_index : nat)
    (expected_interval_seconds : Z) : Z :=
  let span := firstn (exit_index + 1 - entry_index) (skipn entry_index sorted_candles) in
  match max_of (map (fun pair => num_seconds (c_open_time pair.2 - c_open_time pair.1))
                  (pairs span)) with
  | Some gap => gap
  | None => expected_interval_seconds
  end.

Definition attributed_window (request : ResearchShadowPnlAttributionRequest) (fee_drag_pct : dec)
    (extreme_pnl_threshold_pct : dec) (expected_interval_seconds : Z) (sorted_candles : list Candle)
    (entry_index : nat) (entry_price : dec) (holding_window : Z)
    : ResearchShadowPnlTradeHoldingWindowResult :=
  let exit_index := (entry_index + Z.to_nat holding_window)%nat in
  match sorted_candles !! exit_index with
  | None => insufficient_window request fee_drag_pct holding_window
  | Some exit =>
      let gap := max_gap_seconds sorted_candles entry_index exit_index expected_interval_seconds in
      let gross_pnl_pct :=
        if (entry_price >? ZERO)%dec
        then (ddiv (c_close exit - entry_price) entry_price * dnew 100 0)%dec else ZERO in
      let net_pnl_pct := (gross_pnl_pct - fee_drag_pct)%dec in
      let has_gap := expected_interval_seconds + 1 <? gap in
      let is_extreme := (dabs net_pnl_pct >? extreme_pnl_threshold_pct)%dec in
      let status :=
        if has_gap then ResearchShadowPnlStatus.GapDetected
        else if is_extreme then ResearchShadowPnlStatus.ExtremePnl
        else ResearchShadowPnlStatus.Attributed in
      {| sw_holding_window := holding_window;
         sw_status := status; sw_attribution_status := status;
         sw_exit_candle_open_time := Some (c_open_time exit);
         sw_exit_candle_close_time := Some (c_close_time exit);
         sw_exit_price := Some (c_close exit);
         sw_gross_pnl_pct := Some gross_pnl_pct;
         sw_fee_bps := sq_fee_bps request; sw_slippage_bps := sq_slippage_bps request;
         sw_net_pnl_pct := Some net_pnl_pct;
         sw_fee_drag_pct := fee_drag_pct;
         sw_candle_gap_seconds := Some gap;
         sw_warning := if is_extreme then Some "Attribution PnL is unusually large; inspect candle continuity and timestamps."
                       else None |}
  end.

Definition window_has (status : ResearchShadowPnlStatus.t)
    (window : ResearchShadowPnlTradeHoldingWindowResult) : bool :=
  bool_decide (sw_status window = status).
Definition has_net (window : ResearchShadowPnlTradeHoldingWindowResult) : bool :=
  match sw_net_pnl_pct window with Some _ => true | None => false end.

(** The status of a trade from those of its windows. *)
Definition trade_status (windows : list ResearchShadowPnlTradeHoldingWindowResult)
    : ResearchShadowPnlStatus.t :=
  if existsb (window_has ResearchShadowPnlStatus.GapDetected) windows then
    ResearchShadowPnlStatus.GapDetected
  else if existsb (window_has ResearchShadowPnlStatus.ExtremePnl) windows then
    ResearchShadowPnlStatus.ExtremePnl
  else if existsb has_net windows then ResearchShadowPnlStatus.Attributed
  else ResearchShadowPnlStatus.InsufficientForwardData.

Definition attribution_time (run : ResearchShadowPnlRunInput) : Z :=
  match sr_signal_time run with Some time => time | None => sr_shadow_created_at run end.

Definition attributed_trade (candidate_id : Z) (run : ResearchShadowPnlRunInput)
    (entry : option Candle) (windows : list ResearchShadowPnlTradeHoldingWindowResult)
    (status : ResearchShadowPnlStatus.t) : ResearchShadowPnlAttributionTrade := {|
  sx_candidate_id := candidate_id; sx_shadow_run_id := sr_shadow_run_id run;
  sx_strategy_id := sr_strategy_id run; sx_symbol := sr_symbol run;
  sx_timeframe := sr_timeframe run; sx_shadow_created_at := sr_shadow_created_at run;
  sx_signal_time := sr_signal_time run;
  sx_status := status; sx_attribution_status := status;
  sx_entry_candle_open_time := option_map c_open_time entry;
  sx_entry_candle_close_time := option_map c_close_time entry;
  sx_entry_price := option_map c_open entry;
  sx_holding_windows := windows
|}.

(** One round of [sorted_runs.iter().map(..)]. *)
Definition attribute_run (candidate_id : Z) (request : ResearchShadowPnlAttributionRequest)
    (fee_drag_pct extreme_pnl_threshold_pct : dec) (expected_interval_seconds : Z)
    (holding_windows : list Z) (sorted_candles : list Candle) (run : ResearchShadowPnlRunInput)
    : ResearchShadowPnlAttributionTrade :=
  match position (fun candle => c_is_closed candle && (attribution_time run <? c_open_time candle))
          sorted_candles with
  | None =>
      attributed_trade candidate_id run None
        (map (insufficient_window request fee_drag_pct) holding_windows)
        ResearchShadowPnlStatus.InsufficientForwardData
  | Some entry_index =>
      match sorted_candles !! entry_index with
      | None => attributed_trade candidate_id run None [] ResearchShadowPnlStatus.InsufficientForwardData
      | Some entry =>
          let windows := map (attributed_window request fee_drag_pct extreme_pnl_threshold_pct
            expected_interval_seconds sorted_candles entry_index (c_open entry)) holding_windows in
          attributed_trade candidate_id run (Some entry) windows (trade_status windows)
      end
  end.

(** [median_decimal] of a sorted slice. *)
Definition median_decimal (values : list dec) : dec :=
  let mid := (length values / 2)%nat in
  match values with
  | [] => ZERO
  | _ =>
      if Nat.odd (length values) then nth mid values ZERO
      else ddiv (nth (mid - 1) values ZERO + nth mid values ZERO)%dec (dnew 2 0)
  end.

(** The net results that count for a holding window, in increasing order. *)
Definition window_values (trades : list ResearchShadowPnlAttributionTrade) (holding_window : Z)
    : list dec :=
  sort_by dleb (omap sw_net_pnl_pct (List.filter
    (fun window => (sw_holding_window window =? holding_window) &&
                   negb (window_has ResearchShadowPnlStatus.GapDetected window))
    (flat_map sx_holding_windows trades))).

Definition window_summary (fee_drag_pct : dec) (trades : list ResearchShadowPnlAttributionTrade)
    (holding_window : Z) : ResearchShadowPnlHoldingWindowResult :=
  let values := window_values trades holding_window in
  let trade_count := Z.of_nat (length values) in
  let total_net_pnl_pct := dsum values in
  let win_count := Z.of_nat (length (List.filter (fun value => value >? ZERO)%dec values)) in
  let avg_net_pnl_pct :=
    if 0 <? trade_count then ddiv total_net_pnl_pct (dint trade_count) else ZERO in
  let win_rate := calculate_percentage_rate win_count trade_count in
  {| sh_holding_window := holding_window;
     sh_trade_count := trade_count;
     sh_win_rate := win_rate;
     sh_avg_net_pnl_pct := avg_net_pnl_pct;
     sh_median_net_pnl_pct := median_decimal values;
     sh_best_net_pnl_pct := List.last values ZERO;
     sh_worst_net_pnl_pct := List.hd ZERO values;
     sh_total_net_pnl_pct := total_net_pnl_pct;
     sh_fee_drag_pct := (fee_drag_pct * dint trade_count)%dec;
     sh_recommendation :=
       if trade_count <? 3 then ResearchShadowPnlRecommendation.InsufficientData
       else if (avg_net_pnl_pct <? ZERO)%dec && (total_net_pnl_pct <? ZERO)%dec then
         ResearchShadowPnlRecommendation.Negative
       else if (avg_net_pnl_pct >? ZERO)%dec && (win_rate >=? dnew 50 0)%dec then
         ResearchShadowPnlRecommendation.Promising
       else ResearchShadowPnlRecommendation.Weak |}.

Definition recommends (recommendation : ResearchShadowPnlRecommendation.t)
    (window : ResearchShadowPnlHoldingWindowResult) : bool :=
  bool_decide (sh_recommendation window = recommendation).

(** [.filter(..).count() as i64] *)
Definition count_of {A} (f : A -> bool) (l : list A) : Z := Z.of_nat (length (List.filter f l)).

Definition calculate_research_shadow_pnl_attribution (candidate : ResearchCandidate)
    (request : ResearchShadowPnlAttributionRequest) (runs : list ResearchShadowPnlRunInput)
    (candles : list Candle) (computed_at : Z) : ResearchShadowPnlAttributionResult :=
  let holding_windows := normalized_holding_windows request in
  let fee_drag_pct := ddiv (sq_fee_bps request + sq_slippage_bps request)%dec (dnew 100 0) in
  let extreme_pnl_threshold_pct :=
    if (sq_extreme_pnl_threshold_pct request >? ZERO)%dec
    then sq_extreme_pnl_threshold_pct request else default_shadow_pnl_extreme_threshold_pct in
  let interval := match from_str (A := CandleInterval.t) (rc_timeframe candidate) with
                  | Ok interval => interval | _ => CandleInterval.OneMinute end in
  let expected_interval_seconds := num_seconds (duration interval) in
  let sorted_candles := sort_by_key c_open_time candles in
  let trades := map (attribute_run (rc_id candidate) request fee_drag_pct extreme_pnl_threshold_pct
    expected_interval_seconds holding_windows sorted_candles)
    (sort_by_key sr_shadow_created_at runs) in
  let per_holding_window := map (window_summary fee_drag_pct trades) holding_windows in
  let windows := flat_map sx_holding_windows trades in
  let total_attributed_runs := count_of (fun trade => existsb
    (fun window => has_net window && negb (window_has ResearchShadowPnlStatus.GapDetected window))
    (sx_holding_windows trade)) trades in
  let insufficient_forward_data_count :=
    count_of (window_has ResearchShadowPnlStatus.InsufficientForwardData) windows in
  let gap_detected_count := count_of (window_has ResearchShadowPnlStatus.GapDetected) windows in
  let extreme_pnl_count := count_of (fun net => dabs net >? extreme_pnl_threshold_pct)%dec
    (omap sw_net_pnl_pct windows) in
  let negative_all_windows :=
    negb (vec_is_empty per_holding_window) &&
    forallb (fun window => recommends ResearchShadowPnlRecommendation.Negative window ||
                           recommends ResearchShadowPnlRecommendation.InsufficientData window)
      per_holding_window &&
    existsb (recommends ResearchShadowPnlRecommendation.Negative) per_holding_window in
  let best_window := max_by (fun left right => sh_avg_net_pnl_pct left <=? sh_avg_net_pnl_pct right)%dec
    (List.filter (fun window => 0 <? sh_trade_count window) per_holding_window) in
  {| sa_candidate_id := rc_id candidate;
     sa_strategy_id := rc_strategy_id candidate;
     sa_symbol := rc_symbol candidate;
     sa_timeframe := rc_timeframe candidate;
     sa_holding_windows := holding_windows;
     sa_fee_bps := sq_fee_bps request;
     sa_slippage_bps := sq_slippage_bps request;
     sa_extreme_pnl_threshold_pct := extreme_pnl_threshold_pct;
     sa_start_time := sq_start_time request;
     sa_end_time := sq_end_time request;
     sa_summary :=
       {| su_total_attributed_runs := total_attributed_runs;
          su_extreme_pnl_count := extreme_pnl_count;
          su_gap_detected_count := gap_detected_count;
          su_insufficient_forward_data_count := insufficient_forward_data_count;
          su_negative_all_windows := negative_all_windows;
          su_warnings :=
            push_if (0 <? extreme_pnl_count)
              "Attribution PnL is unusually large; inspect candle continuity and timestamps." ++
            push_if (0 <? gap_detected_count)
              "Attribution crossed one or more candle data gaps.";
          su_per_holding_window := per_holding_window |};
     sa_trades := trades;
     sa_latest_shadow_pnl_status :=
       if existsb (recommends ResearchShadowPnlRecommendation.Promising) per_holding_window then
         ResearchShadowPnlRecommendation.Promising
       else if negative_all_windows then ResearchShadowPnlRecommendation.Negative
       else if total_attributed_runs =? 0 then ResearchShadowPnlRecommendation.InsufficientData
       else ResearchShadowPnlRecommendation.Weak;
     sa_best_holding_window := option_map sh_holding_window best_window;
     sa_best_avg_net_pnl_pct := option_map sh_avg_net_pnl_pct best_window;
     sa_computed_at := computed_at |}.
End Attribution.

(** ** Positions and maxima *)

Lemma position_some {A} (f : A -> bool) l i :
  position f l = Some i <->
  exists x, l !! i = Some x /\ f x = true /\ forall j y, (j < i)%nat -> l !! j = Some y -> f y = false.
Proof.
  revert i; induction l as [|a l IH]; intros i; cbn [position].
  { split; [done|by intros (? & ? & _)]. }
  destruct (f a) eqn:Ha.
  - split.
    + intros [= <-]. exists a. split; [done|]. split; [done|]. lia.
    + intros (x & Hx & Hfx & Hlt). destruct i as [|i]; [done|].
      specialize (Hlt 0%nat a ltac:(lia) eq_refl). congruence.
  - destruct i as [|i]; cbn.
    + split; [by destruct (position f l)|]. intros (x & [= <-] & ? & _). congruence.
    + transitivity (position f l = Some i); [destruct (position f l); cbn; split; congruence|].
      rewrite IH. split; intros (x & Hx & Hfx & Hlt); exists x; (split; [done|]); (split; [done|]).
      * intros [|j] y Hj; cbn; [by intros [= <-]|]. apply Hlt. lia.
      * intros j y Hj. apply (Hlt (S j)). lia.
Qed.

Lemma position_none {A} (f : A -> bool) l :
  position f l = None <-> forall x, In x l -> f x = false.
Proof.
  induction l as [|a l IH]; cbn [position In]; [split; [by intros _ x []|done]|].
  destruct (f a) eqn:Ha.
  { split; [done|]. intros H. specialize (H a (or_introl eq_refl)). congruence. }
  transitivity (position f l = None); [by destruct (position f l)|].
  rewrite IH. split; [by intros H x [<-|Hx]; auto|by auto].
Qed.

Lemma foldl_max_spec l x : let m := foldl Z.max x l in
  (m = x \/ In m l) /\ x <= m /\ forall y, In y l -> y <= m.
Proof.
  cbv zeta. revert x; induction l as [|a l IH]; intros x; cbn [foldl In]; [split; [by left|]; split; [lia|by intros y []]|].
  destruct (IH (Z.max x a)) as (H1 & H2 & H3). split; [|split; [lia|]].
  - destruct H1 as [->|]; [|by auto]. destruct (Z.max_spec x a) as [[_ ->]|[_ ->]]; auto.
  - intros y [<-|Hy]; [lia|auto].
Qed.

(** The maximum exceeds a bound exactly when some element does. *)
Lemma max_of_exceeds l d bound : d <= bound ->
  bound < match max_of l with Some m => m | None => d end <-> exists x, In x l /\ bound < x.
Proof.
  intros Hd. destruct l as [|a l]; cbn [max_of]; [split; [lia|by intros (? & [] & _)]|].
  destruct (foldl_max_spec l a) as (H1 & H2 & H3). split.
  - intros Hlt. exists (foldl Z.max a l). split; [|done]. cbn. destruct H1; auto.
  - intros (x & [<-|Hx] & Hlt); [lia|]. specialize (H3 x Hx). lia.
Qed.

(** ** Windows *)

Lemma dedup_windows_in x l : In x (dedup_windows l) <-> In x l.
Proof.
  induction l as [|a [|b l] IH]; [done..|]. cbn [dedup_windows] in *.
  destruct (Z.eqb_spec a b) as [->|Hab]; [|cbn [In] in *]; rewrite IH; cbn [In]; intuition.
Qed.

Lemma dedup_windows_sorted l : StronglySorted Z.le l -> StronglySorted Z.lt (dedup_windows l).
Proof.
  induction 1 as [|a l Hs IH Ha]; [constructor|].
  destruct l as [|b l]; [repeat constructor|].
  change (StronglySorted Z.lt (if a =? b then dedup_windows (b :: l)
                               else a :: dedup_windows (b :: l))).
  destruct (Z.eqb_spec a b) as [->|Hab]; [done|]. constructor; [done|].
  apply Forall_forall. intros x Hx%list_elem_of_In. rewrite dedup_windows_in in Hx.
  rewrite Forall_forall in Ha. inversion Hs as [|? ? _ Hb]; subst. rewrite Forall_forall in Hb.
  assert (a <= b) by (apply Ha; by left).
  destruct Hx as [<-|Hx]; [lia|]. apply list_elem_of_In, Hb in Hx. lia.
Qed.

Section Windows.
Context {DI : Decimal}.

Lemma normalized_windows_spec request :
  let windows := normalized_holding_windows request in
  StronglySorted Z.lt windows /\ windows <> [] /\ forall w, In w windows -> 0 < w.
Proof.
  cbv zeta. unfold normalized_holding_windows.
  set (ws := match List.filter _ _ with [] => _ | _ => _ end).
  assert (ws <> [] /\ forall w, In w ws -> 0 < w) as [Hne Hpos].
  { subst ws. destruct (List.filter _ _) as [|a l] eqn:E.
    - split; [done|]. cbn. intuition lia.
    - split; [done|]. intros w Hw. rewrite <- E in Hw. apply filter_In in Hw as [_ Hw]. lia. }
  split; [|split].
  - apply dedup_windows_sorted.
    pose proof (sort_by_sorted Z.leb) as Hs. specialize (Hs ltac:(intros; lia) ltac:(intros; lia) ws).
    eapply strongly_sorted_impl; [|exact Hs]. cbn. intros; lia.
  - destruct ws as [|a l]; [done|]. intros H.
    assert (In a (dedup_windows (sort_by Z.leb (a :: l)))) as Hin
      by (rewrite dedup_windows_in, in_sort_by; by left). by rewrite H in Hin.
  - intros w Hw. apply Hpos. by rewrite dedup_windows_in, in_sort_by in Hw.
Qed.
End Windows.

Lemma pairs_lookup {A} (l : list A) a b :
  In (a, b) (pairs l) <-> exists i, l !! i = Some a /\ l !! S i = Some b.
Proof.
  destruct l as [|x l]; [by split; [intros []|intros (? & ? & _)]|].
  revert x; induction l as [|y l IH]; intros x.
  { cbn. split; [done|]. by intros ([|i] & _ & H). }
  rewrite pairs_cons. cbn [In]. rewrite IH. split.
  - intros [[= <- <-]|(i & Ha & Hb)]; [by exists 0%nat|by exists (S i)].
  - intros ([|i] & Ha & Hb); [left; cbn in Ha, Hb; congruence|right; by exists i].
Qed.

Lemma lookup_span {A} (l : list A) lo hi i :
  firstn (hi + 1 - lo) (skipn lo l) !! i = (if (i <=? hi - lo)%nat && (lo <=? hi)%nat then l !! (lo + i)%nat else None).
Proof.
  destruct (Nat.leb_spec lo hi) as [Hlo|Hlo]; [rewrite andb_true_r|rewrite andb_false_r].
  - destruct (Nat.leb_spec i (hi - lo)).
    + rewrite lookup_take_lt by lia. by rewrite lookup_drop.
    + by rewrite lookup_take_ge by lia.
  - by rewrite lookup_take_ge by lia.
Qed.

(** ** What a trade says of its run *)

Section Trades.
Context {DI : Decimal} {CH : Chrono} {JS : Json}.

(** Two candles in a row of the span open more than one second too far apart. *)
Definition hole_between (expected_interval_seconds : Z) (candles : list Candle) (lo hi : nat) : Prop :=
  exists i before after, (lo <= i < hi)%nat /\
    candles !! i = Some before /\ candles !! S i = Some after /\
    expected_interval_seconds + 1 < num_seconds (c_open_time after - c_open_time before).

Lemma max_gap_spec candles lo hi expected : (lo <= hi)%nat ->
  expected + 1 < max_gap_seconds candles lo hi expected <-> hole_between expected candles lo hi.
Proof.
  intros Hle. unfold max_gap_seconds. rewrite (max_of_exceeds _ expected) by lia. unfold hole_between.
  split.
  - intros (gap & Hin & Hlt). apply in_map_iff in Hin as ([a b] & <- & Hin).
    apply pairs_lookup in Hin as (i & Ha & Hb). rewrite lookup_span in Ha, Hb.
    destruct (Nat.leb_spec lo hi); [|lia]. rewrite andb_true_r in Ha, Hb.
    destruct (Nat.leb_spec (S i) (hi - lo)); [|done]. destruct (Nat.leb_spec i (hi - lo)); [|lia].
    exists (lo + i)%nat, a, b. rewrite <- Nat.add_succ_r. repeat split; auto; lia.
  - intros (i & a & b & Hi & Ha & Hb & Hlt).
    exists (num_seconds (c_open_time b - c_open_time a)). split; [|done].
    apply in_map_iff. exists (a, b). split; [done|]. apply pairs_lookup. exists (i - lo)%nat.
    rewrite !lookup_span. destruct (Nat.leb_spec lo hi); [|lia].
    destruct (Nat.leb_spec (i - lo) (hi - lo)), (Nat.leb_spec (S (i - lo)) (hi - lo)); try lia.
    cbn [andb]. by replace (lo + (i - lo))%nat with i by lia;
      replace (lo + S (i - lo))%nat with (S i) by lia.
Qed.

(** A window whose exit lies beyond the candles. *)
Definition unattributed (w : ResearchShadowPnlTradeHoldingWindowResult) : Prop :=
  sw_status w = ResearchShadowPnlStatus.InsufficientForwardData /\
  sw_exit_price w = None /\ sw_net_pnl_pct w = None.

(** What a window of a trade entered at candle [lo] must hold. *)
Definition window_follows (fee_drag_pct threshold : dec) (expected : Z) (candles : list Candle)
    (lo : nat) (entry : Candle) (w : ResearchShadowPnlTradeHoldingWindowResult) : Prop :=
  let hi := (lo + Z.to_nat (sw_holding_window w))%nat in
  match candles !! hi with
  | None => unattributed w
  | Some exit =>
      let gross := if (c_open entry >? ZERO)%dec
        then (ddiv (c_close exit - c_open entry) (c_open entry) * dnew 100 0)%dec else ZERO in
      sw_exit_price w = Some (c_close exit) /\
      sw_exit_candle_open_time w = Some (c_open_time exit) /\
      sw_net_pnl_pct w = Some (gross - fee_drag_pct)%dec /\
      (sw_status w = ResearchShadowPnlStatus.GapDetected <-> hole_between expected candles lo hi) /\
      (sw_status w = ResearchShadowPnlStatus.ExtremePnl <->
       ~ hole_between expected candles lo hi /\
       (dabs (gross - fee_drag_pct) >? threshold)%dec = true) /\
      (sw_warning w <> None <-> (dabs (gross - fee_drag_pct) >? threshold)%dec = true)
  end.

(** The candle a run is entered at: the first closed one that opens after the
    signal. *)
Definition enters_at (run : ResearchShadowPnlRunInput) (candles : list Candle) (lo : nat)
    (entry : Candle) : Prop :=
  candles !! lo = Some entry /\ c_is_closed entry = true /\
  attribution_time run < c_open_time entry /\
  forall i c, (i < lo)%nat -> candles !! i = Some c ->
    c_is_closed c = true -> c_open_time c <= attribution_time run.

Definition trade_follows (fee_drag_pct threshold : dec) (expected : Z) (holding_windows : list Z)
    (candles : list Candle) (run : ResearchShadowPnlRunInput)
    (trade : ResearchShadowPnlAttributionTrade) : Prop :=
  sx_shadow_run_id trade = sr_shadow_run_id run /\
  map sw_holding_window (sx_holding_windows trade) = holding_windows /\
  ((exists lo entry, enters_at run candles lo entry /\
      sx_entry_price trade = Some (c_open entry) /\
      sx_entry_candle_open_time trade = Some (c_open_time entry) /\
      Forall (window_follows fee_drag_pct threshold expected candles lo entry)
        (sx_holding_windows trade)) \/
   ((forall c, In c candles -> c_is_closed c = true -> c_open_time c <= attribution_time run) /\
    sx_entry_price trade = None /\ sx_status trade = ResearchShadowPnlStatus.InsufficientForwardData /\
    Forall unattributed (sx_holding_windows trade))).

Lemma attributed_window_follows request fee_drag_pct threshold expected candles lo entry w :
  window_follows fee_drag_pct threshold expected candles lo entry
    (attributed_window request fee_drag_pct threshold expected candles lo (c_open entry) w).
Proof.
  unfold window_follows, attributed_window.
  destruct (candles !! (lo + Z.to_nat w)%nat) as [exit|] eqn:Hexit.
  2:{ cbn. by rewrite Hexit. }
  cbn [sw_holding_window]. rewrite Hexit. cbn.
  pose proof (max_gap_spec candles lo (lo + Z.to_nat w) expected ltac:(lia)) as Hgap.
  set (net := (_ - fee_drag_pct)%dec). rewrite <- Hgap.
  destruct (Z.ltb_spec (expected + 1)
    (max_gap_seconds candles lo (lo + Z.to_nat w) expected)) as [Hlt|Hlt],
    (dabs net >? threshold)%dec eqn:Hx; repeat split; try done; try lia; intros [? ?]; try done; lia.
Qed.

Lemma attributed_windows request fee_drag_pct threshold expected candles lo price windows :
  map sw_holding_window
    (map (attributed_window request fee_drag_pct threshold expected candles lo price) windows) = windows.
Proof.
  rewrite map_map. rewrite <- (map_id windows) at 2. apply map_ext. intros w.
  unfold attributed_window. by destruct (candles !! (lo + Z.to_nat w)%nat).
Qed.

Lemma attribute_run_follows candidate_id request fee_drag_pct threshold expected windows candles run :
  trade_follows fee_drag_pct threshold expected windows candles run
    (attribute_run candidate_id request fee_drag_pct threshold expected windows candles run).
Proof.
  unfold trade_follows, attribute_run.
  destruct (position _ candles) as [lo|] eqn:Hpos.
  - apply position_some in Hpos as (entry & Hlo & Hentry & Hbefore). rewrite Hlo.
    apply andb_true_iff in Hentry as [Hclosed Hafter]. apply Z.ltb_lt in Hafter.
    split; [done|]. split.
    { apply attributed_windows. }
    left. exists lo, entry. split; [|split; [done|split; [done|]]].
    + repeat split; auto. intros i c Hi Hc Hcl. specialize (Hbefore i c Hi Hc).
      rewrite Hcl in Hbefore. cbn in Hbefore. lia.
    + cbn. apply Forall_forall. intros w Hw. apply list_elem_of_In, in_map_iff in Hw as (h & <- & _).
      apply attributed_window_follows.
  - split; [done|]. split.
    { cbn. rewrite map_map. rewrite <- (map_id windows) at 2. by apply map_ext. }
    right. split; [|split; [done|split; [done|]]].
    + intros c Hc Hcl. pose proof (proj1 (position_none _ _) Hpos c Hc) as H. cbn in H.
      rewrite Hcl in H. cbn in H. lia.
    + cbn. apply Forall_forall. intros w Hw. apply list_elem_of_In, in_map_iff in Hw as (h & <- & _).
      done.
Qed.

Definition fee_drag (request : ResearchShadowPnlAttributionRequest) : dec :=
  ddiv (sq_fee_bps request + sq_slippage_bps request)%dec (dnew 100 0).

(** C26.  C. Every shadow run, oldest first, is attributed to exactly one trade: it is
    entered at the open of the first closed candle that opens strictly after the
    signal and left, for each holding window [w], at the close of the [w]-th
    candle after it; the net result is the price change less fees and slippage,
    whatever lies between is reported as a gap exactly when two neighbouring
    candles of the span are more than an interval and a second apart, and as
    extreme exactly when the result exceeds the threshold; where the candles end
    too early nothing is attributed. *)
Theorem shadow_trades_follow_signals candidate request runs candles computed_at :
  let result := calculate_research_shadow_pnl_attribution candidate request runs candles computed_at in
  let interval := match from_str (A := CandleInterval.t) (rc_timeframe candidate) with
                  | Ok interval => interval | _ => CandleInterval.OneMinute end in
  Forall2 (trade_follows (fee_drag request) (sa_extreme_pnl_threshold_pct result)
             (num_seconds (duration interval)) (sa_holding_windows result)
             (sort_by_key c_open_time candles))
    (sort_by_key sr_shadow_created_at runs) (sa_trades result).
Proof.
  cbv zeta. unfold calculate_research_shadow_pnl_attribution, fee_drag. cbn.
  induction (sort_by_key sr_shadow_created_at runs) as [|run l IH]; cbn; constructor; [|done].
  apply attribute_run_follows.
Qed.

(** ** The totals *)

Lemma count_of_nonneg {A} (f : A -> bool) l : 0 <= count_of f l.
Proof. unfold count_of. lia. Qed.

Lemma count_of_cons {A} (f : A -> bool) x l :
  count_of f (x :: l) = (if f x then 1 else 0) + count_of f l.
Proof. unfold count_of. cbn. destruct (f x); cbn [length]; lia. Qed.

Lemma count_of_le_length {A} (f : A -> bool) l : count_of f l <= Z.of_nat (length l).
Proof. induction l as [|x l IH]; [done|]. rewrite count_of_cons. cbn [length]. destruct (f x); lia. Qed.

(** The windows that count toward a holding window's statistics. *)
Definition counted (window : ResearchShadowPnlTradeHoldingWindowResult) : bool :=
  has_net window && negb (window_has ResearchShadowPnlStatus.GapDetected window).

Definition window_exclusive (w : ResearchShadowPnlTradeHoldingWindowResult) : Prop :=
  has_net w = negb (window_has ResearchShadowPnlStatus.InsufficientForwardData w).

Lemma attribute_run_exclusive candidate_id request fee_drag_pct threshold expected windows candles run :
  Forall window_exclusive (sx_holding_windows
    (attribute_run candidate_id request fee_drag_pct threshold expected windows candles run)).
Proof.
  unfold attribute_run. destruct (position _ _); [destruct (candles !! _)|]; cbn; try constructor;
    apply Forall_forall; intros w Hw; apply list_elem_of_In, in_map_iff in Hw as (h & <- & _).
  - unfold attributed_window. destruct (candles !! _); [|done].
    unfold window_exclusive, has_net, window_has. cbn.
    by destruct (_ <? _)%Z; [|destruct (_ >? _)%dec].
  - done.
Qed.

Lemma counts_partition l : Forall window_exclusive l ->
  Z.of_nat (length l) = count_of counted l +
    count_of (window_has ResearchShadowPnlStatus.GapDetected) l +
    count_of (window_has ResearchShadowPnlStatus.InsufficientForwardData) l.
Proof.
  induction 1 as [|w l Hw _ IH]; [done|].
  rewrite !count_of_cons. cbn [length]. rewrite Nat2Z.inj_succ, IH.
  set (a := count_of _ l). set (b := count_of _ l). set (c := count_of _ l).
  unfold counted, window_exclusive, window_has in *. rewrite Hw.
  clearbody a b c. destruct (sw_status w); vm_compute bool_decide; cbn; lia.
Qed.

Lemma length_flat_map_const {A B} (f : A -> list B) n l :
  (forall x, In x l -> length (f x) = n) -> length (flat_map f l) = (length l * n)%nat.
Proof.
  induction l as [|x l IH]; intros H; [done|]. cbn. rewrite length_app, (H x) by (by left).
  rewrite IH; [done|]. intros; apply H; by right.
Qed.

Lemma window_values_length trades w :
  Z.of_nat (length (window_values trades w)) =
  count_of (fun x => (sw_holding_window x =? w) && counted x) (flat_map sx_holding_windows trades).
Proof.
  unfold window_values. rewrite sort_by_length.
  induction (flat_map sx_holding_windows trades) as [|x l IH]; [done|].
  rewrite count_of_cons. cbn [List.filter]. unfold counted, has_net in *.
  destruct (sw_holding_window x =? w); cbn [andb]; [|lia].
  destruct (window_has ResearchShadowPnlStatus.GapDetected x); cbn [negb].
  { rewrite andb_false_r. lia. }
  rewrite andb_true_r. cbn. destruct (sw_net_pnl_pct x); cbn [length]; lia.
Qed.

Lemma counts_by_window ws l : NoDup ws ->
  (forall x, In x l -> In (sw_holding_window x) ws) ->
  Z.of_nat (length (List.filter counted l)) =
  foldr (fun w n => count_of (fun x => (sw_holding_window x =? w) && counted x) l + n) 0 ws.
Proof.
  intros Hnd. induction l as [|x l IH]; intros Hin.
  { clear. by induction ws. }
  change (count_of counted (x :: l) = foldr (fun w n =>
    count_of (fun x0 => (sw_holding_window x0 =? w) && counted x0) (x :: l) + n) 0 ws).
  rewrite count_of_cons. unfold count_of at 1. rewrite IH by (intros; apply Hin; by right).
  assert (Hx := Hin x (or_introl eq_refl)). clear IH Hin.
  assert (forall ws', NoDup ws' -> foldr (fun w n =>
      count_of (fun x0 => (sw_holding_window x0 =? w) && counted x0) (x :: l) + n) 0 ws' =
      foldr (fun w n => count_of (fun x0 => (sw_holding_window x0 =? w) && counted x0) l + n) 0 ws' +
      (if bool_decide (sw_holding_window x ∈ ws') && counted x then 1 else 0)) as H.
  { induction 1 as [|w ws' Hw _ IH]; [done|]. cbn [foldr]. rewrite IH, count_of_cons.
    destruct (Z.eqb_spec (sw_holding_window x) w) as [<-|Hne].
    - rewrite (bool_decide_eq_false_2 _ Hw), bool_decide_eq_true_2 by (by left).
      cbn [andb]. destruct (counted x); lia.
    - cbn [andb]. replace (bool_decide (sw_holding_window x ∈ w :: ws'))
        with (bool_decide (sw_holding_window x ∈ ws')); [lia|].
      apply bool_decide_ext. rewrite elem_of_cons. tauto. }
  rewrite (H ws Hnd), bool_decide_eq_true_2 by (by apply list_elem_of_In). cbn [andb]. lia.
Qed.

Lemma count_of_zero {A} (f : A -> bool) l : count_of f l = 0 <-> forall x, In x l -> f x = false.
Proof.
  induction l as [|x l IH]; [split; [by intros _ x []|done]|].
  rewrite count_of_cons. pose proof (count_of_nonneg f l) as Hn. destruct (f x) eqn:E.
  - split; [lia|]. intros H. specialize (H x (or_introl eq_refl)). congruence.
  - cbn. rewrite IH. split; [by intros H y [<-|Hy]; auto|by auto].
Qed.

Lemma max_by_none {A} (leb : A -> A -> bool) l : max_by leb l = None <-> l = [].
Proof.
  unfold max_by. assert (forall l m, foldl (fun best x => match best with
      | Some m => if leb m x then Some x else Some m | None => Some x end) (Some m) l <> None) as H.
  { clear l. induction l as [|x l IH]; intros m; cbn; [done|]. destruct (leb m x); apply IH. }
  destruct l as [|x l]; [done|]. cbn. split; [by intros ?%H|done].
Qed.

Lemma filter_nil_count {A} (f : A -> bool) l : List.filter f l = [] <-> count_of f l = 0.
Proof. unfold count_of. destruct (List.filter f l); cbn [length]; [done|]. split; [done|lia]. Qed.

(** A holding window without counted results is judged INSUFFICIENT_DATA. *)
Lemma empty_window_insufficient fee_drag_pct trades w :
  sh_trade_count (window_summary fee_drag_pct trades w) = 0 ->
  sh_recommendation (window_summary fee_drag_pct trades w) =
    ResearchShadowPnlRecommendation.InsufficientData.
Proof. cbn. by intros ->. Qed.

Lemma totals_by_window fee_drag_pct ws trades : NoDup ws ->
  (forall t, In t trades -> map sw_holding_window (sx_holding_windows t) = ws) ->
  foldr (fun window n => sh_trade_count window + n) 0 (map (window_summary fee_drag_pct trades) ws) =
  count_of counted (flat_map sx_holding_windows trades).
Proof.
  intros Hnd Hw. unfold count_of. rewrite (counts_by_window ws) by
    (done || (intros x (t & Ht & Hx)%in_flat_map; rewrite <- (Hw t Ht); by apply in_map)).
  clear Hnd Hw. revert ws; induction ws as [|w ws IH]; [done|]. cbn [map foldr]. rewrite IH. f_equal.
  cbn. apply window_values_length.
Qed.

Lemma exclusive_windows trades :
  (forall t, In t trades -> Forall window_exclusive (sx_holding_windows t)) ->
  Forall window_exclusive (flat_map sx_holding_windows trades).
Proof.
  intros H. apply Forall_forall. intros x Hx. apply list_elem_of_In, in_flat_map in Hx as (t & Ht & Hx).
  specialize (H t Ht). rewrite Forall_forall in H. apply H. by apply list_elem_of_In.
Qed.

Lemma attributed_trades candidate_id request fee_drag_pct threshold expected ws candles runs t :
  In t (map (attribute_run candidate_id request fee_drag_pct threshold expected ws candles) runs) ->
  map sw_holding_window (sx_holding_windows t) = ws /\ Forall window_exclusive (sx_holding_windows t).
Proof.
  intros (run & <- & _)%in_map_iff. split; [|apply attribute_run_exclusive].
  by destruct (attribute_run_follows candidate_id request fee_drag_pct threshold expected ws candles
    run) as (_ & ? & _).
Qed.

Section Totals.
Context (fee_drag_pct : dec) (ws : list Z) (trades : list ResearchShadowPnlAttributionTrade).
Hypothesis distinct : NoDup ws.
Hypothesis covered : forall t, In t trades -> map sw_holding_window (sx_holding_windows t) = ws.

Definition none_counted : Prop :=
  forall w, In w ws -> sh_trade_count (window_summary fee_drag_pct trades w) = 0.

Lemma none_counted_iff : none_counted <-> count_of counted (flat_map sx_holding_windows trades) = 0.
Proof using distinct covered.
  rewrite <- (totals_by_window fee_drag_pct ws trades distinct covered). unfold none_counted.
  assert (forall w, 0 <= sh_trade_count (window_summary fee_drag_pct trades w)) as Hn by (cbn; lia).
  clear distinct covered. induction ws as [|w l IH]; [by split; [|by intros _ w []]|].
  cbn [map foldr]. assert (0 <= foldr (fun window n => sh_trade_count window + n) 0
    (map (window_summary fee_drag_pct trades) l)) as Hl.
  { clear IH. induction l as [|v l IH]; [done|]. cbn [map foldr]. specialize (Hn v). lia. }
  pose proof (Hn w). split.
  - intros H'. rewrite (H' w) by (by left). apply IH. intros v Hv. apply H'. by right.
  - intros H' v [<-|Hv]; [lia|]. apply IH; [lia|done].
Qed.

Lemma attributed_none_iff :
  count_of (fun trade => existsb counted (sx_holding_windows trade)) trades = 0 <-> none_counted.
Proof using distinct covered.
  rewrite none_counted_iff, !count_of_zero. split.
  - intros H x Hx. apply in_flat_map in Hx as (t & Ht & Hx). specialize (H t Ht).
    destruct (counted x) eqn:E; [|done]. rewrite <- H. symmetry. apply existsb_exists. by exists x.
  - intros H t Ht. apply not_true_iff_false. intros (x & Hx & E)%existsb_exists.
    rewrite H in E; [done|]. apply in_flat_map. by exists t.
Qed.

Lemma no_best_iff leb :
  max_by leb (List.filter (fun window => 0 <? sh_trade_count window)
    (map (window_summary fee_drag_pct trades) ws)) = None <-> none_counted.
Proof using.
  rewrite max_by_none, filter_nil_count, count_of_zero. unfold none_counted. split.
  - intros H w Hw. specialize (H _ (in_map (window_summary fee_drag_pct trades) _ _ Hw)).
    apply Z.ltb_ge in H. revert H. cbn. lia.
  - intros H x (w & <- & Hw)%in_map_iff. apply Z.ltb_ge. rewrite (H w Hw). lia.
Qed.

(** Where nothing was counted every window is judged INSUFFICIENT_DATA, so
    nothing is promising or negative. *)
Lemma none_counted_recommends recommendation : none_counted ->
  existsb (recommends recommendation) (map (window_summary fee_drag_pct trades) ws) = true ->
  recommendation = ResearchShadowPnlRecommendation.InsufficientData.
Proof using.
  intros H (x & (w & <- & Hw)%in_map_iff & Hx)%existsb_exists. apply bool_decide_eq_true in Hx.
  rewrite <- Hx. by apply empty_window_insufficient, H.
Qed.
End Totals.

Lemma lt_sorted_distinct (l : list Z) : StronglySorted Z.lt l -> NoDup l.
Proof.
  induction 1 as [|w l _ IH Hl]; constructor; [|done].
  intros Hin. rewrite Forall_forall in Hl. specialize (Hl _ Hin). lia.
Qed.

(** C. The report accounts for every run and every holding window: the windows
    are positive, distinct and increasing; every run has one result per window,
    and each result is either counted in its window's statistics, or reported as
    a gap, or as lacking forward data.  The candidate's status is
    INSUFFICIENT_DATA exactly when no run could be attributed, and then there is
    no best holding window. *)
Theorem shadow_windows_accounted candidate request runs candles computed_at :
  let result := calculate_research_shadow_pnl_attribution candidate request runs candles computed_at in
  let windows := sa_holding_windows result in
  let summary := sa_summary result in
  (StronglySorted Z.lt windows /\ windows <> [] /\ forall w, In w windows -> 0 < w) /\
  map sh_holding_window (su_per_holding_window summary) = windows /\
  Z.of_nat (length runs * length windows) =
    foldr (fun window n => sh_trade_count window + n) 0 (su_per_holding_window summary) +
    su_gap_detected_count summary + su_insufficient_forward_data_count summary /\
  0 <= su_total_attributed_runs summary <= Z.of_nat (length runs) /\
  (sa_latest_shadow_pnl_status result = ResearchShadowPnlRecommendation.InsufficientData <->
   su_total_attributed_runs summary = 0) /\
  (sa_best_holding_window result = None <-> su_total_attributed_runs summary = 0).
Proof.
  cbv zeta. unfold calculate_research_shadow_pnl_attribution.
  cbn [sa_holding_windows sa_summary su_per_holding_window su_gap_detected_count
       su_insufficient_forward_data_count su_total_attributed_runs sa_latest_shadow_pnl_status
       sa_best_holding_window].
  destruct (normalized_windows_spec request) as (Hsorted & Hne & Hpos).
  set (windows := normalized_holding_windows request) in *. pose proof (lt_sorted_distinct _ Hsorted) as Hnd.
  set (fee := ddiv _ _). set (runs' := sort_by_key _ runs). set (trades := map _ runs').
  pose proof (fun t => attributed_trades _ _ _ _ _ _ _ runs' t : In t trades -> _) as Hwin.
  assert (Hlen : length trades = length runs).
  { subst trades. rewrite length_map. apply sort_by_length. }
  clearbody trades.
  pose proof (attributed_none_iff fee windows trades Hnd (fun t Ht => proj1 (Hwin t Ht))) as Hnone.
  split; [done|]. split; [rewrite map_map; apply map_id|]. split; [|split; [split|split]].
  - rewrite totals_by_window by (auto; intros t Ht; apply (Hwin t Ht)).
    rewrite <- Hlen, <- counts_partition by (apply exclusive_windows; intros t Ht; apply (Hwin t Ht)).
    f_equal. symmetry. apply length_flat_map_const.
    intros t Ht. rewrite <- (length_map sw_holding_window). by rewrite (proj1 (Hwin t Ht)).
  - apply count_of_nonneg.
  - rewrite <- Hlen. apply count_of_le_length.
  - destruct (existsb (recommends ResearchShadowPnlRecommendation.Promising) _) eqn:Ep;
      [|destruct (_ && existsb _ _) eqn:En; [|destruct (count_of _ trades =? 0) eqn:E0]].
    + split; [done|]. intros H%Hnone. by apply (none_counted_recommends _ _ _ _ H) in Ep.
    + apply andb_true_iff in En as [_ En]. split; [done|]. intros H%Hnone.
      by apply (none_counted_recommends _ _ _ _ H) in En.
    + split; [intros _; by apply Z.eqb_eq|done].
    + split; [done|]. apply Z.eqb_neq in E0. intros H. by destruct E0.
  - rewrite <- (no_best_iff fee windows trades (fun left right => sh_avg_net_pnl_pct left <=? sh_avg_net_pnl_pct right)%dec) in Hnone.
    etransitivity; [|symmetry; exact Hnone]. by destruct (max_by _ _).
Qed.
End Trades.
