(* ===== verification/Qualification.v ===== *)
(** * Qualifying a candidate for testnet consideration

    crates/core/src/research.rs, 12197-12227, 12984-13017, 13043-13182,
    14591-14630, 14676-15519 and 15521-15642.

    A qualification evaluates the shadow evidence of a promoted candidate against
    thresholds: every check costs points when it fails, blocks or warns, and
    recommends what to do.  The source threads a score, three flags and six lists
    through the checks; here every check contributes one [finding_step], and the
    steps are applied in order. *)

From Stdlib Require Import ZArith QArith Lqa Lia List String Sorted Permutation Btauto.
From stdpp Require Import base list strings.
From S2P Require Import Prelude Text Host Types MarketData WalkForward ResearchTypes.
From S2P Require Import Candidate ShadowRunner ShadowPnl.

#[local] Open Scope Z_scope.

Abbreviation Severity := ResearchCandidateQualificationSeverity.t.
Abbreviation Advice := ResearchCandidateQualificationRecommendation.t.

Section Qualifying.
Context {DI : Decimal} {CH : Chrono} {JS : Json} {JD : JsonScalars} {JB : JsonBuild}.

Record ResearchCandidateShadowOutcomeBreakdown := {
  bk_total_shadow_runs : Z;
  bk_completed_shadow_runs : Z;
  bk_independent_shadow_observation_count : Z;
  bk_unique_evaluated_candle_count : Z;
  bk_duplicate_same_candle_runs_count : Z;
  bk_would_submit_count : Z;
  bk_no_signal_count : Z;
  bk_risk_rejected_count : Z;
  bk_skipped_count : Z;
  bk_error_count : Z;
  bk_would_submit_rate_pct : dec;
  bk_risk_rejection_rate_pct : dec
}.

Record ResearchCandidateShadowPerformance := {
  pf_candidate_id : Z;
  pf_strategy_id : string;
  pf_symbol : string;
  pf_timeframe : string;
  pf_window_start : Z;
  pf_window_end : Z;
  pf_total_shadow_runs : Z;
  pf_would_submit_count : Z;
  pf_no_signal_count : Z;
  pf_risk_rejected_count : Z;
  pf_skipped_count : Z;
  pf_error_count : Z;
  pf_would_submit_rate_pct : dec;
  pf_risk_rejection_rate_pct : dec;
  pf_last_shadow_run_at : option Z;
  pf_completed_shadow_runs : Z;
  pf_independent_shadow_observation_count : Z;
  pf_unique_evaluated_candle_count : Z;
  pf_duplicate_same_candle_runs_count : Z;
  pf_latest_evaluated_candle_open_time : option Z;
  pf_latest_valid_shadow_run_at : option Z;
  pf_latest_skipped_shadow_run_at : option Z;
  pf_runner_alignment_current : bool;
  pf_recommendation : ResearchCandidateShadowPerformanceRecommendation.t;
  pf_status : ResearchCandidateShadowPerformanceStatus.t;
  pf_outcome_breakdown : ResearchCandidateShadowOutcomeBreakdown;
  pf_computed_at : Z
}.

Record ResearchCandidateQualificationCheck := {
  qk_code : string;
  qk_name : string;
  qk_passed : bool;
  qk_blocking : bool;
  qk_severity : Severity;
  qk_summary : string;
  qk_details : option json
}.

Record ResearchCandidateQualificationRequest := {
  qr_candidate_id : Z;
  qr_candidate_status : option ResearchCandidateStatus.t;
  qr_fresh_observation : bool;
  qr_formal_observation_status : option StrategyCandidateObservationStatus.t;
  qr_formal_observation_stale : bool;
  qr_runner_alignment_valid : bool;
  qr_shadow_runner_covers_candidate : bool;
  qr_runner_mismatch_count : Z;
  qr_latest_readiness_status : option ExecutionReadinessStatus.t;
  qr_walk_forward_evidence : option ResearchCandidateWalkForwardEvidence;
  qr_shadow_performance : option ResearchCandidateShadowPerformance;
  qr_shadow_pnl_attribution : option ResearchShadowPnlAttributionResult;
  qr_thresholds : ResearchCandidateQualificationThresholds;
  qr_computed_at : Z
}.

Record ResearchCandidateQualificationResult := {
  qu_candidate_id : Z;
  qu_status : ResearchCandidateQualificationStatus.t;
  qu_score : Z;
  qu_fresh_observation : bool;
  qu_runner_alignment_valid : bool;
  qu_latest_readiness_status : option ExecutionReadinessStatus.t;
  qu_linked_shadow_completed_count : Z;
  qu_linked_shadow_no_signal_count : Z;
  qu_linked_shadow_would_submit_count : Z;
  qu_linked_shadow_risk_rejected_count : Z;
  qu_linked_shadow_skipped_count : Z;
  qu_latest_valid_shadow_run_at : option Z;
  qu_latest_skipped_shadow_run_at : option Z;
  qu_formal_observation_status : option StrategyCandidateObservationStatus.t;
  qu_formal_observation_stale : bool;
  qu_evidence_interpretation : string;
  qu_walk_forward_status : option StrategyWalkForwardRobustnessStatus.t;
  qu_walk_forward_run_id : option Z;
  qu_walk_forward_score : option dec;
  qu_walk_forward_consistency_score : option dec;
  qu_walk_forward_recommendation : option string;
  qu_walk_forward_blockers : list string;
  qu_walk_forward_warnings : list string;
  qu_readiness_penalty_points : Z;
  qu_threshold_override_below_default : bool;
  qu_threshold_override_penalty_points : Z;
  qu_score_explanation : list string;
  qu_checks : list ResearchCandidateQualificationCheck;
  qu_blockers : list string;
  qu_warnings : list string;
  qu_recommendations : list Advice;
  qu_thresholds : ResearchCandidateQualificationThresholds;
  qu_shadow_performance : option ResearchCandidateShadowPerformance;
  qu_latest_shadow_pnl_status : option ResearchShadowPnlRecommendation.t;
  qu_best_holding_window : option Z;
  qu_best_avg_net_pnl_pct : option dec;
  qu_negative_all_windows : bool;
  qu_computed_at : Z
}.

Definition default_min_shadow_runs : Z := 30.
Definition default_qualification_min_would_submit_count : Z := 3.
Definition default_qualification_max_risk_rejection_rate_pct : dec := dnew 40 0.
Definition default_qualification_max_error_or_skipped_rate_pct : dec := dnew 20 0.
Definition default_max_runner_mismatch_count : Z := 0.

(** [ResearchCandidateQualificationThresholds::default()] *)
Definition default_thresholds : ResearchCandidateQualificationThresholds := {|
  th_min_shadow_runs := default_min_shadow_runs;
  th_min_would_submit_count := default_qualification_min_would_submit_count;
  th_max_risk_rejection_rate_pct := default_qualification_max_risk_rejection_rate_pct;
  th_max_error_or_skipped_rate_pct := default_qualification_max_error_or_skipped_rate_pct;
  th_max_runner_mismatch_count := default_max_runner_mismatch_count;
  th_require_fresh_observation := true;
  th_require_runner_alignment := true;
  th_require_readiness_not_not_ready := true
|}.

Definition qualification_check (code name : string) (passed blocking : bool) (severity : Severity)
    (summary : string) (details : option json) : ResearchCandidateQualificationCheck :=
  {| qk_code := code; qk_name := name; qk_passed := passed; qk_blocking := blocking;
     qk_severity := severity; qk_summary := summary; qk_details := details |}.

(** [score.clamp(0, 100)] *)
Definition clamp_score (score : Z) : Z := Z.max 0 (Z.min 100 score).

(** ** What one check contributes *)

Record finding_step := {
  fs_check : ResearchCandidateQualificationCheck;
  fs_penalty : Z;
  fs_capped : bool;                 (** [score = score.min(40)] *)
  fs_degraded : bool;
  fs_needs_more_data : bool;
  fs_walk_forward_blocker : option string;
  fs_walk_forward_warning : option string;
  fs_explanation : list string;
  fs_recommendation : option Advice
}.

(** A check that costs nothing. *)
Definition harmless (check : ResearchCandidateQualificationCheck) : finding_step := {|
  fs_check := check; fs_penalty := 0; fs_capped := false; fs_degraded := false;
  fs_needs_more_data := false; fs_walk_forward_blocker := None; fs_walk_forward_warning := None;
  fs_explanation := []; fs_recommendation := None
|}.

(** [if !passed { score -= penalty; .. }] *)
Definition costing (check : ResearchCandidateQualificationCheck) (passed : bool) (penalty : Z)
    (degraded : bool) (explanation : string) (recommendation : Advice) : finding_step :=
  if passed then harmless check else {|
    fs_check := check; fs_penalty := penalty; fs_capped := false; fs_degraded := degraded;
    fs_needs_more_data := false; fs_walk_forward_blocker := None; fs_walk_forward_warning := None;
    fs_explanation := [explanation]; fs_recommendation := Some recommendation
  |}.

(** The counts of the shadow performance, zero without one. *)
Definition performance_count (request : ResearchCandidateQualificationRequest)
    (count : ResearchCandidateShadowPerformance -> Z) : Z :=
  match qr_shadow_performance request with Some value => count value | None => 0 end.

Definition latest_valid_shadow_run_at (request : ResearchCandidateQualificationRequest) : option Z :=
  value ← qr_shadow_performance request; pf_latest_valid_shadow_run_at value.

Definition is_some {A} (o : option A) : bool := match o with Some _ => true | None => false end.

Definition valid_shadow_evidence_available (request : ResearchCandidateQualificationRequest) : bool :=
  is_some (latest_valid_shadow_run_at request) ||
  (0 <? performance_count request pf_completed_shadow_runs) ||
  (0 <? performance_count request pf_would_submit_count) ||
  (0 <? performance_count request pf_no_signal_count) ||
  (0 <? performance_count request pf_risk_rejected_count).

(** ** The checks, in the order of the source *)

Definition threshold_override_below_default (thresholds : ResearchCandidateQualificationThresholds)
    : bool :=
  (th_min_shadow_runs thresholds <? th_min_shadow_runs default_thresholds) ||
  (th_min_would_submit_count thresholds <? th_min_would_submit_count default_thresholds).

Definition override_step (thresholds : ResearchCandidateQualificationThresholds) : list finding_step :=
  let warning := "Qualification threshold override is below default; treat result as exploratory." in
  if threshold_override_below_default thresholds then
    [{| fs_check := qualification_check "threshold_override_below_default"
          "Qualification thresholds are not below defaults" false false
          ResearchCandidateQualificationSeverity.Low warning
          (Some (jobj [("min_shadow_runs", jint (th_min_shadow_runs thresholds));
                       ("default_min_shadow_runs", jint (th_min_shadow_runs default_thresholds));
                       ("min_would_submit_count", jint (th_min_would_submit_count thresholds));
                       ("default_min_would_submit_count",
                        jint (th_min_would_submit_count default_thresholds))]));
        fs_penalty := 5; fs_capped := false; fs_degraded := false; fs_needs_more_data := false;
        fs_walk_forward_blocker := None; fs_walk_forward_warning := None;
        fs_explanation := [warning +:+ " (-" +:+ show_int 5 +:+ " points)"];
        fs_recommendation := None |}]
  else [].

Definition exists_step (candidate_status : option ResearchCandidateStatus.t) : finding_step :=
  let candidate_exists := is_some candidate_status in
  let check := qualification_check "candidate_exists" "Candidate exists" candidate_exists true
    ResearchCandidateQualificationSeverity.Critical
    (if candidate_exists then "Candidate exists." else "Candidate was not found.") None in
  {| fs_check := check; fs_penalty := 0; fs_capped := false; fs_degraded := false;
     fs_needs_more_data := false; fs_walk_forward_blocker := None; fs_walk_forward_warning := None;
     fs_explanation := [];
     fs_recommendation :=
       if candidate_exists then None
       else Some ResearchCandidateQualificationRecommendation.ReAcceptCandidateForShadow |}.

Definition status_is_accepted (candidate_status : option ResearchCandidateStatus.t) : bool :=
  match candidate_status with
  | Some ResearchCandidateStatus.AcceptedForShadow
  | Some ResearchCandidateStatus.PromotedToShadowConfig => true
  | _ => false
  end.
Definition status_is_promoted (candidate_status : option ResearchCandidateStatus.t) : bool :=
  bool_decide (candidate_status = Some ResearchCandidateStatus.PromotedToShadowConfig).

Definition status_details (candidate_status : option ResearchCandidateStatus.t) : option json :=
  option_map (fun status => jobj [("candidate_status", jstr (ResearchCandidateStatus.as_str status))])
    candidate_status.

Definition accepted_step (candidate_status : option ResearchCandidateStatus.t) : finding_step :=
  let accepted := status_is_accepted candidate_status in
  costing
    (qualification_check "candidate_status_accepted_for_shadow"
       "Candidate status is ACCEPTED_FOR_SHADOW" accepted true
       ResearchCandidateQualificationSeverity.High
       (if accepted then "Candidate is accepted for shadow."
        else "Candidate is not accepted for shadow.")
       (status_details candidate_status))
    accepted 35 false
    "Candidate is not in ACCEPTED_FOR_SHADOW, so qualification lost 35 points."
    ResearchCandidateQualificationRecommendation.ReAcceptCandidateForShadow.

Definition promoted_step (candidate_status : option ResearchCandidateStatus.t) : finding_step :=
  let promoted := status_is_promoted candidate_status in
  costing
    (qualification_check "candidate_status_promoted_to_shadow_config"
       "Candidate status is PROMOTED_TO_SHADOW_CONFIG" promoted false
       ResearchCandidateQualificationSeverity.High
       (if promoted then "Candidate is promoted to shadow runner config."
        else if bool_decide (candidate_status = Some ResearchCandidateStatus.AcceptedForShadow) then
          "Candidate is accepted but not promoted to shadow runner config."
        else "Candidate is not promoted to shadow runner config.")
       (status_details candidate_status))
    promoted 20 false
    "Candidate is accepted but not promoted to shadow runner config. (-20 points)"
    ResearchCandidateQualificationRecommendation.ExpandShadowRunnerCoverage.

Definition fresh_observation_step (request : ResearchCandidateQualificationRequest) : finding_step :=
  let required := th_require_fresh_observation (qr_thresholds request) in
  let valid := valid_shadow_evidence_available request in
  let check_passed := negb required || qr_fresh_observation request in
  let satisfied := negb required || qr_fresh_observation request || valid in
  costing
    (qualification_check "fresh_observation_required"
       "Candidate has fresh formal observation or valid linked shadow evidence"
       check_passed (required && negb valid) ResearchCandidateQualificationSeverity.High
       (if check_passed then
          if qr_fresh_observation request then "Fresh formal observation is available."
          else "Fresh formal observation is not required by the active thresholds."
        else if satisfied then
          "Formal observation is stale or missing, but valid linked shadow evidence exists."
        else "Fresh formal observation is required and no valid linked shadow evidence exists.")
       (Some (jobj
         [("formal_observation_status",
           jopt (fun status => jstr (StrategyCandidateObservationStatus.as_str status))
             (qr_formal_observation_status request));
          ("formal_observation_stale", jbool (qr_formal_observation_stale request));
          ("valid_linked_shadow_evidence_available", jbool valid);
          ("latest_valid_shadow_run_at", jopt jtime (latest_valid_shadow_run_at request))])))
    (negb (required && negb (qr_fresh_observation request))) 25 false
    (if valid then
       "Formal observation is stale or missing, but valid linked shadow evidence exists; qualification lost 25 points as a warning."
     else
       "Fresh formal observation is missing or stale and no valid linked shadow evidence exists, so qualification lost 25 points.")
    ResearchCandidateQualificationRecommendation.RefreshCandidateObservation.

Definition alignment_step (request : ResearchCandidateQualificationRequest) : finding_step :=
  let required := th_require_runner_alignment (qr_thresholds request) in
  let passed := negb required || qr_runner_alignment_valid request in
  costing
    (qualification_check "runner_alignment_valid" "Runner alignment is valid" passed required
       ResearchCandidateQualificationSeverity.High
       (if passed then "Runner alignment is valid."
        else "Runner alignment is invalid for this candidate.")
       (Some (jobj [("runner_alignment_valid", jbool (qr_runner_alignment_valid request))])))
    passed 25 false
    "Runner alignment is invalid for this candidate, so qualification lost 25 points."
    ResearchCandidateQualificationRecommendation.FixRunnerAlignment.

Definition coverage_step (request : ResearchCandidateQualificationRequest) : finding_step :=
  let passed := qr_shadow_runner_covers_candidate request in
  costing
    (qualification_check "shadow_runner_covers_candidate"
       "Shadow runner covers candidate strategy, symbol, and timeframe" passed true
       ResearchCandidateQualificationSeverity.High
       (if passed then "Current shadow runner covers the candidate."
        else "Current shadow runner does not cover the candidate.") None)
    passed 20 false
    "The active shadow runner does not cover this candidate, so qualification lost 20 points."
    ResearchCandidateQualificationRecommendation.ExpandShadowRunnerCoverage.

Definition mismatch_step (request : ResearchCandidateQualificationRequest) : finding_step :=
  let count := qr_runner_mismatch_count request in
  let max := th_max_runner_mismatch_count (qr_thresholds request) in
  let passed := count <=? max in
  costing
    (qualification_check "runner_mismatch_count" "Runner mismatch count is within threshold"
       passed (max =? 0) ResearchCandidateQualificationSeverity.Medium
       (if passed then "Runner mismatch count is within threshold."
        else "Runner mismatch count " +:+ show_int count +:+ " exceeded max " +:+ show_int max +:+ ".")
       (Some (jobj [("runner_mismatch_count", jint count); ("max_runner_mismatch_count", jint max)])))
    passed 10 true
    "Runner mismatch count exceeded the configured limit, so qualification lost 10 points."
    ResearchCandidateQualificationRecommendation.FixRunnerAlignment.

(** The check of the walk-forward evidence, the same fields on every branch. *)
Definition walk_forward_check (passed blocking : bool) (severity : Severity) (summary : string)
    (details : option json) : ResearchCandidateQualificationCheck :=
  qualification_check "walk_forward_robustness" "Walk-forward robustness is acceptable"
    passed blocking severity summary details.

Definition run_fields (value : ResearchCandidateWalkForwardEvidence) : list (string * json) :=
  [("walk_forward_run_id", juuid (we_walk_forward_run_id value));
   ("robustness_score", jdec (we_robustness_score value))].
Definition consistency_field (value : ResearchCandidateWalkForwardEvidence) : list (string * json) :=
  [("consistency_score", jdec (we_consistency_score value))].

Definition walk_forward_step (evidence : option ResearchCandidateWalkForwardEvidence)
    : finding_step :=
  match evidence with
  | None =>
      let message := "Candidate missing walk-forward validation." in
      {| fs_check := walk_forward_check false false ResearchCandidateQualificationSeverity.Medium
           message None;
         fs_penalty := 20; fs_capped := false; fs_degraded := false; fs_needs_more_data := true;
         fs_walk_forward_blocker := None;
         fs_walk_forward_warning := Some "NO_WALK_FORWARD_EVIDENCE";
         fs_explanation :=
           ["Missing walk-forward evidence requires more data before testnet review. (-20 points)"];
         fs_recommendation := None |}
  | Some value =>
      match we_robustness_status value with
      | StrategyWalkForwardRobustnessStatus.Robust =>
          harmless (walk_forward_check true true ResearchCandidateQualificationSeverity.Low
            "Walk-forward robustness is ROBUST."
            (Some (jobj (run_fields value ++ consistency_field value))))
      | StrategyWalkForwardRobustnessStatus.OverfitRisk =>
          let message := "Walk-forward robustness is OVERFIT_RISK." in
          {| fs_check := walk_forward_check false true ResearchCandidateQualificationSeverity.High
               message (Some (jobj (run_fields value ++ consistency_field value ++
                 [("recommendation", jopt jstr (we_recommendation_reason value))])));
             fs_penalty := 40; fs_capped := true; fs_degraded := false; fs_needs_more_data := false;
             fs_walk_forward_blocker := Some message; fs_walk_forward_warning := None;
             fs_explanation :=
               ["Walk-forward OVERFIT_RISK blocks testnet promotion consideration. (-40 points, score capped at 40)"];
             fs_recommendation := None |}
      | StrategyWalkForwardRobustnessStatus.Failed =>
          let message := "Walk-forward validation failed." in
          {| fs_check := walk_forward_check false true ResearchCandidateQualificationSeverity.High
               message (Some (jobj (run_fields value)));
             fs_penalty := 40; fs_capped := true; fs_degraded := false; fs_needs_more_data := false;
             fs_walk_forward_blocker := Some message; fs_walk_forward_warning := None;
             fs_explanation :=
               ["Failed walk-forward validation blocks qualification. (-40 points, score capped at 40)"];
             fs_recommendation := None |}
      | StrategyWalkForwardRobustnessStatus.InsufficientData =>
          let message := "Walk-forward validation has insufficient data." in
          {| fs_check := walk_forward_check false false ResearchCandidateQualificationSeverity.Medium
               message (Some (jobj (run_fields value)));
             fs_penalty := 20; fs_capped := false; fs_degraded := false; fs_needs_more_data := true;
             fs_walk_forward_blocker := None; fs_walk_forward_warning := Some message;
             fs_explanation :=
               ["Walk-forward evidence is insufficient; collect more data before testnet review. (-20 points)"];
             fs_recommendation := None |}
      | StrategyWalkForwardRobustnessStatus.Weak =>
          let message := "Walk-forward robustness is WEAK." in
          {| fs_check := walk_forward_check false false ResearchCandidateQualificationSeverity.Medium
               message (Some (jobj (run_fields value ++ consistency_field value)));
             fs_penalty := 15; fs_capped := false; fs_degraded := true; fs_needs_more_data := false;
             fs_walk_forward_blocker := None; fs_walk_forward_warning := Some message;
             fs_explanation := ["Weak walk-forward robustness degrades qualification. (-15 points)"];
             fs_recommendation := None |}
      end
  end.

Definition enough_shadow_runs (request : ResearchCandidateQualificationRequest) : bool :=
  th_min_shadow_runs (qr_thresholds request) <=?
  performance_count request pf_independent_shadow_observation_count.

Definition shadow_runs_step (request : ResearchCandidateQualificationRequest) : finding_step :=
  let independent := performance_count request pf_independent_shadow_observation_count in
  let min := th_min_shadow_runs (qr_thresholds request) in
  let enough := enough_shadow_runs request in
  costing
    (qualification_check "enough_linked_shadow_runs"
       "Enough independent linked shadow observations exist" enough false
       ResearchCandidateQualificationSeverity.Medium
       (if enough then "Independent linked shadow observation count meets threshold."
        else "Independent linked shadow observations " +:+ show_int independent +:+
             " are below min " +:+ show_int min +:+ ".")
       (Some (jobj
         [("total_shadow_runs", jint (performance_count request pf_total_shadow_runs));
          ("completed_shadow_runs", jint (performance_count request pf_completed_shadow_runs));
          ("independent_shadow_observation_count", jint independent);
          ("unique_evaluated_candle_count",
           jint (performance_count request pf_unique_evaluated_candle_count));
          ("duplicate_same_candle_runs_count",
           jint (performance_count request pf_duplicate_same_candle_runs_count));
          ("latest_evaluated_candle_open_time",
           jopt jtime (value ← qr_shadow_performance request;
                       pf_latest_evaluated_candle_open_time value));
          ("min_shadow_runs", jint min)])))
    enough 20 false
    "Linked shadow runs are below the configured threshold, so qualification lost 20 points."
    ResearchCandidateQualificationRecommendation.GatherMoreShadowRuns.

Definition duplicates_step (request : ResearchCandidateQualificationRequest) : list finding_step :=
  let duplicates := performance_count request pf_duplicate_same_candle_runs_count in
  let warning := show_int duplicates +:+
    " duplicate same-candle shadow runs were treated as operational checks, not independent strategy evidence." in
  if 0 <? duplicates then
    [{| fs_check := qualification_check "duplicate_same_candle_shadow_runs"
          "Duplicate same-candle shadow runs are not counted as independent evidence" false false
          ResearchCandidateQualificationSeverity.Low warning
          (Some (jobj
            [("duplicate_same_candle_runs_count", jint duplicates);
             ("independent_shadow_observation_count",
              jint (performance_count request pf_independent_shadow_observation_count))]));
        fs_penalty := 5; fs_capped := false; fs_degraded := false; fs_needs_more_data := false;
        fs_walk_forward_blocker := None; fs_walk_forward_warning := None;
        fs_explanation := [warning +:+ " (-5 points)"];
        fs_recommendation := None |}]
  else [].

Definition would_submit_step (request : ResearchCandidateQualificationRequest) : finding_step :=
  let count := performance_count request pf_would_submit_count in
  let min := th_min_would_submit_count (qr_thresholds request) in
  let enough := min <=? count in
  costing
    (qualification_check "would_submit_count_enough"
       "WOULD_SUBMIT count is nonzero and meets threshold" enough (enough_shadow_runs request)
       ResearchCandidateQualificationSeverity.Medium
       (if enough then "WOULD_SUBMIT evidence meets threshold."
        else "WOULD_SUBMIT count " +:+ show_int count +:+ " is below min " +:+ show_int min +:+ ".")
       (Some (jobj [("would_submit_count", jint count); ("min_would_submit_count", jint min)])))
    enough 20 true
    "WOULD_SUBMIT evidence is below the configured threshold, so qualification lost 20 points."
    ResearchCandidateQualificationRecommendation.GenerateMoreWouldSubmitEvidence.

Definition risk_rejection_rate (request : ResearchCandidateQualificationRequest) : dec :=
  match qr_shadow_performance request with
  | Some value => pf_risk_rejection_rate_pct value
  | None => ZERO
  end.
Definition skipped_or_error_rate (request : ResearchCandidateQualificationRequest) : dec :=
  calculate_percentage_rate
    (performance_count request (fun value => pf_skipped_count value + pf_error_count value))
    (performance_count request pf_total_shadow_runs).

Definition risk_rejection_step (request : ResearchCandidateQualificationRequest) : finding_step :=
  let rate := risk_rejection_rate request in
  let max := th_max_risk_rejection_rate_pct (qr_thresholds request) in
  let passed := (rate <=? max)%dec in
  costing
    (qualification_check "risk_rejection_rate_acceptable" "Risk rejection rate is within threshold"
       passed false ResearchCandidateQualificationSeverity.High
       (if passed then "Risk rejection rate is within threshold."
        else "Risk rejection rate " +:+ dshow rate +:+ "% exceeded max " +:+ dshow max +:+ "%.")
       (Some (jobj [("risk_rejection_rate_pct", jdec rate);
                    ("max_risk_rejection_rate_pct", jdec max)])))
    passed 15 true
    "Risk rejection rate exceeded the configured threshold, so qualification lost 15 points."
    ResearchCandidateQualificationRecommendation.ReviewRiskRejections.

Definition skipped_step (request : ResearchCandidateQualificationRequest) : finding_step :=
  let rate := skipped_or_error_rate request in
  let max := th_max_error_or_skipped_rate_pct (qr_thresholds request) in
  let passed := (rate <=? max)%dec in
  costing
    (qualification_check "error_or_skipped_rate_acceptable" "Skipped or error rate is within threshold"
       passed false ResearchCandidateQualificationSeverity.Medium
       (if passed then "Skipped or error rate is within threshold."
        else "Skipped or error rate " +:+ dshow rate +:+ "% exceeded max " +:+ dshow max +:+ "%.")
       (Some (jobj [("skipped_or_error_rate_pct", jdec rate);
                    ("max_error_or_skipped_rate_pct", jdec max)])))
    passed 15 true
    "Skipped or error rate exceeded the configured threshold, so qualification lost 15 points."
    ResearchCandidateQualificationRecommendation.ReduceShadowErrorsOrSkips.

(** [readiness_penalty_points] *)
Definition readiness_penalty (status : option ExecutionReadinessStatus.t) : Z :=
  match status with
  | Some ExecutionReadinessStatus.Ready => 0
  | Some ExecutionReadinessStatus.Degraded => 12
  | Some ExecutionReadinessStatus.NotReady => 30
  | Some ExecutionReadinessStatus.Unknown | None => 10
  end.

Definition readiness_check (passed blocking : bool) (severity : Severity) (summary status : string)
    : ResearchCandidateQualificationCheck :=
  qualification_check "readiness_status" "TESTNET_SHADOW readiness is READY" passed blocking severity
    summary (Some (jobj [("latest_readiness_status", jstr status)])).

(** A readiness other than READY; the second explanation differs per status. *)
Definition unready_step (status : option ExecutionReadinessStatus.t) (blocking : bool)
    (severity : Severity) (warning text advice : string) : finding_step := {|
  fs_check := readiness_check false blocking severity warning text;
  fs_penalty := readiness_penalty status;
  fs_capped := blocking; fs_degraded := negb blocking; fs_needs_more_data := false;
  fs_walk_forward_blocker := None; fs_walk_forward_warning := None;
  fs_explanation :=
    [warning +:+ " (-" +:+ show_int (readiness_penalty status) +:+
     (if blocking then " points, score capped at 40)" else " points)"); advice];
  fs_recommendation := Some ResearchCandidateQualificationRecommendation.RestoreTestnetShadowReadiness
|}.

Definition readiness_step (status : option ExecutionReadinessStatus.t) : finding_step :=
  match status with
  | Some ExecutionReadinessStatus.Ready =>
      harmless (readiness_check true false ResearchCandidateQualificationSeverity.Low
        "Latest TESTNET_SHADOW readiness is READY."
        (ExecutionReadinessStatus.as_str ExecutionReadinessStatus.Ready))
  | Some ExecutionReadinessStatus.Degraded =>
      unready_step status false ResearchCandidateQualificationSeverity.Medium
        "Latest TESTNET_SHADOW readiness is DEGRADED."
        (ExecutionReadinessStatus.as_str ExecutionReadinessStatus.Degraded)
        "Resolve degraded readiness conditions before considering testnet promotion."
  | Some ExecutionReadinessStatus.NotReady =>
      unready_step status true ResearchCandidateQualificationSeverity.High
        "Latest TESTNET_SHADOW readiness is NOT_READY."
        (ExecutionReadinessStatus.as_str ExecutionReadinessStatus.NotReady)
        "Do not consider testnet promotion until readiness blockers are cleared."
  | Some ExecutionReadinessStatus.Unknown | None =>
      unready_step status false ResearchCandidateQualificationSeverity.Medium
        "Latest TESTNET_SHADOW readiness is UNKNOWN."
        match status with
        | Some status => ExecutionReadinessStatus.as_str status
        | None => "UNKNOWN"
        end
        "Collect a fresh readiness result before considering testnet promotion."
  end.

Definition qualification_steps (request : ResearchCandidateQualificationRequest) : list finding_step :=
  override_step (qr_thresholds request) ++
  [exists_step (qr_candidate_status request);
   accepted_step (qr_candidate_status request);
   promoted_step (qr_candidate_status request);
   fresh_observation_step request;
   alignment_step request;
   coverage_step request;
   mismatch_step request;
   walk_forward_step (qr_walk_forward_evidence request);
   shadow_runs_step request] ++
  duplicates_step request ++
  [would_submit_step request;
   risk_rejection_step request;
   skipped_step request;
   readiness_step (qr_latest_readiness_status request)].

(** ** The verdict *)

(** [score -= penalty;] and, where the source says so, [score = score.min(40);] *)
Definition deduct (score : Z) (step : finding_step) : Z :=
  let score := score - fs_penalty step in
  if fs_capped step then Z.min score 40 else score.

(** The order of the variants, that of the [BTreeSet]. *)
Definition advice_rank (advice : Advice) : Z :=
  match advice with
  | ResearchCandidateQualificationRecommendation.RefreshCandidateObservation => 0
  | ResearchCandidateQualificationRecommendation.FixRunnerAlignment => 1
  | ResearchCandidateQualificationRecommendation.ExpandShadowRunnerCoverage => 2
  | ResearchCandidateQualificationRecommendation.GatherMoreShadowRuns => 3
  | ResearchCandidateQualificationRecommendation.GenerateMoreWouldSubmitEvidence => 4
  | ResearchCandidateQualificationRecommendation.ReviewRiskRejections => 5
  | ResearchCandidateQualificationRecommendation.ReduceShadowErrorsOrSkips => 6
  | ResearchCandidateQualificationRecommendation.RestoreTestnetShadowReadiness => 7
  | ResearchCandidateQualificationRecommendation.ReAcceptCandidateForShadow => 8
  | ResearchCandidateQualificationRecommendation.ReadyForTestnetPromotionConsideration => 9
  end.

Definition failing (blocking : bool) (checks : list ResearchCandidateQualificationCheck)
    : list string :=
  map qk_summary (List.filter
    (fun check => negb (qk_passed check) && Bool.eqb (qk_blocking check) blocking) checks).

Definition qualification_status (request : ResearchCandidateQualificationRequest)
    (blockers : list string) (needs_more_data_trigger degraded_status_trigger : bool)
    : ResearchCandidateQualificationStatus.t :=
  if negb (is_some (qr_candidate_status request)) then ResearchCandidateQualificationStatus.Unknown
  else if negb (vec_is_empty blockers) then ResearchCandidateQualificationStatus.NotQualified
  else if needs_more_data_trigger then ResearchCandidateQualificationStatus.NeedsMoreData
  else if negb (status_is_promoted (qr_candidate_status request)) then
    ResearchCandidateQualificationStatus.NeedsMoreData
  else if negb (enough_shadow_runs request) then ResearchCandidateQualificationStatus.NeedsMoreData
  else if degraded_status_trigger then ResearchCandidateQualificationStatus.Degraded
  else ResearchCandidateQualificationStatus.Qualified.

Definition evidence_interpretation (request : ResearchCandidateQualificationRequest) : string :=
  let would_submit := performance_count request pf_would_submit_count in
  let no_signal := show_int (performance_count request pf_no_signal_count) in
  let risk_rejected := show_int (performance_count request pf_risk_rejected_count) in
  let skipped := performance_count request pf_skipped_count in
  let valid := valid_shadow_evidence_available request in
  if valid && (would_submit <=? 0) then
    "Valid linked shadow observation exists (NO_SIGNAL=" +:+ no_signal +:+ ", RISK_REJECTED=" +:+
    risk_rejected +:+ ", WOULD_SUBMIT=0); pipeline is observing the candidate, but actionable WOULD_SUBMIT evidence is insufficient for testnet readiness."
  else if valid then
    "Valid linked shadow observation exists (WOULD_SUBMIT=" +:+ show_int would_submit +:+
    ", NO_SIGNAL=" +:+ no_signal +:+ ", RISK_REJECTED=" +:+ risk_rejected +:+
    "); stale or skipped runs are tracked separately."
  else if 0 <? skipped then
    "Only skipped shadow runs are linked (skipped=" +:+ show_int skipped +:+
    "); this is infrastructure/readiness evidence, not valid signal observation evidence."
  else "No valid linked shadow observation evidence is available.".

Definition evaluate_research_candidate_qualification (request : ResearchCandidateQualificationRequest)
    : ResearchCandidateQualificationResult :=
  let thresholds := qr_thresholds request in
  let steps := qualification_steps request in
  let checks := map fs_check steps in
  let blockers := failing true checks in
  let status := qualification_status request blockers (existsb fs_needs_more_data steps)
                  (existsb fs_degraded steps) in
  let explanation := flat_map fs_explanation steps in
  let recommendations := set_collect advice_rank fs_recommendation steps in
  let evidence := qr_walk_forward_evidence request in
  let performance := qr_shadow_performance request in
  let attribution := qr_shadow_pnl_attribution request in
  {| qu_candidate_id := qr_candidate_id request;
     qu_status := status;
     qu_score := clamp_score (foldl deduct 100 steps);
     qu_fresh_observation := qr_fresh_observation request;
     qu_runner_alignment_valid := qr_runner_alignment_valid request;
     qu_latest_readiness_status := qr_latest_readiness_status request;
     qu_linked_shadow_completed_count := performance_count request pf_completed_shadow_runs;
     qu_linked_shadow_no_signal_count := performance_count request pf_no_signal_count;
     qu_linked_shadow_would_submit_count := performance_count request pf_would_submit_count;
     qu_linked_shadow_risk_rejected_count := performance_count request pf_risk_rejected_count;
     qu_linked_shadow_skipped_count := performance_count request pf_skipped_count;
     qu_latest_valid_shadow_run_at := latest_valid_shadow_run_at request;
     qu_latest_skipped_shadow_run_at :=
       (value ← performance; pf_latest_skipped_shadow_run_at value);
     qu_formal_observation_status := qr_formal_observation_status request;
     qu_formal_observation_stale := qr_formal_observation_stale request;
     qu_evidence_interpretation := evidence_interpretation request;
     qu_walk_forward_status := option_map we_robustness_status evidence;
     qu_walk_forward_run_id := option_map we_walk_forward_run_id evidence;
     qu_walk_forward_score := option_map we_robustness_score evidence;
     qu_walk_forward_consistency_score := option_map we_consistency_score evidence;
     qu_walk_forward_recommendation :=
       (value ← evidence;
        match we_recommendation_reason value with
        | Some reason => Some reason
        | None => we_recommendation_action value
        end);
     qu_walk_forward_blockers := omap fs_walk_forward_blocker steps;
     qu_walk_forward_warnings := omap fs_walk_forward_warning steps;
     qu_readiness_penalty_points := readiness_penalty (qr_latest_readiness_status request);
     qu_threshold_override_below_default := threshold_override_below_default thresholds;
     qu_threshold_override_penalty_points :=
       if threshold_override_below_default thresholds then 5 else 0;
     qu_score_explanation :=
       if vec_is_empty explanation then
         ["All qualification checks passed with READY readiness and default thresholds; score remained 100."]
       else explanation;
     qu_checks := checks;
     qu_blockers := blockers;
     qu_warnings := failing false checks;
     qu_recommendations :=
       if bool_decide (status = ResearchCandidateQualificationStatus.Qualified) &&
          negb (threshold_override_below_default thresholds) &&
          bool_decide (qr_latest_readiness_status request = Some ExecutionReadinessStatus.Ready)
       then set_insert advice_rank
              ResearchCandidateQualificationRecommendation.ReadyForTestnetPromotionConsideration
              recommendations
       else recommendations;
     qu_thresholds := thresholds;
     qu_shadow_performance := performance;
     qu_latest_shadow_pnl_status := option_map sa_latest_shadow_pnl_status attribution;
     qu_best_holding_window := (value ← attribution; sa_best_holding_window value);
     qu_best_avg_net_pnl_pct := (value ← attribution; sa_best_avg_net_pnl_pct value);
     qu_negative_all_windows :=
       match attribution with
       | Some value => su_negative_all_windows (sa_summary value)
       | None => false
       end;
     qu_computed_at := qr_computed_at request |}.

(** The row recorded for a result. *)
Definition research_candidate_qualification_evaluation_from_result (id : Z)
    (qualification : ResearchCandidateQualificationResult) (correlation_id : option Z)
    : ResearchCandidateQualificationEvaluation :=
  let performance := qu_shadow_performance qualification in
  {| qe_id := id;
     qe_candidate_id := qu_candidate_id qualification;
     qe_status := qu_status qualification;
     qe_score := qu_score qualification;
     qe_latest_readiness_status := qu_latest_readiness_status qualification;
     qe_total_shadow_runs :=
       match performance with Some value => pf_total_shadow_runs value | None => 0 end;
     qe_would_submit_count :=
       match performance with Some value => pf_would_submit_count value | None => 0 end;
     qe_risk_rejection_rate_pct := option_map pf_risk_rejection_rate_pct performance;
     qe_walk_forward_status := qu_walk_forward_status qualification;
     qe_walk_forward_run_id := qu_walk_forward_run_id qualification;
     qe_walk_forward_score := qu_walk_forward_score qualification;
     qe_walk_forward_consistency_score := qu_walk_forward_consistency_score qualification;
     qe_walk_forward_recommendation := qu_walk_forward_recommendation qualification;
     qe_walk_forward_blockers := qu_walk_forward_blockers qualification;
     qe_walk_forward_warnings := qu_walk_forward_warnings qualification;
     qe_warnings := qu_warnings qualification;
     qe_blockers := qu_blockers qualification;
     qe_recommendations := qu_recommendations qualification;
     qe_thresholds := qu_thresholds qualification;
     qe_evaluated_at := qu_computed_at qualification;
     qe_correlation_id := correlation_id |}.

(** The status and the recommendation of a shadow performance. *)
Definition shadow_performance_verdict (candidate_status : ResearchCandidateStatus.t)
    (runner_alignment_current : bool) (total_shadow_runs would_submit_count : Z)
    (risk_rejection_rate_pct skipped_or_error_rate_pct : dec)
    : ResearchCandidateShadowPerformanceStatus.t * ResearchCandidateShadowPerformanceRecommendation.t :=
  if negb (bool_decide (candidate_status = ResearchCandidateStatus.PromotedToShadowConfig)) then
    (ResearchCandidateShadowPerformanceStatus.NotPromotedToShadowConfig,
     ResearchCandidateShadowPerformanceRecommendation.PromoteToShadowConfig)
  else if negb runner_alignment_current then
    (ResearchCandidateShadowPerformanceStatus.NeedsReview,
     ResearchCandidateShadowPerformanceRecommendation.CandidateNotCoveredByRunner)
  else if total_shadow_runs <=? 0 then
    (ResearchCandidateShadowPerformanceStatus.InsufficientData,
     ResearchCandidateShadowPerformanceRecommendation.InsufficientData)
  else if total_shadow_runs <? default_min_shadow_runs then
    (ResearchCandidateShadowPerformanceStatus.UnderObservation,
     ResearchCandidateShadowPerformanceRecommendation.KeepObserving)
  else if (would_submit_count =? 0) || (risk_rejection_rate_pct >=? dnew 75 0)%dec ||
          (skipped_or_error_rate_pct >=? dnew 50 0)%dec then
    (ResearchCandidateShadowPerformanceStatus.NeedsReview,
     if would_submit_count =? 0 then ResearchCandidateShadowPerformanceRecommendation.RejectCandidate
     else ResearchCandidateShadowPerformanceRecommendation.NeedsReview)
  else
    (ResearchCandidateShadowPerformanceStatus.Healthy,
     ResearchCandidateShadowPerformanceRecommendation.KeepObserving).

Definition evaluate_research_candidate_shadow_performance (candidate_id : Z)
    (candidate_status : ResearchCandidateStatus.t) (strategy_id symbol timeframe : string)
    (window_start window_end total_shadow_runs would_submit_count no_signal_count
     risk_rejected_count skipped_count error_count : Z) (last_shadow_run_at : option Z)
    (completed_shadow_runs independent_shadow_observation_count unique_evaluated_candle_count
     duplicate_same_candle_runs_count : Z)
    (latest_evaluated_candle_open_time latest_valid_shadow_run_at latest_skipped_shadow_run_at
     : option Z) (runner_alignment_current : bool) (computed_at : Z)
    : ResearchCandidateShadowPerformance :=
  let would_submit_rate_pct := calculate_percentage_rate would_submit_count total_shadow_runs in
  let risk_rejection_rate_pct := calculate_percentage_rate risk_rejected_count total_shadow_runs in
  let skipped_or_error_rate_pct :=
    calculate_percentage_rate (skipped_count + error_count) total_shadow_runs in
  let independent := Z.max independent_shadow_observation_count 0 in
  let unique := Z.max unique_evaluated_candle_count 0 in
  let duplicate := Z.max duplicate_same_candle_runs_count 0 in
  let verdict := shadow_performance_verdict candidate_status runner_alignment_current
    total_shadow_runs would_submit_count risk_rejection_rate_pct skipped_or_error_rate_pct in
  {| pf_candidate_id := candidate_id; pf_strategy_id := strategy_id; pf_symbol := symbol;
     pf_timeframe := timeframe; pf_window_start := window_start; pf_window_end := window_end;
     pf_total_shadow_runs := total_shadow_runs; pf_would_submit_count := would_submit_count;
     pf_no_signal_count := no_signal_count; pf_risk_rejected_count := risk_rejected_count;
     pf_skipped_count := skipped_count; pf_error_count := error_count;
     pf_would_submit_rate_pct := would_submit_rate_pct;
     pf_risk_rejection_rate_pct := risk_rejection_rate_pct;
     pf_last_shadow_run_at := last_shadow_run_at;
     pf_completed_shadow_runs := completed_shadow_runs;
     pf_independent_shadow_observation_count := independent;
     pf_unique_evaluated_candle_count := unique;
     pf_duplicate_same_candle_runs_count := duplicate;
     pf_latest_evaluated_candle_open_time := latest_evaluated_candle_open_time;
     pf_latest_valid_shadow_run_at := latest_valid_shadow_run_at;
     pf_latest_skipped_shadow_run_at := latest_skipped_shadow_run_at;
     pf_runner_alignment_current := runner_alignment_current;
     pf_recommendation := snd verdict;
     pf_status := fst verdict;
     pf_outcome_breakdown :=
       {| bk_total_shadow_runs := total_shadow_runs;
          bk_completed_shadow_runs := completed_shadow_runs;
          bk_independent_shadow_observation_count := independent;
          bk_unique_evaluated_candle_count := unique;
          bk_duplicate_same_candle_runs_count := duplicate;
          bk_would_submit_count := would_submit_count;
          bk_no_signal_count := no_signal_count;
          bk_risk_rejected_count := risk_rejected_count;
          bk_skipped_count := skipped_count;
          bk_error_count := error_count;
          bk_would_submit_rate_pct := would_submit_rate_pct;
          bk_risk_rejection_rate_pct := risk_rejection_rate_pct |};
     pf_computed_at := computed_at |}.
End Qualifying.

(** ** When a candidate qualifies *)

Lemma advice_rank_inj x y : advice_rank x = advice_rank y -> x = y.
Proof. by destruct x, y. Qed.

Section QualificationFacts.
Context {DI : Decimal} {CH : Chrono} {JS : Json} {JD : JsonScalars} {JB : JsonBuild}.

(** A failed blocking check. *)
Definition blocks (step : finding_step) : bool :=
  negb (qk_passed (fs_check step)) && qk_blocking (fs_check step).

Lemma failing_nil steps :
  failing true (map fs_check steps) = [] <-> existsb blocks steps = false.
Proof.
  unfold failing. induction steps as [|step steps IH]; cbn [map List.filter existsb]; [done|].
  rewrite orb_false_iff, <- IH. unfold blocks.
  by destruct (qk_passed (fs_check step)), (qk_blocking (fs_check step)); cbn; intuition congruence.
Qed.

Context (request : ResearchCandidateQualificationRequest).
Abbreviation thresholds := (qr_thresholds request).
Abbreviation result := (evaluate_research_candidate_qualification request).

Definition walk_forward_is (status : StrategyWalkForwardRobustnessStatus.t) : bool :=
  bool_decide (option_map we_robustness_status (qr_walk_forward_evidence request) = Some status).
Definition readiness_is (status : ExecutionReadinessStatus.t) : bool :=
  bool_decide (qr_latest_readiness_status request = Some status).

Lemma walk_forward_step_spec :
  let step := walk_forward_step (qr_walk_forward_evidence request) in
  blocks step = walk_forward_is StrategyWalkForwardRobustnessStatus.OverfitRisk ||
                walk_forward_is StrategyWalkForwardRobustnessStatus.Failed /\
  fs_degraded step = walk_forward_is StrategyWalkForwardRobustnessStatus.Weak /\
  fs_needs_more_data step =
    (bool_decide (qr_walk_forward_evidence request = None) ||
     walk_forward_is StrategyWalkForwardRobustnessStatus.InsufficientData) /\
  fs_capped step = blocks step /\ 0 <= fs_penalty step <= 40 /\
  (walk_forward_is StrategyWalkForwardRobustnessStatus.Robust = true -> fs_penalty step = 0).
Proof.
  unfold walk_forward_is, walk_forward_step, blocks.
  destruct (qr_walk_forward_evidence request) as [e|]; cbn; [|repeat split; lia || easy].
  destruct (we_robustness_status e); cbn; repeat split; lia || easy.
Qed.

Lemma readiness_step_spec :
  let step := readiness_step (qr_latest_readiness_status request) in
  blocks step = readiness_is ExecutionReadinessStatus.NotReady /\
  fs_degraded step = negb (readiness_is ExecutionReadinessStatus.Ready) &&
                     negb (readiness_is ExecutionReadinessStatus.NotReady) /\
  fs_needs_more_data step = false /\ fs_capped step = blocks step /\ 0 <= fs_penalty step <= 30 /\
  (readiness_is ExecutionReadinessStatus.Ready = true -> fs_penalty step = 0).
Proof.
  unfold readiness_is, readiness_step, blocks.
  destruct (qr_latest_readiness_status request) as [[]|]; cbn; repeat split; lia || easy.
Qed.

(** What a check that costs points contributes. *)
Lemma costing_spec check passed penalty degraded explanation advice :
  let step := costing check passed penalty degraded explanation advice in
  fs_check step = check /\ fs_degraded step = degraded && negb passed /\
  fs_needs_more_data step = false /\ fs_capped step = false /\
  fs_penalty step = if passed then 0 else penalty.
Proof. by destruct passed, degraded. Qed.

Definition fresh_missing : bool :=
  th_require_fresh_observation thresholds && negb (qr_fresh_observation request).
Definition misaligned : bool :=
  th_require_runner_alignment thresholds && negb (qr_runner_alignment_valid request).
Definition mismatched : bool :=
  th_max_runner_mismatch_count thresholds <? qr_runner_mismatch_count request.
Definition few_would_submit : bool :=
  performance_count request pf_would_submit_count <? th_min_would_submit_count thresholds.
Definition rejects_too_much : bool :=
  (th_max_risk_rejection_rate_pct thresholds <? risk_rejection_rate request)%dec.
Definition skips_too_much : bool :=
  (th_max_error_or_skipped_rate_pct thresholds <? skipped_or_error_rate request)%dec.

(** What rules a candidate out, whatever else is in order. *)
Definition ruled_out : bool :=
  negb (status_is_accepted (qr_candidate_status request)) ||
  fresh_missing && negb (valid_shadow_evidence_available request) ||
  misaligned || negb (qr_shadow_runner_covers_candidate request) ||
  mismatched && (th_max_runner_mismatch_count thresholds =? 0) ||
  walk_forward_is StrategyWalkForwardRobustnessStatus.OverfitRisk ||
  walk_forward_is StrategyWalkForwardRobustnessStatus.Failed ||
  few_would_submit && enough_shadow_runs request ||
  readiness_is ExecutionReadinessStatus.NotReady.

(** What degrades a candidate that nothing rules out. *)
Definition degrading : bool :=
  mismatched || walk_forward_is StrategyWalkForwardRobustnessStatus.Weak ||
  few_would_submit || rejects_too_much || skips_too_much ||
  negb (readiness_is ExecutionReadinessStatus.Ready) &&
  negb (readiness_is ExecutionReadinessStatus.NotReady).


Lemma accepted_step_spec : let step := accepted_step (qr_candidate_status request) in
  blocks step = negb (status_is_accepted (qr_candidate_status request)) /\
  fs_degraded step = false /\ fs_needs_more_data step = false /\ fs_capped step = false /\
  fs_penalty step = if status_is_accepted (qr_candidate_status request) then 0 else 35.
Proof. unfold accepted_step, blocks. by destruct (status_is_accepted _). Qed.

Lemma promoted_step_spec : let step := promoted_step (qr_candidate_status request) in
  blocks step = false /\ fs_degraded step = false /\ fs_needs_more_data step = false /\
  fs_capped step = false /\
  fs_penalty step = if status_is_promoted (qr_candidate_status request) then 0 else 20.
Proof. unfold promoted_step, blocks. by destruct (status_is_promoted _). Qed.

Lemma fresh_observation_step_spec : let step := fresh_observation_step request in
  blocks step = fresh_missing && negb (valid_shadow_evidence_available request) /\
  fs_degraded step = false /\ fs_needs_more_data step = false /\ fs_capped step = false /\
  fs_penalty step = if fresh_missing then 25 else 0.
Proof.
  unfold fresh_observation_step, blocks, fresh_missing.
  by destruct (th_require_fresh_observation _), (qr_fresh_observation request),
    (valid_shadow_evidence_available request).
Qed.

Lemma alignment_step_spec : let step := alignment_step request in
  blocks step = misaligned /\
  fs_degraded step = false /\ fs_needs_more_data step = false /\ fs_capped step = false /\
  fs_penalty step = if misaligned then 25 else 0.
Proof.
  unfold alignment_step, blocks, misaligned.
  by destruct (th_require_runner_alignment _), (qr_runner_alignment_valid request).
Qed.

Lemma coverage_step_spec : let step := coverage_step request in
  blocks step = negb (qr_shadow_runner_covers_candidate request) /\
  fs_degraded step = false /\ fs_needs_more_data step = false /\ fs_capped step = false /\
  fs_penalty step = if qr_shadow_runner_covers_candidate request then 0 else 20.
Proof. unfold coverage_step, blocks. by destruct (qr_shadow_runner_covers_candidate request). Qed.

Lemma mismatch_step_spec : let step := mismatch_step request in
  blocks step = mismatched && (th_max_runner_mismatch_count thresholds =? 0) /\
  fs_degraded step = mismatched /\ fs_needs_more_data step = false /\ fs_capped step = false /\
  fs_penalty step = if mismatched then 10 else 0.
Proof.
  unfold mismatch_step, blocks, mismatched. rewrite Z.leb_antisym.
  by destruct (_ <? _), (_ =? 0).
Qed.

Lemma shadow_runs_step_spec : let step := shadow_runs_step request in
  blocks step = false /\ fs_degraded step = false /\ fs_needs_more_data step = false /\
  fs_capped step = false /\ fs_penalty step = if enough_shadow_runs request then 0 else 20.
Proof. unfold shadow_runs_step, blocks. by destruct (enough_shadow_runs request). Qed.

Lemma would_submit_step_spec : let step := would_submit_step request in
  blocks step = few_would_submit && enough_shadow_runs request /\
  fs_degraded step = few_would_submit /\ fs_needs_more_data step = false /\
  fs_capped step = false /\ fs_penalty step = if few_would_submit then 20 else 0.
Proof.
  unfold would_submit_step, blocks, few_would_submit. rewrite Z.leb_antisym.
  by destruct (_ <? _), (enough_shadow_runs request).
Qed.

Lemma risk_rejection_step_spec : let step := risk_rejection_step request in
  blocks step = false /\ fs_degraded step = rejects_too_much /\
  fs_needs_more_data step = false /\ fs_capped step = false /\
  fs_penalty step = if rejects_too_much then 15 else 0.
Proof.
  unfold risk_rejection_step, blocks, rejects_too_much, dltb. by destruct (dleb _ _).
Qed.

Lemma skipped_step_spec : let step := skipped_step request in
  blocks step = false /\ fs_degraded step = skips_too_much /\
  fs_needs_more_data step = false /\ fs_capped step = false /\
  fs_penalty step = if skips_too_much then 15 else 0.
Proof. unfold skipped_step, blocks, skips_too_much, dltb. by destruct (dleb _ _). Qed.

Lemma exists_step_spec : let step := exists_step (qr_candidate_status request) in
  blocks step = negb (is_some (qr_candidate_status request)) /\ fs_degraded step = false /\
  fs_needs_more_data step = false /\ fs_capped step = false /\ fs_penalty step = 0.
Proof. unfold exists_step, blocks. by destruct (qr_candidate_status request). Qed.

(** The two steps that are there only when they have something to say. *)
Lemma optional_steps_spec steps : In steps [override_step thresholds; duplicates_step request] ->
  existsb blocks steps = false /\ existsb fs_degraded steps = false /\
  existsb fs_needs_more_data steps = false /\ existsb fs_capped steps = false.
Proof.
  unfold override_step, duplicates_step. intros [<-|[<-|[]]]; [destruct (threshold_override_below_default _)|
    destruct (0 <? _)]; done.
Qed.

Definition needs_more_data : bool :=
  bool_decide (qr_walk_forward_evidence request = None) ||
  walk_forward_is StrategyWalkForwardRobustnessStatus.InsufficientData.

(** What the fifteen checks say together. *)
Lemma steps_verdict : let steps := qualification_steps request in
  existsb blocks steps = ruled_out /\ existsb fs_degraded steps = degrading /\
  existsb fs_needs_more_data steps = needs_more_data /\
  existsb fs_capped steps =
    (walk_forward_is StrategyWalkForwardRobustnessStatus.OverfitRisk ||
     walk_forward_is StrategyWalkForwardRobustnessStatus.Failed ||
     readiness_is ExecutionReadinessStatus.NotReady).
Proof.
  destruct (optional_steps_spec (override_step thresholds)) as (Eo1 & Eo2 & Eo3 & Eo4); [by left|].
  destruct (optional_steps_spec (duplicates_step request)) as (Ed1 & Ed2 & Ed3 & Ed4);
    [by right; left|].
  pose proof exists_step_spec as (X1 & X2 & X3 & X4 & _).
  pose proof accepted_step_spec as (A1 & A2 & A3 & A4 & _).
  pose proof promoted_step_spec as (P1 & P2 & P3 & P4 & _).
  pose proof fresh_observation_step_spec as (F1 & F2 & F3 & F4 & _).
  pose proof alignment_step_spec as (L1 & L2 & L3 & L4 & _).
  pose proof coverage_step_spec as (C1 & C2 & C3 & C4 & _).
  pose proof mismatch_step_spec as (M1 & M2 & M3 & M4 & _).
  pose proof walk_forward_step_spec as (W1 & W2 & W3 & W4 & _). rewrite W1 in W4.
  pose proof shadow_runs_step_spec as (S1 & S2 & S3 & S4 & _).
  pose proof would_submit_step_spec as (U1 & U2 & U3 & U4 & _).
  pose proof risk_rejection_step_spec as (R1 & R2 & R3 & R4 & _).
  pose proof skipped_step_spec as (K1 & K2 & K3 & K4 & _).
  pose proof readiness_step_spec as (Y1 & Y2 & Y3 & Y4 & _). rewrite Y1 in Y4.
  unfold qualification_steps, ruled_out, degrading, needs_more_data.
  repeat split; rewrite !existsb_app; cbn [existsb].
  - rewrite Eo1, Ed1, X1, A1, P1, F1, L1, C1, M1, W1, S1, U1, R1, K1, Y1.
    destruct (qr_candidate_status request) as [[]|]; cbn [is_some status_is_accepted negb orb];
      rewrite ?orb_false_r, ?orb_true_r, ?orb_assoc; btauto.
  - rewrite Eo2, Ed2, X2, A2, P2, F2, L2, C2, M2, W2, S2, U2, R2, K2, Y2. btauto.
  - rewrite Eo3, Ed3, X3, A3, P3, F3, L3, C3, M3, W3, S3, U3, R3, K3, Y3. btauto.
  - rewrite Eo4, Ed4, X4, A4, P4, F4, L4, C4, M4, W4, S4, U4, R4, K4, Y4. btauto.
Qed.

(** Every piece of evidence is in order. *)
Definition evidence_complete : Prop :=
  qr_candidate_status request = Some ResearchCandidateStatus.PromotedToShadowConfig /\
  (th_require_fresh_observation thresholds = true ->
   qr_fresh_observation request = true \/ valid_shadow_evidence_available request = true) /\
  (th_require_runner_alignment thresholds = true -> qr_runner_alignment_valid request = true) /\
  qr_shadow_runner_covers_candidate request = true /\
  qr_runner_mismatch_count request <= th_max_runner_mismatch_count thresholds /\
  (exists evidence, qr_walk_forward_evidence request = Some evidence /\
     we_robustness_status evidence = StrategyWalkForwardRobustnessStatus.Robust) /\
  th_min_shadow_runs thresholds <= performance_count request pf_independent_shadow_observation_count /\
  th_min_would_submit_count thresholds <= performance_count request pf_would_submit_count /\
  (dval (risk_rejection_rate request) <= dval (th_max_risk_rejection_rate_pct thresholds))%Q /\
  (dval (skipped_or_error_rate request) <= dval (th_max_error_or_skipped_rate_pct thresholds))%Q /\
  qr_latest_readiness_status request = Some ExecutionReadinessStatus.Ready.

(** Nothing rules the candidate out, degrades it or asks for more. *)
Definition in_order : bool :=
  negb ruled_out && negb needs_more_data && status_is_promoted (qr_candidate_status request) &&
  enough_shadow_runs request && negb degrading.


Definition evidence_ok : bool :=
  status_is_promoted (qr_candidate_status request) &&
  (negb fresh_missing || valid_shadow_evidence_available request) && negb misaligned &&
  qr_shadow_runner_covers_candidate request && negb mismatched &&
  walk_forward_is StrategyWalkForwardRobustnessStatus.Robust &&
  enough_shadow_runs request && negb few_would_submit &&
  negb rejects_too_much && negb skips_too_much && readiness_is ExecutionReadinessStatus.Ready.

Ltac kill_bits :=
  repeat progress (cbn [negb andb orb]; rewrite ?andb_false_r, ?orb_true_r, ?orb_false_r, ?andb_true_r);
  try reflexivity.

Lemma in_order_ok : in_order = evidence_ok.
Proof.
  unfold in_order, evidence_ok, ruled_out, degrading, needs_more_data, walk_forward_is, readiness_is.
  generalize fresh_missing misaligned mismatched few_would_submit rejects_too_much skips_too_much
    (enough_shadow_runs request) (valid_shadow_evidence_available request)
    (qr_shadow_runner_covers_candidate request) (th_max_runner_mismatch_count thresholds =? 0).
  intros fresh mis mm few rej skip enough valid cov zero.
  assert (status_is_promoted (qr_candidate_status request) = true ->
    status_is_accepted (qr_candidate_status request) = true) as Hacc
    by (destruct (qr_candidate_status request) as [[]|]; done).
  destruct (status_is_promoted _); kill_bits; rewrite (Hacc eq_refl); clear Hacc.
  destruct enough; kill_bits. destruct mm; kill_bits. destruct few; kill_bits.
  destruct rej; kill_bits. destruct skip; kill_bits. destruct mis; kill_bits. destruct cov; kill_bits.
  destruct fresh, valid; kill_bits.
  all: destruct (qr_walk_forward_evidence request) as [e|]; cbn [option_map];
    [destruct (we_robustness_status e)|]; by destruct (qr_latest_readiness_status request) as [[]|].
Qed.

Lemma evidence_ok_iff : evidence_ok = true <-> evidence_complete.
Proof.
  unfold evidence_ok, evidence_complete, fresh_missing, misaligned, mismatched, few_would_submit,
    rejects_too_much, skips_too_much, dltb, walk_forward_is, readiness_is, enough_shadow_runs,
    status_is_promoted.
  rewrite !negb_involutive, !andb_true_iff, !bool_decide_eq_true, !dleb_le, !negb_true_iff, !Z.ltb_ge,
    Z.leb_le, orb_true_iff, !negb_true_iff, !andb_false_iff, !negb_false_iff.
  assert (forall o, option_map we_robustness_status o = Some StrategyWalkForwardRobustnessStatus.Robust <->
    exists e, o = Some e /\ we_robustness_status e = StrategyWalkForwardRobustnessStatus.Robust) as ->.
  { intros [e|]; cbn; split; [intros [= <-]; eauto| intros (? & [= <-] & ->) |..]; naive_solver. }
  destruct (th_require_fresh_observation thresholds), (th_require_runner_alignment thresholds); tauto || intuition congruence.
Qed.

Lemma result_status : qu_status result =
  if negb (is_some (qr_candidate_status request)) then ResearchCandidateQualificationStatus.Unknown
  else if ruled_out then ResearchCandidateQualificationStatus.NotQualified
  else if needs_more_data || negb (status_is_promoted (qr_candidate_status request)) ||
          negb (enough_shadow_runs request) then ResearchCandidateQualificationStatus.NeedsMoreData
  else if degrading then ResearchCandidateQualificationStatus.Degraded
  else ResearchCandidateQualificationStatus.Qualified.
Proof.
  destruct steps_verdict as (E1 & E2 & E3 & _). cbn [qu_status evaluate_research_candidate_qualification].
  rewrite E2, E3. unfold qualification_status.
  destruct (is_some _); [cbn [negb]|done].
  destruct (failing true _) eqn:Ef; cbn [vec_is_empty negb].
  - apply failing_nil in Ef. rewrite E1 in Ef. rewrite Ef.
    by destruct needs_more_data, (status_is_promoted _), (enough_shadow_runs _).
  - destruct ruled_out; [done|]. exfalso.
    assert (failing true (map fs_check (qualification_steps request)) = []) by (by apply failing_nil).
    congruence.
Qed.

Lemma qualified_iff_ok :
  qu_status result = ResearchCandidateQualificationStatus.Qualified <-> evidence_ok = true.
Proof.
  rewrite result_status, <- in_order_ok. unfold in_order.
  destruct (qr_candidate_status request) as [status|] eqn:E; cbn [is_some negb].
  2:{ assert (ruled_out = true) as -> by (unfold ruled_out; by rewrite E). done. }
  destruct ruled_out, needs_more_data, (status_is_promoted _), (enough_shadow_runs _), degrading;
    cbn; intuition congruence.
Qed.

Lemma robust_excludes : walk_forward_is StrategyWalkForwardRobustnessStatus.Robust = true ->
  walk_forward_is StrategyWalkForwardRobustnessStatus.OverfitRisk = false /\
  walk_forward_is StrategyWalkForwardRobustnessStatus.Failed = false.
Proof. unfold walk_forward_is. rewrite bool_decide_eq_true. by intros ->. Qed.

Lemma no_step_recommends_promotion :
  ~ In ResearchCandidateQualificationRecommendation.ReadyForTestnetPromotionConsideration
      (set_collect advice_rank fs_recommendation (qualification_steps request)).
Proof.
  rewrite (in_set_collect advice_rank advice_rank_inj). intros (step & Hin & Hrec).
  assert (forall check passed penalty degraded explanation advice,
    fs_recommendation (costing check passed penalty degraded explanation advice) = Some advice \/
    fs_recommendation (costing check passed penalty degraded explanation advice) = None) as Hc
    by (intros ? [] *; cbn; auto).
  unfold qualification_steps, override_step, duplicates_step in Hin. rewrite !in_app_iff in Hin.
  destruct Hin as [Hin|[Hin|[Hin|Hin]]];
    [by case_match; [destruct Hin as [<-|[]]|]| |by case_match; [destruct Hin as [<-|[]]|]|];
    cbn [In] in Hin;
    repeat (destruct Hin as [<-|Hin]; [first
      [ unfold accepted_step, promoted_step, fresh_observation_step, alignment_step, coverage_step,
          mismatch_step, shadow_runs_step, would_submit_step, risk_rejection_step, skipped_step in Hrec;
        match type of Hrec with context [costing ?c ?p ?n ?d ?e ?a] =>
          destruct (Hc c p n d e a) as [E|E]; rewrite E in Hrec; congruence end
      | unfold exists_step in Hrec; cbn in Hrec; by destruct (is_some _)
      | unfold walk_forward_step in Hrec; by repeat case_match
      | unfold readiness_step in Hrec; by repeat case_match ]|]); done.
Qed.

(** A candidate is QUALIFIED exactly when every piece of its evidence is in order: it is
    promoted, freshly or validly observed, covered by an aligned runner without mismatches
    beyond the limit, walk-forward ROBUST, with enough independent shadow observations and
    enough WOULD_SUBMIT outcomes, rejection and skip rates within their limits, and
    readiness READY.  A known candidate is NOT_QUALIFIED exactly when one of the nine
    disqualifying findings holds, UNKNOWN is only for a candidate that is not found, and
    testnet promotion is recommended exactly for a qualified candidate judged by thresholds
    that are not below the defaults. *)
Theorem qualification_verdict_spec :
  (qu_status result = ResearchCandidateQualificationStatus.Qualified <-> evidence_complete) /\
  (qu_status result = ResearchCandidateQualificationStatus.NotQualified <->
   qr_candidate_status request <> None /\ ruled_out = true) /\
  (qu_status result = ResearchCandidateQualificationStatus.Unknown <->
   qr_candidate_status request = None) /\
  (In ResearchCandidateQualificationRecommendation.ReadyForTestnetPromotionConsideration
     (qu_recommendations result) <->
   evidence_complete /\ threshold_override_below_default thresholds = false).
Proof.
  rewrite <- evidence_ok_iff, <- qualified_iff_ok.
  split; [done|]. split; [|split].
  - rewrite result_status. destruct (qr_candidate_status request); cbn; [|intuition congruence].
    repeat case_match; intuition congruence.
  - rewrite result_status. destruct (qr_candidate_status request); cbn; [|intuition congruence].
    repeat case_match; intuition congruence.
  - assert (qu_status result = ResearchCandidateQualificationStatus.Qualified ->
      qr_latest_readiness_status request = Some ExecutionReadinessStatus.Ready) as Hready.
    { rewrite qualified_iff_ok, evidence_ok_iff. unfold evidence_complete. tauto. }
    transitivity (bool_decide (qu_status result = ResearchCandidateQualificationStatus.Qualified) &&
      negb (threshold_override_below_default thresholds) &&
      bool_decide (qr_latest_readiness_status request = Some ExecutionReadinessStatus.Ready) = true).
    + change (qu_recommendations result) with
        (if bool_decide (qu_status result = ResearchCandidateQualificationStatus.Qualified) &&
            negb (threshold_override_below_default thresholds) &&
            bool_decide (qr_latest_readiness_status request = Some ExecutionReadinessStatus.Ready)
         then set_insert advice_rank
           ResearchCandidateQualificationRecommendation.ReadyForTestnetPromotionConsideration
           (set_collect advice_rank fs_recommendation (qualification_steps request))
         else set_collect advice_rank fs_recommendation (qualification_steps request)).
      destruct (_ && _ && _).
      * rewrite (in_set_insert _ advice_rank_inj). by split; auto.
      * split; [|done]. intros H. by apply no_step_recommends_promotion in H.
    + rewrite !andb_true_iff, !bool_decide_eq_true, negb_true_iff. tauto.
Qed.

(** ** The score *)

Definition total_penalty_points (steps : list finding_step) : Z :=
  foldr (fun step n => fs_penalty step + n) 0 steps.

Lemma deduct_uncapped steps s : existsb fs_capped steps = false ->
  foldl deduct s steps = s - total_penalty_points steps.
Proof.
  revert s. induction steps as [|step steps IH]; intros s; cbn [existsb foldl total_penalty_points foldr].
  { lia. }
  intros [H1 H2]%orb_false_iff. rewrite (IH _ H2). unfold deduct. rewrite H1. unfold total_penalty_points. lia.
Qed.

Lemma deduct_le steps s : Forall (fun step => 0 <= fs_penalty step) steps -> foldl deduct s steps <= s.
Proof.
  intros H. revert s. induction H as [|step steps Hp _ IH]; intros s; cbn [foldl]; [lia|].
  etrans; [apply IH|]. unfold deduct. destruct (fs_capped step); lia.
Qed.

Lemma deduct_capped steps s : Forall (fun step => 0 <= fs_penalty step) steps ->
  existsb fs_capped steps = true -> foldl deduct s steps <= 40.
Proof.
  intros H. revert s. induction H as [|step steps Hp Hs IH]; intros s; cbn [foldl existsb]; [done|].
  destruct (fs_capped step) eqn:E; cbn [orb]; [intros _|apply IH].
  etrans; [by apply deduct_le|]. unfold deduct. rewrite E. lia.
Qed.

Lemma total_penalty_points_app a b :
  total_penalty_points (a ++ b) = total_penalty_points a + total_penalty_points b.
Proof. unfold total_penalty_points. induction a as [|x a IH]; cbn [app foldr]; lia. Qed.

(** What the checks cost together. *)
Definition penalties (walk_forward : Z) : Z :=
  (if threshold_override_below_default thresholds then 5 else 0) +
  (if status_is_accepted (qr_candidate_status request) then 0 else 35) +
  (if status_is_promoted (qr_candidate_status request) then 0 else 20) +
  (if fresh_missing then 25 else 0) + (if misaligned then 25 else 0) +
  (if qr_shadow_runner_covers_candidate request then 0 else 20) + (if mismatched then 10 else 0) +
  walk_forward + (if enough_shadow_runs request then 0 else 20) +
  (if 0 <? performance_count request pf_duplicate_same_candle_runs_count then 5 else 0) +
  (if few_would_submit then 20 else 0) + (if rejects_too_much then 15 else 0) +
  (if skips_too_much then 15 else 0) + readiness_penalty (qr_latest_readiness_status request).

Lemma readiness_step_penalty status : fs_penalty (readiness_step status) = readiness_penalty status.
Proof. by destruct status as [[]|]. Qed.

Lemma steps_penalty : total_penalty_points (qualification_steps request) =
  penalties (fs_penalty (walk_forward_step (qr_walk_forward_evidence request))).
Proof.
  pose proof exists_step_spec as (_ & _ & _ & _ & X).
  pose proof accepted_step_spec as (_ & _ & _ & _ & A).
  pose proof promoted_step_spec as (_ & _ & _ & _ & P).
  pose proof fresh_observation_step_spec as (_ & _ & _ & _ & F).
  pose proof alignment_step_spec as (_ & _ & _ & _ & L).
  pose proof coverage_step_spec as (_ & _ & _ & _ & C).
  pose proof mismatch_step_spec as (_ & _ & _ & _ & M).
  pose proof shadow_runs_step_spec as (_ & _ & _ & _ & S).
  pose proof would_submit_step_spec as (_ & _ & _ & _ & U).
  pose proof risk_rejection_step_spec as (_ & _ & _ & _ & R).
  pose proof skipped_step_spec as (_ & _ & _ & _ & K).
  assert (total_penalty_points (override_step thresholds) =
    if threshold_override_below_default thresholds then 5 else 0) as O.
  { unfold override_step. by destruct (threshold_override_below_default _). }
  assert (total_penalty_points (duplicates_step request) =
    if 0 <? performance_count request pf_duplicate_same_candle_runs_count then 5 else 0) as D.
  { unfold duplicates_step. by destruct (0 <? _). }
  unfold qualification_steps, penalties. rewrite !total_penalty_points_app, O, D.
  unfold total_penalty_points. cbn [foldr].
  rewrite X, A, P, F, L, C, M, S, U, R, K, readiness_step_penalty. lia.
Qed.

Lemma steps_penalty_nonneg : Forall (fun step => 0 <= fs_penalty step) (qualification_steps request).
Proof.
  assert (forall check passed penalty degraded explanation advice, 0 <= penalty ->
    0 <= fs_penalty (costing check passed penalty degraded explanation advice)) as Hc
    by (intros ? [] *; cbn; lia).
  pose proof walk_forward_step_spec as (_ & _ & _ & _ & W & _).
  pose proof readiness_step_spec as (_ & _ & _ & _ & Y & _).
  unfold qualification_steps, override_step, duplicates_step. rewrite !Forall_app.
  split; [case_match; repeat constructor; cbn; lia|]. split; [|split].
  - repeat (constructor; [first [apply Hc; lia | cbn; lia | tauto]|]). constructor.
  - case_match; repeat constructor; cbn; lia.
  - repeat (constructor; [first [apply Hc; lia | cbn; lia | tauto]|]). constructor.
Qed.

Lemma ok_uncapped : evidence_ok = true -> existsb fs_capped (qualification_steps request) = false.
Proof.
  destruct steps_verdict as (_ & _ & _ & ->). unfold evidence_ok.
  rewrite !andb_true_iff. intros ((((((_ & Hwf) & _) & _) & _) & _) & Hrd).
  apply robust_excludes in Hwf as [-> ->]. revert Hrd. unfold readiness_is.
  rewrite bool_decide_eq_true. by intros ->.
Qed.

Lemma ok_penalties : evidence_ok = true ->
  penalties (fs_penalty (walk_forward_step (qr_walk_forward_evidence request))) =
  (if fresh_missing then 25 else 0) +
  (if 0 <? performance_count request pf_duplicate_same_candle_runs_count then 5 else 0) +
  (if threshold_override_below_default thresholds then 5 else 0).
Proof.
  pose proof walk_forward_step_spec as (_ & _ & _ & _ & _ & Wp).
  pose proof readiness_step_spec as (_ & _ & _ & _ & _ & Yp). rewrite readiness_step_penalty in Yp.
  unfold evidence_ok. rewrite !andb_true_iff, !negb_true_iff.
  intros ((((((((((Hpr & _) & Hmi) & Hco) & Hmm) & Hwf) & Hen) & Hfw) & Hrr) & Hsk) & Hrd).
  unfold penalties. rewrite (Wp Hwf), (Yp Hrd), Hpr, Hmi, Hco, Hmm, Hen, Hfw, Hrr, Hsk.
  assert (status_is_accepted (qr_candidate_status request) = true) as ->
    by (unfold status_is_promoted in Hpr; apply bool_decide_eq_true in Hpr; by rewrite Hpr).
  lia.
Qed.

Lemma result_score :
  qu_score result = clamp_score (foldl deduct 100 (qualification_steps request)).
Proof. reflexivity. Qed.

(** The score of a qualification lies between 0 and 100 and is 100 less the points its
    failed checks cost, unless a disqualifying walk-forward verdict or a NOT_READY platform
    caps it at 40; a qualified candidate has at least 65, losing points only for the stale
    observation, the duplicate runs and the loosened thresholds that do not disqualify. *)
Theorem qualification_score_spec :
  0 <= qu_score result <= 100 /\
  (walk_forward_is StrategyWalkForwardRobustnessStatus.OverfitRisk ||
   walk_forward_is StrategyWalkForwardRobustnessStatus.Failed ||
   readiness_is ExecutionReadinessStatus.NotReady = true -> qu_score result <= 40) /\
  (walk_forward_is StrategyWalkForwardRobustnessStatus.OverfitRisk ||
   walk_forward_is StrategyWalkForwardRobustnessStatus.Failed ||
   readiness_is ExecutionReadinessStatus.NotReady = false ->
   qu_score result = Z.max 0 (100 - penalties
     (fs_penalty (walk_forward_step (qr_walk_forward_evidence request))))) /\
  (qu_status result = ResearchCandidateQualificationStatus.Qualified ->
   qu_score result = 100 - (if fresh_missing then 25 else 0)
     - (if 0 <? performance_count request pf_duplicate_same_candle_runs_count then 5 else 0)
     - (if threshold_override_below_default thresholds then 5 else 0)).
Proof.
  destruct steps_verdict as (_ & _ & _ & Ecap). pose proof steps_penalty_nonneg as Hp.
  rewrite result_score.
  unfold clamp_score. pose proof (deduct_le _ 100 Hp) as Hle. split; [lia|].
  split; [|split].
  - intros H. rewrite H in Ecap. pose proof (deduct_capped _ 100 Hp Ecap). lia.
  - intros H. rewrite H in Ecap. rewrite (deduct_uncapped _ _ Ecap), steps_penalty in *. lia.
  - rewrite qualified_iff_ok. intros Hok.
    rewrite (deduct_uncapped _ _ (ok_uncapped Hok)), steps_penalty, (ok_penalties Hok).
    destruct fresh_missing, (0 <? _), (threshold_override_below_default _); reflexivity.
Qed.
End QualificationFacts.

(** ** On a sample *)
Module QualificationSample.
#[local] Existing Instance ExactDecimal.
#[local] Existing Instance PlainChrono.
#[local] Existing Instance TreeJson.
#[local] Existing Instance TreeScalars.
#[local] Existing Instance TreeBuild.

Definition robust : ResearchCandidateWalkForwardEvidence := {|
  we_walk_forward_run_id := 7; we_robustness_status := StrategyWalkForwardRobustnessStatus.Robust;
  we_status := "COMPLETED"; we_recommendation_action := None; we_recommendation_reason := None;
  we_total_windows := 4; we_completed_windows := 4; we_profitable_windows := 4;
  we_losing_windows := 0; we_avg_pnl_pct := dnew 2 0; we_worst_pnl_pct := dnew 1 0;
  we_best_pnl_pct := dnew 3 0; we_robustness_score := dnew 90 0;
  we_consistency_score := dnew 95 0; we_created_at := 0; we_linked_at := 0 |}.

Definition performance : ResearchCandidateShadowPerformance :=
  evaluate_research_candidate_shadow_performance 1 ResearchCandidateStatus.PromotedToShadowConfig
    "momentum_v1" "BTCUSDT" "5m" 0 100 40 5 30 4 1 0 (Some 99) 39 39 40 2 (Some 98) (Some 99) None
    true 100.

Definition request (walk_forward : ResearchCandidateWalkForwardEvidence)
    : ResearchCandidateQualificationRequest := {|
  qr_candidate_id := 1;
  qr_candidate_status := Some ResearchCandidateStatus.PromotedToShadowConfig;
  qr_fresh_observation := true; qr_formal_observation_status := None;
  qr_formal_observation_stale := false; qr_runner_alignment_valid := true;
  qr_shadow_runner_covers_candidate := true; qr_runner_mismatch_count := 0;
  qr_latest_readiness_status := Some ExecutionReadinessStatus.Ready;
  qr_walk_forward_evidence := Some walk_forward; qr_shadow_performance := Some performance;
  qr_shadow_pnl_attribution := None; qr_thresholds := default_thresholds; qr_computed_at := 100 |}.

Definition overfit : ResearchCandidateWalkForwardEvidence := {|
  we_walk_forward_run_id := 8; we_robustness_status := StrategyWalkForwardRobustnessStatus.OverfitRisk;
  we_status := "COMPLETED"; we_recommendation_action := None; we_recommendation_reason := None;
  we_total_windows := 4; we_completed_windows := 4; we_profitable_windows := 2;
  we_losing_windows := 2; we_avg_pnl_pct := dnew 2 0; we_worst_pnl_pct := dnew (-5) 0;
  we_best_pnl_pct := dnew 9 0; we_robustness_score := dnew 30 0;
  we_consistency_score := dnew 40 0; we_created_at := 0; we_linked_at := 0 |}.

(** Two duplicate runs cost a qualified candidate 5 points. *)
Example qualifies : let result := evaluate_research_candidate_qualification (request robust) in
  (qu_status result, qu_score result, qu_recommendations result) =
  (ResearchCandidateQualificationStatus.Qualified, 95,
   [ResearchCandidateQualificationRecommendation.ReadyForTestnetPromotionConsideration]).
Proof. vm_compute. reflexivity. Qed.

(** The same evidence with an overfit walk-forward run is ruled out, at 35 points. *)
Example overfit_ruled_out :
  let result := evaluate_research_candidate_qualification (request overfit) in
  (qu_status result, qu_score result, qu_blockers result) =
  (ResearchCandidateQualificationStatus.NotQualified, 35,
   ["Walk-forward robustness is OVERFIT_RISK."]).
Proof. vm_compute. reflexivity. Qed.
End QualificationSample.
