(* ===== verification/Session.v ===== *)
(** * Users, sessions and route access

    Who may call what: [authorize_request] and [route_access] (crates/api/src/main.rs,
    4211-4505), the bootstrap of the owner, login, logout and refresh (5937-6455), the tokens
    (crates/api/src/auth.rs), the rows of users and sessions and their statements
    (crates/db/src/lib.rs, 1127-1425), the roles (crates/core/src/lib.rs).

    Argon2, SHA-256, the JSON web tokens and the parsing of identifiers are arguments
    ([AuthLib]).  The time to live of a token is a number of seconds.  The statement of a
    logout, whose result the code ignores, may fail ([ae_revoke_fails]).  Audit rows and
    events are left out; their failures are ignored by the code. *)

From Stdlib Require Import ZArith Lia List String Ascii.
From stdpp Require Import base list strings countable relations.
From S2P Require Import Prelude Text Host Types.

#[local] Open Scope Z_scope.

(** ** Texts *)

(** [value.split_once(sep)] *)
Fixpoint split_once (sep : ascii) (value : string) : option (string * string) :=
  match value with
  | EmptyString => None
  | String c value =>
      if Ascii.eqb c sep then Some (EmptyString, value)
      else option_map (fun p => (String c (fst p), snd p)) (split_once sep value)
  end.

(** [value.split(sep)] *)
Fixpoint split (sep : ascii) (value : string) : list string :=
  match value with
  | EmptyString => [EmptyString]
  | String c value =>
      if Ascii.eqb c sep then EmptyString :: split sep value
      else match split sep value with
           | part :: parts => String c part :: parts
           | [] => [String c EmptyString]
           end
  end.

Definition starts_with (start value : string) : bool := String.prefix start value.

Definition ends_with (suffix value : string) : bool :=
  String.eqb (String.substring (String.length value - String.length suffix) (String.length suffix) value)
    suffix.

(** [value.strip_prefix(start)] *)
Fixpoint strip_prefix (start value : string) : option string :=
  match start, value with
  | EmptyString, _ => Some value
  | String a start, String b value => if Ascii.eqb a b then strip_prefix start value else None
  | String _ _, EmptyString => None
  end.

(** The bytes of a value, each as [format!("{byte:02x}")]. *)
Definition hex_digit (n : Z) : ascii := ascii_of_nat (Z.to_nat (if n <? 10 then 48 + n else 87 + n)).

Definition hex_byte (byte : Z) : string :=
  String (hex_digit (byte / 16)) (String (hex_digit (byte mod 16)) EmptyString).

Definition hex (bytes : list Z) : string := String.concat EmptyString (map hex_byte bytes).

(** ** Roles and routes *)

Definition permissions (role : UserRole.t) : list Permission.t :=
  match role with
  | UserRole.Owner => [Permission.ReadInspection; Permission.RunPaperPipeline; Permission.RunBacktest;
      Permission.RunBackfill; Permission.MarkPaperAccount; Permission.ClosePaperPosition;
      Permission.ToggleStrategy; Permission.UpdateStrategyConfig; Permission.UpdateRiskConfig;
      Permission.ResumeKillSwitch; Permission.ManageApiKeysPlaceholder]
  | UserRole.Operator => [Permission.ReadInspection; Permission.RunPaperPipeline; Permission.RunBacktest;
      Permission.RunBackfill; Permission.MarkPaperAccount; Permission.ClosePaperPosition;
      Permission.ToggleStrategy]
  | UserRole.Viewer => [Permission.ReadInspection]
  end.

Definition has_permission (role : UserRole.t) (permission : Permission.t) : bool :=
  bool_decide (permission ∈ permissions role).

Definition MIN_PASSWORD_LENGTH : nat := 12.

Definition validate_password_length (password : string) : res CoreError.t unit :=
  if (chars_count password <? MIN_PASSWORD_LENGTH)%nat
  then Err (CoreError.PasswordTooShort MIN_PASSWORD_LENGTH) else Ok tt.

Module RouteAccess.
Inductive t :=
  | Public
  | Authenticated
  | Operator
  | Owner.
#[global] Instance eq_dec : EqDecision t.
Proof. solve_decision. Defined.
End RouteAccess.

Definition route_access (method path : string) (protect_metrics : bool) : RouteAccess.t :=
  let get := String.eqb method "GET" in
  let post := String.eqb method "POST" in
  if get && String.eqb path "/system/health" then RouteAccess.Public
  else if post && existsb (String.eqb path) ["/auth/login"; "/auth/bootstrap-owner"; "/auth/refresh"]
  then RouteAccess.Public
  else if get && String.eqb path "/metrics" && negb protect_metrics then RouteAccess.Public
  else if post && String.eqb path "/reports/operator/daily" then RouteAccess.Authenticated
  else if get && (String.eqb path "/reports/operator" || starts_with "/reports/operator/" path)
  then RouteAccess.Authenticated
  else if get && String.eqb path "/exchange/testnet/balances" then RouteAccess.Operator
  else if get && starts_with "/exchange/testnet/orders/" path && ends_with "/repairs" path
  then RouteAccess.Authenticated
  else if get && starts_with "/exchange/testnet/orders/" path then RouteAccess.Operator
  else if get && String.eqb path "/exchange/testnet/orders" then RouteAccess.Operator
  else if post && String.eqb path "/exchange/testnet/pipeline/preview" then RouteAccess.Operator
  else if post && String.eqb path "/exchange/testnet/shadow/run" then RouteAccess.Operator
  else if post && starts_with "/research/candidates/" path && ends_with "/shadow-observe-once" path
  then RouteAccess.Operator
  else if post && String.eqb path "/exchange/testnet/shadow/promotions/preview"
  then RouteAccess.Operator
  else if post && starts_with "/exchange/testnet/shadow/promotions/" path && ends_with "/submit" path
  then RouteAccess.Owner
  else if post && String.eqb path "/exchange/testnet/shadow-runner/config/update"
  then RouteAccess.Owner
  else if post && String.eqb path "/exchange/testnet/shadow-runner/config/validate"
  then RouteAccess.Owner
  else if post && String.eqb path "/exchange/testnet/shadow-runner/control" then RouteAccess.Operator
  else if post && String.eqb path "/exchange/testnet/pipeline/submit" then RouteAccess.Owner
  else if post && String.eqb path "/exchange/testnet/reconcile" then RouteAccess.Operator
  else if post && String.eqb path "/market/candles/aggregate" then RouteAccess.Operator
  else if post && String.eqb path "/market/candles/repair/run" then RouteAccess.Operator
  else if post && String.eqb path "/market/candles/repair/plan" then RouteAccess.Authenticated
  else if post && String.eqb path "/research/stale-runs/recover-preview" then RouteAccess.Authenticated
  else if post && String.eqb path "/research/candidates/import-bundle/preview"
  then RouteAccess.Authenticated
  else if post && String.eqb path "/research/stale-runs/recover" then RouteAccess.Operator
  else if get && (String.eqb path "/market/candles/repair/runs" ||
                  starts_with "/market/candles/repair/runs/" path)
  then RouteAccess.Authenticated
  else if post && starts_with "/research/candidates/" path && ends_with "/accept-shadow/apply" path
  then RouteAccess.Operator
  else if post && starts_with "/research/candidates/" path && ends_with "/promote-shadow/preview" path
  then RouteAccess.Operator
  else if post && starts_with "/research/candidates/" path && ends_with "/promote-shadow/apply" path
  then RouteAccess.Owner
  else if post && starts_with "/exchange/testnet/orders/" path && ends_with "/repair" path
  then RouteAccess.Operator
  else if get then RouteAccess.Authenticated
  else if String.eqb path "/risk/resume" || String.eqb path "/risk/config/update"
  then RouteAccess.Owner
  else if starts_with "/strategy/" path && ends_with "/config/update" path then RouteAccess.Owner
  else if String.eqb path "/exchange/testnet/orders" || starts_with "/exchange/testnet/orders/" path
  then RouteAccess.Owner
  else RouteAccess.Operator.

Definition permitted (access : RouteAccess.t) (role : UserRole.t) : bool :=
  match access with
  | RouteAccess.Public | RouteAccess.Authenticated => true
  | RouteAccess.Operator =>
      bool_decide (role = UserRole.Owner) || bool_decide (role = UserRole.Operator)
  | RouteAccess.Owner => bool_decide (role = UserRole.Owner)
  end.

(** ** Tokens *)

Record AccessTokenClaims := {
  ac_sub : string;
  ac_email : string;
  ac_role : UserRole.t;
  ac_session_id : string;
  ac_exp : Z;
  ac_iat : Z
}.

(** The cryptography, the identifiers as text, and [lower] of PostgreSQL.  A password is hashed
    with a salt; a stored hash that cannot be parsed verifies nothing ([None]).  [jwt_decode] is
    given the time in seconds. *)
Class AuthLib := {
  argon2_hash : string -> string -> option string;
  argon2_verify : string -> string -> option bool;
  sha256 : string -> list Z;
  jwt_encode : string -> AccessTokenClaims -> option string;
  jwt_decode : string -> Z -> string -> option AccessTokenClaims;
  uuid_parse : string -> option Z;
  pg_lower : string -> string
}.

(** An identifier is printed without a dot and read back; a token is read back until it expires
    by the key that signed it; a password verifies against its own hash. *)
Class AuthLibLaws {UT : UuidText} (AL : AuthLib) := {
  uuid_parse_show : forall id, 0 <= id < 2 ^ 128 -> uuid_parse (uuid_show id) = Some id;
  uuid_show_no_dot : forall id rest,
    split_once "." (uuid_show id +:+ "." +:+ rest) = Some (uuid_show id, rest);
  jwt_decode_encode : forall secret claims token now,
    jwt_encode secret claims = Some token -> now < ac_exp claims ->
    jwt_decode secret now token = Some claims;
  argon2_verify_hash : forall salt password hash,
    argon2_hash salt password = Some hash -> argon2_verify password hash = Some true
}.

Record AuthConfig := {
  cf_disabled : bool;
  cf_jwt_secret : option string;
  cf_access_token_ttl : Z;
  cf_refresh_token_ttl : Z;
  cf_cookie_secure : bool;
  cf_protect_metrics : bool;
  cf_bootstrap_owner_email : option string;
  cf_bootstrap_owner_password : option string
}.

Record AuthenticatedActor := {
  at_user_id : Z;
  at_email : string;
  at_role : UserRole.t;
  at_session_id : option Z
}.

Record User := {
  us_id : Z;
  us_email : string;
  us_role : UserRole.t;
  us_status : UserStatus.t;
  us_created_at : Z;
  us_updated_at : Z;
  us_last_login_at : option Z
}.

Record UserRecord := {
  ur_id : Z;
  ur_email : string;
  ur_password_hash : string;
  ur_role : string;
  ur_status : string;
  ur_created_at : Z;
  ur_updated_at : Z;
  ur_last_login_at : option Z
}.

Record SessionRecord := {
  ss_id : Z;
  ss_user_id : Z;
  ss_refresh_token_hash : string;
  ss_expires_at : Z;
  ss_revoked_at : option Z;
  ss_created_at : Z;
  ss_updated_at : Z;
  ss_user_agent : option string;
  ss_ip_address : option string
}.

Definition dev_actor : AuthenticatedActor := {|
  at_user_id := 0; at_email := "auth-disabled@local.aegis"; at_role := UserRole.Owner;
  at_session_id := None |}.

Definition user_from_record (record : UserRecord) : res CoreError.t User :=
  role ← from_str (A := UserRole.t) (ur_role record);
  status ← from_str (A := UserStatus.t) (ur_status record);
  mret {| us_id := ur_id record; us_email := ur_email record; us_role := role; us_status := status;
          us_created_at := ur_created_at record; us_updated_at := ur_updated_at record;
          us_last_login_at := ur_last_login_at record |}.

Section Auth.
Context {CH : Chrono} {CA : ChronoArith} {CS : ChronoSeconds} {UT : UuidText} {AL : AuthLib}.

Definition hash_password (salt password : string) : option string :=
  match validate_password_length password with
  | Ok _ => argon2_hash salt password
  | _ => None
  end.

Definition verify_password (password password_hash : string) : option bool :=
  argon2_verify password password_hash.

Record IssuedAccessToken := {
  it_token : string;
  it_expires_at : Z
}.

Record RefreshToken := {
  rk_raw : string;
  rk_hash : string
}.

(** [Err] is an error of the token; [Panic] is [DateTime + Duration] out of range.  The seconds
    of a time after 1970 are a [usize]. *)
Definition issue_access_token (config : AuthConfig) (user : User) (session_id now : Z)
    : res string IssuedAccessToken :=
  match try_seconds (cf_access_token_ttl config) with
  | None => Err "invalid access token ttl"
  | Some ttl =>
      match checked_add now ttl with
      | None => Panic
      | Some expires_at =>
          let claims := {| ac_sub := uuid_show (us_id user); ac_email := us_email user;
            ac_role := us_role user; ac_session_id := uuid_show session_id;
            ac_exp := timestamp expires_at; ac_iat := timestamp now |} in
          match cf_jwt_secret config with
          | None => Err "JWT secret is not configured"
          | Some secret =>
              match jwt_encode secret claims with
              | Some token => Ok {| it_token := token; it_expires_at := expires_at |}
              | None => Err "failed to encode the token"
              end
          end
      end
  end.

Definition decode_access_token (config : AuthConfig) (now : Z) (token : string)
    : option AccessTokenClaims :=
  match cf_jwt_secret config with
  | None => None
  | Some secret => jwt_decode secret (timestamp now) token
  end.

Definition actor_from_claims (claims : AccessTokenClaims) : option AuthenticatedActor :=
  match uuid_parse (ac_sub claims), uuid_parse (ac_session_id claims) with
  | Some user_id, Some session_id =>
      Some {| at_user_id := user_id; at_email := ac_email claims; at_role := ac_role claims;
              at_session_id := Some session_id |}
  | _, _ => None
  end.

Definition hash_refresh_token (token : string) : string := hex (sha256 token).

(** [secret]: 32 random bytes. *)
Definition issue_refresh_token (session_id : Z) (secret : list Z) : RefreshToken :=
  let raw := uuid_show session_id +:+ "." +:+ hex secret in
  {| rk_raw := raw; rk_hash := hash_refresh_token raw |}.

Definition parse_refresh_token (raw : string) : option Z :=
  match split_once "." raw with
  | Some (session_id, _) => uuid_parse session_id
  | None => None
  end.

Definition bootstrap_credentials (config : AuthConfig) : option (string * string) :=
  match cf_bootstrap_owner_email config, cf_bootstrap_owner_password config with
  | Some email, Some password =>
      match validate_password_length password with Ok _ => Some (email, password) | _ => None end
  | _, _ => None
  end.

(** ** The tables *)

Record AuthStore := {
  as_users : list UserRecord;
  as_sessions : list SessionRecord
}.

(** A refused call: its status and the code of its error. *)
Record AuthError := {
  ax_status : Z;
  ax_code : string
}.
Definition unauthorized_response (code : string) : AuthError := {| ax_status := 401; ax_code := code |}.
Definition internal_error_response (code : string) : AuthError := {| ax_status := 500; ax_code := code |}.

Definition find_user (id : Z) (s : AuthStore) : option UserRecord :=
  find_key ur_id id (as_users s).

Definition get_user_by_email (email : string) (s : AuthStore) : option UserRecord :=
  List.find (fun row => String.eqb (pg_lower (ur_email row)) (pg_lower email)) (as_users s).

Definition get_session_by_id (id : Z) (s : AuthStore) : option SessionRecord :=
  find_key ss_id id (as_sessions s).

Definition get_session_by_id_and_hash (id : Z) (hash : string) (s : AuthStore) : option SessionRecord :=
  match get_session_by_id id s with
  | Some row => if String.eqb (ss_refresh_token_hash row) hash then Some row else None
  | None => None
  end.

(** The identifier and the email are unique; [None] is a violation. *)
Definition insert_user (id : Z) (email password_hash : string) (role : UserRole.t)
    (status : UserStatus.t) (db_now : Z) (s : AuthStore) : option (UserRecord * AuthStore) :=
  let row := {| ur_id := id; ur_email := pg_lower email; ur_password_hash := password_hash;
    ur_role := UserRole.as_str role; ur_status := UserStatus.as_str status; ur_created_at := db_now;
    ur_updated_at := db_now; ur_last_login_at := None |} in
  if existsb (fun user => (ur_id user =? id) || String.eqb (ur_email user) (ur_email row)) (as_users s)
  then None
  else Some (row, {| as_users := as_users s ++ [row]; as_sessions := as_sessions s |}).

Definition logged_in (logged_in_at db_now : Z) (row : UserRecord) : UserRecord := {|
  ur_id := ur_id row; ur_email := ur_email row; ur_password_hash := ur_password_hash row;
  ur_role := ur_role row; ur_status := ur_status row; ur_created_at := ur_created_at row;
  ur_updated_at := db_now; ur_last_login_at := Some logged_in_at |}.

Definition update_user_last_login (user_id logged_in_at db_now : Z) (s : AuthStore)
    : option (UserRecord * AuthStore) :=
  match find_user user_id s with
  | None => None
  | Some row =>
      Some (logged_in logged_in_at db_now row,
        {| as_users := rewrite_key ur_id user_id (logged_in logged_in_at db_now) (as_users s);
           as_sessions := as_sessions s |})
  end.

(** A session has a fresh identifier and belongs to a user. *)
Definition insert_session (id user_id : Z) (refresh_token_hash : string) (expires_at : Z)
    (user_agent ip_address : option string) (db_now : Z) (s : AuthStore) : option AuthStore :=
  if existsb (fun row => ss_id row =? id) (as_sessions s) then None
  else match find_user user_id s with
       | None => None
       | Some _ =>
           Some {| as_users := as_users s; as_sessions := as_sessions s ++ [{|
             ss_id := id; ss_user_id := user_id; ss_refresh_token_hash := refresh_token_hash;
             ss_expires_at := expires_at; ss_revoked_at := None; ss_created_at := db_now;
             ss_updated_at := db_now; ss_user_agent := user_agent; ss_ip_address := ip_address |}] |}
       end.

Definition set_sessions (rows : list SessionRecord) (s : AuthStore) : AuthStore :=
  {| as_users := as_users s; as_sessions := rows |}.

Definition rotated_session (next_hash : string) (expires_at db_now : Z)
    (user_agent ip_address : option string) (row : SessionRecord) : SessionRecord := {|
  ss_id := ss_id row; ss_user_id := ss_user_id row; ss_refresh_token_hash := next_hash;
  ss_expires_at := expires_at; ss_revoked_at := ss_revoked_at row; ss_created_at := ss_created_at row;
  ss_updated_at := db_now; ss_user_agent := coalesce user_agent (ss_user_agent row);
  ss_ip_address := coalesce ip_address (ss_ip_address row) |}.

Definition rotate_session_refresh_token (id : Z) (current_hash next_hash : string)
    (expires_at db_now : Z) (user_agent ip_address : option string) (s : AuthStore)
    : option SessionRecord * AuthStore :=
  match get_session_by_id_and_hash id current_hash s with
  | Some row =>
      match ss_revoked_at row with
      | Some _ => (None, s)
      | None =>
          let change := rotated_session next_hash expires_at db_now user_agent ip_address in
          (Some (change row), set_sessions (rewrite_key ss_id id change (as_sessions s)) s)
      end
  | None => (None, s)
  end.

Definition revoked_session (revoked_at db_now : Z) (row : SessionRecord) : SessionRecord := {|
  ss_id := ss_id row; ss_user_id := ss_user_id row;
  ss_refresh_token_hash := ss_refresh_token_hash row; ss_expires_at := ss_expires_at row;
  ss_revoked_at := coalesce (ss_revoked_at row) (Some revoked_at); ss_created_at := ss_created_at row;
  ss_updated_at := db_now; ss_user_agent := ss_user_agent row; ss_ip_address := ss_ip_address row |}.

Definition revoke_session (id revoked_at db_now : Z) (s : AuthStore) : AuthStore :=
  set_sessions (rewrite_key ss_id id (revoked_session revoked_at db_now) (as_sessions s)) s.

(** ** The calls *)

Record AuthRequest := {
  aq_method : string;
  aq_path : string;
  aq_authorization : option string;
  aq_cookie : option string
}.

Definition bearer_token (request : AuthRequest) : option string :=
  match aq_authorization request with
  | Some value => strip_prefix "Bearer " value
  | None => None
  end.

Definition REFRESH_COOKIE_NAME : string := "aegis_refresh_token".

(** The value of one part of a cookie header, when it is the refresh token. *)
Definition cookie_part (part : string) : option string :=
  match split_once "=" (trim part) with
  | Some (name, value) => if String.eqb name REFRESH_COOKIE_NAME then Some value else None
  | None => None
  end.

Definition refresh_cookie (request : AuthRequest) : option string :=
  match aq_cookie request with
  | Some value => find_map cookie_part (split ";" value)
  | None => None
  end.

(** What lets a request through: nobody on a public route, otherwise the actor. *)
Definition authorize_request (config : AuthConfig) (now : Z) (request : AuthRequest) (s : AuthStore)
    : res AuthError (option AuthenticatedActor) :=
  let access := route_access (aq_method request) (aq_path request) (cf_protect_metrics config) in
  if cf_disabled config then
    Ok (if bool_decide (access = RouteAccess.Public) then None else Some dev_actor)
  else if bool_decide (access = RouteAccess.Public) then Ok None
  else match bearer_token request with
  | None => Err (unauthorized_response "unauthorized")
  | Some token =>
      match decode_access_token config now token with
      | None => Err (unauthorized_response "invalid_access_token")
      | Some claims =>
          match actor_from_claims claims with
          | None => Err (unauthorized_response "invalid_access_token")
          | Some actor =>
              match at_session_id actor with
              | None => Err (unauthorized_response "invalid_access_token")
              | Some session_id =>
                  match get_session_by_id session_id s with
                  | Some session =>
                      if bool_decide (ss_revoked_at session = None) && (now <? ss_expires_at session) then
                        if permitted access (at_role actor) then Ok (Some actor)
                        else Err {| ax_status := 403; ax_code := "forbidden" |}
                      else Err (unauthorized_response "expired_or_revoked_session")
                  | None => Err (unauthorized_response "expired_or_revoked_session")
                  end
              end
          end
      end
  end.

(** What a call reads outside the tables; [ae_others] is what other sessions do between the
    first statement of a call and the one that writes, and [ae_revoke_fails] tells whether
    the statement of a logout fails. *)
Record AuthEnv := {
  ae_now : nat -> Z;
  ae_db_now : Z;
  ae_user_id : Z;
  ae_session_id : Z;
  ae_secret : list Z;
  ae_salt : string;
  ae_user_agent : option string;
  ae_ip_address : option string;
  ae_cli_auth : bool;
  ae_revoke_fails : bool;
  ae_others : AuthStore -> AuthStore
}.

Record AuthReply := {
  rp_user : User;
  rp_access_token : string;
  rp_expires_at : Z;
  rp_refresh_token : option string;
  rp_cookie : string
}.

(** [Utc::now() + Duration::from_std(ttl).expect(..)]; [None] is a panic. *)
Definition refresh_expires_at (config : AuthConfig) (now : Z) : option Z :=
  match try_seconds (cf_refresh_token_ttl config) with
  | Some ttl => checked_add now ttl
  | None => None
  end.

Definition token_reply (env : AuthEnv) (user : User) (access : IssuedAccessToken)
    (refresh_token : RefreshToken) : AuthReply := {|
  rp_user := user; rp_access_token := it_token access; rp_expires_at := it_expires_at access;
  rp_refresh_token := if ae_cli_auth env then Some (rk_raw refresh_token) else None;
  rp_cookie := rk_raw refresh_token |}.

Definition bootstrap_owner (env : AuthEnv) (config : AuthConfig) (s : AuthStore)
    : res AuthError User * AuthStore :=
  match as_users s with
  | _ :: _ => (Err {| ax_status := 409; ax_code := "owner_already_bootstrapped" |}, s)
  | [] =>
      match bootstrap_credentials config with
      | None => (Err {| ax_status := 400; ax_code := "missing_bootstrap_credentials" |}, s)
      | Some (email, password) =>
          match hash_password (ae_salt env) password with
          | None => (Err {| ax_status := 400; ax_code := "invalid_bootstrap_password" |}, s)
          | Some password_hash =>
              let s := ae_others env s in
              match insert_user (ae_user_id env) email password_hash UserRole.Owner UserStatus.Active
                      (ae_db_now env) s with
              | None => (Err (internal_error_response "failed_to_bootstrap_owner"), s)
              | Some (record, s) =>
                  match user_from_record record with
                  | Ok user => (Ok user, s)
                  | _ => (Err (internal_error_response "failed_to_bootstrap_owner"), s)
                  end
              end
          end
      end
  end.

(** The second half of a login: the session and the tokens of a user. *)
Definition open_session (env : AuthEnv) (config : AuthConfig) (user : User) (s : AuthStore)
    : res AuthError AuthReply * AuthStore :=
  let refresh_token := issue_refresh_token (ae_session_id env) (ae_secret env) in
  match refresh_expires_at config (ae_now env 1%nat) with
  | None => (Panic, s)
  | Some expires_at =>
      match insert_session (ae_session_id env) (us_id user) (rk_hash refresh_token) expires_at
              (ae_user_agent env) (ae_ip_address env) (ae_db_now env) s with
      | None => (Err (internal_error_response "failed_to_login"), s)
      | Some s =>
          match issue_access_token config user (ae_session_id env) (ae_now env 2%nat) with
          | Ok access => (Ok (token_reply env user access refresh_token), s)
          | Err _ => (Err (internal_error_response "failed_to_login"), s)
          | Panic => (Panic, s)
          end
      end
  end.

Definition login (env : AuthEnv) (config : AuthConfig) (email password : string) (s : AuthStore)
    : res AuthError AuthReply * AuthStore :=
  match get_user_by_email (to_ascii_lowercase (trim email)) s with
  | None => (Err (unauthorized_response "invalid_credentials"), s)
  | Some record =>
      match user_from_record record with
      | Ok user =>
          let password_ok := default false (verify_password password (ur_password_hash record)) in
          if negb password_ok || negb (bool_decide (us_status user = UserStatus.Active))
          then (Err (unauthorized_response "invalid_credentials"), s)
          else match update_user_last_login (us_id user) (ae_now env 0%nat) (ae_db_now env) s with
               | None => (Err (internal_error_response "failed_to_login"), s)
               | Some (record, s) =>
                   match user_from_record record with
                   | Ok user => open_session env config user s
                   | _ => (Err (internal_error_response "failed_to_login"), s)
                   end
               end
      | _ => (Err (internal_error_response "failed_to_login"), s)
      end
  end.

Definition logout (env : AuthEnv) (actor : option AuthenticatedActor) (s : AuthStore)
    : res AuthError unit * AuthStore :=
  match actor with
  | None => (Err (unauthorized_response "unauthorized"), s)
  | Some actor =>
      (Ok tt, match at_session_id actor with
              | Some session_id =>
                  if ae_revoke_fails env then s
                  else revoke_session session_id (ae_now env 0%nat) (ae_db_now env) s
              | None => s
              end)
  end.

(** The token of a refresh: the cookie before the body. *)
Definition presented_token (request : AuthRequest) (body : option string) : option string :=
  match refresh_cookie request with
  | Some token => Some token
  | None => match body with
            | Some token => if is_empty (trim token) then None else Some token
            | None => None
            end
  end.

(** The second half of a refresh: the tokens of the user of a rotated session. *)
Definition reply_refreshed (env : AuthEnv) (config : AuthConfig) (session : SessionRecord)
    (next : RefreshToken) (s : AuthStore) : res AuthError AuthReply * AuthStore :=
  match find_user (ss_user_id session) s with
  | None => (Err (unauthorized_response "invalid_refresh_token"), s)
  | Some record =>
      match user_from_record record with
      | Ok user =>
          match issue_access_token config user (ss_id session) (ae_now env 2%nat) with
          | Ok access => (Ok (token_reply env user access next), s)
          | Err _ => (Err (internal_error_response "failed_to_refresh"), s)
          | Panic => (Panic, s)
          end
      | _ => (Err (internal_error_response "failed_to_refresh"), s)
      end
  end.

Definition refresh (env : AuthEnv) (config : AuthConfig) (request : AuthRequest) (body : option string)
    (s : AuthStore) : res AuthError AuthReply * AuthStore :=
  match presented_token request body with
  | None => (Err (unauthorized_response "missing_refresh_token"), s)
  | Some raw =>
      match parse_refresh_token raw with
      | None => (Err (unauthorized_response "invalid_refresh_token"), s)
      | Some session_id =>
          let current_hash := hash_refresh_token raw in
          match get_session_by_id_and_hash session_id current_hash s with
          | None => (Err (unauthorized_response "invalid_refresh_token"), s)
          | Some session =>
              if negb (bool_decide (ss_revoked_at session = None)) ||
                 (ss_expires_at session <=? ae_now env 0%nat)
              then (Err (unauthorized_response "expired_refresh_token"), s)
              else
                let next := issue_refresh_token (ss_id session) (ae_secret env) in
                match refresh_expires_at config (ae_now env 1%nat) with
                | None => (Panic, s)
                | Some expires_at =>
                    match rotate_session_refresh_token (ss_id session) current_hash (rk_hash next)
                            expires_at (ae_db_now env) (ae_user_agent env) (ae_ip_address env)
                            (ae_others env s) with
                    | (None, s) => (Err (unauthorized_response "invalid_refresh_token"), s)
                    | (Some rotated, s) => reply_refreshed env config rotated next s
                    end
                end
          end
      end
  end.

(** ** Statements and their effect on the history *)

(** One statement of some session of the server; [fresh] restricts the refresh-token hashes that
    are stored. *)
Inductive auth_step (fresh : string -> Prop) : AuthStore -> AuthStore -> Prop :=
  | auth_user id email password_hash role status db_now row s s' :
      insert_user id email password_hash role status db_now s = Some (row, s') -> auth_step fresh s s'
  | auth_last_login id logged_in_at db_now row s s' :
      update_user_last_login id logged_in_at db_now s = Some (row, s') -> auth_step fresh s s'
  | auth_session id user_id hash expires_at user_agent ip_address db_now s s' :
      fresh hash ->
      insert_session id user_id hash expires_at user_agent ip_address db_now s = Some s' ->
      auth_step fresh s s'
  | auth_rotate id current next expires_at db_now user_agent ip_address row s s' :
      fresh next ->
      rotate_session_refresh_token id current next expires_at db_now user_agent ip_address s = (row, s') ->
      auth_step fresh s s'
  | auth_revoke id revoked_at db_now s : auth_step fresh s (revoke_session id revoked_at db_now s).

Definition any_hash (hash : string) : Prop := True.

(** A session keeps its user; once revoked it keeps everything but the time of its last change. *)
Definition session_follows (row row' : SessionRecord) : Prop :=
  ss_id row' = ss_id row /\ ss_user_id row' = ss_user_id row /\
  ss_created_at row' = ss_created_at row /\
  forall t, ss_revoked_at row = Some t ->
    ss_revoked_at row' = Some t /\ ss_refresh_token_hash row' = ss_refresh_token_hash row /\
    ss_expires_at row' = ss_expires_at row.

(** A user keeps the email, the password, the role and the status. *)
Definition user_follows (row row' : UserRecord) : Prop :=
  ur_id row' = ur_id row /\ ur_email row' = ur_email row /\
  ur_password_hash row' = ur_password_hash row /\ ur_role row' = ur_role row /\
  ur_status row' = ur_status row.

#[export] Instance session_follows_preorder : PreOrder session_follows.
Proof.
  split.
  - intros row. repeat split; done.
  - intros a b c (H1 & H2 & H3 & H4) (H1' & H2' & H3' & H4'). repeat split; try congruence;
      apply H4 in H as (? & ? & ?); destruct (H4' t) as (? & ? & ?); congruence.
Qed.

#[export] Instance user_follows_preorder : PreOrder user_follows.
Proof.
  split; [by intros row; repeat split|].
  intros a b c (H1 & H2 & H3 & H4 & H5) (H1' & H2' & H3' & H4' & H5'). repeat split; congruence.
Qed.

Definition history (s s' : AuthStore) : Prop :=
  (forall id row, get_session_by_id id s = Some row ->
     exists row', get_session_by_id id s' = Some row' /\ session_follows row row') /\
  (forall id row, find_user id s = Some row ->
     exists row', find_user id s' = Some row' /\ user_follows row row').

#[export] Instance history_preorder : PreOrder history.
Proof.
  split.
  - intros s. split; intros id row Hrow; exists row; done.
  - intros s1 s2 s3 [Hs Hu] [Hs' Hu']. split; intros id row Hrow.
    + destruct (Hs _ _ Hrow) as (row1 & Hrow1 & H1). destruct (Hs' _ _ Hrow1) as (row2 & Hrow2 & H2).
      exists row2. split; [done|]. by transitivity row1.
    + destruct (Hu _ _ Hrow) as (row1 & Hrow1 & H1). destruct (Hu' _ _ Hrow1) as (row2 & Hrow2 & H2).
      exists row2. split; [done|]. by transitivity row1.
Qed.

(** Rewriting one session by a change that it may follow. *)
Lemma rewrite_session_history id change s :
  (forall row, get_session_by_id id s = Some row -> session_follows row (change row)) ->
  (forall row, ss_id (change row) = ss_id row) ->
  history s (set_sessions (rewrite_key ss_id id change (as_sessions s)) s).
Proof.
  intros Hfollows Hkey. split; [|intros id' row Hrow; by exists row]. intros id' row Hrow.
  unfold get_session_by_id in *. cbn [as_sessions set_sessions].
  rewrite find_key_rewrite, Hrow by done. cbn. eexists. split; [done|].
  destruct (Z.eqb_spec id' id) as [->|]; [by apply Hfollows|done].
Qed.

Lemma auth_step_history fresh s s' : auth_step fresh s s' -> history s s'.
Proof.
  intros [id email password_hash role status db_now row s1 s2 Hins
         |id logged_in_at db_now row s1 s2 Hup
         |id user_id hash expires_at user_agent ip_address db_now s1 s2 _ Hins
         |id current next expires_at db_now user_agent ip_address row s1 s2 _ Hrot
         |id revoked_at db_now s1].
  - unfold insert_user in Hins. destruct (existsb _ _); [done|]. injection Hins as <- <-.
    split; intros id' row Hrow; [by exists row|]. exists row. split; [|done].
    unfold find_user in *. cbn [as_users]. by rewrite find_key_app, Hrow.
  - unfold update_user_last_login in Hup. destruct (find_user id s1) as [row1|]; [|done].
    injection Hup as _ <-. split; intros id' row' Hrow'; [by exists row'|].
    unfold find_user in *. cbn [as_users]. rewrite find_key_rewrite, Hrow' by done. cbn.
    eexists. split; [done|]. by destruct (id' =? id).
  - unfold insert_session in Hins. destruct (existsb _ _); [done|].
    destruct (find_user user_id s1); [|done]. injection Hins as <-.
    split; intros id' row Hrow; [|by exists row]. exists row. split; [|done].
    unfold get_session_by_id in *. cbn [as_sessions]. by rewrite find_key_app, Hrow.
  - unfold rotate_session_refresh_token, get_session_by_id_and_hash in Hrot.
    destruct (get_session_by_id id s1) as [row1|] eqn:Hrow; [|by injection Hrot as _ <-].
    destruct (String.eqb _ current); [|by injection Hrot as _ <-].
    destruct (ss_revoked_at row1) eqn:Hrev; injection Hrot as _ <-; [done|].
    apply rewrite_session_history; [|done]. intros row' Hrow'.
    assert (row' = row1) as -> by congruence. split; [done|]. split; [done|]. split; [done|].
    intros t. congruence.
  - apply rewrite_session_history; [|done]. intros row' _. do 3 (split; [done|]). intros t Ht.
    cbn. by rewrite Ht.
Qed.

Lemma auth_steps_history fresh s s' : rtc (auth_step fresh) s s' -> history s s'.
Proof. induction 1 as [|s s1 s' Hstep _ IH]; [done|]. transitivity s1; [by eapply auth_step_history|done]. Qed.

(** ** The calls as sequences of statements *)

Definition others_are_steps (fresh : string -> Prop) (env : AuthEnv) : Prop :=
  forall s, rtc (auth_step fresh) s (ae_others env s).

Lemma bootstrap_steps fresh env config s r s' : others_are_steps fresh env ->
  bootstrap_owner env config s = (r, s') -> rtc (auth_step fresh) s s'.
Proof.
  intros Hothers. unfold bootstrap_owner. destruct (as_users s); [|by intros [= <- <-]].
  destruct (bootstrap_credentials config) as [[email password]|]; [|by intros [= <- <-]].
  destruct (hash_password _ _) as [hash|]; [|by intros [= <- <-]].
  destruct (insert_user _ _ _ _ _ _ _) as [[record s1]|] eqn:Hins.
  2: { intros [= <- <-]. apply Hothers. }
  intros Hrun. assert (s' = s1) as ->.
  { destruct (user_from_record record); by injection Hrun as _ <-. }
  eapply rtc_r; [apply Hothers|]. by eapply auth_user.
Qed.

Lemma open_session_steps fresh env config user s r s' :
  fresh (rk_hash (issue_refresh_token (ae_session_id env) (ae_secret env))) ->
  open_session env config user s = (r, s') -> rtc (auth_step fresh) s s'.
Proof.
  intros Hfresh. unfold open_session. destruct (refresh_expires_at _ _); [|by intros [= <- <-]].
  destruct (insert_session _ _ _ _ _ _ _ _) as [s1|] eqn:Hins; [|by intros [= <- <-]].
  intros Hrun. assert (s' = s1) as ->.
  { destruct (issue_access_token _ _ _ _); by injection Hrun as _ <-. }
  eapply rtc_once, auth_session; [exact Hfresh|exact Hins].
Qed.

Lemma login_steps fresh env config email password s r s' :
  fresh (rk_hash (issue_refresh_token (ae_session_id env) (ae_secret env))) ->
  login env config email password s = (r, s') -> rtc (auth_step fresh) s s'.
Proof.
  intros Hfresh. unfold login. destruct (get_user_by_email _ _) as [record|]; [|by intros [= <- <-]].
  destruct (user_from_record record) as [user| |]; try by intros [= <- <-].
  destruct (_ || _); [by intros [= <- <-]|].
  destruct (update_user_last_login _ _ _ _) as [[record1 s1]|] eqn:Hup; [|by intros [= <- <-]].
  assert (auth_step fresh s s1) as Hstep by by eapply auth_last_login.
  destruct (user_from_record record1) as [user1| |]; [|by intros [= _ <-]; apply rtc_once..].
  intros Hopen. eapply rtc_l; [exact Hstep|]. by eapply open_session_steps.
Qed.

Lemma logout_steps fresh env actor s r s' :
  logout env actor s = (r, s') -> rtc (auth_step fresh) s s'.
Proof.
  unfold logout. destruct actor as [actor|]; [|by intros [= <- <-]].
  intros [= <- <-]. destruct (at_session_id actor); [|done].
  destruct (ae_revoke_fails env); [done|]. apply rtc_once, auth_revoke.
Qed.

Lemma reply_refreshed_store env config session next s : snd (reply_refreshed env config session next s) = s.
Proof.
  unfold reply_refreshed. destruct (find_user _ _); [|done].
  destruct (user_from_record _); [|done..]. by destruct (issue_access_token _ _ _ _).
Qed.

(** What a refresh that answers found and did. *)
Lemma refresh_answered env config request body s reply s' :
  refresh env config request body s = (Ok reply, s') ->
  exists raw id session expires_at rotated,
    presented_token request body = Some raw /\ parse_refresh_token raw = Some id /\
    get_session_by_id_and_hash id (hash_refresh_token raw) s = Some session /\
    ss_revoked_at session = None /\ ae_now env 0%nat < ss_expires_at session /\
    refresh_expires_at config (ae_now env 1%nat) = Some expires_at /\
    rotate_session_refresh_token id (hash_refresh_token raw)
      (rk_hash (issue_refresh_token id (ae_secret env))) expires_at (ae_db_now env)
      (ae_user_agent env) (ae_ip_address env) (ae_others env s) = (Some rotated, s') /\
    reply_refreshed env config rotated (issue_refresh_token id (ae_secret env)) s' = (Ok reply, s').
Proof.
  unfold refresh. destruct (presented_token request body) as [raw|]; [|discriminate].
  destruct (parse_refresh_token raw) as [id|] eqn:Hparse; [|discriminate].
  destruct (get_session_by_id_and_hash id _ s) as [session|] eqn:Hs; [|discriminate].
  case_bool_decide as Hrev; [|discriminate]. cbn [negb orb].
  destruct (Z.leb_spec (ss_expires_at session) (ae_now env 0%nat)) as [|Hexp]; [discriminate|].
  destruct (refresh_expires_at config _) as [expires_at|] eqn:He; [|discriminate].
  assert (ss_id session = id) as ->.
  { unfold get_session_by_id_and_hash in Hs. destruct (get_session_by_id id s) as [row|] eqn:Hrow; [|done].
    destruct (String.eqb _ _); [|done]. injection Hs as <-. by apply find_key_some in Hrow as [_ ?]. }
  destruct (rotate_session_refresh_token _ _ _ _ _ _ _ _) as [[rotated|] s1] eqn:Hrot; [|discriminate].
  intros Hreply. pose proof (reply_refreshed_store env config rotated
    (issue_refresh_token id (ae_secret env)) s1) as Hstore. rewrite Hreply in Hstore. cbn in Hstore.
  subst s1. exists raw, id, session, expires_at, rotated. done.
Qed.

Lemma refresh_steps fresh env config request body s r s' :
  others_are_steps fresh env ->
  (forall id, fresh (rk_hash (issue_refresh_token id (ae_secret env)))) ->
  refresh env config request body s = (r, s') -> rtc (auth_step fresh) s s'.
Proof.
  intros Hothers Hfresh. unfold refresh. destruct (presented_token request body) as [raw|]; [|by intros [= <- <-]].
  destruct (parse_refresh_token raw) as [id|]; [|by intros [= <- <-]].
  destruct (get_session_by_id_and_hash id _ s) as [session|]; [|by intros [= <- <-]].
  destruct (_ || _); [by intros [= <- <-]|].
  destruct (refresh_expires_at config _) as [expires_at|]; [|by intros [= <- <-]].
  destruct (rotate_session_refresh_token _ _ _ _ _ _ _ _) as [rotated s1] eqn:Hrot.
  assert (rtc (auth_step fresh) s s1) as Hsteps.
  { eapply rtc_r; [apply Hothers|]. eapply auth_rotate; [apply Hfresh|exact Hrot]. }
  destruct rotated as [rotated|]; [|by intros [= _ <-]].
  intros Hreply. pose proof (reply_refreshed_store env config rotated
    (issue_refresh_token (ss_id session) (ae_secret env)) s1) as Hstore.
  rewrite Hreply in Hstore. cbn in Hstore. by subst.
Qed.

(** A call of the API, other sessions interfering in its middle as they like. *)
Inductive auth_call : AuthStore -> AuthStore -> Prop :=
  | call_bootstrap env config r s s' : others_are_steps any_hash env ->
      bootstrap_owner env config s = (r, s') -> auth_call s s'
  | call_login env config email password r s s' :
      login env config email password s = (r, s') -> auth_call s s'
  | call_logout env actor r s s' : logout env actor s = (r, s') -> auth_call s s'
  | call_refresh env config request body r s s' : others_are_steps any_hash env ->
      refresh env config request body s = (r, s') -> auth_call s s'.

Lemma auth_call_steps s s' : auth_call s s' -> rtc (auth_step any_hash) s s'.
Proof.
  intros []; eauto using bootstrap_steps, logout_steps.
  - by eapply login_steps.
  - by eapply refresh_steps.
Qed.

Lemma auth_calls_history s s' : rtc auth_call s s' -> history s s'.
Proof.
  induction 1 as [|s s1 s' Hcall _ IH]; [done|]. transitivity s1; [|done].
  by eapply auth_steps_history, auth_call_steps.
Qed.

(** ** Sessions *)

(** What an authorised request shows. *)
Lemma authorized_session config now request s actor :
  cf_disabled config = false -> authorize_request config now request s = Ok (Some actor) ->
  exists token claims id session,
    bearer_token request = Some token /\ decode_access_token config now token = Some claims /\
    actor_from_claims claims = Some actor /\ at_session_id actor = Some id /\
    get_session_by_id id s = Some session /\ ss_revoked_at session = None /\
    now < ss_expires_at session /\
    permitted (route_access (aq_method request) (aq_path request) (cf_protect_metrics config))
      (at_role actor) = true.
Proof.
  intros Hen. unfold authorize_request. rewrite Hen. case_bool_decide; [discriminate|].
  destruct (bearer_token request) as [token|]; [|discriminate].
  destruct (decode_access_token config now token) as [claims|] eqn:Hclaims; [|discriminate].
  destruct (actor_from_claims claims) as [actor'|] eqn:Hactor; [|discriminate].
  destruct (at_session_id actor') as [id|] eqn:Hid; [|discriminate].
  destruct (get_session_by_id id s) as [session|] eqn:Hs; [|discriminate].
  case_bool_decide as Hrev; [|discriminate]. cbn [andb].
  destruct (Z.ltb_spec now (ss_expires_at session)); [|discriminate].
  destruct (permitted _ _) eqn:Hp; [|discriminate]. intros [= <-]. eauto 12.
Qed.

(** A logout says that it worked whether or not its statement did; when it did not, the
    session stays as it was. *)
Lemma failed_logout_says_ok env actor s :
  fst (logout env (Some actor) s) = Ok tt /\
  (ae_revoke_fails env = true -> snd (logout env (Some actor) s) = s).
Proof. split; [done|]. intros Hfails. cbn. by destruct (at_session_id actor); rewrite ?Hfails. Qed.

(** C23.  After a logout whose statement ran the session is over.  Whatever calls follow, of this
    session or of others and interleaved in any way, no request is ever let through as its actor
    again, and no refresh token of it is ever exchanged again, not even by a refresh that had
    already read the session when the logout came. *)
Theorem logout_is_final env actor s0 id session s s' :
  get_session_by_id id s0 = Some session -> at_session_id actor = Some id ->
  ae_revoke_fails env = false -> snd (logout env (Some actor) s0) = s -> rtc auth_call s s' ->
  (forall config now request actor', cf_disabled config = false ->
     authorize_request config now request s' = Ok (Some actor') -> at_session_id actor' <> Some id) /\
  (forall env' config request body reply s'' raw,
     presented_token request body = Some raw ->
     parse_refresh_token raw = Some id -> refresh env' config request body s' <> (Ok reply, s'')) /\
  (forall env' config request body reply s'' raw early,
     ae_others env' early = s' -> presented_token request body = Some raw ->
     parse_refresh_token raw = Some id -> refresh env' config request body early <> (Ok reply, s'')).
Proof.
  intros Hrow Hactor Hran <- Hcalls. unfold logout in Hcalls. rewrite Hactor, Hran in Hcalls. cbn in Hcalls.
  set (s := revoke_session id _ _ s0) in *.
  assert (exists row t, get_session_by_id id s = Some row /\ ss_revoked_at row = Some t) as (row & t & Hr & Ht).
  { unfold s, revoke_session, get_session_by_id in *. cbn [as_sessions set_sessions].
    rewrite find_key_rewrite, Hrow, Z.eqb_refl by done. cbn.
    destruct (ss_revoked_at session) as [t|] eqn:Hrev; eexists _, _; (split; [done|]); cbn; rewrite Hrev; done. }
  destruct (proj1 (auth_calls_history _ _ Hcalls) _ _ Hr) as (row' & Hr' & _ & _ & _ & Hrev').
  destruct (Hrev' _ Ht) as (Ht' & _ & _). split; [|split].
  - intros config now request actor' Hen Hok Hid.
    destruct (authorized_session _ _ _ _ _ Hen Hok) as (token & claims & id' & session' & _ & _ & _ & Hid' & Hs' & Hnone & _).
    congruence.
  - intros env' config request body reply s'' raw Hraw Hparse Hrefresh.
    destruct (refresh_answered _ _ _ _ _ _ _ Hrefresh) as (raw' & id' & session' & e & rot & Hraw' & Hparse' & Hs & Hnone & _).
    assert (id' = id) as -> by congruence.
    unfold get_session_by_id_and_hash in Hs. rewrite Hr' in Hs. destruct (String.eqb _ _); [|done]. congruence.
  - intros env' config request body reply s'' raw early Hoth Hraw Hparse Hrefresh.
    destruct (refresh_answered _ _ _ _ _ _ _ Hrefresh) as (raw' & id' & session' & e & rot & Hraw' & Hparse' & _ & _ & _ & _ & Hrot & _).
    assert (id' = id) as -> by congruence. rewrite Hoth in Hrot.
    unfold rotate_session_refresh_token, get_session_by_id_and_hash in Hrot. rewrite Hr' in Hrot.
    destruct (String.eqb _ _); [|done]. rewrite Ht' in Hrot. done.
Qed.

(** The refresh-token hash of a session is one of those that were stored. *)
Lemma hash_from_steps fresh s s' id row' :
  rtc (auth_step fresh) s s' -> get_session_by_id id s' = Some row' ->
  fresh (ss_refresh_token_hash row') \/
  exists row, get_session_by_id id s = Some row /\ ss_refresh_token_hash row = ss_refresh_token_hash row'.
Proof.
  intros Hsteps. revert row'. induction Hsteps as [|s s1 s' Hstep _ IH]; intros row' Hrow'; [by eauto|].
  destruct (IH _ Hrow') as [Hfresh|(row1 & Hrow1 & <-)]; [by left|]. clear IH Hrow' row'.
  destruct Hstep as [uid email password_hash role status db_now row s1 s2 Hins
         |uid logged_in_at db_now row s1 s2 Hup
         |sid user_id hash expires_at user_agent ip_address db_now s1 s2 Hf Hins
         |sid current next expires_at db_now user_agent ip_address row s1 s2 Hf Hrot
         |sid revoked_at db_now s1].
  - unfold insert_user in Hins. destruct (existsb _ _); [done|]. injection Hins as _ <-. eauto.
  - unfold update_user_last_login in Hup. destruct (find_user uid s1); [|done]. injection Hup as _ <-. eauto.
  - unfold insert_session in Hins. destruct (existsb _ _); [done|].
    destruct (find_user user_id s1); [|done]. injection Hins as <-.
    unfold get_session_by_id in *. cbn [as_sessions] in Hrow1. rewrite find_key_app in Hrow1.
    destruct (find_key ss_id id (as_sessions s1)) as [row|]; [right; exists row; split; congruence|].
    destruct (_ =? id); [|done]. injection Hrow1 as <-. by left.
  - unfold rotate_session_refresh_token in Hrot.
    destruct (get_session_by_id_and_hash sid current s1) as [row2|]; [|injection Hrot as _ <-; eauto].
    destruct (ss_revoked_at row2); injection Hrot as _ <-; [eauto|].
    unfold get_session_by_id, set_sessions in *. cbn [as_sessions] in Hrow1.
    rewrite find_key_rewrite in Hrow1 by done.
    destruct (find_key ss_id id (as_sessions s1)) as [row3|]; [|done]. cbn in Hrow1.
    injection Hrow1 as <-. destruct (id =? sid); [by left|eauto].
  - unfold revoke_session, get_session_by_id, set_sessions in *. cbn [as_sessions] in Hrow1.
    rewrite find_key_rewrite in Hrow1 by done.
    destruct (find_key ss_id id (as_sessions s1)) as [row3|]; [|done]. cbn in Hrow1.
    injection Hrow1 as <-. right. exists row3. split; [done|]. by destruct (id =? sid).
Qed.

(** C22.  A refresh token works once.  A refresh that answers was given the current token of a session
    that is not revoked and has not expired, and that token was still the current one when it
    was replaced, whatever other sessions did in between.  The session is then the new token's
    and expires a refresh period later; and the old token is refused for as long as no token with
    the same hash is issued, in whatever order further statements come. *)
Theorem refresh_token_works_once env config request body s reply s' :
  refresh env config request body s = (Ok reply, s') ->
  exists raw id session current session',
    presented_token request body = Some raw /\ parse_refresh_token raw = Some id /\
    get_session_by_id id s = Some session /\ ss_revoked_at session = None /\
    ss_refresh_token_hash session = hash_refresh_token raw /\
    ae_now env 0%nat < ss_expires_at session /\
    get_session_by_id id (ae_others env s) = Some current /\ ss_revoked_at current = None /\
    ss_refresh_token_hash current = hash_refresh_token raw /\
    get_session_by_id id s' = Some session' /\
    ss_refresh_token_hash session' = hash_refresh_token (rp_cookie reply) /\
    Some (ss_expires_at session') = refresh_expires_at config (ae_now env 1%nat) /\
    forall s'' env' config' request' body' reply' s3,
      hash_refresh_token (rp_cookie reply) <> hash_refresh_token raw ->
      rtc (auth_step (fun hash => hash <> hash_refresh_token raw)) s' s'' ->
      presented_token request' body' = Some raw ->
      refresh env' config' request' body' s'' <> (Ok reply', s3).
Proof.
  intros Hrefresh. destruct (refresh_answered _ _ _ _ _ _ _ Hrefresh)
    as (raw & id & session & expires_at & rotated & Hraw & Hparse & Hs & Hnone & Hexp & He & Hrot & Hreply).
  unfold get_session_by_id_and_hash in Hs. destruct (get_session_by_id id s) as [row|] eqn:Hrow; [|done].
  destruct (String.eqb_spec (ss_refresh_token_hash row) (hash_refresh_token raw)) as [Hh|]; [|done].
  injection Hs as ->. unfold rotate_session_refresh_token, get_session_by_id_and_hash in Hrot.
  destruct (get_session_by_id id (ae_others env s)) as [current|] eqn:Hcur; [|done].
  destruct (String.eqb_spec (ss_refresh_token_hash current) (hash_refresh_token raw)) as [Hh'|]; [|done].
  destruct (ss_revoked_at current) eqn:Hrev; [done|]. injection Hrot as <- <-.
  set (change := rotated_session _ _ _ _ _) in *.
  assert (hash_refresh_token (rp_cookie reply) = rk_hash (issue_refresh_token id (ae_secret env))) as Hnew.
  { unfold reply_refreshed in Hreply. destruct (find_user _ _); [|done].
    destruct (user_from_record _); [|done..]. destruct (issue_access_token _ _ _ _); [|done..].
    by injection Hreply as <-. }
  assert (get_session_by_id id (set_sessions (rewrite_key ss_id id change (as_sessions (ae_others env s)))
    (ae_others env s)) = Some (change current)) as Hafter.
  { unfold get_session_by_id in *. cbn [as_sessions set_sessions].
    rewrite find_key_rewrite, Hcur, Z.eqb_refl by done. done. }
  exists raw, id, session, current, (change current). do 10 (split; [done|]). split; [by rewrite Hnew|].
  split; [done|]. intros s'' env' config' request' body' reply' s3 Hne Hsteps Hraw' Hagain.
  destruct (refresh_answered _ _ _ _ _ _ _ Hagain) as (raw2 & id2 & session2 & e2 & rot2 & Hraw2 & Hparse2 & Hs2 & _).
  assert (raw2 = raw) as -> by congruence. assert (id2 = id) as -> by congruence.
  unfold get_session_by_id_and_hash in Hs2.
  destruct (get_session_by_id id s'') as [row2|] eqn:Hrow2; [|done].
  destruct (String.eqb_spec (ss_refresh_token_hash row2) (hash_refresh_token raw)) as [Hh2|]; [|done].
  destruct (hash_from_steps _ _ _ _ _ Hsteps Hrow2) as [Hf|(row3 & Hrow3 & Hh3)]; [done|].
  rewrite Hafter in Hrow3. injection Hrow3 as <-.
  apply Hne. rewrite Hnew, <- Hh2, <- Hh3. done.
Qed.

(** ** Requests *)

Lemma strip_prefix_app start value : strip_prefix start (start +:+ value) = Some value.
Proof.
  induction start as [|c start IH]; [done|].
  change (String c start +:+ value) with (String c (start +:+ value)). cbn [strip_prefix].
  by rewrite Ascii.eqb_refl.
Qed.

(** The paths that are public with POST, and those that any session may POST to. *)
Definition public_posts : list string := ["/auth/login"; "/auth/bootstrap-owner"; "/auth/refresh"].
Definition viewer_posts : list string :=
  ["/reports/operator/daily"; "/market/candles/repair/plan"; "/research/stale-runs/recover-preview";
   "/research/candidates/import-bundle/preview"].

Lemma in_texts value texts : existsb (String.eqb value) texts = true <-> In value texts.
Proof.
  rewrite existsb_exists. split.
  - intros (text & Hin & ->%String.eqb_eq). done.
  - intros Hin. exists value. split; [done|apply String.eqb_refl].
Qed.

(** Follow the guards of [route_access] one by one, closing the branches with [tac]. *)
Ltac follow_guards tac :=
  repeat match goal with
  | |- (if ?guard then _ else _) = _ -> _ => destruct guard eqn:?; [tac|]
  end.

Lemma route_access_public method path protect_metrics :
  route_access method path protect_metrics = RouteAccess.Public <->
  (method = "GET" /\ path = "/system/health") \/
  (method = "POST" /\ In path public_posts) \/
  (method = "GET" /\ path = "/metrics" /\ protect_metrics = false).
Proof.
  split.
  - unfold route_access. fold public_posts. follow_guards ltac:(first [discriminate | idtac]).
    1: intros _; left.
    2: intros _; right; left.
    3: intros _; right; right.
    4: discriminate.
    all: repeat match goal with
      | H : _ && _ = true |- _ => apply andb_true_iff in H as [H ?]
      | H : String.eqb _ _ = true |- _ => apply String.eqb_eq in H as ->
      | H : negb _ = true |- _ => apply negb_true_iff in H
      | H : existsb _ _ = true |- _ => apply in_texts in H
      end; done.
  - intros [[-> ->]|[[-> Hin]|(-> & -> & ->)]]; [reflexivity| |reflexivity].
    cbn in Hin. repeat destruct Hin as [<-|Hin]; [vm_compute; reflexivity..|done].
Qed.

Lemma route_access_authenticated method path protect_metrics : method <> "GET" ->
  route_access method path protect_metrics = RouteAccess.Authenticated <->
  method = "POST" /\ In path viewer_posts.
Proof.
  intros Hget%String.eqb_neq. split.
  - unfold route_access. destruct (String.eqb method "GET"); [discriminate|].
    follow_guards ltac:(first [discriminate | idtac]).
    all: try discriminate; intros _.
    all: repeat match goal with
      | H : _ && _ = true |- _ => apply andb_true_iff in H as [H ?]
      | H : String.eqb _ _ = true |- _ => apply String.eqb_eq in H as ->
      end; split; [done|]; cbn; tauto.
  - intros [-> Hin]. cbn in Hin. repeat destruct Hin as [<-|Hin]; [vm_compute; reflexivity..|done].
Qed.

(** C19.  Who gets through when authentication is on.  On a route that is not public exactly the bearer
    of an access token that can be decoded, whose session is stored, not revoked and not expired,
    and whose role reaches the level of the route; everybody else is answered 401, or 403 with a
    live session whose role is too low.  Nobody but an operator or the owner gets through with a
    method other than GET, except to the four reports and previews of [viewer_posts]; so a viewer
    cannot log out. *)
Theorem request_authorized_iff config now request s :
  cf_disabled config = false ->
  let access := route_access (aq_method request) (aq_path request) (cf_protect_metrics config) in
  (authorize_request config now request s = Ok None <-> access = RouteAccess.Public) /\
  (forall actor, authorize_request config now request s = Ok (Some actor) <->
     access <> RouteAccess.Public /\
     exists token claims id session,
       bearer_token request = Some token /\ decode_access_token config now token = Some claims /\
       actor_from_claims claims = Some actor /\ at_session_id actor = Some id /\
       get_session_by_id id s = Some session /\ ss_revoked_at session = None /\
       now < ss_expires_at session /\ permitted access (at_role actor) = true) /\
  (forall e, authorize_request config now request s = Err e -> ax_status e = 401 \/ ax_status e = 403) /\
  (forall actor, aq_method request <> "GET" -> ~ In (aq_path request) viewer_posts ->
     authorize_request config now request s = Ok (Some actor) -> at_role actor <> UserRole.Viewer) /\
  (aq_method request = "POST" -> aq_path request = "/auth/logout" ->
   forall actor, authorize_request config now request s = Ok (Some actor) ->
     at_role actor <> UserRole.Viewer).
Proof.
  intros Hen access.
  assert (forall actor, aq_method request <> "GET" -> ~ In (aq_path request) viewer_posts ->
    authorize_request config now request s = Ok (Some actor) -> at_role actor <> UserRole.Viewer) as Hviewer.
  { intros actor Hget Hout Hok Hrole.
    destruct (authorized_session _ _ _ _ _ Hen Hok) as (_ & _ & _ & _ & _ & _ & _ & _ & _ & _ & _ & Hp).
    rewrite Hrole in Hp. fold access in Hp. destruct access eqn:Ha; try discriminate Hp.
    - unfold authorize_request in Hok. rewrite Hen in Hok. fold access in Hok. by rewrite Ha in Hok.
    - apply route_access_authenticated in Ha as [_ Hin]; [done|exact Hget]. }
  split; [|split; [|split; [|split; [exact Hviewer|]]]].
  - unfold authorize_request. fold access. rewrite Hen. case_bool_decide; [done|].
    split; [|done]. intros Hok. exfalso. repeat case_match; discriminate.
  - intros actor. split.
    + intros Hok. pose proof (authorized_session _ _ _ _ _ Hen Hok) as Hsession. split; [|exact Hsession].
      intros Hpub. unfold authorize_request in Hok. fold access in Hok. by rewrite Hen, Hpub in Hok.
    + intros (Hpub & token & claims & id & session & Ht & Hc & Ha & Hid & Hs & Hrev & Hexp & Hp).
      unfold authorize_request. fold access. rewrite Hen, bool_decide_false, Ht, Hc, Ha, Hid, Hs by done.
      by rewrite bool_decide_true, (proj2 (Z.ltb_lt _ _) Hexp), Hp by done.
  - intros e. unfold authorize_request. rewrite Hen.
    repeat case_match; try discriminate; intros [= <-]; auto.
  - intros Hm Hpath actor. apply Hviewer; [by rewrite Hm|]. rewrite Hpath. cbn. intuition discriminate.
Qed.

(** ** Login *)

Lemma no_session id (rows : list SessionRecord) :
  existsb (fun row => ss_id row =? id) rows = false -> find_key ss_id id rows = None.
Proof.
  unfold find_key. induction rows as [|row rows IH]; [done|]. cbn.
  destruct (ss_id row =? id); [done|]. exact IH.
Qed.

Lemma inserted_session id user_id hash expires_at user_agent ip_address db_now s s' :
  insert_session id user_id hash expires_at user_agent ip_address db_now s = Some s' ->
  exists session, get_session_by_id id s' = Some session /\ ss_user_id session = user_id /\
    ss_refresh_token_hash session = hash /\ ss_expires_at session = expires_at /\
    ss_revoked_at session = None.
Proof.
  unfold insert_session. destruct (existsb _ _) eqn:Hnone; [done|]. destruct (find_user _ _); [|done].
  intros [= <-]. unfold get_session_by_id. cbn [as_sessions].
  rewrite find_key_app, (no_session _ _ Hnone). cbn. rewrite Z.eqb_refl. by eexists.
Qed.

Lemma find_key_in {A} (key : A -> Z) rows row :
  NoDup (map key rows) -> In row rows -> find_key key (key row) rows = Some row.
Proof.
  intros Hnd Hin. destruct (find_key key (key row) rows) as [row'|] eqn:Hrow.
  - apply find_key_some in Hrow as [Hin' Hkey]. f_equal. by apply (NoDup_map_inj key rows).
  - apply find_key_none in Hrow. destruct Hrow. by apply in_map.
Qed.

Lemma user_from_record_spec record user : user_from_record record = Ok user ->
  us_id user = ur_id record /\ us_email user = ur_email record /\
  from_str (ur_role record) = Ok (us_role user) /\ from_str (ur_status record) = Ok (us_status user).
Proof.
  unfold user_from_record, mbind, res_bind. destruct (from_str (ur_role record)); [|discriminate..].
  destruct (from_str (ur_status record)); [|discriminate..]. by intros [= <-].
Qed.

Lemma logged_in_user logged_in_at db_now record user : user_from_record record = Ok user ->
  exists user', user_from_record (logged_in logged_in_at db_now record) = Ok user' /\
    us_id user' = us_id user /\ us_role user' = us_role user /\ us_email user' = us_email user.
Proof.
  unfold user_from_record. cbn [logged_in ur_role ur_status].
  destruct (from_str (ur_role record)); [|discriminate..]. cbn.
  destruct (from_str (ur_status record)); [|discriminate..]. intros [= <-]. by eexists.
Qed.

Lemma login_answered env config email password s reply s' :
  NoDup (map ur_id (as_users s)) ->
  login env config email password s = (Ok reply, s') ->
  exists record user user' s1,
    get_user_by_email (to_ascii_lowercase (trim email)) s = Some record /\
    user_from_record record = Ok user /\ us_status user = UserStatus.Active /\
    verify_password password (ur_password_hash record) = Some true /\
    us_id user = ur_id record /\
    us_id user' = us_id user /\ us_role user' = us_role user /\ us_email user' = us_email user /\
    open_session env config user' s1 = (Ok reply, s').
Proof.
  intros Hnd. unfold login. destruct (get_user_by_email _ _) as [record|] eqn:Hrec; [|discriminate].
  destruct (user_from_record record) as [user| |] eqn:Hu; [|discriminate..].
  destruct (verify_password _ _) as [[]|] eqn:Hv; cbn [default from_option negb orb]; try discriminate.
  case_bool_decide as Hact; [|discriminate]. cbn [negb].
  destruct (user_from_record_spec _ _ Hu) as (Hid & _).
  unfold update_user_last_login, find_user. rewrite Hid.
  pose proof (List.find_some _ _ Hrec) as [Hin _]. rewrite (find_key_in ur_id _ _ Hnd Hin).
  destruct (logged_in_user (ae_now env 0%nat) (ae_db_now env) _ _ Hu) as (user' & -> & H1 & H2 & H3).
  intros Hopen. eexists record, user, user', _. repeat (split; [eassumption || reflexivity|]). exact Hopen.
Qed.

Section Laws.
Context {AUL : AuthLibLaws AL} {CAL : ChronoArithLaws CA}.

(** An access token that was issued decodes to the actor it was issued for. *)
Lemma issued_actor config user session_id issued access now {A} (k : AuthenticatedActor -> A) (e1 e2 : A) :
  issue_access_token config user session_id issued = Ok access ->
  timestamp now < timestamp (it_expires_at access) ->
  0 <= us_id user < 2 ^ 128 -> 0 <= session_id < 2 ^ 128 ->
  match decode_access_token config now (it_token access) with
  | None => e1
  | Some claims => match actor_from_claims claims with None => e2 | Some actor => k actor end
  end =
  k {| at_user_id := us_id user; at_email := us_email user; at_role := us_role user;
       at_session_id := Some session_id |}.
Proof.
  unfold issue_access_token, decode_access_token.
  destruct (try_seconds _); [|done]. destruct (checked_add _ _) as [expires_at|]; [|done].
  destruct (cf_jwt_secret config) as [secret|]; [|done].
  destruct (jwt_encode secret _) as [token|] eqn:Htok; [|done]. intros [= <-] Htime Huser Hsid.
  cbn [it_token it_expires_at] in *.
  rewrite (jwt_decode_encode _ _ _ _ Htok Htime). unfold actor_from_claims. cbn.
  by rewrite !uuid_parse_show.
Qed.

(** C21.  A login that answers was made with the password of an active user, and opens a session of
    that user.  Until the session or the token expires, the access token lets its bearer through
    on every route that the user's role reaches (and on no other), and the refresh token of the
    cookie is the current one of the session. *)
Theorem login_opens_session env config email password s reply s' :
  cf_disabled config = false -> NoDup (map ur_id (as_users s)) ->
  (forall user, In user (as_users s) -> 0 <= ur_id user < 2 ^ 128) -> 0 <= ae_session_id env < 2 ^ 128 ->
  login env config email password s = (Ok reply, s') ->
  exists record session,
    get_user_by_email (to_ascii_lowercase (trim email)) s = Some record /\
    verify_password password (ur_password_hash record) = Some true /\
    from_str (ur_status record) = Ok UserStatus.Active /\
    from_str (ur_role record) = Ok (us_role (rp_user reply)) /\ us_id (rp_user reply) = ur_id record /\
    parse_refresh_token (rp_cookie reply) = Some (ae_session_id env) /\
    get_session_by_id_and_hash (ae_session_id env) (hash_refresh_token (rp_cookie reply)) s' = Some session /\
    ss_user_id session = ur_id record /\ ss_revoked_at session = None /\
    Some (ss_expires_at session) = refresh_expires_at config (ae_now env 1%nat) /\
    forall now request,
      aq_authorization request = Some ("Bearer " +:+ rp_access_token reply) ->
      timestamp now < timestamp (rp_expires_at reply) -> now < ss_expires_at session ->
      let access := route_access (aq_method request) (aq_path request) (cf_protect_metrics config) in
      access <> RouteAccess.Public ->
      authorize_request config now request s' =
        if permitted access (us_role (rp_user reply))
        then Ok (Some {| at_user_id := ur_id record; at_email := us_email (rp_user reply);
                         at_role := us_role (rp_user reply); at_session_id := Some (ae_session_id env) |})
        else Err {| ax_status := 403; ax_code := "forbidden" |}.
Proof.
  intros Hen Hnd Hids Hsid Hlogin.
  destruct (login_answered _ _ _ _ _ _ _ Hnd Hlogin)
    as (record & user & user' & s1 & Hrec & Hu & Hact & Hv & Hid & Hid' & Hrole & _ & Hopen).
  assert (0 <= ur_id record < 2 ^ 128) as Huid by (apply Hids; by apply List.find_some in Hrec as [? _]).
  unfold open_session in Hopen. destruct (refresh_expires_at config (ae_now env 1%nat)) as [expires_at|]; [|done].
  destruct (insert_session _ _ _ _ _ _ _ _) as [s2|] eqn:Hins; [|done].
  destruct (issue_access_token config user' _ _) as [access| |] eqn:Htok; [|done..].
  injection Hopen as <- <-.
  destruct (inserted_session _ _ _ _ _ _ _ _ _ Hins) as (session & Hs & Huser & Hhash & Hexp & Hrev).
  exists record, session. cbn [rp_user rp_cookie rp_access_token rp_expires_at token_reply].
  destruct (user_from_record_spec _ _ Hu) as (_ & _ & Hr & Hst). rewrite Hact in Hst.
  do 3 (split; [done|]). split; [by rewrite Hrole|]. split; [congruence|]. split.
  { unfold parse_refresh_token. cbn [issue_refresh_token rk_raw]. rewrite uuid_show_no_dot.
    by apply uuid_parse_show. }
  split; [unfold get_session_by_id_and_hash; rewrite Hs; by rewrite Hhash, String.eqb_refl|].
  split; [congruence|]. split; [done|]. split; [congruence|].
  intros now request Hauth Htime Hlive Hpub. unfold authorize_request.
  rewrite Hen, bool_decide_false by done. unfold bearer_token. rewrite Hauth, strip_prefix_app.
  rewrite (issued_actor _ _ _ _ _ _ _ _ _ Htok Htime); [|by rewrite Hid', Hid|done].
  cbn [at_session_id at_role]. rewrite Hs, bool_decide_true, (proj2 (Z.ltb_lt _ _) Hlive) by done. cbn [andb].
  by rewrite Hid', Hid.
Qed.
End Laws.
End Auth.

Module SessionSample.
#[local] Existing Instance PlainChrono.
#[local] Existing Instance PlainArith.
#[local] Existing Instance PlainArithLaws.
#[local] Existing Instance PlainSeconds.

(** Values as texts of binary digits, which can be read back. *)
Fixpoint bits (p : positive) : string :=
  match p with
  | xH => EmptyString
  | xO p => String "0" (bits p)
  | xI p => String "1" (bits p)
  end.

Fixpoint of_bits (s : string) : option positive :=
  match s with
  | EmptyString => Some xH
  | String c s =>
      if Ascii.eqb c "0" then option_map xO (of_bits s)
      else if Ascii.eqb c "1" then option_map xI (of_bits s) else None
  end.

Definition text_of {A} `{Countable A} (x : A) : string := bits (encode x).
Definition read_text {A} `{Countable A} (s : string) : option A :=
  match of_bits s with Some p => decode p | None => None end.

Lemma of_bits_bits p : of_bits (bits p) = Some p.
Proof. induction p as [p IH|p IH|]; cbn; [by rewrite IH..|done]. Qed.

Lemma read_text_of {A} `{Countable A} (x : A) : read_text (text_of x) = Some x.
Proof. unfold read_text, text_of. by rewrite of_bits_bits, decode_encode. Qed.

Lemma split_bits p rest : split_once "." (bits p +:+ "." +:+ rest) = Some (bits p, rest).
Proof.
  induction p as [p IH|p IH|]; [| |done]; cbn [bits];
    change (String ?c ?s +:+ ?t) with (String c (s +:+ t)); cbn [split_once];
    rewrite IH; done.
Qed.

Definition role_of (name : string) : UserRole.t :=
  match from_str (A := UserRole.t) name with Ok role => role | _ => UserRole.Viewer end.

Definition fields (claims : AccessTokenClaims) : string * string * string * string * Z * Z :=
  (ac_sub claims, ac_email claims, UserRole.as_str (ac_role claims), ac_session_id claims,
   ac_exp claims, ac_iat claims).

Definition of_fields (f : string * string * string * string * Z * Z) : AccessTokenClaims :=
  let '(sub, email, role, session_id, exp, iat) := f in
  {| ac_sub := sub; ac_email := email; ac_role := role_of role; ac_session_id := session_id;
     ac_exp := exp; ac_iat := iat |}.

Lemma of_fields_fields claims : of_fields (fields claims) = claims.
Proof. destruct claims as [sub email [] session_id exp iat]; reflexivity. Qed.

#[local] Instance BitsUuid : UuidText := {| uuid_show := text_of |}.

#[local] Instance BitsAuth : AuthLib := {|
  argon2_hash salt password := Some (text_of (salt, password));
  argon2_verify password hash :=
    match read_text (A := string * string) hash with
    | Some (_, stored) => Some (String.eqb password stored)
    | None => None
    end;
  sha256 token := map (fun c => Z.of_nat (nat_of_ascii c)) (list_ascii_of_string token);
  jwt_encode secret claims := Some (text_of (secret, fields claims));
  jwt_decode secret now token :=
    match read_text (A := string * (string * string * string * string * Z * Z)) token with
    | Some (key, f) =>
        if String.eqb key secret && (now - 60 <=? ac_exp (of_fields f)) then Some (of_fields f) else None
    | None => None
    end;
  uuid_parse := read_text;
  pg_lower := to_ascii_lowercase
|}.

#[local] Instance BitsAuthLaws : AuthLibLaws BitsAuth.
Proof.
  split; cbn -[text_of read_text].
  - intros id _. apply read_text_of.
  - intros id rest. apply split_bits.
  - intros secret claims token now [= <-] Hexp.
    rewrite read_text_of, of_fields_fields, String.eqb_refl.
    rewrite (proj2 (Z.leb_le _ _)); [done|lia].
  - intros salt password hash [= <-]. rewrite read_text_of. by rewrite String.eqb_refl.
Qed.

Definition config : AuthConfig := {|
  cf_disabled := false; cf_jwt_secret := Some "key"; cf_access_token_ttl := 900;
  cf_refresh_token_ttl := 86400; cf_cookie_secure := false; cf_protect_metrics := true;
  cf_bootstrap_owner_email := Some "owner@example.com";
  cf_bootstrap_owner_password := Some "correct horse battery" |}.

Definition env (at_ session_id : Z) (secret : list Z) (others : AuthStore -> AuthStore) : AuthEnv := {|
  ae_now _ := seconds at_; ae_db_now := seconds at_; ae_user_id := 7; ae_session_id := session_id;
  ae_secret := secret; ae_salt := "salt"; ae_user_agent := None; ae_ip_address := None;
  ae_cli_auth := true; ae_revoke_fails := false; ae_others := others |}.

Definition no_users : AuthStore := {| as_users := []; as_sessions := [] |}.
Definition owned : AuthStore := snd (bootstrap_owner (env 1 0 [] id) config no_users).

(** The users with another role or status, which only the database can give them. *)
Definition with_user (role : UserRole.t) (status : UserStatus.t) (s : AuthStore) : AuthStore := {|
  as_users := map (fun row => {| ur_id := ur_id row; ur_email := ur_email row;
    ur_password_hash := ur_password_hash row; ur_role := UserRole.as_str role;
    ur_status := UserStatus.as_str status; ur_created_at := ur_created_at row;
    ur_updated_at := ur_updated_at row; ur_last_login_at := ur_last_login_at row |}) (as_users s);
  as_sessions := as_sessions s |}.

Definition logging_in (s : AuthStore) : res AuthError AuthReply * AuthStore :=
  login (env 10 42 [161] id) config " Owner@Example.com" "correct horse battery" s.

Definition call (method path : string) (reply : res AuthError AuthReply) : AuthRequest := {|
  aq_method := method; aq_path := path;
  aq_authorization := match reply with Ok reply => Some ("Bearer " +:+ rp_access_token reply) | _ => None end;
  aq_cookie := match reply with
               | Ok reply => Some ("theme=dark; " +:+ REFRESH_COOKIE_NAME +:+ "=" +:+ rp_cookie reply)
               | _ => None
               end |}.

Definition answer {A} (m : res AuthError A) : Z :=
  match m with Ok _ => 200 | Err e => ax_status e | Panic => 500 end.

(** What the owner's session may do, and for how long: a token is accepted for a minute (the
    leeway of the library) after it expires. *)
Example owner_session :
  let '(reply, s) := logging_in owned in
  let ask now method path := answer (authorize_request config (seconds now) (call method path reply) s) in
  [ask 20 "POST" "/risk/resume"; ask 970 "GET" "/auth/me"; ask 971 "GET" "/auth/me"] = [200; 200; 401].
Proof. vm_compute. reflexivity. Qed.

(** A viewer can read, and cannot log out. *)
Example viewer_cannot_log_out :
  let '(reply, s) := logging_in (with_user UserRole.Viewer UserStatus.Active owned) in
  let ask method path := answer (authorize_request config (seconds 20) (call method path reply) s) in
  [ask "GET" "/auth/me"; ask "POST" "/market/candles/repair/plan"; ask "POST" "/auth/logout"] = [200; 200; 403].
Proof. vm_compute. reflexivity. Qed.

(** A user who is disabled after the login cannot log in, and can refresh. *)
Example disabled_user_can_refresh :
  let '(reply, s) := logging_in owned in
  let s := with_user UserRole.Owner UserStatus.Disabled s in
  let refreshed := refresh (env 500 0 [178] id) config (call "POST" "/auth/refresh" reply) None s in
  [answer (fst (logging_in s)); answer (fst refreshed);
   answer (authorize_request config (seconds 600) (call "POST" "/risk/resume" (fst refreshed)) (snd refreshed))]
  = [401; 200; 200].
Proof. vm_compute. reflexivity. Qed.

Definition actor : AuthenticatedActor := {|
  at_user_id := 7; at_email := "owner@example.com"; at_role := UserRole.Owner; at_session_id := Some 42 |}.

Lemma logs_in : exists reply s, logging_in owned = (Ok reply, s).
Proof.
  assert (match fst (logging_in owned) with Ok _ => true | _ => false end = true) as H
    by (vm_compute; reflexivity).
  destruct (logging_in owned) as [[reply| |] s]; [eauto|discriminate..].
Qed.

Definition refreshing (s : AuthStore) (reply : AuthReply) : res AuthError AuthReply * AuthStore :=
  refresh (env 500 0 [178] id) config (call "POST" "/auth/refresh" (Ok reply)) None s.

Lemma refreshes : exists reply s reply' s',
  logging_in owned = (Ok reply, s) /\ refreshing s reply = (Ok reply', s').
Proof.
  assert (match logging_in owned with
          | (Ok reply, s) => match fst (refreshing s reply) with Ok _ => true | _ => false end
          | _ => false
          end = true) as H by (vm_compute; reflexivity).
  destruct (logging_in owned) as [[reply| |] s]; [|discriminate..]. exists reply, s.
  destruct (refreshing s reply) as [[reply'| |] s']; [eauto|discriminate..].
Qed.

Example logout_is_final_witness :
  let s := snd (logout (env 20 0 [] id) (Some actor) (snd (logging_in owned))) in
  at_session_id actor = Some 42 /\
  forall now request actor', authorize_request config now request s = Ok (Some actor') ->
    at_session_id actor' <> Some 42.
Proof.
  intros s. split; [reflexivity|]. intros now request actor'.
  assert (match get_session_by_id 42 (snd (logging_in owned)) with Some _ => true | None => false end = true)
    as Hsome by (vm_compute; reflexivity).
  destruct (get_session_by_id 42 (snd (logging_in owned))) as [session|] eqn:Hsession; [|discriminate].
  exact (proj1 (logout_is_final (env 20 0 [] id) actor _ 42 session s s Hsession eq_refl eq_refl eq_refl (rtc_refl _ _))
    config now request actor' eq_refl).
Defined.

Example refresh_token_works_once_witness :
  exists reply s reply' s' raw,
    refreshing s reply = (Ok reply', s') /\
    presented_token (call "POST" "/auth/refresh" (Ok reply)) None = Some raw /\
    (hash_refresh_token (rp_cookie reply') <> hash_refresh_token raw ->
     forall reply2 s2, refreshing s' reply <> (Ok reply2, s2)).
Proof.
  destruct refreshes as (reply & s & reply' & s' & _ & Hrefresh).
  destruct (refresh_token_works_once _ _ _ _ _ _ _ Hrefresh)
    as (raw & id & session & current & session' & Hraw & _ & _ & _ & _ & _ & _ & _ & _ & _ & _ & _ & Honce).
  exists reply, s, reply', s', raw. split; [exact Hrefresh|]. split; [exact Hraw|].
  intros Hne reply2 s2. exact (Honce s' _ _ _ _ reply2 s2 Hne (rtc_refl _ _) Hraw).
Defined.

Example request_authorized_iff_witness :
  exists reply s, logging_in owned = (Ok reply, s) /\
    exists actor', authorize_request config (seconds 20) (call "POST" "/auth/logout" (Ok reply)) s =
        Ok (Some actor') /\ at_role actor' <> UserRole.Viewer.
Proof.
  destruct logs_in as (reply & s & Hlogin). exists reply, s. split; [exact Hlogin|].
  assert (match logging_in owned with
          | (Ok reply, s) => match authorize_request config (seconds 20)
                                   (call "POST" "/auth/logout" (Ok reply)) s with
                             | Ok (Some _) => true | _ => false end
          | _ => false end = true) as H by (vm_compute; reflexivity).
  rewrite Hlogin in H.
  destruct (authorize_request _ _ _ s) as [[actor'|]| |] eqn:Hauth; [|discriminate..].
  exists actor'. split; [reflexivity|].
  exact (proj2 (proj2 (proj2 (proj2 (request_authorized_iff config (seconds 20)
    (call "POST" "/auth/logout" (Ok reply)) s eq_refl)))) eq_refl eq_refl actor' Hauth).
Defined.

Example login_opens_session_witness :
  exists reply s, logging_in owned = (Ok reply, s) /\
    parse_refresh_token (rp_cookie reply) = Some 42 /\ us_id (rp_user reply) = 7.
Proof.
  destruct logs_in as (reply & s & Hlogin). exists reply, s. split; [exact Hlogin|].
  destruct (login_opens_session (env 10 42 [161] id) config " Owner@Example.com" "correct horse battery"
    owned reply s) as (record & session & Hrecord & _ & _ & _ & Hid & Hparse & _).
  - reflexivity.
  - apply (bool_decide_unpack _). vm_compute. exact I.
  - intros user Hin. vm_compute in Hin. destruct Hin as [<-|[]]. vm_compute. split; [discriminate|reflexivity].
  - vm_compute. split; [discriminate|reflexivity].
  - exact Hlogin.
  - split; [exact Hparse|]. rewrite Hid.
    assert (option_map ur_id (get_user_by_email (to_ascii_lowercase (trim " Owner@Example.com")) owned) = Some 7)
      as H7 by (vm_compute; reflexivity).
    rewrite Hrecord in H7. injection H7 as H7. exact H7.
Defined.
End SessionSample.
